(* ===== verification/_CoqProject ===== *)
-Q . S2P
Prelude.v
NonceWindow.v
Ring.v
RxQueue.v
Hal.v
TxQueue.v
Span.v
Proto.v
Session.v
World.v
Reply.v
Gate.v
Dispatch.v
ConfigTlv.v
Config.v
ConfigAsm.v
ConfigStore.v
ConfigRead.v
Color.v
Pump.v
PipeState.v
XferState.v
Xfer.v
XferDirect.v
XferPartial.v
Pipe.v
Transfer.v
TransferCmds.v
TransferSession.v
PipeWindow.v
Etag.v
Nfc.v
Core.v
Adv.v
Float.v
I2c.v
Advert.v
Sensors.v
Touch.v
TouchProofs.v
Led.v
Buzzer.v
Watchdog.v
BootPayload.v
BootDraw.v
BootLayout.v
BootScreen.v
BootScreenProofs.v
Rfc1951.v
Inflate.v
InflateRead.v
InflateSafe.v
InflateRun.v
Inflater.v
InflateChunks.v
InflateWhole.v
InflateCode.v
InflateDyn.v
InflateRfc.v
TransferImage.v
LinkOwner.v
LinkRace.v
LinkProofs.v
SessionGuard.v
SessionGuardProofs.v
