(* ===== verification/Prelude.v ===== *)
(** * The OpenDisplay firmware: the shared core, and the ESP32 link policy over it

    [src/shared/core] is the part of the firmware every target (ESP32, nRF, EFR32)
    links: it receives command frames from BLE and LAN links, authenticates and
    decrypts them, stores the configuration, takes images into the panel, and runs
    the small peripherals.  This library models that code, function by function, and
    proves what it promises.  Names are the code's wherever Rocq allows.

    ** How the model reads

    - A struct is a [Record], an enum an [Inductive], a file's statics a record that
      its functions take and return.  A [w]-bit integer is a [Z], and every cast and
      every operation that can leave the width is written with [wrap w] ([u8], [u16],
      [u32], [u64]).  A buffer is a list of numbers below 256; a packed wire struct is
      its bytes, its fields read at their offsets.
    - What the code calls outside [shared/] (radio, cryptography, storage, clock,
      panel, pins, the target's callbacks) is a type class over a type [E], the
      state of the world outside.  Each operation may observe and change [E], so a
      theorem over every instance holds however a target, a link or a device behaves.
      Where a theorem needs more (that decryption inverts encryption, that storage
      returns what was written) the assumption is a hypothesis of that theorem, and
      its witness gives an instance that meets it.
    - A loop is a [Fixpoint] on fuel, and the fuel is shown to be enough: by a theorem
      that the result is not the out-of-fuel one, or because the fuel is the loop's own
      bound.
    - Ghost fields record what was done ([t_trace], [n_trace], [a_trace], [l_trace],
      [b_trace], the inflater's output): no function reads them.
    - Logging is left out: the model is the build in which it compiles to nothing, and
      the log calls of this code have arguments without effects.

    ** The files

    The frame's way in: [Ring] (ring arithmetic), [RxQueue] ([od_rxq.c], operation by
    operation and as interleaved memory accesses), [TxQueue] ([od_txq.c], with
    reservations and the drain), [Span] ([od_span.h]), [Hal] ([od_hal_radio.h],
    [od_hal_crypto.h]), [Proto] (wire constants).

    Trust: [NonceWindow] ([od_nonce_window.h]), [Session] ([od_session.c]: handshake,
    sealing, opening), [World] ([od_session_app.h] and the state of the command path),
    [Reply] ([od_reply.c]), [Gate] ([od_gate.c], [od_cmd.c]), [Dispatch]
    ([od_dispatch.c]).  [Dispatch] takes the handlers as an argument.

    Configuration: [ConfigTlv] ([od_config_tlv.c]), [Config] ([od_config.c]),
    [ConfigAsm] ([od_config_asm.c]), [ConfigStore] ([od_config_store.c] over
    [od_hal_nvs.h]), [ConfigRead] ([od_config_read.c]).

    Images: [Color] ([od_color.c]), [Pump] ([od_zlib_pump.c] over the class of
    inflaters a target can select), [PipeState], [XferState], [Xfer] ([od_xfer.c]),
    [XferDirect], [XferPartial] and [Pipe] (the commands, [od_xfer_direct.c],
    [od_xfer_partial.c], [od_pipe.c]); their theorems are in [Transfer], [TransferCmds]
    and [TransferSession] (the panel driver's contract, command by command and over a
    session), [PipeWindow] (delivery and acknowledgements) and [Etag].  The inflater
    itself is [Inflate] ([od_zlib_inflate.c]), with [InflateRead] (reads and code
    tables), [InflateSafe] (totality), [InflateRun] (one operation), [Inflater] (any
    client, and the pump over it, which instantiates [Pump]'s class), [InflateChunks] and
    [InflateWhole] (independence of how the stream is cut).  [Rfc1951] is a decoder written
    from RFC 1950 and RFC 1951 alone; [InflateCode] (fields, canonical codes), [InflateDyn]
    (dynamic headers) and [InflateRfc] (blocks, whole streams) show that the inflater
    computes it.  [TransferImage] puts the PIPE stream, the pump and the inflater together,
    over the interface [ZlibTarget] of a target that runs this inflater.

    Peripherals: [Nfc] ([od_nfc.c]), [Core] ([od_core.c], the teardown), [Adv]
    ([od_adv_control.c]), [Float] (C's [float]), [I2c] ([od_hal_i2c.h]), [Advert]
    ([od_advert.c]), [Sensors] ([od_sensor_sht40.c],
    [od_sensor_bq27220.c]), [Touch] and [TouchProofs] ([od_touch_gt911.c]), [Led] ([od_led.c]), [Buzzer] ([od_buzzer.c]), [Watchdog]
    ([od_watchdog.c]), [BootPayload] ([od_boot_payload.c]), and the boot screen
    ([od_boot_screen.c]): [BootDraw] (font, pixels, 4-gray planes), [BootLayout] (scales and
    placement), [BootScreen] (the renderer over [od_boot_app.h]) and [BootScreenProofs].

    The ESP32 target's connection policy ([targets/esp32-idf/src]): [LinkOwner]
    ([link_owner.h], [link_owner.cpp], each function alone), [LinkRace] (the same words
    under the Bluetooth host task and the loop task, one memory access to a step, with
    the instance table of [ble_transport_esp32.cpp], the LAN accept of
    [wifi_service.cpp] and the contender scan of [main.cpp]) and [LinkProofs];
    [SessionGuard] ([session_guard.cpp], the auth-abuse run of [communication.cpp], and
    who ends a session in [main.cpp] and [display_service.cpp]), whose device is the sum
    of [Core], [RxQueue], [ConfigAsm], [Touch] and [LinkOwner] over one world, and
    [SessionGuardProofs].  [SessionGuard] is the loop task's view: its link word moves
    only by the loop, and the host task shows as the environment that answers each load
    of the instance table; what the host can do to the word is [LinkRace], and to the
    receive ring [RxQueue].

    ** What is proved

    - No forgery, no replay: a handler runs only on a frame that the policy table exempts
      or that a live, authenticated session opened; no counter is accepted twice; no
      nonce seals twice; a challenge is used once; with security on, nothing but an
      envelope or the hard refusal leaves on a link that is not TLS.
    - Nothing is lost or invented: the receive ring is a FIFO for every interleaving of
      its two tasks; an admitted command can always answer, and every dispatch returns
      the capacity it reserved; a drain keeps what was not delivered; a configuration
      read is complete and in order under back pressure.
    - Stored data is what was written: assembly, record framing and the packet grammar
      round-trip, a load is believed only after its checks, a parse applies exactly the
      packets it found and never switches encryption on with a zero key.
    - An image reaches the panel as sent: every session of transfer commands keeps the
      panel driver's calling contract; PIPE delivers frames once and in order; the inflater
      is defined and terminates on every input, is independent of how the input is cut, and
      accepts exactly the streams the RFCs' reference decoder reads, with its output; the
      pump delivers exactly the announced bytes with the trailer's checksum; after a
      successful PIPE upload the panel's memory is what the reference decoder reads from
      the bytes sent (raw: their front); an etag is recorded only after a refresh that
      completed.
    - The peripherals follow their specifications: NFC uploads, the advertiser's radio
      contract and its progress, the watchdog's strike count over many lives, LED and
      melody playback, sensor publication (a corrupted frame is never taken
      for a reading), touch reporting and its interrupt bookkeeping, the broadcast and the QR code's text.
    - One client at a time: under every interleaving the owner word is a lock, a link that
      the scan asks to leave never owns the device (over 65535 connections, the width of
      the epoch), and an owner's silence is never overstated.  A session ends when its
      policy says so and not before; the teardown returns and leaves nothing of it; a
      client that cannot authenticate is dropped within its bound.
    - The boot screen uses its middle zone as well as any arrangement could, calls the target
      by a script whatever it answers, and what a panel received is, pixel by pixel, the
      screen that was laid out.

    Deliberately weak points, each a lemma next to the code it concerns, are among
    the findings of the manifest: two frames of one PIPE window can share a reorder slot when
    the sequence wraps ([PipeWindow.collision_abandons_image]), the oldest bit of an
    acknowledgement mask is never set ([PipeWindow.sack_last_bit_missing]), a packed-rows
    panel is refreshed on an incomplete transfer
    ([TransferSession.packed_rows_shown_incomplete]), a refresh that ends while the device is
    free can hide the next client's silence ([LinkProofs.stamp_hides_silence]).

    ** Bounds and fuel

    Queue loops run over [OD_TXQ_SLOTS] or [OD_RXQ_SLOTS] entries, the loop's own bound, and
    the PIPE drain over the reorder ring ([Pipe.drain_fuel]).  [Pump.pump_fuel] is one round
    per byte still expected and one that ends the loop.  [Inflate]'s loops have [dyn_fuel]
    (two turns for each of the at most 320 code lengths of a dynamic block), [block_fuel]
    and [poll_fuel], linear in the bits of input not yet read, because between two reads
    only a bounded number of stages pass; all are shown
    sufficient in [InflateSafe] and [InflateRun].  An LED service pass ends in 5 turns of its
    machine and a melody's in 77000, which [Led] and [Buzzer] prove for every pattern.
    [SessionGuard.wait_fuel] is 75 polls of 2 ms in a wait of 150 ms and the last look; it is
    enough when no single call of the target takes longer than 2^20 ms
    ([SessionGuardProofs.BleLaws]).
    Sequence arithmetic is modulo 256 (PIPE), modulo 2^32 (clocks) and 64-bit (nonces)
    exactly as in the code.

    ** Not modelled

    - [od_log.c] and [od_config_log.c] (text output only).
    - The applications under [targets/]: board bring-up, radio stacks, display drivers and
      RTOS tasks over vendor interfaces.  What the shared code calls of them is the
      classes above; [targets/nordic-zephyr/src/od_inflate_app.c] is modelled because it
      adapts the inflater to the pump, and of the ESP32 target the link arbiter and the
      session teardown are modelled, because they are policy and not vendor glue.
    - Third-party code (mdns, panel libraries; the QR encoder and the logo bitmaps are
      parameters of [BootScreen]), host tests and tools.
    - Memory: objects the code reaches through pointers are passed by value; the two places
      where two tasks share memory, the receive ring and the link words, are modelled
      access by access. *)

From stdpp Require Export base list list_numbers numbers option decidable sets.
From Stdlib Require Export ZArith Lia Bool.

(** ** Scopes and basic types *)

Declare Scope od_scope.
Delimit Scope od_scope with od.
Global Open Scope Z_scope.

(** Bytes of a buffer are integers in [0, 256); [bytes_ok] states the range. *)
Abbreviation bytes := (list Z).

Definition is_byte (b : Z) : Prop := 0 <= b < 256.
Definition bytes_ok (l : bytes) : Prop := Forall is_byte l.

(** ** Machine-width unsigned integers

    A [w]-bit unsigned integer is a [Z] reduced modulo [2 ^ w]; every cast and
    every arithmetic operation of the C code that can leave the width is
    written with [wrap]. *)

Definition wrap (w x : Z) : Z := x mod 2 ^ w.
Abbreviation u8 := (wrap 8).
Abbreviation u16 := (wrap 16).
Abbreviation u32 := (wrap 32).
Abbreviation u64 := (wrap 64).

(** [fits w x]: the value [x] is representable at width [w]. *)
Definition fits (w x : Z) : Prop := 0 <= x < 2 ^ w.

Lemma wrap_fits w x : 0 <= w -> fits w (wrap w x).
Proof. intros. unfold fits, wrap. apply Z.mod_pos_bound. lia. Qed.

Lemma wrap_id w x : fits w x -> wrap w x = x.
Proof. intros. unfold wrap. by apply Z.mod_small. Qed.

Lemma wrap_wrap w x : 0 <= w -> wrap w (wrap w x) = wrap w x.
Proof. intros. apply wrap_id, wrap_fits; lia. Qed.

Lemma wrap_testbit w x i :
  0 <= w -> 0 <= i -> Z.testbit (wrap w x) i = (i <? w) && Z.testbit x i.
Proof.
  intros. unfold wrap. destruct (Z.ltb_spec i w).
  - rewrite Z.mod_pow2_bits_low by lia. done.
  - rewrite Z.mod_pow2_bits_high by lia. done.
Qed.

Lemma fits_testbit_high w x i : fits w x -> w <= i -> Z.testbit x i = false.
Proof.
  intros Hf Hi. destruct (Z.ltb_spec i 0); [by rewrite Z.testbit_neg_r by lia|].
  destruct (Z.ltb_spec w 0).
  - unfold fits in Hf. rewrite Z.pow_neg_r in Hf by lia. lia.
  - rewrite <- (wrap_id w x Hf), wrap_testbit by lia.
    destruct (Z.ltb_spec i w); [lia|done].
Qed.

Lemma fits_lor w x y : 0 <= w -> fits w x -> fits w y -> fits w (Z.lor x y).
Proof.
  intros Hw Hx Hy. unfold fits in *. split; [apply Z.lor_nonneg; lia|].
  destruct (Z.eq_dec (Z.lor x y) 0) as [->|Hne]; [lia|].
  apply Z.log2_lt_pow2; [pose proof (Z.lor_nonneg x y); lia|].
  rewrite Z.log2_lor by lia.
  destruct (Z.eq_dec x 0) as [->|Hx0], (Z.eq_dec y 0) as [->|Hy0]; cbn in *.
  - done.
  - rewrite Z.max_r by apply Z.log2_nonneg. apply Z.log2_lt_pow2; lia.
  - rewrite Z.max_l by apply Z.log2_nonneg. apply Z.log2_lt_pow2; lia.
  - apply Z.max_lub_lt; apply Z.log2_lt_pow2; lia.
Qed.

(** A value above the low [w] bits, put over them. *)
Lemma lor_shiftl_add x y w : 0 <= w -> fits w y -> Z.lor (Z.shiftl x w) y = Z.shiftl x w + y.
Proof.
  intros Hw Hy. rewrite <- Z.lxor_lor, <- Z.add_nocarry_lxor; [done| |]; apply Z.bits_inj'; intros i Hi;
    rewrite Z.land_spec, Z.bits_0, Z.shiftl_spec by lia;
    (destruct (Z.ltb_spec i w); [by rewrite Z.testbit_neg_r by lia|by rewrite (fits_testbit_high w y) by done; rewrite andb_false_r]).
Qed.

(** [wrap_lia]: linear goals that mention [wrap] at a literal width. *)
Ltac wrap_norm :=
  unfold fits, wrap, is_byte in *;
  repeat match goal with
  | |- context [2 ^ ?w] => let v := eval compute in (2 ^ w) in progress change (2 ^ w) with v
  | H : context [2 ^ ?w] |- _ =>
      let v := eval compute in (2 ^ w) in progress change (2 ^ w) with v in H
  end.
Ltac wrap_lia := wrap_norm; Z.to_euclidean_division_equations; lia.

(** [split_ifs]: case analysis on every boolean comparison of the goal, with the
    comparison turned into an arithmetic fact. *)
Ltac bool_split :=
  match goal with
  | |- context [Z.eqb ?a ?b] => destruct (Z.eqb_spec a b)
  | |- context [Z.ltb ?a ?b] => destruct (Z.ltb_spec a b)
  | |- context [Z.leb ?a ?b] => destruct (Z.leb_spec a b)
  end.
Ltac split_ifs := repeat (bool_split; cbn -[Z.mul Z.pow Z.add Z.sub]; try lia; try done).

Lemma lxor_byte a b : is_byte a -> is_byte b -> is_byte (Z.lxor a b).
Proof.
  unfold is_byte. intros Ha Hb. split; [apply Z.lxor_nonneg; lia|].
  destruct (Z.eq_dec (Z.lxor a b) 0) as [->|Hne]; [lia|].
  assert (0 <= Z.lxor a b) by (apply Z.lxor_nonneg; lia).
  apply (Z.log2_lt_pow2 _ 8); [lia|].
  eapply Z.le_lt_trans; [apply Z.log2_lxor; lia|].
  assert (Hl : forall x, 0 <= x < 256 -> Z.log2 x < 8).
  { intros x Hx. destruct (Z.eq_dec x 0) as [->|]; [done|]. apply Z.log2_lt_pow2; simpl; lia. }
  apply Z.max_lub_lt; apply Hl; lia.
Qed.

(** Splitting off the low byte and putting it back. *)
Lemma lor_low_high x : Z.lor (Z.land x 0xFF) (Z.shiftl (Z.shiftr x 8) 8) = x.
Proof.
  apply Z.bits_inj'. intros i Hi. change 0xFF with (Z.ones 8).
  rewrite Z.lor_spec, Z.land_spec, Z.shiftl_spec by lia.
  destruct (Z.ltb_spec i 8).
  - rewrite Z.ones_spec_low by lia. rewrite (Z.testbit_neg_r _ (i - 8)) by lia. by rewrite andb_true_r, orb_false_r.
  - rewrite Z.ones_spec_high by lia. rewrite Z.shiftr_spec by lia. rewrite andb_false_r. simpl. f_equal. lia.
Qed.

(** The byte of [x] at bit [k], in place. *)
Lemma byte_slice_testbit x k i :
  0 <= k -> 0 <= i ->
  Z.testbit (Z.shiftl (Z.land (Z.shiftr x k) 0xFF) k) i = Z.testbit x i && (k <=? i) && (i <? k + 8).
Proof.
  intros Hk Hi. change 0xFF with (Z.ones 8). rewrite Z.shiftl_spec by lia.
  destruct (Z.leb_spec k i).
  - rewrite Z.land_spec, Z.shiftr_spec by lia. replace (i - k + k) with i by lia.
    destruct (Z.ltb_spec i (k + 8)); [rewrite Z.ones_spec_low by lia|rewrite Z.ones_spec_high by lia];
      by rewrite ?andb_true_r, ?andb_false_r.
  - rewrite Z.testbit_neg_r by lia. by rewrite andb_false_r.
Qed.

(** A 32-bit value is its four bytes. *)
Lemma bytes_u32 x :
  fits 32 x ->
  Z.lor (Z.lor (Z.lor (Z.land x 0xFF) (Z.shiftl (Z.land (Z.shiftr x 8) 0xFF) 8))
           (Z.shiftl (Z.land (Z.shiftr x 16) 0xFF) 16)) (Z.shiftl (Z.land (Z.shiftr x 24) 0xFF) 24) = x.
Proof.
  intros Hx. apply Z.bits_inj'. intros i Hi.
  pose proof (byte_slice_testbit x 0 i ltac:(lia) Hi) as H0. rewrite Z.shiftl_0_r, Z.shiftr_0_r in H0.
  rewrite !Z.lor_spec, H0, !byte_slice_testbit by lia.
  destruct (Z.ltb_spec i 32) as [Hlt|Hge].
  - destruct (Z.testbit x i); [|done]. cbn [andb].
    destruct (Z.leb_spec 0 i), (Z.ltb_spec i (0 + 8)), (Z.leb_spec 8 i), (Z.ltb_spec i (8 + 8)),
      (Z.leb_spec 16 i), (Z.ltb_spec i (16 + 8)), (Z.leb_spec 24 i), (Z.ltb_spec i (24 + 8)); try done; lia.
  - by rewrite (fits_testbit_high 32 x i Hx Hge).
Qed.

(** ** Indexing a C array by an integer *)

Definition get {A} `{Inhabited A} (l : list A) (i : Z) : A := l !!! Z.to_nat i.
Definition set {A} (l : list A) (i : Z) (x : A) : list A := <[Z.to_nat i := x]> l.
Notation "l .[ i ]" := (get l i) (at level 1, left associativity, format "l .[ i ]").
Notation "l .[ i := x ]" := (set l i x) (at level 1, left associativity, format "l .[ i  :=  x ]").
Abbreviation len l := (Z.of_nat (length l)).

Section Arrays.
Context {A : Type} `{Inhabited A}.
Implicit Types (l : list A) (x : A) (i j : Z).

Lemma len_set l i x : len (l.[i := x]) = len l.
Proof. unfold set. by rewrite length_insert. Qed.

Lemma get_set_eq l i x : 0 <= i < len l -> l.[i := x].[i] = x.
Proof. intros. unfold get, set. apply list_lookup_total_insert_eq. lia. Qed.

Lemma get_set_ne l i j x : 0 <= i -> 0 <= j -> i <> j -> l.[i := x].[j] = l.[j].
Proof. intros. unfold get, set. apply list_lookup_total_insert_ne. lia. Qed.

Lemma Forall_get (P : A -> Prop) l i : Forall P l -> 0 <= i < len l -> P l.[i].
Proof.
  intros HF Hi. unfold get.
  destruct (lookup_lt_is_Some_2 l (Z.to_nat i)) as [y Hy]; [lia|].
  rewrite (list_lookup_total_correct _ _ _ Hy). by eapply Forall_lookup_1.
Qed.

Lemma Forall_set (P : A -> Prop) l i x : Forall P l -> P x -> Forall P (l.[i := x]).
Proof. intros. by apply Forall_insert. Qed.
End Arrays.

Lemma get_byte (b : bytes) i : bytes_ok b -> is_byte b.[i].
Proof.
  intros Hb. unfold get. destruct (decide (Z.to_nat i < length b)%nat).
  - destruct (lookup_lt_is_Some_2 b (Z.to_nat i)) as [x Hx]; [done|].
    rewrite (list_lookup_total_correct _ _ _ Hx). by eapply Forall_lookup_1 in Hb.
  - rewrite list_lookup_total_alt, lookup_ge_None_2 by lia. vm_compute. split; congruence.
Qed.

Lemma get_snoc {A} `{Inhabited A} (l : list A) x : (l ++ [x]).[len l] = x.
Proof. unfold get. rewrite Nat2Z.id, lookup_total_app_r by lia. by rewrite Nat.sub_diag. Qed.

Lemma get_app_l {A} `{Inhabited A} (l k : list A) i : 0 <= i < len l -> (l ++ k).[i] = l.[i].
Proof. intros. unfold get. apply lookup_total_app_l. lia. Qed.

(** Numbers in reach of each other are told apart modulo [m]. *)
Lemma mod_apart m a b : 0 < m -> a mod m = b mod m -> Z.abs (a - b) < m -> a = b.
Proof.
  intros Hm He Hd. apply Z.cong_iff_0 in He. apply Z.mod_divide in He as [q Hq]; [|lia].
  destruct (Z.eq_dec q 0) as [->|Hq0]; [lia|]. nia.
Qed.

(** A check of all numbers below [n]. *)
Lemma forallb_below (f : Z -> bool) (n : nat) :
  forallb (fun k => f (Z.of_nat k)) (seq 0 n) = true -> forall k, 0 <= k < Z.of_nat n -> f k = true.
Proof.
  intros Hall k Hk. rewrite forallb_forall in Hall. specialize (Hall (Z.to_nat k)). rewrite Z2Nat.id in Hall by lia.
  apply Hall, in_seq. lia.
Qed.

(** ** Writing into a buffer *)

(** [memcpy(buf + off, data, len data)], for a copy that stays in the buffer. *)
Definition memcpy (buf : bytes) (off : Z) (data : bytes) : bytes :=
  take (Z.to_nat off) buf ++ data ++ drop (Z.to_nat off + length data) buf.

Lemma len_memcpy buf off data :
  0 <= off -> off + len data <= len buf -> len (memcpy buf off data) = len buf.
Proof. intros. unfold memcpy. rewrite !length_app, length_take, length_drop. lia. Qed.

(** Everything up to the end of the copy. *)
Lemma take_memcpy buf off data :
  0 <= off -> off + len data <= len buf ->
  take (Z.to_nat (off + len data)) (memcpy buf off data) = take (Z.to_nat off) buf ++ data.
Proof.
  intros. unfold memcpy. rewrite app_assoc.
  replace (Z.to_nat (off + len data)) with (length (take (Z.to_nat off) buf ++ data)).
  - apply take_app_length.
  - rewrite length_app, length_take. lia.
Qed.
