(* ===== verification/NonceWindow.v ===== *)
(** Anti-replay window: [shared/core/od_nonce_window.h]. *)

From S2P Require Import Prelude.

Module NonceWindow.

Definition OD_NONCE_BACKWARD_BITS : Z := 256.
Definition OD_NONCE_BITMAP_WORDS : Z := OD_NONCE_BACKWARD_BITS / 64.

(** [enum NonceResult]. *)
Inductive NonceResult :=
| NONCE_OK
| NONCE_BAD_SESSION
| NONCE_OUT_OF_WINDOW
| NONCE_REPLAY.

#[export] Instance NonceResult_eq_dec : EqDecision NonceResult.
Proof. solve_decision. Defined.

(** The enumerator's integer value, stored in [report->nonce_reason]. *)
Definition NonceResult_val (r : NonceResult) : Z :=
  match r with
  | NONCE_OK => 0 | NONCE_BAD_SESSION => 1
  | NONCE_OUT_OF_WINDOW => 2 | NONCE_REPLAY => 3
  end.

(** [((bm[bit >> 6] >> (bit & 63)) & 1) != 0] *)
Definition od_nonce_bit_test (bm : list Z) (bit : Z) : bool :=
  negb (Z.land (Z.shiftr bm.[Z.shiftr bit 6] (Z.land bit 63)) 1 =? 0).

(** [bm[bit >> 6] |= (1ull << (bit & 63))] *)
Definition od_nonce_bit_set (bm : list Z) (bit : Z) : list Z :=
  let w := Z.shiftr bit 6 in
  bm.[w := Z.lor bm.[w] (u64 (Z.shiftl 1 (Z.land bit 63)))].

Definition od_nonce_check (bm : list Z) (last_seen counter : Z) : NonceResult :=
  if counter =? last_seen then
    if od_nonce_bit_test bm 0 then NONCE_REPLAY else NONCE_OK
  else if last_seen <? counter then NONCE_OK
  else
    let back := u64 (last_seen - counter) in
    if back <? OD_NONCE_BACKWARD_BITS then
      if od_nonce_bit_test bm back then NONCE_REPLAY else NONCE_OK
    else NONCE_OUT_OF_WINDOW.

(** The value the shift loop computes for word [i]. *)
Definition shifted_word (bm : list Z) (word_shift bit_shift i : Z) : Z :=
  if word_shift <=? i then
    let v := u64 (Z.shiftl bm.[i - word_shift] bit_shift) in
    if negb (bit_shift =? 0) && (word_shift <? i) then
      Z.lor v (Z.shiftr bm.[i - word_shift - 1] (64 - bit_shift))
    else v
  else 0.

(** [for (i = OD_NONCE_BITMAP_WORDS; i-- > 0;) bm[i] = ...], in place. *)
Fixpoint shift_loop (n : nat) (word_shift bit_shift : Z) (bm : list Z) : list Z :=
  match n with
  | O => bm
  | S n' =>
      let i := Z.of_nat n' in
      shift_loop n' word_shift bit_shift (bm.[i := shifted_word bm word_shift bit_shift i])
  end.

Definition od_nonce_bitmap_shift_left (bm : list Z) (shift : Z) : list Z :=
  if shift =? 0 then bm
  else if OD_NONCE_BACKWARD_BITS <=? shift then
    replicate (Z.to_nat OD_NONCE_BITMAP_WORDS) 0
  else
    shift_loop (Z.to_nat OD_NONCE_BITMAP_WORDS) (Z.shiftr shift 6) (Z.land shift 63) bm.

Definition od_nonce_commit (bm : list Z) (last_seen counter : Z) : list Z * Z :=
  if counter =? last_seen then (od_nonce_bit_set bm 0, last_seen)
  else if counter <? last_seen then
    let back := u64 (last_seen - counter) in
    if back <? OD_NONCE_BACKWARD_BITS then (od_nonce_bit_set bm back, last_seen)
    else (bm, last_seen)
  else
    let bm' := od_nonce_bitmap_shift_left bm (u64 (counter - last_seen)) in
    (od_nonce_bit_set bm' 0, counter).

(** One inbound frame: [od_nonce_check] decides, the CCM tag is verified
    ([tag_ok]), and only then does [od_nonce_commit] run. *)
Definition process_counter (st : list Z * Z) (counter : Z) (tag_ok : bool)
  : (list Z * Z) * bool :=
  match od_nonce_check st.1 st.2 counter with
  | NONCE_OK => if tag_ok then (od_nonce_commit st.1 st.2 counter, true) else (st, false)
  | _ => (st, false)
  end.

(** The counters a run of frames accepts, in order. *)
Fixpoint accepted_counters (st : list Z * Z) (frames : list (Z * bool)) : list Z :=
  match frames with
  | [] => []
  | (c, ok) :: rest =>
      let '(st', acc) := process_counter st c ok in
      if acc then c :: accepted_counters st' rest else accepted_counters st' rest
  end.

(** ** Bit-level lemmas *)

(** Four 64-bit words. *)
Definition bitmap_ok (bm : list Z) : Prop :=
  len bm = OD_NONCE_BITMAP_WORDS /\ Forall (fits 64) bm.

Lemma land_63 x : Z.land x 63 = x mod 64.
Proof. by apply (Z.land_ones x 6). Qed.

Lemma shiftr_6 x : Z.shiftr x 6 = x / 64.
Proof. by apply (Z.shiftr_div_pow2 x 6). Qed.

Lemma bit_test_testbit bm j :
  od_nonce_bit_test bm j = Z.testbit bm.[j / 64] (j mod 64).
Proof.
  unfold od_nonce_bit_test.
  rewrite land_63, shiftr_6. set (w := bm.[j / 64]).
  rewrite (Z.land_ones _ 1 : 0 <= 1 -> Z.land _ 1 = _ mod 2) by lia.
  rewrite <- Z.bit0_mod, Z.shiftr_spec by lia. simpl (0 + _).
  by destruct (Z.testbit _ _).
Qed.

Lemma word_index j : 0 <= j < OD_NONCE_BACKWARD_BITS ->
  0 <= j / 64 < OD_NONCE_BITMAP_WORDS /\ 0 <= j mod 64 < 64.
Proof.
  unfold OD_NONCE_BITMAP_WORDS, OD_NONCE_BACKWARD_BITS. change (256 / 64) with 4.
  intros. Z.to_euclidean_division_equations. lia.
Qed.

Lemma bit_set_ok bm k :
  bitmap_ok bm -> 0 <= k < OD_NONCE_BACKWARD_BITS -> bitmap_ok (od_nonce_bit_set bm k).
Proof.
  intros [Hl Hf] Hk. split; unfold od_nonce_bit_set; [by rewrite len_set|].
  apply Forall_set; [done|]. apply fits_lor; [lia| |by apply wrap_fits].
  apply Forall_get; [done|]. rewrite Hl, shiftr_6. by apply word_index.
Qed.

Lemma bit_test_set bm k j :
  bitmap_ok bm -> 0 <= k < OD_NONCE_BACKWARD_BITS -> 0 <= j < OD_NONCE_BACKWARD_BITS ->
  od_nonce_bit_test (od_nonce_bit_set bm k) j = (j =? k) || od_nonce_bit_test bm j.
Proof.
  intros [Hl _] Hk Hj. rewrite !bit_test_testbit. unfold od_nonce_bit_set.
  pose proof (word_index k Hk). pose proof (word_index j Hj).
  rewrite land_63, shiftr_6.
  destruct (Z.eq_dec (j / 64) (k / 64)) as [E|E].
  - rewrite <- E, get_set_eq by lia.
    rewrite Z.lor_spec, wrap_testbit, Z.shiftl_1_l, Z.pow2_bits_eqb by lia.
    destruct (Z.eqb_spec j k) as [->|Hne].
    + rewrite Z.eqb_refl. split_ifs.
    + destruct (Z.eqb_spec (k mod 64) (j mod 64)).
      * exfalso. apply Hne. Z.to_euclidean_division_equations. lia.
      * by rewrite andb_false_r, orb_false_r.
  - rewrite get_set_ne by lia.
    destruct (Z.eqb_spec j k) as [->|]; [done|]. by rewrite orb_false_l.
Qed.

(** Descending in place is safe: word [i] only reads words at or below [i]. *)
Lemma shift_loop_get n ws bs bm i :
  0 <= ws -> 0 <= i < len bm ->
  (shift_loop n ws bs bm).[i] =
    if i <? Z.of_nat n then shifted_word bm ws bs i else bm.[i].
Proof.
  intros Hws. revert bm. induction n as [|n IH]; intros bm Hi; simpl shift_loop.
  { destruct (Z.ltb_spec i (Z.of_nat 0)); [lia|done]. }
  rewrite IH by (rewrite len_set; lia).
  destruct (Z.ltb_spec i (Z.of_nat n)), (Z.ltb_spec i (Z.of_nat (S n))); try lia.
  - unfold shifted_word. split_ifs; rewrite ?get_set_ne by lia; done.
  - replace i with (Z.of_nat n) by lia. by rewrite get_set_eq by lia.
  - rewrite get_set_ne by lia. done.
Qed.

Lemma shift_loop_ok n ws bs bm :
  0 <= ws -> 0 <= bs < 64 -> Z.of_nat n <= len bm ->
  Forall (fits 64) bm ->
  length (shift_loop n ws bs bm) = length bm /\ Forall (fits 64) (shift_loop n ws bs bm).
Proof.
  intros Hws Hbs. revert bm. induction n as [|n IH]; intros bm Hn HF; [done|].
  simpl shift_loop. destruct (IH (bm.[Z.of_nat n := shifted_word bm ws bs (Z.of_nat n)]))
    as [H1 H2].
  - rewrite len_set. lia.
  - apply Forall_set; [done|]. unfold shifted_word.
    assert (Hv : forall x, fits 64 (u64 x)) by (intros; by apply wrap_fits).
    split_ifs; try apply Hv. apply fits_lor; [lia|apply Hv|].
    assert (Hg : fits 64 bm.[Z.of_nat n - ws - 1]) by (apply Forall_get; [done|lia]).
    unfold fits in *. rewrite Z.shiftr_div_pow2 by lia.
    assert (1 <= 2 ^ (64 - bs)) by (apply (Z.pow_le_mono_r 2 0); lia).
    split; [apply Z.div_pos; lia|]. apply Z.div_lt_upper_bound; nia.
  - split; [|done]. rewrite H1. unfold set. apply length_insert.
Qed.

Lemma shifted_word_testbit bm ws bs i b :
  Forall (fits 64) bm -> 0 <= ws -> 0 <= bs < 64 -> 0 <= i < len bm -> 0 <= b < 64 ->
  Z.testbit (shifted_word bm ws bs i) b =
    if 64 * ws + bs <=? 64 * i + b then
      Z.testbit bm.[(64 * i + b - (64 * ws + bs)) / 64] ((64 * i + b - (64 * ws + bs)) mod 64)
    else false.
Proof.
  intros HF Hws Hbs Hi Hb.
  assert (Hdm : forall q r, 0 <= r < 64 -> (64 * q + r) / 64 = q /\ (64 * q + r) mod 64 = r)
    by (intros; Z.to_euclidean_division_equations; lia).
  destruct (Z.ltb_spec b bs) as [Hlt|Hge].
  - replace (64 * i + b - (64 * ws + bs)) with (64 * (i - ws - 1) + (64 + b - bs)) by lia.
    destruct (Hdm (i - ws - 1) (64 + b - bs)) as [-> ->]; [lia|].
    unfold shifted_word.
    destruct (Z.leb_spec ws i), (Z.eqb_spec bs 0), (Z.ltb_spec ws i); cbn; try lia;
      split_ifs; rewrite ?Z.testbit_0_l; try done;
      rewrite ?Z.lor_spec, wrap_testbit, Z.shiftl_spec, (Z.testbit_neg_r _ (b - bs)) by lia;
      rewrite ?andb_false_r; try done.
    rewrite orb_false_l, Z.shiftr_spec by lia. f_equal. lia.
  - replace (64 * i + b - (64 * ws + bs)) with (64 * (i - ws) + (b - bs)) by lia.
    destruct (Hdm (i - ws) (b - bs)) as [-> ->]; [lia|].
    unfold shifted_word.
    destruct (Z.leb_spec ws i); [|split_ifs; by rewrite Z.testbit_0_l].
    assert (Hv : Z.testbit (u64 (Z.shiftl bm.[i - ws] bs)) b = Z.testbit bm.[i - ws] (b - bs)).
    { rewrite wrap_testbit, Z.shiftl_spec by lia. split_ifs. }
    destruct (Z.leb_spec (64 * ws + bs) (64 * i + b)); [|lia].
    destruct (Z.eqb_spec bs 0), (Z.ltb_spec ws i); cbn [negb andb]; try done.
    rewrite Z.lor_spec, Hv, Z.shiftr_spec by lia.
    rewrite (fits_testbit_high 64 bm.[i - ws - 1]); [apply orb_false_r| |lia].
    apply Forall_get; [done|lia].
Qed.

Lemma shift_left_ok bm s :
  bitmap_ok bm -> 0 <= s -> bitmap_ok (od_nonce_bitmap_shift_left bm s).
Proof.
  intros [Hl HF] Hs. unfold od_nonce_bitmap_shift_left.
  destruct (Z.eqb_spec s 0); [done|]. destruct (Z.leb_spec OD_NONCE_BACKWARD_BITS s).
  - split; [done|]. by repeat constructor.
  - unfold bitmap_ok. rewrite land_63, shiftr_6.
    destruct (shift_loop_ok (Z.to_nat OD_NONCE_BITMAP_WORDS) (s / 64) (s mod 64) bm)
      as [-> ?]; try done.
    + by apply Z.div_pos.
    + by apply Z.mod_pos_bound.
    + by rewrite Hl.
Qed.

Lemma bit_test_shift bm s j :
  bitmap_ok bm -> 0 <= s -> 0 <= j < OD_NONCE_BACKWARD_BITS ->
  od_nonce_bit_test (od_nonce_bitmap_shift_left bm s) j =
    (s <=? j) && od_nonce_bit_test bm (j - s).
Proof.
  intros [Hl HF] Hs Hj. unfold od_nonce_bitmap_shift_left.
  destruct (Z.eqb_spec s 0) as [->|Hs0].
  { rewrite Z.sub_0_r. split_ifs. }
  destruct (Z.leb_spec OD_NONCE_BACKWARD_BITS s).
  { rewrite bit_test_testbit. unfold get.
    destruct (Z.leb_spec s j); [lia|].
    rewrite lookup_total_replicate_2 by (pose proof (word_index j Hj); lia).
    apply Z.testbit_0_l. }
  destruct (word_index j Hj) as [Hw Hb].
  rewrite land_63, shiftr_6, bit_test_testbit.
  assert (0 <= s / 64 /\ 0 <= s mod 64 < 64) as [? ?].
  { Z.to_euclidean_division_equations. lia. }
  rewrite shift_loop_get by (rewrite ?Hl; lia). rewrite Z2Nat.id by done.
  destruct (Z.ltb_spec (j / 64) OD_NONCE_BITMAP_WORDS); [|lia].
  rewrite shifted_word_testbit by (rewrite ?Hl; done).
  rewrite <- !Z.div_mod by lia. rewrite bit_test_testbit. by destruct (s <=? j).
Qed.

(** ** The abstract specification

    [window_repr bm last seen] relates the bitmap to the set [seen] of counters
    consumed so far: nothing above [last] was consumed, and bit [j] is set
    exactly when counter [last - j] was. *)

Definition window_repr (bm : list Z) (last : Z) (seen : list Z) : Prop :=
  bitmap_ok bm /\ fits 64 last /\
  Forall (fun c => 0 <= c <= last) seen /\
  forall j, 0 <= j < OD_NONCE_BACKWARD_BITS -> od_nonce_bit_test bm j = true <-> last - j ∈ seen.

(** A fresh session: [rx_last = 0], all bits clear. *)
Definition fresh_window : list Z * Z := (replicate (Z.to_nat OD_NONCE_BITMAP_WORDS) 0, 0).

Lemma fresh_repr : window_repr fresh_window.1 fresh_window.2 [].
Proof.
  split; [|split; [done|split; [done|]]].
  - split; [done|]. by repeat constructor.
  - intros j Hj. rewrite bit_test_testbit. unfold get, fresh_window. cbn [fst].
    rewrite lookup_total_replicate_2 by (pose proof (word_index j Hj); lia).
    rewrite Z.testbit_0_l. set_solver.
Qed.

(** The decision rule of RFC 4303 on the set of consumed counters. *)
Definition check_spec (last : Z) (seen : list Z) (c : Z) : NonceResult :=
  if OD_NONCE_BACKWARD_BITS <=? last - c then NONCE_OUT_OF_WINDOW
  else if decide (c ∈ seen) then NONCE_REPLAY else NONCE_OK.

Lemma repr_not_above bm last seen c :
  window_repr bm last seen -> last < c -> c ∉ seen.
Proof. intros (_ & _ & HF & _) Hc Hin. rewrite Forall_forall in HF. specialize (HF c Hin). lia. Qed.

Lemma check_bit bm last seen j :
  window_repr bm last seen -> 0 <= j < OD_NONCE_BACKWARD_BITS ->
  (if od_nonce_bit_test bm j then NONCE_REPLAY else NONCE_OK) =
  (if decide (last - j ∈ seen) then NONCE_REPLAY else NONCE_OK).
Proof.
  intros (_ & _ & _ & Hb) Hj. specialize (Hb j Hj).
  destruct (od_nonce_bit_test bm j); case_decide; intuition congruence.
Qed.

Lemma commit_repr bm last seen c :
  window_repr bm last seen -> fits 64 c -> last - c < OD_NONCE_BACKWARD_BITS ->
  let '(bm', last') := od_nonce_commit bm last c in
  window_repr bm' last' (c :: seen) /\ last' = Z.max last c.
Proof.
  intros Hr Hc Hw. pose proof (repr_not_above _ _ _ c Hr) as Habove.
  destruct Hr as (Hok & Hlast & HF & Hb). unfold od_nonce_commit.
  assert (H0 : 0 <= 0 < OD_NONCE_BACKWARD_BITS) by done.
  destruct (Z.eqb_spec c last) as [->|Hne]; [|destruct (Z.ltb_spec c last)].
  - split; [|lia]. split; [by apply bit_set_ok|]. split; [done|]. split.
    { constructor; [wrap_lia|done]. }
    intros j Hj. rewrite bit_test_set, orb_true_iff, Hb, Z.eqb_eq, elem_of_cons by done.
    split; intros [?|?]; auto; left; lia.
  - rewrite wrap_id by wrap_lia. destruct (Z.ltb_spec (last - c) OD_NONCE_BACKWARD_BITS); [|lia].
    split; [|lia]. split; [apply bit_set_ok; [done|lia]|]. split; [done|]. split.
    { constructor; [wrap_lia|done]. }
    intros j Hj. rewrite bit_test_set, orb_true_iff, Hb, Z.eqb_eq, elem_of_cons by (done || lia).
    split; intros [?|?]; auto; left; lia.
  - rewrite wrap_id by wrap_lia. pose proof (shift_left_ok bm (c - last) Hok ltac:(lia)).
    split; [|lia]. split; [by apply bit_set_ok|]. split; [done|]. split.
    { constructor; [wrap_lia|]. eapply Forall_impl; [exact HF|]. simpl. lia. }
    intros j Hj. rewrite bit_test_set, bit_test_shift, elem_of_cons by (done || lia).
    rewrite orb_true_iff, Z.eqb_eq. destruct (Z.leb_spec (c - last) j); simpl.
    + rewrite Hb by lia. replace (last - (j - (c - last))) with (c - j) by lia.
      split; intros [?|?]; auto; left; lia.
    + split; [intros [?|?]; [left; lia|done]|]. intros [?|Hin]; [left; lia|].
      rewrite Forall_forall in HF. specialize (HF _ Hin). lia.
Qed.

Lemma check_exact bm last seen c :
  window_repr bm last seen -> fits 64 c ->
  od_nonce_check bm last c = check_spec last seen c.
Proof.
  intros Hr Hc. pose proof (repr_not_above _ _ _ c Hr) as Habove.
  pose proof (check_bit _ _ _ (last - c) Hr) as Hbit.
  replace (last - (last - c)) with c in Hbit by lia.
  destruct Hr as (_ & Hlast & _ & _). unfold od_nonce_check, check_spec.
  destruct (Z.eqb_spec c last) as [->|Hne].
  { rewrite Z.sub_diag in *. rewrite Hbit by done. done. }
  destruct (Z.ltb_spec last c).
  - destruct (Z.leb_spec OD_NONCE_BACKWARD_BITS (last - c)); [unfold OD_NONCE_BACKWARD_BITS in *; lia|].
    rewrite decide_False by auto. done.
  - rewrite wrap_id by wrap_lia.
    destruct (Z.ltb_spec (last - c) OD_NONCE_BACKWARD_BITS),
      (Z.leb_spec OD_NONCE_BACKWARD_BITS (last - c)); try lia; [|done].
    apply Hbit. lia.
Qed.

Lemma process_repr st seen c ok :
  window_repr st.1 st.2 seen -> fits 64 c ->
  let '(st', acc) := process_counter st c ok in
  (acc = true -> c ∉ seen) /\
  window_repr st'.1 st'.2 (if acc then c :: seen else seen).
Proof.
  intros Hr Hc. unfold process_counter. rewrite (check_exact _ _ seen) by done.
  unfold check_spec. destruct (Z.leb_spec OD_NONCE_BACKWARD_BITS (st.2 - c)); [done|].
  case_decide; [done|]. destruct ok; [|done].
  pose proof (commit_repr _ _ _ _ Hr Hc ltac:(lia)) as Hcm.
  destruct (od_nonce_commit st.1 st.2 c). split; [done|apply Hcm].
Qed.

(** *** Theorems *)

(** Over any sequence of inbound frames, whatever counters an attacker
    chooses and whichever tags verify, no counter is accepted twice: the
    accepted counters are pairwise distinct. *)
Theorem nonce_no_replay (st : list Z * Z) (seen : list Z) (frames : list (Z * bool)) :
  window_repr st.1 st.2 seen -> Forall (fun f => fits 64 f.1) frames ->
  NoDup (accepted_counters st frames) /\
  forall c, c ∈ accepted_counters st frames -> c ∉ seen.
Proof.
  revert st seen. induction frames as [|[c ok] frames IH]; intros st seen Hr HF; simpl.
  { split; [constructor|set_solver]. }
  inversion_clear HF as [|? ? Hc HF']. pose proof (process_repr st seen c ok Hr Hc) as Hp.
  destruct (process_counter st c ok) as [st' []]; destruct Hp as [Hnew Hr'].
  - destruct (IH st' (c :: seen) Hr' HF') as [Hnd Hfresh]. split.
    + constructor; [|done]. intros Hin. apply (Hfresh c Hin). set_solver.
    + intros c' [->|Hin]%elem_of_cons; [by apply Hnew|]. specialize (Hfresh c' Hin). set_solver.
  - by apply IH.
Qed.

Lemma nonce_no_replay_witness :
  NoDup (accepted_counters fresh_window [(0, true); (0, true); (300, true); (44, true); (45, true); (45, true)])
  /\ accepted_counters fresh_window [(0, true); (0, true); (300, true); (44, true); (45, true); (45, true)]
     = [0; 300; 45].
Proof.
  split; [|vm_compute; reflexivity].
  apply (nonce_no_replay fresh_window [] _ fresh_repr).
  repeat (constructor; [unfold fits; simpl; lia|]). constructor.
Defined.

(** C11. [od_nonce_check] computes exactly the RFC 4303 decision on the set of
    consumed counters (any counter above the highest accepted one is accepted,
    at any distance; a counter 256 or more behind is out of the window;
    otherwise it is accepted iff it was never consumed), and committing an
    admissible counter adds exactly that counter to the set. *)
Theorem nonce_window_refines (bm : list Z) (last : Z) (seen : list Z) (c : Z) :
  window_repr bm last seen -> fits 64 c ->
  od_nonce_check bm last c = check_spec last seen c /\
  (last < c -> od_nonce_check bm last c = NONCE_OK) /\
  (od_nonce_check bm last c <> NONCE_OUT_OF_WINDOW ->
   window_repr (od_nonce_commit bm last c).1 (od_nonce_commit bm last c).2 (c :: seen)).
Proof.
  intros Hr Hc. rewrite (check_exact _ _ _ _ Hr Hc). split; [done|]. unfold check_spec. split.
  - intros Hlt. destruct (Z.leb_spec OD_NONCE_BACKWARD_BITS (last - c));
      [unfold OD_NONCE_BACKWARD_BITS in *; lia|].
    rewrite decide_False by (by eapply repr_not_above). done.
  - destruct (Z.leb_spec OD_NONCE_BACKWARD_BITS (last - c)); [done|]. intros _.
    pose proof (commit_repr _ _ _ _ Hr Hc ltac:(lia)) as Hcm.
    destruct (od_nonce_commit bm last c). apply Hcm.
Qed.

Lemma nonce_window_refines_witness :
  od_nonce_check fresh_window.1 fresh_window.2 7 = NONCE_OK /\
  window_repr (od_nonce_commit fresh_window.1 fresh_window.2 7).1
              (od_nonce_commit fresh_window.1 fresh_window.2 7).2 [7].
Proof.
  assert (Hf : fits 64 7) by (unfold fits; simpl; lia).
  destruct (nonce_window_refines fresh_window.1 fresh_window.2 [] 7 fresh_repr Hf)
    as (_ & Hok & Hcommit).
  split; [apply Hok; reflexivity|apply Hcommit; vm_compute; discriminate].
Defined.

End NonceWindow.
