(* ===== verification/Ring.v ===== *)
(** Ring buffers with one free slot, shared by the receive ring ([od_rxq.c]) and
    the response queue ([od_txq.c]): the entries between the read index and the
    write index, and how the index updates of the two queues act on them. *)

From S2P Require Import Prelude.

Module Ring.
Section Ring.
Context {A : Type} `{Inhabited A} (N : Z).
Hypothesis HN : 2 <= N.

(** Entries between read index [r] and write index [w]. *)
Definition count (w r : Z) : Z := (w - r) mod N.

Definition next (i : Z) : Z := (i + 1) mod N.

(** The queue a ring represents, oldest entry first. *)
Definition view (slots : list A) (r w : Z) : list A :=
  map (fun k => slots.[(r + Z.of_nat k) mod N]) (seq 0 (Z.to_nat (count w r))).

Definition idx (i : Z) : Prop := 0 <= i < N.

Lemma next_idx i : idx (next i).
Proof using HN. apply Z.mod_pos_bound. lia. Qed.

Lemma count_range w r : 0 <= count w r < N.
Proof using HN. apply Z.mod_pos_bound. lia. Qed.

Lemma count_cases w r :
  idx w -> idx r -> count w r = if r <=? w then w - r else w - r + N.
Proof using HN.
  unfold idx, count. intros. destruct (Z.leb_spec r w).
  - apply Z.mod_small. lia.
  - rewrite <- (Z.mod_add _ 1), Z.mul_1_l by lia. apply Z.mod_small. lia.
Qed.

Lemma next_cases i : idx i -> next i = if i =? N - 1 then 0 else i + 1.
Proof using HN.
  unfold idx, next. intros. destruct (Z.eqb_spec i (N - 1)) as [->|].
  - rewrite Z.sub_add. apply Z.mod_same. lia.
  - apply Z.mod_small. lia.
Qed.

Lemma count_0 w r : idx w -> idx r -> count w r = 0 <-> w = r.
Proof using HN. intros Hw Hr. rewrite count_cases by done. unfold idx in *. split_ifs. Qed.

Lemma count_next_w w r :
  idx w -> idx r -> next w <> r -> count (next w) r = count w r + 1.
Proof using HN.
  intros Hw Hr Hne. pose proof (next_idx w). rewrite !count_cases by done.
  rewrite next_cases in * by done. unfold idx in *.
  destruct (Z.eqb_spec w (N - 1)); split_ifs.
Qed.

Lemma count_next_r w r :
  idx w -> idx r -> w <> r -> count w (next r) = count w r - 1.
Proof using HN.
  intros Hw Hr Hne. pose proof (next_idx r). rewrite !count_cases by done.
  rewrite next_cases in * by done. unfold idx in *.
  destruct (Z.eqb_spec r (N - 1)); split_ifs.
Qed.

(** Full means that the write index is one behind the read index. *)
Lemma count_full w r : idx w -> idx r -> count w r = N - 1 <-> next w = r.
Proof using HN.
  intros Hw Hr. rewrite count_cases, next_cases by done. unfold idx in *.
  destruct (Z.eqb_spec w (N - 1)); split_ifs.
Qed.

Lemma length_view slots r w : Z.of_nat (length (view slots r w)) = count w r.
Proof using HN. unfold view. rewrite length_map, length_seq. pose proof (count_range w r). lia. Qed.

Lemma view_nil slots r w : idx w -> idx r -> view slots r w = [] <-> r = w.
Proof using HN.
  intros. rewrite <- length_zero_iff_nil.
  pose proof (length_view slots r w). pose proof (count_0 w r). intuition lia.
Qed.

Lemma view_cons slots r w :
  idx w -> idx r -> r <> w ->
  view slots r w = slots.[r] :: view slots (next r) w.
Proof using HN.
  intros Hw Hr Hne. unfold view. rewrite count_next_r by auto.
  pose proof (count_range w r). pose proof (count_0 w r Hw Hr).
  replace (Z.to_nat (count w r)) with (S (Z.to_nat (count w r - 1))) by lia.
  simpl. f_equal.
  - f_equal. rewrite Z.add_0_r. apply Z.mod_small. apply Hr.
  - rewrite <- seq_shift, map_map. apply map_ext. intros k. f_equal.
    unfold next. rewrite Zplus_mod_idemp_l. f_equal. lia.
Qed.

(** Writing a slot that holds no entry does not change the queue. *)
Lemma view_set_out slots r w i x :
  idx w -> idx r -> idx i -> count w r <= count i r ->
  view (slots.[i := x]) r w = view slots r w.
Proof using HN.
  intros Hw Hr Hi Hout. unfold view. apply map_ext_in. intros k Hk%in_seq.
  apply get_set_ne; [apply Hi|apply Z.mod_pos_bound; lia|]. intros Heq.
  pose proof (count_range w r).
  assert (count ((r + Z.of_nat k) mod N) r = Z.of_nat k).
  { unfold count. rewrite Zminus_mod_idemp_l.
    replace (r + Z.of_nat k - r) with (Z.of_nat k) by lia. apply Z.mod_small. lia. }
  rewrite <- Heq in *. lia.
Qed.

Lemma view_set_free slots r w x :
  idx w -> idx r -> view (slots.[w := x]) r w = view slots r w.
Proof using HN. intros. apply view_set_out; auto. lia. Qed.

(** Splitting the span between two indices at a third one inside it. *)
Lemma count_split w r h :
  idx w -> idx r -> idx h -> count h r <= count w r -> count w r = count h r + count w h.
Proof using HN. intros Hw Hr Hh. rewrite !count_cases by done. unfold idx in *. split_ifs. Qed.

(** A slot behind the read index is outside the span ahead of it. *)
Lemma count_behind w r i h :
  idx w -> idx r -> idx i -> idx h -> count i h < count r h -> count r h <= count w h ->
  count w r <= count i r.
Proof using HN. intros Hw Hr Hi Hh. rewrite !count_cases by done. unfold idx in *. split_ifs. Qed.

Lemma view_snoc slots r w :
  idx w -> idx r -> next w <> r ->
  view slots r (next w) = view slots r w ++ [slots.[w]].
Proof using HN.
  intros Hw Hr Hne. unfold view. rewrite count_next_w by done.
  pose proof (count_range w r).
  replace (Z.to_nat (count w r + 1)) with (S (Z.to_nat (count w r))) by lia.
  rewrite seq_S, map_app. simpl. do 2 f_equal. f_equal.
  rewrite Z2Nat.id by lia. unfold count. rewrite Zplus_mod_idemp_r.
  replace (r + (w - r)) with w by lia. apply Z.mod_small. apply Hw.
Qed.

(** Moving the read index forward over [k] entries drops them. *)
Lemma view_skip slots r w h :
  idx w -> idx r -> idx h -> count h r <= count w r ->
  view slots h w = drop (Z.to_nat (count h r)) (view slots r w).
Proof using HN.
  intros Hw Hr Hh Hle.
  remember (Z.to_nat (count h r)) as n eqn:En. revert r Hr Hle En.
  induction n as [|n IH]; intros r Hr Hle En; pose proof (count_range h r).
  - rewrite drop_0. assert (h = r) as ->; [|done]. apply count_0; auto. lia.
  - assert (h <> r) by (intros ->; rewrite (proj2 (count_0 r r Hr Hr) eq_refl) in En; done).
    assert (w <> r).
    { intros ->. rewrite (proj2 (count_0 r r Hr Hr) eq_refl) in Hle. lia. }
    rewrite (view_cons slots r w) by auto. cbn [drop]. apply IH.
    + apply next_idx.
    + rewrite !count_next_r by auto. lia.
    + rewrite count_next_r by auto. lia.
Qed.
End Ring.
End Ring.
