(* ===== verification/RxQueue.v ===== *)
(** The BLE receive ring, [shared/core/od_rxq.c]: a single-producer,
    single-consumer ring.  The stack's callback task pushes, the loop task peeks
    and consumes.  The operations are modelled one by one, then as the
    interleaving of the producer's and the consumer's memory accesses. *)

From S2P Require Import Prelude Ring.

Module RxQueue.

Definition OD_BLE_MAX_FRAME : Z := 256.
Definition OD_RXQ_FRAME_MAX : Z := OD_BLE_MAX_FRAME.
Definition OD_RXQ_VALUE_MAX_BLE : Z := OD_BLE_MAX_FRAME - 3.
Definition OD_RXQ_SLOTS : Z := 34.

(** [od_rxq_item_t]. *)
Record od_rxq_item := { rx_data : bytes; rx_len : Z; rx_tag : Z }.

Definition zero_item : od_rxq_item :=
  {| rx_data := replicate (Z.to_nat OD_RXQ_FRAME_MAX) 0; rx_len := 0; rx_tag := 0 |}.

#[export] Instance od_rxq_item_inhabited : Inhabited od_rxq_item := populate zero_item.

(** [s_rx], [s_head], [s_tail]. *)
Record rxq := { s_rx : list od_rxq_item; s_head : Z; s_tail : Z }.

Definition rxq_init : rxq :=
  {| s_rx := replicate (Z.to_nat OD_RXQ_SLOTS) zero_item; s_head := 0; s_tail := 0 |}.

(** [(uint8_t)((head - tail + OD_RXQ_SLOTS) % OD_RXQ_SLOTS)] *)
Definition occupancy (head tail : Z) : Z :=
  u8 (u32 (head - tail + OD_RXQ_SLOTS) mod OD_RXQ_SLOTS).

Definition ring_next (i : Z) : Z := u8 (u32 (i + 1) mod OD_RXQ_SLOTS).

(** [memcpy(dst, src, n)] over the first [n] bytes of [dst]. *)
Definition memcpy (dst src : bytes) (n : Z) : bytes :=
  take (Z.to_nat n) src ++ drop (Z.to_nat n) dst.

Definition write_data (it : od_rxq_item) (data : bytes) (n : Z) : od_rxq_item :=
  {| rx_data := memcpy (rx_data it) data n; rx_len := rx_len it; rx_tag := rx_tag it |}.
Definition write_len (it : od_rxq_item) (n : Z) : od_rxq_item :=
  {| rx_data := rx_data it; rx_len := n; rx_tag := rx_tag it |}.
Definition write_tag (it : od_rxq_item) (tag : Z) : od_rxq_item :=
  {| rx_data := rx_data it; rx_len := rx_len it; rx_tag := tag |}.

Definition with_slot (q : rxq) (i : Z) (f : od_rxq_item -> od_rxq_item) : rxq :=
  {| s_rx := (s_rx q).[i := f (s_rx q).[i]]; s_head := s_head q; s_tail := s_tail q |}.
Definition with_head (q : rxq) (h : Z) : rxq :=
  {| s_rx := s_rx q; s_head := h; s_tail := s_tail q |}.
Definition with_tail (q : rxq) (t : Z) : rxq :=
  {| s_rx := s_rx q; s_head := s_head q; s_tail := t |}.

(** [od_rxq_push]; [data = None] is a null pointer. *)
Definition od_rxq_push (q : rxq) (data : option bytes) (dlen tag : Z) : rxq * bool :=
  match data with
  | None => (q, false)
  | Some d =>
      if dlen =? 0 then (q, false)
      else if OD_RXQ_VALUE_MAX_BLE <? dlen then (q, false)
      else
        let head := s_head q in
        let tail := s_tail q in
        let next := ring_next head in
        if next =? tail then (q, false)
        else
          let q := with_slot q head (fun it => write_data it d dlen) in
          let q := with_slot q head (fun it => write_len it dlen) in
          let q := with_slot q head (fun it => write_tag it tag) in
          (with_head q next, true)
  end.

(** [od_rxq_peek]: the tail slot, or [None] for an empty ring. *)
Definition od_rxq_peek (q : rxq) : option od_rxq_item :=
  if s_tail q =? s_head q then None else Some (s_rx q).[s_tail q].

Definition od_rxq_consume (q : rxq) : rxq :=
  if s_tail q =? s_head q then q else with_tail q (ring_next (s_tail q)).

(** [od_rxq_discard_stale]: the callback may observe and change the connection
    table [E], so it is threaded through; [None] is a null callback. Each round
    of the loop consumes an entry, so [OD_RXQ_SLOTS] rounds are enough. *)
Fixpoint discard_loop {E} (fuel : nat) (is_live : E -> Z -> bool * E) (q : rxq) (env : E)
    (dropped : Z) : option (rxq * E * Z) :=
  match fuel with
  | O => None
  | S fuel =>
      match od_rxq_peek q with
      | None => Some (q, env, dropped)
      | Some item =>
          let '(live, env) := is_live env (rx_tag item) in
          if live then Some (q, env, dropped)
          else discard_loop fuel is_live (od_rxq_consume q) env (u8 (dropped + 1))
      end
  end.

Definition od_rxq_discard_stale {E} (is_live : option (E -> Z -> bool * E)) (q : rxq) (env : E)
  : option (rxq * E * Z) :=
  match is_live with
  | None => Some (q, env, 0)
  | Some f => discard_loop (Z.to_nat OD_RXQ_SLOTS) f q env 0
  end.

Definition od_rxq_head (q : rxq) : Z := s_head q.
Definition od_rxq_depth (q : rxq) : Z := occupancy (s_head q) (s_tail q).
Definition od_rxq_pending (q : rxq) : bool := negb (s_tail q =? s_head q).

Definition od_rxq_reset (q : rxq) : rxq * Z :=
  if s_tail q =? s_head q then (q, 0)
  else (with_tail q (s_head q), occupancy (s_head q) (s_tail q)).

(** ** The interleaved model

    The producer's accesses to the ring: load the indices and pass the full
    test, write the payload, the length and the tag of slot [head], publish
    [head].  The consumer's: test for emptiness then store the tail, or load the
    head then store it into the tail.  The release store of an index and the
    acquire load of it make each micro step see the latest published values. *)

Inductive producer :=
| P_idle
| P_loaded (d : bytes) (n tag head : Z)
| P_data (d : bytes) (n tag head : Z)
| P_len (d : bytes) (n tag head : Z)
| P_tag (d : bytes) (n tag head : Z).

Inductive consumer :=
| C_idle
| C_consuming (tail : Z)
| C_resetting (tail head : Z).

(** A frame as the dispatcher sees it. *)
Definition frame : Type := bytes * Z.
Definition frame_of (it : od_rxq_item) : frame := (take (Z.to_nat (rx_len it)) (rx_data it), rx_tag it).

(** [fifo] is the abstract queue: frames published and not yet consumed. *)
Record sys := { ring : rxq; prod : producer; cons : consumer; fifo : list frame }.

Definition sys_init : sys := {| ring := rxq_init; prod := P_idle; cons := C_idle; fifo := [] |}.

Inductive step : sys -> sys -> Prop :=
| S_load q c g d n tag :
    0 < n <= OD_RXQ_VALUE_MAX_BLE -> n <= len d -> ring_next (s_head q) <> s_tail q ->
    step {| ring := q; prod := P_idle; cons := c; fifo := g |}
         {| ring := q; prod := P_loaded d n tag (s_head q); cons := c; fifo := g |}
| S_data q c g d n tag h :
    step {| ring := q; prod := P_loaded d n tag h; cons := c; fifo := g |}
         {| ring := with_slot q h (fun it => write_data it d n);
            prod := P_data d n tag h; cons := c; fifo := g |}
| S_len q c g d n tag h :
    step {| ring := q; prod := P_data d n tag h; cons := c; fifo := g |}
         {| ring := with_slot q h (fun it => write_len it n);
            prod := P_len d n tag h; cons := c; fifo := g |}
| S_tag q c g d n tag h :
    step {| ring := q; prod := P_len d n tag h; cons := c; fifo := g |}
         {| ring := with_slot q h (fun it => write_tag it tag);
            prod := P_tag d n tag h; cons := c; fifo := g |}
| S_publish q c g d n tag h :
    step {| ring := q; prod := P_tag d n tag h; cons := c; fifo := g |}
         {| ring := with_head q (ring_next h); prod := P_idle; cons := c;
            fifo := g ++ [(take (Z.to_nat n) d, tag)] |}
| S_consume_check q p g :
    s_tail q <> s_head q ->
    step {| ring := q; prod := p; cons := C_idle; fifo := g |}
         {| ring := q; prod := p; cons := C_consuming (s_tail q); fifo := g |}
| S_consume q p g t :
    step {| ring := q; prod := p; cons := C_consuming t; fifo := g |}
         {| ring := with_tail q (ring_next t); prod := p; cons := C_idle; fifo := tail g |}
| S_reset_load q p g :
    step {| ring := q; prod := p; cons := C_idle; fifo := g |}
         {| ring := q; prod := p; cons := C_resetting (s_tail q) (s_head q); fifo := g |}
| S_reset q p g t h :
    step {| ring := q; prod := p; cons := C_resetting t h; fifo := g |}
         {| ring := with_tail q h; prod := p; cons := C_idle;
            fifo := drop (Z.to_nat (occupancy h t)) g |}.

Inductive reachable : sys -> Prop :=
| reach_init : reachable sys_init
| reach_step s s' : reachable s -> step s s' -> reachable s'.

(** ** Lemmas *)

Abbreviation N := OD_RXQ_SLOTS.

Definition rxq_ok (q : rxq) : Prop :=
  len (s_rx q) = N /\ Ring.idx N (s_head q) /\ Ring.idx N (s_tail q).

(** The frames waiting in the ring, oldest first. *)
Definition pending (q : rxq) : list frame :=
  map frame_of (Ring.view N (s_rx q) (s_tail q) (s_head q)).

Lemma N_ge_2 : 2 <= N. Proof. done. Qed.

Lemma occupancy_count h t : Ring.idx N h -> Ring.idx N t -> occupancy h t = Ring.count N h t.
Proof.
  unfold Ring.idx. intros. rewrite Ring.count_cases by done.
  unfold occupancy, OD_RXQ_SLOTS in *. destruct (Z.leb_spec t h); wrap_lia.
Qed.

Lemma ring_next_next i : Ring.idx N i -> ring_next i = Ring.next N i.
Proof.
  unfold Ring.idx. intros. rewrite Ring.next_cases by done.
  unfold ring_next, OD_RXQ_SLOTS in *. destruct (Z.eqb_spec i (34 - 1)); wrap_lia.
Qed.

Lemma ring_next_idx i : Ring.idx N i -> Ring.idx N (ring_next i).
Proof. intros. rewrite ring_next_next by done. by apply Ring.next_idx. Qed.

Create HintDb rxq.
#[export] Hint Resolve N_ge_2 ring_next_idx Ring.next_idx : rxq.

Lemma init_ok : rxq_ok rxq_init.
Proof. unfold rxq_ok, Ring.idx. by vm_compute. Qed.

Lemma pending_init : pending rxq_init = [].
Proof. reflexivity. Qed.

Lemma length_pending q : rxq_ok q -> len (pending q) = Ring.count N (s_head q) (s_tail q).
Proof. intros _. unfold pending. rewrite length_map. by apply Ring.length_view. Qed.

Lemma pending_lt q : rxq_ok q -> len (pending q) < N.
Proof. intros Hq. rewrite length_pending by done. by apply Ring.count_range. Qed.

Lemma full_iff q :
  rxq_ok q -> ring_next (s_head q) = s_tail q <-> len (pending q) = N - 1.
Proof.
  intros Hq. rewrite length_pending by done. destruct Hq as (_ & Hh & Ht).
  rewrite ring_next_next by done. by rewrite Ring.count_full.
Qed.

Lemma with_slot_ok q i f : rxq_ok q -> rxq_ok (with_slot q i f).
Proof. intros (Hl & Hh & Ht). split; [|done]. simpl. by rewrite len_set. Qed.

Lemma pending_with_slot q f : rxq_ok q -> pending (with_slot q (s_head q) f) = pending q.
Proof.
  intros (Hl & Hh & Ht). unfold pending. simpl. by rewrite Ring.view_set_free.
Qed.

Lemma with_slot_get q i f : 0 <= i < len (s_rx q) ->
  (s_rx (with_slot q i f)).[i] = f (s_rx q).[i].
Proof. intros. simpl. by rewrite get_set_eq. Qed.

Lemma pending_publish q d n tag :
  rxq_ok q -> ring_next (s_head q) <> s_tail q ->
  frame_of (s_rx q).[s_head q] = (take (Z.to_nat n) d, tag) ->
  rxq_ok (with_head q (ring_next (s_head q))) /\
  pending (with_head q (ring_next (s_head q))) = pending q ++ [(take (Z.to_nat n) d, tag)].
Proof.
  intros (Hl & Hh & Ht) Hne Hf. split; [split; [done|split; simpl; auto with rxq]|].
  unfold pending. simpl. rewrite ring_next_next in * by done.
  rewrite Ring.view_snoc by done. rewrite map_app. simpl. by rewrite Hf.
Qed.

Lemma frame_of_written it d n tag :
  0 <= n <= len d ->
  frame_of (write_tag (write_len (write_data it d n) n) tag) = (take (Z.to_nat n) d, tag).
Proof.
  intros. unfold frame_of, memcpy. simpl. f_equal. unfold memcpy.
  rewrite take_app_length'; [done|]. rewrite length_take. lia.
Qed.

Lemma pending_consume q :
  rxq_ok q -> s_tail q <> s_head q ->
  rxq_ok (with_tail q (ring_next (s_tail q))) /\
  pending q = frame_of (s_rx q).[s_tail q] :: pending (with_tail q (ring_next (s_tail q))).
Proof.
  intros (Hl & Hh & Ht) Hne. split; [split; [done|split; simpl; auto with rxq]|].
  unfold pending. simpl. rewrite ring_next_next by done.
  by rewrite (Ring.view_cons N N_ge_2 (s_rx q)).
Qed.

Lemma pending_skip q h :
  rxq_ok q -> Ring.idx N h -> Ring.count N h (s_tail q) <= Ring.count N (s_head q) (s_tail q) ->
  rxq_ok (with_tail q h) /\ pending (with_tail q h) = drop (Z.to_nat (occupancy h (s_tail q))) (pending q).
Proof.
  intros (Hl & Hh & Ht) Hi Hc. split; [done|].
  unfold pending. simpl. rewrite occupancy_count by done.
  rewrite (Ring.view_skip N N_ge_2 (s_rx q) (s_tail q)) by done. symmetry. apply skipn_map.
Qed.

Lemma pending_nil q : rxq_ok q -> pending q = [] <-> s_tail q = s_head q.
Proof.
  intros (Hl & Hh & Ht). unfold pending.
  rewrite <- (Ring.view_nil N N_ge_2 (s_rx q)) by done.
  split; [apply map_eq_nil|by intros ->].
Qed.

(** ** The bounded FIFO the ring promises *)

Definition spec_push (l : list frame) (d : option bytes) (n tag : Z) : list frame * bool :=
  match d with
  | Some d =>
      if (0 <? n) && (n <=? OD_RXQ_VALUE_MAX_BLE) && (len l <? N - 1)
      then (l ++ [(take (Z.to_nat n) d, tag)], true) else (l, false)
  | None => (l, false)
  end.

Lemma push_refines q d n tag :
  rxq_ok q -> 0 <= n -> (forall b, d = Some b -> n <= len b) ->
  let '(q', ok) := od_rxq_push q d n tag in
  rxq_ok q' /\ (pending q', ok) = spec_push (pending q) d n tag.
Proof.
  intros Hq Hn Hd. unfold od_rxq_push, spec_push. destruct d as [d|]; [|done].
  specialize (Hd d eq_refl). pose proof (pending_lt q Hq).
  destruct (Z.eqb_spec n 0) as [->|]; [done|].
  destruct (Z.ltb_spec OD_RXQ_VALUE_MAX_BLE n), (Z.ltb_spec 0 n),
    (Z.leb_spec n OD_RXQ_VALUE_MAX_BLE); try lia; simpl; [done|].
  pose proof (full_iff q Hq).
  destruct (Z.eqb_spec (ring_next (s_head q)) (s_tail q)), (Z.ltb_spec (len (pending q)) (N - 1));
    try (exfalso; intuition lia); [done|].
  set (q3 := with_slot _ (s_head q) (fun it => write_tag it tag)).
  assert (Hidx : 0 <= s_head q < len (s_rx q)) by (destruct Hq as (-> & ? & ?); done).
  assert (Hq3 : rxq_ok q3) by (by do 3 apply with_slot_ok).
  destruct (pending_publish q3 d n tag Hq3) as [Hok Hp]; [done| |].
  { unfold q3. simpl (s_head _). rewrite !with_slot_get by (simpl; rewrite ?len_set; done).
    apply frame_of_written. lia. }
  split; [exact Hok|]. f_equal. etransitivity; [exact Hp|]. f_equal.
  unfold q3. by rewrite (pending_with_slot (with_slot (with_slot q _ _) _ _)),
    (pending_with_slot (with_slot q _ _)), pending_with_slot by (auto using with_slot_ok).
Qed.

Lemma peek_refines q : rxq_ok q -> frame_of <$> od_rxq_peek q = head (pending q).
Proof.
  intros Hq. unfold od_rxq_peek. destruct (Z.eqb_spec (s_tail q) (s_head q)).
  - by rewrite (proj2 (pending_nil q Hq)).
  - by destruct (pending_consume q Hq) as [_ ->].
Qed.

Lemma consume_refines q :
  rxq_ok q -> rxq_ok (od_rxq_consume q) /\ pending (od_rxq_consume q) = tail (pending q).
Proof.
  intros Hq. unfold od_rxq_consume. destruct (Z.eqb_spec (s_tail q) (s_head q)).
  - by rewrite (proj2 (pending_nil q Hq)).
  - destruct (pending_consume q Hq) as [? ->]; done.
Qed.

Lemma reset_refines q :
  rxq_ok q ->
  let '(q', dropped) := od_rxq_reset q in
  rxq_ok q' /\ pending q' = [] /\ dropped = len (pending q) /\
  s_rx q' = s_rx q /\ s_head q' = s_head q.
Proof.
  intros Hq. pose proof (pending_nil q Hq). unfold od_rxq_reset.
  destruct (Z.eqb_spec (s_tail q) (s_head q)) as [E|E].
  - rewrite (proj2 (pending_nil q Hq)) by done. done.
  - rewrite length_pending by done. destruct Hq as (Hl & Hh & Ht).
    rewrite occupancy_count by done.
    split; [done|]. split; [|done].
    by apply (pending_nil (with_tail q (s_head q)) (conj Hl (conj Hh Hh))).
Qed.

(** The stale-frame drain on the abstract queue. *)
Fixpoint spec_discard {E} (is_live : E -> Z -> bool * E) (env : E) (l : list frame)
  : list frame * E * Z :=
  match l with
  | [] => ([], env, 0)
  | f :: l' =>
      let '(live, env') := is_live env f.2 in
      if live then (l, env', 0)
      else let '(r, e, n) := spec_discard is_live env' l' in (r, e, n + 1)
  end.

Lemma discard_loop_refines {E} (is_live : E -> Z -> bool * E) fuel q env k :
  rxq_ok q -> (length (pending q) < fuel)%nat -> 0 <= k -> k + len (pending q) < 256 ->
  exists q' env' m,
    discard_loop fuel is_live q env k = Some (q', env', k + m) /\ rxq_ok q' /\
    spec_discard is_live env (pending q) = (pending q', env', m).
Proof.
  revert q env k. induction fuel as [|fuel IH]; intros q env k Hq Hf Hk Hb; [lia|]. simpl.
  pose proof (peek_refines q Hq) as Hp. destruct (consume_refines q Hq) as [Hc Hpc].
  destruct (od_rxq_peek q) as [it|]; simpl in Hp.
  - destruct (pending q) as [|f l] eqn:El; simpl in *; [done|]. injection Hp as <-. simpl.
    destruct (is_live env (rx_tag it)) as [[] env1].
    + exists q, env1, 0. rewrite Z.add_0_r, El. done.
    + rewrite wrap_id by wrap_lia.
      destruct (IH (od_rxq_consume q) env1 (k + 1)) as (q' & env' & m & -> & ? & Hs);
        rewrite ?Hpc; [done|lia|lia|lia|].
      exists q', env', (m + 1). rewrite <- Hpc, Hs. split; [do 2 f_equal; lia|done].
  - exists q, env, 0. rewrite Z.add_0_r. destruct (pending q); [|done]. done.
Qed.

(** ** The interleaved model's invariant *)

Definition slot_written (q : rxq) (d : bytes) (n : Z) : Prop :=
  take (Z.to_nat n) (rx_data (s_rx q).[s_head q]) = take (Z.to_nat n) d.

Definition pushing (q : rxq) (d : bytes) (n h : Z) : Prop :=
  h = s_head q /\ ring_next h <> s_tail q /\ 0 < n <= len d.

Definition producer_ok (q : rxq) (p : producer) : Prop :=
  match p with
  | P_idle => True
  | P_loaded d n tag h => pushing q d n h
  | P_data d n tag h => pushing q d n h /\ slot_written q d n
  | P_len d n tag h => pushing q d n h /\ slot_written q d n /\ rx_len (s_rx q).[h] = n
  | P_tag d n tag h => pushing q d n h /\ frame_of (s_rx q).[h] = (take (Z.to_nat n) d, tag)
  end.

Definition consumer_ok (q : rxq) (c : consumer) : Prop :=
  match c with
  | C_idle => True
  | C_consuming t => t = s_tail q /\ s_tail q <> s_head q
  | C_resetting t h =>
      t = s_tail q /\ Ring.idx N h /\ Ring.count N h t <= Ring.count N (s_head q) t
  end.

Definition sys_ok (s : sys) : Prop :=
  rxq_ok (ring s) /\ pending (ring s) = fifo s /\
  producer_ok (ring s) (prod s) /\ consumer_ok (ring s) (cons s).

(** The producer's slot is not touched, and the ring never becomes full, when
    the consumer moves the tail towards the head. *)
Lemma producer_ok_tail q p t :
  rxq_ok q -> Ring.idx N t -> Ring.count N (s_head q) t <= Ring.count N (s_head q) (s_tail q) ->
  producer_ok q p -> producer_ok (with_tail q t) p.
Proof.
  intros (Hl & Hh & Ht) Hi Hc.
  assert (Hfull : ring_next (s_head q) <> s_tail q -> ring_next (s_head q) <> t).
  { rewrite !ring_next_next, <- !Ring.count_full by done.
    pose proof (Ring.count_range N N_ge_2 (s_head q) (s_tail q)). lia. }
  destruct p; unfold producer_ok, pushing, slot_written; simpl; intuition (subst; auto).
Qed.

Lemma count_next_tail q :
  rxq_ok q -> s_tail q <> s_head q ->
  Ring.count N (s_head q) (ring_next (s_tail q)) <= Ring.count N (s_head q) (s_tail q).
Proof.
  intros (Hl & Hh & Ht) Hne. rewrite ring_next_next, (Ring.count_next_r N N_ge_2) by auto. lia.
Qed.

Lemma count_skip q h :
  rxq_ok q -> Ring.idx N h ->
  Ring.count N h (s_tail q) <= Ring.count N (s_head q) (s_tail q) ->
  Ring.count N (s_head q) h <= Ring.count N (s_head q) (s_tail q).
Proof.
  intros (Hl & Hh & Ht) Hi. rewrite !Ring.count_cases by done. unfold Ring.idx in *. split_ifs.
Qed.

Lemma consumer_ok_publish q c :
  rxq_ok q -> ring_next (s_head q) <> s_tail q ->
  consumer_ok q c -> consumer_ok (with_head q (ring_next (s_head q))) c.
Proof.
  intros (Hl & Hh & Ht) Hne. destruct c; simpl; [done| |].
  - intros [-> Hc]. split; [done|]. congruence.
  - intros (-> & Hi & Hc). repeat split; try apply Hi. rewrite ring_next_next in * by done.
    rewrite Ring.count_next_w by done. lia.
Qed.

Lemma head_bound q : rxq_ok q -> 0 <= s_head q < len (s_rx q).
Proof. intros (-> & Hh & _). exact Hh. Qed.

(** Writing the producer's own slot is invisible to the consumer. *)
Lemma slot_step q p c g f :
  rxq_ok q -> pending q = g -> consumer_ok q c ->
  producer_ok (with_slot q (s_head q) f) p ->
  sys_ok {| ring := with_slot q (s_head q) f; prod := p; cons := c; fifo := g |}.
Proof.
  intros Hq Hp Hc Hpr. split; [by apply with_slot_ok|]. split; [by simpl; rewrite pending_with_slot|].
  split; [done|]. by destruct c.
Qed.

Lemma step_preserves s s' : step s s' -> sys_ok s -> sys_ok s'.
Proof.
  intros Hstep (Hq & Hp & Hpr & Hco). destruct Hstep; simpl in *.
  - (* load *) split; [done|]. split; [done|]. split; [|done]. split; [done|]. split; [done|lia].
  - (* data *) destruct Hpr as (-> & Hne & Hn). pose proof (head_bound q Hq).
    apply slot_step; try done. split; [done|].
    unfold slot_written. simpl (s_head _). rewrite with_slot_get by done. simpl. unfold memcpy.
    rewrite take_app_length'; [done|]. rewrite length_take. lia.
  - (* len *) destruct Hpr as ((-> & Hne & Hn) & Hw). pose proof (head_bound q Hq).
    apply slot_step; try done. split; [done|].
    unfold slot_written. simpl (s_head _). rewrite !with_slot_get by done. done.
  - (* tag *) destruct Hpr as ((-> & Hne & Hn) & Hw & Hlen). pose proof (head_bound q Hq).
    apply slot_step; try done. split; [done|].
    rewrite with_slot_get by done. unfold frame_of. simpl. by rewrite Hlen, Hw.
  - (* publish *) destruct Hpr as ((-> & Hne & Hn) & Hf).
    destruct (pending_publish q d n tag Hq Hne Hf) as [Hok Hpp].
    split; [done|]. split; [etransitivity; [exact Hpp|by rewrite Hp]|]. split; [done|].
    by apply consumer_ok_publish.
  - by split; [done|split; [done|split]].
  - (* consume *) destruct Hco as [-> Hne]. destruct (pending_consume q Hq Hne) as [Hok Hpp].
    split; [done|]. split; [simpl; by rewrite <- Hp, Hpp|]. split; [|done].
    apply producer_ok_tail; auto using count_next_tail. apply ring_next_idx, Hq.
  - split; [done|]. split; [done|]. split; [done|]. split; [done|]. split; [apply Hq|apply Z.le_refl].
  - (* reset *) destruct Hco as (-> & Hi & Hc). destruct (pending_skip q h Hq Hi Hc) as [Hok Hpp].
    split; [done|]. split; [etransitivity; [exact Hpp|by rewrite Hp]|]. split; [|done].
    apply producer_ok_tail; auto using count_skip.
Qed.

Lemma reachable_ok s : reachable s -> sys_ok s.
Proof.
  induction 1; [|eauto using step_preserves].
  repeat split; try done; apply init_ok.
Qed.

(** ** Theorems *)

(** C15. For every interleaving of the producer's and the consumer's memory
    accesses, the ring holds exactly the frames published and not yet consumed,
    in order, and what [od_rxq_peek] hands out is the oldest of them, whole: the
    bytes, length and tag that one [od_rxq_push] wrote, even while another push
    is in flight. *)
Theorem rxq_interleaving_fifo (s : sys) :
  reachable s ->
  pending (ring s) = fifo s /\ frame_of <$> od_rxq_peek (ring s) = head (fifo s) /\
  len (fifo s) <= N - 1.
Proof.
  intros (Hq & Hp & _)%reachable_ok. rewrite <- Hp. split; [done|]. split; [by apply peek_refines|].
  pose proof (pending_lt _ Hq). lia.
Qed.

(** Run one at a time, the operations implement a bounded FIFO of at most
    33 frames: a push of 1..253 bytes appends while there is room and is refused
    without effect otherwise, peek and consume take the oldest frame, and a reset
    empties the ring without writing a slot or the head. *)
Theorem rxq_refines_fifo (q : rxq) (d : option bytes) (n tag : Z) :
  rxq_ok q -> 0 <= n -> (forall b, d = Some b -> n <= len b) ->
  (let '(q', ok) := od_rxq_push q d n tag in
   rxq_ok q' /\ (pending q', ok) = spec_push (pending q) d n tag) /\
  frame_of <$> od_rxq_peek q = head (pending q) /\
  (rxq_ok (od_rxq_consume q) /\ pending (od_rxq_consume q) = tail (pending q)) /\
  (let '(q', dropped) := od_rxq_reset q in
   rxq_ok q' /\ pending q' = [] /\ dropped = len (pending q) /\
   s_rx q' = s_rx q /\ s_head q' = s_head q).
Proof.
  intros Hq Hn Hd. split; [by apply push_refines|]. split; [by apply peek_refines|].
  split; [by apply consume_refines|by apply reset_refines].
Qed.

(** [od_rxq_discard_stale] terminates and removes exactly the leading frames
    whose writer the callback reports dead, asking afresh for each frame, stops
    at the first live one, and returns how many it dropped. *)
Theorem rxq_discard_stale_spec {E} (is_live : E -> Z -> bool * E) (q : rxq) (env : E) :
  rxq_ok q ->
  exists q' env' n,
    od_rxq_discard_stale (Some is_live) q env = Some (q', env', n) /\ rxq_ok q' /\
    spec_discard is_live env (pending q) = (pending q', env', n).
Proof.
  intros Hq. pose proof (pending_lt q Hq) as Hlt. unfold OD_RXQ_SLOTS in Hlt.
  destruct (discard_loop_refines is_live (Z.to_nat OD_RXQ_SLOTS) q env 0) as (q' & e & m & H & ? & ?);
    [done|unfold OD_RXQ_SLOTS; lia|lia|lia|]. exists q', e, m. done.
Qed.

(** *** Witnesses *)

Definition demo_rxq : rxq :=
  (od_rxq_push (od_rxq_push (od_rxq_push rxq_init (Some [1; 2; 3]) 3 7).1 (Some [4]) 1 7).1
     (Some [5; 6]) 2 9).1.

Lemma demo_rxq_ok : rxq_ok demo_rxq.
Proof. unfold rxq_ok, Ring.idx. by vm_compute. Qed.

Lemma rxq_interleaving_fifo_witness :
  exists s, reachable s /\ fifo s = [([5; 6], 3)] /\
            frame_of <$> od_rxq_peek (ring s) = Some ([5; 6], 3).
Proof.
  assert (H1 : ring_next (s_head rxq_init) <> s_tail rxq_init) by (vm_compute; discriminate).
  eassert (Hr : reachable _).
  { eapply reach_step; [|apply S_publish]. eapply reach_step; [|apply S_tag].
    eapply reach_step; [|apply S_len]. eapply reach_step; [|apply S_data].
    eapply reach_step; [apply reach_init|].
    apply (S_load rxq_init C_idle [] [5; 6] 2 3);
      [unfold OD_RXQ_VALUE_MAX_BLE, OD_BLE_MAX_FRAME; lia|simpl; lia|exact H1]. }
  eexists. split; [exact Hr|]. split; [reflexivity|].
  destruct (rxq_interleaving_fifo _ Hr) as (_ & Hpk & _). exact Hpk.
Defined.

Lemma rxq_refines_fifo_witness :
  pending (od_rxq_push demo_rxq (Some [8; 8]) 2 1).1 =
    [([1; 2; 3], 7); ([4], 7); ([5; 6], 9); ([8; 8], 1)].
Proof.
  assert (Hd : forall b : bytes, Some [8; 8] = Some b -> 2 <= len b)
    by (intros b [= <-]; simpl; lia).
  pose proof (rxq_refines_fifo demo_rxq (Some [8; 8]) 2 1 demo_rxq_ok ltac:(lia) Hd) as [Hp _].
  destruct (od_rxq_push demo_rxq (Some [8; 8]) 2 1) as [q' ok]. simpl. destruct Hp as [_ Hp].
  apply (f_equal fst) in Hp. etransitivity; [exact Hp|]. vm_compute. reflexivity.
Defined.

Lemma rxq_discard_stale_spec_witness :
  exists q' n, od_rxq_discard_stale (Some (fun (e : unit) tag => (tag =? 9, e))) demo_rxq tt
               = Some (q', tt, n) /\ pending q' = [([5; 6], 9)] /\ n = 2.
Proof.
  destruct (rxq_discard_stale_spec (fun (e : unit) tag => (tag =? 9, e)) demo_rxq tt demo_rxq_ok)
    as (q' & [] & n & H1 & _ & H2).
  exists q', n. split; [exact H1|]. vm_compute in H2. injection H2 as H2 H3. split; [|by subst].
  vm_compute. congruence.
Defined.

End RxQueue.
