(* ===== verification/Hal.v ===== *)
(** The hardware-abstraction interfaces the shared code binds to at link time,
    as type classes over the state [E] of the world outside [shared/]:
    [shared/hal/od_hal_radio.h], [shared/hal/od_hal_crypto.h] and the callback of
    [od_txq.h].  Every operation may observe and change [E], so nothing is
    assumed about when a link dies or whether the engine fails. *)

From S2P Require Import Prelude.

Module Hal.

(** [od_origin_t]. *)
Inductive od_origin := OD_ORIGIN_BLE | OD_ORIGIN_LAN_PLAIN | OD_ORIGIN_LAN_TLS.

#[export] Instance od_origin_eq_dec : EqDecision od_origin.
Proof. solve_decision. Defined.

(** [od_radio_result_t]. *)
Inductive od_radio_result := OD_RADIO_SENT | OD_RADIO_RETRY | OD_RADIO_GONE | OD_RADIO_ERROR.

#[export] Instance od_radio_result_eq_dec : EqDecision od_radio_result.
Proof. solve_decision. Defined.

(** [od_reply_t]: where a reply is going. *)
Record od_reply_t := { rp_origin : od_origin; rp_tag : Z }.

(** The radio, and the target's dropped-entry callback. *)
Class Radio (E : Type) := {
  od_hal_radio_send : E -> od_origin -> Z -> bytes -> od_radio_result * E;
  od_hal_radio_tag_is_live : E -> od_origin -> Z -> bool * E;
  od_txq_app_dropped : E -> od_reply_t -> Z -> od_radio_result -> E;
}.

(** [enum od_hal_crypto_status]. *)
Inductive od_hal_crypto_status :=
| OD_HAL_CRYPTO_OK | OD_HAL_CRYPTO_AUTH_FAILED | OD_HAL_CRYPTO_UNSUPPORTED | OD_HAL_CRYPTO_ERROR.

#[export] Instance od_hal_crypto_status_eq_dec : EqDecision od_hal_crypto_status.
Proof. solve_decision. Defined.

Definition OD_HAL_CRYPTO_TAG_LEN : Z := 12.

(** The cryptography engine.  An operation returns its status and, in the
    buffer the caller lent, its output; the output is meaningful only with
    [OD_HAL_CRYPTO_OK]. *)
Class Crypto (E : Type) := {
  od_hal_crypto_key_set : E -> Z -> bytes -> od_hal_crypto_status * E;
  od_hal_crypto_key_clear : E -> Z -> E;
  (* slot, nonce, aad, plaintext *)
  od_hal_crypto_ccm_encrypt : E -> Z -> bytes -> bytes -> bytes -> od_hal_crypto_status * bytes * E;
  (* slot, nonce, aad, ciphertext and tag *)
  od_hal_crypto_ccm_decrypt : E -> Z -> bytes -> bytes -> bytes -> od_hal_crypto_status * bytes * E;
  od_hal_crypto_cmac : E -> bytes -> bytes -> od_hal_crypto_status * bytes * E;
  od_hal_crypto_aes_ecb : E -> bytes -> bytes -> od_hal_crypto_status * bytes * E;
  od_hal_crypto_random : E -> Z -> od_hal_crypto_status * bytes * E;
}.

End Hal.
