(* ===== verification/TxQueue.v ===== *)
(** The response queue, [shared/core/od_txq.c]: a ring of finished frames, the
    capacity reservation taken before a handler runs, and the drain. *)

From S2P Require Import Prelude Ring Hal.
Import Hal.

Module TxQueue.

Definition OD_TX_FRAME_MAX : Z := 256.
Definition OD_TXQ_VALUE_MAX_BLE : Z := 256 - 3.
Definition OD_TXQ_SLOTS : Z := 34.

(** [od_txq_status_t]. *)
Inductive od_txq_status :=
| OD_TXQ_OK | OD_TXQ_FULL | OD_TXQ_GONE | OD_TXQ_BUSY | OD_TXQ_TIMEOUT
| OD_TXQ_TOO_LARGE | OD_TXQ_SEAL_FAILED | OD_TXQ_INVARIANT.

#[export] Instance od_txq_status_eq_dec : EqDecision od_txq_status.
Proof. solve_decision. Defined.

(** [od_tx_reservation_t]. *)
Record od_tx_reservation := { remaining : Z; gen : Z }.

(** [struct od_txq_entry]. *)
Record od_txq_entry := { e_origin : od_origin; e_tag : Z; e_len : Z; e_data : bytes }.

Definition zero_entry : od_txq_entry :=
  {| e_origin := OD_ORIGIN_BLE; e_tag := 0; e_len := 0;
     e_data := replicate (Z.to_nat OD_TX_FRAME_MAX) 0 |}.

#[export] Instance od_txq_entry_inhabited : Inhabited od_txq_entry := populate zero_entry.

(** [s_ring], [s_head], [s_tail], [s_reserved], [s_gen]. *)
Record txq := { s_ring : list od_txq_entry; s_head : Z; s_tail : Z; s_reserved : Z; s_gen : Z }.

Definition zero_ring : list od_txq_entry := replicate (Z.to_nat OD_TXQ_SLOTS) zero_entry.

Definition txq_init : txq :=
  {| s_ring := zero_ring; s_head := 0; s_tail := 0; s_reserved := 0; s_gen := 0 |}.

Definition ring_next (i : Z) : Z := u16 (u32 (i + 1) mod OD_TXQ_SLOTS).

Definition queued (q : txq) : Z :=
  u16 (u32 (s_tail q + OD_TXQ_SLOTS - s_head q) mod OD_TXQ_SLOTS).

Definition free_slots (q : txq) : Z := u16 (OD_TXQ_SLOTS - 1 - queued q).

(** [od_reply_same]. *)
Definition od_reply_same (a b : od_reply_t) : bool :=
  bool_decide (rp_origin a = rp_origin b) && (rp_tag a =? rp_tag b).

Definition od_txq_reset (q : txq) : txq :=
  {| s_ring := zero_ring; s_head := 0; s_tail := 0; s_reserved := 0; s_gen := u8 (s_gen q + 1) |}.

(** [od_txq_reserve]; [r] is the token the pointer refers to, [None] for a null
    pointer.  The token is written even when the reservation is refused. *)
Definition od_txq_reserve (q : txq) (count : Z) (r : option od_tx_reservation)
  : txq * option od_tx_reservation * od_txq_status :=
  match r with
  | None => (q, None, OD_TXQ_INVARIANT)
  | Some t =>
      if count =? 0 then (q, r, OD_TXQ_INVARIANT)
      else
        let t := {| remaining := 0; gen := gen t |} in
        if free_slots q <=? s_reserved q then (q, Some t, OD_TXQ_FULL)
        else if free_slots q - s_reserved q <? count then (q, Some t, OD_TXQ_FULL)
        else
          ({| s_ring := s_ring q; s_head := s_head q; s_tail := s_tail q;
              s_reserved := u8 (s_reserved q + count); s_gen := s_gen q |},
           Some {| remaining := count; gen := s_gen q |}, OD_TXQ_OK)
  end.

Definition with_reserved (q : txq) (n : Z) : txq :=
  {| s_ring := s_ring q; s_head := s_head q; s_tail := s_tail q; s_reserved := n; s_gen := s_gen q |}.

Definition od_txq_release (q : txq) (r : option od_tx_reservation)
  : txq * option od_tx_reservation :=
  match r with
  | None => (q, None)
  | Some t =>
      if remaining t =? 0 then (q, r)
      else
        let q' := if gen t =? s_gen q then with_reserved q (u8 (s_reserved q - remaining t)) else q in
        (q', Some {| remaining := 0; gen := gen t |})
  end.

(** Spend one unit of a token. *)
Definition spend (q : txq) (t : od_tx_reservation) : txq * od_tx_reservation :=
  (with_reserved q (u8 (s_reserved q - 1)), {| remaining := u8 (remaining t - 1); gen := gen t |}).

(** [memcpy(e->data, frame, len)] over the slot's previous contents. *)
Definition fill_entry (old : od_txq_entry) (rp : od_reply_t) (frame : bytes) (n : Z) : od_txq_entry :=
  {| e_origin := rp_origin rp; e_tag := rp_tag rp; e_len := n;
     e_data := take (Z.to_nat n) frame ++ drop (Z.to_nat n) (e_data old) |}.

Definition push_entry (q : txq) (rp : od_reply_t) (frame : bytes) (n : Z) : txq :=
  {| s_ring := (s_ring q).[s_tail q := fill_entry (s_ring q).[s_tail q] rp frame n];
     s_head := s_head q; s_tail := ring_next (s_tail q);
     s_reserved := s_reserved q; s_gen := s_gen q |}.

(** The code of the drain's callbacks that [od_txq_process] runs. *)
Definition entry_rp (e : od_txq_entry) : od_reply_t := {| rp_origin := e_origin e; rp_tag := e_tag e |}.

Definition entry_matches (origin : od_origin) (tag : Z) (e : od_txq_entry) : bool :=
  bool_decide (e_origin e = origin) && (e_tag e =? tag).

Section Operations.
Context {E : Type} `{Radio E}.

(** [od_txq_commit]. *)
Definition od_txq_commit (q : txq) (env : E) (r : option od_tx_reservation)
    (rp : option od_reply_t) (frame : option bytes) (n : Z)
  : txq * E * option od_tx_reservation * od_txq_status :=
  match r, rp, frame with
  | Some t, Some rp, Some frame =>
      if n =? 0 then (q, env, r, OD_TXQ_INVARIANT)
      else if remaining t =? 0 then (q, env, r, OD_TXQ_INVARIANT)
      else if negb (gen t =? s_gen q) then
        (q, env, Some {| remaining := 0; gen := gen t |}, OD_TXQ_INVARIANT)
      else if OD_TX_FRAME_MAX <? n then (q, env, r, OD_TXQ_TOO_LARGE)
      else if bool_decide (rp_origin rp = OD_ORIGIN_BLE) && (OD_TXQ_VALUE_MAX_BLE <? n) then
        (q, env, r, OD_TXQ_TOO_LARGE)
      else
        let '(live, env) := od_hal_radio_tag_is_live env (rp_origin rp) (rp_tag rp) in
        if negb live then
          let '(q, t) := spend q t in (q, env, Some t, OD_TXQ_GONE)
        else if free_slots q =? 0 then (q, env, r, OD_TXQ_INVARIANT)
        else
          let '(q, t) := spend (push_entry q rp frame n) t in (q, env, Some t, OD_TXQ_OK)
  | _, _, _ => (q, env, r, OD_TXQ_INVARIANT)
  end.

(** [report_dropped_tag]: one callback per queued entry of the tag. *)
Fixpoint report_loop (fuel : nat) (q : txq) (env : E) (i : Z) (origin : od_origin) (tag : Z)
    (why : od_radio_result) : option E :=
  match fuel with
  | O => None
  | S fuel =>
      if i =? s_tail q then Some env
      else
        let e := (s_ring q).[i] in
        let env := if entry_matches origin tag e
                   then od_txq_app_dropped env {| rp_origin := origin; rp_tag := tag |} (e_len e) why
                   else env in
        report_loop fuel q env (ring_next i) origin tag why
  end.

Definition report_dropped_tag (q : txq) (env : E) (origin : od_origin) (tag : Z)
    (why : od_radio_result) : option E :=
  report_loop (Z.to_nat OD_TXQ_SLOTS) q env (s_head q) origin tag why.

(** [drop_tag]: in-place compaction with a read and a write index. *)
Fixpoint drop_loop (fuel : nat) (ring : list od_txq_entry) (rd wr tail : Z)
    (origin : od_origin) (tag : Z) : option (list od_txq_entry * Z) :=
  match fuel with
  | O => None
  | S fuel =>
      if rd =? tail then Some (ring, wr)
      else if negb (entry_matches origin tag ring.[rd]) then
        let ring' := if negb (wr =? rd) then ring.[wr := ring.[rd]] else ring in
        drop_loop fuel ring' (ring_next rd) (ring_next wr) tail origin tag
      else drop_loop fuel ring (ring_next rd) wr tail origin tag
  end.

Definition drop_tag (q : txq) (origin : od_origin) (tag : Z) : option txq :=
  '(ring, wr) ← drop_loop (Z.to_nat OD_TXQ_SLOTS) (s_ring q) (s_head q) (s_head q) (s_tail q) origin tag;
  Some {| s_ring := ring; s_head := s_head q; s_tail := wr;
          s_reserved := s_reserved q; s_gen := s_gen q |}.

Definition advance_head (q : txq) : txq :=
  {| s_ring := s_ring q; s_head := ring_next (s_head q); s_tail := s_tail q;
     s_reserved := s_reserved q; s_gen := s_gen q |}.

(** [od_txq_process].  Every round retires an entry, drops at least one, or
    stops, so [OD_TXQ_SLOTS] rounds are enough ([txq_process_drains]). *)
Fixpoint process_loop (fuel : nat) (q : txq) (env : E) (retired : Z) : option (txq * E * Z) :=
  match fuel with
  | O => None
  | S fuel =>
      if s_head q =? s_tail q then Some (q, env, retired)
      else
        let e := (s_ring q).[s_head q] in
        let '(live, env) := od_hal_radio_tag_is_live env (e_origin e) (e_tag e) in
        if negb live then
          env ← report_dropped_tag q env (e_origin e) (e_tag e) OD_RADIO_GONE;
          q ← drop_tag q (e_origin e) (e_tag e);
          process_loop fuel q env retired
        else
          let '(rc, env) := od_hal_radio_send env (e_origin e) (e_tag e)
                              (take (Z.to_nat (e_len e)) (e_data e)) in
          match rc with
          | OD_RADIO_RETRY => Some (q, env, retired)
          | OD_RADIO_GONE =>
              env ← report_dropped_tag q env (e_origin e) (e_tag e) OD_RADIO_GONE;
              q ← drop_tag q (e_origin e) (e_tag e);
              process_loop fuel q env retired
          | OD_RADIO_ERROR =>
              let env := od_txq_app_dropped env (entry_rp e) (e_len e) OD_RADIO_ERROR in
              process_loop fuel (advance_head q) env (u16 (retired + 1))
          | OD_RADIO_SENT => process_loop fuel (advance_head q) env (u16 (retired + 1))
          end
  end.

Definition od_txq_process (q : txq) (env : E) : option (txq * E * Z) :=
  process_loop (Z.to_nat OD_TXQ_SLOTS) q env 0.

(** [(int32_t)(now_ms - deadline_ms) >= 0] *)
Definition deadline_reached (now_ms deadline_ms : Z) : bool := u32 (now_ms - deadline_ms) <? 2 ^ 31.

Definition od_txq_flush (q : txq) (env : E) (now_ms deadline_ms : Z)
  : option (txq * E * od_txq_status) :=
  if s_head q =? s_tail q then Some (q, env, OD_TXQ_OK)
  else if deadline_reached now_ms deadline_ms then Some (q, env, OD_TXQ_TIMEOUT)
  else
    '(q, env, _) ← od_txq_process q env;
    Some (q, env, if s_head q =? s_tail q then OD_TXQ_OK else OD_TXQ_BUSY).

Definition od_txq_depth (q : txq) : Z := queued q.
Definition od_txq_reserved (q : txq) : Z := s_reserved q.
End Operations.

(** ** Lemmas on the ring *)

Abbreviation N := OD_TXQ_SLOTS.

Lemma TXN_ge_2 : 2 <= N. Proof. done. Qed.

Definition ring_ok (q : txq) : Prop :=
  len (s_ring q) = N /\ Ring.idx N (s_head q) /\ Ring.idx N (s_tail q).

(** The entries waiting to be sent, oldest first. *)
Definition entries (q : txq) : list od_txq_entry := Ring.view N (s_ring q) (s_head q) (s_tail q).

(** The bytes an entry carries. *)
Definition payload (e : od_txq_entry) : bytes := take (Z.to_nat (e_len e)) (e_data e).

Lemma tx_next_next i : Ring.idx N i -> ring_next i = Ring.next N i.
Proof.
  unfold Ring.idx. intros. rewrite Ring.next_cases by done.
  unfold ring_next, OD_TXQ_SLOTS in *. destruct (Z.eqb_spec i (34 - 1)); wrap_lia.
Qed.

Lemma tx_next_idx i : Ring.idx N i -> Ring.idx N (ring_next i).
Proof. intros. rewrite tx_next_next by done. by apply Ring.next_idx. Qed.

Lemma queued_entries q : ring_ok q -> queued q = len (entries q).
Proof.
  intros (Hl & Hh & Ht). unfold entries. rewrite Ring.length_view, Ring.count_cases by done.
  unfold queued, OD_TXQ_SLOTS, Ring.idx in *. destruct (Z.leb_spec (s_head q) (s_tail q)); wrap_lia.
Qed.

Lemma entries_lt q : ring_ok q -> 0 <= len (entries q) < N.
Proof. intros. unfold entries. rewrite Ring.length_view by done. by apply Ring.count_range. Qed.

Lemma free_slots_entries q : ring_ok q -> free_slots q = N - 1 - len (entries q).
Proof.
  intros Hq. unfold free_slots. rewrite queued_entries by done.
  pose proof (entries_lt q Hq). unfold OD_TXQ_SLOTS in *. wrap_lia.
Qed.

Lemma entries_nil q : ring_ok q -> entries q = [] <-> s_head q = s_tail q.
Proof. intros (Hl & Hh & Ht). by apply Ring.view_nil. Qed.

Lemma push_entries q rp frame n :
  ring_ok q -> len (entries q) < N - 1 ->
  ring_ok (push_entry q rp frame n) /\
  entries (push_entry q rp frame n) = entries q ++ [fill_entry (s_ring q).[s_tail q] rp frame n].
Proof.
  intros (Hl & Hh & Ht) Hlt. split.
  - split; simpl; [by rewrite len_set|]. split; [done|by apply tx_next_idx].
  - unfold entries in *. simpl. rewrite Ring.length_view in Hlt by done.
    assert (Ring.next N (s_tail q) <> s_head q).
    { rewrite <- Ring.count_full by done. lia. }
    rewrite tx_next_next, Ring.view_snoc by done.
    rewrite Ring.view_set_free by done. rewrite get_set_eq by (rewrite Hl; apply Ht). done.
Qed.

Lemma fill_payload old rp frame n :
  0 <= n <= len frame -> payload (fill_entry old rp frame n) = take (Z.to_nat n) frame.
Proof.
  intros. unfold payload. simpl. rewrite take_app_length'; [done|]. rewrite length_take. lia.
Qed.

Lemma advance_entries q :
  ring_ok q -> s_head q <> s_tail q ->
  ring_ok (advance_head q) /\ entries q = (s_ring q).[s_head q] :: entries (advance_head q).
Proof.
  intros (Hl & Hh & Ht) Hne. split; [split; [done|]; split; [by apply tx_next_idx|done]|].
  unfold entries. simpl. rewrite tx_next_next by done. by apply Ring.view_cons.
Qed.

(** The in-place compaction is a filter. *)
Lemma drop_loop_spec fuel ring h rd wr tail origin tag :
  len ring = N -> Ring.idx N h -> Ring.idx N rd -> Ring.idx N wr -> Ring.idx N tail ->
  Ring.count N wr h <= Ring.count N rd h -> Ring.count N rd h <= Ring.count N tail h ->
  Ring.count N tail rd < Z.of_nat fuel ->
  exists ring' wr',
    drop_loop fuel ring rd wr tail origin tag = Some (ring', wr') /\
    len ring' = N /\ Ring.idx N wr' /\
    Ring.view N ring' h wr' =
      Ring.view N ring h wr ++
      List.filter (fun e => negb (entry_matches origin tag e)) (Ring.view N ring rd tail).
Proof.
  revert ring rd wr. induction fuel as [|fuel IH];
    intros ring rd wr Hl Hh Hrd Hwr Ht Hc1 Hc2 Hf.
  { pose proof (Ring.count_range N TXN_ge_2 tail rd). lia. }
  simpl. destruct (Z.eqb_spec rd tail) as [->|Hne].
  { exists ring, wr. rewrite (proj2 (Ring.view_nil N TXN_ge_2 ring tail tail Ht Ht)) by done.
    simpl. by rewrite app_nil_r. }
  pose proof (Ring.count_split N TXN_ge_2 tail h rd Ht Hh Hrd Hc2) as Hsplit.
  pose proof (Ring.count_range N TXN_ge_2 tail h). pose proof (Ring.count_range N TXN_ge_2 tail rd).
  assert (0 < Ring.count N tail rd).
  { pose proof (Ring.count_0 N TXN_ge_2 tail rd Ht Hrd). destruct (Z.eq_dec (Ring.count N tail rd) 0); [|lia].
    exfalso. apply Hne. symmetry. tauto. }
  assert (Hnx : Ring.next N rd <> h) by (rewrite <- Ring.count_full by done; lia).
  assert (Hnrd : Ring.count N (Ring.next N rd) h = Ring.count N rd h + 1)
    by (by apply Ring.count_next_w).
  assert (Hntl : Ring.count N tail (Ring.next N rd) = Ring.count N tail rd - 1)
    by (apply (Ring.count_next_r N TXN_ge_2); auto).
  rewrite (Ring.view_cons N TXN_ge_2 ring rd tail) by done. rewrite (tx_next_next rd) by done.
  simpl (List.filter _ _).
  destruct (entry_matches origin tag ring.[rd]) eqn:Em; simpl negb; cbv iota.
  - apply IH; try done; try lia. by apply Ring.next_idx.
  - rewrite (tx_next_next wr) by done.
    assert (Hnw : Ring.next N wr <> h) by (rewrite <- Ring.count_full by done; lia).
    assert (Hnwr : Ring.count N (Ring.next N wr) h = Ring.count N wr h + 1)
      by (by apply Ring.count_next_w).
    destruct (Z.eqb_spec wr rd) as [->|Hwrd]; simpl negb; cbv iota.
    + destruct (IH ring (Ring.next N rd) (Ring.next N rd)) as (ring' & wr' & -> & ? & ? & Hv);
        try done; try lia; try (by apply Ring.next_idx).
      exists ring', wr'. split; [done|]. split; [done|]. split; [done|].
      rewrite Hv, Ring.view_snoc by done. by rewrite <- app_assoc.
    + assert (Hlt : Ring.count N wr h < Ring.count N rd h).
      { destruct (Z.eq_dec (Ring.count N wr h) (Ring.count N rd h)) as [He|]; [|lia].
        exfalso. revert He. rewrite !Ring.count_cases by done. unfold Ring.idx in *. split_ifs. }
      destruct (IH (ring.[wr := ring.[rd]]) (Ring.next N rd) (Ring.next N wr))
        as (ring' & wr' & -> & ? & ? & Hv);
        try done; try lia; try (by apply Ring.next_idx); [by rewrite len_set|].
      exists ring', wr'. split; [done|]. split; [done|]. split; [done|].
      rewrite Hv, Ring.view_snoc, Ring.view_set_free by done.
      rewrite get_set_eq by (rewrite Hl; apply Hwr).
      rewrite (Ring.view_set_out N TXN_ge_2 _ (Ring.next N rd) tail wr); try done.
      * by rewrite <- app_assoc.
      * by apply Ring.next_idx.
      * apply (Ring.count_behind N TXN_ge_2 _ _ _ h); try done; try lia. by apply Ring.next_idx.
Qed.

Lemma drop_tag_spec q origin tag :
  ring_ok q ->
  exists q', drop_tag q origin tag = Some q' /\ ring_ok q' /\
    entries q' = List.filter (fun e => negb (entry_matches origin tag e)) (entries q) /\
    s_reserved q' = s_reserved q /\ s_gen q' = s_gen q.
Proof.
  intros (Hl & Hh & Ht). unfold drop_tag.
  assert (H0 : Ring.count N (s_head q) (s_head q) = 0) by (by apply Ring.count_0).
  pose proof (Ring.count_range N TXN_ge_2 (s_tail q) (s_head q)).
  destruct (drop_loop_spec (Z.to_nat OD_TXQ_SLOTS) (s_ring q) (s_head q) (s_head q) (s_head q)
              (s_tail q) origin tag) as (ring' & wr' & -> & Hl' & Hw' & Hv); try done; try lia.
  simpl. eexists. split; [done|]. split; [done|]. split; [|done].
  unfold entries. simpl. rewrite Hv.
  rewrite (proj2 (Ring.view_nil N TXN_ge_2 (s_ring q) _ _ Hh Hh)) by done. done.
Qed.

Section Drain.
Context {E : Type} `{Radio E}.

(** The drop callbacks for one tag, over the abstract queue. *)
Definition report_all (env : E) (origin : od_origin) (tag : Z) (why : od_radio_result)
    (l : list od_txq_entry) : E :=
  fold_left (fun env e => if entry_matches origin tag e
                          then od_txq_app_dropped env {| rp_origin := origin; rp_tag := tag |} (e_len e) why
                          else env) l env.

Lemma report_loop_spec fuel q env i origin tag why :
  ring_ok q -> Ring.idx N i -> Ring.count N (s_tail q) i < Z.of_nat fuel ->
  report_loop fuel q env i origin tag why =
    Some (report_all env origin tag why (Ring.view N (s_ring q) i (s_tail q))).
Proof.
  intros (Hl & Hh & Ht). revert env i. induction fuel as [|fuel IH]; intros env i Hi Hf.
  { pose proof (Ring.count_range N TXN_ge_2 (s_tail q) i). lia. }
  simpl. destruct (Z.eqb_spec i (s_tail q)) as [->|Hne].
  { by rewrite (proj2 (Ring.view_nil N TXN_ge_2 (s_ring q) _ _ Ht Ht)). }
  rewrite (tx_next_next i Hi), IH.
  - by rewrite (Ring.view_cons N TXN_ge_2 (s_ring q) i).
  - by apply Ring.next_idx.
  - rewrite Ring.count_next_r by auto using TXN_ge_2. lia.
Qed.

Lemma report_dropped_spec q env origin tag why :
  ring_ok q ->
  report_dropped_tag q env origin tag why = Some (report_all env origin tag why (entries q)).
Proof.
  intros Hq. unfold report_dropped_tag. rewrite report_loop_spec; [done|done|apply Hq|].
  pose proof (Ring.count_range N TXN_ge_2 (s_tail q) (s_head q)). lia.
Qed.

(** *** What a drain pass does to the queue

    [drains env l env' l' n]: starting in world [env] with entries [l], one
    pass leaves [l'], retires [n] entries and ends in world [env']. *)
Inductive drains : E -> list od_txq_entry -> E -> list od_txq_entry -> Z -> Prop :=
| D_empty env : drains env [] env [] 0
| D_dead env env1 env' e l l' n :
    od_hal_radio_tag_is_live env (e_origin e) (e_tag e) = (false, env1) ->
    drains (report_all env1 (e_origin e) (e_tag e) OD_RADIO_GONE (e :: l))
           (List.filter (fun x => negb (entry_matches (e_origin e) (e_tag e) x)) (e :: l)) env' l' n ->
    drains env (e :: l) env' l' n
| D_retry env env1 env' e l :
    od_hal_radio_tag_is_live env (e_origin e) (e_tag e) = (true, env1) ->
    od_hal_radio_send env1 (e_origin e) (e_tag e) (payload e) = (OD_RADIO_RETRY, env') ->
    drains env (e :: l) env' (e :: l) 0
| D_gone env env1 env2 env' e l l' n :
    od_hal_radio_tag_is_live env (e_origin e) (e_tag e) = (true, env1) ->
    od_hal_radio_send env1 (e_origin e) (e_tag e) (payload e) = (OD_RADIO_GONE, env2) ->
    drains (report_all env2 (e_origin e) (e_tag e) OD_RADIO_GONE (e :: l))
           (List.filter (fun x => negb (entry_matches (e_origin e) (e_tag e) x)) (e :: l)) env' l' n ->
    drains env (e :: l) env' l' n
| D_error env env1 env2 env' e l l' n :
    od_hal_radio_tag_is_live env (e_origin e) (e_tag e) = (true, env1) ->
    od_hal_radio_send env1 (e_origin e) (e_tag e) (payload e) = (OD_RADIO_ERROR, env2) ->
    drains (od_txq_app_dropped env2 (entry_rp e) (e_len e) OD_RADIO_ERROR) l env' l' n ->
    drains env (e :: l) env' l' (n + 1)
| D_sent env env1 env2 env' e l l' n :
    od_hal_radio_tag_is_live env (e_origin e) (e_tag e) = (true, env1) ->
    od_hal_radio_send env1 (e_origin e) (e_tag e) (payload e) = (OD_RADIO_SENT, env2) ->
    drains env2 l env' l' n ->
    drains env (e :: l) env' l' (n + 1).

Lemma entry_matches_self e : entry_matches (e_origin e) (e_tag e) e = true.
Proof. unfold entry_matches. rewrite bool_decide_true, Z.eqb_refl by done. done. Qed.

Lemma filter_length_le (f : od_txq_entry -> bool) l : (length (List.filter f l) <= length l)%nat.
Proof. induction l as [|x l IH]; simpl; [lia|]. destruct (f x); simpl; lia. Qed.

(** Dropping the head's tag removes at least the head. *)
Lemma drop_head_shorter e l :
  (length (List.filter (fun x => negb (entry_matches (e_origin e) (e_tag e) x)) (e :: l))
     < length (e :: l))%nat.
Proof. simpl. rewrite entry_matches_self. simpl. pose proof (filter_length_le (fun x => negb (entry_matches (e_origin e) (e_tag e) x)) l). lia. Qed.

(** The outcome of a pass that starts with [l] queued and [k] retired. *)
Definition pass_ok (q : txq) (env : E) (l : list od_txq_entry) (k : Z)
    (res : option (txq * E * Z)) : Prop :=
  exists q' env' n,
    res = Some (q', env', k + n) /\ ring_ok q' /\ drains env l env' (entries q') n /\
    s_reserved q' = s_reserved q /\ s_gen q' = s_gen q /\ (length (entries q') <= length l)%nat.

Lemma pass_drop q q1 env env0 e l k res :
  (forall env' l' n,
     drains (report_all env0 (e_origin e) (e_tag e) OD_RADIO_GONE (e :: l))
       (List.filter (fun x => negb (entry_matches (e_origin e) (e_tag e) x)) (e :: l)) env' l' n ->
     drains env (e :: l) env' l' n) ->
  s_reserved q1 = s_reserved q -> s_gen q1 = s_gen q ->
  pass_ok q1 (report_all env0 (e_origin e) (e_tag e) OD_RADIO_GONE (e :: l))
    (List.filter (fun x => negb (entry_matches (e_origin e) (e_tag e) x)) (e :: l)) k res ->
  pass_ok q env (e :: l) k res.
Proof.
  intros Hrule Hr Hg (q' & env' & n & -> & Hq' & Hd & Hr' & Hg' & Hle).
  exists q', env', n. pose proof (drop_head_shorter e l).
  split; [done|]. split; [done|]. split; [by apply Hrule|]. split; [congruence|]. split; [congruence|lia].
Qed.

Lemma pass_advance q q1 env env0 e l k res :
  (forall env' l' n, drains env0 l env' l' n -> drains env (e :: l) env' l' (n + 1)) ->
  s_reserved q1 = s_reserved q -> s_gen q1 = s_gen q ->
  pass_ok q1 env0 l (k + 1) res -> pass_ok q env (e :: l) k res.
Proof.
  intros Hrule Hr Hg (q' & env' & n & -> & Hq' & Hd & Hr' & Hg' & Hle).
  exists q', env', (n + 1). split; [do 2 f_equal; lia|]. split; [done|]. split; [by apply Hrule|].
  split; [congruence|]. split; [congruence|simpl; lia].
Qed.

Lemma process_loop_spec fuel q env k :
  ring_ok q -> (length (entries q) < fuel)%nat -> 0 <= k -> k + len (entries q) < 2 ^ 16 ->
  pass_ok q env (entries q) k (process_loop fuel q env k).
Proof.
  revert q env k. induction fuel as [|fuel IH]; intros q env k Hq Hf Hk Hb; [lia|]. simpl.
  destruct (Z.eqb_spec (s_head q) (s_tail q)) as [He|Hne].
  { exists q, env, 0. rewrite Z.add_0_r, (proj2 (entries_nil q Hq) He).
    split; [done|]. split; [done|]. split; [constructor|done]. }
  destruct (advance_entries q Hq Hne) as [Ha Hent]. set (e := (s_ring q).[s_head q]) in *.
  assert (Hdrop : forall env1, exists q1,
      drop_tag q (e_origin e) (e_tag e) = Some q1 /\
      s_reserved q1 = s_reserved q /\ s_gen q1 = s_gen q /\
      pass_ok q1 env1 (List.filter (fun x => negb (entry_matches (e_origin e) (e_tag e) x)) (entries q))
        k (process_loop fuel q1 env1 k)).
  { intros env1. destruct (drop_tag_spec q (e_origin e) (e_tag e) Hq) as (q1 & -> & Hq1 & He1 & ? & ?).
    exists q1. pose proof (drop_head_shorter e (entries (advance_head q))) as Hsh.
    rewrite <- Hent, <- He1 in Hsh. rewrite <- He1. do 3 (split; [done|]). apply IH; try done; lia. }
  assert (Hadv : forall env1,
      pass_ok (advance_head q) env1 (entries (advance_head q)) (k + 1)
        (process_loop fuel (advance_head q) env1 (u16 (k + 1)))).
  { intros env1. rewrite Hent in Hf, Hb. simpl in Hf, Hb. rewrite wrap_id by wrap_lia.
    apply IH; try done; lia. }
  rewrite Hent in Hdrop |- *.
  destruct (od_hal_radio_tag_is_live env (e_origin e) (e_tag e)) as [[] env1] eqn:El; simpl.
  - change (take (Z.to_nat (e_len e)) (e_data e)) with (payload e).
    destruct (od_hal_radio_send env1 (e_origin e) (e_tag e) (payload e)) as [[] env2] eqn:Es.
    + eapply pass_advance, Hadv; try done. intros. by eapply D_sent.
    + exists q, env2, 0. rewrite Z.add_0_r, Hent. do 2 (split; [done|]). split; [by eapply D_retry|done].
    + rewrite report_dropped_spec, Hent by done. simpl.
      destruct (Hdrop (report_all env2 (e_origin e) (e_tag e) OD_RADIO_GONE (e :: entries (advance_head q))))
        as (q1 & Hq1 & ? & ? & Hp). rewrite Hq1. simpl.
      eapply pass_drop, Hp; try done. intros. by eapply D_gone.
    + eapply pass_advance, Hadv; try done. intros. by eapply D_error.
  - rewrite report_dropped_spec, Hent by done. simpl.
    destruct (Hdrop (report_all env1 (e_origin e) (e_tag e) OD_RADIO_GONE (e :: entries (advance_head q))))
      as (q1 & Hq1 & ? & ? & Hp). rewrite Hq1. simpl.
    eapply pass_drop, Hp; try done. intros. by eapply D_dead.
Qed.
End Drain.

(** ** The capacity protocol

    A running system: the queue, the world, and the tokens handed out so far.
    Any dispatch may reserve, commit against its own token or release it, the
    drain may run, and the whole queue may be reset while tokens are
    outstanding. *)

Definition units (g : Z) (t : od_tx_reservation) : Z := if gen t =? g then remaining t else 0.

Definition live_units (g : Z) (toks : list od_tx_reservation) : Z :=
  foldr (fun t a => units g t + a) 0 toks.

Definition admissible (rp : od_reply_t) (frame : bytes) (n : Z) : Prop :=
  0 < n <= len frame /\ n <= OD_TX_FRAME_MAX /\
  (rp_origin rp = OD_ORIGIN_BLE -> n <= OD_TXQ_VALUE_MAX_BLE).

Section Protocol.
Context {E : Type} `{Radio E}.

Record tx_sys := { tx_q : txq; tx_env : E; tx_toks : list od_tx_reservation }.

Inductive tx_step : tx_sys -> tx_sys -> Prop :=
| T_reserve q env toks count r q' t' rc :
    0 < count < 256 ->
    od_txq_reserve q count (Some r) = (q', Some t', rc) ->
    tx_step {| tx_q := q; tx_env := env; tx_toks := toks |}
            {| tx_q := q'; tx_env := env; tx_toks := toks ++ [t'] |}
| T_commit q env toks i t rp frame n q' env' t' rc :
    toks !! i = Some t ->
    od_txq_commit q env (Some t) (Some rp) (Some frame) n = (q', env', Some t', rc) ->
    tx_step {| tx_q := q; tx_env := env; tx_toks := toks |}
            {| tx_q := q'; tx_env := env'; tx_toks := <[i := t']> toks |}
| T_release q env toks i t q' t' :
    toks !! i = Some t ->
    od_txq_release q (Some t) = (q', Some t') ->
    tx_step {| tx_q := q; tx_env := env; tx_toks := toks |}
            {| tx_q := q'; tx_env := env; tx_toks := <[i := t']> toks |}
| T_process q env toks q' env' n :
    od_txq_process q env = Some (q', env', n) ->
    tx_step {| tx_q := q; tx_env := env; tx_toks := toks |}
            {| tx_q := q'; tx_env := env'; tx_toks := toks |}
| T_reset q env toks :
    (* no token is kept across 256 resets, where the generation repeats *)
    live_units (u8 (s_gen q + 1)) toks = 0 ->
    tx_step {| tx_q := q; tx_env := env; tx_toks := toks |}
            {| tx_q := od_txq_reset q; tx_env := env; tx_toks := toks |}.

Inductive tx_reachable : tx_sys -> Prop :=
| TR_init env : tx_reachable {| tx_q := txq_init; tx_env := env; tx_toks := [] |}
| TR_step s s' : tx_reachable s -> tx_step s s' -> tx_reachable s'.
End Protocol.
Arguments tx_sys : clear implicits.

(** The invariant: the units the live tokens hold are exactly the reserved
    count, and they fit in the free slots. *)
Definition capacity_ok (q : txq) (toks : list od_tx_reservation) : Prop :=
  ring_ok q /\ live_units (s_gen q) toks = s_reserved q /\
  0 <= s_reserved q /\ len (entries q) + s_reserved q <= N - 1 /\
  Forall (fun t => 0 <= remaining t) toks.

Lemma live_units_app g l1 l2 : live_units g (l1 ++ l2) = live_units g l1 + live_units g l2.
Proof. induction l1 as [|t l1 IH]; simpl; [done|]. rewrite IH. lia. Qed.

Lemma live_units_insert g toks i t t' :
  toks !! i = Some t -> live_units g (<[i := t']> toks) = live_units g toks - units g t + units g t'.
Proof.
  revert i. induction toks as [|x toks IH]; intros [|i]; simpl; try done.
  - intros [= ->]. lia.
  - intros Hi. rewrite (IH i) by done. lia.
Qed.

Lemma units_nonneg g t : 0 <= remaining t -> 0 <= units g t.
Proof. unfold units. destruct (gen t =? g); lia. Qed.

Lemma live_units_nonneg g toks : Forall (fun t => 0 <= remaining t) toks -> 0 <= live_units g toks.
Proof. induction 1; simpl; [lia|]. pose proof (units_nonneg g x). lia. Qed.

Lemma live_units_ge g toks i t :
  Forall (fun t => 0 <= remaining t) toks -> toks !! i = Some t -> units g t <= live_units g toks.
Proof.
  intros HF. revert i. induction HF as [|x toks Hx HF IH]; intros [|i]; simpl; try done.
  - intros [= ->]. pose proof (live_units_nonneg g toks HF). lia.
  - intros Hi. specialize (IH i Hi). pose proof (units_nonneg g x Hx). lia.
Qed.

Lemma capacity_bound q toks i t :
  capacity_ok q toks -> toks !! i = Some t -> gen t = s_gen q ->
  0 <= remaining t <= s_reserved q /\ s_reserved q < N.
Proof.
  intros (Hr & Hu & H0 & Hc & HF) Hi Hg. pose proof (live_units_ge (s_gen q) toks i t HF Hi) as Hge.
  unfold units in Hge. rewrite Hg, Z.eqb_refl in Hge.
  pose proof (Forall_lookup_1 _ _ _ _ HF Hi). simpl in *. pose proof (entries_lt q Hr). lia.
Qed.

Lemma entries_with_reserved q n : entries (with_reserved q n) = entries q.
Proof. done. Qed.

(** Paying [k] units of a live token out of the reserved count. *)
Lemma capacity_pay q q' toks i t k :
  capacity_ok q toks -> toks !! i = Some t -> gen t = s_gen q -> 0 <= k <= remaining t ->
  ring_ok q' -> s_gen q' = s_gen q -> s_reserved q' = s_reserved q - k ->
  len (entries q') <= len (entries q) + k ->
  capacity_ok q' (<[i := {| remaining := remaining t - k; gen := gen t |}]> toks).
Proof.
  intros Hcap Hi Hg Hk Hr' Hg' Hres Hlen. pose proof (capacity_bound _ _ _ _ Hcap Hi Hg).
  destruct Hcap as (Hr & Hu & H0 & Hc & HF). split; [done|]. split.
  - rewrite (live_units_insert _ _ _ t) by done. rewrite Hg', Hu, Hres. unfold units. simpl.
    rewrite Hg, Z.eqb_refl. lia.
  - split; [lia|]. split; [lia|]. apply Forall_insert; [done|]. simpl. lia.
Qed.

(** Rewriting a token so that it holds no live unit it did not hold before. *)
Lemma capacity_same q toks i t t' :
  capacity_ok q toks -> toks !! i = Some t -> 0 <= remaining t' ->
  units (s_gen q) t' = units (s_gen q) t -> capacity_ok q (<[i := t']> toks).
Proof.
  intros (Hr & Hu & H0 & Hc & HF) Hi Hn Hsame. split; [done|]. split.
  - rewrite (live_units_insert _ _ _ t) by done. lia.
  - split; [done|]. split; [done|]. by apply Forall_insert.
Qed.

Lemma reserve_capacity q toks count r q' t' rc :
  capacity_ok q toks -> 0 < count < 256 ->
  od_txq_reserve q count (Some r) = (q', Some t', rc) -> capacity_ok q' (toks ++ [t']).
Proof.
  intros (Hr & Hu & H0 & Hc & HF) Hcount. unfold od_txq_reserve.
  rewrite free_slots_entries by done. pose proof (entries_lt q Hr).
  destruct (Z.eqb_spec count 0); [lia|].
  assert (Hnone : capacity_ok q (toks ++ [{| remaining := 0; gen := gen r |}])).
  { split; [done|]. rewrite live_units_app. split.
    - simpl. unfold units. simpl. destruct (_ =? _); lia.
    - split; [done|]. split; [done|]. apply Forall_app. split; [done|]. by repeat constructor. }
  destruct (Z.leb_spec (N - 1 - len (entries q)) (s_reserved q)); [by intros [= <- <- <-]|].
  destruct (Z.ltb_spec (N - 1 - len (entries q) - s_reserved q) count); [by intros [= <- <- <-]|].
  unfold OD_TXQ_SLOTS in *. rewrite wrap_id by wrap_lia. intros [= <- <- <-].
  split; [done|]. rewrite live_units_app. simpl. unfold units. simpl. rewrite Z.eqb_refl. split; [lia|].
  split; [lia|]. split; [change (entries _) with (entries q); unfold OD_TXQ_SLOTS; lia|].
  apply Forall_app. split; [done|]. repeat constructor. simpl. lia.
Qed.

Section ProtocolLemmas.
Context {E : Type} `{Radio E}.

Lemma spend_capacity q q' toks i t :
  capacity_ok q toks -> toks !! i = Some t -> gen t = s_gen q -> remaining t <> 0 ->
  ring_ok q' -> s_gen q' = s_gen q -> s_reserved q' = s_reserved q ->
  len (entries q') <= len (entries q) + 1 ->
  capacity_ok (spend q' t).1 (<[i := (spend q' t).2]> toks) /\
  remaining (spend q' t).2 = remaining t - 1.
Proof.
  intros Hcap Hi Hg Hne Hr' Hg' Hres Hlen. pose proof (capacity_bound _ _ _ _ Hcap Hi Hg) as Hb.
  unfold OD_TXQ_SLOTS in Hb. unfold spend. simpl. rewrite Hres, !wrap_id by wrap_lia.
  split; [|done]. eapply capacity_pay; try done; simpl; lia.
Qed.

Lemma commit_capacity q env toks i t rp frame n q' env' t' rc :
  capacity_ok q toks -> toks !! i = Some t ->
  od_txq_commit q env (Some t) (Some rp) (Some frame) n = (q', env', Some t', rc) ->
  capacity_ok q' (<[i := t']> toks).
Proof.
  intros Hcap Hi. pose proof Hcap as (Hr & _). pose proof (free_slots_entries q Hr) as Hfree.
  assert (Hsame : capacity_ok q (<[i := t]> toks)) by (by rewrite list_insert_id).
  unfold od_txq_commit.
  destruct (n =? 0); [by intros [= <- <- <- <-]|].
  destruct (Z.eqb_spec (remaining t) 0) as [|Hne]; [by intros [= <- <- <- <-]|].
  destruct (Z.eqb_spec (gen t) (s_gen q)) as [Hg|Hg]; simpl negb; cbv iota.
  2:{ intros [= <- <- <- <-]. eapply capacity_same; try done.
      unfold units. simpl. by destruct (Z.eqb_spec (gen t) (s_gen q)). }
  destruct (OD_TX_FRAME_MAX <? n); [by intros [= <- <- <- <-]|].
  destruct (_ && _); [by intros [= <- <- <- <-]|].
  destruct (od_hal_radio_tag_is_live env (rp_origin rp) (rp_tag rp)) as [[] env1]; simpl.
  - rewrite Hfree. destruct (Z.eqb_spec (N - 1 - len (entries q)) 0); [by intros [= <- <- <- <-]|].
    pose proof (entries_lt q Hr).
    destruct (push_entries q rp frame n Hr ltac:(lia)) as [Hr' He'].
    intros [= <- <- <- <-].
    apply (fun H => proj1 (spend_capacity q (push_entry q rp frame n) toks i t Hcap Hi Hg Hne Hr' eq_refl eq_refl H)).
    rewrite He', length_app. simpl. lia.
  - intros [= <- <- <- <-].
    apply (spend_capacity q q toks i t Hcap Hi Hg Hne Hr eq_refl eq_refl). lia.
Qed.

Lemma release_capacity q toks i t q' t' :
  capacity_ok q toks -> toks !! i = Some t ->
  od_txq_release q (Some t) = (q', Some t') -> capacity_ok q' (<[i := t']> toks).
Proof.
  intros Hcap Hi. unfold od_txq_release. pose proof Hcap as (Hr & _).
  destruct (Z.eqb_spec (remaining t) 0).
  { intros [= <- <-]. by rewrite list_insert_id. }
  destruct (Z.eqb_spec (gen t) (s_gen q)) as [Hg|Hg]; intros [= <- <-].
  - pose proof (capacity_bound _ _ _ _ Hcap Hi Hg) as Hb. unfold OD_TXQ_SLOTS in Hb.
    rewrite wrap_id by wrap_lia. replace 0 with (remaining t - remaining t) by lia.
    eapply capacity_pay; try done; simpl; [lia|]. rewrite entries_with_reserved. lia.
  - eapply capacity_same; try done. unfold units. simpl. by destruct (Z.eqb_spec (gen t) (s_gen q)).
Qed.

Lemma process_ok q (env : E) : ring_ok q -> pass_ok q env (entries q) 0 (od_txq_process q env).
Proof.
  intros Hr. pose proof (entries_lt q Hr) as Hlt. unfold OD_TXQ_SLOTS in Hlt.
  apply process_loop_spec; [done|unfold OD_TXQ_SLOTS; lia|lia|lia].
Qed.

Lemma tx_step_capacity (s s' : tx_sys E) :
  tx_step s s' -> capacity_ok (tx_q s) (tx_toks s) -> capacity_ok (tx_q s') (tx_toks s').
Proof.
  intros Hs Hcap. destruct Hs; cbn [tx_q tx_toks tx_env] in *.
  - by eapply reserve_capacity.
  - by eapply commit_capacity.
  - by eapply release_capacity.
  - destruct Hcap as (Hr & Hu & H1 & Hc & HF).
    destruct (process_ok q env Hr) as (q1 & env1 & n1 & Heq & Hr' & _ & Hres & Hg & Hle).
    rewrite H0 in Heq. injection Heq as -> -> ->.
    split; [done|]. rewrite Hres, Hg. split; [done|]. split; [done|]. split; [lia|done].
  - destruct Hcap as (Hr & Hu & H1 & Hc & HF). split; [by vm_compute|].
    split; [done|]. split; [done|]. split; [by vm_compute|done].
Qed.

Lemma tx_reachable_capacity (s : tx_sys E) : tx_reachable s -> capacity_ok (tx_q s) (tx_toks s).
Proof.
  induction 1; [|eauto using tx_step_capacity].
  split; [by vm_compute|]. split; [done|]. split; [done|]. split; [by vm_compute|constructor].
Qed.

(** What a commit against a token with units does on each outcome of the
    liveness question. *)
Lemma commit_live q env toks i t rp frame n :
  capacity_ok q toks -> toks !! i = Some t -> gen t = s_gen q -> 0 < remaining t ->
  admissible rp frame n ->
  let '(live, env1) := od_hal_radio_tag_is_live env (rp_origin rp) (rp_tag rp) in
  od_txq_commit q env (Some t) (Some rp) (Some frame) n =
    (if live then (spend (push_entry q rp frame n) t).1 else (spend q t).1, env1,
     Some {| remaining := remaining t - 1; gen := gen t |},
     if live then OD_TXQ_OK else OD_TXQ_GONE) /\
  len (entries q) < N - 1.
Proof.
  intros Hcap Hi Hg Hrem (Hn & Hmax & Hble).
  pose proof (capacity_bound _ _ _ _ Hcap Hi Hg) as Hb. unfold OD_TXQ_SLOTS in Hb.
  destruct Hcap as (Hr & Hu & H0 & Hc & HF).
  destruct (od_hal_radio_tag_is_live env (rp_origin rp) (rp_tag rp)) as [live env1] eqn:El.
  assert (Hw : u8 (remaining t - 1) = remaining t - 1) by (apply wrap_id; wrap_lia).
  split; [|lia]. unfold od_txq_commit.
  destruct (Z.eqb_spec n 0); [lia|]. destruct (Z.eqb_spec (remaining t) 0); [lia|].
  destruct (Z.eqb_spec (gen t) (s_gen q)); [|done]. simpl negb; cbv iota.
  destruct (Z.ltb_spec OD_TX_FRAME_MAX n); [lia|].
  rewrite El, free_slots_entries by done.
  destruct (Z.ltb_spec OD_TXQ_VALUE_MAX_BLE n).
  { rewrite bool_decide_false by (intros Ho; specialize (Hble Ho); lia). simpl.
    destruct live; simpl; [|by rewrite Hw].
    destruct (Z.eqb_spec (N - 1 - len (entries q)) 0); [lia|]. by rewrite Hw. }
  rewrite andb_false_r. destruct live; simpl; [|by rewrite Hw].
  destruct (Z.eqb_spec (N - 1 - len (entries q)) 0); [lia|]. by rewrite Hw.
Qed.
End ProtocolLemmas.

(** ** Theorems *)

(** A dispatch that was admitted can always be answered: in every state the
    system can reach (any number of tokens, any interleaving of reserve, commit,
    release, drain and reset), committing an admissible frame against a live
    token with units left never fails for lack of room.  It appends the frame
    as the newest entry when the link is live and returns [OD_TXQ_GONE]
    otherwise, and pays exactly one unit. *)
Theorem txq_commit_never_full {E} `{Radio E} (s : tx_sys E) (i : nat) (t : od_tx_reservation)
    (rp : od_reply_t) (frame : bytes) (n : Z) :
  tx_reachable s -> tx_toks s !! i = Some t -> gen t = s_gen (tx_q s) -> 0 < remaining t ->
  admissible rp frame n ->
  exists q' env' live,
    od_hal_radio_tag_is_live (tx_env s) (rp_origin rp) (rp_tag rp) = (live, env') /\
    od_txq_commit (tx_q s) (tx_env s) (Some t) (Some rp) (Some frame) n =
      (q', env', Some {| remaining := remaining t - 1; gen := gen t |},
       if live then OD_TXQ_OK else OD_TXQ_GONE) /\
    (if live then exists e, entries q' = entries (tx_q s) ++ [e] /\ entry_rp e = rp /\
                            payload e = take (Z.to_nat n) frame
     else entries q' = entries (tx_q s)).
Proof.
  intros Hreach Hi Hg Hrem Ha. pose proof (tx_reachable_capacity s Hreach) as Hcap.
  pose proof (commit_live _ (tx_env s) _ _ _ _ _ _ Hcap Hi Hg Hrem Ha) as Hc.
  destruct (od_hal_radio_tag_is_live (tx_env s) (rp_origin rp) (rp_tag rp)) as [live env'] eqn:El.
  destruct Hc as [Hc Hlt]. destruct Hcap as (Hr & _).
  eexists _, env', live. split; [done|]. split; [exact Hc|]. destruct live; [|done].
  eexists. split; [apply (push_entries (tx_q s) rp frame n Hr Hlt)|].
  split; [by destruct rp|]. apply fill_payload. destruct Ha. lia.
Qed.

(** C16. One drain pass terminates and follows the transport's answers exactly:
    the entries are offered strictly in queue order, a busy transport stops the
    pass with the same entry still first, a dead link drops all and only its
    own entries, a permanent refusal drops one entry, and reservations are
    untouched. *)
Theorem txq_process_drains {E} `{Radio E} (q : txq) (env : E) :
  ring_ok q ->
  exists q' env' n,
    od_txq_process q env = Some (q', env', n) /\ ring_ok q' /\
    drains env (entries q) env' (entries q') n /\
    s_reserved q' = s_reserved q /\ s_gen q' = s_gen q.
Proof.
  intros Hr. destruct (process_ok q env Hr) as (q' & env' & n & -> & Hr' & Hd & Hres & Hg & _).
  exists q', env', n. done.
Qed.

(** The pre-refresh barrier never drops or reorders on expiry: once the
    deadline is reached, across the 32-bit clock rollover, [od_txq_flush] returns
    TIMEOUT with the queue and the radio untouched; before it, one drain pass
    runs and the answer is OK exactly when the queue emptied. *)
Theorem txq_flush_spec {E} `{Radio E} (q : txq) (env : E) (now elapsed : Z) :
  ring_ok q -> entries q <> [] -> fits 32 now -> 0 <= elapsed < 2 ^ 31 ->
  od_txq_flush q env (u32 (now + elapsed)) now = Some (q, env, OD_TXQ_TIMEOUT) /\
  (0 < elapsed ->
   exists q' env' n rc,
     od_txq_flush q env now (u32 (now + elapsed)) = Some (q', env', rc) /\
     drains env (entries q) env' (entries q') n /\
     rc = (if decide (entries q' = []) then OD_TXQ_OK else OD_TXQ_BUSY)).
Proof.
  intros Hr Hne Hnow He. unfold od_txq_flush, deadline_reached.
  assert (Hht : s_head q <> s_tail q) by (rewrite <- entries_nil by done; done).
  destruct (Z.eqb_spec (s_head q) (s_tail q)); [done|]. split.
  - destruct (Z.ltb_spec (u32 (u32 (now + elapsed) - now)) (2 ^ 31)); [done|]. wrap_lia.
  - intros Hpos. destruct (Z.ltb_spec (u32 (now - u32 (now + elapsed))) (2 ^ 31)); [exfalso; wrap_lia|].
    destruct (process_ok q env Hr) as (q' & env' & k & -> & Hr' & Hd & _).
    simpl. eexists q', env', k, _. split; [done|]. split; [done|].
    pose proof (entries_nil q' Hr'). case_decide; destruct (Z.eqb_spec (s_head q') (s_tail q')); tauto.
Qed.

(** *** Witnesses *)

(** A radio whose links with tag 1 are live and which is busy after two sends. *)
#[local] Instance demo_radio : Radio nat := {
  od_hal_radio_send n o t f := match n with O => (OD_RADIO_RETRY, O) | S n => (OD_RADIO_SENT, n) end;
  od_hal_radio_tag_is_live n o t := (t =? 1, n);
  od_txq_app_dropped n _ _ _ := n;
}.

Definition demo_rp (tag : Z) : od_reply_t := {| rp_origin := OD_ORIGIN_BLE; rp_tag := tag |}.

Definition demo_token : od_tx_reservation := {| remaining := 3; gen := 0 |}.

Definition demo_queue : txq :=
  push_entry (push_entry (push_entry (with_reserved txq_init 3) (demo_rp 1) [1; 2] 2)
                (demo_rp 5) [3] 1) (demo_rp 1) [4; 4] 2.

Lemma demo_ring_ok : ring_ok demo_queue.
Proof. unfold ring_ok, Ring.idx. by vm_compute. Qed.

Lemma txq_commit_never_full_witness :
  exists q', od_txq_commit (with_reserved txq_init 3) 2%nat (Some demo_token) (Some (demo_rp 1)) (Some [7; 8]) 2
             = (q', 2%nat, Some {| remaining := 2; gen := 0 |}, OD_TXQ_OK) /\
             map payload (entries q') = [[7; 8]].
Proof.
  pose (s := {| tx_q := with_reserved txq_init 3; tx_env := 2%nat; tx_toks := [demo_token] |}).
  assert (Hreach : tx_reachable s).
  { eapply TR_step; [apply (TR_init 2%nat)|].
    apply (T_reserve txq_init 2%nat [] 3 {| remaining := 0; gen := 0 |} _ _ OD_TXQ_OK); [lia|reflexivity]. }
  assert (Ha : admissible (demo_rp 1) [7; 8] 2).
  { unfold admissible, OD_TX_FRAME_MAX, OD_TXQ_VALUE_MAX_BLE. simpl. lia. }
  destruct (txq_commit_never_full s 0 demo_token (demo_rp 1) [7; 8] 2 Hreach eq_refl eq_refl
              ltac:(simpl; lia) Ha) as (q' & env' & live & Hl & Hc & He).
  simpl in Hl. injection Hl as <- <-. exists q'. split; [exact Hc|].
  destruct He as (e & -> & _ & Hp). rewrite map_app. simpl. by rewrite Hp.
Defined.

Lemma txq_process_drains_witness :
  exists q', od_txq_process demo_queue 1%nat = Some (q', O, 1) /\
             map payload (entries q') = [[4; 4]].
Proof.
  destruct (txq_process_drains demo_queue 1%nat demo_ring_ok) as (q' & env' & n & Hp & _ & _ & _).
  vm_compute in Hp. injection Hp as <- <- <-. eexists. split; vm_compute; reflexivity.
Defined.

Lemma txq_flush_spec_witness :
  od_txq_flush demo_queue 1%nat (u32 (4294967295 + 10)) 4294967295
    = Some (demo_queue, 1%nat, OD_TXQ_TIMEOUT).
Proof.
  apply (txq_flush_spec demo_queue 1%nat 4294967295 10 demo_ring_ok);
    [vm_compute; discriminate|unfold fits; lia|lia].
Defined.

End TxQueue.
