(* ===== verification/Span.v ===== *)
(** Non-owning views, [shared/core/od_span.h].  A pointer is the memory that
    starts at it ([None] is NULL); a span pairs it with a length. *)

From S2P Require Import Prelude.

Module Span.

(** [od_span_t] (and [od_mut_span_t], which has the same fields). *)
Record od_span := { sp : option bytes; sn : Z }.

Definition od_span_make (p : option bytes) (n : Z) : od_span := {| sp := p; sn := n |}.
Definition od_span_none : od_span := od_span_make None 0.

Definition is_null (p : option bytes) : bool := match p with None => true | Some _ => false end.

Definition od_span_valid (s : od_span) : bool := negb (is_null (sp s)) || (sn s =? 0).
Definition od_span_is_empty (s : od_span) : bool := sn s =? 0.
Definition od_span_has (s : od_span) (n : Z) : bool := od_span_valid s && (n <=? sn s).

(** Pointer arithmetic: [p + n]. *)
Definition ptr_add (p : option bytes) (n : Z) : option bytes := drop (Z.to_nat n) <$> p.

(** [s.p[i]]. *)
Definition at_ (s : od_span) (i : Z) : Z := match sp s with Some b => b.[i] | None => 0 end.

(** [od_span_split]: [None] is the false return, which writes nothing. *)
Definition od_span_split (s : od_span) (n : Z) : option (od_span * od_span) :=
  if od_span_has s n then
    Some (od_span_make (sp s) n,
          if negb (is_null (sp s)) then od_span_make (ptr_add (sp s) n) (sn s - n) else od_span_none)
  else None.

Definition od_span_take (s : od_span) (n : Z) : od_span :=
  if negb (od_span_valid s) then od_span_none
  else od_span_make (sp s) (if n <? sn s then n else sn s).

Definition od_span_drop (s : od_span) (n : Z) : od_span :=
  if negb (od_span_valid s) || is_null (sp s) then od_span_none
  else if n <? sn s then od_span_make (ptr_add (sp s) n) (sn s - n)
  else od_span_make (ptr_add (sp s) (sn s)) 0.

(** The bytes a span covers. *)
Definition contents (s : od_span) : bytes :=
  match sp s with Some b => take (Z.to_nat (sn s)) b | None => [] end.

(** The caller's promise: the memory at a non-null pointer holds [n] bytes. *)
Definition span_ok (s : od_span) : Prop :=
  0 <= sn s /\ match sp s with Some b => sn s <= len b | None => True end.

(** A span over the whole of a buffer. *)
Definition of_bytes (b : bytes) : od_span := od_span_make (Some b) (len b).

Lemma of_bytes_ok b : span_ok (of_bytes b).
Proof. split; simpl; lia. Qed.

Lemma contents_of_bytes b : contents (of_bytes b) = b.
Proof. unfold contents, of_bytes. simpl. rewrite Nat2Z.id. apply firstn_all. Qed.

Lemma of_bytes_valid b : od_span_valid (of_bytes b) = true.
Proof. done. Qed.

Lemma len_contents s : span_ok s -> od_span_valid s = true -> len (contents s) = sn s.
Proof.
  intros [H0 Hb] Hv. unfold contents, od_span_valid in *. destruct (sp s); simpl in *.
  - rewrite length_take. lia.
  - lia.
Qed.

Lemma contents_take_drop (b : bytes) n m : 0 <= n -> 0 <= m ->
  take (Z.to_nat n) b ++ take (Z.to_nat m) (drop (Z.to_nat n) b) = take (Z.to_nat (n + m)) b.
Proof. intros. rewrite take_take_drop. f_equal. lia. Qed.

(** [od_span_split] is the bounds check of the parsers: for every length it
    either refuses, exactly when the span is malformed or shorter than [n], or
    yields two in-bounds spans, [n] bytes and the rest, whose contents
    concatenate to the original; nothing is lost, duplicated or read past the
    end. *)
Theorem span_split_spec (s : od_span) (n : Z) :
  span_ok s -> 0 <= n ->
  match od_span_split s n with
  | None => od_span_valid s = false \/ sn s < n
  | Some (h, t) =>
      sn h = n /\ sn t = sn s - n /\ span_ok h /\ span_ok t /\
      contents h ++ contents t = contents s /\ len (contents h) = n
  end.
Proof.
  intros [H0 Hb] Hn. unfold od_span_split, od_span_has.
  destruct (od_span_valid s) eqn:Hv; simpl; [|by left].
  destruct (Z.leb_spec n (sn s)); [|right; lia].
  unfold od_span_valid, span_ok, contents, od_span_none in *. destruct (sp s) as [b|]; simpl in *.
  - rewrite !length_drop, length_take, contents_take_drop by lia.
    replace (n + (sn s - n)) with (sn s) by lia. repeat split; lia.
  - repeat split; lia.
Qed.

Lemma span_split_spec_witness :
  match od_span_split (of_bytes [1; 2; 3]) 2 with
  | Some (h, t) => contents h = [1; 2] /\ contents t = [3]
  | None => False
  end.
Proof.
  pose proof (span_split_spec (of_bytes [1; 2; 3]) 2 (of_bytes_ok _) ltac:(lia)) as H.
  vm_compute in H |- *. destruct H as (_ & _ & _ & _ & H & _). split; reflexivity.
Defined.

End Span.
