(* ===== verification/Proto.v ===== *)
(** Wire constants of [shared/protocol/opendisplay_protocol.h] that the modelled
    code uses, and the security packet of [opendisplay_structs.h]. *)

From S2P Require Import Prelude.

Module Proto.

Definition CMD_REBOOT : Z := 0x000F.
Definition CMD_CONFIG_READ : Z := 0x0040.
Definition CMD_CONFIG_WRITE : Z := 0x0041.
Definition CMD_CONFIG_CHUNK : Z := 0x0042.
Definition CMD_FIRMWARE_VERSION : Z := 0x0043.
Definition CMD_READ_MSD : Z := 0x0044.
Definition CMD_CONFIG_CLEAR : Z := 0x0045.
Definition CMD_AUTHENTICATE : Z := 0x0050.
Definition CMD_ENTER_DFU : Z := 0x0051.
Definition CMD_POWER_OFF : Z := 0x0052.
Definition CMD_DEEP_SLEEP : Z := 0x0053.
Definition CMD_DIRECT_WRITE_START : Z := 0x0070.
Definition CMD_DIRECT_WRITE_DATA : Z := 0x0071.
Definition CMD_DIRECT_WRITE_END : Z := 0x0072.
Definition CMD_LED_ACTIVATE : Z := 0x0073.
Definition CMD_LED_STOP : Z := 0x0075.
Definition CMD_PARTIAL_WRITE_START : Z := 0x0076.
Definition CMD_BUZZER : Z := 0x0077.
Definition CMD_PIPE_WRITE_START : Z := 0x0080.
Definition CMD_PIPE_WRITE_DATA : Z := 0x0081.
Definition CMD_PIPE_WRITE_END : Z := 0x0082.
Definition CMD_NFC_ENDPOINT : Z := 0x0083.

Definition RESP_ACK : Z := 0x00.
Definition RESP_NACK : Z := 0xFF.
Definition RESP_AUTH_REQUIRED : Z := 0xFE.
Definition RESP_AUTHENTICATE : Z := 0x50.

Definition AUTH_STATUS_CHALLENGE : Z := 0x00.
Definition AUTH_STATUS_SUCCESS : Z := AUTH_STATUS_CHALLENGE.
Definition AUTH_STATUS_FAILED : Z := 0x01.
Definition AUTH_STATUS_NOT_CONFIG : Z := 0x03.
Definition AUTH_STATUS_RATE_LIMIT : Z := 0x04.
Definition AUTH_STATUS_ERROR : Z := 0xFF.

Definition OD_BLE_MAX_FRAME : Z := 256.

(** [struct SecurityConfig]. *)
Record SecurityConfig := {
  encryption_enabled : Z;
  encryption_key : bytes;
  session_timeout_seconds : Z;
  sec_flags : Z;
  sec_reset_pin : Z;
}.

(** [od_config_security_key_set] of [od_config.c]: some key byte is not zero;
    [None] is a null pointer. *)
Definition od_config_security_key_set (sec : option SecurityConfig) : bool :=
  match sec with
  | None => false
  | Some c => existsb (fun b => negb (b =? 0)) (encryption_key c)
  end.

End Proto.
