(* ===== verification/Session.v ===== *)
(** Session authentication and the AEAD envelope, [shared/core/od_session.c].

    The C functions take the session by pointer and return an enum; here each
    takes the session and the world and returns the updated session, the world
    and the enum.  The [report] out-parameter is only ever written, so it is
    always produced.  Wiping the locals that held key material is not observable
    in the model; wiping fields of the session is written out.  Log lines are
    left out. *)

From S2P Require Import Prelude Hal Span Proto NonceWindow.
Import Hal Span Proto NonceWindow.

Module Session.

Definition OD_SESSION_NONCE_LEN : Z := 16.
Definition OD_SESSION_CCM_NONCE_LEN : Z := 13.
Definition OD_SESSION_ID_LEN : Z := 8.
Definition OD_SESSION_MAC_LEN : Z := 16.
Definition OD_SESSION_DEVICE_ID_LEN : Z := 4.
Definition OD_SESSION_STEP1_REPLY_LEN : Z := 23.
Definition OD_SESSION_STEP2_REPLY_LEN : Z := 19.
Definition OD_SESSION_REPLY_MAX : Z := OD_SESSION_STEP1_REPLY_LEN.
Definition OD_SESSION_STEP2_BODY_LEN : Z := 32.
Definition OD_SESSION_SEALED_MAX : Z := OD_BLE_MAX_FRAME - 3.
Definition OD_SESSION_ENVELOPE_MAX : Z := OD_SESSION_SEALED_MAX - 2.
Definition OD_SESSION_PLAIN_MAX : Z :=
  OD_SESSION_ENVELOPE_MAX - OD_SESSION_NONCE_LEN - OD_HAL_CRYPTO_TAG_LEN.
Definition OD_SESSION_PAYLOAD_MAX : Z := OD_SESSION_PLAIN_MAX - 1.
Definition OD_SESSION_ENVELOPE_MIN : Z := OD_SESSION_NONCE_LEN + 1 + OD_HAL_CRYPTO_TAG_LEN.
Definition OD_SESSION_PLAIN_FRAME_MAX : Z := 2 + OD_SESSION_PAYLOAD_MAX.
Definition OD_SESSION_CHALLENGE_WINDOW_MS : Z := 30000.
Definition OD_SESSION_RATE_WINDOW_MS : Z := 60000.
Definition OD_SESSION_RATE_MAX_ATTEMPTS : Z := 10.
Definition OD_SESSION_INTEGRITY_STRIKES : Z := 3.
Definition UINT64_MAX : Z := 2 ^ 64 - 1.

(** [enum od_session_auth]. *)
Inductive od_session_auth :=
| OD_SESSION_AUTH_CHALLENGE | OD_SESSION_AUTH_ESTABLISHED | OD_SESSION_AUTH_REJECTED
| OD_SESSION_AUTH_RATE_LIMITED | OD_SESSION_AUTH_NOT_CONFIGURED | OD_SESSION_AUTH_MALFORMED
| OD_SESSION_AUTH_EXPIRED | OD_SESSION_AUTH_CRYPTO_ERROR | OD_SESSION_AUTH_NO_ROOM
| OD_SESSION_AUTH_BAD_ARGUMENT.

#[export] Instance od_session_auth_eq_dec : EqDecision od_session_auth.
Proof. solve_decision. Defined.

(** [enum od_session_open]. *)
Inductive od_session_open_rc :=
| OD_SESSION_OPEN_OK | OD_SESSION_OPEN_NO_SESSION | OD_SESSION_OPEN_SHORT
| OD_SESSION_OPEN_TOO_LONG | OD_SESSION_OPEN_WRONG_SESSION | OD_SESSION_OPEN_REPLAY
| OD_SESSION_OPEN_BAD_TAG | OD_SESSION_OPEN_BAD_LENGTH | OD_SESSION_OPEN_NO_ROOM
| OD_SESSION_OPEN_CRYPTO_ERROR.

#[export] Instance od_session_open_rc_eq_dec : EqDecision od_session_open_rc.
Proof. solve_decision. Defined.

(** [enum od_session_seal]. *)
Inductive od_session_seal_rc :=
| OD_SESSION_SEAL_OK | OD_SESSION_SEAL_NO_SESSION | OD_SESSION_SEAL_TOO_SHORT
| OD_SESSION_SEAL_TOO_LONG | OD_SESSION_SEAL_NO_ROOM | OD_SESSION_SEAL_CRYPTO_ERROR
| OD_SESSION_SEAL_COUNTER_EXHAUSTED.

#[export] Instance od_session_seal_rc_eq_dec : EqDecision od_session_seal_rc.
Proof. solve_decision. Defined.

(** [struct od_session_report]. *)
Record od_session_report := {
  status_byte : Z;
  attempts : Z;
  rep_integrity_failures : Z;
  torn_down : bool;
  rx_counter : Z;
  rep_rx_last : Z;
  rx_diff : Z;
  age_ms : Z;
  crypto_status : od_hal_crypto_status;
  nonce_reason : Z;
}.

(** [report_reset]. *)
Definition report_reset : od_session_report :=
  {| status_byte := 0; attempts := 0; rep_integrity_failures := 0; torn_down := false;
     rx_counter := 0; rep_rx_last := 0; rx_diff := 0; age_ms := 0;
     crypto_status := OD_HAL_CRYPTO_OK; nonce_reason := 0 |}.

Definition r_set_status_byte (r : od_session_report) (v : Z) : od_session_report :=
  {| status_byte := v; attempts := attempts r;
     rep_integrity_failures := rep_integrity_failures r; torn_down := torn_down r;
     rx_counter := rx_counter r; rep_rx_last := rep_rx_last r; rx_diff := rx_diff r;
     age_ms := age_ms r; crypto_status := crypto_status r;
     nonce_reason := nonce_reason r |}.
Definition r_set_attempts (r : od_session_report) (v : Z) : od_session_report :=
  {| status_byte := status_byte r; attempts := v;
     rep_integrity_failures := rep_integrity_failures r; torn_down := torn_down r;
     rx_counter := rx_counter r; rep_rx_last := rep_rx_last r; rx_diff := rx_diff r;
     age_ms := age_ms r; crypto_status := crypto_status r;
     nonce_reason := nonce_reason r |}.
Definition r_set_rep_integrity_failures (r : od_session_report) (v : Z) : od_session_report :=
  {| status_byte := status_byte r; attempts := attempts r;
     rep_integrity_failures := v; torn_down := torn_down r;
     rx_counter := rx_counter r; rep_rx_last := rep_rx_last r; rx_diff := rx_diff r;
     age_ms := age_ms r; crypto_status := crypto_status r;
     nonce_reason := nonce_reason r |}.
Definition r_set_torn_down (r : od_session_report) (v : bool) : od_session_report :=
  {| status_byte := status_byte r; attempts := attempts r;
     rep_integrity_failures := rep_integrity_failures r; torn_down := v;
     rx_counter := rx_counter r; rep_rx_last := rep_rx_last r; rx_diff := rx_diff r;
     age_ms := age_ms r; crypto_status := crypto_status r;
     nonce_reason := nonce_reason r |}.
Definition r_set_age_ms (r : od_session_report) (v : Z) : od_session_report :=
  {| status_byte := status_byte r; attempts := attempts r;
     rep_integrity_failures := rep_integrity_failures r; torn_down := torn_down r;
     rx_counter := rx_counter r; rep_rx_last := rep_rx_last r; rx_diff := rx_diff r;
     age_ms := v; crypto_status := crypto_status r; nonce_reason := nonce_reason r |}.
Definition r_set_crypto_status (r : od_session_report) (v : od_hal_crypto_status) : od_session_report :=
  {| status_byte := status_byte r; attempts := attempts r;
     rep_integrity_failures := rep_integrity_failures r; torn_down := torn_down r;
     rx_counter := rx_counter r; rep_rx_last := rep_rx_last r; rx_diff := rx_diff r;
     age_ms := age_ms r; crypto_status := v; nonce_reason := nonce_reason r |}.
Definition r_set_nonce_reason (r : od_session_report) (v : Z) : od_session_report :=
  {| status_byte := status_byte r; attempts := attempts r;
     rep_integrity_failures := rep_integrity_failures r; torn_down := torn_down r;
     rx_counter := rx_counter r; rep_rx_last := rep_rx_last r; rx_diff := rx_diff r;
     age_ms := age_ms r; crypto_status := crypto_status r; nonce_reason := v |}.
Definition r_set_rx (r : od_session_report) (counter last diff : Z) : od_session_report :=
  {| status_byte := status_byte r; attempts := attempts r;
     rep_integrity_failures := rep_integrity_failures r; torn_down := torn_down r;
     rx_counter := counter; rep_rx_last := last; rx_diff := diff; age_ms := age_ms r;
     crypto_status := crypto_status r; nonce_reason := nonce_reason r |}.

(** [struct od_session]. *)
Record od_session := {
  authenticated : bool;
  session_id : bytes;
  slot : Z;
  key_loaded : bool;
  tx_counter : Z;
  rx_last : Z;
  rx_seen : list Z;
  session_start_ms : Z;
  last_activity_ms : Z;
  timeout_ms : Z;
  challenge_ms : Z;
  challenge_pending : bool;
  last_auth_ms : Z;
  auth_attempts : Z;
  integrity_failures : Z;
  pending_server_nonce : bytes;
}.

Definition set_authenticated (s : od_session) (v : bool) : od_session :=
  {| authenticated := v; session_id := session_id s; slot := slot s;
     key_loaded := key_loaded s; tx_counter := tx_counter s; rx_last := rx_last s;
     rx_seen := rx_seen s; session_start_ms := session_start_ms s;
     last_activity_ms := last_activity_ms s; timeout_ms := timeout_ms s;
     challenge_ms := challenge_ms s; challenge_pending := challenge_pending s;
     last_auth_ms := last_auth_ms s; auth_attempts := auth_attempts s;
     integrity_failures := integrity_failures s;
     pending_server_nonce := pending_server_nonce s |}.
Definition set_session_id (s : od_session) (v : bytes) : od_session :=
  {| authenticated := authenticated s; session_id := v; slot := slot s;
     key_loaded := key_loaded s; tx_counter := tx_counter s; rx_last := rx_last s;
     rx_seen := rx_seen s; session_start_ms := session_start_ms s;
     last_activity_ms := last_activity_ms s; timeout_ms := timeout_ms s;
     challenge_ms := challenge_ms s; challenge_pending := challenge_pending s;
     last_auth_ms := last_auth_ms s; auth_attempts := auth_attempts s;
     integrity_failures := integrity_failures s;
     pending_server_nonce := pending_server_nonce s |}.
Definition set_key_loaded (s : od_session) (v : bool) : od_session :=
  {| authenticated := authenticated s; session_id := session_id s; slot := slot s;
     key_loaded := v; tx_counter := tx_counter s; rx_last := rx_last s;
     rx_seen := rx_seen s; session_start_ms := session_start_ms s;
     last_activity_ms := last_activity_ms s; timeout_ms := timeout_ms s;
     challenge_ms := challenge_ms s; challenge_pending := challenge_pending s;
     last_auth_ms := last_auth_ms s; auth_attempts := auth_attempts s;
     integrity_failures := integrity_failures s;
     pending_server_nonce := pending_server_nonce s |}.
Definition set_tx_counter (s : od_session) (v : Z) : od_session :=
  {| authenticated := authenticated s; session_id := session_id s; slot := slot s;
     key_loaded := key_loaded s; tx_counter := v; rx_last := rx_last s;
     rx_seen := rx_seen s; session_start_ms := session_start_ms s;
     last_activity_ms := last_activity_ms s; timeout_ms := timeout_ms s;
     challenge_ms := challenge_ms s; challenge_pending := challenge_pending s;
     last_auth_ms := last_auth_ms s; auth_attempts := auth_attempts s;
     integrity_failures := integrity_failures s;
     pending_server_nonce := pending_server_nonce s |}.
Definition set_last_activity_ms (s : od_session) (v : Z) : od_session :=
  {| authenticated := authenticated s; session_id := session_id s; slot := slot s;
     key_loaded := key_loaded s; tx_counter := tx_counter s; rx_last := rx_last s;
     rx_seen := rx_seen s; session_start_ms := session_start_ms s;
     last_activity_ms := v; timeout_ms := timeout_ms s;
     challenge_ms := challenge_ms s; challenge_pending := challenge_pending s;
     last_auth_ms := last_auth_ms s; auth_attempts := auth_attempts s;
     integrity_failures := integrity_failures s;
     pending_server_nonce := pending_server_nonce s |}.
Definition set_last_auth_ms (s : od_session) (v : Z) : od_session :=
  {| authenticated := authenticated s; session_id := session_id s; slot := slot s;
     key_loaded := key_loaded s; tx_counter := tx_counter s; rx_last := rx_last s;
     rx_seen := rx_seen s; session_start_ms := session_start_ms s;
     last_activity_ms := last_activity_ms s; timeout_ms := timeout_ms s;
     challenge_ms := challenge_ms s; challenge_pending := challenge_pending s;
     last_auth_ms := v; auth_attempts := auth_attempts s;
     integrity_failures := integrity_failures s;
     pending_server_nonce := pending_server_nonce s |}.
Definition set_auth_attempts (s : od_session) (v : Z) : od_session :=
  {| authenticated := authenticated s; session_id := session_id s; slot := slot s;
     key_loaded := key_loaded s; tx_counter := tx_counter s; rx_last := rx_last s;
     rx_seen := rx_seen s; session_start_ms := session_start_ms s;
     last_activity_ms := last_activity_ms s; timeout_ms := timeout_ms s;
     challenge_ms := challenge_ms s; challenge_pending := challenge_pending s;
     last_auth_ms := last_auth_ms s; auth_attempts := v;
     integrity_failures := integrity_failures s;
     pending_server_nonce := pending_server_nonce s |}.
Definition set_integrity_failures (s : od_session) (v : Z) : od_session :=
  {| authenticated := authenticated s; session_id := session_id s; slot := slot s;
     key_loaded := key_loaded s; tx_counter := tx_counter s; rx_last := rx_last s;
     rx_seen := rx_seen s; session_start_ms := session_start_ms s;
     last_activity_ms := last_activity_ms s; timeout_ms := timeout_ms s;
     challenge_ms := challenge_ms s; challenge_pending := challenge_pending s;
     last_auth_ms := last_auth_ms s; auth_attempts := auth_attempts s;
     integrity_failures := v; pending_server_nonce := pending_server_nonce s |}.
Definition set_challenge (s : od_session) (pending : bool) (ms : Z) (nonce : bytes) : od_session :=
  {| authenticated := authenticated s; session_id := session_id s; slot := slot s;
     key_loaded := key_loaded s; tx_counter := tx_counter s; rx_last := rx_last s;
     rx_seen := rx_seen s; session_start_ms := session_start_ms s;
     last_activity_ms := last_activity_ms s; timeout_ms := timeout_ms s;
     challenge_ms := ms; challenge_pending := pending; last_auth_ms := last_auth_ms s;
     auth_attempts := auth_attempts s; integrity_failures := integrity_failures s;
     pending_server_nonce := nonce |}.
Definition set_rx (s : od_session) (seen : list Z) (last : Z) : od_session :=
  {| authenticated := authenticated s; session_id := session_id s; slot := slot s;
     key_loaded := key_loaded s; tx_counter := tx_counter s; rx_last := last;
     rx_seen := seen; session_start_ms := session_start_ms s;
     last_activity_ms := last_activity_ms s; timeout_ms := timeout_ms s;
     challenge_ms := challenge_ms s; challenge_pending := challenge_pending s;
     last_auth_ms := last_auth_ms s; auth_attempts := auth_attempts s;
     integrity_failures := integrity_failures s;
     pending_server_nonce := pending_server_nonce s |}.
Definition set_lifetime (s : od_session) (timeout start activity : Z) : od_session :=
  {| authenticated := authenticated s; session_id := session_id s; slot := slot s;
     key_loaded := key_loaded s; tx_counter := tx_counter s; rx_last := rx_last s;
     rx_seen := rx_seen s; session_start_ms := start; last_activity_ms := activity;
     timeout_ms := timeout; challenge_ms := challenge_ms s;
     challenge_pending := challenge_pending s; last_auth_ms := last_auth_ms s;
     auth_attempts := auth_attempts s; integrity_failures := integrity_failures s;
     pending_server_nonce := pending_server_nonce s |}.

(** A zeroed session bound to a key slot: the result of [od_session_init] and of
    every teardown. *)
Definition zero_session (sl : Z) : od_session :=
  {| authenticated := false; session_id := replicate 8 0; slot := sl; key_loaded := false;
     tx_counter := 0; rx_last := 0; rx_seen := replicate (Z.to_nat OD_NONCE_BITMAP_WORDS) 0;
     session_start_ms := 0; last_activity_ms := 0; timeout_ms := 0; challenge_ms := 0;
     challenge_pending := false; last_auth_ms := 0; auth_attempts := 0; integrity_failures := 0;
     pending_server_nonce := replicate 16 0 |}.

(** [cs == OD_HAL_CRYPTO_OK] and [nr == NONCE_OK]. *)
Definition crypto_ok (cs : od_hal_crypto_status) : bool :=
  match cs with OD_HAL_CRYPTO_OK => true | _ => false end.
Definition nonce_ok (nr : NonceResult) : bool :=
  match nr with NONCE_OK => true | _ => false end.

Lemma nonce_ok_true nr : nonce_ok nr = true -> nr = NONCE_OK.
Proof. by destruct nr. Qed.

Lemma crypto_ok_true cs : crypto_ok cs = true -> cs = OD_HAL_CRYPTO_OK.
Proof. by destruct cs. Qed.

(** ** Primitives *)

(** [od_ct_equal]: or-accumulate the differences of the first [n] bytes. *)
Definition od_ct_equal (a b : bytes) (n : Z) : bool :=
  fold_left (fun diff i => u8 (Z.lor diff (u8 (Z.lxor a.[Z.of_nat i] b.[Z.of_nat i]))))
    (seq 0 (Z.to_nat n)) 0 =? 0.

(** [od_be64]: [out[i] = (v >> (56 - 8 i)) & 0xFF]. *)
Definition od_be64 (v : Z) : bytes :=
  map (fun i => Z.land (Z.shiftr v (56 - Z.of_nat i * 8)) 0xFF) (seq 0 8).

(** [od_rd_be64]: [v = (v << 8) | in[i]]. *)
Definition od_rd_be64 (b : bytes) : Z :=
  fold_left (fun v i => Z.lor (u64 (Z.shiftl v 8)) b.[Z.of_nat i]) (seq 0 8) 0.

(** "OpenDisplay session" in ASCII. *)
Definition OD_KDF_LABEL : bytes :=
  [79; 112; 101; 110; 68; 105; 115; 112; 108; 97; 121; 32; 115; 101; 115; 115; 105; 111; 110].

(** "opendisplay-tls-psk" in ASCII. *)
Definition TLS_PSK_LABEL : bytes :=
  [111; 112; 101; 110; 100; 105; 115; 112; 108; 97; 121; 45; 116; 108; 115; 45; 112; 115; 107].

Section Operations.
Context {E : Type} `{Crypto E}.

(** [derive_session_key]: the 58-byte KDF input, then one AES-ECB block. *)
Definition derive_session_key (env : E) (master client_nonce server_nonce device_id : bytes)
  : od_hal_crypto_status * bytes * E :=
  let inp := OD_KDF_LABEL ++ [0x00] ++ take 4 device_id ++ take 16 client_nonce
               ++ take 16 server_nonce ++ [0x00; 0x80] in
  let '(cs, intermediate, env) := od_hal_crypto_cmac env master inp in
  match cs with
  | OD_HAL_CRYPTO_OK => od_hal_crypto_aes_ecb env master (od_be64 1 ++ take 8 intermediate)
  | _ => (cs, [], env)
  end.

(** [derive_session_id]: zeroes on an engine failure. *)
Definition derive_session_id (env : E) (session_key client_nonce server_nonce : bytes)
  : od_hal_crypto_status * bytes * E :=
  let '(cs, mac, env) := od_hal_crypto_cmac env session_key
                           (take 16 client_nonce ++ take 16 server_nonce) in
  match cs with
  | OD_HAL_CRYPTO_OK => (cs, take 8 mac, env)
  | _ => (cs, replicate 8 0, env)
  end.

Definition derive_proof (env : E) (key nonce_a nonce_b device_id : bytes)
  : od_hal_crypto_status * bytes * E :=
  od_hal_crypto_cmac env key (take 16 nonce_a ++ take 16 nonce_b ++ take 4 device_id).

(** ** Lifecycle *)

Definition od_session_init (s : option od_session) (sl : Z) : option od_session :=
  match s with None => None | Some _ => Some (zero_session sl) end.

(** [od_session_clear] on a non-null session. *)
Definition od_session_clear (s : od_session) (env : E) : od_session * E :=
  (zero_session (slot s), if key_loaded s then od_hal_crypto_key_clear env (slot s) else env).

Definition reset_nonce_state (s : od_session) : od_session :=
  set_rx (set_integrity_failures (set_tx_counter s 0) 0)
    (replicate (Z.to_nat OD_NONCE_BITMAP_WORDS) 0) 0.

Definition od_session_security_enabled (sec : option SecurityConfig) : bool :=
  match sec with
  | None => false
  | Some c => negb (encryption_enabled c =? 0) && od_config_security_key_set sec
  end.

Definition od_session_authenticated (s : option od_session) : bool :=
  match s with None => false | Some s => authenticated s end.

(** [od_session_alive]: an expired session is torn down here. *)
Definition od_session_alive (s : od_session) (env : E) (now_ms : Z) (r : od_session_report)
  : bool * od_session * E * od_session_report :=
  if negb (authenticated s) then (false, s, env, r)
  else if timeout_ms s =? 0 then (true, s, env, r)
  else
    let age := u32 (now_ms - session_start_ms s) in
    let r := r_set_age_ms r age in
    if timeout_ms s <=? age then
      let '(s, env) := od_session_clear s env in (false, s, env, r_set_torn_down r true)
    else (true, s, env, r).

Definition od_session_touch (s : option od_session) (now_ms : Z) : option od_session :=
  match s with None => None | Some s => Some (set_last_activity_ms s now_ms) end.

(** ** The handshake *)

(** A result of the handshake: return code, session, reply, report, world. *)
Record auth_out := {
  a_rc : od_session_auth; a_s : od_session; a_rsp : bytes;
  a_rep : od_session_report; a_env : E }.

Definition auth_fail (status : Z) (s : od_session) (r : od_session_report) (env : E)
    (rc : od_session_auth) : auth_out :=
  {| a_rc := rc; a_s := s; a_rsp := [RESP_ACK; RESP_AUTHENTICATE; status];
     a_rep := r_set_status_byte r status; a_env := env |}.

Definition auth_crypto_fail (cs : od_hal_crypto_status) (s : od_session)
    (r : od_session_report) (env : E) : auth_out :=
  auth_fail AUTH_STATUS_ERROR s (r_set_crypto_status r cs) env OD_SESSION_AUTH_CRYPTO_ERROR.

Definition challenge_consume (s : od_session) : od_session :=
  set_challenge s false 0 (replicate 16 0).

(** Step 1: issue a challenge. *)
Definition auth_step1 (s : od_session) (device_id : bytes) (now_ms : Z)
    (r : od_session_report) (env : E) : auth_out :=
  let '(s, env) := if authenticated s then od_session_clear s env else (s, env) in
  let '(cs, nonce, env) := od_hal_crypto_random env OD_SESSION_NONCE_LEN in
  match cs with
  | OD_HAL_CRYPTO_OK =>
      let s := set_challenge s true now_ms nonce in
      {| a_rc := OD_SESSION_AUTH_CHALLENGE; a_s := s;
         a_rsp := [RESP_ACK; RESP_AUTHENTICATE; AUTH_STATUS_CHALLENGE]
                    ++ take 16 nonce ++ take 4 device_id;
         a_rep := r_set_status_byte r AUTH_STATUS_CHALLENGE; a_env := env |}
  | _ => auth_crypto_fail cs (challenge_consume s) r env
  end.

Definition id_nonzero (id : bytes) : bool := existsb (fun b => negb (b =? 0)) (take 8 id).

(** Step 2 after the challenge checks, up to the label [step2_cleanup]. *)
Definition auth_step2_verify (s : od_session) (sec : SecurityConfig) (device_id : bytes)
    (client_nonce client_proof : bytes) (now_ms : Z) (r : od_session_report) (env : E) : auth_out :=
  let server_nonce := pending_server_nonce s in
  let '(cs, expected, env) :=
    derive_proof env (encryption_key sec) server_nonce client_nonce device_id in
  if negb (crypto_ok cs) then auth_crypto_fail cs s r env
  else if negb (od_ct_equal client_proof expected OD_SESSION_MAC_LEN) then
    auth_fail AUTH_STATUS_FAILED s r env OD_SESSION_AUTH_REJECTED
  else
    let '(cs, session_key, env) :=
      derive_session_key env (encryption_key sec) client_nonce server_nonce device_id in
    if negb (crypto_ok cs) then auth_crypto_fail cs s r env
    else
      let '(cs, sid, env) := derive_session_id env session_key client_nonce server_nonce in
      let s := set_session_id s sid in
      if negb (crypto_ok cs) then auth_crypto_fail cs s r env
      else if negb (id_nonzero (session_id s)) then auth_crypto_fail OD_HAL_CRYPTO_ERROR s r env
      else
        let '(cs, proof, env) := derive_proof env session_key server_nonce client_nonce device_id in
        if negb (crypto_ok cs) then
          let '(s, env) := od_session_clear s env in auth_crypto_fail cs s r env
        else
          let '(cs, env) := od_hal_crypto_key_set env (slot s) session_key in
          if negb (crypto_ok cs) then
            let '(s, env) := od_session_clear s env in auth_crypto_fail cs s r env
          else
            let s := set_authenticated (set_key_loaded s true) true in
            let s := reset_nonce_state s in
            let s := set_lifetime s (u32 (session_timeout_seconds sec * 1000)) now_ms now_ms in
            let s := set_auth_attempts (challenge_consume s) 0 in
            {| a_rc := OD_SESSION_AUTH_ESTABLISHED; a_s := s;
               a_rsp := [RESP_ACK; RESP_AUTHENTICATE; AUTH_STATUS_SUCCESS] ++ take 16 proof;
               a_rep := r_set_status_byte r AUTH_STATUS_SUCCESS; a_env := env |}.

(** Step 2: every path from the proof check on ends in [challenge_consume]. *)
Definition auth_step2 (s : od_session) (sec : SecurityConfig) (device_id : bytes)
    (body : od_span) (now_ms : Z) (r : od_session_report) (env : E) : auth_out :=
  let client_nonce := contents (od_span_take body OD_SESSION_NONCE_LEN) in
  let client_proof := contents (od_span_drop body OD_SESSION_NONCE_LEN) in
  if negb (challenge_pending s) then
    auth_fail AUTH_STATUS_ERROR s r env OD_SESSION_AUTH_MALFORMED
  else if OD_SESSION_CHALLENGE_WINDOW_MS <? u32 (now_ms - challenge_ms s) then
    auth_fail AUTH_STATUS_ERROR (challenge_consume s) r env OD_SESSION_AUTH_EXPIRED
  else
    let o := auth_step2_verify s sec device_id client_nonce client_proof now_ms r env in
    {| a_rc := a_rc o; a_s := challenge_consume (a_s o); a_rsp := a_rsp o;
       a_rep := a_rep o; a_env := a_env o |}.

(** The rate limiter: [None] is the refusal, [Some s] the session with the
    attempt counted. *)
Definition auth_rate (s : od_session) (now_ms : Z) : option od_session :=
  let in_window := negb (auth_attempts s =? 0)
                     && (u32 (now_ms - last_auth_ms s) <? OD_SESSION_RATE_WINDOW_MS) in
  if in_window && (OD_SESSION_RATE_MAX_ATTEMPTS <=? auth_attempts s) then None
  else
    let n := if in_window then auth_attempts s else 0 in
    let n := if n <? 0xFF then n + 1 else n in
    Some (set_last_auth_ms (set_auth_attempts s n) now_ms).

Definition is_step1 (body : od_span) : bool :=
  od_span_has body 1 && (sn body =? 1) && (at_ body 0 =? 0x00).
Definition is_step2 (body : od_span) : bool :=
  od_span_has body OD_SESSION_STEP2_BODY_LEN && (sn body =? OD_SESSION_STEP2_BODY_LEN).

Definition no_reply (rc : od_session_auth) (s : od_session) (env : E) : auth_out :=
  {| a_rc := rc; a_s := s; a_rsp := []; a_rep := report_reset; a_env := env |}.

(** [session_authenticate] with non-null arguments. *)
Definition session_authenticate (s : od_session) (sec : option SecurityConfig)
    (device_id : bytes) (body : od_span) (now_ms rsp_cap : Z) (env : E) : auth_out :=
  let r := report_reset in
  if rsp_cap <? 3 then no_reply OD_SESSION_AUTH_NO_ROOM s env
  else match sec with
  | Some c =>
      if negb (od_session_security_enabled sec) then
        auth_fail AUTH_STATUS_NOT_CONFIG s r env OD_SESSION_AUTH_NOT_CONFIGURED
      else if is_step1 body && (rsp_cap <? OD_SESSION_STEP1_REPLY_LEN) then
        no_reply OD_SESSION_AUTH_NO_ROOM s env
      else if is_step2 body && (rsp_cap <? OD_SESSION_STEP2_REPLY_LEN) then
        no_reply OD_SESSION_AUTH_NO_ROOM s env
      else
        match auth_rate s now_ms with
        | None =>
            auth_fail AUTH_STATUS_RATE_LIMIT s (r_set_attempts r (auth_attempts s)) env
              OD_SESSION_AUTH_RATE_LIMITED
        | Some s =>
            let r := r_set_attempts r (auth_attempts s) in
            if is_step1 body then auth_step1 s device_id now_ms r env
            else if is_step2 body then auth_step2 s c device_id body now_ms r env
            else auth_fail AUTH_STATUS_ERROR (challenge_consume s) r env OD_SESSION_AUTH_MALFORMED
        end
  | None => auth_fail AUTH_STATUS_NOT_CONFIG s r env OD_SESSION_AUTH_NOT_CONFIGURED
  end.

(** [od_session_authenticate]: the null-argument guard, then the machine. The
    two booleans say whether [rsp] and [rsp_len] are non-null. *)
Definition od_session_authenticate (s : option od_session) (sec : option SecurityConfig)
    (device_id : option bytes) (body : od_span) (now_ms : Z) (rsp : bool) (rsp_cap : Z)
    (rsp_len : bool) (env : E) : od_session_auth * option od_session * bytes * od_session_report * E :=
  match s, device_id, rsp, rsp_len with
  | Some s, Some d, true, true =>
      let o := session_authenticate s sec d body now_ms rsp_cap env in
      (a_rc o, Some (a_s o), a_rsp o, a_rep o, a_env o)
  | _, _, _, _ => (OD_SESSION_AUTH_BAD_ARGUMENT, s, [], report_reset, env)
  end.

(** ** The envelope *)

Definition build_nonce (s : od_session) (counter : Z) : bytes :=
  take 8 (session_id s) ++ od_be64 counter.

Definition strike (s : od_session) (env : E) (r : od_session_report)
  : od_session * E * od_session_report :=
  let s := if integrity_failures s <? 0xFF
           then set_integrity_failures s (integrity_failures s + 1) else s in
  let r := r_set_rep_integrity_failures r (integrity_failures s) in
  if OD_SESSION_INTEGRITY_STRIKES <=? integrity_failures s then
    let '(s, env) := od_session_clear s env in (s, env, r_set_torn_down r true)
  else (s, env, r).

(** The saturated difference of the report. *)
Definition rx_difference (counter last : Z) : Z :=
  if last <=? counter then Z.min (counter - last) 0x7FFFFFFF
  else - Z.min (last - counter) 0x7FFFFFFF.

(** [od_rd_be64(nonce + OD_SESSION_ID_LEN)]: the counter an envelope carries. *)
Definition envelope_counter (e : od_span) : Z :=
  od_rd_be64 (drop 8 (contents (od_span_take e OD_SESSION_NONCE_LEN))).

(** [session_open] from the CCM call on: commit the counter only if the tag
    verified, strike if it did not. *)
Definition open_decrypt (s : od_session) (cmd : Z) (envelope : od_span) (now_ms : Z)
    (r : od_session_report) (env : E)
  : od_session_open_rc * od_session * bytes * od_session_report * E :=
  let nonce := contents (od_span_take envelope OD_SESSION_NONCE_LEN) in
  let ct := contents (od_span_drop envelope OD_SESSION_NONCE_LEN) in
  let aad := [Z.land (Z.shiftr cmd 8) 0xFF; Z.land cmd 0xFF] in
  let '(cs, plain, env) := od_hal_crypto_ccm_decrypt env (slot s) (drop 3 nonce) aad ct in
  match cs with
  | OD_HAL_CRYPTO_AUTH_FAILED =>
      let '(s, env, r) := strike s env r in (OD_SESSION_OPEN_BAD_TAG, s, [], r, env)
  | OD_HAL_CRYPTO_OK =>
      let '(seen, last) := od_nonce_commit (rx_seen s) (rx_last s) (envelope_counter envelope) in
      let s := set_rx s seen last in
      let plain_len := len plain in
      if (plain_len <? 1) || negb (u16 (plain.[0] + 1) =? plain_len) then
        (OD_SESSION_OPEN_BAD_LENGTH, s, [], r, env)
      else
        (OD_SESSION_OPEN_OK, set_last_activity_ms (set_integrity_failures s 0) now_ms,
         drop 1 plain, r, env)
  | _ => (OD_SESSION_OPEN_CRYPTO_ERROR, s, [], r_set_crypto_status r cs, env)
  end.

(** [session_open] from the envelope-length checks to the CCM call, for a live
    session. *)
Definition open_live (s : od_session) (cmd : Z) (envelope : od_span) (out_cap now_ms : Z)
    (r : od_session_report) (env : E)
  : od_session_open_rc * od_session * bytes * od_session_report * E :=
  if sn envelope <? OD_SESSION_ENVELOPE_MIN then (OD_SESSION_OPEN_SHORT, s, [], r, env)
  else if OD_SESSION_ENVELOPE_MAX <? sn envelope then (OD_SESSION_OPEN_TOO_LONG, s, [], r, env)
  else
    let nonce := contents (od_span_take envelope OD_SESSION_NONCE_LEN) in
    let ct_len := u16 (sn envelope - OD_SESSION_NONCE_LEN) in
    let counter := envelope_counter envelope in
    let r := r_set_rx r counter (rx_last s) (rx_difference counter (rx_last s)) in
    if negb (od_ct_equal nonce (session_id s) OD_SESSION_ID_LEN) then
      (OD_SESSION_OPEN_WRONG_SESSION, s, [],
       r_set_nonce_reason r (NonceResult_val NONCE_BAD_SESSION), env)
    else
      match od_nonce_check (rx_seen s) (rx_last s) counter with
      | NONCE_OK =>
          if out_cap <? ct_len - OD_HAL_CRYPTO_TAG_LEN then (OD_SESSION_OPEN_NO_ROOM, s, [], r, env)
          else open_decrypt s cmd envelope now_ms r env
      | nr => (OD_SESSION_OPEN_REPLAY, s, [], r_set_nonce_reason r (NonceResult_val nr), env)
      end.

(** [session_open] on a non-null session and output: return code, session,
    decrypted payload ([*out_len] bytes at [out]), report, world. *)
Definition session_open (s : od_session) (cmd : Z) (envelope : od_span) (out_cap now_ms : Z) (env : E)
  : od_session_open_rc * od_session * bytes * od_session_report * E :=
  let r := report_reset in
  if negb (od_span_valid envelope) then (OD_SESSION_OPEN_SHORT, s, [], r, env)
  else
    let '(alive, s, env, r) := od_session_alive s env now_ms r in
    if negb alive then (OD_SESSION_OPEN_NO_SESSION, s, [], r, env)
    else open_live s cmd envelope out_cap now_ms r env.

(** [od_session_open]: [out] and [out_len] say whether the pointers are non-null. *)
Definition od_session_open (s : option od_session) (cmd : Z) (envelope : od_span) (out : bool)
    (out_cap : Z) (out_len : bool) (now_ms : Z) (env : E)
  : od_session_open_rc * option od_session * bytes * od_session_report * E :=
  match s, out, out_len with
  | Some s, true, true =>
      let '(rc, s, p, r, env) := session_open s cmd envelope out_cap now_ms env in
      (rc, Some s, p, r, env)
  | _, _, _ => (OD_SESSION_OPEN_SHORT, s, [], report_reset, env)
  end.

(** [session_seal] from the frame-length checks on, for a live session. *)
Definition seal_live (s : od_session) (plain_frame : od_span) (out_cap now_ms : Z)
    (r : od_session_report) (env : E)
  : od_session_seal_rc * od_session * bytes * od_session_report * E :=
  if sn plain_frame <? 2 then (OD_SESSION_SEAL_TOO_SHORT, s, [], r, env)
  else if OD_SESSION_PLAIN_FRAME_MAX <? sn plain_frame then (OD_SESSION_SEAL_TOO_LONG, s, [], r, env)
  else
    let payload_len := u16 (sn plain_frame - 2) in
    let sealed_len := u16 (sn plain_frame + OD_SESSION_NONCE_LEN + 1 + OD_HAL_CRYPTO_TAG_LEN) in
    if out_cap <? sealed_len then (OD_SESSION_SEAL_NO_ROOM, s, [], r, env)
    else if tx_counter s =? UINT64_MAX then (OD_SESSION_SEAL_COUNTER_EXHAUSTED, s, [], r, env)
    else
      let nonce := build_nonce s (tx_counter s) in
      let s := set_tx_counter s (u64 (tx_counter s + 1)) in
      let aad := [at_ plain_frame 0; at_ plain_frame 1] in
      let inner := u8 payload_len :: contents (od_span_drop plain_frame 2) in
      let '(cs, ct, env) := od_hal_crypto_ccm_encrypt env (slot s) (drop 3 nonce) aad inner in
      if negb (crypto_ok cs) then
        (OD_SESSION_SEAL_CRYPTO_ERROR, s, [], r_set_crypto_status r cs, env)
      else
        (OD_SESSION_SEAL_OK, set_last_activity_ms s now_ms,
         [at_ plain_frame 0; at_ plain_frame 1] ++ nonce ++ ct, r, env).

(** [session_seal] on a non-null session and output: return code, session,
    sealed frame ([*out_len] bytes at [out]), report, world. *)
Definition session_seal (s : od_session) (plain_frame : od_span) (out_cap now_ms : Z) (env : E)
  : od_session_seal_rc * od_session * bytes * od_session_report * E :=
  let r := report_reset in
  if negb (od_span_valid plain_frame) then (OD_SESSION_SEAL_NO_ROOM, s, [], r, env)
  else
    let '(alive, s, env, r) := od_session_alive s env now_ms r in
    if negb alive then (OD_SESSION_SEAL_NO_SESSION, s, [], r, env)
    else seal_live s plain_frame out_cap now_ms r env.

Definition od_session_seal (s : option od_session) (plain_frame : od_span) (out : bool)
    (out_cap : Z) (out_len : bool) (now_ms : Z) (env : E)
  : od_session_seal_rc * option od_session * bytes * od_session_report * E :=
  match s, out, out_len with
  | Some s, true, true =>
      let '(rc, s, f, r, env) := session_seal s plain_frame out_cap now_ms env in
      (rc, Some s, f, r, env)
  | _, _, _ => (OD_SESSION_SEAL_NO_ROOM, s, [], report_reset, env)
  end.

(** [od_session_derive_tls_psk]: [None] is the false return. *)
Definition od_session_derive_tls_psk (sec : option SecurityConfig) (psk_out : bool) (env : E)
  : option bytes * E :=
  match sec with
  | Some c =>
      if negb psk_out || negb (od_session_security_enabled sec) then (None, env)
      else
        let '(cs, psk, env) := od_hal_crypto_cmac env (encryption_key c) TLS_PSK_LABEL in
        (if crypto_ok cs then Some psk else None, env)
  | None => (None, env)
  end.

(** [seal_cmd]: the opcode a frame carries, for the log line. *)
Definition seal_cmd (f : od_span) : Z :=
  if is_null (sp f) || (sn f =? 0) then 0
  else u16 (Z.lor (Z.shiftl (at_ f 0) 8) (if 1 <? sn f then at_ f 1 else 0)).
End Operations.
Arguments auth_out : clear implicits.

#[global] Arguments od_rd_be64 : simpl never.
#[global] Arguments od_be64 : simpl never.
#[global] Arguments od_ct_equal : simpl never.
#[global] Arguments wrap : simpl never.
#[global] Arguments envelope_counter : simpl never.

(** ** Lemmas on the primitives *)

Lemma byte_u8 x : is_byte x -> u8 x = x.
Proof. intros. apply wrap_id. exact H. Qed.

Lemma ct_fold a b n acc :
  bytes_ok a -> bytes_ok b -> is_byte acc ->
  fold_left (fun diff i => u8 (Z.lor diff (u8 (Z.lxor a.[Z.of_nat i] b.[Z.of_nat i])))) (seq 0 n) acc = 0 <->
  acc = 0 /\ forall i, (i < n)%nat -> a.[Z.of_nat i] = b.[Z.of_nat i].
Proof.
  intros Ha Hb Hacc. induction n as [|n IH]; [simpl; intuition lia|].
  rewrite seq_S, fold_left_app. cbn [fold_left Nat.add].
  set (x := fold_left _ (seq 0 n) acc) in *.
  assert (Hx : is_byte x).
  { unfold x. generalize (seq 0 n). clear -Hacc. intros l. revert acc Hacc.
    induction l as [|i l IH]; intros acc Hacc; simpl; [done|]. apply IH. by apply (wrap_fits 8). }
  pose proof (lxor_byte _ _ (get_byte a (Z.of_nat n) Ha) (get_byte b (Z.of_nat n) Hb)) as Hl.
  rewrite (byte_u8 _ Hl), byte_u8 by (by apply (fits_lor 8)).
  rewrite Z.lor_eq_0_iff, IH, Z.lxor_eq_0_iff. split.
  - intros [[-> Hi] Hn]. split; [done|]. intros i Hlt.
    destruct (decide (i = n)) as [->|]; [done|]. apply Hi. lia.
  - intros [-> Hi]. split; [split; [done|]|apply Hi; lia]. intros i Hlt. apply Hi. lia.
Qed.

(** The constant-time comparison compares. *)
Lemma od_ct_equal_spec a b n :
  bytes_ok a -> bytes_ok b -> 0 <= n <= len a -> n <= len b ->
  od_ct_equal a b n = true <-> take (Z.to_nat n) a = take (Z.to_nat n) b.
Proof.
  intros Ha Hb Hna Hnb. unfold od_ct_equal. rewrite Z.eqb_eq, ct_fold by (done || (unfold is_byte; lia)).
  split.
  - intros [_ Hi]. apply list_eq. intros i. destruct (decide (i < Z.to_nat n)%nat).
    + rewrite !lookup_take_lt by lia. specialize (Hi i ltac:(lia)). unfold get in Hi.
      rewrite Nat2Z.id in Hi. destruct (lookup_lt_is_Some_2 a i) as [x Hx]; [lia|].
      destruct (lookup_lt_is_Some_2 b i) as [y Hy]; [lia|].
      rewrite (list_lookup_total_correct _ _ _ Hx), (list_lookup_total_correct _ _ _ Hy) in Hi. congruence.
    + rewrite !lookup_take_ge by lia. done.
  - intros He. split; [done|]. intros i Hi. unfold get. rewrite Nat2Z.id, !list_lookup_total_alt.
    f_equal. apply (f_equal (fun l => l !! i)) in He. by rewrite !lookup_take_lt in He by lia.
Qed.

Lemma length_od_be64 v : length (od_be64 v) = 8%nat.
Proof. done. Qed.

Lemma land_255 x : Z.land x 0xFF = x mod 256.
Proof. by apply (Z.land_ones x 8). Qed.

Lemma od_be64_get v i : (i < 8)%nat ->
  (od_be64 v).[Z.of_nat i] = (v / 2 ^ (56 - 8 * Z.of_nat i)) mod 256.
Proof.
  intros Hi. unfold od_be64, get. rewrite Nat2Z.id, list_lookup_total_alt.
  rewrite <- (list_fmap_id (seq 0 8)) at 1. change (map ?f ?l) with (f <$> l).
  rewrite list_lookup_fmap, list_lookup_fmap, lookup_seq_lt by lia. simpl.
  rewrite land_255, Z.shiftr_div_pow2 by lia. do 2 f_equal. f_equal. lia.
Qed.

Lemma od_be64_ok v : bytes_ok (od_be64 v).
Proof.
  unfold bytes_ok, od_be64. apply Forall_forall. intros x (i & -> & _)%list_elem_of_fmap.
  rewrite land_255. unfold is_byte. apply Z.mod_pos_bound. lia.
Qed.

Lemma lor_shift8 x b :
  0 <= x < 2 ^ 56 -> is_byte b -> Z.lor (u64 (Z.shiftl x 8)) b = x * 256 + b.
Proof.
  intros Hx Hb. rewrite Z.shiftl_mul_pow2 by lia. change (2 ^ 8) with 256.
  rewrite wrap_id by wrap_lia.
  assert (Hand : Z.land (x * 256) b = 0).
  { apply Z.bits_inj'. intros n Hn. rewrite Z.land_spec, Z.bits_0.
    destruct (Z.ltb_spec n 8).
    - change 256 with (2 ^ 8). rewrite Z.mul_pow2_bits_low by lia. done.
    - rewrite (fits_testbit_high 8 b) by (done || lia). apply andb_false_r. }
  rewrite <- (Z.lxor_lor _ _ Hand). symmetry. by apply Z.add_nocarry_lxor.
Qed.

Lemma be64_fold v n :
  fits 64 v -> (n <= 8)%nat ->
  fold_left (fun a i => Z.lor (u64 (Z.shiftl a 8)) (od_be64 v).[Z.of_nat i]) (seq 0 n) 0
    = v / 2 ^ (64 - 8 * Z.of_nat n).
Proof.
  intros Hv. induction n as [|n IH]; intros Hn.
  { simpl. symmetry. apply Z.div_small. exact Hv. }
  rewrite seq_S, fold_left_app. cbn [fold_left Nat.add]. rewrite IH, od_be64_get by lia.
  set (k := 56 - 8 * Z.of_nat n). replace (64 - 8 * Z.of_nat n) with (k + 8) by lia.
  replace (64 - 8 * Z.of_nat (S n)) with k by lia.
  assert (0 < 2 ^ k) by (apply Z.pow_pos_nonneg; lia).
  rewrite Z.pow_add_r by lia. change (2 ^ 8) with 256. rewrite <- Z.div_div by lia.
  assert (0 <= v / 2 ^ k) by (apply Z.div_pos; [apply Hv|lia]).
  assert (v / 2 ^ k < 2 ^ 64).
  { apply Z.div_lt_upper_bound; [lia|]. destruct Hv. nia. }
  rewrite lor_shift8.
  - pose proof (Z.div_mod (v / 2 ^ k) 256 ltac:(lia)). lia.
  - split; [apply Z.div_pos; lia|]. apply Z.div_lt_upper_bound; [lia|]. simpl. lia.
  - unfold is_byte. apply Z.mod_pos_bound. lia.
Qed.

Lemma be64_roundtrip v : fits 64 v -> od_rd_be64 (od_be64 v) = v.
Proof. intros Hv. unfold od_rd_be64. rewrite be64_fold by (done || lia). apply Z.div_1_r. Qed.

Lemma be64_inj v w : fits 64 v -> fits 64 w -> od_be64 v = od_be64 w -> v = w.
Proof. intros Hv Hw He. rewrite <- (be64_roundtrip v Hv), <- (be64_roundtrip w Hw). by rewrite He. Qed.

Lemma rd_be64_fits b : bytes_ok b -> fits 64 (od_rd_be64 b).
Proof.
  intros Hb. unfold od_rd_be64. assert (H0 : fits 64 0) by done. revert H0. generalize 0.
  induction (seq 0 8) as [|i l IH]; intros v Hv; simpl; [done|]. apply IH.
  apply fits_lor; [lia|by apply wrap_fits|]. pose proof (get_byte b (Z.of_nat i) Hb).
  unfold is_byte, fits in *. simpl. lia.
Qed.

(** ** Opening frames *)

Section OpenLemmas.
Context {E : Type} `{Crypto E}.

Lemma contents_bytes_ok b n p :
  p = Some b -> bytes_ok b -> bytes_ok (contents (od_span_make p n)).
Proof. intros -> Hb. unfold contents. simpl. by apply Forall_take. Qed.

(** The span refers to memory holding bytes. *)
Definition span_bytes (e : od_span) : Prop := match sp e with Some b => bytes_ok b | None => True end.

Lemma envelope_counter_fits e : span_bytes e -> fits 64 (envelope_counter e).
Proof.
  intros Hb. apply rd_be64_fits, Forall_drop. unfold od_span_take, span_bytes, contents in *.
  destruct (od_span_valid e); simpl; [|constructor]. destruct (sp e); [|constructor].
  by apply Forall_take.
Qed.

Lemma alive_true s env now r s' env' r' :
  od_session_alive s env now r = (true, s', env', r') ->
  s' = s /\ env' = env /\ authenticated s = true /\
  (timeout_ms s = 0 \/ u32 (now - session_start_ms s) < timeout_ms s).
Proof.
  unfold od_session_alive. destruct (authenticated s); simpl; [|done].
  destruct (Z.eqb_spec (timeout_ms s) 0); [intros [= <- <- <-]; tauto|].
  destruct (Z.leb_spec (timeout_ms s) (u32 (now - session_start_ms s))); [done|].
  intros [= <- <- <-]. tauto.
Qed.

Lemma alive_false s env now r s' env' r' :
  od_session_alive s env now r = (false, s', env', r') -> authenticated s' = false.
Proof.
  unfold od_session_alive. destruct (authenticated s) eqn:Ha; simpl; [|by intros [= <- <- <-]].
  destruct (timeout_ms s =? 0); [done|]. destruct (timeout_ms s <=? _); [|done].
  by intros [= <- <- <-].
Qed.

Lemma strike_cases s env r s' env' r' :
  strike s env r = (s', env', r') -> 0 <= integrity_failures s < 3 ->
  (integrity_failures s < 2 /\ s' = set_integrity_failures s (integrity_failures s + 1)) \/
  (integrity_failures s = 2 /\ s' = zero_session (slot s) /\ torn_down r' = true).
Proof.
  intros Hs Hb. unfold strike in Hs. destruct (Z.ltb_spec (integrity_failures s) 0xFF); [|lia].
  simpl in Hs. destruct (Z.leb_spec OD_SESSION_INTEGRITY_STRIKES (integrity_failures s + 1)) as [Hl|Hl];
    unfold OD_SESSION_INTEGRITY_STRIKES in Hl.
  - right. injection Hs as <- <- <-. split; [lia|done].
  - left. injection Hs as <- <- <-. split; [lia|done].
Qed.

(** What [open_live] does to the session, by return code. *)
Definition open_effect (s s' : od_session) (counter now : Z) (rc : od_session_open_rc) : Prop :=
  match rc with
  | OD_SESSION_OPEN_OK =>
      od_nonce_check (rx_seen s) (rx_last s) counter = NONCE_OK /\
      s' = set_last_activity_ms (set_integrity_failures
             (set_rx s (od_nonce_commit (rx_seen s) (rx_last s) counter).1
                       (od_nonce_commit (rx_seen s) (rx_last s) counter).2) 0) now
  | OD_SESSION_OPEN_BAD_LENGTH =>
      od_nonce_check (rx_seen s) (rx_last s) counter = NONCE_OK /\
      s' = set_rx s (od_nonce_commit (rx_seen s) (rx_last s) counter).1
                    (od_nonce_commit (rx_seen s) (rx_last s) counter).2
  | OD_SESSION_OPEN_BAD_TAG =>
      (integrity_failures s < 2 /\ s' = set_integrity_failures s (integrity_failures s + 1)) \/
      (integrity_failures s = 2 /\ s' = zero_session (slot s))
  | OD_SESSION_OPEN_NO_SESSION => False
  | _ => s' = s
  end.

Lemma open_decrypt_effect s cmd e now r env rc s' p r' env' :
  open_decrypt s cmd e now r env = (rc, s', p, r', env') ->
  0 <= integrity_failures s < 3 ->
  od_nonce_check (rx_seen s) (rx_last s) (envelope_counter e) = NONCE_OK ->
  open_effect s s' (envelope_counter e) now rc.
Proof.
  intros Ho Hif Hn. unfold open_decrypt in Ho.
  destruct (od_hal_crypto_ccm_decrypt _ _ _ _ _) as [[[] plain] env1];
    try (injection Ho as <- <- <- <- <-; reflexivity).
  - destruct (od_nonce_commit (rx_seen s) (rx_last s) (envelope_counter e)) as [seen last] eqn:Ec.
    destruct (_ || _); injection Ho as <- <- <- <- <-; cbn [open_effect];
      rewrite Ec; (split; [exact Hn|reflexivity]).
  - destruct (strike s env1 _) as [[s1 env2] r1] eqn:Es.
    injection Ho as <- <- <- <- <-.
    destruct (strike_cases _ _ _ _ _ _ Es Hif) as [?|(? & ? & _)]; [by left|by right].
Qed.

Lemma open_live_effect s cmd e cap now r env rc s' p r' env' :
  open_live s cmd e cap now r env = (rc, s', p, r', env') ->
  0 <= integrity_failures s < 3 ->
  open_effect s s' (envelope_counter e) now rc.
Proof.
  intros Ho Hif. unfold open_live in Ho.
  destruct (sn e <? OD_SESSION_ENVELOPE_MIN); [by injection Ho as <- <- <- <- <-|].
  destruct (OD_SESSION_ENVELOPE_MAX <? sn e); [by injection Ho as <- <- <- <- <-|].
  destruct (negb (od_ct_equal _ _ _)); [by injection Ho as <- <- <- <- <-|].
  destruct (od_nonce_check _ _ _) eqn:Hn; try (by injection Ho as <- <- <- <- <-).
  destruct (cap <? _); [by injection Ho as <- <- <- <- <-|].
  by eapply open_decrypt_effect.
Qed.

(** The replay window of an authenticated session represents [seen]. *)
Definition window_of (s : od_session) (seen : list Z) : Prop :=
  authenticated s = true -> window_repr (rx_seen s) (rx_last s) seen.

Lemma commit_window s seen c :
  window_repr (rx_seen s) (rx_last s) seen -> fits 64 c ->
  od_nonce_check (rx_seen s) (rx_last s) c = NONCE_OK ->
  (c ∉ seen) /\
  window_repr (od_nonce_commit (rx_seen s) (rx_last s) c).1
              (od_nonce_commit (rx_seen s) (rx_last s) c).2 (c :: seen).
Proof.
  intros Hw Hc. rewrite (check_exact _ _ _ _ Hw Hc). unfold check_spec.
  destruct (Z.leb_spec OD_NONCE_BACKWARD_BITS (rx_last s - c)); [done|].
  case_decide; [done|]. intros _. split; [done|].
  pose proof (commit_repr _ _ _ _ Hw Hc ltac:(lia)) as Hr.
  destruct (od_nonce_commit (rx_seen s) (rx_last s) c). apply Hr.
Qed.

Lemma alive_false_failures s env now r s' env' r' :
  od_session_alive s env now r = (false, s', env', r') ->
  0 <= integrity_failures s < 3 -> 0 <= integrity_failures s' < 3.
Proof.
  unfold od_session_alive. destruct (authenticated s); cbn [negb]; [|by intros [= <- <- <-]].
  destruct (timeout_ms s =? 0); [discriminate|]. destruct (timeout_ms s <=? _); [|discriminate].
  intros [= <- <- <-] _. simpl. lia.
Qed.

(** What one open keeps of the replay invariant, and what an accepted counter
    satisfies. *)
Definition window_kept (s' : od_session) (seen : list Z) (c : Z) (rc : od_session_open_rc) : Prop :=
  0 <= integrity_failures s' < 3 /\
  exists seen', window_of s' seen' /\ (forall x, x ∈ seen -> x ∈ seen') /\
    (rc = OD_SESSION_OPEN_OK -> (c ∉ seen) /\ (c ∈ seen')).

Lemma kept_same s s' seen c rc :
  window_of s seen -> rc <> OD_SESSION_OPEN_OK -> 0 <= integrity_failures s' < 3 ->
  (authenticated s' = true -> authenticated s = true /\ rx_seen s' = rx_seen s /\ rx_last s' = rx_last s) ->
  window_kept s' seen c rc.
Proof.
  intros Hw Hrc Hif Hsame. split; [exact Hif|]. exists seen. split; [|split; [auto|by intros ?]].
  intros Ha. destruct (Hsame Ha) as (Ha' & -> & ->). by apply Hw.
Qed.

Lemma kept_commit s s' seen c rc :
  window_repr (rx_seen s) (rx_last s) seen -> fits 64 c ->
  od_nonce_check (rx_seen s) (rx_last s) c = NONCE_OK -> 0 <= integrity_failures s' < 3 ->
  rx_seen s' = (od_nonce_commit (rx_seen s) (rx_last s) c).1 ->
  rx_last s' = (od_nonce_commit (rx_seen s) (rx_last s) c).2 ->
  window_kept s' seen c rc.
Proof.
  intros Hw Hc Hn Hif H1 H2. destruct (commit_window s seen c Hw Hc Hn) as [Hnew Hw'].
  split; [exact Hif|]. exists (c :: seen). split; [|split; [set_solver|]].
  - intros _. by rewrite H1, H2.
  - intros _. split; [exact Hnew|set_solver].
Qed.

Lemma effect_kept s s' seen c now rc :
  open_effect s s' c now rc -> 0 <= integrity_failures s < 3 ->
  authenticated s = true -> window_of s seen -> fits 64 c -> window_kept s' seen c rc.
Proof.
  intros Heff Hif Ha Hw Hc. pose proof (Hw Ha) as Hw1.
  destruct rc; cbn [open_effect] in Heff;
    try (subst s'; apply (kept_same s); [exact Hw|discriminate|exact Hif|auto]).
  - destruct Heff as [Hn ->]. eapply kept_commit; try eassumption; try reflexivity. simpl. lia.
  - destruct Heff.
  - destruct Heff as [[Hlt ->]|[Hlt ->]];
      (apply (kept_same s); [exact Hw|discriminate|simpl; lia|simpl; auto]). discriminate.
  - destruct Heff as [Hn ->]. eapply kept_commit; try eassumption; reflexivity.
Qed.

Lemma open_window s seen cmd e cap now env rc s' p r' env' :
  session_open s cmd e cap now env = (rc, s', p, r', env') ->
  0 <= integrity_failures s < 3 -> window_of s seen -> span_bytes e ->
  window_kept s' seen (envelope_counter e) rc.
Proof.
  intros Ho Hif Hw Hb. unfold session_open in Ho.
  destruct (od_span_valid e); cbn [negb] in Ho.
  2:{ injection Ho as <- <- <- <- <-. apply (kept_same s); [exact Hw|discriminate|exact Hif|auto]. }
  destruct (od_session_alive s env now report_reset) as [[[al s1] env1] r1] eqn:Ea.
  destruct al; cbn [negb] in Ho.
  - destruct (alive_true _ _ _ _ _ _ _ Ea) as (-> & -> & Hauth & _).
    pose proof (open_live_effect _ _ _ _ _ _ _ _ _ _ _ _ Ho Hif) as Heff. clear Ho Ea.
    eapply effect_kept; try eassumption. by apply envelope_counter_fits.
  - pose proof (alive_false _ _ _ _ _ _ _ Ea) as Hna.
    pose proof (alive_false_failures _ _ _ _ _ _ _ Ea Hif) as Hif'.
    injection Ho as <- <- <- <- <-. apply (kept_same s); [exact Hw|discriminate|exact Hif'|congruence].
Qed.

(** A run of inbound envelopes over one session: opcode, envelope, output
    capacity and clock of each call; the counters of the accepted ones. *)
Fixpoint open_run (s : od_session) (env : E) (calls : list (Z * od_span * Z * Z)) : list Z :=
  match calls with
  | [] => []
  | (cmd, e, cap, now) :: rest =>
      let '(rc, s', _, _, env') := session_open s cmd e cap now env in
      if bool_decide (rc = OD_SESSION_OPEN_OK) then envelope_counter e :: open_run s' env' rest
      else open_run s' env' rest
  end.
End OpenLemmas.

(** ** Sealing frames *)

Section SealLemmas.
Context {E : Type} `{Crypto E}.

Lemma build_nonce_length s c : length (session_id s) = 8%nat -> length (build_nonce s c) = 16%nat.
Proof. intros Hl. unfold build_nonce. rewrite length_app, length_take, length_od_be64. lia. Qed.

Lemma build_nonce_inj s s' c c' :
  session_id s = session_id s' -> fits 64 c -> fits 64 c' ->
  build_nonce s c = build_nonce s' c' -> c = c'.
Proof.
  intros Hid Hc Hc'. unfold build_nonce. rewrite Hid. intros He%app_inv_head. by apply be64_inj.
Qed.

(** The nonce field of a sealed frame. *)
Definition frame_nonce (out : bytes) : bytes := take 16 (drop 2 out).

Definition seal_inv (s : od_session) : Prop :=
  length (session_id s) = 8%nat /\ fits 64 (tx_counter s).

Lemma seal_counter s f cap now env rc s' out r env' :
  session_seal s f cap now env = (rc, s', out, r, env') -> seal_inv s ->
  (authenticated s' = true ->
     session_id s' = session_id s /\ seal_inv s' /\ tx_counter s <= tx_counter s') /\
  (rc = OD_SESSION_SEAL_OK ->
     authenticated s' = true /\ tx_counter s < tx_counter s' /\
     frame_nonce out = build_nonce s (tx_counter s)).
Proof.
  intros Hs Hf. unfold session_seal in Hs.
  assert (Hstay : authenticated s = true ->
     session_id s = session_id s /\ seal_inv s /\ tx_counter s <= tx_counter s)
    by (intros _; split; [done|split; [done|lia]]).
  destruct (od_span_valid f); cbn [negb] in Hs; [|by injection Hs as <- <- <- <- <-].
  destruct (od_session_alive s env now report_reset) as [[[al s1] env1] r1] eqn:Ea.
  destruct al; cbn [negb] in Hs.
  2:{ injection Hs as <- <- <- <- <-. rewrite (alive_false _ _ _ _ _ _ _ Ea). done. }
  destruct (alive_true _ _ _ _ _ _ _ Ea) as (-> & -> & Hauth & _). unfold seal_live in Hs.
  destruct (sn f <? 2); [by injection Hs as <- <- <- <- <-|].
  destruct (OD_SESSION_PLAIN_FRAME_MAX <? sn f); [by injection Hs as <- <- <- <- <-|].
  destruct (cap <? _); [by injection Hs as <- <- <- <- <-|].
  destruct (Z.eqb_spec (tx_counter s) UINT64_MAX) as [|Hne]; [by injection Hs as <- <- <- <- <-|].
  unfold UINT64_MAX in Hne. destruct Hf as [Hl Hf].
  rewrite (wrap_id 64 (tx_counter s + 1)) in Hs by wrap_lia.
  assert (Hinv : seal_inv (set_tx_counter s (tx_counter s + 1))) by (split; [done|simpl; wrap_lia]).
  destruct (od_hal_crypto_ccm_encrypt _ _ _ _ _) as [[cs ct] env2].
  destruct (negb (crypto_ok cs)); injection Hs as <- <- <- <- <-.
  - split; [|done]. intros _. split; [done|]. split; [done|simpl; lia].
  - split; [intros _; split; [done|]; split; [done|simpl; lia]|].
    intros _. split; [done|]. split; [simpl; lia|].
    unfold frame_nonce. simpl. rewrite drop_0, take_app_length'; [done|].
    symmetry. by apply build_nonce_length.
Qed.

(** A run of seals over one session; the nonces of the frames produced. *)
Fixpoint seal_run (s : od_session) (env : E) (calls : list (od_span * Z * Z)) : list bytes :=
  match calls with
  | [] => []
  | (f, cap, now) :: rest =>
      let '(rc, s', out, _, env') := session_seal s f cap now env in
      if bool_decide (rc = OD_SESSION_SEAL_OK) then frame_nonce out :: seal_run s' env' rest
      else seal_run s' env' rest
  end.

Lemma seal_dead s f cap now env rc s' out r env' :
  session_seal s f cap now env = (rc, s', out, r, env') -> authenticated s = false ->
  rc <> OD_SESSION_SEAL_OK /\ authenticated s' = false.
Proof.
  intros Hs Ha. unfold session_seal, od_session_alive in Hs. rewrite Ha in Hs.
  destruct (od_span_valid f); cbn [negb] in Hs; by injection Hs as <- <- <- <- <-.
Qed.

Lemma seal_run_dead s env calls : authenticated s = false -> seal_run s env calls = [].
Proof.
  revert s env. induction calls as [|[[f cap] now] rest IH]; intros s env Ha; [done|]. cbn [seal_run].
  destruct (session_seal s f cap now env) as [[[[rc s'] out] r] env'] eqn:Es.
  destruct (seal_dead _ _ _ _ _ _ _ _ _ _ Es Ha) as [Hrc Ha'].
  rewrite bool_decide_false by done. by apply IH.
Qed.

(** Every nonce of a run carries a counter at or above the starting one. *)
Lemma seal_run_nonces s env calls n :
  seal_inv s -> n ∈ seal_run s env calls ->
  exists c, n = build_nonce s c /\ fits 64 c /\ tx_counter s <= c.
Proof.
  revert s env. induction calls as [|[[f cap] now] rest IH]; intros s env Hi Hn.
  { by apply elem_of_nil in Hn. }
  cbn [seal_run] in Hn. destruct (session_seal s f cap now env) as [[[[rc s'] out] r] env'] eqn:Es.
  destruct (seal_counter _ _ _ _ _ _ _ _ _ _ Es Hi) as [Hs' Hok].
  assert (Hrest : n ∈ seal_run s' env' rest ->
            exists c, n = build_nonce s c /\ fits 64 c /\ tx_counter s <= c).
  { intros Hin. destruct (authenticated s') eqn:Ha; [|rewrite (seal_run_dead _ _ _ Ha) in Hin; by apply elem_of_nil in Hin].
    destruct (Hs' eq_refl) as (Hid & Hi' & Hle). destruct (IH s' env' Hi' Hin) as (c & -> & Hc & Hge).
    exists c. split; [|split; [done|lia]]. unfold build_nonce. by rewrite Hid. }
  case_bool_decide as Hrc; [|by apply Hrest].
  apply elem_of_cons in Hn as [->|Hn]; [|by apply Hrest].
  exists (tx_counter s). destruct (Hok Hrc) as (_ & _ & ->). split; [done|]. split; [apply Hi|lia].
Qed.
End SealLemmas.

(** ** Theorems *)

Section Theorems.
  Context {E : Type} `{Crypto E}.

(** C1. Replay protection end to end: over any run of inbound envelopes on one
    session, whatever the cipher answers and however the clock moves, the
    counters of the envelopes accepted are pairwise distinct and none was
    consumed before. *)
Theorem session_open_no_replay (s : od_session) (env : E) (seen : list Z)
    (calls : list (Z * od_span * Z * Z)) :
  0 <= integrity_failures s < 3 -> window_of s seen ->
  Forall (fun c => span_bytes c.1.1.2) calls ->
  NoDup (open_run s env calls) /\ (forall c, c ∈ open_run s env calls -> c ∉ seen).
Proof.
  revert s env seen. induction calls as [|[[[cmd e] cap] now] rest IH]; intros s env seen Hif Hw HF.
  { split; [constructor|set_solver]. }
  inversion_clear HF as [|? ? Hb HF']. cbn [open_run].
  destruct (session_open s cmd e cap now env) as [[[[rc s'] p] r] env'] eqn:Eo.
  destruct (open_window _ _ _ _ _ _ _ _ _ _ _ _ Eo Hif Hw Hb) as (Hif' & seen' & Hw' & Hsub & Hok).
  destruct (IH s' env' seen' Hif' Hw' HF') as [Hnd Hfresh].
  case_bool_decide as Hrc; [|split; [exact Hnd|intros c Hc Hin; exact (Hfresh c Hc (Hsub c Hin))]].
  destruct (Hok Hrc) as [Hnew Hin']. split.
  - constructor; [|exact Hnd]. intros Hin. exact (Hfresh _ Hin Hin').
  - intros c [->|Hc]%elem_of_cons; [exact Hnew|]. intros Hin. exact (Hfresh c Hc (Hsub c Hin)).
Qed.

(** What a frame can do to a live session, on every branch of
    [od_session_open]: only a frame whose tag verified moves the replay window;
    a forged one (bad tag) costs one strike, and the third strike tears the
    session down; a short, oversized, foreign, replayed or undecryptable frame
    leaves the session exactly as it was. *)
Theorem session_open_effects (s : od_session) (cmd : Z) (e : od_span) (cap now : Z) (env : E)
    rc s' p r' env' :
  session_open s cmd e cap now env = (rc, s', p, r', env') ->
  authenticated s = true -> 0 <= integrity_failures s < 3 ->
  (timeout_ms s = 0 \/ u32 (now - session_start_ms s) < timeout_ms s) ->
  open_effect s s' (envelope_counter e) now rc.
Proof.
  intros Ho Ha Hif Hlive. unfold session_open in Ho.
  destruct (od_span_valid e); cbn [negb] in Ho; [|by injection Ho as <- <- <- <- <-].
  destruct (od_session_alive s env now report_reset) as [[[al s1] env1] r1] eqn:Ea.
  destruct al; cbn [negb] in Ho.
  - destruct (alive_true _ _ _ _ _ _ _ Ea) as (-> & -> & _ & _). by eapply open_live_effect.
  - exfalso. unfold od_session_alive in Ea. rewrite Ha in Ea. cbn [negb] in Ea.
    destruct (Z.eqb_spec (timeout_ms s) 0); [discriminate|].
    destruct (Z.leb_spec (timeout_ms s) (u32 (now - session_start_ms s))); [lia|discriminate].
Qed.


(** *** The handshake *)

(** The outcomes that refuse a request without examining it. *)
Definition refused (rc : od_session_auth) : Prop :=
  rc = OD_SESSION_AUTH_NO_ROOM \/ rc = OD_SESSION_AUTH_RATE_LIMITED \/
  rc = OD_SESSION_AUTH_NOT_CONFIGURED \/ rc = OD_SESSION_AUTH_BAD_ARGUMENT.

(** What [auth_rate] passes on: only the attempt count and its clock change. *)
Lemma auth_rate_fields s now s1 :
  auth_rate s now = Some s1 -> 0 <= auth_attempts s <= OD_SESSION_RATE_MAX_ATTEMPTS ->
  exists n, s1 = set_last_auth_ms (set_auth_attempts s n) now /\ 1 <= n <= OD_SESSION_RATE_MAX_ATTEMPTS.
Proof.
  unfold auth_rate, OD_SESSION_RATE_MAX_ATTEMPTS.
  destruct (Z.eqb_spec (auth_attempts s) 0), (u32 (now - last_auth_ms s) <? OD_SESSION_RATE_WINDOW_MS);
    cbn [negb andb].
  1, 2, 4: intros [= <-] Hb; eexists; split; [reflexivity|]; simpl; lia.
  destruct (Z.leb_spec 10 (auth_attempts s)); [discriminate|].
  destruct (Z.ltb_spec (auth_attempts s) 0xFF); intros [= <-] Hb; eexists; (split; [reflexivity|lia]).
Qed.

(** The verification ends with the session either untouched up to its id,
    cleared, or established from the KDF's outputs. *)
Lemma verify_cases s c dev cn cp now r env :
  let o := auth_step2_verify s c dev cn cp now r env in
  (a_rc o = OD_SESSION_AUTH_ESTABLISHED ->
     (exists expected env1,
        derive_proof env (encryption_key c) (pending_server_nonce s) cn dev = (OD_HAL_CRYPTO_OK, expected, env1) /\
        od_ct_equal cp expected OD_SESSION_MAC_LEN = true /\
        exists key env2, derive_session_key env1 (encryption_key c) cn (pending_server_nonce s) dev
                         = (OD_HAL_CRYPTO_OK, key, env2) /\
        exists env3, derive_session_id env2 key cn (pending_server_nonce s)
                     = (OD_HAL_CRYPTO_OK, session_id (a_s o), env3)) /\
     id_nonzero (session_id (a_s o)) = true /\
     authenticated (a_s o) = true /\ key_loaded (a_s o) = true /\ slot (a_s o) = slot s /\
     tx_counter (a_s o) = 0 /\ (rx_seen (a_s o), rx_last (a_s o)) = fresh_window /\
     session_start_ms (a_s o) = now /\
     timeout_ms (a_s o) = u32 (session_timeout_seconds c * 1000) /\ auth_attempts (a_s o) = 0) /\
  ~ refused (a_rc o) /\ a_rc o <> OD_SESSION_AUTH_CHALLENGE /\
  (auth_attempts (a_s o) = auth_attempts s \/ auth_attempts (a_s o) = 0).
Proof.
  unfold auth_step2_verify, refused.
  destruct (derive_proof env (encryption_key c) (pending_server_nonce s) cn dev) as [[cs1 expected] env1] eqn:E1.
  destruct (crypto_ok cs1) eqn:O1; cbn [negb]; [apply crypto_ok_true in O1; subst cs1|simpl; intuition discriminate].
  destruct (od_ct_equal cp expected OD_SESSION_MAC_LEN) eqn:Ep; cbn [negb]; [|simpl; intuition discriminate].
  destruct (derive_session_key env1 (encryption_key c) cn (pending_server_nonce s) dev) as [[cs2 key] env2] eqn:E2.
  destruct (crypto_ok cs2) eqn:O2; cbn [negb]; [apply crypto_ok_true in O2; subst cs2|simpl; intuition discriminate].
  destruct (derive_session_id env2 key cn (pending_server_nonce s)) as [[cs3 sid] env3] eqn:E3.
  destruct (crypto_ok cs3) eqn:O3; cbn [negb]; [apply crypto_ok_true in O3; subst cs3|simpl; intuition discriminate].
  destruct (id_nonzero (session_id (set_session_id s sid))) eqn:Eid; cbn [negb]; [|simpl; intuition discriminate].
  destruct (derive_proof env3 key (pending_server_nonce s) cn dev) as [[cs4 proof] env4].
  destruct (crypto_ok cs4); cbn [negb]; [|simpl; intuition discriminate].
  destruct (od_hal_crypto_key_set env4 (slot (set_session_id s sid)) key) as [cs5 env5].
  destruct (crypto_ok cs5); cbn [negb]; [|simpl; intuition discriminate].
  cbn -[wrap]. split; [|intuition discriminate].
  intros _. split; [|repeat split; done].
  exists expected, env1. do 2 (split; [done|]). exists key, env2. split; [done|]. by exists env3.
Qed.

(** C3. A session is opened only for the key holder: [ESTABLISHED] means that
    security is configured, a challenge was outstanding and at most 30 s old,
    and the client's proof equals the CMAC of the server nonce, the client nonce
    and the device id under the master key.  The session that results starts
    from fresh counters, with the id and timeout derived for it, and the
    challenge is spent. *)
Theorem session_established_sound (s : od_session) (sec : option SecurityConfig) (dev : bytes)
    (body : od_span) (now cap : Z) (env : E) :
  let o := session_authenticate s sec dev body now cap env in
  a_rc o = OD_SESSION_AUTH_ESTABLISHED ->
  exists c cn cp expected env1,
    sec = Some c /\ od_session_security_enabled sec = true /\
    cn = contents (od_span_take body 16) /\ cp = contents (od_span_drop body 16) /\
    challenge_pending s = true /\ u32 (now - challenge_ms s) <= OD_SESSION_CHALLENGE_WINDOW_MS /\
    od_hal_crypto_cmac env (encryption_key c)
      (take 16 (pending_server_nonce s) ++ take 16 cn ++ take 4 dev) = (OD_HAL_CRYPTO_OK, expected, env1) /\
    od_ct_equal cp expected OD_SESSION_MAC_LEN = true /\
    authenticated (a_s o) = true /\ id_nonzero (session_id (a_s o)) = true /\
    tx_counter (a_s o) = 0 /\ (rx_seen (a_s o), rx_last (a_s o)) = fresh_window /\
    challenge_pending (a_s o) = false /\
    session_start_ms (a_s o) = now /\ timeout_ms (a_s o) = u32 (session_timeout_seconds c * 1000).
Proof.
  unfold session_authenticate. destruct (cap <? 3); [discriminate|]. destruct sec as [c|]; [|discriminate].
  destruct (od_session_security_enabled (Some c)) eqn:Esec; cbn [negb]; [|discriminate].
  destruct (is_step1 body && _); [discriminate|]. destruct (is_step2 body && _); [discriminate|].
  destruct (auth_rate s now) as [s1|] eqn:Er; [|discriminate].
  assert (Hp : challenge_pending s1 = challenge_pending s /\ challenge_ms s1 = challenge_ms s /\
               pending_server_nonce s1 = pending_server_nonce s).
  { unfold auth_rate in Er. destruct (_ && _); [discriminate|]. by injection Er as <-. }
  destruct Hp as (Hp1 & Hp2 & Hp3).
  destruct (is_step1 body).
  { unfold auth_step1. destruct (if authenticated s1 then _ else _) as [s2 env2].
    destruct (od_hal_crypto_random env2 OD_SESSION_NONCE_LEN) as [[[] nonce] env3]; discriminate. }
  destruct (is_step2 body); [|discriminate]. unfold auth_step2.
  destruct (challenge_pending s1); cbn [negb]; [|discriminate].
  destruct (Z.ltb_spec OD_SESSION_CHALLENGE_WINDOW_MS (u32 (now - challenge_ms s1))); [discriminate|].
  cbn [a_rc a_s]. intros Hrc.
  destruct (verify_cases s1 c dev (contents (od_span_take body OD_SESSION_NONCE_LEN))
              (contents (od_span_drop body OD_SESSION_NONCE_LEN)) now
              (r_set_attempts report_reset (auth_attempts s1)) env) as [Hest _].
  destruct (Hest Hrc) as ((expected & env1 & Hd & Heq & _) & Hid & Ha & _ & _ & Htx & Hw & Hst & Hto & _).
  unfold derive_proof in Hd. rewrite Hp3 in Hd.
  exists c, (contents (od_span_take body 16)), (contents (od_span_drop body 16)), expected, env1.
  rewrite <- Hp1, <- Hp2. do 6 (split; [done|]). split; [exact Hd|]. split; [exact Heq|].
  split; [exact Ha|]. split; [exact Hid|]. split; [exact Htx|]. split; [exact Hw|]. split; [done|].
  split; [exact Hst|exact Hto].
Qed.

(** C13. The handshake is transactional and a challenge answers one step 2: a
    refused request (no room, throttled, not configured) changes neither the
    session nor the world; every other step 2 leaves no challenge outstanding,
    whatever its outcome; a challenge is outstanding after a step 1 exactly when
    the reply offered one; and the attempt counter never exceeds the limit. *)
Theorem session_challenge_single_use (s : od_session) (sec : option SecurityConfig) (dev : bytes)
    (body : od_span) (now cap : Z) (env : E) :
  0 <= auth_attempts s <= OD_SESSION_RATE_MAX_ATTEMPTS ->
  let o := session_authenticate s sec dev body now cap env in
  (refused (a_rc o) -> a_s o = s /\ a_env o = env) /\
  (~ refused (a_rc o) ->
     challenge_pending (a_s o) = bool_decide (a_rc o = OD_SESSION_AUTH_CHALLENGE) /\
     (a_rc o = OD_SESSION_AUTH_CHALLENGE -> is_step1 body = true)) /\
  0 <= auth_attempts (a_s o) <= OD_SESSION_RATE_MAX_ATTEMPTS.
Proof.
  intros Hat. unfold session_authenticate.
  assert (Hrefuse : forall rc rsp rep, refused rc ->
    let o := {| a_rc := rc; a_s := s; a_rsp := rsp; a_rep := rep; a_env := env |} in
    (refused (a_rc o) -> a_s o = s /\ a_env o = env) /\
    (~ refused (a_rc o) ->
       challenge_pending (a_s o) = bool_decide (a_rc o = OD_SESSION_AUTH_CHALLENGE) /\
       (a_rc o = OD_SESSION_AUTH_CHALLENGE -> is_step1 body = true)) /\
    0 <= auth_attempts (a_s o) <= OD_SESSION_RATE_MAX_ATTEMPTS).
  { intros rc rsp rep Hr. simpl. tauto. }
  destruct (cap <? 3); [apply Hrefuse; unfold refused; tauto|].
  destruct sec as [c|]; [|apply Hrefuse; unfold refused; tauto].
  destruct (negb (od_session_security_enabled (Some c))); [apply Hrefuse; unfold refused; tauto|].
  destruct (is_step1 body && _); [apply Hrefuse; unfold refused; tauto|].
  destruct (is_step2 body && _); [apply Hrefuse; unfold refused; tauto|].
  destruct (auth_rate s now) as [s1|] eqn:Er; [|apply Hrefuse; unfold refused; tauto]. clear Hrefuse.
  destruct (auth_rate_fields _ _ _ Er Hat) as (n & Es1 & Hn).
  assert (Hn1 : 0 <= auth_attempts s1 <= OD_SESSION_RATE_MAX_ATTEMPTS) by (rewrite Es1; simpl; lia).
  clear Er Es1 Hn.
  destruct (is_step1 body).
  - unfold auth_step1.
    assert (Hcl : 0 <= auth_attempts (if authenticated s1 then od_session_clear s1 env else (s1, env)).1
                  <= OD_SESSION_RATE_MAX_ATTEMPTS).
    { destruct (authenticated s1); [unfold OD_SESSION_RATE_MAX_ATTEMPTS; simpl; lia|exact Hn1]. }
    destruct (if authenticated s1 then _ else _) as [s2 env2].
    destruct (od_hal_crypto_random env2 OD_SESSION_NONCE_LEN) as [[[] nonce] env3];
      unfold refused; simpl in *; (split; [intuition discriminate|]); (split; [|exact Hcl]);
      intros _; split; done.
  - destruct (is_step2 body); [|unfold refused; simpl; split; [intuition discriminate|done]].
    unfold auth_step2. destruct (challenge_pending s1) eqn:Ecp; cbn [negb].
    2:{ unfold refused; simpl. split; [intuition discriminate|]. split; [|done]. intros _. by rewrite Ecp. }
    destruct (_ <? _); [unfold refused; simpl; split; [intuition discriminate|done]|].
    destruct (verify_cases s1 c dev (contents (od_span_take body OD_SESSION_NONCE_LEN))
              (contents (od_span_drop body OD_SESSION_NONCE_LEN)) now
              (r_set_attempts report_reset (auth_attempts s1)) env) as (_ & Hnr & Hnc & Hat').
    cbn [a_rc a_s]. split; [intros Hr; by destruct (Hnr Hr)|]. split.
    + intros _. split; [by rewrite bool_decide_false|done].
    + simpl. unfold OD_SESSION_RATE_MAX_ATTEMPTS in *. destruct Hat' as [->| ->]; lia.
Qed.

(** The session lifetime is absolute and survives the 32-bit clock
    rollover: [elapsed] milliseconds after it started, a session with a timeout
    is alive iff [elapsed] is below the timeout, and otherwise it is torn down
    on the spot with its key slot released and its slot number kept. *)
Theorem session_alive_rollover (s : od_session) (env : E) (elapsed : Z) (r : od_session_report) :
  authenticated s = true -> fits 32 (session_start_ms s) -> 0 < timeout_ms s -> fits 32 elapsed ->
  od_session_alive s env (u32 (session_start_ms s + elapsed)) r =
    if elapsed <? timeout_ms s then (true, s, env, r_set_age_ms r elapsed)
    else (false, zero_session (slot s),
          if key_loaded s then od_hal_crypto_key_clear env (slot s) else env,
          r_set_torn_down (r_set_age_ms r elapsed) true).
Proof.
  intros Ha Hst Hto Hel. unfold od_session_alive. rewrite Ha. cbn [negb].
  destruct (Z.eqb_spec (timeout_ms s) 0); [lia|].
  replace (u32 (u32 (session_start_ms s + elapsed) - session_start_ms s)) with elapsed by wrap_lia.
  destruct (Z.leb_spec (timeout_ms s) elapsed), (Z.ltb_spec elapsed (timeout_ms s)); try lia; done.
Qed.

(** *** The envelope round trip *)

(** The documented contract of the CCM pair, for two ends holding the same key:
    the ciphertext is [TAG_LEN] longer than the plaintext, and what one end
    encrypts the other decrypts, under the same nonce and associated data. *)
Definition ccm_peer (env : E) (sl : Z) (env2 : E) (sl2 : Z) : Prop :=
  forall nonce aad plain ct env1,
    od_hal_crypto_ccm_encrypt env sl nonce aad plain = (OD_HAL_CRYPTO_OK, ct, env1) ->
    len ct = len plain + OD_HAL_CRYPTO_TAG_LEN /\
    exists env3, od_hal_crypto_ccm_decrypt env2 sl2 nonce aad ct = (OD_HAL_CRYPTO_OK, plain, env3).

Lemma take_envelope nonce ct :
  length nonce = 16%nat -> contents (od_span_take (of_bytes (nonce ++ ct)) OD_SESSION_NONCE_LEN) = nonce.
Proof.
  intros Hl. unfold od_span_take, contents. cbn [of_bytes od_span_valid od_span_make sp sn is_null negb orb].
  rewrite length_app, Hl. unfold OD_SESSION_NONCE_LEN.
  replace (if 16 <? Z.of_nat (16 + length ct) then 16 else Z.of_nat (16 + length ct)) with 16
    by (destruct (Z.ltb_spec 16 (Z.of_nat (16 + length ct))); lia).
  rewrite take_app_length'; [done|]. rewrite Hl. lia.
Qed.

Lemma contents_drop_of_bytes (b : bytes) n :
  0 <= n <= len b -> contents (od_span_drop (of_bytes b) n) = drop (Z.to_nat n) b.
Proof.
  intros Hn. unfold od_span_drop, contents. cbn [of_bytes od_span_valid od_span_make sp sn is_null negb orb].
  destruct (Z.ltb_spec n (len b)); cbn [sp sn od_span_make ptr_add fmap option_fmap option_map].
  - apply take_ge. rewrite length_drop. lia.
  - replace n with (len b) by lia. rewrite Nat2Z.id, drop_all. done.
Qed.

Lemma opcode_bytes c0 c1 : is_byte c0 -> is_byte c1 ->
  Z.land (Z.shiftr (c0 * 256 + c1) 8) 0xFF = c0 /\ Z.land (c0 * 256 + c1) 0xFF = c1.
Proof.
  intros H0 H1. rewrite !land_255, Z.shiftr_div_pow2 by lia. change (2 ^ 8) with 256.
  unfold is_byte in *. Z.to_euclidean_division_equations. lia.
Qed.

(** The receiving end's view of one sealed frame. *)
Definition accepts (t : od_session) (id : bytes) (counter now : Z) : Prop :=
  authenticated t = true /\ session_id t = id /\
  (timeout_ms t = 0 \/ u32 (now - session_start_ms t) < timeout_ms t) /\
  od_nonce_check (rx_seen t) (rx_last t) counter = NONCE_OK.

Lemma alive_accepts t env now : 
  authenticated t = true -> (timeout_ms t = 0 \/ u32 (now - session_start_ms t) < timeout_ms t) ->
  exists r, od_session_alive t env now report_reset = (true, t, env, r).
Proof.
  intros Ha Hlive. unfold od_session_alive. rewrite Ha. cbn [negb].
  destruct (Z.eqb_spec (timeout_ms t) 0); [by eexists|].
  destruct (Z.leb_spec (timeout_ms t) (u32 (now - session_start_ms t))); [lia|by eexists].
Qed.

(** Opening [nonce ++ ct] where the nonce carries a fresh counter and the
    engine decrypts [ct] to a length-prefixed payload. *)
Lemma open_envelope t cmd nonce ct payload counter now env env3 :
  length nonce = 16%nat -> take 8 nonce = take 8 (session_id t) -> bytes_ok nonce ->
  bytes_ok (session_id t) -> length (session_id t) = 8%nat ->
  od_rd_be64 (drop 8 nonce) = counter ->
  len ct = len payload + 1 + OD_HAL_CRYPTO_TAG_LEN -> len payload <= OD_SESSION_PAYLOAD_MAX ->
  accepts t (session_id t) counter now ->
  od_hal_crypto_ccm_decrypt env (slot t) (drop 3 nonce)
    [Z.land (Z.shiftr cmd 8) 0xFF; Z.land cmd 0xFF] ct
    = (OD_HAL_CRYPTO_OK, len payload :: payload, env3) ->
  exists t' r, session_open t cmd (of_bytes (nonce ++ ct)) OD_SESSION_PLAIN_MAX now env
               = (OD_SESSION_OPEN_OK, t', payload, r, env3).
Proof.
  intros Hl Hid Hbn Hbi Hli Hc Hct Hp (Ha & _ & Hlive & Hn) Hdec.
  destruct (alive_accepts t env now Ha Hlive) as [r Hal].
  assert (Hlen : sn (of_bytes (nonce ++ ct)) = 16 + len ct) by (simpl; rewrite length_app; lia).
  unfold OD_SESSION_PAYLOAD_MAX, OD_SESSION_PLAIN_MAX, OD_SESSION_ENVELOPE_MAX,
    OD_SESSION_SEALED_MAX, OD_BLE_MAX_FRAME, OD_SESSION_NONCE_LEN, OD_HAL_CRYPTO_TAG_LEN in *.
  unfold session_open. rewrite of_bytes_valid, Hal. cbn [negb]. unfold open_live. rewrite Hlen.
  unfold OD_SESSION_ENVELOPE_MIN, OD_SESSION_ENVELOPE_MAX, OD_SESSION_SEALED_MAX, OD_BLE_MAX_FRAME.
  unfold OD_SESSION_NONCE_LEN, OD_HAL_CRYPTO_TAG_LEN.
  destruct (Z.ltb_spec (16 + len ct) (16 + 1 + 12)); [lia|].
  destruct (Z.ltb_spec (256 - 3 - 2) (16 + len ct)); [lia|].
  pose proof (take_envelope nonce ct Hl) as Htake. unfold OD_SESSION_NONCE_LEN in Htake.
  assert (Hec : envelope_counter (of_bytes (nonce ++ ct)) = counter).
  { unfold envelope_counter, OD_SESSION_NONCE_LEN. by rewrite Htake. }
  rewrite Htake, Hec, Hn.
  rewrite (proj2 (od_ct_equal_spec nonce (session_id t) OD_SESSION_ID_LEN Hbn Hbi
             ltac:(unfold OD_SESSION_ID_LEN; lia) ltac:(unfold OD_SESSION_ID_LEN; lia))) by exact Hid.
  cbn [negb]. rewrite wrap_id by wrap_lia.
  match goal with |- context [?a <? ?b] => destruct (Z.ltb_spec a b) end; [lia|].
  unfold open_decrypt, OD_SESSION_NONCE_LEN. rewrite Htake, contents_drop_of_bytes, Hec by (rewrite length_app; lia).
  rewrite drop_app_length' by (rewrite Hl; done). rewrite Hdec.
  destruct (od_nonce_commit (rx_seen t) (rx_last t) counter) as [seen last].
  replace (len (len payload :: payload)) with (len payload + 1) by (simpl; lia).
  change ((len payload :: payload).[0]) with (len payload).
  destruct (Z.ltb_spec (len payload + 1) 1); [lia|]. rewrite wrap_id by wrap_lia.
  rewrite Z.eqb_refl. cbn [orb negb]. by eexists _, _.
Qed.

(** C12. Seal and open are inverse: the frame one end seals is accepted by a
    peer with the same session id and key, whose clock is inside the session
    lifetime and whose window has not consumed the counter, under the same
    opcode, and yields exactly the payload; every plain frame of 2 to 224 bytes
    fits. *)
Theorem session_seal_open_roundtrip (s t : od_session) (c0 c1 : Z) (payload : bytes)
    (now now2 : Z) (env env2 : E) s' out r env' :
  session_seal s (of_bytes (c0 :: c1 :: payload)) OD_SESSION_SEALED_MAX now env
    = (OD_SESSION_SEAL_OK, s', out, r, env') ->
  seal_inv s -> bytes_ok (session_id s) -> is_byte c0 -> is_byte c1 ->
  ccm_peer env (slot s) env2 (slot t) -> accepts t (session_id s) (tx_counter s) now2 ->
  take 2 out = [c0; c1] /\
  exists t' r' env3,
    session_open t (c0 * 256 + c1) (of_bytes (drop 2 out)) OD_SESSION_PLAIN_MAX now2 env2
      = (OD_SESSION_OPEN_OK, t', payload, r', env3).
Proof.
  intros Hs [Hl Htx] Hbid Hc0 Hc1 Hpeer Hacc. unfold session_seal in Hs.
  rewrite of_bytes_valid in Hs. cbn [negb] in Hs.
  destruct (od_session_alive s env now report_reset) as [[[al s1] env1] r1] eqn:Ea.
  destruct al; cbn [negb] in Hs; [|discriminate].
  destruct (alive_true _ _ _ _ _ _ _ Ea) as (-> & -> & _ & _). unfold seal_live in Hs.
  assert (Hsn : sn (of_bytes (c0 :: c1 :: payload)) = len payload + 2) by (simpl; lia).
  rewrite Hsn in Hs. destruct (len payload + 2 <? 2); [discriminate|].
  destruct (Z.ltb_spec OD_SESSION_PLAIN_FRAME_MAX (len payload + 2)) as [|Hmax]; [discriminate|].
  destruct (OD_SESSION_SEALED_MAX <? _); [discriminate|].
  destruct (tx_counter s =? UINT64_MAX); [discriminate|].
  change OD_SESSION_PLAIN_FRAME_MAX with 224 in Hmax.
  rewrite contents_drop_of_bytes in Hs by (simpl; lia).
  replace (u8 (u16 (len payload + 2 - 2))) with (len payload) in Hs by wrap_lia.
  change (drop (Z.to_nat 2) (c0 :: c1 :: payload)) with payload in Hs.
  change (at_ _ 0) with c0 in Hs. change (at_ _ 1) with c1 in Hs.
  change (slot (set_tx_counter s _)) with (slot s) in Hs.
  destruct (od_hal_crypto_ccm_encrypt env (slot s) _ _ _) as [[cs ct] env3] eqn:Eenc.
  destruct (crypto_ok cs) eqn:Ecs; cbn [negb] in Hs; [|discriminate]. apply crypto_ok_true in Ecs. subst cs.
  injection Hs as <- <- <- <-. destruct (Hpeer _ _ _ _ _ Eenc) as [Hct [env4 Hdec]].
  split; [done|]. cbn [app drop]. rewrite drop_0.
  destruct (opcode_bytes c0 c1 Hc0 Hc1) as [Hhi Hlo].
  assert (Hbl : bytes_ok (build_nonce s (tx_counter s))).
  { apply Forall_app. split; [by apply Forall_take|apply od_be64_ok]. }
  assert (Hid : session_id t = session_id s) by apply Hacc.
  destruct (open_envelope t (c0 * 256 + c1) (build_nonce s (tx_counter s)) ct payload (tx_counter s) now2 env2 env4)
    as (t' & r' & Ho); rewrite ?Hid; try done.
  - by apply build_nonce_length.
  - unfold build_nonce. rewrite take_app_le, take_take by (rewrite length_take; lia). done.
  - unfold build_nonce. rewrite drop_app_length' by (rewrite length_take; lia). by apply be64_roundtrip.
  - rewrite Hct. simpl. lia.
  - unfold OD_SESSION_PAYLOAD_MAX, OD_SESSION_PLAIN_MAX, OD_SESSION_ENVELOPE_MAX, OD_SESSION_SEALED_MAX,
      OD_BLE_MAX_FRAME, OD_SESSION_NONCE_LEN, OD_HAL_CRYPTO_TAG_LEN. lia.
  - rewrite Hhi, Hlo. exact Hdec.
  - by exists t', r', env4.
Qed.
End Theorems.

(** ** Witnesses *)

(** A toy engine with the interface's contract: a digest for the MAC, and a
    cipher that appends a checksum of nonce, associated data and plaintext. *)
Definition sum_bytes (l : bytes) : Z := foldr Z.add 0 l.
Definition digest (key msg : bytes) : bytes :=
  map (fun i => u8 (sum_bytes key + sum_bytes msg + Z.of_nat i + 1)) (seq 0 16).
Definition toy_tag (nonce aad plain : bytes) : bytes :=
  replicate 12 (u8 (sum_bytes nonce + sum_bytes aad + sum_bytes plain)).

#[local] Instance toy_crypto : Crypto unit := {
  od_hal_crypto_key_set e _ _ := (OD_HAL_CRYPTO_OK, e);
  od_hal_crypto_key_clear e _ := e;
  od_hal_crypto_ccm_encrypt e _ n a p := (OD_HAL_CRYPTO_OK, p ++ toy_tag n a p, e);
  od_hal_crypto_ccm_decrypt e _ n a c :=
    let p := take (length c - 12) c in
    if bool_decide (drop (length c - 12) c = toy_tag n a p) then (OD_HAL_CRYPTO_OK, p, e)
    else (OD_HAL_CRYPTO_AUTH_FAILED, [], e);
  od_hal_crypto_cmac e k m := (OD_HAL_CRYPTO_OK, digest k m, e);
  od_hal_crypto_aes_ecb e k m := (OD_HAL_CRYPTO_OK, digest k m, e);
  od_hal_crypto_random e n := (OD_HAL_CRYPTO_OK, replicate (Z.to_nat n) 7, e);
}.

Lemma toy_peer : ccm_peer tt 0 tt 0.
Proof.
  intros nonce aad plain ct env1 [= <- <-]. split; [rewrite length_app; unfold OD_HAL_CRYPTO_TAG_LEN; simpl; lia|].
  exists tt. simpl.
  assert (Hl : (length (plain ++ toy_tag nonce aad plain) - 12)%nat = length plain)
    by (rewrite length_app; simpl; lia).
  rewrite Hl, take_app_length, drop_app_length. by rewrite bool_decide_true.
Qed.

Definition demo_sec : SecurityConfig :=
  {| encryption_enabled := 1; encryption_key := replicate 16 3; session_timeout_seconds := 60;
     sec_flags := 0; sec_reset_pin := 255 |}.

(** Both ends after a handshake: id 1..8, nothing sent or received. *)
Definition demo_session : od_session :=
  set_session_id (set_authenticated (zero_session 0) true) [1; 2; 3; 4; 5; 6; 7; 8].

Lemma demo_seal_inv : seal_inv demo_session.
Proof. split; [done|]. unfold fits. simpl. lia. Qed.

Lemma demo_window : window_of demo_session [].
Proof. intros _. apply fresh_repr. Qed.

(** The envelope the peer seals for [payload] at [counter]. *)
Definition demo_envelope (counter : Z) (payload : bytes) : od_span :=
  let nonce := [1; 2; 3; 4; 5; 6; 7; 8] ++ od_be64 counter in
  let plain := len payload :: payload in
  of_bytes (nonce ++ plain ++ toy_tag (drop 3 nonce) [0; 0x71] plain).

Definition demo_calls : list (Z * od_span * Z * Z) :=
  [(0x71, demo_envelope 5 [9; 9], 223, 10); (0x71, demo_envelope 5 [9; 9], 223, 20);
   (0x71, demo_envelope 4 [1], 223, 30)].

Lemma demo_calls_bytes : Forall (fun c => span_bytes c.1.1.2) demo_calls.
Proof.
  unfold demo_calls, span_bytes, demo_envelope, bytes_ok, is_byte.
  repeat (constructor; [vm_compute; repeat (constructor; [split; congruence|]); constructor|]). constructor.
Qed.

Lemma session_open_no_replay_witness :
  NoDup (open_run demo_session tt demo_calls) /\ open_run demo_session tt demo_calls = [5; 4].
Proof.
  split; [|vm_compute; reflexivity].
  apply (session_open_no_replay demo_session tt [] demo_calls); [simpl; lia|exact demo_window|exact demo_calls_bytes].
Defined.

Lemma session_open_effects_witness :
  let '(rc, s', _, _, _) := session_open demo_session 0x72 (demo_envelope 5 [9; 9]) 223 10 tt in
  rc = OD_SESSION_OPEN_BAD_TAG /\ s' = set_integrity_failures demo_session 1.
Proof.
  destruct (session_open demo_session 0x72 (demo_envelope 5 [9; 9]) 223 10 tt)
    as [[[[rc s'] p] r'] env'] eqn:Eo.
  pose proof (session_open_effects demo_session 0x72 (demo_envelope 5 [9; 9]) 223 10 tt rc s' p r' env' Eo
                eq_refl ltac:(simpl; lia) ltac:(by left)) as Heff.
  assert (Hrc : rc = OD_SESSION_OPEN_BAD_TAG).
  { apply (f_equal (fun x => x.1.1.1.1)) in Eo. vm_compute in Eo. by subst rc. }
  split; [exact Hrc|]. rewrite Hrc in Heff. destruct Heff as [[_ ->]|[H _]]; [reflexivity|discriminate H].
Defined.


Definition demo_nonce : bytes := replicate 16 5.
Definition demo_dev : bytes := [1; 2; 3; 4].
Definition demo_challenged : od_session :=
  a_s (session_authenticate (zero_session 0) (Some demo_sec) demo_dev (of_bytes [0]) 1000 23 tt).
Definition demo_step2 : od_span :=
  of_bytes (demo_nonce ++ digest (encryption_key demo_sec) (replicate 16 7 ++ demo_nonce ++ demo_dev)).

Lemma session_established_sound_witness :
  let o := session_authenticate demo_challenged (Some demo_sec) demo_dev demo_step2 31000 23 tt in
  a_rc o = OD_SESSION_AUTH_ESTABLISHED /\ authenticated (a_s o) = true /\ challenge_pending demo_challenged = true.
Proof.
  cbv zeta. assert (Hrc : a_rc (session_authenticate demo_challenged (Some demo_sec) demo_dev demo_step2 31000 23 tt)
    = OD_SESSION_AUTH_ESTABLISHED) by (vm_compute; reflexivity).
  destruct (session_established_sound demo_challenged (Some demo_sec) demo_dev demo_step2 31000 23 tt Hrc)
    as (c & cn & cp & expected & env1 & _ & _ & _ & _ & Hpend & _ & _ & _ & Ha & _).
  split; [exact Hrc|]. split; [exact Ha|exact Hpend].
Defined.

Lemma session_challenge_single_use_witness :
  challenge_pending (a_s (session_authenticate demo_challenged (Some demo_sec) demo_dev
                            (of_bytes (replicate 32 0)) 2000 23 tt)) = false.
Proof.
  destruct (session_challenge_single_use demo_challenged (Some demo_sec) demo_dev
              (of_bytes (replicate 32 0)) 2000 23 tt) as (_ & Hc & _).
  - vm_compute. split; discriminate.
  - destruct Hc as [-> _]; [|vm_compute; reflexivity].
    vm_compute. intuition discriminate.
Defined.

Definition demo_timed : od_session := set_lifetime demo_session 60000 4294967290 0.

Lemma session_alive_rollover_witness :
  (od_session_alive demo_timed tt (u32 (4294967290 + 59999)) report_reset).1.1.1 = true /\
  (od_session_alive demo_timed tt (u32 (4294967290 + 60000)) report_reset).1.1.1 = false.
Proof.
  assert (H1 : fits 32 (session_start_ms demo_timed)) by (unfold fits; simpl; lia).
  pose proof (session_alive_rollover demo_timed tt 59999 report_reset eq_refl H1 ltac:(simpl; lia)
                ltac:(unfold fits; simpl; lia)) as Ha.
  pose proof (session_alive_rollover demo_timed tt 60000 report_reset eq_refl H1 ltac:(simpl; lia)
                ltac:(unfold fits; simpl; lia)) as Hb.
  change (session_start_ms demo_timed) with 4294967290 in Ha, Hb. rewrite Ha, Hb. split; reflexivity.
Defined.

Lemma session_seal_open_roundtrip_witness :
  exists out, (session_seal demo_session (of_bytes [0; 0x71; 8; 9]) OD_SESSION_SEALED_MAX 0 tt).1.1.2 = out /\
    exists t' r' env3, session_open demo_session (0 * 256 + 0x71) (of_bytes (drop 2 out)) OD_SESSION_PLAIN_MAX 0 tt
                       = (OD_SESSION_OPEN_OK, t', [8; 9], r', env3).
Proof.
  destruct (session_seal demo_session (of_bytes [0; 0x71; 8; 9]) OD_SESSION_SEALED_MAX 0 tt)
    as [[[[rc s'] out] r] env'] eqn:Es.
  assert (Hrc : rc = OD_SESSION_SEAL_OK).
  { apply (f_equal (fun x => x.1.1.1.1)) in Es. vm_compute in Es. by subst rc. }
  rewrite Hrc in Es. exists out. split; [reflexivity|].
  apply (session_seal_open_roundtrip demo_session demo_session 0 0x71 [8; 9] 0 0 tt tt s' out r env' Es demo_seal_inv).
  - repeat (constructor; [unfold is_byte; lia|]). constructor.
  - unfold is_byte. lia.
  - unfold is_byte. lia.
  - exact toy_peer.
  - split; [reflexivity|]. split; [reflexivity|]. split; [by left|]. vm_compute. reflexivity.
Defined.

End Session.
