(* ===== verification/World.v ===== *)
(** The state the command path threads: the target's world, the response queue
    and the one session, and the target's half of the session,
    [shared/core/od_session_app.h]. *)

From S2P Require Import Prelude Hal TxQueue Span Proto Session.
Import Hal TxQueue Span Proto Session.

Module World.

(** [enum od_session_app_op], each with the result its operation returned. *)
Inductive od_session_app_op :=
| OD_SESSION_APP_ALIVE (live : bool)
| OD_SESSION_APP_AUTH (rc : od_session_auth)
| OD_SESSION_APP_OPEN (rc : od_session_open_rc)
| OD_SESSION_APP_SEAL (rc : od_session_seal_rc).

(** The target's callbacks.  The security packet and the device identity are
    read from the target's state; reading the clock may advance it. *)
Class SessionApp (E : Type) := {
  od_session_app_security : E -> option SecurityConfig;
  od_session_app_now_ms : E -> Z * E;
  od_session_app_device_id : E -> bytes;
  od_session_app_report : E -> od_session_app_op -> Z -> od_session_report -> E;
}.

(** What a frame's processing reads and writes: [w_session] is the object behind
    [od_session_app_state()], which is never null. *)
Record world (E : Type) := { w_env : E; w_txq : txq; w_session : od_session }.
Arguments w_env {E} w.
Arguments w_txq {E} w.
Arguments w_session {E} w.

Definition set_env {E} (w : world E) (e : E) : world E :=
  {| w_env := e; w_txq := w_txq w; w_session := w_session w |}.

Definition set_session {E} (w : world E) (s : od_session) (e : E) : world E :=
  {| w_env := e; w_txq := w_txq w; w_session := s |}.

Definition set_txq {E} (w : world E) (q : txq) (e : E) : world E :=
  {| w_env := e; w_txq := q; w_session := w_session w |}.

(** The session behind the pointer a session call was given. *)
Definition or_same (s : option od_session) (old : od_session) : od_session :=
  match s with Some s => s | None => old end.

(** ** A concrete target for the witnesses: every link is live, the clock stands
    at 1000 ms, and [demo_sec] is stored. *)
#[export] Existing Instance toy_crypto.

#[export] Instance toy_radio : Radio unit := {
  od_hal_radio_send e _ _ _ := (OD_RADIO_SENT, e);
  od_hal_radio_tag_is_live e _ _ := (true, e);
  od_txq_app_dropped e _ _ _ := e;
}.

#[export] Instance toy_session_app : SessionApp unit := {
  od_session_app_security _ := Some demo_sec;
  od_session_app_now_ms e := (1000, e);
  od_session_app_device_id _ := [1; 2; 3; 4];
  od_session_app_report e _ _ _ := e;
}.

Definition toy_world : world unit :=
  {| w_env := tt; w_txq := txq_init; w_session := demo_session |}.

Definition toy_rp : od_reply_t := {| rp_origin := OD_ORIGIN_BLE; rp_tag := 1 |}.

End World.
