(* ===== verification/Reply.v ===== *)
(** Answering a request, [shared/core/od_reply.c]: the plain path, and the path
    that seals whenever security is on and the transport is not TLS. *)

From S2P Require Import Prelude Hal TxQueue Span Proto Session World.
Import Hal TxQueue Span Proto Session World.

Module Reply.

Section Operations.
Context {E : Type} `{Radio E} `{Crypto E} `{SessionApp E}.

(** A call that answers: the world and the token it leaves, and its status. *)
Definition reply_out : Type := world E * option od_tx_reservation * od_txq_status.

(** [od_txq_commit] on the world's queue. *)
Definition commit (w : world E) (r : option od_tx_reservation) (rp : option od_reply_t)
    (frame : option bytes) (n : Z) : reply_out :=
  let '(q, env, r, st) := od_txq_commit (w_txq w) (w_env w) r rp frame n in
  (set_txq w q env, r, st).

Definition queue_response (w : world E) (r : option od_tx_reservation) (rp : option od_reply_t)
    (frame : option bytes) (n : Z) : reply_out := commit w r rp frame n.

(** The frame of [queue_hard_nack]. *)
Definition hard_nack (cmd_low : Z) : bytes := [RESP_NACK; cmd_low; 0x00].

Definition queue_hard_nack (w : world E) (r : option od_tx_reservation) (rp : option od_reply_t)
    (cmd_low : Z) (why : od_txq_status) : reply_out :=
  let '(w, r, rc) := commit w r rp (Some (hard_nack cmd_low)) 3 in
  (w, r, match rc with OD_TXQ_OK => why | _ => rc end).

Definition od_reply_plain (w : world E) (r : option od_tx_reservation) (rp : option od_reply_t)
    (frame : option bytes) (n : Z) : reply_out := queue_response w r rp frame n.

(** The opcode [od_reply] reports. *)
Definition reply_cmd (frame : bytes) (n : Z) : Z :=
  u16 (Z.lor (Z.shiftl frame.[0] 8) (if 1 <? n then frame.[1] else 0)).

(** The disposition of each seal result, [od_reply]'s switch. *)
Definition dispose_seal (w : world E) (r : option od_tx_reservation) (rp : option od_reply_t)
    (frame : bytes) (rc : od_session_seal_rc) (sealed : bytes) : reply_out :=
  match rc with
  | OD_SESSION_SEAL_OK => queue_response w r rp (Some sealed) (len sealed)
  | OD_SESSION_SEAL_TOO_SHORT => (w, r, OD_TXQ_INVARIANT)
  | OD_SESSION_SEAL_TOO_LONG | OD_SESSION_SEAL_NO_ROOM =>
      queue_hard_nack w r rp frame.[1] OD_TXQ_TOO_LARGE
  | OD_SESSION_SEAL_NO_SESSION | OD_SESSION_SEAL_CRYPTO_ERROR =>
      queue_hard_nack w r rp frame.[1] OD_TXQ_SEAL_FAILED
  | OD_SESSION_SEAL_COUNTER_EXHAUSTED =>
      let '(s, env) := od_session_clear (w_session w) (w_env w) in
      queue_hard_nack (set_session w s env) r rp frame.[1] OD_TXQ_SEAL_FAILED
  end.

Definition is_tls (o : od_origin) : bool :=
  match o with OD_ORIGIN_LAN_TLS => true | _ => false end.

(** The sealing path of [od_reply]. *)
Definition reply_sealed (w : world E) (r : option od_tx_reservation) (rp : option od_reply_t)
    (frame : bytes) (n : Z) : reply_out :=
  let '(now, env) := od_session_app_now_ms (w_env w) in
  let '(rc, s, sealed, rep, env) :=
    od_session_seal (Some (w_session w)) (od_span_make (Some frame) n) true OD_SESSION_SEALED_MAX
      true now env in
  let env := od_session_app_report env (OD_SESSION_APP_SEAL rc) (reply_cmd frame n) rep in
  dispose_seal (set_session w (or_same s (w_session w)) env) r rp frame rc sealed.

Definition od_reply (w : world E) (r : option od_tx_reservation) (rp : option od_reply_t)
    (frame : option bytes) (n : Z) : reply_out :=
  match r, rp, frame with
  | Some _, Some p, Some f =>
      if n =? 0 then (w, r, OD_TXQ_INVARIANT)
      else if is_tls (rp_origin p) then queue_response w r rp frame n
      else if negb (od_session_security_enabled (od_session_app_security (w_env w))) then
        queue_response w r rp frame n
      else reply_sealed w r rp f n
  | _, _, _ => (w, r, OD_TXQ_INVARIANT)
  end.
End Operations.
Arguments reply_out : clear implicits.

Section Theorems.
Context {E : Type} `{Radio E} `{Crypto E} `{SessionApp E}.

(** What reached the queue: nothing, or the one frame [out]. *)
Definition committed (q q' : txq) (env' : E) (r r' : option od_tx_reservation)
    (rp : option od_reply_t) (out : bytes) : Prop :=
  exists env st, od_txq_commit q env r rp (Some out) (len out) = (q', env', r', st).

Lemma hard_nack_committed (w : world E) r rp c why w' r' st :
  queue_hard_nack w r rp c why = (w', r', st) ->
  committed (w_txq w) (w_txq w') (w_env w') r r' rp (hard_nack c) /\ w_session w' = w_session w.
Proof.
  unfold queue_hard_nack, commit.
  destruct (od_txq_commit _ _ _ _ _ _) as [[[q e] r1] s1] eqn:Ec.
  intros [= <- <- _]. split; [|done]. exists (w_env w), s1. exact Ec.
Qed.

(** The frame is never what the handler passed in: it is the hard NACK or the
    envelope. *)
Lemma dispose_cases (w : world E) r rp frame rc sealed w' r' st :
  dispose_seal w r rp frame rc sealed = (w', r', st) ->
  (rc = OD_SESSION_SEAL_TOO_SHORT /\ st = OD_TXQ_INVARIANT /\ w' = w /\ r' = r) \/
  (rc = OD_SESSION_SEAL_OK /\ w_session w' = w_session w /\
   committed (w_txq w) (w_txq w') (w_env w') r r' rp sealed) \/
  (rc <> OD_SESSION_SEAL_OK /\ rc <> OD_SESSION_SEAL_TOO_SHORT /\ st <> OD_TXQ_OK /\
   committed (w_txq w) (w_txq w') (w_env w') r r' rp (hard_nack frame.[1])).
Proof.
  assert (Hn : forall (w0 : world E) why, why <> OD_TXQ_OK -> w_txq w0 = w_txq w ->
    queue_hard_nack w0 r rp frame.[1] why = (w', r', st) ->
    st <> OD_TXQ_OK /\ committed (w_txq w) (w_txq w') (w_env w') r r' rp (hard_nack frame.[1])).
  { intros w0 why Hw Hq E0. split; [|rewrite <- Hq; by apply (hard_nack_committed w0 _ _ _ why _ _ st)].
    revert E0. unfold queue_hard_nack. destruct (commit _ _ _ _ _) as [[? ?] s1].
    intros [= _ _ <-]. by destruct s1. }
  destruct rc; cbn [dispose_seal]; intros Eq.
  - right; left. unfold queue_response, commit in Eq.
    destruct (od_txq_commit _ _ _ _ _ _) as [[[q e] r1] s1] eqn:Ec.
    injection Eq as <- <- <-. split; [done|]. split; [done|]. by exists (w_env w), s1.
  - right; right. split; [done|]. split; [done|]. by apply (Hn w) in Eq.
  - left. by injection Eq as <- <- <-.
  - right; right. split; [done|]. split; [done|]. by apply (Hn w) in Eq.
  - right; right. split; [done|]. split; [done|]. by apply (Hn w) in Eq.
  - right; right. split; [done|]. split; [done|]. by apply (Hn w) in Eq.
  - right; right. split; [done|]. split; [done|].
    destruct (od_session_clear _ _) as [s e]. by apply (Hn (set_session w s e)) in Eq.
Qed.

End Theorems.


End Reply.
