(* ===== verification/Gate.v ===== *)
(** The authentication gate, [shared/core/od_gate.c], and the frame outcomes and
    their policy table, [shared/core/od_cmd.c]. *)

From S2P Require Import Prelude Hal TxQueue Span Proto NonceWindow Session World Reply.
Import Hal TxQueue Span Proto NonceWindow Session World Reply.

Module Gate.

(** [od_frame_outcome_t]. *)
Inductive od_frame_outcome :=
| OD_FRAME_ACCEPTED | OD_FRAME_HANDLER_NACK | OD_FRAME_AUTH_CONTROL
| OD_FRAME_AUTH_ESTABLISHED | OD_FRAME_DISCOVERY | OD_FRAME_AUTH_REQUIRED
| OD_FRAME_CRYPTO_FAILED | OD_FRAME_CRYPTO_DROPPED | OD_FRAME_REJECTED_FRAME
| OD_FRAME_UNKNOWN_OPCODE | OD_FRAME_STALE_TAG | OD_FRAME_DEFERRED.

#[export] Instance od_frame_outcome_eq_dec : EqDecision od_frame_outcome.
Proof. solve_decision. Defined.

(** [od_frame_policy_t]. *)
Record od_frame_policy_t := {
  stamp_activity : bool; reset_abuse : bool; increment_abuse : bool; consume_rx : bool;
}.

Definition od_frame_policy (outcome : od_frame_outcome) : od_frame_policy_t :=
  let p := {| stamp_activity := false; reset_abuse := false; increment_abuse := false;
              consume_rx := true |} in
  match outcome with
  | OD_FRAME_ACCEPTED | OD_FRAME_HANDLER_NACK =>
      {| stamp_activity := true; reset_abuse := true; increment_abuse := increment_abuse p;
         consume_rx := consume_rx p |}
  | OD_FRAME_AUTH_ESTABLISHED =>
      {| stamp_activity := stamp_activity p; reset_abuse := true;
         increment_abuse := increment_abuse p; consume_rx := consume_rx p |}
  | OD_FRAME_AUTH_CONTROL | OD_FRAME_DISCOVERY => p
  | OD_FRAME_AUTH_REQUIRED =>
      {| stamp_activity := stamp_activity p; reset_abuse := reset_abuse p;
         increment_abuse := true; consume_rx := consume_rx p |}
  | OD_FRAME_CRYPTO_FAILED | OD_FRAME_CRYPTO_DROPPED => p
  | OD_FRAME_REJECTED_FRAME | OD_FRAME_UNKNOWN_OPCODE | OD_FRAME_STALE_TAG => p
  | OD_FRAME_DEFERRED =>
      {| stamp_activity := stamp_activity p; reset_abuse := reset_abuse p;
         increment_abuse := increment_abuse p; consume_rx := false |}
  end.

(** [od_gate_result_t]. *)
Record od_gate_result := { outcome : od_frame_outcome; body : od_span }.

Section Operations.
Context {E : Type} `{Radio E} `{Crypto E} `{SessionApp E}.

(** The frame of [queue_status]. *)
Definition status_frame (cmd status : Z) : bytes := [RESP_ACK; Z.land cmd 0xFF; status].

Definition queue_status (w : world E) (r : option od_tx_reservation) (rp : option od_reply_t)
    (cmd status : Z) : world E * option od_tx_reservation :=
  let '(w, r, _) := od_reply_plain w r rp (Some (status_frame cmd status)) 3 in (w, r).

Definition answer_plain (w : world E) (r : option od_tx_reservation) (rp : option od_reply_t)
    (rsp : bytes) : world E * option od_tx_reservation :=
  let '(w, r, _) := od_reply_plain w r rp (Some rsp) (len rsp) in (w, r).

Definition od_gate_authenticate (w : world E) (r : option od_tx_reservation)
    (rp : option od_reply_t) (body : od_span)
  : world E * option od_tx_reservation * od_frame_outcome :=
  let device_id := od_session_app_device_id (w_env w) in
  let sec := od_session_app_security (w_env w) in
  let '(now, env) := od_session_app_now_ms (w_env w) in
  let '(rc, s, rsp, report, env) :=
    od_session_authenticate (Some (w_session w)) sec (Some device_id) body now true
      OD_SESSION_REPLY_MAX true env in
  let env := od_session_app_report env (OD_SESSION_APP_AUTH rc) CMD_AUTHENTICATE report in
  let w := set_session w (or_same s (w_session w)) env in
  match rc with
  | OD_SESSION_AUTH_CHALLENGE => (answer_plain w r rp rsp, OD_FRAME_AUTH_CONTROL)
  | OD_SESSION_AUTH_ESTABLISHED => (answer_plain w r rp rsp, OD_FRAME_AUTH_ESTABLISHED)
  | OD_SESSION_AUTH_REJECTED | OD_SESSION_AUTH_RATE_LIMITED | OD_SESSION_AUTH_NOT_CONFIGURED
  | OD_SESSION_AUTH_MALFORMED | OD_SESSION_AUTH_EXPIRED | OD_SESSION_AUTH_CRYPTO_ERROR =>
      (answer_plain w r rp rsp, OD_FRAME_AUTH_CONTROL)
  | OD_SESSION_AUTH_NO_ROOM | OD_SESSION_AUTH_BAD_ARGUMENT =>
      (queue_status w r rp CMD_AUTHENTICATE AUTH_STATUS_ERROR, OD_FRAME_AUTH_CONTROL)
  end.

(** The nonce reasons of a dropped PIPE data frame. *)
Definition silent_drop (cmd reason : Z) : bool :=
  (cmd =? CMD_PIPE_WRITE_DATA) &&
  ((reason =? u8 (NonceResult_val NONCE_REPLAY)) || (reason =? u8 (NonceResult_val NONCE_OUT_OF_WINDOW))).

(** [od_gate_open]; [scratch] says whether the pointer is non-null.  The
    accepted body is a span over the scratch buffer. *)
Definition od_gate_open (w : world E) (r : option od_tx_reservation) (rp : option od_reply_t)
    (cmd : Z) (envelope : od_span) (scratch : bool) (scratch_cap : Z)
  : world E * option od_tx_reservation * od_gate_result :=
  let refused o := {| outcome := o; body := od_span_none |} in
  if negb scratch || (scratch_cap <? OD_SESSION_PLAIN_MAX) then
    (queue_status w r rp cmd RESP_NACK, refused OD_FRAME_CRYPTO_FAILED)
  else
    let '(now, env) := od_session_app_now_ms (w_env w) in
    let '(rc, s, plain, report, env) :=
      od_session_open (Some (w_session w)) cmd envelope true scratch_cap true now env in
    let env := od_session_app_report env (OD_SESSION_APP_OPEN rc) cmd report in
    let w := set_session w (or_same s (w_session w)) env in
    match rc with
    | OD_SESSION_OPEN_OK =>
        (w, r, {| outcome := OD_FRAME_ACCEPTED; body := od_span_make (Some plain) (len plain) |})
    | OD_SESSION_OPEN_NO_SESSION =>
        (queue_status w r rp cmd RESP_AUTH_REQUIRED, refused OD_FRAME_AUTH_REQUIRED)
    | OD_SESSION_OPEN_REPLAY =>
        if silent_drop cmd (nonce_reason report) then (w, r, refused OD_FRAME_CRYPTO_DROPPED)
        else (queue_status w r rp cmd RESP_NACK, refused OD_FRAME_CRYPTO_FAILED)
    | OD_SESSION_OPEN_WRONG_SESSION | OD_SESSION_OPEN_BAD_TAG | OD_SESSION_OPEN_BAD_LENGTH
    | OD_SESSION_OPEN_SHORT | OD_SESSION_OPEN_TOO_LONG | OD_SESSION_OPEN_CRYPTO_ERROR
    | OD_SESSION_OPEN_NO_ROOM =>
        (queue_status w r rp cmd RESP_NACK, refused OD_FRAME_CRYPTO_FAILED)
    end.
End Operations.

Section Theorems.
Context {E : Type} `{Radio E} `{Crypto E} `{SessionApp E}.

Lemma answer_plain_committed (w : world E) r rp rsp w' r' :
  answer_plain w r rp rsp = (w', r') ->
  committed (w_txq w) (w_txq w') (w_env w') r r' rp rsp /\ w_session w' = w_session w.
Proof.
  unfold answer_plain, od_reply_plain, queue_response, commit.
  destruct (od_txq_commit _ _ _ _ _ _) as [[[q e] r1] st] eqn:Ec.
  intros [= <- <-]. split; [|done]. by exists (w_env w), st.
Qed.

Lemma queue_status_committed (w : world E) r rp cmd st w' r' :
  queue_status w r rp cmd st = (w', r') ->
  committed (w_txq w) (w_txq w') (w_env w') r r' rp (status_frame cmd st) /\
  w_session w' = w_session w.
Proof. apply answer_plain_committed. Qed.

(** The gate's verdict on a session-open result: the outcome, and the status
    byte answered in plaintext, if the gate answers. *)
Definition verdict (cmd : Z) (rc : od_session_open_rc) : od_frame_outcome * option Z :=
  match rc with
  | OD_SESSION_OPEN_OK => (OD_FRAME_ACCEPTED, None)
  | OD_SESSION_OPEN_NO_SESSION => (OD_FRAME_AUTH_REQUIRED, Some RESP_AUTH_REQUIRED)
  | OD_SESSION_OPEN_REPLAY =>
      if cmd =? CMD_PIPE_WRITE_DATA then (OD_FRAME_CRYPTO_DROPPED, None)
      else (OD_FRAME_CRYPTO_FAILED, Some RESP_NACK)
  | _ => (OD_FRAME_CRYPTO_FAILED, Some RESP_NACK)
  end.

Lemma check_reason bm last c :
  od_nonce_check bm last c <> NONCE_OK ->
  od_nonce_check bm last c = NONCE_REPLAY \/ od_nonce_check bm last c = NONCE_OUT_OF_WINDOW.
Proof. unfold od_nonce_check. cbv zeta. intros. repeat case_match; auto; done. Qed.

Lemma open_decrypt_not_replay s cmd e now r env :
  (open_decrypt s cmd e now r env).1.1.1.1 <> OD_SESSION_OPEN_REPLAY.
Proof.
  unfold open_decrypt. destruct (od_hal_crypto_ccm_decrypt _ _ _ _ _) as [[[] plain] env']; try done.
  - destruct (od_nonce_commit _ _ _) as [seen last]. cbv zeta. destruct (_ || _); done.
  - destruct (strike _ _ _) as [[s' e'] r']. done.
Qed.

(** The session reports REPLAY only for a nonce reason the gate's silence rule
    names, so that rule silences every replayed PIPE data frame. *)
Lemma open_replay_reason s cmd e cap now env s' p r env' :
  session_open s cmd e cap now env = (OD_SESSION_OPEN_REPLAY, s', p, r, env') ->
  nonce_reason r = 3 \/ nonce_reason r = 2.
Proof.
  unfold session_open. destruct (negb (od_span_valid e)); [discriminate|].
  destruct (od_session_alive _ _ _ _) as [[[al s1] env1] r1]. destruct (negb al); [discriminate|].
  unfold open_live. destruct (sn e <? _); [discriminate|]. destruct (_ <? sn e); [discriminate|].
  cbv zeta. destruct (negb (od_ct_equal _ _ _)); [discriminate|].
  pose proof (check_reason (rx_seen s1) (rx_last s1) (envelope_counter e)) as Hr.
  destruct (od_nonce_check _ _ _); intros Eq.
  - destruct (_ <? _); [discriminate|]. exfalso.
    eapply open_decrypt_not_replay. rewrite Eq. reflexivity.
  - by destruct Hr.
  - right. by injection Eq as <- <- <- <-.
  - left. by injection Eq as <- <- <- <-.
Qed.

Lemma silent_drop_replay cmd reason :
  reason = 3 \/ reason = 2 -> silent_drop cmd reason = (cmd =? CMD_PIPE_WRITE_DATA).
Proof. intros [-> | ->]; unfold silent_drop; by rewrite ?andb_true_r. Qed.

(** Every handshake reply is a well-formed [00 50 status ...] of at most 23
    bytes, given the capacity the gate offers. *)
Lemma authenticate_reply s sec dev bd now env :
  let o := session_authenticate s sec dev bd now OD_SESSION_REPLY_MAX env in
  a_rc o <> OD_SESSION_AUTH_NO_ROOM /\ a_rc o <> OD_SESSION_AUTH_BAD_ARGUMENT /\
  exists st rest, a_rsp o = RESP_ACK :: RESP_AUTHENTICATE :: st :: rest /\ len rest <= 20.
Proof.
  assert (Hf : forall st s0 r0 (env0 : E) rc, rc <> OD_SESSION_AUTH_NO_ROOM -> rc <> OD_SESSION_AUTH_BAD_ARGUMENT ->
    let o := auth_fail st s0 r0 env0 rc in
    a_rc o <> OD_SESSION_AUTH_NO_ROOM /\ a_rc o <> OD_SESSION_AUTH_BAD_ARGUMENT /\
    exists st rest, a_rsp o = RESP_ACK :: RESP_AUTHENTICATE :: st :: rest /\ len rest <= 20).
  { intros. split; [done|]. split; [done|]. exists st, []. split; [done|]. simpl. lia. }
  assert (Hc : forall cs s0 r0 (env0 : E), let o := auth_crypto_fail cs s0 r0 env0 in
    a_rc o <> OD_SESSION_AUTH_NO_ROOM /\ a_rc o <> OD_SESSION_AUTH_BAD_ARGUMENT /\
    exists st rest, a_rsp o = RESP_ACK :: RESP_AUTHENTICATE :: st :: rest /\ len rest <= 20)
    by (intros; by apply Hf).
  unfold session_authenticate. destruct (Z.ltb_spec OD_SESSION_REPLY_MAX 3); [done|].
  destruct sec as [c|]; [|by apply Hf]. destruct (negb _); [by apply Hf|].
  rewrite (proj2 (Z.ltb_ge OD_SESSION_REPLY_MAX OD_SESSION_STEP1_REPLY_LEN)) by done.
  rewrite (proj2 (Z.ltb_ge OD_SESSION_REPLY_MAX OD_SESSION_STEP2_REPLY_LEN)) by done.
  rewrite !andb_false_r. destruct (auth_rate s now) as [s1|]; [|by apply Hf]. cbv zeta.
  destruct (is_step1 bd).
  { unfold auth_step1. destruct (if authenticated s1 then _ else _) as [s2 env2].
    destruct (od_hal_crypto_random _ _) as [[[] nonce] env3]; try by apply Hc.
    split; [done|]. split; [done|]. do 2 eexists. split; [reflexivity|].
    rewrite length_app, !length_take. lia. }
  destruct (is_step2 bd); [|by apply Hf]. unfold auth_step2.
  destruct (negb (challenge_pending s1)); [by apply Hf|]. destruct (_ <? _); [by apply Hf|].
  unfold auth_step2_verify. cbv zeta. cbn [a_rc a_rsp].
  repeat first
    [ destruct (derive_proof _ _ _ _ _) as [[? ?] ?] | destruct (derive_session_key _ _ _ _ _) as [[? ?] ?]
    | destruct (derive_session_id _ _ _ _) as [[? ?] ?] | destruct (od_hal_crypto_key_set _ _ _)
    | destruct (od_session_clear _ _)
    | match goal with |- context [if ?b then _ else _] => destruct b; [by apply Hc || by apply Hf|] end ].
  all: try by apply Hc.
  split; [done|]. split; [done|]. do 2 eexists. split; [reflexivity|]. rewrite length_take. lia.
Qed.

(** The gate accepts a frame exactly when the session opened it, hands the
    handler exactly the decrypted payload, and leaves the queue alone.  Every
    other result is refused with a fixed outcome and at most one plaintext
    status frame [00 cmd status]: FE when there is no session, FF otherwise,
    and silence for precisely the replayed or out-of-window PIPE data frames. *)
Theorem gate_open_verdict (w w' : world E) (r r' : option od_tx_reservation)
    (rp : option od_reply_t) (cmd : Z) (e : od_span) (cap : Z) (g : od_gate_result) :
  OD_SESSION_PLAIN_MAX <= cap ->
  od_gate_open w r rp cmd e true cap = (w', r', g) ->
  let '(now, env) := od_session_app_now_ms (w_env w) in
  let '(rc, s, plain, _, _) := session_open (w_session w) cmd e cap now env in
  w_session w' = s /\ outcome g = (verdict cmd rc).1 /\
  contents (body g) = (if bool_decide (rc = OD_SESSION_OPEN_OK) then plain else []) /\
  match (verdict cmd rc).2 with
  | None => w_txq w' = w_txq w /\ r' = r
  | Some st => committed (w_txq w) (w_txq w') (w_env w') r r' rp (status_frame cmd st)
  end.
Proof.
  intros Hcap. unfold od_gate_open. cbn [negb orb]. rewrite (proj2 (Z.ltb_ge cap _)) by done.
  unfold od_session_open. destruct (od_session_app_now_ms _) as [now env].
  destruct (session_open _ _ _ _ _ _) as [[[[rc s] plain] rep] env1] eqn:Eo.
  destruct rc; cbn [verdict fst snd or_same].
  { intros [= <- <- <-]. repeat split. simpl. unfold contents. simpl. by rewrite Nat2Z.id, firstn_all. }
  all: try (destruct (queue_status _ _ _ _ _) as [w1 r1] eqn:Eq; apply queue_status_committed in Eq;
            intros [= <- <- <-]; destruct Eq as [Hc Hs]; by repeat split).
  rewrite silent_drop_replay by (by eapply open_replay_reason).
  destruct (cmd =? CMD_PIPE_WRITE_DATA).
  - intros [= <- <- <-]. by repeat split.
  - destruct (queue_status _ _ _ _ _) as [w1 r1] eqn:Eq. apply queue_status_committed in Eq.
    intros [= <- <- <-]. destruct Eq as [Hc Hs]. by repeat split.
Qed.

(** The queue after the gate: untouched, or with one frame committed. *)
Lemma gate_open_cases (w w' : world E) r r' rp cmd e cap g :
  OD_SESSION_PLAIN_MAX <= cap -> od_gate_open w r rp cmd e true cap = (w', r', g) ->
  (w_txq w' = w_txq w /\ r' = r) \/
  exists out, committed (w_txq w) (w_txq w') (w_env w') r r' rp out.
Proof.
  intros Hcap. unfold od_gate_open. cbn [negb orb]. rewrite (proj2 (Z.ltb_ge cap _)) by done.
  destruct (od_session_app_now_ms _) as [now env].
  destruct (od_session_open _ _ _ _ _ _ _ _) as [[[[rc s] plain] rep] env1].
  destruct rc; try destruct (silent_drop _ _).
  all: try (destruct (queue_status _ _ _ _ _) as [w1 r1] eqn:Eq; apply queue_status_committed in Eq;
            intros [= <- <- <-]; right; destruct Eq as [Hc _]; eexists; exact Hc).
  all: intros [= <- <- <-]; by left.
Qed.

(** The handshake always answers, in the clear and once: whatever the
    body, the gate commits exactly the reply the session built, a frame
    [00 50 status ...] no longer than 23 bytes, and reports ESTABLISHED exactly
    when the session was established and AUTH_CONTROL otherwise; the paths that
    would synthesise a status are unreachable. *)
Theorem gate_authenticate_answers (w : world E) (r : option od_tx_reservation)
    (rp : option od_reply_t) (bd : od_span) :
  let '(now, env) := od_session_app_now_ms (w_env w) in
  let a := session_authenticate (w_session w) (od_session_app_security (w_env w))
             (od_session_app_device_id (w_env w)) bd now OD_SESSION_REPLY_MAX env in
  let '(w', r', o) := od_gate_authenticate w r rp bd in
  committed (w_txq w) (w_txq w') (w_env w') r r' rp (a_rsp a) /\
  (exists st rest, a_rsp a = RESP_ACK :: RESP_AUTHENTICATE :: st :: rest /\ len rest <= 20) /\
  w_session w' = a_s a /\
  o = (if bool_decide (a_rc a = OD_SESSION_AUTH_ESTABLISHED) then OD_FRAME_AUTH_ESTABLISHED
       else OD_FRAME_AUTH_CONTROL).
Proof.
  unfold od_gate_authenticate. destruct (od_session_app_now_ms (w_env w)) as [now env]. cbv zeta.
  unfold od_session_authenticate.
  pose proof (authenticate_reply (w_session w) (od_session_app_security (w_env w))
                (od_session_app_device_id (w_env w)) bd now env) as (Hn1 & Hn2 & Hrsp).
  destruct (session_authenticate _ _ _ _ _ _ _) as [rc s rsp rep env1]. cbn [a_rc a_s a_rsp a_rep a_env or_same] in *.
  destruct (answer_plain _ r rp rsp) as [w1 r1] eqn:Ea.
  pose proof (answer_plain_committed _ _ _ _ _ _ Ea) as [Hc Hs].
  destruct rc; try done; repeat (split; [done|]); done.
Qed.
End Theorems.

(** The peer's first frame is accepted and its payload handed on. *)
Lemma gate_open_verdict_witness :
  let o := od_gate_open toy_world None (Some toy_rp) 0x71 (demo_envelope 5 [9; 8]) true 224 in
  outcome o.2 = OD_FRAME_ACCEPTED /\ contents (body o.2) = [9; 8] /\ w_txq o.1.1 = txq_init.
Proof.
  cbv zeta. destruct (od_gate_open _ _ _ _ _ _ _) as [[w' r'] g] eqn:Eo.
  pose proof (gate_open_verdict toy_world w' None r' (Some toy_rp) 0x71 (demo_envelope 5 [9; 8]) 224 g
                ltac:(vm_compute; discriminate) Eo) as Hc.
  change (od_session_app_now_ms (w_env toy_world)) with (1000, tt) in Hc. cbv beta iota in Hc.
  destruct (session_open _ _ _ _ _ _) as [[[[rc s] plain] rep] e1] eqn:Es.
  assert (Hrc : rc = OD_SESSION_OPEN_OK /\ plain = [9; 8]).
  { split; [apply (f_equal (fun x => x.1.1.1.1)) in Es|apply (f_equal (fun x => x.1.1.2)) in Es];
      cbn [fst snd] in Es; rewrite <- Es; vm_compute; reflexivity. }
  destruct Hrc as [-> ->]. destruct Hc as (_ & Ho & Hb & Hq & _). split; [exact Ho|]. split; [exact Hb|exact Hq].
Defined.

End Gate.
