(* ===== verification/Dispatch.v ===== *)
(** The command path, [shared/core/od_dispatch.c]: structural checks, tag
    liveness, producer conflict, reservation, gate, handler.  The handlers are an
    argument [run]: which code runs for an opcode is the dispatcher's decision,
    what it does is the handler's. *)

From S2P Require Import Prelude Hal TxQueue Span Proto NonceWindow Session World Reply Gate.
Import Hal TxQueue Span Proto NonceWindow Session World Reply Gate.

Module Dispatch.

(** [od_cmd_result_t]. *)
Inductive od_cmd_result := OD_CMD_OK | OD_CMD_NACK | OD_CMD_AUTH_REJECTED | OD_CMD_UNKNOWN.

(** [od_cmd_ctx_t]; [c_r] is the token the pointer refers to on entry. *)
Record od_cmd_ctx := {
  c_rp : od_reply_t; c_r : od_tx_reservation; wire_len : Z; was_protected : bool;
}.

(** The handler functions the opcode rows name, and the version hook. *)
Inductive hook :=
| od_cmd_app_reboot | od_cmd_app_config_read | od_cmd_app_config_write | od_cmd_app_config_chunk
| od_cmd_app_read_msd | od_cmd_app_config_clear | od_cmd_app_enter_dfu | od_cmd_app_power_off
| od_cmd_app_deep_sleep | od_xfer_direct_start | od_xfer_data | od_xfer_end
| od_cmd_app_led_activate | od_cmd_app_led_stop | od_xfer_partial_start | od_cmd_app_buzzer
| od_pipe_start | od_pipe_data | od_pipe_end | od_nfc_frame | od_cmd_app_firmware_version.

#[export] Instance hook_eq_dec : EqDecision hook.
Proof. solve_decision. Defined.

(** [OD_DISPATCH_OPCODE_ROWS]: opcode, handler, response budget. *)
Definition OD_DISPATCH_OPCODE_ROWS (cap_pipe : bool) : list (Z * hook * Z) :=
  [ (CMD_REBOOT, od_cmd_app_reboot, 1); (CMD_CONFIG_READ, od_cmd_app_config_read, 1);
    (CMD_CONFIG_WRITE, od_cmd_app_config_write, 1); (CMD_CONFIG_CHUNK, od_cmd_app_config_chunk, 1);
    (CMD_READ_MSD, od_cmd_app_read_msd, 1); (CMD_CONFIG_CLEAR, od_cmd_app_config_clear, 1);
    (CMD_ENTER_DFU, od_cmd_app_enter_dfu, 1); (CMD_POWER_OFF, od_cmd_app_power_off, 1);
    (CMD_DEEP_SLEEP, od_cmd_app_deep_sleep, 1); (CMD_DIRECT_WRITE_START, od_xfer_direct_start, 1);
    (CMD_DIRECT_WRITE_DATA, od_xfer_data, 2); (CMD_DIRECT_WRITE_END, od_xfer_end, 2);
    (CMD_LED_ACTIVATE, od_cmd_app_led_activate, 1); (CMD_LED_STOP, od_cmd_app_led_stop, 1);
    (CMD_PARTIAL_WRITE_START, od_xfer_partial_start, 1); (CMD_BUZZER, od_cmd_app_buzzer, 1);
    (CMD_PIPE_WRITE_START, od_pipe_start, 1);
    (CMD_PIPE_WRITE_DATA, od_pipe_data, if cap_pipe then 3 else 1);
    (CMD_PIPE_WRITE_END, od_pipe_end, if cap_pipe then 3 else 1);
    (CMD_NFC_ENDPOINT, od_nfc_frame, 1) ].

(** The [switch] over the rows. *)
Definition find_row (cap_pipe : bool) (cmd : Z) : option (Z * hook * Z) :=
  List.find (fun row => row.1.1 =? cmd) (OD_DISPATCH_OPCODE_ROWS cap_pipe).

Definition od_dispatch_budget (cap_pipe : bool) (cmd : Z) : Z :=
  match find_row cap_pipe cmd with Some row => u8 row.2 | None => 1 end.

Definition OD_DISPATCH_MAX_BLE : Z := 244.
Definition OD_DISPATCH_MAX_LAN : Z := 4094.

Definition origin_ceiling (origin : od_origin) : Z :=
  match origin with OD_ORIGIN_BLE => OD_DISPATCH_MAX_BLE | _ => OD_DISPATCH_MAX_LAN end.

(** The questions the dispatcher asks the target, and the capability macro. *)
Class CommandApp (E : Type) := {
  OD_CAP_PIPE : bool;
  od_cmd_allow_unauthenticated : E -> Z -> bool * E;
  od_cmd_mutates_config : E -> Z -> bool * E;
  od_config_read_active : E -> bool;
}.

(** [outcome_of]; the log line is left out. *)
Definition outcome_of (rc : od_cmd_result) : od_frame_outcome :=
  match rc with
  | OD_CMD_OK => OD_FRAME_ACCEPTED
  | OD_CMD_NACK => OD_FRAME_HANDLER_NACK
  | OD_CMD_AUTH_REJECTED => OD_FRAME_AUTH_REQUIRED
  | OD_CMD_UNKNOWN => OD_FRAME_UNKNOWN_OPCODE
  end.

Section Operations.
Context {E : Type} `{Radio E} `{Crypto E} `{SessionApp E} `{CommandApp E}.

Definition handlers : Type :=
  hook -> od_cmd_ctx -> od_span -> world E -> world E * od_tx_reservation * od_cmd_result.

Variable run : handlers.

(** [unauthenticated_exempt]: asking whether the session is alive may expire it. *)
Definition unauthenticated_exempt (w : world E) (cmd : Z) : bool * world E :=
  let '(now, env) := od_session_app_now_ms (w_env w) in
  let '(alive, s, env, _) := od_session_alive (w_session w) env now report_reset in
  let w := set_session w s env in
  if alive then (false, w)
  else let '(b, env) := od_cmd_allow_unauthenticated (w_env w) cmd in (b, set_env w env).

(** The stack token before [od_txq_reserve] writes it. *)
Definition fresh_token : od_tx_reservation := {| remaining := 0; gen := 0 |}.

Definition refuse_oversize (w : world E) (rp : od_reply_t) (cmd : Z) : world E :=
  let '(q, r, st) := od_txq_reserve (w_txq w) 1 (Some fresh_token) in
  let w := set_txq w q (w_env w) in
  match st with
  | OD_TXQ_OK =>
      let '(w, r, _) := od_reply_plain w r (Some rp) (Some [RESP_NACK; Z.land cmd 0xFF; 0xFE]) 3 in
      let '(q, _) := od_txq_release (w_txq w) r in set_txq w q (w_env w)
  | _ => w
  end.

Definition dispatch_plain (w : world E) (ctx : od_cmd_ctx) (cmd : Z) (bd : od_span)
  : world E * od_tx_reservation * od_cmd_result :=
  match find_row OD_CAP_PIPE cmd with
  | Some row => run row.1.2 ctx bd w
  | None => (w, c_r ctx, OD_CMD_UNKNOWN)
  end.

(** [od_txq_release(&r); return o;] *)
Definition finish (w : world E) (r : option od_tx_reservation) (o : od_frame_outcome)
  : world E * od_frame_outcome :=
  let '(q, _) := od_txq_release (w_txq w) r in (set_txq w q (w_env w), o).

(** The handler step. *)
Definition run_handler (w : world E) (rp : od_reply_t) (t : od_tx_reservation) (cmd : Z)
    (frame bd : od_span) (prot : bool) : world E * od_frame_outcome :=
  let ctx := {| c_rp := rp; c_r := t; wire_len := u16 (sn frame); was_protected := prot |} in
  let '(w, t, rc) := dispatch_plain w ctx cmd bd in
  finish w (Some t) (outcome_of rc).

(** Gate and handler, for a frame whose answer has a reserved slot. *)
Definition dispatch_admitted (w : world E) (rp : od_reply_t) (t : od_tx_reservation) (cmd : Z)
    (frame bd : od_span) : world E * od_frame_outcome :=
  if cmd =? CMD_AUTHENTICATE then
    let '(w, r, o) := od_gate_authenticate w (Some t) (Some rp) bd in finish w r o
  else if cmd =? CMD_FIRMWARE_VERSION then
    let ctx := {| c_rp := rp; c_r := t; wire_len := u16 (sn frame); was_protected := false |} in
    let '(w, t, rc) := run od_cmd_app_firmware_version ctx bd w in
    finish w (Some t) (match rc with OD_CMD_OK => OD_FRAME_DISCOVERY | _ => outcome_of rc end)
  else if is_tls (rp_origin rp)
          || negb (od_session_security_enabled (od_session_app_security (w_env w))) then
    run_handler w rp t cmd frame bd false
  else
    let '(exempt, w) := unauthenticated_exempt w cmd in
    if exempt then run_handler w rp t cmd frame bd false
    else
      let '(w, r, g) := od_gate_open w (Some t) (Some rp) cmd bd true OD_SESSION_PLAIN_MAX in
      match outcome g, r with
      | OD_FRAME_ACCEPTED, Some t => run_handler w rp t cmd frame (body g) true
      | o, _ => finish w r o
      end.

(** [od_config_read_active() && (cmd == CMD_CONFIG_READ || od_cmd_mutates_config(cmd))] *)
Definition config_conflict (env : E) (cmd : Z) : bool * E :=
  if od_config_read_active env then
    if cmd =? CMD_CONFIG_READ then (true, env) else od_cmd_mutates_config env cmd
  else (false, env).

Definition frame_cmd (frame : od_span) : Z := u16 (Z.lor (Z.shiftl (at_ frame 0) 8) (at_ frame 1)).

(** From the tag-liveness check to the reservation. *)
Definition admit_frame (w : world E) (rp : od_reply_t) (frame : od_span) : world E * od_frame_outcome :=
  let cmd := frame_cmd frame in
  let '(live, env) := od_hal_radio_tag_is_live (w_env w) (rp_origin rp) (rp_tag rp) in
  let w := set_env w env in
  if negb live then (w, OD_FRAME_STALE_TAG)
  else
    let '(conflict, env) := config_conflict (w_env w) cmd in
    let w := set_env w env in
    if conflict then (w, OD_FRAME_DEFERRED)
    else
      let '(q, r, st) := od_txq_reserve (w_txq w) (od_dispatch_budget OD_CAP_PIPE cmd) (Some fresh_token) in
      match st, r with
      | OD_TXQ_OK, Some t =>
          dispatch_admitted (set_txq w q (w_env w)) rp t cmd frame (od_span_drop frame 2)
      | _, _ => (set_txq w q (w_env w), OD_FRAME_DEFERRED)
      end.

Definition od_dispatch_frame (w : world E) (rp : option od_reply_t) (frame : od_span)
  : world E * od_frame_outcome :=
  match rp with
  | None => (w, OD_FRAME_REJECTED_FRAME)
  | Some rp =>
      if negb (od_span_has frame 2) then (w, OD_FRAME_REJECTED_FRAME)
      else if origin_ceiling (rp_origin rp) <? sn frame then
        (refuse_oversize w rp (frame_cmd frame), OD_FRAME_REJECTED_FRAME)
      else admit_frame w rp frame
  end.
End Operations.
Arguments handlers : clear implicits.

Section Theorems.
Context {E : Type} `{Radio E} `{Crypto E} `{SessionApp E} `{CommandApp E}.

(** ** Which invocations of a handler are authorised *)

(** Why a frame may reach a handler in the state [w1] it is run in. *)
Inductive cleared (rp : od_reply_t) (cmd : Z) (bd : od_span) (prot : bool) (w1 : world E) : Prop :=
| cleared_tls : rp_origin rp = OD_ORIGIN_LAN_TLS -> prot = false -> cleared rp cmd bd prot w1
| cleared_open :
    od_session_security_enabled (od_session_app_security (w_env w1)) = false -> prot = false ->
    cleared rp cmd bd prot w1
| cleared_exempt s env now rep env1 r env2 :
    od_session_alive s env now rep = (false, w_session w1, env1, r) ->
    od_cmd_allow_unauthenticated env2 cmd = (true, w_env w1) -> prot = false ->
    cleared rp cmd bd prot w1
| cleared_session s envelope now env plain r env1 :
    session_open s cmd envelope OD_SESSION_PLAIN_MAX now env
      = (OD_SESSION_OPEN_OK, w_session w1, plain, r, env1) ->
    contents bd = plain -> prot = true -> cleared rp cmd bd prot w1.

(** The version hook is always readable; any other handler must be the opcode's
    own and the frame must have been cleared. *)
Definition authorised (rp : od_reply_t) (cmd : Z) (h : hook) (ctx : od_cmd_ctx) (bd : od_span)
    (w1 : world E) : Prop :=
  c_rp ctx = rp /\
  ((h = od_cmd_app_firmware_version /\ cmd = CMD_FIRMWARE_VERSION) \/
   ((exists budget, find_row OD_CAP_PIPE cmd = Some (cmd, h, budget)) /\
    cleared rp cmd bd (was_protected ctx) w1)).

Lemma find_row_cmd cap cmd row : find_row cap cmd = Some row -> row = (cmd, row.1.2, row.2).
Proof.
  unfold find_row. intros Hf. apply List.find_some in Hf as [_ Hc]. apply Z.eqb_eq in Hc.
  destruct row as [[c h] b]. simpl in *. by subst.
Qed.

Lemma run_handler_agree (run1 run2 : handlers E) rp (w : world E) t cmd frame bd prot :
  (forall h ctx b w1, authorised rp cmd h ctx b w1 -> run1 h ctx b w1 = run2 h ctx b w1) ->
  cleared rp cmd bd prot w ->
  run_handler run1 w rp t cmd frame bd prot = run_handler run2 w rp t cmd frame bd prot.
Proof.
  intros Hr Hc. unfold run_handler, dispatch_plain. cbv zeta.
  destruct (find_row OD_CAP_PIPE cmd) as [row|] eqn:Ef; [|done].
  rewrite Hr; [done|]. split; [done|]. right. split; [|done].
  exists row.2. rewrite Ef. f_equal. by eapply find_row_cmd.
Qed.

Lemma exempt_cleared rp (w w1 : world E) cmd bd :
  unauthenticated_exempt w cmd = (true, w1) -> cleared rp cmd bd false w1.
Proof.
  unfold unauthenticated_exempt. destruct (od_session_app_now_ms _) as [now env].
  destruct (od_session_alive _ _ _ _) as [[[al s] env1] r] eqn:Ea. destruct al; [discriminate|].
  cbn [w_env set_session]. destruct (od_cmd_allow_unauthenticated env1 cmd) as [b env2] eqn:Eu.
  intros [= -> <-]. by eapply cleared_exempt.
Qed.

Lemma gate_cleared rp (w w1 : world E) r r' cmd e g :
  od_gate_open w r (Some rp) cmd e true OD_SESSION_PLAIN_MAX = (w1, r', g) ->
  outcome g = OD_FRAME_ACCEPTED -> cleared rp cmd (body g) true w1.
Proof.
  unfold od_gate_open, od_session_open. cbn [negb orb].
  rewrite (proj2 (Z.ltb_ge OD_SESSION_PLAIN_MAX _)) by lia.
  destruct (od_session_app_now_ms _) as [now env].
  destruct (session_open _ _ _ _ _ _) as [[[[rc s] plain] rep] env1] eqn:Eo.
  destruct rc.
  { intros [= <- <- <-] _. eapply cleared_session; [exact Eo| |done].
    unfold contents. simpl. by rewrite Nat2Z.id, firstn_all. }
  all: try destruct (silent_drop _ _).
  all: try (destruct (queue_status _ _ _ _ _)); intros [= <- <- <-]; discriminate.
Qed.

Lemma admitted_agree (run1 run2 : handlers E) rp (w : world E) t cmd frame bd :
  (forall h ctx b w1, authorised rp cmd h ctx b w1 -> run1 h ctx b w1 = run2 h ctx b w1) ->
  dispatch_admitted run1 w rp t cmd frame bd = dispatch_admitted run2 w rp t cmd frame bd.
Proof.
  intros Hr. unfold dispatch_admitted. cbv zeta. destruct (cmd =? CMD_AUTHENTICATE); [done|].
  destruct (Z.eqb_spec cmd CMD_FIRMWARE_VERSION) as [Ev|_].
  { rewrite Hr; [done|]. split; [done|]. by left. }
  destruct (is_tls (rp_origin rp)) eqn:Et; cbn [orb].
  { apply run_handler_agree; [done|]. apply cleared_tls; [|done]. by destruct (rp_origin rp). }
  destruct (od_session_security_enabled _) eqn:Es; cbn [negb].
  2: { apply run_handler_agree; [done|]. by apply cleared_open. }
  destruct (unauthenticated_exempt w cmd) as [[] w1] eqn:Ex.
  { apply run_handler_agree; [done|]. by eapply exempt_cleared. }
  destruct (od_gate_open _ _ _ _ _ _ _) as [[w2 r2] g] eqn:Eg.
  destruct (outcome g) eqn:Eo; try done. destruct r2; [|done].
  apply run_handler_agree; [done|]. by eapply gate_cleared.
Qed.

(** C4. No handler runs unauthorised: the dispatcher's behaviour depends on the
    handlers only through authorised invocations, so whatever the handlers would
    do elsewhere is unreachable.  An invocation is authorised when it is the
    version query, or the opcode's own handler on a frame that came over TLS, on
    a device without security, under the target's exemption with no live
    session, or with a body the session just decrypted; [was_protected] tells
    the handler which. *)
Theorem dispatch_authorised (run1 run2 : handlers E) (w : world E) (rp : od_reply_t)
    (frame : od_span) :
  (forall h ctx b w1, authorised rp (frame_cmd frame) h ctx b w1 ->
     run1 h ctx b w1 = run2 h ctx b w1) ->
  od_dispatch_frame run1 w (Some rp) frame = od_dispatch_frame run2 w (Some rp) frame.
Proof.
  intros Hr. unfold od_dispatch_frame. destruct (negb _); [done|]. destruct (_ <? _); [done|].
  unfold admit_frame. cbv zeta. destruct (od_hal_radio_tag_is_live _ _ _) as [[] env]; cbn [negb]; [|done].
  destruct (config_conflict _ _) as [[] env1]; [done|].
  destruct (od_txq_reserve _ _ _) as [[q r] st]. destruct st; try done. destruct r; [|done].
  by apply admitted_agree.
Qed.

(** ** Deferral *)

Lemma finish_outcome (w : world E) r o : (finish w r o).2 = o.
Proof. unfold finish. by destruct (od_txq_release _ _). Qed.

Lemma run_handler_not_deferred (run : handlers E) w rp t cmd frame bd prot :
  (run_handler run w rp t cmd frame bd prot).2 <> OD_FRAME_DEFERRED.
Proof.
  unfold run_handler. cbv zeta. destruct (dispatch_plain _ _ _ _ _) as [[w1 t1] rc].
  rewrite finish_outcome. by destruct rc.
Qed.

Lemma admitted_not_deferred (run : handlers E) w rp t cmd frame bd :
  (dispatch_admitted run w rp t cmd frame bd).2 <> OD_FRAME_DEFERRED.
Proof.
  unfold dispatch_admitted. cbv zeta. destruct (cmd =? CMD_AUTHENTICATE).
  { pose proof (gate_authenticate_answers w (Some t) (Some rp) bd) as Ha.
    destruct (od_session_app_now_ms _). destruct (od_gate_authenticate _ _ _ _) as [[w1 r1] o].
    destruct Ha as (_ & _ & _ & ->). rewrite finish_outcome. by case_bool_decide. }
  destruct (cmd =? CMD_FIRMWARE_VERSION).
  { destruct (run _ _ _ _) as [[w1 t1] rc]. rewrite finish_outcome. by destruct rc. }
  destruct (_ || _); [apply run_handler_not_deferred|].
  destruct (unauthenticated_exempt w cmd) as [[] w1]; [apply run_handler_not_deferred|].
  destruct (od_gate_open _ _ _ _ _ _ _) as [[w2 r2] g] eqn:Eg.
  assert (Hg : outcome g <> OD_FRAME_DEFERRED).
  { revert Eg. unfold od_gate_open. destruct (_ || _).
    { destruct (queue_status _ _ _ _ _). by intros [= _ _ <-]. }
    destruct (od_session_app_now_ms _). destruct (od_session_open _ _ _ _ _ _ _ _) as [[[[rc s] p] rep] e1].
    destruct rc; try destruct (silent_drop _ _); try destruct (queue_status _ _ _ _ _);
      by intros [= _ _ <-]. }
  destruct (outcome g) eqn:Eo; rewrite ?finish_outcome; try done.
  destruct r2; [apply run_handler_not_deferred|by rewrite finish_outcome].
Qed.

Lemma reserve_cases q c t :
  0 < c ->
  let '(q', r, st) := od_txq_reserve q c (Some t) in
  (st = OD_TXQ_OK /\ c <= free_slots q - s_reserved q /\
   q' = with_reserved q (u8 (s_reserved q + c)) /\ r = Some {| remaining := c; gen := s_gen q |}) \/
  (st = OD_TXQ_FULL /\ q' = q /\ free_slots q - s_reserved q < c).
Proof.
  intros Hc. unfold od_txq_reserve. destruct (Z.eqb_spec c 0); [lia|].
  destruct (Z.leb_spec (free_slots q) (s_reserved q)); [right; repeat split; lia|].
  destruct (Z.ltb_spec (free_slots q - s_reserved q) c); [right; repeat split; lia|]. left. by repeat split.
Qed.

Lemma budget_range cap cmd : 1 <= od_dispatch_budget cap cmd <= 3.
Proof.
  unfold od_dispatch_budget. destruct (find_row cap cmd) as [row|] eqn:Ef; [|lia].
  apply List.find_some in Ef as [Hin _].
  assert (Hall : List.Forall (fun row => 1 <= u8 row.2 <= 3) (OD_DISPATCH_OPCODE_ROWS cap)).
  { destruct cap; repeat constructor; vm_compute; discriminate. }
  rewrite List.Forall_forall in Hall. by apply Hall.
Qed.

Lemma conflict_env (env : E) cmd : exists b env', config_conflict env cmd = (b, env').
Proof. destruct (config_conflict env cmd) as [b e]. by exists b, e. Qed.

(** A deferred frame has not been touched: DEFERRED is only returned before
    the gate, so the queue and the session, with its replay window, are what they
    were, and no handler has run; the reason is a live configuration read that
    the command conflicts with, or less free capacity than the command's budget.
    It is the one outcome whose policy keeps the frame in the receive queue. *)
Theorem dispatch_deferred_untouched (run : handlers E) (w w' : world E)
    (rp : option od_reply_t) (frame : od_span) (o : od_frame_outcome) :
  od_dispatch_frame run w rp frame = (w', o) ->
  (consume_rx (od_frame_policy o) = false <-> o = OD_FRAME_DEFERRED) /\
  (o = OD_FRAME_DEFERRED ->
   w_txq w' = w_txq w /\ w_session w' = w_session w /\
   (forall run', od_dispatch_frame run' w rp frame = (w', o)) /\
   ((exists env, config_conflict env (frame_cmd frame) = (true, w_env w')) \/
    free_slots (w_txq w) - s_reserved (w_txq w) < od_dispatch_budget OD_CAP_PIPE (frame_cmd frame))).
Proof.
  intros Hd. split; [by destruct o|]. intros ->. revert Hd.
  unfold od_dispatch_frame. destruct rp as [rp|]; [|discriminate].
  destruct (negb _); [discriminate|]. destruct (_ <? sn frame); [discriminate|].
  unfold admit_frame. cbv zeta. destruct (od_hal_radio_tag_is_live _ _ _) as [[] env]; cbn [negb]; [|discriminate].
  cbn [w_env set_env]. destruct (config_conflict env (frame_cmd frame)) as [[] env1] eqn:Ec.
  { intros [= <-]. repeat split; try done. left. by exists env. }
  cbn [w_txq set_env w_env].
  pose proof (reserve_cases (w_txq w) (od_dispatch_budget OD_CAP_PIPE (frame_cmd frame)) fresh_token) as Hr.
  destruct (od_txq_reserve _ _ _) as [[q r] st].
  destruct Hr as [(-> & _ & _ & ->)|(-> & -> & Hlt)].
  { pose proof (budget_range OD_CAP_PIPE (frame_cmd frame)). lia. }
  { intros Hd. exfalso. by apply (admitted_not_deferred run _ _ _ _ _ _ (f_equal snd Hd)). }
  intros [= <-]. repeat split; try done. by right.
Qed.

(** ** Reserved capacity *)

(** A token of the current generation, over [R] units other dispatches hold. *)
Definition holds (q : txq) (t : od_tx_reservation) (R : Z) : Prop :=
  gen t = s_gen q /\ 0 <= remaining t /\ 0 <= R /\ s_reserved q = R + remaining t /\ s_reserved q < 256.

(** What a handler may do with the token it was lent: spend from it, and nothing
    else, unless the queue was reset under it. *)
Definition handlers_ok (run : handlers E) : Prop :=
  forall h ctx b w w' t rc R,
    holds (w_txq w) (c_r ctx) R -> run h ctx b w = (w', t, rc) ->
    s_gen (w_txq w') = s_gen (w_txq w) -> holds (w_txq w') t R.

Lemma commit_holds q (env : E) t rp frame n R q' env' r' st :
  holds q t R -> od_txq_commit q env (Some t) rp frame n = (q', env', r', st) ->
  s_gen q' = s_gen q /\ exists t', r' = Some t' /\ holds q' t' R.
Proof.
  intros (Hg & Hrem & HR & Hs & Hb). unfold od_txq_commit.
  assert (Hk : holds q t R) by done.
  destruct rp as [rp|]; [|intros [= <- <- <- <-]; eauto].
  destruct frame as [frame|]; [|intros [= <- <- <- <-]; eauto].
  destruct (n =? 0); [intros [= <- <- <- <-]; eauto|].
  destruct (Z.eqb_spec (remaining t) 0); [intros [= <- <- <- <-]; eauto|].
  rewrite Hg, Z.eqb_refl. cbn [negb].
  destruct (_ <? n); [intros [= <- <- <- <-]; eauto|].
  destruct (_ && _); [intros [= <- <- <- <-]; eauto|].
  destruct (od_hal_radio_tag_is_live _ _ _) as [live env1].
  assert (Hspend : forall q0, s_gen q0 = s_gen q -> s_reserved q0 = s_reserved q ->
            s_gen (spend q0 t).1 = s_gen q /\ holds (spend q0 t).1 (spend q0 t).2 R).
  { intros q0 E1 E2. split; [done|]. unfold holds, spend. simpl. rewrite E1, E2. split; [done|].
    rewrite !wrap_id by (unfold fits; lia). lia. }
  destruct (negb live).
  { destruct (spend q t) as [q1 t1] eqn:Es. intros [= <- <- <- <-].
    pose proof (Hspend q eq_refl eq_refl) as Hsp. rewrite Es in Hsp. destruct Hsp. eauto. }
  destruct (free_slots q =? 0); [intros [= <- <- <- <-]; eauto|].
  destruct (spend (push_entry q rp frame n) t) as [q1 t1] eqn:Es. intros [= <- <- <- <-].
  pose proof (Hspend (push_entry q rp frame n) eq_refl eq_refl) as Hsp. rewrite Es in Hsp. destruct Hsp. eauto.
Qed.

Lemma committed_holds q q' (env' : E) t r' rp out R :
  holds q t R -> committed q q' env' (Some t) r' rp out ->
  s_gen q' = s_gen q /\ exists t', r' = Some t' /\ holds q' t' R.
Proof. intros Hh (env & st & Hc). by eapply commit_holds. Qed.

Lemma finish_holds (w : world E) t R o :
  holds (w_txq w) t R ->
  s_gen (w_txq (finish w (Some t) o).1) = s_gen (w_txq w) /\
  s_reserved (w_txq (finish w (Some t) o).1) = R.
Proof.
  intros (Hg & Hrem & HR & Hs & Hb). unfold finish, od_txq_release.
  destruct (Z.eqb_spec (remaining t) 0) as [Hz|_]; simpl; [split; [done|lia]|].
  rewrite Hg, Z.eqb_refl. simpl. split; [done|]. rewrite wrap_id by (unfold fits; lia). lia.
Qed.

Lemma finish_gen (w : world E) r o : s_gen (w_txq (finish w r o).1) = s_gen (w_txq w).
Proof.
  unfold finish, od_txq_release. destruct r as [t|]; [|done].
  destruct (_ =? 0); [done|]. simpl. by destruct (_ =? _).
Qed.

(** A sealed answer spends from its token like any other. *)
Lemma reply_sealed_held (w w' : world E) t rp f n r' st R :
  holds (w_txq w) t R -> reply_sealed w (Some t) rp f n = (w', r', st) ->
  exists t', r' = Some t' /\ holds (w_txq w') t' R.
Proof.
  intros Hh. unfold reply_sealed. destruct (od_session_app_now_ms _) as [now env].
  destruct (od_session_seal _ _ _ _ _ _ _) as [[[[rc s] sealed] rep] env1]. intros Ed.
  apply dispose_cases in Ed as [(_ & _ & -> & ->) | [(_ & _ & Hc) | (_ & _ & _ & Hc)]].
  - by exists t.
  - eapply committed_holds in Hc as [_ Hc]; [exact Hc|exact Hh].
  - eapply committed_holds in Hc as [_ Hc]; [exact Hc|exact Hh].
Qed.

(** One handler call and the release after it. *)
Lemma handled_released (run : handlers E) h ctx b w o R :
  handlers_ok run -> holds (w_txq w) (c_r ctx) R ->
  let '(w1, t1, rc) := run h ctx b w in
  let w2 := (finish w1 (Some t1) (o rc)).1 in
  s_gen (w_txq w2) = s_gen (w_txq w) -> s_reserved (w_txq w2) = R.
Proof.
  intros Hok Hh. destruct (run h ctx b w) as [[w1 t1] rc] eqn:Er. cbv zeta. intros Hg.
  rewrite finish_gen in Hg. by apply finish_holds, (Hok _ _ _ _ _ _ _ _ Hh Er).
Qed.

Lemma run_handler_released (run : handlers E) w rp t cmd frame bd prot R :
  handlers_ok run -> holds (w_txq w) t R ->
  let w' := (run_handler run w rp t cmd frame bd prot).1 in
  s_gen (w_txq w') = s_gen (w_txq w) -> s_reserved (w_txq w') = R.
Proof.
  intros Hok Hh. cbv zeta. unfold run_handler, dispatch_plain. cbv zeta.
  destruct (find_row OD_CAP_PIPE cmd) as [row|].
  - pose proof (handled_released run row.1.2
      {| c_rp := rp; c_r := t; wire_len := u16 (sn frame); was_protected := prot |} bd w
      outcome_of R Hok Hh) as Hx.
    destruct (run _ _ _ _) as [[w1 t1] rc]. exact Hx.
  - intros _. by apply finish_holds.
Qed.

Lemma gate_open_holds w t R rp cmd e cap w' r' g :
  holds (w_txq w) t R -> OD_SESSION_PLAIN_MAX <= cap ->
  od_gate_open (E:=E) w (Some t) (Some rp) cmd e true cap = (w', r', g) ->
  s_gen (w_txq w') = s_gen (w_txq w) /\ exists t', r' = Some t' /\ holds (w_txq w') t' R.
Proof.
  intros Hh Hcap Hg. pose proof (gate_open_cases _ _ _ _ _ _ _ _ _ Hcap Hg) as Hv.
  destruct Hv as [[-> ->]|(out & Hc)]; [eauto|]. by eapply committed_holds.
Qed.

Lemma alive_txq (w w1 : world E) cmd b :
  unauthenticated_exempt w cmd = (b, w1) -> w_txq w1 = w_txq w.
Proof.
  unfold unauthenticated_exempt. destruct (od_session_app_now_ms _) as [now env].
  destruct (od_session_alive _ _ _ _) as [[[[] s] env1] r]; [by intros [= _ <-]|].
  destruct (od_cmd_allow_unauthenticated _ _) as [b' env2]. by intros [= _ <-].
Qed.

Lemma admitted_released (run : handlers E) w rp t cmd frame bd R :
  handlers_ok run -> holds (w_txq w) t R ->
  let w' := (dispatch_admitted run w rp t cmd frame bd).1 in
  s_gen (w_txq w') = s_gen (w_txq w) -> s_reserved (w_txq w') = R.
Proof.
  intros Hok Hh. cbv zeta. unfold dispatch_admitted. cbv zeta. destruct (cmd =? CMD_AUTHENTICATE).
  { pose proof (gate_authenticate_answers w (Some t) (Some rp) bd) as Ha.
    destruct (od_session_app_now_ms _). destruct (od_gate_authenticate _ _ _ _) as [[w1 r1] o].
    destruct Ha as (Hc & _). apply (committed_holds _ _ _ _ _ _ _ R Hh) in Hc as (_ & t1 & -> & Ht).
    intros _. by apply finish_holds. }
  destruct (cmd =? CMD_FIRMWARE_VERSION).
  { pose proof (handled_released run od_cmd_app_firmware_version
      {| c_rp := rp; c_r := t; wire_len := u16 (sn frame); was_protected := false |} bd w
      (fun rc => match rc with OD_CMD_OK => OD_FRAME_DISCOVERY | _ => outcome_of rc end)
      R Hok Hh) as Hx.
    destruct (run _ _ _ _) as [[w1 t1] rc]. exact Hx. }
  destruct (_ || _); [by apply run_handler_released|].
  destruct (unauthenticated_exempt w cmd) as [b w1] eqn:Ex. apply alive_txq in Ex.
  rewrite <- Ex in Hh |- *. destruct b; [by apply run_handler_released|].
  destruct (od_gate_open _ _ _ _ _ _ _) as [[w2 r2] g] eqn:Eg.
  destruct (gate_open_holds _ _ _ _ _ _ _ _ _ _ Hh (Z.le_refl _) Eg) as (Hg2 & t2 & -> & Ht). rewrite <- Hg2.
  destruct (outcome g); try (intros _; by apply finish_holds).
  by apply run_handler_released.
Qed.

(** C14. Capacity is never leaked: whatever the frame and whichever path it
    takes (oversize, stale, deferred, refused, handled), a dispatch returns every
    unit it reserved, so the units reserved in the queue afterwards are those
    reserved before, unless the queue itself was reset.  The handlers are only
    assumed to spend from the token they were lent. *)
Theorem dispatch_returns_capacity (run : handlers E) (w : world E) (rp : option od_reply_t)
    (frame : od_span) :
  handlers_ok run -> ring_ok (w_txq w) -> 0 <= s_reserved (w_txq w) ->
  let w' := (od_dispatch_frame run w rp frame).1 in
  s_gen (w_txq w') = s_gen (w_txq w) -> s_reserved (w_txq w') = s_reserved (w_txq w).
Proof.
  intros Hok Hring Hpos. cbv zeta.
  pose proof (free_slots_entries _ Hring) as Hfree. pose proof (entries_lt _ Hring).
  assert (Hres : forall c q r st, 1 <= c <= 3 -> od_txq_reserve (w_txq w) c (Some fresh_token) = (q, r, st) ->
    (q = w_txq w /\ st = OD_TXQ_FULL) \/
    (st = OD_TXQ_OK /\ s_gen q = s_gen (w_txq w) /\
     exists t, r = Some t /\ holds q t (s_reserved (w_txq w)))).
  { intros c q r st Hc Er. pose proof (reserve_cases (w_txq w) c fresh_token ltac:(lia)) as Hr.
    rewrite Er in Hr. destruct Hr as [(-> & Hle & -> & ->)|(-> & -> & _)]; [right|by left].
    split; [done|]. split; [done|]. eexists. split; [done|]. unfold holds. cbn.
    unfold OD_TXQ_SLOTS in *. rewrite wrap_id by (unfold fits; lia). lia. }
  unfold od_dispatch_frame. destruct rp as [rp|]; [|done]. destruct (negb _); [done|].
  destruct (_ <? sn frame).
  { unfold refuse_oversize. destruct (od_txq_reserve _ 1 _) as [[q r] st] eqn:Er.
    destruct (Hres 1 _ _ _ ltac:(lia) Er) as [[-> ->]|(-> & Hg & t & -> & Hh)]; [done|].
    destruct (od_reply_plain _ _ _ _ _) as [[w1 r1] st1] eqn:Ep.
    unfold od_reply_plain, queue_response, commit in Ep.
    destruct (od_txq_commit _ _ _ _ _ _) as [[[q1 e1] r2] st2] eqn:Ec. injection Ep as <- <- <-.
    eapply commit_holds in Ec as (_ & t1 & -> & Hh1); [|exact Hh]. intros _.
    apply (finish_holds (set_txq w q1 e1) t1 _ OD_FRAME_ACCEPTED) in Hh1 as [_ Hx].
    unfold finish in Hx. cbn [w_txq set_txq fst] in *. destruct (od_txq_release q1 (Some t1)). exact Hx. }
  unfold admit_frame. cbv zeta. destruct (od_hal_radio_tag_is_live _ _ _) as [[] env]; cbn [negb]; [|done].
  destruct (config_conflict _ _) as [[] env1]; [done|]. cbn [w_txq set_env w_env].
  destruct (od_txq_reserve _ _ _) as [[q r] st] eqn:Er.
  destruct (Hres _ _ _ _ (budget_range _ _) Er) as [[-> ->]|(-> & Hg & t & -> & Hh)]; [done|].
  intros Hg'. apply admitted_released; [done|done|]. etrans; [exact Hg'|by symmetry].
Qed.
End Theorems.

#[local] Instance toy_command : CommandApp unit := {
  OD_CAP_PIPE := true;
  od_cmd_allow_unauthenticated e _ := (false, e);
  od_cmd_mutates_config e cmd := (cmd =? CMD_CONFIG_WRITE, e);
  od_config_read_active _ := true;
}.

(** Handlers that answer one byte, and handlers that would also obey a frame
    nobody authenticated. *)
Definition polite : handlers unit := fun h ctx b w =>
  let '(w, r, _) := od_reply w (Some (c_r ctx)) (Some (c_rp ctx)) (Some [0; 0x44]) 2 in
  (w, match r with Some t => t | None => c_r ctx end, OD_CMD_OK).

Definition careless : handlers unit := fun h ctx b w =>
  if bool_decide (h = od_cmd_app_firmware_version) || was_protected ctx then polite h ctx b w
  else (set_session w (zero_session 0) (w_env w), c_r ctx, OD_CMD_OK).

Definition plain_frame : od_span := of_bytes [0; 0x44].

Lemma dispatch_authorised_witness :
  od_dispatch_frame careless toy_world (Some toy_rp) plain_frame
  = od_dispatch_frame polite toy_world (Some toy_rp) plain_frame.
Proof.
  apply (dispatch_authorised careless polite toy_world toy_rp plain_frame).
  intros h ctx b w1 (_ & [[-> _]|[_ Hc]]); [reflexivity|].
  unfold careless. destruct Hc as [Ht|Hs|? ? ? ? ? ? ? _ Ha|? ? ? ? ? ? ? _ _ ->].
  - discriminate.
  - vm_compute in Hs. discriminate.
  - discriminate.
  - by rewrite orb_true_r.
Defined.

Lemma dispatch_deferred_untouched_witness :
  let o := od_dispatch_frame polite toy_world (Some toy_rp) (of_bytes [0; 0x41; 7]) in
  o.2 = OD_FRAME_DEFERRED /\ w_txq o.1 = txq_init /\ w_session o.1 = demo_session.
Proof.
  cbv zeta. destruct (od_dispatch_frame _ _ _ _) as [w' o] eqn:Ed.
  destruct (dispatch_deferred_untouched polite toy_world w' _ _ o Ed) as [_ Hd].
  assert (Ho : o = OD_FRAME_DEFERRED)
    by (apply (f_equal snd) in Ed; cbn [snd] in Ed; rewrite <- Ed; vm_compute; reflexivity).
  destruct (Hd Ho) as (Hq & Hs & _). split; [exact Ho|]. split; [exact Hq|exact Hs].
Defined.

Lemma polite_ok : handlers_ok polite.
Proof.
  intros h ctx b w w' t rc R Hh. unfold polite, od_reply. cbn [rp_origin Z.eqb].
  assert (Hk : forall (w0 : world unit) f n w1 r st, w_txq w0 = w_txq w ->
    queue_response w0 (Some (c_r ctx)) (Some (c_rp ctx)) f n = (w1, r, st) ->
    exists t1, r = Some t1 /\ holds (w_txq w1) t1 R).
  { intros w0 f n w1 r st Hq. unfold queue_response, commit. rewrite Hq.
    destruct (od_txq_commit _ _ _ _ _ _) as [[[q e] r1] st1] eqn:Ec. intros [= <- <- <-].
    eapply commit_holds in Ec as (_ & t1 & -> & Ht); [|exact Hh]. by exists t1. }
  destruct (is_tls (rp_origin (c_rp ctx))).
  { destruct (queue_response _ _ _ _ _) as [[w1 r1] st1] eqn:Eq.
    destruct (Hk w _ _ _ _ _ eq_refl Eq) as (t1 & -> & Ht). by intros [= <- <- <-]. }
  change (negb (od_session_security_enabled _)) with false. cbv iota.
  destruct (reply_sealed _ _ _ _ _) as [[w1 r1] st1] eqn:Eq.
  destruct (reply_sealed_held _ _ _ _ _ _ _ _ R Hh Eq) as (t1 & -> & Ht). by intros [= <- <- <-].
Qed.

Lemma toy_ring_ok : ring_ok txq_init.
Proof. split; [reflexivity|]. split; split; vm_compute; congruence. Qed.

(** A version query is answered and its unit returned. *)
Lemma dispatch_returns_capacity_witness :
  let o := od_dispatch_frame polite toy_world (Some toy_rp) (of_bytes [0; 0x43]) in
  o.2 = OD_FRAME_DISCOVERY /\ s_reserved (w_txq o.1) = 0 /\ s_tail (w_txq o.1) = 1.
Proof.
  split; [vm_compute; reflexivity|]. split; [|vm_compute; reflexivity].
  apply (dispatch_returns_capacity polite toy_world (Some toy_rp) (of_bytes [0; 0x43]) polite_ok toy_ring_ok);
    [vm_compute; congruence|vm_compute; reflexivity].
Defined.

End Dispatch.
