(* ===== verification/ConfigTlv.v ===== *)
(** Walking the stored configuration blob, [shared/core/od_config_tlv.c]: the
    outer header, the packet loop with its bounds checks, and the advisory CRC. *)

From S2P Require Import Prelude Span.
Import Span.

Module ConfigTlv.

Definition OD_CFG_TLV_HEADER_LEN : Z := 3.
Definition OD_CFG_TLV_CRC_LEN : Z := 2.

(** [enum od_config_tlv_result]. *)
Inductive od_config_tlv_result :=
| OD_CFG_TLV_OK | OD_CFG_TLV_TOO_SHORT | OD_CFG_TLV_TRUNCATED | OD_CFG_TLV_REJECTED.

#[export] Instance od_config_tlv_result_eq_dec : EqDecision od_config_tlv_result.
Proof. solve_decision. Defined.

(** [sizeof] of the packed packet structs of [opendisplay_structs.h], by packet
    id, as the asserts there fix them. *)
Definition od_config_tlv_body_size (packet_id : Z) : Z :=
  if packet_id =? 0x01 then 22        (* SystemConfig *)
  else if packet_id =? 0x02 then 22   (* ManufacturerData *)
  else if packet_id =? 0x04 then 30   (* PowerOption *)
  else if packet_id =? 0x20 then 46   (* DisplayConfig *)
  else if packet_id =? 0x21 then 22   (* LedConfig *)
  else if packet_id =? 0x23 then 30   (* SensorData *)
  else if packet_id =? 0x24 then 30   (* DataBus *)
  else if packet_id =? 0x25 then 30   (* BinaryInputs *)
  else if packet_id =? 0x26 then 160  (* WifiConfig *)
  else if packet_id =? 0x27 then 64   (* SecurityConfig *)
  else if packet_id =? 0x28 then 32   (* TouchController *)
  else if packet_id =? 0x29 then 32   (* BuzzerConfig *)
  else if packet_id =? 0x2A then 32   (* NfcConfig *)
  else if packet_id =? 0x2B then 32   (* FlashConfig *)
  else if packet_id =? 0x2C then 288  (* DataExtended *)
  else 0.

Section Walk.
Context {A : Type}.

(** [od_config_tlv_packet_fn], on the context [A]. *)
Variable fn : A -> Z -> od_span -> A * bool.

(** The [while] loop.  Every round consumes at least a two-byte header. *)
Fixpoint walk_loop (fuel : nat) (ctx : A) (rest : od_span) : option (od_config_tlv_result * A * Z) :=
  match fuel with
  | O => None
  | S fuel =>
      match od_span_split rest 2 with
      | None => Some (OD_CFG_TLV_OK, ctx, 0)
      | Some (hdr, rest) =>
          let packet_id := at_ hdr 1 in
          let body_size := od_config_tlv_body_size packet_id in
          if body_size =? 0 then Some (OD_CFG_TLV_OK, ctx, packet_id)
          else
            match od_span_split rest body_size with
            | None => Some (OD_CFG_TLV_TRUNCATED, ctx, 0)
            | Some (body, rest) =>
                let '(ctx, ok) := fn ctx packet_id body in
                if negb ok then Some (OD_CFG_TLV_REJECTED, ctx, 0) else walk_loop fuel ctx rest
            end
      end
  end.
End Walk.

(** [od_config_tlv_walk]: result, context, [*version_out] if it was written,
    [*unknown_id_out].  [None] for [fn] is a null callback. *)
Definition od_config_tlv_walk {A} (blob : od_span) (fn : option (A -> Z -> od_span -> A * bool)) (ctx : A)
  : option (od_config_tlv_result * A * option Z * Z) :=
  match fn with
  | None => Some (OD_CFG_TLV_TOO_SHORT, ctx, None, 0)
  | Some fn =>
      if negb (od_span_valid blob) then Some (OD_CFG_TLV_TOO_SHORT, ctx, None, 0)
      else if sn blob <? OD_CFG_TLV_HEADER_LEN + OD_CFG_TLV_CRC_LEN then
        Some (OD_CFG_TLV_TOO_SHORT, ctx, None, 0)
      else
        let rest := od_span_drop blob OD_CFG_TLV_HEADER_LEN in
        let rest := od_span_take rest (sn rest - OD_CFG_TLV_CRC_LEN) in
        '(rc, ctx, unknown) ← walk_loop fn (S (Z.to_nat (sn rest))) ctx rest;
        Some (rc, ctx, Some (at_ blob 2), unknown)
  end.

(** [od_crc16_feed]: one byte into the CCITT register. *)
Fixpoint crc16_bits (n : nat) (crc : Z) : Z :=
  match n with
  | O => crc
  | S n =>
      crc16_bits n (if negb (Z.land crc 0x8000 =? 0)
                    then u16 (Z.lxor (u32 (Z.shiftl crc 1)) 0x1021) else u16 (u32 (Z.shiftl crc 1)))
  end.

Definition od_crc16_feed (crc b : Z) : Z := crc16_bits 8 (Z.lxor crc (u16 (Z.shiftl b 8))).

(** [for (i = from; i < n; ++i) crc = od_crc16_feed(crc, data.p[i]);] *)
Fixpoint crc16_range (n : nat) (data : od_span) (i crc : Z) : Z :=
  match n with
  | O => crc
  | S n => crc16_range n data (i + 1) (od_crc16_feed crc (at_ data i))
  end.

Definition od_config_tlv_crc16 (data : od_span) : Z :=
  let crc := 0xFFFF in
  if negb (od_span_valid data) then crc
  else if sn data <? 2 then crc16_range (Z.to_nat (sn data)) data 0 crc
  else
    let crc := od_crc16_feed (od_crc16_feed crc 0) 0 in
    crc16_range (Z.to_nat (sn data - 2)) data 2 crc.

(** ** The CRC *)

#[global] Arguments od_config_tlv_crc16 : simpl never.

Lemma crc16_bits_fits n crc : fits 16 crc -> fits 16 (crc16_bits n crc).
Proof. revert crc. induction n as [|n IH]; intros crc Hc; [done|]. simpl. apply IH. case_match; by apply wrap_fits. Qed.

Lemma feed_fits crc b : fits 16 crc -> fits 16 (od_crc16_feed crc b).
Proof.
  intros Hc. apply crc16_bits_fits. unfold fits in *. rewrite <- (wrap_id 16 crc) by done.
  assert (Hl : Z.lxor (u16 crc) (u16 (Z.shiftl b 8)) = u16 (Z.lxor crc (Z.shiftl b 8))).
  { apply Z.bits_inj'. intros i Hi. rewrite Z.lxor_spec, !wrap_testbit, Z.lxor_spec by lia. by destruct (i <? 16). }
  rewrite Hl. by apply (wrap_fits 16).
Qed.

Lemma crc16_range_fits n d i crc : fits 16 crc -> fits 16 (crc16_range n d i crc).
Proof. revert i crc. induction n as [|n IH]; intros i crc Hc; [done|]. simpl. by apply IH, feed_fits. Qed.

Lemma crc16_fits d : fits 16 (od_config_tlv_crc16 d).
Proof.
  unfold od_config_tlv_crc16. cbv zeta. destruct (negb _); [done|].
  destruct (_ <? _); apply crc16_range_fits; repeat apply feed_fits; done.
Qed.

Lemma crc16_range_ext n d d' i crc :
  (forall j, i <= j < i + Z.of_nat n -> at_ d j = at_ d' j) -> crc16_range n d i crc = crc16_range n d' i crc.
Proof.
  revert i crc. induction n as [|n IH]; intros i crc Hj; [done|]. simpl.
  rewrite (Hj i) by lia. apply IH. intros j Hr. apply Hj. lia.
Qed.

(** The CRC depends on the bytes of the span, not on what follows them. *)
Lemma crc16_ext d d' :
  od_span_valid d = true -> od_span_valid d' = true -> sn d = sn d' -> 0 <= sn d ->
  (forall j, 0 <= j < sn d -> at_ d j = at_ d' j) -> od_config_tlv_crc16 d = od_config_tlv_crc16 d'.
Proof.
  intros Hv Hv' Hn H0 Hj. unfold od_config_tlv_crc16. rewrite Hv, Hv', <- Hn. cbv zeta. cbn [negb].
  destruct (Z.ltb_spec (sn d) 2); apply crc16_range_ext; intros j Hr; apply Hj; lia.
Qed.

(** ** The grammar *)

(** A packet: instance byte, id, and the span its body is read from. *)
Definition packet : Type := Z * Z * od_span.

Definition encode (p : packet) : bytes := p.1.1 :: p.1.2 :: contents p.2.

(** A known id with exactly its declared body, every byte of it in bounds. *)
Definition packet_ok (p : packet) : Prop :=
  od_config_tlv_body_size p.1.2 <> 0 /\ sn p.2 = od_config_tlv_body_size p.1.2 /\
  span_ok p.2 /\ od_span_valid p.2 = true.

Section WalkTheorems.
Context {A : Type}.
Variable fn : A -> Z -> od_span -> A * bool.

(** The callback applied to packets in order, until it refuses one. *)
Inductive applies : A -> list packet -> A -> bool -> Prop :=
| applies_nil a : applies a [] a true
| applies_cons a p a1 ps a' ok :
    fn a p.1.2 p.2 = (a1, true) -> applies a1 ps a' ok -> applies a (p :: ps) a' ok
| applies_reject a p a1 : fn a p.1.2 p.2 = (a1, false) -> applies a [p] a1 false.

(** How a walk ends: [tail] is what it did not consume. *)
Inductive walk_end : od_config_tlv_result -> bool -> Z -> bytes -> Prop :=
| end_rejected tail : walk_end OD_CFG_TLV_REJECTED false 0 tail
| end_ok tail : len tail < 2 -> walk_end OD_CFG_TLV_OK true 0 tail
| end_unknown i id tail : od_config_tlv_body_size id = 0 -> walk_end OD_CFG_TLV_OK true id (i :: id :: tail)
| end_truncated i id tail :
    od_config_tlv_body_size id <> 0 -> len tail < od_config_tlv_body_size id ->
    walk_end OD_CFG_TLV_TRUNCATED true 0 (i :: id :: tail).

Lemma body_size_range id : 0 <= od_config_tlv_body_size id <= 288.
Proof. unfold od_config_tlv_body_size. repeat case_match; lia. Qed.

(** A successful split of an in-bounds span, as lists. *)
Lemma split_contents s n a b :
  span_ok s -> 0 <= n -> od_span_split s n = Some (a, b) ->
  contents s = contents a ++ contents b /\ len (contents a) = n /\ sn a = n /\ sn b = sn s - n /\
  span_ok a /\ span_ok b /\ od_span_valid a = true /\ od_span_valid b = true.
Proof.
  intros [H0 Hb] Hn. unfold od_span_split, od_span_has, od_span_valid, contents, span_ok, ptr_add.
  destruct (sp s) as [m|] eqn:Em; simpl.
  - destruct (Z.leb_spec n (sn s)); [|done]. intros [= <- <-]. simpl. rewrite contents_take_drop by lia.
    rewrite length_take, length_drop. repeat split; try done; try lia. do 2 f_equal. lia.
  - destruct (Z.eqb_spec (sn s) 0) as [Hz|]; [|done]. simpl. rewrite Hz.
    destruct (Z.leb_spec n 0); [|done]. intros [= <- <-]. simpl. repeat split; try done; try lia.
Qed.

Lemma split_refuses s n :
  span_ok s -> od_span_valid s = true -> od_span_split s n = None -> len (contents s) < n.
Proof.
  intros Hs Hv. rewrite len_contents by done. unfold od_span_split, od_span_has. rewrite Hv. simpl.
  destruct (Z.leb_spec n (sn s)); [done|]. lia.
Qed.

Lemma two_bytes s : span_ok s -> sn s = 2 -> len (contents s) = 2 ->
  exists i, contents s = [i; at_ s 1].
Proof.
  intros [H0 Hb] Hn Hl. unfold contents, at_ in *. destruct (sp s) as [[|x [|y l]]|]; rewrite ?Hn in *; simpl in *; try lia.
  by exists x.
Qed.

Lemma walk_loop_sound fuel a rest :
  span_ok rest -> od_span_valid rest = true -> sn rest < Z.of_nat fuel ->
  exists rc a' u ps tail ok,
    walk_loop fn fuel a rest = Some (rc, a', u) /\
    contents rest = concat (map encode ps) ++ tail /\
    List.Forall packet_ok ps /\ applies a ps a' ok /\ walk_end rc ok u tail.
Proof.
  revert a rest. induction fuel as [|fuel IH]; intros a rest Hok Hv Hf; [destruct Hok; lia|].
  cbn [walk_loop]. destruct (od_span_split rest 2) as [[hdr rest1]|] eqn:E1.
  2: { apply split_refuses in E1; try done. exists OD_CFG_TLV_OK, a, 0, [], (contents rest), true.
       do 2 (split; [done|]). split; [constructor|]. split; [constructor|by constructor]. }
  apply split_contents in E1 as (Hc & Hl & Hn & Hn1 & Hh & H1 & Hvh & Hv1); [|done|lia].
  destruct (two_bytes hdr Hh Hn Hl) as [i Hi]. rewrite Hi in Hc. cbv zeta.
  destruct (Z.eqb_spec (od_config_tlv_body_size (at_ hdr 1)) 0) as [Hz|Hz].
  { exists OD_CFG_TLV_OK, a, (at_ hdr 1), [], (contents rest), true.
    do 2 (split; [done|]). split; [constructor|]. split; [constructor|]. rewrite Hc. by constructor. }
  pose proof (body_size_range (at_ hdr 1)).
  destruct (od_span_split rest1 _) as [[body rest2]|] eqn:E2.
  2: { apply split_refuses in E2; try done.
       exists OD_CFG_TLV_TRUNCATED, a, 0, [], (contents rest), true.
       do 2 (split; [done|]). split; [constructor|]. split; [constructor|]. rewrite Hc. by constructor. }
  apply split_contents in E2 as (Hc2 & Hl2 & Hnb & Hn2 & Hbo & H2 & Hvb & Hv2); [|done|lia].
  set (p := (i, at_ hdr 1, body) : packet).
  assert (Hp : packet_ok p) by done.
  assert (Hen : contents rest = encode p ++ contents rest2) by (rewrite Hc, Hc2; done).
  destruct (fn a (at_ hdr 1) body) as [a1 ok1] eqn:Efn. destruct ok1; cbn [negb].
  - destruct (IH a1 rest2 H2 Hv2 ltac:(lia)) as (rc & a' & u & ps & tail & ok & -> & Ht & Hps & Hap & Hend).
    exists rc, a', u, (p :: ps), tail, ok. split; [done|]. split.
    { rewrite Hen, Ht. simpl. by rewrite <- app_assoc. }
    split; [by constructor|]. split; [by eapply applies_cons|done].
  - exists OD_CFG_TLV_REJECTED, a1, 0, [p], (contents rest2), false. split; [done|].
    split; [by rewrite Hen; simpl; rewrite app_nil_r|].
    split; [by constructor|]. split; [by apply applies_reject|constructor].
Qed.

(** The span the walk covers: the blob without its header and CRC. *)
Lemma middle_span blob :
  span_ok blob -> od_span_valid blob = true -> 5 <= sn blob ->
  let rest := od_span_drop blob OD_CFG_TLV_HEADER_LEN in
  let rest := od_span_take rest (sn rest - OD_CFG_TLV_CRC_LEN) in
  span_ok rest /\ od_span_valid rest = true /\
  contents rest = take (Z.to_nat (sn blob - 5)) (drop 3 (contents blob)).
Proof.
  intros [H0 Hb] Hv Hn. unfold od_span_drop, od_span_take, OD_CFG_TLV_HEADER_LEN, OD_CFG_TLV_CRC_LEN,
    span_ok, contents, ptr_add, od_span_valid in *.
  destruct (sp blob) as [m|]; simpl in *; [|lia].
  destruct (Z.ltb_spec 3 (sn blob)); [|lia]. simpl.
  destruct (Z.ltb_spec (sn blob - 3 - 2) (sn blob - 3)); [|lia]. simpl.
  rewrite length_drop. repeat split; try lia.
  change (Z.to_nat 3) with 3%nat. rewrite skipn_firstn_comm, take_take. f_equal. lia.
Qed.

Lemma walk_sound blob a :
  span_ok blob -> od_span_valid blob = true -> 5 <= sn blob ->
  exists rc a' u ps tail ok,
    od_config_tlv_walk blob (Some fn) a = Some (rc, a', Some (at_ blob 2), u) /\
    take (Z.to_nat (sn blob - 5)) (drop 3 (contents blob)) = concat (map encode ps) ++ tail /\
    List.Forall packet_ok ps /\ applies a ps a' ok /\ walk_end rc ok u tail.
Proof.
  intros Hok Hv Hn. unfold od_config_tlv_walk. rewrite Hv. cbn [negb].
  destruct (Z.ltb_spec (sn blob) (OD_CFG_TLV_HEADER_LEN + OD_CFG_TLV_CRC_LEN)) as [Hlt|_].
  { unfold OD_CFG_TLV_HEADER_LEN, OD_CFG_TLV_CRC_LEN in Hlt. lia. }
  destruct (middle_span blob Hok Hv Hn) as (Hr & Hvr & <-). cbv zeta in *.
  pose proof (proj1 Hr).
  edestruct walk_loop_sound as (rc & a' & u & ps & tail & ok & -> & Ht & Hps & Hap & Hend);
    [exact Hr|exact Hvr| |].
  2: { exists rc, a', u, ps, tail, ok. split; [reflexivity|]. repeat (split; [done|]). done. }
  lia.
Qed.

(** The walk is a total parser of the packet grammar: on every blob of at
    least five bytes, whatever its contents, it terminates and splits the bytes
    between header and CRC into well-formed packets, each with exactly the body
    its id declares, followed by a tail; the callback sees exactly those packets
    in order, every body in bounds; and the result says why it stopped: OK at
    the end or at an unknown id, TRUNCATED when a declared body does not fit,
    REJECTED when the callback refused.  Shorter blobs are refused untouched. *)
Theorem tlv_walk_sound (blob : od_span) (a : A) :
  span_ok blob -> od_span_valid blob = true ->
  (sn blob < 5 -> od_config_tlv_walk blob (Some fn) a = Some (OD_CFG_TLV_TOO_SHORT, a, None, 0)) /\
  (5 <= sn blob ->
   exists rc a' u ps tail ok,
     od_config_tlv_walk blob (Some fn) a = Some (rc, a', Some (at_ blob 2), u) /\
     take (Z.to_nat (sn blob - 5)) (drop 3 (contents blob)) = concat (map encode ps) ++ tail /\
     List.Forall packet_ok ps /\ applies a ps a' ok /\ walk_end rc ok u tail).
Proof.
  intros Hok Hv. split; intros Hn; [|by apply walk_sound].
  unfold od_config_tlv_walk. rewrite Hv. cbn [negb].
  by rewrite (proj2 (Z.ltb_lt (sn blob) _)) by done.
Qed.
End WalkTheorems.

(** One LED packet, then an id nobody knows; the callback counts packets. *)
Definition demo_led : bytes := replicate 22 3.
Definition demo_blob : od_span := of_bytes ([0; 0; 1] ++ (0 :: 0x21 :: demo_led) ++ [0; 0x99; 5] ++ [0; 0]).
Definition demo_count (n : Z) (id : Z) (body : od_span) : Z * bool := (n + sn body, true).

Lemma tlv_walk_sound_witness :
  od_config_tlv_walk demo_blob (Some demo_count) 0 = Some (OD_CFG_TLV_OK, 22, Some 1, 0x99) /\
  exists ps tail,
    (0 :: 0x21 :: demo_led) ++ [0; 0x99; 5] = concat (map encode ps) ++ tail /\
    List.Forall packet_ok ps /\ applies demo_count 0 ps 22 true /\ walk_end OD_CFG_TLV_OK true 0x99 tail.
Proof.
  assert (Hw : od_config_tlv_walk demo_blob (Some demo_count) 0 = Some (OD_CFG_TLV_OK, 22, Some 1, 0x99))
    by (vm_compute; reflexivity).
  split; [exact Hw|].
  destruct (tlv_walk_sound demo_count demo_blob 0 (of_bytes_ok _) (of_bytes_valid _)) as [_ Hs].
  destruct (Hs ltac:(vm_compute; congruence)) as (rc & a' & u & ps & tail & ok & He & Hc & Hp & Ha & Hend).
  rewrite Hw in He. injection He as <- <- <-. exists ps, tail.
  assert (ok = true) as -> by (inversion Hend; reflexivity).
  split; [exact Hc|]. split; [exact Hp|]. split; [exact Ha|exact Hend].
Defined.

End ConfigTlv.
