(* ===== verification/Config.v ===== *)
(** The parsed configuration, [shared/core/od_config.c]: one packet at a time into
    the aggregate, and the parse of a whole blob.

    The packet structs are packed, so a struct is the bytes [memcpy] puts in it;
    the fields the code itself reads or writes are read at their offsets.  An
    array with its count is a [table].  A build without a subsystem has no
    storage for its packets; [build] says which subsystems there are. *)

From S2P Require Import Prelude Span Proto ConfigTlv.
Import Span Proto ConfigTlv.

Module Config.

Definition OD_CONFIG_MAX_DISPLAYS : Z := 4.
Definition OD_CONFIG_MAX_LEDS : Z := 4.
Definition OD_CONFIG_MAX_SENSORS : Z := 4.
Definition OD_CONFIG_MAX_DATA_BUSES : Z := 4.
Definition OD_CONFIG_MAX_BINARY_INPUTS : Z := 4.
Definition OD_CONFIG_MAX_TOUCH : Z := 4.
Definition OD_CONFIG_MAX_BUZZERS : Z := 4.
Definition OD_CONFIG_MAX_NFC : Z := 2.
Definition OD_CONFIG_MAX_FLASH : Z := 2.

(** The [OD_CONFIG_WITH_*] macros. *)
Record build := {
  OD_CONFIG_WITH_TOUCH : bool; OD_CONFIG_WITH_BUZZER : bool; OD_CONFIG_WITH_NFC : bool;
  OD_CONFIG_WITH_WIFI : bool; OD_CONFIG_WITH_DATA_EXTENDED : bool;
}.

(** An array of structs and the count of those in use. *)
Record table := { elems : list bytes; count : Z }.

(** [struct od_config]. *)
Record od_config := {
  system_config : bytes;
  manufacturer_data : bytes;
  power_option : bytes;
  displays : table;
  leds : table;
  sensors : table;
  data_buses : table;
  binary_inputs : table;
  flash_configs : table;
  touch_controllers : table;
  passive_buzzers : table;
  nfc_configs : table;
  data_extended : bytes;
  data_extended_loaded : bool;
  wifi_config : bytes;
  wifi_config_loaded : bool;
  security : bytes;
  security_loaded : bool;
  version : Z;
  minor_version : Z;
  loaded : bool;
}.

Definition set_system_config (c : od_config) (v : bytes) : od_config :=
  {| system_config := v; manufacturer_data := manufacturer_data c; power_option :=
     power_option c; displays := displays c; leds := leds c; sensors := sensors c;
     data_buses := data_buses c; binary_inputs := binary_inputs c; flash_configs :=
     flash_configs c; touch_controllers := touch_controllers c; passive_buzzers :=
     passive_buzzers c; nfc_configs := nfc_configs c; data_extended := data_extended c;
     data_extended_loaded := data_extended_loaded c; wifi_config := wifi_config c;
     wifi_config_loaded := wifi_config_loaded c; security := security c; security_loaded :=
     security_loaded c; version := version c; minor_version := minor_version c; loaded :=
     loaded c |}.
Definition set_manufacturer_data (c : od_config) (v : bytes) : od_config :=
  {| system_config := system_config c; manufacturer_data := v; power_option := power_option
     c; displays := displays c; leds := leds c; sensors := sensors c; data_buses :=
     data_buses c; binary_inputs := binary_inputs c; flash_configs := flash_configs c;
     touch_controllers := touch_controllers c; passive_buzzers := passive_buzzers c;
     nfc_configs := nfc_configs c; data_extended := data_extended c; data_extended_loaded :=
     data_extended_loaded c; wifi_config := wifi_config c; wifi_config_loaded :=
     wifi_config_loaded c; security := security c; security_loaded := security_loaded c;
     version := version c; minor_version := minor_version c; loaded := loaded c |}.
Definition set_power_option (c : od_config) (v : bytes) : od_config :=
  {| system_config := system_config c; manufacturer_data := manufacturer_data c;
     power_option := v; displays := displays c; leds := leds c; sensors := sensors c;
     data_buses := data_buses c; binary_inputs := binary_inputs c; flash_configs :=
     flash_configs c; touch_controllers := touch_controllers c; passive_buzzers :=
     passive_buzzers c; nfc_configs := nfc_configs c; data_extended := data_extended c;
     data_extended_loaded := data_extended_loaded c; wifi_config := wifi_config c;
     wifi_config_loaded := wifi_config_loaded c; security := security c; security_loaded :=
     security_loaded c; version := version c; minor_version := minor_version c; loaded :=
     loaded c |}.
Definition set_displays (c : od_config) (v : table) : od_config :=
  {| system_config := system_config c; manufacturer_data := manufacturer_data c;
     power_option := power_option c; displays := v; leds := leds c; sensors := sensors c;
     data_buses := data_buses c; binary_inputs := binary_inputs c; flash_configs :=
     flash_configs c; touch_controllers := touch_controllers c; passive_buzzers :=
     passive_buzzers c; nfc_configs := nfc_configs c; data_extended := data_extended c;
     data_extended_loaded := data_extended_loaded c; wifi_config := wifi_config c;
     wifi_config_loaded := wifi_config_loaded c; security := security c; security_loaded :=
     security_loaded c; version := version c; minor_version := minor_version c; loaded :=
     loaded c |}.
Definition set_leds (c : od_config) (v : table) : od_config :=
  {| system_config := system_config c; manufacturer_data := manufacturer_data c;
     power_option := power_option c; displays := displays c; leds := v; sensors := sensors
     c; data_buses := data_buses c; binary_inputs := binary_inputs c; flash_configs :=
     flash_configs c; touch_controllers := touch_controllers c; passive_buzzers :=
     passive_buzzers c; nfc_configs := nfc_configs c; data_extended := data_extended c;
     data_extended_loaded := data_extended_loaded c; wifi_config := wifi_config c;
     wifi_config_loaded := wifi_config_loaded c; security := security c; security_loaded :=
     security_loaded c; version := version c; minor_version := minor_version c; loaded :=
     loaded c |}.
Definition set_sensors (c : od_config) (v : table) : od_config :=
  {| system_config := system_config c; manufacturer_data := manufacturer_data c;
     power_option := power_option c; displays := displays c; leds := leds c; sensors := v;
     data_buses := data_buses c; binary_inputs := binary_inputs c; flash_configs :=
     flash_configs c; touch_controllers := touch_controllers c; passive_buzzers :=
     passive_buzzers c; nfc_configs := nfc_configs c; data_extended := data_extended c;
     data_extended_loaded := data_extended_loaded c; wifi_config := wifi_config c;
     wifi_config_loaded := wifi_config_loaded c; security := security c; security_loaded :=
     security_loaded c; version := version c; minor_version := minor_version c; loaded :=
     loaded c |}.
Definition set_data_buses (c : od_config) (v : table) : od_config :=
  {| system_config := system_config c; manufacturer_data := manufacturer_data c;
     power_option := power_option c; displays := displays c; leds := leds c; sensors :=
     sensors c; data_buses := v; binary_inputs := binary_inputs c; flash_configs :=
     flash_configs c; touch_controllers := touch_controllers c; passive_buzzers :=
     passive_buzzers c; nfc_configs := nfc_configs c; data_extended := data_extended c;
     data_extended_loaded := data_extended_loaded c; wifi_config := wifi_config c;
     wifi_config_loaded := wifi_config_loaded c; security := security c; security_loaded :=
     security_loaded c; version := version c; minor_version := minor_version c; loaded :=
     loaded c |}.
Definition set_binary_inputs (c : od_config) (v : table) : od_config :=
  {| system_config := system_config c; manufacturer_data := manufacturer_data c;
     power_option := power_option c; displays := displays c; leds := leds c; sensors :=
     sensors c; data_buses := data_buses c; binary_inputs := v; flash_configs :=
     flash_configs c; touch_controllers := touch_controllers c; passive_buzzers :=
     passive_buzzers c; nfc_configs := nfc_configs c; data_extended := data_extended c;
     data_extended_loaded := data_extended_loaded c; wifi_config := wifi_config c;
     wifi_config_loaded := wifi_config_loaded c; security := security c; security_loaded :=
     security_loaded c; version := version c; minor_version := minor_version c; loaded :=
     loaded c |}.
Definition set_flash_configs (c : od_config) (v : table) : od_config :=
  {| system_config := system_config c; manufacturer_data := manufacturer_data c;
     power_option := power_option c; displays := displays c; leds := leds c; sensors :=
     sensors c; data_buses := data_buses c; binary_inputs := binary_inputs c; flash_configs
     := v; touch_controllers := touch_controllers c; passive_buzzers := passive_buzzers c;
     nfc_configs := nfc_configs c; data_extended := data_extended c; data_extended_loaded :=
     data_extended_loaded c; wifi_config := wifi_config c; wifi_config_loaded :=
     wifi_config_loaded c; security := security c; security_loaded := security_loaded c;
     version := version c; minor_version := minor_version c; loaded := loaded c |}.
Definition set_touch_controllers (c : od_config) (v : table) : od_config :=
  {| system_config := system_config c; manufacturer_data := manufacturer_data c;
     power_option := power_option c; displays := displays c; leds := leds c; sensors :=
     sensors c; data_buses := data_buses c; binary_inputs := binary_inputs c; flash_configs
     := flash_configs c; touch_controllers := v; passive_buzzers := passive_buzzers c;
     nfc_configs := nfc_configs c; data_extended := data_extended c; data_extended_loaded :=
     data_extended_loaded c; wifi_config := wifi_config c; wifi_config_loaded :=
     wifi_config_loaded c; security := security c; security_loaded := security_loaded c;
     version := version c; minor_version := minor_version c; loaded := loaded c |}.
Definition set_passive_buzzers (c : od_config) (v : table) : od_config :=
  {| system_config := system_config c; manufacturer_data := manufacturer_data c;
     power_option := power_option c; displays := displays c; leds := leds c; sensors :=
     sensors c; data_buses := data_buses c; binary_inputs := binary_inputs c; flash_configs
     := flash_configs c; touch_controllers := touch_controllers c; passive_buzzers := v;
     nfc_configs := nfc_configs c; data_extended := data_extended c; data_extended_loaded :=
     data_extended_loaded c; wifi_config := wifi_config c; wifi_config_loaded :=
     wifi_config_loaded c; security := security c; security_loaded := security_loaded c;
     version := version c; minor_version := minor_version c; loaded := loaded c |}.
Definition set_nfc_configs (c : od_config) (v : table) : od_config :=
  {| system_config := system_config c; manufacturer_data := manufacturer_data c;
     power_option := power_option c; displays := displays c; leds := leds c; sensors :=
     sensors c; data_buses := data_buses c; binary_inputs := binary_inputs c; flash_configs
     := flash_configs c; touch_controllers := touch_controllers c; passive_buzzers :=
     passive_buzzers c; nfc_configs := v; data_extended := data_extended c;
     data_extended_loaded := data_extended_loaded c; wifi_config := wifi_config c;
     wifi_config_loaded := wifi_config_loaded c; security := security c; security_loaded :=
     security_loaded c; version := version c; minor_version := minor_version c; loaded :=
     loaded c |}.
Definition set_data_extended (c : od_config) (v : bytes) : od_config :=
  {| system_config := system_config c; manufacturer_data := manufacturer_data c;
     power_option := power_option c; displays := displays c; leds := leds c; sensors :=
     sensors c; data_buses := data_buses c; binary_inputs := binary_inputs c; flash_configs
     := flash_configs c; touch_controllers := touch_controllers c; passive_buzzers :=
     passive_buzzers c; nfc_configs := nfc_configs c; data_extended := v;
     data_extended_loaded := data_extended_loaded c; wifi_config := wifi_config c;
     wifi_config_loaded := wifi_config_loaded c; security := security c; security_loaded :=
     security_loaded c; version := version c; minor_version := minor_version c; loaded :=
     loaded c |}.
Definition set_data_extended_loaded (c : od_config) (v : bool) : od_config :=
  {| system_config := system_config c; manufacturer_data := manufacturer_data c;
     power_option := power_option c; displays := displays c; leds := leds c; sensors :=
     sensors c; data_buses := data_buses c; binary_inputs := binary_inputs c; flash_configs
     := flash_configs c; touch_controllers := touch_controllers c; passive_buzzers :=
     passive_buzzers c; nfc_configs := nfc_configs c; data_extended := data_extended c;
     data_extended_loaded := v; wifi_config := wifi_config c; wifi_config_loaded :=
     wifi_config_loaded c; security := security c; security_loaded := security_loaded c;
     version := version c; minor_version := minor_version c; loaded := loaded c |}.
Definition set_wifi_config (c : od_config) (v : bytes) : od_config :=
  {| system_config := system_config c; manufacturer_data := manufacturer_data c;
     power_option := power_option c; displays := displays c; leds := leds c; sensors :=
     sensors c; data_buses := data_buses c; binary_inputs := binary_inputs c; flash_configs
     := flash_configs c; touch_controllers := touch_controllers c; passive_buzzers :=
     passive_buzzers c; nfc_configs := nfc_configs c; data_extended := data_extended c;
     data_extended_loaded := data_extended_loaded c; wifi_config := v; wifi_config_loaded :=
     wifi_config_loaded c; security := security c; security_loaded := security_loaded c;
     version := version c; minor_version := minor_version c; loaded := loaded c |}.
Definition set_wifi_config_loaded (c : od_config) (v : bool) : od_config :=
  {| system_config := system_config c; manufacturer_data := manufacturer_data c;
     power_option := power_option c; displays := displays c; leds := leds c; sensors :=
     sensors c; data_buses := data_buses c; binary_inputs := binary_inputs c; flash_configs
     := flash_configs c; touch_controllers := touch_controllers c; passive_buzzers :=
     passive_buzzers c; nfc_configs := nfc_configs c; data_extended := data_extended c;
     data_extended_loaded := data_extended_loaded c; wifi_config := wifi_config c;
     wifi_config_loaded := v; security := security c; security_loaded := security_loaded c;
     version := version c; minor_version := minor_version c; loaded := loaded c |}.
Definition set_security (c : od_config) (v : bytes) : od_config :=
  {| system_config := system_config c; manufacturer_data := manufacturer_data c;
     power_option := power_option c; displays := displays c; leds := leds c; sensors :=
     sensors c; data_buses := data_buses c; binary_inputs := binary_inputs c; flash_configs
     := flash_configs c; touch_controllers := touch_controllers c; passive_buzzers :=
     passive_buzzers c; nfc_configs := nfc_configs c; data_extended := data_extended c;
     data_extended_loaded := data_extended_loaded c; wifi_config := wifi_config c;
     wifi_config_loaded := wifi_config_loaded c; security := v; security_loaded :=
     security_loaded c; version := version c; minor_version := minor_version c; loaded :=
     loaded c |}.
Definition set_security_loaded (c : od_config) (v : bool) : od_config :=
  {| system_config := system_config c; manufacturer_data := manufacturer_data c;
     power_option := power_option c; displays := displays c; leds := leds c; sensors :=
     sensors c; data_buses := data_buses c; binary_inputs := binary_inputs c; flash_configs
     := flash_configs c; touch_controllers := touch_controllers c; passive_buzzers :=
     passive_buzzers c; nfc_configs := nfc_configs c; data_extended := data_extended c;
     data_extended_loaded := data_extended_loaded c; wifi_config := wifi_config c;
     wifi_config_loaded := wifi_config_loaded c; security := security c; security_loaded :=
     v; version := version c; minor_version := minor_version c; loaded := loaded c |}.
Definition set_version (c : od_config) (v : Z) : od_config :=
  {| system_config := system_config c; manufacturer_data := manufacturer_data c;
     power_option := power_option c; displays := displays c; leds := leds c; sensors :=
     sensors c; data_buses := data_buses c; binary_inputs := binary_inputs c; flash_configs
     := flash_configs c; touch_controllers := touch_controllers c; passive_buzzers :=
     passive_buzzers c; nfc_configs := nfc_configs c; data_extended := data_extended c;
     data_extended_loaded := data_extended_loaded c; wifi_config := wifi_config c;
     wifi_config_loaded := wifi_config_loaded c; security := security c; security_loaded :=
     security_loaded c; version := v; minor_version := minor_version c; loaded := loaded c |}.
Definition set_minor_version (c : od_config) (v : Z) : od_config :=
  {| system_config := system_config c; manufacturer_data := manufacturer_data c;
     power_option := power_option c; displays := displays c; leds := leds c; sensors :=
     sensors c; data_buses := data_buses c; binary_inputs := binary_inputs c; flash_configs
     := flash_configs c; touch_controllers := touch_controllers c; passive_buzzers :=
     passive_buzzers c; nfc_configs := nfc_configs c; data_extended := data_extended c;
     data_extended_loaded := data_extended_loaded c; wifi_config := wifi_config c;
     wifi_config_loaded := wifi_config_loaded c; security := security c; security_loaded :=
     security_loaded c; version := version c; minor_version := v; loaded := loaded c |}.
Definition set_loaded (c : od_config) (v : bool) : od_config :=
  {| system_config := system_config c; manufacturer_data := manufacturer_data c;
     power_option := power_option c; displays := displays c; leds := leds c; sensors :=
     sensors c; data_buses := data_buses c; binary_inputs := binary_inputs c; flash_configs
     := flash_configs c; touch_controllers := touch_controllers c; passive_buzzers :=
     passive_buzzers c; nfc_configs := nfc_configs c; data_extended := data_extended c;
     data_extended_loaded := data_extended_loaded c; wifi_config := wifi_config c;
     wifi_config_loaded := wifi_config_loaded c; security := security c; security_loaded :=
     security_loaded c; version := version c; minor_version := minor_version c; loaded := v |}.

Definition zeros (n : Z) : bytes := replicate (Z.to_nat n) 0.
Definition zero_table (max size : Z) : table :=
  {| elems := replicate (Z.to_nat max) (zeros size); count := 0 |}.

(** [od_config_reset]: [memset] to zero. *)
Definition od_config_reset : od_config :=
  {| system_config := zeros 22; manufacturer_data := zeros 22; power_option := zeros 30;
     displays := zero_table OD_CONFIG_MAX_DISPLAYS 46; leds := zero_table OD_CONFIG_MAX_LEDS 22;
     sensors := zero_table OD_CONFIG_MAX_SENSORS 30;
     data_buses := zero_table OD_CONFIG_MAX_DATA_BUSES 30;
     binary_inputs := zero_table OD_CONFIG_MAX_BINARY_INPUTS 30;
     flash_configs := zero_table OD_CONFIG_MAX_FLASH 32;
     touch_controllers := zero_table OD_CONFIG_MAX_TOUCH 32;
     passive_buzzers := zero_table OD_CONFIG_MAX_BUZZERS 32;
     nfc_configs := zero_table OD_CONFIG_MAX_NFC 32;
     data_extended := zeros 288; data_extended_loaded := false;
     wifi_config := zeros 160; wifi_config_loaded := false;
     security := zeros 64; security_loaded := false; version := 0; minor_version := 0; loaded := false |}.

(** [enum od_config_apply]. *)
Inductive od_config_apply :=
| OD_CONFIG_APPLY_STORED | OD_CONFIG_APPLY_FULL | OD_CONFIG_APPLY_NOT_BUILT
| OD_CONFIG_APPLY_UNKNOWN_ID | OD_CONFIG_APPLY_SHORT_BODY.

#[export] Instance od_config_apply_eq_dec : EqDecision od_config_apply.
Proof. solve_decision. Defined.

(** [struct od_config_report]. *)
Record od_config_report := {
  stored : Z; dropped_full : Z; dropped_not_built : Z; unknown_id : Z;
  crc_checked : bool; crc_stored : Z; crc_computed : Z;
}.

(** [struct od_config_slot]: the array and count are the table, passed beside it. *)
Record od_config_slot := { elem_size : Z; max : Z }.

(** [memcpy] of a whole struct from the start of the body. *)
Definition store_repeatable (slot : od_config_slot) (t : table) (body : od_span)
  : od_config_apply * table :=
  if negb (od_span_has body (elem_size slot)) then (OD_CONFIG_APPLY_SHORT_BODY, t)
  else if max slot <=? count t then (OD_CONFIG_APPLY_FULL, t)
  else (OD_CONFIG_APPLY_STORED,
        {| elems := (elems t).[count t := contents (od_span_take body (elem_size slot))];
           count := u8 (count t + 1) |}).

(** [store_single]: [None] leaves the destination as it was. *)
Definition store_single (dst_size : Z) (body : od_span) : od_config_apply * option bytes :=
  if negb (od_span_has body dst_size) then (OD_CONFIG_APPLY_SHORT_BODY, None)
  else (OD_CONFIG_APPLY_STORED, Some (contents (od_span_take body dst_size))).

(** [data_extended_terminate]: byte 31 of each of the nine 32-byte strings. *)
Definition data_extended_terminate (de : bytes) : bytes :=
  foldl (fun de k => de.[32 * k + 31 := 0]) de [0; 1; 2; 3; 4; 5; 6; 7; 8].

(** [struct SecurityConfig] at its offsets. *)
Definition security_fields (b : bytes) : SecurityConfig :=
  {| encryption_enabled := b.[0]; encryption_key := take 16 (drop 1 b);
     session_timeout_seconds := Z.lor b.[17] (Z.shiftl b.[18] 8);
     sec_flags := b.[19]; sec_reset_pin := b.[20] |}.

Section Apply.
Variable B : build.

(** One case of the switch: store into a table, and put the table back. *)
Definition apply_rep (slot : od_config_slot) (t : table) (put : table -> od_config) (body : od_span)
  : od_config_apply * od_config :=
  let '(r, t) := store_repeatable slot t body in (r, put t).

Definition apply_single (c : od_config) (size : Z) (put : bytes -> od_config) (body : od_span)
  : od_config_apply * od_config :=
  match store_single size body with
  | (r, Some b) => (r, put b)
  | (r, None) => (r, c)
  end.

Definition if_built (flag : bool) (c : od_config) (r : od_config_apply * od_config)
  : od_config_apply * od_config := if flag then r else (OD_CONFIG_APPLY_NOT_BUILT, c).

(** The security case: an all-zero key turns encryption off. *)
Definition put_security (c : od_config) (b : bytes) : od_config :=
  let b := if negb (od_config_security_key_set (Some (security_fields b))) then b.[0 := 0] else b in
  set_security_loaded (set_security c b) true.

(** [od_config_apply_packet]; [None] is a null [cfg]. *)
Definition apply_packet (c : od_config) (packet_id : Z) (body : od_span) : od_config_apply * od_config :=
  if packet_id =? 0x01 then apply_single c 22 (set_system_config c) body
  else if packet_id =? 0x02 then apply_single c 22 (set_manufacturer_data c) body
  else if packet_id =? 0x04 then apply_single c 30 (set_power_option c) body
  else if packet_id =? 0x20 then
    apply_rep {| elem_size := 46; max := OD_CONFIG_MAX_DISPLAYS |} (displays c) (set_displays c) body
  else if packet_id =? 0x21 then
    apply_rep {| elem_size := 22; max := OD_CONFIG_MAX_LEDS |} (leds c) (set_leds c) body
  else if packet_id =? 0x23 then
    apply_rep {| elem_size := 30; max := OD_CONFIG_MAX_SENSORS |} (sensors c) (set_sensors c) body
  else if packet_id =? 0x24 then
    apply_rep {| elem_size := 30; max := OD_CONFIG_MAX_DATA_BUSES |} (data_buses c) (set_data_buses c) body
  else if packet_id =? 0x25 then
    apply_rep {| elem_size := 30; max := OD_CONFIG_MAX_BINARY_INPUTS |}
      (binary_inputs c) (set_binary_inputs c) body
  else if packet_id =? 0x2B then
    apply_rep {| elem_size := 32; max := OD_CONFIG_MAX_FLASH |} (flash_configs c) (set_flash_configs c) body
  else if packet_id =? 0x28 then if_built (OD_CONFIG_WITH_TOUCH B) c
    (apply_rep {| elem_size := 32; max := OD_CONFIG_MAX_TOUCH |}
      (touch_controllers c) (set_touch_controllers c) body)
  else if packet_id =? 0x29 then if_built (OD_CONFIG_WITH_BUZZER B) c
    (apply_rep {| elem_size := 32; max := OD_CONFIG_MAX_BUZZERS |}
      (passive_buzzers c) (set_passive_buzzers c) body)
  else if packet_id =? 0x2A then if_built (OD_CONFIG_WITH_NFC B) c
    (apply_rep {| elem_size := 32; max := OD_CONFIG_MAX_NFC |} (nfc_configs c) (set_nfc_configs c) body)
  else if packet_id =? 0x2C then if_built (OD_CONFIG_WITH_DATA_EXTENDED B) c
    (apply_single c 288
       (fun b => set_data_extended_loaded (set_data_extended c (data_extended_terminate b)) true) body)
  else if packet_id =? 0x26 then if_built (OD_CONFIG_WITH_WIFI B) c
    (apply_single c 160 (fun b => set_wifi_config_loaded (set_wifi_config c b) true) body)
  else if packet_id =? 0x27 then apply_single c 64 (put_security c) body
  else (OD_CONFIG_APPLY_UNKNOWN_ID, c).

Definition od_config_apply_packet (c : option od_config) (packet_id : Z) (body : od_span)
  : od_config_apply * option od_config :=
  match c with
  | None => (OD_CONFIG_APPLY_SHORT_BODY, None)
  | Some c' =>
      if negb (od_span_valid body) then (OD_CONFIG_APPLY_SHORT_BODY, c)
      else let '(r, c') := apply_packet c' packet_id body in (r, Some c')
  end.

Definition zero_report : od_config_report :=
  {| stored := 0; dropped_full := 0; dropped_not_built := 0; unknown_id := 0;
     crc_checked := false; crc_stored := 0; crc_computed := 0 |}.

Definition count_outcome (r : od_config_apply) (p : od_config_report) : od_config_report :=
  match r with
  | OD_CONFIG_APPLY_STORED =>
      {| stored := u16 (stored p + 1); dropped_full := dropped_full p;
         dropped_not_built := dropped_not_built p; unknown_id := unknown_id p;
         crc_checked := crc_checked p; crc_stored := crc_stored p; crc_computed := crc_computed p |}
  | OD_CONFIG_APPLY_FULL =>
      {| stored := stored p; dropped_full := u16 (dropped_full p + 1);
         dropped_not_built := dropped_not_built p; unknown_id := unknown_id p;
         crc_checked := crc_checked p; crc_stored := crc_stored p; crc_computed := crc_computed p |}
  | OD_CONFIG_APPLY_NOT_BUILT =>
      {| stored := stored p; dropped_full := dropped_full p;
         dropped_not_built := u16 (dropped_not_built p + 1); unknown_id := unknown_id p;
         crc_checked := crc_checked p; crc_stored := crc_stored p; crc_computed := crc_computed p |}
  | _ => p
  end.

(** [on_packet] over the parse context; a body from the walk is always valid. *)
Definition on_packet (ctx : od_config * od_config_report) (packet_id : Z) (body : od_span)
  : od_config * od_config_report * bool :=
  let '(r, c) := od_config_apply_packet (Some ctx.1) packet_id body in
  (match c with Some c => c | None => ctx.1 end, count_outcome r ctx.2, true).

Definition set_unknown_id (p : od_config_report) (id : Z) : od_config_report :=
  {| stored := stored p; dropped_full := dropped_full p; dropped_not_built := dropped_not_built p;
     unknown_id := id; crc_checked := crc_checked p; crc_stored := crc_stored p;
     crc_computed := crc_computed p |}.

Definition set_crc (p : od_config_report) (st co : Z) : od_config_report :=
  {| stored := stored p; dropped_full := dropped_full p; dropped_not_built := dropped_not_built p;
     unknown_id := unknown_id p; crc_checked := true; crc_stored := st; crc_computed := co |}.

(** The CRC the blob carries in its last two bytes, little endian. *)
Definition blob_crc (blob : od_span) : Z :=
  u16 (Z.lor (at_ blob (sn blob - 2)) (Z.shiftl (at_ blob (sn blob - 1)) 8)).

(** [od_config_parse] for a non-null [cfg] ([None] leaves nothing to fill in);
    the log lines and the debug dump are left out. *)
Definition od_config_parse (c : option od_config) (blob : od_span)
  : option (od_config_tlv_result * option od_config * od_config_report) :=
  match c with
  | None => Some (OD_CFG_TLV_TOO_SHORT, None, zero_report)
  | Some _ =>
      let c := od_config_reset in
      if negb (od_span_valid blob) then Some (OD_CFG_TLV_TOO_SHORT, Some c, zero_report)
      else
        '(walk, ctx, ver, unknown) ← od_config_tlv_walk blob (Some on_packet) (c, zero_report);
        let '(c, rep) := ctx in
        let c := set_minor_version (set_version c (match ver with Some v => v | None => 0 end)) 0 in
        let rep := set_unknown_id rep unknown in
        match walk with
        | OD_CFG_TLV_OK =>
            let rep := if OD_CFG_TLV_CRC_LEN <=? sn blob then
                         set_crc rep (blob_crc blob)
                           (od_config_tlv_crc16 (od_span_take blob (sn blob - OD_CFG_TLV_CRC_LEN)))
                       else rep in
            Some (OD_CFG_TLV_OK, Some (set_loaded c true), rep)
        | _ => Some (walk, Some c, rep)
        end
  end.
End Apply.

(** [od_config_data_bus]: the loop over the buses in use. *)
Fixpoint find_bus (n : nat) (t : table) (i instance : Z) (found : option Z) : option Z :=
  match n with
  | O => found
  | S n =>
      if (i <? count t) && (i <? u8 OD_CONFIG_MAX_DATA_BUSES) then
        if negb ((elems t).[i].[0] =? instance) then find_bus n t (i + 1) instance found
        else match found with
             | Some _ => None
             | None => find_bus n t (i + 1) instance (Some i)
             end
      else found
  end.

(** The index of the bus, [None] for a null result; five rounds cover the table. *)
Definition od_config_data_bus (c : option od_config) (instance : Z) : option Z :=
  match c with
  | None => None
  | Some c => find_bus 5 (data_buses c) 0 instance None
  end.

(** ** What the aggregate holds *)

Section Theorems.
Variable B : build.

(** The table a packet id is collected in, with its slot. *)
Definition rep_table (c : od_config) (id : Z) : option (od_config_slot * table) :=
  if id =? 0x20 then Some ({| elem_size := 46; max := OD_CONFIG_MAX_DISPLAYS |}, displays c)
  else if id =? 0x21 then Some ({| elem_size := 22; max := OD_CONFIG_MAX_LEDS |}, leds c)
  else if id =? 0x23 then Some ({| elem_size := 30; max := OD_CONFIG_MAX_SENSORS |}, sensors c)
  else if id =? 0x24 then Some ({| elem_size := 30; max := OD_CONFIG_MAX_DATA_BUSES |}, data_buses c)
  else if id =? 0x25 then Some ({| elem_size := 30; max := OD_CONFIG_MAX_BINARY_INPUTS |}, binary_inputs c)
  else if id =? 0x2B then Some ({| elem_size := 32; max := OD_CONFIG_MAX_FLASH |}, flash_configs c)
  else if (id =? 0x28) && OD_CONFIG_WITH_TOUCH B then
    Some ({| elem_size := 32; max := OD_CONFIG_MAX_TOUCH |}, touch_controllers c)
  else if (id =? 0x29) && OD_CONFIG_WITH_BUZZER B then
    Some ({| elem_size := 32; max := OD_CONFIG_MAX_BUZZERS |}, passive_buzzers c)
  else if (id =? 0x2A) && OD_CONFIG_WITH_NFC B then
    Some ({| elem_size := 32; max := OD_CONFIG_MAX_NFC |}, nfc_configs c)
  else None.

Lemma rep_table_range c id slot t :
  rep_table c id = Some (slot, t) -> 1 <= max slot <= 4 /\ elem_size slot = od_config_tlv_body_size id.
Proof.
  unfold rep_table. intros Ht.
  repeat (case_match; try discriminate); simplify_eq;
    rewrite ?andb_true_iff, ?Z.eqb_eq in *; destruct_and?; subst; split;
    solve [reflexivity|vm_compute; split; congruence].
Qed.

(** A packet changes only its own table. *)
Lemma apply_packet_table c id id' body slot t :
  rep_table c id = Some (slot, t) ->
  rep_table (apply_packet B c id' body).2 id
  = Some (slot, if id' =? id then (store_repeatable slot t body).2 else t).
Proof.
  intros Ht. unfold rep_table in Ht.
  repeat (match type of Ht with context [if ?b then _ else _] => destruct b eqn:? end;
          try discriminate); injection Ht as <- <-;
    rewrite ?andb_true_iff, ?Z.eqb_eq in *; destruct_and?; subst.
  all: unfold apply_packet, if_built, apply_single, apply_rep, store_single, rep_table.
  all: repeat (match goal with
       | |- context [if ?i =? ?k then _ else _] => is_var i; destruct (Z.eqb_spec i k) as [->|]
       end); cbn [Z.eqb Pos.eqb andb].
  all: repeat (match goal with
       | Hf : ?f B = true |- _ => rewrite ?Hf; clear Hf
       | |- context [if ?f B then _ else _] => destruct (f B)
       | |- context [store_repeatable ?a ?b ?c] => destruct (store_repeatable a b c)
       | |- context [if negb ?b then _ else _] => destruct b; cbn [negb]
       end); try reflexivity; try congruence.
Qed.
(** The bodies a table should hold. *)
Definition bodies (id : Z) (ps : list packet) : list bytes :=
  map (fun p => contents p.2) (List.filter (fun p => p.1.2 =? id) ps).

(** A table holds the first [max] bodies offered to it. *)
Definition holds_first (slot : od_config_slot) (t : table) (bs : list bytes) : Prop :=
  len (elems t) = max slot /\ count t = Z.min (max slot) (len bs) /\
  take (Z.to_nat (count t)) (elems t) = take (Z.to_nat (max slot)) bs.

Lemma store_holds slot t bs body :
  1 <= max slot <= 4 -> holds_first slot t bs ->
  span_ok body -> od_span_valid body = true -> sn body = elem_size slot ->
  holds_first slot (store_repeatable slot t body).2 (bs ++ [contents body]).
Proof.
  intros Hm (Hl & Hc & Ht) Hok Hv Hn. unfold store_repeatable, od_span_has. rewrite Hv, Hn, Z.leb_refl.
  cbn [negb andb]. destruct (Z.leb_spec (max slot) (count t)) as [Hle|Hlt]; unfold holds_first; cbn [snd].
  - rewrite length_app. cbn [length]. split; [done|]. split; [lia|]. rewrite Ht, take_app_le by lia. done.
  - assert (Hb : count t = len bs) by lia. cbn [elems count]. rewrite wrap_id by (unfold fits; lia).
    rewrite length_app. cbn [length]. split; [by rewrite len_set|]. split; [lia|].
    replace (contents (od_span_take body (elem_size slot))) with (contents body).
    2: { unfold od_span_take. rewrite Hv, <- Hn, Z.ltb_irrefl. cbn [negb]. by destruct body. }
    rewrite Hb, Nat2Z.id, (take_ge bs) in Ht by lia. rewrite Hb. unfold set. rewrite Nat2Z.id.
    rewrite (take_ge (_ ++ _)) by (rewrite length_app; simpl; lia).
    replace (Z.to_nat (len bs + 1)) with (S (length bs)) by lia.
    erewrite take_S_r by (apply list_lookup_insert_eq; lia).
    rewrite take_insert_ge by lia. by rewrite Ht.
Qed.

(** The parse as a fold over packets. *)
Definition apply_all (c : od_config) (ps : list packet) : od_config :=
  foldl (fun c p => (apply_packet B c p.1.2 p.2).2) c ps.

Lemma tables_hold ps id slot t c bs :
  List.Forall packet_ok ps -> rep_table c id = Some (slot, t) -> holds_first slot t bs ->
  exists t', rep_table (apply_all c ps) id = Some (slot, t') /\ holds_first slot t' (bs ++ bodies id ps).
Proof.
  revert c t bs. induction ps as [|p ps IH]; intros c t bs Hps Ht Hh.
  { exists t. unfold bodies. simpl. by rewrite app_nil_r. }
  inversion Hps as [|? ? (Hid & Hn & Hok & Hv) Hps']; subst.
  destruct (rep_table_range c id slot t Ht) as [Hm Hsz].
  pose proof (apply_packet_table c id p.1.2 p.2 slot t Ht) as Ha. simpl.
  destruct (Z.eqb_spec p.1.2 id) as [He|He].
  - destruct (IH _ _ (bs ++ [contents p.2]) Hps' Ha) as (t' & Hr & Hh').
    { apply store_holds; try done. by rewrite Hn, He, Hsz. }
    exists t'. split; [done|]. unfold bodies. simpl. rewrite (proj2 (Z.eqb_eq _ _) He). simpl.
    by rewrite <- app_assoc in Hh'.
  - destruct (IH _ _ bs Hps' Ha Hh) as (t' & Hr & Hh'). exists t'. split; [done|].
    unfold bodies. simpl. by rewrite (proj2 (Z.eqb_neq _ _) He).
Qed.

Lemma reset_table id slot t : rep_table od_config_reset id = Some (slot, t) -> holds_first slot t [].
Proof.
  unfold rep_table. intros Ht.
  repeat (match type of Ht with context [if ?b then _ else _] => destruct b end;
          try discriminate); injection Ht as <- <-; split; try done; vm_compute; split; reflexivity.
Qed.

(** ** The singletons *)

(** Encryption is never enabled under an all-zero key, and every string of the
    identity packet ends in a zero byte. *)
Definition singles_ok (c : od_config) : Prop :=
  len (security c) = 64 /\ len (data_extended c) = 288 /\
  (od_config_security_key_set (Some (security_fields (security c))) = false ->
   encryption_enabled (security_fields (security c)) = 0) /\
  Forall (fun k => (data_extended c).[32 * k + 31] = 0) [0; 1; 2; 3; 4; 5; 6; 7; 8].

Lemma terminated de : len de = 288 ->
  len (data_extended_terminate de) = 288 /\
  Forall (fun k => (data_extended_terminate de).[32 * k + 31] = 0) [0; 1; 2; 3; 4; 5; 6; 7; 8].
Proof.
  intros Hl. unfold data_extended_terminate. cbn [foldl].
  split; [by rewrite !len_set|].
  repeat constructor; repeat first [rewrite get_set_eq by (rewrite ?len_set; lia) | rewrite get_set_ne by lia];
    reflexivity.
Qed.

Lemma put_security_ok c b : singles_ok c -> len b = 64 -> singles_ok (put_security c b).
Proof.
  intros (_ & Hd & _ & Ht) Hl. unfold put_security, singles_ok. cbn [security data_extended set_security_loaded set_security].
  destruct (od_config_security_key_set (Some (security_fields b))) eqn:Ek; cbn [negb].
  - repeat split; try done. congruence.
  - rewrite len_set. repeat split; try done. intros _. unfold security_fields. cbn [encryption_enabled].
    by rewrite get_set_eq by lia.
Qed.

Lemma take_body_len body n :
  span_ok body -> od_span_has body n = true -> 0 <= n -> len (contents (od_span_take body n)) = n.
Proof.
  intros [H0 Hb] Hh Hn. unfold od_span_has in Hh. apply andb_true_iff in Hh as [Hv Hle].
  apply Z.leb_le in Hle. unfold od_span_take. rewrite Hv. cbn [negb]. unfold contents. simpl.
  unfold od_span_valid in Hv. destruct (sp body) as [m|]; simpl in *.
  - destruct (Z.ltb_spec n (sn body)); rewrite length_take; lia.
  - apply Z.eqb_eq in Hv. lia.
Qed.

Lemma apply_packet_singles c id body :
  span_ok body -> singles_ok c -> singles_ok (apply_packet B c id body).2.
Proof.
  intros Hok Hs. unfold apply_packet, if_built, apply_single, apply_rep, store_single.
  assert (Hde : od_span_has body 288 = true ->
    singles_ok (set_data_extended_loaded
      (set_data_extended c (data_extended_terminate (contents (od_span_take body 288)))) true)).
  { intros Hh. destruct Hs as (Hl & _ & Hk & _).
    destruct (terminated _ (take_body_len body 288 Hok Hh ltac:(lia))) as [? ?].
    repeat split; done. }
  repeat (match goal with |- context [if ?i =? ?k then _ else _] => destruct (i =? k) end).
  all: repeat (match goal with
       | |- context [if ?f B then _ else _] => destruct (f B)
       | |- context [store_repeatable ?a ?b ?c] => destruct (store_repeatable a b c)
       | |- context [if negb ?b then _ else _] => destruct b eqn:?; cbn [negb]
       end); cbn [snd]; try exact Hs; try (by apply Hde).
  apply put_security_ok; [done|]. by apply take_body_len.
Qed.

Lemma apply_all_singles ps c :
  List.Forall packet_ok ps -> singles_ok c -> singles_ok (apply_all c ps).
Proof.
  revert c. induction ps as [|p ps IH]; intros c Hps Hs; [done|].
  inversion Hps as [|? ? (_ & _ & Hok & _) Hps']; subst. simpl. apply IH; [done|].
  by apply apply_packet_singles.
Qed.

Lemma apply_all_loaded ps : loaded (apply_all od_config_reset ps) = false.
Proof.
  assert (Hg : forall c, loaded c = false -> loaded (apply_all c ps) = false); [|by apply Hg].
  induction ps as [|p ps IH]; intros c Hc; [done|]. simpl. apply IH.
  unfold apply_packet, if_built, apply_single, apply_rep.
  repeat (match goal with |- context [if ?i =? ?k then _ else _] => destruct (i =? k) end).
  all: repeat (match goal with
       | |- context [if ?f B then _ else _] => destruct (f B)
       | |- context [store_repeatable ?a ?b ?c] => destruct (store_repeatable a b c)
       | |- context [store_single ?a ?b] => destruct (store_single a b) as [? []]
       end); exact Hc.
Qed.

Lemma reset_singles : singles_ok od_config_reset.
Proof. split; [done|]. split; [done|]. split; [done|]. repeat constructor. Qed.

(** ** The parse *)

(** The callback never refuses, so the walk applies every packet. *)
Lemma applies_fold ctx ps ctx' ok :
  List.Forall packet_ok ps -> applies (on_packet B) ctx ps ctx' ok ->
  ok = true /\ ctx'.1 = apply_all ctx.1 ps.
Proof.
  intros Hps Ha. induction Ha as [a|a p a1 ps a' ok Hf Ha IH|a p a1 Hf].
  - done.
  - inversion Hps as [|? ? (_ & _ & _ & Hv) Hps']; subst. destruct (IH Hps') as [-> ->].
    split; [done|]. simpl. f_equal. revert Hf. unfold on_packet, od_config_apply_packet. rewrite Hv.
    cbn [negb]. destruct (apply_packet B a.1 p.1.2 p.2) as [r c]. by intros [= <-].
  - exfalso. revert Hf. unfold on_packet. by destruct (od_config_apply_packet _ _ _ _).
Qed.

Definition parsed (c : od_config) (v : Z) (rc : od_config_tlv_result) : od_config :=
  let c := set_minor_version (set_version c v) 0 in
  match rc with OD_CFG_TLV_OK => set_loaded c true | _ => c end.

Lemma parse_fold c0 blob :
  span_ok blob -> od_span_valid blob = true -> 5 <= sn blob ->
  exists rc rep ps tail u,
    od_config_parse B (Some c0) blob
      = Some (rc, Some (parsed (apply_all od_config_reset ps) (at_ blob 2) rc), rep) /\
    take (Z.to_nat (sn blob - 5)) (drop 3 (contents blob)) = concat (map encode ps) ++ tail /\
    List.Forall packet_ok ps /\ walk_end rc true u tail /\ unknown_id rep = u /\
    (rc = OD_CFG_TLV_OK -> crc_stored rep = blob_crc blob /\
       crc_computed rep = od_config_tlv_crc16 (od_span_take blob (sn blob - 2))).
Proof.
  intros Hok Hv Hn. unfold od_config_parse. rewrite Hv. cbn [negb].
  destruct (walk_sound (on_packet B) blob (od_config_reset, zero_report) Hok Hv Hn)
    as (rc & ctx & u & ps & tail & ok & -> & Hc & Hps & Ha & Hend).
  destruct (applies_fold _ _ _ _ Hps Ha) as [-> Hx]. destruct ctx as [c rep]. cbn [fst] in Hx. subst c.
  cbn [option_bind mbind].
  exists rc. destruct rc; try (eexists _, ps, tail, u; split; [reflexivity|]; by repeat (split; [done|])).
  destruct (Z.leb_spec OD_CFG_TLV_CRC_LEN (sn blob)); [|unfold OD_CFG_TLV_CRC_LEN in *; lia].
  eexists _, ps, tail, u. split; [reflexivity|]. by repeat (split; [done|]).
Qed.

Lemma parsed_table c v rc id : rep_table (parsed c v rc) id = rep_table c id.
Proof. by destruct rc. Qed.

Lemma parsed_singles c v rc : singles_ok c -> singles_ok (parsed c v rc).
Proof. by destruct rc. Qed.

Lemma all_tables ps id slot t :
  List.Forall packet_ok ps -> rep_table (apply_all od_config_reset ps) id = Some (slot, t) ->
  holds_first slot t (bodies id ps).
Proof.
  intros Hps Ht. destruct (rep_table od_config_reset id) as [[slot0 t0]|] eqn:E0.
  - destruct (tables_hold ps id slot0 t0 _ [] Hps E0 (reset_table _ _ _ E0)) as (t' & Hr & Hh).
    rewrite Hr in Ht. by injection Ht as <- <-.
  - exfalso. revert Ht E0. unfold rep_table. intros Ht E0.
    repeat (match type of E0 with context [if ?b then _ else _] => destruct b end; try discriminate).
Qed.


(** ** Round trip *)

(** A packet as a host writes it. *)
Definition raw_packet : Type := Z * Z * bytes.
Definition raw_encode (r : raw_packet) : bytes := r.1.1 :: r.1.2 :: r.2.
Definition raw_ok (r : raw_packet) : Prop :=
  len r.2 = od_config_tlv_body_size r.1.2 /\ od_config_tlv_body_size r.1.2 <> 0.
Definition raw_of (p : packet) : raw_packet := (p.1.1, p.1.2, contents p.2).

(** The grammar is unambiguous: only these packets encode to these bytes. *)
Lemma encode_unique ps raws tail rc u :
  List.Forall packet_ok ps -> List.Forall raw_ok raws -> walk_end rc true u tail ->
  concat (map encode ps) ++ tail = concat (map raw_encode raws) ->
  map raw_of ps = raws /\ tail = [] /\ rc = OD_CFG_TLV_OK /\ u = 0.
Proof.
  intros Hps. revert raws. induction ps as [|p ps IH]; intros raws Hraws Hend Heq.
  - destruct raws as [|r raws]; simpl in Heq.
    + subst tail. inversion Hend; subst; done.
    + inversion Hraws as [|? ? [Hl Hz] Hr]; subst. exfalso.
      inversion Hend as [|t Ht|i id t Hs|i id t Hs Ht]; subst; try (injection Heq as -> -> Heq).
      * simpl in Ht. lia.
      * done.
      * rewrite length_app in Ht. lia.
  - inversion Hps as [|? ? (Hz & Hn & Hok & Hv) Hps']; subst.
    destruct raws as [|r raws]; [discriminate|].
    inversion Hraws as [|? ? [Hl Hz'] Hr]; subst. simpl in Heq. injection Heq as E1 E2 Heq.
    rewrite <- !app_assoc in Heq.
    apply app_inj_1 in Heq as [E3 Heq].
    2: { pose proof (len_contents _ Hok Hv). rewrite Hn, E2 in *. lia. }
    destruct (IH Hps' raws Hr Hend Heq) as (<- & -> & -> & ->). split; [|done].
    simpl. f_equal. destruct r as [[? ?] ?]. unfold raw_of. simpl in *. by rewrite E1, E2, E3.
Qed.

Lemma bodies_raw id ps raws :
  map raw_of ps = raws ->
  bodies id ps = map snd (List.filter (fun r : raw_packet => r.1.2 =? id) raws).
Proof.
  intros <-. unfold bodies. induction ps as [|p ps IH]; [done|]. simpl.
  destruct (p.1.2 =? id); simpl; [f_equal|]; done.
Qed.

(** The blob a host writes: reserved bytes, version, packets, CRC of all that
    little endian. *)
Definition blob_prefix (v : Z) (raws : list raw_packet) : bytes :=
  [0; 0; v] ++ concat (map raw_encode raws).
Definition write_blob (v : Z) (raws : list raw_packet) : bytes :=
  let crc := od_config_tlv_crc16 (of_bytes (blob_prefix v raws)) in
  blob_prefix v raws ++ [Z.land crc 0xFF; Z.shiftr crc 8].

Lemma crc16_prefix pre lo hi n :
  n = len pre + 2 ->
  od_config_tlv_crc16 (od_span_take (of_bytes (pre ++ [lo; hi])) (n - 2)) = od_config_tlv_crc16 (of_bytes pre).
Proof.
  intros ->. replace (len pre + 2 - 2) with (len pre) by lia.
  assert (Ht : od_span_take (of_bytes (pre ++ [lo; hi])) (len pre) = od_span_make (Some (pre ++ [lo; hi])) (len pre)).
  { unfold od_span_take, of_bytes, od_span_valid. simpl. rewrite length_app. simpl.
    destruct (Z.ltb_spec (len pre) (Z.of_nat (length pre + 2))); [done|lia]. }
  rewrite Ht. apply crc16_ext; try done.
  - simpl. lia.
  - intros j Hj. apply lookup_total_app_l. simpl in Hj. lia.
Qed.

Lemma blob_crc_bytes pre lo hi :
  blob_crc (of_bytes (pre ++ [lo; hi])) = u16 (Z.lor lo (Z.shiftl hi 8)).
Proof.
  unfold blob_crc, of_bytes, at_, od_span_make, get. cbn [sn sp]. rewrite length_app. cbn [length].
  replace (Z.to_nat (Z.of_nat (length pre + 2) - 2)) with (0 + length pre)%nat by lia.
  replace (Z.to_nat (Z.of_nat (length pre + 2) - 1)) with (1 + length pre)%nat by lia.
  rewrite !lookup_total_app_r by lia. by rewrite !Nat.add_sub.
Qed.

Lemma write_blob_crc v raws :
  let blob := of_bytes (write_blob v raws) in
  blob_crc blob = od_config_tlv_crc16 (of_bytes (blob_prefix v raws)) /\
  od_config_tlv_crc16 (od_span_take blob (sn blob - 2)) = od_config_tlv_crc16 (of_bytes (blob_prefix v raws)).
Proof.
  cbv zeta. unfold write_blob. split.
  - rewrite blob_crc_bytes, lor_low_high. apply wrap_id, crc16_fits.
  - apply crc16_prefix. unfold of_bytes, od_span_make. cbn [sn]. rewrite length_app. cbn [length]. lia.
Qed.

End Theorems.

Definition full_build : build :=
  {| OD_CONFIG_WITH_TOUCH := true; OD_CONFIG_WITH_BUZZER := true; OD_CONFIG_WITH_NFC := true;
     OD_CONFIG_WITH_WIFI := true; OD_CONFIG_WITH_DATA_EXTENDED := true |}.

(** A security packet that asks for encryption with an all-zero key. *)
Definition demo_keyless : od_span := of_bytes ([0; 0; 2] ++ (0 :: 0x27 :: 1 :: replicate 63 0) ++ [9; 9]).


(** Five LED packets: the first four are kept. *)
Definition demo_leds : list raw_packet := map (fun k => (k, 0x21, replicate 22 k)) [1; 2; 3; 4; 5].


End Config.
