(* ===== verification/ConfigAsm.v ===== *)
(** Reassembling a chunked configuration write, [shared/core/od_config_asm.c],
    against its specification: the list of bytes received so far. *)

From S2P Require Import Prelude Span.
Import Span.

Module ConfigAsm.

Definition CONFIG_CHUNK_SIZE : Z := 200.
Definition CONFIG_CHUNK_SIZE_WITH_PREFIX : Z := 202.
Definition MAX_CONFIG_CHUNKS : Z := 20.
Definition OD_CONFIG_ASM_MAX_TRANSFERABLE : Z := MAX_CONFIG_CHUNKS * CONFIG_CHUNK_SIZE.

(** [enum od_config_asm_result]. *)
Inductive od_config_asm_result :=
| OD_CONFIG_ASM_SINGLE | OD_CONFIG_ASM_ACCEPTED | OD_CONFIG_ASM_COMPLETE | OD_CONFIG_ASM_REJECTED.

#[export] Instance od_config_asm_result_eq_dec : EqDecision od_config_asm_result.
Proof. solve_decision. Defined.

(** [struct od_config_asm]. *)
Record od_config_asm := {
  active : bool; total_size : Z; received : Z; chunks : Z; buffer : bytes;
}.

Definition od_config_asm_reset (s : od_config_asm) : od_config_asm :=
  {| active := false; total_size := 0; received := 0; chunks := 0; buffer := buffer s |}.

Section Operations.
(** The stored-configuration cap, which a target may set; the project asserts
    that two chunks fit. *)
Variable OD_CONFIG_MAX_SIZE : Z.

(** [od_config_asm_start] past its null checks. *)
Definition asm_start (s : od_config_asm) (payload : od_span) : od_config_asm_result * od_config_asm :=
  let s := od_config_asm_reset s in
  if od_span_is_empty payload then (OD_CONFIG_ASM_REJECTED, s)
  else if sn payload <? CONFIG_CHUNK_SIZE_WITH_PREFIX then (OD_CONFIG_ASM_SINGLE, s)
  else if CONFIG_CHUNK_SIZE_WITH_PREFIX <? sn payload then (OD_CONFIG_ASM_REJECTED, s)
  else
    match od_span_split payload 2 with
    | None => (OD_CONFIG_ASM_REJECTED, s)
    | Some (total_field, data) =>
        match od_span_split data CONFIG_CHUNK_SIZE with
        | None => (OD_CONFIG_ASM_REJECTED, s)
        | Some (data, _) =>
            let total := Z.lor (at_ total_field 0) (u32 (Z.shiftl (at_ total_field 1) 8)) in
            if (total <=? CONFIG_CHUNK_SIZE) || (OD_CONFIG_ASM_MAX_TRANSFERABLE <? total)
               || (OD_CONFIG_MAX_SIZE <? total) then (OD_CONFIG_ASM_REJECTED, s)
            else (OD_CONFIG_ASM_ACCEPTED,
                  {| active := true; total_size := total; received := u32 (sn data); chunks := 1;
                     buffer := memcpy (buffer s) 0 (contents data) |})
        end
    end.

Definition od_config_asm_start (s : option od_config_asm) (payload : od_span)
  : od_config_asm_result * option od_config_asm :=
  match s with
  | None => (OD_CONFIG_ASM_REJECTED, None)
  | Some s' =>
      if negb (od_span_valid payload) then (OD_CONFIG_ASM_REJECTED, s)
      else let '(rc, s') := asm_start s' payload in (rc, Some s')
  end.

(** [od_config_asm_chunk] past its null checks. *)
Definition asm_chunk (s : od_config_asm) (payload : od_span) : od_config_asm_result * od_config_asm :=
  if negb (active s) then (OD_CONFIG_ASM_REJECTED, s)
  else if od_span_is_empty payload || (CONFIG_CHUNK_SIZE <? sn payload) then
    (OD_CONFIG_ASM_REJECTED, od_config_asm_reset s)
  else
    let remaining := u32 (total_size s - received s) in
    if remaining <? sn payload then (OD_CONFIG_ASM_REJECTED, od_config_asm_reset s)
    else if (sn payload <? CONFIG_CHUNK_SIZE) && negb (sn payload =? remaining) then
      (OD_CONFIG_ASM_REJECTED, od_config_asm_reset s)
    else if MAX_CONFIG_CHUNKS <=? chunks s then (OD_CONFIG_ASM_REJECTED, od_config_asm_reset s)
    else
      let got := u32 (received s + u32 (sn payload)) in
      let done := got =? total_size s in
      (if done then OD_CONFIG_ASM_COMPLETE else OD_CONFIG_ASM_ACCEPTED,
       {| active := negb done; total_size := total_size s; received := got;
          chunks := u32 (chunks s + 1);
          buffer := memcpy (buffer s) (received s) (contents payload) |}).

Definition od_config_asm_chunk (s : option od_config_asm) (payload : od_span)
  : od_config_asm_result * option od_config_asm :=
  match s with
  | None => (OD_CONFIG_ASM_REJECTED, None)
  | Some s' =>
      if negb (od_span_valid payload) then (OD_CONFIG_ASM_REJECTED, s)
      else let '(rc, s') := asm_chunk s' payload in (rc, Some s')
  end.

(** ** The specification *)

(** A transfer in progress: the declared total, the bytes so far, the frames. *)
Record transfer := { t_total : Z; t_bytes : bytes; t_frames : Z }.

(** A command and what the caller may store because of it: the payload itself
    for SINGLE, the whole record for COMPLETE. *)
Inductive command := Start (p : bytes) | Chunk (p : bytes).

Definition spec_step (t : option transfer) (c : command) : od_config_asm_result * option transfer * bytes :=
  match c, t with
  | Start p, _ =>
      if (1 <=? len p) && (len p <? 202) then (OD_CONFIG_ASM_SINGLE, None, p)
      else
        let total := p.[0] + 256 * p.[1] in
        if (len p =? 202) && (200 <? total) && (total <=? 4000) && (total <=? OD_CONFIG_MAX_SIZE) then
          (OD_CONFIG_ASM_ACCEPTED, Some {| t_total := total; t_bytes := drop 2 p; t_frames := 1 |}, [])
        else (OD_CONFIG_ASM_REJECTED, None, [])
  | Chunk p, None => (OD_CONFIG_ASM_REJECTED, None, [])
  | Chunk p, Some t =>
      let bs := t_bytes t ++ p in
      if (len p =? 0) || (200 <? len p) || (t_total t <? len bs)
         || ((len p <? 200) && (len bs <? t_total t)) || (20 <=? t_frames t) then
        (OD_CONFIG_ASM_REJECTED, None, [])
      else if len bs =? t_total t then (OD_CONFIG_ASM_COMPLETE, None, bs)
      else (OD_CONFIG_ASM_ACCEPTED,
            Some {| t_total := t_total t; t_bytes := bs; t_frames := t_frames t + 1 |}, [])
  end.

(** What the assembler does for a command, with what its caller then stores. *)
Definition impl_step (s : od_config_asm) (c : command) : od_config_asm_result * od_config_asm * bytes :=
  let '(rc, s', p) :=
    match c with
    | Start p => (asm_start s (of_bytes p), p)
    | Chunk p => (asm_chunk s (of_bytes p), p)
    end in
  (rc, s', match rc with
           | OD_CONFIG_ASM_SINGLE => p
           | OD_CONFIG_ASM_COMPLETE => take (Z.to_nat (total_size s')) (buffer s')
           | _ => []
           end).

Definition represents (s : od_config_asm) (t : option transfer) : Prop :=
  len (buffer s) = OD_CONFIG_MAX_SIZE /\
  match t with
  | None => active s = false
  | Some t =>
      active s = true /\ total_size s = t_total t /\ received s = len (t_bytes t) /\
      chunks s = t_frames t /\ take (length (t_bytes t)) (buffer s) = t_bytes t /\
      len (t_bytes t) < t_total t <= 4000 /\ t_total t <= OD_CONFIG_MAX_SIZE /\ 1 <= t_frames t <= 20
  end.
End Operations.

Section Theorems.
Variable OD_CONFIG_MAX_SIZE : Z.
Hypothesis two_chunks_fit : 400 <= OD_CONFIG_MAX_SIZE.

Definition command_bytes (c : command) : bytes := match c with Start p | Chunk p => p end.

Lemma le16 a b : is_byte a -> is_byte b -> Z.lor a (u32 (Z.shiftl b 8)) = a + 256 * b.
Proof.
  intros Ha Hb. rewrite Z.shiftl_mul_pow2 by lia. change (2 ^ 8) with 256.
  rewrite wrap_id by wrap_lia.
  assert (Hand : Z.land a (b * 256) = 0).
  { apply Z.bits_inj'. intros n Hn. rewrite Z.land_spec, Z.bits_0. destruct (Z.ltb_spec n 8).
    - change 256 with (2 ^ 8). rewrite Z.mul_pow2_bits_low by lia. apply andb_false_r.
    - by rewrite (fits_testbit_high 8 a) by (done || lia). }
  rewrite <- (Z.lxor_lor _ _ Hand). rewrite <- Z.add_nocarry_lxor by done. lia.
Qed.

Lemma reset_represents s t :
  represents OD_CONFIG_MAX_SIZE s t -> represents OD_CONFIG_MAX_SIZE (od_config_asm_reset s) None.
Proof. by intros [Hl _]. Qed.

Lemma span_split_of_bytes (p : bytes) n :
  0 <= n <= len p ->
  exists a b, od_span_split (of_bytes p) n = Some (a, b) /\ sp a = Some p /\
    sp b = Some (drop (Z.to_nat n) p) /\ sn b = len p - n.
Proof.
  intros Hn. unfold od_span_split, od_span_has, of_bytes, od_span_valid. simpl.
  destruct (Z.leb_spec n (len p)); [|lia]. by eexists _, _.
Qed.

Lemma start_refines s t p :
  represents OD_CONFIG_MAX_SIZE s t -> bytes_ok p ->
  exists t', (asm_start OD_CONFIG_MAX_SIZE s (of_bytes p)).1
             = (spec_step OD_CONFIG_MAX_SIZE t (Start p)).1.1 /\
    (spec_step OD_CONFIG_MAX_SIZE t (Start p)).1.2 = t' /\
    represents OD_CONFIG_MAX_SIZE (asm_start OD_CONFIG_MAX_SIZE s (of_bytes p)).2 t' /\
    (spec_step OD_CONFIG_MAX_SIZE t (Start p)).2
    = match (spec_step OD_CONFIG_MAX_SIZE t (Start p)).1.1 with OD_CONFIG_ASM_SINGLE => p | _ => [] end /\
    (spec_step OD_CONFIG_MAX_SIZE t (Start p)).1.1 <> OD_CONFIG_ASM_COMPLETE.
Proof.
  intros Hr Hb. pose proof (reset_represents _ _ Hr) as Hr0. unfold spec_step, asm_start.
  unfold od_span_is_empty, CONFIG_CHUNK_SIZE_WITH_PREFIX. cbn [sn of_bytes od_span_make].
  change (sn (of_bytes p)) with (len p).
  destruct (Z.eqb_spec (len p) 0) as [Hz|Hz].
  { rewrite Hz. simpl. eexists. repeat split; try done; apply Hr0. }
  destruct (Z.leb_spec 1 (len p)); [|lia]. cbn [andb].
  destruct (Z.ltb_spec (len p) 202) as [Hlt|Hge]; [eexists; by repeat split; try apply Hr0|].
  destruct (Z.ltb_spec 202 (len p)) as [Hgt|Hle].
  { destruct (Z.eqb_spec (len p) 202); [lia|]. simpl. eexists. by repeat split; try apply Hr0. }
  destruct (Z.eqb_spec (len p) 202) as [Hn|]; [|lia]. cbn [andb].
  destruct (span_split_of_bytes p 2 ltac:(lia)) as (a & d & -> & Ha & Hd & Hdn).
  destruct d as [dp dn]. cbn [sp sn] in Hd, Hdn. subst dp dn.
  change (Z.to_nat 2) with 2%nat.
  assert (Hs2 : od_span_split {| sp := Some (drop 2 p); sn := len p - 2 |} CONFIG_CHUNK_SIZE
    = Some (od_span_make (Some (drop 2 p)) 200, od_span_make (Some (drop 200 (drop 2 p))) 0)).
  { unfold od_span_split, od_span_has, od_span_valid, CONFIG_CHUNK_SIZE. rewrite Hn. reflexivity. }
  rewrite Hs2. cbv zeta. unfold at_. rewrite Ha.
  assert (Hby : forall k, 0 <= k < len p -> is_byte p.[k]) by (intros k Hk; by apply Forall_get).
  rewrite le16 by (apply Hby; lia). set (total := p.[0] + 256 * p.[1]).
  unfold CONFIG_CHUNK_SIZE. change OD_CONFIG_ASM_MAX_TRANSFERABLE with 4000.
  destruct (Z.leb_spec total 200), (Z.ltb_spec 200 total); try lia; cbn [orb andb];
    [eexists; by repeat split; try apply Hr0|].
  destruct (Z.ltb_spec 4000 total), (Z.leb_spec total 4000); try lia; cbn [orb andb];
    [eexists; by repeat split; try apply Hr0|].
  destruct (Z.ltb_spec OD_CONFIG_MAX_SIZE total), (Z.leb_spec total OD_CONFIG_MAX_SIZE); try lia; cbn [orb andb];
    [eexists; by repeat split; try apply Hr0|].
  assert (Hc : contents (od_span_make (Some (drop 2 p)) 200) = drop 2 p).
  { unfold contents. simpl. apply take_ge. rewrite length_drop. lia. }
  assert (Hdl : len (drop 2 p) = 200) by (rewrite length_drop; lia).
  destruct Hr as [Hl _].
  eexists. split; [done|]. split; [done|]. split; [|done]. cbn [snd]. split.
  - cbn [buffer od_config_asm_reset]. rewrite Hc, len_memcpy; [done|lia|]. lia.
  - cbn [fst snd buffer od_config_asm_reset active total_size received chunks t_total t_bytes t_frames].
    rewrite Hc, Hdl. repeat (split; [first [done|lia]|]).
    split; [|lia].
    pose proof (take_memcpy (buffer s) 0 (drop 2 p) ltac:(lia) ltac:(lia)) as Ht.
    rewrite Z.add_0_l, Nat2Z.id in Ht. exact Ht.
Qed.

Lemma chunk_refines s t p :
  represents OD_CONFIG_MAX_SIZE s t ->
  let o := asm_chunk s (of_bytes p) in
  let sp := spec_step OD_CONFIG_MAX_SIZE t (Chunk p) in
  o.1 = sp.1.1 /\ represents OD_CONFIG_MAX_SIZE o.2 sp.1.2 /\ o.1 <> OD_CONFIG_ASM_SINGLE /\
  sp.2 = match o.1 with
         | OD_CONFIG_ASM_COMPLETE => take (Z.to_nat (total_size o.2)) (buffer o.2)
         | _ => []
         end.
Proof.
  intros Hr. cbv zeta. pose proof (reset_represents _ _ Hr) as Hr0. destruct Hr as [Hl Ht].
  unfold spec_step, asm_chunk. destruct t as [t|].
  2: { rewrite Ht. by repeat split. }
  destruct Ht as (Ha & Htot & Hrec & Hch & Htk & Hlt & Hcap & Hfr). rewrite Ha. cbn [negb].
  unfold od_span_is_empty, CONFIG_CHUNK_SIZE, MAX_CONFIG_CHUNKS. change (sn (of_bytes p)) with (len p).
  rewrite Htot, Hrec, Hch, length_app. rewrite contents_of_bytes.
  rewrite (wrap_id 32 (t_total t - _)) by (unfold fits; lia).
  destruct (Z.eqb_spec (len p) 0); cbn [orb]; [by repeat split|].
  destruct (Z.ltb_spec 200 (len p)); cbn [orb]; [by repeat split|].
  destruct (Z.ltb_spec (t_total t - len (t_bytes t)) (len p)).
  { destruct (Z.ltb_spec (t_total t) (Z.of_nat (length (t_bytes t) + length p))); [|lia]. by repeat split. }
  destruct (Z.ltb_spec (t_total t) (Z.of_nat (length (t_bytes t) + length p))); [lia|]. cbn [orb].
  destruct (Z.ltb_spec (len p) 200); cbn [andb orb].
  1: destruct (Z.eqb_spec (len p) (t_total t - len (t_bytes t))),
       (Z.ltb_spec (Z.of_nat (length (t_bytes t) + length p)) (t_total t)); try lia;
     cbn [negb andb orb]; [|by repeat split].
  all: destruct (Z.leb_spec 20 (t_frames t)); [by repeat split|].
  all: rewrite (wrap_id 32 (len p)) by (unfold fits; lia).
  all: rewrite (wrap_id 32 (len (t_bytes t) + len p)) by (unfold fits; lia).
  all: rewrite (wrap_id 32 (t_frames t + 1)) by (unfold fits; lia).
  all: replace (Z.of_nat (length (t_bytes t) + length p)) with (len (t_bytes t) + len p) by lia.
  all: pose proof (take_memcpy (buffer s) (len (t_bytes t)) p ltac:(lia) ltac:(lia)) as Hm.
  all: rewrite Nat2Z.id, Htk in Hm.
  all: destruct (Z.eqb_spec (len (t_bytes t) + len p) (t_total t)) as [He|He]; cbn [fst snd negb].
  all: split; [done|]; split; [|split; [done|]].
  all: try (cbn [buffer total_size]; rewrite <- He; by rewrite Hm).
  all: try done.
  all: split; cbn [buffer active total_size received chunks t_total t_bytes t_frames];
    [rewrite len_memcpy; lia|]; try done.
  all: try (exfalso; lia).
  all: rewrite length_app; repeat (split; [first [done|lia]|]); split; [|lia].
  all: rewrite <- Hm; f_equal; lia.
Qed.

(** C20. The assembler implements its specification, frame by frame: whatever
    was received before, a start or a chunk gets the specified answer, the
    bytes it lets the caller store are the specified ones (a whole
    single-frame payload, or, on COMPLETE, exactly the concatenation of the
    start's data and every chunk since), and no write leaves the buffer.
    Anything malformed abandons the transfer and stores nothing. *)
Theorem asm_refines (s : od_config_asm) (t : option transfer) (c : command) :
  represents OD_CONFIG_MAX_SIZE s t -> bytes_ok (command_bytes c) ->
  let '(rc, s', out) := impl_step OD_CONFIG_MAX_SIZE s c in
  let '(rc', t', out') := spec_step OD_CONFIG_MAX_SIZE t c in
  rc = rc' /\ out = out' /\ represents OD_CONFIG_MAX_SIZE s' t'.
Proof.
  intros Hr Hb. unfold impl_step. destruct c as [p|p].
  - destruct (start_refines s t p Hr Hb) as (t' & Hrc & Ht & Hrep & Hout & Hnc).
    destruct (asm_start _ _ _) as [rc s']. destruct (spec_step _ _ _) as [[rc' t''] out'].
    cbn [fst snd] in *. subst. split; [done|]. split; [|done]. by destruct rc'.
  - destruct (chunk_refines s t p Hr) as (Hrc & Hrep & Hns & Hout).
    destruct (asm_chunk _ _) as [rc s']. destruct (spec_step _ _ _) as [[rc' t'] out'].
    cbn [fst snd] in *. subst. split; [done|]. split; [|done]. by destruct rc'.
Qed.

(** ** A whole transfer *)

(** The chunks a host cuts a record into after the first 200 bytes. *)
Fixpoint cut (fuel : nat) (l : bytes) : list bytes :=
  match fuel with
  | O => []
  | S fuel => if len l =? 0 then [] else take 200 l :: cut fuel (drop 200 l)
  end.

(** The frames that carry a record: the start with its little-endian total, then
    the chunks. *)
Definition frames (record : bytes) : list command :=
  Start ([Z.land (len record) 0xFF; Z.shiftr (len record) 8] ++ take 200 record)
  :: map Chunk (cut 20 (drop 200 record)).

(** The answers to a sequence of frames, and what was stored. *)
Fixpoint feed (s : od_config_asm) (cs : list command) : list (od_config_asm_result * bytes) :=
  match cs with
  | [] => []
  | c :: cs => let '(rc, s, out) := impl_step OD_CONFIG_MAX_SIZE s c in (rc, out) :: feed s cs
  end.

Lemma cut_bytes_ok fuel l : bytes_ok l -> List.Forall (fun c => bytes_ok (command_bytes c)) (map Chunk (cut fuel l)).
Proof.
  revert l. induction fuel as [|fuel IH]; intros l Hl; simpl; [constructor|].
  destruct (_ =? 0); [constructor|]. simpl. constructor; [by apply Forall_take|]. by apply IH, Forall_drop.
Qed.

Lemma cut_fuel n m l :
  len l <= 200 * Z.of_nat n -> len l <= 200 * Z.of_nat m -> cut n l = cut m l.
Proof.
  revert m l. induction n as [|n IH]; intros [|m] l Hn Hm; simpl; try done.
  1, 2: destruct (Z.eqb_spec (len l) 0); [done|lia].
  destruct (_ =? 0); [done|]. f_equal. apply IH; rewrite length_drop; lia.
Qed.

Lemma feed_chunks fuel s t rest :
  represents OD_CONFIG_MAX_SIZE s (Some t) -> bytes_ok rest ->
  t_total t = len (t_bytes t) + len rest -> len rest <= 200 * Z.of_nat fuel ->
  t_frames t + Z.of_nat fuel <= 20 -> 0 < len rest ->
  exists k, feed s (map Chunk (cut fuel rest))
    = replicate k (OD_CONFIG_ASM_ACCEPTED, []) ++ [(OD_CONFIG_ASM_COMPLETE, t_bytes t ++ rest)].
Proof.
  revert s t rest. induction fuel as [|fuel IH]; intros s t rest Hr Hb Ht Hf Hfr Hpos; [lia|].
  cbn [cut]. destruct (Z.eqb_spec (len rest) 0); [lia|]. cbn [map feed].
  pose proof (chunk_refines s (Some t) (take 200 rest) Hr) as (Hrc & Hrep & _ & Hout).
  unfold impl_step. destruct (asm_chunk s _) as [rc s'] eqn:Es. cbn [fst snd] in Hrc, Hrep, Hout.
  unfold spec_step in Hrc, Hrep, Hout.
  assert (Hlt : length (take 200 rest) = Nat.min 200 (length rest)) by (by rewrite length_take).
  pose proof (proj2 Hr) as (_ & _ & _ & _ & _ & _ & _ & Hfp).
  rewrite length_app, Hlt in *.
  destruct (Z.eqb_spec (Z.of_nat (Nat.min 200 (length rest))) 0); [lia|].
  destruct (Z.ltb_spec 200 (Z.of_nat (Nat.min 200 (length rest)))); [lia|].
  destruct (Z.ltb_spec (t_total t) (Z.of_nat (length (t_bytes t) + Nat.min 200 (length rest)))); [lia|].
  destruct (Z.leb_spec 20 (t_frames t)); [lia|].
  destruct (Z.eqb_spec (Z.of_nat (length (t_bytes t) + Nat.min 200 (length rest))) (t_total t)) as [He|He].
  - destruct (Z.ltb_spec (Z.of_nat (length (t_bytes t) + Nat.min 200 (length rest))) (t_total t)); [lia|].
    rewrite andb_false_r in *. cbn [orb fst snd] in *. subst rc.
    assert (Hs : len rest <= 200) by lia. rewrite <- Hout.
    exists 0%nat. rewrite (take_ge rest) by lia. rewrite (drop_ge rest) by lia.
    by destruct fuel.
  - destruct (Z.ltb_spec (Z.of_nat (Nat.min 200 (length rest))) 200); [lia|].
    cbn [andb orb fst snd] in *. subst rc.
    edestruct (IH s' _ (drop 200 rest) Hrep) as [k ->]; cbn [t_total t_bytes t_frames].
    + by apply Forall_drop.
    + rewrite length_app, Hlt, length_drop. lia.
    + rewrite length_drop. lia.
    + lia.
    + rewrite length_drop. lia.
    + exists (S k). simpl. by rewrite <- app_assoc, take_drop.
Qed.

(** Round trip: any record of 201 to 4000 bytes that fits the device's cap,
    cut into a start frame and 200-byte chunks, is accepted at every frame and
    completes exactly at the last one with exactly the original bytes, whatever
    transfer was in progress before. *)
Theorem asm_transfer_roundtrip (s : od_config_asm) (t : option transfer) (record : bytes) :
  represents OD_CONFIG_MAX_SIZE s t -> bytes_ok record ->
  200 < len record <= 4000 -> len record <= OD_CONFIG_MAX_SIZE ->
  exists k, feed s (frames record)
    = replicate k (OD_CONFIG_ASM_ACCEPTED, []) ++ [(OD_CONFIG_ASM_COMPLETE, record)].
Proof.
  intros Hr Hb Hlen Hcap. unfold frames.
  rewrite (cut_fuel 20 19 (drop 200 record)) by (rewrite length_drop; lia). cbn [feed].
  assert (Hbl : is_byte (Z.land (len record) 0xFF) /\ is_byte (Z.shiftr (len record) 8)).
  { change 0xFF with (Z.ones 8). rewrite Z.land_ones, Z.shiftr_div_pow2 by lia. unfold is_byte.
    split; [apply Z.mod_pos_bound; lia|]. change (2 ^ 8) with 256. Z.to_euclidean_division_equations. lia. }
  set (p := [Z.land (len record) 255; Z.shiftr (len record) 8] ++ take 200 record).
  assert (Hp : bytes_ok p) by (repeat constructor; try apply Hbl; by apply Forall_take).
  assert (Hpl : len p = 202) by (unfold p; cbn [app length]; rewrite length_take; lia).
  destruct (start_refines s t p Hr Hp) as (t' & Hrc & Ht' & Hrep & _ & _).
  unfold impl_step. destruct (asm_start _ s (of_bytes p)) as [rc s'].
  cbn [fst snd] in *. unfold spec_step in Hrc, Ht'. rewrite Hpl in Hrc, Ht'.
  assert (Htot : p.[0] + 256 * p.[1] = len record).
  { change (p.[0]) with (Z.land (len record) 255). change (p.[1]) with (Z.shiftr (len record) 8).
    change 255 with (Z.ones 8). rewrite Z.land_ones, Z.shiftr_div_pow2 by lia. change (2 ^ 8) with 256.
    Z.to_euclidean_division_equations. lia. }
  rewrite Htot in *. change (drop 2 p) with (take 200 record) in *.
  destruct (Z.ltb_spec 200 (len record)); [|lia]. destruct (Z.leb_spec (len record) 4000); [|lia].
  destruct (Z.leb_spec (len record) OD_CONFIG_MAX_SIZE); [|lia]. cbn in Hrc, Ht'. subst rc t'.
  edestruct (feed_chunks 19 s' _ (drop 200 record) Hrep) as [k Hk]; cbn [t_total t_bytes t_frames].
  - by apply Forall_drop.
  - rewrite length_take, length_drop. lia.
  - rewrite length_drop. lia.
  - lia.
  - rewrite length_drop. lia.
  - exists (S k). cbn [t_bytes] in Hk. rewrite take_drop in Hk. rewrite Hk. done.
Qed.
End Theorems.

Definition demo_asm : od_config_asm :=
  {| active := true; total_size := 500; received := 3; chunks := 1; buffer := replicate 4096 0 |}.

Definition demo_record : bytes := map (fun i => Z.of_nat i mod 251) (seq 0 450).

Lemma demo_idle : represents 4096 (od_config_asm_reset demo_asm) None.
Proof. split; vm_compute; reflexivity. Qed.

Lemma asm_refines_witness :
  let '(rc, _, out) := impl_step 4096 (od_config_asm_reset demo_asm) (Start [7; 8]) in
  rc = OD_CONFIG_ASM_SINGLE /\ out = [7; 8].
Proof.
  pose proof (asm_refines 4096 ltac:(lia) (od_config_asm_reset demo_asm) None (Start [7; 8]) demo_idle) as H.
  destruct (impl_step _ _ _) as [[rc s'] out]. cbn in H.
  destruct H as (-> & -> & _); [repeat constructor; vm_compute; congruence|]. split; reflexivity.
Defined.

Lemma asm_transfer_roundtrip_witness :
  feed 4096 (od_config_asm_reset demo_asm) (frames demo_record)
  = [(OD_CONFIG_ASM_ACCEPTED, []); (OD_CONFIG_ASM_ACCEPTED, []); (OD_CONFIG_ASM_COMPLETE, demo_record)].
Proof.
  destruct (asm_transfer_roundtrip 4096 ltac:(lia) _ None demo_record demo_idle) as [k Hk].
  - apply List.Forall_forall. intros x Hx. apply List.in_map_iff in Hx as (i & <- & _).
    unfold is_byte. Z.to_euclidean_division_equations. lia.
  - vm_compute. split; congruence.
  - vm_compute. congruence.
  - assert (Hl : length (feed 4096 (od_config_asm_reset demo_asm) (frames demo_record)) = 3%nat)
      by (vm_compute; reflexivity).
    rewrite Hk, length_app, length_replicate in Hl. simpl in Hl.
    assert (k = 2%nat) as -> by lia. rewrite Hk. reflexivity.
Defined.

End ConfigAsm.
