(* ===== verification/ConfigStore.v ===== *)
(** The stored configuration record, [shared/core/od_config_store.c]: framing,
    CRC and bounds over the storage interface [shared/hal/od_hal_nvs.h]. *)

From S2P Require Import Prelude.

Module ConfigStore.

Definition OD_HAL_NVS_OK : Z := 0.
Definition OD_HAL_NVS_ENOENT : Z := -2.
Definition OD_HAL_NVS_EIO : Z := -5.
Definition OD_HAL_NVS_E2BIG : Z := -7.

(** The medium, as the HAL presents it: a status code, and what the call wrote
    through its pointer. *)
Class Nvs (E : Type) := {
  od_hal_nvs_init : E -> Z * E;
  od_hal_nvs_size : E -> Z * Z * E;
  od_hal_nvs_read : E -> Z -> Z -> Z * bytes * E;
  od_hal_nvs_write : E -> bytes -> Z * E;
  od_hal_nvs_erase : E -> Z * E;
}.

Definition OD_CONFIG_STORE_MAGIC : Z := 0xDEADBEEF.
Definition OD_CONFIG_STORE_VERSION : Z := 1.
Definition OD_CONFIG_STORE_HEADER_SIZE : Z := 16.

(** [enum od_config_store_result]. *)
Inductive od_config_store_result :=
| OD_CONFIG_STORE_OK | OD_CONFIG_STORE_EMPTY | OD_CONFIG_STORE_CORRUPT
| OD_CONFIG_STORE_TOO_BIG | OD_CONFIG_STORE_IO.

#[export] Instance od_config_store_result_eq_dec : EqDecision od_config_store_result.
Proof. solve_decision. Defined.

Definition put_u32le (v : Z) : bytes :=
  [u8 (Z.land v 0xFF); u8 (Z.land (Z.shiftr v 8) 0xFF);
   u8 (Z.land (Z.shiftr v 16) 0xFF); u8 (Z.land (Z.shiftr v 24) 0xFF)].

Definition get_u32le (p : bytes) : Z :=
  Z.lor (Z.lor (Z.lor p.[0] (u32 (Z.shiftl p.[1] 8))) (u32 (Z.shiftl p.[2] 16))) (u32 (Z.shiftl p.[3] 24)).

(** One byte of [od_config_store_crc32]. *)
Fixpoint crc32_bits (n : nat) (crc : Z) : Z :=
  match n with
  | O => crc
  | S n => crc32_bits n (if negb (Z.land crc 1 =? 0) then Z.lxor (Z.shiftr crc 1) 0xEDB88320
                         else Z.shiftr crc 1)
  end.

Definition crc32_feed (crc b : Z) : Z := crc32_bits 8 (Z.lxor crc b).

Fixpoint crc32_range (n : nat) (data : bytes) (i crc : Z) : Z :=
  match n with
  | O => crc
  | S n => crc32_range n data (i + 1) (crc32_feed crc data.[i])
  end.

Definition od_config_store_crc32 (data : bytes) (n : Z) : Z :=
  u32 (Z.lnot (crc32_range (Z.to_nat n) data 0 0xFFFFFFFF)).

Definition from_hal (rc : Z) : od_config_store_result :=
  if rc =? OD_HAL_NVS_OK then OD_CONFIG_STORE_OK
  else if rc =? OD_HAL_NVS_ENOENT then OD_CONFIG_STORE_EMPTY
  else if rc =? OD_HAL_NVS_E2BIG then OD_CONFIG_STORE_TOO_BIG
  else OD_CONFIG_STORE_IO.

(** Where [payload] points: at the workspace's own payload slot, or elsewhere. *)
Inductive source := InPlace | At (payload : bytes).

Section Operations.
Context {E : Type} `{Nvs E}.
Variable OD_CONFIG_MAX_SIZE : Z.

Definition OD_CONFIG_STORE_MAX_RECORD : Z := OD_CONFIG_STORE_HEADER_SIZE + OD_CONFIG_MAX_SIZE.

Definition od_config_store_init (env : E) : od_config_store_result * E :=
  let '(rc, env) := od_hal_nvs_init env in (from_hal rc, env).

(** The bytes [payload] points at. *)
Definition source_bytes (ws : bytes) (payload : source) : bytes :=
  match payload with InPlace => drop (Z.to_nat OD_CONFIG_STORE_HEADER_SIZE) ws | At p => p end.

(** The record [od_config_store_save] frames in the workspace. *)
Definition frame_record (ws : bytes) (payload : source) (n : Z) : bytes :=
  let crc := od_config_store_crc32 (source_bytes ws payload) n in
  let ws :=
    match payload with
    | InPlace => ws
    | At p => if 0 <? n then memcpy ws OD_CONFIG_STORE_HEADER_SIZE (take (Z.to_nat n) p) else ws
    end in
  let ws := memcpy ws 0 (put_u32le OD_CONFIG_STORE_MAGIC) in
  let ws := memcpy ws 4 (put_u32le OD_CONFIG_STORE_VERSION) in
  let ws := memcpy ws 8 (put_u32le crc) in
  memcpy ws 12 (put_u32le n).

(** [od_config_store_save]: result, workspace, world. *)
Definition od_config_store_save (ws : option bytes) (workspace_cap : Z) (payload : option source)
    (n : Z) (env : E) : od_config_store_result * option bytes * E :=
  match ws, payload with
  | Some w, Some p =>
      if OD_CONFIG_MAX_SIZE <? n then (OD_CONFIG_STORE_TOO_BIG, ws, env)
      else
        let total := u32 (OD_CONFIG_STORE_HEADER_SIZE + n) in
        if workspace_cap <? total then (OD_CONFIG_STORE_TOO_BIG, ws, env)
        else
          let w := frame_record w p n in
          let '(rc, env) := od_hal_nvs_write env (take (Z.to_nat total) w) in
          (from_hal rc, Some w, env)
  | _, _ => (OD_CONFIG_STORE_IO, ws, env)
  end.

(** What a load returns: result, destination buffer, [*len], world. *)
Record load_out := { l_rc : od_config_store_result; l_buf : bytes; l_len : Z; l_env : E }.

Definition load_fail (rc : od_config_store_result) (buf : bytes) (env : E) : load_out :=
  {| l_rc := rc; l_buf := buf; l_len := 0; l_env := env |}.

(** From the header on. *)
Definition load_payload (buf : bytes) (cap stored : Z) (header : bytes) (env : E) : load_out :=
  if negb (get_u32le header =? OD_CONFIG_STORE_MAGIC) then load_fail OD_CONFIG_STORE_CORRUPT buf env
  else
    let data_len := get_u32le (drop 12 header) in
    if (OD_CONFIG_MAX_SIZE <? data_len) || (cap <? data_len) then load_fail OD_CONFIG_STORE_TOO_BIG buf env
    else if u32 (stored - OD_CONFIG_STORE_HEADER_SIZE) <? data_len then
      load_fail OD_CONFIG_STORE_CORRUPT buf env
    else
      let '(rc, buf, env) :=
        if 0 <? data_len then
          let '(rc, b, env) := od_hal_nvs_read env OD_CONFIG_STORE_HEADER_SIZE data_len in
          (rc, memcpy buf 0 b, env)
        else (OD_HAL_NVS_OK, buf, env) in
      if negb (rc =? OD_HAL_NVS_OK) then load_fail (from_hal rc) buf env
      else if negb (od_config_store_crc32 buf data_len =? get_u32le (drop 8 header)) then
        load_fail OD_CONFIG_STORE_CORRUPT buf env
      else {| l_rc := OD_CONFIG_STORE_OK; l_buf := buf; l_len := data_len; l_env := env |}.

(** [od_config_store_load]: [payload] and [*len] as the caller passed them;
    [None] for a null payload.  (A null length pointer returns IO at once.) *)
Definition od_config_store_load (payload : option bytes) (cap : Z) (env : E) : load_out :=
  match payload with
  | None => load_fail OD_CONFIG_STORE_IO [] env
  | Some buf =>
      let '(rc, stored, env) := od_hal_nvs_size env in
      if negb (rc =? OD_HAL_NVS_OK) then load_fail (from_hal rc) buf env
      else if stored <? OD_CONFIG_STORE_HEADER_SIZE then load_fail OD_CONFIG_STORE_CORRUPT buf env
      else if OD_CONFIG_STORE_MAX_RECORD <? stored then load_fail OD_CONFIG_STORE_TOO_BIG buf env
      else
        let '(rc, header, env) := od_hal_nvs_read env 0 OD_CONFIG_STORE_HEADER_SIZE in
        if negb (rc =? OD_HAL_NVS_OK) then load_fail (from_hal rc) buf env
        else load_payload buf cap stored header env
  end.

Definition od_config_store_clear (env : E) : od_config_store_result * E :=
  let '(rc, env) := od_hal_nvs_erase env in (from_hal rc, env).
End Operations.

(** ** The record format *)

Lemma put_u32le_bytes v : put_u32le v = map (fun k => Z.land (Z.shiftr v k) 0xFF) [0; 8; 16; 24].
Proof.
  assert (Hb : forall x, u8 (Z.land x 0xFF) = Z.land x 0xFF).
  { intros x. apply wrap_id. change 0xFF with (Z.ones 8). rewrite Z.land_ones by lia. apply Z.mod_pos_bound. lia. }
  unfold put_u32le. rewrite !Hb. done.
Qed.

Lemma get_put_u32le v rest : fits 32 v -> get_u32le (put_u32le v ++ rest) = v.
Proof.
  intros Hv. rewrite put_u32le_bytes. unfold get_u32le.
  assert (Hs : forall k, 0 <= k -> k + 8 <= 32 ->
    u32 (Z.shiftl (Z.land (Z.shiftr v k) 0xFF) k) = Z.shiftl (Z.land (Z.shiftr v k) 0xFF) k).
  { intros k Hk Hk8. apply Z.bits_inj'. intros i Hi.
    rewrite wrap_testbit, byte_slice_testbit by lia.
    destruct (Z.ltb_spec i 32), (Z.ltb_spec i (k + 8)); try lia; by rewrite ?andb_false_r. }
  change ((map _ _ ++ rest).[0]) with (Z.land (Z.shiftr v 0) 0xFF).
  change ((map _ _ ++ rest).[1]) with (Z.land (Z.shiftr v 8) 0xFF).
  change ((map _ _ ++ rest).[2]) with (Z.land (Z.shiftr v 16) 0xFF).
  change ((map _ _ ++ rest).[3]) with (Z.land (Z.shiftr v 24) 0xFF).
  rewrite !Hs, Z.shiftr_0_r by lia. by apply bytes_u32.
Qed.

Lemma crc32_fits data n : fits 32 (od_config_store_crc32 data n).
Proof. by apply wrap_fits. Qed.

Lemma crc32_range_ext n d d' i crc :
  (forall j, i <= j < i + Z.of_nat n -> d.[j] = d'.[j]) -> crc32_range n d i crc = crc32_range n d' i crc.
Proof.
  revert i crc. induction n as [|n IH]; intros i crc Hj; [done|]. cbn [crc32_range].
  rewrite (Hj i) by lia. apply IH. intros j Hr. apply Hj. lia.
Qed.

(** The CRC reads exactly the first [n] bytes. *)
Lemma crc32_prefix d d' n :
  0 <= n <= len d -> n <= len d' -> take (Z.to_nat n) d = take (Z.to_nat n) d' ->
  od_config_store_crc32 d n = od_config_store_crc32 d' n.
Proof.
  intros Hn Hn' Ht. unfold od_config_store_crc32. rewrite (crc32_range_ext _ d d'); [reflexivity|].
  intros j Hj. unfold get.
  rewrite <- (lookup_total_take_lt d (Z.to_nat n) _), <- (lookup_total_take_lt d' (Z.to_nat n) _) by lia.
  by rewrite Ht.
Qed.

#[global] Arguments od_config_store_crc32 : simpl never.
#[global] Arguments get_u32le : simpl never.
#[global] Arguments put_u32le : simpl never.

(** The framed record: the header, then the payload. *)
Definition record_of (p : bytes) : bytes :=
  put_u32le OD_CONFIG_STORE_MAGIC ++ put_u32le OD_CONFIG_STORE_VERSION ++
  put_u32le (od_config_store_crc32 p (len p)) ++ put_u32le (len p) ++ p.

Lemma memcpy_app pre old rest data :
  length old = length data -> memcpy (pre ++ old ++ rest) (len pre) data = pre ++ data ++ rest.
Proof.
  intros Hl. unfold memcpy. rewrite Nat2Z.id, take_app_length. f_equal. f_equal.
  rewrite app_assoc. rewrite <- Hl, <- length_app. apply drop_app_length.
Qed.

(** However the payload is passed, the saved span is the framed record. *)
Lemma frame_record_spec ws payload n :
  0 <= n -> 16 + n <= len ws -> n <= len (source_bytes ws payload) -> n < 2 ^ 32 ->
  let p := take (Z.to_nat n) (source_bytes ws payload) in
  take (Z.to_nat (16 + n)) (frame_record ws payload n) = record_of p /\ len p = n.
Proof.
  intros Hn Hws Hsrc Hn32. cbv zeta.
  assert (Hpl : len (take (Z.to_nat n) (source_bytes ws payload)) = n) by (rewrite length_take; lia).
  split; [|done]. set (p := take (Z.to_nat n) (source_bytes ws payload)) in *.
  unfold frame_record. cbv zeta.
  rewrite (crc32_prefix (source_bytes ws payload) p n) by (try lia; unfold p; rewrite take_take; f_equal; lia).
  set (ws1 := match payload with InPlace => ws | At _ => _ end).
  assert (H1 : exists h rest, ws1 = h ++ p ++ rest /\ length h = 16%nat).
  { unfold ws1, p. destruct payload as [|q]; cbn [source_bytes].
    - exists (take 16 ws), (drop (Z.to_nat n) (drop 16 ws)). rewrite length_take.
      split; [|lia]. change (Z.to_nat OD_CONFIG_STORE_HEADER_SIZE) with 16%nat.
      by rewrite !take_drop.
    - destruct (Z.ltb_spec 0 n).
      + exists (take 16 ws), (drop (16 + length (take (Z.to_nat n) q)) ws).
        split; [reflexivity|rewrite length_take; lia].
      + replace (Z.to_nat n) with 0%nat by lia. exists (take 16 ws), (drop 16 ws).
        rewrite length_take. split; [|lia]. rewrite take_0. symmetry. apply take_drop. }
  destruct H1 as (h & rest & -> & Hh).
  assert (Hsplit : h = take 4 h ++ take 4 (drop 4 h) ++ take 4 (drop 8 h) ++ drop 12 h).
  { clear -Hh. do 16 (destruct h as [|? h]; [discriminate|]). destruct h; [reflexivity|discriminate]. }
  rewrite Hsplit, <- !app_assoc.
  set (h1 := take 4 h). set (h2 := take 4 (drop 4 h)). set (h3 := take 4 (drop 8 h)). set (h4 := drop 12 h).
  assert (L1 : length h1 = 4%nat) by (unfold h1; rewrite length_take; lia).
  assert (L2 : length h2 = 4%nat) by (unfold h2; rewrite length_take, length_drop; lia).
  assert (L3 : length h3 = 4%nat) by (unfold h3; rewrite length_take, length_drop; lia).
  assert (L4 : length h4 = 4%nat) by (unfold h4; rewrite length_drop; lia).
  set (a := put_u32le OD_CONFIG_STORE_MAGIC). set (b := put_u32le OD_CONFIG_STORE_VERSION).
  set (c := put_u32le (od_config_store_crc32 p n)). set (d := put_u32le n).
  assert (La : length a = 4%nat) by done. assert (Lb : length b = 4%nat) by done.
  assert (Lc : length c = 4%nat) by done. assert (Ld : length d = 4%nat) by done.
  pose proof (memcpy_app [] h1 (h2 ++ h3 ++ h4 ++ p ++ rest) a ltac:(congruence)) as M.
  cbn [app length] in M. change (Z.of_nat 0) with 0 in M. rewrite M. clear M.
  replace 4 with (len a) by (rewrite La; done). rewrite (memcpy_app a h2) by congruence.
  replace 8 with (len (a ++ b)) by (rewrite length_app, La, Lb; done).
  rewrite (app_assoc a b), (memcpy_app (a ++ b) h3) by congruence.
  replace 12 with (len ((a ++ b) ++ c)) by (rewrite !length_app, La, Lb, Lc; done).
  rewrite (app_assoc (a ++ b) c), (memcpy_app ((a ++ b) ++ c) h4) by congruence.
  unfold record_of. rewrite Hpl. fold a b c d. rewrite !app_assoc.
  rewrite <- (take_app_length ((((a ++ b) ++ c) ++ d) ++ p) rest) at 2. f_equal.
  rewrite !length_app, La, Lb, Lc, Ld. lia.
Qed.

Lemma from_hal_ok rc : (rc =? OD_HAL_NVS_OK) = false -> from_hal rc <> OD_CONFIG_STORE_OK.
Proof. unfold from_hal. intros ->. repeat case_match; discriminate. Qed.

Section Theorems.
Context {E : Type} `{Nvs E}.
Variable OD_CONFIG_MAX_SIZE : Z.

(** C21. A load that succeeds returned a record it checked, whatever the medium
    does: the header the medium returned carries the magic, the length it
    declares is within both the device's cap and the caller's buffer, and the
    CRC-32 of the delivered bytes is the header's.  Every other outcome reports
    length zero. *)
Theorem store_load_checked (buf : bytes) (cap : Z) (env : E) :
  let o := od_config_store_load OD_CONFIG_MAX_SIZE (Some buf) cap env in
  (l_rc o = OD_CONFIG_STORE_OK ->
   exists header env0 env1,
     od_hal_nvs_read env0 0 16 = (OD_HAL_NVS_OK, header, env1) /\
     get_u32le header = 0xDEADBEEF /\ l_len o = get_u32le (drop 12 header) /\
     l_len o <= OD_CONFIG_MAX_SIZE /\ l_len o <= cap /\
     od_config_store_crc32 (l_buf o) (l_len o) = get_u32le (drop 8 header)) /\
  (l_rc o <> OD_CONFIG_STORE_OK -> l_len o = 0).
Proof.
  cbv zeta. unfold od_config_store_load, load_fail.
  destruct (od_hal_nvs_size env) as [[rc0 stored] env0].
  pose proof from_hal_ok as Hfh.
  destruct (rc0 =? OD_HAL_NVS_OK) eqn:E0; cbn [negb]; [|split; [intros Hx; by apply Hfh in E0|done]].
  destruct (stored <? _); [by split|]. destruct (_ <? stored); [by split|].
  destruct (od_hal_nvs_read env0 0 OD_CONFIG_STORE_HEADER_SIZE) as [[rc1 header] env1] eqn:Er.
  destruct (Z.eqb_spec rc1 OD_HAL_NVS_OK) as [->|Hne]; cbn [negb].
  2: { split; [|done]. intros Hx. exfalso. apply Z.eqb_neq in Hne. by apply Hfh in Hne. }
  unfold load_payload, load_fail. cbv zeta.
  destruct (Z.eqb_spec (get_u32le header) OD_CONFIG_STORE_MAGIC) as [Hm|]; cbn [negb]; [|by split].
  destruct (Z.ltb_spec OD_CONFIG_MAX_SIZE (get_u32le (drop 12 header))); cbn [orb]; [by split|].
  destruct (Z.ltb_spec cap (get_u32le (drop 12 header))); [by split|].
  destruct (_ <? get_u32le (drop 12 header)); [by split|].
  destruct (if 0 <? _ then _ else _) as [[rc2 b] env2].
  destruct (rc2 =? OD_HAL_NVS_OK) eqn:E2; cbn [negb]; [|split; [intros Hx; by apply Hfh in E2|done]].
  destruct (Z.eqb_spec (od_config_store_crc32 b (get_u32le (drop 12 header))) (get_u32le (drop 8 header)))
    as [Hcrc|]; cbn [negb]; [|by split].
  split; [|done]. intros _. cbn [l_len l_buf]. exists header, env0, env1. by repeat (split; [done|]).
Qed.

(** ** A medium that keeps what it is given *)

(** The documented behaviour of the storage interface on success: what was
    written is what is stored, its size is its length, and a read in range
    returns the bytes there and changes nothing. *)
Class NvsLaws (medium : E -> option bytes) : Prop := {
  write_stores env rec env' : od_hal_nvs_write env rec = (OD_HAL_NVS_OK, env') -> medium env' = Some rec;
  size_reads env rec : medium env = Some rec ->
    exists env', od_hal_nvs_size env = (OD_HAL_NVS_OK, len rec, env') /\ medium env' = Some rec;
  read_reads env rec off n : medium env = Some rec -> 0 <= off -> 0 <= n -> off + n <= len rec ->
    exists env', od_hal_nvs_read env off n
      = (OD_HAL_NVS_OK, take (Z.to_nat n) (drop (Z.to_nat off) rec), env') /\ medium env' = Some rec;
}.

Lemma record_fields p :
  len p < 2 ^ 32 ->
  let h := take 16 (record_of p) in
  get_u32le h = OD_CONFIG_STORE_MAGIC /\ get_u32le (drop 8 h) = od_config_store_crc32 p (len p) /\
  get_u32le (drop 12 h) = len p /\ drop 16 (record_of p) = p /\ len (record_of p) = 16 + len p.
Proof.
  intros Hp. cbv zeta. unfold record_of.
  set (a := put_u32le OD_CONFIG_STORE_MAGIC). set (b := put_u32le OD_CONFIG_STORE_VERSION).
  set (c := put_u32le (od_config_store_crc32 p (len p))). set (d := put_u32le (len p)).
  assert (Hh : take 16 (a ++ b ++ c ++ d ++ p) = a ++ b ++ c ++ d) by done. rewrite Hh.
  split; [by apply get_put_u32le|]. split; [apply (get_put_u32le _ d), crc32_fits|].
  split; [apply (get_put_u32le _ []); unfold fits; lia|]. split; [done|].
  rewrite !length_app. change (length a) with 4%nat. change (length b) with 4%nat.
  change (length c) with 4%nat. change (length d) with 4%nat. lia.
Qed.

(** C22. What was saved is what is loaded: on a medium that honours its
    interface, saving [n] payload bytes (from anywhere, or already in place in
    the workspace) within the caps and later loading into a buffer of at least
    [n] bytes succeeds with exactly those [n] bytes. *)
Theorem store_save_load_roundtrip (medium : E -> option bytes) (ws ws' : bytes) (wcap : Z)
    (payload : source) (n : Z) (env env1 : E) (buf : bytes) (cap : Z) :
  NvsLaws medium ->
  0 <= n <= OD_CONFIG_MAX_SIZE -> OD_CONFIG_MAX_SIZE < 2 ^ 32 - 16 ->
  wcap <= len ws -> n <= len (source_bytes ws payload) -> n <= cap <= len buf ->
  od_config_store_save OD_CONFIG_MAX_SIZE (Some ws) wcap (Some payload) n env
    = (OD_CONFIG_STORE_OK, Some ws', env1) ->
  let o := od_config_store_load OD_CONFIG_MAX_SIZE (Some buf) cap env1 in
  l_rc o = OD_CONFIG_STORE_OK /\ l_len o = n /\
  take (Z.to_nat n) (l_buf o) = take (Z.to_nat n) (source_bytes ws payload).
Proof.
  intros Hlaws Hn Hmax Hws Hsrc Hcap. unfold od_config_store_save, OD_CONFIG_STORE_HEADER_SIZE.
  destruct (Z.ltb_spec OD_CONFIG_MAX_SIZE n); [discriminate|].
  rewrite (wrap_id 32 (16 + n)) by (unfold fits; lia).
  destruct (Z.ltb_spec wcap (16 + n)); [discriminate|].
  destruct (frame_record_spec ws payload n ltac:(lia) ltac:(lia) Hsrc ltac:(lia)) as [Hf Hpl].
  rewrite Hf. set (p := take (Z.to_nat n) (source_bytes ws payload)) in *.
  destruct (od_hal_nvs_write env (record_of p)) as [rc env2] eqn:Ew. intros [= Hrc <- ->].
  assert (rc = OD_HAL_NVS_OK) as ->.
  { destruct (Z.eqb_spec rc OD_HAL_NVS_OK) as [->|Hne]; [done|]. by apply Z.eqb_neq, from_hal_ok in Hne. }
  apply (write_stores (NvsLaws := Hlaws)) in Ew.
  destruct (record_fields p ltac:(lia)) as (Hmg & Hcr & Hdl & Hpay & Hlen).
  unfold od_config_store_load, OD_CONFIG_STORE_MAX_RECORD, OD_CONFIG_STORE_HEADER_SIZE.
  destruct (size_reads (NvsLaws := Hlaws) _ _ Ew) as (env3 & -> & E3). cbn [negb Z.eqb OD_HAL_NVS_OK].
  change (negb (OD_HAL_NVS_OK =? OD_HAL_NVS_OK)) with false. cbv iota.
  rewrite Hlen. destruct (Z.ltb_spec (16 + len p) 16); [lia|].
  destruct (Z.ltb_spec (16 + OD_CONFIG_MAX_SIZE) (16 + len p)); [lia|].
  destruct (read_reads (NvsLaws := Hlaws) _ _ 0 16 E3 ltac:(lia) ltac:(lia) ltac:(lia)) as (env4 & -> & E4).
  change (negb (OD_HAL_NVS_OK =? OD_HAL_NVS_OK)) with false. cbv iota.
  change (drop (Z.to_nat 0) (record_of p)) with (record_of p). change (Z.to_nat 16) with 16%nat.
  unfold load_payload, OD_CONFIG_STORE_HEADER_SIZE. cbv zeta. rewrite Hmg, Hcr, Hdl, Hpl.
  change (negb (OD_CONFIG_STORE_MAGIC =? OD_CONFIG_STORE_MAGIC)) with false. cbv iota.
  destruct (Z.ltb_spec OD_CONFIG_MAX_SIZE n); [lia|]. cbn [orb].
  destruct (Z.ltb_spec cap n); [lia|]. rewrite (wrap_id 32 (16 + n - 16)) by (unfold fits; lia).
  destruct (Z.ltb_spec (16 + n - 16) n); [lia|].
  assert (Hmc : forall q, len q = n -> take (Z.to_nat n) (memcpy buf 0 q) = q).
  { intros q Hq. pose proof (take_memcpy buf 0 q ltac:(lia) ltac:(lia)) as Ht.
    rewrite Z.add_0_l, Hq in Ht. exact Ht. }
  assert (Hfin : forall b (env' : E), n <= len b -> take (Z.to_nat n) b = p ->
    let o := if negb (od_config_store_crc32 b n =? od_config_store_crc32 p n)
             then load_fail OD_CONFIG_STORE_CORRUPT b env'
             else {| l_rc := OD_CONFIG_STORE_OK; l_buf := b; l_len := n; l_env := env' |} in
    l_rc o = OD_CONFIG_STORE_OK /\ l_len o = n /\ take (Z.to_nat n) (l_buf o) = p).
  { intros b env' Hb Hp. rewrite (crc32_prefix b p n) by (try lia; by rewrite Hp, take_ge by lia).
    rewrite Z.eqb_refl. by repeat split. }
  destruct (Z.ltb_spec 0 n) as [Hpos|Hz].
  - destruct (read_reads (NvsLaws := Hlaws) _ _ 16 n E4 ltac:(lia) ltac:(lia) ltac:(lia)) as (env5 & -> & E5).
    change (Z.to_nat 16) with 16%nat. rewrite Hpay, (take_ge p) by lia.
    change (negb (OD_HAL_NVS_OK =? OD_HAL_NVS_OK)) with false. cbv iota.
    apply Hfin; [rewrite len_memcpy; lia|by apply Hmc].
  - change (negb (OD_HAL_NVS_OK =? OD_HAL_NVS_OK)) with false. cbv iota.
    apply Hfin; [lia|]. assert (n = 0) as -> by lia. unfold p. by rewrite !take_0.
Qed.
End Theorems.

(** ** A concrete medium: one optional record *)

#[local] Instance toy_nvs : Nvs (option bytes) := {
  od_hal_nvs_init e := (0, e);
  od_hal_nvs_size e := match e with Some r => (0, len r, e) | None => (-2, 0, e) end;
  od_hal_nvs_read e off n :=
    match e with
    | Some r => if off + n <=? len r then (0, take (Z.to_nat n) (drop (Z.to_nat off) r), e) else (-7, [], e)
    | None => (-2, [], e)
    end;
  od_hal_nvs_write _ r := (0, Some r);
  od_hal_nvs_erase _ := (0, None);
}.

Lemma toy_nvs_laws : NvsLaws (E := option bytes) (fun e => e).
Proof.
  split.
  - intros env rec env' [= <-]. done.
  - intros env rec ->. by exists (Some rec).
  - intros env rec off n -> H1 H2 H3. exists (Some rec). simpl.
    destruct (Z.leb_spec (off + n) (len rec)); [done|lia].
Qed.

Definition demo_saved : option bytes :=
  (od_config_store_save 4096 (Some (replicate 64 9)) 64 (Some (At [1; 2; 3; 4; 5])) 5 None).2.

Lemma store_load_checked_witness :
  let o := od_config_store_load 4096 (Some (replicate 8 0)) 8 demo_saved in
  l_rc o = OD_CONFIG_STORE_OK /\ l_len o <= 8 /\
  l_len (od_config_store_load 4096 (Some (replicate 8 0)) 4 demo_saved) = 0.
Proof.
  cbv zeta. split; [vm_compute; reflexivity|]. split.
  - destruct (store_load_checked 4096 (replicate 8 0) 8 demo_saved) as [Hok _].
    destruct (Hok ltac:(vm_compute; reflexivity)) as (? & ? & ? & _ & _ & _ & _ & Hc & _). exact Hc.
  - apply (store_load_checked 4096 (replicate 8 0) 4 demo_saved). vm_compute. discriminate.
Defined.

Lemma store_save_load_roundtrip_witness :
  let o := od_config_store_load 4096 (Some (replicate 8 0)) 8 demo_saved in
  l_rc o = OD_CONFIG_STORE_OK /\ l_len o = 5 /\ take 5 (l_buf o) = [1; 2; 3; 4; 5].
Proof.
  destruct (od_config_store_save 4096 (Some (replicate 64 9)) 64 (Some (At [1; 2; 3; 4; 5])) 5 None)
    as [[rc ws'] env1] eqn:Es.
  assert (Hs : rc = OD_CONFIG_STORE_OK /\ exists w, ws' = Some w /\ env1 = demo_saved).
  { unfold demo_saved. rewrite Es. injection Es as <- <- <-. split; [reflexivity|]. eexists. split; reflexivity. }
  destruct Hs as (-> & w & -> & ->).
  apply (store_save_load_roundtrip 4096 (fun e => e) (replicate 64 9) w 64 (At [1; 2; 3; 4; 5]) 5 None
           demo_saved (replicate 8 0) 8 toy_nvs_laws); try exact Es; vm_compute; try split; congruence.
Defined.

End ConfigStore.
