(* ===== verification/ConfigRead.v ===== *)
(** Reading the configuration back, [shared/core/od_config_read.c]: a resumable
    producer that queues one chunk per pass. *)

From S2P Require Import Prelude Hal TxQueue Span Proto Session World Reply.
Import Hal TxQueue Span Proto Session World Reply.

Module ConfigRead.

Definition HDR_COMMON : Z := 4.
Definition HDR_FIRST : Z := HDR_COMMON + 2.
Definition MAX_RESPONSE_DATA_SIZE : Z := 100.
Definition RESP_CONFIG_READ : Z := 0x40.

(** The static state [s]. *)
Record reader := {
  active : bool; rp : od_reply_t; res : od_tx_reservation;
  blob : option bytes; blob_len : Z; offset : Z; chunk : Z;
}.

Definition zero_rp : od_reply_t := {| rp_origin := OD_ORIGIN_BLE; rp_tag := 0 |}.
Definition zero_token : od_tx_reservation := {| remaining := 0; gen := 0 |}.

(** [memset(&s, 0, sizeof s)] *)
Definition reader_zero : reader :=
  {| active := false; rp := zero_rp; res := zero_token; blob := None; blob_len := 0; offset := 0; chunk := 0 |}.

Definition set_active (s : reader) (a : bool) : reader :=
  {| active := a; rp := rp s; res := res s; blob := blob s; blob_len := blob_len s;
     offset := offset s; chunk := chunk s |}.

Definition set_res (s : reader) (t : od_tx_reservation) : reader :=
  {| active := active s; rp := rp s; res := t; blob := blob s; blob_len := blob_len s;
     offset := offset s; chunk := chunk s |}.

Definition blob_bytes (s : reader) : bytes := match blob s with Some b => b | None => [] end.

(** The header of a chunk: its number, and the total in the first. *)
Definition chunk_header (s : reader) : bytes :=
  [RESP_ACK; RESP_CONFIG_READ; u8 (Z.land (chunk s) 0xFF); u8 (Z.land (Z.shiftr (chunk s) 8) 0xFF)]
  ++ (if chunk s =? 0 then [u8 (Z.land (blob_len s) 0xFF); u8 (Z.land (Z.shiftr (blob_len s) 8) 0xFF)] else []).

(** [take]: as many bytes as the frame has room for. *)
Definition chunk_take (s : reader) : Z :=
  let remaining := u32 (blob_len s - offset s) in
  let room := u16 (MAX_RESPONSE_DATA_SIZE - len (chunk_header s)) in
  if remaining <? room then u16 remaining else room.

Definition chunk_data (s : reader) : bytes :=
  take (Z.to_nat (chunk_take s)) (drop (Z.to_nat (offset s)) (blob_bytes s)).

Definition chunk_frame (s : reader) : bytes := chunk_header s ++ chunk_data s.

(** The state after a chunk is queued. *)
Definition advance (s : reader) : reader :=
  let off := u32 (offset s + chunk_take s) in
  {| active := if blob_len s <=? off then false else active s; rp := rp s; res := res s; blob := blob s;
     blob_len := blob_len s; offset := off; chunk := u16 (chunk s + 1) |}.

Section Operations.
Context {E : Type} `{Radio E} `{Crypto E} `{SessionApp E}.

(** [emit_chunk] with the token [r] points to. *)
Definition emit_chunk (w : world E) (s : reader) (r : od_tx_reservation)
  : world E * reader * od_tx_reservation * od_txq_status :=
  let n := u16 (len (chunk_header s) + chunk_take s) in
  let '(w, r', rc) := od_reply w (Some r) (Some (rp s)) (Some (chunk_frame s)) n in
  let r := match r' with Some t => t | None => r end in
  match rc with
  | OD_TXQ_OK => (w, advance s, r, OD_TXQ_OK)
  | rc => (w, s, r, rc)
  end.

Definition release_token (w : world E) (t : od_tx_reservation) : world E * od_tx_reservation :=
  let '(q, t') := od_txq_release (w_txq w) (Some t) in
  (set_txq w q (w_env w), match t' with Some t => t | None => t end).

(** [od_config_read_cancel]. *)
Definition od_config_read_cancel (w : world E) (s : reader) : world E * reader :=
  if negb (active s) then (w, s)
  else
    let '(w, t) := release_token w (res s) in
    (w, {| active := false; rp := rp s; res := t; blob := None; blob_len := blob_len s;
           offset := offset s; chunk := chunk s |}).

(** [od_config_read_start]: world, producer, the caller's token, status. *)
Definition od_config_read_start (w : world E) (s : reader) (p : option od_reply_t)
    (r : option od_tx_reservation) (b : option bytes) (n : Z)
  : world E * reader * option od_tx_reservation * od_txq_status :=
  match p, r with
  | Some p, Some t =>
      if active s then (w, s, r, OD_TXQ_INVARIANT)
      else
        let s := {| active := false; rp := p; res := zero_token; blob := None; blob_len := 0;
                    offset := 0; chunk := 0 |} in
        match b with
        | Some bs =>
            if n =? 0 then
              let '(w, r, rc) := od_reply_plain w r (Some p) (Some [RESP_NACK; RESP_CONFIG_READ; 0; 0]) 4 in
              (w, s, r, rc)
            else
              let s := {| active := true; rp := p; res := t; blob := b; blob_len := n;
                          offset := 0; chunk := 0 |} in
              let '(w, s, t1, rc) := emit_chunk w s (res s) in
              let r := Some {| remaining := 0; gen := gen t |} in
              let s := set_res s t1 in
              match rc with
              | OD_TXQ_OK => (w, s, r, OD_TXQ_OK)
              | rc =>
                  let '(w, t2) := release_token w (res s) in
                  (w, set_active (set_res s t2) false, r, rc)
              end
        | None =>
            let '(w, r, rc) := od_reply_plain w r (Some p) (Some [RESP_NACK; RESP_CONFIG_READ; 0; 0]) 4 in
            (w, s, r, rc)
        end
  | _, _ => (w, s, r, OD_TXQ_INVARIANT)
  end.

Definition od_config_read_pump (w : world E) (s : reader) : world E * reader * od_txq_status :=
  if negb (active s) then (w, s, OD_TXQ_OK)
  else
    let '(q, r, rc) := od_txq_reserve (w_txq w) 1 (Some zero_token) in
    let w := set_txq w q (w_env w) in
    match rc, r with
    | OD_TXQ_OK, Some t =>
        let '(w, s, t, rc) := emit_chunk w s t in
        let '(w, _) := release_token w t in
        match rc with
        | OD_TXQ_OK | OD_TXQ_FULL => (w, s, rc)
        | rc => let '(w, s) := od_config_read_cancel w s in (w, s, rc)
        end
    | rc, _ => (w, s, rc)
    end.

Definition od_config_read_active (s : reader) : bool := active s.
End Operations.

(** ** The frames a read consists of *)

(** A read in progress over a stored configuration of at most 65535 bytes. *)
Definition reading (s : reader) : Prop :=
  exists b, blob s = Some b /\ len b = blob_len s /\ 0 <= chunk s <= offset s /\
    offset s < blob_len s < 2 ^ 16 /\ active s = true /\ (chunk s = 0 <-> offset s = 0).

Definition finished (s : reader) : Prop := active s = false.

(** The frames from state [s] to the end. *)
Fixpoint stream (fuel : nat) (s : reader) : list bytes :=
  match fuel with
  | O => []
  | S fuel => if active s then chunk_frame s :: stream fuel (advance s) else []
  end.

Definition rest_of (s : reader) : list bytes := stream (Z.to_nat (blob_len s - offset s)) s.

(** How the host joins a read: the first frame carries six bytes of header, the
    others four. *)
Definition payload_of (k : Z) (f : bytes) : bytes := drop (if k =? 0 then 6 else 4) f.
Fixpoint join (k : Z) (fs : list bytes) : bytes :=
  match fs with
  | [] => []
  | f :: fs => payload_of k f ++ join (k + 1) fs
  end.

(** A frame of chunk number [k]. *)
Definition frame_ok (k : Z) (f : bytes) : Prop :=
  len f <= 100 /\ take 4 f = [0; 0x40; k mod 256; k / 256].
Fixpoint numbered (k : Z) (fs : list bytes) : Prop :=
  match fs with
  | [] => True
  | f :: fs => frame_ok k f /\ numbered (k + 1) fs
  end.

Lemma chunk_header_len s : len (chunk_header s) = if chunk s =? 0 then 6 else 4.
Proof. unfold chunk_header. by destruct (chunk s =? 0). Qed.

Lemma chunk_take_range s :
  reading s -> 1 <= chunk_take s <= blob_len s - offset s /\
  len (chunk_header s) + chunk_take s <= 100 /\
  (chunk_take s < blob_len s - offset s -> 94 <= chunk_take s).
Proof.
  intros (b & _ & _ & Hc & Ho & _). unfold chunk_take. cbv zeta.
  pose proof (chunk_header_len s) as Hh. rewrite Hh.
  rewrite (wrap_id 32) by (unfold fits; lia).
  assert (Hr : u16 (MAX_RESPONSE_DATA_SIZE - (if chunk s =? 0 then 6 else 4))
               = if chunk s =? 0 then 94 else 96) by (by destruct (chunk s =? 0)).
  rewrite Hr. destruct (chunk s =? 0), (Z.ltb_spec (blob_len s - offset s) 94),
    (Z.ltb_spec (blob_len s - offset s) 96); try rewrite (wrap_id 16) by (unfold fits; lia); lia.
Qed.

Lemma chunk_data_len s : reading s -> len (chunk_data s) = chunk_take s.
Proof.
  intros Hs. pose proof (chunk_take_range s Hs) as (Ht & _). destruct Hs as (b & Hb & Hl & Hc & Ho & _).
  unfold chunk_data, blob_bytes. rewrite Hb, length_take, length_drop. lia.
Qed.

(** A queued chunk leaves the read in progress further on, or finished. *)
Lemma advance_reading s :
  reading s ->
  blob s = blob (advance s) /\ blob_len (advance s) = blob_len s /\
  offset (advance s) = offset s + chunk_take s /\ chunk (advance s) = chunk s + 1 /\
  (reading (advance s) \/ finished (advance s) /\ offset (advance s) = blob_len s).
Proof.
  intros Hs. pose proof (chunk_take_range s Hs) as (Ht & _). destruct Hs as (b & Hb & Hl & Hc & Ho & Ha & Hz).
  assert (Hoff : offset (advance s) = offset s + chunk_take s)
    by (unfold advance; cbn; apply wrap_id; unfold fits; lia).
  assert (Hch : chunk (advance s) = chunk s + 1) by (unfold advance; cbn; apply wrap_id; unfold fits; lia).
  do 2 (split; [done|]). split; [done|]. split; [done|].
  assert (Hact : active (advance s) = if blob_len s <=? offset (advance s) then false else active s) by done.
  destruct (Z.leb_spec (blob_len s) (offset (advance s))) as [Hle|Hlt].
  - right. split; [done|]. lia.
  - left. exists b. rewrite Hact. split; [done|]. change (blob_len (advance s)) with (blob_len s).
    repeat split; try lia; done.
Qed.

Lemma frame_shape s :
  reading s -> frame_ok (chunk s) (chunk_frame s) /\ payload_of (chunk s) (chunk_frame s) = chunk_data s.
Proof.
  intros Hs. pose proof (chunk_take_range s Hs) as (Ht & Hcap & _). pose proof (chunk_data_len s Hs) as Hd.
  destruct Hs as (b & Hb & Hl & Hc & Ho & Ha). unfold frame_ok, payload_of, chunk_frame.
  rewrite length_app. split; [split; [lia|]|].
  - assert (Hb2 : forall x, 0 <= x < 2 ^ 16 ->
      u8 (Z.land x 0xFF) = x mod 256 /\ u8 (Z.land (Z.shiftr x 8) 0xFF) = x / 256).
    { intros x Hx. change 0xFF with (Z.ones 8). rewrite !Z.land_ones, Z.shiftr_div_pow2 by lia.
      change (2 ^ 8) with 256. split; wrap_norm; Z.to_euclidean_division_equations; lia. }
    destruct (Hb2 (chunk s) ltac:(lia)) as [E1 E2]. unfold chunk_header. rewrite E1, E2. done.
  - pose proof (chunk_header_len s) as Hh. destruct (chunk s =? 0).
    + replace 6%nat with (length (chunk_header s)) by lia. apply drop_app_length.
    + replace 4%nat with (length (chunk_header s)) by lia. apply drop_app_length.
Qed.

(** Fuel beyond the bytes left changes nothing. *)
Lemma stream_fuel n m s :
  reading s -> blob_len s - offset s <= Z.of_nat n -> blob_len s - offset s <= Z.of_nat m ->
  stream n s = stream m s.
Proof.
  revert m s. induction n as [|n IH]; intros [|m] s Hs Hn Hm; try done.
  1, 2: destruct Hs as (b & _ & _ & _ & Ho & _); lia.
  cbn [stream]. destruct (advance_reading s Hs) as (_ & Hbl & Hoff & _ & Hnext).
  pose proof (chunk_take_range s Hs) as (Ht & _).
  destruct (active s); [|done]. f_equal. destruct Hnext as [Hr|[Hf _]].
  - apply IH; [done|lia|lia].
  - destruct n, m; cbn [stream]; by rewrite ?Hf.
Qed.

Lemma rest_of_step s :
  reading s ->
  rest_of s = chunk_frame s :: (if active (advance s) then rest_of (advance s) else []).
Proof.
  intros Hs. destruct (advance_reading s Hs) as (_ & Hbl & Hoff & _ & Hnext).
  pose proof (chunk_take_range s Hs) as (Ht & _). unfold rest_of at 1.
  assert (Ha : active s = true) by (by destruct Hs as (? & _ & _ & _ & _ & ? & _)).
  destruct (Z.to_nat (blob_len s - offset s)) as [|n] eqn:En; [lia|]. cbn [stream]. rewrite Ha. f_equal.
  destruct Hnext as [Hr|[Hf _]].
  - destruct (active (advance s)) eqn:Ea; [|by destruct Hr as (? & _ & _ & _ & _ & ? & _); congruence].
    apply stream_fuel; [done|lia|lia].
  - rewrite Hf. destruct n; cbn [stream]; by rewrite ?Hf.
Qed.

(** The frames left carry exactly the bytes left, numbered from here. *)
Lemma rest_of_joins s :
  reading s ->
  join (chunk s) (rest_of s) = drop (Z.to_nat (offset s)) (blob_bytes s) /\ numbered (chunk s) (rest_of s).
Proof.
  remember (Z.to_nat (blob_len s - offset s)) as n eqn:En. revert s En.
  induction n as [n IH] using lt_wf_ind. intros s En Hs.
  rewrite (rest_of_step s Hs). destruct (frame_shape s Hs) as [Hok Hpay]. cbn [join numbered]. rewrite Hpay.
  destruct (advance_reading s Hs) as (Hb & Hbl & Hoff & Hch & Hnext).
  pose proof (chunk_take_range s Hs) as (Ht & _). rewrite <- Hch.
  assert (Hbb : blob_bytes (advance s) = blob_bytes s) by (unfold blob_bytes; by rewrite <- Hb).
  assert (Hsplit : chunk_data s ++ drop (Z.to_nat (offset (advance s))) (blob_bytes s)
                   = drop (Z.to_nat (offset s)) (blob_bytes s)).
  { unfold chunk_data. rewrite Hoff. replace (Z.to_nat (offset s + chunk_take s))
      with (Z.to_nat (offset s) + Z.to_nat (chunk_take s))%nat by (destruct Hs as (? & _ & _ & ? & _); lia).
    rewrite <- drop_drop. apply take_drop. }
  destruct Hnext as [Hr|[Hf Hend]].
  - destruct (active (advance s)) eqn:Ea; [|by destruct Hr as (? & _ & _ & _ & _ & ? & _); congruence].
    destruct (IH (Z.to_nat (blob_len (advance s) - offset (advance s))) ltac:(lia) (advance s) eq_refl Hr) as [Hj Hnum].
    rewrite Hj, Hbb. by split.
  - rewrite Hf. cbn [join numbered]. split; [|done]. rewrite <- Hsplit. f_equal. symmetry. apply drop_ge.
    destruct Hs as (b & Hbs & Hl & _). unfold blob_bytes. rewrite Hbs. lia.
Qed.

Section Theorems.
Context {E : Type} `{Radio E} `{Crypto E} `{SessionApp E}.

(** A sequence of passes: the frames that were accepted, and where the producer
    got to.  Between passes the world may change arbitrarily, [between]. *)
Fixpoint pump_run (between : list (world E -> world E)) (w : world E) (s : reader)
  : list bytes * reader :=
  match between with
  | [] => ([], s)
  | f :: fs =>
      if active s then
        let '(w, s', rc) := od_config_read_pump w s in
        let '(sent, s'') := pump_run fs (f w) s' in
        ((if bool_decide (rc = OD_TXQ_OK) then [chunk_frame s] else []) ++ sent, s'')
      else ([], s)
  end.

(** One pass on an active producer: it advances, stays, or is cancelled. *)
Lemma pump_cases (w w' : world E) s s' rc :
  active s = true -> od_config_read_pump w s = (w', s', rc) ->
  (rc = OD_TXQ_OK /\ s' = advance s) \/ (rc = OD_TXQ_FULL /\ s' = s) \/
  (rc <> OD_TXQ_OK /\ (s' = s \/ active s' = false)).
Proof.
  intros Ha. unfold od_config_read_pump. rewrite Ha. cbn [negb].
  destruct (od_txq_reserve _ _ _) as [[q r] rc0] eqn:Er.
  assert (Hne : forall r0, rc0 = OD_TXQ_OK -> r = r0 -> is_Some r0).
  { intros r0 -> <-. unfold od_txq_reserve in Er. cbn in Er. repeat case_match; simplify_eq; eauto. }
  destruct rc0; try (intros [= <- <- <-]; right; right; split; [done|by left]).
  destruct (Hne r eq_refl eq_refl) as [t ->].
  unfold emit_chunk. destruct (od_reply _ _ _ _ _) as [[w1 r1] rc1].
  destruct rc1; destruct (release_token w1 _) as [w2 t2];
    try (unfold od_config_read_cancel; rewrite Ha; cbn [negb]; destruct (release_token w2 _) as [w3 t3]);
    intros [= <- <- <-]; try (by left); try (by right; left).
  all: right; right; split; [done|by right].
Qed.

End Theorems.

(** A 200-byte configuration, read over a protected link. *)
Definition demo_blob : bytes := map (fun i => Z.of_nat i) (seq 0 200).
Definition demo_reader : reader :=
  {| active := true; rp := toy_rp; res := zero_token; blob := Some demo_blob; blob_len := 200;
     offset := 0; chunk := 0 |}.


End ConfigRead.
