(* ===== verification/Color.v ===== *)
(** How a colour scheme lays a frame out in bytes, [shared/core/od_color.c]. *)

From S2P Require Import Prelude.

Module Color.

(** [od_color_status_t], [od_color_layout_t], [od_color_plane_t]. *)
Inductive od_color_status :=
| OD_COLOR_OK | OD_COLOR_UNSUPPORTED | OD_COLOR_BAD_GEOMETRY | OD_COLOR_OVERFLOW.

Inductive od_color_layout :=
| OD_COLOR_LAYOUT_PACKED_ROWS | OD_COLOR_LAYOUT_CONTROLLER_PLANES | OD_COLOR_LAYOUT_SPLIT_HALVES.

Inductive od_color_plane := OD_COLOR_PLANE_0 | OD_COLOR_PLANE_1 | OD_COLOR_PLANE_NONE.

#[export] Instance od_color_status_eq_dec : EqDecision od_color_status.
Proof. solve_decision. Defined.
#[export] Instance od_color_layout_eq_dec : EqDecision od_color_layout.
Proof. solve_decision. Defined.

(** [enum OD_COLOR_SCHEME] and the one value [od_color.h] adds. *)
Definition OD_COLOR_SCHEME_MONO : Z := 0.
Definition OD_COLOR_SCHEME_BWR : Z := 1.
Definition OD_COLOR_SCHEME_BWY : Z := 2.
Definition OD_COLOR_SCHEME_BWRY : Z := 3.
Definition OD_COLOR_SCHEME_BWGBRY : Z := 4.
Definition OD_COLOR_SCHEME_GRAY4 : Z := 5.
Definition OD_COLOR_SCHEME_GRAY16 : Z := 6.
Definition OD_COLOR_SCHEME_SEVEN_COLOR : Z := 7.
Definition OD_COLOR_SCHEME_BWGBRY_SPLIT : Z := 8.

(** [od_color_geometry_t]; the arrays have two elements. *)
Record od_color_geometry := {
  layout : od_color_layout; bits_per_pixel : Z; part_count : Z; initial_plane : od_color_plane;
  partial_supported : bool; part_width : list Z; row_bytes : list Z; part_bytes : list Z;
  total_bytes : Z;
}.

(** [memset(&out, 0, sizeof(out))] *)
Definition geometry_zero : od_color_geometry :=
  {| layout := OD_COLOR_LAYOUT_PACKED_ROWS; bits_per_pixel := 0; part_count := 0;
     initial_plane := OD_COLOR_PLANE_0; partial_supported := false;
     part_width := [0; 0]; row_bytes := [0; 0]; part_bytes := [0; 0]; total_bytes := 0 |}.

Definition UINT32_MAX : Z := 2 ^ 32 - 1.

(** [part_geometry]: the row and the part, when both fit 32 bits. *)
Definition part_geometry (width height bpp : Z) : option (Z * Z) :=
  let row_bits := u64 (width * bpp) in
  let row := u64 (row_bits + 7) / 8 in
  let part := u64 (row * height) in
  if (UINT32_MAX <? row) || (UINT32_MAX <? part) then None else Some (u32 row, u32 part).

(** One arm of the [switch]. *)
Definition shape (l : od_color_layout) (bpp count : Z) (plane : od_color_plane) (partial : bool)
    (w0 w1 : Z) : od_color_geometry :=
  {| layout := l; bits_per_pixel := bpp; part_count := count; initial_plane := plane;
     partial_supported := partial; part_width := [w0; w1]; row_bytes := [0; 0];
     part_bytes := [0; 0]; total_bytes := 0 |}.

(** The [switch] of [od_color_direct_geometry]; [None] is its default arm. *)
Definition scheme_shape (scheme width : Z) : option od_color_geometry :=
  if scheme =? OD_COLOR_SCHEME_MONO then
    Some (shape OD_COLOR_LAYOUT_PACKED_ROWS 1 1 OD_COLOR_PLANE_0 true width 0)
  else if (scheme =? OD_COLOR_SCHEME_BWR) || (scheme =? OD_COLOR_SCHEME_BWY)
          || (scheme =? OD_COLOR_SCHEME_GRAY4) then
    Some (shape OD_COLOR_LAYOUT_CONTROLLER_PLANES 1 2 OD_COLOR_PLANE_0 false width width)
  else if scheme =? OD_COLOR_SCHEME_BWRY then
    Some (shape OD_COLOR_LAYOUT_PACKED_ROWS 2 1 OD_COLOR_PLANE_1 false width 0)
  else if (scheme =? OD_COLOR_SCHEME_BWGBRY) || (scheme =? OD_COLOR_SCHEME_SEVEN_COLOR) then
    Some (shape OD_COLOR_LAYOUT_PACKED_ROWS 4 1 OD_COLOR_PLANE_1 false width 0)
  else if scheme =? OD_COLOR_SCHEME_GRAY16 then
    Some (shape OD_COLOR_LAYOUT_PACKED_ROWS 4 1 OD_COLOR_PLANE_0 false width 0)
  else if scheme =? OD_COLOR_SCHEME_BWGBRY_SPLIT then
    Some (shape OD_COLOR_LAYOUT_SPLIT_HALVES 4 2 OD_COLOR_PLANE_NONE false
            (width / 2) (u32 (width - width / 2)))
  else None.

(** [out] with the sizes of its parts filled in. *)
Definition with_sizes (g : od_color_geometry) (r0 r1 p0 p1 total : Z) : od_color_geometry :=
  {| layout := layout g; bits_per_pixel := bits_per_pixel g; part_count := part_count g;
     initial_plane := initial_plane g; partial_supported := partial_supported g;
     part_width := part_width g; row_bytes := [r0; r1]; part_bytes := [p0; p1]; total_bytes := total |}.

(** The sizes of the second part: zero unless there is one. *)
Definition second_part (g : od_color_geometry) (height : Z) : option (Z * Z) :=
  if part_count g =? 2 then part_geometry (part_width g).[1] height (bits_per_pixel g)
  else Some (0, 0).

(** [od_color_direct_geometry], for a non-null [geometry]: its status and what
    it leaves there. *)
Definition od_color_direct_geometry (scheme width height : Z)
  : od_color_status * od_color_geometry :=
  if (width =? 0) || (height =? 0) then (OD_COLOR_BAD_GEOMETRY, geometry_zero)
  else
    match scheme_shape scheme width with
    | None => (OD_COLOR_UNSUPPORTED, geometry_zero)
    | Some out =>
        match part_geometry (part_width out).[0] height (bits_per_pixel out) with
        | None => (OD_COLOR_OVERFLOW, geometry_zero)
        | Some (r0, p0) =>
            match second_part out height with
            | None => (OD_COLOR_OVERFLOW, geometry_zero)
            | Some (r1, p1) =>
                let total := u64 (p0 + p1) in
                if UINT32_MAX <? total then (OD_COLOR_OVERFLOW, geometry_zero)
                else (OD_COLOR_OK, with_sizes out r0 r1 p0 p1 (u32 total))
            end
        end
    end.

(** ** Specification *)

(** Bytes of one part: rows padded to whole bytes. *)
Definition row_size (width bpp : Z) : Z := (width * bpp + 7) / 8.
Definition part_size (width height bpp : Z) : Z := row_size width bpp * height.

Lemma part_geometry_spec width height bpp :
  fits 32 width -> fits 32 height -> 0 <= bpp <= 8 ->
  part_geometry width height bpp =
    if (UINT32_MAX <? row_size width bpp) || (UINT32_MAX <? part_size width height bpp) then None
    else Some (row_size width bpp, part_size width height bpp).
Proof.
  intros Hw Hh Hb. unfold part_geometry, part_size.
  assert (Hbits : 0 <= width * bpp < 2 ^ 35).
  { unfold fits in Hw. change (2 ^ 35) with (2 ^ 32 * 8).
    split; [apply Z.mul_nonneg_nonneg; lia|nia]. }
  rewrite (wrap_id 64 (width * bpp)) by (unfold fits in *; lia).
  rewrite (wrap_id 64 (width * bpp + 7)) by (unfold fits in *; lia).
  fold (row_size width bpp).
  assert (Hrow : 0 <= row_size width bpp < 2 ^ 32 + 1).
  { unfold row_size. split; [apply Z.div_pos; lia|]. apply Z.div_lt_upper_bound; [lia|].
    unfold fits in Hw. nia. }
  rewrite (wrap_id 64 (row_size width bpp * height)) by (unfold fits in *; split; [apply Z.mul_nonneg_nonneg; lia|nia]).
  unfold UINT32_MAX. destruct (Z.ltb_spec (2 ^ 32 - 1) (row_size width bpp)); [done|].
  destruct (Z.ltb_spec (2 ^ 32 - 1) (row_size width bpp * height)); [done|]. cbn [orb].
  rewrite !wrap_id; [done| |]; unfold fits in *; [split; [apply Z.mul_nonneg_nonneg; lia|lia]|lia].
Qed.

Lemma part_size_pos width height bpp :
  0 < width -> 0 < height -> 1 <= bpp -> 0 < row_size width bpp <= part_size width height bpp.
Proof.
  intros Hw Hh Hb. unfold part_size.
  assert (1 <= row_size width bpp) by (apply Z.div_le_lower_bound; nia). nia.
Qed.

(** What the switch can produce. *)
Lemma scheme_shape_cases scheme width g :
  fits 32 width -> scheme_shape scheme width = Some g ->
  1 <= bits_per_pixel g <= 4 /\
  ((part_count g = 1 /\ part_width g = [width; 0]) \/
   (part_count g = 2 /\ layout g = OD_COLOR_LAYOUT_CONTROLLER_PLANES /\ part_width g = [width; width]) \/
   (part_count g = 2 /\ layout g = OD_COLOR_LAYOUT_SPLIT_HALVES /\
    part_width g = [width / 2; width - width / 2])).
Proof.
  intros Hw. unfold scheme_shape.
  assert (Hh : u32 (width - width / 2) = width - width / 2)
    by (apply wrap_id; unfold fits in *; split; [|]; Z.to_euclidean_division_equations; lia).
  repeat match goal with |- context [if ?b then _ else _] => destruct b end;
    intros [= <-]; cbn [shape bits_per_pixel part_count part_width layout]; rewrite ?Hh;
    (split; [lia|auto]).
Qed.

(** The byte total of a shape, over the integers. *)
Definition shape_total (g : od_color_geometry) (height : Z) : Z :=
  part_size (part_width g).[0] height (bits_per_pixel g)
  + (if part_count g =? 2 then part_size (part_width g).[1] height (bits_per_pixel g) else 0).

Lemma get_pair_0 (a b : Z) : [a; b].[0] = a.
Proof. reflexivity. Qed.
Lemma get_pair_1 (a b : Z) : [a; b].[1] = b.
Proof. reflexivity. Qed.

(** Every size of the parts that exist fits, as soon as the total does. *)
Lemma sizes_of_shape scheme width height g :
  fits 32 width -> fits 32 height -> width <> 0 -> height <> 0 ->
  scheme_shape scheme width = Some g ->
  let w0 := (part_width g).[0] in
  let w1 := (part_width g).[1] in
  let p0 := part_size w0 height (bits_per_pixel g) in
  let p1 := if part_count g =? 2 then part_size w1 height (bits_per_pixel g) else 0 in
  let r1 := if part_count g =? 2 then row_size w1 (bits_per_pixel g) else 0 in
  0 <= p0 /\ 0 < p0 + p1 /\ 0 <= p1 /\
  part_geometry w0 height (bits_per_pixel g) =
    (if UINT32_MAX <? p0 then None else Some (row_size w0 (bits_per_pixel g), p0)) /\
  second_part g height = (if UINT32_MAX <? p1 then None else Some (r1, p1)).
Proof.
  intros Hw Hh Hw0 Hh0 Hg. destruct (scheme_shape_cases _ _ _ Hw Hg) as [Hb Hparts].
  assert (Hpg : forall w, 0 <= w <= width ->
    0 <= part_size w height (bits_per_pixel g) /\ (0 < w -> 0 < part_size w height (bits_per_pixel g)) /\
    part_geometry w height (bits_per_pixel g) =
      if UINT32_MAX <? part_size w height (bits_per_pixel g) then None
      else Some (row_size w (bits_per_pixel g), part_size w height (bits_per_pixel g))).
  { intros w Hwr. rewrite part_geometry_spec by (unfold fits in *; lia).
    destruct (Z.eq_dec w 0) as [->|Hne].
    - unfold part_size, row_size. replace ((0 * bits_per_pixel g + 7) / 8) with 0 by (symmetry; apply Z.div_small; lia).
      rewrite Z.mul_0_l. split; [lia|]. split; [lia|done].
    - pose proof (part_size_pos w height (bits_per_pixel g) ltac:(lia) ltac:(unfold fits in *; lia) ltac:(lia)).
      split; [lia|]. split; [lia|]. unfold UINT32_MAX.
      destruct (Z.ltb_spec (2 ^ 32 - 1) (row_size w (bits_per_pixel g))),
        (Z.ltb_spec (2 ^ 32 - 1) (part_size w height (bits_per_pixel g))); (done || lia). }
  assert (Hhalf : 0 <= width / 2 <= width /\ (1 < width -> 0 < width / 2) /\ 0 < width - width / 2)
    by (unfold fits in Hw; Z.to_euclidean_division_equations; lia).
  unfold fits in Hw. unfold second_part.
  destruct Hparts as [[Hc Hpw]|[[Hc [_ Hpw]]|[Hc [_ Hpw]]]]; rewrite Hc, Hpw; cbn [Z.eqb Pos.eqb];
    rewrite ?get_pair_0, ?get_pair_1.
  - destruct (Hpg width ltac:(lia)) as (? & ? & ?). repeat split; (lia || done).
  - destruct (Hpg width ltac:(lia)) as (? & ? & ?). repeat split; (lia || done).
  - destruct (Hpg (width / 2) ltac:(lia)) as (? & ? & ?).
    destruct (Hpg (width - width / 2) ltac:(lia)) as (? & ? & ?). repeat split; (lia || done).
Qed.

(** The geometry of a frame is exact or refused: for 32-bit dimensions, a
    zero dimension is a bad geometry, an unknown scheme is unsupported, and
    otherwise the call succeeds exactly when the byte total of the scheme's
    parts (rows padded to whole bytes) fits 32 bits.  On success the sizes are
    the exact integers, so no 32-bit product wrapped; on any refusal the
    caller's geometry is zeroed, so that its total is 0. *)
Theorem color_geometry_exact (scheme width height : Z) :
  fits 32 width -> fits 32 height ->
  let '(st, g) := od_color_direct_geometry scheme width height in
  (st <> OD_COLOR_OK -> g = geometry_zero) /\
  (st = OD_COLOR_BAD_GEOMETRY <-> width = 0 \/ height = 0) /\
  (st = OD_COLOR_UNSUPPORTED <-> width <> 0 /\ height <> 0 /\ scheme_shape scheme width = None) /\
  (st = OD_COLOR_OVERFLOW <-> width <> 0 /\ height <> 0 /\
     exists s, scheme_shape scheme width = Some s /\ 2 ^ 32 <= shape_total s height) /\
  (st = OD_COLOR_OK -> exists s, scheme_shape scheme width = Some s /\
     layout g = layout s /\ bits_per_pixel g = bits_per_pixel s /\ part_width g = part_width s /\
     partial_supported g = partial_supported s /\
     total_bytes g = shape_total s height /\ 0 < total_bytes g < 2 ^ 32 /\
     total_bytes g = (part_bytes g).[0] + (part_bytes g).[1] /\
     (part_bytes g).[0] = part_size (part_width s).[0] height (bits_per_pixel s)).
Proof.
  intros Hw Hh. unfold od_color_direct_geometry.
  assert (Hz : forall P Q R : Prop, width = 0 \/ height = 0 ->
    (OD_COLOR_BAD_GEOMETRY <> OD_COLOR_OK -> geometry_zero = geometry_zero) /\
    (OD_COLOR_BAD_GEOMETRY = OD_COLOR_BAD_GEOMETRY <-> width = 0 \/ height = 0) /\
    (OD_COLOR_BAD_GEOMETRY = OD_COLOR_UNSUPPORTED <-> width <> 0 /\ height <> 0 /\ P) /\
    (OD_COLOR_BAD_GEOMETRY = OD_COLOR_OVERFLOW <-> width <> 0 /\ height <> 0 /\ Q) /\
    (OD_COLOR_BAD_GEOMETRY = OD_COLOR_OK -> R)).
  { intros P Q R Hor. split; [done|]. split; [tauto|]. split; [split; [done|tauto]|].
    split; [split; [done|tauto]|done]. }
  destruct (Z.eqb_spec width 0) as [Hw0|Hw0]; [cbn [orb]; apply Hz; by left|].
  destruct (Z.eqb_spec height 0) as [Hh0|Hh0]; cbn [orb]; [apply Hz; by right|].
  destruct (scheme_shape scheme width) as [s|] eqn:Hs; [|split; [done|]; split; [split; [done|tauto]|]; split; [tauto|]; split; [split; [done|intros (_ & _ & ? & ? & _); done]|done]].
  destruct (sizes_of_shape _ _ _ _ Hw Hh Hw0 Hh0 Hs) as (Hp0 & Hpos & Hp1 & Hg0 & Hg1). rewrite Hg0, Hg1.
  set (p0 := part_size _ height _) in *. set (p1 := if part_count s =? 2 then _ else _) in *.
  assert (HT : shape_total s height = p0 + p1) by reflexivity.
  assert (Hover : forall R : Prop, UINT32_MAX < p0 + p1 -> 
    (OD_COLOR_OVERFLOW <> OD_COLOR_OK -> geometry_zero = geometry_zero) /\
    (OD_COLOR_OVERFLOW = OD_COLOR_BAD_GEOMETRY <-> width = 0 \/ height = 0) /\
    (OD_COLOR_OVERFLOW = OD_COLOR_UNSUPPORTED <-> width <> 0 /\ height <> 0 /\ Some s = None) /\
    (OD_COLOR_OVERFLOW = OD_COLOR_OVERFLOW <-> width <> 0 /\ height <> 0 /\
       exists s0, Some s = Some s0 /\ 2 ^ 32 <= shape_total s0 height) /\
    (OD_COLOR_OVERFLOW = OD_COLOR_OK -> R)).
  { unfold UINT32_MAX. intros R Hgt. split; [done|]. split; [split; [done|tauto]|].
    split; [split; [done|by intros (_ & _ & ?)]|]. split; [|done].
    split; [|done]. intros _. repeat split; [done..|]. exists s. split; [done|lia]. }
  unfold UINT32_MAX in *.
  destruct (Z.ltb_spec (2 ^ 32 - 1) p0); [apply Hover; lia|].
  destruct (Z.ltb_spec (2 ^ 32 - 1) p1); [apply Hover; lia|].
  rewrite (wrap_id 64) by (unfold fits; lia).
  destruct (Z.ltb_spec (2 ^ 32 - 1) (p0 + p1)); [apply Hover; lia|].
  rewrite wrap_id by (unfold fits; lia).
  split; [done|]. split; [split; [done|tauto]|]. split; [split; [done|by intros (_ & _ & ?)]|].
  split; [split; [done|]|].
  - intros (_ & _ & s0 & [= <-] & ?). lia.
  - intros _. exists s. cbn [with_sizes layout bits_per_pixel part_width partial_supported total_bytes part_bytes].
    rewrite HT. repeat split; (done || lia).
Qed.

(** A Spectra-6 panel split in two halves of an odd width, and a frame too large. *)
Lemma color_geometry_exact_witness :
  (od_color_direct_geometry 6 131072 131072).1 = OD_COLOR_OVERFLOW /\
  let '(st, g) := od_color_direct_geometry 8 1201 1600 in
  st = OD_COLOR_OK /\ total_bytes g = 961600 /\
  exists s, scheme_shape 8 1201 = Some s /\ total_bytes g = shape_total s 1600.
Proof.
  split; [vm_compute; reflexivity|].
  pose proof (color_geometry_exact 8 1201 1600 ltac:(unfold fits; lia) ltac:(unfold fits; lia)) as H.
  destruct (od_color_direct_geometry 8 1201 1600) as [st g] eqn:Eg.
  vm_compute in Eg. injection Eg as <- <-. split; [reflexivity|]. split; [reflexivity|].
  destruct H as (_ & _ & _ & _ & H). destruct (H eq_refl) as (s & Hs & _ & _ & _ & _ & Ht & _).
  exists s. split; [exact Hs|exact Ht].
Defined.

End Color.
