(* ===== verification/Pump.v ===== *)
(** The bounded inflater-to-sink pump, [shared/core/od_zlib_pump.c], over the
    inflater a target selects, [shared/core/od_inflate_app.h]. *)

From stdpp Require Import strings.
From S2P Require Import Prelude Span.
Import Span.

Module Pump.

(** [od_zlib_status_t], [od_zlib_pump_status_t]. *)
Inductive od_zlib_status :=
| OD_ZLIB_STATUS_NEEDS_INPUT | OD_ZLIB_STATUS_OUTPUT_READY | OD_ZLIB_STATUS_DONE | OD_ZLIB_STATUS_ERROR.

Inductive od_zlib_pump_status := OD_ZLIB_PUMP_MORE | OD_ZLIB_PUMP_DONE | OD_ZLIB_PUMP_ERROR.

#[export] Instance od_zlib_pump_status_eq_dec : EqDecision od_zlib_pump_status.
Proof. solve_decision. Defined.

(** The selected inflater, on any state [S] that holds its own.  A poll returns
    the bytes it wrote at the front of the scratch buffer; [produced] is their
    number. *)
Class Inflater (S : Type) := {
  od_inflate_app_reset : S -> Z -> S;
  od_inflate_app_push : S -> od_span -> bool -> od_zlib_status * S;
  od_inflate_app_poll : S -> Z -> od_zlib_status * bytes * S;
  od_inflate_app_error : S -> string;
  od_inflate_app_output_count : S -> Z;
}.

(** What [od_zlib_stream_poll] promises: it reports output only when it wrote some. *)
Class InflaterProgress (S : Type) `{Inflater S} :=
  poll_ready_produces (s s' : S) n out :
    0 < n -> od_inflate_app_poll s n = (OD_ZLIB_STATUS_OUTPUT_READY, out, s') -> out <> [].

(** [s_pump_error], [s_expected_output], [s_emitted_output]. *)
Inductive pump_error := Pe_not_initialized | Pe_none | Pe_text (message : string).

Record pump := { s_pump_error : pump_error; s_expected_output : Z; s_emitted_output : Z }.

Definition pump_init : pump :=
  {| s_pump_error := Pe_not_initialized; s_expected_output := 0; s_emitted_output := 0 |}.

Definition with_error (p : pump) (m : string) : pump :=
  {| s_pump_error := Pe_text m; s_expected_output := s_expected_output p;
     s_emitted_output := s_emitted_output p |}.

Definition with_emitted (p : pump) (n : Z) : pump :=
  {| s_pump_error := s_pump_error p; s_expected_output := s_expected_output p; s_emitted_output := n |}.

Definition od_mut_span_valid (nonnull : bool) (n : Z) : bool := nonnull || (n =? 0).

Section Operations.
Context {S : Type} `{Inflater S}.

Definition od_zlib_pump_reset (p : pump) (s : S) (expected : Z) : pump * S :=
  ({| s_pump_error := Pe_none; s_expected_output := expected; s_emitted_output := 0 |},
   od_inflate_app_reset s expected).

(** The bytes one poll produced, handed to the sink: whether the loop goes on. *)
Definition deliver (sink : bytes -> S -> bool * S) (p : pump) (s : S) (cap : Z) (out : bytes)
  : bool * pump * S :=
  if cap <? len out then (false, with_error p "inflater exceeded output buffer", s)
  else if len out =? 0 then (true, p, s)
  else if (s_expected_output p <? s_emitted_output p)
          || (u32 (s_expected_output p - s_emitted_output p) <? len out) then
    (false, with_error p "decompressed output exceeds expected size", s)
  else
    let '(ok, s) := sink out s in
    if ok then (true, with_emitted p (u32 (s_emitted_output p + len out)), s)
    else (false, with_error p "output sink refused bytes", s).

(** The [for (;;)] of [od_zlib_pump_push]; [None] when the fuel runs out. *)
Fixpoint pump_loop (fuel : nat) (sink : bytes -> S -> bool * S) (final : bool) (cap : Z)
    (p : pump) (s : S) : option (od_zlib_pump_status * pump * S) :=
  match fuel with
  | O => None
  | Datatypes.S fuel =>
      let '(status, out, s) := od_inflate_app_poll s cap in
      let '(ok, p, s) := deliver sink p s cap out in
      if negb ok then Some (OD_ZLIB_PUMP_ERROR, p, s)
      else
        match status with
        | OD_ZLIB_STATUS_OUTPUT_READY => pump_loop fuel sink final cap p s
        | OD_ZLIB_STATUS_NEEDS_INPUT =>
            if final then
              Some (OD_ZLIB_PUMP_ERROR, with_error p "compressed stream ended before inflater completed", s)
            else Some (OD_ZLIB_PUMP_MORE, p, s)
        | OD_ZLIB_STATUS_DONE =>
            if negb (s_emitted_output p =? s_expected_output p)
               || negb (od_inflate_app_output_count s =? s_emitted_output p) then
              Some (OD_ZLIB_PUMP_ERROR, with_error p "decompressed output size mismatch", s)
            else Some (OD_ZLIB_PUMP_DONE, p, s)
        | OD_ZLIB_STATUS_ERROR =>
            Some (OD_ZLIB_PUMP_ERROR, with_error p (od_inflate_app_error s), s)
        end
  end.

(** One round per byte still expected, and one that ends the loop. *)
Definition pump_fuel (p : pump) : nat :=
  (Z.to_nat (s_expected_output p - s_emitted_output p) + 1)%nat.

(** [od_zlib_pump_push]; the scratch buffer is its pointer's nullness and size. *)
Definition od_zlib_pump_push (p : pump) (s : S) (input : od_span) (final : bool)
    (scratch_p : bool) (scratch_n : Z) (sink : option (bytes -> S -> bool * S))
  : option (od_zlib_pump_status * pump * S) :=
  match s_pump_error p, sink with
  | Pe_not_initialized, _ => Some (OD_ZLIB_PUMP_ERROR, p, s)
  | _, Some sink =>
      if negb (od_span_valid input) || negb (od_mut_span_valid scratch_p scratch_n) || (scratch_n =? 0) then
        Some (OD_ZLIB_PUMP_ERROR, with_error p "invalid pump argument", s)
      else
        let '(status, s) := od_inflate_app_push s input final in
        match status with
        | OD_ZLIB_STATUS_ERROR =>
            Some (OD_ZLIB_PUMP_ERROR, with_error p (od_inflate_app_error s), s)
        | _ => pump_loop (pump_fuel p) sink final scratch_n p s
        end
  | _, None => Some (OD_ZLIB_PUMP_ERROR, with_error p "invalid pump argument", s)
  end.

Definition od_zlib_pump_error (p : pump) (s : S) : string :=
  match s_pump_error p with
  | Pe_text m => m
  | Pe_not_initialized => "zlib pump not initialized"
  | Pe_none => od_inflate_app_error s
  end.

Definition od_zlib_pump_output_count (p : pump) : Z := s_emitted_output p.
End Operations.

Section Theorems.
Context {S : Type} `{HS : Inflater S, HP : !InflaterProgress S}.

(** The counters of a pump in use. *)
Definition pump_ok (p : pump) : Prop :=
  s_emitted_output p <= s_expected_output p /\ fits 32 (s_expected_output p) /\ 0 <= s_emitted_output p.

(** A client's argument about the pump: [I n s] holds with [n] bytes delivered,
    [F s] after a delivery was refused; the inflater preserves [I], and the sink
    takes [I] on when it accepts a chunk that fits both the buffer and the rest
    of the image. *)
Record pump_client (sink : bytes -> S -> bool * S) (cap expected : Z)
    (I : Z -> S -> Prop) (F : S -> Prop) : Prop := {
  pc_push n s i f : I n s -> I n (od_inflate_app_push s i f).2;
  pc_poll n s : I n s -> I n (od_inflate_app_poll s cap).2;
  pc_sink n s b : I n s -> 0 <= n -> 0 < len b <= cap -> n + len b <= expected ->
    if (sink b s).1 then I (n + len b) (sink b s).2 else F (sink b s).2;
}.

(** What a push leaves behind. *)
Definition pump_post (I : Z -> S -> Prop) (F : S -> Prop) (final : bool) (expected : Z)
    (o : od_zlib_pump_status * pump * S) : Prop :=
  let '(st, p, s) := o in
  pump_ok p /\ s_expected_output p = expected /\
  match st with
  | OD_ZLIB_PUMP_MORE => final = false /\ I (s_emitted_output p) s
  | OD_ZLIB_PUMP_DONE =>
      s_emitted_output p = expected /\ od_inflate_app_output_count s = expected /\ I expected s
  | OD_ZLIB_PUMP_ERROR => s_pump_error p <> Pe_none /\ (I (s_emitted_output p) s \/ F s)
  end.

Lemma with_error_post (I : Z -> S -> Prop) (F : S -> Prop) final p (s : S) m :
  pump_ok p -> (I (s_emitted_output p) s \/ F s) ->
  pump_post I F final (s_expected_output p) (OD_ZLIB_PUMP_ERROR, with_error p m, s).
Proof. intros Hp HI. split; [exact Hp|]. split; [done|]. by split. Qed.

(** A refused delivery. *)
Lemma refuse_post (I : Z -> S -> Prop) (F : S -> Prop) p (s : S) m :
  pump_ok p -> (I (s_emitted_output p) s \/ F s) ->
  pump_ok (with_error p m) /\ s_expected_output (with_error p m) = s_expected_output p /\
  s_pump_error (with_error p m) <> Pe_none /\ (I (s_emitted_output (with_error p m)) s \/ F s).
Proof. intros Hp HI. split; [exact Hp|]. split; [done|]. by split. Qed.

Lemma deliver_spec sink cap I F p s out :
  pump_client sink cap (s_expected_output p) I F -> pump_ok p -> I (s_emitted_output p) s ->
  let '(ok, p', s') := deliver sink p s cap out in
  pump_ok p' /\ s_expected_output p' = s_expected_output p /\
  if ok then s_emitted_output p' = s_emitted_output p + len out /\ I (s_emitted_output p') s'
             /\ s_pump_error p' = s_pump_error p
  else s_pump_error p' <> Pe_none /\ (I (s_emitted_output p') s' \/ F s').
Proof.
  intros Hc Hp HI. pose proof Hp as (Hle & Hf & H0). unfold deliver.
  destruct (Z.ltb_spec cap (len out)); [apply refuse_post; auto|].
  destruct (Z.eqb_spec (len out) 0) as [Hz|Hz].
  { rewrite Hz, Z.add_0_r. auto. }
  unfold fits in Hf. rewrite (wrap_id 32) by (unfold fits; lia).
  destruct (Z.ltb_spec (s_expected_output p) (s_emitted_output p)); [lia|]. cbn [orb].
  destruct (Z.ltb_spec (s_expected_output p - s_emitted_output p) (len out)); [apply refuse_post; auto|].
  pose proof (pc_sink _ _ _ _ _ Hc (s_emitted_output p) s out HI H0 ltac:(lia) ltac:(lia)) as Hs.
  destruct (sink out s) as [[] s']; cbn [fst snd] in Hs; [|apply refuse_post; auto].
  cbn [with_emitted s_emitted_output s_expected_output s_pump_error].
  rewrite (wrap_id 32) by (unfold fits; lia). unfold pump_ok, fits.
  cbn [with_emitted s_emitted_output s_expected_output]. repeat split; (done || lia).
Qed.

Lemma pump_loop_spec sink cap I F final fuel p s :
  0 < cap -> pump_client sink cap (s_expected_output p) I F -> pump_ok p ->
  I (s_emitted_output p) s ->
  (Z.to_nat (s_expected_output p - s_emitted_output p) < fuel)%nat ->
  exists o, pump_loop fuel sink final cap p s = Some o /\ pump_post I F final (s_expected_output p) o.
Proof.
  intros Hcap. revert p s. induction fuel as [|fuel IH]; intros p s Hc Hp HI Hfuel; [lia|].
  cbn [pump_loop]. pose proof (pc_poll _ _ _ _ _ Hc _ s HI) as Hpoll.
  pose proof (poll_ready_produces s) as Hready.
  destruct (od_inflate_app_poll s cap) as [[status out] s1] eqn:Epoll. cbn [snd] in Hpoll.
  pose proof (deliver_spec sink cap I F p s1 out Hc Hp Hpoll) as Hd.
  destruct (deliver sink p s1 cap out) as [[ok p2] s2]. destruct Hd as (Hp2 & He2 & Hd).
  destruct ok; cbn [negb]; [|by eexists; split; [done|]].
  destruct Hd as (Hem & HI2 & Herr). rewrite <- He2. destruct status.
  - destruct final; (eexists; split; [done|]); [apply with_error_post; auto|].
    split; [done|]. split; [done|]. by split.
  - assert (out <> []) by by eapply Hready.
    apply IH; rewrite ?He2; try done. destruct out; [done|]. cbn [length] in Hem.
    destruct Hp2 as (? & _ & _), Hp as (? & _ & _). lia.
  - destruct (Z.eqb_spec (s_emitted_output p2) (s_expected_output p2)) as [Hx|Hx]; cbn [negb orb];
      [|eexists; split; [done|]; apply with_error_post; auto].
    destruct (Z.eqb_spec (od_inflate_app_output_count s2) (s_emitted_output p2)) as [Hy|Hy]; cbn [negb];
      (eexists; split; [done|]); [|apply with_error_post; auto].
    split; [done|]. split; [done|]. split; [done|]. split; congruence.
  - eexists; split; [done|]. apply with_error_post; auto.
Qed.

(** A push ends, and leaves the client's argument in force. *)
Lemma pump_push_ends (sink : bytes -> S -> bool * S) (I : Z -> S -> Prop) (F : S -> Prop)
    (p : pump) (s : S) (input : od_span) (final : bool) (cap : Z) :
  0 <= cap -> pump_ok p ->
  pump_client sink cap (s_expected_output p) I F -> I (s_emitted_output p) s ->
  exists o, od_zlib_pump_push p s input final true cap (Some sink) = Some o /\
    pump_post I F final (s_expected_output p) o.
Proof.
  intros Hcap Hp Hc HI. unfold od_zlib_pump_push.
  assert (Hmain : exists o,
    (if negb (od_span_valid input) || negb (od_mut_span_valid true cap) || (cap =? 0)
     then Some (OD_ZLIB_PUMP_ERROR, with_error p "invalid pump argument", s)
     else let '(status, s) := od_inflate_app_push s input final in
          match status with
          | OD_ZLIB_STATUS_ERROR => Some (OD_ZLIB_PUMP_ERROR, with_error p (od_inflate_app_error s), s)
          | _ => pump_loop (pump_fuel p) sink final cap p s
          end) = Some o /\ pump_post I F final (s_expected_output p) o).
  { destruct (negb _ || negb _) eqn:Ev; cbn [orb]; [eexists; split; [done|]; apply with_error_post; auto|].
    destruct (Z.eqb_spec cap 0); [eexists; split; [done|]; apply with_error_post; auto|].
    pose proof (pc_push _ _ _ _ _ Hc _ s input final HI) as HI1.
    destruct (od_inflate_app_push s input final) as [status s1]. cbn [snd] in HI1.
    assert (Hl : exists o, pump_loop (pump_fuel p) sink final cap p s1 = Some o /\
      pump_post I F final (s_expected_output p) o) by (apply pump_loop_spec; try done; [lia|unfold pump_fuel; lia]).
    destruct status; try exact Hl. eexists; split; [done|]. apply with_error_post; auto. }
  destruct (s_pump_error p) eqn:Ep; [|exact Hmain|exact Hmain].
  eexists; split; [done|]. split; [done|]. split; [done|]. split; [congruence|]. by left.
Qed.

End Theorems.

(** A toy inflater: the state is the stream still to come, one chunk per poll. *)
#[export] Instance toy_inflater : Inflater (bytes * Z * bytes) := {
  od_inflate_app_reset s _ := (s.1.1, 0, []);
  od_inflate_app_push s i _ := (OD_ZLIB_STATUS_NEEDS_INPUT, (s.1.1 ++ contents i, s.1.2, s.2));
  od_inflate_app_poll s n :=
    let out := take (Z.to_nat n) s.1.1 in
    let rest := drop (Z.to_nat n) s.1.1 in
    let s' := (rest, s.1.2 + len out, s.2) in
    match out, rest with
    | [], _ => (if s.1.2 =? 0 then OD_ZLIB_STATUS_NEEDS_INPUT else OD_ZLIB_STATUS_DONE, [], s')
    | _, _ => (OD_ZLIB_STATUS_OUTPUT_READY, out, s')
    end;
  od_inflate_app_error _ := "toy"%string;
  od_inflate_app_output_count s := s.1.2;
}.

#[export] Instance toy_inflater_progress : InflaterProgress (bytes * Z * bytes).
Proof.
  intros s s' n out Hn. cbn. destruct (take _ _) eqn:Et.
  - destruct (_ =? 0); intros [=].
  - intros [= <- _] [=].
Qed.

(** The sink that appends to the third component. *)
Definition toy_sink (b : bytes) (s : bytes * Z * bytes) : bool * (bytes * Z * bytes) :=
  (true, (s.1, s.2 ++ b)).


End Pump.
