(* ===== verification/PipeState.v ===== *)
(** The receive window of the PIPE transfer, the state of [shared/core/od_pipe.c]
    ([s_pipe], [s_reorder]) and the functions that only touch it: the slot of a
    sequence number, the acknowledgement mask, the highest frame seen. *)

From S2P Require Import Prelude.

Module PipeState.

Definition PIPE_VERSION : Z := 1.
Definition PIPE_FLAG_COMPRESSED : Z := 0x01.
Definition PIPE_FLAG_PARTIAL : Z := 0x02.
Definition PIPE_MAX_FRAME : Z := 244.
Definition PIPE_FRAME_OVERHEAD : Z := 3.
Definition PIPE_ACK_MASK_BITS : Z := 32.
Definition OD_PIPE_REORDER_PAYLOAD : Z := PIPE_MAX_FRAME - PIPE_FRAME_OVERHEAD.

(** The window facts a target sets, and [od_pipe.h]'s static assertions on them. *)
Class PipeConfig := {
  OD_PIPE_MAX_W : Z;
  OD_PIPE_MAX_N : Z;
  pipe_window_fits : 1 <= OD_PIPE_MAX_W <= PIPE_ACK_MASK_BITS;
  pipe_cadence_fits : 1 <= OD_PIPE_MAX_N <= OD_PIPE_MAX_W;
}.

(** [od_pipe_reorder_slot_t]. *)
Record od_pipe_reorder_slot := { occupied : bool; slot_seq : Z; slot_len : Z; slot_data : bytes }.

Definition slot_zero : od_pipe_reorder_slot :=
  {| occupied := false; slot_seq := 0; slot_len := 0;
     slot_data := replicate (Z.to_nat OD_PIPE_REORDER_PAYLOAD) 0 |}.

#[export] Instance slot_inhabited : Inhabited od_pipe_reorder_slot := populate slot_zero.

(** [od_pipe_state_t]; its [open] and [partial] are [pipe_open], [pipe_partial]. *)
Record od_pipe_state := {
  pipe_open : bool; pipe_partial : bool; gap_open : bool;
  window : Z; ack_every : Z; frame_eff : Z;
  expected_seq : Z; has_received : bool; highest_seen : Z; received_count : Z;
  frames_since_ack : Z; ooo_acks_since_gap : Z; queued_count : Z;
}.

Definition pipe_zero : od_pipe_state :=
  {| pipe_open := false; pipe_partial := false; gap_open := false; window := 0; ack_every := 0;
     frame_eff := 0; expected_seq := 0; has_received := false; highest_seen := 0;
     received_count := 0; frames_since_ack := 0; ooo_acks_since_gap := 0; queued_count := 0 |}.

(** [s_pipe.expected_seq++; s_pipe.received_count++;] with the new
    [frames_since_ack] and [queued_count]. *)
Definition step_expected (p : od_pipe_state) (since queued : Z) : od_pipe_state :=
  {| pipe_open := pipe_open p; pipe_partial := pipe_partial p; gap_open := gap_open p;
     window := window p; ack_every := ack_every p; frame_eff := frame_eff p;
     expected_seq := u8 (expected_seq p + 1); has_received := has_received p;
     highest_seen := highest_seen p; received_count := u32 (received_count p + 1);
     frames_since_ack := since; ooo_acks_since_gap := ooo_acks_since_gap p; queued_count := queued |}.

Definition with_highest (p : od_pipe_state) (seq : Z) : od_pipe_state :=
  {| pipe_open := pipe_open p; pipe_partial := pipe_partial p; gap_open := gap_open p;
     window := window p; ack_every := ack_every p; frame_eff := frame_eff p;
     expected_seq := expected_seq p; has_received := true;
     highest_seen := seq; received_count := received_count p;
     frames_since_ack := frames_since_ack p; ooo_acks_since_gap := ooo_acks_since_gap p;
     queued_count := queued_count p |}.

Definition with_gap (p : od_pipe_state) (gap : bool) (queued : Z) : od_pipe_state :=
  {| pipe_open := pipe_open p; pipe_partial := pipe_partial p; gap_open := gap;
     window := window p; ack_every := ack_every p; frame_eff := frame_eff p;
     expected_seq := expected_seq p; has_received := has_received p;
     highest_seen := highest_seen p; received_count := received_count p;
     frames_since_ack := frames_since_ack p; ooo_acks_since_gap := ooo_acks_since_gap p;
     queued_count := queued |}.

(** The counters a SACK resets and a late frame counts. *)
Definition with_acks (p : od_pipe_state) (since ooo : Z) : od_pipe_state :=
  {| pipe_open := pipe_open p; pipe_partial := pipe_partial p; gap_open := gap_open p;
     window := window p; ack_every := ack_every p; frame_eff := frame_eff p;
     expected_seq := expected_seq p; has_received := has_received p;
     highest_seen := highest_seen p; received_count := received_count p;
     frames_since_ack := since; ooo_acks_since_gap := ooo; queued_count := queued_count p |}.

(** What a START negotiates, on the state it was given. *)
Definition negotiated (p : od_pipe_state) (partial : bool) (w n frame : Z) : od_pipe_state :=
  {| pipe_open := true; pipe_partial := partial; gap_open := gap_open p;
     window := w; ack_every := n; frame_eff := frame;
     expected_seq := expected_seq p; has_received := has_received p;
     highest_seen := highest_seen p; received_count := received_count p;
     frames_since_ack := frames_since_ack p; ooo_acks_since_gap := ooo_acks_since_gap p;
     queued_count := queued_count p |}.

Section Window.
Context `{PipeConfig}.

Definition OD_PIPE_REORDER_SLOTS : Z := OD_PIPE_MAX_W + 1.

(** [s_reorder] after [memset]. *)
Definition reorder_zero : list od_pipe_reorder_slot :=
  replicate (Z.to_nat OD_PIPE_REORDER_SLOTS) slot_zero.

Definition pipe_slot (seq : Z) : Z := u8 (seq mod OD_PIPE_REORDER_SLOTS).

(** [slot->occupied && slot->seq == seq], for the slot of [seq]. *)
Definition holds (ring : list od_pipe_reorder_slot) (seq : Z) : bool :=
  let slot := ring.[pipe_slot seq] in occupied slot && (slot_seq slot =? seq).

Definition pipe_chunk_received (p : od_pipe_state) (ring : list od_pipe_reorder_slot) (seq : Z) : bool :=
  let below := u8 (expected_seq p - 1 - seq) in
  let accepted := if received_count p <? PIPE_ACK_MASK_BITS then received_count p else PIPE_ACK_MASK_BITS in
  if below <? accepted then true else holds ring seq.

(** The frame a SACK counts from. *)
Definition sack_highest (p : od_pipe_state) : Z :=
  if has_received p then highest_seen p else u8 (expected_seq p - 1).

(** The mask loop of [pipe_build_sack]: bits [0 .. n-1]. *)
Fixpoint sack_mask (p : od_pipe_state) (ring : list od_pipe_reorder_slot) (n : nat) : Z :=
  match n with
  | O => 0
  | S n =>
      let mask := sack_mask p ring n in
      if pipe_chunk_received p ring (u8 (sack_highest p - 1 - Z.of_nat n))
      then Z.lor mask (Z.shiftl 1 (Z.of_nat n)) else mask
  end.

Definition pipe_mask (p : od_pipe_state) (ring : list od_pipe_reorder_slot) : Z :=
  sack_mask p ring (Z.to_nat PIPE_ACK_MASK_BITS).

Definition pipe_build_sack (p : od_pipe_state) (ring : list od_pipe_reorder_slot) : bytes :=
  let mask := pipe_mask p ring in
  [ sack_highest p; Z.land mask 0xFF; Z.land (Z.shiftr mask 8) 0xFF;
    Z.land (Z.shiftr mask 16) 0xFF; Z.land (Z.shiftr mask 24) 0xFF ].

Definition pipe_update_highest (p : od_pipe_state) (seq : Z) : od_pipe_state :=
  if negb (has_received p) then with_highest p seq
  else
    let fwd := u8 (seq - highest_seen p) in
    if negb (fwd =? 0) && (fwd <=? PIPE_ACK_MASK_BITS) then with_highest p seq else p.
End Window.

End PipeState.
