(* ===== verification/XferState.v ===== *)
(** The state of an image transfer, [shared/core/od_xfer_internal.h], the target's
    half of it, [shared/core/od_xfer_app.h], and the monad the transfer code is
    written in. *)

From S2P Require Import Prelude Hal TxQueue Span Proto Session World Dispatch Color Pump PipeState.
Import Hal TxQueue Span Proto Session World Dispatch Color Pump PipeState.

Module XferState.

(** [od_xfer_mode_t]. *)
Inductive od_xfer_mode :=
| OD_XFER_IDLE | OD_XFER_DIRECT_FULL | OD_XFER_DIRECT_PARTIAL
| OD_XFER_PIPE_FULL | OD_XFER_PIPE_PARTIAL | OD_XFER_FATAL.

#[export] Instance od_xfer_mode_eq_dec : EqDecision od_xfer_mode.
Proof. solve_decision. Defined.

(** [od_xfer_partial_state_t]. *)
Record od_xfer_partial_state := {
  new_etag : Z; plane_bytes : Z; rect_x : Z; rect_y : Z; rect_width : Z; rect_height : Z;
}.

Definition partial_zero : od_xfer_partial_state :=
  {| new_etag := 0; plane_bytes := 0; rect_x := 0; rect_y := 0; rect_width := 0; rect_height := 0 |}.

(** [od_xfer_state_t]. *)
Record od_xfer_state := {
  mode : od_xfer_mode; owner : od_reply_t; started_ms : Z; finalized_ms : Z;
  expected_bytes : Z; received_bytes : Z; written_bytes : Z;
  compressed : bool; finalized : bool; geometry : od_color_geometry; partial : od_xfer_partial_state;
}.

Definition xfer_zero : od_xfer_state :=
  {| mode := OD_XFER_IDLE; owner := {| rp_origin := OD_ORIGIN_BLE; rp_tag := 0 |};
     started_ms := 0; finalized_ms := 0; expected_bytes := 0; received_bytes := 0; written_bytes := 0;
     compressed := false; finalized := false; geometry := geometry_zero; partial := partial_zero |}.

Definition with_mode (x : od_xfer_state) (m : od_xfer_mode) : od_xfer_state :=
  {| mode := m; owner := owner x; started_ms := started_ms x; finalized_ms := finalized_ms x;
     expected_bytes := expected_bytes x; received_bytes := received_bytes x;
     written_bytes := written_bytes x; compressed := compressed x; finalized := finalized x;
     geometry := geometry x; partial := partial x |}.

Definition with_received (x : od_xfer_state) (n : Z) : od_xfer_state :=
  {| mode := mode x; owner := owner x; started_ms := started_ms x; finalized_ms := finalized_ms x;
     expected_bytes := expected_bytes x; received_bytes := n;
     written_bytes := written_bytes x; compressed := compressed x; finalized := finalized x;
     geometry := geometry x; partial := partial x |}.

Definition with_written (x : od_xfer_state) (n : Z) : od_xfer_state :=
  {| mode := mode x; owner := owner x; started_ms := started_ms x; finalized_ms := finalized_ms x;
     expected_bytes := expected_bytes x; received_bytes := received_bytes x;
     written_bytes := n; compressed := compressed x; finalized := finalized x;
     geometry := geometry x; partial := partial x |}.

Definition with_finalized (x : od_xfer_state) (now : Z) : od_xfer_state :=
  {| mode := mode x; owner := owner x; started_ms := started_ms x; finalized_ms := now;
     expected_bytes := expected_bytes x; received_bytes := received_bytes x;
     written_bytes := written_bytes x; compressed := compressed x; finalized := true;
     geometry := geometry x; partial := partial x |}.

(** The fields a START writes. *)
Definition armed (x : od_xfer_state) (m : od_xfer_mode) (rp : od_reply_t) (now total : Z)
    (z : bool) (g : od_color_geometry) (p : od_xfer_partial_state) : od_xfer_state :=
  {| mode := m; owner := rp; started_ms := now; finalized_ms := finalized_ms x;
     expected_bytes := total; received_bytes := received_bytes x; written_bytes := written_bytes x;
     compressed := z; finalized := finalized x; geometry := g; partial := p |}.

(** [od_xfer_start_cause_t], [od_xfer_stream_result_t], [od_xfer_abort_reason_t],
    [od_xfer_barrier_t]. *)
Inductive od_xfer_start_cause :=
| OD_XFER_START_OK | OD_XFER_START_MALFORMED | OD_XFER_START_UNSUPPORTED_FLAGS
| OD_XFER_START_ETAG_MISMATCH | OD_XFER_START_PARTIAL_UNSUPPORTED | OD_XFER_START_RECT_BOUNDS
| OD_XFER_START_RECT_ALIGNMENT | OD_XFER_START_PANEL_GEOMETRY | OD_XFER_START_SPLIT_LAYOUT
| OD_XFER_START_ZERO_SIZE | OD_XFER_START_SIZE_MISMATCH.

Inductive od_xfer_stream_result :=
| OD_XFER_STREAM_OK | OD_XFER_STREAM_INVALID | OD_XFER_STREAM_INFLATE_FAILED
| OD_XFER_STREAM_WRITE_FAILED | OD_XFER_STREAM_SIZE_EXCEEDED.

Inductive od_xfer_abort_reason :=
| OD_XFER_ABORT_REPLACED | OD_XFER_ABORT_START_FAILED | OD_XFER_ABORT_STREAM_FAILED
| OD_XFER_ABORT_INCOMPLETE | OD_XFER_ABORT_PIPE_INCOMPLETE | OD_XFER_ABORT_REPLY_FAILED
| OD_XFER_ABORT_REFRESH_FAILED | OD_XFER_ABORT_RESET.

Inductive od_xfer_barrier := OD_XFER_BARRIER_PROCEED | OD_XFER_BARRIER_ABORT.

(** [od_xfer_panel_info_t]. *)
Record od_xfer_panel_info := {
  pi_geometry : od_color_geometry; pi_width : Z; pi_height : Z; partial_enabled : bool;
}.

(** The target's hooks and the two build switches.  [None] from
    [od_xfer_app_panel_info] is a false return; the refresh returns whether it
    ran and the [completed] it wrote; the barrier may drain the response queue. *)
Class XferApp (E : Type) := {
  OD_CAP_PARTIAL : bool;
  OD_XFER_DIRECT_AUTO_END : bool;
  od_xfer_app_prepare_start : E -> E;
  od_xfer_app_panel_info : E -> option od_xfer_panel_info * E;
  od_xfer_app_begin_full : E -> od_color_geometry -> bool * E;
  od_xfer_app_begin_partial : E -> Z -> Z -> Z -> Z -> Z -> bool * E;
  od_xfer_app_write : E -> Z -> bytes -> Z * E;
  od_xfer_app_inflate_scratch : E -> bool * Z;
  od_xfer_app_abort : E -> od_xfer_abort_reason -> E;
  od_xfer_app_before_refresh : world E -> od_reply_t -> od_xfer_barrier * world E;
  od_xfer_app_barrier_abort : E -> od_reply_t -> E;
  od_xfer_app_refresh : E -> Z -> bool * bool * E;
  od_xfer_app_displayed_etag : E -> Z;
  od_xfer_app_set_displayed_etag : E -> Z -> E;
  od_xfer_app_now_ms : E -> Z * E;
}.

(** What the panel driver is asked to do, with its answer.  [strict] is the
    transfer's promise not to show the image before it is complete; [EvInput] is
    not a call but the sender's bytes, as the PIPE stream takes them in. *)
Inductive panel_event :=
| EvBegin (limit : Z) (strict ok : bool)
| EvWrite (offset : Z) (data : bytes) (consumed : Z)
| EvRefresh (refresh_mode : Z) (ok completed : bool)
| EvRelease
| EvEtag (etag : Z)
| EvInput (data : bytes).

(** Everything a transfer command reads and writes: the world, the reservation of
    the command, the static state of [od_xfer.c], [od_zlib_pump.c] and
    [od_pipe.c].  [t_trace] is a ghost: it records the calls made to the panel
    driver, and no operation reads it. *)
Record tstate (E : Type) := {
  t_world : world E; t_token : od_tx_reservation; t_xfer : od_xfer_state;
  t_quiet : bool; t_sink_failed : bool; t_pump : pump;
  t_pipe : od_pipe_state; t_reorder : list od_pipe_reorder_slot;
  t_trace : list panel_event;
}.
Arguments t_world {E} _.
Arguments t_token {E} _.
Arguments t_xfer {E} _.
Arguments t_quiet {E} _.
Arguments t_sink_failed {E} _.
Arguments t_pump {E} _.
Arguments t_pipe {E} _.
Arguments t_reorder {E} _.
Arguments t_trace {E} _.

(** ** The monad: [None] is a call that does not return. *)

Definition M (E A : Type) : Type := tstate E -> option (A * tstate E).

Definition ret {E A} (a : A) : M E A := fun s => Some (a, s).
Definition bind {E A B} (m : M E A) (k : A -> M E B) : M E B :=
  fun s => match m s with Some (a, s') => k a s' | None => None end.

Declare Scope xfer_scope.
Delimit Scope xfer_scope with xfer.
Notation "'let*' x := m 'in' k" := (bind m (fun x => k))
  (at level 10, x pattern, m at level 200, k at level 200) : xfer_scope.
Notation "m ;; k" := (bind m (fun _ => k)) (at level 100, k at level 200, right associativity) : xfer_scope.

(** Total correctness: [m] returns from [s], and what it returns satisfies [Q]. *)
Definition wp {E A} (m : M E A) (Q : A -> tstate E -> Prop) (s : tstate E) : Prop :=
  match m s with Some (a, s') => Q a s' | None => False end.

Section Monad.
Context {E : Type}.

Lemma wp_ret {A} (a : A) (Q : A -> tstate E -> Prop) s : Q a s -> wp (ret a) Q s.
Proof. done. Qed.

Lemma wp_bind {A B} (m : M E A) (k : A -> M E B) Q s :
  wp m (fun a s' => wp (k a) Q s') s -> wp (bind m k) Q s.
Proof. unfold wp, bind. destruct (m s) as [[a s']|]; done. Qed.

Lemma wp_mono {A} (m : M E A) (Q R : A -> tstate E -> Prop) s :
  wp m Q s -> (forall a s', Q a s' -> R a s') -> wp m R s.
Proof. unfold wp. destruct (m s) as [[a s']|]; auto. Qed.

Lemma wp_and {A} (m : M E A) (Q R : A -> tstate E -> Prop) s :
  wp m Q s -> wp m R s -> wp m (fun a s' => Q a s' /\ R a s') s.
Proof. unfold wp. destruct (m s) as [[a s']|]; auto. Qed.

Lemma wp_elim {A} (m : M E A) (Q : A -> tstate E -> Prop) s a s' :
  wp m Q s -> m s = Some (a, s') -> Q a s'.
Proof. unfold wp. intros HQ Hm. by rewrite Hm in HQ. Qed.

(** Reading and writing the parts of the state. *)
Definition gets {A} (f : tstate E -> A) : M E A := fun s => Some (f s, s).
Definition modify (f : tstate E -> tstate E) : M E unit := fun s => Some (tt, f s).

Definition set_world (w : world E) (s : tstate E) : tstate E :=
  {| t_world := w; t_token := t_token s; t_xfer := t_xfer s; t_quiet := t_quiet s;
     t_sink_failed := t_sink_failed s; t_pump := t_pump s; t_pipe := t_pipe s;
     t_reorder := t_reorder s; t_trace := t_trace s |}.
Definition set_token (t : od_tx_reservation) (s : tstate E) : tstate E :=
  {| t_world := t_world s; t_token := t; t_xfer := t_xfer s; t_quiet := t_quiet s;
     t_sink_failed := t_sink_failed s; t_pump := t_pump s; t_pipe := t_pipe s;
     t_reorder := t_reorder s; t_trace := t_trace s |}.
Definition set_xfer (x : od_xfer_state) (s : tstate E) : tstate E :=
  {| t_world := t_world s; t_token := t_token s; t_xfer := x; t_quiet := t_quiet s;
     t_sink_failed := t_sink_failed s; t_pump := t_pump s; t_pipe := t_pipe s;
     t_reorder := t_reorder s; t_trace := t_trace s |}.
Definition set_quiet (b : bool) (s : tstate E) : tstate E :=
  {| t_world := t_world s; t_token := t_token s; t_xfer := t_xfer s; t_quiet := b;
     t_sink_failed := t_sink_failed s; t_pump := t_pump s; t_pipe := t_pipe s;
     t_reorder := t_reorder s; t_trace := t_trace s |}.
Definition set_sink_failed (b : bool) (s : tstate E) : tstate E :=
  {| t_world := t_world s; t_token := t_token s; t_xfer := t_xfer s; t_quiet := t_quiet s;
     t_sink_failed := b; t_pump := t_pump s; t_pipe := t_pipe s;
     t_reorder := t_reorder s; t_trace := t_trace s |}.
Definition set_pump (p : pump) (s : tstate E) : tstate E :=
  {| t_world := t_world s; t_token := t_token s; t_xfer := t_xfer s; t_quiet := t_quiet s;
     t_sink_failed := t_sink_failed s; t_pump := p; t_pipe := t_pipe s;
     t_reorder := t_reorder s; t_trace := t_trace s |}.
Definition set_pipe (p : od_pipe_state) (ring : list od_pipe_reorder_slot) (s : tstate E) : tstate E :=
  {| t_world := t_world s; t_token := t_token s; t_xfer := t_xfer s; t_quiet := t_quiet s;
     t_sink_failed := t_sink_failed s; t_pump := t_pump s; t_pipe := p;
     t_reorder := ring; t_trace := t_trace s |}.
Definition push_event (ev : panel_event) (s : tstate E) : tstate E :=
  {| t_world := t_world s; t_token := t_token s; t_xfer := t_xfer s; t_quiet := t_quiet s;
     t_sink_failed := t_sink_failed s; t_pump := t_pump s; t_pipe := t_pipe s;
     t_reorder := t_reorder s; t_trace := ev :: t_trace s |}.

Definition t_env (s : tstate E) : E := w_env (t_world s).
Definition put_env (e : E) (s : tstate E) : tstate E := set_world (set_env (t_world s) e) s.

(** A hook that answers and moves the target's state. *)
Definition hook_call {A} (f : E -> A * E) : M E A :=
  fun s => let '(a, e) := f (t_env s) in Some (a, put_env e s).
Definition hook_do (f : E -> E) : M E unit := modify (fun s => put_env (f (t_env s)) s).
Definition event (ev : panel_event) : M E unit := modify (push_event ev).

Lemma wp_gets {A} (f : tstate E -> A) Q s : Q (f s) s -> wp (gets f) Q s.
Proof. done. Qed.

Lemma wp_modify f (Q : unit -> tstate E -> Prop) s : Q tt (f s) -> wp (modify f) Q s.
Proof. done. Qed.

Lemma wp_hook {A} (f : E -> A * E) (Q : A -> tstate E -> Prop) s :
  (forall a e, f (t_env s) = (a, e) -> Q a (put_env e s)) -> wp (hook_call f) Q s.
Proof. unfold wp, hook_call. intros HQ. destruct (f (t_env s)) as [a e] eqn:Ef. by apply HQ. Qed.
End Monad.

(** The selected inflater keeps its state in the target's. *)
#[export] Instance lift_inflater {E} `{Inflater E} : Inflater (tstate E) := {
  od_inflate_app_reset s n := put_env (od_inflate_app_reset (t_env s) n) s;
  od_inflate_app_push s i f := let '(st, e) := od_inflate_app_push (t_env s) i f in (st, put_env e s);
  od_inflate_app_poll s n :=
    let '(st, out, e) := od_inflate_app_poll (t_env s) n in (st, out, put_env e s);
  od_inflate_app_error s := od_inflate_app_error (t_env s);
  od_inflate_app_output_count s := od_inflate_app_output_count (t_env s);
}.

#[export] Instance lift_inflater_progress {E} `{InflaterProgress E} : InflaterProgress (tstate E).
Proof.
  intros s s' n out Hn. cbn. destruct (od_inflate_app_poll (t_env s) n) as [[st o] e] eqn:Ep.
  intros [= -> -> _]. by eapply poll_ready_produces.
Qed.

End XferState.
