(* ===== verification/Xfer.v ===== *)
(** The transfer machine, [shared/core/od_xfer.c]: ownership, byte accounting,
    the inflater and the panel's life cycle.  Logging is left out: the model is
    the build in which it is compiled to nothing. *)

From S2P Require Import Prelude Hal TxQueue Span Proto Session World Reply Dispatch Color Pump PipeState XferState.
Import Hal TxQueue Span Proto Session World Reply Dispatch Color Pump PipeState XferState.

Module Xfer.

Open Scope xfer_scope.

Definition od_xfer_active (x : od_xfer_state) : bool := negb (bool_decide (mode x = OD_XFER_IDLE)).

Definition od_xfer_owns_hardware (x : od_xfer_state) : bool :=
  negb (bool_decide (mode x = OD_XFER_IDLE)) && negb (bool_decide (mode x = OD_XFER_FATAL)).

Definition od_xfer_frames_may_arrive (x : od_xfer_state) : bool :=
  negb (bool_decide (mode x = OD_XFER_IDLE)).

Definition od_xfer_owner (x : od_xfer_state) : option od_reply_t :=
  if od_xfer_active x then Some (owner x) else None.

Definition od_xfer_log_quiet (quiet : bool) (opcode : Z) : bool :=
  if negb (opcode =? CMD_DIRECT_WRITE_DATA) && negb (opcode =? CMD_PIPE_WRITE_DATA) then false else quiet.

Definition od_xfer_owner_matches (x : od_xfer_state) (ctx : option od_cmd_ctx) : bool :=
  match ctx with Some c => od_reply_same (c_rp c) (owner x) | None => false end.

Definition is_pipe (m : od_xfer_mode) : bool :=
  match m with OD_XFER_PIPE_FULL | OD_XFER_PIPE_PARTIAL => true | _ => false end.

Definition od_xfer_pipe_complete (x : od_xfer_state) : bool :=
  is_pipe (mode x) && (written_bytes x =? expected_bytes x).

Definition od_xfer_report_timeout (x : od_xfer_state) (now limit : Z) : bool :=
  if negb (od_xfer_active x) || (limit =? 0) || (u32 (now - started_ms x) <=? limit) then false else true.

(** Ghost, for the trace: every transfer but a raw direct write of packed rows is
    refused at its end when bytes are missing. *)
Definition must_complete (x : od_xfer_state) : bool :=
  match mode x with
  | OD_XFER_DIRECT_FULL =>
      compressed x || bool_decide (layout (geometry x) = OD_COLOR_LAYOUT_CONTROLLER_PLANES)
  | _ => true
  end.

Section Operations.
Context {E : Type} `{Radio E} `{Crypto E} `{SessionApp E} `{CommandApp E} `{Inflater E}
  `{XferApp E} `{PipeConfig}.

(** ** The panel driver's calls, each with its trace event *)

Definition app_set_displayed_etag (etag : Z) : M E unit :=
  hook_do (fun e => od_xfer_app_set_displayed_etag e etag);; event (EvEtag etag).

Definition app_abort (why : od_xfer_abort_reason) : M E unit :=
  hook_do (fun e => od_xfer_app_abort e why);; event EvRelease.

Definition app_barrier_abort (rp : od_reply_t) : M E unit :=
  hook_do (fun e => od_xfer_app_barrier_abort e rp);; event EvRelease.

Definition app_begin_full (g : od_color_geometry) : M E bool :=
  let* x := gets t_xfer in
  let* ok := hook_call (fun e => od_xfer_app_begin_full e g) in
  event (EvBegin (total_bytes g) (must_complete x) ok);; ret ok.

Definition app_begin_partial (p : od_xfer_partial_state) : M E bool :=
  let* x := gets t_xfer in
  let* ok := hook_call (fun e => od_xfer_app_begin_partial e (rect_x p) (rect_y p) (rect_width p)
                                   (rect_height p) (plane_bytes p)) in
  event (EvBegin (u32 (plane_bytes p * 2)) (must_complete x) ok);; ret ok.

Definition app_write (offset : Z) (data : bytes) : M E Z :=
  let* n := hook_call (fun e => od_xfer_app_write e offset data) in
  event (EvWrite offset data n);; ret n.

Definition app_refresh (refresh_mode : Z) : M E (bool * bool) :=
  let* r := hook_call (fun e => od_xfer_app_refresh e refresh_mode) in
  event (EvRefresh refresh_mode r.1 r.2);; ret r.

Definition app_before_refresh (rp : od_reply_t) : M E od_xfer_barrier :=
  fun s => let '(b, w) := od_xfer_app_before_refresh (t_world s) rp in Some (b, set_world w s).

(** ** State and life cycle *)

(** [od_xfer_clear_state], [od_pipe_reset_state] included. *)
Definition od_xfer_clear_state : M E unit :=
  modify (fun s => set_pipe pipe_zero reorder_zero (set_quiet false (set_xfer xfer_zero s))).

Definition abort_hardware (why : od_xfer_abort_reason) : M E unit :=
  let* x := gets t_xfer in
  if od_xfer_owns_hardware x then app_abort why else ret tt.

Definition od_xfer_abort_active (why : od_xfer_abort_reason) (clear_etag : bool) : M E unit :=
  abort_hardware why;;
  (if OD_CAP_PARTIAL && clear_etag then app_set_displayed_etag 0 else ret tt);;
  od_xfer_clear_state.

(** [od_xfer_fail_active] without its log line. *)
Definition od_xfer_fail_active (why : od_xfer_abort_reason) (clear_etag : bool) : M E unit :=
  od_xfer_abort_active why clear_etag.

Definition od_xfer_replace_active : M E unit :=
  let* x := gets t_xfer in
  if od_xfer_active x then abort_hardware OD_XFER_ABORT_REPLACED;; od_xfer_clear_state else ret tt.

Definition od_xfer_reset : M E unit := od_xfer_abort_active OD_XFER_ABORT_RESET false.

(** ** Replies *)

(** A reply function of [od_reply.c], run on the command's token. *)
Definition answer (f : world E -> option od_tx_reservation -> option od_reply_t -> option bytes -> Z ->
                       world E * option od_tx_reservation * od_txq_status)
    (rp : od_reply_t) (frame : bytes) : M E od_txq_status :=
  fun s =>
    let '(w, r, st) := f (t_world s) (Some (t_token s)) (Some rp) (Some frame) (len frame) in
    let t := match r with Some t => t | None => t_token s end in
    Some (st, set_token t (set_world w s)).

Definition od_xfer_reply_app (ctx : option od_cmd_ctx) (frame : bytes) : M E od_txq_status :=
  match ctx with
  | None => ret OD_TXQ_INVARIANT
  | Some c => answer od_reply (c_rp c) frame
  end.

Definition od_xfer_reply_error (ctx : option od_cmd_ctx) (frame : bytes) : M E unit :=
  match ctx with
  | None => ret tt
  | Some c => let* _ := answer od_reply_plain (c_rp c) frame in ret tt
  end.

Definition od_xfer_reply_simple_error (ctx : option od_cmd_ctx) (opcode : Z) : M E unit :=
  od_xfer_reply_error ctx [RESP_NACK; opcode].

Definition od_xfer_reply_partial_error (ctx : option od_cmd_ctx) (opcode err : Z) : M E unit :=
  od_xfer_reply_error ctx [RESP_NACK; opcode; err; 0].

(** ** The stream *)

(** [stream_sink], on a non-null context; [bytes.n <= UINT32_MAX] is a machine fact
    for a buffer of this size but is checked all the same. *)
Definition stream_sink (out : bytes) (s : tstate E) : bool * tstate E :=
  let x := t_xfer s in
  if (len out =? 0) || (UINT32_MAX <? len out) then (false, s)
  else if (expected_bytes x <? written_bytes x)
          || (u32 (expected_bytes x - written_bytes x) <? len out) then (false, s)
  else
    match app_write (written_bytes x) out s with
    | Some (consumed, s) =>
        if negb (consumed =? len out) then (false, set_sink_failed true s)
        else (true, set_xfer (with_written x (u32 (written_bytes x + consumed))) s)
    | None => (false, s)
    end.

Definition od_xfer_stream_reset (expected : Z) : M E unit :=
  modify (fun s => let '(p, s) := od_zlib_pump_reset (t_pump s) s expected in set_pump p s).

(** The pump on the transfer's own state. *)
Definition run_pump (input : od_span) (final : bool) (scratch : bool * Z) : M E od_zlib_pump_status :=
  fun s =>
    match od_zlib_pump_push (t_pump s) s input final scratch.1 scratch.2 (Some stream_sink) with
    | Some (st, p, s) => Some (st, set_pump p s)
    | None => None
    end.

Definition od_xfer_stream_push (input : od_span) (final : bool) : M E od_xfer_stream_result :=
  let* scratch := gets (fun s => od_xfer_app_inflate_scratch (t_env s)) in
  if negb (od_span_valid input) || negb (od_mut_span_valid scratch.1 scratch.2) || (scratch.2 =? 0) then
    ret OD_XFER_STREAM_INVALID
  else
    modify (set_sink_failed false);;
    let* status := run_pump input final scratch in
    let* failed := gets t_sink_failed in
    match status with
    | OD_ZLIB_PUMP_ERROR =>
        ret (if failed then OD_XFER_STREAM_WRITE_FAILED else OD_XFER_STREAM_INFLATE_FAILED)
    | _ =>
        ret (if negb final || bool_decide (status = OD_ZLIB_PUMP_DONE) then OD_XFER_STREAM_OK
             else OD_XFER_STREAM_INFLATE_FAILED)
    end.

(** [od_xfer_log_chunk], of which only the quiet flag is state. *)
Definition od_xfer_log_chunk (payload : od_span) : M E unit :=
  if negb (od_span_valid payload) || (sn payload =? 0) then ret tt else modify (set_quiet true).

(** ** The PIPE operations *)

Definition od_xfer_pipe_arm_full (ctx : option od_cmd_ctx) (total : Z) (z : bool)
  : M E od_xfer_start_cause :=
  let* x := gets t_xfer in
  match ctx with
  | Some c =>
      if negb (bool_decide (mode x = OD_XFER_IDLE)) then ret OD_XFER_START_MALFORMED
      else if total =? 0 then ret OD_XFER_START_ZERO_SIZE
      else
        hook_do od_xfer_app_prepare_start;;
        let* panel := hook_call od_xfer_app_panel_info in
        match panel with
        | Some pi =>
            if total_bytes (pi_geometry pi) =? 0 then ret OD_XFER_START_PANEL_GEOMETRY
            else if bool_decide (layout (pi_geometry pi) = OD_COLOR_LAYOUT_SPLIT_HALVES) then
              ret OD_XFER_START_SPLIT_LAYOUT
            else if negb (total =? total_bytes (pi_geometry pi)) then ret OD_XFER_START_SIZE_MISMATCH
            else
              let* now := hook_call od_xfer_app_now_ms in
              modify (fun s => set_xfer (armed (t_xfer s) OD_XFER_PIPE_FULL (c_rp c) now total z
                                           (pi_geometry pi) (partial (t_xfer s))) s);;
              (if z then od_xfer_stream_reset total else ret tt);;
              ret OD_XFER_START_OK
        | None => ret OD_XFER_START_PANEL_GEOMETRY
        end
  | None => ret OD_XFER_START_MALFORMED
  end.

Definition OD_ERR_PIPE_START_BAD_HEADER : Z := 0x01.
Definition OD_ERR_PIPE_START_UNKNOWN_FLAG : Z := 0x02.
Definition OD_ERR_PIPE_START_SIZE_MISMATCH : Z := 0x03.
Definition OD_ERR_PIPE_START_ETAG_MISMATCH : Z := 0x05.
Definition OD_ERR_PIPE_START_PARTIAL_UNSUPPORTED : Z := 0x06.
Definition OD_ERR_PIPE_START_RECT_INVALID : Z := 0x07.

(** A refusal of a partial START: the displayed etag is forgotten. *)
Definition refuse_partial (cause : od_xfer_start_cause) (err : Z) : M E (od_xfer_start_cause * Z) :=
  app_set_displayed_etag 0;; ret (cause, err).

(** The rectangle checks: bounds, alignment, and the plane it takes. *)
Definition rect_in_panel (pi : od_xfer_panel_info) (x y width height : Z) : bool :=
  negb ((width =? 0) || (height =? 0) || (pi_width pi <? u32 (x + width))
        || (pi_height pi <? u32 (y + height))).

Definition rect_aligned (x width : Z) : bool :=
  negb (negb (Z.land x 7 =? 0) || negb (Z.land width 7 =? 0)).

Definition rect_plane (width height : Z) : option Z :=
  let '(st, rect) := od_color_direct_geometry OD_COLOR_SCHEME_MONO width height in
  if negb (bool_decide (st = OD_COLOR_OK)) || ((part_bytes rect).[0] =? 0)
     || (UINT32_MAX / 2 <? (part_bytes rect).[0]) then None
  else Some (part_bytes rect).[0].

(** [od_xfer_pipe_arm_partial]: the cause and the error byte it writes. *)
Definition od_xfer_pipe_arm_partial (ctx : option od_cmd_ctx) (total : Z) (z : bool)
    (old_etag x y width height : Z) : M E (od_xfer_start_cause * Z) :=
  let* st := gets t_xfer in
  match ctx with
  | Some c =>
      if negb (bool_decide (mode st = OD_XFER_IDLE)) then
        ret (OD_XFER_START_MALFORMED, OD_ERR_PIPE_START_BAD_HEADER)
      else if total =? 0 then ret (OD_XFER_START_ZERO_SIZE, OD_ERR_PIPE_START_BAD_HEADER)
      else
        hook_do od_xfer_app_prepare_start;;
        let* panel := hook_call od_xfer_app_panel_info in
        match panel with
        | None => refuse_partial OD_XFER_START_PANEL_GEOMETRY OD_ERR_PIPE_START_BAD_HEADER
        | Some pi =>
            if negb (partial_enabled pi) || negb (partial_supported (pi_geometry pi)) then
              refuse_partial OD_XFER_START_PARTIAL_UNSUPPORTED OD_ERR_PIPE_START_PARTIAL_UNSUPPORTED
            else
              let* etag := gets (fun s => od_xfer_app_displayed_etag (t_env s)) in
              if (old_etag =? 0) || negb (old_etag =? etag) then
                refuse_partial OD_XFER_START_ETAG_MISMATCH OD_ERR_PIPE_START_ETAG_MISMATCH
              else if negb (rect_in_panel pi x y width height) then
                refuse_partial OD_XFER_START_RECT_BOUNDS OD_ERR_PIPE_START_RECT_INVALID
              else if negb (rect_aligned x width) then
                refuse_partial OD_XFER_START_RECT_ALIGNMENT OD_ERR_PIPE_START_RECT_INVALID
              else
                match rect_plane width height with
                | None => refuse_partial OD_XFER_START_RECT_BOUNDS OD_ERR_PIPE_START_RECT_INVALID
                | Some plane =>
                    if negb (total =? u32 (plane * 2)) then
                      refuse_partial OD_XFER_START_SIZE_MISMATCH OD_ERR_PIPE_START_SIZE_MISMATCH
                    else
                      let* now := hook_call od_xfer_app_now_ms in
                      modify (fun s => set_xfer (armed (t_xfer s) OD_XFER_PIPE_PARTIAL (c_rp c) now total z
                          (pi_geometry pi)
                          {| new_etag := new_etag (partial (t_xfer s)); plane_bytes := plane;
                             rect_x := x; rect_y := y; rect_width := width; rect_height := height |}) s);;
                      (if z then od_xfer_stream_reset total else ret tt);;
                      ret (OD_XFER_START_OK, OD_ERR_PIPE_START_BAD_HEADER)
                end
        end
  | None => ret (OD_XFER_START_MALFORMED, OD_ERR_PIPE_START_BAD_HEADER)
  end.

Definition od_xfer_pipe_enter_fatal : M E unit :=
  let* x := gets t_xfer in
  abort_hardware OD_XFER_ABORT_STREAM_FAILED;;
  (if OD_CAP_PARTIAL && bool_decide (mode x = OD_XFER_PIPE_PARTIAL) then app_set_displayed_etag 0
   else ret tt);;
  if negb (bool_decide (mode x = OD_XFER_IDLE)) then modify (fun s => set_xfer (with_mode (t_xfer s) OD_XFER_FATAL) s)
  else ret tt.

Definition od_xfer_pipe_activate : M E bool :=
  let* x := gets t_xfer in
  let* ok :=
    (match mode x with
     | OD_XFER_PIPE_FULL => app_begin_full (geometry x)
     | OD_XFER_PIPE_PARTIAL => if OD_CAP_PARTIAL then app_begin_partial (partial x) else ret false
     | _ => ret false
     end) in
  (if negb ok then od_xfer_pipe_enter_fatal else ret tt);;
  ret ok.

(** The uncompressed path of [od_xfer_pipe_consume]. *)
Definition pipe_consume_raw (payload : od_span) : M E od_xfer_stream_result :=
  let* x := gets t_xfer in
  if expected_bytes x <? written_bytes x then ret OD_XFER_STREAM_SIZE_EXCEEDED
  else
    let remaining := u32 (expected_bytes x - written_bytes x) in
    if bool_decide (mode x = OD_XFER_PIPE_PARTIAL) && (remaining <? sn payload) then
      ret OD_XFER_STREAM_SIZE_EXCEEDED
    else
      let payload := od_span_take payload (if sn payload <? remaining then sn payload else remaining) in
      if sn payload =? 0 then ret OD_XFER_STREAM_OK
      else
        let* consumed := app_write (written_bytes x) (contents payload) in
        if negb (consumed =? u32 (sn payload)) then ret OD_XFER_STREAM_WRITE_FAILED
        else
          modify (fun s => set_xfer (with_written (t_xfer s) (u32 (written_bytes (t_xfer s) + consumed))) s);;
          ret OD_XFER_STREAM_OK.

Definition od_xfer_pipe_consume (payload : od_span) : M E od_xfer_stream_result :=
  let* x := gets t_xfer in
  if negb (od_span_valid payload) || (sn payload =? 0) || (UINT32_MAX <? sn payload)
     || negb (is_pipe (mode x)) then ret OD_XFER_STREAM_INVALID
  else if u32 (UINT32_MAX - received_bytes x) <? sn payload then ret OD_XFER_STREAM_SIZE_EXCEEDED
  else
    od_xfer_log_chunk payload;;
    modify (fun s => set_xfer (with_received (t_xfer s) (u32 (received_bytes (t_xfer s) + sn payload))) s);;
    event (EvInput (contents payload));;
    if compressed x then od_xfer_stream_push payload false else pipe_consume_raw payload.

Definition od_xfer_pipe_finalize : M E od_xfer_stream_result :=
  let* x := gets t_xfer in
  if negb (is_pipe (mode x)) then ret OD_XFER_STREAM_INVALID
  else if negb (compressed x) then ret OD_XFER_STREAM_OK
  else if negb (received_bytes x =? 0) then od_xfer_stream_push od_span_none true
  else ret OD_XFER_STREAM_INFLATE_FAILED.

Definition od_xfer_pipe_mark_finalized : M E unit :=
  let* now := hook_call od_xfer_app_now_ms in
  modify (fun s => set_xfer (with_finalized (t_xfer s) now) s).

Definition od_xfer_pipe_before_refresh : M E od_xfer_barrier :=
  let* x := gets t_xfer in
  if negb (is_pipe (mode x)) then ret OD_XFER_BARRIER_ABORT else app_before_refresh (owner x).

Definition od_xfer_pipe_barrier_abort : M E unit :=
  let* x := gets t_xfer in
  (if OD_CAP_PARTIAL && bool_decide (mode x = OD_XFER_PIPE_PARTIAL) then app_set_displayed_etag 0
   else ret tt);;
  od_xfer_clear_state;;
  app_barrier_abort (owner x).

(** The etag a finished PIPE transfer leaves. *)
Definition pipe_etag (is_partial completed has_new_etag : bool) (etag : Z) : M E unit :=
  let kept := if has_new_etag && negb (etag =? 0) then etag else 0 in
  if negb OD_CAP_PARTIAL then ret tt
  else if is_partial then app_set_displayed_etag (if completed then kept else 0)
  else if completed then app_set_displayed_etag kept
  else if has_new_etag then app_set_displayed_etag 0
  else ret tt.

(** [od_xfer_pipe_refresh]: its result and [*completed]. *)
Definition od_xfer_pipe_refresh (refresh_mode : Z) (has_new_etag : bool) (etag : Z) : M E (bool * bool) :=
  let* x := gets t_xfer in
  let is_partial := bool_decide (mode x = OD_XFER_PIPE_PARTIAL) in
  if negb (is_pipe (mode x)) then ret (false, false)
  else
    let* r := app_refresh refresh_mode in
    if negb r.1 then
      od_xfer_fail_active OD_XFER_ABORT_REFRESH_FAILED (is_partial || has_new_etag);; ret (false, r.2)
    else
      pipe_etag is_partial r.2 has_new_etag etag;;
      od_xfer_clear_state;;
      ret (true, r.2).
End Operations.

End Xfer.
