(* ===== verification/XferDirect.v ===== *)
(** The direct write, [shared/core/od_xfer_direct.c]: START, DATA and END of a
    full-frame transfer. *)

From S2P Require Import Prelude Hal TxQueue Span Proto Session World Reply Dispatch Color Pump PipeState XferState Xfer.
Import Hal TxQueue Span Proto Session World Reply Dispatch Color Pump PipeState XferState Xfer.

Module XferDirect.

Open Scope xfer_scope.

Definition OD_REFRESH_FULL : Z := 0.
Definition OD_REFRESH_FAST : Z := 1.

Definition RESP_DIRECT_WRITE_START_ACK : Z := 0x70.
Definition RESP_DIRECT_WRITE_DATA_ACK : Z := 0x71.
Definition RESP_DIRECT_WRITE_END_ACK : Z := 0x72.
Definition RESP_DIRECT_WRITE_REFRESH_SUCCESS : Z := 0x73.
Definition RESP_DIRECT_WRITE_REFRESH_TIMEOUT : Z := 0x74.

(** Integers of a request, at byte [i] of its body. *)
Definition read_le32 (b : od_span) (i : Z) : Z :=
  Z.lor (Z.lor (Z.lor (at_ b i) (Z.shiftl (at_ b (i + 1)) 8)) (Z.shiftl (at_ b (i + 2)) 16))
    (Z.shiftl (at_ b (i + 3)) 24).

Definition read_be32 (b : od_span) (i : Z) : Z :=
  Z.lor (Z.lor (Z.lor (Z.shiftl (at_ b i) 24) (Z.shiftl (at_ b (i + 1)) 16)) (Z.shiftl (at_ b (i + 2)) 8))
    (at_ b (i + 3)).

Section Operations.
Context {E : Type} `{Radio E} `{Crypto E} `{SessionApp E} `{CommandApp E} `{Inflater E}
  `{XferApp E} `{PipeConfig}.

(** [od_xfer_reply_simple_error(...); return OD_CMD_NACK;] *)
Definition nack (ctx : option od_cmd_ctx) (opcode : Z) : M E od_cmd_result :=
  od_xfer_reply_simple_error ctx opcode;; ret OD_CMD_NACK.

(** A failure that gives the panel up first. *)
Definition fail_nack (ctx : option od_cmd_ctx) (opcode : Z) (why : od_xfer_abort_reason)
  : M E od_cmd_result :=
  od_xfer_fail_active why false;; nack ctx opcode.

(** The acknowledgement that ends START and DATA. *)
Definition ack_or_fail (ctx : option od_cmd_ctx) (frame : bytes) (clear_etag : bool)
  : M E od_cmd_result :=
  let* rc := od_xfer_reply_app ctx frame in
  if negb (bool_decide (rc = OD_TXQ_OK)) then
    od_xfer_fail_active OD_XFER_ABORT_REPLY_FAILED clear_etag;; ret OD_CMD_NACK
  else ret OD_CMD_OK.

(** The compressed bytes that came with a START. *)
Definition start_inline (ctx : option od_cmd_ctx) (body : od_span) (expected : Z)
  : M E (option od_cmd_result) :=
  od_xfer_stream_reset expected;;
  let input := od_span_drop body 4 in
  if 0 <? sn input then
    modify (fun s => set_xfer (with_received (t_xfer s) (u32 (sn input))) s);;
    let* result := od_xfer_stream_push input false in
    match result with
    | OD_XFER_STREAM_OK => ret None
    | _ =>
        let* rc := fail_nack ctx RESP_DIRECT_WRITE_START_ACK OD_XFER_ABORT_START_FAILED in
        ret (Some rc)
    end
  else ret None.

(** From the moment the panel is known and the size agreed. *)
Definition start_panel (c : od_cmd_ctx) (body : od_span) (g : od_color_geometry) (z : bool)
  : M E od_cmd_result :=
  od_xfer_clear_state;;
  let* now := hook_call od_xfer_app_now_ms in
  modify (fun s => set_xfer (armed (t_xfer s) OD_XFER_DIRECT_FULL (c_rp c) now (total_bytes g) z g
                               (partial (t_xfer s))) s);;
  let* ok := app_begin_full g in
  if negb ok then fail_nack (Some c) RESP_DIRECT_WRITE_START_ACK OD_XFER_ABORT_START_FAILED
  else
    let* failed := (if z then start_inline (Some c) body (total_bytes g) else ret None) in
    match failed with
    | Some rc => ret rc
    | None => ack_or_fail (Some c) [RESP_ACK; RESP_DIRECT_WRITE_START_ACK] false
    end.

Definition od_xfer_direct_start (ctx : option od_cmd_ctx) (body : od_span) : M E od_cmd_result :=
  let z := 4 <=? sn body in
  match ctx with
  | None => nack ctx RESP_DIRECT_WRITE_START_ACK
  | Some c =>
      if negb (od_span_valid body) || (UINT32_MAX <? sn body) then nack ctx RESP_DIRECT_WRITE_START_ACK
      else
        od_xfer_replace_active;;
        hook_do od_xfer_app_prepare_start;;
        let* panel := hook_call od_xfer_app_panel_info in
        match panel with
        | None => nack ctx RESP_DIRECT_WRITE_START_ACK
        | Some pi =>
            if total_bytes (pi_geometry pi) =? 0 then nack ctx RESP_DIRECT_WRITE_START_ACK
            else if bool_decide (layout (pi_geometry pi) = OD_COLOR_LAYOUT_SPLIT_HALVES) then
              nack ctx RESP_DIRECT_WRITE_START_ACK
            else if z && negb (read_le32 body 0 =? total_bytes (pi_geometry pi)) then
              nack ctx RESP_DIRECT_WRITE_START_ACK
            else start_panel c body (pi_geometry pi) z
        end
  end.

(** The etag a finished direct write leaves. *)
Definition direct_etag (completed has_etag : bool) (etag : Z) : M E unit :=
  if negb OD_CAP_PARTIAL then ret tt
  else if completed then app_set_displayed_etag (if has_etag && negb (etag =? 0) then etag else 0)
  else if has_etag then app_set_displayed_etag 0
  else ret tt.

(** [finish_refresh]: acknowledge, pass the barrier, refresh, report. *)
Definition finish_refresh (ctx : option od_cmd_ctx) (body : od_span) : M E od_cmd_result :=
  let* now := hook_call od_xfer_app_now_ms in
  modify (fun s => set_xfer (with_finalized (t_xfer s) now) s);;
  let* x := gets t_xfer in
  let has_etag := 5 <=? sn body in
  let etag := if has_etag then read_be32 body 1 else 0 in
  let refresh_mode := if (0 <? sn body) && (at_ body 0 =? OD_REFRESH_FAST) then OD_REFRESH_FAST
                      else OD_REFRESH_FULL in
  let* rc := od_xfer_reply_app ctx [RESP_ACK; RESP_DIRECT_WRITE_END_ACK] in
  if negb (bool_decide (rc = OD_TXQ_OK)) then
    od_xfer_clear_state;; app_barrier_abort (owner x);; ret OD_CMD_NACK
  else
    let* barrier := app_before_refresh (owner x) in
    match barrier with
    | OD_XFER_BARRIER_ABORT =>
        od_xfer_clear_state;; app_barrier_abort (owner x);; ret OD_CMD_NACK
    | OD_XFER_BARRIER_PROCEED =>
        let* r := app_refresh refresh_mode in
        if negb r.1 then fail_nack ctx RESP_DIRECT_WRITE_END_ACK OD_XFER_ABORT_REFRESH_FAILED
        else
          direct_etag r.2 has_etag etag;;
          od_xfer_clear_state;;
          let* rc := od_xfer_reply_app ctx
            [RESP_ACK; if r.2 then RESP_DIRECT_WRITE_REFRESH_SUCCESS else RESP_DIRECT_WRITE_REFRESH_TIMEOUT] in
          ret (if negb (bool_decide (rc = OD_TXQ_OK)) then OD_CMD_NACK else OD_CMD_OK)
    end.

Definition od_xfer_direct_end_impl (ctx : option od_cmd_ctx) (body : od_span) : M E od_cmd_result :=
  let* x := gets t_xfer in
  if negb (od_xfer_owner_matches x ctx) then ret OD_CMD_OK
  else if compressed x then
    let* result := od_xfer_stream_push od_span_none true in
    match result with
    | OD_XFER_STREAM_OK => finish_refresh ctx body
    | _ => fail_nack ctx RESP_DIRECT_WRITE_END_ACK OD_XFER_ABORT_STREAM_FAILED
    end
  else if bool_decide (layout (geometry x) = OD_COLOR_LAYOUT_CONTROLLER_PLANES)
          && negb (written_bytes x =? expected_bytes x) then
    fail_nack ctx RESP_DIRECT_WRITE_END_ACK OD_XFER_ABORT_INCOMPLETE
  else finish_refresh ctx body.

(** A raw DATA frame: what fits of it goes to the panel, the rest is dropped. *)
Definition direct_data_raw (ctx : option od_cmd_ctx) (body : od_span) : M E od_cmd_result :=
  let* x := gets t_xfer in
  let remaining := if written_bytes x <? expected_bytes x then u32 (expected_bytes x - written_bytes x) else 0 in
  let offered := if sn body <? remaining then u32 (sn body) else remaining in
  let* ok :=
    (if 0 <? offered then
       let* consumed := app_write (written_bytes x) (contents (od_span_take body offered)) in
       if negb (consumed =? offered) then ret false
       else
         modify (fun s => set_xfer (with_written (t_xfer s) (u32 (written_bytes (t_xfer s) + consumed))) s);;
         ret true
     else ret true) in
  if negb ok then fail_nack ctx RESP_DIRECT_WRITE_DATA_ACK OD_XFER_ABORT_STREAM_FAILED
  else
    let* x := gets t_xfer in
    if OD_XFER_DIRECT_AUTO_END && (expected_bytes x <=? written_bytes x) then
      od_xfer_direct_end_impl ctx od_span_none
    else ack_or_fail ctx [RESP_ACK; RESP_DIRECT_WRITE_DATA_ACK] false.

Definition od_xfer_direct_data_impl (ctx : option od_cmd_ctx) (body : od_span) : M E od_cmd_result :=
  let* x := gets t_xfer in
  if negb (od_xfer_owner_matches x ctx) then ret OD_CMD_OK
  else if sn body =? 0 then ret OD_CMD_OK
  else if UINT32_MAX <? sn body then
    fail_nack ctx RESP_DIRECT_WRITE_DATA_ACK OD_XFER_ABORT_STREAM_FAILED
  else
    od_xfer_log_chunk body;;
    if u32 (UINT32_MAX - received_bytes x) <? sn body then
      fail_nack ctx RESP_DIRECT_WRITE_DATA_ACK OD_XFER_ABORT_STREAM_FAILED
    else
      modify (fun s => set_xfer (with_received (t_xfer s) (u32 (received_bytes (t_xfer s) + sn body))) s);;
      if compressed x then
        let* result := od_xfer_stream_push body false in
        match result with
        | OD_XFER_STREAM_OK => ack_or_fail ctx [RESP_ACK; RESP_DIRECT_WRITE_DATA_ACK] false
        | _ => fail_nack ctx RESP_DIRECT_WRITE_DATA_ACK OD_XFER_ABORT_STREAM_FAILED
        end
      else direct_data_raw ctx body.
End Operations.

End XferDirect.
