(* ===== verification/XferPartial.v ===== *)
(** The partial write, [shared/core/od_xfer_partial.c]: a rectangle of a
    monochrome panel, guarded by the etag of what is displayed. *)

From S2P Require Import Prelude Hal TxQueue Span Proto Session World Reply Dispatch Color Pump PipeState XferState Xfer XferDirect.
Import Hal TxQueue Span Proto Session World Reply Dispatch Color Pump PipeState XferState Xfer XferDirect.

Module XferPartial.

Open Scope xfer_scope.

Definition OD_PARTIAL_FLAG_COMPRESSED : Z := 0x01.
Definition OD_PARTIAL_ALLOWED_FLAGS : Z := OD_PARTIAL_FLAG_COMPRESSED.
Definition OD_REFRESH_PARTIAL : Z := 2.

Definition OD_ERR_PARTIAL_ETAG_MISMATCH : Z := 0x01.
Definition OD_ERR_PARTIAL_RECT_OOB : Z := 0x03.
Definition OD_ERR_PARTIAL_RECT_ALIGN : Z := 0x04.
Definition OD_ERR_PARTIAL_FLAGS : Z := 0x05.
Definition OD_ERR_PARTIAL_STREAM : Z := 0x06.
Definition OD_ERR_PARTIAL_UNSUPPORTED : Z := 0x07.

Definition RESP_PARTIAL_WRITE_START : Z := 0x76.

Definition read_be16 (b : od_span) (i : Z) : Z := Z.lor (Z.shiftl (at_ b i) 8) (at_ b (i + 1)).

Section Operations.
Context {E : Type} `{Radio E} `{Crypto E} `{SessionApp E} `{CommandApp E} `{Inflater E}
  `{XferApp E} `{PipeConfig}.

Definition partial_fail (ctx : option od_cmd_ctx) (opcode err : Z) : M E od_cmd_result :=
  app_set_displayed_etag 0;; od_xfer_reply_partial_error ctx opcode err;; ret OD_CMD_NACK.

(** [partial_terminal_fail], without its log line. *)
Definition partial_terminal_fail (ctx : option od_cmd_ctx) (opcode err : Z)
    (why : od_xfer_abort_reason) : M E od_cmd_result :=
  app_set_displayed_etag 0;; od_xfer_fail_active why false;;
  od_xfer_reply_partial_error ctx opcode err;; ret OD_CMD_NACK.

Definition start_terminal (ctx : option od_cmd_ctx) : M E od_cmd_result :=
  partial_terminal_fail ctx RESP_PARTIAL_WRITE_START OD_ERR_PARTIAL_STREAM OD_XFER_ABORT_START_FAILED.

(** The stream bytes that came with the START, if any: whether they were taken. *)
Definition partial_inline (body : od_span) (z : bool) (expected : Z) : M E bool :=
  if 17 <? sn body then
    let input := od_span_drop body 17 in
    modify (fun s => set_xfer (with_received (t_xfer s) (u32 (sn input))) s);;
    if z then
      let* result := od_xfer_stream_push input false in
      ret (match result with OD_XFER_STREAM_OK => true | _ => false end)
    else if expected <? sn input then ret false
    else
      let* consumed := app_write 0 (contents input) in
      if negb (consumed =? sn input) then ret false
      else modify (fun s => set_xfer (with_written (t_xfer s) consumed) s);; ret true
  else ret true.

(** From the moment the rectangle is accepted. *)
Definition start_rect (c : od_cmd_ctx) (body : od_span) (z : bool) (g : od_color_geometry)
    (p : od_xfer_partial_state) : M E od_cmd_result :=
  let expected := u32 (plane_bytes p * 2) in
  od_xfer_clear_state;;
  let* now := hook_call od_xfer_app_now_ms in
  modify (fun s => set_xfer (armed (t_xfer s) OD_XFER_DIRECT_PARTIAL (c_rp c) now expected z g p) s);;
  let* ok := app_begin_partial p in
  if negb ok then start_terminal (Some c)
  else
    (if z then od_xfer_stream_reset expected else ret tt);;
    let* ok := partial_inline body z expected in
    if negb ok then start_terminal (Some c)
    else ack_or_fail (Some c) [RESP_ACK; RESP_PARTIAL_WRITE_START] true.

(** The header's checks, in the order of the code: [Some err] refuses. *)
Definition partial_checks (pi : od_xfer_panel_info) (x y width height : Z) : option Z :=
  if negb (partial_enabled pi) || negb (partial_supported (pi_geometry pi)) then
    Some OD_ERR_PARTIAL_UNSUPPORTED
  else if negb (rect_in_panel pi x y width height) then Some OD_ERR_PARTIAL_RECT_OOB
  else if negb (rect_aligned x width) then Some OD_ERR_PARTIAL_RECT_ALIGN
  else None.

(** [od_xfer_partial_start] of a build with partial updates. *)
Definition partial_start (ctx : option od_cmd_ctx) (body : od_span) : M E od_cmd_result :=
  match ctx with
  | None => partial_fail ctx RESP_PARTIAL_WRITE_START OD_ERR_PARTIAL_STREAM
  | Some c =>
      if negb (od_span_valid body) || (UINT32_MAX <? sn body) then
        partial_fail ctx RESP_PARTIAL_WRITE_START OD_ERR_PARTIAL_STREAM
      else
        od_xfer_replace_active;;
        hook_do od_xfer_app_prepare_start;;
        if sn body <? 17 then partial_fail ctx RESP_PARTIAL_WRITE_START OD_ERR_PARTIAL_STREAM
        else
          let flags := at_ body 0 in
          let old_etag := read_be32 body 1 in
          let tag := read_be32 body 5 in
          let x := read_be16 body 9 in
          let y := read_be16 body 11 in
          let width := read_be16 body 13 in
          let height := read_be16 body 15 in
          let* etag := gets (fun s => od_xfer_app_displayed_etag (t_env s)) in
          if negb (Z.land flags (0xFF - OD_PARTIAL_ALLOWED_FLAGS) =? 0) then
            partial_fail ctx RESP_PARTIAL_WRITE_START OD_ERR_PARTIAL_FLAGS
          else if (old_etag =? 0) || negb (old_etag =? etag) || (tag =? 0) then
            partial_fail ctx RESP_PARTIAL_WRITE_START OD_ERR_PARTIAL_ETAG_MISMATCH
          else
            let* panel := hook_call od_xfer_app_panel_info in
            match panel with
            | None => partial_fail ctx RESP_PARTIAL_WRITE_START OD_ERR_PARTIAL_UNSUPPORTED
            | Some pi =>
                match partial_checks pi x y width height with
                | Some err => partial_fail ctx RESP_PARTIAL_WRITE_START err
                | None =>
                    match rect_plane width height with
                    | None => partial_fail ctx RESP_PARTIAL_WRITE_START OD_ERR_PARTIAL_STREAM
                    | Some plane =>
                        start_rect c body (negb (Z.land flags OD_PARTIAL_FLAG_COMPRESSED =? 0))
                          (pi_geometry pi)
                          {| new_etag := tag; plane_bytes := plane; rect_x := x; rect_y := y;
                             rect_width := width; rect_height := height |}
                    end
                end
            end
  end.

Definition od_xfer_partial_start (ctx : option od_cmd_ctx) (body : od_span) : M E od_cmd_result :=
  if OD_CAP_PARTIAL then partial_start ctx body
  else
    od_xfer_reply_error ctx [RESP_NACK; RESP_PARTIAL_WRITE_START; OD_ERR_PARTIAL_UNSUPPORTED; 0];;
    ret OD_CMD_NACK.

(** A raw DATA frame: all of it must fit. *)
Definition partial_data_raw (body : od_span) : M E bool :=
  let* x := gets t_xfer in
  if (expected_bytes x <? written_bytes x)
     || (u32 (expected_bytes x - written_bytes x) <? sn body) then ret false
  else
    let* consumed := app_write (written_bytes x) (contents body) in
    if negb (consumed =? u32 (sn body)) then ret false
    else
      modify (fun s => set_xfer (with_written (t_xfer s) (u32 (written_bytes (t_xfer s) + consumed))) s);;
      ret true.

Definition od_xfer_partial_data_impl (ctx : option od_cmd_ctx) (body : od_span) : M E od_cmd_result :=
  let* x := gets t_xfer in
  let fail := partial_terminal_fail ctx RESP_DIRECT_WRITE_DATA_ACK OD_ERR_PARTIAL_STREAM
                OD_XFER_ABORT_STREAM_FAILED in
  if negb (od_xfer_owner_matches x ctx) then ret OD_CMD_OK
  else if sn body =? 0 then ret OD_CMD_OK
  else if UINT32_MAX <? sn body then fail
  else
    od_xfer_log_chunk body;;
    if u32 (UINT32_MAX - received_bytes x) <? sn body then fail
    else
      modify (fun s => set_xfer (with_received (t_xfer s) (u32 (received_bytes (t_xfer s) + sn body))) s);;
      let* ok :=
        (if compressed x then
           let* result := od_xfer_stream_push body false in
           ret (match result with OD_XFER_STREAM_OK => true | _ => false end)
         else partial_data_raw body) in
      if negb ok then fail else ack_or_fail ctx [RESP_ACK; RESP_DIRECT_WRITE_DATA_ACK] true.

(** The end of a partial write once its stream is complete. *)
Definition partial_finish (ctx : option od_cmd_ctx) (body : od_span) (rp : od_reply_t) : M E od_cmd_result :=
  let abandon := app_set_displayed_etag 0;; od_xfer_clear_state;; app_barrier_abort rp;; ret OD_CMD_NACK in
  let* now := hook_call od_xfer_app_now_ms in
  modify (fun s => set_xfer (with_finalized (t_xfer s) now) s);;
  let* rc := od_xfer_reply_app ctx [RESP_ACK; RESP_DIRECT_WRITE_END_ACK] in
  if negb (bool_decide (rc = OD_TXQ_OK)) then abandon
  else
    let* barrier := app_before_refresh rp in
    match barrier with
    | OD_XFER_BARRIER_ABORT => abandon
    | OD_XFER_BARRIER_PROCEED =>
        let refresh_mode :=
          if (sn body =? 1) && (at_ body 0 =? OD_REFRESH_FULL) then OD_REFRESH_FULL
          else if (sn body =? 1) && (at_ body 0 =? OD_REFRESH_FAST) then OD_REFRESH_FAST
          else OD_REFRESH_PARTIAL in
        let* r := app_refresh refresh_mode in
        if negb r.1 then
          partial_terminal_fail ctx RESP_DIRECT_WRITE_END_ACK OD_ERR_PARTIAL_STREAM
            OD_XFER_ABORT_REFRESH_FAILED
        else
          let* x := gets t_xfer in
          app_set_displayed_etag (if r.2 then new_etag (partial x) else 0);;
          od_xfer_clear_state;;
          let* rc := od_xfer_reply_app ctx
            [RESP_ACK; if r.2 then RESP_DIRECT_WRITE_REFRESH_SUCCESS else RESP_DIRECT_WRITE_REFRESH_TIMEOUT] in
          ret (if negb (bool_decide (rc = OD_TXQ_OK)) then OD_CMD_NACK else OD_CMD_OK)
    end.

Definition od_xfer_partial_end_impl (ctx : option od_cmd_ctx) (body : od_span) : M E od_cmd_result :=
  let* x := gets t_xfer in
  let fail := partial_terminal_fail ctx RESP_DIRECT_WRITE_END_ACK OD_ERR_PARTIAL_STREAM in
  if negb (od_xfer_owner_matches x ctx) then ret OD_CMD_OK
  else if 1 <? sn body then fail OD_XFER_ABORT_STREAM_FAILED
  else if compressed x then
    let* result :=
      (if received_bytes x =? 0 then ret OD_XFER_STREAM_INFLATE_FAILED
       else od_xfer_stream_push od_span_none true) in
    match result with
    | OD_XFER_STREAM_OK => partial_finish ctx body (owner x)
    | _ => fail OD_XFER_ABORT_STREAM_FAILED
    end
  else if negb (written_bytes x =? expected_bytes x) then fail OD_XFER_ABORT_INCOMPLETE
  else partial_finish ctx body (owner x).

(** ** The two commands both transfers share, [od_xfer_data] and [od_xfer_end] *)

Definition od_xfer_data (ctx : option od_cmd_ctx) (body : od_span) : M E od_cmd_result :=
  let* x := gets t_xfer in
  if negb (od_span_valid body) then nack ctx RESP_DIRECT_WRITE_DATA_ACK
  else
    match mode x with
    | OD_XFER_DIRECT_FULL => od_xfer_direct_data_impl ctx body
    | OD_XFER_DIRECT_PARTIAL => if OD_CAP_PARTIAL then od_xfer_partial_data_impl ctx body else ret OD_CMD_OK
    | _ => ret OD_CMD_OK
    end.

Definition od_xfer_end (ctx : option od_cmd_ctx) (body : od_span) : M E od_cmd_result :=
  let* x := gets t_xfer in
  if negb (od_span_valid body) then nack ctx RESP_DIRECT_WRITE_END_ACK
  else
    match mode x with
    | OD_XFER_DIRECT_FULL => od_xfer_direct_end_impl ctx body
    | OD_XFER_DIRECT_PARTIAL => if OD_CAP_PARTIAL then od_xfer_partial_end_impl ctx body else ret OD_CMD_OK
    | _ => ret OD_CMD_OK
    end.
End Operations.

End XferPartial.
