(* ===== verification/Pipe.v ===== *)
(** The PIPE commands, [shared/core/od_pipe.c]: a sliding window with selective
    acknowledgement over the transfer machine. *)

From S2P Require Import Prelude Hal TxQueue Span Proto Session World Reply Dispatch Color Pump PipeState XferState Xfer XferDirect.
Import Hal TxQueue Span Proto Session World Reply Dispatch Color Pump PipeState XferState Xfer XferDirect.

Module Pipe.

Open Scope xfer_scope.

Definition OD_PIPE_REFRESH_FULL : Z := 0.
Definition OD_PIPE_REFRESH_FAST : Z := 1.
Definition OD_PIPE_REFRESH_PARTIAL : Z := 2.

(** [sizeof(struct PipeStartRequest)], [sizeof(struct PipePartialExt)]. *)
Definition START_SIZE : Z := 10.
Definition EXT_SIZE : Z := 12.

Definition read_le16 (b : od_span) (i : Z) : Z := Z.lor (at_ b i) (Z.shiftl (at_ b (i + 1)) 8).

Section Operations.
Context {E : Type} `{Radio E} `{Crypto E} `{SessionApp E} `{CommandApp E} `{Inflater E}
  `{XferApp E} `{PipeConfig}.

Definition pipe_mod (f : od_pipe_state -> od_pipe_state) : M E unit :=
  modify (fun s => set_pipe (f (t_pipe s)) (t_reorder s) s).

(** [pipe_send_sack]: the acknowledgement, and the counters it resets. *)
Definition pipe_send_sack (ctx : option od_cmd_ctx) : M E od_txq_status :=
  let* sack := gets (fun s => pipe_build_sack (t_pipe s) (t_reorder s)) in
  let* rc := od_xfer_reply_app ctx ([RESP_ACK; 0x81] ++ sack) in
  pipe_mod (fun p => with_acks p 0 0);;
  ret rc.

Definition pipe_sack_or_fatal (ctx : option od_cmd_ctx) : M E bool :=
  let* rc := pipe_send_sack ctx in
  if bool_decide (rc = OD_TXQ_OK) then ret true
  else od_xfer_pipe_enter_fatal;; ret false.

Definition pipe_send_start_nack (ctx : option od_cmd_ctx) (err : Z) : M E unit :=
  od_xfer_reply_error ctx [RESP_NACK; 0x80; err; 0].

Definition pipe_send_data_nack (ctx : option od_cmd_ctx) (err : Z) : M E unit :=
  let* sack := gets (fun s => pipe_build_sack (t_pipe s) (t_reorder s)) in
  od_xfer_reply_error ctx ([RESP_NACK; 0x81; err] ++ sack);;
  od_xfer_pipe_enter_fatal.

Definition pipe_send_end_nack (ctx : option od_cmd_ctx) : M E unit :=
  od_xfer_reply_error ctx [RESP_NACK; 0x82].

Definition pipe_refuse_origin (ctx : option od_cmd_ctx) (opcode err : Z) : M E od_cmd_result :=
  let* _ := od_xfer_reply_app ctx [RESP_NACK; opcode; err; 0] in ret OD_CMD_NACK.

Definition pipe_finish (ctx : option od_cmd_ctx) (body : od_span) : M E od_cmd_result :=
  od_xfer_pipe_mark_finalized;;
  let* p := gets t_pipe in
  let has_etag := 5 <=? sn body in
  let etag := if has_etag then read_be32 body 1 else 0 in
  let refresh_mode :=
    if (0 <? sn body) && (at_ body 0 =? OD_PIPE_REFRESH_FULL) then OD_PIPE_REFRESH_FULL
    else if (0 <? sn body) && (at_ body 0 =? OD_PIPE_REFRESH_FAST) then OD_PIPE_REFRESH_FAST
    else if pipe_partial p then OD_PIPE_REFRESH_PARTIAL else OD_PIPE_REFRESH_FULL in
  let* rc := od_xfer_reply_app ctx [RESP_ACK; 0x82] in
  if negb (bool_decide (rc = OD_TXQ_OK)) then
    od_xfer_fail_active OD_XFER_ABORT_REPLY_FAILED (pipe_partial p);; ret OD_CMD_NACK
  else
    let* barrier := od_xfer_pipe_before_refresh in
    match barrier with
    | OD_XFER_BARRIER_ABORT => od_xfer_pipe_barrier_abort;; ret OD_CMD_NACK
    | OD_XFER_BARRIER_PROCEED =>
        let* r := od_xfer_pipe_refresh refresh_mode has_etag etag in
        if negb r.1 then pipe_send_end_nack ctx;; ret OD_CMD_NACK
        else
          let* rc := od_xfer_reply_app ctx
            [RESP_ACK; if r.2 then RESP_DIRECT_WRITE_REFRESH_SUCCESS else RESP_DIRECT_WRITE_REFRESH_TIMEOUT] in
          ret (if negb (bool_decide (rc = OD_TXQ_OK)) then OD_CMD_NACK else OD_CMD_OK)
    end.

(** ** START *)

Definition start_refused (ctx : option od_cmd_ctx) (err : Z) : M E od_cmd_result :=
  pipe_send_start_nack ctx err;; ret OD_CMD_NACK.

(** [body.p[2]] or [body.p[3]] clamped to [1 .. limit]. *)
Definition clamp_request (requested limit : Z) : Z :=
  let v := if limit <? requested then limit else requested in if v =? 0 then 1 else v.

(** The window, the cadence and the response, once the transfer is armed. *)
Definition pipe_negotiate (c : od_cmd_ctx) (body : od_span) (is_partial : bool) : M E od_cmd_result :=
  let w := clamp_request (at_ body 2) OD_PIPE_MAX_W in
  let n := clamp_request (at_ body 3) OD_PIPE_MAX_N in
  let n := if w <? n then w else n in
  let client_max_frame := read_le16 body 4 in
  let frame := if client_max_frame <? PIPE_MAX_FRAME then client_max_frame else PIPE_MAX_FRAME in
  pipe_mod (fun p => negotiated p is_partial w n frame);;
  let* rc := od_xfer_reply_app (Some c)
    [RESP_ACK; 0x80; PIPE_VERSION; OD_PIPE_MAX_W; OD_PIPE_MAX_N; Z.land PIPE_MAX_FRAME 0xFF;
     Z.land (Z.shiftr PIPE_MAX_FRAME 8) 0xFF; Z.lor 0x01 (if is_partial then PIPE_FLAG_PARTIAL else 0)] in
  if negb (bool_decide (rc = OD_TXQ_OK)) then
    od_xfer_fail_active OD_XFER_ABORT_REPLY_FAILED is_partial;; ret OD_CMD_NACK
  else let* _ := od_xfer_pipe_activate in ret OD_CMD_OK.

(** [PIPE_FRAME_OVERHEAD + 1u + (ctx->was_protected ? OD_SESSION_ENVELOPE_MIN : 0u)] *)
Definition protection_overhead (c : od_cmd_ctx) : Z :=
  if was_protected c then OD_SESSION_ENVELOPE_MIN else 0.

Definition minimum_frame (c : od_cmd_ctx) : Z := u16 (PIPE_FRAME_OVERHEAD + 1 + protection_overhead c).

(** Arming the transfer: [None], or the error byte of the refusal. *)
Definition pipe_arm (c : od_cmd_ctx) (body : od_span) (z is_partial : bool) : M E (option Z) :=
  let total := read_le32 body 6 in
  if is_partial then
    if OD_CAP_PARTIAL then
      let* r := od_xfer_pipe_arm_partial (Some c) total z (read_le32 body START_SIZE)
        (read_le16 body (START_SIZE + 4)) (read_le16 body (START_SIZE + 6))
        (read_le16 body (START_SIZE + 8)) (read_le16 body (START_SIZE + 10)) in
      ret (match r.1 with OD_XFER_START_OK => None | _ => Some r.2 end)
    else ret (Some OD_ERR_PIPE_START_PARTIAL_UNSUPPORTED)
  else
    let* cause := od_xfer_pipe_arm_full (Some c) total z in
    ret (match cause with OD_XFER_START_OK => None | _ => Some OD_ERR_PIPE_START_SIZE_MISMATCH end).

(** [od_pipe_start] of a build with PIPE. *)
Definition pipe_start (ctx : option od_cmd_ctx) (body : od_span) : M E od_cmd_result :=
  match ctx with
  | None => start_refused ctx OD_ERR_PIPE_START_BAD_HEADER
  | Some c =>
      if negb (od_span_valid body) then start_refused ctx OD_ERR_PIPE_START_BAD_HEADER
      else if negb (bool_decide (rp_origin (c_rp c) = OD_ORIGIN_BLE)) then
        pipe_refuse_origin ctx 0x80 OD_ERR_PIPE_START_BAD_HEADER
      else
        od_xfer_replace_active;;
        if (sn body <? START_SIZE) || negb (at_ body 0 =? PIPE_VERSION) then
          start_refused ctx OD_ERR_PIPE_START_BAD_HEADER
        else
          let flags := at_ body 1 in
          if negb (Z.land flags (0xFF - Z.lor PIPE_FLAG_COMPRESSED PIPE_FLAG_PARTIAL) =? 0) then
            start_refused ctx OD_ERR_PIPE_START_UNKNOWN_FLAG
          else
            let z := negb (Z.land flags PIPE_FLAG_COMPRESSED =? 0) in
            let is_partial := negb (Z.land flags PIPE_FLAG_PARTIAL =? 0) in
            if is_partial && (sn body <? START_SIZE + EXT_SIZE) then
              start_refused ctx OD_ERR_PIPE_START_BAD_HEADER
            else if read_le16 body 4 <? minimum_frame c then
              start_refused ctx OD_ERR_PIPE_START_BAD_HEADER
            else
              let* refused := pipe_arm c body z is_partial in
              match refused with
              | Some err => start_refused ctx err
              | None => pipe_negotiate c body is_partial
              end
  end.

(** ** DATA *)

(** [xfer->compressed ? 0x02u : 0x03u] *)
Definition stream_error (x : od_xfer_state) : Z := if compressed x then 0x02 else 0x03.

(** A payload handed to the transfer: whether it was taken, else the fatal NACK
    is already on its way. *)
Definition consume_or_fatal (ctx : option od_cmd_ctx) (payload : od_span) : M E bool :=
  if 0 <? sn payload then
    let* r := od_xfer_pipe_consume payload in
    match r with
    | OD_XFER_STREAM_OK => ret true
    | _ => let* x := gets t_xfer in pipe_send_data_nack ctx (stream_error x);; ret false
    end
  else ret true.

(** [od_span_make(slot->data, slot->len)] *)
Definition slot_payload (slot : od_pipe_reorder_slot) : od_span := od_span_make (Some (slot_data slot)) (slot_len slot).

Definition release_slot (slot : od_pipe_reorder_slot) : od_pipe_reorder_slot :=
  {| occupied := false; slot_seq := slot_seq slot; slot_len := slot_len slot; slot_data := slot_data slot |}.

(** The drain's bookkeeping for the expected frame. *)
Definition drain_one (s : tstate E) : tstate E :=
  let p := t_pipe s in
  let i := pipe_slot (expected_seq p) in
  let queued := if 0 <? queued_count p then u16 (queued_count p - 1) else queued_count p in
  let since := if frames_since_ack p <? 255 then u8 (frames_since_ack p + 1) else frames_since_ack p in
  set_pipe (step_expected p since queued) (t_reorder s).[i := release_slot (t_reorder s).[i]] s.

(** The [while] that empties the ring as far as it is contiguous; every turn
    frees an occupied slot, so one turn per slot is enough. *)
Fixpoint pipe_drain (fuel : nat) (ctx : option od_cmd_ctx) : M E bool :=
  match fuel with
  | O => fun _ => None
  | S fuel =>
      let* p := gets t_pipe in
      let* ring := gets t_reorder in
      if holds ring (expected_seq p) then
        let* ok := consume_or_fatal ctx (slot_payload ring.[pipe_slot (expected_seq p)]) in
        if ok then modify drain_one;; pipe_drain fuel ctx else ret false
      else ret true
  end.

Definition drain_fuel : nat := S (Z.to_nat OD_PIPE_REORDER_SLOTS).

(** The frame the window expects. *)
Definition data_expected (ctx : option od_cmd_ctx) (seq : Z) (payload : od_span) : M E od_cmd_result :=
  let* ok := consume_or_fatal ctx payload in
  if negb ok then ret OD_CMD_NACK
  else
    pipe_mod (fun p => pipe_update_highest
      (step_expected p (u8 (frames_since_ack p + 1)) (queued_count p)) seq);;
    let* ok := pipe_drain drain_fuel ctx in
    if negb ok then ret OD_CMD_NACK
    else
      pipe_mod (fun p => if queued_count p =? 0 then with_gap p false (queued_count p) else p);;
      let* p := gets t_pipe in
      let* x := gets t_xfer in
      if negb (pipe_partial p) && negb (compressed x) && od_xfer_pipe_complete x then
        let* ok := pipe_sack_or_fatal ctx in
        if negb ok then ret OD_CMD_NACK else pipe_finish ctx od_span_none
      else if ack_every p <=? frames_since_ack p then
        let* ok := pipe_sack_or_fatal ctx in
        ret (if negb ok then OD_CMD_NACK else OD_CMD_OK)
      else ret OD_CMD_OK.

(** The acknowledgement of a frame that did not move the window: one at once when
    no gap was open, then one every [ack_every]. *)
Definition late_ack (ctx : option od_cmd_ctx) (opens_gap : bool) : M E od_cmd_result :=
  let* p := gets t_pipe in
  if negb (gap_open p) then
    (if opens_gap then pipe_mod (fun p => with_gap p true (queued_count p)) else ret tt);;
    let* ok := pipe_sack_or_fatal ctx in
    ret (if negb ok then OD_CMD_NACK else OD_CMD_OK)
  else
    let ooo := u8 (ooo_acks_since_gap p + 1) in
    pipe_mod (fun p => with_acks p (frames_since_ack p) ooo);;
    if ack_every p <=? ooo then
      let* ok := pipe_sack_or_fatal ctx in
      ret (if negb ok then OD_CMD_NACK else OD_CMD_OK)
    else ret OD_CMD_OK.

Definition fill_slot (slot : od_pipe_reorder_slot) (seq : Z) (payload : bytes) : od_pipe_reorder_slot :=
  {| occupied := true; slot_seq := seq; slot_len := u16 (len payload);
     slot_data := payload ++ drop (length payload) (slot_data slot) |}.

(** Buffering a frame: the window's state and ring with it. *)
Definition buffer_frame (p : od_pipe_state) (ring : list od_pipe_reorder_slot) (seq : Z) (payload : bytes)
  : od_pipe_state * list od_pipe_reorder_slot :=
  let i := pipe_slot seq in
  (if holds ring seq then p else with_gap p (gap_open p) (u16 (queued_count p + 1)),
   ring.[i := fill_slot ring.[i] seq payload]).

(** A frame inside the window, ahead of the expected one. *)
Definition data_ahead (ctx : option od_cmd_ctx) (seq : Z) (payload : od_span) : M E od_cmd_result :=
  if OD_PIPE_REORDER_PAYLOAD <? sn payload then pipe_send_data_nack ctx 0x03;; ret OD_CMD_NACK
  else
    modify (fun s => let '(p, ring) := buffer_frame (t_pipe s) (t_reorder s) seq (contents payload) in
                     set_pipe p ring s);;
    let* p := gets t_pipe in
    if OD_PIPE_REORDER_SLOTS <=? queued_count p then pipe_send_data_nack ctx 0x03;; ret OD_CMD_NACK
    else
      pipe_mod (fun p => pipe_update_highest p seq);;
      late_ack ctx true.

(** The three cases of a frame that passed the checks. *)
Definition data_frame (ctx : option od_cmd_ctx) (seq : Z) (payload : od_span) : M E od_cmd_result :=
  let* p := gets t_pipe in
  let fwd := u8 (seq - expected_seq p) in
  let back := u8 (expected_seq p - seq) in
  if fwd =? 0 then data_expected ctx seq payload
  else if fwd <? window p then data_ahead ctx seq payload
  else if back <=? window p then late_ack ctx false
  else pipe_send_data_nack ctx 0x04;; ret OD_CMD_NACK.

(** The size checks: whether a frame of this command fits what was negotiated. *)
Definition frame_fits (c : od_cmd_ctx) (p : od_pipe_state) (payload : od_span) : bool :=
  let overhead := protection_overhead c in
  if wire_len c <? PIPE_FRAME_OVERHEAD then false
  else if (frame_eff p <? wire_len c) || (frame_eff p <? PIPE_FRAME_OVERHEAD + overhead) then false
  else
    let limit := u16 (frame_eff p - PIPE_FRAME_OVERHEAD - overhead) in
    negb ((limit <? sn payload) || (OD_PIPE_REORDER_PAYLOAD <? sn payload)).

(** [od_pipe_data] of a build with PIPE. *)
Definition pipe_data (ctx : option od_cmd_ctx) (body : od_span) : M E od_cmd_result :=
  let* x := gets t_xfer in
  let* p := gets t_pipe in
  match ctx with
  | None => ret OD_CMD_NACK
  | Some c =>
      if negb (od_span_valid body) then ret OD_CMD_NACK
      else if negb (bool_decide (rp_origin (c_rp c) = OD_ORIGIN_BLE)) then pipe_refuse_origin ctx 0x81 0
      else if negb (pipe_open p) || bool_decide (mode x = OD_XFER_FATAL) || (sn body <? 1)
              || negb (is_pipe (mode x)) then ret OD_CMD_NACK
      else if negb (od_xfer_owner_matches x ctx) then ret OD_CMD_NACK
      else
        let payload := od_span_drop body 1 in
        if negb (frame_fits c p payload) then pipe_send_data_nack ctx 0x03;; ret OD_CMD_NACK
        else data_frame ctx (at_ body 0) payload
  end.

(** ** END *)

Definition end_incomplete (ctx : option od_cmd_ctx) : M E od_cmd_result :=
  let* p := gets t_pipe in
  pipe_send_end_nack ctx;;
  od_xfer_abort_active OD_XFER_ABORT_PIPE_INCOMPLETE (pipe_partial p);;
  ret OD_CMD_NACK.

(** [od_pipe_end] of a build with PIPE. *)
Definition pipe_end (ctx : option od_cmd_ctx) (body : od_span) : M E od_cmd_result :=
  let* x := gets t_xfer in
  let* p := gets t_pipe in
  match ctx with
  | None => ret OD_CMD_NACK
  | Some c =>
      if negb (od_span_valid body) then ret OD_CMD_NACK
      else if negb (bool_decide (rp_origin (c_rp c) = OD_ORIGIN_BLE)) then pipe_refuse_origin ctx 0x82 0
      else if negb (pipe_open p) then pipe_send_end_nack ctx;; ret OD_CMD_NACK
      else if negb (od_xfer_owner_matches x ctx) then ret OD_CMD_NACK
      else if bool_decide (mode x = OD_XFER_FATAL) then end_incomplete ctx
      else
        let* ok := pipe_sack_or_fatal ctx in
        if negb ok then ret OD_CMD_NACK
        else
          let* p := gets t_pipe in
          let* result := (if queued_count p =? 0 then od_xfer_pipe_finalize else ret OD_XFER_STREAM_OK) in
          let* x := gets t_xfer in
          let finalized_ok := match result with OD_XFER_STREAM_OK => true | _ => false end in
          if negb (queued_count p =? 0) || negb finalized_ok || negb (od_xfer_pipe_complete x) then
            end_incomplete ctx
          else pipe_finish ctx body
  end.

(** ** The entry points, with their refusals in a build without PIPE *)

Definition od_pipe_start (ctx : option od_cmd_ctx) (body : od_span) : M E od_cmd_result :=
  if OD_CAP_PIPE then pipe_start ctx body
  else od_xfer_reply_error ctx [RESP_NACK; 0x80; 0x04; 0];; ret OD_CMD_NACK.

Definition od_pipe_data (ctx : option od_cmd_ctx) (body : od_span) : M E od_cmd_result :=
  if OD_CAP_PIPE then pipe_data ctx body else ret OD_CMD_UNKNOWN.

Definition od_pipe_end (ctx : option od_cmd_ctx) (body : od_span) : M E od_cmd_result :=
  if OD_CAP_PIPE then pipe_end ctx body else ret OD_CMD_UNKNOWN.
End Operations.

End Pipe.
