(* ===== verification/Transfer.v ===== *)
(** What every transfer command guarantees of the panel driver: the calls it
    makes follow the driver's contract, [shared/core/od_xfer_app.h]. *)

From S2P Require Import Prelude Hal TxQueue Span Proto Session World Reply Dispatch Color Pump PipeState XferState Xfer XferDirect XferPartial Pipe.
Import Hal TxQueue Span Proto Session World Reply Dispatch Color Pump PipeState XferState Xfer XferDirect XferPartial Pipe.

Module Transfer.

Open Scope xfer_scope.

(** ** The contract *)

(** The panel as its driver sees it: closed, or open for [limit] bytes with [pos]
    of them taken; a [strict] image may only be shown complete. *)
Inductive panel := P_closed | P_open (pos limit : Z) (strict : bool).

(** One call, [None] when it breaks the contract: an image is begun on a closed
    panel, written at consecutive offsets with non-empty chunks that stay within
    the image, not written again after a chunk was refused, and refreshed only
    while it is open and, when strict, complete. *)
Definition panel_step (ev : panel_event) (p : panel) : option panel :=
  match ev, p with
  | EvBegin limit strict ok, P_closed => Some (if ok then P_open 0 limit strict else P_closed)
  | EvWrite offset data n, P_open pos limit strict =>
      if (offset =? pos) && (0 <? len data) && (pos + len data <=? limit)
      then Some (if n =? len data then P_open (pos + len data) limit strict else P_closed) else None
  | EvRefresh _ _ _, P_open pos limit strict => if strict && negb (pos =? limit) then None else Some P_closed
  | EvRelease, _ => Some P_closed
  | EvEtag _, p => Some p
  | EvInput _, p => Some p
  | _, _ => None
  end.

(** The panel after a trace, newest event first. *)
Fixpoint panel_of (trace : list panel_event) : option panel :=
  match trace with
  | [] => Some P_closed
  | ev :: rest => match panel_of rest with Some p => panel_step ev p | None => None end
  end.

(** The sender's bytes since the image was begun, in the order they were taken. *)
Fixpoint inputs (trace : list panel_event) : bytes :=
  match trace with
  | [] => []
  | EvBegin _ _ _ :: _ => []
  | EvInput data :: rest => inputs rest ++ data
  | _ :: rest => inputs rest
  end.

(** ** What the target's types promise *)
Class XferAppLaws (E : Type) `{XferApp E} := {
  panel_total_fits e pi e' :
    od_xfer_app_panel_info e = (Some pi, e') -> fits 32 (total_bytes (pi_geometry pi));
  scratch_size (e : E) : 0 <= (od_xfer_app_inflate_scratch e).2;
}.

Section Invariant.
Context {E : Type} `{PipeConfig}.

(** The panel's state, read off the transfer's. *)
Definition panel_view (x : od_xfer_state) : panel :=
  if od_xfer_owns_hardware x then P_open (written_bytes x) (expected_bytes x) (must_complete x) else P_closed.

Definition slot_ok (slot : od_pipe_reorder_slot) : Prop := 0 <= slot_len slot <= len (slot_data slot).

Definition ring_ok (ring : list od_pipe_reorder_slot) : Prop :=
  len ring = OD_PIPE_REORDER_SLOTS /\ Forall slot_ok ring.

(** A transfer that holds the panel is within its image, and its inflater's
    accounting is the transfer's. *)
Definition accounts (x : od_xfer_state) (p : pump) : Prop :=
  0 <= written_bytes x <= expected_bytes x /\ fits 32 (expected_bytes x) /\
  (compressed x = true -> s_expected_output p = expected_bytes x /\ s_emitted_output p = written_bytes x).

(** The invariant between commands. *)
Definition tinv (s : tstate E) : Prop :=
  panel_of (t_trace s) = Some (panel_view (t_xfer s)) /\
  (od_xfer_owns_hardware (t_xfer s) = true -> accounts (t_xfer s) (t_pump s)) /\
  (mode (t_xfer s) = OD_XFER_IDLE -> t_xfer s = xfer_zero) /\
  ring_ok (t_reorder s).

(** Enough of it to fail from: the panel may have been lost to a refused write. *)
Definition winv (s : tstate E) : Prop :=
  (exists p, panel_of (t_trace s) = Some p /\ (od_xfer_owns_hardware (t_xfer s) = false -> p = P_closed)) /\
  (mode (t_xfer s) = OD_XFER_IDLE -> t_xfer s = xfer_zero) /\
  ring_ok (t_reorder s).

(** Nothing in progress. *)
Definition idle (s : tstate E) : Prop :=
  panel_of (t_trace s) = Some P_closed /\ t_xfer s = xfer_zero /\ ring_ok (t_reorder s).

(** Idle, or waiting in the fatal state for the sender's next START. *)
Definition stopped (s : tstate E) : Prop :=
  panel_of (t_trace s) = Some P_closed /\ od_xfer_owns_hardware (t_xfer s) = false /\
  (mode (t_xfer s) = OD_XFER_IDLE -> t_xfer s = xfer_zero) /\ ring_ok (t_reorder s).

Lemma tinv_winv s : tinv s -> winv s.
Proof.
  intros (Hp & _ & Hi & Hr). split; [|done]. eexists; split; [exact Hp|].
  intros Ho. unfold panel_view. by rewrite Ho.
Qed.

Lemma idle_stopped s : idle s -> stopped s.
Proof. intros (Hp & Hx & Hr). unfold stopped. rewrite Hx. done. Qed.

Lemma stopped_tinv s : stopped s -> tinv s.
Proof.
  intros (Hp & Ho & Hi & Hr). unfold tinv, panel_view. rewrite Ho. split; [done|]. split; [done|]. done.
Qed.

Lemma idle_tinv s : idle s -> tinv s.
Proof. intros Hi. by apply stopped_tinv, idle_stopped. Qed.

Lemma ring_zero_ok : ring_ok reorder_zero.
Proof.
  pose proof pipe_window_fits. unfold ring_ok, reorder_zero, OD_PIPE_REORDER_SLOTS. rewrite length_replicate. split; [lia|].
  apply Forall_replicate. unfold slot_ok, slot_zero. cbn [slot_len slot_data]. lia.
Qed.

Lemma slot_range ring seq : ring_ok ring -> 0 <= pipe_slot seq < len ring.
Proof.
  intros [Hl _]. pose proof pipe_window_fits. unfold pipe_slot, OD_PIPE_REORDER_SLOTS, PIPE_ACK_MASK_BITS in *.
  pose proof (Z.mod_pos_bound seq (OD_PIPE_MAX_W + 1)). rewrite wrap_id by (unfold fits; lia). lia.
Qed.

Lemma ring_set_ok ring i slot : ring_ok ring -> slot_ok slot -> ring_ok ring.[i := slot].
Proof. intros [Hl Hf] Hs. split; [by rewrite len_set|by apply Forall_set]. Qed.

Lemma ring_get_ok ring seq : ring_ok ring -> slot_ok ring.[pipe_slot seq].
Proof. intros Hr. apply Forall_get; [apply Hr|by apply slot_range]. Qed.
End Invariant.

(** ** Rules for the operations *)

Section Rules.
Context {E : Type} `{Radio E} `{Crypto E} `{SessionApp E} `{CommandApp E} `{Inflater E}
  `{XferApp E} `{PipeConfig}.
Implicit Types (s : tstate E) (ctx : option od_cmd_ctx).

Lemma set_same s : set_token (t_token s) (set_world (t_world s) s) = s.
Proof. by destruct s. Qed.

Lemma wp_answer f rp frame (Q : od_txq_status -> tstate E -> Prop) s :
  (forall st w t, Q st (set_token t (set_world w s))) -> wp (answer f rp frame) Q s.
Proof.
  intros HQ. unfold wp, answer. destruct (f _ _ _ _ _) as [[w r] st]. apply HQ.
Qed.

Lemma wp_reply_app ctx frame (Q : od_txq_status -> tstate E -> Prop) s :
  (forall st w t, Q st (set_token t (set_world w s))) -> wp (od_xfer_reply_app ctx frame) Q s.
Proof.
  intros HQ. destruct ctx as [c|]; [by apply wp_answer|]. apply wp_ret. rewrite <- (set_same s). apply HQ.
Qed.

Lemma wp_reply_error ctx frame (Q : unit -> tstate E -> Prop) s :
  (forall w t, Q tt (set_token t (set_world w s))) -> wp (od_xfer_reply_error ctx frame) Q s.
Proof.
  intros HQ. destruct ctx as [c|]; [apply wp_bind, wp_answer; intros; apply HQ|].
  apply wp_ret. rewrite <- (set_same s). apply HQ.
Qed.

Lemma wp_etag etag (Q : unit -> tstate E -> Prop) s :
  (forall e, Q tt (push_event (EvEtag etag) (put_env e s))) -> wp (app_set_displayed_etag etag) Q s.
Proof. intros HQ. apply HQ. Qed.

Lemma wp_barrier_abort rp (Q : unit -> tstate E -> Prop) s :
  (forall e, Q tt (push_event EvRelease (put_env e s))) -> wp (app_barrier_abort rp) Q s.
Proof. intros HQ. apply HQ. Qed.

Lemma wp_before_refresh rp (Q : od_xfer_barrier -> tstate E -> Prop) s :
  (forall b w, Q b (set_world w s)) -> wp (app_before_refresh rp) Q s.
Proof. intros HQ. unfold wp, app_before_refresh. destruct (od_xfer_app_before_refresh _ _). apply HQ. Qed.

Lemma wp_write off data (Q : Z -> tstate E -> Prop) s :
  (forall n e, Q n (push_event (EvWrite off data n) (put_env e s))) -> wp (app_write off data) Q s.
Proof. intros HQ. apply wp_bind, wp_hook. intros n e _. apply HQ. Qed.

Lemma wp_app_refresh m (Q : bool * bool -> tstate E -> Prop) s :
  (forall r e, Q r (push_event (EvRefresh m r.1 r.2) (put_env e s))) -> wp (app_refresh m) Q s.
Proof. intros HQ. apply wp_bind, wp_hook. intros n e _. apply HQ. Qed.

Lemma wp_begin_full g (Q : bool -> tstate E -> Prop) s :
  (forall ok e, Q ok (push_event (EvBegin (total_bytes g) (must_complete (t_xfer s)) ok) (put_env e s))) ->
  wp (app_begin_full g) Q s.
Proof. intros HQ. apply wp_bind, wp_gets, wp_bind, wp_hook. intros ok e _. apply HQ. Qed.

Lemma wp_begin_partial p (Q : bool -> tstate E -> Prop) s :
  (forall ok e, Q ok (push_event (EvBegin (u32 (plane_bytes p * 2)) (must_complete (t_xfer s)) ok) (put_env e s))) ->
  wp (app_begin_partial p) Q s.
Proof. intros HQ. apply wp_bind, wp_gets, wp_bind, wp_hook. intros ok e _. apply HQ. Qed.
End Rules.

(** Normalise the projections of an updated state. *)
Ltac tsimpl :=
  cbn [t_xfer t_trace t_pump t_pipe t_reorder t_world t_token t_quiet t_sink_failed
       set_world set_token set_xfer set_pump set_pipe set_quiet set_sink_failed push_event put_env t_env
       fst snd panel_of panel_step] in *.

(** One step of a computation: rules for the primitives, case analysis for the
    control structure. *)
Ltac wp_step :=
  cbv beta zeta;
  lazymatch goal with
  | |- wp (bind _ _) _ _ => apply wp_bind
  | |- wp (ret _) _ _ => apply wp_ret
  | |- wp (gets _) _ _ => apply wp_gets
  | |- wp (modify _) _ _ => apply wp_modify
  | |- wp (hook_do _) _ _ => apply wp_modify
  | |- wp (event _) _ _ => apply wp_modify
  | |- wp (hook_call _) _ _ => apply wp_hook; intros
  | |- wp (od_xfer_reply_app _ _) _ _ => apply wp_reply_app; intros
  | |- wp (od_xfer_reply_error _ _) _ _ => apply wp_reply_error; intros
  | |- wp (od_xfer_reply_simple_error _ _) _ _ => apply wp_reply_error; intros
  | |- wp (od_xfer_reply_partial_error _ _ _) _ _ => apply wp_reply_error; intros
  | |- wp (app_set_displayed_etag _) _ _ => apply wp_etag; intros
  | |- wp (app_barrier_abort _) _ _ => apply wp_barrier_abort; intros
  | |- wp (app_before_refresh _) _ _ => apply wp_before_refresh; intros
  | |- wp (app_refresh _) _ _ => apply wp_app_refresh; intros
  | |- wp (if ?b then _ else _) _ _ => let Hb := fresh "Hb" in destruct b eqn:Hb
  end.
Ltac wp_go := repeat wp_step.

Section Commands.
Context {E : Type} `{Radio E} `{Crypto E} `{SessionApp E} `{CommandApp E}
  `{InflaterProgress E} `{XferAppLaws E} `{PipeConfig}.
Implicit Types (s : tstate E) (ctx : option od_cmd_ctx).

(** *** Giving the panel up *)

Lemma wp_clear_any s (Q : unit -> tstate E -> Prop) :
  (forall s', t_trace s' = t_trace s -> t_xfer s' = xfer_zero -> ring_ok (t_reorder s') -> Q tt s') ->
  wp od_xfer_clear_state Q s.
Proof. intros HQ. apply wp_modify, HQ; [done..|apply ring_zero_ok]. Qed.

Lemma wp_clear s (Q : unit -> tstate E -> Prop) :
  panel_of (t_trace s) = Some P_closed ->
  (forall s', idle s' -> inputs (t_trace s') = inputs (t_trace s) -> Q tt s') -> wp od_xfer_clear_state Q s.
Proof. intros Hp HQ. apply wp_modify, HQ; [|done]. split; [exact Hp|]. split; [done|apply ring_zero_ok]. Qed.

(** The abort hook is called exactly when the transfer holds the panel. *)
Lemma wp_abort_hardware why s (Q : unit -> tstate E -> Prop) :
  winv s ->
  (forall s', panel_of (t_trace s') = Some P_closed -> t_xfer s' = t_xfer s -> t_pump s' = t_pump s ->
     t_reorder s' = t_reorder s -> t_pipe s' = t_pipe s -> inputs (t_trace s') = inputs (t_trace s) -> Q tt s') ->
  wp (abort_hardware why) Q s.
Proof.
  intros ((p & Hp & Hc) & _) HQ. apply wp_bind, wp_gets.
  destruct (od_xfer_owns_hardware (t_xfer s)) eqn:Ho.
  - apply wp_bind, wp_modify, wp_modify, HQ; try done. tsimpl. by rewrite Hp.
  - apply wp_ret, HQ; try done. by rewrite Hp, (Hc eq_refl).
Qed.

Lemma wp_abort_active why b s (Q : unit -> tstate E -> Prop) :
  winv s -> (forall s', idle s' -> inputs (t_trace s') = inputs (t_trace s) -> Q tt s') ->
  wp (od_xfer_abort_active why b) Q s.
Proof.
  intros Hw HQ. apply wp_bind, wp_abort_hardware; [done|]. intros s1 Hp _ _ _ _ Hin. apply wp_bind.
  destruct (OD_CAP_PARTIAL && b); wp_go; apply wp_clear; try done; tsimpl; rewrite ?Hp; try done;
    intros s' Hi Hin'; apply HQ; try done; etrans; done.
Qed.

Lemma wp_replace_active s (Q : unit -> tstate E -> Prop) :
  tinv s -> (forall s', idle s' -> Q tt s') -> wp od_xfer_replace_active Q s.
Proof.
  intros Ht HQ. unfold od_xfer_replace_active. wp_go.
  - apply wp_abort_hardware; [by apply tinv_winv|]. intros s1 Hp _ _ _ _ _. apply wp_clear; auto.
  - apply HQ. unfold od_xfer_active in Hb. apply negb_false_iff, bool_decide_eq_true in Hb.
    destruct Ht as (Hp & _ & Hi & Hr). rewrite (Hi Hb) in Hp. split; [exact Hp|]. by split; [apply Hi|].
Qed.

Lemma wp_enter_fatal s (Q : unit -> tstate E -> Prop) :
  winv s ->
  (forall s', stopped s' -> t_pipe s' = t_pipe s -> t_reorder s' = t_reorder s ->
     inputs (t_trace s') = inputs (t_trace s) -> Q tt s') ->
  wp od_xfer_pipe_enter_fatal Q s.
Proof.
  intros Hw HQ. unfold od_xfer_pipe_enter_fatal. apply wp_bind, wp_gets, wp_bind, wp_abort_hardware; [done|].
  intros s1 Hp Hx _ Hr Hpp Hin. destruct Hw as (_ & Hi & Hro). apply wp_bind.
  assert (Hend : forall s2, panel_of (t_trace s2) = Some P_closed -> t_xfer s2 = t_xfer s ->
    t_reorder s2 = t_reorder s -> t_pipe s2 = t_pipe s -> inputs (t_trace s2) = inputs (t_trace s) ->
    wp (if negb (bool_decide (mode (t_xfer s) = OD_XFER_IDLE))
        then modify (fun s => set_xfer (with_mode (t_xfer s) OD_XFER_FATAL) s) else ret tt) Q s2).
  { intros s2 Hp2 Hx2 Hr2 Hpp2 Hin2. case_bool_decide as Hm; cbn [negb]; wp_go; apply HQ; try done.
    - split; [done|]. rewrite Hx2, Hr2. split; [by rewrite (Hi Hm)|]. done.
    - split; [done|]. tsimpl. rewrite Hr2. split; [done|]. done. }
  destruct (OD_CAP_PARTIAL && _); [apply wp_etag; intros|apply wp_ret]; apply Hend; try done.
  tsimpl. by rewrite Hp.
Qed.

(** *** The stream *)

Lemma owns_with_written x n : od_xfer_owns_hardware (with_written x n) = od_xfer_owns_hardware x.
Proof. done. Qed.

Lemma with_written_same x : with_written x (written_bytes x) = x.
Proof. by destruct x. Qed.

(** Only the bytes written may have changed. *)
Definition same_transfer s s' : Prop :=
  t_xfer s' = with_written (t_xfer s) (written_bytes (t_xfer s')) /\
  t_pipe s' = t_pipe s /\ t_reorder s' = t_reorder s /\ inputs (t_trace s') = inputs (t_trace s).

Lemma app_write_eq off data s :
  app_write off data s =
    let '(n, e) := od_xfer_app_write (t_env s) off data in
    Some (n, push_event (EvWrite off data n) (put_env e s)).
Proof. unfold app_write, bind, hook_call. destruct (od_xfer_app_write _ _ _). done. Qed.

Section Stream.
Context (s0 : tstate E).
Let x0 := t_xfer s0.
Hypothesis (Howns : od_xfer_owns_hardware x0 = true) (Hacc : accounts x0 (t_pump s0)).

(** With [n] bytes on the panel; and with the panel lost. *)
Definition written_to (n : Z) (s : tstate E) : Prop :=
  t_xfer s = with_written x0 n /\
  panel_of (t_trace s) = Some (P_open n (expected_bytes x0) (must_complete x0)) /\
  t_pipe s = t_pipe s0 /\ t_reorder s = t_reorder s0 /\ inputs (t_trace s) = inputs (t_trace s0).

Definition panel_lost (s : tstate E) : Prop :=
  exists n, t_xfer s = with_written x0 n /\ panel_of (t_trace s) = Some P_closed /\
  t_pipe s = t_pipe s0 /\ t_reorder s = t_reorder s0 /\ inputs (t_trace s) = inputs (t_trace s0).

Lemma panel_write n data k :
  0 < len data -> n + len data <= expected_bytes x0 ->
  panel_step (EvWrite n data k) (P_open n (expected_bytes x0) (must_complete x0)) =
  Some (if k =? len data then P_open (n + len data) (expected_bytes x0) (must_complete x0) else P_closed).
Proof.
  intros. cbn [panel_step]. rewrite Z.eqb_refl.
  destruct (Z.ltb_spec 0 (len data)); [|lia]. destruct (Z.leb_spec (n + len data) (expected_bytes x0)); [done|lia].
Qed.

Lemma stream_sink_client cap : pump_client stream_sink cap (expected_bytes x0) written_to panel_lost.
Proof.
  destruct Hacc as (Hw & Hf & _). split.
  - intros n s i f HI. cbn [od_inflate_app_push lift_inflater].
    destruct (od_inflate_app_push (t_env s) i f). exact HI.
  - intros n s HI. cbn [od_inflate_app_poll lift_inflater].
    destruct (od_inflate_app_poll (t_env s) cap) as [[? ?] ?]. exact HI.
  - intros n s b (Hx & Hp & Hpp & Hr) Hn Hb Hle. unfold stream_sink. rewrite Hx. cbn [with_written expected_bytes written_bytes].
    destruct (Z.eqb_spec (len b) 0); [lia|]. unfold fits, UINT32_MAX in *.
    destruct (Z.ltb_spec (2 ^ 32 - 1) (len b)); [lia|]. cbn [orb].
    destruct (Z.ltb_spec (expected_bytes x0) n); [lia|]. rewrite (wrap_id 32 (_ - _)) by (unfold fits; lia).
    destruct (Z.ltb_spec (expected_bytes x0 - n) (len b)); [lia|]. cbn [orb].
    rewrite app_write_eq. destruct (od_xfer_app_write _ _ _) as [k e].
    assert (Hp' : panel_of (EvWrite n b k :: t_trace s) =
      Some (if k =? len b then P_open (n + len b) (expected_bytes x0) (must_complete x0) else P_closed)).
    { cbn [panel_of]. rewrite Hp. apply panel_write; lia. }
    destruct (Z.eqb_spec k (len b)) as [->|]; cbn [negb fst snd].
    + rewrite wrap_id by (unfold fits; lia). split; [done|]. split; [exact Hp'|]. by split.
    + exists n. split; [exact Hx|]. split; [exact Hp'|]. by split.
Qed.
End Stream.

Lemma wp_stream_reset n s (Q : unit -> tstate E -> Prop) :
  (forall e, Q tt (set_pump {| s_pump_error := Pe_none; s_expected_output := n; s_emitted_output := 0 |}
                     (put_env e s))) ->
  wp (od_xfer_stream_reset n) Q s.
Proof. intros HQ. apply wp_modify, HQ. Qed.

Lemma written_to_tinv s0 n p s :
  tinv s0 -> od_xfer_owns_hardware (t_xfer s0) = true -> written_to s0 n s ->
  0 <= n <= expected_bytes (t_xfer s0) ->
  s_expected_output p = expected_bytes (t_xfer s0) -> s_emitted_output p = n ->
  tinv (set_pump p s) /\ same_transfer s0 (set_pump p s).
Proof.
  intros (Hp0 & Ha & Hi & Hr) Ho (Hx & Hp & Hpp & Hrr & Hin) Hn He Hm. destruct (Ha Ho) as (_ & Hf & _).
  split.
  - unfold tinv, panel_view, accounts. tsimpl. rewrite Hx, Hrr, owns_with_written, Ho.
    split; [exact Hp|]. split; [by intros _|]. split; [|done].
    cbn [with_written mode]. intros Hm'. unfold od_xfer_owns_hardware in Ho. rewrite Hm' in Ho. done.
  - unfold same_transfer. tsimpl. rewrite Hx. done.
Qed.

Lemma written_or_lost_winv s0 p s :
  tinv s0 -> od_xfer_owns_hardware (t_xfer s0) = true ->
  (exists n, written_to s0 n s) \/ panel_lost s0 s ->
  winv (set_pump p s) /\ same_transfer s0 (set_pump p s).
Proof.
  intros (Hp0 & Ha & Hi & Hr) Ho Hor.
  assert (Hx : exists n, t_xfer s = with_written (t_xfer s0) n /\ t_pipe s = t_pipe s0 /\
    t_reorder s = t_reorder s0 /\ inputs (t_trace s) = inputs (t_trace s0) /\ exists q, panel_of (t_trace s) = Some q).
  { destruct Hor as [[n (? & ? & ? & ? & ?)]|(n & ? & ? & ? & ? & ?)]; exists n; eauto 10. }
  destruct Hx as (n & Hx & Hpp & Hrr & Hin & q & Hq). unfold winv, same_transfer. tsimpl. rewrite Hx, Hrr.
  split; [|done]. split; [exists q; split; [exact Hq|]; rewrite owns_with_written; congruence|]. split; [|done].
  cbn [with_written mode]. intros Hm'. unfold od_xfer_owns_hardware in Ho. rewrite Hm' in Ho. done.
Qed.

(** A push either keeps the invariant, complete when it was the last, or leaves
    a state to fail from. *)
Lemma wp_stream_push input final s (Q : od_xfer_stream_result -> tstate E -> Prop) :
  tinv s -> od_xfer_owns_hardware (t_xfer s) = true -> compressed (t_xfer s) = true ->
  (forall s', tinv s' -> same_transfer s s' ->
     (final = true -> written_bytes (t_xfer s') = expected_bytes (t_xfer s)) -> Q OD_XFER_STREAM_OK s') ->
  (forall r s', r <> OD_XFER_STREAM_OK -> winv s' -> same_transfer s s' -> Q r s') ->
  wp (od_xfer_stream_push input final) Q s.
Proof.
  intros Ht Ho Hz HOK HKO. unfold od_xfer_stream_push. wp_step. wp_step. wp_step.
  { apply wp_ret, HKO; [done|by apply tinv_winv|]. split; [symmetry; apply with_written_same|done]. }
  apply wp_bind, wp_modify. apply wp_bind. unfold wp at 1. unfold run_pump.
  pose proof Ht as (Hp & Ha & _). destruct (Ha Ho) as (Hw & Hf & Hc). destruct (Hc Hz) as [He Hm].
  set (s1 := set_sink_failed false s).
  assert (HI0 : written_to s (s_emitted_output (t_pump s)) s1).
  { rewrite Hm. split; [symmetry; apply with_written_same|]. split; [|done]. revert Hp. unfold panel_view. by rewrite Ho. }
  pose proof (stream_sink_client s (Ha Ho) (od_xfer_app_inflate_scratch (t_env s)).2) as Hcl. rewrite <- He in Hcl.
  destruct (pump_push_ends (S := tstate E) stream_sink (written_to s) (panel_lost s) (t_pump s) s1 input final
              (od_xfer_app_inflate_scratch (t_env s)).2 (scratch_size _)) as ([[st p] s2] & E2 & Hpost);
    [unfold pump_ok; rewrite He, Hm; split; [lia|]; split; [done|lia]|done|done|].
  assert (Hflag : (od_xfer_app_inflate_scratch (t_env s)).1 = true).
  { pose proof (scratch_size (t_env s)). unfold od_mut_span_valid in Hb. clear -Hb.
    destruct (od_xfer_app_inflate_scratch (t_env s)) as [[] n]; [done|]. cbn [fst snd] in *.
    destruct (n =? 0); [by rewrite !orb_true_r in Hb|]. by rewrite orb_true_r in Hb. }
  change (t_pump s1) with (t_pump s). rewrite Hflag, E2. destruct Hpost as (Hpok & Hpe & Hst). rewrite He in *.
  wp_step. wp_step. destruct st.
  - destruct Hst as [-> HI]. apply wp_ret. cbn [negb orb].
    destruct (written_to_tinv s _ p s2 Ht Ho HI) as [? ?]; [destruct Hpok; lia..|]. by apply HOK.
  - destruct Hst as (Hem & _ & HI). apply wp_ret. rewrite bool_decide_eq_true_2, orb_true_r by done.
    destruct (written_to_tinv s _ p s2 Ht Ho HI) as [? ?]; [lia..|]. apply HOK; [done|done|].
    intros _. destruct HI as (Hx & _). tsimpl. by rewrite Hx.
  - destruct Hst as [_ Hor]. apply wp_ret.
    destruct (written_or_lost_winv s p s2 Ht Ho) as [? ?]; [destruct Hor; eauto|].
    apply HKO; [by destruct (t_sink_failed _)|done|done].
Qed.
End Commands.

End Transfer.
