(* ===== verification/TransferCmds.v ===== *)
(** The contract of the panel driver, command by command. *)

From S2P Require Import Prelude Hal TxQueue Span Proto Session World Reply Dispatch Color Pump PipeState XferState Xfer XferDirect XferPartial Pipe Transfer.
Import Hal TxQueue Span Proto Session World Reply Dispatch Color Pump PipeState XferState Xfer XferDirect XferPartial Pipe Transfer.

Module TransferCmds.

Open Scope xfer_scope.

Section Commands.
Context {E : Type} `{Radio E} `{Crypto E} `{SessionApp E} `{CommandApp E}
  `{InflaterProgress E} `{XferAppLaws E} `{PipeConfig}.
Implicit Types (s : tstate E) (ctx : option od_cmd_ctx).

(** A command that keeps the invariant, whatever it answers. *)
Abbreviation keeps m s := (wp m (fun _ s' => tinv s') s).

(** *** Answers *)

Lemma keeps_nack ctx op s : tinv s -> keeps (nack ctx op) s.
Proof. intros Ht. unfold nack. wp_go. exact Ht. Qed.

Lemma keeps_fail_nack ctx op why s : winv s -> keeps (fail_nack ctx op why) s.
Proof.
  intros Hw. apply wp_bind, wp_abort_active; [done|]. intros s' Hi _. by apply keeps_nack, idle_tinv.
Qed.

Lemma keeps_ack ctx frame b s : tinv s -> keeps (ack_or_fail ctx frame b) s.
Proof.
  intros Ht. unfold ack_or_fail. wp_go; [|exact Ht]. apply wp_abort_active; [by apply tinv_winv|].
  intros s' Hi _. wp_go. by apply idle_tinv.
Qed.

(** *** The direct write *)

Lemma owns_not_idle x : od_xfer_owns_hardware x = true -> mode x = OD_XFER_IDLE -> False.
Proof. unfold od_xfer_owns_hardware. intros Ho Hm. by rewrite Hm in Ho. Qed.

(** Handing the panel back after the transfer's record is gone. *)
Lemma keeps_barrier_abort rp s :
  panel_of (t_trace s) <> None ->
  keeps (od_xfer_clear_state;; app_barrier_abort rp;; ret OD_CMD_NACK) s.
Proof.
  intros Hp. apply wp_bind, wp_clear_any. intros s' Ht Hx Hr. wp_go. apply idle_tinv.
  split; [tsimpl; rewrite Ht; by destruct (panel_of (t_trace s))|]. by split.
Qed.

(** A refresh the contract allows. *)
Lemma refresh_allowed s m ok completed :
  tinv s -> od_xfer_owns_hardware (t_xfer s) = true ->
  (must_complete (t_xfer s) = true -> written_bytes (t_xfer s) = expected_bytes (t_xfer s)) ->
  panel_of (EvRefresh m ok completed :: t_trace s) = Some P_closed.
Proof.
  intros (Hp & _) Ho Hc. cbn [panel_of]. rewrite Hp. unfold panel_view. rewrite Ho. cbn [panel_step].
  destruct (must_complete _); [|done]. rewrite (Hc eq_refl), Z.eqb_refl. done.
Qed.

Lemma tinv_finalized now e s :
  tinv s -> od_xfer_owns_hardware (t_xfer s) = true ->
  tinv (set_xfer (with_finalized (t_xfer s) now) (put_env e s)).
Proof.
  intros (Hp & Ha & Hi & Hr) Ho. split; [exact Hp|]. split; [exact Ha|]. split; [|exact Hr].
  tsimpl. intros Hm. by destruct (owns_not_idle _ Ho).
Qed.

Lemma winv_closed s :
  panel_of (t_trace s) = Some P_closed -> od_xfer_owns_hardware (t_xfer s) = true -> ring_ok (t_reorder s) ->
  winv s.
Proof.
  intros Hp Ho Hr. split; [by eexists|]. split; [|done]. intros Hm. by destruct (owns_not_idle _ Ho).
Qed.

(** The end of a command once the image is up: the etag, the record, the report. *)
Lemma keeps_report {A} (m : M E A) ctx (k : od_txq_status -> od_cmd_result) frame s :
  (forall Q, (forall a s', panel_of (t_trace s') = Some P_closed -> Q a s') -> wp m Q s) ->
  keeps (m;; od_xfer_clear_state;; let* rc := od_xfer_reply_app ctx frame in ret (k rc)) s.
Proof.
  intros Hm. apply wp_bind, Hm. intros _ s1 Hp. apply wp_bind, wp_clear; [done|]. intros s2 Hi _.
  wp_go. by apply idle_tinv.
Qed.

Lemma direct_etag_closed completed has etag s (Q : unit -> tstate E -> Prop) :
  panel_of (t_trace s) = Some P_closed ->
  (forall a s', panel_of (t_trace s') = Some P_closed -> Q a s') ->
  wp (direct_etag completed has etag) Q s.
Proof. intros Hp HQ. unfold direct_etag. wp_go; apply HQ; tsimpl; rewrite ?Hp; done. Qed.

Lemma keeps_finish_refresh ctx body s :
  tinv s -> od_xfer_owns_hardware (t_xfer s) = true ->
  (must_complete (t_xfer s) = true -> written_bytes (t_xfer s) = expected_bytes (t_xfer s)) ->
  keeps (finish_refresh ctx body) s.
Proof.
  intros Ht Ho Hc. unfold finish_refresh. do 5 wp_step. wp_step. wp_step. wp_step.
  pose proof (tinv_finalized a e s Ht Ho) as Ht1.
  assert (Hopen : panel_of (t_trace s) <> None) by (destruct Ht as [-> _]; done).
  wp_step; [by apply keeps_barrier_abort|]. wp_step. wp_step. destruct b; [|by apply keeps_barrier_abort].
  wp_step. wp_step.
  assert (Hr : forall m ok completed, panel_of (EvRefresh m ok completed :: t_trace s) = Some P_closed)
    by (intros; by apply refresh_allowed).
  wp_step.
  - apply keeps_fail_nack, winv_closed; [apply Hr|exact Ho|apply Ht].
  - apply keeps_report. intros Q HQ. apply direct_etag_closed; [apply Hr|done].
Qed.

Lemma keeps_direct_end ctx body s :
  tinv s -> mode (t_xfer s) = OD_XFER_DIRECT_FULL -> keeps (od_xfer_direct_end_impl ctx body) s.
Proof.
  intros Ht Hm. assert (Ho : od_xfer_owns_hardware (t_xfer s) = true) by (unfold od_xfer_owns_hardware; by rewrite Hm).
  unfold od_xfer_direct_end_impl. wp_step. wp_step. wp_step; [by apply wp_ret|]. wp_step.
  - wp_step. apply wp_stream_push; try done.
    + intros s' Ht' (Hx & _) Hfin. apply keeps_finish_refresh; [done|by rewrite Hx|].
      intros _. rewrite (Hfin eq_refl), Hx. done.
    + intros r s' Hr Hw _. destruct r; try done; by apply keeps_fail_nack.
  - wp_step; [by apply keeps_fail_nack, tinv_winv|]. apply keeps_finish_refresh; [done..|].
    unfold must_complete. rewrite Hm, Hb0. cbn [orb]. intros Hl. rewrite Hl in Hb1. cbn [andb] in Hb1.
    apply negb_false_iff, Z.eqb_eq in Hb1. exact Hb1.
Qed.

(** *** Raw bytes *)

Lemma tinv_received n s :
  tinv s -> od_xfer_owns_hardware (t_xfer s) = true -> tinv (set_xfer (with_received (t_xfer s) n) s).
Proof.
  intros (Hp & Ha & Hi & Hr) Ho. split; [exact Hp|]. split; [exact Ha|]. split; [|exact Hr].
  tsimpl. intros Hm. by destruct (owns_not_idle _ Ho).
Qed.

Lemma tinv_quiet b s : tinv s -> tinv (set_quiet b s).
Proof. done. Qed.

(** A chunk offered at the transfer's position: taken whole it advances the
    transfer, else the panel is lost. *)
Lemma raw_write s data n e :
  tinv s -> od_xfer_owns_hardware (t_xfer s) = true -> compressed (t_xfer s) = false ->
  0 < len data -> written_bytes (t_xfer s) + len data <= expected_bytes (t_xfer s) ->
  let s1 := push_event (EvWrite (written_bytes (t_xfer s)) data n) (put_env e s) in
  winv s1 /\
  (n = len data ->
   tinv (set_xfer (with_written (t_xfer s) (u32 (written_bytes (t_xfer s) + n))) s1)).
Proof.
  intros Ht Ho Hz Hd Hle. pose proof Ht as (Hp & Ha & Hi & Hr). destruct (Ha Ho) as (Hw & Hf & _).
  assert (Hst : panel_of (EvWrite (written_bytes (t_xfer s)) data n :: t_trace s) =
    Some (if n =? len data then P_open (written_bytes (t_xfer s) + len data) (expected_bytes (t_xfer s))
                                  (must_complete (t_xfer s)) else P_closed)).
  { cbn [panel_of]. rewrite Hp. unfold panel_view. rewrite Ho. by apply panel_write. }
  cbv zeta. split.
  - split; [|done]. eexists; split; [exact Hst|]. tsimpl. congruence.
  - intros ->. rewrite Z.eqb_refl in Hst. unfold fits in Hf. rewrite wrap_id by (unfold fits; lia).
    unfold tinv, panel_view, accounts. tsimpl. rewrite owns_with_written, Ho. split; [exact Hst|].
    split; [intros _; cbn [with_written written_bytes expected_bytes compressed]; split; [lia|]; split;
            [done|congruence]|].
    split; [|done]. cbn [with_written mode]. intros Hm. by destruct (owns_not_idle _ Ho).
Qed.

Lemma contents_take_len b n :
  span_ok b -> 0 <= n -> n <= sn b -> 0 < sn b -> od_span_valid b = true ->
  len (contents (od_span_take b n)) = n /\ sn (od_span_take b n) = n.
Proof.
  intros [Hn0 Hb] Hn Hle Hpos Hv. unfold od_span_take. rewrite Hv. cbn [negb]. unfold contents.
  unfold od_span_valid in Hv. destruct (sp b) as [l|] eqn:Hs.
  - cbn [od_span_make sp sn]. destruct (Z.ltb_spec n (sn b)).
    + rewrite length_take. lia.
    + rewrite length_take. lia.
  - cbn [is_null negb orb] in Hv. apply Z.eqb_eq in Hv. lia.
Qed.

Lemma keeps_direct_raw ctx body s :
  tinv s -> mode (t_xfer s) = OD_XFER_DIRECT_FULL -> compressed (t_xfer s) = false ->
  span_ok body -> od_span_valid body = true -> 0 < sn body <= UINT32_MAX ->
  keeps (direct_data_raw ctx body) s.
Proof.
  intros Ht Hm Hz Hok Hv Hn.
  assert (Ho : od_xfer_owns_hardware (t_xfer s) = true) by (unfold od_xfer_owns_hardware; by rewrite Hm).
  assert (Hrest : forall s', tinv s' -> mode (t_xfer s') = OD_XFER_DIRECT_FULL ->
    keeps (let* x := gets t_xfer in
           if OD_XFER_DIRECT_AUTO_END && (expected_bytes x <=? written_bytes x) then
             od_xfer_direct_end_impl ctx od_span_none
           else ack_or_fail ctx [RESP_ACK; RESP_DIRECT_WRITE_DATA_ACK] false) s').
  { intros s' Ht' Hm'. wp_step. wp_step. wp_step; [by apply keeps_direct_end|by apply keeps_ack]. }
  unfold direct_data_raw. wp_step. wp_step.
  pose proof Ht as (_ & Ha & _). destruct (Ha Ho) as (Hw & Hf & _). unfold fits, UINT32_MAX in *.
  cbv zeta.
  set (remaining := if written_bytes _ <? expected_bytes _ then _ else 0).
  set (offered := if sn body <? remaining then _ else _).
  assert (Hrem : remaining = expected_bytes (t_xfer s) - written_bytes (t_xfer s)).
  { unfold remaining. destruct (Z.ltb_spec (written_bytes (t_xfer s)) (expected_bytes (t_xfer s))); [|lia].
    apply wrap_id. unfold fits; lia. }
  assert (Hoff : 0 <= offered <= sn body /\ offered <= remaining).
  { unfold offered. destruct (Z.ltb_spec (sn body) remaining); [|lia]. rewrite wrap_id by (unfold fits; lia). lia. }
  wp_step. wp_step.
  - apply Z.ltb_lt in Hb. destruct (contents_take_len body offered Hok) as [Hlen _]; [lia..|done|].
    wp_step. apply wp_write. intros n e.
    destruct (raw_write s (contents (od_span_take body offered)) n e Ht Ho Hz) as [Hlost Hkept]; [lia..|].
    destruct (Z.eqb_spec n offered) as [->|Hne]; cbn [negb].
    + do 3 wp_step. cbn [negb]. apply Hrest; [apply Hkept; lia|exact Hm].
    + do 1 wp_step. cbn [negb]. by apply keeps_fail_nack.
  - do 1 wp_step. cbn [negb]. by apply Hrest.
Qed.

Lemma keeps_direct_data ctx body s :
  tinv s -> mode (t_xfer s) = OD_XFER_DIRECT_FULL -> span_ok body -> od_span_valid body = true ->
  keeps (od_xfer_direct_data_impl ctx body) s.
Proof.
  intros Ht Hm Hok Hv.
  assert (Ho : od_xfer_owns_hardware (t_xfer s) = true) by (unfold od_xfer_owns_hardware; by rewrite Hm).
  unfold od_xfer_direct_data_impl. wp_step. wp_step. wp_step; [by apply wp_ret|]. wp_step; [by apply wp_ret|].
  wp_step; [by apply keeps_fail_nack, tinv_winv|]. wp_step. unfold od_xfer_log_chunk. rewrite Hv, Hb0. cbn [negb orb].
  wp_step. wp_step; [by apply keeps_fail_nack, (tinv_winv (set_quiet true s))|]. do 2 wp_step.
  pose proof (tinv_received (u32 (received_bytes (t_xfer s) + sn body)) (set_quiet true s) Ht Ho) as Ht1.
  apply Z.eqb_neq in Hb0. apply Z.ltb_ge in Hb1. destruct Hok as [Hn0 Hb'].
  wp_step; [|apply keeps_direct_raw; try done; lia].
  wp_step. apply wp_stream_push; try done.
  - intros s' Ht' _ _. by apply keeps_ack.
  - intros r s' Hr Hw _. destruct r; try done; by apply keeps_fail_nack.
Qed.

(** *** Starting a direct write *)

(** A transfer that has just opened the panel. *)
Lemma begun_tinv s x :
  t_xfer s = x -> od_xfer_owns_hardware x = true -> written_bytes x = 0 -> fits 32 (expected_bytes x) ->
  panel_of (t_trace s) = Some (P_open 0 (expected_bytes x) (must_complete x)) ->
  (compressed x = true -> s_expected_output (t_pump s) = expected_bytes x /\ s_emitted_output (t_pump s) = 0) ->
  ring_ok (t_reorder s) -> tinv s.
Proof.
  intros <- Ho Hw Hf Hp Hc Hr. unfold tinv, panel_view, accounts. rewrite Ho, Hw.
  split; [exact Hp|]. split; [intros _; split; [unfold fits in Hf; lia|done]|]. split; [|done].
  intros Hm. by destruct (owns_not_idle _ Ho).
Qed.

Lemma keeps_start_panel c body g z s :
  idle s -> fits 32 (total_bytes g) -> span_ok body ->
  keeps (start_panel c body g z) s.
Proof.
  intros Hi Hf Hok. unfold start_panel. wp_step. apply wp_clear; [apply Hi|]. intros s1 (Hp1 & Hx1 & Hr1) _.
  do 4 wp_step. set (s2 := set_xfer _ _). wp_step. apply wp_begin_full. intros ok e'.
  set (s3 := push_event _ _).
  assert (Hx3 : t_xfer s3 = armed xfer_zero OD_XFER_DIRECT_FULL (c_rp c) a (total_bytes g) z g partial_zero)
    by (unfold s3, s2; tsimpl; by rewrite Hx1).
  assert (Hx2 : t_xfer s2 = t_xfer s3) by done.
  assert (Hp3 : panel_of (t_trace s3) =
    Some (if ok then P_open 0 (total_bytes g) (must_complete (t_xfer s3)) else P_closed)).
  { unfold s3. cbn [t_trace push_event panel_of]. fold s2. 
    change (t_trace (put_env e' s2)) with (t_trace s1). rewrite Hp1. cbn [panel_step]. by rewrite Hx2. }
  rewrite Hx3 in Hp3.
  assert (Hr3 : ring_ok (t_reorder s3)) by exact Hr1.
  destruct ok; cbn [negb]; [|apply keeps_fail_nack, winv_closed; [done|by rewrite Hx3|done]].
  wp_step. wp_step.
  - unfold start_inline. wp_step. apply wp_stream_reset. intros e2. set (s4 := set_pump _ _).
    assert (Ht4 : tinv s4) by (eapply begun_tinv; [exact Hx3|done..|exact Hp3|done|done]).
    assert (Ho4 : od_xfer_owns_hardware (t_xfer s4) = true) by (change (t_xfer s4) with (t_xfer s3); by rewrite Hx3).
    wp_step; [|apply wp_ret; by apply keeps_ack]. do 3 wp_step.
    apply wp_stream_push; [by apply tinv_received|exact Ho4|change (compressed (t_xfer s3) = true); by rewrite Hx3| |].
    + intros s' Ht' _ _. wp_go. by apply keeps_ack.
    + intros r s' Hne Hw _. destruct r; try done; wp_step;
        (eapply wp_mono; [by apply keeps_fail_nack|]); intros rc s5 Ht5; by do 2 wp_step.
  - wp_step. apply keeps_ack. eapply begun_tinv; [exact Hx3|done..|exact Hp3|done|done].
Qed.

Lemma keeps_direct_start ctx body s : tinv s -> span_ok body -> keeps (od_xfer_direct_start ctx body) s.
Proof.
  intros Ht Hok. unfold od_xfer_direct_start. destruct ctx as [c|]; [|by apply keeps_nack]. cbv zeta.
  wp_step; [by apply keeps_nack|]. wp_step. apply wp_replace_active; [done|]. intros s1 Hi.
  do 3 wp_step. wp_step. destruct a as [pi|]; [|by apply keeps_nack, idle_tinv].
  wp_step; [by apply keeps_nack, idle_tinv|]. wp_step; [by apply keeps_nack, idle_tinv|].
  wp_step; [by apply keeps_nack, idle_tinv|]. apply keeps_start_panel; [exact Hi| |done].
  by eapply panel_total_fits.
Qed.

(** *** The partial write *)

Lemma panel_etag s e etag : panel_of (t_trace (push_event (EvEtag etag) (put_env e s))) = panel_of (t_trace s).
Proof. tsimpl. by destruct (panel_of (t_trace s)). Qed.

Lemma tinv_etag etag e s : tinv s -> tinv (push_event (EvEtag etag) (put_env e s)).
Proof. intros (Hp & Hrest). split; [by rewrite panel_etag|exact Hrest]. Qed.

Lemma winv_etag etag e s : winv s -> winv (push_event (EvEtag etag) (put_env e s)).
Proof. intros ((p & Hp & Hc) & Hrest). split; [exists p; by rewrite panel_etag|exact Hrest]. Qed.

Lemma idle_etag etag e s : idle s -> idle (push_event (EvEtag etag) (put_env e s)).
Proof. intros (Hp & Hrest). split; [by rewrite panel_etag|exact Hrest]. Qed.

Lemma keeps_partial_fail ctx op err s : tinv s -> keeps (partial_fail ctx op err) s.
Proof. intros Ht. unfold partial_fail. wp_go. by apply tinv_etag. Qed.

Lemma keeps_terminal ctx op err why s : winv s -> keeps (partial_terminal_fail ctx op err why) s.
Proof.
  intros Hw. unfold partial_terminal_fail. do 2 wp_step. wp_step.
  apply wp_abort_active; [by apply winv_etag|]. intros s' Hi _. wp_go. by apply idle_tinv.
Qed.

Lemma contents_of_tail body :
  span_ok body -> od_span_valid body = true -> 17 < sn body ->
  len (contents (od_span_drop body 17)) = sn body - 17 /\ sn (od_span_drop body 17) = sn body - 17.
Proof.
  intros [Hn Hb] Hv Hlt. unfold od_span_drop. rewrite Hv. cbn [negb orb]. unfold od_span_valid in Hv.
  destruct (sp body) as [l|] eqn:Hs; cbn [is_null] in *.
  - destruct (Z.ltb_spec 17 (sn body)); [|lia]. unfold contents. cbn [od_span_make sp sn ptr_add fmap option_fmap option_map].
    rewrite length_take, length_drop. lia.
  - cbn in Hv. apply Z.eqb_eq in Hv. lia.
Qed.

(** The stream bytes of a START keep the invariant or leave a state to fail from. *)
Lemma wp_partial_inline body z expected s (Q : bool -> tstate E -> Prop) :
  tinv s -> od_xfer_owns_hardware (t_xfer s) = true -> compressed (t_xfer s) = z ->
  written_bytes (t_xfer s) = 0 -> expected_bytes (t_xfer s) = expected ->
  span_ok body -> od_span_valid body = true ->
  (forall s', tinv s' -> Q true s') -> (forall s', winv s' -> Q false s') ->
  wp (partial_inline body z expected) Q s.
Proof.
  intros Ht Ho Hz Hw He Hok Hv HT HF. unfold partial_inline. wp_step; [|apply wp_ret; by apply HT].
  apply Z.ltb_lt in Hb. destruct (contents_of_tail body Hok Hv Hb) as [Hc Hs]. do 2 wp_step.
  pose proof (tinv_received (u32 (sn (od_span_drop body 17))) s Ht Ho) as Ht1.
  wp_step.
  - wp_step. apply wp_stream_push; try done.
    + intros s' Ht' _ _. apply wp_ret. by apply HT.
    + intros r s' Hr Hw' _. apply wp_ret. destruct r; try done; by apply HF.
  - wp_step; [apply wp_ret; by apply HF, tinv_winv|]. apply Z.ltb_ge in Hb1.
    wp_step. apply wp_write. intros n e.
    destruct (raw_write _ (contents (od_span_drop body 17)) n e Ht1) as [Hlost Hkept];
      [done|done|lia|tsimpl; cbn [with_received written_bytes expected_bytes]; lia|].
    tsimpl. cbn [with_received written_bytes] in Hlost, Hkept. rewrite Hw in Hlost, Hkept.
    destruct (Z.eqb_spec n (sn (od_span_drop body 17))) as [->|Hne]; cbn [negb].
    + do 3 wp_step. apply HT. specialize (Hkept ltac:(lia)).
      destruct Ht as (_ & Ha & _). destruct (Ha Ho) as (_ & Hf & _).
      rewrite (wrap_id 32 (0 + _)) in Hkept by (unfold fits in *; lia). exact Hkept.
    + wp_step. by apply HF.
Qed.

Lemma keeps_start_rect c body z g p s :
  idle s -> span_ok body -> od_span_valid body = true ->
  keeps (start_rect c body z g p) s.
Proof.
  intros Hi Hok Hv. unfold start_rect. cbv zeta. wp_step. apply wp_clear; [apply Hi|].
  intros s1 (Hp1 & Hx1 & Hr1) _. do 4 wp_step. set (s2 := set_xfer _ _). wp_step.
  apply wp_begin_partial. intros ok e'. set (s3 := push_event _ _).
  assert (Hx3 : t_xfer s3 = armed xfer_zero OD_XFER_DIRECT_PARTIAL (c_rp c) a (u32 (plane_bytes p * 2)) z g p)
    by (unfold s3, s2; tsimpl; by rewrite Hx1).
  assert (Hp3 : panel_of (t_trace s3) =
    Some (if ok then P_open 0 (u32 (plane_bytes p * 2)) true else P_closed)).
  { unfold s3. cbn [t_trace push_event panel_of]. change (t_trace (put_env e' s2)) with (t_trace s1).
    rewrite Hp1. cbn [panel_step]. change (t_xfer s2) with (t_xfer s3). by rewrite Hx3. }
  assert (Hr3 : ring_ok (t_reorder s3)) by exact Hr1.
  assert (Hf : fits 32 (u32 (plane_bytes p * 2))) by (apply wrap_fits; lia).
  destruct ok; cbn [negb]; [|apply keeps_terminal, winv_closed; [done|by rewrite Hx3|done]].
  assert (Hgo : forall s4, tinv s4 -> t_xfer s4 = t_xfer s3 ->
    keeps (let* ok := partial_inline body z (u32 (plane_bytes p * 2)) in
           if negb ok then start_terminal (Some c)
           else ack_or_fail (Some c) [RESP_ACK; RESP_PARTIAL_WRITE_START] true) s4).
  { intros s4 Ht4 Hx4. wp_step. apply wp_partial_inline; try (rewrite Hx4, Hx3); try done.
    - intros s5 Ht5. cbn [negb]. by apply keeps_ack.
    - intros s5 Hw5. cbn [negb]. by apply keeps_terminal. }
  wp_step. wp_step; [apply wp_stream_reset; intros e2|apply wp_ret];
    (apply Hgo; [|done]); (eapply begun_tinv; [exact Hx3|done..|exact Hp3|done|done]).
Qed.

Lemma keeps_partial_start ctx body s : tinv s -> span_ok body -> keeps (od_xfer_partial_start ctx body) s.
Proof.
  intros Ht Hok. unfold od_xfer_partial_start. wp_step; [|wp_go; exact Ht]. unfold partial_start.
  destruct ctx as [c|]; [|by apply keeps_partial_fail]. wp_step; [by apply keeps_partial_fail|].
  apply orb_false_iff in Hb0 as [Hv _]. apply negb_false_iff in Hv.
  wp_step. apply wp_replace_active; [done|]. intros s1 Hi. do 2 wp_step.
  assert (Hf : forall s' err, idle s' -> keeps (partial_fail (Some c) RESP_PARTIAL_WRITE_START err) s')
    by (intros; by apply keeps_partial_fail, idle_tinv).
  wp_step; [by apply Hf|]. do 2 wp_step. wp_step; [by apply Hf|]. wp_step; [by apply Hf|].
  do 2 wp_step. destruct a as [pi|]; [|by apply Hf].
  destruct (partial_checks _ _ _ _ _); [by apply Hf|].
  destruct (rect_plane _ _); [|by apply Hf]. by apply keeps_start_rect.
Qed.

Lemma wp_partial_raw body s (Q : bool -> tstate E -> Prop) :
  tinv s -> od_xfer_owns_hardware (t_xfer s) = true -> compressed (t_xfer s) = false ->
  span_ok body -> od_span_valid body = true -> 0 < sn body <= UINT32_MAX ->
  (forall s', tinv s' -> Q true s') -> (forall s', winv s' -> Q false s') ->
  wp (partial_data_raw body) Q s.
Proof.
  intros Ht Ho Hz Hok Hv Hn HT HF. unfold partial_data_raw. do 2 wp_step.
  pose proof Ht as (_ & Ha & _). destruct (Ha Ho) as (Hw & Hf & _). unfold fits, UINT32_MAX in *.
  rewrite (wrap_id 32 (expected_bytes _ - _)) by (unfold fits; lia).
  wp_step; [apply wp_ret; by apply HF, tinv_winv|].
  apply orb_false_iff in Hb as [_ Hb]. apply Z.ltb_ge in Hb. pose proof (len_contents body Hok Hv) as Hl.
  wp_step. apply wp_write. intros n e. destruct (raw_write s (contents body) n e Ht Ho Hz) as [Hlost Hkept]; [lia..|].
  rewrite wrap_id by (unfold fits; lia). destruct (Z.eqb_spec n (sn body)) as [->|Hne]; cbn [negb].
  - do 3 wp_step. apply HT, Hkept. lia.
  - wp_step. by apply HF.
Qed.

Lemma keeps_partial_data ctx body s :
  tinv s -> mode (t_xfer s) = OD_XFER_DIRECT_PARTIAL -> span_ok body -> od_span_valid body = true ->
  keeps (od_xfer_partial_data_impl ctx body) s.
Proof.
  intros Ht Hm Hok Hv.
  assert (Ho : od_xfer_owns_hardware (t_xfer s) = true) by (unfold od_xfer_owns_hardware; by rewrite Hm).
  unfold od_xfer_partial_data_impl. wp_step. wp_step. wp_step; [by apply wp_ret|]. wp_step; [by apply wp_ret|].
  wp_step; [by apply keeps_terminal, tinv_winv|]. wp_step. unfold od_xfer_log_chunk. rewrite Hv, Hb0. cbn [negb orb].
  wp_step. wp_step; [by apply keeps_terminal, (tinv_winv (set_quiet true s))|]. do 2 wp_step.
  pose proof (tinv_received (u32 (received_bytes (t_xfer s) + sn body)) (set_quiet true s) Ht Ho) as Ht1.
  apply Z.eqb_neq in Hb0. apply Z.ltb_ge in Hb1. pose proof Hok as [Hn0 _].
  assert (HT : forall s', tinv s' ->
    wp (if negb true then partial_terminal_fail ctx RESP_DIRECT_WRITE_DATA_ACK OD_ERR_PARTIAL_STREAM
                            OD_XFER_ABORT_STREAM_FAILED
        else ack_or_fail ctx [RESP_ACK; RESP_DIRECT_WRITE_DATA_ACK] true) (fun _ s' => tinv s') s')
    by (intros; by apply keeps_ack).
  assert (HF : forall s', winv s' ->
    wp (if negb false then partial_terminal_fail ctx RESP_DIRECT_WRITE_DATA_ACK OD_ERR_PARTIAL_STREAM
                             OD_XFER_ABORT_STREAM_FAILED
        else ack_or_fail ctx [RESP_ACK; RESP_DIRECT_WRITE_DATA_ACK] true) (fun _ s' => tinv s') s')
    by (intros; by apply keeps_terminal).
  wp_step. wp_step; [|apply wp_partial_raw; try done; lia].
  wp_step. apply wp_stream_push; try done.
  - intros s' Ht' _ _. apply wp_ret. by apply HT.
  - intros r s' Hr Hw _. apply wp_ret. destruct r; try done; by apply HF.
Qed.

Lemma keeps_partial_finish ctx body rp s :
  tinv s -> od_xfer_owns_hardware (t_xfer s) = true ->
  written_bytes (t_xfer s) = expected_bytes (t_xfer s) ->
  keeps (partial_finish ctx body rp) s.
Proof.
  intros Ht Ho Hc. unfold partial_finish. cbv zeta. do 4 wp_step.
  pose proof (tinv_finalized a e s Ht Ho) as Ht1. set (s1 := set_xfer _ _) in *.
  assert (Hgive : forall s', tinv s' ->
    keeps (app_set_displayed_etag 0;; od_xfer_clear_state;; app_barrier_abort rp;; ret OD_CMD_NACK) s').
  { intros s' Ht'. do 2 wp_step. apply keeps_barrier_abort. rewrite panel_etag. destruct Ht' as [-> _]. done. }
  do 2 wp_step. wp_step; [by apply Hgive|]. do 2 wp_step. destruct b; [|by apply Hgive].
  do 2 wp_step.
  assert (Hr : forall m ok completed, panel_of (EvRefresh m ok completed :: t_trace s) = Some P_closed)
    by (intros; by apply refresh_allowed).
  wp_step; [apply keeps_terminal, winv_closed; [apply Hr|exact Ho|apply Ht]|].
  do 2 wp_step. apply keeps_report. intros Q HQ. apply wp_etag. intros e1. apply HQ.
  rewrite panel_etag. apply Hr.
Qed.

Lemma keeps_partial_end ctx body s :
  tinv s -> mode (t_xfer s) = OD_XFER_DIRECT_PARTIAL -> keeps (od_xfer_partial_end_impl ctx body) s.
Proof.
  intros Ht Hm. assert (Ho : od_xfer_owns_hardware (t_xfer s) = true) by (unfold od_xfer_owns_hardware; by rewrite Hm).
  unfold od_xfer_partial_end_impl. do 2 wp_step. wp_step; [by apply wp_ret|].
  wp_step; [by apply keeps_terminal, tinv_winv|]. wp_step.
  - wp_step. wp_step; [wp_step; by apply keeps_terminal, tinv_winv|]. apply wp_stream_push; try done.
    + intros s' Ht' (Hx & _) Hfin. apply keeps_partial_finish; [done|by rewrite Hx|].
      rewrite (Hfin eq_refl), Hx. done.
    + intros r s' Hr Hw _. destruct r; try done; by apply keeps_terminal.
  - wp_step; [by apply keeps_terminal, tinv_winv|]. apply keeps_partial_finish; [done..|].
    apply negb_false_iff, Z.eqb_eq in Hb2. exact Hb2.
Qed.

Lemma keeps_xfer_data ctx body s : tinv s -> span_ok body -> keeps (od_xfer_data ctx body) s.
Proof.
  intros Ht Hok. unfold od_xfer_data. do 2 wp_step. wp_step; [by apply keeps_nack|].
  apply negb_false_iff in Hb. destruct (mode (t_xfer s)) eqn:Hm; try (by apply wp_ret).
  - by apply keeps_direct_data.
  - wp_step; [by apply keeps_partial_data|by apply wp_ret].
Qed.

Lemma keeps_xfer_end ctx body s : tinv s -> keeps (od_xfer_end ctx body) s.
Proof.
  intros Ht. unfold od_xfer_end. do 2 wp_step. wp_step; [by apply keeps_nack|].
  destruct (mode (t_xfer s)) eqn:Hm; try (by apply wp_ret).
  - by apply keeps_direct_end.
  - wp_step; [by apply keeps_partial_end|by apply wp_ret].
Qed.

Lemma keeps_reset s : tinv s -> keeps od_xfer_reset s.
Proof. intros Ht. apply wp_abort_active; [by apply tinv_winv|]. intros s' Hi _. by apply idle_tinv. Qed.

(** *** PIPE: the stream and the acknowledgements *)

Lemma pipe_owns x : is_pipe (mode x) = true -> od_xfer_owns_hardware x = true.
Proof. unfold od_xfer_owns_hardware. by destruct (mode x). Qed.

(** The window was not touched, and the transfer only by its byte counts. *)
Definition same_window s s' : Prop :=
  t_pipe s' = t_pipe s /\ t_reorder s' = t_reorder s /\ mode (t_xfer s') = mode (t_xfer s).

(** All of the payload was taken in, or none of it. *)
Definition took_some (payload : od_span) s s' : Prop :=
  exists b : bool, inputs (t_trace s') = inputs (t_trace s) ++ (if b then contents payload else []).

Lemma took_nothing payload s s' : inputs (t_trace s') = inputs (t_trace s) -> took_some payload s s'.
Proof. intros Hi. exists false. by rewrite app_nil_r. Qed.

Lemma wp_consume payload s (Q : od_xfer_stream_result -> tstate E -> Prop) :
  tinv s -> span_ok payload ->
  (forall s', tinv s' -> same_window s s' ->
     inputs (t_trace s') = inputs (t_trace s) ++ contents payload -> Q OD_XFER_STREAM_OK s') ->
  (forall r s', r <> OD_XFER_STREAM_OK -> winv s' -> same_window s s' -> took_some payload s s' -> Q r s') ->
  wp (od_xfer_pipe_consume payload) Q s.
Proof.
  intros Ht Hok HT HF. unfold od_xfer_pipe_consume. do 2 wp_step.
  wp_step; [apply wp_ret; apply HF; [done|by apply tinv_winv|done|by apply took_nothing]|].
  apply orb_false_iff in Hb as [Hb Hp]. apply orb_false_iff in Hb as [Hb Hmax]. apply orb_false_iff in Hb as [Hv Hz].
  apply negb_false_iff in Hv, Hp. apply Z.eqb_neq in Hz. apply Z.ltb_ge in Hmax. pose proof Hok as [Hn _].
  pose proof (pipe_owns _ Hp) as Ho.
  wp_step; [apply wp_ret; apply HF; [done|by apply tinv_winv|done|by apply took_nothing]|].
  wp_step. unfold od_xfer_log_chunk. rewrite Hv. destruct (Z.eqb_spec (sn payload) 0) as [?|_]; [lia|]. cbn [negb orb].
  wp_step. do 4 wp_step. set (s1 := push_event _ _).
  assert (Ht1 : tinv s1).
  { destruct (tinv_received (u32 (received_bytes (t_xfer (set_quiet true s)) + sn payload)) (set_quiet true s) Ht Ho)
      as (Hp1 & Hrest). split; [|exact Hrest]. unfold s1. cbn [t_trace push_event panel_of]. by rewrite Hp1. }
  assert (Hin1 : inputs (t_trace s1) = inputs (t_trace s) ++ contents payload) by done.
  wp_step.
  { apply wp_stream_push; try done.
    - intros s' Ht' (Hx & Hpp & Hr & Hin) _. apply HT; [done| |by rewrite Hin].
      split; [done|]. split; [done|]. by rewrite Hx.
    - intros r s' Hr Hw (Hx & Hpp & Hrr & Hin). apply HF; [done|done| |exists true; by rewrite Hin].
      split; [done|]. split; [done|]. by rewrite Hx. }
  unfold pipe_consume_raw. do 2 wp_step.
  pose proof Ht1 as (_ & Ha & _). destruct (Ha Ho) as (Hw & Hf & _). unfold fits, UINT32_MAX in *.
  destruct (Z.ltb_spec (expected_bytes (t_xfer s1)) (written_bytes (t_xfer s1))); [lia|].
  rewrite (wrap_id 32 (expected_bytes _ - _)) by (unfold fits; lia).
  wp_step; [apply wp_ret; apply HF; [done|by apply tinv_winv|done|by exists true]|].
  set (n := if sn payload <? _ then _ else _).
  assert (Hnr : 0 <= n <= sn payload /\ n <= expected_bytes (t_xfer s1) - written_bytes (t_xfer s1)).
  { unfold n. destruct (Z.ltb_spec (sn payload) (expected_bytes (t_xfer s1) - written_bytes (t_xfer s1))); lia. }
  destruct (contents_take_len payload n Hok) as [Hlen Hsn]; [lia..|done|]. rewrite Hsn.
  destruct (Z.eqb_spec n 0) as [Hn0|Hn0]; [by apply wp_ret, HT|].
  wp_step. apply wp_write. intros k e.
  destruct (raw_write s1 (contents (od_span_take payload n)) k e Ht1 Ho Hb0) as [Hlost Hkept]; [lia..|].
  rewrite (wrap_id 32 n) by (unfold fits; lia). destruct (Z.eqb_spec k n) as [->|Hne]; cbn [negb].
  - do 3 wp_step. apply HT; [apply Hkept; lia|done|done].
  - wp_step. apply HF; [done|exact Hlost|done|by exists true].
Qed.

Lemma wp_data_nack ctx err s (Q : unit -> tstate E -> Prop) :
  winv s -> (forall s', stopped s' -> inputs (t_trace s') = inputs (t_trace s) -> Q tt s') ->
  wp (pipe_send_data_nack ctx err) Q s.
Proof.
  intros Hw HQ. unfold pipe_send_data_nack. do 4 wp_step. apply wp_enter_fatal; [exact Hw|].
  intros s' Hs _ _ Hin. by apply HQ.
Qed.

Lemma keeps_data_nack ctx err s (rc : od_cmd_result) :
  winv s -> keeps (pipe_send_data_nack ctx err;; ret rc) s.
Proof. intros Hw. wp_step. apply wp_data_nack; [done|]. intros s' Hs _. wp_step. by apply stopped_tinv. Qed.

Lemma wp_consume_or_fatal ctx payload s (Q : bool -> tstate E -> Prop) :
  tinv s -> span_ok payload ->
  (forall s', tinv s' -> same_window s s' ->
     inputs (t_trace s') = inputs (t_trace s) ++ contents payload -> Q true s') ->
  (forall s', stopped s' -> took_some payload s s' -> Q false s') ->
  wp (consume_or_fatal ctx payload) Q s.
Proof.
  intros Ht Hok HT HF. unfold consume_or_fatal. wp_step.
  - wp_step. apply wp_consume; [done..| |].
    + intros s' Ht' Hs Hin. wp_step. by apply HT.
    + intros r s' Hr Hw _ [b Hin]. destruct r; try done; do 3 wp_step; (apply wp_data_nack; [done|]);
        intros s2 Hs Hin2; wp_step; (apply HF; [done|]); exists b; by rewrite Hin2.
  - apply wp_ret, HT; [done|done|]. apply Z.ltb_ge in Hb. destruct Hok as [Hn _].
    replace (contents payload) with ([] : bytes); [by rewrite app_nil_r|].
    unfold contents. replace (sn payload) with 0 by lia. by destruct (sp payload).
Qed.

Lemma wp_sack ctx s (Q : bool -> tstate E -> Prop) :
  tinv s ->
  (forall s', tinv s' -> t_xfer s' = t_xfer s -> t_reorder s' = t_reorder s ->
     t_pipe s' = with_acks (t_pipe s) 0 0 -> inputs (t_trace s') = inputs (t_trace s) -> Q true s') ->
  (forall s', stopped s' -> inputs (t_trace s') = inputs (t_trace s) -> Q false s') ->
  wp (pipe_sack_or_fatal ctx) Q s.
Proof.
  intros Ht HT HF. unfold pipe_sack_or_fatal, pipe_send_sack, pipe_mod. do 8 wp_step. wp_step.
  - wp_step. by apply HT.
  - wp_step. apply wp_enter_fatal; [by apply (tinv_winv s)|]. intros s' Hs _ _ Hin. wp_step. by apply HF.
Qed.

(** A command that ends with an acknowledgement. *)
Lemma keeps_sack_result ctx s :
  tinv s -> keeps (let* ok := pipe_sack_or_fatal ctx in ret (if negb ok then OD_CMD_NACK else OD_CMD_OK)) s.
Proof.
  intros Ht. wp_step. apply wp_sack; [done| |]; intros; wp_step; [done|by apply stopped_tinv].
Qed.

(** *** PIPE: emptying the ring *)

Definition busy (ring : list od_pipe_reorder_slot) : nat := length (List.filter occupied ring).

Lemma busy_insert ring (i : nat) :
  (i < length ring)%nat -> occupied (ring !!! i) = true ->
  busy ring = S (busy (<[i := release_slot (ring !!! i)]> ring)).
Proof.
  unfold busy. revert i. induction ring as [|slot ring IH]; intros i Hi Hocc; [cbn [length] in Hi; lia|].
  destruct i as [|i].
  - change ((slot :: ring) !!! 0%nat) with slot in *. cbn. rewrite Hocc. done.
  - cbn [length] in Hi. specialize (IH i ltac:(lia) Hocc).
    change ((slot :: ring) !!! S i) with (ring !!! i).
    change (<[S i := release_slot (ring !!! i)]> (slot :: ring))
      with (slot :: <[i := release_slot (ring !!! i)]> ring).
    cbn [List.filter]. destruct (occupied slot); cbn [length]; lia.
Qed.

Lemma busy_release ring i :
  0 <= i < len ring -> occupied ring.[i] = true ->
  busy ring = S (busy ring.[i := release_slot ring.[i]]).
Proof. intros Hi Hocc. apply busy_insert; [lia|exact Hocc]. Qed.

Lemma busy_le ring : (busy ring <= length ring)%nat.
Proof. unfold busy. induction ring; cbn [List.filter]; [done|]. destruct (occupied _); cbn [length]; lia. Qed.

Lemma slot_payload_ok slot : slot_ok slot -> span_ok (slot_payload slot).
Proof. intros [? ?]. by split. Qed.

(** The drain ends by its own condition: it needs one turn per busy slot. *)
Lemma wp_drain fuel ctx s (Q : bool -> tstate E -> Prop) :
  tinv s -> (busy (t_reorder s) < fuel)%nat ->
  (forall s', tinv s' -> mode (t_xfer s') = mode (t_xfer s) -> Q true s') -> (forall s', stopped s' -> Q false s') ->
  wp (pipe_drain fuel ctx) Q s.
Proof.
  intros Ht Hf HT HF. revert s Ht Hf HT. induction fuel as [|fuel IH]; intros s Ht Hf HT; [lia|].
  cbn [pipe_drain]. do 4 wp_step. pose proof Ht as (_ & _ & _ & Hr).
  wp_step; [|by apply wp_ret, HT]. wp_step.
  apply wp_consume_or_fatal; [done|by apply slot_payload_ok, ring_get_ok| |].
  - intros s' Ht' (Hp' & Hr' & Hm') _. do 2 wp_step.
    unfold holds in Hb. apply andb_prop in Hb as [Hocc _].
    assert (Hrel : t_reorder (drain_one s') =
      (t_reorder s).[pipe_slot (expected_seq (t_pipe s)) := release_slot (t_reorder s).[pipe_slot (expected_seq (t_pipe s))]])
      by (unfold drain_one; tsimpl; by rewrite Hp', Hr').
    apply IH.
    + destruct Ht' as (Hp & Ha & Hi & Hro). split; [exact Hp|]. split; [exact Ha|]. split; [exact Hi|].
      rewrite Hrel. apply ring_set_ok; [done|]. by apply (ring_get_ok (t_reorder s)).
    + rewrite Hrel. rewrite (busy_release (t_reorder s) _ (slot_range _ _ Hr) Hocc) in Hf. lia.
    + intros s2 Ht2 Hm2. apply HT; [done|]. rewrite Hm2. exact Hm'.
  - intros s' Hs _. wp_step. by apply HF.
Qed.

Lemma drain_fuel_enough s : tinv s -> (busy (t_reorder s) < drain_fuel)%nat.
Proof.
  intros (_ & _ & _ & Hl & _). unfold drain_fuel. pose proof (busy_le (t_reorder s)). lia.
Qed.

(** *** PIPE: finishing *)

Lemma refresh_allowed_pipe s m ok completed :
  tinv s -> od_xfer_pipe_complete (t_xfer s) = true ->
  panel_of (EvRefresh m ok completed :: t_trace s) = Some P_closed.
Proof.
  intros Ht Hc. apply andb_prop in Hc as [Hp Hc]. apply refresh_allowed; [done|by apply pipe_owns|].
  intros _. by apply Z.eqb_eq.
Qed.

Lemma wp_pipe_etag is_partial completed has etag s (Q : unit -> tstate E -> Prop) :
  panel_of (t_trace s) = Some P_closed ->
  (forall a s', panel_of (t_trace s') = Some P_closed -> inputs (t_trace s') = inputs (t_trace s) -> Q a s') ->
  wp (pipe_etag is_partial completed has etag) Q s.
Proof. intros Hp HQ. unfold pipe_etag. cbv zeta. wp_go; apply HQ; rewrite ?panel_etag; done. Qed.

(** However it ends, the transfer is over and took nothing more in. *)
Definition over s s' : Prop := stopped s' /\ inputs (t_trace s') = inputs (t_trace s).

Lemma idle_over s s' : idle s' -> inputs (t_trace s') = inputs (t_trace s) -> over s s'.
Proof. intros Hi Hin. split; [by apply idle_stopped|done]. Qed.

Lemma wp_pipe_barrier_abort s (Q : unit -> tstate E -> Prop) :
  panel_of (t_trace s) <> None ->
  (forall s', idle s' -> inputs (t_trace s') = inputs (t_trace s) -> Q tt s') ->
  wp od_xfer_pipe_barrier_abort Q s.
Proof.
  intros Hopen HQ. unfold od_xfer_pipe_barrier_abort. do 2 wp_step. wp_step.
  assert (Hend : forall s2 rp, panel_of (t_trace s2) <> None -> inputs (t_trace s2) = inputs (t_trace s) ->
    wp (od_xfer_clear_state;; app_barrier_abort rp) Q s2).
  { intros s2 rp Hn Hin. wp_step. apply wp_clear_any. intros s3 Htr Hx Hr. wp_step.
    apply HQ; [|tsimpl; cbn [inputs]; by rewrite Htr].
    split; [tsimpl; rewrite Htr; by destruct (panel_of (t_trace s2))|]. by split. }
  wp_step; wp_step; apply Hend; try done. by rewrite panel_etag.
Qed.

Lemma wp_pipe_finish ctx body s :
  tinv s -> od_xfer_pipe_complete (t_xfer s) = true -> wp (pipe_finish ctx body) (fun _ s' => over s s') s.
Proof.
  intros Ht Hc. pose proof Hc as Hc'. apply andb_prop in Hc' as [Hp _]. pose proof (pipe_owns _ Hp) as Ho.
  unfold pipe_finish, od_xfer_pipe_mark_finalized. do 6 wp_step. pose proof (tinv_finalized a e s Ht Ho) as Ht1.
  set (s1 := set_xfer _ _) in *. assert (Hp1 : is_pipe (mode (t_xfer s1)) = true) by exact Hp. do 2 wp_step.
  wp_step. { wp_step. apply wp_abort_active; [by apply (tinv_winv s1)|]. intros s' Hi Hin. wp_step. by apply idle_over. }
  wp_step. unfold od_xfer_pipe_before_refresh. do 2 wp_step. tsimpl. rewrite Hp1. cbn [negb].
  wp_step. destruct b.
  - wp_step. unfold od_xfer_pipe_refresh. do 2 wp_step. tsimpl. rewrite Hp1. cbn [negb].
    do 2 wp_step.
    assert (Hr : forall m ok completed, panel_of (EvRefresh m ok completed :: t_trace s) = Some P_closed)
      by (intros; by apply refresh_allowed_pipe).
    wp_step.
    + wp_step. apply wp_abort_active; [apply winv_closed; [apply Hr|exact Ho|apply Ht]|]. intros s' Hi Hin.
      wp_step. cbn [fst snd negb]. unfold pipe_send_end_nack. wp_go. by apply idle_over.
    + wp_step. apply wp_pipe_etag; [apply Hr|]. intros _ s2 Hp2 Hin2. wp_step. apply wp_clear; [done|].
      intros s3 Hi Hin3. wp_step. cbn [fst snd negb]. wp_go. apply idle_over; [done|]. tsimpl. rewrite Hin3, Hin2. done.
  - wp_step. apply wp_pipe_barrier_abort; [destruct Ht as [Hpo _]; tsimpl; unfold s1; tsimpl; by rewrite Hpo|].
    intros s' Hi Hin. wp_step. by apply idle_over.
Qed.

Lemma keeps_pipe_finish ctx body s :
  tinv s -> od_xfer_pipe_complete (t_xfer s) = true -> keeps (pipe_finish ctx body) s.
Proof.
  intros Ht Hc. eapply wp_mono; [by apply wp_pipe_finish|]. intros _ s' [Hs _]. by apply stopped_tinv.
Qed.

(** *** PIPE: START *)

(** Armed: the transfer is recorded, the panel not yet opened. *)
Definition armed_for s (limit : Z) : Prop :=
  let x := t_xfer s in
  panel_of (t_trace s) = Some P_closed /\ is_pipe (mode x) = true /\ written_bytes x = 0 /\
  expected_bytes x = limit /\ fits 32 limit /\
  match mode x with
  | OD_XFER_PIPE_FULL => total_bytes (geometry x) = limit
  | _ => u32 (plane_bytes (partial x) * 2) = limit
  end /\
  (compressed x = true -> s_expected_output (t_pump s) = limit /\ s_emitted_output (t_pump s) = 0) /\
  ring_ok (t_reorder s).

Lemma keeps_activate s limit (rc : od_cmd_result) :
  armed_for s limit -> keeps (let* _ := od_xfer_pipe_activate in ret rc) s.
Proof.
  intros (Hp & Hm & Hw & He & Hf & Hl & Hc & Hr). wp_step. unfold od_xfer_pipe_activate. do 3 wp_step.
  pose proof (pipe_owns _ Hm) as Ho.
  assert (Hdone : forall (ok : bool) s1, t_xfer s1 = t_xfer s -> t_pump s1 = t_pump s -> t_reorder s1 = t_reorder s ->
    panel_of (t_trace s1) = Some (if ok then P_open 0 limit true else P_closed) ->
    wp ((if negb ok then od_xfer_pipe_enter_fatal else ret tt);; ret ok)
       (fun _ s' => wp (ret rc) (fun _ s' => tinv s') s') s1).
  { intros ok s1 Hx Hpu Hre Hp1. wp_step. destruct ok; cbn [negb].
    - do 3 wp_step. eapply begun_tinv; [exact Hx|exact Ho|exact Hw|by rewrite He| |by rewrite Hpu, He|by rewrite Hre].
      rewrite He, Hp1. unfold must_complete. destruct (mode (t_xfer s)); done.
    - apply wp_enter_fatal; [apply winv_closed; [done|by rewrite Hx|by rewrite Hre]|].
      intros s2 Hs _ _ _. do 2 wp_step. by apply stopped_tinv. }
  assert (Hbegin : forall (lim : Z) (ok : bool) (e : E), lim = limit -> panel_of (t_trace (push_event (EvBegin lim (must_complete (t_xfer s)) ok) (put_env e s)))
    = Some (if ok then P_open 0 limit true else P_closed)).
  { intros lim ok e ->. tsimpl. rewrite Hp. unfold must_complete. by destruct (mode (t_xfer s)). }
  destruct (mode (t_xfer s)) eqn:Hmode; try discriminate Hm.
  - apply wp_begin_full. intros ok e. apply Hdone; try done. by apply Hbegin.
  - wp_step; [|wp_step; by apply Hdone]. apply wp_begin_partial. intros ok e. apply Hdone; try done. by apply Hbegin.
Qed.

Lemma armed_winv s limit : armed_for s limit -> winv s.
Proof.
  intros (Hp & Hm & _ & _ & _ & _ & _ & Hr). apply winv_closed; [done|by apply pipe_owns|done].
Qed.

Lemma keeps_negotiate c body b s limit : armed_for s limit -> keeps (pipe_negotiate c body b) s.
Proof.
  intros Ha. unfold pipe_negotiate, pipe_mod. do 4 wp_step.
  wp_step; [|by apply (keeps_activate _ limit)].
  wp_step. apply wp_abort_active; [by apply (armed_winv s limit)|]. intros s' Hi _. wp_step. by apply idle_tinv.
Qed.

(** The last step of arming. *)
Lemma wp_arm_finish {A} (z : bool) total (a : A) s (Q : A -> tstate E -> Prop) :
  (forall p e, (z = true -> s_expected_output p = total /\ s_emitted_output p = 0) ->
     Q a (set_pump p (put_env e s))) ->
  wp ((if z then od_xfer_stream_reset total else ret tt);; ret a) Q s.
Proof.
  intros HQ. wp_step. wp_step.
  - apply wp_stream_reset. intros e. wp_step. by apply HQ.
  - do 2 wp_step. assert (Hs : set_pump (t_pump s) (put_env (t_env s) s) = s) by (destruct s as [[] ?]; done).
    rewrite <- Hs. by apply HQ.
Qed.

Lemma wp_arm_full c total z s (Q : od_xfer_start_cause -> tstate E -> Prop) :
  idle s ->
  (forall s', armed_for s' total -> t_pipe s' = t_pipe s -> t_reorder s' = t_reorder s ->
     mode (t_xfer s') = OD_XFER_PIPE_FULL -> Q OD_XFER_START_OK s') ->
  (forall cause s', cause <> OD_XFER_START_OK -> idle s' -> Q cause s') ->
  wp (od_xfer_pipe_arm_full (Some c) total z) Q s.
Proof.
  intros Hi HT HF. unfold od_xfer_pipe_arm_full. do 2 wp_step.
  wp_step; [wp_step; by apply HF|]. wp_step; [wp_step; by apply HF|]. do 3 wp_step. wp_step.
  destruct a as [pi|]; [|wp_step; by apply HF].
  wp_step; [wp_step; by apply HF|]. wp_step; [wp_step; by apply HF|]. wp_step; [wp_step; by apply HF|].
  do 4 wp_step. apply negb_false_iff, Z.eqb_eq in Hb3. destruct Hi as (Hp & Hx & Hr).
  apply wp_arm_finish. intros p e' Hz. apply HT; [|done|done|done]. unfold armed_for. tsimpl. rewrite Hx.
  cbn [armed mode written_bytes expected_bytes geometry compressed xfer_zero is_pipe].
  split; [exact Hp|]. split; [done|]. split; [done|]. split; [done|].
  split; [rewrite Hb3; by eapply panel_total_fits|]. split; [by rewrite Hb3|]. split; [|exact Hr].
  exact Hz.
Qed.

Lemma wp_arm_partial c total z etag x y w h s (Q : od_xfer_start_cause * Z -> tstate E -> Prop) :
  idle s ->
  (forall err s', armed_for s' total -> t_pipe s' = t_pipe s -> t_reorder s' = t_reorder s ->
     Q (OD_XFER_START_OK, err) s') ->
  (forall cause err s', cause <> OD_XFER_START_OK -> idle s' -> Q (cause, err) s') ->
  wp (od_xfer_pipe_arm_partial (Some c) total z etag x y w h) Q s.
Proof.
  intros Hi HT HF. unfold od_xfer_pipe_arm_partial. do 2 wp_step.
  assert (Href : forall cause err s', cause <> OD_XFER_START_OK -> idle s' -> wp (refuse_partial cause err) Q s').
  { intros cause err s' Hc Hi'. unfold refuse_partial. do 3 wp_step. apply HF; [done|]. by apply idle_etag. }
  wp_step; [wp_step; by apply HF|]. wp_step; [wp_step; by apply HF|]. do 3 wp_step. wp_step.
  destruct a as [pi|]; [|by apply Href].
  wp_step; [by apply Href|]. do 2 wp_step. wp_step; [by apply Href|].
  wp_step; [by apply Href|]. wp_step; [by apply Href|].
  destruct (rect_plane w h) as [plane|]; [|by apply Href]. wp_step; [by apply Href|].
  apply negb_false_iff, Z.eqb_eq in Hb5. do 4 wp_step. destruct Hi as (Hp & Hx & Hr).
  apply wp_arm_finish. intros p e' Hz. apply HT; [|done|done]. unfold armed_for. tsimpl. rewrite Hx.
  cbn [armed mode written_bytes expected_bytes geometry compressed partial xfer_zero is_pipe plane_bytes].
  split; [exact Hp|]. split; [done|]. split; [done|]. split; [done|].
  split; [rewrite Hb5; apply wrap_fits; lia|]. split; [done|]. split; [|exact Hr]. exact Hz.
Qed.

Lemma keeps_start_refused ctx err s : tinv s -> keeps (start_refused ctx err) s.
Proof. intros Ht. unfold start_refused, pipe_send_start_nack. wp_go. exact Ht. Qed.

Lemma keeps_refuse_origin ctx op err s : tinv s -> keeps (pipe_refuse_origin ctx op err) s.
Proof. intros Ht. unfold pipe_refuse_origin. wp_go. exact Ht. Qed.

(** Replacing a transfer clears the window with it. *)
Lemma wp_replace_window s (Q : unit -> tstate E -> Prop) :
  tinv s ->
  (forall s', idle s' ->
     (od_xfer_active (t_xfer s) = false -> t_pipe s' = t_pipe s /\ t_reorder s' = t_reorder s) ->
     (od_xfer_active (t_xfer s) = true -> t_pipe s' = pipe_zero /\ t_reorder s' = reorder_zero) -> Q tt s') ->
  wp od_xfer_replace_active Q s.
Proof.
  intros Ht HQ. unfold od_xfer_replace_active. wp_step. wp_step. wp_step.
  - wp_step. apply wp_abort_hardware; [by apply tinv_winv|]. intros s1 Hp _ _ _ _ _. apply wp_modify, HQ; [|done|done].
    split; [exact Hp|]. split; [done|apply ring_zero_ok].
  - wp_step. apply HQ; [|done|done]. pose proof Hb as Hm. unfold od_xfer_active in Hm.
    apply negb_false_iff, bool_decide_eq_true in Hm.
    destruct Ht as (Hp & _ & Hi & Hr). rewrite (Hi Hm) in Hp. split; [exact Hp|]. by split; [apply Hi|].
Qed.

(** Arming either records the transfer and leaves the window alone, or refuses
    and leaves nothing in progress. *)
Lemma wp_pipe_arm c body z b s (Q : option Z -> tstate E -> Prop) :
  idle s ->
  (forall limit s', armed_for s' limit -> t_pipe s' = t_pipe s -> t_reorder s' = t_reorder s ->
     (mode (t_xfer s') = OD_XFER_PIPE_PARTIAL -> OD_CAP_PARTIAL = true) -> Q None s') ->
  (forall err s', idle s' -> Q (Some err) s') ->
  wp (pipe_arm c body z b) Q s.
Proof.
  intros Hi HT HF. unfold pipe_arm. cbv zeta.
  wp_step; [wp_step; [|wp_step; by apply HF]|]; wp_step.
  - apply wp_arm_partial; [done|intros; wp_step; by eapply HT|].
    intros cause err s' Hc Hi'. wp_step. cbn [fst snd]. destruct cause; try done; by apply HF.
  - apply wp_arm_full; [done|intros s' ? ? ? Hm; wp_step; eapply HT; [done|done|done|congruence]|].
    intros cause s' Hc Hi'. wp_step. destruct cause; try done; by apply HF.
Qed.

(** A START is refused, with nothing in progress if it is refused after the
    origin was checked, or goes through [pipe_arm] and [pipe_negotiate]. *)
Lemma wp_pipe_start ctx body s (Q : od_cmd_result -> tstate E -> Prop) :
  tinv s ->
  (forall s', tinv s' -> Q OD_CMD_NACK s') ->
  (forall c b s1 s' limit,
     (od_xfer_active (t_xfer s) = false -> t_pipe s1 = t_pipe s /\ t_reorder s1 = t_reorder s) ->
     (od_xfer_active (t_xfer s) = true -> t_pipe s1 = pipe_zero /\ t_reorder s1 = reorder_zero) ->
     armed_for s' limit -> t_pipe s' = t_pipe s1 -> t_reorder s' = t_reorder s1 ->
     (mode (t_xfer s') = OD_XFER_PIPE_PARTIAL -> OD_CAP_PARTIAL = true) ->
     wp (pipe_negotiate c body b) Q s') ->
  wp (od_pipe_start ctx body) Q s.
Proof.
  intros Ht HF HT. unfold od_pipe_start. wp_step; [|wp_go; by apply HF]. unfold pipe_start.
  assert (HR : forall ctx err s', tinv s' -> wp (start_refused ctx err) Q s')
    by (intros; unfold start_refused, pipe_send_start_nack; wp_go; by apply HF).
  destruct ctx as [c|]; [|by apply HR]. wp_step; [by apply HR|].
  wp_step; [unfold pipe_refuse_origin; wp_go; by apply HF|].
  wp_step. apply wp_replace_window; [done|]. intros s1 Hi Hsame Hzero.
  assert (HF1 : forall err, wp (start_refused (Some c) err) Q s1) by (intros; by apply HR, idle_tinv).
  wp_step; [by apply HF1|]. wp_step; [by apply HF1|]. wp_step; [by apply HF1|]. wp_step; [by apply HF1|].
  wp_step. apply wp_pipe_arm; [done| |].
  - intros limit s' Ha Hp Hr Hm. by eapply HT.
  - intros err s' Hi'. by apply HR, idle_tinv.
Qed.

Lemma keeps_pipe_start ctx body s : tinv s -> keeps (od_pipe_start ctx body) s.
Proof.
  intros Ht. apply wp_pipe_start; [done|done|]. intros. by eapply keeps_negotiate.
Qed.

(** *** PIPE: DATA *)

Lemma keeps_late_ack ctx b s : tinv s -> keeps (late_ack ctx b) s.
Proof.
  intros Ht. unfold late_ack, pipe_mod. do 2 wp_step. wp_step.
  - wp_step. wp_step; wp_step; by apply keeps_sack_result.
  - do 2 wp_step. wp_step; [by apply keeps_sack_result|by wp_step].
Qed.

Lemma keeps_data_expected ctx seq payload s :
  tinv s -> span_ok payload -> keeps (data_expected ctx seq payload) s.
Proof.
  intros Ht Hok. unfold data_expected, pipe_mod. wp_step. apply wp_consume_or_fatal; [done..| |].
  2:{ intros s' Hs _. cbn [negb]. wp_step. by apply stopped_tinv. }
  intros s1 Ht1 _ _. cbn [negb]. do 3 wp_step. apply wp_drain; [exact Ht1|by apply (drain_fuel_enough s1)| |].
  2:{ intros s' Hs. cbn [negb]. wp_step. by apply stopped_tinv. }
  intros s2 Ht2 _. cbn [negb]. do 2 wp_step.
  set (s3 := set_pipe _ _ s2). assert (Ht3 : tinv s3) by exact Ht2. do 4 wp_step. wp_step.
  - apply andb_prop in Hb as [_ Hc]. wp_step. apply wp_sack; [done| |].
    + intros s4 Ht4 Hx _ _ _. cbn [negb]. apply keeps_pipe_finish; [done|]. by rewrite Hx.
    + intros s4 Hs _. cbn [negb]. wp_step. by apply stopped_tinv.
  - wp_step; [by apply keeps_sack_result|by wp_step].
Qed.

Lemma fill_slot_ok slot seq payload :
  len payload <= OD_PIPE_REORDER_PAYLOAD -> slot_ok (fill_slot slot seq payload).
Proof.
  intros Hl. unfold slot_ok, fill_slot. cbn [slot_len slot_data].
  change OD_PIPE_REORDER_PAYLOAD with 241 in Hl. rewrite wrap_id by (unfold fits; lia).
  rewrite length_app. lia.
Qed.

Lemma keeps_data_ahead ctx seq payload s :
  tinv s -> span_ok payload -> keeps (data_ahead ctx seq payload) s.
Proof.
  intros Ht Hok. unfold data_ahead, pipe_mod, buffer_frame. wp_step; [by apply keeps_data_nack, tinv_winv|].
  do 2 wp_step. cbv beta iota zeta. set (s1 := set_pipe _ _ s).
  assert (Hl : len (contents payload) <= OD_PIPE_REORDER_PAYLOAD).
  { apply Z.ltb_ge in Hb. destruct Hok as [Hn Hbuf]. unfold contents. destruct (sp payload); [|by vm_compute].
    rewrite length_take. lia. }
  assert (Ht1 : tinv s1).
  { destruct Ht as (Hp & Ha & Hi & Hr). split; [exact Hp|]. split; [exact Ha|]. split; [exact Hi|].
    unfold s1. tsimpl. apply ring_set_ok; [done|]. by apply fill_slot_ok. }
  do 2 wp_step. wp_step; [by apply keeps_data_nack, tinv_winv|]. do 2 wp_step. by apply keeps_late_ack.
Qed.

Lemma keeps_data_frame ctx seq payload s :
  tinv s -> span_ok payload -> keeps (data_frame ctx seq payload) s.
Proof.
  intros Ht Hok. unfold data_frame. do 2 wp_step. wp_step; [by apply keeps_data_expected|].
  wp_step; [by apply keeps_data_ahead|]. wp_step; [by apply keeps_late_ack|].
  by apply keeps_data_nack, tinv_winv.
Qed.

Lemma span_drop_ok b n : span_ok b -> 0 <= n -> span_ok (od_span_drop b n).
Proof.
  intros [Hn Hb] Hd. unfold od_span_drop. destruct (negb _ || _) eqn:Hv; [by split|].
  apply orb_false_iff in Hv as [_ Hv]. destruct (sp b) as [l|] eqn:Hs; [|done].
  destruct (Z.ltb_spec n (sn b)); split; cbn [od_span_make sp sn ptr_add fmap option_fmap option_map]; rewrite ?length_drop; lia.
Qed.

Lemma keeps_pipe_data ctx body s : tinv s -> span_ok body -> keeps (od_pipe_data ctx body) s.
Proof.
  intros Ht Hok. unfold od_pipe_data. wp_step; [|by wp_step]. unfold pipe_data. do 4 wp_step.
  destruct ctx as [c|]; [|by wp_step]. wp_step; [by wp_step|]. wp_step; [by apply keeps_refuse_origin|].
  wp_step; [by wp_step|]. wp_step; [by wp_step|].
  wp_step; [by apply keeps_data_nack, tinv_winv|]. apply keeps_data_frame; [done|]. by apply span_drop_ok.
Qed.

(** *** PIPE: END *)

Lemma keeps_end_incomplete ctx s : winv s -> keeps (end_incomplete ctx) s.
Proof.
  intros Hw. unfold end_incomplete, pipe_send_end_nack. do 2 wp_step. do 2 wp_step. wp_step.
  apply wp_abort_active; [exact Hw|]. intros s' Hi _. wp_step. by apply idle_tinv.
Qed.

(** A stream that could not be finalized, or was. *)
Lemma wp_finalize s (Q : od_xfer_stream_result -> tstate E -> Prop) :
  tinv s -> (forall s', tinv s' -> Q OD_XFER_STREAM_OK s') ->
  (forall r s', r <> OD_XFER_STREAM_OK -> winv s' -> Q r s') ->
  wp od_xfer_pipe_finalize Q s.
Proof.
  intros Ht HT HF. unfold od_xfer_pipe_finalize. do 2 wp_step.
  wp_step; [wp_step; apply HF; [done|by apply tinv_winv]|].
  wp_step; [by wp_step; apply HT|]. apply negb_false_iff in Hb, Hb0.
  wp_step; [|wp_step; apply HF; [done|by apply tinv_winv]].
  apply wp_stream_push; [done|by apply pipe_owns|done| |].
  - intros s' Ht' _ _. by apply HT.
  - intros r s' Hr Hw _. by apply HF.
Qed.

Lemma keeps_pipe_end ctx body s : tinv s -> keeps (od_pipe_end ctx body) s.
Proof.
  intros Ht. unfold od_pipe_end. wp_step; [|by wp_step]. unfold pipe_end. do 4 wp_step.
  destruct ctx as [c|]; [|by wp_step]. wp_step; [by wp_step|]. wp_step; [by apply keeps_refuse_origin|].
  wp_step; [unfold pipe_send_end_nack; wp_go; exact Ht|]. wp_step; [by wp_step|].
  wp_step; [by apply keeps_end_incomplete, tinv_winv|]. wp_step. apply wp_sack; [done| |].
  2:{ intros s' Hs _. cbn [negb]. wp_step. by apply stopped_tinv. }
  intros s1 Ht1 _ _ _ _. cbn [negb]. do 3 wp_step.
  assert (Hok : forall s2 q, tinv s2 ->
    keeps (let* x := gets t_xfer in
           if q || negb true || negb (od_xfer_pipe_complete x) then end_incomplete (Some c)
           else pipe_finish (Some c) body) s2).
  { intros s2 q Ht2. do 2 wp_step. cbv beta.
    destruct (q || negb true || negb (od_xfer_pipe_complete (t_xfer s2))) eqn:Hc;
      [by apply keeps_end_incomplete, tinv_winv|].
    apply keeps_pipe_finish; [done|]. apply orb_false_iff in Hc as [_ Hc]. by apply negb_false_iff. }
  wp_step; [|wp_step; by apply Hok]. apply wp_finalize; [done|by intros; apply Hok|].
  intros r s' Hr Hw. do 2 wp_step. replace (match r with OD_XFER_STREAM_OK => true | _ => false end) with false
    by (by destruct r). rewrite orb_true_r. cbn [negb orb]. by apply keeps_end_incomplete.
Qed.
End Commands.

End TransferCmds.
