(* ===== verification/TransferSession.v ===== *)
(** A whole session of transfer commands, from power-on: any sequence of
    requests, with the rest of the system running in between. *)

From stdpp Require Import strings.
From S2P Require Import Prelude Hal TxQueue Span Proto Session World Reply Dispatch Color Pump PipeState XferState Xfer XferDirect XferPartial Pipe Transfer TransferCmds.
Import Hal TxQueue Span Proto Session World Reply Dispatch Color Pump PipeState XferState Xfer XferDirect XferPartial Pipe Transfer TransferCmds.

Module TransferSession.

(** The transfer rows of the dispatcher, and the target's reset. *)
Inductive command :=
| C_direct_start | C_data | C_end | C_partial_start | C_pipe_start | C_pipe_data | C_pipe_end | C_reset.

Section Session.
Context {E : Type} `{Radio E} `{Crypto E} `{SessionApp E} `{CommandApp E}
  `{InflaterProgress E} `{XferAppLaws E} `{PipeConfig}.

Definition run_command (c : command) (ctx : option od_cmd_ctx) (body : od_span) : M E unit :=
  match c with
  | C_direct_start => bind (od_xfer_direct_start ctx body) (fun _ => ret tt)
  | C_data => bind (od_xfer_data ctx body) (fun _ => ret tt)
  | C_end => bind (od_xfer_end ctx body) (fun _ => ret tt)
  | C_partial_start => bind (od_xfer_partial_start ctx body) (fun _ => ret tt)
  | C_pipe_start => bind (od_pipe_start ctx body) (fun _ => ret tt)
  | C_pipe_data => bind (od_pipe_data ctx body) (fun _ => ret tt)
  | C_pipe_end => bind (od_pipe_end ctx body) (fun _ => ret tt)
  | C_reset => od_xfer_reset
  end.

(** A request, its reservation, and what happened to the world before it. *)
Record request := {
  q_command : command; q_ctx : option od_cmd_ctx; q_body : od_span;
  q_token : od_tx_reservation; q_before : world E -> world E;
}.

Definition arrive (q : request) (s : tstate E) : tstate E :=
  set_token (q_token q) (set_world (q_before q (t_world s)) s).

Fixpoint run_session (qs : list request) (s : tstate E) : option (tstate E) :=
  match qs with
  | [] => Some s
  | q :: qs =>
      match run_command (q_command q) (q_ctx q) (q_body q) (arrive q s) with
      | Some (_, s) => run_session qs s
      | None => None
      end
  end.

(** The static state at power-on. *)
Definition power_on (w : world E) (t : od_tx_reservation) : tstate E :=
  {| t_world := w; t_token := t; t_xfer := xfer_zero; t_quiet := false; t_sink_failed := false;
     t_pump := pump_init; t_pipe := pipe_zero; t_reorder := reorder_zero; t_trace := [] |}.

Lemma power_on_tinv w t : tinv (power_on w t).
Proof. apply idle_tinv. split; [done|]. split; [done|apply ring_zero_ok]. Qed.

Lemma keeps_command c ctx body (s : tstate E) :
  tinv s -> span_ok body -> wp (run_command c ctx body) (fun _ s' => tinv s') s.
Proof.
  intros Ht Hok. destruct c; cbn [run_command];
    try (lazymatch goal with |- wp (bind _ _) _ _ => idtac end; apply wp_bind; eapply wp_mono; [|intros a s' Ht'; apply wp_ret; exact Ht']).
  - by apply keeps_direct_start.
  - by apply keeps_xfer_data.
  - by apply keeps_xfer_end.
  - by apply keeps_partial_start.
  - by apply keeps_pipe_start.
  - by apply keeps_pipe_data.
  - by apply keeps_pipe_end.
  - by apply keeps_reset.
Qed.

(** C6. Whatever requests arrive, from any client, in any order and with any
    content, every transfer command returns, and the calls made to the panel
    driver follow its contract: an image is begun only on a closed panel,
    written only while open, with non-empty chunks at consecutive offsets that
    never exceed the announced size, not written again after the driver refused
    a chunk, and shown only while open and, except for a raw direct write of
    packed rows, only once every byte of it was accepted; and the panel is left
    open exactly while a live transfer with matching byte counts holds it. *)
Theorem transfer_contract (w : world E) (t : od_tx_reservation) (qs : list request) :
  Forall (fun q => span_ok (q_body q)) qs ->
  exists s, run_session qs (power_on w t) = Some s /\
    panel_of (t_trace s) = Some (panel_view (t_xfer s)) /\
    (od_xfer_owns_hardware (t_xfer s) = true ->
       0 <= written_bytes (t_xfer s) <= expected_bytes (t_xfer s)) /\
    (mode (t_xfer s) = OD_XFER_IDLE -> t_xfer s = xfer_zero).
Proof.
  intros Hqs. assert (Hall : forall s0, tinv s0 -> exists s, run_session qs s0 = Some s /\ tinv s).
  { induction Hqs as [|q qs Hq Hqs IH]; intros s0 Ht; [by exists s0|]. cbn [run_session].
    pose proof (keeps_command (q_command q) (q_ctx q) (q_body q) (arrive q s0) Ht Hq) as Hw. unfold wp in Hw.
    destruct (run_command _ _ _ _) as [[a s1]|]; [|done]. by apply IH. }
  destruct (Hall (power_on w t) (power_on_tinv w t)) as (s & Hs & Hp & Ha & Hi & _).
  exists s. split; [done|]. split; [done|]. split; [|done]. intros Ho. by destruct (Ha Ho).
Qed.
End Session.
Arguments request : clear implicits.

(** ** A small panel for the witnesses: 16 by 8 monochrome, every hook succeeds *)

#[export] Existing Instance Dispatch.toy_command.

Definition toy_geometry : od_color_geometry := (od_color_direct_geometry OD_COLOR_SCHEME_MONO 16 8).2.

#[export] Instance toy_unit_inflater : Inflater unit := {
  od_inflate_app_reset e _ := e;
  od_inflate_app_push e _ _ := (OD_ZLIB_STATUS_NEEDS_INPUT, e);
  od_inflate_app_poll e _ := (OD_ZLIB_STATUS_NEEDS_INPUT, [], e);
  od_inflate_app_error _ := String.EmptyString;
  od_inflate_app_output_count _ := 0;
}.

#[export] Instance toy_unit_progress : InflaterProgress unit.
Proof. intros s s' n out _ [=]. Qed.

#[export] Instance toy_panel : XferApp unit := {
  OD_CAP_PARTIAL := true;
  OD_XFER_DIRECT_AUTO_END := false;
  od_xfer_app_prepare_start e := e;
  od_xfer_app_panel_info e :=
    (Some {| pi_geometry := toy_geometry; pi_width := 16; pi_height := 8; partial_enabled := true |}, e);
  od_xfer_app_begin_full e _ := (true, e);
  od_xfer_app_begin_partial e _ _ _ _ _ := (true, e);
  od_xfer_app_write e _ data := (len data, e);
  od_xfer_app_inflate_scratch _ := (true, 64);
  od_xfer_app_abort e _ := e;
  od_xfer_app_before_refresh w _ := (OD_XFER_BARRIER_PROCEED, w);
  od_xfer_app_barrier_abort e _ := e;
  od_xfer_app_refresh e _ := (true, true, e);
  od_xfer_app_displayed_etag _ := 7;
  od_xfer_app_set_displayed_etag e _ := e;
  od_xfer_app_now_ms e := (1000, e);
}.

#[export] Instance toy_panel_laws : XferAppLaws unit.
Proof.
  split.
  - intros e pi e' [= <- _]. vm_compute. split; congruence.
  - intros e. vm_compute. congruence.
Qed.

#[export] Instance toy_pipe_config : PipeConfig.
Proof. refine {| OD_PIPE_MAX_W := 32; OD_PIPE_MAX_N := 32 |}; unfold PIPE_ACK_MASK_BITS; lia. Defined.

Definition toy_token : od_tx_reservation := {| remaining := 3; gen := 0 |}.
Definition toy_ctx : od_cmd_ctx := {| c_rp := toy_rp; c_r := toy_token; wire_len := 20; was_protected := false |}.

Definition toy_request (c : command) (body : bytes) : request unit :=
  {| q_command := c; q_ctx := Some toy_ctx; q_body := of_bytes body; q_token := toy_token;
     q_before := fun _ => {| w_env := tt; w_txq := {| s_ring := zero_ring; s_head := 0; s_tail := 0;
                                s_reserved := 3; s_gen := 0 |}; w_session := w_session toy_world |} |}.

Definition toy_image : bytes := map Z.of_nat (seq 0 16).

Definition toy_start : tstate unit := power_on toy_world toy_token.

(** What a list of toy requests did to the panel, oldest first. *)
Definition toy_run (qs : list (request unit)) : option (list panel_event * od_xfer_mode) :=
  match run_session qs toy_start with
  | Some s => Some (rev (t_trace s), mode (t_xfer s))
  | None => None
  end.

(** A raw frame in two chunks, shown; then a PIPE frame over its window, out of
    order, whose last chunk completes it. *)
Definition toy_direct : list (request unit) :=
  [toy_request C_direct_start []; toy_request C_data (take 10 toy_image);
   toy_request C_data (drop 10 toy_image); toy_request C_end [0]].

Definition toy_pipe : list (request unit) :=
  [toy_request C_pipe_start [1; 0; 8; 4; 244; 0; 16; 0; 0; 0];
   toy_request C_pipe_data (1 :: drop 10 toy_image); toy_request C_pipe_data (0 :: take 10 toy_image)].

Lemma toy_direct_run :
  toy_run toy_direct =
    Some ([EvBegin 16 false true; EvWrite 0 (take 10 toy_image) 10; EvWrite 10 (drop 10 toy_image) 6;
           EvRefresh 0 true true; EvEtag 0], OD_XFER_IDLE).
Proof. vm_compute. reflexivity. Qed.

Lemma toy_pipe_run :
  toy_run toy_pipe =
    Some ([EvBegin 16 true true; EvInput (take 10 toy_image); EvWrite 0 (take 10 toy_image) 10;
           EvInput (drop 10 toy_image); EvWrite 10 (drop 10 toy_image) 6; EvRefresh 0 true true; EvEtag 0], OD_XFER_IDLE).
Proof. vm_compute. reflexivity. Qed.

(** The exception of the contract is real: an END after no DATA at all shows a
    raw packed image of which nothing was written. *)
Lemma packed_rows_shown_incomplete :
  toy_run [toy_request C_direct_start []; toy_request C_end [0]] =
    Some ([EvBegin 16 false true; EvRefresh 0 true true; EvEtag 0], OD_XFER_IDLE).
Proof. vm_compute. reflexivity. Qed.

Lemma transfer_contract_witness :
  exists s, run_session (toy_direct ++ toy_pipe) toy_start = Some s /\
    panel_of (t_trace s) = Some (panel_view (t_xfer s)) /\ length (t_trace s) = 12%nat.
Proof.
  destruct (transfer_contract toy_world toy_token (toy_direct ++ toy_pipe)) as (s & Hs & Hp & _).
  - repeat constructor; vm_compute; congruence.
  - exists s. split; [exact Hs|]. split; [exact Hp|].
    assert (Hl : option_map (fun s => length (t_trace s)) (run_session (toy_direct ++ toy_pipe) toy_start) = Some 12%nat)
      by (vm_compute; reflexivity).
    unfold toy_start in Hl. rewrite Hs in Hl. injection Hl as Hl. exact Hl.
Defined.

End TransferSession.
