(* ===== verification/PipeWindow.v ===== *)
(** Delivery over the PIPE window: whatever order frames arrive in, the image
    stream takes each of them once and in order; and what an acknowledgement
    says was received, was. *)

From S2P Require Import Prelude Hal TxQueue Span Proto Session World Reply Dispatch Color Pump PipeState XferState Xfer XferDirect Pipe Transfer TransferCmds TransferSession.
Import Hal TxQueue Span Proto Session World Reply Dispatch Color Pump PipeState XferState Xfer XferDirect Pipe Transfer TransferCmds TransferSession.

Module PipeWindow.

Open Scope xfer_scope.

(** ** The receiver and the sender's frames *)

Section Window.
Context `{PipeConfig}.

(** The sender's chunks, by absolute frame number; frame [a] goes out with the
    sequence number [a mod 256]. *)
Variable chunks : Z -> bytes.

(** The first [n] chunks, joined. *)
Fixpoint stream (n : nat) : bytes :=
  match n with O => [] | S n => stream n ++ chunks (Z.of_nat n) end.

Definition stream_to (k : Z) : bytes := stream (Z.to_nat k).

Lemma stream_step k : 0 <= k -> stream_to (k + 1) = stream_to k ++ chunks k.
Proof.
  intros Hk. unfold stream_to. replace (Z.to_nat (k + 1)) with (S (Z.to_nat k)) by lia.
  cbn [stream]. by rewrite Z2Nat.id.
Qed.

(** A slot that buffers frame [a]. *)
Definition slot_is (a : Z) (slot : od_pipe_reorder_slot) : Prop :=
  slot_seq slot = a mod 256 /\ contents (slot_payload slot) = chunks a.

(** Every occupied slot buffers, in its place, one of the frames [lo .. hi-1]. *)
Definition in_ring (lo hi : Z) (ring : list od_pipe_reorder_slot) : Prop :=
  forall i, 0 <= i < len ring -> occupied ring.[i] = true ->
  exists a, lo <= a < hi /\ i = pipe_slot (a mod 256) /\ slot_is a ring.[i].

(** The window at frame [received_count]: everything before it was taken, what
    the ring holds lies strictly ahead and within the window. *)
Definition window_rel (p : od_pipe_state) (ring : list od_pipe_reorder_slot) : Prop :=
  fits 32 (received_count p) /\ expected_seq p = received_count p mod 256 /\
  1 <= window p <= OD_PIPE_MAX_W /\
  in_ring (received_count p + 1) (received_count p + window p) ring.

(** Frame [a] arrives while it can be told apart from the others by its low byte. *)
Definition in_reach (p : od_pipe_state) (a : Z) : Prop :=
  0 <= a /\ received_count p - (256 - window p) <= a < received_count p + 256 /\
  received_count p + PIPE_ACK_MASK_BITS < 2 ^ 32.

Lemma in_ring_mono lo hi lo' hi' ring :
  lo' <= lo -> hi <= hi' -> in_ring lo hi ring -> in_ring lo' hi' ring.
Proof. intros Hl Hh Hr i Hi Ho. destruct (Hr i Hi Ho) as (a & ? & ? & ?). exists a. split; [lia|done]. Qed.

Lemma zero_in_ring lo hi : in_ring lo hi reorder_zero.
Proof.
  intros i Hi Ho. exfalso. unfold get, reorder_zero in Ho. unfold reorder_zero in Hi. rewrite length_replicate in Hi.
  rewrite lookup_total_replicate_2 in Ho by lia. discriminate Ho.
Qed.

(** Changing one slot. *)
Lemma in_ring_set lo hi lo' hi' ring j slot :
  in_ring lo hi ring -> 0 <= j < len ring ->
  (occupied slot = true -> exists a, lo' <= a < hi' /\ j = pipe_slot (a mod 256) /\ slot_is a slot) ->
  (forall i a, i <> j -> lo <= a < hi -> i = pipe_slot (a mod 256) -> lo' <= a < hi') ->
  in_ring lo' hi' ring.[j := slot].
Proof.
  intros Hr Hj Hs Hrest i Hi Ho. rewrite len_set in Hi. destruct (Z.eq_dec i j) as [->|Hne].
  - rewrite get_set_eq in Ho |- * by done. by apply Hs.
  - rewrite get_set_ne in Ho |- * by lia. destruct (Hr i Hi Ho) as (a & Ha & Hia & Hsa).
    exists a. split; [|done]. by eapply Hrest.
Qed.

(** The frame the window expects is in the ring exactly when its slot says so. *)
Lemma holds_expected k hi ring :
  in_ring k hi ring -> hi <= k + 256 -> ring_ok ring -> holds ring (k mod 256) = true ->
  k < hi /\ contents (slot_payload ring.[pipe_slot (k mod 256)]) = chunks k.
Proof.
  intros Hr Hhi Hok Hh. unfold holds in Hh. apply andb_prop in Hh as [Ho Hs]. apply Z.eqb_eq in Hs.
  destruct (Hr _ (slot_range ring (k mod 256) Hok) Ho) as (a & Ha & _ & Hsa & Hc). rewrite Hs in Hsa.
  assert (a = k) as -> by (symmetry; apply (mod_apart 256); [done|done|lia]). split; [lia|done].
Qed.

(** When the expected frame is not in the ring, all that is lies beyond it. *)
Lemma not_holds_ahead k hi ring :
  in_ring k hi ring -> holds ring (k mod 256) = false -> in_ring (k + 1) hi ring.
Proof.
  intros Hr Hh i Hi Ho. destruct (Hr i Hi Ho) as (a & Ha & Hia & Hsa & Hc). exists a.
  split; [|done]. destruct (Z.eq_dec a k) as [->|]; [|lia]. exfalso.
  unfold holds in Hh. rewrite <- Hia, Ho, Hsa, Z.eqb_refl in Hh. done.
Qed.
End Window.

(** ** What an acknowledgement says *)

Section Sack.
Context `{PipeConfig}.
Variable chunks : Z -> bytes.

Lemma sack_mask_testbit p ring n i :
  0 <= i -> Z.testbit (sack_mask p ring n) i =
    (i <? Z.of_nat n) && pipe_chunk_received p ring (u8 (sack_highest p - 1 - i)).
Proof.
  intros Hi. induction n as [|n IH]; [cbn [sack_mask]; rewrite Z.testbit_0_l; destruct (Z.ltb_spec i (Z.of_nat 0)); (done || lia)|].
  cbn [sack_mask].
  assert (Hstep : (i <? Z.of_nat (S n)) = (i <? Z.of_nat n) || (i =? Z.of_nat n)).
  { destruct (Z.ltb_spec i (Z.of_nat (S n))), (Z.ltb_spec i (Z.of_nat n)), (Z.eqb_spec i (Z.of_nat n)); (done || lia). }
  rewrite Hstep.
  assert (Hbit : Z.testbit (Z.shiftl 1 (Z.of_nat n)) i = (i =? Z.of_nat n)).
  { rewrite Z.shiftl_1_l, Z.pow2_bits_eqb by lia. apply Z.eqb_sym. }
  destruct (Z.eqb_spec i (Z.of_nat n)) as [->|Hne].
  - rewrite Z.ltb_irrefl in *. cbn [orb andb] in *. destruct (pipe_chunk_received _ _ _); [|done].
    by rewrite Z.lor_spec, IH, Hbit.
  - rewrite orb_false_r. destruct (pipe_chunk_received _ _ (u8 (_ - 1 - Z.of_nat n))); [|done].
    by rewrite Z.lor_spec, Hbit, orb_false_r.
Qed.

Lemma sack_mask_fits p ring n : fits (Z.of_nat n) (sack_mask p ring n).
Proof.
  induction n as [|n IH]; [unfold fits; cbn; lia|]. cbn [sack_mask].
  assert (Hle : fits (Z.of_nat (S n)) (sack_mask p ring n)).
  { unfold fits in *. split; [lia|]. eapply Z.lt_le_trans; [apply IH|]. apply Z.pow_le_mono_r; lia. }
  destruct (pipe_chunk_received _ _ _); [|done]. apply fits_lor; [lia|done|]. unfold fits.
  rewrite Z.shiftl_1_l. split; [apply Z.pow_nonneg; lia|]. apply Z.pow_lt_mono_r; lia.
Qed.

(** What a mask bit says of the frame it names. *)
Lemma mask_names (p : od_pipe_state) (ring : list od_pipe_reorder_slot) (a i : Z) :
  window_rel chunks p ring -> ring_ok ring -> 0 <= i < 32 -> 0 <= a ->
  received_count p - 224 <= a < received_count p + 32 ->
  a mod 256 = u8 (sack_highest p - 1 - i) ->
  Z.testbit (pipe_mask p ring) i = true <->
     received_count p - 32 <= a < received_count p \/
     (received_count p < a < received_count p + window p /\
      occupied ring.[pipe_slot (a mod 256)] = true /\ slot_is chunks a ring.[pipe_slot (a mod 256)]).
Proof.
  intros (Hf & He & Hw & Hr) Hok Hi Ha0 Ha Hname.
  unfold pipe_mask. rewrite sack_mask_testbit by lia. rewrite <- Hname.
  change (Z.of_nat (Z.to_nat PIPE_ACK_MASK_BITS)) with 32. destruct (Z.ltb_spec i 32); [|lia]. cbn [andb].
  pose proof pipe_window_fits as HW. unfold PIPE_ACK_MASK_BITS in HW.
  unfold pipe_chunk_received, PIPE_ACK_MASK_BITS. set (k := received_count p) in *.
  assert (Hbelow : u8 (expected_seq p - 1 - a mod 256) = if a <? k then k - 1 - a else k - 1 - a + 256).
  { rewrite He. unfold wrap. change (2 ^ 8) with 256.
    replace (k mod 256 - 1 - a mod 256) with (k mod 256 - (1 + a mod 256)) by lia.
    rewrite Zminus_mod, Zplus_mod_idemp_r, Zmod_mod, <- Zminus_mod.
    destruct (Z.ltb_spec a k); Z.to_euclidean_division_equations; lia. }
  rewrite Hbelow. set (acc := if k <? 32 then k else 32).
  assert (Hacc : acc = Z.min k 32) by (unfold acc; destruct (Z.ltb_spec k 32); lia).
  assert (Hholds : holds ring (a mod 256) = true <->
    k < a < k + window p /\ occupied ring.[pipe_slot (a mod 256)] = true /\
    slot_is chunks a ring.[pipe_slot (a mod 256)]).
  { unfold holds. rewrite andb_true_iff, Z.eqb_eq. split.
    - intros [Ho Hs]. destruct (Hr _ (slot_range ring (a mod 256) Hok) Ho) as (b & Hb & _ & Hsb & Hcb).
      assert (a = b) as <- by (apply (mod_apart 256); [done|congruence|lia]). split; [lia|]. split; [done|]. by split.
    - intros (_ & Ho & Hs & _). by split. }
  destruct (Z.ltb_spec a k).
  - destruct (Z.ltb_spec (k - 1 - a) acc).
    + split; [intros _; left; lia|done].
    + rewrite Hholds. split; [tauto|]. intros [?|?]; [lia|done].
  - destruct (Z.ltb_spec (k - 1 - a + 256) acc); [lia|]. rewrite Hholds. split; [tauto|]. intros [?|?]; [lia|done].
Qed.


(** The mask's last bit: with nothing out of order, the frame 32 before the
    highest is reported missing although it was taken. *)
Lemma sack_last_bit_missing p ring :
  window_rel chunks p ring -> ring_ok ring -> 33 <= received_count p < 2 ^ 32 ->
  has_received p = true -> highest_seen p = u8 (expected_seq p - 1) ->
  Z.testbit (pipe_mask p ring) 31 = false.
Proof.
  intros Hrel Hok Hk Hh Hhi. set (a := received_count p - 33).
  assert (Hname : a mod 256 = u8 (sack_highest p - 1 - 31)).
  { unfold sack_highest. rewrite Hh, Hhi. destruct Hrel as (_ & -> & _). unfold wrap, a. change (2 ^ 8) with 256.
    Z.to_euclidean_division_equations. lia. }
  pose proof (mask_names p ring a 31 Hrel Hok ltac:(lia) ltac:(lia) ltac:(lia) Hname) as Hiff.
  destruct (Z.testbit _ 31); [|done]. destruct (proj1 Hiff eq_refl) as [?|(? & _)]; lia.
Qed.
End Sack.

(** ** What the commands do to it *)

Section Delivery.
Context {E : Type} `{Radio E} `{Crypto E} `{SessionApp E} `{CommandApp E}
  `{InflaterProgress E} `{XferAppLaws E} `{PipeConfig}.
Variable chunks : Z -> bytes.
Hypothesis chunks_fit : forall a, len (chunks a) <= OD_PIPE_REORDER_PAYLOAD.
Implicit Types (s : tstate E) (ctx : option od_cmd_ctx).

(** While the transfer lives, it has taken exactly the chunks before the
    expected one; after it ended, some number of them. *)
Definition delivered s : Prop :=
  if is_pipe (mode (t_xfer s)) then
    window_rel chunks (t_pipe s) (t_reorder s) /\
    inputs (t_trace s) = stream_to chunks (received_count (t_pipe s))
  else exists k, 0 <= k /\ inputs (t_trace s) = stream_to chunks k.

Definition J s : Prop := tinv s /\ delivered s.

Lemma delivered_some s : delivered s -> exists k, 0 <= k /\ inputs (t_trace s) = stream_to chunks k.
Proof.
  unfold delivered. destruct (is_pipe _); [|done]. intros [(Hf & _) Hi]. eexists; split; [|exact Hi].
  unfold fits in Hf. lia.
Qed.

Lemma stopped_J s k : stopped s -> 0 <= k -> inputs (t_trace s) = stream_to chunks k -> J s.
Proof.
  intros Hs Hk Hi. split; [by apply stopped_tinv|]. destruct Hs as (_ & Ho & _). unfold delivered.
  destruct (is_pipe (mode (t_xfer s))) eqn:Hp; [|by exists k]. apply pipe_owns in Hp. congruence.
Qed.

Lemma over_J s s' k : over s s' -> 0 <= k -> inputs (t_trace s) = stream_to chunks k -> J s'.
Proof. intros [Hs Hin] Hk Hi. apply (stopped_J s' k); [done|done|]. by rewrite Hin. Qed.

(** Same stream, same window up to the acknowledgement counters. *)
Lemma J_pipe s p :
  J s -> received_count p = received_count (t_pipe s) -> expected_seq p = expected_seq (t_pipe s) ->
  window p = window (t_pipe s) -> J (set_pipe p (t_reorder s) s).
Proof.
  intros [Ht Hd] Hr He Hw. split; [exact Ht|]. revert Hd. unfold delivered, window_rel. tsimpl.
  rewrite Hr, He, Hw. done.
Qed.

Lemma J_io s s' :
  J s -> tinv s' -> t_xfer s' = t_xfer s -> t_reorder s' = t_reorder s ->
  received_count (t_pipe s') = received_count (t_pipe s) ->
  expected_seq (t_pipe s') = expected_seq (t_pipe s) -> window (t_pipe s') = window (t_pipe s) ->
  inputs (t_trace s') = inputs (t_trace s) -> J s'.
Proof.
  intros [Ht Hd] Ht' Hx Hr Hc He Hw Hi. split; [done|]. revert Hd. unfold delivered, window_rel.
  by rewrite Hx, Hr, Hc, He, Hw, Hi.
Qed.

Lemma J_sack_result ctx s :
  J s -> wp (let* ok := pipe_sack_or_fatal ctx in ret (if negb ok then OD_CMD_NACK else OD_CMD_OK)) (fun _ s' => J s') s.
Proof.
  intros HJ. wp_step. destruct (delivered_some s) as (k & Hk & Hin); [apply HJ|]. apply wp_sack; [apply HJ| |].
  - intros s' Ht' Hx Hr Hp Hi. wp_step. apply (J_io s s'); try done; by rewrite Hp.
  - intros s' Hs Hi. wp_step. apply (stopped_J s' k); [done|done|congruence].
Qed.

Lemma J_data_nack ctx err s (rc : od_cmd_result) :
  J s -> wp (pipe_send_data_nack ctx err;; ret rc) (fun _ s' => J s') s.
Proof.
  intros [Ht Hd]. destruct (delivered_some s Hd) as (k & Hk & Hin). wp_step.
  apply wp_data_nack; [by apply tinv_winv|]. intros s' Hs Hi. wp_step. apply (stopped_J s' k); [done|done|congruence].
Qed.

Lemma J_late_ack ctx b s : J s -> wp (late_ack ctx b) (fun _ s' => J s') s.
Proof.
  intros HJ. unfold late_ack, pipe_mod. do 2 wp_step. wp_step.
  - wp_step. wp_step; wp_step; apply J_sack_result; [by apply J_pipe|done].
  - do 2 wp_step. wp_step; [apply J_sack_result|wp_step]; by apply J_pipe.
Qed.

(** *** Emptying the ring *)

(** In the middle of the drain, [top] being the end of the window before it. *)
Definition draining (top : Z) s : Prop :=
  let p := t_pipe s in
  tinv s /\ is_pipe (mode (t_xfer s)) = true /\ fits 32 top /\
  0 <= received_count p <= top /\ top <= received_count p + PIPE_ACK_MASK_BITS /\
  expected_seq p = received_count p mod 256 /\
  in_ring chunks (received_count p) top (t_reorder s) /\
  inputs (t_trace s) = stream_to chunks (received_count p).

Lemma took_some_stream payload s s' k :
  0 <= k -> took_some payload s s' -> inputs (t_trace s) = stream_to chunks k ->
  contents payload = chunks k -> exists k', 0 <= k' /\ inputs (t_trace s') = stream_to chunks k'.
Proof.
  intros Hk [[] ->] -> Hc; [exists (k + 1)|exists k]; (split; [lia|]).
  - by rewrite Hc, stream_step by lia.
  - by rewrite app_nil_r.
Qed.

Lemma drain_one_in_ring top s :
  draining top s -> holds (t_reorder s) (expected_seq (t_pipe s)) = true ->
  let i := pipe_slot (expected_seq (t_pipe s)) in
  in_ring chunks (received_count (t_pipe s) + 1) top (t_reorder s).[i := release_slot (t_reorder s).[i]].
Proof.
  intros ((_ & _ & _ & Hok) & _ & _ & Hk & Htop & He & Hr & _) Hh. cbv zeta.
  unfold PIPE_ACK_MASK_BITS in Htop. eapply in_ring_set; [exact Hr|by apply slot_range|done|].
  intros i a Hne Ha ->. split; [|lia]. destruct (Z.eq_dec a (received_count (t_pipe s))) as [->|]; [|lia].
  by rewrite He in Hne.
Qed.

Lemma J_drain fuel top ctx s (Q : bool -> tstate E -> Prop) :
  draining top s -> (busy (t_reorder s) < fuel)%nat ->
  (forall s', J s' -> (is_pipe (mode (t_xfer s')) = true -> window (t_pipe s') = window (t_pipe s)) -> Q false s') ->
  (forall s', draining top s' -> in_ring chunks (received_count (t_pipe s') + 1) top (t_reorder s') ->
     window (t_pipe s') = window (t_pipe s) -> received_count (t_pipe s) <= received_count (t_pipe s') -> Q true s') ->
  wp (pipe_drain fuel ctx) Q s.
Proof.
  revert s. induction fuel as [|fuel IH]; intros s Hd Hf HF HT; [lia|].
  cbn [pipe_drain]. do 4 wp_step. pose proof Hd as (Ht & Hp & Hft & Hk & Htop & He & Hr & Hin).
  pose proof Ht as (_ & _ & _ & Hok). wp_step.
  2:{ wp_step. apply HT; [done| |done|done]. apply not_holds_ahead; [done|]. by rewrite <- He. }
  assert (Htop' : top <= received_count (t_pipe s) + 256) by (unfold PIPE_ACK_MASK_BITS in Htop; lia).
  destruct (holds_expected chunks _ top (t_reorder s) Hr Htop' Hok ltac:(by rewrite <- He)) as [Hlt Hc].
  rewrite <- He in Hc. wp_step. apply wp_consume_or_fatal; [done|by apply slot_payload_ok, ring_get_ok| |].
  - intros s' Ht' (Hp' & Hr' & Hm') Hi'. do 2 wp_step. rewrite Hc, Hin in Hi'.
    assert (Hb' : occupied (t_reorder s).[pipe_slot (expected_seq (t_pipe s))] = true)
      by (unfold holds in Hb; by apply andb_prop in Hb as [? _]).
    pose proof (drain_one_in_ring top s Hd Hb) as Hring. cbv zeta in Hring.
    set (i := pipe_slot _) in *. unfold fits in Hft.
    assert (Hcnt : received_count (t_pipe (drain_one s')) = received_count (t_pipe s) + 1).
    { unfold drain_one. tsimpl. cbn [step_expected received_count]. rewrite Hp'. apply wrap_id.
      unfold fits. change (2 ^ 32) with 4294967296 in *. lia. }
    assert (Hre : t_reorder (drain_one s') = (t_reorder s).[i := release_slot (t_reorder s).[i]])
      by (unfold drain_one; tsimpl; by rewrite Hp', Hr').
    assert (Hd1 : draining top (drain_one s')).
    { unfold draining. rewrite Hcnt, Hre. split.
      { destruct Ht' as (Hpn & Ha & Hi & Hro). split; [exact Hpn|]. split; [exact Ha|]. split; [exact Hi|].
        rewrite Hre. apply ring_set_ok; [done|]. by apply (ring_get_ok (t_reorder s)). }
      split; [change (is_pipe (mode (t_xfer s')) = true); by rewrite Hm'|]. split; [done|]. split; [lia|]. split; [lia|].
      split; [|split; [exact Hring|]].
      - unfold drain_one. tsimpl. cbn [step_expected expected_seq]. rewrite Hp', He.
        unfold wrap. change (2 ^ 8) with 256. by rewrite Zplus_mod_idemp_l.
      - change (inputs (t_trace s') = stream_to chunks (received_count (t_pipe s) + 1)). by rewrite Hi', stream_step by lia. }
    apply IH; [done| | |].
    + rewrite Hre. rewrite (busy_release (t_reorder s) i (slot_range _ _ Hok) Hb') in Hf. lia.
    + intros s2 HJ Hw. apply HF; [done|]. intros Hm2. rewrite (Hw Hm2). unfold drain_one. tsimpl. by rewrite Hp'.
    + intros s2 Hd2 Hr2 Hw2 Hge. apply HT; [done|done| |lia]. rewrite Hw2. unfold drain_one. tsimpl. by rewrite Hp'.
  - intros s' Hs Htook. wp_step.
    destruct (took_some_stream _ s s' _ (proj1 Hk) Htook Hin Hc) as (k' & Hk' & Hi').
    assert (HJ : J s') by by apply (stopped_J s' k'). apply HF; [done|]. intros Hm2.
    destruct Hs as (_ & Ho & _). apply pipe_owns in Hm2. congruence.
Qed.
(** *** The three cases of a frame *)

Lemma update_highest_same p seq :
  received_count (pipe_update_highest p seq) = received_count p /\
  expected_seq (pipe_update_highest p seq) = expected_seq p /\
  window (pipe_update_highest p seq) = window p /\ queued_count (pipe_update_highest p seq) = queued_count p.
Proof.
  unfold pipe_update_highest. destruct (negb (has_received p)); [done|]. cbv zeta.
  by destruct (negb (u8 (seq - highest_seen p) =? 0) && _).
Qed.

Lemma draining_J top k s :
  draining top s -> in_ring chunks (received_count (t_pipe s) + 1) top (t_reorder s) ->
  k + 1 <= received_count (t_pipe s) -> top <= Z.max (k + 1) (k + window (t_pipe s)) ->
  1 <= window (t_pipe s) <= OD_PIPE_MAX_W -> J s.
Proof.
  intros (Ht & Hp & Hft & Hk & Htop & He & _ & Hin) Hr Hge Hmax Hw. split; [done|]. unfold delivered. rewrite Hp.
  split; [|done]. split; [unfold fits in *; lia|]. split; [done|]. split; [done|].
  intros i Hi Ho. destruct (Hr i Hi Ho) as (a & Ha & ?). exists a. split; [lia|done].
Qed.

Lemma J_acknowledge ctx s :
  J s ->
  wp (let* p := gets t_pipe in
      let* x := gets t_xfer in
      if negb (pipe_partial p) && negb (compressed x) && od_xfer_pipe_complete x then
        let* ok := pipe_sack_or_fatal ctx in
        if negb ok then ret OD_CMD_NACK else pipe_finish ctx od_span_none
      else if ack_every p <=? frames_since_ack p then
        let* ok := pipe_sack_or_fatal ctx in
        ret (if negb ok then OD_CMD_NACK else OD_CMD_OK)
      else ret OD_CMD_OK) (fun _ s' => J s') s.
Proof.
  intros HJ. destruct (delivered_some s) as (k & Hk & Hin); [apply HJ|]. do 4 wp_step. wp_step.
  - apply andb_prop in Hb as [_ Hc]. wp_step. apply wp_sack; [apply HJ| |].
    + intros s4 Ht4 Hx _ _ Hi. cbn [negb]. eapply wp_mono; [apply wp_pipe_finish; [done|by rewrite Hx]|].
      intros ? s5 Ho. apply (over_J s4 s5 k); [done|done|congruence].
    + intros s4 Hs Hi. cbn [negb]. wp_step. apply (stopped_J s4 k); [done|done|congruence].
  - wp_step; [by apply J_sack_result|by wp_step].
Qed.

Lemma J_data_expected ctx seq payload s :
  J s -> is_pipe (mode (t_xfer s)) = true -> span_ok payload ->
  contents payload = chunks (received_count (t_pipe s)) ->
  received_count (t_pipe s) + PIPE_ACK_MASK_BITS < 2 ^ 32 ->
  wp (data_expected ctx seq payload) (fun _ s' => J s') s.
Proof.
  intros [Ht Hd] Hp Hok Hc Hbound. unfold delivered in Hd. rewrite Hp in Hd. destruct Hd as [(Hf & He & Hw & Hr) Hin].
  set (k := received_count (t_pipe s)) in *. assert (Hk : 0 <= k) by (unfold fits in Hf; lia).
  pose proof pipe_window_fits as HW. unfold data_expected, pipe_mod. wp_step. apply wp_consume_or_fatal; [done|done| |].
  2:{ intros s' Hs Htook. cbn [negb]. wp_step. destruct (took_some_stream _ s s' k Hk Htook Hin Hc) as (k' & ? & ?).
      by apply (stopped_J s' k'). }
  intros s1 Ht1 (Hp1 & Hr1 & Hm1) Hi1. cbn [negb]. do 3 wp_step.
  set (p2 := pipe_update_highest _ seq). set (s2 := set_pipe p2 (t_reorder s1) s1).
  destruct (update_highest_same (step_expected (t_pipe s1) (u8 (frames_since_ack (t_pipe s1) + 1))
              (queued_count (t_pipe s1))) seq) as (Hc2 & He2 & Hw2 & _). fold p2 in Hc2, He2, Hw2.
  cbn [step_expected received_count expected_seq window] in Hc2, He2, Hw2. rewrite Hp1 in Hc2, He2, Hw2.
  fold k in Hc2. unfold PIPE_ACK_MASK_BITS in *.
  rewrite (wrap_id 32) in Hc2 by (unfold fits; change (2 ^ 32) with 4294967296 in *; lia).
  set (top := Z.max (k + 1) (k + window (t_pipe s))).
  assert (Hd2 : draining top s2).
  { unfold draining, s2. split; [exact Ht1|]. tsimpl. rewrite Hc2, Hr1. split; [by rewrite Hm1|].
    change (2 ^ 32) with 4294967296 in *. unfold PIPE_ACK_MASK_BITS, fits. split; [lia|]. split; [lia|].
    split; [lia|]. split; [|split; [eapply in_ring_mono; [| |exact Hr]; lia|by rewrite Hi1, Hin, Hc, stream_step by lia]].
    rewrite He2, He. unfold wrap. change (2 ^ 8) with 256. by rewrite Zplus_mod_idemp_l. }
  apply (J_drain _ top); [done|apply (drain_fuel_enough s2), Hd2| |].
  { intros s3 HJ _. cbn [negb]. by wp_step. }
  intros s3 Hd3 Hr3 Hw3 Hge. cbn [negb]. do 2 wp_step. apply J_acknowledge.
  assert (HJ3 : J s3).
  { assert (Hws : window (t_pipe s3) = window (t_pipe s)) by (rewrite Hw3; exact Hw2).
    change (received_count (t_pipe s2)) with (received_count p2) in Hge. rewrite Hc2 in Hge.
    apply (draining_J top k); [done|done|done| |]; rewrite Hws; [unfold top; lia|done]. }
  destruct (queued_count (t_pipe s3) =? 0); by apply J_pipe.
Qed.
(** Buffering keeps the ring's frames in place; what a new frame displaces is
    dropped. *)
Lemma buffered_in_ring p ring a payload :
  window_rel chunks p ring -> ring_ok ring -> payload = chunks a ->
  received_count p < a < received_count p + window p ->
  let '(p', ring') := buffer_frame p ring (a mod 256) payload in
  window_rel chunks p' ring' /\ received_count p' = received_count p /\ ring_ok ring'.
Proof.
  intros (Hf & He & Hw & Hr) Hok -> Ha. unfold buffer_frame.
  set (i := pipe_slot (a mod 256)). set (slot := fill_slot _ _ _).
  assert (Hslot : slot_ok slot) by by apply fill_slot_ok.
  assert (Hring : in_ring chunks (received_count p + 1) (received_count p + window p) ring.[i := slot]).
  { eapply in_ring_set; [exact Hr|by apply slot_range| |].
    - intros _. exists a. split; [lia|]. split; [done|]. split; [done|].
      unfold slot_payload, contents, slot, fill_slot. cbn [slot_data slot_len sp sn od_span_make].
      pose proof (chunks_fit a) as Hlen. change OD_PIPE_REORDER_PAYLOAD with 241 in Hlen.
      rewrite wrap_id by (unfold fits; lia). rewrite Nat2Z.id. apply take_app_length.
    - intros j b _ Hb _. exact Hb. }
  split; [|split; [by destruct (holds _ _)|by apply ring_set_ok]].
  by destruct (holds ring (a mod 256)).
Qed.

Lemma J_data_ahead ctx a payload s :
  J s -> is_pipe (mode (t_xfer s)) = true -> span_ok payload -> contents payload = chunks a ->
  received_count (t_pipe s) < a < received_count (t_pipe s) + window (t_pipe s) ->
  wp (data_ahead ctx (a mod 256) payload) (fun _ s' => J s') s.
Proof.
  intros HJ Hp Hok Hc Ha. unfold data_ahead, pipe_mod. wp_step; [by apply J_data_nack|].
  destruct HJ as [Ht Hd]. unfold delivered in Hd. rewrite Hp in Hd. destruct Hd as [Hw Hin].
  pose proof Ht as (Hpn & Hacc & Hidle & Hring).
  pose proof (buffered_in_ring _ _ a (contents payload) Hw Hring Hc Ha) as Hb1.
  do 2 wp_step. destruct (buffer_frame _ _ _ _) as [p1 ring1]. destruct Hb1 as (Hw1 & Hc1 & Hok1).
  set (s1 := set_pipe p1 ring1 s).
  assert (HJ1 : J s1).
  { split; [split; [exact Hpn|]; split; [exact Hacc|]; split; [exact Hidle|exact Hok1]|].
    unfold delivered, s1. tsimpl. rewrite Hp, Hc1. done. }
  do 2 wp_step. wp_step; [by apply J_data_nack|]. do 2 wp_step. apply J_late_ack.
  destruct (update_highest_same (t_pipe s1) (a mod 256)) as (? & ? & ? & _). by apply J_pipe.
Qed.

(** Telling the cases apart by the low byte. *)
Lemma J_data_frame ctx a payload s :
  J s -> is_pipe (mode (t_xfer s)) = true -> span_ok payload -> contents payload = chunks a ->
  in_reach (t_pipe s) a -> wp (data_frame ctx (a mod 256) payload) (fun _ s' => J s') s.
Proof.
  intros HJ Hp Hok Hc (Ha0 & Ha & Hb). pose proof HJ as [_ Hd]. unfold delivered in Hd. rewrite Hp in Hd.
  destruct Hd as [(Hf & He & Hw & _) _]. unfold data_frame. do 2 wp_step.
  pose proof pipe_window_fits as HW. unfold PIPE_ACK_MASK_BITS in *.
  set (k := received_count (t_pipe s)) in *. set (w := window (t_pipe s)) in *.
  assert (Hfwd : u8 (a mod 256 - expected_seq (t_pipe s)) = (a - k) mod 256).
  { rewrite He. unfold wrap. change (2 ^ 8) with 256. by rewrite <- Zminus_mod. }
  rewrite Hfwd. assert (Hcases : (a - k) mod 256 = if a <? k then a - k + 256 else a - k).
  { destruct (Z.ltb_spec a k); Z.to_euclidean_division_equations; lia. }
  wp_step.
  - apply Z.eqb_eq in Hb0. assert (a = k) as -> by (destruct (Z.ltb_spec a k); lia).
    apply J_data_expected; done.
  - apply Z.eqb_neq in Hb0. wp_step.
    + apply Z.ltb_lt in Hb1. apply J_data_ahead; [done|done|done|done|]. fold k w.
      destruct (Z.ltb_spec a k); lia.
    + wp_step; [by apply J_late_ack|by apply J_data_nack].
Qed.

(** Frame [a] on the wire. *)
Definition frame_body (a : Z) : od_span := of_bytes (a mod 256 :: chunks a).

Lemma J_pipe_data ctx a s :
  J s -> (is_pipe (mode (t_xfer s)) = true -> in_reach (t_pipe s) a) ->
  wp (od_pipe_data ctx (frame_body a)) (fun _ s' => J s') s.
Proof.
  intros HJ Hreach. unfold od_pipe_data. wp_step; [|by wp_step]. unfold pipe_data. do 4 wp_step.
  destruct ctx as [c|]; [|by wp_step]. wp_step; [by wp_step|].
  wp_step; [unfold pipe_refuse_origin; wp_go; exact HJ|]. wp_step; [by wp_step|]. wp_step; [by wp_step|].
  apply orb_false_iff in Hb2 as [_ Hp]. apply negb_false_iff in Hp.
  wp_step; [by apply J_data_nack|].
  change (at_ (frame_body a) 0) with (a mod 256).
  apply J_data_frame; [done|done|apply span_drop_ok; [apply of_bytes_ok|lia]| |by apply Hreach].
  unfold frame_body, of_bytes, od_span_drop, contents.
  cbn [od_span_make sp sn od_span_valid is_null negb orb length].
  destruct (Z.ltb_spec 1 (Z.of_nat (S (length (chunks a))))) as [Hlt|Hge].
  - cbn [od_span_make sp sn ptr_add fmap option_fmap option_map].
    change (drop (Z.to_nat 1) (a mod 256 :: chunks a)) with (chunks a).
    replace (Z.to_nat _) with (length (chunks a)) by lia. apply firstn_all.
  - destruct (chunks a); [done|]. cbn [length] in Hge. lia.
Qed.
(** *** After a START *)

Lemma clamp_range v limit : 0 <= v -> 1 <= limit -> 1 <= clamp_request v limit <= limit.
Proof. intros Hv Hl. unfold clamp_request. destruct (Z.ltb_spec limit v), (Z.eqb_spec limit 0), (Z.eqb_spec v 0); lia. Qed.

Lemma fresh_window p w n frame b :
  1 <= w <= OD_PIPE_MAX_W -> p = pipe_zero -> window_rel chunks (negotiated p b w n frame) reorder_zero.
Proof.
  intros Hw ->. split; [unfold fits; cbn; lia|]. split; [done|]. split; [done|]. apply zero_in_ring.
Qed.

(** Opening the panel for an armed transfer: the stream is empty. *)
Lemma J_activate s limit :
  armed_for s limit -> (mode (t_xfer s) = OD_XFER_PIPE_PARTIAL -> OD_CAP_PARTIAL = true) ->
  window_rel chunks (t_pipe s) (t_reorder s) -> received_count (t_pipe s) = 0 ->
  wp (let* _ := od_xfer_pipe_activate in ret OD_CMD_OK) (fun _ s' => J s') s.
Proof.
  intros Ha Hcap Hw Hrc. pose proof (keeps_activate s limit OD_CMD_OK Ha) as Ht.
  eapply wp_mono; [apply (wp_and _ (fun _ s' => tinv s') (fun _ s' => delivered s')); [exact Ht|]|intros ? ? [? ?]; by split].
  clear Ht. pose proof Ha as (Hp & Hm & _ & _ & _ & _ & _ & Hr). wp_step. unfold od_xfer_pipe_activate. do 3 wp_step.
  assert (Hdone : forall (ok : bool) s1, t_xfer s1 = t_xfer s -> t_pipe s1 = t_pipe s -> t_reorder s1 = t_reorder s ->
    inputs (t_trace s1) = [] -> (ok = false -> panel_of (t_trace s1) = Some P_closed) ->
    wp ((if negb ok then od_xfer_pipe_enter_fatal else ret tt);; ret ok)
       (fun _ s' => wp (ret OD_CMD_OK) (fun _ s' => delivered s') s') s1).
  { intros ok s1 Hx Hpp Hre Hin Hp1. wp_step. destruct ok; cbn [negb].
    - do 3 wp_step. unfold delivered. rewrite Hx, Hm, Hpp, Hre, Hrc. done.
    - apply wp_enter_fatal; [apply winv_closed; [by apply Hp1|rewrite Hx; by apply pipe_owns|by rewrite Hre]|].
      intros s2 Hs _ _ Hin2. do 2 wp_step. apply (stopped_J s2 0); [done|lia|]. by rewrite Hin2. }
  assert (Hclosed : forall (lim : Z) (ok : bool) (e : E), ok = false ->
    panel_of (t_trace (push_event (EvBegin lim (must_complete (t_xfer s)) ok) (put_env e s))) = Some P_closed)
    by (intros lim ok e ->; tsimpl; by rewrite Hp).
  destruct (mode (t_xfer s)) eqn:Hmode; try discriminate Hm.
  - apply wp_begin_full. intros ok e. apply Hdone; try done. by apply Hclosed.
  - rewrite (Hcap eq_refl). apply wp_begin_partial. intros ok e. apply Hdone; try done. by apply Hclosed.
Qed.

(** A START that is accepted opens an empty stream. *)
Lemma J_pipe_start ctx body s :
  tinv s -> (od_xfer_active (t_xfer s) = false -> t_pipe s = pipe_zero /\ t_reorder s = reorder_zero) ->
  0 <= at_ body 2 ->
  wp (od_pipe_start ctx body) (fun rc s' => rc = OD_CMD_OK -> J s') s.
Proof.
  intros Ht Hfresh Hb. apply wp_pipe_start; [done|by intros; discriminate|].
  intros c b s1 s2 limit Hsame Hzero Ha Hp Hr Hcap.
  assert (Hz : t_pipe s2 = pipe_zero /\ t_reorder s2 = reorder_zero).
  { rewrite Hp, Hr. destruct (od_xfer_active (t_xfer s)); [by apply Hzero|].
    destruct (Hsame eq_refl) as [-> ->]. by apply Hfresh. }
  destruct Hz as [Hz1 Hz2]. unfold pipe_negotiate, pipe_mod. cbv zeta. do 4 wp_step.
  set (s3 := set_pipe _ _ s2). wp_step.
  - wp_step. apply wp_abort_active; [by apply (armed_winv s2 limit)|]. intros s4 _ _. wp_step. discriminate.
  - eapply wp_mono; [apply (J_activate _ limit)|by intros ? ? ? _].
    + exact Ha.
    + exact Hcap.
    + change (window_rel chunks (t_pipe s3) (t_reorder s3)). unfold s3. tsimpl. rewrite Hz2. apply fresh_window; [|done].
      apply clamp_range; [done|]. apply pipe_window_fits.
    + change (received_count (t_pipe s2) = 0). by rewrite Hz1.
Qed.

(** ** Frames in any order *)

(** A frame's arrival: the world may have moved since the last. *)
Record arrival := { ar_frame : Z; ar_ctx : option od_cmd_ctx; ar_token : od_tx_reservation; ar_before : world E -> world E }.

Definition arrived (f : arrival) s : tstate E := set_token (ar_token f) (set_world (ar_before f (t_world s)) s).

Fixpoint run_frames (fs : list arrival) s : option (tstate E) :=
  match fs with
  | [] => Some s
  | f :: fs =>
      match od_pipe_data (ar_ctx f) (frame_body (ar_frame f)) (arrived f s) with
      | Some (_, s) => run_frames fs s
      | None => None
      end
  end.

(** Each frame arrives in reach of the window of that moment. *)
Fixpoint all_in_reach (fs : list arrival) s : Prop :=
  match fs with
  | [] => True
  | f :: fs =>
      (is_pipe (mode (t_xfer s)) = true -> in_reach (t_pipe s) (ar_frame f)) /\
      match od_pipe_data (ar_ctx f) (frame_body (ar_frame f)) (arrived f s) with
      | Some (_, s) => all_in_reach fs s
      | None => True
      end
  end.

Lemma J_frames fs s : J s -> all_in_reach fs s -> exists s', run_frames fs s = Some s' /\ J s'.
Proof.
  revert s. induction fs as [|f fs IH]; intros s HJ Hall; [by exists s|]. cbn [run_frames all_in_reach] in *.
  destruct Hall as [Hr Hall].
  pose proof (J_pipe_data (ar_ctx f) (ar_frame f) (arrived f s) HJ Hr) as Hw. unfold wp in Hw.
  destruct (od_pipe_data _ _ _) as [[rc s1]|]; [|done]. by apply IH.
Qed.

(** C8. PIPE delivers in order, exactly once: from an accepted START, whatever
    frames arrive (lost, repeated, reordered, with the rest of the system
    running in between), as long as each comes within reach of the window when
    it arrives (so that its low byte tells it apart), every DATA command
    returns, and the bytes the image stream has taken are exactly the sender's
    first [k] chunks in order, for some [k]: nothing skipped, repeated or
    altered.  While the transfer lives [k] is the receiver's own count. *)
Theorem pipe_delivers_in_order (ctx : option od_cmd_ctx) (body : od_span) (fs : list arrival) (s s1 : tstate E) :
  tinv s -> (od_xfer_active (t_xfer s) = false -> t_pipe s = pipe_zero /\ t_reorder s = reorder_zero) ->
  0 <= at_ body 2 -> od_pipe_start ctx body s = Some (OD_CMD_OK, s1) -> all_in_reach fs s1 ->
  exists s2 k, run_frames fs s1 = Some s2 /\ 0 <= k /\ inputs (t_trace s2) = stream_to chunks k /\
    (is_pipe (mode (t_xfer s2)) = true -> received_count (t_pipe s2) = k).
Proof.
  intros Ht Hfresh Hb Hstart Hall. pose proof (wp_elim _ _ _ _ _ (J_pipe_start ctx body s Ht Hfresh Hb) Hstart eq_refl) as HJ.
  destruct (J_frames fs s1 HJ Hall) as (s2 & Hrun & Ht2 & Hd). unfold delivered in Hd.
  destruct (is_pipe _) eqn:Hp.
  - destruct Hd as [(Hf & _) Hi]. exists s2, (received_count (t_pipe s2)). unfold fits in Hf. repeat split; (done || lia).
  - destruct Hd as (k & Hk & Hi). exists s2, k. split; [done|]. split; [done|]. split; [done|]. congruence.
Qed.
End Delivery.

(** A sender of three five-byte chunks and a last one of a byte: frame 1 first,
    then 0, 0 again, 3 and 2. *)
Definition demo_chunks (a : Z) : bytes :=
  if a =? 3 then [99] else if a <? 3 then map (fun i => 10 * a + i) [0; 1; 2; 3; 4] else [].

Lemma demo_chunks_fit a : len (demo_chunks a) <= OD_PIPE_REORDER_PAYLOAD.
Proof. unfold demo_chunks. destruct (a =? 3), (a <? 3); cbn; vm_compute; congruence. Qed.

Definition demo_arrival (a : Z) : arrival (E := unit) :=
  {| ar_frame := a; ar_ctx := Some toy_ctx; ar_token := toy_token;
     ar_before := q_before (toy_request C_pipe_data []) |}.

Definition demo_frames : list (arrival (E := unit)) := map demo_arrival [1; 0; 0; 3; 2].

Lemma pipe_delivers_in_order_witness :
  match od_pipe_start (Some toy_ctx) (of_bytes [1; 0; 8; 4; 244; 0; 16; 0; 0; 0]) toy_start with
  | Some (OD_CMD_OK, s1) =>
      exists s2, run_frames demo_chunks demo_frames s1 = Some s2 /\
        inputs (t_trace s2) = [0; 1; 2; 3; 4; 10; 11; 12; 13; 14; 20; 21; 22; 23; 24; 99]
  | _ => False
  end.
Proof.
  destruct (od_pipe_start _ _ toy_start) as [[rc s1]|] eqn:Es; [|vm_compute in Es; discriminate].
  assert (Hrc : rc = OD_CMD_OK).
  { apply (f_equal (option_map fst)) in Es. vm_compute in Es. injection Es as <-. reflexivity. }
  rewrite Hrc in *.
  destruct (pipe_delivers_in_order demo_chunks demo_chunks_fit (Some toy_ctx)
    (of_bytes [1; 0; 8; 4; 244; 0; 16; 0; 0; 0]) demo_frames toy_start s1
    (power_on_tinv _ _) (fun _ => conj eq_refl eq_refl) ltac:(vm_compute; congruence) Es) as (s2 & k & Hrun & Hk & Hin & _).
  { vm_compute in Es. injection Es as <-. vm_compute. repeat split; intros; congruence. }
  exists s2. split; [exact Hrun|]. clear Hin Hk k.
  vm_compute in Es. injection Es as <-. vm_compute in Hrun. injection Hrun as <-. vm_compute. reflexivity.
Defined.

(** ** Witness of the acknowledgements *)

(** Frame 0 taken, 1 missing, 2 and 3 in the ring. *)
Definition demo_slot (a : Z) : od_pipe_reorder_slot :=
  {| occupied := true; slot_seq := a; slot_len := len (demo_chunks a); slot_data := demo_chunks a |}.

Definition demo_ring : list od_pipe_reorder_slot := reorder_zero.[2 := demo_slot 2].[3 := demo_slot 3].

Definition demo_window : od_pipe_state :=
  with_highest (with_gap (step_expected (negotiated pipe_zero false 8 4 244) 0 0) true 2) 3.

Lemma demo_window_rel : window_rel demo_chunks demo_window demo_ring.
Proof.
  split; [vm_compute; split; congruence|]. split; [done|]. split; [vm_compute; split; congruence|].
  assert (Hslot : forall a, a = 2 \/ a = 3 -> occupied (demo_slot a) = true -> exists b,
    received_count demo_window + 1 <= b < received_count demo_window + window demo_window /\
    a = pipe_slot (b mod 256) /\ slot_is demo_chunks b (demo_slot a)).
  { intros a Ha _. exists a. destruct Ha as [-> | ->]; (split; [vm_compute; split; congruence|]); by repeat split. }
  unfold demo_ring. eapply in_ring_set; [eapply in_ring_set; [apply zero_in_ring| | |]| | |].
  all: try (vm_compute; split; congruence).
  - apply Hslot. by left.
  - intros i a _ Ha _. exact Ha.
  - apply Hslot. by right.
  - intros i a _ Ha _. exact Ha.
Qed.


(** ** Two frames of one window share a slot when the numbers wrap inside it *)

(** [pipe_slot] takes the low byte modulo 33, and 256 is not a multiple of 33:
    of the frames 240 to 271, which one window holds, 241 and 266 (whose low
    byte is 10) meet in one slot. *)
Lemma slots_collide : pipe_slot (241 mod 256) = pipe_slot (266 mod 256) /\ 266 - 241 < OD_PIPE_MAX_W.
Proof. by vm_compute. Qed.

Definition partial_16 : bytes :=
  [1; 2; 32; 32; 244; 0; 16; 0; 0; 0; 7; 0; 0; 0; 0; 0; 0; 0; 8; 0; 8; 0].

(** A partial transfer whose image fits frame 0; the others are empty. *)
Definition frames_run (fs : list Z) : option (list panel_event * od_xfer_mode) :=
  toy_run ([toy_request C_pipe_start partial_16]
    ++ map (fun a => toy_request C_pipe_data (a mod 256 :: if a =? 0 then toy_image else [])) fs
    ++ [toy_request C_pipe_end [0; 0; 0; 0; 9]]).

Definition upto (a n : nat) : list Z := map Z.of_nat (seq a n).

(** Every frame received, in order: the image is shown. *)
Lemma in_order_is_shown :
  frames_run (upto 0 267) =
    Some ([EvBegin 16 true true; EvInput toy_image; EvWrite 0 toy_image 16; EvRefresh 0 true true; EvEtag 9], OD_XFER_IDLE).
Proof. vm_compute. reflexivity. Qed.

(** The same, with 241 and 266 ahead of 240 and 241 sent again: every frame is
    taken and every byte written, but the count of queued frames stays one too
    high and END abandons the image. *)
Lemma collision_abandons_image :
  frames_run (upto 0 240 ++ [241; 266; 240; 241] ++ upto 242 24) =
    Some ([EvBegin 16 true true; EvInput toy_image; EvWrite 0 toy_image 16; EvRelease; EvEtag 0], OD_XFER_IDLE).
Proof. vm_compute. reflexivity. Qed.

End PipeWindow.
