(* ===== verification/Etag.v ===== *)
(** What the displayed etag says: a non-zero one is only ever recorded straight
    after a refresh that completed.  The argument is compositional and needs no
    invariant: every operation keeps it whatever state it starts from. *)

From stdpp Require Import strings.
From S2P Require Import Prelude Hal TxQueue Span Proto Session World Reply Dispatch Color Pump PipeState XferState Xfer XferDirect XferPartial Pipe Transfer TransferSession.
Import Hal TxQueue Span Proto Session World Reply Dispatch Color Pump PipeState XferState Xfer XferDirect XferPartial Pipe Transfer TransferSession.

Module Etag.

Open Scope xfer_scope.

(** The calls to the panel driver, newest first: each non-zero etag follows at
    once on a refresh that started and completed. *)
Fixpoint etags_ok (tr : list panel_event) : Prop :=
  match tr with
  | [] => True
  | EvEtag etag :: tr =>
      (etag <> 0 -> exists m tr', tr = EvRefresh m true true :: tr') /\ etags_ok tr
  | _ :: tr => etags_ok tr
  end.

(** A refresh is the newest event. *)
Definition shown (completed : bool) (tr : list panel_event) : Prop :=
  exists m tr', tr = EvRefresh m true completed :: tr' /\ etags_ok tr'.

Lemma shown_ok completed tr : shown completed tr -> etags_ok tr.
Proof. by intros (m & tr' & -> & Ht). Qed.

Create HintDb etag.

Section Safe.
Context {E : Type} `{Radio E} `{Crypto E} `{SessionApp E} `{CommandApp E} `{Inflater E}
  `{XferApp E} `{PipeConfig}.
Implicit Types s : tstate E.

(** From a trace of which [P] holds, [m] leaves one whose etags are in order. *)
Definition safe_from {A} (P : list panel_event -> Prop) (m : M E A) : Prop :=
  forall s, P (t_trace s) -> match m s with Some (_, s') => etags_ok (t_trace s') | None => True end.

Definition safe {A} (m : M E A) : Prop := safe_from etags_ok m.

Lemma safe_ret {A} (a : A) : safe (ret a).
Proof. by intros s Ht. Qed.

Lemma safe_gets {A} (f : tstate E -> A) : safe (gets f).
Proof. by intros s Ht. Qed.

Lemma safe_modify f : (forall s, t_trace (f s) = t_trace s) -> safe (modify f).
Proof. intros Hf s Ht. cbn. by rewrite Hf. Qed.

Lemma safe_hook_do f : safe (hook_do f).
Proof. by intros s Ht. Qed.

Lemma safe_hook_call {A} (f : E -> A * E) : safe (hook_call f).
Proof. intros s Ht. unfold hook_call. by destruct (f (t_env s)). Qed.

Lemma safe_bind {A B} P (m : M E A) (k : A -> M E B) :
  safe_from P m -> (forall a, safe (k a)) -> safe_from P (bind m k).
Proof.
  intros Hm Hk s Ht. unfold bind. specialize (Hm s Ht). destruct (m s) as [[a s']|]; [|done]. by apply Hk.
Qed.

Lemma safe_gets_bind {A B} P (f : tstate E -> A) (k : A -> M E B) :
  (forall a, safe_from P (k a)) -> safe_from P (bind (gets f) k).
Proof. intros Hk s Ht. by apply Hk. Qed.

Lemma safe_weaken {A} completed (m : M E A) : safe m -> safe_from (shown completed) m.
Proof. intros Hm s Ht. by eapply Hm, shown_ok. Qed.

(** Events other than a non-zero etag. *)
Lemma safe_event ev : (forall etag, ev = EvEtag etag -> etag = 0) -> safe (event ev).
Proof. intros Hev s Ht. destruct ev; try exact Ht. cbn. split; [|done]. intros Hn. by destruct (Hn (Hev _ eq_refl)). Qed.

Lemma safe_forget : safe (app_set_displayed_etag 0).
Proof. apply safe_bind; [apply safe_hook_do|]. intros _. apply safe_event. congruence. Qed.

(** A non-zero etag, after the refresh. *)
Lemma safe_set_etag completed etag :
  (etag <> 0 -> completed = true) -> safe_from (shown completed) (app_set_displayed_etag etag).
Proof.
  intros Hc s (m & tr & Htr & Ht). cbn. rewrite Htr. split; [|done]. intros Hn. rewrite (Hc Hn). by exists m, tr.
Qed.

Lemma safe_refresh {B} m (k : bool * bool -> M E B) :
  (forall r, r.1 = false -> safe (k r)) -> (forall r, r.1 = true -> safe_from (shown r.2) (k r)) ->
  safe (bind (app_refresh m) k).
Proof.
  intros Hf Ht s Hs. unfold app_refresh, bind, hook_call. destruct (od_xfer_app_refresh (t_env s) m) as [r e].
  cbn [event modify ret]. destruct (r.1) eqn:Hr.
  - apply Ht; [done|]. exists m, (t_trace s). by split.
  - by apply Hf.
Qed.

Lemma safe_answer f rp frame : safe (answer (E := E) f rp frame).
Proof. intros s Ht. unfold answer. by destruct (f _ _ _ _ _) as [[w r] st]. Qed.

Lemma safe_before_refresh rp : safe (app_before_refresh rp).
Proof. intros s Ht. unfold app_before_refresh. by destruct (od_xfer_app_before_refresh _ _). Qed.
End Safe.

#[export] Hint Resolve safe_ret safe_gets safe_hook_do safe_hook_call safe_forget safe_answer
  safe_before_refresh : etag.

(** The constant an application starts with. *)
Ltac unfold_head m := lazymatch m with ?f _ => unfold_head f | _ => unfold m end.

(** Walks through an operation, into the calls no hint covers. *)
Ltac safe_step :=
  lazymatch goal with
  | |- safe (bind (app_refresh _) _) =>
      apply safe_refresh; intros [? ?]; cbn [fst snd]; intros ->; cbn [negb]
  | |- safe (bind _ _) => apply safe_bind; [|intros ?]
  | |- safe_from (shown _) (bind (gets _) _) => apply safe_gets_bind; intros ?
  | |- safe_from (shown _) (bind _ _) => apply safe_bind; [|intros ?]
  | |- safe_from (shown _) _ => solve [auto with etag]
  | |- safe_from etags_ok ?m => change (safe m)
  | |- safe (modify _) => apply safe_modify; try done
  | |- safe (event _) => apply safe_event; congruence
  | |- safe (if ?b then _ else _) => destruct b
  | |- safe (match ?x with _ => _ end) => destruct x
  | |- safe ?m => first [solve [auto with etag] | unfold_head m]
  end.
Ltac safe_go := cbv beta zeta; repeat (safe_step; cbv beta zeta).

Section Operations.
Context {E : Type} `{Radio E} `{Crypto E} `{SessionApp E} `{CommandApp E} `{Inflater E}
  `{XferApp E} `{PipeConfig}.
Implicit Types s : tstate E.

(** *** The stream: the inflater does not see the trace *)

Definition pump_safe (s s' : tstate E) : Prop := etags_ok (t_trace s) -> etags_ok (t_trace s').

Lemma sink_safe out s : pump_safe s (stream_sink out s).2.
Proof.
  intros Ht. unfold stream_sink. do 2 (destruct (_ || _); [done|]). unfold app_write, bind, hook_call.
  destruct (od_xfer_app_write _ _ _) as [n e]. cbn. by destruct (n =? _).
Qed.

Lemma deliver_safe p s cap out : pump_safe s (deliver stream_sink p s cap out).2.
Proof.
  unfold deliver. destruct (cap <? _); [by intros ?|]. destruct (_ =? 0); [by intros ?|]. destruct (_ || _); [by intros ?|].
  pose proof (sink_safe out s) as Hs. by destruct (stream_sink out s) as [[] s1].
Qed.

Lemma pump_loop_safe fuel final cap p s o :
  pump_loop fuel stream_sink final cap p s = Some o -> pump_safe s o.2.
Proof.
  revert p s. induction fuel as [|fuel IH]; intros p s; [done|]. cbn [pump_loop od_inflate_app_poll lift_inflater].
  destruct (od_inflate_app_poll (t_env s) cap) as [[st out] e].
  pose proof (deliver_safe p (put_env e s) cap out) as Hd.
  destruct (deliver _ _ _ _ _) as [[ok p1] s1]. cbn [snd] in Hd.
  assert (Hend : forall st' p', Some (st', p', s1) = Some o -> pump_safe s o.2) by (intros st' p' [= <-]; exact Hd).
  destruct ok; cbn [negb]; [|apply Hend]. destruct st.
  - destruct final; apply Hend.
  - intros Ho Ht. by eapply IH, Hd.
  - destruct (_ || _); apply Hend.
  - apply Hend.
Qed.

Lemma run_pump_safe input final scratch : safe (run_pump (E := E) input final scratch).
Proof.
  intros s Ht. unfold run_pump. destruct (od_zlib_pump_push _ _ _ _ _ _ _) as [[[st p] s1]|] eqn:Ep; [|done].
  enough (pump_safe s s1) as Hs by exact (Hs Ht).
  assert (Hsame : forall st' p', Some (st', p', s) = Some (st, p, s1) -> pump_safe s s1) by (intros st' p' [= _ _ <-] ?; done).
  revert Ep. unfold od_zlib_pump_push. cbn [od_inflate_app_push lift_inflater].
  destruct (s_pump_error (t_pump s)); [apply Hsame|destruct (_ || _); [apply Hsame|]..];
    destruct (od_inflate_app_push (t_env s) input final) as [status e];
    (destruct status; [..|by intros [= _ _ <-] ?]); intros Ho; exact (pump_loop_safe _ _ _ _ (put_env e s) _ Ho).
Qed.

Lemma stream_push_safe input final : safe (od_xfer_stream_push (E := E) input final).
Proof. pose proof run_pump_safe. unfold od_xfer_stream_push. safe_go. Qed.
End Operations.

#[export] Hint Resolve run_pump_safe stream_push_safe : etag.

(** ** Every operation *)

Section Commands.
Context {E : Type} `{Radio E} `{Crypto E} `{SessionApp E} `{CommandApp E} `{Inflater E}
  `{XferApp E} `{PipeConfig}.

Lemma begin_full_safe g : safe (app_begin_full (E := E) g).
Proof. safe_go. Qed.

Lemma begin_partial_safe p : safe (app_begin_partial (E := E) p).
Proof. safe_go. Qed.

Lemma abort_active_safe why b : safe (od_xfer_abort_active (E := E) why b).
Proof. safe_go. Qed.

Lemma enter_fatal_safe : safe (od_xfer_pipe_enter_fatal (E := E)).
Proof. safe_go. Qed.

Lemma reply_app_safe ctx frame : safe (od_xfer_reply_app (E := E) ctx frame).
Proof. safe_go. Qed.
End Commands.

#[export] Hint Resolve begin_full_safe begin_partial_safe abort_active_safe enter_fatal_safe reply_app_safe : etag.

Section Ends.
Context {E : Type} `{Radio E} `{Crypto E} `{SessionApp E} `{CommandApp E} `{Inflater E}
  `{XferApp E} `{PipeConfig}.

(** The three places that record an etag. *)
Lemma direct_etag_safe completed has_etag etag :
  safe_from (shown completed) (direct_etag (E := E) completed has_etag etag).
Proof.
  unfold direct_etag. destruct (negb OD_CAP_PARTIAL); [apply safe_weaken, safe_ret|].
  destruct completed; [by apply safe_set_etag|]. apply safe_weaken. destruct has_etag; auto with etag.
Qed.

Lemma pipe_etag_safe is_partial completed has_etag etag :
  safe_from (shown completed) (pipe_etag (E := E) is_partial completed has_etag etag).
Proof.
  unfold pipe_etag. destruct (negb OD_CAP_PARTIAL); [apply safe_weaken, safe_ret|].
  destruct is_partial, completed; try (by apply safe_set_etag); apply safe_weaken; destruct has_etag; auto with etag.
Qed.

Lemma partial_etag_safe (completed : bool) etag :
  safe_from (shown completed) (app_set_displayed_etag (E := E) (if completed then etag else 0)).
Proof. apply safe_set_etag. by destruct completed. Qed.
End Ends.

#[export] Hint Resolve direct_etag_safe pipe_etag_safe partial_etag_safe : etag.

Section Sessions.
Context {E : Type} `{Radio E} `{Crypto E} `{SessionApp E} `{CommandApp E} `{Inflater E}
  `{XferApp E} `{PipeConfig}.

Lemma direct_end_safe ctx body : safe (od_xfer_direct_end_impl (E := E) ctx body).
Proof. safe_go. Qed.

Lemma partial_end_safe ctx body : safe (od_xfer_partial_end_impl (E := E) ctx body).
Proof. safe_go. Qed.

Lemma pipe_finish_safe ctx body : safe (pipe_finish (E := E) ctx body).
Proof. safe_go. Qed.

Lemma consume_safe ctx payload : safe (consume_or_fatal (E := E) ctx payload).
Proof. safe_go. Qed.
End Sessions.

#[export] Hint Resolve direct_end_safe partial_end_safe pipe_finish_safe consume_safe : etag.

Section Traces.
Context {E : Type} `{Radio E} `{Crypto E} `{SessionApp E} `{CommandApp E} `{Inflater E}
  `{XferApp E} `{PipeConfig}.
Implicit Types s : tstate E.

Lemma drain_safe fuel ctx : safe (pipe_drain (E := E) fuel ctx).
Proof. induction fuel as [|fuel IH]; cbn [pipe_drain]; [by intros s Ht|]. safe_go. Qed.
#[local] Hint Resolve drain_safe : etag.

Lemma late_ack_safe ctx b : safe (late_ack (E := E) ctx b).
Proof. safe_go. Qed.
#[local] Hint Resolve late_ack_safe : etag.

Lemma data_ahead_safe ctx seq payload : safe (data_ahead (E := E) ctx seq payload).
Proof. safe_go. Qed.
#[local] Hint Resolve data_ahead_safe : etag.

Lemma command_safe c ctx body : safe (run_command (E := E) c ctx body).
Proof. destruct c; safe_go. Qed.

Lemma run_session_etags qs s s' :
  run_session (E := E) qs s = Some s' -> etags_ok (t_trace s) -> etags_ok (t_trace s').
Proof.
  revert s. induction qs as [|q qs IH]; intros s; cbn [run_session]; [by intros [= <-]|].
  pose proof (command_safe (q_command q) (q_ctx q) (q_body q) (arrive q s)) as Hc.
  destruct (run_command _ _ _ _) as [[a s1]|]; [|done]. intros Hr Ht. by eapply IH, Hc.
Qed.

(** C17. The displayed etag tells the truth: along any session, whatever its
    requests and its panel, a non-zero etag is recorded only straight after a
    refresh that the driver both started and completed; any other recording of
    an etag is the zero that forgets it. *)
Theorem etag_follows_refresh (w : world E) (t : od_tx_reservation) (qs : list (request E))
    (s : tstate E) (older newer : list panel_event) (etag : Z) :
  run_session qs (power_on w t) = Some s -> t_trace s = newer ++ EvEtag etag :: older -> etag <> 0 ->
  exists refresh_mode earlier, older = EvRefresh refresh_mode true true :: earlier.
Proof.
  intros Hrun Htr Hne. pose proof (run_session_etags _ _ _ Hrun I) as Hok. rewrite Htr in Hok. clear Hrun Htr.
  induction newer as [|ev newer IH]; cbn in Hok; [by apply Hok|]. destruct ev; try (by apply IH). by apply IH, Hok.
Qed.
End Traces.

(** A direct frame that names its image 9: the etag is the newest event, the
    refresh the one before. *)
Definition etag_session : list (request unit) :=
  [toy_request C_direct_start []; toy_request C_data toy_image; toy_request C_end [0; 0; 0; 0; 9]].

Lemma etag_follows_refresh_witness :
  match run_session etag_session toy_start with
  | Some s => exists older, t_trace s = EvEtag 9 :: older /\
      exists refresh_mode earlier, older = EvRefresh refresh_mode true true :: earlier
  | None => False
  end.
Proof.
  destruct (run_session etag_session toy_start) as [s|] eqn:Es; [|vm_compute in Es; discriminate].
  assert (Ht : option_map t_trace (run_session etag_session toy_start) =
    Some [EvEtag 9; EvRefresh 0 true true; EvWrite 0 toy_image 16; EvBegin 16 false true]) by (vm_compute; reflexivity).
  rewrite Es in Ht. injection Ht as Ht. eexists. split; [exact Ht|].
  refine (etag_follows_refresh _ _ etag_session s _ [] 9 Es Ht _). congruence.
Defined.

End Etag.
