(* ===== verification/Nfc.v ===== *)
(** The NFC endpoint, [shared/core/od_nfc.c] in a build with the capability:
    reading the tag, writing it in one frame, and the chunked write with its
    assembly, against the specification of an upload. *)

From S2P Require Import Prelude Hal TxQueue Span Proto Session World Reply Gate Dispatch.
Import Hal TxQueue Span Proto Session World Reply Gate Dispatch.

Module Nfc.

Definition RESP_NFC_ENDPOINT : Z := 0x83.
Definition NFC_SUB_READ : Z := 0x00.
Definition NFC_SUB_WRITE : Z := 0x01.
Definition NFC_SUB_WRITE_START : Z := 0x10.
Definition NFC_SUB_WRITE_DATA : Z := 0x11.
Definition NFC_SUB_WRITE_END : Z := 0x12.
Definition OD_NFC_REC_TEXT : Z := 0.
Definition OD_NFC_REC_URI : Z := 1.
Definition OD_NFC_REC_WELL_KNOWN_RAW : Z := 2.
Definition OD_NFC_REC_MIME : Z := 3.
Definition OD_NFC_REC_RAW_NDEF : Z := 4.
Definition NFC_STATUS_READ_DATA : Z := 0x80.
Definition NFC_STATUS_WRITE_COMMITTED : Z := 0x81.
Definition NFC_STATUS_CHUNK_ACCEPTED : Z := 0x82.
Definition NFC_ERR_MALFORMED : Z := 0x01.
Definition NFC_ERR_READ_FAILED : Z := 0x02.
Definition NFC_ERR_TAG_WRITE_FAILED : Z := 0x03.
Definition NFC_ERR_UNKNOWN_SUBCMD : Z := 0x04.
Definition NFC_ERR_INVALID_REC_TYPE : Z := 0x05.
Definition NFC_ERR_BAD_TOTAL_LEN : Z := 0x06.
Definition NFC_ERR_CHUNK_NO_START : Z := 0x07.
Definition NFC_ERR_CHUNK_OVERFLOW : Z := 0x08.
Definition NFC_ERR_END_LEN_MISMATCH : Z := 0x09.

Definition OD_NFC_READ_MAX : Z := u16 (OD_SESSION_PAYLOAD_MAX - 4).
Definition OD_NFC_ASSEMBLY_MAX : Z := 512.

(** The tag seam, [od_nfc_app.h]: a read gives the record type and the bytes put
    in the buffer of the given size, a write says whether the tag was written. *)
Class NfcApp (E : Type) := {
  od_nfc_app_read : E -> Z -> option (Z * bytes) * E;
  od_nfc_app_write : E -> Z -> bytes -> bool * E;
}.

(** [struct od_nfc]. *)
Record od_nfc := {
  owner : od_reply_t; total_len : Z; received_len : Z; rec_type : Z; active : bool; data : bytes;
}.

Definition no_owner : od_reply_t := {| rp_origin := OD_ORIGIN_BLE; rp_tag := 0 |}.

Definition nfc_zero : od_nfc :=
  {| owner := no_owner; total_len := 0; received_len := 0; rec_type := 0; active := false;
     data := replicate (Z.to_nat OD_NFC_ASSEMBLY_MAX) 0 |}.

(** What a frame does to the tag, and how it was answered ([queued] when the
    answer reached the queue): a record of the calls, which no operation reads. *)
Inductive nfc_event :=
| EvTagRead (got : bool)
| EvTagWrite (rec : Z) (payload : bytes) (ok : bool)
| EvNack (err : Z)
| EvAck (status : Z) (queued : bool).

(** What a frame reads and writes. *)
Record nstate (E : Type) := {
  n_world : world E; n_token : option od_tx_reservation; n_nfc : od_nfc; n_trace : list nfc_event;
}.
Arguments n_world {E} _.
Arguments n_token {E} _.
Arguments n_nfc {E} _.
Arguments n_trace {E} _.

Section Operations.
Context {E : Type} `{Radio E} `{Crypto E} `{SessionApp E} `{NfcApp E}.
Implicit Types (s : nstate E) (ctx : od_cmd_ctx) (bd : od_span).

Definition set_answer s (w : world E) (r : option od_tx_reservation) (ev : nfc_event) : nstate E :=
  {| n_world := w; n_token := r; n_nfc := n_nfc s; n_trace := n_trace s ++ [ev] |}.

Definition set_nfc s (n : od_nfc) : nstate E :=
  {| n_world := n_world s; n_token := n_token s; n_nfc := n; n_trace := n_trace s |}.

Definition set_tag s (e : E) (ev : nfc_event) : nstate E :=
  {| n_world := set_env (n_world s) e; n_token := n_token s; n_nfc := n_nfc s; n_trace := n_trace s ++ [ev] |}.

Definition od_nfc_reset s : nstate E := set_nfc s nfc_zero.

Definition rec_type_valid (t : Z) : bool :=
  (t =? OD_NFC_REC_TEXT) || (t =? OD_NFC_REC_URI) || (t =? OD_NFC_REC_WELL_KNOWN_RAW)
  || (t =? OD_NFC_REC_MIME) || (t =? OD_NFC_REC_RAW_NDEF).

Definition is_ok (st : od_txq_status) : bool := match st with OD_TXQ_OK => true | _ => false end.

Definition nack ctx s (err : Z) : nstate E * od_cmd_result :=
  let '(w, r, _) := od_reply_plain (n_world s) (n_token s) (Some (c_rp ctx))
                      (Some [RESP_NACK; RESP_NFC_ENDPOINT; 0xFF; err]) 4 in
  (set_answer s w r (EvNack err), OD_CMD_NACK).

(** [od_reply] of an acknowledgement; whether it was queued. *)
Definition ack ctx s (status : Z) (frame : bytes) : nstate E * bool :=
  let '(w, r, st) := od_reply (n_world s) (n_token s) (Some (c_rp ctx)) (Some frame) (len frame) in
  (set_answer s w r (EvAck status (is_ok st)), is_ok st).

Definition verdict (queued : bool) : od_cmd_result := if queued then OD_CMD_OK else OD_CMD_NACK.

Definition ack_committed ctx s (status : Z) : nstate E * od_cmd_result :=
  let '(s, queued) := ack ctx s status [RESP_ACK; RESP_NFC_ENDPOINT; status] in (s, verdict queued).

Definition ack_armed ctx s : nstate E * od_cmd_result :=
  let '(s, queued) := ack ctx s NFC_STATUS_CHUNK_ACCEPTED [RESP_ACK; RESP_NFC_ENDPOINT; NFC_STATUS_CHUNK_ACCEPTED] in
  if queued then (s, OD_CMD_OK) else (od_nfc_reset s, OD_CMD_NACK).

Definition owned_by ctx s : bool := active (n_nfc s) && od_reply_same (c_rp ctx) (owner (n_nfc s)).

(** The tag's record, in the buffer of [OD_NFC_READ_MAX]. *)
Definition handle_read ctx s : nstate E * od_cmd_result :=
  let '(got, e) := od_nfc_app_read (w_env (n_world s)) OD_NFC_READ_MAX in
  let s := set_tag s e (EvTagRead (bool_decide (is_Some got))) in
  match got with
  | None => nack ctx s NFC_ERR_READ_FAILED
  | Some (type, rec) =>
      if OD_NFC_READ_MAX <? len rec then nack ctx s NFC_ERR_READ_FAILED
      else
        let '(s, queued) := ack ctx s NFC_STATUS_READ_DATA
          ([RESP_ACK; RESP_NFC_ENDPOINT; NFC_STATUS_READ_DATA; type; u8 (Z.shiftr (len rec) 8); u8 (len rec)] ++ rec) in
        (s, verdict queued)
  end.

(** [od_nfc_app_write], with what it was asked. *)
Definition tag_write s (type : Z) (payload : bytes) : bool * nstate E :=
  let '(ok, e) := od_nfc_app_write (w_env (n_world s)) type payload in
  (ok, set_tag s e (EvTagWrite type payload ok)).

(** The 16-bit big-endian field at [p[2]]. *)
Definition declared_of (header : od_span) : Z := u16 (Z.lor (u16 (Z.shiftl (at_ header 2) 8)) (at_ header 3)).

Definition handle_inline_write ctx bd s : nstate E * od_cmd_result :=
  match od_span_split bd 4 with
  | None => nack ctx s NFC_ERR_MALFORMED
  | Some (header, rest) =>
      let type := at_ header 1 in
      let declared := declared_of header in
      if u32 (sn bd) <? u32 (declared + 4) then nack ctx s NFC_ERR_MALFORMED
      else if negb (rec_type_valid type) then nack ctx s NFC_ERR_INVALID_REC_TYPE
      else
        match od_span_split rest declared with
        | None => nack ctx s NFC_ERR_MALFORMED
        | Some (payload, _) =>
            let '(ok, s) := tag_write s type (contents payload) in
            if ok then ack_committed ctx s NFC_STATUS_WRITE_COMMITTED else nack ctx s NFC_ERR_TAG_WRITE_FAILED
        end
  end.

Definition handle_start ctx bd s : nstate E * od_cmd_result :=
  match od_span_split bd 4 with
  | None => nack ctx s NFC_ERR_MALFORMED
  | Some (header, _) =>
      let type := at_ header 1 in
      let total := declared_of header in
      if negb (rec_type_valid type) then nack ctx s NFC_ERR_INVALID_REC_TYPE
      else if (total =? 0) || (OD_NFC_ASSEMBLY_MAX <? total) then nack ctx s NFC_ERR_BAD_TOTAL_LEN
      else ack_armed ctx (set_nfc s {| owner := c_rp ctx; total_len := total; received_len := 0; rec_type := type;
                                        active := true; data := data nfc_zero |})
  end.

Definition handle_data ctx bd s : nstate E * od_cmd_result :=
  if negb (owned_by ctx s) then nack ctx s NFC_ERR_CHUNK_NO_START
  else
    match od_span_split bd 1 with
    | None => nack ctx s NFC_ERR_MALFORMED
    | Some (_, chunk) =>
        let n := n_nfc s in
        if od_span_is_empty chunk then nack ctx s NFC_ERR_MALFORMED
        else if total_len n <? u32 (received_len n + u32 (sn chunk)) then nack ctx (od_nfc_reset s) NFC_ERR_CHUNK_OVERFLOW
        else
          ack_armed ctx (set_nfc s {| owner := owner n; total_len := total_len n;
                                       received_len := u16 (received_len n + sn chunk); rec_type := rec_type n;
                                       active := active n;
                                       data := memcpy (data n) (received_len n) (contents chunk) |})
    end.

Definition handle_end ctx s : nstate E * od_cmd_result :=
  let n := n_nfc s in
  if negb (owned_by ctx s) then nack ctx s NFC_ERR_CHUNK_NO_START
  else if negb (received_len n =? total_len n) then nack ctx s NFC_ERR_END_LEN_MISMATCH
  else
    let '(ok, s) := tag_write s (rec_type n) (take (Z.to_nat (total_len n)) (data n)) in
    let s := od_nfc_reset s in
    if ok then ack_committed ctx s NFC_STATUS_WRITE_COMMITTED else nack ctx s NFC_ERR_TAG_WRITE_FAILED.

(** [od_nfc_frame]; a null context answers nothing. *)
Definition od_nfc_frame (ctx : option od_cmd_ctx) bd s : nstate E * od_cmd_result :=
  match ctx with
  | None => (s, OD_CMD_NACK)
  | Some ctx =>
      if is_null (sp bd) || (sn bd <? 1) then nack ctx s NFC_ERR_MALFORMED
      else
        let sub := at_ bd 0 in
        if sub =? NFC_SUB_READ then handle_read ctx s
        else if sub =? NFC_SUB_WRITE then handle_inline_write ctx bd s
        else if sub =? NFC_SUB_WRITE_START then handle_start ctx bd s
        else if sub =? NFC_SUB_WRITE_DATA then handle_data ctx bd s
        else if sub =? NFC_SUB_WRITE_END then handle_end ctx s
        else nack ctx s NFC_ERR_UNKNOWN_SUBCMD
  end.
End Operations.

(** ** The specification: an upload *)

(** An upload in progress: who started it, the declared type and size, and the
    bytes its owner has sent. *)
Record upload := { u_owner : od_reply_t; u_type : Z; u_total : Z; u_bytes : bytes }.

Definition be16 (hi lo : Z) : Z := 256 * hi + lo.

Definition of_owner (rp : od_reply_t) (u : option upload) : bool :=
  match u with Some u => od_reply_same rp (u_owner u) | None => false end.

(** Why a frame [b] from [rp] is refused with nothing changed. *)
Inductive refusal (rp : od_reply_t) : option upload -> bytes -> Z -> Prop :=
| Re_empty u : refusal rp u [] NFC_ERR_MALFORMED
| Re_short u sub rest :
    sub = NFC_SUB_WRITE \/ sub = NFC_SUB_WRITE_START -> len rest < 3 -> refusal rp u (sub :: rest) NFC_ERR_MALFORMED
| Re_length u rec hi lo body :
    len body < be16 hi lo -> refusal rp u (NFC_SUB_WRITE :: rec :: hi :: lo :: body) NFC_ERR_MALFORMED
| Re_type u sub rec hi lo body :
    sub = NFC_SUB_WRITE /\ be16 hi lo <= len body \/ sub = NFC_SUB_WRITE_START -> rec_type_valid rec = false ->
    refusal rp u (sub :: rec :: hi :: lo :: body) NFC_ERR_INVALID_REC_TYPE
| Re_total u rec hi lo body :
    rec_type_valid rec = true -> be16 hi lo = 0 \/ 512 < be16 hi lo ->
    refusal rp u (NFC_SUB_WRITE_START :: rec :: hi :: lo :: body) NFC_ERR_BAD_TOTAL_LEN
| Re_foreign u sub rest :
    sub = NFC_SUB_WRITE_DATA \/ sub = NFC_SUB_WRITE_END -> of_owner rp u = false ->
    refusal rp u (sub :: rest) NFC_ERR_CHUNK_NO_START
| Re_no_chunk u : of_owner rp u = true -> refusal rp u [NFC_SUB_WRITE_DATA] NFC_ERR_MALFORMED
| Re_early u rest :
    of_owner rp (Some u) = true -> len (u_bytes u) <> u_total u ->
    refusal rp (Some u) (NFC_SUB_WRITE_END :: rest) NFC_ERR_END_LEN_MISMATCH
| Re_unknown u sub rest :
    sub ∉ [NFC_SUB_READ; NFC_SUB_WRITE; NFC_SUB_WRITE_START; NFC_SUB_WRITE_DATA; NFC_SUB_WRITE_END] ->
    refusal rp u (sub :: rest) NFC_ERR_UNKNOWN_SUBCMD.

(** The answer to a write that was asked of the tag. *)
Inductive written_answer : bool -> nfc_event -> Prop :=
| Wa_done queued : written_answer true (EvAck NFC_STATUS_WRITE_COMMITTED queued)
| Wa_failed : written_answer false (EvNack NFC_ERR_TAG_WRITE_FAILED).

(** One frame [b] from [rp]: the upload before, what is asked of the tag and
    answered, the upload after.  An acknowledgement that could not be queued takes
    the upload with it. *)
Inductive upload_step (rp : od_reply_t) : option upload -> bytes -> list nfc_event -> option upload -> Prop :=
| Up_read u rest queued :
    upload_step rp u (NFC_SUB_READ :: rest) [EvTagRead true; EvAck NFC_STATUS_READ_DATA queued] u
| Up_read_failed u rest got :
    upload_step rp u (NFC_SUB_READ :: rest) [EvTagRead got; EvNack NFC_ERR_READ_FAILED] u
| Up_write u rec hi lo body ok ev :
    rec_type_valid rec = true -> be16 hi lo <= len body -> written_answer ok ev ->
    upload_step rp u (NFC_SUB_WRITE :: rec :: hi :: lo :: body)
      [EvTagWrite rec (take (Z.to_nat (be16 hi lo)) body) ok; ev] u
| Up_start u rec hi lo body queued :
    rec_type_valid rec = true -> 1 <= be16 hi lo <= 512 ->
    upload_step rp u (NFC_SUB_WRITE_START :: rec :: hi :: lo :: body) [EvAck NFC_STATUS_CHUNK_ACCEPTED queued]
      (if queued then Some {| u_owner := rp; u_type := rec; u_total := be16 hi lo; u_bytes := [] |} else None)
| Up_data u chunk queued :
    of_owner rp (Some u) = true -> chunk <> [] -> len (u_bytes u ++ chunk) <= u_total u ->
    upload_step rp (Some u) (NFC_SUB_WRITE_DATA :: chunk) [EvAck NFC_STATUS_CHUNK_ACCEPTED queued]
      (if queued then Some {| u_owner := u_owner u; u_type := u_type u; u_total := u_total u; u_bytes := u_bytes u ++ chunk |}
       else None)
| Up_overflow u chunk :
    of_owner rp (Some u) = true -> chunk <> [] -> u_total u < len (u_bytes u ++ chunk) ->
    upload_step rp (Some u) (NFC_SUB_WRITE_DATA :: chunk) [EvNack NFC_ERR_CHUNK_OVERFLOW] None
| Up_end u rest ok ev :
    of_owner rp (Some u) = true -> len (u_bytes u) = u_total u -> written_answer ok ev ->
    upload_step rp (Some u) (NFC_SUB_WRITE_END :: rest) [EvTagWrite (u_type u) (u_bytes u) ok; ev] None
| Up_refused u b err : refusal rp u b err -> upload_step rp u b [EvNack err] u.

(** The assembler holds the upload. *)
Definition holds_upload (n : od_nfc) (u : option upload) : Prop :=
  len (data n) = OD_NFC_ASSEMBLY_MAX /\
  match u with
  | None => active n = false
  | Some u =>
      active n = true /\ owner n = u_owner u /\ rec_type n = u_type u /\ total_len n = u_total u /\
      received_len n = len (u_bytes u) /\ take (length (u_bytes u)) (data n) = u_bytes u /\
      len (u_bytes u) <= u_total u /\ 1 <= u_total u <= 512
  end.

(** A frame that is no part of the upload [owner] has in progress: anyone's read or
    whole write, another link's DATA and END, but no new START. *)
Definition bystander (owner rp : od_reply_t) (b : bytes) : Prop :=
  head b <> Some NFC_SUB_WRITE_START /\
  (head b = Some NFC_SUB_WRITE_DATA \/ head b = Some NFC_SUB_WRITE_END -> od_reply_same rp owner = false).

(** The frames between START and END: the owner's chunks in order, and bystanders. *)
Inductive chunk_frames (owner : od_reply_t) : list bytes -> list (od_cmd_ctx * bytes) -> Prop :=
| Cf_nil : chunk_frames owner [] []
| Cf_mine ctx chunk chunks fs :
    od_reply_same (c_rp ctx) owner = true -> chunk <> [] -> chunk_frames owner chunks fs ->
    chunk_frames owner (chunk :: chunks) ((ctx, NFC_SUB_WRITE_DATA :: chunk) :: fs)
| Cf_other ctx b chunks fs :
    bystander owner (c_rp ctx) b -> chunk_frames owner chunks fs -> chunk_frames owner chunks ((ctx, b) :: fs).

Definition frame_ok (b : bytes) : Prop := bytes_ok b /\ len b < 65536.

Section Theorems.
Context {E : Type} `{Radio E} `{Crypto E} `{SessionApp E} `{NfcApp E}.
Implicit Types (s : nstate E) (ctx : od_cmd_ctx).

Lemma holds_reset : holds_upload nfc_zero None.
Proof. done. Qed.

Lemma holds_owner n u ctx :
  holds_upload n u -> active n && od_reply_same (c_rp ctx) (owner n) = of_owner (c_rp ctx) u.
Proof. intros [_ Hu]. destruct u as [u|]; [|by rewrite Hu]. destruct Hu as (-> & -> & _). done. Qed.

(** What a handler establishes: the events it adds and the upload it leaves. *)
Definition frame_post ctx s (u : option upload) (b : bytes) (r : nstate E * od_cmd_result) : Prop :=
  exists evs u', n_trace r.1 = n_trace s ++ evs /\ upload_step (c_rp ctx) u b evs u' /\ holds_upload (n_nfc r.1) u' /\
    (r.2 = OD_CMD_OK <-> exists status, last evs = Some (EvAck status true)).

Lemma nack_state ctx s err :
  n_trace (nack ctx s err).1 = n_trace s ++ [EvNack err] /\ n_nfc (nack ctx s err).1 = n_nfc s /\ (nack ctx s err).2 = OD_CMD_NACK.
Proof. unfold nack. by destruct (od_reply_plain _ _ _ _ _) as [[w r] st]. Qed.

(** A refusal that asked the tag [evs] first and leaves [u']. *)
Lemma nack_post ctx s0 s evs err u u' b :
  n_trace s = n_trace s0 ++ evs -> holds_upload (n_nfc s) u' -> upload_step (c_rp ctx) u b (evs ++ [EvNack err]) u' ->
  frame_post ctx s0 u b (nack ctx s err).
Proof.
  intros Ht Hn Hu. destruct (nack_state ctx s err) as (Ht' & Hn' & Hr). exists (evs ++ [EvNack err]), u'.
  rewrite Ht', Ht, Hn', Hr, app_assoc. split; [done|]. split; [done|]. split; [done|]. split; [done|].
  intros [st Hl]. by rewrite last_snoc in Hl.
Qed.

Lemma refuse ctx s err u b :
  holds_upload (n_nfc s) u -> refusal (c_rp ctx) u b err -> frame_post ctx s u b (nack ctx s err).
Proof. intros Hn Hr. apply (nack_post ctx s s [] err u u); [by rewrite app_nil_r|done|]. by constructor. Qed.

Lemma ack_state ctx s status frame :
  let '(s', q) := ack ctx s status frame in n_trace s' = n_trace s ++ [EvAck status q] /\ n_nfc s' = n_nfc s.
Proof. unfold ack. by destruct (od_reply _ _ _ _ _) as [[w r] st]. Qed.

(** An acknowledgement after [evs]. *)
Lemma ack_post ctx s0 s evs status frame u u' b :
  n_trace s = n_trace s0 ++ evs -> holds_upload (n_nfc s) u' ->
  (forall q, upload_step (c_rp ctx) u b (evs ++ [EvAck status q]) u') ->
  frame_post ctx s0 u b (let '(s, q) := ack ctx s status frame in (s, verdict q)).
Proof.
  intros Ht Hn Hu. pose proof (ack_state ctx s status frame) as Ha. destruct (ack ctx s status frame) as [s' q].
  destruct Ha as [Ht' Hn']. exists (evs ++ [EvAck status q]), u'. cbn [fst snd].
  rewrite Ht', Ht, Hn', app_assoc. split; [done|]. split; [done|]. split; [done|]. rewrite last_snoc.
  destruct q; cbn [verdict]; split; [by intros _; exists status|done|done|by intros [st [=]]].
Qed.

(** The acknowledgement of START and DATA: without it there is no upload. *)
Lemma armed_post ctx s0 s u u' b :
  n_trace s = n_trace s0 -> holds_upload (n_nfc s) (Some u') ->
  (forall q : bool, upload_step (c_rp ctx) u b [EvAck NFC_STATUS_CHUNK_ACCEPTED q] (if q then Some u' else None)) ->
  frame_post ctx s0 u b (ack_armed ctx s).
Proof.
  intros Ht Hn Hu. unfold ack_armed. pose proof (ack_state ctx s NFC_STATUS_CHUNK_ACCEPTED [RESP_ACK; RESP_NFC_ENDPOINT; NFC_STATUS_CHUNK_ACCEPTED]) as Ha.
  destruct (ack _ _ _ _) as [s' q]. destruct Ha as [Ht' Hn'].
  exists [EvAck NFC_STATUS_CHUNK_ACCEPTED q], (if q then Some u' else None). destruct q; cbn [fst snd].
  - rewrite Ht', Ht, Hn'. split; [done|]. split; [apply (Hu true)|]. split; [done|]. split; [|done]. intros _. by eexists.
  - split; [cbn; by rewrite Ht', Ht|]. split; [apply (Hu false)|]. split; [apply holds_reset|]. split; [done|]. by intros [st [=]].
Qed.

(** What [write] asked of the tag, before its answer. *)
Lemma tag_write_state s type payload :
  let '(ok, s') := tag_write s type payload in n_trace s' = n_trace s ++ [EvTagWrite type payload ok] /\ n_nfc s' = n_nfc s.
Proof. unfold tag_write. by destruct (od_nfc_app_write _ _ _). Qed.

(** Its answer, from a state [f s] in which only the assembler may have changed. *)
Lemma written_post ctx s u u' b type payload (f : nstate E -> nstate E) :
  (forall x, n_trace (f x) = n_trace x) -> (forall x, n_nfc x = n_nfc s -> holds_upload (n_nfc (f x)) u') ->
  (forall ok ev, written_answer ok ev -> upload_step (c_rp ctx) u b [EvTagWrite type payload ok; ev] u') ->
  frame_post ctx s u b (let '(ok, s) := tag_write s type payload in
    let s := f s in
    if ok then ack_committed ctx s NFC_STATUS_WRITE_COMMITTED else nack ctx s NFC_ERR_TAG_WRITE_FAILED).
Proof.
  intros Hft Hfn Hu. pose proof (tag_write_state s type payload) as Hw. destruct (tag_write s type payload) as [ok s'].
  destruct Hw as [Ht Hn]. destruct ok.
  - unfold ack_committed. apply (ack_post ctx s (f s') [EvTagWrite type payload true] _ _ u u'); [by rewrite Hft|by apply Hfn|].
    intros q. apply Hu. constructor.
  - apply (nack_post ctx s (f s') [EvTagWrite type payload false] _ u u'); [by rewrite Hft|by apply Hfn|]. apply Hu. constructor.
Qed.

Lemma handle_read_post ctx s u rest :
  holds_upload (n_nfc s) u -> frame_post ctx s u (NFC_SUB_READ :: rest) (handle_read ctx s).
Proof.
  intros Hn. unfold handle_read. destruct (od_nfc_app_read _ _) as [[[type rec]|] e].
  - set (s1 := set_tag s e _). destruct (OD_NFC_READ_MAX <? len rec).
    + apply (nack_post ctx s s1 [EvTagRead true] _ u u); [done|done|]. constructor.
    + apply (ack_post ctx s s1 [EvTagRead true] _ _ u u); [done|done|]. intros q. constructor.
  - apply (nack_post ctx s (set_tag s e (EvTagRead false)) [EvTagRead false] _ u u); [done|done|]. constructor.
Qed.

(** The header of a frame with at least four bytes. *)
Lemma split_four b0 rec hi lo body :
  is_byte hi -> is_byte lo ->
  exists header, od_span_split (of_bytes (b0 :: rec :: hi :: lo :: body)) 4 = Some (header, of_bytes body) /\
    at_ header 1 = rec /\ declared_of header = be16 hi lo.
Proof.
  intros Hh Hl. exists (od_span_make (Some (b0 :: rec :: hi :: lo :: body)) 4).
  unfold od_span_split, od_span_has, of_bytes, od_span_valid. cbn [sp sn od_span_make is_null negb orb andb].
  destruct (Z.leb_spec 4 (len (b0 :: rec :: hi :: lo :: body))) as [_|Hc]; [|cbn [length] in Hc; lia].
  split; [|split; [done|]].
  - do 3 f_equal. cbn [length]. lia.
  - unfold declared_of, be16. change (at_ _ 2) with hi. change (at_ _ 3) with lo. unfold is_byte in *.
    rewrite (wrap_id 16 (Z.shiftl hi 8)), lor_shiftl_add, Z.shiftl_mul_pow2;
      try rewrite wrap_id; unfold fits; rewrite ?Z.shiftl_mul_pow2; lia.
Qed.

Lemma be16_range hi lo : is_byte hi -> is_byte lo -> 0 <= be16 hi lo < 65536.
Proof. unfold be16, is_byte. lia. Qed.

Lemma split_short b0 rest : len rest < 3 -> od_span_split (of_bytes (b0 :: rest)) 4 = None.
Proof.
  intros Hr. unfold od_span_split, od_span_has, of_bytes. cbn [sp sn od_span_make]. cbn [length].
  destruct (Z.leb_spec 4 (Z.of_nat (S (length rest)))); [lia|]. by rewrite andb_false_r.
Qed.

Lemma split_one b0 chunk :
  exists h, od_span_split (of_bytes (b0 :: chunk)) 1 = Some (h, of_bytes chunk).
Proof.
  exists (od_span_make (Some (b0 :: chunk)) 1).
  unfold od_span_split, od_span_has, of_bytes, od_span_valid. cbn [sp sn od_span_make is_null negb orb andb length].
  destruct (Z.leb_spec 1 (Z.of_nat (S (length chunk)))) as [_|]; [|lia]. do 3 f_equal. lia.
Qed.

(** The frames of WRITE and START: too short for a header, or with its four bytes. *)
Lemma header_cases (rest : bytes) :
  bytes_ok rest ->
  len rest < 3 \/ exists rec hi lo body, rest = rec :: hi :: lo :: body /\ is_byte hi /\ is_byte lo.
Proof.
  intros Hb. destruct rest as [|rec [|hi [|lo body]]]; [left; cbn; lia..|right].
  exists rec, hi, lo, body. split; [done|]. by apply Forall_cons in Hb as [_ [? [? _]%Forall_cons]%Forall_cons].
Qed.

Lemma handle_inline_write_post ctx s u rest :
  bytes_ok rest -> len rest < 65536 -> holds_upload (n_nfc s) u ->
  frame_post ctx s u (NFC_SUB_WRITE :: rest) (handle_inline_write ctx (of_bytes (NFC_SUB_WRITE :: rest)) s).
Proof.
  intros Hb Hlen Hn. unfold handle_inline_write.
  destruct (header_cases rest Hb) as [Hs|(rec & hi & lo & body & -> & Hh & Hl)].
  { rewrite split_short by done. apply refuse; [done|]. apply Re_short; [by left|done]. }
  destruct (split_four NFC_SUB_WRITE rec hi lo body Hh Hl) as (header & -> & -> & ->).
  pose proof (be16_range hi lo Hh Hl) as Hr. cbn [sn of_bytes od_span_make length] in *.
  rewrite !(wrap_id 32) by (unfold fits; change (2 ^ 32) with 4294967296; lia).
  destruct (Z.ltb_spec (Z.of_nat (S (S (S (S (length body)))))) (be16 hi lo + 4)) as [Hd|Hd].
  { apply refuse; [done|]. apply Re_length. lia. }
  destruct (rec_type_valid rec) eqn:Ht; cbn [negb].
  2:{ apply refuse; [done|]. apply Re_type; [left; split; [done|lia]|done]. }
  unfold od_span_split, od_span_has. rewrite of_bytes_valid. cbn [sn of_bytes od_span_make andb].
  destruct (Z.leb_spec (be16 hi lo) (len body)) as [_|Hc]; [|lia].
  apply (written_post ctx s u u _ _ _ id); [done|by intros x Hx; unfold id; rewrite Hx|]. intros ok ev Hw. apply Up_write; [done|lia|done].
Qed.

Lemma handle_start_post ctx s u rest :
  bytes_ok rest -> holds_upload (n_nfc s) u ->
  frame_post ctx s u (NFC_SUB_WRITE_START :: rest) (handle_start ctx (of_bytes (NFC_SUB_WRITE_START :: rest)) s).
Proof.
  intros Hb Hn. unfold handle_start.
  destruct (header_cases rest Hb) as [Hs|(rec & hi & lo & body & -> & Hh & Hl)].
  { rewrite split_short by done. apply refuse; [done|]. apply Re_short; [by right|done]. }
  destruct (split_four NFC_SUB_WRITE_START rec hi lo body Hh Hl) as (header & -> & -> & ->).
  pose proof (be16_range hi lo Hh Hl) as Hr.
  destruct (rec_type_valid rec) eqn:Ht; cbn [negb]; [|apply refuse; [done|]; apply Re_type; [by right|done]].
  destruct (Z.eqb_spec (be16 hi lo) 0) as [Hz|Hz]; cbn [orb].
  { apply refuse; [done|]. apply Re_total; [done|by left]. }
  destruct (Z.ltb_spec OD_NFC_ASSEMBLY_MAX (be16 hi lo)) as [Hm|Hm]; unfold OD_NFC_ASSEMBLY_MAX in Hm.
  { apply refuse; [done|]. apply Re_total; [done|by right]. }
  apply (armed_post ctx s _ u {| u_owner := c_rp ctx; u_type := rec; u_total := be16 hi lo; u_bytes := [] |}); [done| |].
  - split; [done|]. cbn. repeat (split; [done || lia|]). lia.
  - intros q. apply Up_start; [done|lia].
Qed.

Lemma handle_data_post ctx s u chunk :
  len chunk < 65536 -> holds_upload (n_nfc s) u ->
  frame_post ctx s u (NFC_SUB_WRITE_DATA :: chunk) (handle_data ctx (of_bytes (NFC_SUB_WRITE_DATA :: chunk)) s).
Proof.
  intros Hlen Hn. unfold handle_data, owned_by. rewrite (holds_owner _ u ctx Hn).
  destruct (of_owner (c_rp ctx) u) eqn:Ho; cbn [negb].
  2:{ apply refuse; [done|]. apply Re_foreign; [by left|done]. }
  destruct u as [u|]; [|done]. destruct Hn as (Hd & Ha & Hw & Hy & Ht & Hrl & Htk & Hle & Hmax).
  assert (Hn : holds_upload (n_nfc s) (Some u)) by done.
  destruct (split_one NFC_SUB_WRITE_DATA chunk) as [h ->]. rewrite contents_of_bytes.
  unfold od_span_is_empty. cbn [sn of_bytes od_span_make].
  destruct (Z.eqb_spec (len chunk) 0) as [He|He].
  { destruct chunk; [|cbn in He; lia]. apply refuse; [done|]. by apply Re_no_chunk. }
  rewrite (wrap_id 32 (len chunk)), wrap_id by (unfold fits; change (2 ^ 32) with 4294967296; lia).
  rewrite Hrl, Ht. destruct (Z.ltb_spec (u_total u) (len (u_bytes u) + len chunk)) as [Hov|Hfit].
  - apply (nack_post ctx s (od_nfc_reset s) [] _ (Some u) None); [by rewrite app_nil_r|done|].
    apply Up_overflow; [done| |]; [by intros ->|]. rewrite length_app. lia.
  - rewrite wrap_id by (unfold fits; change (2 ^ 16) with 65536; lia).
    apply (armed_post ctx s _ (Some u)
      {| u_owner := u_owner u; u_type := u_type u; u_total := u_total u; u_bytes := u_bytes u ++ chunk |}); [done| |].
    + assert (Hroom : len (u_bytes u) + len chunk <= len (data (n_nfc s))) by (rewrite Hd; unfold OD_NFC_ASSEMBLY_MAX; lia).
      split; [by cbn; rewrite len_memcpy by lia|]. cbn. rewrite length_app. repeat (split; [done || lia|]).
      split; [|lia]. transitivity (take (Z.to_nat (len (u_bytes u) + len chunk)) (memcpy (data (n_nfc s)) (len (u_bytes u)) chunk)).
      * f_equal. lia.
      * rewrite take_memcpy, Nat2Z.id by lia. by rewrite Htk.
    + intros q. apply Up_data; [done|by intros ->|rewrite length_app; lia].
Qed.

Lemma handle_end_post ctx s u rest :
  holds_upload (n_nfc s) u -> frame_post ctx s u (NFC_SUB_WRITE_END :: rest) (handle_end ctx s).
Proof.
  intros Hn. unfold handle_end, owned_by. rewrite (holds_owner _ u ctx Hn).
  destruct (of_owner (c_rp ctx) u) eqn:Ho; cbn [negb].
  2:{ apply refuse; [done|]. apply Re_foreign; [by right|done]. }
  destruct u as [u|]; [|done]. pose proof Hn as (Hd & Ha & Hw & Hy & Ht & Hrl & Htk & Hle & Hmax).
  rewrite Hrl, Ht, Hy. destruct (Z.eqb_spec (len (u_bytes u)) (u_total u)) as [He|He]; cbn [negb].
  - rewrite <- He, Nat2Z.id, Htk. apply (written_post ctx s (Some u) None _ _ _ od_nfc_reset); [done|done|].
    intros ok ev Hok. by apply Up_end.
  - apply refuse; [done|]. by apply Re_early.
Qed.

(** Every frame is a step of the specification. *)
Lemma frame_refines ctx s u b :
  frame_ok b -> holds_upload (n_nfc s) u -> frame_post ctx s u b (od_nfc_frame (Some ctx) (of_bytes b) s).
Proof.
  intros [Hb Hlen] Hn. unfold od_nfc_frame. destruct b as [|sub rest]; [by apply refuse; [|constructor]|].
  apply Forall_cons in Hb as [_ Hb]. cbn [sp sn of_bytes od_span_make is_null orb length] in *.
  destruct (Z.ltb_spec (Z.of_nat (S (length rest))) 1); [lia|]. change (at_ _ 0) with sub.
  assert (Hlen' : len rest < 65536) by lia.
  destruct (Z.eqb_spec sub NFC_SUB_READ) as [->|]; [by apply handle_read_post|].
  destruct (Z.eqb_spec sub NFC_SUB_WRITE) as [->|]; [by apply handle_inline_write_post|].
  destruct (Z.eqb_spec sub NFC_SUB_WRITE_START) as [->|]; [by apply handle_start_post|].
  destruct (Z.eqb_spec sub NFC_SUB_WRITE_DATA) as [->|]; [by apply handle_data_post|].
  destruct (Z.eqb_spec sub NFC_SUB_WRITE_END) as [->|]; [by apply handle_end_post|].
  apply refuse; [done|]. apply Re_unknown. rewrite !not_elem_of_cons. by repeat split; [..|apply not_elem_of_nil].
Qed.

(** A frame as the dispatcher hands it over: the world it finds, which anything may
    have changed since the last one, and the reservation made for it. *)
Definition at_frame (w : world E) ctx s : nstate E :=
  {| n_world := w; n_token := Some (c_r ctx); n_nfc := n_nfc s; n_trace := n_trace s |}.

(** The frames of a run, each from its own link ... *)
Fixpoint nfc_run (fs : list (world E * (od_cmd_ctx * bytes))) s : nstate E :=
  match fs with
  | [] => s
  | (w, (ctx, b)) :: fs => nfc_run fs (od_nfc_frame (Some ctx) (of_bytes b) (at_frame w ctx s)).1
  end.

(** ... and the runs of the specification. *)
Inductive upload_run : option upload -> list (od_cmd_ctx * bytes) -> list nfc_event -> option upload -> Prop :=
| Ur_nil u : upload_run u [] [] u
| Ur_frame ctx b fs u u1 u2 evs evs' :
    upload_step (c_rp ctx) u b evs u1 -> upload_run u1 fs evs' u2 -> upload_run u ((ctx, b) :: fs) (evs ++ evs') u2.

Lemma run_refines fs s u :
  Forall (fun f => frame_ok f.2) fs.*2 -> holds_upload (n_nfc s) u ->
  exists evs u', n_trace (nfc_run fs s) = n_trace s ++ evs /\ upload_run u fs.*2 evs u' /\ holds_upload (n_nfc (nfc_run fs s)) u'.
Proof.
  revert s u. induction fs as [|[w [ctx b]] fs IH]; intros s u Hf Hn.
  - exists [], u. rewrite app_nil_r. split; [done|]. by split; [constructor|].
  - apply Forall_cons in Hf as [Hb Hf].
    destruct (frame_refines ctx (at_frame w ctx s) u b Hb Hn) as (evs & u1 & Ht & Hs & Hn1 & _).
    destruct (IH _ _ Hf Hn1) as (evs' & u2 & Ht' & Hr & Hn2). exists (evs ++ evs'), u2. cbn [nfc_run].
    rewrite Ht', Ht, app_assoc. split; [done|]. by split; [econstructor|].
Qed.

(** C32. The NFC endpoint refines the specification of an upload: from a reset,
    whatever frames arrive and from whichever links, the tag accesses and the answers
    are those of a run of [upload_step], which writes the tag only with a valid
    record type and the bytes of one frame or of one owner's complete upload; the
    assembler holds the upload the run ends in; and the next frame is answered with
    success exactly when its last event is an acknowledgement that was queued. *)
Theorem nfc_refines fs s w ctx b :
  Forall (fun f => frame_ok f.2) fs.*2 -> frame_ok b ->
  let s1 := nfc_run fs (od_nfc_reset s) in
  exists evs u, n_trace s1 = n_trace s ++ evs /\ upload_run None fs.*2 evs u /\
    frame_post ctx (at_frame w ctx s1) u b (od_nfc_frame (Some ctx) (of_bytes b) (at_frame w ctx s1)).
Proof.
  intros Hf Hb s1. destruct (run_refines fs (od_nfc_reset s) None Hf holds_reset) as (evs & u & Ht & Hr & Hn).
  exists evs, u. split; [done|]. split; [done|]. by apply frame_refines.
Qed.

Lemma bystander_step rp u b evs u' :
  bystander (u_owner u) rp b -> upload_step rp (Some u) b evs u' -> u' = Some u.
Proof.
  intros [Hs Ho] Hu. inversion Hu; subst; cbn in *; try done; rewrite Ho in *; naive_solver.
Qed.

(** A refusal's case analysis: the frame's kind, then its condition. *)
#[local] Ltac refused Hr :=
  inversion Hr; subst; cbn in *; repeat case_match; destruct_or?; destruct_and?; try done; try lia; try congruence;
  try (match goal with Hn : _ ∉ _ |- _ => destruct Hn; set_solver end).

(** The owner's chunk, once its acknowledgement is queued. *)
Lemma chunk_step rp u chunk evs u' :
  od_reply_same rp (u_owner u) = true -> chunk <> [] -> len (u_bytes u ++ chunk) <= u_total u ->
  EvAck NFC_STATUS_CHUNK_ACCEPTED false ∉ evs -> upload_step rp (Some u) (NFC_SUB_WRITE_DATA :: chunk) evs u' ->
  u' = Some {| u_owner := u_owner u; u_type := u_type u; u_total := u_total u; u_bytes := u_bytes u ++ chunk |}.
Proof.
  intros Ho Hne Hl Hq Hu.
  inversion Hu as [| | | |v c q| | |v b err Hr]; subst; try lia.
  - destruct q; [done|]. by destruct Hq; left.
  - refused Hr.
Qed.

Lemma upload_run_cons u ctx b fs evs u2 :
  upload_run u ((ctx, b) :: fs) evs u2 ->
  exists u1 e1 e2, evs = e1 ++ e2 /\ upload_step (c_rp ctx) u b e1 u1 /\ upload_run u1 fs e2 u2.
Proof. intros Hr. inversion Hr; subst. eauto 10. Qed.

(** The chunks of an upload arrive whole, whatever the bystanders do. *)
Lemma chunks_run owner chunks fs evs u u' :
  chunk_frames owner chunks fs -> u_owner u = owner -> len (u_bytes u) + len (concat chunks) <= u_total u ->
  EvAck NFC_STATUS_CHUNK_ACCEPTED false ∉ evs -> upload_run (Some u) fs evs u' ->
  u' = Some {| u_owner := owner; u_type := u_type u; u_total := u_total u; u_bytes := u_bytes u ++ concat chunks |}.
Proof.
  intros Hc. revert u evs. induction Hc as [|ctx chunk chunks fs Ho Hne Hc IH|ctx b chunks fs Hby Hc IH];
    intros u evs <- Hlen Hq Hr.
  - inversion Hr; subst. cbn. rewrite app_nil_r. by destruct u.
  - apply upload_run_cons in Hr as (u1 & e1 & e2 & -> & Hs & Hr). apply not_elem_of_app in Hq as [Hq1 Hq2].
    cbn [concat] in *. rewrite length_app in Hlen.
    apply chunk_step in Hs as ->; [|done..|rewrite length_app; lia|done].
    apply (IH _ e2) in Hr as ->; [cbn; by rewrite <- app_assoc|done|cbn; rewrite length_app; lia|done].
  - apply upload_run_cons in Hr as (u1 & e1 & e2 & -> & Hs & Hr). apply not_elem_of_app in Hq as [_ Hq2].
    apply (bystander_step _ _ _ _ _ Hby) in Hs as ->. by apply (IH u e2).
Qed.

Lemma start_step rp u rec hi lo body evs u' :
  rec_type_valid rec = true -> 1 <= be16 hi lo <= 512 -> EvAck NFC_STATUS_CHUNK_ACCEPTED false ∉ evs ->
  upload_step rp u (NFC_SUB_WRITE_START :: rec :: hi :: lo :: body) evs u' ->
  u' = Some {| u_owner := rp; u_type := rec; u_total := be16 hi lo; u_bytes := [] |}.
Proof.
  intros Ht Hr Hq Hu. inversion Hu as [| | |v r h l bd q| | | |v b err Hre]; subst.
  - destruct q; [done|]. by destruct Hq; left.
  - refused Hre.
Qed.

Lemma end_step rp u rest evs u' :
  od_reply_same rp (u_owner u) = true -> len (u_bytes u) = u_total u ->
  upload_step rp (Some u) (NFC_SUB_WRITE_END :: rest) evs u' ->
  u' = None /\ exists ok ev, evs = [EvTagWrite (u_type u) (u_bytes u) ok; ev] /\ written_answer ok ev.
Proof.
  intros Ho Hl Hu. inversion Hu as [| | | | | |v r ok ev|v b err Hre]; subst; [eauto|].
  refused Hre.
Qed.

Lemma upload_run_app u fs gs evs u2 :
  upload_run u (fs ++ gs) evs u2 ->
  exists u1 e1 e2, evs = e1 ++ e2 /\ upload_run u fs e1 u1 /\ upload_run u1 gs e2 u2.
Proof.
  revert u evs. induction fs as [|[ctx b] fs IH]; intros u evs Hr.
  - exists u, [], evs. split; [done|]. by split; [constructor|].
  - apply upload_run_cons in Hr as (u1 & e1 & e2 & -> & Hs & Hr). apply IH in Hr as (v & f1 & f2 & -> & Hr1 & Hr2).
    exists v, (e1 ++ f1), f2. rewrite app_assoc. split; [done|]. by split; [econstructor|].
Qed.

(** C33. An upload arrives: START, the owner's chunks in order, of the declared size
    together, whatever bystanders send in between, and END write the tag, last, with
    the declared type and exactly the concatenation of the chunks, provided every
    acknowledgement on the way was queued; and the assembler is free again. *)
Theorem nfc_upload_delivered frames ctx0 ctx1 s u rec hi lo body rest chunks fs :
  frames.*2 = (ctx0, NFC_SUB_WRITE_START :: rec :: hi :: lo :: body) :: fs ++ [(ctx1, NFC_SUB_WRITE_END :: rest)] ->
  Forall (fun f => frame_ok f.2) frames.*2 -> holds_upload (n_nfc s) u ->
  rec_type_valid rec = true -> be16 hi lo = len (concat chunks) -> 1 <= be16 hi lo <= 512 ->
  chunk_frames (c_rp ctx0) chunks fs -> od_reply_same (c_rp ctx1) (c_rp ctx0) = true ->
  (forall evs, n_trace (nfc_run frames s) = n_trace s ++ evs -> EvAck NFC_STATUS_CHUNK_ACCEPTED false ∉ evs) ->
  exists evs ok ev,
    n_trace (nfc_run frames s) = n_trace s ++ evs ++ [EvTagWrite rec (concat chunks) ok; ev] /\
    written_answer ok ev /\ holds_upload (n_nfc (nfc_run frames s)) None.
Proof.
  intros Hfs Hf Hn Ht Hsz Hr Hc Ho Hq.
  destruct (run_refines frames s u Hf Hn) as (evs & u' & Htr & Hu & Hn'). specialize (Hq _ Htr). rewrite Htr.
  rewrite Hfs in Hu. apply upload_run_cons in Hu as (u1 & e1 & e2 & -> & Hs & Hu).
  apply upload_run_app in Hu as (u2 & e3 & e4 & -> & Hm & He). apply upload_run_cons in He as (u3 & e5 & e6 & -> & He & Hnil).
  rewrite !not_elem_of_app in Hq. destruct Hq as (Hq1 & Hq3 & _).
  apply start_step in Hs as ->; [|done..].
  apply (chunks_run _ _ _ _ _ _ Hc) in Hm as ->; [|done|cbn; lia|done].
  apply end_step in He as (-> & ok & ev & -> & Hw); [|done|cbn; lia].
  inversion Hnil; subst. exists (e1 ++ e3), ok, ev. rewrite app_nil_r, <- !app_assoc. by split.
Qed.

End Theorems.

(** ** On concrete inputs *)

(** A tag that holds one text record and takes every write. *)
#[local] Instance toy_tag : NfcApp unit := {
  od_nfc_app_read e _ := (Some (OD_NFC_REC_TEXT, [0x68; 0x69]), e);
  od_nfc_app_write e _ _ := (true, e);
}.

Definition demo_state : nstate unit :=
  {| n_world := toy_world; n_token := None; n_nfc := nfc_zero; n_trace := [] |}.

Definition demo_link (tag : Z) : od_cmd_ctx :=
  {| c_rp := {| rp_origin := OD_ORIGIN_BLE; rp_tag := tag |}; c_r := {| remaining := 1; gen := 0 |};
     wire_len := 8; was_protected := true |}.

(** Link 1 uploads five bytes; link 2 tries to add its own and reads the tag.  Each
    frame finds a world with its reservation made. *)
Definition demo_world : world unit := set_txq toy_world (od_txq_reserve txq_init 1 (Some {| remaining := 0; gen := 0 |})).1.1 tt.
Definition demo_between : list (od_cmd_ctx * bytes) :=
  [(demo_link 1, [0x11; 1; 2]); (demo_link 2, [0x11; 9]); (demo_link 2, [0x00]); (demo_link 1, [0x11; 3; 4; 5])].
Definition demo_frames : list (od_cmd_ctx * bytes) :=
  (demo_link 1, [0x10; 0; 0; 5]) :: demo_between ++ [(demo_link 1, [0x12])].

Definition demo_run : nstate unit := nfc_run (pair demo_world <$> demo_frames) demo_state.

Lemma demo_ok : Forall (fun f => frame_ok f.2) (pair demo_world <$> demo_frames).*2.
Proof.
  rewrite <- list_fmap_compose, list_fmap_id. repeat apply Forall_cons_2; try apply Forall_nil_2.
  all: split; [repeat constructor; unfold is_byte; lia|cbn; lia].
Qed.

Lemma nfc_refines_witness :
  exists u, upload_run None [] [] u /\
    frame_post (demo_link 1) (at_frame demo_world (demo_link 1) demo_state) u [0x12]
      (od_nfc_frame (Some (demo_link 1)) (of_bytes [0x12]) (at_frame demo_world (demo_link 1) demo_state)).
Proof.
  destruct (nfc_refines [] demo_state demo_world (demo_link 1) [0x12]) as (evs & u & Ht & Hr & Hf).
  - apply Forall_nil_2.
  - split; [repeat constructor; unfold is_byte; lia|cbn; lia].
  - exists u. destruct evs; [done|done].
Defined.

Lemma demo_chunks : chunk_frames (c_rp (demo_link 1)) [[1; 2]; [3; 4; 5]] demo_between.
Proof.
  apply Cf_mine; [done|done|]. apply Cf_other; [by split; [|cbn; intros _]|]. apply Cf_other; [split; [done|by intros [?|?]]|].
  apply Cf_mine; [done|done|]. constructor.
Qed.

Lemma nfc_upload_delivered_witness :
  exists evs ok ev, n_trace demo_run = evs ++ [EvTagWrite OD_NFC_REC_TEXT [1; 2; 3; 4; 5] ok; ev].
Proof.
  destruct (nfc_upload_delivered (pair demo_world <$> demo_frames) (demo_link 1) (demo_link 1) demo_state None
    OD_NFC_REC_TEXT 0 5 [] [] [[1; 2]; [3; 4; 5]] demo_between) as (evs & ok & ev & Ht & Hw & _).
  - reflexivity.
  - exact demo_ok.
  - done.
  - reflexivity.
  - reflexivity.
  - vm_compute. by split.
  - exact demo_chunks.
  - reflexivity.
  - intros evs He. vm_compute in He. subst evs. rewrite !not_elem_of_cons. repeat split; try discriminate. apply not_elem_of_nil.
  - exists evs, ok, ev. exact Ht.
Defined.

End Nfc.
