(* ===== verification/Core.v ===== *)
(** The shared half of a teardown, [shared/core/od_core.c]. *)

From S2P Require Import Prelude Ring Hal TxQueue Span Proto Session World Reply Dispatch ConfigRead Color Pump PipeState XferState Xfer XferDirect XferPartial Pipe Transfer TransferCmds TransferSession Nfc.
Import Hal TxQueue Session World Dispatch Pump PipeState XferState Xfer Transfer TransferCmds TransferSession.

Module Core.

(** The objects a teardown reaches: the transfers with the queue and the session of
    their world, the NFC assembler, and the configuration reader. *)
Record core (E : Type) := { k_transfer : tstate E; k_nfc : Nfc.od_nfc; k_reader : ConfigRead.reader }.
Arguments k_transfer {E} _.
Arguments k_nfc {E} _.
Arguments k_reader {E} _.

Section Reset.
Context {E : Type} `{Radio E} `{Crypto E} `{SessionApp E} `{CommandApp E}
  `{InflaterProgress E} `{XferAppLaws E} `{PipeConfig}.

(** [None] would be a transfer reset that did not return ([core_reset_clean] rules it
    out). *)
Definition od_core_reset (c : core E) : option (core E) :=
  let nfc := Nfc.nfc_zero in
  match od_xfer_reset (k_transfer c) with
  | None => None
  | Some (_, t) =>
      let '(w, rd) := ConfigRead.od_config_read_cancel (t_world t) (k_reader c) in
      let w := set_txq w (od_txq_reset (w_txq w)) (w_env w) in
      let '(s, e) := od_session_clear (w_session w) (w_env w) in
      Some {| k_transfer := set_world (set_session w s e) t; k_nfc := nfc; k_reader := rd |}
  end.

(** Resetting the transfers leaves the queue and the session alone. *)
Lemma xfer_reset_world (s : tstate E) :
  wp od_xfer_reset (fun _ s' => w_txq (t_world s') = w_txq (t_world s) /\ w_session (t_world s') = w_session (t_world s)) s.
Proof.
  unfold od_xfer_reset, od_xfer_abort_active, abort_hardware. rewrite andb_false_r.
  destruct (od_xfer_owns_hardware (t_xfer s)) eqn:Ho; cbv [wp bind gets]; by rewrite Ho.
Qed.

Lemma cancel_facts (w : world E) rd :
  let '(w', rd') := ConfigRead.od_config_read_cancel w rd in
  ConfigRead.active rd' = false /\ s_gen (w_txq w') = s_gen (w_txq w) /\ w_session w' = w_session w.
Proof.
  unfold ConfigRead.od_config_read_cancel, ConfigRead.release_token, od_txq_release.
  destruct (ConfigRead.active rd) eqn:Ha; cbn [negb]; [|done]. destruct (_ =? 0); [done|]. by destruct (_ =? _).
Qed.

(** A reservation made before a queue reset commits nothing after it. *)
Lemma stale_token q (env : E) t rp frame n :
  fits 8 (s_gen q) -> gen t = s_gen q ->
  let '(q', env', _, st) := od_txq_commit (od_txq_reset q) env (Some t) rp frame n in
  q' = od_txq_reset q /\ env' = env /\ st = OD_TXQ_INVARIANT.
Proof.
  intros Hf Hg. cbn [od_txq_commit]. destruct rp as [rp|]; [|done]. destruct frame as [frame|]; [|done].
  destruct (n =? 0); [done|]. destruct (remaining t =? 0); [done|].
  assert (Hne : gen t <> s_gen (od_txq_reset q)).
  { rewrite Hg. cbn. unfold fits in Hf. change (2 ^ 8) with 256 in Hf. wrap_lia. }
  by destruct (Z.eqb_spec (gen t) (s_gen (od_txq_reset q))).
Qed.

(** It returns, with the transfers idle and the queue a reset one. *)
Lemma core_reset_spec (c : core E) :
  let q0 := w_txq (t_world (k_transfer c)) in
  tinv (k_transfer c) ->
  exists c' q, od_core_reset c = Some c' /\
    k_nfc c' = Nfc.nfc_zero /\ idle (k_transfer c') /\ ConfigRead.active (k_reader c') = false /\
    w_txq (t_world (k_transfer c')) = od_txq_reset q /\ s_gen q = s_gen q0 /\
    w_session (t_world (k_transfer c')) = zero_session (slot (w_session (t_world (k_transfer c)))).
Proof.
  intros q0 Ht. unfold od_core_reset.
  assert (Hi : wp od_xfer_reset (fun _ s' => idle s') (k_transfer c)) by (apply wp_abort_active; [by apply tinv_winv|by intros s' Hs _]).
  pose proof (xfer_reset_world (k_transfer c)) as Hw. unfold wp in Hi, Hw. destruct (od_xfer_reset (k_transfer c)) as [[? s']|]; [|done].
  destruct Hw as [Hq Hs]. pose proof (cancel_facts (t_world s') (k_reader c)) as Hc.
  destruct (ConfigRead.od_config_read_cancel (t_world s') (k_reader c)) as [w rd]. destruct Hc as (Ha & Hg & Hss).
  cbn [od_session_clear w_session set_txq]. eexists _, (w_txq w). split; [done|]. cbn -[od_txq_reset].
  split; [done|]. split; [exact Hi|]. split; [done|]. split; [done|]. split; [by rewrite Hg, Hq|by rewrite Hss, Hs].
Qed.

(** A teardown leaves nothing of the peer behind: it returns, and after it no
    upload and no transfer is in progress (a panel that was open was released), the
    configuration reader is off, the queue is empty with nothing reserved and refuses
    every reservation made before, and the session is the fresh one, unauthenticated
    and without a key. *)
Theorem core_reset_clean (c : core E) :
  let q0 := w_txq (t_world (k_transfer c)) in
  tinv (k_transfer c) -> fits 8 (s_gen q0) ->
  exists c', od_core_reset c = Some c' /\
    let w := t_world (k_transfer c') in
    k_nfc c' = Nfc.nfc_zero /\ idle (k_transfer c') /\ ConfigRead.active (k_reader c') = false /\
    entries (w_txq w) = [] /\ s_reserved (w_txq w) = 0 /\
    w_session w = zero_session (slot (w_session (t_world (k_transfer c)))) /\
    forall t env rp frame n, gen t = s_gen q0 ->
      let '(q, env', _, st) := od_txq_commit (w_txq w) env (Some t) rp frame n in
      q = w_txq w /\ env' = env /\ st = OD_TXQ_INVARIANT.
Proof.
  intros q0 Ht Hf. destruct (core_reset_spec c Ht) as (c' & q & Hc & Hn & Hi & Hr & Hq & Hg & Hs). exists c'. split; [done|].
  cbn zeta. rewrite Hq. split_and!; try done. intros t env rp frame n Hgt. apply stale_token; rewrite Hg; done.
Qed.
End Reset.

Lemma core_reset_clean_witness :
  exists c', od_core_reset {| k_transfer := toy_start; k_nfc := Nfc.nfc_zero; k_reader := ConfigRead.reader_zero |} = Some c' /\
    authenticated (w_session (t_world (k_transfer c'))) = false.
Proof.
  destruct (core_reset_clean {| k_transfer := toy_start; k_nfc := Nfc.nfc_zero; k_reader := ConfigRead.reader_zero |})
    as (c' & Hc & _ & _ & _ & _ & _ & Hs & _).
  - apply power_on_tinv.
  - split; [discriminate|reflexivity].
  - exists c'. split; [exact Hc|]. rewrite Hs. reflexivity.
Defined.

End Core.
