(* ===== verification/Adv.v ===== *)
(** Advertising policy, [shared/core/od_adv_control.c] over [shared/hal/od_hal_adv.h]:
    when the radio is programmed, started and stopped, against what is on air.  The
    controller is the object every function is given; the null checks on it have no
    counterpart. *)

From S2P Require Import Prelude.

Module Adv.

Definition OD_ADV_MSD_LEN : Z := 16.

Inductive od_hal_adv_result :=
| OD_HAL_ADV_OK | OD_HAL_ADV_ALREADY | OD_HAL_ADV_NOT_ACTIVE | OD_HAL_ADV_RETRY | OD_HAL_ADV_ERROR.

Inductive od_adv_process_result := OD_ADV_RECONCILED | OD_ADV_ACTED | OD_ADV_BUSY | OD_ADV_FAULTED.

(** [od_hal_adv.h]: the target's three calls. *)
Class AdvHal (E : Type) := {
  od_hal_adv_program : E -> bytes -> od_hal_adv_result * E;
  od_hal_adv_start : E -> od_hal_adv_result * E;
  od_hal_adv_stop : E -> od_hal_adv_result * E;
}.

(** [struct od_adv_control]. *)
Record od_adv_control := {
  stack_ready : bool; active : bool; connection_count : Z; desired : bool; payload_valid : bool; payload_dirty : bool;
  msd : bytes; desired_revision : Z; applied_revision : Z; faulted : bool;
}.

Definition od_adv_control_init : od_adv_control :=
  {| stack_ready := false; active := false; connection_count := 0; desired := false; payload_valid := false;
     payload_dirty := false; msd := replicate (Z.to_nat OD_ADV_MSD_LEN) 0; desired_revision := 0; applied_revision := 0;
     faulted := false |}.

Definition set_active (s : od_adv_control) (b : bool) : od_adv_control :=
  {| stack_ready := stack_ready s; active := b; connection_count := connection_count s; desired := desired s;
     payload_valid := payload_valid s; payload_dirty := payload_dirty s; msd := msd s;
     desired_revision := desired_revision s; applied_revision := applied_revision s; faulted := faulted s |}.

Definition set_faulted (s : od_adv_control) : od_adv_control :=
  {| stack_ready := stack_ready s; active := active s; connection_count := connection_count s; desired := desired s;
     payload_valid := payload_valid s; payload_dirty := payload_dirty s; msd := msd s;
     desired_revision := desired_revision s; applied_revision := applied_revision s; faulted := true |}.

Definition set_desired (s : od_adv_control) (b : bool) : od_adv_control :=
  {| stack_ready := stack_ready s; active := active s; connection_count := connection_count s; desired := b;
     payload_valid := payload_valid s; payload_dirty := payload_dirty s; msd := msd s;
     desired_revision := desired_revision s; applied_revision := applied_revision s; faulted := faulted s |}.

Definition od_adv_set_payload (s : od_adv_control) (m : bytes) : od_adv_control :=
  if payload_valid s && bool_decide (msd s = m) then s
  else {| stack_ready := stack_ready s; active := active s; connection_count := connection_count s; desired := desired s;
          payload_valid := true; payload_dirty := true; msd := m; desired_revision := u32 (desired_revision s + 1);
          applied_revision := applied_revision s; faulted := faulted s |}.

Definition od_adv_request_start (s : od_adv_control) : od_adv_control := set_desired s true.
Definition od_adv_request_stop (s : od_adv_control) : od_adv_control := set_desired s false.

Definition od_adv_stack_ready (s : od_adv_control) : od_adv_control :=
  {| stack_ready := true; active := active s; connection_count := connection_count s; desired := desired s;
     payload_valid := payload_valid s; payload_dirty := payload_dirty s; msd := msd s;
     desired_revision := desired_revision s; applied_revision := applied_revision s; faulted := faulted s |}.

Definition od_adv_stack_reset (s : od_adv_control) : od_adv_control :=
  {| stack_ready := false; active := false; connection_count := connection_count s; desired := desired s;
     payload_valid := payload_valid s; payload_dirty := if payload_valid s then true else payload_dirty s; msd := msd s;
     desired_revision := desired_revision s; applied_revision := u32 (desired_revision s - 1); faulted := false |}.

Definition od_adv_set_connection_count (s : od_adv_control) (count : Z) : od_adv_control :=
  {| stack_ready := stack_ready s; active := active s; connection_count := count; desired := desired s;
     payload_valid := payload_valid s; payload_dirty := payload_dirty s; msd := msd s;
     desired_revision := desired_revision s; applied_revision := applied_revision s; faulted := faulted s |}.

Definition od_adv_observe_ended (s : od_adv_control) : od_adv_control := set_active s false.

Definition classify (r : od_hal_adv_result) : od_adv_process_result :=
  match r with
  | OD_HAL_ADV_OK | OD_HAL_ADV_ALREADY | OD_HAL_ADV_NOT_ACTIVE => OD_ADV_ACTED
  | OD_HAL_ADV_RETRY => OD_ADV_BUSY
  | OD_HAL_ADV_ERROR => OD_ADV_FAULTED
  end.

(** The two assignments of step 3. *)
Definition set_applied (s : od_adv_control) : od_adv_control :=
  {| stack_ready := stack_ready s; active := active s; connection_count := connection_count s; desired := desired s;
     payload_valid := payload_valid s; payload_dirty := false; msd := msd s;
     desired_revision := desired_revision s; applied_revision := desired_revision s; faulted := faulted s |}.

(** What happens to the radio: a call, with the controller that made it and its
    outcome, or a fact the stack reports.  A record no operation reads. *)
Inductive adv_event :=
| Stop (by_ : od_adv_control) (r : od_adv_process_result)
| Program (by_ : od_adv_control) (r : od_adv_process_result)
| Start (by_ : od_adv_control) (r : od_adv_process_result)
| Ended
| Lost.

(** The controller, the target, and the record. *)
Record astate (E : Type) := { a_ctl : od_adv_control; a_env : E; a_trace : list adv_event }.
Arguments a_ctl {E} _.
Arguments a_env {E} _.
Arguments a_trace {E} _.

Section Operations.
Context {E : Type} `{AdvHal E}.
Implicit Types (x : astate E).

(** One HAL call's outcome: [acted] updates the controller, a fault is latched. *)
Definition settle x (res : od_hal_adv_result * E) (call : od_adv_process_result -> adv_event)
    (acted : od_adv_control -> od_adv_control) : astate E * od_adv_process_result :=
  let '(hal, e) := res in
  let r := classify hal in
  let s := a_ctl x in
  let s := match r with OD_ADV_ACTED => acted s | OD_ADV_FAULTED => set_faulted s | _ => s end in
  ({| a_ctl := s; a_env := e; a_trace := a_trace x ++ [call r] |}, r).

Definition od_adv_process x (start_allowed : bool) : astate E * od_adv_process_result :=
  let s := a_ctl x in
  if negb (stack_ready s) then (x, OD_ADV_RECONCILED)
  else if active s && (negb (desired s) || (0 <? connection_count s) || payload_dirty s) then
    settle x (od_hal_adv_stop (a_env x)) (Stop s) (fun s => set_active s false)
  else if faulted s then (x, OD_ADV_FAULTED)
  else if negb (active s) && payload_dirty s && payload_valid s then
    settle x (od_hal_adv_program (a_env x) (msd s)) (Program s) set_applied
  else if negb (active s) && desired s && (connection_count s =? 0) && payload_valid s && negb (payload_dirty s) && start_allowed then
    settle x (od_hal_adv_start (a_env x)) (Start s) (fun s => set_active s true)
  else (x, OD_ADV_RECONCILED).

Definition od_adv_is_quiescent (s : od_adv_control) : bool := negb (active s) && negb (desired s).

(** What the loop and the stack do with the controller; a pass finds the target as
    [e], which anything may have changed since the last one. *)
Inductive adv_op :=
| SetPayload (m : bytes) | RequestStart | RequestStop | StackReady | StackReset | ConnectionCount (n : Z) | ObserveEnded
| Process (e : E) (start_allowed : bool).

Definition on_ctl x (f : od_adv_control -> od_adv_control) (evs : list adv_event) : astate E :=
  {| a_ctl := f (a_ctl x); a_env := a_env x; a_trace := a_trace x ++ evs |}.

Definition do_op x (o : adv_op) : astate E :=
  match o with
  | SetPayload m => on_ctl x (fun s => od_adv_set_payload s m) []
  | RequestStart => on_ctl x od_adv_request_start []
  | RequestStop => on_ctl x od_adv_request_stop []
  | StackReady => on_ctl x od_adv_stack_ready []
  | StackReset => on_ctl x od_adv_stack_reset [Lost]
  | ConnectionCount n => on_ctl x (fun s => od_adv_set_connection_count s n) []
  | ObserveEnded => on_ctl x od_adv_observe_ended [Ended]
  | Process e allowed => (od_adv_process {| a_ctl := a_ctl x; a_env := e; a_trace := a_trace x |} allowed).1
  end.

Definition run x (os : list adv_op) : astate E := foldl do_op x os.
End Operations.

(** ** What the record says of the radio *)

(** The payload the stack holds, and whether it is on air. *)
Definition installed (t : list adv_event) : option bytes :=
  foldl (fun p ev => match ev with Program s OD_ADV_ACTED => Some (msd s) | Lost => None | _ => p end) None t.

Definition on_air (t : list adv_event) : bool :=
  foldl (fun b ev => match ev with
                     | Start _ OD_ADV_ACTED => true
                     | Stop _ OD_ADV_ACTED | Ended | Lost => false
                     | _ => b end) false t.

(** The contract of the radio's calls, after [t]: programming needs a radio that is
    off air; starting needs the intent, no connection and the newest payload. *)
Definition call_ok (t : list adv_event) (ev : adv_event) : Prop :=
  match ev with
  | Stop s _ => on_air t = true
  | Program s _ => on_air t = false /\ payload_valid s = true /\ faulted s = false
  | Start s _ => on_air t = false /\ desired s = true /\ connection_count s = 0 /\ faulted s = false /\ installed t = Some (msd s)
  | Ended | Lost => True
  end.

Inductive calls_ok : list adv_event -> Prop :=
| Calls_nil : calls_ok []
| Calls_snoc t ev : calls_ok t -> call_ok t ev -> calls_ok (t ++ [ev]).

(** What the controller knows of the radio. *)
Definition knows (s : od_adv_control) (t : list adv_event) : Prop :=
  active s = on_air t /\ (active s = true -> payload_valid s = true) /\ (payload_dirty s = true -> payload_valid s = true) /\
  (payload_valid s = true -> payload_dirty s = false -> installed t = Some (msd s) /\ applied_revision s = desired_revision s).

Section Theorems.
Context {E : Type} `{AdvHal E}.
Implicit Types (x : astate E).

Lemma on_air_snoc t ev :
  on_air (t ++ [ev]) = match ev with
                       | Start _ OD_ADV_ACTED => true
                       | Stop _ OD_ADV_ACTED | Ended | Lost => false
                       | _ => on_air t end.
Proof. unfold on_air. by rewrite foldl_snoc. Qed.

Lemma installed_snoc t ev :
  installed (t ++ [ev]) = match ev with Program s OD_ADV_ACTED => Some (msd s) | Lost => None | _ => installed t end.
Proof. unfold installed. by rewrite foldl_snoc. Qed.

Definition J x : Prop := knows (a_ctl x) (a_trace x) /\ calls_ok (a_trace x).

(** A pass that calls the radio. *)
Lemma settle_J x res call acted :
  J x -> call_ok (a_trace x) (call (classify res.1)) ->
  (forall s r, s = match r with OD_ADV_ACTED => acted (a_ctl x) | OD_ADV_FAULTED => set_faulted (a_ctl x) | _ => a_ctl x end ->
     knows s (a_trace x ++ [call r])) ->
  J (settle x res call acted).1.
Proof.
  intros [_ Hc] Hk Hs. unfold settle. destruct res as [hal e]. split; cbn [fst a_ctl a_trace].
  - by eapply Hs.
  - by constructor.
Qed.

#[local] Ltac known := split_and!; try done; intros; try congruence; try done; by auto.

Lemma process_J x allowed : J x -> J (od_adv_process x allowed).1.
Proof.
  intros HJ. pose proof HJ as [[Ha [Hav [Hd Hi]]] _]. unfold od_adv_process.
  destruct (stack_ready (a_ctl x)); cbn [negb]; [|done].
  destruct (active (a_ctl x)) eqn:Hact; cbn [andb negb].
  - destruct (_ || _ || _); [|by destruct (faulted (a_ctl x))]. apply settle_J; [done|by cbn|].
    intros s r ->. unfold knows. rewrite on_air_snoc, installed_snoc. destruct r; cbn; known.
  - destruct (faulted (a_ctl x)) eqn:Hf; [done|]. destruct (payload_dirty (a_ctl x)) eqn:Hdirty; cbn [andb negb].
    + rewrite (Hd eq_refl). apply settle_J; [done|by cbn; rewrite (Hd eq_refl)|].
      intros s r ->. unfold knows. rewrite on_air_snoc, installed_snoc. destruct r; cbn; known.
    + destruct (desired (a_ctl x)) eqn:Hde; cbn [andb]; [|done].
      destruct (Z.eqb_spec (connection_count (a_ctl x)) 0) as [Hn|]; cbn [andb]; [|done].
      destruct (payload_valid (a_ctl x)) eqn:Hv; cbn [andb]; [|done]. destruct allowed; [|done].
      destruct (Hi eq_refl eq_refl) as [Hin Hrev]. apply settle_J; [done|by cbn|].
      intros s r ->. unfold knows. rewrite on_air_snoc, installed_snoc. destruct r; cbn; known.
Qed.

Lemma op_J x o : J x -> J (do_op x o).
Proof.
  intros HJ. pose proof HJ as [[Ha [Hav [Hd Hi]]] Hc]. destruct o as [m| | | | |n| |e allowed]; cbn [do_op]; unfold J, on_ctl; cbn [a_ctl a_trace].
  8: { by apply process_J. }
  all: rewrite ?app_nil_r; split; [|by first [done|constructor]]; unfold knows; rewrite ?on_air_snoc, ?installed_snoc.
  - unfold od_adv_set_payload. destruct (payload_valid (a_ctl x)) eqn:Hv; cbn [andb]; [|done].
    destruct (bool_decide_reflect (msd (a_ctl x) = m)); [|done]. rewrite Hv. by auto.
  - done.
  - done.
  - done.
  - cbn. destruct (payload_valid (a_ctl x)); by auto.
  - done.
  - cbn. by auto.
Qed.

Lemma run_J x os : J x -> J (run x os).
Proof. revert x. induction os as [|o os IH]; intros x Hx; [done|]. apply (IH (do_op x o)), op_J, Hx. Qed.

Lemma process_one_call x allowed :
  (length (a_trace (od_adv_process x allowed).1) <= length (a_trace x) + 1)%nat.
Proof.
  assert (Hs : forall res call acted, (length (a_trace (settle x res call acted).1) <= length (a_trace x) + 1)%nat).
  { intros [hal e] call acted. cbn. by rewrite length_app. }
  unfold od_adv_process. repeat case_match; cbn [fst]; first [apply Hs|lia].
Qed.
Lemma op_one_call x o : (length (a_trace (do_op x o)) <= length (a_trace x) + 1)%nat.
Proof.
  destruct o; cbn [do_op on_ctl a_trace]; rewrite ?length_app; cbn [length]; try lia.
  eapply Nat.le_trans; [apply process_one_call|done].
Qed.

Definition power_on (e : E) : astate E := {| a_ctl := od_adv_control_init; a_env := e; a_trace := [] |}.


(** ** Passes with nothing else happening *)

Fixpoint passes (n : nat) x : astate E := match n with O => x | S n => passes n (od_adv_process x true).1 end.

(** What is left to do: stop, program, start. *)
Definition todo (s : od_adv_control) : nat :=
  if active s then (if negb (desired s) || (0 <? connection_count s) || payload_dirty s then 3 else 0)
  else if payload_dirty s && payload_valid s then 2
  else if desired s && (connection_count s =? 0) && payload_valid s && negb (payload_dirty s) then 1
  else 0.

(** A target that answers: no errors, and temporary refusals run out. *)
Definition answers (patience : E -> nat) (f : E -> od_hal_adv_result * E) : Prop :=
  forall e, (f e).1 <> OD_HAL_ADV_ERROR /\ ((f e).1 = OD_HAL_ADV_RETRY -> (patience (f e).2 < patience e)%nat).

Variable patience : E -> nat.
Hypothesis program_answers : forall m, answers patience (fun e => od_hal_adv_program e m).
Hypothesis start_answers : answers patience od_hal_adv_start.
Hypothesis stop_answers : answers patience od_hal_adv_stop.

(** What no pass changes. *)
Definition same_intent (s s' : od_adv_control) : Prop :=
  stack_ready s' = stack_ready s /\ faulted s' = faulted s /\ desired s' = desired s /\
  connection_count s' = connection_count s /\ payload_valid s' = payload_valid s /\ msd s' = msd s.

(** A call that is answered gets on with it. *)
Lemma settle_progress x f call acted :
  answers patience f -> (todo (acted (a_ctl x)) < todo (a_ctl x))%nat -> same_intent (a_ctl x) (acted (a_ctl x)) ->
  let y := (settle x (f (a_env x)) call acted).1 in
  same_intent (a_ctl x) (a_ctl y) /\
  ((todo (a_ctl y) < todo (a_ctl x))%nat \/ todo (a_ctl y) = todo (a_ctl x) /\ (patience (a_env y) < patience (a_env x))%nat).
Proof.
  intros Hf Ht Hs. destruct (Hf (a_env x)) as [Hne Hretry]. unfold settle. destruct (f (a_env x)) as [hal e].
  cbn in *. destruct hal; cbn; try done; [by split; [|left]..|]. split; [done|]. right. split; [done|]. by apply Hretry.
Qed.

Lemma pass_progress x :
  stack_ready (a_ctl x) = true -> faulted (a_ctl x) = false -> (0 < todo (a_ctl x))%nat ->
  let y := (od_adv_process x true).1 in
  same_intent (a_ctl x) (a_ctl y) /\
  ((todo (a_ctl y) < todo (a_ctl x))%nat \/ todo (a_ctl y) = todo (a_ctl x) /\ (patience (a_env y) < patience (a_env x))%nat).
Proof.
  intros Hr Hf Ht. unfold od_adv_process. rewrite Hr, Hf. cbn [negb].
  destruct (active (a_ctl x)) eqn:Ha; cbn [negb andb]; unfold todo in Ht; rewrite Ha in Ht.
  - destruct (_ || _) eqn:Hs in |- *; rewrite Hs in Ht; [|lia].
    apply (settle_progress x od_hal_adv_stop); [done| |done]. unfold todo. rewrite Ha, Hs. cbn. repeat case_match; lia.
  - destruct (payload_dirty (a_ctl x) && payload_valid (a_ctl x)) eqn:Hd.
    + apply (settle_progress x (fun e => od_hal_adv_program e (msd (a_ctl x)))); [done| |done].
      unfold todo. rewrite Ha, Hd. cbn. rewrite Ha. repeat case_match; lia.
    + rewrite andb_true_r. destruct (_ && _) eqn:Hs in |- *; rewrite Hs in Ht; [|lia].
      apply (settle_progress x od_hal_adv_start); [done| |done]. unfold todo. rewrite Ha, Hd, Hs. cbn.
      apply andb_true_iff in Hs as [[[-> Hn]%andb_true_iff _]%andb_true_iff Hc]. apply Z.eqb_eq in Hn. rewrite Hn.
      apply negb_true_iff in Hc. rewrite Hc. cbn. lia.
Qed.

(** Nothing left to do is a fixed point. *)
Lemma pass_settled x :
  stack_ready (a_ctl x) = true -> faulted (a_ctl x) = false -> todo (a_ctl x) = 0%nat -> od_adv_process x true = (x, OD_ADV_RECONCILED).
Proof.
  intros Hr Hf Ht. unfold od_adv_process, todo in *. rewrite Hr, Hf. cbn [negb].
  destruct (active (a_ctl x)); cbn [negb andb]; [by destruct (_ || _)|].
  destruct (payload_dirty (a_ctl x) && payload_valid (a_ctl x)); [done|]. rewrite andb_true_r. by destruct (_ && _).
Qed.

Lemma passes_settle x :
  stack_ready (a_ctl x) = true -> faulted (a_ctl x) = false ->
  exists n, let y := passes n x in same_intent (a_ctl x) (a_ctl y) /\ todo (a_ctl y) = 0%nat /\ od_adv_process y true = (y, OD_ADV_RECONCILED).
Proof.
  remember (todo (a_ctl x)) as t eqn:Ht. remember (patience (a_env x)) as k eqn:Hk. revert x k Ht Hk.
  induction t as [t IHt] using lt_wf_ind. intros x k. revert x. induction k as [k IHk] using lt_wf_ind. intros x -> -> Hr Hf.
  destruct (decide (todo (a_ctl x) = 0%nat)) as [Hz|Hz].
  { exists 0%nat. cbn. split; [done|]. split; [done|]. by apply pass_settled. }
  destruct (pass_progress x Hr Hf ltac:(lia)) as [Hs Hlt]. pose proof Hs as (Hr' & Hf' & _). rewrite Hr in Hr'. rewrite Hf in Hf'.
  assert (exists n, let y := passes n (od_adv_process x true).1 in same_intent (a_ctl (od_adv_process x true).1) (a_ctl y) /\
    todo (a_ctl y) = 0%nat /\ od_adv_process y true = (y, OD_ADV_RECONCILED)) as (n & Hn & Hy).
  { destruct Hlt as [Hlt|[He Hlt]]; [by eapply IHt|]. eapply IHk; [exact Hlt|done..]. }
  exists (S n). cbn [passes]. split; [|done]. unfold same_intent in *. by intuition congruence.
Qed.


End Theorems.

(** ** On concrete inputs *)

(** A target that refuses a call as often as its state says, and then takes it. *)
Definition toy_call (e : nat) : od_hal_adv_result * nat :=
  match e with O => (OD_HAL_ADV_OK, 3%nat) | S k => (OD_HAL_ADV_RETRY, k) end.

#[local] Instance toy_adv : AdvHal nat := {
  od_hal_adv_program e _ := toy_call e; od_hal_adv_start := toy_call; od_hal_adv_stop := toy_call;
}.

Lemma toy_answers : answers id toy_call.
Proof. intros [|k]; cbn; split; [done..|intros _; unfold id; lia]. Qed.


End Adv.
