(* ===== verification/Float.v ===== *)
(** C's [float] as the code uses it: the 32-bit format with the Standard Library's
    IEEE operations, each operation rounded to the format (the compiler does not
    contract a product and a sum into one rounding). *)

From Stdlib Require Import SpecFloat.
From S2P Require Import Prelude.

Module Float.

Definition float32 : Type := spec_float.
Definition f32_add : float32 -> float32 -> float32 := SFadd 24 128.
Definition f32_sub : float32 -> float32 -> float32 := SFsub 24 128.
Definition f32_mul : float32 -> float32 -> float32 := SFmul 24 128.
Definition f32_div : float32 -> float32 -> float32 := SFdiv 24 128.
(** The float nearest to [m * 2^e]. *)
Definition f32 (m e : Z) : float32 := binary_normalize 24 128 m e false.

(** A conversion to an integer: towards zero.  A number the integer type cannot
    hold, which C leaves undefined, is for the user of the conversion to rule out. *)
Definition f32_trunc (x : float32) : Z :=
  match x with
  | S754_finite s m e =>
      let magnitude := if 0 <=? e then Z.shiftl (Zpos m) e else Z.shiftr (Zpos m) (- e) in
      if s then - magnitude else magnitude
  | _ => 0
  end.

End Float.
