(* ===== verification/I2c.v ===== *)
(** The bus interface of the sensor and touch drivers, [shared/hal/od_hal_i2c.h]:
    four transactions on a bus named by its instance number. *)

From S2P Require Import Prelude.

Module I2c.

(** The four results. *)
Inductive i2c_result := OD_HAL_I2C_OK | OD_HAL_I2C_EIO | OD_HAL_I2C_ENODEV | OD_HAL_I2C_EINVAL.

#[export] Instance i2c_result_eq_dec : EqDecision i2c_result.
Proof. solve_decision. Defined.

(** A transaction may observe and change the world [E]: nothing is assumed about
    what answers, or whether it keeps answering.  A read takes the length of the
    buffer lent and returns what was read into it. *)
Class I2c (E : Type) := {
  (* bus, address *)
  od_hal_i2c_probe : E -> Z -> Z -> i2c_result * E;
  od_hal_i2c_write : E -> Z -> Z -> bytes -> i2c_result * E;
  od_hal_i2c_read : E -> Z -> Z -> Z -> i2c_result * bytes * E;
  (* bus, address, bytes written, length read, in one transaction *)
  od_hal_i2c_write_read : E -> Z -> Z -> bytes -> Z -> i2c_result * bytes * E;
}.

(** The buffer of [n] bytes after a read into it. *)
Definition lent (n : Z) (data : bytes) : bytes :=
  u8 <$> take (Z.to_nat n) (data ++ replicate (Z.to_nat n) 0).

Lemma lent_len n data : 0 <= n -> len (lent n data) = n.
Proof. intros. unfold lent. rewrite length_fmap, length_take, length_app, length_replicate. lia. Qed.

Lemma lent_ok n data : bytes_ok (lent n data).
Proof. apply Forall_fmap, Forall_true. intros x. by apply (wrap_fits 8). Qed.

Definition ok (r : i2c_result) : bool := bool_decide (r = OD_HAL_I2C_OK).

End I2c.
