(* ===== verification/Advert.v ===== *)
(** The broadcast, [shared/core/od_advert.c]: the sixteen bytes of manufacturer
    data, and a decoder that follows [struct MsdAdvertisement]. *)

From Stdlib Require Import SpecFloat.
From S2P Require Import Prelude Float.
Import Float.

Module Advert.

Definition OD_ADVERT_MSD_LEN : Z := 16.
Definition OD_ADVERT_DYNAMIC_LEN : Z := 11.
Definition OD_ADVERT_COMPANY_ID : Z := 0x2446.
Definition OD_ADVERT_BATTERY_10MV_MAX : Z := 511.
Definition OD_MSD_STATUS_BATTERY_VOLTAGE_BIT8 : Z := 1.
Definition OD_MSD_STATUS_REBOOT_FLAG : Z := 2.
Definition OD_MSD_STATUS_CONNECTION_REQUESTED : Z := 4.
Definition OD_MSD_STATUS_MAIN_LOOP_COUNTER_SHIFT : Z := 4.
Definition OD_MSD_STATUS_MAIN_LOOP_COUNTER_MASK : Z := 0xF0.
Definition OD_ADV_OFF_COMPANY : Z := 0.
Definition OD_ADV_OFF_DYNAMIC : Z := 2.
Definition OD_ADV_OFF_TEMP : Z := 13.
Definition OD_ADV_OFF_BATT_LOW : Z := 14.
Definition OD_ADV_OFF_STATUS : Z := 15.

Definition OD_ADVERT_TEMP_MIN_C : float32 := f32 (-40) 0.

Definition od_advert_encode_temperature (chip_temperature_c : float32) : Z :=
  let steps := f32_mul (f32_sub chip_temperature_c OD_ADVERT_TEMP_MIN_C) (f32 2 0) in
  if negb (SFltb (f32 0 0) steps) then 0
  else if SFleb (f32 255 0) steps then 255
  else u8 (f32_trunc steps).

Definition od_advert_battery_10mv_from_mv (battery_mv : Z) : Z :=
  let v10 := u16 (battery_mv `div` 10) in
  if OD_ADVERT_BATTERY_10MV_MAX <? v10 then OD_ADVERT_BATTERY_10MV_MAX else v10.

Definition od_advert_advance_counter (counter : Z) : Z := u8 (Z.land (counter + 1) 0x0F).

(** [struct od_advert_inputs]; a null [dynamic] is [None]. *)
Record od_advert_inputs := {
  dynamic : option bytes; chip_temperature_c : float32; battery_10mv : Z; reboot_flag : bool; connection_requested : bool;
  loop_counter : Z;
}.

Definition or_flag (b : bool) (flag st : Z) : Z := if b then u8 (Z.lor st flag) else st.

Definition status_of (i : od_advert_inputs) (battery : Z) : Z :=
  let st := or_flag (negb (Z.land battery 0x100 =? 0)) OD_MSD_STATUS_BATTERY_VOLTAGE_BIT8 0 in
  let st := or_flag (reboot_flag i) OD_MSD_STATUS_REBOOT_FLAG st in
  let st := or_flag (connection_requested i) OD_MSD_STATUS_CONNECTION_REQUESTED st in
  u8 (Z.lor st (u8 (Z.land (Z.shiftl (loop_counter i) OD_MSD_STATUS_MAIN_LOOP_COUNTER_SHIFT)
                      OD_MSD_STATUS_MAIN_LOOP_COUNTER_MASK))).

(** The sixteen bytes written to a buffer that is there; no inputs leave zeros. *)
Definition od_advert_build (i : option od_advert_inputs) : bytes :=
  let out := replicate (Z.to_nat OD_ADVERT_MSD_LEN) 0 in
  match i with
  | None => out
  | Some i =>
      let out := out.[OD_ADV_OFF_COMPANY := u8 (Z.land OD_ADVERT_COMPANY_ID 0xFF)] in
      let out := out.[OD_ADV_OFF_COMPANY + 1 := u8 (Z.land (Z.shiftr OD_ADVERT_COMPANY_ID 8) 0xFF)] in
      let out := match dynamic i with
                 | Some d => memcpy out OD_ADV_OFF_DYNAMIC (take (Z.to_nat OD_ADVERT_DYNAMIC_LEN) d)
                 | None => out end in
      let battery := if OD_ADVERT_BATTERY_10MV_MAX <? battery_10mv i then OD_ADVERT_BATTERY_10MV_MAX else battery_10mv i in
      let out := out.[OD_ADV_OFF_TEMP := od_advert_encode_temperature (chip_temperature_c i)] in
      let out := out.[OD_ADV_OFF_BATT_LOW := u8 (Z.land battery 0xFF)] in
      out.[OD_ADV_OFF_STATUS := status_of i battery]
  end.

(** ** The host's side *)

(** [struct MsdAdvertisement], decoded. *)
Record msd_view := {
  v_company : Z; v_dynamic : bytes; v_temperature : Z; v_battery_10mv : Z; v_reboot : bool; v_connect : bool;
  v_reserved : bool; v_counter : Z;
}.

Definition msd_decode (b : bytes) : msd_view :=
  {| v_company := b.[0] + 256 * b.[1]; v_dynamic := take 11 (drop 2 b); v_temperature := b.[13];
     v_battery_10mv := b.[14] + 256 * (b.[15] mod 2); v_reboot := Z.testbit b.[15] 1; v_connect := Z.testbit b.[15] 2;
     v_reserved := Z.testbit b.[15] 3; v_counter := b.[15] `div` 16 |}.

Lemma temperature_byte t : is_byte (od_advert_encode_temperature t).
Proof.
  unfold od_advert_encode_temperature, is_byte. repeat case_match; [lia|lia|]. by apply (wrap_fits 8).
Qed.

(** The documented scale: byte [k] is [k] half degrees above -40, for every [k]. *)
Definition half_degrees (k : Z) : float32 := f32 (k - 80) (-1).

Lemma temperature_scale k : 0 <= k < 256 -> od_advert_encode_temperature (half_degrees k) = k.
Proof.
  intros Hk. apply Z.eqb_eq, (forallb_below (fun k => od_advert_encode_temperature (half_degrees k) =? k) 256); [|done].
  vm_compute. reflexivity.
Qed.

Lemma battery_bit8 b : 0 <= b <= 511 -> negb (Z.land b 0x100 =? 0) = (256 <=? b).
Proof.
  intros Hb. apply eqb_prop.
  apply (forallb_below (fun b => Bool.eqb (negb (Z.land b 0x100 =? 0)) (256 <=? b)) 512); [vm_compute; reflexivity|lia].
Qed.

(** The status byte, field by field. *)
Definition status_ok (hi r c : bool) (n st : Z) : bool :=
  (0 <=? st) && (st <? 256) && (st mod 2 =? Z.b2z hi) && Bool.eqb (Z.testbit st 1) r && Bool.eqb (Z.testbit st 2) c &&
  negb (Z.testbit st 3) && (st `div` 16 =? n mod 16).

Lemma status_fields i battery :
  0 <= battery <= 511 -> is_byte (loop_counter i) ->
  status_ok (256 <=? battery) (reboot_flag i) (connection_requested i) (loop_counter i) (status_of i battery) = true.
Proof.
  intros Hb Hc. unfold status_of. rewrite (battery_bit8 battery Hb).
  generalize (256 <=? battery) (reboot_flag i) (connection_requested i). intros hi r c. revert Hc.
  generalize (loop_counter i). intros n Hn. revert n Hn. unfold is_byte.
  destruct hi, r, c; apply (forallb_below _ 256); vm_compute; reflexivity.
Qed.

(** The broadcast decodes to what was put in: the company, the dynamic block,
    the temperature byte, the battery clamped to what the field can carry, the flags
    and the low nibble of the counter, with the reserved bit clear; and the
    temperature byte [k] stands for [k] half degrees above -40. *)
Theorem advert_roundtrip i d k :
  dynamic i = Some d -> len d = OD_ADVERT_DYNAMIC_LEN -> 0 <= battery_10mv i -> is_byte (loop_counter i) ->
  chip_temperature_c i = half_degrees k -> 0 <= k < 256 ->
  len (od_advert_build (Some i)) = OD_ADVERT_MSD_LEN /\
  msd_decode (od_advert_build (Some i)) =
    {| v_company := OD_ADVERT_COMPANY_ID; v_dynamic := d; v_temperature := k;
       v_battery_10mv := battery_10mv i `min` 511; v_reboot := reboot_flag i; v_connect := connection_requested i;
       v_reserved := false; v_counter := loop_counter i mod 16 |}.
Proof.
  intros Hd Hl Hb Hc Ht Hk. unfold od_advert_build. rewrite Hd, Ht, (temperature_scale k Hk).
  unfold OD_ADVERT_DYNAMIC_LEN in Hl. rewrite take_ge by (unfold OD_ADVERT_DYNAMIC_LEN; lia).
  set (battery := if OD_ADVERT_BATTERY_10MV_MAX <? battery_10mv i then OD_ADVERT_BATTERY_10MV_MAX else battery_10mv i).
  assert (Hbat : battery = battery_10mv i `min` 511 /\ 0 <= battery <= 511).
  { subst battery. unfold OD_ADVERT_BATTERY_10MV_MAX. destruct (Z.ltb_spec 511 (battery_10mv i)); lia. }
  destruct Hbat as [<- Hbat]. pose proof (status_fields i battery Hbat Hc) as Hs. revert Hs.
  generalize (status_of i battery). intros st. unfold status_ok. rewrite !andb_true_iff, !eqb_true_iff, !Z.eqb_eq, negb_true_iff.
  intros ((((((_ & _) & H2) & <-) & <-) & H5) & <-).
  do 11 (destruct d as [|? d]; [cbn in Hl; lia|]). destruct d; [|cbn in Hl; lia]. split; [done|].
  unfold msd_decode. f_equal; [|done].
  change (u8 (Z.land battery 255) + 256 * (st mod 2) = battery). rewrite H2.
  change 255 with (Z.ones 8). rewrite Z.land_ones by lia. fold (wrap 8 battery). rewrite wrap_wrap by lia. unfold wrap. change (2 ^ 8) with 256.
  destruct (Z.leb_spec 256 battery); cbn [Z.b2z]; Z.to_euclidean_division_equations; lia.
Qed.

Lemma advert_roundtrip_witness :
  msd_decode (od_advert_build (Some {| dynamic := Some (replicate 11 9); chip_temperature_c := half_degrees 123;
    battery_10mv := 700; reboot_flag := true; connection_requested := false; loop_counter := 0x25 |})) =
  {| v_company := 0x2446; v_dynamic := replicate 11 9; v_temperature := 123; v_battery_10mv := 511; v_reboot := true;
     v_connect := false; v_reserved := false; v_counter := 5 |}.
Proof.
  apply (advert_roundtrip {| dynamic := Some (replicate 11 9); chip_temperature_c := half_degrees 123;
    battery_10mv := 700; reboot_flag := true; connection_requested := false; loop_counter := 0x25 |} (replicate 11 9) 123);
    [reflexivity..|cbn; lia|unfold is_byte; cbn; lia|reflexivity|lia].
Defined.

(** A sensor fault reports an end of the scale. *)
Example faulty_sensor :
  od_advert_encode_temperature S754_nan = 0 /\ od_advert_encode_temperature (S754_infinity true) = 0 /\
  od_advert_encode_temperature (S754_infinity false) = 255.
Proof. vm_compute. repeat split. Qed.

End Advert.
