(* ===== verification/Sensors.v ===== *)
(** The sensors: the SHT40 thermometer, [shared/core/od_sensor_sht40.c], and the
    BQ27220 fuel gauge, [shared/core/od_sensor_bq27220.c], over the target's half,
    [shared/core/od_sensor_app.h].

    What they publish is the advertisement's dynamic block.  The block is the
    target's; the model has the one of
    [targets/esp32-idf/src/od_sensor_app.cpp], an array of eleven bytes.  A wire
    struct is its bytes.  Log lines are left out. *)

From Stdlib Require Import SpecFloat.
From S2P Require Import Prelude Float I2c Span Proto ConfigTlv Config.
Import Float I2c Config.

Module Sensors.

Definition OD_MSD_DYNAMIC_LEN : Z := 11.
Definition OD_SENSOR_TYPE_SHT40 : Z := 4.
Definition OD_SENSOR_TYPE_BQ27220 : Z := 5.

(** The fields of [struct SensorData]. *)
Definition sensor_type (s : bytes) : Z := s.[1] + 256 * s.[2].
Definition bus_id (s : bytes) : Z := s.[3].
Definition i2c_addr_7bit (s : bytes) : Z := s.[4].
Definition msd_data_start_byte (s : bytes) : Z := s.[5].

(** The target's half. *)
Class SensorApp (E : Type) := {
  od_sensor_app_delay_ms : E -> Z -> E;
  od_sensor_app_bus_recover : E -> Z -> E;
  od_sensor_app_bq_enable_drive : E -> bool -> bool * E;
  (* [None]: no such pin, or it cannot be read *)
  od_sensor_app_bq_state_level : E -> option bool * E;
}.

Definition od_sensor_app_msd_write (msd : bytes) (index value : Z) : bytes :=
  if index <? len msd then msd.[index := value] else msd.

(** ** The SHT40 *)

Definition SHT40_CMD_MEASURE_HIGH : Z := 0xFD.
Definition SHT40_CMD_SOFT_RESET : Z := 0x94.
Definition SHT40_MEASURE_DELAY_MS : Z := 12.
Definition SHT40_MSD_POLL_TTL_MS : Z := 30000.

Definition crc8_bit (crc : Z) : Z :=
  if negb (Z.land crc 0x80 =? 0) then u8 (Z.lxor (Z.shiftl crc 1) 0x31) else u8 (Z.shiftl crc 1).
Definition crc8_byte (crc b : Z) : Z := Nat.iter 8 crc8_bit (Z.lxor crc b).
Definition sht40_crc8 (data : bytes) : Z := foldl crc8_byte 0xFF data.

Definition sht40_addr_7bit (s : bytes) : Z :=
  let a := i2c_addr_7bit s in if (a =? 0) || (a =? 0xFF) then 0x44 else a.

Definition sht40_msd_start (s : bytes) : Z :=
  let st := msd_data_start_byte s in if (st =? 0xFF) || (st =? 0) then 7 else st.

(** The two words, and what the code makes of them: hundredths of a degree and of
    a percent. *)
Definition raw_t (b : bytes) : Z := u16 (Z.lor (Z.shiftl b.[0] 8) b.[1]).
Definition raw_rh (b : bytes) : Z := u16 (Z.lor (Z.shiftl b.[3] 8) b.[4]).

Definition temp_of (raw : Z) : Z :=
  let tc := f32_add (f32 (-45) 0) (f32_mul (f32 175 0) (f32_div (f32 raw 0) (f32 65535 0))) in
  f32_trunc (f32_mul tc (f32 100 0)).

Definition rh_of (raw : Z) : Z :=
  let rh := f32_add (f32 (-6) 0) (f32_mul (f32 125 0) (f32_div (f32 raw 0) (f32 65535 0))) in
  let rh := if SFltb rh (f32 0 0) then f32 0 0 else rh in
  let rh := if SFltb (f32 100 0) rh then f32 100 0 else rh in
  f32_trunc (f32_mul rh (f32 100 0)).

Definition round_centi_to_deci (c : Z) : Z := if 0 <=? c then (c + 5) `quot` 10 else (c - 5) `quot` 10.

Definition clear_after (msd : bytes) (start : Z) : bytes :=
  if u16 start + 3 <? OD_MSD_DYNAMIC_LEN then od_sensor_app_msd_write msd (u8 (start + 3)) 0 else msd.

Definition sht40_write_msd (msd : bytes) (start temp_centi rh_centi : Z) : bytes :=
  let t_deci := round_centi_to_deci temp_centi in
  let t_deci := if t_deci <? -400 then -400 else t_deci in
  let t_deci := if 1250 <? t_deci then 1250 else t_deci in
  let tu := u32 (t_deci + 400) in
  let rh_d := u32 (rh_centi + 5) `div` 10 in
  let rh_d := if 1000 <? rh_d then 1000 else rh_d in
  let v := u32 (Z.lor (Z.land rh_d 0x3FF) (Z.shiftl tu 10)) in
  let msd := od_sensor_app_msd_write msd start (u8 (Z.land v 0xFF)) in
  let msd := od_sensor_app_msd_write msd (u8 (start + 1)) (u8 (Z.land (Z.shiftr v 8) 0xFF)) in
  let msd := od_sensor_app_msd_write msd (u8 (start + 2)) (u8 (Z.land (Z.shiftr v 16) 0xFF)) in
  clear_after msd start.

Definition sht40_write_msd_invalid (msd : bytes) (start : Z) : bytes :=
  let msd := od_sensor_app_msd_write msd start 0xFF in
  let msd := od_sensor_app_msd_write msd (u8 (start + 1)) 0xFF in
  let msd := od_sensor_app_msd_write msd (u8 (start + 2)) 0xFF in
  clear_after msd start.

Section Drivers.
Context {E : Type} `{!I2c E, !SensorApp E}.

(** [err_out]: 0 when the write went through. *)
Definition sht40_write_cmd (e : E) (bus addr7 cmd : Z) : bool * Z * E :=
  let '(rc, e) := od_hal_i2c_write e bus addr7 [cmd] in
  (ok rc, if ok rc then 0 else if bool_decide (rc = OD_HAL_I2C_EINVAL) then 4 else 2, e).

(** A reading, or [err_out]. *)
Definition sht40_read_measurement (e : E) (bus addr7 : Z) : (Z + Z * Z) * E :=
  let '(wrote, err, e) := sht40_write_cmd e bus addr7 SHT40_CMD_MEASURE_HIGH in
  if negb wrote then (inl err, e)
  else
    let e := od_sensor_app_delay_ms e SHT40_MEASURE_DELAY_MS in
    let '(rc, data, e) := od_hal_i2c_read e bus addr7 6 in
    let b := lent 6 data in
    if negb (ok rc) then (inl 0xFE, e)
    else if negb (sht40_crc8 (take 2 b) =? b.[2]) then (inl 0xFD, e)
    else if negb (sht40_crc8 (take 2 (drop 3 b)) =? b.[5]) then (inl 0xFC, e)
    else (inr (temp_of (raw_t b), rh_of (raw_rh b)), e).

Definition candidates (s : bytes) : bytes := [sht40_addr_7bit s; 0x44; 0x45].

(** One pass from candidate [i], of [n] left, with the error so far. *)
Fixpoint sample_pass (n : nat) (e : E) (bus : Z) (c : bytes) (i : Z) (last_err : Z) : (Z + Z * Z) * E :=
  match n with
  | O => (inl last_err, e)
  | S n =>
      if existsb (Z.eqb c.[i]) (take (Z.to_nat i) c) then sample_pass n e bus c (i + 1) last_err
      else match sht40_read_measurement e bus c.[i] with
           | (inr v, e) => (inr v, e)
           | (inl err, e) => sample_pass n e bus c (i + 1) err
           end
  end.

Definition sht40_sample (e : E) (s : bytes) (last_err : Z) : (Z + Z * Z) * E :=
  let bus := bus_id s in
  if bus =? 0xFF then (inl 0xFB, e)
  else match sample_pass 3 e bus (candidates s) 0 last_err with
       | (inr v, e) => (inr v, e)
       | (inl err, e) => sample_pass 3 (od_sensor_app_bus_recover e bus) bus (candidates s) 0 err
       end.

(** The five probes; their results are only logged. *)
Definition sht40_probe_bus_once (e : E) (bus : Z) : E :=
  foldl (fun e a => (od_hal_i2c_probe e bus a).2) e [0x44; 0x45; 0x51; 0x55; 0x6A].

(** The records in use. *)
Definition sensors_of (cfg : od_config) : list bytes := take (Z.to_nat (count (sensors cfg))) (elems (sensors cfg)).

Definition init_one (x : bool * E) (s : bytes) : bool * E :=
  let '(probed, e) := x in
  if negb (sensor_type s =? OD_SENSOR_TYPE_SHT40) || (bus_id s =? 0xFF) then (probed, e)
  else
    let '(wrote, _, e) := sht40_write_cmd e (bus_id s) (sht40_addr_7bit s) SHT40_CMD_SOFT_RESET in
    let e := if wrote then e
             else let e := (sht40_write_cmd e (bus_id s) 0x44 SHT40_CMD_SOFT_RESET).2 in
                  (sht40_write_cmd e (bus_id s) 0x45 SHT40_CMD_SOFT_RESET).2 in
    let e := od_sensor_app_delay_ms e 2 in
    if probed then (probed, e) else (true, sht40_probe_bus_once e (bus_id s)).

Definition od_sensor_sht40_init (e : E) (cfg : option od_config) : E :=
  match cfg with None => e | Some cfg => (foldl init_one (false, e) (sensors_of cfg)).2 end.

(** The function's statics, the block and the world. *)
Record sht40_state := { last_poll_ms : Z; have_polled : bool; logged_fail : bool; block : bytes; env : E }.

Definition poll_one (x : sht40_state) (s : bytes) : sht40_state :=
  if negb (sensor_type s =? OD_SENSOR_TYPE_SHT40) then x
  else
    let start := sht40_msd_start s in
    if OD_MSD_DYNAMIC_LEN <? u16 start + 3 then x
    else
      match sht40_sample (env x) s 0 with
      | (inr (temp_centi, rh_centi), e) =>
          {| last_poll_ms := last_poll_ms x; have_polled := have_polled x; logged_fail := false;
             block := sht40_write_msd (block x) start temp_centi rh_centi; env := e |}
      | (inl _, e) =>
          {| last_poll_ms := last_poll_ms x; have_polled := have_polled x; logged_fail := true;
             block := sht40_write_msd_invalid (block x) start; env := e |}
      end.

Definition od_sensor_sht40_poll (x : sht40_state) (cfg : option od_config) (now_ms : Z) : sht40_state :=
  match cfg with
  | None => x
  | Some cfg =>
      if have_polled x && (u32 (now_ms - last_poll_ms x) <? SHT40_MSD_POLL_TTL_MS) then x
      else foldl poll_one {| last_poll_ms := now_ms; have_polled := true; logged_fail := logged_fail x;
                             block := block x; env := env x |} (sensors_of cfg)
  end.

(** ** The BQ27220 *)

Definition BQ27220_CMD_VOLTAGE : Z := 0x08.
Definition BQ27220_CMD_SOC : Z := 0x2C.
Definition BQ27220_MSD_CHARGING_BIT : Z := 0x80.
Definition BQ27220_MSD_POLL_TTL_MS : Z := 30000.
Definition BQ27220_DEFAULT_ADDR : Z := 0x55.
Definition OD_CHARGER_FLAG_ENABLE_ACTIVE_LOW : Z := 1.
Definition OD_CHARGER_FLAG_STATE_ACTIVE_LOW : Z := 2.

(** [PowerOption.charger_flags]. *)
Definition charger_flags (cfg : od_config) : Z := (power_option cfg).[22].

(** The file's statics, the poll's, the block and the world. *)
Record bq27220_state := {
  s_batt_v : float32; s_soc : Z; s_gauge_ok : bool; bq_last_poll_ms : Z; bq_have_polled : bool; bq_block : bytes; bq_env : E;
}.

Fixpoint first_gauge (l : list bytes) : option bytes :=
  match l with
  | [] => None
  | s :: l => if sensor_type s =? OD_SENSOR_TYPE_BQ27220 then Some s else first_gauge l
  end.

Definition bq27220_config (cfg : option od_config) : option bytes :=
  match cfg with None => None | Some cfg => first_gauge (sensors_of cfg) end.

Definition bq27220_addr_7bit (s : bytes) : Z :=
  let a := i2c_addr_7bit s in if (a =? 0) || (a =? 0xFF) then BQ27220_DEFAULT_ADDR else a.

(** [None]: the block was not read. *)
Definition bq27220_read_block (e : E) (s : bytes) (cmd n : Z) : option bytes * E :=
  if bus_id s =? 0xFF then (None, e)
  else let '(rc, data, e) := od_hal_i2c_write_read e (bus_id s) (bq27220_addr_7bit s) [cmd] n in
       (if ok rc then Some (lent n data) else None, e).

Definition od_sensor_bq27220_is_configured (cfg : option od_config) : bool := bool_decide (is_Some (bq27220_config cfg)).

Definition od_sensor_bq27220_voltage_volts (x : bq27220_state) : float32 := if s_gauge_ok x then s_batt_v x else f32 (-1) 0.

Definition charger_flag_set (cfg : option od_config) (mask : Z) : bool :=
  match cfg with None => false | Some cfg => negb (Z.land (charger_flags cfg) mask =? 0) end.

Definition bq27220_enable_level (cfg : option od_config) : bool :=
  negb (charger_flag_set cfg OD_CHARGER_FLAG_ENABLE_ACTIVE_LOW).

Definition bq27220_level_is_charging (cfg : option od_config) (level_high : bool) : bool :=
  if charger_flag_set cfg OD_CHARGER_FLAG_STATE_ACTIVE_LOW then negb level_high else level_high.

Definition od_sensor_bq27220_init (e : E) (cfg : option od_config) : E :=
  let e := (od_sensor_app_bq_enable_drive e (bq27220_enable_level cfg)).2 in
  match bq27220_config cfg with
  | None => e
  | Some s => if bus_id s =? 0xFF then e else (bq27220_read_block e s BQ27220_CMD_VOLTAGE 2).2
  end.

Definition clamp_soc (soc : Z) : Z := if 100 <? soc then 100 else soc.

(** What the poll publishes once the voltage was read. *)
Definition bq27220_publish (block : bytes) (idx : Z) (gauge_ok : bool) (soc : Z) (charging : bool) : bytes :=
  if OD_MSD_DYNAMIC_LEN <=? idx then block
  else if negb gauge_ok || (100 <? soc) then od_sensor_app_msd_write block idx 0xFF
  else
    let packed := u8 (Z.land soc 0x7F) in
    let packed := if charging then u8 (Z.lor packed BQ27220_MSD_CHARGING_BIT) else packed in
    od_sensor_app_msd_write block idx packed.

Definition od_sensor_bq27220_poll (x : bq27220_state) (cfg : option od_config) (now_ms : Z) : bq27220_state :=
  match bq27220_config cfg with
  | None => x
  | Some s =>
      if bq_have_polled x && (u32 (now_ms - bq_last_poll_ms x) <? BQ27220_MSD_POLL_TTL_MS) then x
      else
        match bq27220_read_block (bq_env x) s BQ27220_CMD_VOLTAGE 2 with
        | (None, e) =>
            {| s_batt_v := f32 (-1) 0; s_soc := 0xFF; s_gauge_ok := false; bq_last_poll_ms := now_ms;
               bq_have_polled := true; bq_block := bq_block x; bq_env := e |}
        | (Some raw, e) =>
            let mv := u16 (Z.lor raw.[0] (Z.shiftl raw.[1] 8)) in
            let gauge_ok := 0 <? mv in
            let '(soc, e) := bq27220_read_block e s BQ27220_CMD_SOC 1 in
            let s_soc := match soc with Some b => clamp_soc b.[0] | None => 0xFF end in
            let '(level, e) := od_sensor_app_bq_state_level e in
            let charging := match level with Some level_high => bq27220_level_is_charging cfg level_high | None => false end in
            {| s_batt_v := f32_div (f32 mv 0) (f32 1000 0); s_soc := s_soc; s_gauge_ok := gauge_ok;
               bq_last_poll_ms := now_ms; bq_have_polled := true;
               bq_block := bq27220_publish (bq_block x) (msd_data_start_byte s) gauge_ok s_soc charging; bq_env := e |}
        end
  end.
End Drivers.

Arguments sht40_state E : clear implicits.
Arguments bq27220_state E : clear implicits.

(** ** The frame check *)

(** A frame as the part sends it: two words, each with its check byte. *)
Definition frame_ok (b : bytes) : Prop := sht40_crc8 [b.[0]; b.[1]] = b.[2] /\ sht40_crc8 [b.[3]; b.[4]] = b.[5].

Definition flipped_bits (x : Z) : Z := foldr (fun k n => Z.b2z (Z.testbit x k) + n) 0 [0; 1; 2; 3; 4; 5; 6; 7].

Lemma crc8_byte_0 c b : crc8_byte c b = crc8_byte 0 (Z.lxor c b).
Proof. done. Qed.

(** The step is linear: a shift, and a constant per top bit. *)
Lemma crc8_bit_alt c :
  is_byte c -> crc8_bit c = Z.lxor (u8 (Z.shiftl c 1)) (if Z.testbit c 7 then 0x31 else 0) /\ is_byte (crc8_bit c).
Proof.
  intros Hc. assert (Hf : ((crc8_bit c =? Z.lxor (u8 (Z.shiftl c 1)) (if Z.testbit c 7 then 0x31 else 0)) &&
    (0 <=? crc8_bit c) && (crc8_bit c <? 256)) = true).
  { revert c Hc. apply (forallb_below (fun c => (crc8_bit c =? Z.lxor (u8 (Z.shiftl c 1)) (if Z.testbit c 7 then 0x31 else 0)) &&
      (0 <=? crc8_bit c) && (crc8_bit c <? 256)) 256). vm_compute. reflexivity. }
  unfold is_byte. lia.
Qed.

Lemma crc8_bit_linear a b :
  is_byte a -> is_byte b ->
  is_byte (crc8_bit a) /\ crc8_bit (Z.lxor a b) = Z.lxor (crc8_bit a) (crc8_bit b).
Proof.
  intros Ha Hb. destruct (crc8_bit_alt a Ha) as [-> Ha1], (crc8_bit_alt b Hb) as [-> _].
  destruct (crc8_bit_alt (Z.lxor a b) (lxor_byte _ _ Ha Hb)) as [-> _]. split; [done|].
  rewrite Z.lxor_spec, Z.shiftl_lxor. apply Z.bits_inj'. intros i Hi.
  rewrite !Z.lxor_spec, !wrap_testbit, !Z.lxor_spec by lia.
  destruct (Z.testbit a 7), (Z.testbit b 7); cbn [xorb]; rewrite ?Z.bits_0;
    destruct (i <? 8), (Z.testbit (Z.shiftl a 1) i), (Z.testbit (Z.shiftl b 1) i), (Z.testbit 0x31 i); reflexivity.
Qed.

Lemma crc8_byte_linear a b :
  is_byte a -> is_byte b ->
  is_byte (crc8_byte 0 a) /\ crc8_byte 0 (Z.lxor a b) = Z.lxor (crc8_byte 0 a) (crc8_byte 0 b).
Proof.
  unfold crc8_byte. rewrite !Z.lxor_0_l. generalize 8%nat. intros n Ha Hb.
  assert (Hn : is_byte (Nat.iter n crc8_bit a) /\ is_byte (Nat.iter n crc8_bit b) /\
    Nat.iter n crc8_bit (Z.lxor a b) = Z.lxor (Nat.iter n crc8_bit a) (Nat.iter n crc8_bit b)); [|tauto].
  induction n as [|n (IHa & IHb & IH)]; [done|]. rewrite !Nat.iter_succ, IH.
  destruct (crc8_bit_linear _ _ IHa IHb) as [? ->], (crc8_bit_linear _ _ IHb IHa) as [? _]. done.
Qed.

Lemma crc8_byte_ok a : is_byte a -> is_byte (crc8_byte 0 a).
Proof. intros Ha. by apply (crc8_byte_linear a a). Qed.

(** The remainder of a pair of bytes, and how flips change it. *)
Definition remainder (a b : Z) : Z := crc8_byte 0 (Z.lxor (crc8_byte 0 a) b).

Lemma sht40_crc8_flips a b x y :
  is_byte a -> is_byte b -> is_byte x -> is_byte y ->
  sht40_crc8 [Z.lxor a x; Z.lxor b y] = Z.lxor (sht40_crc8 [a; b]) (remainder x y).
Proof.
  intros Ha Hb Hx Hy. unfold sht40_crc8, remainder. cbn [foldl].
  assert (Hff : is_byte 0xFF) by (unfold is_byte; lia).
  rewrite (crc8_byte_0 255), (crc8_byte_0 (crc8_byte 0 (Z.lxor 255 (Z.lxor a x)))), (crc8_byte_0 255 a), (crc8_byte_0 (crc8_byte 0 (Z.lxor 255 a))).
  rewrite <- (Z.lxor_assoc 255 a x), (proj2 (crc8_byte_linear _ _ (lxor_byte _ _ Hff Ha) Hx)).
  set (p := crc8_byte 0 (Z.lxor 0xFF a)). set (q := crc8_byte 0 x).
  assert (Hp : is_byte p) by (by apply crc8_byte_ok, lxor_byte). assert (Hq : is_byte q) by (by apply crc8_byte_ok).
  replace (Z.lxor (Z.lxor p q) (Z.lxor b y)) with (Z.lxor (Z.lxor p b) (Z.lxor q y)).
  - by rewrite (proj2 (crc8_byte_linear _ _ (lxor_byte _ _ Hp Hb) (lxor_byte _ _ Hq Hy))).
  - apply Z.bits_inj'. intros i _. rewrite !Z.lxor_spec. by destruct (Z.testbit p i), (Z.testbit q i), (Z.testbit b i), (Z.testbit y i).
Qed.

Lemma flipped_bits_pos x : 0 <= flipped_bits x.
Proof.
  unfold flipped_bits. cbn [foldr]. repeat match goal with |- context [Z.b2z ?b] => destruct b; cbn [Z.b2z] end; lia.
Qed.

(** No pattern of one to three flips in a word and its check byte leaves a remainder
    equal to the flips of the check byte. *)
Lemma few_flips x y z :
  is_byte x -> is_byte y -> is_byte z -> remainder x y = z ->
  flipped_bits x + flipped_bits y + flipped_bits z <= 3 -> x = 0 /\ y = 0 /\ z = 0.
Proof.
  intros Hx Hy Hz <- Hw.
  pose (f x y := if 3 <? flipped_bits x + flipped_bits y then true
                 else if (x =? 0) && (y =? 0) then true else 3 <? flipped_bits x + flipped_bits y + flipped_bits (remainder x y)).
  pose (g x := if 3 <? flipped_bits x then true else forallb (fun y => f x (Z.of_nat y)) (seq 0 256)).
  pose proof (flipped_bits_pos x) as Hx0. pose proof (flipped_bits_pos y) as Hy0. pose proof (flipped_bits_pos (remainder x y)) as Hz0.
  pose proof (forallb_below g 256 ltac:(vm_compute; reflexivity) x Hx) as Hg.
  subst g. cbn beta in Hg. destruct (Z.ltb_spec 3 (flipped_bits x)); [lia|].
  pose proof (forallb_below (f x) 256 Hg y Hy) as Hf.
  subst f. cbn beta in Hf. destruct (Z.ltb_spec 3 (flipped_bits x + flipped_bits y)); [lia|].
  assert (Hxy : (x =? 0) && (y =? 0) = true).
  { destruct ((x =? 0) && (y =? 0)); [done|]. apply Z.ltb_lt in Hf. exfalso. clear -Hf Hw. lia. }
  apply andb_true_iff in Hxy as [->%Z.eqb_eq ->%Z.eqb_eq]. by split; [|split; [|vm_compute]].
Qed.

#[local] Opaque sht40_crc8 flipped_bits.

Lemma flips_seen a b c x y z :
  is_byte a -> is_byte b -> is_byte x -> is_byte y -> is_byte z -> sht40_crc8 [a; b] = c ->
  flipped_bits x + flipped_bits y + flipped_bits z <= 3 ->
  sht40_crc8 [Z.lxor a x; Z.lxor b y] = Z.lxor c z -> x = 0 /\ y = 0 /\ z = 0.
Proof.
  intros Ha Hb Hx Hy Hz <- Hw He. rewrite sht40_crc8_flips in He by done.
  apply few_flips; try done. apply (f_equal (Z.lxor (sht40_crc8 [a; b]))) in He.
  by rewrite <- !Z.lxor_assoc, !Z.lxor_nilpotent, !Z.lxor_0_l in He.
Qed.

Lemma lent_id data : bytes_ok data -> lent (len data) data = data.
Proof.
  intros Hb. unfold lent. rewrite Nat2Z.id, take_app_length. induction Hb as [|x l Hx Hl IH]; [done|].
  rewrite fmap_cons, IH. f_equal. by apply wrap_id.
Qed.

Lemma Forall_zip_with_lxor l k : bytes_ok l -> bytes_ok k -> bytes_ok (zip_with Z.lxor l k).
Proof.
  intros Hl. revert k. induction Hl as [|a l Ha Hl IH]; intros k Hk; [constructor|].
  destruct Hk as [|b k Hb Hk]; [constructor|]. constructor; [by apply lxor_byte|by apply IH].
Qed.

Lemma frame_flips (frame flips : bytes) :
  bytes_ok frame -> bytes_ok flips -> length frame = 6%nat -> length flips = 6%nat -> frame_ok frame ->
  flipped_bits flips.[0] + flipped_bits flips.[1] + flipped_bits flips.[2] <= 3 ->
  flipped_bits flips.[3] + flipped_bits flips.[4] + flipped_bits flips.[5] <= 3 ->
  frame_ok (zip_with Z.lxor frame flips) -> flips = replicate 6 0.
Proof.
  intros Hf Hx Hlf Hlx [Hok1 Hok2] H1 H2 [He1 He2].
  destruct frame as [|a0 [|a1 [|a2 [|a3 [|a4 [|a5 [|]]]]]]]; try discriminate Hlf.
  destruct flips as [|x0 [|x1 [|x2 [|x3 [|x4 [|x5 [|]]]]]]]; try discriminate Hlx. clear Hlf Hlx.
  unfold bytes_ok in *.
  do 6 (apply Forall_cons in Hf as [? Hf]). do 6 (apply Forall_cons in Hx as [? Hx]).
  assert (Hw : x0 = 0 /\ x1 = 0 /\ x2 = 0) by (apply (flips_seen a0 a1 a2); [assumption..|exact Hok1|exact H1|exact He1]).
  assert (Hv : x3 = 0 /\ x4 = 0 /\ x5 = 0) by (apply (flips_seen a3 a4 a5); [assumption..|exact Hok2|exact H2|exact He2]).
  destruct Hw as (-> & -> & ->), Hv as (-> & -> & ->). reflexivity.
Qed.

(** C39. Up to three flipped bits in a word and its check byte, or in each of the two, are
    always noticed: no such frame is taken for a reading. *)
Theorem sht40_flips_refused {E} `{!I2c E, !SensorApp E} (e e1 e2 : E) bus addr7 (frame flips : bytes) :
  sht40_write_cmd e bus addr7 SHT40_CMD_MEASURE_HIGH = (true, 0, e1) ->
  od_hal_i2c_read (od_sensor_app_delay_ms e1 SHT40_MEASURE_DELAY_MS) bus addr7 6 =
    (OD_HAL_I2C_OK, zip_with Z.lxor frame flips, e2) ->
  bytes_ok frame -> bytes_ok flips -> length frame = 6%nat -> length flips = 6%nat ->
  frame_ok frame -> flips <> replicate 6 0 ->
  flipped_bits flips.[0] + flipped_bits flips.[1] + flipped_bits flips.[2] <= 3 ->
  flipped_bits flips.[3] + flipped_bits flips.[4] + flipped_bits flips.[5] <= 3 ->
  exists err, sht40_read_measurement e bus addr7 = (inl err, e2) /\ (err = 0xFD \/ err = 0xFC).
Proof.
  intros Hw Hr Hf Hx Hlf Hlx [Hok1 Hok2] Hne H1 H2. unfold sht40_read_measurement. rewrite Hw. cbn [negb].
  rewrite Hr. unfold ok. cbn [negb bool_decide decide decide_rel].
  assert (Hlz : len (zip_with Z.lxor frame flips) = 6) by (rewrite length_zip_with; lia).
  rewrite <- Hlz, lent_id by (apply Forall_zip_with_lxor; done).
  change (negb (bool_decide (OD_HAL_I2C_OK = OD_HAL_I2C_OK))) with false. cbn iota.
  pose proof (frame_flips frame flips Hf Hx Hlf Hlx (conj Hok1 Hok2) H1 H2) as Hff. clear Hok1 Hok2 H1 H2 Hr.
 assert (Hl6 : length (zip_with Z.lxor frame flips) = 6%nat) by lia. clear Hlz.
  destruct (zip_with Z.lxor frame flips) as [|b0 [|b1 [|b2 [|b3 [|b4 [|b5 [|]]]]]]]; try discriminate Hl6.
  change (take 2 [b0; b1; b2; b3; b4; b5]) with [b0; b1]. change (take 2 (drop 3 [b0; b1; b2; b3; b4; b5])) with [b3; b4].
  unfold frame_ok in Hff. change [b0; b1; b2; b3; b4; b5].[0] with b0 in Hff. change [b0; b1; b2; b3; b4; b5].[1] with b1 in Hff.
  change [b0; b1; b2; b3; b4; b5].[2] with b2 in *. change [b0; b1; b2; b3; b4; b5].[3] with b3 in Hff.
  change [b0; b1; b2; b3; b4; b5].[4] with b4 in Hff. change [b0; b1; b2; b3; b4; b5].[5] with b5 in *.
  destruct (Z.eqb_spec (sht40_crc8 [b0; b1]) b2); [|by eauto]. destruct (Z.eqb_spec (sht40_crc8 [b3; b4]) b5); [|by eauto].
  exfalso. by apply Hne, Hff.
Qed.

(** ** What is published *)

(** Three bytes at [start], the least significant first, and the one after them
    cleared if there is one. *)
Definition put (msd : bytes) (start v : Z) : bytes :=
  let msd := od_sensor_app_msd_write msd start (u8 (Z.land v 0xFF)) in
  let msd := od_sensor_app_msd_write msd (u8 (start + 1)) (u8 (Z.land (Z.shiftr v 8) 0xFF)) in
  let msd := od_sensor_app_msd_write msd (u8 (start + 2)) (u8 (Z.land (Z.shiftr v 16) 0xFF)) in
  clear_after msd start.

Definition three_bytes (msd : bytes) (start : Z) : Z := msd.[start] + 256 * msd.[start + 1] + 65536 * msd.[start + 2].

Lemma msd_write_in (msd : bytes) i v : i < len msd -> od_sensor_app_msd_write msd i v = msd.[i := v].
Proof. intros. unfold od_sensor_app_msd_write. destruct (Z.ltb_spec i (len msd)); [done|lia]. Qed.

Lemma put_spec msd start v :
  len msd = OD_MSD_DYNAMIC_LEN -> 0 <= start <= 8 -> 0 <= v < 2 ^ 24 ->
  len (put msd start v) = OD_MSD_DYNAMIC_LEN /\ three_bytes (put msd start v) start = v /\
  (forall i, 0 <= i -> ~ start <= i <= start + 3 -> (put msd start v).[i] = msd.[i]).
Proof.
  unfold OD_MSD_DYNAMIC_LEN. intros Hl Hs Hv. unfold put, clear_after, OD_MSD_DYNAMIC_LEN.
  rewrite !(wrap_id 8 (start + _)) by (unfold fits; lia). rewrite (wrap_id 16 start) by (unfold fits; lia).
  rewrite (msd_write_in msd) by lia. rewrite (msd_write_in (msd.[_ := _])) by (rewrite len_set; lia).
  rewrite (msd_write_in (_.[start + 1 := _])) by (rewrite !len_set; lia).
  set (b0 := u8 (Z.land v 255)). set (b1 := u8 (Z.land (Z.shiftr v 8) 255)). set (b2 := u8 (Z.land (Z.shiftr v 16) 255)).
  assert (Hb : b0 + 256 * b1 + 65536 * b2 = v).
  { subst b0 b1 b2. change 255 with (Z.ones 8). rewrite !Z.land_ones, !Z.shiftr_div_pow2 by lia.
    unfold wrap. change (2 ^ 24) with 16777216 in Hv. change (2 ^ 8) with 256. change (2 ^ 16) with 65536.
    Z.to_euclidean_division_equations. lia. }
  set (m := msd.[start := b0].[start + 1 := b1].[start + 2 := b2]).
  assert (Hm : len m = 11 /\ three_bytes m start = v /\ (forall i, 0 <= i -> ~ start <= i <= start + 2 -> m.[i] = msd.[i])).
  { subst m. split; [by rewrite !len_set|]. unfold three_bytes. split.
    - rewrite get_set_eq by (rewrite !len_set; lia). rewrite (get_set_ne _ (start + 2) start), (get_set_ne _ (start + 2)) by lia.
      rewrite get_set_eq by (rewrite !len_set; lia). rewrite get_set_ne by lia. by rewrite get_set_eq by lia.
    - intros i Hi Hne. by rewrite !get_set_ne by lia. }
  clearbody m. destruct Hm as (Hlm & Hvm & Hom). destruct (Z.ltb_spec (start + 3) 11).
  - rewrite msd_write_in by lia. rewrite len_set. unfold three_bytes. rewrite !(get_set_ne m) by lia.
    split; [done|split; [done|]]. intros i Hi Hne. rewrite get_set_ne by lia. apply Hom; lia.
  - split; [done|split; [done|]]. intros i Hi Hne. apply Hom; lia.
Qed.

(** The value the code packs, and the host's reading of three bytes: tenths of a
    degree and of a percent, or nothing. *)
Definition clamped (t_deci : Z) : Z :=
  let t_deci := if t_deci <? -400 then -400 else t_deci in if 1250 <? t_deci then 1250 else t_deci.
Definition rh_tenths (rh_centi : Z) : Z := let rh_d := u32 (rh_centi + 5) `div` 10 in if 1000 <? rh_d then 1000 else rh_d.
Definition sample_value (temp_centi rh_centi : Z) : Z :=
  u32 (Z.lor (Z.land (rh_tenths rh_centi) 0x3FF) (Z.shiftl (u32 (clamped (round_centi_to_deci temp_centi) + 400)) 10)).

Definition host_decode (v : Z) : option (Z * Z) :=
  if v =? 0xFFFFFF then None else Some (v `div` 1024 mod 2048 - 400, v mod 1024).

Lemma sht40_write_msd_put msd start t h : sht40_write_msd msd start t h = put msd start (sample_value t h).
Proof. reflexivity. Qed.
Lemma sht40_write_msd_invalid_put msd start : sht40_write_msd_invalid msd start = put msd start 0xFFFFFF.
Proof. reflexivity. Qed.

Lemma sample_value_spec t h :
  0 <= sample_value t h < 2 ^ 24 /\
  host_decode (sample_value t h) = Some (clamped (round_centi_to_deci t), rh_tenths h).
Proof.
  unfold sample_value.
  assert (Hr : 0 <= rh_tenths h <= 1000).
  { unfold rh_tenths. pose proof (wrap_fits 32 (h + 5) ltac:(lia)) as Hw. unfold fits in Hw.
    destruct (Z.ltb_spec 1000 (u32 (h + 5) `div` 10)); [lia|]. split; [apply Z.div_pos; lia|lia]. }
  assert (Hc : -400 <= clamped (round_centi_to_deci t) <= 1250).
  { unfold clamped. split_ifs. }
  generalize dependent (rh_tenths h). generalize dependent (clamped (round_centi_to_deci t)). intros d Hd r Hr.
  rewrite (wrap_id 32 (d + 400)) by (unfold fits; lia). change 0x3FF with (Z.ones 10). rewrite Z.land_ones, Z.mod_small by lia.
  rewrite Z.lor_comm, lor_shiftl_add by (unfold fits; lia). rewrite Z.shiftl_mul_pow2 by lia. change (2 ^ 10) with 1024.
  rewrite wrap_id by (unfold fits; lia). change (2 ^ 24) with 16777216. split; [lia|]. unfold host_decode.
  destruct (Z.eqb_spec ((d + 400) * 1024 + r) 0xFFFFFF); [lia|]. do 2 f_equal; Z.to_euclidean_division_equations; lia.
Qed.

(** How far a published number of tenths is from what the raw word stands for:
    [scale * raw / 65535 + offset], within [low] and [high], in hundredths of a tenth. *)
Definition error (scale offset low high raw deci : Z) : Z :=
  100 * Z.abs (Z.min (Z.max (10 * (scale * raw + 65535 * offset)) (65535 * low)) (65535 * high) - 65535 * deci).

(** Along the range, rails included, the rounded [float] computation stays within
    half a tenth and a hundredth, and the conversions to [int16_t] and [uint16_t] are of
    numbers they can hold. *)
Definition accurate (raw : Z) : bool :=
  (error 175 (-45) (-400) 1250 raw (clamped (round_centi_to_deci (temp_of raw))) <=? 51 * 65535) &&
  (error 125 (-6) 0 1000 raw (rh_tenths (rh_of raw)) <=? 51 * 65535) &&
  (-2 ^ 15 <=? temp_of raw) && (temp_of raw <? 2 ^ 15) && (0 <=? rh_of raw) && (rh_of raw <? 2 ^ 16).

Example accurate_along_the_range : forallb (fun k => accurate (257 * Z.of_nat k)) (seq 0 256) = true.
Proof. vm_compute. reflexivity. Qed.

(** ** A poll of the thermometers *)

Section Sht40.
Context {E : Type} `{!I2c E, !SensorApp E}.

(** A record that gets a slot. *)
Definition has_slot (s : bytes) : Prop :=
  sensor_type s = OD_SENSOR_TYPE_SHT40 /\ sht40_msd_start s + 3 <= OD_MSD_DYNAMIC_LEN.

#[local] Instance has_slot_dec s : Decision (has_slot s).
Proof. unfold has_slot. apply _. Defined.

(** Where a published sample, or its absence, comes from: a frame read at one of the
    sensor's addresses that passed both checks; or no bus, or a failure at every
    address. *)
Inductive sampled (s : bytes) : option (Z * Z) -> Prop :=
| sampled_frame (e e' : E) a data :
    a ∈ candidates s -> od_hal_i2c_read e (bus_id s) a 6 = (OD_HAL_I2C_OK, data, e') -> frame_ok (lent 6 data) ->
    sampled s (Some (raw_t (lent 6 data), raw_rh (lent 6 data)))
| sampled_no_bus : bus_id s = 0xFF -> sampled s None
| sampled_mute :
    (forall a, a ∈ candidates s -> exists (e : E) err, (sht40_read_measurement e (bus_id s) a).1 = inl err) -> sampled s None.

(** The value a slot carries. *)
Definition slot_value (r : option (Z * Z)) : Z :=
  match r with Some (t, h) => sample_value (temp_of t) (rh_of h) | None => 0xFFFFFF end.

Definition publish_one (msd : bytes) (sr : bytes * option (Z * Z)) : bytes :=
  if decide (has_slot sr.1) then put msd (sht40_msd_start sr.1) (slot_value sr.2) else msd.

Lemma read_measurement_frame e bus a t h e1 :
  sht40_read_measurement e bus a = (inr (t, h), e1) ->
  exists e0 data, od_hal_i2c_read e0 bus a 6 = (OD_HAL_I2C_OK, data, e1) /\ frame_ok (lent 6 data) /\
    t = temp_of (raw_t (lent 6 data)) /\ h = rh_of (raw_rh (lent 6 data)).
Proof.
  unfold sht40_read_measurement. destruct (sht40_write_cmd e bus a SHT40_CMD_MEASURE_HIGH) as [[[] err] e']; [|done].
  cbn [negb]. destruct (od_hal_i2c_read (od_sensor_app_delay_ms e' SHT40_MEASURE_DELAY_MS) bus a 6) as [[rc data] e''] eqn:Hr.
  unfold ok. destruct (bool_decide_reflect (rc = OD_HAL_I2C_OK)) as [->|]; [|done]. cbn [negb].
  pose proof (lent_len 6 data ltac:(lia)) as Hl. set (b := lent 6 data) in *.
  destruct b as [|b0 [|b1 [|b2 [|b3 [|b4 [|b5 [|]]]]]]] eqn:Hb; try (exfalso; cbn [length] in Hl; lia).
  change (take 2 [b0; b1; b2; b3; b4; b5]) with [b0; b1]. change (take 2 (drop 3 [b0; b1; b2; b3; b4; b5])) with [b3; b4].
  change [b0; b1; b2; b3; b4; b5].[2] with b2. change [b0; b1; b2; b3; b4; b5].[5] with b5.
  destruct (Z.eqb_spec (sht40_crc8 [b0; b1]) b2) as [H1|]; [|done]. cbn [negb].
  destruct (Z.eqb_spec (sht40_crc8 [b3; b4]) b5) as [H2|]; [|done]. cbn [negb]. injection 1 as <- <- <-.
  exists (od_sensor_app_delay_ms e' SHT40_MEASURE_DELAY_MS), data. rewrite Hr. fold b. rewrite Hb. split; [done|]. by split.
Qed.

(** One pass: a reading, or a failure at every address from the [i]th on that is not
    a repetition of an earlier one. *)
Lemma sample_pass_spec n e bus c i err0 :
  match sample_pass n e bus c i err0 with
  | (inr (t, h), e1) => exists e0 j, i <= j < i + Z.of_nat n /\ sht40_read_measurement e0 bus c.[j] = (inr (t, h), e1)
  | (inl _, _) => forall j, i <= j < i + Z.of_nat n -> existsb (Z.eqb c.[j]) (take (Z.to_nat j) c) = true \/
      exists e0 err, (sht40_read_measurement e0 bus c.[j]).1 = inl err
  end.
Proof.
  revert e i err0. induction n as [|n IH]; intros e i err0; cbn [sample_pass]; [intros j Hj; lia|].
  destruct (existsb (Z.eqb c.[i]) (take (Z.to_nat i) c)) eqn:Hdup.
  - specialize (IH e (i + 1) err0). destruct (sample_pass n e bus c (i + 1) err0) as [[?|[t h]] e1].
    + intros j Hj. destruct (Z.eq_dec j i) as [->|]; [by left|]. apply IH. lia.
    + destruct IH as (e0 & j & Hj & He). exists e0, j. split; [lia|done].
  - destruct (sht40_read_measurement e bus c.[i]) as [[err|[t h]] e1] eqn:Hr.
    + specialize (IH e1 (i + 1) err). destruct (sample_pass n e1 bus c (i + 1) err) as [[?|[t h]] e2].
      * intros j Hj. destruct (Z.eq_dec j i) as [->|]; [right; exists e, err; by rewrite Hr|]. apply IH. lia.
      * destruct IH as (e0 & j & Hj & He). exists e0, j. split; [lia|done].
    + exists e, i. split; [lia|done].
Qed.

(** A pass over the candidates, repetitions included. *)
Lemma sample_pass_candidates e bus s err0 :
  match sample_pass 3 e bus (candidates s) 0 err0 with
  | (inr (t, h), e1) => exists e0 a, a ∈ candidates s /\ sht40_read_measurement e0 bus a = (inr (t, h), e1)
  | (inl _, _) => forall a, a ∈ candidates s -> exists (e0 : E) err, (sht40_read_measurement e0 bus a).1 = inl err
  end.
Proof.
  pose proof (sample_pass_spec 3 e bus (candidates s) 0 err0) as Hp.
  destruct (sample_pass 3 e bus (candidates s) 0 err0) as [[err|[t h]] e1].
  - set (k := sht40_addr_7bit s) in *. assert (Hc : candidates s = [k; 0x44; 0x45]) by done. rewrite Hc in *.
    assert (H0 : exists (e0 : E) err, (sht40_read_measurement e0 bus k).1 = inl err) by (by destruct (Hp 0 ltac:(lia)) as [?|?]).
    assert (H1 : exists (e0 : E) err, (sht40_read_measurement e0 bus 0x44).1 = inl err).
    { destruct (Hp 1 ltac:(lia)) as [Hd|Hd]; [|done]. change (existsb (Z.eqb 0x44) [k] = true) in Hd. cbn [existsb] in Hd.
      rewrite orb_false_r in Hd. apply Z.eqb_eq in Hd as <-. done. }
    assert (H2 : exists (e0 : E) err, (sht40_read_measurement e0 bus 0x45).1 = inl err).
    { destruct (Hp 2 ltac:(lia)) as [Hd|Hd]; [|done]. change (existsb (Z.eqb 0x45) [k; 0x44] = true) in Hd. cbn [existsb] in Hd.
      change (0x45 =? 0x44) with false in Hd. rewrite !orb_false_r in Hd. apply Z.eqb_eq in Hd as <-. done. }
    intros a Ha. set_unfold in Ha. by destruct Ha as [->|[->|[->|[]]]].
  - destruct Hp as (e0 & j & Hj & He). exists e0, (candidates s).[j]. split; [|done].
    assert (j = 0 \/ j = 1 \/ j = 2) as [-> | [-> | ->]] by lia; unfold candidates; set_solver.
Qed.

Lemma sample_spec e s err0 :
  match sht40_sample e s err0 with
  | (inr (t, h), _) => exists rt rh, sampled s (Some (rt, rh)) /\ t = temp_of rt /\ h = rh_of rh
  | (inl _, _) => sampled s None
  end.
Proof.
  unfold sht40_sample. destruct (Z.eqb_spec (bus_id s) 0xFF); [by apply sampled_no_bus|].
  assert (Hgot : forall e0 a t h e1, a ∈ candidates s -> sht40_read_measurement e0 (bus_id s) a = (inr (t, h), e1) ->
    exists rt rh, sampled s (Some (rt, rh)) /\ t = temp_of rt /\ h = rh_of rh).
  { intros e0 a t h e1 Ha Hr. apply read_measurement_frame in Hr as (e2 & data & Hr & Hf & -> & ->).
    exists (raw_t (lent 6 data)), (raw_rh (lent 6 data)). split; [by eapply sampled_frame|done]. }
  pose proof (sample_pass_candidates e (bus_id s) s err0) as Hp.
  destruct (sample_pass 3 e (bus_id s) (candidates s) 0 err0) as [[err|[t h]] e1].
  - pose proof (sample_pass_candidates (od_sensor_app_bus_recover e1 (bus_id s)) (bus_id s) s err) as Hq.
    destruct (sample_pass 3 _ (bus_id s) (candidates s) 0 err) as [[err'|[t h]] e2]; [by apply sampled_mute|].
    destruct Hq as (e0 & a & Ha & Hr). by eapply Hgot.
  - destruct Hp as (e0 & a & Ha & Hr). by eapply Hgot.
Qed.

(** *** The block after a poll *)

Lemma slot_value_spec r :
  0 <= slot_value r < 2 ^ 24 /\
  host_decode (slot_value r) =
    match r with Some (t, h) => Some (clamped (round_centi_to_deci (temp_of t)), rh_tenths (rh_of h)) | None => None end.
Proof. destruct r as [[t h]|]; [apply sample_value_spec|]. split; [|done]. change (2 ^ 24) with 16777216. cbn. lia. Qed.

Lemma start_range s : bytes_ok s -> has_slot s -> 0 <= sht40_msd_start s <= 8.
Proof.
  intros Hs [_ Hf]. pose proof (get_byte s 5 Hs) as Hb. unfold OD_MSD_DYNAMIC_LEN, sht40_msd_start, msd_data_start_byte, is_byte in *.
  destruct ((s.[5] =? 0xFF) || (s.[5] =? 0)); lia.
Qed.

Definition within (s : bytes) (i : Z) : Prop := has_slot s /\ sht40_msd_start s <= i <= sht40_msd_start s + 3.

Lemma publish_one_spec msd s r :
  bytes_ok s -> len msd = OD_MSD_DYNAMIC_LEN ->
  len (publish_one msd (s, r)) = OD_MSD_DYNAMIC_LEN /\
  (has_slot s -> three_bytes (publish_one msd (s, r)) (sht40_msd_start s) = slot_value r) /\
  (forall i, 0 <= i -> ~ within s i -> (publish_one msd (s, r)).[i] = msd.[i]).
Proof.
  intros Hs Hl. unfold publish_one, within. cbn [fst snd]. destruct (decide (has_slot s)) as [Hsl|]; [|done].
  destruct (put_spec msd (sht40_msd_start s) (slot_value r) Hl (start_range s Hs Hsl) (proj1 (slot_value_spec r))) as (? & ? & Ho).
  split; [done|split; [done|]]. intros i Hi Hn. apply Ho; [done|]. tauto.
Qed.

Lemma publish_keeps l msd i :
  Forall (fun sr => bytes_ok sr.1) l -> len msd = OD_MSD_DYNAMIC_LEN -> 0 <= i ->
  (forall sr, sr ∈ l -> ~ within sr.1 i) ->
  len (foldl publish_one msd l) = OD_MSD_DYNAMIC_LEN /\ (foldl publish_one msd l).[i] = msd.[i].
Proof.
  intros Hl. revert msd. induction Hl as [|[s r] l Hs Hl IH]; intros msd Hm Hi Hn; [done|]. cbn [foldl].
  destruct (publish_one_spec msd s r Hs Hm) as (Hm' & _ & Ho).
  destruct (IH _ Hm' Hi) as [? ->]; [intros sr Hsr; apply Hn; by right|]. split; [done|]. apply Ho; [done|]. apply (Hn (s, r)). by left.
Qed.

Lemma publish_len l msd :
  Forall (fun sr => bytes_ok sr.1) l -> len msd = OD_MSD_DYNAMIC_LEN -> len (foldl publish_one msd l) = OD_MSD_DYNAMIC_LEN.
Proof.
  intros Hl. revert msd. induction Hl as [|[s r] l Hs Hl IH]; intros msd Hm; [done|]. apply IH, (publish_one_spec msd s r Hs Hm).
Qed.

(** A slot holds its value when no later slot reaches into it. *)
Definition apart (s s' : bytes) : Prop := forall i, sht40_msd_start s <= i <= sht40_msd_start s + 2 -> ~ within s' i.

Lemma publish_slot l msd j s r :
  Forall (fun sr => bytes_ok sr.1) l -> len msd = OD_MSD_DYNAMIC_LEN -> l !! j = Some (s, r) -> has_slot s ->
  (forall k s' r', (j < k)%nat -> l !! k = Some (s', r') -> apart s s') ->
  three_bytes (foldl publish_one msd l) (sht40_msd_start s) = slot_value r.
Proof.
  intros Hl. revert msd j. induction Hl as [|[s0 r0] l Hs Hl IH]; intros msd j Hm Hj Hslot Hlater; [done|]. cbn [foldl].
  destruct (publish_one_spec msd s0 r0 Hs Hm) as (Hm' & Hv & _). destruct j as [|j].
  - injection Hj as -> ->. pose proof (start_range s Hs Hslot) as Hr. rewrite <- Hv by done. unfold three_bytes.
    assert (Hk : forall d, 0 <= d <= 2 -> (foldl publish_one (publish_one msd (s, r)) l).[sht40_msd_start s + d] =
      (publish_one msd (s, r)).[sht40_msd_start s + d]).
    { intros d Hd. apply publish_keeps; [done..|lia|]. intros [s' r'] Hin. apply list_elem_of_lookup in Hin as [k Hk].
      apply (Hlater (S k) s' r'); [lia|done|lia]. }
    rewrite <- (Z.add_0_r (sht40_msd_start s)) at 1 4. by rewrite !Hk by lia.
  - apply (IH _ j); [done..|]. intros k s' r' Hk Hl'. apply (Hlater (S k) s' r'); [lia|done].
Qed.

Lemma poll_one_spec x s :
  bytes_ok s ->
  exists r, (has_slot s -> sampled s r) /\ block (poll_one x s) = publish_one (block x) (s, r) /\
    last_poll_ms (poll_one x s) = last_poll_ms x /\ have_polled (poll_one x s) = have_polled x.
Proof.
  intros Hs. assert (Hst : u16 (sht40_msd_start s) = sht40_msd_start s).
  { apply wrap_id. pose proof (get_byte s 5 Hs) as Hb. unfold fits, sht40_msd_start, msd_data_start_byte, is_byte in *.
    destruct ((s.[5] =? 0xFF) || (s.[5] =? 0)); lia. }
  unfold poll_one, publish_one, has_slot. cbn [fst snd]. rewrite Hst.
  destruct (Z.eqb_spec (sensor_type s) OD_SENSOR_TYPE_SHT40) as [Ht|Ht]; cbn [negb].
  2: { exists None. split; [tauto|]. by rewrite decide_False by tauto. }
  destruct (Z.ltb_spec OD_MSD_DYNAMIC_LEN (sht40_msd_start s + 3)).
  { exists None. split; [lia|]. by rewrite decide_False by lia. }
  pose proof (sample_spec (env x) s 0) as Hsm. destruct (sht40_sample (env x) s 0) as [[err|[t h]] e].
  - exists None. rewrite decide_True by done. by rewrite sht40_write_msd_invalid_put.
  - destruct Hsm as (rt & rh & Hsm & -> & ->). exists (Some (rt, rh)). rewrite decide_True by done. by rewrite sht40_write_msd_put.
Qed.

Lemma poll_fold l x :
  Forall bytes_ok l ->
  exists rs, Forall2 (fun s r => has_slot s -> sampled s r) l rs /\
    block (foldl poll_one x l) = foldl publish_one (block x) (zip l rs) /\
    last_poll_ms (foldl poll_one x l) = last_poll_ms x /\ have_polled (foldl poll_one x l) = have_polled x.
Proof.
  intros Hl. revert x. induction Hl as [|s l Hs Hl IH]; intros x; [by exists []|].
  destruct (poll_one_spec x s Hs) as (r & Hr & Hb & Hm & Hp). destruct (IH (poll_one x s)) as (rs & Hrs & Hb' & Hm' & Hp').
  exists (r :: rs). split; [by constructor|]. cbn [foldl zip zip_with]. rewrite Hb', Hb, Hm', Hp'. done.
Qed.

End Sht40.

(** ** A poll of the fuel gauge *)

Section Gauge.
Context {E : Type} `{!I2c E, !SensorApp E}.

(** The host's reading of the packed byte: charge and charging, or nothing. *)
Definition gauge_view (b : Z) : option (Z * bool) := if b =? 0xFF then None else Some (b mod 128, 128 <=? b).

(** The pin's level read against the polarity of the charger flags. *)
Definition charging_at (cfg : od_config) (level : option bool) : bool :=
  match level with Some level_high => xorb level_high (Z.testbit (charger_flags cfg) 1) | None => false end.

Lemma land_bit1 x : (Z.land x 2 =? 0) = negb (Z.testbit x 1).
Proof.
  destruct (Z.testbit x 1) eqn:Hb; cbn [negb].
  - apply Z.eqb_neq. intros H0. apply (f_equal (fun n => Z.testbit n 1)) in H0. rewrite Z.land_spec, Hb in H0. done.
  - apply Z.eqb_eq, Z.bits_inj'. intros i Hi. rewrite Z.land_spec, Z.bits_0. change 2 with (2 ^ 1). rewrite Z.pow2_bits_eqb by lia.
    destruct (Z.eqb_spec 1 i) as [<-|]; [by rewrite Hb|by rewrite andb_false_r].
Qed.

Lemma charging_level cfg level :
  match level with Some h => bq27220_level_is_charging (Some cfg) h | None => false end = charging_at cfg level.
Proof.
  destruct level as [h|]; [|done]. unfold bq27220_level_is_charging, charger_flag_set, charging_at, OD_CHARGER_FLAG_STATE_ACTIVE_LOW.
  rewrite land_bit1, negb_involutive. by destruct h, (Z.testbit (charger_flags cfg) 1).
Qed.

Lemma packed_view soc charging :
  0 <= soc <= 100 ->
  let b := if charging : bool then u8 (Z.lor (u8 (Z.land soc 0x7F)) BQ27220_MSD_CHARGING_BIT) else u8 (Z.land soc 0x7F) in
  gauge_view b = Some (soc, charging).
Proof.
  intros Hs. assert (Hf : let b := if charging : bool then u8 (Z.lor (u8 (Z.land soc 0x7F)) BQ27220_MSD_CHARGING_BIT)
      else u8 (Z.land soc 0x7F) in bool_decide (gauge_view b = Some (soc, charging)) = true).
  { assert (Hr : 0 <= soc < Z.of_nat 101) by lia. clear Hs. revert soc Hr. destruct charging; cbv zeta;
      [apply (forallb_below (fun soc => bool_decide (gauge_view (u8 (Z.lor (u8 (Z.land soc 0x7F)) BQ27220_MSD_CHARGING_BIT)) =
         Some (soc, true))) 101)|apply (forallb_below (fun soc => bool_decide (gauge_view (u8 (Z.land soc 0x7F)) = Some (soc, false))) 101)];
      vm_compute; reflexivity. }
  by apply bool_decide_eq_true in Hf.
Qed.

Lemma publish_gauge (block : bytes) idx gauge_ok soc charging :
  len block = OD_MSD_DYNAMIC_LEN -> 0 <= idx -> 0 <= soc <= 100 \/ soc = 0xFF ->
  (forall i, 0 <= i -> i <> idx -> (bq27220_publish block idx gauge_ok soc charging).[i] = block.[i]) /\
  (idx < OD_MSD_DYNAMIC_LEN -> gauge_view (bq27220_publish block idx gauge_ok soc charging).[idx] =
     if gauge_ok && (soc <=? 100) then Some (soc, charging) else None).
Proof.
  intros Hl Hi Hs. unfold bq27220_publish. destruct (Z.leb_spec OD_MSD_DYNAMIC_LEN idx); [split; [done|lia]|].
  assert (Hw : forall v, od_sensor_app_msd_write block idx v = block.[idx := v]) by (intros v; apply msd_write_in; lia).
  assert (Hg : forall v, (block.[idx := v]).[idx] = v) by (intros v; apply get_set_eq; lia).
  assert (Hn : forall v i, 0 <= i -> i <> idx -> (block.[idx := v]).[i] = block.[i]) by (intros; apply get_set_ne; lia).
  rewrite !Hw. destruct gauge_ok; cbn [negb orb andb]; [|split; [intros; by apply Hn|intros; by rewrite Hg]].
  destruct (Z.ltb_spec 100 soc), (Z.leb_spec soc 100); try lia; (split; [intros; by apply Hn|intros; rewrite Hg]); [done|].
  apply packed_view. lia.
Qed.

(** The gauge's poll does nothing within 30 seconds of the last one, across
    the wrap of the clock.  A due one that cannot read the voltage forgets the
    voltage and leaves the advertisement as it was.  Otherwise the voltage is the
    millivolts read, and none when they are zero, and the packed byte decodes to the charge,
    at most 100, and to charging exactly when the state pin is there and reads the level the
    charger flags say; to nothing when either reading is missing.  No other byte changes. *)
Theorem bq27220_advertises (x : bq27220_state E) (cfg : od_config) (s : bytes) now_ms :
  bq27220_config (Some cfg) = Some s -> bytes_ok s -> len (bq_block x) = OD_MSD_DYNAMIC_LEN ->
  let y := od_sensor_bq27220_poll x (Some cfg) now_ms in
  let idx := msd_data_start_byte s in
  if bq_have_polled x && (u32 (now_ms - bq_last_poll_ms x) <? BQ27220_MSD_POLL_TTL_MS) then y = x
  else
    bq_have_polled y = true /\ bq_last_poll_ms y = now_ms /\
    (forall i, 0 <= i -> i <> idx -> (bq_block y).[i] = (bq_block x).[i]) /\
    match bq27220_read_block (bq_env x) s BQ27220_CMD_VOLTAGE 2 with
    | (None, _) => od_sensor_bq27220_voltage_volts y = f32 (-1) 0 /\ bq_block y = bq_block x
    | (Some raw, e1) =>
        let mv := raw.[0] + 256 * raw.[1] in
        let '(soc, e2) := bq27220_read_block e1 s BQ27220_CMD_SOC 1 in
        let '(level, _) := od_sensor_app_bq_state_level e2 in
        od_sensor_bq27220_voltage_volts y = (if 0 <? mv then f32_div (f32 mv 0) (f32 1000 0) else f32 (-1) 0) /\
        (idx < OD_MSD_DYNAMIC_LEN -> gauge_view (bq_block y).[idx] =
           match soc with
           | Some b => if 0 <? mv then Some (Z.min b.[0] 100, charging_at cfg level) else None
           | None => None
           end)
    end.
Proof.
  intros Hc Hs Hl y idx. subst y idx. unfold od_sensor_bq27220_poll. rewrite Hc.
  destruct (bq_have_polled x && (u32 (now_ms - bq_last_poll_ms x) <? BQ27220_MSD_POLL_TTL_MS)); [done|].
  pose proof (get_byte s 5 Hs) as Hidx. fold (msd_data_start_byte s) in Hidx.
  destruct (bq27220_read_block (bq_env x) s BQ27220_CMD_VOLTAGE 2) as [[raw|] e1] eqn:Hv; [|done].
  assert (Hraw : bytes_ok raw).
  { unfold bq27220_read_block in Hv. repeat case_match; simplify_eq; apply lent_ok. }
  pose proof (get_byte raw 0 Hraw) as H0. pose proof (get_byte raw 1 Hraw) as H1. unfold is_byte in H0, H1, Hidx.
  assert (Hmv : u16 (Z.lor raw.[0] (Z.shiftl raw.[1] 8)) = raw.[0] + 256 * raw.[1]).
  { rewrite Z.lor_comm, lor_shiftl_add by (unfold fits; lia). rewrite Z.shiftl_mul_pow2 by lia. rewrite wrap_id by (unfold fits; lia). lia. }
  rewrite Hmv. destruct (bq27220_read_block e1 s BQ27220_CMD_SOC 1) as [soc e2] eqn:Hq.
  destruct (od_sensor_app_bq_state_level e2) as [level e3]. cbn [bq_have_polled bq_last_poll_ms bq_block].
  rewrite charging_level. set (soc' := match soc with Some b => clamp_soc b.[0] | None => 255 end).
  assert (Hsoc : (0 <= soc' <= 100 \/ soc' = 0xFF) /\ (soc' <=? 100) = bool_decide (is_Some soc) /\
    forall b, soc = Some b -> soc' = Z.min b.[0] 100).
  { subst soc'. destruct soc as [b|]; [|by split; [right|]].
    assert (Hb : bytes_ok b) by (unfold bq27220_read_block in Hq; repeat case_match; simplify_eq; apply lent_ok).
    pose proof (get_byte b 0 Hb) as Hb0. unfold is_byte in Hb0. rewrite bool_decide_eq_true_2 by eauto.
    unfold clamp_soc. destruct (Z.ltb_spec 100 b.[0]); (split; [lia|split; [lia|]]); intros ? [= <-]; lia. }
  destruct Hsoc as (Hr & Hle & Hsome).
  destruct (publish_gauge (bq_block x) (msd_data_start_byte s) (0 <? raw.[0] + 256 * raw.[1]) soc' (charging_at cfg level) Hl
    (proj1 Hidx) Hr) as [Ho Hv'].
  split; [done|split; [done|split; [done|]]]. split; [done|]. intros Hi. rewrite (Hv' Hi), Hle.
  destruct soc as [b|]; [|by rewrite bool_decide_eq_false_2, andb_false_r by (by intros [])].
  rewrite bool_decide_eq_true_2, andb_true_r by eauto. by rewrite (Hsome b).
Qed.
End Gauge.

(** ** A concrete board: what is read from the bus is the world itself, and the charge
    gauge says 77. *)
Definition toy_bus : I2c bytes := {|
  od_hal_i2c_probe e _ _ := (OD_HAL_I2C_OK, e);
  od_hal_i2c_write e _ _ _ := (OD_HAL_I2C_OK, e);
  od_hal_i2c_read e _ _ _ := (OD_HAL_I2C_OK, e, e);
  od_hal_i2c_write_read e _ _ tx _ := (OD_HAL_I2C_OK, if decide (tx = [BQ27220_CMD_SOC]) then [77] else e, e);
|}.

Definition toy_sensors : SensorApp bytes := {|
  od_sensor_app_delay_ms e _ := e;
  od_sensor_app_bus_recover e _ := e;
  od_sensor_app_bq_enable_drive e _ := (true, e);
  od_sensor_app_bq_state_level e := (Some false, e);
|}.

(** A thermometer at byte 3, one without a bus at byte 7, and a gauge at byte 0; the
    charge-state pin is active low. *)
Definition toy_records : list bytes :=
  [[0; 4; 0; 1; 0; 3] ++ replicate 24 0; [1; 4; 0; 0xFF; 0; 7] ++ replicate 24 0; [2; 5; 0; 1; 0; 0] ++ replicate 24 0].
Definition toy_config : od_config :=
  set_power_option (set_sensors od_config_reset {| elems := toy_records; count := 3 |}) (replicate 22 0 ++ [2] ++ replicate 7 0).

(** 25.0 degrees and 50.0 percent. *)
Definition toy_frame : bytes := [0x66; 0x66; 0x93; 0x72; 0xB0; 0xDC].

Definition toy_sht40 : sht40_state bytes :=
  {| last_poll_ms := 4294967000; have_polled := true; logged_fail := false; block := replicate 11 9; env := toy_frame |}.

Lemma sht40_flips_refused_witness :
  exists err, sht40_read_measurement (I2c0 := toy_bus) (SensorApp0 := toy_sensors) (zip_with Z.lxor toy_frame [0; 1; 0; 0x80; 0; 1]) 1 0x44 =
    (inl err, zip_with Z.lxor toy_frame [0; 1; 0; 0x80; 0; 1]).
Proof.
  destruct (sht40_flips_refused (I2c0 := toy_bus) (SensorApp0 := toy_sensors) (zip_with Z.lxor toy_frame [0; 1; 0; 0x80; 0; 1])
    (zip_with Z.lxor toy_frame [0; 1; 0; 0x80; 0; 1]) (zip_with Z.lxor toy_frame [0; 1; 0; 0x80; 0; 1]) 1 0x44
    toy_frame [0; 1; 0; 0x80; 0; 1]) as (err & He & _);
    [reflexivity|reflexivity|repeat (constructor; [done|]); constructor|repeat (constructor; [done|]); constructor|reflexivity|reflexivity|by split; vm_compute|done
    |by vm_compute|by vm_compute|]. by exists err.
Defined.


Definition toy_gauge : bq27220_state bytes :=
  {| s_batt_v := f32 (-1) 0; s_soc := 0xFF; s_gauge_ok := false; bq_last_poll_ms := 0; bq_have_polled := false;
     bq_block := replicate 11 9; bq_env := [0x74; 0x0E] |}.

(** 3700 millivolts, 77 percent, charging. *)
Lemma bq27220_advertises_witness :
  let y := od_sensor_bq27220_poll (I2c0 := toy_bus) (SensorApp0 := toy_sensors) toy_gauge (Some toy_config) 5 in
  od_sensor_bq27220_voltage_volts y = f32_div (f32 3700 0) (f32 1000 0) /\ gauge_view (bq_block y).[0] = Some (77, true) /\
  (bq_block y).[7] = 9.
Proof.
  intros y.
  assert (Hs : bytes_ok ([2; 5; 0; 1; 0; 0] ++ replicate 24 0)) by (repeat (constructor; [done|]); constructor).
  pose proof (bq27220_advertises (I2c0 := toy_bus) (SensorApp0 := toy_sensors) toy_gauge toy_config _ 5 eq_refl Hs eq_refl) as Hp.
  cbv zeta in Hp. fold y in Hp. change (bq_have_polled toy_gauge && _) with false in Hp. cbn iota in Hp.
  destruct Hp as (_ & _ & Ho & Hv). split; [|split].
  - etrans; [apply Hv|reflexivity].
  - etrans; [apply Hv; done|reflexivity].
  - rewrite Ho; [reflexivity|done|done].
Defined.

(** A sample clears the byte after its three: of two records at bytes 6 and 3, in
    this order, the second overwrites the first's low byte. *)
Example fourth_byte_cleared :
  three_bytes (sht40_write_msd (sht40_write_msd (replicate 11 0) 6 2500 5000) 3 2500 5000) 6 <> sample_value 2500 5000.
Proof. vm_compute. done. Qed.

End Sensors.
