(* ===== verification/Touch.v ===== *)
(** The touch controller, [shared/core/od_touch_gt911.c] in a build with the
    capability, over the target's half, [shared/core/od_touch_app.h].

    The array of runtimes and the suspend count are the file's statics.  A
    function that works on one controller runs in a monad over that controller's runtime, the
    advertised block (the array of [targets/esp32-idf/src/od_touch_app.cpp]), the
    world, and a trace of what was done to the bus and the interrupts.  A [uint8_t] the code
    uses as a flag is a [bool]; log lines are left out. *)

From S2P Require Import Prelude I2c Span Proto ConfigTlv Config.
Import I2c Config.

Module Touch.

Definition GT911_REG_PID : Z := 0x8140.
Definition GT911_REG_STATUS : Z := 0x814E.
Definition GT911_REG_POINT1 : Z := 0x814F.
Definition GT911_STATUS_BUFFER_READY : Z := 0x80.
Definition GT911_MAX_CONTACTS : Z := 5.
Definition GT911_I2C_RETRIES : Z := 3.
Definition GT911_I2C_RETRY_DELAY_US : Z := 500.
Definition GT911_RST_LOW_MS : Z := 11.
Definition GT911_INT_SETUP_US : Z := 110.
Definition GT911_INT_HOLD_MS : Z := 6.
Definition GT911_INT_LOW_MS : Z := 51.
Definition GT911_POST_RESET_SETTLE_MS : Z := 200.
Definition GT911_PRE_RESET_DELAY_MS : Z := 300.
Definition GT911_ADDR_5D : Z := 0x5D.
Definition GT911_ADDR_14 : Z := 0x14.
Definition TOUCH_DEFAULT_INTERVAL_MS : Z := 100.
Definition TOUCH_I2C_FAIL_BACKOFF_MS : Z := 100.
Definition TOUCH_I2C_FAIL_DISABLE_THRESHOLD : Z := 5.
Definition OD_MSD_DYNAMIC_LEN : Z := 11.
Definition TOUCH_MSD_BLOCK : Z := 5.
Definition TOUCH_MSD_MAX_START : Z := OD_MSD_DYNAMIC_LEN - TOUCH_MSD_BLOCK.
Definition OD_TOUCH_MAX_CONTROLLERS : Z := 4.
Definition OD_TOUCH_NO_CHANGE : Z := 0.
Definition OD_TOUCH_IDLE_MS : Z := 1000.
Definition OD_TOUCH_IC_GT911 : Z := 1.
Definition OD_TOUCH_FLAG_INVERT_X : Z := 1.
Definition OD_TOUCH_FLAG_INVERT_Y : Z := 2.
Definition OD_TOUCH_FLAG_SWAP_XY : Z := 4.
(** No pin. *)
Definition NO_PIN : Z := 0xFF.

(** The fields of [struct TouchController], and those of [struct DataBus] and
    [struct DisplayConfig] that are read here. *)
Definition touch_ic_type (t : bytes) : Z := t.[1] + 256 * t.[2].
Definition bus_id (t : bytes) : Z := t.[3].
Definition i2c_addr_7bit (t : bytes) : Z := t.[4].
Definition int_pin (t : bytes) : Z := t.[5].
Definition rst_pin (t : bytes) : Z := t.[6].
Definition display_instance (t : bytes) : Z := t.[7].
Definition flags (t : bytes) : Z := t.[8].
Definition poll_interval_ms (t : bytes) : Z := t.[9].
Definition touch_data_start_byte (t : bytes) : Z := t.[10].
Definition enable_pin (t : bytes) : Z := t.[11].
Definition bus_type (b : bytes) : Z := b.[1].
Definition pin_1 (b : bytes) : Z := b.[2].
Definition pin_2 (b : bytes) : Z := b.[3].
Definition pixel_width (d : bytes) : Z := d.[4] + 256 * d.[5].
Definition pixel_height (d : bytes) : Z := d.[6] + 256 * d.[7].

(** [struct touch_runtime]. *)
Record touch_runtime := {
  addr7 : Z; rt_bus_id : Z; ok : bool; reg_high_first : bool; int_attached : bool; int_pin_attached : Z; disabled : bool; latched : bool;
  fail_streak : Z; last_count : Z; last_id : Z; last_x : Z; last_y : Z; last_poll_ms : Z; last_fail_ms : Z;
}.

(** [touch_rt_clear]: zero, with no pin recorded. *)
Definition touch_rt_clear : touch_runtime :=
  {| addr7 := 0; rt_bus_id := 0; ok := false; reg_high_first := false; int_attached := false; int_pin_attached := NO_PIN;
     disabled := false; latched := false; fail_streak := 0; last_count := 0; last_id := 0; last_x := 0; last_y := 0;
     last_poll_ms := 0; last_fail_ms := 0 |}.

#[export] Instance touch_runtime_inhabited : Inhabited touch_runtime := populate touch_rt_clear.

Definition set_addr7 (v : Z) (rt : touch_runtime) : touch_runtime :=
  {| addr7 := v; rt_bus_id := rt_bus_id rt; ok := ok rt; reg_high_first := reg_high_first rt; int_attached :=
     int_attached rt; int_pin_attached := int_pin_attached rt; disabled := disabled rt; latched := latched rt;
     fail_streak := fail_streak rt; last_count := last_count rt; last_id := last_id rt; last_x := last_x rt; last_y
     := last_y rt; last_poll_ms := last_poll_ms rt; last_fail_ms := last_fail_ms rt |}.
Definition set_rt_bus_id (v : Z) (rt : touch_runtime) : touch_runtime :=
  {| addr7 := addr7 rt; rt_bus_id := v; ok := ok rt; reg_high_first := reg_high_first rt; int_attached :=
     int_attached rt; int_pin_attached := int_pin_attached rt; disabled := disabled rt; latched := latched rt;
     fail_streak := fail_streak rt; last_count := last_count rt; last_id := last_id rt; last_x := last_x rt; last_y
     := last_y rt; last_poll_ms := last_poll_ms rt; last_fail_ms := last_fail_ms rt |}.
Definition set_ok (v : bool) (rt : touch_runtime) : touch_runtime :=
  {| addr7 := addr7 rt; rt_bus_id := rt_bus_id rt; ok := v; reg_high_first := reg_high_first rt; int_attached :=
     int_attached rt; int_pin_attached := int_pin_attached rt; disabled := disabled rt; latched := latched rt;
     fail_streak := fail_streak rt; last_count := last_count rt; last_id := last_id rt; last_x := last_x rt; last_y
     := last_y rt; last_poll_ms := last_poll_ms rt; last_fail_ms := last_fail_ms rt |}.
Definition set_reg_high_first (v : bool) (rt : touch_runtime) : touch_runtime :=
  {| addr7 := addr7 rt; rt_bus_id := rt_bus_id rt; ok := ok rt; reg_high_first := v; int_attached := int_attached
     rt; int_pin_attached := int_pin_attached rt; disabled := disabled rt; latched := latched rt; fail_streak :=
     fail_streak rt; last_count := last_count rt; last_id := last_id rt; last_x := last_x rt; last_y := last_y rt;
     last_poll_ms := last_poll_ms rt; last_fail_ms := last_fail_ms rt |}.
Definition set_int_attached (v : bool) (rt : touch_runtime) : touch_runtime :=
  {| addr7 := addr7 rt; rt_bus_id := rt_bus_id rt; ok := ok rt; reg_high_first := reg_high_first rt; int_attached
     := v; int_pin_attached := int_pin_attached rt; disabled := disabled rt; latched := latched rt; fail_streak :=
     fail_streak rt; last_count := last_count rt; last_id := last_id rt; last_x := last_x rt; last_y := last_y rt;
     last_poll_ms := last_poll_ms rt; last_fail_ms := last_fail_ms rt |}.
Definition set_int_pin_attached (v : Z) (rt : touch_runtime) : touch_runtime :=
  {| addr7 := addr7 rt; rt_bus_id := rt_bus_id rt; ok := ok rt; reg_high_first := reg_high_first rt; int_attached
     := int_attached rt; int_pin_attached := v; disabled := disabled rt; latched := latched rt; fail_streak :=
     fail_streak rt; last_count := last_count rt; last_id := last_id rt; last_x := last_x rt; last_y := last_y rt;
     last_poll_ms := last_poll_ms rt; last_fail_ms := last_fail_ms rt |}.
Definition set_disabled (v : bool) (rt : touch_runtime) : touch_runtime :=
  {| addr7 := addr7 rt; rt_bus_id := rt_bus_id rt; ok := ok rt; reg_high_first := reg_high_first rt; int_attached
     := int_attached rt; int_pin_attached := int_pin_attached rt; disabled := v; latched := latched rt; fail_streak
     := fail_streak rt; last_count := last_count rt; last_id := last_id rt; last_x := last_x rt; last_y := last_y rt;
     last_poll_ms := last_poll_ms rt; last_fail_ms := last_fail_ms rt |}.
Definition set_latched (v : bool) (rt : touch_runtime) : touch_runtime :=
  {| addr7 := addr7 rt; rt_bus_id := rt_bus_id rt; ok := ok rt; reg_high_first := reg_high_first rt; int_attached
     := int_attached rt; int_pin_attached := int_pin_attached rt; disabled := disabled rt; latched := v; fail_streak
     := fail_streak rt; last_count := last_count rt; last_id := last_id rt; last_x := last_x rt; last_y := last_y rt;
     last_poll_ms := last_poll_ms rt; last_fail_ms := last_fail_ms rt |}.
Definition set_fail_streak (v : Z) (rt : touch_runtime) : touch_runtime :=
  {| addr7 := addr7 rt; rt_bus_id := rt_bus_id rt; ok := ok rt; reg_high_first := reg_high_first rt; int_attached
     := int_attached rt; int_pin_attached := int_pin_attached rt; disabled := disabled rt; latched := latched rt;
     fail_streak := v; last_count := last_count rt; last_id := last_id rt; last_x := last_x rt; last_y := last_y rt;
     last_poll_ms := last_poll_ms rt; last_fail_ms := last_fail_ms rt |}.
Definition set_last_poll_ms (v : Z) (rt : touch_runtime) : touch_runtime :=
  {| addr7 := addr7 rt; rt_bus_id := rt_bus_id rt; ok := ok rt; reg_high_first := reg_high_first rt; int_attached
     := int_attached rt; int_pin_attached := int_pin_attached rt; disabled := disabled rt; latched := latched rt;
     fail_streak := fail_streak rt; last_count := last_count rt; last_id := last_id rt; last_x := last_x rt; last_y
     := last_y rt; last_poll_ms := v; last_fail_ms := last_fail_ms rt |}.
Definition set_last_fail_ms (v : Z) (rt : touch_runtime) : touch_runtime :=
  {| addr7 := addr7 rt; rt_bus_id := rt_bus_id rt; ok := ok rt; reg_high_first := reg_high_first rt; int_attached
     := int_attached rt; int_pin_attached := int_pin_attached rt; disabled := disabled rt; latched := latched rt;
     fail_streak := fail_streak rt; last_count := last_count rt; last_id := last_id rt; last_x := last_x rt; last_y
     := last_y rt; last_poll_ms := last_poll_ms rt; last_fail_ms := v |}.
Definition set_last (n : Z) (id : Z) (x : Z) (y : Z) (rt : touch_runtime) : touch_runtime :=
  {| addr7 := addr7 rt; rt_bus_id := rt_bus_id rt; ok := ok rt; reg_high_first := reg_high_first rt; int_attached
     := int_attached rt; int_pin_attached := int_pin_attached rt; disabled := disabled rt; latched := latched rt;
     fail_streak := fail_streak rt; last_count := n; last_id := id; last_x := x; last_y := y; last_poll_ms :=
     last_poll_ms rt; last_fail_ms := last_fail_ms rt |}.

(** The target's half. *)
Class TouchApp (E : Type) := {
  od_touch_app_delay_ms : E -> Z -> E;
  od_touch_app_delay_us : E -> Z -> E;
  od_touch_app_gpio_set_mode_output : E -> Z -> E;
  od_touch_app_gpio_config_input : E -> Z -> bool -> E;
  od_touch_app_gpio_write : E -> Z -> bool -> E;
  (* negative: no level *)
  od_touch_app_gpio_read : E -> Z -> Z * E;
  od_touch_app_gpio_attach_int : E -> Z -> Z -> bool * E;
  od_touch_app_gpio_detach_int : E -> Z -> E;
  od_touch_app_bus_prepare : E -> Z -> bool * E;
  od_touch_app_bus_invalidate : E -> E;
  od_touch_app_irq_consume : E -> Z -> E;
  od_touch_app_msd_publish : E -> E;
  od_adv_app_boost : E -> E;
}.

(** What the proofs speak of: bus transactions, interrupts, and publications. *)
Inductive touch_event :=
| EvWire (bus addr : Z)
| EvPrepare (bus : Z)
| EvReadPin (pin : Z)
| EvAttach (idx pin : Z) (ok : bool)
| EvDetach (pin : Z)
| EvConsume (bits : Z)
| EvPublish.

(** One controller's runtime and what it shares with the others. *)
Record slot (E : Type) := { c_rt : touch_runtime; c_block : bytes; c_env : E; c_trace : list touch_event }.
Arguments c_rt {E} _.
Arguments c_block {E} _.
Arguments c_env {E} _.
Arguments c_trace {E} _.

Definition M (E A : Type) : Type := slot E -> A * slot E.
Definition ret {E A} (a : A) : M E A := fun s => (a, s).
Definition bind {E A B} (m : M E A) (k : A -> M E B) : M E B := fun s => let '(a, s) := m s in k a s.

Declare Scope touch_scope.
Delimit Scope touch_scope with touch.
Notation "'let*' x := m 'in' k" := (bind m (fun x => k))
  (at level 10, x pattern, m at level 200, k at level 200) : touch_scope.
Notation "m ;; k" := (bind m (fun _ => k)) (at level 100, k at level 200, right associativity) : touch_scope.
#[local] Open Scope touch_scope.

Section Driver.
Context {E : Type} `{!I2c E, !TouchApp E}.

Definition get_rt : M E touch_runtime := fun s => (c_rt s, s).
Definition upd (f : touch_runtime -> touch_runtime) : M E unit :=
  fun s => (tt, {| c_rt := f (c_rt s); c_block := c_block s; c_env := c_env s; c_trace := c_trace s |}).
(** A call of the target that returns nothing, and one that does; [ev] is what the trace records. *)
Definition call (f : E -> E) : M E unit :=
  fun s => (tt, {| c_rt := c_rt s; c_block := c_block s; c_env := f (c_env s); c_trace := c_trace s |}).
Definition ask {A} (f : E -> A * E) (ev : A -> list touch_event) : M E A :=
  fun s => let '(a, e) := f (c_env s) in
           (a, {| c_rt := c_rt s; c_block := c_block s; c_env := e; c_trace := ev a ++ c_trace s |}).

Definition delay_ms (ms : Z) : M E unit := call (fun e => od_touch_app_delay_ms e ms).
Definition delay_us (us : Z) : M E unit := call (fun e => od_touch_app_delay_us e us).
Definition set_mode_output (pin : Z) : M E unit := call (fun e => od_touch_app_gpio_set_mode_output e pin).
Definition config_input (pin : Z) (pull_up : bool) : M E unit := call (fun e => od_touch_app_gpio_config_input e pin pull_up).
Definition gpio_write (pin : Z) (level : bool) : M E unit := call (fun e => od_touch_app_gpio_write e pin level).
Definition gpio_read (pin : Z) : M E Z := ask (fun e => od_touch_app_gpio_read e pin) (fun _ => [EvReadPin pin]).
Definition attach_int (idx pin : Z) : M E bool :=
  ask (fun e => od_touch_app_gpio_attach_int e idx pin) (fun ok => [EvAttach idx pin ok]).
Definition detach_int (pin : Z) : M E unit :=
  ask (fun e => (tt, od_touch_app_gpio_detach_int e pin)) (fun _ => [EvDetach pin]).
Definition bus_prepare (bus : Z) : M E bool := ask (fun e => od_touch_app_bus_prepare e bus) (fun _ => [EvPrepare bus]).
Definition irq_consume (bits : Z) : M E unit :=
  ask (fun e => (tt, od_touch_app_irq_consume e bits)) (fun _ => [EvConsume bits]).
Definition publish : M E unit := ask (fun e => (tt, od_touch_app_msd_publish (od_adv_app_boost e))) (fun _ => [EvPublish]).

Definition od_touch_app_msd_write (index value : Z) : M E unit := fun s =>
  (tt, {| c_rt := c_rt s; c_block := if index <? len (c_block s) then (c_block s).[index := value] else c_block s;
          c_env := c_env s; c_trace := c_trace s |}).

(** *** Configuration *)

Definition touch_count (cfg : od_config) : Z := count (touch_controllers cfg).

Definition touch_cfg (cfg : option od_config) (i : Z) : option bytes :=
  match cfg with
  | None => None
  | Some cfg =>
      if (touch_count cfg <=? i) || (OD_TOUCH_MAX_CONTROLLERS <=? i) then None
      else
        let t := (elems (touch_controllers cfg)).[i] in
        if negb (touch_ic_type t =? OD_TOUCH_IC_GT911) then None else Some t
  end.

Definition valid_pin (pin : Z) : bool := negb (pin =? 0) && negb (pin =? 0xFF).

Definition touch_bus_ok (cfg : option od_config) (t : bytes) : bool :=
  if bus_id t =? 0xFF then false
  else match cfg, od_config_data_bus cfg (bus_id t) with
       | Some c, Some k =>
           let b := (elems (data_buses c)).[k] in
           (bus_type b =? 1) && negb (pin_1 b =? 0xFF) && negb (pin_2 b =? 0xFF)
       | _, _ => false
       end.

(** *** The bus *)

Definition i2c_write (bus addr : Z) (data : bytes) : M E bool :=
  let* rc := ask (fun e => od_hal_i2c_write e bus addr data) (fun _ => [EvWire bus addr]) in ret (I2c.ok rc).
Definition i2c_read (bus addr n : Z) : M E (option bytes) :=
  let* r := ask (fun e => od_hal_i2c_read e bus addr n) (fun _ => [EvWire bus addr]) in
  ret (if I2c.ok r.1 then Some (lent n r.2) else None).
Definition i2c_write_read (bus addr : Z) (tx : bytes) (n : Z) : M E (option bytes) :=
  let* r := ask (fun e => od_hal_i2c_write_read e bus addr tx n) (fun _ => [EvWire bus addr]) in
  ret (if I2c.ok r.1 then Some (lent n r.2) else None).

Definition selector (reg : Z) (high_first : bool) : bytes :=
  if high_first then [u8 (Z.shiftr reg 8); u8 (Z.land reg 0xFF)] else [u8 (Z.land reg 0xFF); u8 (Z.shiftr reg 8)].

Definition gt911_read_once (bus addr reg n : Z) (high_first repeated_start : bool) : M E (option bytes) :=
  if repeated_start then i2c_write_read bus addr (selector reg high_first) n
  else
    let* wrote := i2c_write bus addr (selector reg high_first) in
    if wrote then i2c_read bus addr n else ret None.

Fixpoint read_attempts (attempts : nat) (bus addr reg n : Z) (high_first : bool) : M E (option bytes) :=
  match attempts with
  | O => ret None
  | S attempts =>
      let* r := gt911_read_once bus addr reg n high_first true in
      match r with
      | Some b => ret (Some b)
      | None =>
          delay_us GT911_I2C_RETRY_DELAY_US;;
          let* r := gt911_read_once bus addr reg n high_first false in
          match r with
          | Some b => ret (Some b)
          | None => delay_us GT911_I2C_RETRY_DELAY_US;; read_attempts attempts bus addr reg n high_first
          end
      end
  end.

(** The buffer, or nothing after the retries. *)
Definition gt911_read (bus addr reg n : Z) (high_first : bool) : M E (option bytes) :=
  read_attempts (Z.to_nat GT911_I2C_RETRIES) bus addr reg n high_first.

Fixpoint write_attempts (attempts : nat) (bus addr : Z) (tx : bytes) : M E bool :=
  match attempts with
  | O => ret false
  | S attempts =>
      let* wrote := i2c_write bus addr tx in
      if wrote then ret true else delay_us GT911_I2C_RETRY_DELAY_US;; write_attempts attempts bus addr tx
  end.

Definition gt911_write (bus addr reg : Z) (buf : bytes) (high_first : bool) : M E bool :=
  if 10 <? u16 (len buf) + 2 then ret false
  else write_attempts (Z.to_nat GT911_I2C_RETRIES) bus addr (selector reg high_first ++ buf).

Definition gt911_clear_status : M E unit :=
  let* rt := get_rt in
  let* _ := gt911_write (rt_bus_id rt) (addr7 rt) GT911_REG_STATUS [0] (reg_high_first rt) in ret tt.

(** "911". *)
Definition gt911_id_match (id : bytes) : bool := (id.[0] =? 0x39) && (id.[1] =? 0x31) && (id.[2] =? 0x31).

(** The byte order the part answered in. *)
Definition gt911_probe (bus addr : Z) : M E (option bool) :=
  let* id := gt911_read bus addr GT911_REG_PID 4 true in
  if match id with Some id => gt911_id_match id | None => false end then ret (Some true)
  else
    let* id := gt911_read bus addr GT911_REG_PID 4 false in
    if match id with Some id => gt911_id_match id | None => false end then ret (Some false) else ret None.

(** *** Reset and address *)

Definition gt911_hw_reset (t : bytes) (int_low_for_5d : bool) : M E unit :=
  if rst_pin t =? 0xFF then ret tt
  else
    upd (set_int_attached false);;
    if int_pin t =? 0xFF then
      set_mode_output (rst_pin t);; gpio_write (rst_pin t) false;; delay_ms 10;; gpio_write (rst_pin t) true;; delay_ms 60;;
      set_mode_output (rst_pin t);; gpio_write (rst_pin t) true
    else
      delay_ms 1;; set_mode_output (int_pin t);; set_mode_output (rst_pin t);;
      gpio_write (int_pin t) false;; gpio_write (rst_pin t) false;; delay_ms GT911_RST_LOW_MS;;
      gpio_write (int_pin t) (negb int_low_for_5d);; delay_us GT911_INT_SETUP_US;;
      set_mode_output (rst_pin t);; gpio_write (rst_pin t) true;; delay_ms GT911_INT_HOLD_MS;;
      gpio_write (int_pin t) false;; delay_ms GT911_INT_LOW_MS;;
      set_mode_output (rst_pin t);; gpio_write (rst_pin t) true;; config_input (int_pin t) true.

Definition gt911_int_wake (t : bytes) : M E unit :=
  if int_pin t =? 0xFF then ret tt
  else
    set_mode_output (int_pin t);; gpio_write (int_pin t) true;; delay_ms 10;; config_input (int_pin t) true;;
    upd (set_int_attached false).

Definition touch_apply_enable_pin (t : bytes) : M E unit :=
  if negb (valid_pin (enable_pin t)) then ret tt
  else set_mode_output (enable_pin t);; gpio_write (enable_pin t) true.

(** A probe that records the byte order it found. *)
Definition probe_at (addr : Z) : M E bool :=
  let* rt := get_rt in
  let* order := gt911_probe (rt_bus_id rt) addr in
  match order with Some high_first => upd (set_reg_high_first high_first);; ret true | None => ret false end.

(** The address, 0 when nothing answered. *)
Definition gt911_resolve (t : bytes) : M E Z :=
  let want := i2c_addr_7bit t in
  if negb (want =? 0) && negb (want =? 0xFF) then
    (if negb (rst_pin t =? 0xFF) then
       delay_ms GT911_PRE_RESET_DELAY_MS;; gt911_hw_reset t (want =? GT911_ADDR_5D);; delay_ms GT911_POST_RESET_SETTLE_MS
     else delay_ms 10);;
    let* found := probe_at want in
    ret (if found : bool then want else 0)
  else if negb (rst_pin t =? 0xFF) then
    delay_ms GT911_PRE_RESET_DELAY_MS;; gt911_hw_reset t true;; delay_ms GT911_POST_RESET_SETTLE_MS;;
    let* found := probe_at GT911_ADDR_5D in
    if found : bool then ret GT911_ADDR_5D
    else
      delay_ms GT911_PRE_RESET_DELAY_MS;; gt911_hw_reset t false;; delay_ms GT911_POST_RESET_SETTLE_MS;;
      let* found := probe_at GT911_ADDR_14 in
      ret (if found : bool then GT911_ADDR_14 else 0)
  else
    let* found := probe_at GT911_ADDR_5D in
    if found : bool then ret GT911_ADDR_5D
    else
      let* found := probe_at GT911_ADDR_14 in
      ret (if found : bool then GT911_ADDR_14 else 0).

(** *** The coordinate map and the packing *)

Definition flag (t : bytes) (mask : Z) : bool := negb (Z.land (flags t) mask =? 0).

(** The panel's width and height, zero for a display that is not there. *)
Definition panel_size (cfg : od_config) (t : bytes) : Z * Z :=
  if display_instance t <? count (displays cfg) then
    let d := (elems (displays cfg)).[display_instance t] in (pixel_width d, pixel_height d)
  else (0, 0).

Definition invert (wide : bool) (w x : Z) : Z := if wide && (0 <? w) then (if x <? w then u16 (w - 1 - x) else 0) else x.
Definition clip (w x : Z) : Z := if (0 <? w) && (w <=? x) then u16 (w - 1) else x.

Definition apply_touch_map (cfg : od_config) (t : bytes) (x y : Z) : Z * Z :=
  let '(x, y) := if flag t OD_TOUCH_FLAG_SWAP_XY then (y, x) else (x, y) in
  let '(w, h) := panel_size cfg t in
  let x := invert (flag t OD_TOUCH_FLAG_INVERT_X) w x in
  let y := invert (flag t OD_TOUCH_FLAG_INVERT_Y) h y in
  (clip w x, clip h y).

Definition touch_pack_msd (start count track_id x y : Z) (was_latched : bool) : M E unit :=
  if OD_MSD_DYNAMIC_LEN <? u16 start + TOUCH_MSD_BLOCK then ret tt
  else if (count =? 0) && negb was_latched then
    od_touch_app_msd_write (u8 (start + 0)) 0;; od_touch_app_msd_write (u8 (start + 1)) 0;;
    od_touch_app_msd_write (u8 (start + 2)) 0;; od_touch_app_msd_write (u8 (start + 3)) 0;;
    od_touch_app_msd_write (u8 (start + 4)) 0
  else
    od_touch_app_msd_write start
      (u8 (Z.lor (if count =? 0 then 6 else Z.land count 0x0F) (u8 (Z.shiftl (Z.land track_id 0x0F) 4))));;
    od_touch_app_msd_write (u8 (start + 1)) (u8 (Z.land x 0xFF));;
    od_touch_app_msd_write (u8 (start + 2)) (u8 (Z.shiftr x 8));;
    od_touch_app_msd_write (u8 (start + 3)) (u8 (Z.land y 0xFF));;
    od_touch_app_msd_write (u8 (start + 4)) (u8 (Z.shiftr y 8)).

(** *** Lifecycle *)

(** Detaching the pin the runtime records. *)
Definition detach_recorded : M E unit :=
  let* rt := get_rt in
  detach_int (int_pin_attached rt);; upd (set_int_pin_attached NO_PIN);; upd (set_int_attached false).

Definition touch_disable : M E unit :=
  let* rt := get_rt in
  if disabled rt then ret tt
  else
    upd (set_disabled true);; upd (set_ok false);;
    if negb (int_pin_attached rt =? 0xFF) then detach_recorded else ret tt.

Definition touch_attach_int (idx : Z) (t : bytes) : M E unit :=
  let* rt := get_rt in
  (if negb (int_pin_attached rt =? 0xFF) && negb (int_pin_attached rt =? int_pin t) then detach_recorded else ret tt);;
  let* rt := get_rt in
  if (int_pin t =? 0xFF) || int_attached rt then ret tt
  else
    config_input (int_pin t) true;;
    let* attached := attach_int idx (int_pin t) in
    if negb attached then upd (set_int_pin_attached NO_PIN)
    else upd (set_int_attached true);; upd (set_int_pin_attached (int_pin t)).

(** The wake-up and the interrupt, of a controller with a pin. *)
Definition wake_and_attach (idx : Z) (t : bytes) : M E unit :=
  if negb (int_pin t =? 0xFF) then gt911_int_wake t;; touch_attach_int idx t else ret tt.

Definition came_up (addr now_ms : Z) (rt : touch_runtime) : touch_runtime :=
  set_last_poll_ms now_ms (set_latched false (set_last_fail_ms 0 (set_fail_streak 0 (set_disabled false
    (set_ok true (set_addr7 addr rt)))))).

Definition touch_bring_up (idx : Z) (cfg : option od_config) (t : bytes) (now_ms : Z) : M E bool :=
  touch_apply_enable_pin t;;
  if negb (touch_bus_ok cfg t) then ret false
  else if TOUCH_MSD_MAX_START <? touch_data_start_byte t then ret false
  else
    upd (set_rt_bus_id (bus_id t));;
    let* prepared := bus_prepare (bus_id t) in
    if negb prepared then ret false
    else
      let* addr := gt911_resolve t in
      if addr =? 0 then upd (set_ok false);; ret false
      else
        upd (came_up addr now_ms);; gt911_clear_status;; wake_and_attach idx t;;
        let* rt := get_rt in
        let* _ := gt911_read (rt_bus_id rt) addr GT911_REG_PID 12 (reg_high_first rt) in
        ret true.

Definition touch_light_resume (idx : Z) (t : bytes) : M E bool :=
  let* rt := get_rt in
  if negb (ok rt) || (addr7 rt =? 0) then ret false
  else
    let* prepared := bus_prepare (rt_bus_id rt) in
    if negb prepared then ret false
    else
      let* id := gt911_read (rt_bus_id rt) (addr7 rt) GT911_REG_PID 4 (reg_high_first rt) in
      if negb match id with Some id => gt911_id_match id | None => false end then ret false
      else
        upd (set_fail_streak 0);; upd (set_latched false);; gt911_clear_status;; wake_and_attach idx t;; ret true.

(** *** One controller *)

Definition touch_interval (t : bytes) : Z := if negb (poll_interval_ms t =? 0) then poll_interval_ms t else TOUCH_DEFAULT_INTERVAL_MS.

(** A failed read of the status or of the point block. *)
Definition count_failure (now_ms : Z) (stamp_poll : bool) : M E Z :=
  let* rt := get_rt in
  (if fail_streak rt <? 255 then upd (set_fail_streak (u8 (fail_streak rt + 1))) else ret tt);;
  upd (set_last_fail_ms now_ms);;
  (if stamp_poll : bool then upd (set_last_poll_ms now_ms) else ret tt);;
  let* rt := get_rt in
  if TOUCH_I2C_FAIL_DISABLE_THRESHOLD <=? fail_streak rt then touch_disable;; ret OD_TOUCH_IDLE_MS
  else ret TOUCH_I2C_FAIL_BACKOFF_MS.

(** A sample that is taken: acknowledged, remembered, packed, and published if it changed. *)
Definition touch_report (t : bytes) (interval count track_id x y : Z) : M E Z :=
  gt911_clear_status;;
  let* rt := get_rt in
  let changed := negb (count =? last_count rt) ||
    ((0 <? count) && (negb (x =? last_x rt) || negb (y =? last_y rt) || negb (track_id =? last_id rt))) in
  upd (set_last count track_id x y);;
  touch_pack_msd (touch_data_start_byte t) count track_id x y (latched rt);;
  (if changed then publish else ret tt);;
  ret interval.

(** The status byte was read. *)
Definition touch_status (cfg : od_config) (t : bytes) (now_ms : Z) (edge line_low : bool) (status : Z) : M E Z :=
  let interval := touch_interval t in
  upd (set_fail_streak 0);;
  if Z.land status GT911_STATUS_BUFFER_READY =? 0 then
    (if negb edge && negb line_low then upd (set_last_poll_ms now_ms) else ret tt);; ret interval
  else
    let count := u8 (Z.land status 0x0F) in
    if GT911_MAX_CONTACTS <? count then gt911_clear_status;; upd (set_last_poll_ms now_ms);; ret interval
    else
      upd (set_last_poll_ms now_ms);;
      let* rt := get_rt in
      if 0 <? count then
        let* p := gt911_read (rt_bus_id rt) (addr7 rt) GT911_REG_POINT1 8 (reg_high_first rt) in
        match p with
        | None => count_failure now_ms false
        | Some p =>
            let x := u16 (Z.lor p.[1] (Z.shiftl p.[2] 8)) in
            let y := u16 (Z.lor p.[3] (Z.shiftl p.[4] 8)) in
            upd (set_latched true);;
            let '(x, y) := apply_touch_map cfg t x y in
            touch_report t interval count p.[0] x y
        end
      else touch_report t interval count (last_id rt) (last_x rt) (last_y rt).

Definition touch_service_one (idx : Z) (cfg : od_config) (t : bytes) (now_ms : Z) (edge : bool) : M E Z :=
  let interval := touch_interval t in
  let* rt := get_rt in
  if negb (ok rt) || disabled rt then ret OD_TOUCH_IDLE_MS
  else
    let* line_low :=
      if int_attached rt then
        let* level := gpio_read (int_pin_attached rt) in
        ret ((level =? 0) &&
             negb ((0 <? fail_streak rt) && (u32 (now_ms - last_fail_ms rt) <? TOUCH_I2C_FAIL_BACKOFF_MS)))
      else ret false in
    let elapsed := u32 (now_ms - last_poll_ms rt) in
    if negb edge && negb (interval <=? elapsed) && negb line_low then ret (u32 (interval - elapsed))
    else
      (if edge then irq_consume (u8 (Z.shiftl 1 idx)) else ret tt);;
      let* prepared := bus_prepare (rt_bus_id rt) in
      if negb prepared then ret TOUCH_I2C_FAIL_BACKOFF_MS
      else
        let* status := gt911_read (rt_bus_id rt) (addr7 rt) GT911_REG_STATUS 1 (reg_high_first rt) in
        match status with
        | None => count_failure now_ms true
        | Some b => touch_status cfg t now_ms edge line_low b.[0]
        end.

(** ** The entry points *)

Record touch := {
  s_rt : list touch_runtime; s_suspend : Z; t_block : bytes; t_env : E; t_trace : list touch_event;
}.

Definition at_boot (block : bytes) (e : E) : touch :=
  {| s_rt := replicate (Z.to_nat OD_TOUCH_MAX_CONTROLLERS) touch_rt_clear; s_suspend := 0; t_block := block; t_env := e; t_trace := [] |}.

(** Working on controller [i]. *)
Definition on_slot {A} (i : Z) (m : M E A) (x : touch) : A * touch :=
  let '(a, s) := m {| c_rt := (s_rt x).[i]; c_block := t_block x; c_env := t_env x; c_trace := t_trace x |} in
  (a, {| s_rt := (s_rt x).[i := c_rt s]; s_suspend := s_suspend x; t_block := c_block s; t_env := c_env s; t_trace := c_trace s |}).

Definition controllers : list Z := [0; 1; 2; 3].

(** A call that concerns no controller. *)
Definition off_slot (m : M E unit) (x : touch) : touch :=
  let '(_, s) := m {| c_rt := touch_rt_clear; c_block := t_block x; c_env := t_env x; c_trace := t_trace x |} in
  {| s_rt := s_rt x; s_suspend := s_suspend x; t_block := c_block s; t_env := c_env s; t_trace := c_trace s |}.

Definition set_suspend (n : Z) (x : touch) : touch :=
  {| s_rt := s_rt x; s_suspend := n; t_block := t_block x; t_env := t_env x; t_trace := t_trace x |}.

(** A controller that was up before an init keeps its address. *)
Definition keep_controller (i : Z) (cfg : option od_config) (t : bytes) (prior : touch_runtime) (now_ms : Z) : M E bool :=
  upd (fun _ => set_rt_bus_id (bus_id t) (set_fail_streak 0 (set_disabled false (set_int_pin_attached NO_PIN (set_int_attached false prior)))));;
  touch_apply_enable_pin t;;
  let* prepared := if touch_bus_ok cfg t then bus_prepare (bus_id t) else ret false in
  if prepared : bool then
    gt911_clear_status;; wake_and_attach i t;; upd (set_last_poll_ms now_ms);; ret true
  else upd (fun _ => touch_rt_clear);; ret false.

Definition init_one (cfg : option od_config) (prior : list touch_runtime) (now_ms : Z) (acc : touch * Z) (i : Z) : touch * Z :=
  let '(x, up) := acc in
  match touch_cfg cfg i with
  | None => (x, up)
  | Some t =>
      let p := prior.[i] in
      let '(kept, x) :=
        if ok p && negb (addr7 p =? 0) && (touch_data_start_byte t <=? TOUCH_MSD_MAX_START) then
          on_slot i (keep_controller i cfg t p now_ms) x
        else (false, x) in
      if kept : bool then (x, u8 (up + 1))
      else
        let '(started, x) := on_slot i (touch_bring_up i cfg t now_ms) x in
        (x, if started : bool then u8 (up + 1) else up)
  end.

Definition release_one (x : touch) (i : Z) : touch :=
  (on_slot i (let* rt := get_rt in if negb (int_pin_attached rt =? 0xFF) then detach_recorded else ret tt) x).2.

Definition od_touch_gt911_init (x : touch) (cfg : option od_config) (now_ms : Z) : Z * touch :=
  let prior := s_rt x in
  let x := foldl release_one x controllers in
  let x := foldl (fun x i => (on_slot i (upd (fun _ => touch_rt_clear)) x).2) x controllers in
  match cfg with
  | None => (OD_TOUCH_IDLE_MS, x)
  | Some c =>
      if touch_count c =? 0 then (OD_TOUCH_IDLE_MS, x)
      else
        let '(x, up) := foldl (init_one cfg prior now_ms) (x, 0) controllers in
        (if negb (up =? 0) then TOUCH_DEFAULT_INTERVAL_MS else OD_TOUCH_IDLE_MS, x)
  end.

Definition service_step (cfg : od_config) (now_ms irq_mask : Z) (acc : Z * touch) (i : Z) : Z * touch :=
  let '(next, x) := acc in
  let bit := u8 (Z.shiftl 1 i) in
  let edge := negb (Z.land irq_mask bit =? 0) in
  match touch_cfg (Some cfg) i with
  | None => (next, off_slot (irq_consume (u8 (Z.land irq_mask bit))) x)
  | Some t =>
      let rt := (s_rt x).[i] in
      if disabled rt || negb (ok rt) then (next, off_slot (irq_consume (u8 (Z.land irq_mask bit))) x)
      else
        let '(want, x) := on_slot i (touch_service_one i cfg t now_ms edge) x in
        (if want <? next then want else next, x)
  end.

(** [~((1u << OD_TOUCH_MAX_CONTROLLERS) - 1u)], as a byte. *)
Definition above_controllers : Z := u8 (Z.lnot (Z.shiftl 1 OD_TOUCH_MAX_CONTROLLERS - 1)).

Definition od_touch_gt911_service (x : touch) (cfg : option od_config) (now_ms irq_mask : Z) : Z * touch :=
  match cfg with
  | None => (OD_TOUCH_IDLE_MS, off_slot (irq_consume irq_mask) x)
  | Some cfg =>
      if 0 <? s_suspend x then (OD_TOUCH_IDLE_MS, off_slot (irq_consume irq_mask) x)
      else
        let x := off_slot (irq_consume (u8 (Z.land irq_mask above_controllers))) x in
        foldl (service_step cfg now_ms irq_mask) (OD_TOUCH_IDLE_MS, x) controllers
  end.

Definition od_touch_gt911_suspend (x : touch) : touch := if s_suspend x <? 255 then set_suspend (u8 (s_suspend x + 1)) x else x.

Definition reestablish_one (cfg : option od_config) (now_ms : Z) (x : touch) (i : Z) : touch :=
  match touch_cfg cfg i with
  | None => x
  | Some t =>
      if disabled (s_rt x).[i] then x
      else
        let '(resumed, x) := on_slot i (touch_light_resume i t) x in
        if resumed : bool then x else (on_slot i (touch_bring_up i cfg t now_ms) x).2
  end.

Definition od_touch_gt911_reestablish (x : touch) (cfg : option od_config) (now_ms : Z) : Z * touch :=
  match cfg with
  | None => (OD_TOUCH_IDLE_MS, x)
  | Some c =>
      if touch_count c =? 0 then (OD_TOUCH_IDLE_MS, x)
      else
        let x := off_slot (call od_touch_app_bus_invalidate;; delay_ms GT911_POST_RESET_SETTLE_MS) x in
        (TOUCH_DEFAULT_INTERVAL_MS, foldl (reestablish_one cfg now_ms) x controllers)
  end.

Definition od_touch_gt911_resume (x : touch) (cfg : option od_config) (now_ms : Z) : Z * touch :=
  if s_suspend x =? 0 then (OD_TOUCH_NO_CHANGE, x)
  else
    let x := set_suspend (u8 (s_suspend x - 1)) x in
    if negb (s_suspend x =? 0) then (OD_TOUCH_NO_CHANGE, x)
    else match cfg with
         | None => (OD_TOUCH_IDLE_MS, x)
         | Some c => if touch_count c =? 0 then (OD_TOUCH_IDLE_MS, x) else od_touch_gt911_reestablish x cfg now_ms
         end.

Definition od_touch_gt911_force_resume (x : touch) (cfg : option od_config) (now_ms : Z) : Z * touch :=
  if s_suspend x =? 0 then (OD_TOUCH_NO_CHANGE, x) else od_touch_gt911_resume (set_suspend 1 x) cfg now_ms.

Definition od_touch_gt911_is_int_pin (cfg : option od_config) (pin : Z) : bool :=
  if pin =? 0xFF then false
  else existsb (fun i => match touch_cfg cfg i with Some t => int_pin t =? pin | None => false end) controllers.

Definition od_touch_gt911_address (x : touch) (index : Z) : Z :=
  if OD_TOUCH_MAX_CONTROLLERS <=? index then 0 else if ok (s_rt x).[index] then addr7 (s_rt x).[index] else 0.

End Driver.
Arguments touch E : clear implicits.

End Touch.
