(* ===== verification/TouchProofs.v ===== *)
(** What the touch driver guarantees: its interrupts are the ones it has recorded,
    a service pass answers every interrupt bit and keeps its rhythm, and the block shows what
    the controller reported. *)

From S2P Require Import Prelude I2c Span Proto ConfigTlv Config Touch.
Import I2c Config Touch.

Module TouchProofs.

#[local] Open Scope touch_scope.

Section Reasoning.
Context {E : Type} `{!I2c E, !TouchApp E}.
Implicit Types (s : slot E) (t : bytes).

Definition wp {A} (m : M E A) (Q : A -> slot E -> Prop) (s : slot E) : Prop := Q (m s).1 (m s).2.

Lemma twp_ret {A} (a : A) (Q : A -> slot E -> Prop) s : Q a s -> wp (ret a) Q s.
Proof. done. Qed.

Lemma twp_bind {A B} (m : M E A) (k : A -> M E B) Q s : wp m (fun a s' => wp (k a) Q s') s -> wp (bind m k) Q s.
Proof. unfold wp, bind. by destruct (m s) as [a s']. Qed.

Lemma twp_mono {A} (m : M E A) (Q R : A -> slot E -> Prop) s : wp m Q s -> (forall a s', Q a s' -> R a s') -> wp m R s.
Proof. unfold wp. auto. Qed.

Lemma twp_if {A} (b : bool) (m k : M E A) Q s : (b = true -> wp m Q s) -> (b = false -> wp k Q s) -> wp (if b then m else k) Q s.
Proof. destruct b; auto. Qed.

Lemma twp_get_rt (Q : touch_runtime -> slot E -> Prop) s : Q (c_rt s) s -> wp get_rt Q s.
Proof. done. Qed.

Lemma twp_upd f (Q : unit -> slot E -> Prop) s :
  Q tt {| c_rt := f (c_rt s); c_block := c_block s; c_env := c_env s; c_trace := c_trace s |} -> wp (upd f) Q s.
Proof. done. Qed.

(** *** A relation between before and after, kept along a computation *)

Definition along {A} (R : relation (slot E)) (m : M E A) : Prop := forall s, R s (m s).2.

Lemma along_ret {A} R (a : A) : Reflexive R -> along R (ret a).
Proof. intros HR s. apply HR. Qed.

Lemma along_bind {A B} R (m : M E A) (k : A -> M E B) : Transitive R -> along R m -> (forall a, along R (k a)) -> along R (bind m k).
Proof.
  intros HR Hm Hk s. unfold bind. specialize (Hm s). destruct (m s) as [a s']. etrans; [exact Hm|apply Hk].
Qed.

Lemma along_if {A} R (b : bool) (m k : M E A) : along R m -> along R k -> along R (if b then m else k).
Proof. by destruct b. Qed.

Lemma along_get_rt R : Reflexive R -> along R get_rt.
Proof. intros HR s. apply HR. Qed.

Lemma along_mono {A} (R R' : relation (slot E)) (m : M E A) : (forall s s', R s s' -> R' s s') -> along R m -> along R' m.
Proof. intros H Hm s. apply H, Hm. Qed.

Lemma along_wp {A} R (m : M E A) s : along R m -> wp m (fun _ s' => R s s') s.
Proof. intros Hm. apply Hm. Qed.

(** *** Traffic: bus transactions and pin levels, which change no runtime and no byte
    of the block *)

Definition traffic (ev : touch_event) : bool := match ev with EvWire _ _ | EvPrepare _ | EvReadPin _ => true | _ => false end.

Definition quiet : relation (slot E) := fun s s' =>
  c_rt s' = c_rt s /\ c_block s' = c_block s /\ exists l, c_trace s' = l ++ c_trace s /\ Forall (fun ev => traffic ev = true) l.

#[local] Instance quiet_preorder : PreOrder quiet.
Proof.
  split.
  - intros s. split; [done|split; [done|]]. by exists [].
  - intros s1 s2 s3 (H1 & H2 & l & H3 & H4) (K1 & K2 & k & K3 & K4).
    split; [congruence|split; [congruence|]]. exists (k ++ l). rewrite K3, H3, app_assoc. split; [done|by apply Forall_app].
Qed.

Lemma quiet_call f : along quiet (call f).
Proof. intros s. split; [done|split; [done|]]. by exists []. Qed.

Lemma quiet_ask {A} (f : E -> A * E) ev : (forall a, Forall (fun ev => traffic ev = true) (ev a)) -> along quiet (ask f ev).
Proof. intros Hev s. unfold ask. destruct (f (c_env s)) as [a e]. split; [done|split; [done|]]. by exists (ev a). Qed.

Create HintDb quiet.
#[local] Hint Resolve quiet_call along_ret along_get_rt along_if : quiet.
#[local] Hint Extern 1 (Reflexive quiet) => apply quiet_preorder : quiet.

(** [step_along]: takes a computation apart. *)
Ltac step_along :=
  repeat match goal with
  | |- forall _, _ => intros ?
  | |- along _ (bind _ _) => apply along_bind; [apply _| |]
  | |- along _ (if _ then _ else _) => apply along_if
  | |- along _ (ret _) => apply along_ret; apply _
  | |- along _ get_rt => apply along_get_rt; apply _
  | |- along _ (match ?o with Some _ => _ | None => _ end) => destruct o
  | |- along _ (let '(_, _) := ?p in _) => destruct p
  end.

Lemma quiet_i2c_write bus addr d : along quiet (i2c_write bus addr d).
Proof. unfold i2c_write. step_along. apply quiet_ask. intros a. by repeat constructor. Qed.
Lemma quiet_i2c_read bus addr n : along quiet (i2c_read bus addr n).
Proof. unfold i2c_read. step_along. apply quiet_ask. intros a. by repeat constructor. Qed.
Lemma quiet_i2c_write_read bus addr tx n : along quiet (i2c_write_read bus addr tx n).
Proof. unfold i2c_write_read. step_along. apply quiet_ask. intros a. by repeat constructor. Qed.
#[local] Hint Resolve quiet_i2c_write quiet_i2c_read quiet_i2c_write_read : quiet.

Lemma quiet_read_once bus addr reg n hf rs : along quiet (gt911_read_once bus addr reg n hf rs).
Proof. unfold gt911_read_once. step_along; auto with quiet. Qed.
#[local] Hint Resolve quiet_read_once : quiet.

Lemma quiet_gt911_read bus addr reg n hf : along quiet (gt911_read bus addr reg n hf).
Proof.
  unfold gt911_read. induction (Z.to_nat GT911_I2C_RETRIES) as [|k IH]; cbn [read_attempts]; unfold delay_us; step_along; auto with quiet.
Qed.

Lemma quiet_gt911_write bus addr reg buf hf : along quiet (gt911_write bus addr reg buf hf).
Proof.
  unfold gt911_write. step_along. generalize (selector reg hf ++ buf). intros tx.
  induction (Z.to_nat GT911_I2C_RETRIES) as [|k IH]; cbn [write_attempts]; unfold delay_us; step_along; auto with quiet.
Qed.
#[local] Hint Resolve quiet_gt911_read quiet_gt911_write : quiet.

Lemma quiet_clear_status : along quiet gt911_clear_status.
Proof. unfold gt911_clear_status. step_along; auto with quiet. Qed.

Lemma quiet_probe bus addr : along quiet (gt911_probe bus addr).
Proof. unfold gt911_probe. step_along; auto with quiet. Qed.

Lemma quiet_bus_prepare bus : along quiet (bus_prepare bus).
Proof. apply quiet_ask. intros a. by repeat constructor. Qed.

Lemma quiet_gpio_read pin : along quiet (gpio_read pin).
Proof. apply quiet_ask. intros a. by repeat constructor. Qed.

Lemma quiet_enable_pin t : along quiet (touch_apply_enable_pin t).
Proof. unfold touch_apply_enable_pin, set_mode_output, gpio_write. step_along; auto with quiet. Qed.
#[local] Hint Resolve quiet_clear_status quiet_probe quiet_bus_prepare quiet_gpio_read quiet_enable_pin : quiet.

(** ** The interrupts *)

(** The pins with a handler: attached and not detached since.  A failed attach
    leaves the pin without one. *)
Fixpoint installed (tr : list touch_event) (p : Z) : bool :=
  match tr with
  | [] => false
  | EvAttach _ p' done :: tr => if p' =? p then done else installed tr p
  | EvDetach p' :: tr => if p' =? p then false else installed tr p
  | _ :: tr => installed tr p
  end.

(** Every handler is on a pin that this runtime or one of the others ([O]) records. *)
Definition owned (O : Z -> Prop) (rt : touch_runtime) (tr : list touch_event) : Prop :=
  (forall p, installed tr p = true -> p <> NO_PIN /\ (O p \/ int_pin_attached rt = p)) /\
  (int_attached rt = true -> int_pin_attached rt <> NO_PIN).

Definition owning : relation (slot E) := fun s s' => forall O, owned O (c_rt s) (c_trace s) -> owned O (c_rt s') (c_trace s').

#[local] Instance owning_preorder : PreOrder owning.
Proof. split; [by intros s O|]. intros s1 s2 s3 H1 H2 O HO. by apply H2, H1. Qed.

Lemma installed_quiet l tr p : Forall (fun ev => traffic ev = true) l -> installed (l ++ tr) p = installed tr p.
Proof. induction 1 as [|ev l He Hl IH]; [done|]. by destruct ev. Qed.

Lemma quiet_owning s s' : quiet s s' -> owning s s'.
Proof.
  intros (Hrt & _ & l & Htr & Hl) O [H1 H2]. rewrite Hrt, Htr. split; [|done].
  intros p. rewrite installed_quiet by done. apply H1.
Qed.

Lemma owning_quiet {A} (m : M E A) : along quiet m -> along owning m.
Proof. apply along_mono, quiet_owning. Qed.

(** A change of the runtime that leaves its interrupt alone, or forgets that it works. *)
Definition spares_pins (f : touch_runtime -> touch_runtime) : Prop :=
  forall rt, int_pin_attached (f rt) = int_pin_attached rt /\ (int_attached (f rt) = true -> int_attached rt = true).

Lemma owning_upd f : spares_pins f -> along owning (upd f).
Proof.
  intros Hf s O [H1 H2]. unfold upd. cbn [snd c_rt c_trace]. destruct (Hf (c_rt s)) as [Hp Ha]. unfold owned. rewrite Hp.
  split; [done|]. auto.
Qed.

Ltac step_owning :=
  repeat (progress step_along || (apply owning_upd; intros ?; split; [reflexivity|cbn; intros; congruence]) || (apply owning_quiet; auto with quiet; fail)).

Lemma owning_hw_reset t b : along owning (gt911_hw_reset t b).
Proof. unfold gt911_hw_reset, set_mode_output, gpio_write, config_input, delay_ms, delay_us. step_owning. Qed.

Lemma owning_int_wake t : along owning (gt911_int_wake t).
Proof. unfold gt911_int_wake, set_mode_output, gpio_write, config_input, delay_ms. step_owning. Qed.

Lemma owning_resolve t : along owning (gt911_resolve t).
Proof. unfold gt911_resolve, probe_at, delay_ms. step_owning; by apply owning_hw_reset. Qed.

Lemma owning_detach_recorded : along owning detach_recorded.
Proof.
  intros s O [H1 H2]. unfold detach_recorded, detach_int, ask, upd, bind, get_rt.
  cbn [fst snd c_rt c_trace app]. split; [|done]. intros p. cbn [installed]. destruct (Z.eqb_spec (int_pin_attached (c_rt s)) p) as [|Hne]; [done|]. intros Hp. destruct (H1 p Hp) as [Hn [Ho|Ho]]; [|done].
  split; [done|by left].
Qed.

Lemma owning_disable : along owning touch_disable.
Proof. unfold touch_disable. step_owning. apply owning_detach_recorded. Qed.

(** After the first half of an attach the runtime records no pin or the one wanted. *)
Lemma attach_first_half t s O :
  owned O (c_rt s) (c_trace s) ->
  wp (if negb (int_pin_attached (c_rt s) =? 0xFF) && negb (int_pin_attached (c_rt s) =? int_pin t) then detach_recorded else ret tt)
    (fun _ s' => owned O (c_rt s') (c_trace s') /\
      (int_pin_attached (c_rt s') = NO_PIN \/ int_pin_attached (c_rt s') = int_pin t)) s.
Proof.
  intros Ho. apply twp_if.
  - intros _. split; [by apply owning_detach_recorded|by left].
  - intros Hb. apply twp_ret. split; [done|]. unfold NO_PIN.
    destruct (Z.eqb_spec (int_pin_attached (c_rt s)) 0xFF); [by left|].
    destruct (Z.eqb_spec (int_pin_attached (c_rt s)) (int_pin t)); [by right|done].
Qed.

Lemma owned_attached O rt tr idx pin :
  owned O rt tr -> int_pin_attached rt = NO_PIN \/ int_pin_attached rt = pin -> pin <> NO_PIN ->
  owned O (set_int_pin_attached pin (set_int_attached true rt)) (EvAttach idx pin true :: tr) /\
  (int_attached rt = false -> owned O (set_int_pin_attached NO_PIN rt) (EvAttach idx pin false :: tr)).
Proof.
  intros [H1 H2] Hp Hn. split.
  - split; [|done]. intros p. cbn. destruct (Z.eqb_spec pin p) as [->|]; [by split; [|right]|]. intros Hi.
    destruct (H1 p Hi) as [? [?|Hr]]; [split; [done|by left]|]. destruct Hp; congruence.
  - intros Ha. split; [|cbn; congruence]. intros p. cbn. destruct (Z.eqb_spec pin p) as [->|]; [done|]. intros Hi.
    destruct (H1 p Hi) as [? [?|Hr]]; [split; [done|by left]|]. destruct Hp; congruence.
Qed.

Lemma owning_attach_int idx t : along owning (touch_attach_int idx t).
Proof.
  intros s O Ho. unfold touch_attach_int.
  change (wp (let* rt := get_rt in
    (if negb (int_pin_attached rt =? 0xFF) && negb (int_pin_attached rt =? int_pin t) then detach_recorded else ret tt);;
    let* rt := get_rt in
    if (int_pin t =? 0xFF) || int_attached rt then ret tt
    else
      config_input (int_pin t) true;;
      let* attached := attach_int idx (int_pin t) in
      if negb attached then upd (set_int_pin_attached NO_PIN)
      else upd (set_int_attached true);; upd (set_int_pin_attached (int_pin t)))
    (fun _ s' => owned O (c_rt s') (c_trace s')) s).
  apply twp_bind, twp_get_rt, twp_bind.
  eapply twp_mono; [by apply attach_first_half|]. intros _ s1 [Ho1 Hp]. apply twp_bind, twp_get_rt, twp_if; [by intros _|].
  intros [Hn Ha]%orb_false_iff. apply Z.eqb_neq in Hn. apply twp_bind. unfold wp at 1, config_input, call. cbn [fst snd].
  apply twp_bind. unfold wp at 1, attach_int, ask. cbn [c_env c_rt c_trace].
  destruct (od_touch_app_gpio_attach_int _ idx (int_pin t)) as [[] e]; cbn [fst snd negb app].
  - by apply (owned_attached O _ _ idx).
  - by apply (owned_attached O _ _ idx).
Qed.

Lemma owning_wake_and_attach idx t : along owning (wake_and_attach idx t).
Proof. unfold wake_and_attach. step_along; [apply owning_int_wake|apply owning_attach_int]. Qed.

Lemma owning_bring_up idx cfg t now_ms : along owning (touch_bring_up idx cfg t now_ms).
Proof. unfold touch_bring_up. step_owning; first [apply owning_resolve|apply owning_wake_and_attach]. Qed.

Lemma owning_light_resume idx t : along owning (touch_light_resume idx t).
Proof. unfold touch_light_resume. step_owning. apply owning_wake_and_attach. Qed.

Lemma quiet_block_pack f : (forall s, c_rt (f s).2 = c_rt s /\ c_trace (f s).2 = c_trace s) -> along owning (f : M E unit).
Proof. intros Hf s O. by destruct (Hf s) as [-> ->]. Qed.

Lemma owning_pack start count id x y l : along owning (touch_pack_msd start count id x y l).
Proof. unfold touch_pack_msd. step_along; by apply quiet_block_pack. Qed.

Lemma owning_traceless ev (f : E -> unit * E) :
  (forall tr p, installed (ev :: tr) p = installed tr p) -> along owning (ask f (fun _ => [ev])).
Proof.
  intros Hev s O [H1 H2]. unfold ask. destruct (f (c_env s)) as [[] e]. cbn [snd c_rt c_trace app]. split; [|done].
  intros p. rewrite Hev. apply H1.
Qed.

Lemma owning_count_failure now_ms b : along owning (count_failure now_ms b).
Proof. unfold count_failure. step_owning. apply owning_disable. Qed.

Lemma owning_report t i c id x y : along owning (touch_report t i c id x y).
Proof. unfold touch_report, publish. step_owning; [apply owning_pack|by apply owning_traceless]. Qed.

Lemma owning_service_one idx cfg t now_ms edge : along owning (touch_service_one idx cfg t now_ms edge).
Proof.
  unfold touch_service_one, touch_status. step_owning;
    first [apply owning_count_failure|apply owning_report|by apply owning_traceless].
Qed.

(** Replacing a runtime that records no pin by another. *)
Lemma owned_fresh O rt rt' tr :
  owned O rt tr -> int_pin_attached rt = NO_PIN -> int_pin_attached rt' = NO_PIN -> int_attached rt' = false -> owned O rt' tr.
Proof.
  intros [H1 _] Hn Hn' Ha. split; [|congruence]. intros p Hp. destruct (H1 p Hp) as [? [?|?]]; [split; [done|by left]|congruence].
Qed.

Lemma owned_keep O s i cfg t prior now_ms :
  owned O (c_rt s) (c_trace s) -> int_pin_attached (c_rt s) = NO_PIN ->
  wp (keep_controller i cfg t prior now_ms) (fun _ s' => owned O (c_rt s') (c_trace s')) s.
Proof.
  intros Ho Hn. unfold keep_controller. apply twp_bind, twp_upd, twp_bind.
  set (s1 := {| c_rt := set_rt_bus_id _ _ |}).
  assert (H1 : owned O (c_rt s1) (c_trace s1) /\ int_pin_attached (c_rt s1) = NO_PIN).
  { split; [|done]. by apply (owned_fresh O (c_rt s)). }
  eapply twp_mono; [apply (along_wp quiet), quiet_enable_pin|]. intros ? s2 Hq2.
  apply twp_bind. eapply twp_mono; [apply (along_wp quiet); step_along; auto with quiet|]. intros b s3 Hq3.
  assert (H3 : owned O (c_rt s3) (c_trace s3) /\ int_pin_attached (c_rt s3) = NO_PIN).
  { assert (Hq : quiet s1 s3) by (transitivity s2; [exact Hq2|exact Hq3]). split; [apply (quiet_owning _ _ Hq), H1|].
    destruct Hq as [Hc _]. rewrite Hc. apply H1. }
  destruct H3 as [H3 Hn3]. apply twp_if; intros _.
  - assert (Ha : along owning (gt911_clear_status;; wake_and_attach i t;; upd (set_last_poll_ms now_ms);; ret true)).
    { step_owning. apply owning_wake_and_attach. }
    by apply Ha.
  - apply twp_bind, twp_upd, twp_ret. by apply (owned_fresh O (c_rt s3)).
Qed.
(** Every handler is on a recorded pin, and a controller that says it has an
    interrupt records the pin. *)
Definition interrupts_ok (rts : list touch_runtime) (tr : list touch_event) : Prop :=
  length rts = 4%nat /\
  (forall p, installed tr p = true -> p <> NO_PIN /\ exists j, 0 <= j < 4 /\ int_pin_attached rts.[j] = p) /\
  (forall j, 0 <= j < 4 -> int_attached rts.[j] = true -> int_pin_attached rts.[j] <> NO_PIN).

Definition Inv (x : touch E) : Prop := interrupts_ok (s_rt x) (t_trace x).

(** One controller's step, seen from the array. *)
Lemma interrupts_slot rts tr i rt' tr' :
  0 <= i < 4 -> interrupts_ok rts tr ->
  (forall O, owned O rts.[i] tr -> owned O rt' tr') -> interrupts_ok (rts.[i := rt']) tr'.
Proof.
  intros Hi (Hl & Hp & Ha) Hm.
  destruct (Hm (fun p => exists j, 0 <= j < 4 /\ j <> i /\ int_pin_attached rts.[j] = p)) as [H1 H2].
  { split; [|by apply Ha]. intros p Hip. destruct (Hp p Hip) as (Hn & j & Hj & Hr). split; [done|].
    destruct (Z.eq_dec j i) as [->|]; [by right|left; by exists j]. }
  split; [unfold set; by rewrite length_insert|]. split.
  - intros p Hip. destruct (H1 p Hip) as [Hn [(j & Hj & Hne & Hr)|Hr]]; (split; [done|]).
    + exists j. split; [done|]. by rewrite get_set_ne by lia.
    + exists i. split; [done|]. by rewrite get_set_eq by lia.
  - intros j Hj. destruct (Z.eq_dec j i) as [->|]; [rewrite get_set_eq by lia; exact H2|]. rewrite get_set_ne by lia. by apply Ha.
Qed.

Lemma on_slot_inv {A} i (m : M E A) x :
  0 <= i < 4 -> Inv x ->
  (forall s O, c_rt s = (s_rt x).[i] -> owned O (c_rt s) (c_trace s) -> wp m (fun _ s' => owned O (c_rt s') (c_trace s')) s) ->
  Inv (on_slot i m x).2 /\ forall j, 0 <= j -> j <> i -> (s_rt (on_slot i m x).2).[j] = (s_rt x).[j].
Proof.
  intros Hi Hx Hm. unfold on_slot. set (s := {| c_rt := (s_rt x).[i] |}).
  assert (Hw : forall O, owned O (c_rt s) (c_trace s) -> wp m (fun _ s' => owned O (c_rt s') (c_trace s')) s) by (intros; by apply Hm).
  unfold wp in Hw. destruct (m s) as [a s']. cbn [snd s_rt t_trace]. split.
  - by apply (interrupts_slot _ (t_trace x)).
  - intros j Hj Hne. by rewrite get_set_ne by lia.
Qed.

Lemma on_slot_owning {A} i (m : M E A) x : 0 <= i < 4 -> Inv x -> along owning m -> Inv (on_slot i m x).2.
Proof. intros Hi Hx Hm. apply on_slot_inv; [done..|]. intros s O _ Ho. by apply Hm. Qed.

Lemma off_slot_inv (m : M E unit) x :
  (forall s p, installed (c_trace (m s).2) p = installed (c_trace s) p) -> Inv x -> Inv (off_slot m x).
Proof.
  intros Hm (Hl & Hp & Ha). unfold off_slot. set (s := {| c_rt := touch_rt_clear |}). specialize (Hm s).
  destruct (m s) as [a s']. split; [done|split; [|done]]. intros p. cbn [t_trace]. cbn [snd] in Hm. rewrite Hm. apply Hp.
Qed.

Lemma consume_inv bits x : Inv x -> Inv (off_slot (irq_consume bits) x).
Proof. by apply off_slot_inv. Qed.

Lemma service_step_inv cfg now_ms mask acc i : 0 <= i < 4 -> Inv acc.2 -> Inv (service_step cfg now_ms mask acc i).2.
Proof.
  intros Hi Hx. unfold service_step. destruct acc as [next x]. destruct (touch_cfg (Some cfg) i) as [t|]; [|by apply consume_inv].
  destruct (disabled (s_rt x).[i] || negb (ok (s_rt x).[i])); [by apply consume_inv|].
  pose proof (on_slot_owning i _ x Hi Hx (owning_service_one i cfg t now_ms (negb (Z.land mask (u8 (Z.shiftl 1 i)) =? 0)))) as Ho.
  destruct (on_slot i _ x) as [want x']. exact Ho.
Qed.

Lemma service_inv x cfg now_ms mask : Inv x -> Inv (od_touch_gt911_service x cfg now_ms mask).2.
Proof.
  intros Hx. unfold od_touch_gt911_service. destruct cfg as [cfg|]; [|by apply consume_inv].
  destruct (0 <? s_suspend x); [by apply consume_inv|]. cbn [controllers foldl].
  do 4 (apply service_step_inv; [lia|]). by apply consume_inv.
Qed.

Lemma reestablish_one_inv cfg now_ms x i : 0 <= i < 4 -> Inv x -> Inv (reestablish_one cfg now_ms x i).
Proof.
  intros Hi Hx. unfold reestablish_one. destruct (touch_cfg cfg i) as [t|]; [|done]. destruct (disabled (s_rt x).[i]); [done|].
  pose proof (on_slot_owning i _ x Hi Hx (owning_light_resume i t)) as Ho.
  destruct (on_slot i (touch_light_resume i t) x) as [[] x']; [done|].
  by apply on_slot_owning, owning_bring_up.
Qed.

Lemma reestablish_inv x cfg now_ms : Inv x -> Inv (od_touch_gt911_reestablish x cfg now_ms).2.
Proof.
  intros Hx. unfold od_touch_gt911_reestablish. destruct cfg as [c|]; [|done]. destruct (touch_count c =? 0); [done|].
  cbn [controllers foldl snd]. do 4 (apply reestablish_one_inv; [lia|]). by apply off_slot_inv.
Qed.

Lemma resume_inv x cfg now_ms : Inv x -> Inv (od_touch_gt911_resume x cfg now_ms).2.
Proof.
  intros Hx. unfold od_touch_gt911_resume. destruct (s_suspend x =? 0); [done|].
  destruct (negb (s_suspend (set_suspend (u8 (s_suspend x - 1)) x) =? 0)); [done|].
  destruct cfg as [c|]; [|done]. destruct (touch_count c =? 0); [done|]. by apply reestablish_inv.
Qed.

(** *** Initialisation *)

Definition unrecorded (x : touch E) (j : Z) : Prop := int_pin_attached (s_rt x).[j] = NO_PIN.

Lemma release_one_inv x i :
  0 <= i < 4 -> Inv x -> Inv (release_one x i) /\ unrecorded (release_one x i) i /\
    forall j, 0 <= j -> unrecorded x j -> unrecorded (release_one x i) j.
Proof.
  intros Hi Hx. unfold release_one. set (m := let* rt := get_rt in _).
  destruct (on_slot_inv i m x Hi Hx) as [Hinv Ho].
  { intros s O _ Hs. subst m. apply twp_bind, twp_get_rt, twp_if; intros _; [by apply owning_detach_recorded|done]. }
  assert (Hu : unrecorded (on_slot i m x).2 i).
  { unfold unrecorded, on_slot. set (s := {| c_rt := (s_rt x).[i] |}).
    assert (Hw : wp m (fun _ s' => int_pin_attached (c_rt s') = NO_PIN) s).
    { subst m. apply twp_bind, twp_get_rt, twp_if; [done|]. intros Hb. apply negb_false_iff, Z.eqb_eq in Hb. done. }
    unfold wp in Hw. destruct (m s) as [a s']. cbn [snd s_rt] in *. rewrite get_set_eq; [done|]. destruct Hx as [Hl _]. lia. }
  split; [done|split; [done|]]. intros j Hj Hu'. destruct (Z.eq_dec j i) as [->|]; [done|]. unfold unrecorded. by rewrite Ho by lia.
Qed.

Lemma clear_one_inv x i :
  0 <= i < 4 -> Inv x -> (forall j, 0 <= j < 4 -> unrecorded x j) ->
  let x' := (on_slot i (upd (fun _ => touch_rt_clear)) x).2 in Inv x' /\ forall j, 0 <= j < 4 -> unrecorded x' j.
Proof.
  intros Hi Hx Hu x'. destruct (on_slot_inv i (upd (fun _ => touch_rt_clear)) x Hi Hx) as [Hinv Ho].
  { intros s O Hs Hw. apply twp_upd. apply (owned_fresh O (c_rt s)); [done| |done..]. rewrite Hs. by apply Hu. }
  split; [done|]. intros j Hj. unfold unrecorded. destruct (Z.eq_dec j i) as [->|]; [|rewrite Ho by lia; by apply Hu].
  subst x'. unfold on_slot, upd. cbn [snd s_rt c_rt]. rewrite get_set_eq; [done|]. destruct Hx as [Hl _]. lia.
Qed.

Lemma init_one_inv cfg prior now_ms acc i :
  0 <= i < 4 -> Inv acc.1 -> (forall j, i <= j < 4 -> unrecorded acc.1 j) ->
  Inv (init_one cfg prior now_ms acc i).1 /\ forall j, i + 1 <= j < 4 -> unrecorded (init_one cfg prior now_ms acc i).1 j.
Proof.
  intros Hi Hx Hu. unfold init_one. destruct acc as [x up]. cbn [fst] in *.
  destruct (touch_cfg cfg i) as [t|]; [|split; [done|intros; apply Hu; lia]].
  set (k := if ok prior.[i] && negb (addr7 prior.[i] =? 0) && (touch_data_start_byte t <=? TOUCH_MSD_MAX_START)
    then on_slot i (keep_controller i cfg t prior.[i] now_ms) x else (false, x)).
  assert (Hk : Inv k.2 /\ forall j, i + 1 <= j < 4 -> unrecorded k.2 j).
  { subst k. case_match; [|split; [done|intros; apply Hu; lia]].
    destruct (on_slot_inv i (keep_controller i cfg t prior.[i] now_ms) x Hi Hx) as [? Ho].
    { intros s O Hs Hw. apply owned_keep; [done|]. rewrite Hs. apply Hu. lia. }
    split; [done|]. intros j Hj. unfold unrecorded. rewrite Ho by lia. apply Hu. lia. }
  destruct k as [[] x1]; [done|]. cbn [snd] in Hk. destruct Hk as [Hx1 Hu1].
  destruct (on_slot_inv i (touch_bring_up i cfg t now_ms) x1 Hi Hx1) as [? Ho].
  { intros s O _ Hw. by apply owning_bring_up. }
  destruct (on_slot i (touch_bring_up i cfg t now_ms) x1) as [started x2]. cbn [fst snd] in *. split; [done|].
  intros j Hj. unfold unrecorded. rewrite Ho by lia. by apply Hu1.
Qed.

Lemma init_inv x cfg now_ms : Inv x -> Inv (od_touch_gt911_init x cfg now_ms).2.
Proof.
  intros Hx. unfold od_touch_gt911_init. set (prior := s_rt x). cbn [controllers foldl].
  destruct (release_one_inv x 0) as (H0 & U0 & K0); [lia|done|].
  destruct (release_one_inv (release_one x 0) 1) as (H1 & U1 & K1); [lia|done|].
  destruct (release_one_inv (release_one (release_one x 0) 1) 2) as (H2 & U2 & K2); [lia|done|].
  destruct (release_one_inv (release_one (release_one (release_one x 0) 1) 2) 3) as (H3 & U3 & K3); [lia|done|].
  set (x4 := release_one _ 3) in *.
  assert (U : forall j, 0 <= j < 4 -> unrecorded x4 j).
  { intros j Hj. assert (j = 0 \/ j = 1 \/ j = 2 \/ j = 3) as [-> | [-> | [-> | ->]]] by lia; auto with lia. }
  clearbody x4. clear -H3 U. 
  destruct (clear_one_inv x4 0 ltac:(lia) H3 U) as [C0 V0]. set (y0 := (on_slot 0 _ x4).2) in *.
  destruct (clear_one_inv y0 1 ltac:(lia) C0 V0) as [C1 V1]. set (y1 := (on_slot 1 _ y0).2) in *.
  destruct (clear_one_inv y1 2 ltac:(lia) C1 V1) as [C2 V2]. set (y2 := (on_slot 2 _ y1).2) in *.
  destruct (clear_one_inv y2 3 ltac:(lia) C2 V2) as [C3 V3]. set (y3 := (on_slot 3 _ y2).2) in *.
  clearbody y3. clear -C3 V3. destruct cfg as [c|]; [|done]. destruct (touch_count c =? 0); [done|].
  destruct (init_one_inv (Some c) prior now_ms (y3, 0) 0) as [I0 W0]; [lia|done|done|].
  destruct (init_one_inv (Some c) prior now_ms _ 1 ltac:(lia) I0 W0) as [I1 W1].
  destruct (init_one_inv (Some c) prior now_ms _ 2 ltac:(lia) I1 W1) as [I2 W2].
  destruct (init_one_inv (Some c) prior now_ms _ 3 ltac:(lia) I2 W2) as [I3 W3].
  destruct (init_one (Some c) prior now_ms _ 3) as [z up]. exact I3.
Qed.

(** ** Any sequence of calls *)

Inductive touch_op :=
| OpInit (cfg : option od_config) (now_ms : Z)
| OpService (cfg : option od_config) (now_ms irq_mask : Z)
| OpSuspend
| OpResume (cfg : option od_config) (now_ms : Z)
| OpForceResume (cfg : option od_config) (now_ms : Z)
| OpReestablish (cfg : option od_config) (now_ms : Z).

Definition do_op (x : touch E) (op : touch_op) : touch E :=
  match op with
  | OpInit cfg now_ms => (od_touch_gt911_init x cfg now_ms).2
  | OpService cfg now_ms mask => (od_touch_gt911_service x cfg now_ms mask).2
  | OpSuspend => od_touch_gt911_suspend x
  | OpResume cfg now_ms => (od_touch_gt911_resume x cfg now_ms).2
  | OpForceResume cfg now_ms => (od_touch_gt911_force_resume x cfg now_ms).2
  | OpReestablish cfg now_ms => (od_touch_gt911_reestablish x cfg now_ms).2
  end.

Lemma do_op_inv x op : Inv x -> Inv (do_op x op).
Proof.
  intros Hx. destruct op; cbn [do_op].
  - by apply init_inv.
  - by apply service_inv.
  - unfold od_touch_gt911_suspend. by destruct (s_suspend x <? 255).
  - by apply resume_inv.
  - unfold od_touch_gt911_force_resume. destruct (s_suspend x =? 0); [done|]. by apply resume_inv.
  - by apply reestablish_inv.
Qed.

(** No interrupt handler is ever orphaned: whatever calls are made from a cold
    start, with whatever configurations and on whatever bus, every pin that has a handler
    is recorded by one of the four controllers, which will detach it when it is disabled,
    moved or initialised again; and a controller that counts on an interrupt, and so
    polls its pin, has recorded that pin. *)
Theorem touch_interrupts_owned (block : bytes) (e : E) (ops : list touch_op) :
  let x := foldl do_op (at_boot block e) ops in
  (forall p, installed (t_trace x) p = true -> p <> NO_PIN /\ exists j, 0 <= j < 4 /\ int_pin_attached (s_rt x).[j] = p) /\
  (forall j, 0 <= j < 4 -> int_attached (s_rt x).[j] = true -> int_pin_attached (s_rt x).[j] <> NO_PIN).
Proof.
  intros x. assert (Hx : Inv x); [|split; apply Hx]. subst x. induction ops as [|op ops IH] using rev_ind.
  - split; [done|]. split; [done|]. intros j Hj.
    by assert (j = 0 \/ j = 1 \/ j = 2 \/ j = 3) as [-> | [-> | [-> | ->]]] by lia.
  - rewrite foldl_snoc. by apply do_op_inv.
Qed.
(** ** A service pass *)

(** The interrupt bits a stretch of the trace cleared. *)
Definition consumed (l : list touch_event) : Z := foldr (fun ev b => match ev with EvConsume c => Z.lor b c | _ => b end) 0 l.

Lemma consumed_app l k : consumed (l ++ k) = Z.lor (consumed k) (consumed l).
Proof.
  induction l as [|ev l IH]; [by rewrite Z.lor_0_r|]. cbn [app consumed foldr]. fold (consumed (l ++ k)) (consumed l). rewrite IH.
  destruct ev; try done. by rewrite Z.lor_assoc.
Qed.

(** What was appended to the trace cleared [bits]. *)
Definition clears (bits : Z) (tr tr' : list touch_event) : Prop := exists l, tr' = l ++ tr /\ consumed l = bits.

Lemma clears_trans a b tr1 tr2 tr3 : clears a tr1 tr2 -> clears b tr2 tr3 -> clears (Z.lor a b) tr1 tr3.
Proof.
  intros (l & -> & <-) (k & -> & <-). exists (k ++ l). by rewrite app_assoc, consumed_app.
Qed.

Definition keeps_bits : relation (slot E) := fun s s' => clears 0 (c_trace s) (c_trace s').

#[local] Instance keeps_bits_preorder : PreOrder keeps_bits.
Proof.
  split; [intros s; by exists []|]. intros s1 s2 s3 H1 H2. unfold keeps_bits. change 0 with (Z.lor 0 0). by eapply clears_trans.
Qed.

Lemma quiet_keeps_bits s s' : quiet s s' -> keeps_bits s s'.
Proof.
  intros (_ & _ & l & Htr & Hl). exists l. split; [done|]. clear Htr. induction Hl as [|ev l Hev Hl IH]; [done|]. by destruct ev.
Qed.

Lemma keeps_quiet {A} (m : M E A) : along quiet m -> along keeps_bits m.
Proof. apply along_mono, quiet_keeps_bits. Qed.

Lemma keeps_upd f : along keeps_bits (upd f).
Proof. intros s. by exists []. Qed.

Lemma keeps_block f : (forall s, c_trace (f s).2 = c_trace s) -> along keeps_bits (f : M E unit).
Proof. intros Hf s. exists []. by rewrite Hf. Qed.

Lemma keeps_ask {A} (f : E -> A * E) ev : (forall a, consumed (ev a) = 0) -> along keeps_bits (ask f ev).
Proof. intros Hev s. unfold ask. destruct (f (c_env s)) as [a e]. by exists (ev a). Qed.

Ltac step_keeps := repeat (progress step_along || apply keeps_upd || (apply keeps_quiet; auto with quiet; fail)).

Lemma keeps_disable : along keeps_bits touch_disable.
Proof. unfold touch_disable, detach_recorded, detach_int. step_keeps. by apply keeps_ask. Qed.

Lemma keeps_count_failure now_ms b : along keeps_bits (count_failure now_ms b).
Proof. unfold count_failure. step_keeps. apply keeps_disable. Qed.

Lemma bits_report t i c id x y : along keeps_bits (touch_report t i c id x y).
Proof.
  unfold touch_report, touch_pack_msd, publish. step_keeps; first [by apply keeps_block|by apply keeps_ask].
Qed.

Lemma keeps_status cfg t now_ms edge low st : along keeps_bits (touch_status cfg t now_ms edge low st).
Proof. unfold touch_status. step_keeps; first [apply keeps_count_failure|apply bits_report]. Qed.

(** What a computation returns, whatever it starts from. *)
Definition returns {A} (P : A -> Prop) (m : M E A) : Prop := forall s, P (m s).1.

Lemma returns_ret {A} (P : A -> Prop) a : P a -> returns P (ret a).
Proof. by intros H s. Qed.

Lemma returns_bind {A B} (P : B -> Prop) (m : M E A) (k : A -> M E B) : (forall a, returns P (k a)) -> returns P (bind m k).
Proof. intros Hk s. unfold bind. destruct (m s) as [a s']. apply Hk. Qed.

Lemma returns_if {A} (P : A -> Prop) (b : bool) (m k : M E A) : returns P m -> returns P k -> returns P (if b then m else k).
Proof. by destruct b. Qed.

Definition rhythm (d : Z) : Prop := 1 <= d <= OD_TOUCH_IDLE_MS.

Ltac step_returns :=
  repeat match goal with
  | |- forall _, _ => intros ?
  | |- returns _ (bind _ _) => apply returns_bind
  | |- returns _ (if _ then _ else _) => apply returns_if
  | |- returns _ (ret _) => apply returns_ret
  | |- returns _ (match ?o with Some _ => _ | None => _ end) => destruct o
  | |- returns _ (let '(_, _) := ?p in _) => destruct p
  end.

Lemma interval_range t : bytes_ok t -> 1 <= touch_interval t <= 255.
Proof.
  intros Ht. pose proof (get_byte t 9 Ht) as Hb. unfold touch_interval, poll_interval_ms, TOUCH_DEFAULT_INTERVAL_MS, is_byte in *.
  destruct (Z.eqb_spec t.[9] 0); cbn [negb]; lia.
Qed.

Lemma returns_failure now_ms b : returns rhythm (count_failure now_ms b).
Proof. unfold count_failure. step_returns; done. Qed.

Lemma returns_status cfg t now_ms edge low st : bytes_ok t -> returns rhythm (touch_status cfg t now_ms edge low st).
Proof.
  intros Ht. pose proof (interval_range t Ht) as Hi. unfold touch_status, touch_report.
  step_returns; first [apply returns_failure|unfold rhythm, OD_TOUCH_IDLE_MS; lia].
Qed.

Lemma service_one_spec idx cfg t now_ms edge s :
  bytes_ok t -> ok (c_rt s) = true -> disabled (c_rt s) = false ->
  wp (touch_service_one idx cfg t now_ms edge)
    (fun d s' => rhythm d /\ clears (if edge then u8 (Z.shiftl 1 idx) else 0) (c_trace s) (c_trace s')) s.
Proof.
  intros Ht Hok Hd. pose proof (interval_range t Ht) as Hi. unfold touch_service_one. apply twp_bind, twp_get_rt. rewrite Hok, Hd. cbn [negb orb].
  apply twp_bind. eapply twp_mono; [apply (along_wp keeps_bits); step_keeps|]. intros low s1 H1. cbn beta in H1.
  assert (Hw : forall (m : M E Z), along keeps_bits m -> returns rhythm m ->
    wp ((if edge then irq_consume (u8 (Z.shiftl 1 idx)) else ret tt);; m)
      (fun d s' => rhythm d /\ clears (if edge then u8 (Z.shiftl 1 idx) else 0) (c_trace s) (c_trace s')) s1).
  { intros m Hm Hr. apply twp_bind. destruct edge.
    - unfold wp at 1, irq_consume, ask. cbn [fst snd]. split; [apply Hr|].
      assert (Hc : clears (u8 (Z.shiftl 1 idx)) (c_trace s1) (EvConsume (u8 (Z.shiftl 1 idx)) :: c_trace s1)) by (by eexists [_]).
      pose proof (clears_trans _ _ _ _ _ (clears_trans _ _ _ _ _ H1 Hc) (Hm {| c_rt := c_rt s1; c_block := c_block s1;
        c_env := od_touch_app_irq_consume (c_env s1) (u8 (Z.shiftl 1 idx)); c_trace := [EvConsume (u8 (Z.shiftl 1 idx))] ++ c_trace s1 |})) as Hc2.
      by rewrite Z.lor_0_r in Hc2.
    - apply twp_ret. split; [apply Hr|]. exact (clears_trans _ _ _ _ _ H1 (Hm s1)). }
  apply twp_if.
  - intros Hb. apply twp_ret. destruct edge; [done|]. split; [|exact H1]. cbn [negb andb] in Hb.
    pose proof (wrap_fits 32 (now_ms - last_poll_ms (c_rt s)) ltac:(lia)) as He. unfold fits in He.
    destruct (Z.leb_spec (touch_interval t) (u32 (now_ms - last_poll_ms (c_rt s)))); [done|].
    unfold rhythm, OD_TOUCH_IDLE_MS. rewrite (wrap_id 32 (touch_interval t - _)) by (unfold fits; lia). lia.
  - intros _. apply Hw.
    + step_keeps; first [apply keeps_count_failure|apply keeps_status].
    + step_returns; first [apply returns_failure|by apply returns_status|done].
Qed.

Definition config_bytes (cfg : od_config) : Prop := Forall bytes_ok (elems (touch_controllers cfg)).

Lemma touch_cfg_bytes cfg i t : config_bytes cfg -> touch_cfg (Some cfg) i = Some t -> bytes_ok t.
Proof.
  intros Hc Ht. unfold touch_cfg in Ht. case_match; [done|]. case_match; [done|]. injection Ht as <-. unfold get.
  destruct (decide (Z.to_nat i < length (elems (touch_controllers cfg)))%nat) as [Hlt|Hge].
  - apply lookup_lt_is_Some_2 in Hlt as [t Ht]. rewrite (list_lookup_total_correct _ _ _ Ht). by eapply Forall_lookup_1.
  - rewrite list_lookup_total_alt, lookup_ge_None_2 by lia. constructor.
Qed.

Lemma off_slot_clears bits x : clears bits (t_trace x) (t_trace (off_slot (irq_consume bits) x)).
Proof. by exists [EvConsume bits]. Qed.

Lemma land_bit mask i : 0 <= i < 4 -> is_byte mask ->
  u8 (Z.land mask (u8 (Z.shiftl 1 i))) = if negb (Z.land mask (u8 (Z.shiftl 1 i)) =? 0) then u8 (Z.shiftl 1 i) else 0.
Proof.
  intros Hi Hm. apply Z.eqb_eq. revert mask Hm.
  assert (i = 0 \/ i = 1 \/ i = 2 \/ i = 3) as [-> | [-> | [-> | ->]]] by lia;
    [apply (forallb_below (fun mask => u8 (Z.land mask (u8 (Z.shiftl 1 0))) =? (if negb (Z.land mask (u8 (Z.shiftl 1 0)) =? 0) then u8 (Z.shiftl 1 0) else 0)) 256)
    |apply (forallb_below (fun mask => u8 (Z.land mask (u8 (Z.shiftl 1 1))) =? (if negb (Z.land mask (u8 (Z.shiftl 1 1)) =? 0) then u8 (Z.shiftl 1 1) else 0)) 256)
    |apply (forallb_below (fun mask => u8 (Z.land mask (u8 (Z.shiftl 1 2))) =? (if negb (Z.land mask (u8 (Z.shiftl 1 2)) =? 0) then u8 (Z.shiftl 1 2) else 0)) 256)
    |apply (forallb_below (fun mask => u8 (Z.land mask (u8 (Z.shiftl 1 3))) =? (if negb (Z.land mask (u8 (Z.shiftl 1 3)) =? 0) then u8 (Z.shiftl 1 3) else 0)) 256)];
    vm_compute; reflexivity.
Qed.

Lemma service_step_spec cfg now_ms mask next x i :
  config_bytes cfg -> is_byte mask -> 0 <= i < 4 -> rhythm next ->
  rhythm (service_step cfg now_ms mask (next, x) i).1 /\
  clears (u8 (Z.land mask (u8 (Z.shiftl 1 i)))) (t_trace x) (t_trace (service_step cfg now_ms mask (next, x) i).2).
Proof.
  intros Hc Hm Hi Hn. unfold service_step. destruct (touch_cfg (Some cfg) i) as [t|] eqn:Ht; [|split; [done|apply off_slot_clears]].
  destruct (disabled (s_rt x).[i] || negb (ok (s_rt x).[i])) eqn:Hb; [split; [done|apply off_slot_clears]|].
  apply orb_false_iff in Hb as [Hd Ho]. apply negb_false_iff in Ho. set (edge := negb (Z.land mask (u8 (Z.shiftl 1 i)) =? 0)).
  unfold on_slot. set (s := {| c_rt := (s_rt x).[i] |}).
  pose proof (service_one_spec i cfg t now_ms edge s (touch_cfg_bytes _ _ _ Hc Ht) Ho Hd) as Hw. unfold wp in Hw.
  destruct (touch_service_one i cfg t now_ms edge s) as [want s']. cbn [fst snd t_trace] in *. destruct Hw as [Hr Hw].
  split; [by destruct (want <? next)|]. rewrite (land_bit mask i Hi Hm). exact Hw.
Qed.

(** All bits of a mask, the four controllers' and the rest. *)
Lemma mask_parts mask : is_byte mask ->
  Z.lor (Z.lor (Z.lor (Z.lor (u8 (Z.land mask above_controllers)) (u8 (Z.land mask (u8 (Z.shiftl 1 0)))))
    (u8 (Z.land mask (u8 (Z.shiftl 1 1))))) (u8 (Z.land mask (u8 (Z.shiftl 1 2))))) (u8 (Z.land mask (u8 (Z.shiftl 1 3)))) = mask.
Proof.
  intros Hm. apply Z.eqb_eq. revert mask Hm. apply (forallb_below (fun mask => Z.lor (Z.lor (Z.lor (Z.lor (u8 (Z.land mask above_controllers))
    (u8 (Z.land mask (u8 (Z.shiftl 1 0))))) (u8 (Z.land mask (u8 (Z.shiftl 1 1))))) (u8 (Z.land mask (u8 (Z.shiftl 1 2)))))
    (u8 (Z.land mask (u8 (Z.shiftl 1 3)))) =? mask) 256). vm_compute. reflexivity.
Qed.

(** A service pass asks to be called again in 1 to 1000 milliseconds, and clears
    exactly the interrupt bits it was handed, each of them, whatever its controllers and
    its bus do, so a caller that waits for an empty mask never spins.  While a panel
    refresh has the bus (or there is no configuration) that is all it does. *)
Theorem touch_service_answers (x : touch E) (cfg : option od_config) now_ms mask :
  is_byte mask -> (forall c, cfg = Some c -> config_bytes c) ->
  let '(next, x') := od_touch_gt911_service x cfg now_ms mask in
  1 <= next <= 1000 /\ clears mask (t_trace x) (t_trace x') /\
  (cfg = None \/ 0 < s_suspend x -> s_rt x' = s_rt x /\ t_block x' = t_block x /\ t_trace x' = EvConsume mask :: t_trace x).
Proof.
  intros Hm Hc. unfold od_touch_gt911_service. destruct cfg as [cfg|].
  2: { split; [done|]. split; [apply off_slot_clears|done]. }
  destruct (Z.ltb_spec 0 (s_suspend x)); [split; [done|split; [apply off_slot_clears|done]]|].
  specialize (Hc cfg eq_refl). cbn [controllers foldl]. set (x0 := off_slot _ x).
  assert (C : clears (u8 (Z.land mask above_controllers)) (t_trace x) (t_trace x0)) by apply off_slot_clears.
  assert (Hs : forall acc i a, 0 <= i < 4 -> rhythm acc.1 -> clears a (t_trace x) (t_trace acc.2) ->
    rhythm (service_step cfg now_ms mask acc i).1 /\
    clears (Z.lor a (u8 (Z.land mask (u8 (Z.shiftl 1 i))))) (t_trace x) (t_trace (service_step cfg now_ms mask acc i).2)).
  { intros [next y] i a Hi Hr Ha. destruct (service_step_spec cfg now_ms mask next y i Hc Hm Hi Hr) as [? ?].
    split; [done|]. by eapply clears_trans. }
  destruct (Hs (OD_TOUCH_IDLE_MS, x0) 0 _ ltac:(lia) ltac:(done) C) as [R0 C0].
  destruct (Hs _ 1 _ ltac:(lia) R0 C0) as [R1 C1]. destruct (Hs _ 2 _ ltac:(lia) R1 C1) as [R2 C2].
  destruct (Hs _ 3 _ ltac:(lia) R2 C2) as [R3 C3]. rewrite mask_parts in C3 by done.
  destruct (service_step cfg now_ms mask _ 3) as [next x']. split; [exact R3|]. split; [exact C3|]. intros [?|?]; [done|lia].
Qed.
(** ** What one service shows the host *)

(** The host's reading of the five bytes. *)
Inductive touch_view :=
| Untouched
| Contact (count id x y : Z)
| Lifted (id x y : Z).

Definition view_at (block : bytes) (start : Z) : touch_view :=
  let n := block.[start] mod 16 in
  let id := block.[start] `div` 16 in
  let x := block.[start + 1] + 256 * block.[start + 2] in
  let y := block.[start + 3] + 256 * block.[start + 4] in
  if n =? 0 then Untouched else if n =? 6 then Lifted id x y else Contact n id x y.

Definition shown (count id x y : Z) (was_latched : bool) : touch_view :=
  if count =? 0 then if was_latched then Lifted (id mod 16) x y else Untouched else Contact count (id mod 16) x y.

(** A coordinate on a panel [size] pixels long; no panel leaves it as it is. *)
Definition place (inverted : bool) (size v : Z) : Z :=
  if size =? 0 then v else if inverted then Z.max 0 (size - 1 - v) else Z.min v (size - 1).

Definition mapped (cfg : od_config) (t : bytes) (x y : Z) : Z * Z :=
  let '(x, y) := if flag t OD_TOUCH_FLAG_SWAP_XY then (y, x) else (x, y) in
  (place (flag t OD_TOUCH_FLAG_INVERT_X) (panel_size cfg t).1 x, place (flag t OD_TOUCH_FLAG_INVERT_Y) (panel_size cfg t).2 y).

Lemma clip_invert b w v : 0 <= w < 65536 -> 0 <= v < 65536 ->
  clip w (invert b w v) = place b w v /\ 0 <= place b w v < 65536 /\ (0 < w -> place b w v < w).
Proof.
  intros Hw Hv. unfold clip, invert, place. destruct (Z.eqb_spec w 0) as [->|Hne].
  - rewrite andb_false_r. cbn. lia.
  - destruct (Z.ltb_spec 0 w); [|lia]. rewrite andb_true_r. cbn [andb]. destruct b.
    + destruct (Z.ltb_spec v w).
      * rewrite (wrap_id 16 (w - 1 - v)) by (unfold fits; lia). destruct (Z.leb_spec w (w - 1 - v)); lia.
      * destruct (Z.leb_spec w 0); lia.
    + destruct (Z.leb_spec w v); [rewrite wrap_id by (unfold fits; lia)|]; lia.
Qed.

Definition panel_ok (cfg : od_config) (t : bytes) : Prop :=
  0 <= (panel_size cfg t).1 < 65536 /\ 0 <= (panel_size cfg t).2 < 65536.

Lemma map_spec cfg t x y : panel_ok cfg t -> 0 <= x < 65536 -> 0 <= y < 65536 ->
  apply_touch_map cfg t x y = mapped cfg t x y /\
  0 <= (mapped cfg t x y).1 < 65536 /\ 0 <= (mapped cfg t x y).2 < 65536 /\
  (0 < (panel_size cfg t).1 -> (mapped cfg t x y).1 < (panel_size cfg t).1) /\
  (0 < (panel_size cfg t).2 -> (mapped cfg t x y).2 < (panel_size cfg t).2).
Proof.
  unfold panel_ok, apply_touch_map, mapped. destruct (panel_size cfg t) as [w h]. cbn [fst snd]. intros [Hw Hh] Hx Hy.
  destruct (flag t OD_TOUCH_FLAG_SWAP_XY).
  - destruct (clip_invert (flag t OD_TOUCH_FLAG_INVERT_X) w y Hw Hy) as (-> & ? & ?), (clip_invert (flag t OD_TOUCH_FLAG_INVERT_Y) h x Hh Hx) as (-> & ? & ?). auto.
  - destruct (clip_invert (flag t OD_TOUCH_FLAG_INVERT_X) w x Hw Hx) as (-> & ? & ?), (clip_invert (flag t OD_TOUCH_FLAG_INVERT_Y) h y Hh Hy) as (-> & ? & ?). auto.
Qed.

(** *** Packing *)

Definition same_outside (start : Z) (b b' : bytes) : Prop :=
  len b' = len b /\ forall i, 0 <= i -> ~ start <= i <= start + 4 -> b'.[i] = b.[i].

(** The block says [v] at [start], the rest of it untouched; a window that does not fit is
    not written at all. *)
Definition shows (start : Z) (b b' : bytes) (v : touch_view) : Prop :=
  if start <=? TOUCH_MSD_MAX_START then same_outside start b b' /\ view_at b' start = v else b' = b.

Lemma five_writes (b : bytes) start v0 v1 v2 v3 v4 :
  len b = OD_MSD_DYNAMIC_LEN -> 0 <= start <= 6 ->
  let b' := b.[start := v0].[start + 1 := v1].[start + 2 := v2].[start + 3 := v3].[start + 4 := v4] in
  same_outside start b b' /\ b'.[start] = v0 /\ b'.[start + 1] = v1 /\ b'.[start + 2] = v2 /\ b'.[start + 3] = v3 /\ b'.[start + 4] = v4.
Proof.
  intros Hl Hs b'. subst b'. unfold OD_MSD_DYNAMIC_LEN in Hl. split.
  - split; [by rewrite !len_set|]. intros i Hi Hn. by rewrite !get_set_ne by lia.
  - repeat split; repeat first [rewrite get_set_eq by (rewrite ?len_set; lia)|rewrite get_set_ne by lia]; done.
Qed.

Lemma twp_msd_write i v (Q : unit -> slot E -> Prop) s :
  i < len (c_block s) -> Q tt {| c_rt := c_rt s; c_block := (c_block s).[i := v]; c_env := c_env s; c_trace := c_trace s |} ->
  wp (od_touch_app_msd_write i v) Q s.
Proof. intros Hi HQ. unfold wp, od_touch_app_msd_write. cbn [fst snd]. destruct (Z.ltb_spec i (len (c_block s))); [done|lia]. Qed.

Lemma pack_byte count id (Hc : 0 <= count <= 5) (Hid : is_byte id) :
  let b := u8 (Z.lor (if count =? 0 then 6 else Z.land count 0x0F) (u8 (Z.shiftl (Z.land id 0x0F) 4))) in
  b mod 16 = (if count =? 0 then 6 else count) /\ b `div` 16 = id mod 16.
Proof.
  set (low := if count =? 0 then 6 else Z.land count 0x0F).
  assert (Hlow : low = (if count =? 0 then 6 else count) /\ 0 <= low < 16).
  { subst low. destruct (Z.eqb_spec count 0); [lia|]. change 0x0F with (Z.ones 4). rewrite Z.land_ones, Z.mod_small by lia. lia. }
  destruct Hlow as [<- Hlow]. clearbody low. cbv zeta. change 0x0F with (Z.ones 4). rewrite Z.land_ones by lia.
  change (2 ^ 4) with 16. pose proof (Z.mod_pos_bound id 16 ltac:(lia)) as Hm.
  rewrite (wrap_id 8 (Z.shiftl _ _)) by (rewrite Z.shiftl_mul_pow2 by lia; unfold fits; lia).
  rewrite Z.lor_comm, lor_shiftl_add by (unfold fits; lia). rewrite Z.shiftl_mul_pow2 by lia. change (2 ^ 4) with 16.
  rewrite wrap_id by (unfold fits; lia). split; Z.to_euclidean_division_equations; lia.
Qed.

Lemma word_bytes x : 0 <= x < 65536 -> u8 (Z.land x 0xFF) + 256 * u8 (Z.shiftr x 8) = x.
Proof.
  intros Hx. change 0xFF with (Z.ones 8). rewrite Z.land_ones, Z.shiftr_div_pow2 by lia. unfold wrap. change (2 ^ 8) with 256.
  Z.to_euclidean_division_equations. lia.
Qed.

Lemma pack_spec start count id x y l s :
  len (c_block s) = OD_MSD_DYNAMIC_LEN -> is_byte start -> 0 <= count <= 5 -> is_byte id ->
  0 <= x < 65536 -> 0 <= y < 65536 ->
  wp (touch_pack_msd start count id x y l) (fun _ s' => c_rt s' = c_rt s /\ c_trace s' = c_trace s /\
    shows start (c_block s) (c_block s') (shown count id x y l)) s.
Proof.
  intros Hl Hs Hc Hid Hx Hy. unfold is_byte in Hs. unfold touch_pack_msd, shows.
  destruct (Z.leb_spec start TOUCH_MSD_MAX_START) as [Hle|Hgt]; unfold TOUCH_MSD_MAX_START, TOUCH_MSD_BLOCK, OD_MSD_DYNAMIC_LEN in *.
  2: { rewrite (wrap_id 16 start) by (unfold fits; lia). destruct (Z.ltb_spec 11 (start + 5)); [done|lia]. }
  assert (Hs6 : 0 <= start <= 6) by lia. clear Hs Hle. rename Hs6 into Hs. rewrite !(wrap_id 8 (start + _)), (wrap_id 16 start) by (unfold fits; lia). rewrite Z.add_0_r.
  destruct (Z.ltb_spec 11 (start + 5)); [lia|].
  assert (Hw : forall v0 v1 v2 v3 v4 (Q : unit -> slot E -> Prop),
    Q tt {| c_rt := c_rt s; c_block := (c_block s).[start := v0].[start + 1 := v1].[start + 2 := v2].[start + 3 := v3].[start + 4 := v4];
            c_env := c_env s; c_trace := c_trace s |} ->
    wp (od_touch_app_msd_write start v0;; od_touch_app_msd_write (start + 1) v1;; od_touch_app_msd_write (start + 2) v2;;
        od_touch_app_msd_write (start + 3) v3;; od_touch_app_msd_write (start + 4) v4) Q s).
  { intros. apply twp_bind, twp_msd_write; [lia|]. apply twp_bind, twp_msd_write; [cbn; rewrite len_set; lia|].
    apply twp_bind, twp_msd_write; [cbn; rewrite !len_set; lia|]. apply twp_bind, twp_msd_write; [cbn; rewrite !len_set; lia|].
    apply twp_msd_write; [cbn; rewrite !len_set; lia|]. done. }
  apply twp_if; intros Hb; apply Hw; cbn [c_rt c_trace c_block]; (split; [done|split; [done|]]).
  - apply andb_true_iff in Hb as [Hc0 Hl0]. apply Z.eqb_eq in Hc0 as ->. apply negb_true_iff in Hl0 as ->.
    destruct (five_writes (c_block s) start 0 0 0 0 0 Hl Hs) as (Hso & H0 & _). split; [exact Hso|].
    unfold view_at. by rewrite H0.
  - set (v0 := u8 (Z.lor _ _)). destruct (five_writes (c_block s) start v0 (u8 (Z.land x 255)) (u8 (Z.shiftr x 8)) (u8 (Z.land y 255))
      (u8 (Z.shiftr y 8)) Hl Hs) as (Hso & H0 & H1 & H2 & H3 & H4). split; [exact Hso|].
    unfold view_at. rewrite H0, H1, H2, H3, H4, !word_bytes by done.
    destruct (pack_byte count id Hc Hid) as [Hm Hd]. fold v0 in Hm, Hd. rewrite Hm, Hd. unfold shown.
    destruct (Z.eqb_spec count 0) as [->|]; [by destruct l|].
    destruct (Z.eqb_spec count 0); [lia|]. destruct (Z.eqb_spec count 6); [lia|done].
Qed.
(** *** Where a sample comes from *)

(** [b] was read from the register by one of the two framings. *)
Definition answered (bus addr reg n : Z) (high_first : bool) (b : bytes) : Prop :=
  exists (e e1 : E) data, b = lent n data /\
    (od_hal_i2c_write_read e bus addr (selector reg high_first) n = (OD_HAL_I2C_OK, data, e1) \/
     od_hal_i2c_read e bus addr n = (OD_HAL_I2C_OK, data, e1) /\
     exists e0, od_hal_i2c_write e0 bus addr (selector reg high_first) = (OD_HAL_I2C_OK, e)).

Lemma ok_true r : I2c.ok r = true -> r = OD_HAL_I2C_OK.
Proof. unfold I2c.ok. by intros ?%bool_decide_eq_true. Qed.

Lemma read_once_answered bus addr reg n hf rs s b :
  (gt911_read_once bus addr reg n hf rs s).1 = Some b -> answered bus addr reg n hf b.
Proof.
  unfold gt911_read_once, i2c_write_read, i2c_write, i2c_read, bind, ask, ret. destruct rs.
  - destruct (od_hal_i2c_write_read _ _ _ _ _) as [[rc data] e1] eqn:Hr. cbn [fst snd].
    destruct (I2c.ok rc) eqn:Hok; [|done]. apply ok_true in Hok as ->. intros [= <-]. repeat eexists. left. exact Hr.
  - destruct (od_hal_i2c_write _ _ _ _) as [rc e] eqn:Hw. cbn [fst snd c_env]. destruct (I2c.ok rc) eqn:Hok; [|done].
    apply ok_true in Hok as ->. destruct (od_hal_i2c_read _ _ _ _) as [[rc data] e1] eqn:Hr. cbn [fst snd].
    destruct (I2c.ok rc) eqn:Hok; [|done]. apply ok_true in Hok as ->. intros [= <-]. repeat eexists. right. split; [exact Hr|by eexists].
Qed.

Lemma read_answered bus addr reg n hf s :
  wp (gt911_read bus addr reg n hf) (fun r s' => quiet s s' /\ match r with Some b => answered bus addr reg n hf b | None => True end) s.
Proof.
  split; [apply quiet_gt911_read|]. unfold gt911_read. generalize (Z.to_nat GT911_I2C_RETRIES). intros k. revert s.
  induction k as [|k IH]; intros s; [done|]. cbn [read_attempts]. unfold bind.
  pose proof (read_once_answered bus addr reg n hf true s) as H1.
  destruct (gt911_read_once bus addr reg n hf true s) as [[b|] s1]; [by apply H1|]. unfold delay_us, call.
  set (s2 := {| c_rt := c_rt s1 |}). pose proof (read_once_answered bus addr reg n hf false s2) as H2.
  destruct (gt911_read_once bus addr reg n hf false s2) as [[b|] s3]; [by apply H2|]. apply IH.
Qed.

Inductive touch_sample :=
| Waiting (** not due *) | NoBus | Mute (** the status was not read *) | NotReady | TooMany | PointLost | Released
| Touched (count id x y : Z).

(** What the bus said, for each sample. *)
Definition seen (rt : touch_runtime) (smp : touch_sample) : Prop :=
  let status b := answered (rt_bus_id rt) (addr7 rt) GT911_REG_STATUS 1 (reg_high_first rt) b in
  let point p := answered (rt_bus_id rt) (addr7 rt) GT911_REG_POINT1 8 (reg_high_first rt) p in
  match smp with
  | Waiting | NoBus | Mute => True
  | NotReady => exists b, status b /\ b.[0] < 128
  | TooMany => exists b, status b /\ 128 <= b.[0] /\ 5 < b.[0] mod 16
  | PointLost => exists b, status b /\ 128 <= b.[0] /\ 1 <= b.[0] mod 16 <= 5
  | Released => exists b, status b /\ 128 <= b.[0] /\ b.[0] mod 16 = 0
  | Touched count id x y =>
      exists b p, status b /\ 128 <= b.[0] /\ count = b.[0] mod 16 /\ 1 <= count <= 5 /\
        point p /\ id = p.[0] /\ x = p.[1] + 256 * p.[2] /\ y = p.[3] + 256 * p.[4]
  end.

(** *** What it leads to *)

Definition last_sample (rt : touch_runtime) : Z * Z * Z * Z := (last_count rt, last_id rt, last_x rt, last_y rt).

Definition published (tr tr' : list touch_event) : Prop := exists l, tr' = l ++ tr /\ EvPublish ∈ l.

Definition unpublished (tr tr' : list touch_event) : Prop := exists l, tr' = l ++ tr /\ EvPublish ∉ l.

(** The runtime, the block and the trace after a sample [smp]. *)
Definition outcome (cfg : od_config) (t : bytes) (smp : touch_sample) (rt rt' : touch_runtime) (b b' : bytes)
    (tr tr' : list touch_event) : Prop :=
  let start := touch_data_start_byte t in
  match smp with
  | Touched count id x y =>
      let '(mx, my) := mapped cfg t x y in
      shows start b b' (Contact count (id mod 16) mx my) /\
      last_sample rt' = (count, id, mx, my) /\ latched rt' = true /\
      (published tr tr' <-> last_sample rt <> (count, id, mx, my))
  | Released =>
      shows start b b' (if latched rt then Lifted (last_id rt mod 16) (last_x rt) (last_y rt) else Untouched) /\
      last_sample rt' = (0, last_id rt, last_x rt, last_y rt) /\ latched rt' = latched rt /\
      (published tr tr' <-> last_count rt <> 0)
  | _ => b' = b /\ unpublished tr tr' /\ last_sample rt' = last_sample rt /\ latched rt' = latched rt
  end /\
  fail_streak rt' = match smp with Waiting | NoBus => fail_streak rt | Mute => fail_streak rt + 1 | PointLost => 1 | _ => 0 end /\
  disabled rt' = match smp with Mute => TOUCH_I2C_FAIL_DISABLE_THRESHOLD <=? fail_streak rt + 1 | _ => false end /\
  ok rt' = negb (disabled rt') /\ (disabled rt' = true -> int_pin_attached rt' = NO_PIN).

Lemma unpublished_trans tr1 tr2 tr3 : unpublished tr1 tr2 -> unpublished tr2 tr3 -> unpublished tr1 tr3.
Proof. intros (l & -> & Hl) (k & -> & Hk). exists (k ++ l). rewrite app_assoc, not_elem_of_app. done. Qed.

Lemma published_iff l tr tr0 : unpublished tr0 tr -> published tr0 (l ++ tr) <-> EvPublish ∈ l.
Proof.
  intros (k & -> & Hk). split.
  - intros (l' & He & Hl'). rewrite app_assoc in He. apply app_inv_tail in He as <-. by apply elem_of_app in Hl' as [?|?].
  - intros Hl. exists (l ++ k). rewrite app_assoc. split; [done|]. apply elem_of_app. by left.
Qed.

Lemma quiet_unpublished s s' : quiet s s' -> unpublished (c_trace s) (c_trace s').
Proof.
  intros (_ & _ & l & -> & Hl). exists l. split; [done|]. intros Hin. rewrite Forall_forall in Hl. by apply Hl in Hin.
Qed.

Lemma outcome_before cfg t smp rt rt' b b' tr0 tr tr' :
  unpublished tr0 tr -> (exists l, tr' = l ++ tr) -> outcome cfg t smp rt rt' b b' tr tr' -> outcome cfg t smp rt rt' b b' tr0 tr'.
Proof.
  intros Hu [l ->] [Ho Hrest]. split; [|exact Hrest]. clear Hrest.
  assert (Hself : unpublished tr tr) by (exists []; split; [done|apply not_elem_of_nil]).
  assert (Hp : published tr0 (l ++ tr) <-> published tr (l ++ tr)) by (by rewrite !published_iff).
  destruct smp; try (destruct Ho as (? & ? & ? & ?); split; [done|split; [by eapply unpublished_trans|done]]).
  - by rewrite Hp.
  - destruct (mapped cfg t x y). by rewrite Hp.
Qed.
Definition calm : relation (slot E) := fun s s' =>
  c_rt s' = c_rt s /\ c_block s' = c_block s /\ unpublished (c_trace s) (c_trace s').

#[local] Instance calm_preorder : PreOrder calm.
Proof.
  split.
  - intros s. split; [done|split; [done|]]. exists []. split; [done|apply not_elem_of_nil].
  - intros s1 s2 s3 (H1 & H2 & H3) (K1 & K2 & K3). split; [congruence|split; [congruence|by eapply unpublished_trans]].
Qed.

Lemma quiet_calm s s' : quiet s s' -> calm s s'.
Proof. intros Hq. pose proof (quiet_unpublished _ _ Hq) as Hu. destruct Hq as (? & ? & _). done. Qed.

(** *** Failures *)

Lemma disable_spec s :
  disabled (c_rt s) = false ->
  wp touch_disable (fun _ s' => c_block s' = c_block s /\ unpublished (c_trace s) (c_trace s') /\
    last_sample (c_rt s') = last_sample (c_rt s) /\ latched (c_rt s') = latched (c_rt s) /\ fail_streak (c_rt s') = fail_streak (c_rt s) /\
    disabled (c_rt s') = true /\ ok (c_rt s') = false /\ int_pin_attached (c_rt s') = NO_PIN) s.
Proof.
  intros Hd. unfold touch_disable. apply twp_bind, twp_get_rt. rewrite Hd. apply twp_bind, twp_upd, twp_bind, twp_upd, twp_if; intros Hp.
  - split; [done|]. split; [|done]. exists [EvDetach (int_pin_attached (c_rt s))]. split; [done|]. by intros ?%list_elem_of_singleton.
  - apply negb_false_iff, Z.eqb_eq in Hp. apply twp_ret. split; [done|]. split; [|done]. exists []. split; [done|apply not_elem_of_nil].
Qed.

Lemma count_failure_spec now_ms stamp s :
  0 <= fail_streak (c_rt s) < 255 -> disabled (c_rt s) = false -> ok (c_rt s) = true ->
  wp (count_failure now_ms stamp) (fun _ s' => c_block s' = c_block s /\ unpublished (c_trace s) (c_trace s') /\
    last_sample (c_rt s') = last_sample (c_rt s) /\ latched (c_rt s') = latched (c_rt s) /\
    fail_streak (c_rt s') = fail_streak (c_rt s) + 1 /\
    disabled (c_rt s') = (TOUCH_I2C_FAIL_DISABLE_THRESHOLD <=? fail_streak (c_rt s) + 1) /\
    ok (c_rt s') = negb (disabled (c_rt s')) /\ (disabled (c_rt s') = true -> int_pin_attached (c_rt s') = NO_PIN)) s.
Proof.
  intros Hk Hd Hok. unfold count_failure. apply twp_bind, twp_get_rt. destruct (Z.ltb_spec (fail_streak (c_rt s)) 255); [|lia].
  apply twp_bind, twp_upd, twp_bind, twp_upd, twp_bind. rewrite wrap_id by (unfold fits; lia).
  set (s2 := {| c_rt := set_last_fail_ms _ _ |}). eapply (twp_mono _ (fun _ s3 => c_block s3 = c_block s /\ c_trace s3 = c_trace s /\
    last_sample (c_rt s3) = last_sample (c_rt s) /\ latched (c_rt s3) = latched (c_rt s) /\
    fail_streak (c_rt s3) = fail_streak (c_rt s) + 1 /\ disabled (c_rt s3) = false /\ ok (c_rt s3) = true)).
  { apply twp_if; intros _; by repeat split. }
  intros ? s3 (Hb & Ht & Hl & Hla & Hf & Hd3 & Ho3). clearbody s2. apply twp_bind, twp_get_rt. rewrite Hf. apply twp_if; intros Hge.
  - apply twp_bind. eapply twp_mono; [by apply disable_spec|]. intros ? s4 (? & ? & ? & ? & ? & Hdis & Hnok & ?). apply twp_ret.
    rewrite Hdis, Hnok, Hge, <- Hb, <- Ht. repeat (split; [congruence|]). done.
  - apply twp_ret. rewrite Hd3, Ho3, Hge, Hb, Ht. repeat (split; [first [done|by exists []; split; [done|apply not_elem_of_nil]]|]). done.
Qed.

(** *** Reports *)

Definition changed (rt : touch_runtime) (count id x y : Z) : Prop :=
  if count =? 0 then last_count rt <> 0 else last_sample rt <> (count, id, x, y).

Lemma report_spec t i count id x y s :
  len (c_block s) = OD_MSD_DYNAMIC_LEN -> bytes_ok t -> 0 <= count <= 5 -> is_byte id -> 0 <= x < 65536 -> 0 <= y < 65536 ->
  wp (touch_report t i count id x y) (fun _ s' => c_rt s' = set_last count id x y (c_rt s) /\
    shows (touch_data_start_byte t) (c_block s) (c_block s') (shown count id x y (latched (c_rt s))) /\
    exists l, c_trace s' = l ++ c_trace s /\ (EvPublish ∈ l <-> changed (c_rt s) count id x y)) s.
Proof.
  intros Hl Ht Hc Hid Hx Hy. unfold touch_report. apply twp_bind.
  eapply twp_mono; [apply (along_wp quiet), quiet_clear_status|]. intros ? s1 Hq. cbn beta in Hq.
  pose proof (quiet_unpublished _ _ Hq) as (k & Hk & Hnk). destruct Hq as (Hrt & Hb & _).
  apply twp_bind, twp_get_rt. rewrite Hrt. set (ch := negb (count =? last_count (c_rt s)) || _).
  assert (Hch : ch = true <-> changed (c_rt s) count id x y).
  { subst ch. unfold changed, last_sample. destruct (Z.eqb_spec count 0) as [->|Hn].
    - cbn [Z.ltb andb]. rewrite orb_false_r, negb_true_iff, Z.eqb_neq. split; congruence.
    - destruct (Z.ltb_spec 0 count); [|lia]. cbn [andb]. rewrite !orb_true_iff, !negb_true_iff, !Z.eqb_neq. split.
      + intros Hor [= H1 H2 H3 H4]. destruct Hor as [?|[[?|?]|?]]; congruence.
      + intros Hne. destruct (Z.eq_dec count (last_count (c_rt s))), (Z.eq_dec x (last_x (c_rt s))), (Z.eq_dec y (last_y (c_rt s))),
          (Z.eq_dec id (last_id (c_rt s))); auto. congruence. }
  clearbody ch. apply twp_bind, twp_upd, twp_bind. rewrite Hrt. set (s2 := {| c_rt := set_last _ _ _ _ _ |}).
  assert (Hl2 : len (c_block s2) = OD_MSD_DYNAMIC_LEN) by (cbn; congruence).
  eapply twp_mono; [apply (pack_spec _ _ _ _ _ _ s2 Hl2); [apply (get_byte t 10 Ht)|done..]|]. intros ? s3 (Hrt3 & Htr3 & Hsh).
  apply twp_bind. assert (Hc3 : c_rt s3 = set_last count id x y (c_rt s)) by done. cbn [c_block c_trace s2] in Hsh, Htr3. rewrite Hb in Hsh.
  apply twp_if; intros Hv.
  - unfold wp at 1, publish, ask. cbn [fst snd]. apply twp_ret. cbn [c_rt c_block c_trace]. split; [done|split; [done|]].
    exists (EvPublish :: k). rewrite Htr3, Hk. split; [done|]. rewrite <- Hch, Hv. split; [done|]. intros _. by left.
  - apply twp_ret, twp_ret. split; [done|split; [done|]]. exists k. rewrite Htr3, Hk. split; [done|]. rewrite <- Hch, Hv. done.
Qed.
(** A runtime whose fields are in range and which is in service. *)
Definition in_service (rt : touch_runtime) : Prop :=
  ok rt = true /\ disabled rt = false /\ 0 <= fail_streak rt < 255 /\ is_byte (last_id rt) /\
  0 <= last_x rt < 65536 /\ 0 <= last_y rt < 65536.

Lemma status_bits b : is_byte b ->
  (Z.land b GT911_STATUS_BUFFER_READY =? 0) = (b <? 128) /\ u8 (Z.land b 0x0F) = b mod 16.
Proof.
  intros Hb. assert (Hf : (Bool.eqb (Z.land b GT911_STATUS_BUFFER_READY =? 0) (b <? 128) && (u8 (Z.land b 0x0F) =? b mod 16)) = true).
  { revert b Hb. apply (forallb_below (fun b => Bool.eqb (Z.land b GT911_STATUS_BUFFER_READY =? 0) (b <? 128) &&
      (u8 (Z.land b 0x0F) =? b mod 16)) 256). vm_compute. reflexivity. }
  apply andb_true_iff in Hf as [Hf1%eqb_prop Hf2%Z.eqb_eq]. done.
Qed.

Lemma unpublished_refl tr : unpublished tr tr.
Proof. exists []. split; [done|apply not_elem_of_nil]. Qed.

Lemma answered_byte bus addr reg n hf b i : answered bus addr reg n hf b -> is_byte b.[i].
Proof. intros (e & e1 & data & -> & _). apply get_byte, lent_ok. Qed.

Lemma word_of p i : is_byte p.[i] -> is_byte p.[i + 1] -> u16 (Z.lor p.[i] (Z.shiftl p.[i + 1] 8)) = p.[i] + 256 * p.[i + 1].
Proof.
  unfold is_byte. intros H0 H1. rewrite Z.lor_comm, lor_shiftl_add by (unfold fits; lia). rewrite Z.shiftl_mul_pow2 by lia.
  rewrite wrap_id by (unfold fits; lia). lia.
Qed.

(** What follows a report is what its sample leads to. *)
Lemma report_outcome cfg t i smp count id x y s s1 :
  len (c_block s) = OD_MSD_DYNAMIC_LEN -> bytes_ok t -> ok (c_rt s) = true -> disabled (c_rt s) = false ->
  0 <= count <= 5 -> is_byte id -> 0 <= x < 65536 -> 0 <= y < 65536 ->
  c_block s1 = c_block s -> unpublished (c_trace s) (c_trace s1) -> last_sample (c_rt s1) = last_sample (c_rt s) ->
  fail_streak (c_rt s1) = 0 -> ok (c_rt s1) = true -> disabled (c_rt s1) = false ->
  (smp = Released /\ count = 0 /\ latched (c_rt s1) = latched (c_rt s) /\ (id, x, y) = (last_id (c_rt s), last_x (c_rt s), last_y (c_rt s)) \/
   exists x0 y0, smp = Touched count id x0 y0 /\ 0 < count /\ latched (c_rt s1) = true /\ mapped cfg t x0 y0 = (x, y)) ->
  wp (touch_report t i count id x y)
    (fun _ s' => outcome cfg t smp (c_rt s) (c_rt s') (c_block s) (c_block s') (c_trace s) (c_trace s')) s1.
Proof.
  intros Hl Ht Hok Hdis Hc Hid Hx Hy Hb Hu Hlast Hf Hok1 Hdis1 Hsmp.
  assert (Hl1 : len (c_block s1) = OD_MSD_DYNAMIC_LEN) by congruence.
  eapply twp_mono; [by apply (report_spec t i count id x y s1 Hl1)|]. intros ? s' (Hrt & Hsh & k & Hk & Hp). rewrite Hrt, Hk.
  rewrite Hb in Hsh. assert (Hpub : published (c_trace s) (k ++ c_trace s1) <-> changed (c_rt s1) count id x y) by (by rewrite published_iff).
  injection Hlast as Hlc Hli Hlx Hly.
  destruct Hsmp as [(-> & -> & Hla & [= -> -> ->])|(x0 & y0 & -> & Hpos & Hla & Hm)]; unfold outcome.
  - split; [|by cbn; rewrite Hf, Hdis1, Hok1]. split; [by rewrite <- Hla|]. split; [done|]. split; [done|].
    rewrite Hpub. unfold changed. cbn [Z.eqb]. by rewrite Hlc.
  - split; [|by cbn; rewrite Hf, Hdis1, Hok1]. rewrite Hm. unfold shown in Hsh. destruct (Z.eqb_spec count 0); [lia|].
    split; [done|]. split; [done|]. split; [done|]. rewrite Hpub. unfold changed, last_sample.
    destruct (Z.eqb_spec count 0); [lia|]. by rewrite Hlc, Hli, Hlx, Hly.
Qed.

Lemma status_spec cfg t now_ms edge low b s :
  let rt := c_rt s in
  in_service rt -> bytes_ok t -> panel_ok cfg t -> len (c_block s) = OD_MSD_DYNAMIC_LEN ->
  answered (rt_bus_id rt) (addr7 rt) GT911_REG_STATUS 1 (reg_high_first rt) b ->
  wp (touch_status cfg t now_ms edge low b.[0]) (fun _ s' => exists smp, seen rt smp /\
    outcome cfg t smp rt (c_rt s') (c_block s) (c_block s') (c_trace s) (c_trace s')) s.
Proof.
  intros rt (Hok & Hd & Hfs & Hid & Hx & Hy) Ht Hpanel Hl Hb. subst rt. unfold touch_status. apply twp_bind, twp_upd.
  pose proof (answered_byte _ _ _ _ _ _ 0 Hb) as Hb0. destruct (status_bits _ Hb0) as [-> ->]. unfold is_byte in Hb0.
  apply twp_if; intros Hready.
  - apply twp_bind. apply (twp_mono _ (fun _ s1 => c_block s1 = c_block s /\ c_trace s1 = c_trace s /\ last_sample (c_rt s1) = last_sample (c_rt s) /\
      latched (c_rt s1) = latched (c_rt s) /\ fail_streak (c_rt s1) = 0 /\ ok (c_rt s1) = true /\ disabled (c_rt s1) = false)).
    { apply twp_if; intros _; by repeat split. }
    intros ? s1 (Hb1 & Ht1 & ? & ? & ? & Hok1 & Hd1). apply twp_ret. exists NotReady. split; [exists b; split; [done|lia]|].
    unfold outcome. rewrite Hb1, Ht1, Hd1, Hok1. split; [|done]. split; [done|]. split; [apply unpublished_refl|done].
  - apply twp_if; intros Hmany.
    + apply twp_bind. eapply twp_mono; [apply (along_wp quiet), quiet_clear_status|]. intros ? s1 Hq.
      pose proof (quiet_unpublished _ _ Hq) as Hu. destruct Hq as (Hrt & Hb1 & _). apply twp_bind, twp_upd, twp_ret.
      exists TooMany. split; [exists b; unfold GT911_MAX_CONTACTS in Hmany; split; [done|lia]|].
      unfold outcome. cbn [c_rt c_block c_trace]. rewrite Hrt. split; [|by cbn; rewrite Hd, Hok]. by split.
    + unfold GT911_MAX_CONTACTS in Hmany. apply twp_bind, twp_upd, twp_bind, twp_get_rt. cbn [c_rt].
      pose proof (Z.mod_pos_bound b.[0] 16 ltac:(lia)) as Hm. apply twp_if; intros Hcount.
      * apply twp_bind. eapply twp_mono; [apply read_answered|]. intros p s1 [Hq Hp].
        pose proof (quiet_unpublished _ _ Hq) as Hu. destruct Hq as (Hrt & Hb1 & _). cbn [c_rt c_block c_trace] in Hrt, Hb1, Hu.
        destruct p as [p|].
        { apply twp_bind, twp_upd.
          pose proof (answered_byte _ _ _ _ _ _ 0 Hp) as Hp0. pose proof (answered_byte _ _ _ _ _ _ 1 Hp) as Hp1.
          pose proof (answered_byte _ _ _ _ _ _ 2 Hp) as Hp2. pose proof (answered_byte _ _ _ _ _ _ 3 Hp) as Hp3.
          pose proof (answered_byte _ _ _ _ _ _ 4 Hp) as Hp4. pose proof (word_of p 1 Hp1 Hp2) as W1. pose proof (word_of p 3 Hp3 Hp4) as W3.
          change (1 + 1) with 2 in W1. change (3 + 1) with 4 in W3. rewrite W1, W3. clear W1 W3. unfold is_byte in *. set (x0 := p.[1] + 256 * p.[2]). set (y0 := p.[3] + 256 * p.[4]).
          destruct (map_spec cfg t x0 y0 Hpanel) as (Hmap & Hmx & Hmy & _); [subst x0; lia|subst y0; lia|]. rewrite Hmap.
          destruct (mapped cfg t x0 y0) as [mx my] eqn:Hmxy. cbn [fst snd] in Hmx, Hmy.
          eapply twp_mono.
          - apply (report_outcome cfg t _ (Touched (b.[0] mod 16) p.[0] x0 y0) (b.[0] mod 16) p.[0] mx my s);
              [done..|lia|done|done|done|exact Hb1|exact Hu|by cbn [c_rt]; rewrite Hrt|by cbn [c_rt]; rewrite Hrt|by cbn [c_rt]; rewrite Hrt
              |by cbn [c_rt]; rewrite Hrt|]. right. exists x0, y0. split; [done|split; [lia|done]].
          - intros ? s' Ho. eexists. split; [|exact Ho]. exists b, p. split; [done|]. split; [lia|]. split; [done|]. split; [lia|]. done. }
        { eapply twp_mono; [apply count_failure_spec; rewrite Hrt; [done|done|exact Hok]|].
          intros ? s' (Hb2 & Hu2 & Hl2 & Hla2 & Hf2 & Hd2 & Hok2 & Hpin2). exists PointLost. rewrite Hrt in Hl2, Hla2, Hf2, Hd2.
          split; [exists b; split; [done|lia]|]. unfold outcome. split; [|split; [exact Hf2|split; [exact Hd2|done]]].
          split; [congruence|]. split; [by eapply unpublished_trans|done]. }
      * assert (Hz : b.[0] mod 16 = 0) by lia. rewrite Hz. eapply twp_mono.
        -- apply (report_outcome cfg t _ Released 0 (last_id (c_rt s)) (last_x (c_rt s)) (last_y (c_rt s)) s); try done; [apply unpublished_refl|]. by left.
        -- intros ? s' Ho. exists Released. split; [|exact Ho]. exists b. split; [done|lia].
Qed.

End Reasoning.

(** ** A concrete board: one contact, track 3, at (16, 32), always ready; pins that read
    high; attaching works. *)
#[local] Instance toy_bus : I2c unit := {|
  od_hal_i2c_probe e _ _ := (OD_HAL_I2C_OK, e);
  od_hal_i2c_write e _ _ _ := (OD_HAL_I2C_OK, e);
  od_hal_i2c_read e _ _ _ := (OD_HAL_I2C_EIO, [], e);
  od_hal_i2c_write_read e _ _ tx _ :=
    (OD_HAL_I2C_OK,
     if decide (tx = selector GT911_REG_STATUS true) then [0x81]
     else if decide (tx = selector GT911_REG_POINT1 true) then [3; 16; 0; 32; 0; 9; 0; 0]
     else [0x39; 0x31; 0x31; 0], e);
|}.

#[local] Instance toy_touch : TouchApp unit := {|
  od_touch_app_delay_ms e _ := e; od_touch_app_delay_us e _ := e; od_touch_app_gpio_set_mode_output e _ := e;
  od_touch_app_gpio_config_input e _ _ := e; od_touch_app_gpio_write e _ _ := e; od_touch_app_gpio_read e _ := (1, e);
  od_touch_app_gpio_attach_int e _ _ := (true, e); od_touch_app_gpio_detach_int e _ := e;
  od_touch_app_bus_prepare e _ := (true, e); od_touch_app_bus_invalidate e := e; od_touch_app_irq_consume e _ := e;
  od_touch_app_msd_publish e := e; od_adv_app_boost e := e;
|}.

(** A record of a GT911 on bus 0 with interrupt pin [pin], block at 6, panel 0 mirrored in x. *)
Definition toy_record (pin : Z) : bytes := [0; 1; 0; 0; 0x5D; pin; 0xFF; 0; 1; 50; 6; 0xFF] ++ replicate 20 0.
Definition toy_display : bytes := [0; 0; 0; 0; 100; 0; 50; 0] ++ replicate 38 0.
Definition toy_config (pins : list Z) : od_config :=
  set_touch_controllers (set_displays (set_data_buses od_config_reset {| elems := [[0; 1; 4; 5] ++ replicate 26 0]; count := 1 |})
    {| elems := [toy_display]; count := 1 |}) {| elems := toy_record <$> pins; count := len pins |}.

Definition toy_slot : slot unit :=
  {| c_rt := came_up 0x5D 7 (set_reg_high_first true touch_rt_clear); c_block := replicate 11 1; c_env := tt; c_trace := [] |}.


Definition toy_up : touch unit := (od_touch_gt911_init (at_boot (replicate 11 1) tt) (Some (toy_config [9; 10])) 0).2.

(** Both controllers came up with their interrupts; an edge of the first and three bits nobody owns. *)
Lemma touch_service_answers_witness :
  installed (t_trace toy_up) 9 = true /\ installed (t_trace toy_up) 10 = true /\
  clears 0xE1 (t_trace toy_up) (t_trace (od_touch_gt911_service toy_up (Some (toy_config [9; 10])) 10 0xE1).2) /\
  (od_touch_gt911_service toy_up (Some (toy_config [9; 10])) 10 0xE1).1 = 40.
Proof.
  split; [vm_compute; reflexivity|]. split; [vm_compute; reflexivity|]. split; [|vm_compute; reflexivity].
  pose proof (touch_service_answers toy_up (Some (toy_config [9; 10])) 10 0xE1) as Hs.
  destruct (od_touch_gt911_service toy_up (Some (toy_config [9; 10])) 10 0xE1) as [next x]. cbn [snd].
  apply Hs; [by split|]. intros c [= <-]. repeat (constructor; [repeat (constructor; [done|]); constructor|]). constructor.
Defined.

(** A configuration that exchanges the pins of two controllers that are up: the second
    controller's move takes away the handler the first has just been given, and the
    first goes on counting on it. *)
Example exchanged_pins_lose_an_interrupt :
  let x := (od_touch_gt911_reestablish toy_up (Some (toy_config [10; 9])) 100).2 in
  int_attached (s_rt x).[0] = true /\ int_pin_attached (s_rt x).[0] = 10 /\ installed (t_trace x) 10 = false.
Proof. vm_compute. done. Qed.

End TouchProofs.
