(* ===== verification/Led.v ===== *)
(** The LED pattern runner, [shared/core/od_led.c]: the pattern's phases with their
    waits, against the sequence of flashes and waits a pattern stands for. *)

From S2P Require Import Prelude.

Module Led.

Definition OD_LED_IDLE : Z := 0xFFFFFFFF.
Definition OD_LED_MIN_STEP_DELAY_MS : Z := 1.
Definition OD_LED_PWM_DELAY_US : Z := 100.
Definition OD_LED_DELAY_FACTOR_MS : Z := 100.

(** [od_led_app.h] and the delay of [od_hal_time.h]: a pin's level, the live mode
    nibble of an instance, and the report of a run that ended. *)
Class LedApp (E : Type) := {
  od_led_app_write : E -> Z -> bool -> E;
  od_hal_delay_us : E -> Z -> E;
  od_led_app_mode : E -> Z -> Z * E;
  od_led_app_finished : E -> Z -> E;
}.

(** [struct od_led_pins]; the field [flags]. *)
Record od_led_pins := { pin_r : Z; pin_g : Z; pin_b : Z; pin_flags : Z }.

Inductive od_led_phase_t :=
| OD_LED_PHASE_IDLE | OD_LED_PHASE_GROUP
| OD_LED_PHASE_LOOP1 | OD_LED_PHASE_LOOP1_DELAY | OD_LED_PHASE_INTER1_DELAY
| OD_LED_PHASE_LOOP2 | OD_LED_PHASE_LOOP2_DELAY | OD_LED_PHASE_INTER2_DELAY
| OD_LED_PHASE_LOOP3 | OD_LED_PHASE_LOOP3_DELAY | OD_LED_PHASE_INTER3_DELAY.

(** [s_run]: the fields [od_led_activate] parses ... *)
Record led_pattern := {
  brightness : Z; c1 : Z; c2 : Z; c3 : Z; loop1delay : Z; loop2delay : Z; loop3delay : Z;
  loopcnt1 : Z; loopcnt2 : Z; loopcnt3 : Z; ildelay1 : Z; ildelay2 : Z; ildelay3 : Z;
  grouprepeats : Z; repeat_forever : bool;
}.

(** ... and those a run moves. *)
Record led_run := {
  active : bool; instance : Z; pins : od_led_pins; pattern : led_pattern;
  group_pos : Z; i1 : Z; i2 : Z; i3 : Z; phase : od_led_phase_t; waiting : bool; deadline_ms : Z;
}.

Definition zero_pattern : led_pattern :=
  {| brightness := 0; c1 := 0; c2 := 0; c3 := 0; loop1delay := 0; loop2delay := 0; loop3delay := 0;
     loopcnt1 := 0; loopcnt2 := 0; loopcnt3 := 0; ildelay1 := 0; ildelay2 := 0; ildelay3 := 0;
     grouprepeats := 0; repeat_forever := false |}.

Definition zero_run : led_run :=
  {| active := false; instance := 0; pins := {| pin_r := 0; pin_g := 0; pin_b := 0; pin_flags := 0 |};
     pattern := zero_pattern; group_pos := 0; i1 := 0; i2 := 0; i3 := 0; phase := OD_LED_PHASE_IDLE; waiting := false;
     deadline_ms := 0 |}.

Definition set_phase (s : led_run) (p : od_led_phase_t) : led_run :=
  {| active := active s; instance := instance s; pins := pins s; pattern := pattern s; group_pos := group_pos s;
     i1 := i1 s; i2 := i2 s; i3 := i3 s; phase := p; waiting := waiting s; deadline_ms := deadline_ms s |}.

Definition set_counts (s : led_run) (a b c : Z) : led_run :=
  {| active := active s; instance := instance s; pins := pins s; pattern := pattern s; group_pos := group_pos s;
     i1 := a; i2 := b; i3 := c; phase := phase s; waiting := waiting s; deadline_ms := deadline_ms s |}.

Definition set_group (s : led_run) (g : Z) : led_run :=
  {| active := active s; instance := instance s; pins := pins s; pattern := pattern s; group_pos := g;
     i1 := i1 s; i2 := i2 s; i3 := i3 s; phase := phase s; waiting := waiting s; deadline_ms := deadline_ms s |}.

Definition set_wait (s : led_run) (w : bool) (d : Z) : led_run :=
  {| active := active s; instance := instance s; pins := pins s; pattern := pattern s; group_pos := group_pos s;
     i1 := i1 s; i2 := i2 s; i3 := i3 s; phase := phase s; waiting := w; deadline_ms := d |}.

(** What the pattern does: a record no operation reads. *)
Inductive led_event := Flash (color : Z) | Wait (ms : Z) | Off | Finished (inst : Z).

Record lstate (E : Type) := { l_run : led_run; l_env : E; l_trace : list led_event }.
Arguments l_run {E} _.
Arguments l_env {E} _.
Arguments l_trace {E} _.

Definition deadline_reached (now deadline : Z) : bool := u32 (now - deadline) <? 0x80000000.

Section Operations.
Context {E : Type} `{LedApp E}.
Implicit Types (x : lstate E) (p : od_led_pins).

Definition inverted p (bit : Z) : bool := negb (Z.land (pin_flags p) bit =? 0).

Definition park p (e : E) : E :=
  let e := od_led_app_write e (pin_r p) (inverted p 0x01) in
  let e := od_led_app_write e (pin_g p) (inverted p 0x02) in
  od_led_app_write e (pin_b p) (inverted p 0x04).

(** [x >= t] on a pin that may be inverted. *)
Definition level (inv : bool) (v t : Z) : bool := if inv then negb (t <=? v) else t <=? v.

(** A slice of the software PWM: red and green against [t], blue against [tb] in the
    slices that write it. *)
Definition slice p (color t : Z) (tb : option Z) (e : E) : E :=
  let e := od_led_app_write e (pin_r p) (level (inverted p 0x01) (u8 (Z.land (Z.shiftr color 5) 7)) t) in
  let e := od_led_app_write e (pin_g p) (level (inverted p 0x02) (u8 (Z.land (Z.shiftr color 2) 7)) t) in
  let e := match tb with
           | Some tb => od_led_app_write e (pin_b p) (level (inverted p 0x04) (u8 (Z.land color 3)) tb)
           | None => e end in
  od_hal_delay_us e OD_LED_PWM_DELAY_US.

(** The thresholds, in order. *)
Definition slices : list (Z * option Z) :=
  [(7, Some 3); (1, None); (6, Some 1); (2, None); (5, None); (3, Some 2); (4, None)].

Definition flash_pass p (color : Z) (e : E) : E :=
  park p (foldl (fun e s => slice p color s.1 s.2 e) e slices).

(** [led_flash_pins]: [b] passes. *)
Definition led_flash_pins p (color b : Z) (e : E) : E := Nat.iter (Z.to_nat b) (flash_pass p color) e.

Definition od_led_flash_once (p : option od_led_pins) (color b : Z) (e : E) : E :=
  match p with Some p => if b =? 0 then e else led_flash_pins p color b e | None => e end.

Definition on_run x (f : led_run -> led_run) : lstate E :=
  {| l_run := f (l_run x); l_env := l_env x; l_trace := l_trace x |}.

Definition led_all_off x : lstate E :=
  {| l_run := l_run x; l_env := park (pins (l_run x)) (l_env x); l_trace := l_trace x ++ [Off] |}.

Definition led_flash x (color : Z) : lstate E :=
  {| l_run := l_run x; l_env := led_flash_pins (pins (l_run x)) color (brightness (pattern (l_run x))) (l_env x);
     l_trace := l_trace x ++ [Flash color] |}.

Definition finished x (inst : Z) : lstate E :=
  {| l_run := l_run x; l_env := od_led_app_finished (l_env x) inst; l_trace := l_trace x ++ [Finished inst] |}.

Definition schedule x (now delay : Z) : lstate E * Z :=
  ({| l_run := set_wait (l_run x) true (u32 (now + delay)); l_env := l_env x; l_trace := l_trace x ++ [Wait delay] |}, delay).

Definition run_finish x : lstate E :=
  on_run (if active (l_run x) then led_all_off x else x) (fun _ => zero_run).

(** The fields of a pattern. *)
Definition hi_nibble (b : Z) : Z := u8 (Z.land (Z.shiftr b 4) 0x0F).
Definition lo_nibble (b : Z) : Z := u8 (Z.land b 0x0F).

Definition parse_pattern (b : bytes) : led_pattern :=
  {| brightness := u8 (Z.land (Z.shiftr b.[0] 4) 0x0F + 1); c1 := b.[1]; c2 := b.[4]; c3 := b.[7];
     loop1delay := hi_nibble b.[2]; loop2delay := hi_nibble b.[5]; loop3delay := hi_nibble b.[8];
     loopcnt1 := lo_nibble b.[2]; loopcnt2 := lo_nibble b.[5]; loopcnt3 := lo_nibble b.[8];
     ildelay1 := b.[3]; ildelay2 := b.[6]; ildelay3 := b.[9];
     grouprepeats := u8 (b.[10] + 1); repeat_forever := 0xFE <=? b.[10] |}.

Definition od_led_activate x (inst : Z) (p : option od_led_pins) (b : option bytes) (now : Z) : lstate E * Z :=
  match p, b with
  | Some p, Some b =>
      if negb (Z.land b.[0] 0x0F =? 1) then (x, 2)
      else
        let x := if active (l_run x) then led_all_off x else x in
        (on_run x (fun _ => {| active := true; instance := inst; pins := p; pattern := parse_pattern b; group_pos := 0;
                               i1 := 0; i2 := 0; i3 := 0; phase := OD_LED_PHASE_GROUP; waiting := false;
                               deadline_ms := now |}), 0)
  | _, _ => (x, 2)
  end.

Definition od_led_stop x (inst : Z) (given : bool) : lstate E * Z :=
  let s := l_run x in
  if negb (active s) then (x, 0)
  else if given && negb (inst =? instance s) then (x, 2)
  else (finished (run_finish x) (instance s), 0).

(** A turn of the loop goes on or returns. *)
Definition turn : Type := lstate E + lstate E * Z.

Definition goto x (p : od_led_phase_t) : turn := inl (on_run x (fun s => set_phase s p)).

Definition wait_in x (p : od_led_phase_t) (now delay : Z) : turn :=
  inr (schedule (on_run x (fun s => set_phase s p)) now delay).

(** A loop phase: its count is done, or one more flash; [bump] counts it. *)
Definition loop_phase x (now i cnt il d color : Z) (here_delay inter : od_led_phase_t) (bump : led_run -> led_run)
    (close : lstate E -> turn) : turn :=
  if cnt <=? i then
    if 0 <? il then wait_in x inter now (u32 (il * OD_LED_DELAY_FACTOR_MS)) else close x
  else
    let x := on_run (led_flash x color) bump in
    if 0 <? d then wait_in x here_delay now (u32 (d * OD_LED_DELAY_FACTOR_MS))
    else inr (schedule x now OD_LED_MIN_STEP_DELAY_MS).

Definition next_group (s : led_run) : led_run := set_phase (set_group s (u8 (group_pos s + 1))) OD_LED_PHASE_GROUP.

Definition service_turn (inst now : Z) x : turn :=
  let s := l_run x in
  let q := pattern s in
  match phase s with
  | OD_LED_PHASE_GROUP =>
      if negb (repeat_forever q) && (grouprepeats q <=? group_pos s) then
        inr (finished (run_finish x) inst, OD_LED_IDLE)
      else goto (on_run x (fun s => set_counts s 0 0 0)) OD_LED_PHASE_LOOP1
  | OD_LED_PHASE_LOOP1 =>
      loop_phase x now (i1 s) (loopcnt1 q) (ildelay1 q) (loop1delay q) (c1 q) OD_LED_PHASE_LOOP1_DELAY
        OD_LED_PHASE_INTER1_DELAY (fun s => set_counts s (u8 (i1 s + 1)) (i2 s) (i3 s))
        (fun x => goto x OD_LED_PHASE_LOOP2)
  | OD_LED_PHASE_LOOP1_DELAY => goto x OD_LED_PHASE_LOOP1
  | OD_LED_PHASE_INTER1_DELAY => goto x OD_LED_PHASE_LOOP2
  | OD_LED_PHASE_LOOP2 =>
      loop_phase x now (i2 s) (loopcnt2 q) (ildelay2 q) (loop2delay q) (c2 q) OD_LED_PHASE_LOOP2_DELAY
        OD_LED_PHASE_INTER2_DELAY (fun s => set_counts s (i1 s) (u8 (i2 s + 1)) (i3 s))
        (fun x => goto x OD_LED_PHASE_LOOP3)
  | OD_LED_PHASE_LOOP2_DELAY => goto x OD_LED_PHASE_LOOP2
  | OD_LED_PHASE_INTER2_DELAY => goto x OD_LED_PHASE_LOOP3
  | OD_LED_PHASE_LOOP3 =>
      loop_phase x now (i3 s) (loopcnt3 q) (ildelay3 q) (loop3delay q) (c3 q) OD_LED_PHASE_LOOP3_DELAY
        OD_LED_PHASE_INTER3_DELAY (fun s => set_counts s (i1 s) (i2 s) (u8 (i3 s + 1)))
        (fun x => inr (schedule (on_run x next_group) now OD_LED_MIN_STEP_DELAY_MS))
  | OD_LED_PHASE_LOOP3_DELAY => goto x OD_LED_PHASE_LOOP3
  | OD_LED_PHASE_INTER3_DELAY => inl (on_run x next_group)
  | OD_LED_PHASE_IDLE => inr (run_finish x, OD_LED_IDLE)
  end.

(** The [for (;;)]: [None] when [fuel] turns did not return. *)
Fixpoint service_loop (fuel : nat) (inst now : Z) x : option (lstate E * Z) :=
  match fuel with
  | O => None
  | S fuel => match service_turn inst now x with inl x => service_loop fuel inst now x | inr r => Some r end
  end.

(** Five phases can pass without a wait: INTER3, GROUP and the three loops. *)
Definition service_fuel : nat := 5.

Definition od_led_service (now : Z) x : option (lstate E * Z) :=
  let s := l_run x in
  if negb (active s) then Some (x, OD_LED_IDLE)
  else
    let '(mode, e) := od_led_app_mode (l_env x) (instance s) in
    let x := {| l_run := s; l_env := e; l_trace := l_trace x |} in
    if negb (mode =? 1) then Some (run_finish x, OD_LED_IDLE)
    else if waiting s && negb (deadline_reached now (deadline_ms s)) then Some (x, u32 (deadline_ms s - now))
    else service_loop service_fuel (instance s) now (on_run x (fun s => set_wait s false (deadline_ms s))).
End Operations.

(** ** What a pattern stands for *)

Definition wait_ms (d : Z) : Z := if 0 <? d then d * OD_LED_DELAY_FACTOR_MS else OD_LED_MIN_STEP_DELAY_MS.
Definition flashes (c d : Z) (n : nat) : list led_event := concat (replicate n [Flash c; Wait (wait_ms d)]).
Definition inter (il : Z) : list led_event := if 0 <? il then [Wait (wait_ms il)] else [].

(** A group is the three loops with the delays after them; its end always waits. *)
Definition close_group (q : led_pattern) : list led_event := [Wait (wait_ms (ildelay3 q))].
Definition group (q : led_pattern) : list led_event :=
  flashes (c1 q) (loop1delay q) (Z.to_nat (loopcnt1 q)) ++ inter (ildelay1 q) ++
  flashes (c2 q) (loop2delay q) (Z.to_nat (loopcnt2 q)) ++ inter (ildelay2 q) ++
  flashes (c3 q) (loop3delay q) (Z.to_nat (loopcnt3 q)) ++ close_group q.
Definition groups (q : led_pattern) (n : Z) : list led_event := concat (replicate (Z.to_nat n) (group q)).

(** The pattern, played. *)
Definition play (q : led_pattern) : list led_event := groups q (grouprepeats q).

Definition waits (evs : list led_event) : nat := length (List.filter (fun ev => match ev with Wait _ => true | _ => false end) evs).

(** What is left of it in a state. *)
Section Rest.
Variable s : led_run.
#[local] Abbreviation q := (pattern s).
Definition rest_loop3 : list led_event :=
  flashes (c3 q) (loop3delay q) (Z.to_nat (loopcnt3 q - i3 s)) ++ close_group q ++ groups q (grouprepeats q - (group_pos s + 1)).
Definition rest_loop2 : list led_event :=
  flashes (c2 q) (loop2delay q) (Z.to_nat (loopcnt2 q - i2 s)) ++ inter (ildelay2 q) ++ rest_loop3.
Definition rest_loop1 : list led_event :=
  flashes (c1 q) (loop1delay q) (Z.to_nat (loopcnt1 q - i1 s)) ++ inter (ildelay1 q) ++ rest_loop2.
Definition rest : list led_event :=
  match phase s with
  | OD_LED_PHASE_GROUP => groups q (grouprepeats q - group_pos s)
  | OD_LED_PHASE_LOOP1 | OD_LED_PHASE_LOOP1_DELAY => rest_loop1
  | OD_LED_PHASE_LOOP2 | OD_LED_PHASE_LOOP2_DELAY | OD_LED_PHASE_INTER1_DELAY => rest_loop2
  | OD_LED_PHASE_LOOP3 | OD_LED_PHASE_LOOP3_DELAY | OD_LED_PHASE_INTER2_DELAY => rest_loop3
  | OD_LED_PHASE_INTER3_DELAY => groups q (grouprepeats q - (group_pos s + 1))
  | OD_LED_PHASE_IDLE => []
  end.
End Rest.

(** The turns a phase can take before it waits. *)
Definition rank (p : od_led_phase_t) : nat :=
  match p with
  | OD_LED_PHASE_INTER3_DELAY => 4
  | OD_LED_PHASE_GROUP | OD_LED_PHASE_LOOP1_DELAY => 3
  | OD_LED_PHASE_LOOP1 | OD_LED_PHASE_INTER1_DELAY | OD_LED_PHASE_LOOP2_DELAY => 2
  | OD_LED_PHASE_LOOP2 | OD_LED_PHASE_INTER2_DELAY | OD_LED_PHASE_LOOP3_DELAY => 1
  | OD_LED_PHASE_LOOP3 | OD_LED_PHASE_IDLE => 0
  end.

(** A parsed pattern's ranges. *)
Definition pattern_ok (q : led_pattern) : Prop :=
  (0 <= loopcnt1 q < 16 /\ 0 <= loopcnt2 q < 16 /\ 0 <= loopcnt3 q < 16) /\
  (0 <= loop1delay q < 16 /\ 0 <= loop2delay q < 16 /\ 0 <= loop3delay q < 16) /\
  (is_byte (ildelay1 q) /\ is_byte (ildelay2 q) /\ is_byte (ildelay3 q)).

Section Theorems.
Context {E : Type} `{LedApp E}.
Implicit Types (x : lstate E).

Definition run_ok (s : led_run) : Prop := active s = true -> pattern_ok (pattern s) /\ phase s <> OD_LED_PHASE_IDLE.

(** A wait that is due later, or nothing running. *)
Definition delay_ok x (d : Z) : Prop := d = OD_LED_IDLE /\ active (l_run x) = false \/ 1 <= d <= 0x80000000.

(** A turn that goes on has a lower rank; one that returns leaves a run and its wait. *)
Definition turn_ok x (t : turn) : Prop :=
  match t with
  | inl y => run_ok (l_run y) /\ active (l_run y) = true /\ (rank (phase (l_run y)) < rank (phase (l_run x)))%nat
  | inr (y, d) => run_ok (l_run y) /\ delay_ok y d
  end.

Lemma delay_range d : 0 < d < 256 -> 1 <= u32 (d * OD_LED_DELAY_FACTOR_MS) <= 25500 /\ u32 (d * OD_LED_DELAY_FACTOR_MS) = wait_ms d.
Proof.
  intros Hd. unfold wait_ms, OD_LED_DELAY_FACTOR_MS. destruct (Z.ltb_spec 0 d); [|lia].
  rewrite wrap_id by (unfold fits; change (2 ^ 32) with 4294967296; lia). lia.
Qed.

Lemma finish_idle x : l_run (run_finish x) = zero_run.
Proof. done. Qed.

Lemma zero_ok : run_ok zero_run.
Proof. done. Qed.

Lemma loop_phase_ok x now i cnt il d color hd inter_ bump close :
  pattern_ok (pattern (l_run x)) -> is_byte il -> 0 <= d < 16 -> hd <> OD_LED_PHASE_IDLE -> inter_ <> OD_LED_PHASE_IDLE ->
  phase (l_run x) <> OD_LED_PHASE_IDLE ->
  (forall s, active (bump s) = active s /\ pattern (bump s) = pattern s /\ phase (bump s) = phase s) ->
  turn_ok x (close x) -> turn_ok x (loop_phase x now i cnt il d color hd inter_ bump close).
Proof.
  intros Hq Hil Hd Hhd Hin Hp Hb Hc. unfold loop_phase, is_byte in *. destruct (cnt <=? i).
  - destruct (Z.ltb_spec 0 il); [|done]. split; [by intros _|]. right. destruct (delay_range il); lia.
  - destruct (Hb (l_run x)) as (Ha & Hpt & Hph). destruct (Z.ltb_spec 0 d).
    + split; [|right; destruct (delay_range d); lia]. intros _. cbn [l_run on_run set_phase set_wait phase pattern].
      split; [by cbn; rewrite Hpt|done].
    + split; [|by right]. intros _. cbn. by rewrite Hpt, Hph.
Qed.

Lemma service_turn_ok inst now x : active (l_run x) = true -> run_ok (l_run x) -> turn_ok x (service_turn inst now x).
Proof.
  intros Ha Hok. destruct (Hok Ha) as [Hq Hp]. pose proof Hq as ((?&?&?) & (?&?&?) & (?&?&?)).
  unfold service_turn.
  destruct (phase (l_run x)) eqn:Hph; try done.
  all: try (split; [by intros _|]; split; [done|]; cbn; rewrite Hph; cbn; lia).
  - destruct (_ && _); [by split; [apply zero_ok|left]|]. split; [by intros _|]. split; [done|]. cbn. rewrite Hph. cbn. lia.
  - apply loop_phase_ok; unfold is_byte; rewrite ?Hph; try done; try lia. split; [by intros _|]. split; [done|]. cbn. rewrite Hph. cbn. lia.
  - apply loop_phase_ok; unfold is_byte; rewrite ?Hph; try done; try lia. split; [by intros _|]. split; [done|]. cbn. rewrite Hph. cbn. lia.
  - apply loop_phase_ok; unfold is_byte; rewrite ?Hph; try done; try lia. split; [by intros _|by right].
Qed.

Lemma service_loop_ok fuel inst now x :
  active (l_run x) = true -> run_ok (l_run x) -> (rank (phase (l_run x)) < fuel)%nat ->
  exists y d, service_loop fuel inst now x = Some (y, d) /\ run_ok (l_run y) /\ delay_ok y d.
Proof.
  revert x. induction fuel as [|fuel IH]; intros x Ha Hok Hf; [lia|]. cbn [service_loop].
  pose proof (service_turn_ok inst now x Ha Hok) as Ht. destruct (service_turn inst now x) as [y|[y d]].
  - destruct Ht as (Hy & Hay & Hr). apply IH; [done|done|lia].
  - exists y, d. by split.
Qed.

Lemma service_ok now x :
  run_ok (l_run x) -> exists y d, od_led_service now x = Some (y, d) /\ run_ok (l_run y) /\ delay_ok y d.
Proof.
  intros Hok. unfold od_led_service. destruct (active (l_run x)) eqn:Ha; cbn [negb]; [|by eexists _, _; split; [done|split; [|left]]].
  destruct (od_led_app_mode _ _) as [mode e]. destruct (negb (mode =? 1)).
  { eexists _, _. split; [done|]. split; [apply zero_ok|by left]. }
  destruct (waiting (l_run x)); cbn [andb].
  - destruct (deadline_reached now (deadline_ms (l_run x))) eqn:Hd; cbn [negb].
    + apply service_loop_ok; [done|done|]. unfold service_fuel. cbn. destruct (phase (l_run x)); cbn; lia.
    + eexists _, _. split; [done|]. split; [done|]. right. unfold deadline_reached in Hd. apply Z.ltb_ge in Hd.
      revert Hd. wrap_lia.
  - apply service_loop_ok; [done|done|]. unfold service_fuel. cbn. destruct (phase (l_run x)); cbn; lia.
Qed.

Lemma nibble_range b : 0 <= hi_nibble b < 16 /\ 0 <= lo_nibble b < 16.
Proof.
  unfold hi_nibble, lo_nibble. change 15 with (Z.ones 4). rewrite !Z.land_ones by lia. unfold wrap.
  change (2 ^ 4) with 16. change (2 ^ 8) with 256. Z.to_euclidean_division_equations. lia.
Qed.

Lemma parse_ok b : bytes_ok b -> len b = 12 -> pattern_ok (parse_pattern b).
Proof.
  intros Hb Hl. unfold pattern_ok. cbn [parse_pattern loopcnt1 loopcnt2 loopcnt3 loop1delay loop2delay loop3delay ildelay1 ildelay2 ildelay3].
  assert (Hg : forall i, 0 <= i < 12 -> is_byte b.[i]) by (intros i Hi; apply (Forall_get is_byte b i Hb); lia).
  split; [|split; [|split_and!; apply Hg; lia]]; split_and!; apply nibble_range.
Qed.

(** What the adapter does with the runner; a service finds the target as [e]. *)
Inductive led_op :=
| Activate (inst : Z) (p : option od_led_pins) (b : option bytes) (now : Z)
| LedStop (inst : Z) (given : bool)
| Service (e : E) (now : Z).

Definition op_ok (o : led_op) : Prop := match o with Activate _ _ (Some b) _ => bytes_ok b /\ len b = 12 | _ => True end.

(** The state after the operation; [None] when it did not return. *)
Definition led_do (o : led_op) x : option (lstate E) :=
  match o with
  | Activate inst p b now => Some (od_led_activate x inst p b now).1
  | LedStop inst given => Some (od_led_stop x inst given).1
  | Service e now => fst <$> od_led_service now {| l_run := l_run x; l_env := e; l_trace := l_trace x |}
  end.

Fixpoint led_ops (os : list led_op) x : option (lstate E) :=
  match os with [] => Some x | o :: os => led_do o x ≫= led_ops os end.

Lemma led_do_ok o x : op_ok o -> run_ok (l_run x) -> exists y, led_do o x = Some y /\ run_ok (l_run y).
Proof.
  intros Ho Hx. destruct o as [inst p b now|inst given|e now]; cbn [led_do].
  - eexists. split; [done|]. unfold od_led_activate. destruct p as [p|]; [|done]. destruct b as [b|]; [|done].
    destruct (negb _); [done|]. intros _. cbn [op_ok] in Ho. destruct Ho. split; [by apply parse_ok|done].
  - eexists. split; [done|]. unfold od_led_stop. destruct (negb _); [done|]. destruct (_ && _); [done|apply zero_ok].
  - destruct (service_ok now {| l_run := l_run x; l_env := e; l_trace := l_trace x |} Hx) as (y & d & -> & Hy & _).
    by exists y.
Qed.

Lemma led_ops_ok os x : Forall op_ok os -> run_ok (l_run x) -> exists y, led_ops os x = Some y /\ run_ok (l_run y).
Proof.
  intros Ho. revert x. induction Ho as [|o os Ho _ IH]; intros x Hx; [by exists x|].
  destruct (led_do_ok o x Ho Hx) as (y & Hy & Hok). cbn [led_ops]. rewrite Hy. by apply IH.
Qed.

Definition led_start (e : E) : lstate E := {| l_run := zero_run; l_env := e; l_trace := [] |}.

(** Every step of a pattern yields: after any sequence of activations, stops and
    services, whatever bytes the pattern has and whatever the target answers, the
    operations all return, and one more service returns within five turns of its
    loop, either idle with nothing running or with a wait of 1 to 2^31 milliseconds
    (never zero). *)
Theorem led_always_yields e0 os e now :
  Forall op_ok os ->
  exists x y d, led_ops os (led_start e0) = Some x /\
    od_led_service now {| l_run := l_run x; l_env := e; l_trace := l_trace x |} = Some (y, d) /\
    (d = OD_LED_IDLE /\ active (l_run y) = false \/ 1 <= d <= 0x80000000).
Proof.
  intros Ho. destruct (led_ops_ok os (led_start e0) Ho zero_ok) as (x & Hx & Hok).
  destruct (service_ok now {| l_run := l_run x; l_env := e; l_trace := l_trace x |} Hok) as (y & d & Hy & _ & Hd).
  exists x, y, d. by split.
Qed.

(** ** A finite pattern, played to its end *)

Hypothesis mode_on : forall e inst, (od_led_app_mode e inst).1 = 1.

(** A run of a finite pattern, with the counters in their ranges. *)
Definition playing (s : led_run) : Prop :=
  active s = true /\ pattern_ok (pattern s) /\ phase s <> OD_LED_PHASE_IDLE /\ repeat_forever (pattern s) = false /\
  0 <= i1 s <= loopcnt1 (pattern s) /\ 0 <= i2 s <= loopcnt2 (pattern s) /\ 0 <= i3 s <= loopcnt3 (pattern s) /\
  0 <= group_pos s /\ grouprepeats (pattern s) < 256 /\
  (match phase s with
   | OD_LED_PHASE_GROUP => group_pos s <= grouprepeats (pattern s)
   | _ => group_pos s < grouprepeats (pattern s)
   end).

(** One wait, at the end of what was shown. *)
Definition shown (evs : list led_event) (d : Z) : Prop := evs = [Wait d] \/ exists c, evs = [Flash c; Wait d].

(** What a returning service did: the end of the pattern, or its next wait. *)
Definition played now x (r : lstate E * Z) : Prop :=
  (rest (l_run x) = [] /\ l_run r.1 = zero_run /\ r.2 = OD_LED_IDLE /\
   l_trace r.1 = l_trace x ++ [Off; Finished (instance (l_run x))]) \/
  (exists evs, shown evs r.2 /\ 1 <= r.2 <= 25500 /\ l_trace r.1 = l_trace x ++ evs /\
     rest (l_run x) = evs ++ rest (l_run r.1) /\ playing (l_run r.1) /\ waiting (l_run r.1) = true /\
     deadline_ms (l_run r.1) = u32 (now + r.2) /\ instance (l_run r.1) = instance (l_run x)).

Definition turn_plays now x (t : turn) : Prop :=
  match t with
  | inl y => playing (l_run y) /\ rest (l_run y) = rest (l_run x) /\ l_trace y = l_trace x /\
             instance (l_run y) = instance (l_run x) /\ (rank (phase (l_run y)) < rank (phase (l_run x)))%nat
  | inr r => played now x r
  end.

Lemma flashes_next c d n i : i < n -> flashes c d (Z.to_nat (n - i)) = Flash c :: Wait (wait_ms d) :: flashes c d (Z.to_nat (n - (i + 1))).
Proof. intros Hi. replace (Z.to_nat (n - i)) with (S (Z.to_nat (n - (i + 1)))) by lia. done. Qed.

Lemma groups_next q n i : i < n -> groups q (n - i) = group q ++ groups q (n - (i + 1)).
Proof. intros Hi. unfold groups. replace (Z.to_nat (n - i)) with (S (Z.to_nat (n - (i + 1)))) by lia. done. Qed.

Lemma wait_positive d : 0 <= d < 256 -> 1 <= wait_ms d <= 25500.
Proof. unfold wait_ms, OD_LED_DELAY_FACTOR_MS, OD_LED_MIN_STEP_DELAY_MS. destruct (Z.ltb_spec 0 d); lia. Qed.

(** A loop phase plays the rest of its flashes, then what follows. *)
Lemma loop_plays x now i cnt il d color hd hi bump close tail :
  0 <= d < 16 -> is_byte il -> instance (bump (l_run x)) = instance (l_run x) ->
  rest (l_run x) = flashes color d (Z.to_nat (cnt - i)) ++ tail ->
  (i < cnt -> forall p, p = hd \/ p = phase (l_run x) ->
     playing (set_phase (bump (l_run x)) p) /\
     rest (set_phase (bump (l_run x)) p) = flashes color d (Z.to_nat (cnt - (i + 1))) ++ tail) ->
  (phase (bump (l_run x)) = phase (l_run x)) ->
  (cnt <= i -> 0 < il -> playing (set_phase (l_run x) hi) /\ tail = Wait (wait_ms il) :: rest (set_phase (l_run x) hi)) ->
  (cnt <= i -> il = 0 -> turn_plays now x (close x)) ->
  turn_plays now x (loop_phase x now i cnt il d color hd hi bump close).
Proof.
  intros Hd Hil Hi Hr Hflash Hph Hinter Hclose. unfold loop_phase, is_byte in *. destruct (Z.leb_spec cnt i) as [Hc|Hc].
  - destruct (Z.ltb_spec 0 il) as [Hl|Hl]; [|apply Hclose; lia]. destruct (Hinter Hc Hl) as [Hp Ht].
    destruct (delay_range il) as [Hdr Hde]; [lia|]. right. exists [Wait (u32 (il * OD_LED_DELAY_FACTOR_MS))].
    split; [by left|]. split; [done|]. split; [done|]. split; [|by split_and!].
    rewrite Hr, Ht, Hde. replace (Z.to_nat (cnt - i)) with 0%nat by lia. done.
  - destruct (Z.ltb_spec 0 d) as [Hdp|Hdp].
    + destruct (Hflash Hc hd ltac:(by left)) as [Hp Ht]. destruct (delay_range d) as [Hdr Hde]; [lia|].
      right. exists [Flash color; Wait (u32 (d * OD_LED_DELAY_FACTOR_MS))].
      split; [right; by eexists|]. split; [done|]. split; [cbn; by rewrite <- app_assoc|]. split; [|by split_and!].
      rewrite Hr, (flashes_next _ _ _ _ Hc), Hde. cbn [app]. do 2 f_equal. by rewrite <- Ht.
    + destruct (Hflash Hc (phase (l_run x)) ltac:(by right)) as [Hp Ht].
      right. exists [Flash color; Wait OD_LED_MIN_STEP_DELAY_MS].
      assert (Hs : set_phase (bump (l_run x)) (phase (l_run x)) = bump (l_run x)) by (rewrite <- Hph; by destruct (bump _)).
      rewrite Hs in Hp, Ht.
      split; [right; by eexists|]. split; [done|]. split; [cbn; by rewrite <- app_assoc|]. split; [|by split_and!].
      rewrite Hr, (flashes_next _ _ _ _ Hc). unfold wait_ms at 1. destruct (Z.ltb_spec 0 d); [lia|]. cbn [app]. do 2 f_equal. by rewrite <- Ht.
Qed.

#[local] Ltac keeps := unfold playing; cbn; split_and!; first [done|lia].
#[local] Ltac goes_on Hphase := split; [keeps|split; [|split; [done|split; [done|cbn; rewrite Hphase; cbn; lia]]]].

#[local] Ltac loop_turn Hphase Hu :=
  eapply loop_plays;
  [done|done|done|unfold rest; rewrite Hphase; done
  |intros Hlt p Hpp; rewrite Hu by lia; split; [|by destruct Hpp as [->| ->]; rewrite ?Hphase];
   destruct Hpp as [->| ->]; rewrite ?Hphase; keeps
  |done| |].

(** The count of a loop that is done has nothing left to flash. *)
Lemma flashes_done c d n i : n <= i -> flashes c d (Z.to_nat (n - i)) = [].
Proof. intros Hi. by replace (Z.to_nat (n - i)) with 0%nat by lia. Qed.

Lemma inter_wait il : 0 < il -> inter il = [Wait (wait_ms il)].
Proof. intros Hl. unfold inter. by destruct (Z.ltb_spec 0 il); [|lia]. Qed.

Lemma turn_play now x : playing (l_run x) -> turn_plays now x (service_turn (instance (l_run x)) now x).
Proof.
  intros Hp. pose proof Hp as (Ha & Hq & Hph & Hf & H1 & H2 & H3 & Hg & Hgr & Hpos).
  pose proof Hq as ((?&?&?) & (?&?&?) & (?&?&?)). unfold service_turn.
  assert (Hu : forall n, 0 <= n < 16 -> u8 (n + 1) = n + 1) by (intros n Hn; rewrite wrap_id; [done|unfold fits; change (2 ^ 8) with 256; lia]).
  destruct (phase (l_run x)) eqn:Hphase; try done.
  - rewrite Hf. cbn [negb andb]. destruct (Z.leb_spec (grouprepeats (pattern (l_run x))) (group_pos (l_run x))).
    + left. unfold rest. rewrite Hphase. cbn. rewrite Ha. cbn. unfold groups.
      replace (Z.to_nat (grouprepeats (pattern (l_run x)) - group_pos (l_run x))) with 0%nat by lia.
      split_and!; try done. by rewrite <- app_assoc.
    + goes_on Hphase. unfold rest at 2. rewrite Hphase, groups_next by lia. unfold rest. cbn.
      unfold rest_loop1, rest_loop2, rest_loop3, group. cbn. by rewrite !Z.sub_0_r, <- !app_assoc.
  - loop_turn Hphase Hu.
    + intros Hle Hl. split; [keeps|]. by rewrite inter_wait.
    + intros Hle Hl. goes_on Hphase. unfold rest. rewrite Hphase. cbn. unfold rest_loop1. by rewrite Hl, flashes_done by done.
  - goes_on Hphase. unfold rest. by rewrite Hphase.
  - goes_on Hphase. unfold rest. by rewrite Hphase.
  - loop_turn Hphase Hu.
    + intros Hle Hl. split; [keeps|]. by rewrite inter_wait.
    + intros Hle Hl. goes_on Hphase. unfold rest. rewrite Hphase. cbn. unfold rest_loop2. by rewrite Hl, flashes_done by done.
  - goes_on Hphase. unfold rest. by rewrite Hphase.
  - goes_on Hphase. unfold rest. by rewrite Hphase.
  - loop_turn Hphase Hu.
    + intros Hle Hl. split; [keeps|done].
    + intros Hle Hl. right. exists [Wait OD_LED_MIN_STEP_DELAY_MS].
      assert (Hg1 : u8 (group_pos (l_run x) + 1) = group_pos (l_run x) + 1)
        by (rewrite wrap_id; [done|unfold fits; change (2 ^ 8) with 256; lia]).
      split; [by left|]. split; [done|]. split; [done|]. split; [|split; [|done]].
      * unfold rest. rewrite Hphase. cbn. rewrite Hg1. unfold rest_loop3. rewrite flashes_done by done. by unfold close_group; rewrite Hl.
      * unfold playing; cbn; rewrite Hg1; split_and!; first [done|lia].
  - goes_on Hphase. unfold rest. by rewrite Hphase.
  - assert (Hg1 : u8 (group_pos (l_run x) + 1) = group_pos (l_run x) + 1)
      by (rewrite wrap_id; [done|unfold fits; change (2 ^ 8) with 256; lia]).
    split; [unfold playing; cbn; rewrite Hg1; split_and!; first [done|lia]|].
    split; [unfold rest; rewrite Hphase; cbn; by rewrite Hg1|]. split; [done|]. split; [done|]. cbn. rewrite Hphase. cbn. lia.
Qed.

Lemma loop_play fuel now x :
  playing (l_run x) -> (rank (phase (l_run x)) < fuel)%nat ->
  exists r, service_loop fuel (instance (l_run x)) now x = Some r /\ played now x r.
Proof.
  revert x. induction fuel as [|fuel IH]; intros x Hp Hf; [lia|]. cbn [service_loop].
  pose proof (turn_play now x Hp) as Ht. destruct (service_turn _ now x) as [y|r]; [|by exists r].
  destruct Ht as (Hy & Hr & Htr & Hi & Hrank). rewrite <- Hi. destruct (IH y Hy ltac:(lia)) as (r & Hl & Hpl).
  exists r. split; [done|]. unfold played in *. by rewrite <- Hr, <- Htr, <- Hi.
Qed.

(** A service that is due. *)
Lemma service_plays now x :
  playing (l_run x) -> (waiting (l_run x) = true -> deadline_reached now (deadline_ms (l_run x)) = true) ->
  exists r, od_led_service now x = Some r /\ played now x r.
Proof.
  intros Hp Hdue. unfold od_led_service. pose proof Hp as (Ha & _). rewrite Ha. cbn [negb].
  pose proof (mode_on (l_env x) (instance (l_run x))) as Hm. destruct (od_led_app_mode _ _) as [mode e]. cbn in Hm. subst mode.
  assert (Hd : waiting (l_run x) && negb (deadline_reached now (deadline_ms (l_run x))) = false)
    by (destruct (waiting (l_run x)); [by rewrite Hdue|done]). rewrite Hd. cbn [negb Z.eqb Pos.eqb].
  apply (loop_play service_fuel now (on_run {| l_run := l_run x; l_env := e; l_trace := l_trace x |}
    (fun s => set_wait s false (deadline_ms s)))); [done|].
  unfold service_fuel. cbn. destruct (phase (l_run x)); cbn; lia.
Qed.

(** The target's scheduler: each service comes [late] milliseconds after the time the
    last one asked for. *)
Fixpoint drive (now : Z) (lates : list Z) x : option (lstate E) :=
  match lates with
  | [] => Some x
  | late :: lates =>
      let t := u32 (now + late) in
      match od_led_service t x with Some (y, d) => drive (u32 (t + d)) lates y | None => None end
  end.

Lemma reached now late : 0 <= late < 0x80000000 -> deadline_reached (u32 (now + late)) (u32 now) = true.
Proof. intros Hl. unfold deadline_reached. apply Z.ltb_lt. wrap_lia. Qed.

Lemma waits_shown evs d tail : shown evs d -> waits (evs ++ tail) = S (waits tail).
Proof. by intros [->|[c ->]]. Qed.

Lemma drive_plays lates now x :
  playing (l_run x) -> (waiting (l_run x) = true -> deadline_ms (l_run x) = u32 now) ->
  Forall (fun l => 0 <= l < 0x80000000) lates -> length lates = S (waits (rest (l_run x))) ->
  exists y, drive now lates x = Some y /\ l_run y = zero_run /\
    l_trace y = l_trace x ++ rest (l_run x) ++ [Off; Finished (instance (l_run x))].
Proof.
  intros Hp Hw Hl. revert now x Hp Hw. induction Hl as [|late lates Hlate Hl IH]; intros now x Hp Hw Hn; [done|].
  cbn [drive]. destruct (service_plays (u32 (now + late)) x Hp) as ([y d] & Hs & Hpl).
  { intros Hwx. rewrite (Hw Hwx). by apply reached. }
  rewrite Hs. cbn [length] in Hn. destruct Hpl as [(Hr & Hz & Hd & Ht)|(evs & Hsh & Hd & Ht & Hr & Hpy & Hwy & Hdl & Hi)]; cbn [fst snd] in *.
  - rewrite Hr in *. destruct lates; [|cbn in Hn; lia]. by exists y.
  - rewrite Hr, (waits_shown _ _ _ Hsh) in Hn. destruct (IH (u32 (u32 (now + late) + d)) y Hpy) as (z & Hdz & Hzr & Hzt).
    + intros _. rewrite Hdl. by rewrite wrap_wrap by lia.
    + lia.
    + exists z. split; [done|]. split; [done|]. rewrite Hzt, Ht, Hr, Hi. by rewrite <- !app_assoc.
Qed.

(** A finite pattern is played out: after an accepted activation whose pattern
    is not the endless one, if the mode stays selected and services come as late as
    they like (less than 2^31 ms) after the time asked for, exactly as many services
    as the pattern has waits play its flashes and waits in order, [grouprepeats]
    times, and the next one switches everything off and reports the instance. *)
Theorem led_plays_pattern x inst p b now lates :
  let q := parse_pattern b in
  let x1 := (od_led_activate x inst (Some p) (Some b) now).1 in
  bytes_ok b -> len b = 12 -> Z.land b.[0] 0x0F = 1 -> b.[10] < 0xFE ->
  Forall (fun l => 0 <= l < 0x80000000) lates -> length lates = S (waits (play q)) ->
  exists y, drive now lates x1 = Some y /\ l_run y = zero_run /\ l_trace y = l_trace x1 ++ play q ++ [Off; Finished inst].
Proof.
  intros q x1 Hb Hlen H0 H10 Hl Hn. subst q. pose proof (parse_ok b Hb Hlen) as Hq.
  assert (H10b : is_byte b.[10]) by (apply (Forall_get is_byte b 10 Hb); lia). unfold is_byte in H10b.
  assert (Hx1 : l_run x1 = {| active := true; instance := inst; pins := p; pattern := parse_pattern b; group_pos := 0;
    i1 := 0; i2 := 0; i3 := 0; phase := OD_LED_PHASE_GROUP; waiting := false; deadline_ms := now |}).
  { subst x1. unfold od_led_activate. by rewrite H0. }
  assert (Hgr : grouprepeats (parse_pattern b) = b.[10] + 1).
  { cbn. rewrite wrap_id; [done|]. unfold fits. change (2 ^ 8) with 256. lia. }
  destruct (drive_plays lates now x1) as (y & Hd & Hz & Ht).
  - rewrite Hx1. unfold playing. cbn [active pattern phase i1 i2 i3 group_pos]. rewrite Hgr. pose proof Hq as ((?&?&?) & _).
    split_and!; try done; try lia. cbn. destruct (Z.leb_spec 254 b.[10]); [lia|done].
  - by rewrite Hx1.
  - done.
  - rewrite Hx1. unfold rest. cbn [phase group_pos pattern]. by rewrite Z.sub_0_r.
  - exists y. split; [done|]. split; [done|]. rewrite Ht, Hx1. unfold rest. cbn [phase group_pos pattern instance]. by rewrite Z.sub_0_r.
Qed.

End Theorems.

(** ** On a concrete pattern: red twice with 100 ms between, 200 ms, blue once. *)
#[local] Instance toy_led : LedApp unit := {
  od_led_app_write e _ _ := e; od_hal_delay_us e _ := e; od_led_app_mode e _ := (1, e); od_led_app_finished e _ := e;
}.

Definition demo_pattern : bytes := [0x11; 0xE0; 0x12; 2; 0x03; 0x01; 0; 0; 0; 0; 0; 0].
Definition demo_pins : od_led_pins := {| pin_r := 1; pin_g := 2; pin_b := 0xFF; pin_flags := 0 |}.

Lemma demo_pattern_ok : bytes_ok demo_pattern.
Proof. repeat constructor; unfold is_byte; lia. Qed.

Lemma led_always_yields_witness :
  exists x y d, led_ops [Activate 0 (Some demo_pins) (Some demo_pattern) 5] (led_start tt) = Some x /\
    od_led_service 5 {| l_run := l_run x; l_env := tt; l_trace := l_trace x |} = Some (y, d) /\
    (d = OD_LED_IDLE /\ active (l_run y) = false \/ 1 <= d <= 0x80000000).
Proof.
  apply (led_always_yields tt [Activate 0 (Some demo_pins) (Some demo_pattern) 5] tt 5).
  repeat constructor; unfold is_byte; lia.
Defined.

Lemma led_plays_pattern_witness :
  exists y, drive 5 [0; 3; 0; 70; 0; 0] (od_led_activate (led_start tt) 4 (Some demo_pins) (Some demo_pattern) 5).1 = Some y /\
    l_trace y = [Flash 0xE0; Wait 100; Flash 0xE0; Wait 100; Wait 200; Flash 3; Wait 1; Wait 1; Off; Finished 4].
Proof.
  destruct (led_plays_pattern (H := toy_led) (fun _ _ => eq_refl) (led_start tt) 4 demo_pins demo_pattern 5 [0; 3; 0; 70; 0; 0])
    as (y & Hy & _ & Ht).
  - exact demo_pattern_ok.
  - reflexivity.
  - reflexivity.
  - reflexivity.
  - repeat constructor; lia.
  - vm_compute. reflexivity.
  - exists y. split; [exact Hy|]. rewrite Ht. vm_compute. reflexivity.
Defined.

End Led.
