(* ===== verification/Buzzer.v ===== *)
(** The buzzer's melody runner, [shared/core/od_buzzer.c]: validation of a melody,
    its steps, gaps and repeats, and the limits they keep. *)

From S2P Require Import Prelude.

Module Buzzer.

Definition OD_BUZZER_IDLE : Z := 0xFFFFFFFF.
Definition OD_BUZZER_PAYLOAD_MAX : Z := 256.
Definition OD_BUZZER_MAX_TOTAL_MS : Z := 30000.
Definition OD_BUZZER_DURATION_UNIT_MS : Z := 5.
Definition OD_BUZZER_INTER_PATTERN_MS : Z := 20.
Definition OD_PIN_UNUSED : Z := 0xFF.
Definition OD_BUZZER_FLAG_ENABLE_ACTIVE_HIGH : Z := 1.
Definition OD_BUZZER_MIN_INDEX : Z := 117.
Definition OD_BUZZER_MAX_INDEX : Z := 234.

Definition s_centihz : list Z :=
  [0; 1415; 1457; 1499; 1543; 1589; 1635; 1683; 1732; 1783; 1835; 1889; 1945; 2002; 2060; 2121;
   2183; 2247; 2312; 2380; 2450; 2522; 2596; 2672; 2750; 2831; 2914; 2999; 3087; 3177; 3270; 3366;
   3465; 3566; 3671; 3778; 3889; 4003; 4120; 4241; 4365; 4493; 4625; 4760; 4900; 5044; 5191; 5343;
   5500; 5661; 5827; 5998; 6174; 6354; 6541; 6732; 6930; 7133; 7342; 7557; 7778; 8006; 8241; 8482;
   8731; 8987; 9250; 9521; 9800; 10087; 10383; 10687; 11000; 11322; 11654; 11996; 12347; 12709; 13081; 13465;
   13859; 14265; 14683; 15113; 15556; 16012; 16481; 16964; 17461; 17973; 18500; 19042; 19600; 20174; 20765; 21374;
   22000; 22645; 23308; 23991; 24694; 25418; 26163; 26929; 27718; 28530; 29366; 30227; 31113; 32024; 32963; 33929;
   34923; 35946; 36999; 38084; 39200; 40348; 41530; 42747; 44000; 45289; 46616; 47982; 49388; 50836; 52325; 53858;
   55437; 57061; 58733; 60454; 62225; 64049; 65926; 67857; 69846; 71892; 73999; 76167; 78399; 80696; 83061; 85495;
   88000; 90579; 93233; 95965; 98777; 101671; 104650; 107717; 110873; 114122; 117466; 120908; 124451; 128097; 131851; 135715;
   139691; 143785; 147998; 152334; 156798; 161393; 166122; 170990; 176000; 181157; 186466; 191929; 197553; 203342; 209300; 215433;
   221746; 228244; 234932; 241816; 248902; 256195; 263702; 271429; 279383; 287569; 295996; 304669; 313596; 322785; 332244; 341979;
   352000; 362314; 372931; 383859; 395107; 406684; 418601; 430867; 443492; 456488; 469864; 483632; 497803; 512390; 527404; 542858;
   558765; 575138; 591991; 609338; 627193; 645571; 664488; 683958; 704000; 724629; 745862; 767717; 790213; 813368; 837202; 861734;
   886984; 912975; 939727; 967263; 995606; 1024780; 1054808; 1085716; 1117530; 1150276; 1183982; 1218675; 1254385; 1291142; 1328975; 1367917;
   1408000; 1449258; 1491724; 1535435; 1580427; 1626737; 1674404; 1723467; 1773969; 1825950; 1879455; 1934527; 1991213; 2049560; 2109616; 2171433].

(** [od_buzzer_app.h]. *)
Class BuzzerApp (E : Type) := {
  od_buzzer_app_tone_start : E -> Z -> Z -> Z -> bool * E;
  od_buzzer_app_tone_stop : E -> Z -> E;
  od_buzzer_app_enable_write : E -> Z -> bool -> E;
}.

Record od_buzzer_config := { drive_pin : Z; enable_pin : Z; flags : Z; duty_percent : Z }.

Inductive od_buzzer_phase_t := OD_BUZZER_PHASE_STEP | OD_BUZZER_PHASE_GAP.

(** [s_run]. *)
Record buzzer_run := {
  active : bool; waiting : bool; tone_on : bool; config : od_buzzer_config; payload : bytes; outer : Z; repeat : Z;
  pattern_count : Z; pattern : Z; offset : Z; step_count : Z; step : Z; phase : od_buzzer_phase_t; started_ms : Z;
  deadline_ms : Z;
}.

Definition zero_run : buzzer_run :=
  {| active := false; waiting := false; tone_on := false;
     config := {| drive_pin := 0; enable_pin := 0; flags := 0; duty_percent := 0 |};
     payload := replicate (Z.to_nat OD_BUZZER_PAYLOAD_MAX) 0; outer := 0; repeat := 0; pattern_count := 0; pattern := 0;
     offset := 0; step_count := 0; step := 0; phase := OD_BUZZER_PHASE_STEP; started_ms := 0; deadline_ms := 0 |}.

(** What is heard: a record no operation reads. *)
Inductive buzzer_event := Tone (centihz : Z) (on : bool) | Silence | Enable (on : bool) | Delay (ms : Z).

Record bstate (E : Type) := { b_run : buzzer_run; b_env : E; b_trace : list buzzer_event }.
Arguments b_run {E} _.
Arguments b_env {E} _.
Arguments b_trace {E} _.

Definition deadline_reached (now deadline : Z) : bool := u32 (now - deadline) <? 0x80000000.

(** The two loops of [fold_index]; an index is a byte, so eleven rounds are enough
    ([fold_index_fuel]). *)
Fixpoint fold_up (fuel : nat) (i : Z) : Z :=
  match fuel with O => i | S fuel => if i <? OD_BUZZER_MIN_INDEX then fold_up fuel (u16 (i + 24)) else i end.
Fixpoint fold_down (fuel : nat) (i : Z) : Z :=
  match fuel with O => i | S fuel => if OD_BUZZER_MAX_INDEX <? i then fold_down fuel (u16 (i - 24)) else i end.
Definition fold_index (index : Z) : Z := if index =? 0 then 0 else u8 (fold_down 11 (fold_up 11 index)).

Definition od_buzzer_index_centihz (index : Z) : Z := s_centihz.[fold_index index].

(** *** Setters *)

Definition set_tone (s : buzzer_run) (on : bool) : buzzer_run :=
  {| active := active s; waiting := waiting s; tone_on := on; config := config s; payload := payload s; outer := outer s;
     repeat := repeat s; pattern_count := pattern_count s; pattern := pattern s; offset := offset s;
     step_count := step_count s; step := step s; phase := phase s; started_ms := started_ms s; deadline_ms := deadline_ms s |}.

Definition set_wait (s : buzzer_run) (w : bool) (d : Z) : buzzer_run :=
  {| active := active s; waiting := w; tone_on := tone_on s; config := config s; payload := payload s; outer := outer s;
     repeat := repeat s; pattern_count := pattern_count s; pattern := pattern s; offset := offset s;
     step_count := step_count s; step := step s; phase := phase s; started_ms := started_ms s; deadline_ms := d |}.

Definition set_phase (s : buzzer_run) (p : od_buzzer_phase_t) : buzzer_run :=
  {| active := active s; waiting := waiting s; tone_on := tone_on s; config := config s; payload := payload s; outer := outer s;
     repeat := repeat s; pattern_count := pattern_count s; pattern := pattern s; offset := offset s;
     step_count := step_count s; step := step s; phase := p; started_ms := started_ms s; deadline_ms := deadline_ms s |}.

(** Where the run is: repeat, pattern, offset, the pattern's steps, the step. *)
Definition set_place (s : buzzer_run) (r p o n k : Z) : buzzer_run :=
  {| active := active s; waiting := waiting s; tone_on := tone_on s; config := config s; payload := payload s; outer := outer s;
     repeat := r; pattern_count := pattern_count s; pattern := p; offset := o;
     step_count := n; step := k; phase := phase s; started_ms := started_ms s; deadline_ms := deadline_ms s |}.

(** [s_run.payload[o]]: [None] is outside the array. *)
Definition read (s : buzzer_run) (o : Z) : option Z := if o <? OD_BUZZER_PAYLOAD_MAX then Some (payload s).[o] else None.

Section Operations.
Context {E : Type} `{BuzzerApp E}.
Implicit Types (x : bstate E).

Definition on_run x (f : buzzer_run -> buzzer_run) : bstate E :=
  {| b_run := f (b_run x); b_env := b_env x; b_trace := b_trace x |}.

Definition set_enable x (on : bool) : bstate E :=
  let c := config (b_run x) in
  if enable_pin c =? OD_PIN_UNUSED then x
  else
    let high := if Z.land (flags c) OD_BUZZER_FLAG_ENABLE_ACTIVE_HIGH =? 0 then negb on else on in
    {| b_run := b_run x; b_env := od_buzzer_app_enable_write (b_env x) (enable_pin c) high; b_trace := b_trace x ++ [Enable on] |}.

Definition stop_tone x : bstate E :=
  {| b_run := set_tone (b_run x) false; b_env := od_buzzer_app_tone_stop (b_env x) (drive_pin (config (b_run x)));
     b_trace := b_trace x ++ [Silence] |}.

Definition finish x : bstate E :=
  on_run (if active (b_run x) then set_enable (stop_tone x) false else x) (fun _ => zero_run).

Definition od_buzzer_stop x : bstate E := finish x.

(** The walk over the patterns: where it ends, or [None] for a truncated melody. *)
Fixpoint scan_patterns (patterns : nat) (p : bytes) (payload_len scan : Z) : option Z :=
  match patterns with
  | O => Some scan
  | S patterns =>
      if payload_len <=? scan then None
      else
        let needed := u32 (p.[scan] * 2) in
        let scan := u16 (scan + 1) in
        if payload_len <? u32 (scan + needed) then None else scan_patterns patterns p payload_len (u16 (u32 (scan + needed)))
  end.

Definition od_buzzer_activate x (c : option od_buzzer_config) (p : option bytes) (payload_len now : Z) : bstate E * Z :=
  match c, p with
  | Some c, Some p =>
      if payload_len <? 3 then (x, 1)
      else if p.[2] =? 0 then (x, 4)
      else
        match scan_patterns (Z.to_nat p.[2]) p payload_len 3 with
        | None => (x, 5)
        | Some scan =>
            if negb (scan =? payload_len) then (x, 6)
            else if OD_BUZZER_PAYLOAD_MAX <? payload_len then (x, 5)
            else
              let x := finish x in
              let stored := memcpy (payload zero_run) 0 (take (Z.to_nat payload_len) p) in
              (on_run x (fun _ => {| active := true; waiting := false; tone_on := false; config := c; payload := stored;
                 outer := if p.[1] =? 0 then 1 else p.[1]; repeat := 0; pattern_count := p.[2]; pattern := 0; offset := 4;
                 step_count := stored.[3]; step := 0; phase := OD_BUZZER_PHASE_STEP; started_ms := now; deadline_ms := now |}), 0)
        end
  | _, _ => (x, 1)
  end.

Definition schedule x (now delay : Z) : bstate E * Z :=
  ({| b_run := set_wait (b_run x) true (u32 (now + delay)); b_env := b_env x; b_trace := b_trace x ++ [Delay delay] |}, delay).

(** A turn of the loop goes on or returns. *)
Definition turn : Type := bstate E + bstate E * Z.

(** A step's sound, for [duration]. *)
Definition play_step x (now index duration : Z) : bstate E * Z :=
  let x := set_enable x true in
  let centihz := od_buzzer_index_centihz index in
  let c := config (b_run x) in
  let x :=
    if negb (centihz =? 0) then
      let '(on, e) := od_buzzer_app_tone_start (b_env x) (drive_pin c) centihz (duty_percent c) in
      {| b_run := set_tone (b_run x) on; b_env := e; b_trace := b_trace x ++ [Tone centihz on] |}
    else stop_tone x in
  schedule x now duration.

(** The three cases of a turn: a gap is over, the pattern has a step, or it has
    none left. *)
Definition gap_turn x : option turn :=
  let s := b_run x in
  n ← read s (offset s);
  Some (inl (on_run x (fun s =>
    set_phase (set_place s (repeat s) (u8 (pattern s + 1)) (u16 (offset s + 1)) n 0) OD_BUZZER_PHASE_STEP))).

Definition step_turn (now elapsed : Z) x : option turn :=
  let s := b_run x in
  index ← read s (offset s);
  units ← read s (u16 (offset s + 1));
  let duration := u32 (units * OD_BUZZER_DURATION_UNIT_MS) in
  let remaining := OD_BUZZER_MAX_TOTAL_MS - elapsed in
  let x := on_run x (fun s =>
    set_place s (repeat s) (pattern s) (u16 (u16 (offset s + 1) + 1)) (step_count s) (u8 (step s + 1))) in
  let duration := if remaining <? duration then remaining else duration in
  if duration =? 0 then Some (inl x) else Some (inr (play_step x now index duration)).

Definition end_turn (now : Z) x : option turn :=
  let s := b_run x in
  if u8 (pattern s + 1) <? pattern_count s then
    Some (inr (schedule (on_run x (fun s => set_phase s OD_BUZZER_PHASE_GAP)) now OD_BUZZER_INTER_PATTERN_MS))
  else
    let r := u8 (repeat s + 1) in
    if outer s <=? r then Some (inr (finish (on_run x (fun s => set_place s r (pattern s) (offset s) (step_count s) (step s))), OD_BUZZER_IDLE))
    else
      n ← read s 3;
      Some (inl (on_run x (fun s => set_place s r 0 4 n 0))).

Definition service_turn (now : Z) x : option turn :=
  let s := b_run x in
  let elapsed := u32 (now - started_ms s) in
  if OD_BUZZER_MAX_TOTAL_MS <=? elapsed then Some (inr (finish x, OD_BUZZER_IDLE))
  else
    match phase s with
    | OD_BUZZER_PHASE_GAP => gap_turn x
    | OD_BUZZER_PHASE_STEP => if step s <? step_count s then step_turn now elapsed x else end_turn now x
    end.

(** The [for (;;)]: [None] when [fuel] turns did not return, or on a read outside
    the payload. *)
Fixpoint service_loop (fuel : nat) (now : Z) x : option (bstate E * Z) :=
  match fuel with
  | O => None
  | S fuel => t ← service_turn now x; match t with inl x => service_loop fuel now x | inr r => Some r end
  end.

(** At most 255 repeats of at most 255 empty steps, and a gap. *)
Definition service_fuel : nat := Z.to_nat 77000.

Definition od_buzzer_service (now : Z) x : option (bstate E * Z) :=
  let s := b_run x in
  if negb (active s) then Some (x, OD_BUZZER_IDLE)
  else if waiting s && negb (deadline_reached now (deadline_ms s)) then Some (x, u32 (deadline_ms s - now))
  else
    let x := if waiting s then
               let x := if tone_on s then stop_tone x else x in on_run x (fun s => set_wait s false (deadline_ms s))
             else x in
    service_loop service_fuel now x.
End Operations.

(** ** The frequencies *)

(** Folding keeps the note: it moves by octaves of 24 quarter tones into the window
    of safe indices. *)
Lemma fold_index_window i :
  0 < i < 256 -> OD_BUZZER_MIN_INDEX <= fold_index i <= OD_BUZZER_MAX_INDEX /\ fold_index i mod 24 = i mod 24.
Proof.
  intros Hi. unfold OD_BUZZER_MIN_INDEX, OD_BUZZER_MAX_INDEX.
  pose proof (forallb_below (fun i => (i =? 0) || ((117 <=? fold_index i) && (fold_index i <=? 234)
    && (fold_index i mod 24 =? i mod 24))) 256 ltac:(vm_compute; reflexivity) i ltac:(lia)) as Hall.
  cbv beta in Hall. apply orb_true_iff in Hall as [Hz|Hall]; lia.
Qed.

(** More rounds change nothing. *)
Lemma fold_index_fuel i n m :
  0 <= i < 256 -> fold_down (11 + m) (fold_up (11 + n) i) = fold_down 11 (fold_up 11 i).
Proof.
  intros Hi.
  assert (Hup : forall k, OD_BUZZER_MIN_INDEX <= k -> forall f, fold_up f k = k).
  { intros k Hk [|f]; cbn; [done|]. by destruct (Z.ltb_spec k OD_BUZZER_MIN_INDEX); [lia|]. }
  assert (Hdown : forall k, k <= OD_BUZZER_MAX_INDEX -> forall f, fold_down f k = k).
  { intros k Hk [|f]; cbn; [done|]. by destruct (Z.ltb_spec OD_BUZZER_MAX_INDEX k); [lia|]. }
  assert (Hsplit_up : forall f g k, fold_up (f + g) k = fold_up g (fold_up f k)).
  { induction f as [|f IH]; intros g k; [done|]. cbn. destruct (Z.ltb_spec k OD_BUZZER_MIN_INDEX); [apply IH|]. by rewrite Hup. }
  assert (Hsplit_down : forall f g k, fold_down (f + g) k = fold_down g (fold_down f k)).
  { induction f as [|f IH]; intros g k; [done|]. cbn. destruct (Z.ltb_spec OD_BUZZER_MAX_INDEX k); [apply IH|]. by rewrite Hdown. }
  pose proof (forallb_below (fun i => (117 <=? fold_up 11 i) && (fold_down 11 (fold_up 11 i) <=? 234)) 256
    ltac:(vm_compute; reflexivity) i ltac:(lia)) as Hall.
  apply andb_true_iff in Hall as [H1 H2]. rewrite Hsplit_up, Hsplit_down. unfold OD_BUZZER_MIN_INDEX, OD_BUZZER_MAX_INDEX in *.
  rewrite Hup by lia. by rewrite Hdown by lia.
Qed.

(** ** A melody's layout *)

(** [n] patterns from [o] fill the payload up to [L]. *)
Fixpoint layout (n : nat) (p : bytes) (L o : Z) : Prop :=
  match n with
  | O => o = L
  | S n => 3 <= o /\ o + 1 + 2 * p.[o] <= L /\ layout n p L (o + 1 + 2 * p.[o])
  end.

Lemma scan_layout n p L o :
  bytes_ok p -> L <= 256 -> 3 <= o -> scan_patterns n p L o = Some L -> layout n p L o.
Proof.
  intros Hp HL. revert o. induction n as [|n IH]; intros o Ho Hs; [by injection Hs as ->|]. cbn [scan_patterns] in Hs.
  destruct (Z.leb_spec L o); [done|]. pose proof (get_byte p o Hp) as Hb. unfold is_byte in Hb.
  assert (H16 : forall k, 0 <= k < 65536 -> u16 k = k) by (intros; apply wrap_id; unfold fits; change (2 ^ 16) with 65536; lia).
  assert (H32 : forall k, 0 <= k < 65536 -> u32 k = k) by (intros; apply wrap_id; unfold fits; change (2 ^ 32) with 4294967296; lia).
  rewrite (H32 (p.[o] * 2)), (H16 (o + 1)) in Hs by lia. rewrite (H32 (o + 1 + _)) in Hs by lia.
  destruct (Z.ltb_spec L (o + 1 + p.[o] * 2)); [done|]. rewrite H16 in Hs by lia. cbn [layout].
  replace (o + 1 + 2 * p.[o]) with (o + 1 + p.[o] * 2) by lia. split_and!; [lia|lia|]. by apply IH; [lia|].
Qed.

(** The layout only looks below [L]. *)
Lemma layout_ext n p q L o :
  (forall i, 0 <= i < L -> q.[i] = p.[i]) -> bytes_ok p -> layout n p L o -> layout n q L o.
Proof.
  intros He Hp. revert o. induction n as [|n IH]; intros o Hl; [done|]. cbn [layout] in *. destruct Hl as (Ho & Hn & Hl).
  pose proof (get_byte p o Hp) as Hb. unfold is_byte in Hb. rewrite He by lia. split_and!; [done|done|]. by apply IH.
Qed.

(** ** Invariants *)

(** Whether the record ends with a tone sounding. *)
Definition sounding (t : list buzzer_event) : bool :=
  foldl (fun b ev => match ev with Tone _ on => on | Silence => false | _ => b end) false t.

Lemma sounding_snoc t ev :
  sounding (t ++ [ev]) = match ev with Tone _ on => on | Silence => false | _ => sounding t end.
Proof. unfold sounding. by rewrite foldl_snoc. Qed.

(** The patterns after the one being played. *)
Definition patterns_left (s : buzzer_run) : nat := Z.to_nat (pattern_count s - pattern s - 1).

Definition place_ok (s : buzzer_run) (L : Z) : Prop :=
  match phase s with
  | OD_BUZZER_PHASE_STEP =>
      4 <= offset s /\ offset s + 2 * (step_count s - step s) <= L /\
      layout (patterns_left s) (payload s) L (offset s + 2 * (step_count s - step s))
  | OD_BUZZER_PHASE_GAP => pattern s + 1 < pattern_count s /\ layout (patterns_left s) (payload s) L (offset s)
  end.

(** A run in progress: the payload has the layout activation checked, and the place
    is a place in it. *)
Definition run_ok (s : buzzer_run) : Prop :=
  active s = true -> exists L, L <= OD_BUZZER_PAYLOAD_MAX /\ bytes_ok (payload s) /\ outer s < 256 /\ 0 <= repeat s < outer s /\
    0 <= pattern s < pattern_count s /\ pattern_count s < 256 /\ layout (Z.to_nat (pattern_count s)) (payload s) L 3 /\
    0 <= step s <= step_count s /\ step_count s < 256 /\ place_ok s L.

(** What a turn uses up: repeats, then steps. *)
Definition mu (s : buzzer_run) : Z :=
  (outer s - repeat s) * 300 + match phase s with OD_BUZZER_PHASE_STEP => step_count s - step s | OD_BUZZER_PHASE_GAP => 256 end.

Section Theorems.
Context {E : Type} `{BuzzerApp E}.
Implicit Types (x : bstate E).

Definition sound_ok x : Prop :=
  sounding (b_trace x) = tone_on (b_run x) /\ (active (b_run x) = false -> tone_on (b_run x) = false).

Definition ok x : Prop := run_ok (b_run x) /\ sound_ok x.

Definition answer_ok x (d : Z) : Prop := d = OD_BUZZER_IDLE /\ active (b_run x) = false \/ active (b_run x) = true /\ 1 <= d <= 0x80000000.

Definition turn_ok x (t : turn) : Prop :=
  match t with
  | inl y => ok y /\ active (b_run y) = true /\ mu (b_run y) < mu (b_run x)
  | inr (y, d) => ok y /\ answer_ok y d
  end.

Lemma enable_same x on : b_run (set_enable x on) = b_run x /\ sounding (b_trace (set_enable x on)) = sounding (b_trace x).
Proof. unfold set_enable. destruct (_ =? _); [done|]. cbn. by rewrite sounding_snoc. Qed.

Lemma finish_ok x : sound_ok x -> ok (finish x).
Proof.
  intros [Hs Ha]. split; [done|]. split; [|done]. unfold finish. destruct (active (b_run x)).
  - change (sounding (b_trace (set_enable (stop_tone x) false)) = false). destruct (enable_same (stop_tone x) false) as [_ ->].
    cbn. by rewrite sounding_snoc.
  - change (sounding (b_trace x) = false). by rewrite Hs, Ha.
Qed.

Lemma read_ok s o L : o < L -> L <= OD_BUZZER_PAYLOAD_MAX -> read s o = Some (payload s).[o].
Proof. intros Ho HL. unfold read. by destruct (Z.ltb_spec o OD_BUZZER_PAYLOAD_MAX); [|lia]. Qed.

Lemma layout_end n p L o : bytes_ok p -> layout n p L o -> o <= L.
Proof.
  intros Hp. revert o. induction n as [|n IH]; intros o Hl; cbn [layout] in Hl; [lia|].
  pose proof (get_byte p o Hp) as Hb. unfold is_byte in Hb. lia.
Qed.

(** A scheduled wait keeps the place. *)
Lemma schedule_ok x now d : ok x -> active (b_run x) = true -> 1 <= d <= 30000 -> turn_ok x (inr (schedule x now d)).
Proof.
  intros [Hr [Hs Hi]] Ha Hd. split; [|by right; split; [|lia]]. split; [exact Hr|]. split; [|done]. cbn. by rewrite sounding_snoc.
Qed.

Lemma play_step_ok x now index d : ok x -> active (b_run x) = true -> 1 <= d <= 30000 -> turn_ok x (inr (play_step x now index d)).
Proof.
  intros [Hr [Hs Hi]] Ha Hd. unfold play_step. destruct (enable_same x true) as [He Ht].
  assert (Hgo : forall y, ok y -> active (b_run y) = true -> turn_ok x (inr (schedule y now d)))
    by (intros y Hy Hay; by apply (schedule_ok y now d)).
  destruct (negb _).
  - destruct (od_buzzer_app_tone_start _ _ _ _) as [on e]. apply Hgo; [|cbn; by rewrite He].
    split; [cbn; by rewrite He|]. split; [cbn; by rewrite sounding_snoc|]. cbn. by rewrite He, Ha.
  - apply Hgo; [|cbn; by rewrite He]. split; [cbn; by rewrite He|]. split; [cbn; by rewrite sounding_snoc|done].
Qed.
Lemma u8_id n : 0 <= n < 256 -> u8 n = n.
Proof. intros. apply wrap_id. unfold fits. by change (2 ^ 8) with 256. Qed.

Lemma u16_id n : 0 <= n < 65536 -> u16 n = n.
Proof. intros. apply wrap_id. unfold fits. by change (2 ^ 16) with 65536. Qed.

(** The start of a pattern: its count, and its place. *)
Lemma pattern_start s n L o :
  bytes_ok (payload s) -> L <= OD_BUZZER_PAYLOAD_MAX -> 3 <= o -> layout (S n) (payload s) L o ->
  read s o = Some (payload s).[o] /\ is_byte (payload s).[o] /\ u16 (o + 1) = o + 1 /\
  o + 1 + 2 * (payload s).[o] <= L /\ layout n (payload s) L (o + 1 + 2 * (payload s).[o]).
Proof.
  intros Hp HL Ho (_ & Hn & Hl). pose proof (get_byte (payload s) o Hp) as Hb. unfold is_byte, OD_BUZZER_PAYLOAD_MAX in *.
  rewrite u16_id by lia. split; [apply (read_ok s o L); unfold OD_BUZZER_PAYLOAD_MAX; lia|]. split_and!; first [done|lia].
Qed.

Lemma gap_turn_ok x :
  ok x -> active (b_run x) = true -> phase (b_run x) = OD_BUZZER_PHASE_GAP -> exists t, gap_turn x = Some t /\ turn_ok x t.
Proof.
  intros [Hr Hsound] Ha Hph. destruct (Hr Ha) as (L & HL & Hp & Hou & Hre & Hpa & Hpc & Hlay & Hst & Hsc & Hpl).
  unfold gap_turn. unfold place_ok, patterns_left in Hpl. rewrite Hph in Hpl. destruct Hpl as (Hpn & Hl).
  replace (Z.to_nat (pattern_count (b_run x) - pattern (b_run x) - 1)) with (S (Z.to_nat (pattern_count (b_run x) - (pattern (b_run x) + 1) - 1))) in Hl by lia.
  assert (Ho3 : 3 <= offset (b_run x)) by apply Hl.
  destruct (pattern_start (b_run x) _ L _ Hp HL Ho3 Hl) as (-> & Hb & Hu & He & Hl'). unfold is_byte in Hb. cbn [mbind option_bind].
  eexists. split; [done|]. split; [|split; [done|unfold mu; cbn; rewrite Hph; lia]].
  split; [|exact Hsound]. intros _. exists L. unfold place_ok, patterns_left. cbn. rewrite !Z.sub_0_r, Hu, u8_id by lia.
  split_and!; first [done|lia].
Qed.

Lemma step_turn_ok now elapsed x :
  ok x -> active (b_run x) = true -> phase (b_run x) = OD_BUZZER_PHASE_STEP -> step (b_run x) < step_count (b_run x) ->
  0 <= elapsed < OD_BUZZER_MAX_TOTAL_MS -> exists t, step_turn now elapsed x = Some t /\ turn_ok x t.
Proof.
  intros [Hr Hsound] Ha Hph Hlt Hel. destruct (Hr Ha) as (L & HL & Hp & Hou & Hre & Hpa & Hpc & Hlay & Hst & Hsc & Hpl).
  unfold step_turn. pose proof HL as HL'. unfold OD_BUZZER_PAYLOAD_MAX in HL'. unfold place_ok in Hpl. rewrite Hph in Hpl.
  destruct Hpl as (Hof & Hend & Hl).
  rewrite (u16_id (offset (b_run x) + 1)) by lia. rewrite (read_ok (b_run x) (offset (b_run x)) L) by lia. cbn [mbind option_bind].
  rewrite (read_ok (b_run x) (offset (b_run x) + 1) L) by lia. cbn [mbind option_bind].
  pose proof (get_byte (payload (b_run x)) (offset (b_run x) + 1) Hp) as Hu. unfold is_byte in Hu.
  unfold OD_BUZZER_MAX_TOTAL_MS, OD_BUZZER_DURATION_UNIT_MS in *. rewrite (wrap_id 32 (_ * 5)) by (unfold fits; change (2 ^ 32) with 4294967296; lia).
  set (y := on_run x _). set (d := if _ <? _ then _ else _).
  assert (Hd : 0 <= d <= 30000) by (subst d; destruct (_ <? _) eqn:He; lia).
  assert (Hy : ok y).
  { split; [|exact Hsound]. intros _. exists L. subst y. unfold place_ok, patterns_left. cbn.
    rewrite Hph, (u16_id (offset (b_run x) + 1)), u16_id, u8_id by lia.
    replace (offset (b_run x) + 1 + 1 + 2 * (step_count (b_run x) - (step (b_run x) + 1)))
      with (offset (b_run x) + 2 * (step_count (b_run x) - step (b_run x))) by lia. split_and!; first [done|lia]. }
  destruct (Z.eqb_spec d 0) as [Hz|Hz].
  - eexists. split; [done|]. split; [done|]. split; [done|]. unfold mu, y. cbn. rewrite Hph, u8_id by lia. lia.
  - eexists. split; [done|]. by apply (play_step_ok y); [| |lia].
Qed.

Lemma end_turn_ok now x :
  ok x -> active (b_run x) = true -> phase (b_run x) = OD_BUZZER_PHASE_STEP -> step_count (b_run x) <= step (b_run x) ->
  exists t, end_turn now x = Some t /\ turn_ok x t.
Proof.
  intros [Hr Hsound] Ha Hph Hge. destruct (Hr Ha) as (L & HL & Hp & Hou & Hre & Hpa & Hpc & Hlay & Hst & Hsc & Hpl).
  unfold end_turn. unfold place_ok, patterns_left in Hpl. rewrite Hph in Hpl. destruct Hpl as (Hof & Hend & Hl).
  rewrite u8_id by lia. destruct (Z.ltb_spec (pattern (b_run x) + 1) (pattern_count (b_run x))) as [Hpn|Hpn].
  - eexists. split; [done|]. apply (schedule_ok (on_run x (fun s => set_phase s OD_BUZZER_PHASE_GAP))); [|done|unfold OD_BUZZER_INTER_PATTERN_MS; lia].
    split; [|exact Hsound]. intros _. exists L. unfold place_ok, patterns_left. cbn.
    replace (offset (b_run x) + 2 * (step_count (b_run x) - step (b_run x))) with (offset (b_run x)) in Hl by lia.
    split_and!; first [done|lia].
  - rewrite u8_id by lia. destruct (Z.leb_spec (outer (b_run x)) (repeat (b_run x) + 1)).
    { eexists. split; [done|]. split; [by apply finish_ok|by left]. }
    replace (Z.to_nat (pattern_count (b_run x))) with (S (Z.to_nat (pattern_count (b_run x) - 1))) in Hlay by lia.
    destruct (pattern_start (b_run x) _ L 3 Hp HL ltac:(lia) Hlay) as (-> & Hb & _ & He & Hl'). unfold is_byte in Hb. cbn [mbind option_bind].
    eexists. split; [done|]. split; [|split; [done|unfold mu; cbn; rewrite Hph; lia]].
    split; [|exact Hsound]. intros _. exists L. unfold place_ok, patterns_left. cbn. rewrite Hph.
    replace (Z.to_nat (pattern_count (b_run x))) with (S (Z.to_nat (pattern_count (b_run x) - 1))) by lia.
    replace (pattern_count (b_run x) - 0 - 1) with (pattern_count (b_run x) - 1) by lia. rewrite !Z.sub_0_r.
    split_and!; first [done|lia].
Qed.

Lemma melody_turn_ok now x : ok x -> active (b_run x) = true -> exists t, service_turn now x = Some t /\ turn_ok x t.
Proof.
  intros Hok Ha. unfold service_turn.
  destruct (Z.leb_spec OD_BUZZER_MAX_TOTAL_MS (u32 (now - started_ms (b_run x)))) as [|Hel].
  { eexists. split; [done|]. split; [by apply finish_ok, Hok|by left]. }
  destruct (phase (b_run x)) eqn:Hph; [|by apply gap_turn_ok].
  destruct (Z.ltb_spec (step (b_run x)) (step_count (b_run x))); [|by apply end_turn_ok].
  apply step_turn_ok; try done. split; [by apply (wrap_fits 32)|done].
Qed.

Lemma melody_loop_ok fuel now x :
  ok x -> active (b_run x) = true -> mu (b_run x) < Z.of_nat fuel ->
  exists y d, service_loop fuel now x = Some (y, d) /\ ok y /\ answer_ok y d.
Proof.
  revert x. induction fuel as [|fuel IH]; intros x Hok Ha Hf.
  - destruct (proj1 Hok Ha) as (L & _ & _ & _ & Hre & _ & _ & _ & Hst & _ & _). unfold mu in Hf.
    destruct (phase (b_run x)); lia.
  - cbn [service_loop]. destruct (melody_turn_ok now x Hok Ha) as (t & -> & Ht). cbn [mbind option_bind]. destruct t as [y|[y d]].
    + destruct Ht as (Hy & Hay & Hm). apply IH; [done|done|lia].
    + exists y, d. by split.
Qed.

Lemma mu_bound x : ok x -> active (b_run x) = true -> mu (b_run x) < Z.of_nat service_fuel.
Proof.
  intros [Hr _] Ha. destruct (Hr Ha) as (L & _ & _ & Hou & Hre & _ & _ & _ & Hst & Hsc & _). unfold mu, service_fuel.
  rewrite Z2Nat.id by lia. destruct (phase (b_run x)); lia.
Qed.

(** What a service owes: no read outside the payload, an end of its loop, and an
    answer; past the limit, a service that is due is the last. *)
Definition service_post (now : Z) x (r : option (bstate E * Z)) : Prop :=
  exists y d, r = Some (y, d) /\ ok y /\ answer_ok y d /\
    (OD_BUZZER_MAX_TOTAL_MS <= u32 (now - started_ms (b_run x)) ->
     (waiting (b_run x) = true -> deadline_reached now (deadline_ms (b_run x)) = true) -> d = OD_BUZZER_IDLE).

Lemma due_ok x : ok x -> let y := if waiting (b_run x) then
    on_run (if tone_on (b_run x) then stop_tone x else x) (fun s => set_wait s false (deadline_ms s)) else x in
  ok y /\ active (b_run y) = active (b_run x) /\ started_ms (b_run y) = started_ms (b_run x).
Proof.
  intros [Hr [Hs Ha]]. destruct (waiting (b_run x)); [|done]. destruct (tone_on (b_run x)) eqn:Ht; [|by rewrite <- Ht in Hs].
  split; [|done]. split; [exact Hr|]. split; [cbn; by rewrite sounding_snoc|done].
Qed.

Lemma melody_service_ok now x : ok x -> service_post now x (od_buzzer_service now x).
Proof.
  intros Hok. unfold od_buzzer_service, service_post. destruct (active (b_run x)) eqn:Ha; cbn [negb].
  2:{ eexists _, _. split; [done|]. split; [done|]. by split; [left|]. }
  destruct (waiting (b_run x) && negb (deadline_reached now (deadline_ms (b_run x)))) eqn:Hw.
  - apply andb_true_iff in Hw as [Hw Hd]. apply negb_true_iff in Hd. eexists _, _. split; [done|]. split; [done|].
    split; [|by intros _ Hdue; rewrite Hdue in Hd]. right. split; [done|]. unfold deadline_reached in Hd. apply Z.ltb_ge in Hd.
    revert Hd. wrap_lia.
  - destruct (due_ok x Hok) as (Hy & Hay & Hst). set (y := if waiting (b_run x) then _ else x) in *. rewrite Ha in Hay.
    destruct (melody_loop_ok service_fuel now y Hy Hay (mu_bound y Hy Hay)) as (z & d & Hl & Hz & Hd).
    exists z, d. split; [exact Hl|]. split; [done|]. split; [done|]. intros Hlim _. revert Hl. unfold service_fuel.
    replace (Z.to_nat 77000) with (S (Z.to_nat 76999)) by lia. cbn [service_loop]. unfold service_turn. rewrite Hst.
    destruct (Z.leb_spec OD_BUZZER_MAX_TOTAL_MS (u32 (now - started_ms (b_run x)))); [|lia]. by intros [= _ <-].
Qed.

(** The stored melody is the one received, as far as it goes. *)
Lemma stored_get p L i :
  0 <= L <= OD_BUZZER_PAYLOAD_MAX -> L <= len p -> 0 <= i < L -> (memcpy (payload zero_run) 0 (take (Z.to_nat L) p)).[i] = p.[i].
Proof.
  intros HL Hlen Hi. unfold memcpy, get. change (take (Z.to_nat 0) (payload zero_run)) with (@nil Z). cbn [app].
  rewrite lookup_total_app_l by (rewrite length_take; lia). by rewrite lookup_total_take_lt by lia.
Qed.

Lemma stored_bytes p L : bytes_ok p -> bytes_ok (memcpy (payload zero_run) 0 (take (Z.to_nat L) p)).
Proof.
  intros Hp. unfold memcpy. apply Forall_app. split; [apply Forall_take; cbn; by repeat constructor|].
  apply Forall_app. split; [by apply Forall_take|]. apply Forall_drop, Forall_replicate. unfold is_byte. lia.
Qed.

Lemma activate_ok x c p n now :
  bytes_ok p -> 0 <= n <= len p -> ok x -> ok (od_buzzer_activate x (Some c) (Some p) n now).1.
Proof.
  intros Hp Hn Hok. unfold od_buzzer_activate. destruct (Z.ltb_spec n 3); [done|]. destruct (Z.eqb_spec p.[2] 0); [done|].
  destruct (scan_patterns _ _ _ _) as [scan|] eqn:Hs; [|done]. destruct (Z.eqb_spec scan n) as [->|]; cbn [negb]; [|done].
  destruct (Z.ltb_spec OD_BUZZER_PAYLOAD_MAX n) as [|Hmax]; [done|].
  pose proof (get_byte p 1 Hp) as H1. pose proof (get_byte p 2 Hp) as H2. unfold is_byte in H1, H2.
  destruct (finish_ok x (proj2 Hok)) as [_ [Hsn _]]. split; [|by split].
  intros _. exists n. set (st := memcpy _ _ _). pose proof (stored_bytes p n Hp) as Hst. fold st in Hst.
  assert (Hl : layout (Z.to_nat p.[2]) st n 3).
  { apply (layout_ext _ p); [|done|by apply scan_layout; [| |lia|]]. intros i Hi. apply stored_get; lia. }
  pose proof (get_byte st 3 Hst) as H3. unfold is_byte in H3. cbn [fst b_run on_run active payload outer repeat pattern pattern_count step step_count].
  assert (Hpl : 4 + 2 * (st.[3] - 0) <= n /\ layout (Z.to_nat (p.[2] - 0 - 1)) st n (4 + 2 * (st.[3] - 0))).
  { replace (Z.to_nat p.[2]) with (S (Z.to_nat (p.[2] - 0 - 1))) in Hl by lia. cbn [layout] in Hl.
    replace (4 + 2 * (st.[3] - 0)) with (3 + 1 + 2 * st.[3]) by lia. by destruct Hl as (_ & ? & ?). }
  destruct Hpl as [Hend Hleft]. unfold place_ok, patterns_left. cbn. destruct (Z.eqb_spec p.[1] 0); split_and!; first [done|lia].
Qed.

(** What the adapter does with the runner; a call finds the target as [e]. *)
Inductive buzzer_op :=
| Activate (e : E) (c : option od_buzzer_config) (p : option bytes) (n now : Z)
| StopNow (e : E)
| Service (e : E) (now : Z).

Definition at_env x (e : E) : bstate E := {| b_run := b_run x; b_env := e; b_trace := b_trace x |}.

(** The caller's promise: the payload has the length given. *)
Definition op_ok (o : buzzer_op) : Prop :=
  match o with Activate _ _ (Some p) n _ => bytes_ok p /\ 0 <= n <= len p | _ => True end.

Definition buzzer_do (o : buzzer_op) x : option (bstate E) :=
  match o with
  | Activate e c p n now => Some (od_buzzer_activate (at_env x e) c p n now).1
  | StopNow e => Some (od_buzzer_stop (at_env x e))
  | Service e now => fst <$> od_buzzer_service now (at_env x e)
  end.

Fixpoint buzzer_ops (os : list buzzer_op) x : option (bstate E) :=
  match os with [] => Some x | o :: os => buzzer_do o x ≫= buzzer_ops os end.

Lemma buzzer_do_ok o x : op_ok o -> ok x -> exists y, buzzer_do o x = Some y /\ ok y.
Proof.
  intros Ho Hx. destruct o as [e c p n now|e|e now]; cbn [buzzer_do].
  - eexists. split; [done|]. destruct c as [c|], p as [p|]; [|done..]. destruct Ho. by apply activate_ok.
  - eexists. split; [done|]. apply finish_ok, Hx.
  - destruct (melody_service_ok now (at_env x e) Hx) as (y & d & -> & Hy & _). by exists y.
Qed.

Lemma buzzer_ops_ok os x : Forall op_ok os -> ok x -> exists y, buzzer_ops os x = Some y /\ ok y.
Proof.
  intros Ho. revert x. induction Ho as [|o os Ho _ IH]; intros x Hx; [by exists x|].
  destruct (buzzer_do_ok o x Ho Hx) as (y & Hy & Hok). cbn [buzzer_ops]. rewrite Hy. by apply IH.
Qed.

Definition buzzer_start (e : E) : bstate E := {| b_run := zero_run; b_env := e; b_trace := [] |}.

(** The melody runner is safe on every payload a peer can send: after any
    sequence of activations, stops and services, at any times and over any target,
    no read leaves the payload array and every loop ends; one more service answers
    idle with nothing running and nothing sounding, or a wait of at least one
    millisecond; and a service that is due 30 seconds or more after the start ends the run. *)
Theorem buzzer_safe e0 os e now :
  Forall op_ok os ->
  exists x y d, buzzer_ops os (buzzer_start e0) = Some x /\ od_buzzer_service now (at_env x e) = Some (y, d) /\
    (d = OD_BUZZER_IDLE /\ active (b_run y) = false /\ sounding (b_trace y) = false \/
     active (b_run y) = true /\ 1 <= d <= 0x80000000) /\
    (OD_BUZZER_MAX_TOTAL_MS <= u32 (now - started_ms (b_run x)) ->
     (waiting (b_run x) = true -> deadline_reached now (deadline_ms (b_run x)) = true) -> d = OD_BUZZER_IDLE).
Proof.
  intros Ho. destruct (buzzer_ops_ok os (buzzer_start e0) Ho) as (x & Hx & Hok); [by split|].
  destruct (melody_service_ok now (at_env x e) Hok) as (y & d & Hs & [_ [Hso Hon]] & Ha & Hlim).
  exists x, y, d. split; [done|]. split; [done|]. split; [|done]. destruct Ha as [[-> Hi]|Ha]; [left|by right].
  split; [done|]. split; [done|]. by rewrite Hso, Hon.
Qed.
End Theorems.

(** ** On a concrete melody: two patterns, an A and a rest, played twice. *)
#[local] Instance toy_buzzer : BuzzerApp unit := {
  od_buzzer_app_tone_start e _ _ _ := (true, e); od_buzzer_app_tone_stop e _ := e; od_buzzer_app_enable_write e _ _ := e;
}.

Definition demo_config : od_buzzer_config := {| drive_pin := 1; enable_pin := 2; flags := 1; duty_percent := 50 |}.
Definition demo_melody : bytes := [0; 2; 2; 1; 120; 20; 1; 0; 4].

Lemma buzzer_safe_witness :
  exists x y d, buzzer_ops [Activate tt (Some demo_config) (Some demo_melody) 9 1000; Service tt 1000] (buzzer_start tt) = Some x /\
    od_buzzer_service 1100 (at_env x tt) = Some (y, d) /\ d = 20.
Proof.
  destruct (buzzer_safe tt [Activate tt (Some demo_config) (Some demo_melody) 9 1000; Service tt 1000] tt 1100)
    as (x & y & d & Hx & Hy & _ & _).
  - repeat constructor; cbn; unfold is_byte; lia.
  - exists x, y, d. split; [exact Hx|]. split; [exact Hy|]. vm_compute in Hx. injection Hx as Hx. subst x.
    vm_compute in Hy. injection Hy as _ Hd. exact (eq_sym Hd).
Defined.

Example demo_melody_heard :
  option_map b_trace (buzzer_ops [Activate tt (Some demo_config) (Some demo_melody) 9 1000; Service tt 1000; Service tt 1100] (buzzer_start tt))
  = Some [Enable true; Tone 44000 true; Delay 100; Silence; Delay 20].
Proof. vm_compute. reflexivity. Qed.

End Buzzer.
