(* ===== verification/Watchdog.v ===== *)
(** Watchdog policy, [shared/core/od_watchdog.c] over [shared/hal/od_hal_wdt.h]: the
    retained byte, strike counting across resets, safe mode and the breadcrumb,
    against a reference that counts. *)

From stdpp Require Import strings.
From S2P Require Import Prelude.

Module Watchdog.

Definition OD_WDT_TIMEOUT_S : Z := 300.
Definition OD_WDT_SAFE_MODE_STRIKES : Z := 3.
Definition OD_WDT_HEALTHY_MS : Z := 10 * 60 * 1000.
Definition OD_WDT_PHASE_IDLE : Z := 0.
Definition OD_WDT_RETAINED_TAG_MASK : Z := 0xC0.
Definition OD_WDT_RETAINED_TAG_VALUE : Z := 0x80.
Definition OD_WDT_RETAINED_CNT_MASK : Z := 0x30.
Definition OD_WDT_RETAINED_CNT_SHIFT : Z := 4.
Definition OD_WDT_RETAINED_PHASE_MASK : Z := 0x0F.
Definition OD_HAL_WDT_RESET_WATCHDOG : Z := 0x02.

Inductive od_hal_wdt_arm_result :=
| OD_HAL_WDT_ARM_OK | OD_HAL_WDT_ARM_INHERITED | OD_HAL_WDT_ARM_DISABLED | OD_HAL_WDT_ARM_UNSUPPORTED | OD_HAL_WDT_ARM_ERROR.

(** [od_hal_wdt.h]. *)
Class WdtHal (E : Type) := {
  od_hal_wdt_reset_reason : E -> Z;
  od_hal_wdt_retained_read : E -> option Z * E;
  od_hal_wdt_retained_write : E -> Z -> bool * E;
  od_hal_wdt_arm : E -> Z -> od_hal_wdt_arm_result * E;
  od_hal_wdt_feed : E -> E;
}.

Record od_watchdog_boot_report := {
  r_reset_reason : Z; was_watchdog : bool; retained_readable : bool; retained_writable : bool; breadcrumb_valid : bool;
  prev_phase : Z; r_strikes : Z; r_safe_mode : bool;
}.

Record od_watchdog := {
  armed : bool; safe_mode : bool; strikes_to_clear : bool; retained_usable : bool; boot_ms : Z; strikes : Z;
  last_phase : Z; write_failed : bool;
}.

Definition od_watchdog_retained_valid (b : Z) : bool := Z.land b OD_WDT_RETAINED_TAG_MASK =? OD_WDT_RETAINED_TAG_VALUE.
Definition od_watchdog_retained_strikes (b : Z) : Z := u8 (Z.shiftr (Z.land b OD_WDT_RETAINED_CNT_MASK) OD_WDT_RETAINED_CNT_SHIFT).
Definition od_watchdog_retained_phase (b : Z) : Z := u8 (Z.land b OD_WDT_RETAINED_PHASE_MASK).
Definition od_watchdog_retained_pack (n phase : Z) : Z :=
  let n := if 3 <? n then 3 else n in
  u8 (Z.lor (Z.lor OD_WDT_RETAINED_TAG_VALUE (Z.land (u8 (Z.shiftl n OD_WDT_RETAINED_CNT_SHIFT)) OD_WDT_RETAINED_CNT_MASK))
        (Z.land phase OD_WDT_RETAINED_PHASE_MASK)).

Definition phase_names : list string :=
  ["IDLE"; "ACQUIRE_COLD"; "ACQUIRE_WARM"; "INIT_SEQ"; "FILL"; "STREAM"; "REFRESH_WAIT"; "RELEASE";
   "FORCE_OFF"; "BOOT_REFRESH"; "IDLE_OFF"; "IDLE_WARM"; "PWRMGM_PMIC"; "PWRMGM_RAIL"; "PWRMGM_PINS"; "PWRMGM_BUS"]%string.

Definition od_watchdog_phase_name (phase : Z) : string :=
  if u8 (len phase_names) <=? phase then "UNKNOWN"%string else phase_names.[phase].

(** The controller and the target. *)
Record wstate (E : Type) := { w_dog : od_watchdog; w_env : E }.
Arguments w_dog {E} _.
Arguments w_env {E} _.

Definition set_last_phase (s : od_watchdog) (p : Z) : od_watchdog :=
  {| armed := armed s; safe_mode := safe_mode s; strikes_to_clear := strikes_to_clear s; retained_usable := retained_usable s;
     boot_ms := boot_ms s; strikes := strikes s; last_phase := p; write_failed := write_failed s |}.

Definition set_write_failed (s : od_watchdog) : od_watchdog :=
  {| armed := armed s; safe_mode := safe_mode s; strikes_to_clear := strikes_to_clear s; retained_usable := retained_usable s;
     boot_ms := boot_ms s; strikes := strikes s; last_phase := last_phase s; write_failed := true |}.

Definition set_armed (s : od_watchdog) (a : bool) : od_watchdog :=
  {| armed := a; safe_mode := safe_mode s; strikes_to_clear := strikes_to_clear s; retained_usable := retained_usable s;
     boot_ms := boot_ms s; strikes := strikes s; last_phase := last_phase s; write_failed := write_failed s |}.

Definition set_cleared (s : od_watchdog) : od_watchdog :=
  {| armed := armed s; safe_mode := safe_mode s; strikes_to_clear := false; retained_usable := retained_usable s;
     boot_ms := boot_ms s; strikes := 0; last_phase := last_phase s; write_failed := write_failed s |}.

(** [boot_init]'s zeroed structure, with its first assignments, and the accounting's. *)
Definition booted (now : Z) (usable : bool) (n : Z) : od_watchdog :=
  {| armed := false; safe_mode := OD_WDT_SAFE_MODE_STRIKES <=? n; strikes_to_clear := negb (n =? 0); retained_usable := usable;
     boot_ms := now; strikes := n; last_phase := 0xFF; write_failed := false |}.

Section Operations.
Context {E : Type} `{WdtHal E}.
Implicit Types (x : wstate E).

(** [retained_update]: whether the byte was written. *)
Definition retained_update (usable : bool) (e : E) (mask value : Z) : bool * E :=
  if negb usable then (false, e)
  else
    let '(r, e) := od_hal_wdt_retained_read e in
    match r with
    | None => (false, e)
    | Some cur =>
        let cur := if od_watchdog_retained_valid cur then cur else OD_WDT_RETAINED_TAG_VALUE in
        od_hal_wdt_retained_write e (u8 (Z.lor (Z.land cur (u8 (Z.lnot mask))) (Z.land value mask)))
    end.

Definition strikes_store (usable : bool) (e : E) (n : Z) : E :=
  let n := if 3 <? n then 3 else n in
  (retained_update usable e OD_WDT_RETAINED_CNT_MASK (u8 (Z.shiftl n OD_WDT_RETAINED_CNT_SHIFT))).2.

Definition od_watchdog_breadcrumb x (phase : Z) : wstate E :=
  let s := w_dog x in
  let phase := u8 (Z.land phase OD_WDT_RETAINED_PHASE_MASK) in
  if phase =? last_phase s then x
  else
    let '(ok, e) := retained_update (retained_usable s) (w_env x) OD_WDT_RETAINED_PHASE_MASK phase in
    {| w_dog := if ok then set_last_phase s phase else set_write_failed s; w_env := e |}.

(** The strike accounting: the new count, stored when it changed hands. *)
Definition account (usable : bool) (e : E) (reason n : Z) : Z * E :=
  if negb (Z.land reason OD_HAL_WDT_RESET_WATCHDOG =? 0) then
    let n := if n <? 3 then u8 (n + 1) else n in (n, strikes_store usable e n)
  else if negb (n =? 0) then (0, strikes_store usable e 0)
  else (n, e).

Definition od_watchdog_boot_init (e : E) (now : Z) : wstate E * od_watchdog_boot_report :=
  let reason := od_hal_wdt_reset_reason e in
  let '(r, e) := od_hal_wdt_retained_read e in
  let readable := bool_decide (is_Some r) in
  let valid := match r with Some b => od_watchdog_retained_valid b | None => false end in
  let n := match r with Some b => if valid then od_watchdog_retained_strikes b else 0 | None => 0 end in
  let '(usable, e) :=
    if readable && negb valid then
      let '(ok, e) := od_hal_wdt_retained_write e OD_WDT_RETAINED_TAG_VALUE in (if ok then readable else false, e)
    else (readable, e) in
  let '(n, e) := account usable e reason n in
  let x := od_watchdog_breadcrumb {| w_dog := booted now usable n; w_env := e |} OD_WDT_PHASE_IDLE in
  (x, {| r_reset_reason := reason; was_watchdog := negb (Z.land reason OD_HAL_WDT_RESET_WATCHDOG =? 0);
         retained_readable := readable; retained_writable := retained_usable (w_dog x); breadcrumb_valid := valid;
         prev_phase := match r with Some b => if valid then od_watchdog_retained_phase b else 0 | None => 0 end;
         r_strikes := n; r_safe_mode := safe_mode (w_dog x) |}).

Definition od_watchdog_in_safe_mode (s : od_watchdog) : bool := safe_mode s.

Definition od_watchdog_arm x : wstate E * od_hal_wdt_arm_result :=
  let '(rc, e) := od_hal_wdt_arm (w_env x) OD_WDT_TIMEOUT_S in
  ({| w_dog := set_armed (w_dog x) (match rc with OD_HAL_WDT_ARM_OK | OD_HAL_WDT_ARM_INHERITED => true | _ => false end);
      w_env := e |}, rc).

Definition strikes_clear_if_healthy x (now : Z) : wstate E :=
  let s := w_dog x in
  if negb (strikes_to_clear s) then x
  else if u32 (now - boot_ms s) <? OD_WDT_HEALTHY_MS then x
  else {| w_dog := set_cleared s; w_env := strikes_store (retained_usable s) (w_env x) 0 |}.

Definition od_watchdog_feed x (now : Z) : wstate E :=
  let x := strikes_clear_if_healthy x now in {| w_dog := w_dog x; w_env := od_hal_wdt_feed (w_env x) |}.
End Operations.

(** ** The reference: counting *)

(** The strikes a boot arrives at. *)
Definition next_strikes (n reason : Z) : Z := if Z.land reason OD_HAL_WDT_RESET_WATCHDOG =? 0 then 0 else Z.min 3 (n + 1).

(** What a running device does. *)
Inductive wd_action := Feed (now : Z) | Breadcrumb (phase : Z) | Arm.

(** Strikes and breadcrumb after an action of a device that booted at [t0]: ten
    minutes up clear the count. *)
Definition ref_action (t0 : Z) (st : Z * Z) (a : wd_action) : Z * Z :=
  match a with
  | Feed now => (if OD_WDT_HEALTHY_MS <=? u32 (now - t0) then 0 else st.1, st.2)
  | Breadcrumb p => (st.1, p mod 16)
  | Arm => st
  end.

(** A life: why it started, when, and what it did. *)
Record life := { l_reason : Z; l_boot_ms : Z; l_actions : list wd_action }.

Definition ref_life (st : Z * Z) (l : life) : Z * Z :=
  foldl (ref_action (l_boot_ms l)) (next_strikes st.1 (l_reason l), OD_WDT_PHASE_IDLE) (l_actions l).

Section Theorems.
Context {E : Type} `{WdtHal E}.
Implicit Types (x : wstate E).

Definition act x (a : wd_action) : wstate E :=
  match a with
  | Feed now => od_watchdog_feed x now
  | Breadcrumb p => od_watchdog_breadcrumb x p
  | Arm => (od_watchdog_arm x).1
  end.

(** A reset keeps the retained byte, which is the target's [cell], and sets the cause;
    reads and writes of the byte work. *)
Variable cell : E -> Z.
Variable reset : E -> Z -> E.
Hypothesis read_cell : forall e, (od_hal_wdt_retained_read e).1 = Some (cell e) /\ cell (od_hal_wdt_retained_read e).2 = cell e.
Hypothesis write_cell : forall e v, is_byte v ->
  (od_hal_wdt_retained_write e v).1 = true /\ cell (od_hal_wdt_retained_write e v).2 = v.
Hypothesis arm_cell : forall e t, cell (od_hal_wdt_arm e t).2 = cell e.
Hypothesis feed_cell : forall e, cell (od_hal_wdt_feed e) = cell e.
Hypothesis reset_cell : forall e r, cell (reset e r) = cell e /\ od_hal_wdt_reset_reason (reset e r) = r.

Definition live (e : E) (l : life) : wstate E := foldl act (od_watchdog_boot_init (reset e (l_reason l)) (l_boot_ms l)).1 (l_actions l).

(** The byte that holds [n] strikes and phase [p]. *)
Definition packed (n p : Z) : Z := 128 + 16 * n + p.

(** Two checks of small numbers at once. *)
Lemma packed_cases (f : Z -> Z -> bool) :
  forallb (fun n => forallb (fun p => f (Z.of_nat n) (Z.of_nat p)) (seq 0 16)) (seq 0 4) = true ->
  forall n p, 0 <= n < 4 -> 0 <= p < 16 -> f n p = true.
Proof.
  intros Hall n p Hn Hp. apply (forallb_below (fun p => f n p) 16); [|lia].
  apply (forallb_below (fun n => forallb (fun p => f n (Z.of_nat p)) (seq 0 16)) 4); [done|lia].
Qed.

(** The layout's fields. *)
Lemma packed_fields n p :
  0 <= n < 4 -> 0 <= p < 16 ->
  od_watchdog_retained_valid (packed n p) = true /\ od_watchdog_retained_strikes (packed n p) = n /\
  od_watchdog_retained_phase (packed n p) = p /\ od_watchdog_retained_pack n p = packed n p.
Proof.
  intros Hn Hp. pose proof (packed_cases (fun n p => od_watchdog_retained_valid (packed n p) &&
    (od_watchdog_retained_strikes (packed n p) =? n) && (od_watchdog_retained_phase (packed n p) =? p) &&
    (od_watchdog_retained_pack n p =? packed n p)) ltac:(vm_compute; reflexivity) n p Hn Hp) as Hall.
  cbv beta in Hall. rewrite !andb_true_iff, !Z.eqb_eq in Hall. tauto.
Qed.

Lemma packed_byte n p : 0 <= n < 4 -> 0 <= p < 16 -> is_byte (packed n p).
Proof. unfold packed, is_byte. lia. Qed.

(** A field is replaced, the other kept. *)
Lemma update_count n p m : 0 <= n < 4 -> 0 <= p < 16 -> 0 <= m < 4 ->
  u8 (Z.lor (Z.land (packed n p) (u8 (Z.lnot OD_WDT_RETAINED_CNT_MASK)))
        (Z.land (u8 (Z.shiftl m OD_WDT_RETAINED_CNT_SHIFT)) OD_WDT_RETAINED_CNT_MASK)) = packed m p.
Proof.
  intros Hn Hp Hm. apply Z.eqb_eq. revert n p Hn Hp.
  assert (Hm' : m = 0 \/ m = 1 \/ m = 2 \/ m = 3) by lia. destruct Hm' as [->|[->|[->| ->]]]; apply packed_cases; vm_compute; reflexivity.
Qed.

Lemma update_phase n p q : 0 <= n < 4 -> 0 <= p < 16 -> 0 <= q < 16 ->
  u8 (Z.lor (Z.land (packed n p) (u8 (Z.lnot OD_WDT_RETAINED_PHASE_MASK))) (Z.land q OD_WDT_RETAINED_PHASE_MASK)) = packed n q.
Proof.
  intros Hn Hp Hq. apply Z.eqb_eq. revert n q Hn Hq.
  assert (Hall : forall p, 0 <= p < 16 -> forallb (fun n => forallb (fun q =>
    u8 (Z.lor (Z.land (packed (Z.of_nat n) p) (u8 (Z.lnot OD_WDT_RETAINED_PHASE_MASK)))
      (Z.land (Z.of_nat q) OD_WDT_RETAINED_PHASE_MASK)) =? packed (Z.of_nat n) (Z.of_nat q)) (seq 0 16)) (seq 0 4) = true).
  { intros k Hk. apply (forallb_below (fun p => forallb (fun n => forallb (fun q =>
      u8 (Z.lor (Z.land (packed (Z.of_nat n) p) (u8 (Z.lnot OD_WDT_RETAINED_PHASE_MASK)))
        (Z.land (Z.of_nat q) OD_WDT_RETAINED_PHASE_MASK)) =? packed (Z.of_nat n) (Z.of_nat q)) (seq 0 16)) (seq 0 4)) 16); [|lia].
    vm_compute. reflexivity. }
  apply (packed_cases (fun n q => u8 (Z.lor (Z.land (packed n p) (u8 (Z.lnot OD_WDT_RETAINED_PHASE_MASK)))
    (Z.land q OD_WDT_RETAINED_PHASE_MASK)) =? packed n q)). by apply Hall.
Qed.
Lemma valid_packed b : is_byte b -> od_watchdog_retained_valid b = true ->
  b = packed (od_watchdog_retained_strikes b) (od_watchdog_retained_phase b) /\
  0 <= od_watchdog_retained_strikes b < 4 /\ 0 <= od_watchdog_retained_phase b < 16.
Proof.
  intros Hb Hv. pose proof (forallb_below (fun b => negb (od_watchdog_retained_valid b) ||
    (b =? packed (od_watchdog_retained_strikes b) (od_watchdog_retained_phase b)) &&
    (0 <=? od_watchdog_retained_strikes b) && (od_watchdog_retained_strikes b <? 4) &&
    (0 <=? od_watchdog_retained_phase b) && (od_watchdog_retained_phase b <? 16)) 256 ltac:(vm_compute; reflexivity) b Hb) as Hall.
  cbv beta in Hall. rewrite Hv in Hall. cbn [negb orb] in Hall. rewrite !andb_true_iff in Hall. lia.
Qed.

(** Replacing a field of a byte that is ours. *)
Lemma update_cell e n p mask value b :
  cell e = packed n p -> 0 <= n < 4 -> 0 <= p < 16 ->
  u8 (Z.lor (Z.land (packed n p) (u8 (Z.lnot mask))) (Z.land value mask)) = b -> is_byte b ->
  (retained_update true e mask value).1 = true /\ cell (retained_update true e mask value).2 = b.
Proof.
  intros Hc Hn Hp Hb Hby. unfold retained_update. cbn [negb]. destruct (read_cell e) as [Hr He].
  destruct (od_hal_wdt_retained_read e) as [r e']. cbn in Hr, He. subst r. rewrite Hc.
  destruct (packed_fields n p Hn Hp) as (-> & _). rewrite Hb. by apply write_cell.
Qed.

Lemma store_cell e n p m :
  cell e = packed n p -> 0 <= n < 4 -> 0 <= p < 16 -> 0 <= m < 4 -> cell (strikes_store true e m) = packed m p.
Proof.
  intros Hc Hn Hp Hm. unfold strikes_store. destruct (Z.ltb_spec 3 m); [lia|].
  eapply update_cell; [done..| |by apply packed_byte]. by apply update_count.
Qed.

(** A running device whose byte says what it knows. *)
Definition holds x (t0 n p : Z) : Prop :=
  cell (w_env x) = packed n p /\ 0 <= n < 4 /\ 0 <= p < 16 /\ retained_usable (w_dog x) = true /\
  boot_ms (w_dog x) = t0 /\ strikes_to_clear (w_dog x) = negb (n =? 0).

#[local] Ltac kept := unfold holds; split_and!; first [done|lia].

Lemma land_phase q : u8 (Z.land q OD_WDT_RETAINED_PHASE_MASK) = q mod 16 /\ 0 <= q mod 16 < 16.
Proof.
  pose proof (Z.mod_pos_bound q 16). change OD_WDT_RETAINED_PHASE_MASK with (Z.ones 4). rewrite Z.land_ones by lia.
  change (2 ^ 4) with 16. rewrite wrap_id; [lia|]. unfold fits. change (2 ^ 8) with 256. lia.
Qed.

Lemma breadcrumb_holds x t0 n p q :
  holds x t0 n p -> last_phase (w_dog x) = p \/ last_phase (w_dog x) = 0xFF ->
  holds (od_watchdog_breadcrumb x q) t0 n (q mod 16) /\ last_phase (w_dog (od_watchdog_breadcrumb x q)) = q mod 16 /\
  safe_mode (w_dog (od_watchdog_breadcrumb x q)) = safe_mode (w_dog x).
Proof.
  intros (Hc & Hn & Hp & Hu & Hb & Hs) Hl. unfold od_watchdog_breadcrumb. destruct (land_phase q) as [-> Hq].
  destruct (Z.eqb_spec (q mod 16) (last_phase (w_dog x))) as [He|He].
  - assert (Hqp : q mod 16 = p) by lia. rewrite Hqp. split; [kept|]. split; [lia|done].
  - rewrite Hu. destruct (update_cell (w_env x) n p OD_WDT_RETAINED_PHASE_MASK (q mod 16) (packed n (q mod 16)) Hc Hn Hp) as [Hok Hce].
    { by apply update_phase. } { by apply packed_byte. }
    destruct (retained_update _ _ _ _) as [ok e]. cbn in Hok, Hce. subst ok. split; [|done]. kept.
Qed.

Lemma act_holds x t0 n p a :
  holds x t0 n p -> last_phase (w_dog x) = p ->
  let st := ref_action t0 (n, p) a in
  holds (act x a) t0 st.1 st.2 /\ last_phase (w_dog (act x a)) = st.2.
Proof.
  intros Hh Hl. pose proof Hh as (Hc & Hn & Hp & Hu & Hb & Hs). destruct a as [now|q|]; cbn [act ref_action fst snd].
  - unfold od_watchdog_feed, strikes_clear_if_healthy. rewrite Hs, Hb. unfold holds.
    destruct (Z.eqb_spec n 0) as [->|Hz]; cbn [negb].
    { assert ((if OD_WDT_HEALTHY_MS <=? u32 (now - t0) then 0 else 0) = 0) as -> by by destruct (_ <=? _).
      cbn. rewrite feed_cell. kept. }
    destruct (Z.ltb_spec (u32 (now - t0)) OD_WDT_HEALTHY_MS), (Z.leb_spec OD_WDT_HEALTHY_MS (u32 (now - t0))); try lia.
    + cbn. rewrite feed_cell, Hs. destruct (Z.eqb_spec n 0); [lia|]. kept.
    + cbn. rewrite feed_cell, Hu. rewrite (store_cell _ n p 0); [|done..|lia]. kept.
  - by destruct (breadcrumb_holds x t0 n p q Hh (or_introl Hl)) as (? & ? & _).
  - unfold od_watchdog_arm. pose proof (arm_cell (w_env x) OD_WDT_TIMEOUT_S) as Ha. destruct (od_hal_wdt_arm _ _) as [rc e].
    cbn in *. split; [|done]. unfold holds. cbn. rewrite Ha. kept.
Qed.

Lemma acts_hold as_ x t0 n p :
  holds x t0 n p -> last_phase (w_dog x) = p ->
  let st := foldl (ref_action t0) (n, p) as_ in
  holds (foldl act x as_) t0 st.1 st.2.
Proof.
  revert x n p. induction as_ as [|a as_ IH]; intros x n p Hh Hl; [done|]. cbn [foldl].
  destruct (act_holds x t0 n p a Hh Hl) as [Hh' Hl']. destruct (ref_action t0 (n, p) a) as [n' p']. by apply IH.
Qed.

(** What the byte says, ours or not. *)
Definition stored (b : Z) : Z * Z :=
  if od_watchdog_retained_valid b then (od_watchdog_retained_strikes b, od_watchdog_retained_phase b) else (0, 0).

Lemma account_cell e reason n p :
  cell e = packed n p -> 0 <= n < 4 -> 0 <= p < 16 ->
  (account true e reason n).1 = next_strikes n reason /\ cell (account true e reason n).2 = packed (next_strikes n reason) p /\
  0 <= next_strikes n reason < 4.
Proof.
  intros Hc Hn Hp. unfold account, next_strikes. destruct (Z.land reason OD_HAL_WDT_RESET_WATCHDOG =? 0); cbn [negb].
  - destruct (Z.eqb_spec n 0) as [->|Hz]; cbn [negb]; [done|]. split; [done|]. split; [|lia]. by apply (store_cell e n p).
  - assert (Hm : (if n <? 3 then u8 (n + 1) else n) = Z.min 3 (n + 1)).
    { destruct (Z.ltb_spec n 3); [|lia]. rewrite wrap_id; [lia|]. unfold fits. change (2 ^ 8) with 256. lia. }
    cbn. rewrite Hm. split; [done|]. split; [|lia]. apply (store_cell e n p); [done..|lia].
Qed.

(** A boot counts the strike, stamps IDLE and reports the life before. *)
Lemma boot_holds e now :
  is_byte (cell e) ->
  let n := next_strikes (stored (cell e)).1 (od_hal_wdt_reset_reason e) in
  let '(x, rep) := od_watchdog_boot_init e now in
  holds x now n 0 /\ last_phase (w_dog x) = 0 /\ safe_mode (w_dog x) = (OD_WDT_SAFE_MODE_STRIKES <=? n) /\
  r_strikes rep = n /\ r_safe_mode rep = (OD_WDT_SAFE_MODE_STRIKES <=? n) /\
  breadcrumb_valid rep = od_watchdog_retained_valid (cell e) /\ prev_phase rep = (stored (cell e)).2.
Proof.
  intros Hb n. unfold od_watchdog_boot_init. destruct (read_cell e) as [Hr He].
  destruct (od_hal_wdt_retained_read e) as [r e1]. cbn in Hr, He. subst r. rewrite bool_decide_true by done. cbn [andb].
  assert (Hstart : exists e2 n0 p0,
    (if negb (od_watchdog_retained_valid (cell e)) then
       let '(ok, e') := od_hal_wdt_retained_write e1 OD_WDT_RETAINED_TAG_VALUE in (if ok then true else false, e')
     else (true, e1)) = (true, e2) /\ cell e2 = packed n0 p0 /\ 0 <= n0 < 4 /\ 0 <= p0 < 16 /\
    (if od_watchdog_retained_valid (cell e) then od_watchdog_retained_strikes (cell e) else 0) = n0 /\
    (stored (cell e)).1 = n0).
  { unfold stored. destruct (od_watchdog_retained_valid (cell e)) eqn:Hv; cbn [negb].
    - destruct (valid_packed (cell e) Hb Hv) as (Hc & Hs & Hp). eexists e1, _, _. by rewrite He, <- Hc.
    - destruct (write_cell e1 OD_WDT_RETAINED_TAG_VALUE) as [Hok Hw]; [by unfold is_byte|].
      destruct (od_hal_wdt_retained_write _ _) as [ok e2]. cbn in Hok, Hw. subst ok. exists e2, 0, 0. by rewrite Hw. }
  destruct Hstart as (e2 & n0 & p0 & -> & Hc & Hn0 & Hp0 & -> & Hst). subst n. rewrite Hst.
  destruct (account_cell e2 (od_hal_wdt_reset_reason e) n0 p0 Hc Hn0 Hp0) as (Hn & Hc3 & Hr3).
  destruct (account true e2 _ n0) as [n e3]. cbn in Hn, Hc3. subst n. set (n := next_strikes n0 _) in *.
  destruct (breadcrumb_holds {| w_dog := booted now true n; w_env := e3 |} now n p0 OD_WDT_PHASE_IDLE) as (Hh & Hl & Hs).
  { kept. } { by right. }
  split; [exact Hh|]. split; [exact Hl|]. cbn [r_strikes r_safe_mode breadcrumb_valid prev_phase]. rewrite Hs.
  split_and!; try done. unfold stored. by destruct (od_watchdog_retained_valid (cell e)).
Qed.

(** The device through its lives; each leaves the target it ran on. *)
Definition lived (e : E) (ls : list life) : E := foldl (fun e l => w_env (live e l)) e ls.

(** What a byte holds is what its fields say. *)
Lemma stored_packed n p :
  0 <= n < 4 -> 0 <= p < 16 -> is_byte (packed n p) /\ od_watchdog_retained_valid (packed n p) = true /\ stored (packed n p) = (n, p).
Proof.
  intros Hn Hp. destruct (packed_fields n p Hn Hp) as (Hv & Hs & Hph & _). split; [by apply packed_byte|].
  split; [done|]. unfold stored. by rewrite Hv, Hs, Hph.
Qed.

(** One life leaves the reference's byte. *)
Lemma life_cell e l :
  is_byte (cell e) ->
  is_byte (cell (w_env (live e l))) /\ od_watchdog_retained_valid (cell (w_env (live e l))) = true /\
  stored (cell (w_env (live e l))) = ref_life (stored (cell e)) l.
Proof.
  intros Hb. destruct (reset_cell e (l_reason l)) as [Hrc Hrr].
  pose proof (boot_holds (reset e (l_reason l)) (l_boot_ms l)) as Hbt. rewrite Hrc, Hrr in Hbt. specialize (Hbt Hb).
  unfold live. destruct (od_watchdog_boot_init _ _) as [x rep]. destruct Hbt as (Hh & Hl & _).
  pose proof (acts_hold (l_actions l) x _ _ _ Hh Hl) as (Hc & Hn & Hp & _). cbn [fst]. rewrite Hc.
  destruct (stored_packed _ _ Hn Hp) as (Hby & Hv & ->). split; [done|]. split; [done|]. symmetry. apply surjective_pairing.
Qed.

Lemma lived_stored ls e :
  is_byte (cell e) ->
  is_byte (cell (lived e ls)) /\ stored (cell (lived e ls)) = foldl ref_life (stored (cell e)) ls /\
  (ls <> [] \/ od_watchdog_retained_valid (cell e) = true -> od_watchdog_retained_valid (cell (lived e ls)) = true).
Proof.
  revert e. induction ls as [|l ls IH]; intros e Hb; [split; [done|]; split; [done|by intros [?|?]]|].
  destruct (life_cell e l Hb) as (Hb' & Hv & Hs). destruct (IH (w_env (live e l)) Hb') as (Hby & Hst & Hval).
  cbn [lived foldl]. rewrite <- Hs. split; [exact Hby|]. split; [exact Hst|]. intros _. apply Hval. by right.
Qed.

(** C36. Strikes, safe mode and the breadcrumb survive resets as they should: over a
    target whose retained byte works and starts with anything, after any sequence of
    lives the next boot arrives at the strikes of the reference (watchdog resets in a
    row, up to three, cleared by any other reset and by ten minutes up), is in safe
    mode exactly from three on, and reports the phase the last life stamped; no
    breadcrumb disturbs the count. *)
Theorem watchdog_counts e0 ls reason now :
  is_byte (cell e0) ->
  let st := foldl ref_life (stored (cell e0)) ls in
  let '(x, rep) := od_watchdog_boot_init (reset (lived e0 ls) reason) now in
  r_strikes rep = next_strikes st.1 reason /\
  od_watchdog_in_safe_mode (w_dog x) = (3 <=? next_strikes st.1 reason) /\ r_safe_mode rep = od_watchdog_in_safe_mode (w_dog x) /\
  (ls <> [] \/ od_watchdog_retained_valid (cell e0) = true -> breadcrumb_valid rep = true /\ prev_phase rep = st.2).
Proof.
  intros Hb st. subst st. destruct (lived_stored ls e0 Hb) as (Hby & Hst & Hval).
  destruct (reset_cell (lived e0 ls) reason) as [Hrc Hrr].
  pose proof (boot_holds (reset (lived e0 ls) reason) now) as Hbt. rewrite Hrc, Hrr in Hbt. specialize (Hbt Hby). rewrite Hst in Hbt.
  destruct (od_watchdog_boot_init _ _) as [x rep]. destruct Hbt as (_ & _ & Hsm & Hrs & Hrsm & Hbv & Hpp).
  unfold od_watchdog_in_safe_mode. rewrite Hrs, Hsm, Hrsm, Hbv, Hpp. split_and!; try done. intros Hd. split; [by apply Hval|done].
Qed.
End Theorems.

(** ** On a concrete target: the retained byte and the reset cause. *)
#[local] Instance toy_wdt : WdtHal (Z * Z) := {
  od_hal_wdt_reset_reason e := e.2;
  od_hal_wdt_retained_read e := (Some e.1, e);
  od_hal_wdt_retained_write e v := (true, (v, e.2));
  od_hal_wdt_arm e _ := (OD_HAL_WDT_ARM_OK, e);
  od_hal_wdt_feed e := e;
}.

(** Cold garbage, then three lives that the watchdog ended, the last in a refresh. *)
Definition demo_lives : list life :=
  [{| l_reason := 1; l_boot_ms := 0; l_actions := [Arm; Breadcrumb 6; Feed 200000] |};
   {| l_reason := 2; l_boot_ms := 0; l_actions := [Arm; Breadcrumb 6] |};
   {| l_reason := 2; l_boot_ms := 0; l_actions := [Feed 1000; Breadcrumb 1; Breadcrumb 6] |}].

Lemma watchdog_counts_witness :
  let '(x, rep) := od_watchdog_boot_init (fst (lived (fun e r => (fst e, r)) (0x5A, 0) demo_lives), 2) 0 in
  r_strikes rep = 3 /\ od_watchdog_in_safe_mode (w_dog x) = true /\ prev_phase rep = 6.
Proof.
  pose proof (watchdog_counts fst (fun e r => (fst e, r)) (fun e => conj eq_refl eq_refl) (fun e v _ => conj eq_refl eq_refl)
    (fun e t => eq_refl) (fun e => eq_refl) (fun e r => conj eq_refl eq_refl) (0x5A, 0) demo_lives 2 0) as Hw.
  assert (Hb : is_byte (fst (0x5A, 0))) by (unfold is_byte; cbn; lia). specialize (Hw Hb). vm_compute in Hw. vm_compute.
  destruct Hw as (Hs & Hm & _ & Hp). split; [exact Hs|]. split; [exact Hm|]. apply Hp. left. discriminate.
Defined.

End Watchdog.
