(* ===== verification/BootPayload.v ===== *)
(** What the boot screen says and its QR code carries, [shared/core/od_boot_payload.c]:
    the key's state, the payload, its base64url text and the URL, against a decoder.
    Text is a list of character codes. *)

From stdpp Require Import strings.
From S2P Require Import Prelude Proto.
Import Proto.

Module BootPayload.

Definition OD_BOOT_PAYLOAD_SIZE : Z := 23.
Definition OD_BOOT_KEY_SIZE : Z := 16.
Definition OD_BOOT_KEY_HEX_SIZE : Z := 33.
Definition OD_SECURITY_FLAG_SHOW_KEY_ON_SCREEN : Z := 2.

Definition codes (s : string) : bytes := (fun c => Z.of_N (Ascii.N_of_ascii c)) <$> String.list_ascii_of_string s.

(** A C string in a buffer of [size] bytes: what [snprintf] leaves of [text], and the
    length it returns. *)
Definition snprintf (text : bytes) (size : Z) : bytes * Z := (take (Z.to_nat (size - 1)) text, len text).

Definition hex : bytes := codes "0123456789ABCDEF".

(** [od_boot_bytes_to_hex]; [None] leaves an empty string. *)
Definition od_boot_bytes_to_hex (p : option bytes) (n out_size : Z) : bytes :=
  match p with
  | Some b =>
      if out_size <? n * 2 + 1 then []
      else concat ((fun x => [hex.[Z.land (Z.shiftr x 4) 0x0f]; hex.[Z.land x 0x0f]]) <$> take (Z.to_nat n) b)
  | None => []
  end.

Definition od_boot_key_is_zero (key : option bytes) : bool :=
  match key with None => true | Some k => forallb (fun b => b =? 0) (take (Z.to_nat OD_BOOT_KEY_SIZE) k) end.

Inductive od_boot_key_state_t := OD_BOOT_KEY_NOT_SET | OD_BOOT_KEY_HIDDEN | OD_BOOT_KEY_SHOWN.

Definition od_boot_key_state (sec : option SecurityConfig) : od_boot_key_state_t :=
  match sec with
  | None => OD_BOOT_KEY_NOT_SET
  | Some s =>
      if (encryption_enabled s =? 0) || od_boot_key_is_zero (Some (encryption_key s)) then OD_BOOT_KEY_NOT_SET
      else if negb (Z.land (sec_flags s) OD_SECURITY_FLAG_SHOW_KEY_ON_SCREEN =? 0) then OD_BOOT_KEY_SHOWN else OD_BOOT_KEY_HIDDEN
  end.

Definition od_boot_format_key_display (key : option bytes) (show_key : bool) : bytes :=
  if od_boot_key_is_zero key then replicate (Z.to_nat (OD_BOOT_KEY_HEX_SIZE - 1)) 45
  else if negb show_key then replicate (Z.to_nat (OD_BOOT_KEY_HEX_SIZE - 1)) 88
  else od_boot_bytes_to_hex key OD_BOOT_KEY_SIZE OD_BOOT_KEY_HEX_SIZE.

Definition od_boot_format_key_line (label : option bytes) (part : option bytes) (n : Z) (key_is_zero show_key : bool) (out_size : Z)
  : bytes :=
  let label := match label with Some l => l | None => [] end in
  if key_is_zero then (snprintf (label ++ codes " not set") out_size).1
  else if negb show_key then (snprintf (label ++ codes " hidden") out_size).1
  else (snprintf (label ++ codes " " ++ od_boot_bytes_to_hex part n OD_BOOT_KEY_HEX_SIZE) out_size).1.

Definition od_boot_payload_build (tag id : Z) (key : option bytes) (show_key : bool) (manufacturer : Z) : bytes :=
  let out := replicate (Z.to_nat OD_BOOT_PAYLOAD_SIZE) 0 in
  let out := out.[0 := u8 (Z.shiftr tag 8)].[1 := u8 tag].[2 := u8 (Z.shiftr id 16)].[3 := u8 (Z.shiftr id 8)].[4 := u8 id] in
  let out := match key with
             | Some k => if show_key then memcpy out 5 (take (Z.to_nat OD_BOOT_KEY_SIZE) k) else out
             | None => out end in
  out.[21 := u8 (Z.shiftr manufacturer 8)].[22 := u8 manufacturer].

Definition table : bytes := codes "ABCDEFGHIJKLMNOPQRSTUVWXYZabcdefghijklmnopqrstuvwxyz0123456789-_".

(** The character at bits [k .. k + 5]. *)
Definition digit (value k : Z) : Z := table.[Z.land (Z.shiftr value k) 63].

(** The encoder's loop and its tail: what is in [out], and whether it still fits. *)
Fixpoint encode (data out : bytes) (out_size : Z) : bool * bytes :=
  match data with
  | b0 :: b1 :: b2 :: rest =>
      let value := u32 (Z.lor (Z.lor (u32 (Z.shiftl b0 16)) (u32 (Z.shiftl b1 8))) b2) in
      if out_size <=? len out + 4 then (false, out)
      else encode rest (out ++ [digit value 18; digit value 12; digit value 6; digit value 0]) out_size
  | [b0; b1] =>
      let value := u32 (Z.lor (u32 (Z.shiftl b0 16)) (u32 (Z.shiftl b1 8))) in
      if out_size <=? len out + 3 then (false, out) else (true, out ++ [digit value 18; digit value 12; digit value 6])
  | [b0] =>
      let value := u32 (Z.shiftl b0 16) in
      if out_size <=? len out + 2 then (false, out) else (true, out ++ [digit value 18; digit value 12])
  | [] => (true, out)
  end.

(** [od_boot_base64url_encode]: the length returned and the string, 0 for none. *)
Definition od_boot_base64url_encode (data : option bytes) (out_size : Z) : Z * bytes :=
  match data with
  | None => (0, [])
  | Some data =>
      if out_size =? 0 then (0, [])
      else
        let '(ok, out) := encode data [] out_size in
        if negb ok then (0, []) else if out_size <=? len out then (0, []) else (len out, out)
  end.

Definition prefix : bytes := codes "https://opendisplay.org/l/?".

(** [od_boot_url_build]: the URL, or [None] for a false return. *)
Definition od_boot_url_build (tag id : Z) (key : option bytes) (show_key : bool) (manufacturer out_size : Z) : option bytes :=
  if out_size =? 0 then None
  else
    let '(n, encoded) := od_boot_base64url_encode (Some (od_boot_payload_build tag id key show_key manufacturer)) 33 in
    if n =? 0 then None
    else
      let '(out, written) := snprintf (prefix ++ encoded) out_size in
      if (written <? 0) || (out_size <=? written) then None else Some out.

(** ** The reader of the code *)

(** A character's digit. *)
Definition value_of (c : Z) : option Z := Z.of_nat <$> (fst <$> list_find (eq c) table).

Fixpoint decode (text : bytes) : option bytes :=
  match text with
  | a :: b :: c :: d :: rest =>
      a ← value_of a; b ← value_of b; c ← value_of c; d ← value_of d; tl ← decode rest;
      Some ([a * 4 + b `div` 16; (b mod 16) * 16 + c `div` 4; (c mod 4) * 64 + d] ++ tl)
  | [a; b; c] => a ← value_of a; b ← value_of b; c ← value_of c; Some [a * 4 + b `div` 16; (b mod 16) * 16 + c `div` 4]
  | [a; b] => a ← value_of a; b ← value_of b; Some [a * 4 + b `div` 16]
  | [_] => None
  | [] => Some []
  end.

Lemma value_of_digit d : 0 <= d < 64 -> value_of table.[d] = Some d.
Proof.
  intros Hd. pose proof (forallb_below (fun d => match value_of table.[d] with Some v => v =? d | None => false end) 64
    ltac:(vm_compute; reflexivity) d Hd) as Hv. cbv beta in Hv. destruct (value_of _) as [v|]; [|done].
  apply Z.eqb_eq in Hv. by rewrite Hv.
Qed.

(** Three bytes as a number, and its digits. *)
Lemma digit_is value k : 0 <= value -> 0 <= k -> value_of (digit value k) = Some ((value `div` 2 ^ k) mod 64).
Proof.
  intros Hv Hk. unfold digit. change 63 with (Z.ones 6). rewrite Z.land_ones, Z.shiftr_div_pow2 by lia. apply value_of_digit.
  by apply Z.mod_pos_bound.
Qed.

Lemma join3 b0 b1 b2 : is_byte b0 -> is_byte b1 -> is_byte b2 ->
  u32 (Z.lor (Z.lor (u32 (Z.shiftl b0 16)) (u32 (Z.shiftl b1 8))) b2) = 65536 * b0 + 256 * b1 + b2.
Proof.
  unfold is_byte. intros H0 H1 H2.
  rewrite !(wrap_id 32 (Z.shiftl _ _)) by (unfold fits; rewrite Z.shiftl_mul_pow2 by lia; change (2 ^ 32) with 4294967296; lia).
  rewrite lor_shiftl_add.
  - replace (Z.shiftl b0 16 + Z.shiftl b1 8) with (Z.shiftl (256 * b0 + b1) 8) by (rewrite !Z.shiftl_mul_pow2 by lia; lia).
    rewrite lor_shiftl_add, wrap_id; unfold fits; rewrite ?Z.shiftl_mul_pow2 by lia; change (2 ^ 32) with 4294967296; lia.
  - lia.
  - unfold fits. rewrite Z.shiftl_mul_pow2 by lia. change (2 ^ 16) with 65536. lia.
Qed.

Lemma zero_byte : is_byte 0.
Proof. by unfold is_byte. Qed.

Lemma join2 b0 b1 : is_byte b0 -> is_byte b1 -> u32 (Z.lor (u32 (Z.shiftl b0 16)) (u32 (Z.shiftl b1 8))) = 65536 * b0 + 256 * b1 + 0.
Proof. intros H0 H1. rewrite <- (join3 b0 b1 0 H0 H1 zero_byte). by rewrite Z.lor_0_r. Qed.

Lemma join1 b0 : is_byte b0 -> u32 (Z.shiftl b0 16) = 65536 * b0 + 256 * 0 + 0.
Proof. intros H0. rewrite <- (join2 b0 0 H0 zero_byte). by rewrite Z.lor_0_r, wrap_wrap. Qed.

(** The four characters of three bytes, read back. *)
Lemma digits_back b0 b1 b2 :
  is_byte b0 -> is_byte b1 -> is_byte b2 ->
  let v := 65536 * b0 + 256 * b1 + b2 in
  let d k := (v `div` 2 ^ k) mod 64 in
  d 18 * 4 + d 12 `div` 16 = b0 /\ (d 12 mod 16) * 16 + d 6 `div` 4 = b1 /\ (d 6 mod 4) * 64 + d 0 = b2.
Proof.
  unfold is_byte. intros H0 H1 H2. cbv zeta. change (2 ^ 18) with 262144. change (2 ^ 12) with 4096. change (2 ^ 6) with 64.
  change (2 ^ 0) with 1. Z.to_euclidean_division_equations. lia.
Qed.

Lemma decode_four value rest :
  0 <= value ->
  decode ([digit value 18; digit value 12; digit value 6; digit value 0] ++ rest) =
    tl ← decode rest;
    let d k := (value `div` 2 ^ k) mod 64 in
    Some ([d 18 * 4 + d 12 `div` 16; (d 12 mod 16) * 16 + d 6 `div` 4; (d 6 mod 4) * 64 + d 0] ++ tl).
Proof. intros Hv. cbn [app decode]. rewrite !digit_is by lia. done. Qed.

Lemma encode_decode n data out cap out' :
  (length data <= n)%nat -> bytes_ok data -> encode data out cap = (true, out') ->
  exists t, out' = out ++ t /\ decode t = Some data.
Proof.
  revert data out out'. induction n as [|n IH]; intros data out out' Hn Hb He.
  { destruct data; [|cbn in Hn; lia]. injection He as <-. exists []. by rewrite app_nil_r. }
  destruct data as [|b0 [|b1 [|b2 rest]]].
  - injection He as <-. exists []. by rewrite app_nil_r.
  - apply Forall_cons in Hb as [H0 _]. cbn [encode] in He. destruct (_ <=? _); [done|]. injection He as <-. eexists. split; [done|].
    rewrite (join1 b0 H0). pose proof (digits_back b0 0 0 H0 zero_byte zero_byte) as (Hd0 & _). rewrite !Z.add_0_r in *.
    cbn [decode]. rewrite !digit_is by (unfold is_byte in *; lia). cbn [mbind option_bind]. by rewrite Hd0.
  - apply Forall_cons in Hb as [H0 [H1 _]%Forall_cons]. cbn [encode] in He. destruct (_ <=? _); [done|]. injection He as <-. eexists.
    split; [done|]. rewrite (join2 b0 b1 H0 H1). pose proof (digits_back b0 b1 0 H0 H1 zero_byte) as (Hd0 & Hd1 & _). rewrite !Z.add_0_r in *.
    cbn [decode]. rewrite !digit_is by (unfold is_byte in *; lia). cbn [mbind option_bind]. by rewrite Hd0, Hd1.
  - apply Forall_cons in Hb as [H0 [H1 [H2 Hb]%Forall_cons]%Forall_cons]. cbn [encode] in He. destruct (_ <=? _); [done|].
    rewrite (join3 b0 b1 b2 H0 H1 H2) in He. apply IH in He as (t & -> & Ht); [|cbn in Hn; lia|done].
    eexists. rewrite <- app_assoc. split; [done|]. rewrite decode_four, Ht by (unfold is_byte in *; lia).
    destruct (digits_back b0 b1 b2 H0 H1 H2) as (Hd0 & Hd1 & Hd2). cbn [mbind option_bind app]. by rewrite Hd0, Hd1, Hd2.
Qed.

(** Twenty-three bytes always fit the buffer the builder has for them. *)
Lemma payload_fits p : length p = 23%nat -> exists t, encode p [] 33 = (true, t) /\ length t = 31%nat.
Proof.
  intros Hl. do 23 (destruct p as [|? p]; [done|]). destruct p; [|done]. eexists. split; reflexivity.
Qed.

Lemma payload_is tag id k show manufacturer :
  length k = 16%nat ->
  od_boot_payload_build tag id (Some k) show manufacturer =
    [u8 (Z.shiftr tag 8); u8 tag; u8 (Z.shiftr id 16); u8 (Z.shiftr id 8); u8 id] ++
    (if show then k else replicate 16 0) ++ [u8 (Z.shiftr manufacturer 8); u8 manufacturer].
Proof. intros Hl. do 16 (destruct k as [|? k]; [done|]). destruct k; [|done]. by destruct show. Qed.

(** What the host reads from a payload. *)
Record boot_view := { v_tag : Z; v_id : Z; v_key : bytes; v_manufacturer : Z }.
Definition read_payload (p : bytes) : boot_view :=
  {| v_tag := 256 * p.[0] + p.[1]; v_id := 65536 * p.[2] + 256 * p.[3] + p.[4]; v_key := take 16 (drop 5 p);
     v_manufacturer := 256 * p.[21] + p.[22] |}.

(** The URL's text after the prefix, decoded and read. *)
Definition read_url (url : bytes) : option boot_view :=
  if bool_decide (take (length prefix) url = prefix) then read_payload <$> decode (drop (length prefix) url) else None.

Lemma shiftr_byte x k : 0 <= k -> u8 (Z.shiftr x k) = (x `div` 2 ^ k) mod 256.
Proof. intros Hk. by rewrite Z.shiftr_div_pow2. Qed.

Lemma read_back tag id key manufacturer :
  fits 16 tag -> fits 24 id -> fits 16 manufacturer -> length key = 16%nat ->
  read_payload ([u8 (Z.shiftr tag 8); u8 tag; u8 (Z.shiftr id 16); u8 (Z.shiftr id 8); u8 id] ++ key ++
    [u8 (Z.shiftr manufacturer 8); u8 manufacturer]) =
  {| v_tag := tag; v_id := id; v_key := key; v_manufacturer := manufacturer |}.
Proof.
  intros Ht Hi Hm Hk. unfold fits in *. change (2 ^ 16) with 65536 in *. change (2 ^ 24) with 16777216 in *.
  rewrite !shiftr_byte by lia. unfold wrap. change (2 ^ 8) with 256. change (2 ^ 16) with 65536.
  do 16 (destruct key as [|? key]; [done|]). destruct key; [|done]. unfold read_payload. f_equal.
  - change (256 * ((tag `div` 256) mod 256) + tag mod 256 = tag). Z.to_euclidean_division_equations. lia.
  - change (65536 * ((id `div` 65536) mod 256) + 256 * ((id `div` 256) mod 256) + id mod 256 = id).
    Z.to_euclidean_division_equations. lia.
  - change (256 * ((manufacturer `div` 256) mod 256) + manufacturer mod 256 = manufacturer).
    Z.to_euclidean_division_equations. lia.
Qed.

(** The QR code says what the device meant: a URL is built exactly when the
    buffer has room for its 58 characters and the terminator, and reading it back
    gives the tag type, the 24-bit identity, the manufacturer, and the key when it is
    to be shown and sixteen zeros when it is not. *)
Theorem boot_url_roundtrip tag id k show manufacturer size :
  fits 16 tag -> fits 24 id -> fits 16 manufacturer -> bytes_ok k -> length k = 16%nat -> 0 <= size ->
  match od_boot_url_build tag id (Some k) show manufacturer size with
  | Some url =>
      58 < size /\ len url = 58 /\
      read_url url = Some {| v_tag := tag; v_id := id; v_key := if show then k else replicate 16 0; v_manufacturer := manufacturer |}
  | None => size <= 58
  end.
Proof.
  intros Ht Hi Hm Hb Hk Hs. unfold od_boot_url_build. destruct (Z.eqb_spec size 0) as [->|Hz]; [done|].
  set (p := od_boot_payload_build _ _ _ _ _). pose proof (payload_is tag id k show manufacturer Hk) as Hp. fold p in Hp.
  assert (Hlen : length p = 23%nat) by (rewrite Hp, !length_app; destruct show; rewrite ?Hk, ?length_replicate; done).
  assert (Hpb : bytes_ok p).
  { rewrite Hp. assert (Hu : forall x, is_byte (u8 x)) by (intros x; by apply (wrap_fits 8)).
    repeat (apply Forall_cons; split; [apply Hu|]). apply Forall_app. split; [|by repeat (apply Forall_cons; split; [apply Hu|])].
    destruct show; [done|]. apply Forall_replicate. unfold is_byte. lia. }
  destruct (payload_fits p Hlen) as (t & He & Hlt). destruct (encode_decode 23 p [] 33 t) as (t' & Ht' & Hd); [lia|done|done|].
  cbn [app] in Ht'. subst t'. unfold od_boot_base64url_encode. cbn [Z.eqb]. rewrite He. cbn [negb]. rewrite Hlt. cbn [Z.leb].
  change (33 <=? Z.of_nat 31) with false. cbn iota. change (Z.of_nat 31 =? 0) with false. cbn iota. unfold snprintf.
  assert (Hl : length (prefix ++ t) = 58%nat) by (rewrite length_app, Hlt; reflexivity). rewrite Hl.
  change (Z.of_nat 58 <? 0) with false. cbn [orb]. destruct (Z.leb_spec size (Z.of_nat 58)); [lia|].
  rewrite take_ge by lia. split; [lia|]. split; [lia|]. unfold read_url. rewrite take_app_length, bool_decide_true by done.
  rewrite drop_app_length, Hd. cbn [fmap option_fmap option_map]. f_equal. rewrite Hp.
  apply read_back; [done..|]. by destruct show.
Qed.

Lemma boot_url_roundtrip_witness :
  match od_boot_url_build 0x1234 0xABCDEF (Some (replicate 16 7)) false 9 64 with
  | Some url => read_url url = Some {| v_tag := 0x1234; v_id := 0xABCDEF; v_key := replicate 16 0; v_manufacturer := 9 |}
  | None => False
  end.
Proof.
  assert (Hb : bytes_ok (replicate 16 7)) by (repeat constructor; unfold is_byte; lia).
  pose proof (boot_url_roundtrip 0x1234 0xABCDEF (replicate 16 7) false 9 64 ltac:(split; lia) ltac:(split; lia) ltac:(split; lia)
    Hb eq_refl ltac:(lia)) as Hw.
  vm_compute in Hw |- *. apply Hw.
Defined.

End BootPayload.
