(* ===== verification/BootDraw.v ===== *)
(** Pixels of the boot screen, [shared/core/od_boot_screen.c]: the font, the setters of
    a packed row, the predicates that say whether a point of the screen is ink, the
    colour swatches and the split of a 4-gray row into the controller's planes.  The
    font is the source's table.  An [int] is a [Z]: the values stay far below its range. *)

From S2P Require Import Prelude.

Module BootDraw.

(** [BootGlyph5x7]: a character and its five columns, the low bit on top. *)
Record BootGlyph5x7 := { glyph_c : Z; col : bytes }.

Definition BOOT_FONT5X7 : list BootGlyph5x7 := (fun g : Z * bytes => {| glyph_c := g.1; col := g.2 |}) <$>
  [ (32, [0x00; 0x00; 0x00; 0x00; 0x00]); (33, [0x00; 0x00; 0x5F; 0x00; 0x00]); (34, [0x00; 0x07; 0x00; 0x07; 0x00]);
   (35, [0x14; 0x7F; 0x14; 0x7F; 0x14]); (37, [0x23; 0x13; 0x08; 0x64; 0x62]); (38, [0x36; 0x49; 0x55; 0x22; 0x50]);
   (39, [0x00; 0x05; 0x03; 0x00; 0x00]); (40, [0x00; 0x1C; 0x22; 0x41; 0x00]); (41, [0x00; 0x41; 0x22; 0x1C; 0x00]);
   (42, [0x14; 0x08; 0x3E; 0x08; 0x14]); (43, [0x08; 0x08; 0x3E; 0x08; 0x08]); (44, [0x00; 0x50; 0x30; 0x00; 0x00]);
   (45, [0x08; 0x08; 0x08; 0x08; 0x08]); (46, [0x00; 0x00; 0x40; 0x00; 0x00]); (47, [0x20; 0x10; 0x08; 0x04; 0x02]);
   (48, [0x3E; 0x51; 0x49; 0x45; 0x3E]); (49, [0x00; 0x42; 0x7F; 0x40; 0x00]); (50, [0x62; 0x51; 0x49; 0x49; 0x46]);
   (51, [0x22; 0x49; 0x49; 0x49; 0x36]); (52, [0x18; 0x14; 0x12; 0x7F; 0x10]); (53, [0x2F; 0x49; 0x49; 0x49; 0x31]);
   (54, [0x3E; 0x49; 0x49; 0x49; 0x32]); (55, [0x01; 0x71; 0x09; 0x05; 0x03]); (56, [0x36; 0x49; 0x49; 0x49; 0x36]);
   (57, [0x26; 0x49; 0x49; 0x49; 0x3E]); (58, [0x00; 0x36; 0x36; 0x00; 0x00]); (59, [0x00; 0x56; 0x36; 0x00; 0x00]);
   (60, [0x08; 0x14; 0x22; 0x41; 0x00]); (61, [0x14; 0x14; 0x14; 0x14; 0x14]); (62, [0x00; 0x41; 0x22; 0x14; 0x08]);
   (63, [0x02; 0x01; 0x51; 0x09; 0x06]); (64, [0x32; 0x49; 0x79; 0x41; 0x3E]); (65, [0x7E; 0x11; 0x11; 0x11; 0x7E]);
   (66, [0x7F; 0x49; 0x49; 0x49; 0x36]); (67, [0x3E; 0x41; 0x41; 0x41; 0x22]); (68, [0x7F; 0x41; 0x41; 0x22; 0x1C]);
   (69, [0x7F; 0x49; 0x49; 0x49; 0x41]); (70, [0x7F; 0x09; 0x09; 0x09; 0x01]); (71, [0x3E; 0x41; 0x49; 0x49; 0x7A]);
   (72, [0x7F; 0x08; 0x08; 0x08; 0x7F]); (73, [0x00; 0x41; 0x7F; 0x41; 0x00]); (74, [0x20; 0x40; 0x40; 0x3F; 0x00]);
   (75, [0x7F; 0x08; 0x14; 0x22; 0x41]); (76, [0x7F; 0x40; 0x40; 0x40; 0x40]); (77, [0x7F; 0x02; 0x04; 0x02; 0x7F]);
   (78, [0x7F; 0x02; 0x0C; 0x10; 0x7F]); (79, [0x3E; 0x41; 0x41; 0x41; 0x3E]); (80, [0x7F; 0x09; 0x09; 0x09; 0x06]);
   (81, [0x3E; 0x41; 0x51; 0x21; 0x5E]); (82, [0x7F; 0x09; 0x19; 0x29; 0x46]); (83, [0x26; 0x49; 0x49; 0x49; 0x32]);
   (84, [0x01; 0x01; 0x7F; 0x01; 0x01]); (85, [0x3F; 0x40; 0x40; 0x40; 0x3F]); (86, [0x07; 0x18; 0x20; 0x18; 0x07]);
   (87, [0x3F; 0x40; 0x38; 0x40; 0x3F]); (88, [0x63; 0x14; 0x08; 0x14; 0x63]); (89, [0x07; 0x08; 0x70; 0x08; 0x07]);
   (90, [0x61; 0x51; 0x49; 0x45; 0x43]); (91, [0x00; 0x7F; 0x41; 0x41; 0x00]); (92, [0x02; 0x04; 0x08; 0x10; 0x20]);
   (93, [0x00; 0x41; 0x41; 0x7F; 0x00]); (94, [0x04; 0x02; 0x01; 0x02; 0x04]); (95, [0x40; 0x40; 0x40; 0x40; 0x40]);
   (96, [0x00; 0x01; 0x02; 0x04; 0x00]); (97, [0x20; 0x54; 0x54; 0x54; 0x78]); (98, [0x7F; 0x48; 0x44; 0x44; 0x38]);
   (99, [0x38; 0x44; 0x44; 0x44; 0x20]); (100, [0x38; 0x44; 0x44; 0x48; 0x7F]); (101, [0x38; 0x54; 0x54; 0x54; 0x18]);
   (102, [0x08; 0x7E; 0x09; 0x01; 0x02]); (103, [0x08; 0x14; 0x54; 0x54; 0x3C]); (104, [0x7F; 0x08; 0x04; 0x04; 0x78]);
   (105, [0x00; 0x44; 0x7D; 0x40; 0x00]); (106, [0x20; 0x40; 0x44; 0x3D; 0x00]); (107, [0x7F; 0x10; 0x28; 0x44; 0x00]);
   (108, [0x00; 0x41; 0x7F; 0x40; 0x00]); (109, [0x7C; 0x04; 0x18; 0x04; 0x78]); (110, [0x7C; 0x08; 0x04; 0x04; 0x78]);
   (111, [0x38; 0x44; 0x44; 0x44; 0x38]); (112, [0x7C; 0x14; 0x14; 0x14; 0x08]); (113, [0x08; 0x14; 0x14; 0x7C; 0x40]);
   (114, [0x7C; 0x08; 0x04; 0x04; 0x08]); (115, [0x48; 0x54; 0x54; 0x54; 0x20]); (116, [0x04; 0x3F; 0x44; 0x40; 0x20]);
   (117, [0x3C; 0x40; 0x40; 0x20; 0x7C]); (118, [0x1C; 0x20; 0x40; 0x20; 0x1C]); (119, [0x3C; 0x40; 0x30; 0x40; 0x3C]);
   (120, [0x44; 0x28; 0x10; 0x28; 0x44]); (121, [0x0C; 0x50; 0x50; 0x50; 0x3C]); (122, [0x44; 0x64; 0x54; 0x4C; 0x44]);
   (123, [0x00; 0x08; 0x36; 0x41; 0x00]); (124, [0x00; 0x00; 0x7F; 0x00; 0x00]); (125, [0x00; 0x41; 0x36; 0x08; 0x00]);
   (126, [0x08; 0x04; 0x08; 0x10; 0x08]) ].

#[export] Instance BootGlyph5x7_inhabited : Inhabited BootGlyph5x7 := populate {| glyph_c := 32; col := [] |}.

(** [bootGlyph]: the first glyph, a space, for a character the font lacks. *)
Definition bootGlyph (c : Z) : bytes :=
  match list_find (fun g => glyph_c g = c) BOOT_FONT5X7 with
  | Some (_, g) => col g
  | None => col BOOT_FONT5X7.[0]
  end.

(** ** Pixels of a packed row *)

Definition setBootPixelBlack (row : bytes) (x pitch bitsPerPixel : Z) : bytes :=
  if bitsPerPixel =? 1 then
    let bytePos := x / 8 in let bitPos := 7 - x mod 8 in
    if bytePos <? pitch then row.[bytePos := u8 (Z.land row.[bytePos] (Z.lnot (Z.shiftl 1 bitPos)))] else row
  else if bitsPerPixel =? 2 then
    let bytePos := x / 4 in let shift := 6 - x mod 4 * 2 in
    if bytePos <? pitch then row.[bytePos := u8 (Z.land row.[bytePos] (Z.lnot (Z.shiftl 0x03 shift)))] else row
  else
    let bytePos := x / 2 in
    if bytePos <? pitch then
      row.[bytePos := if x mod 2 =? 0 then Z.land row.[bytePos] 0x0F else Z.land row.[bytePos] 0xF0]
    else row.

Definition setBootPixelCode (row : bytes) (x pitch bitsPerPixel code : Z) : bytes :=
  if bitsPerPixel =? 1 then
    let bytePos := x / 8 in let bitPos := 7 - x mod 8 in
    if bytePos <? pitch then
      row.[bytePos := if negb (Z.land code 1 =? 0) then Z.lor row.[bytePos] (u8 (Z.shiftl 1 bitPos))
                      else Z.land row.[bytePos] (u8 (Z.lnot (Z.shiftl 1 bitPos)))]
    else row
  else if bitsPerPixel =? 2 then
    let bytePos := x / 4 in let shift := 6 - x mod 4 * 2 in
    if bytePos <? pitch then
      let row := row.[bytePos := Z.land row.[bytePos] (u8 (Z.lnot (Z.shiftl 0x03 shift)))] in
      row.[bytePos := Z.lor row.[bytePos] (u8 (Z.shiftl (Z.land code 0x03) shift))]
    else row
  else
    let bytePos := x / 2 in
    if bytePos <? pitch then
      row.[bytePos := if x mod 2 =? 0 then u8 (Z.lor (Z.land row.[bytePos] 0x0F) (Z.shiftl (Z.land code 0x0F) 4))
                      else u8 (Z.lor (Z.land row.[bytePos] 0xF0) (Z.land code 0x0F))]
    else row.

(** ** What is ink *)

(** The scan of [bootTextPixelBlack] along the characters. *)
Fixpoint text_scan (s : bytes) (lx cursor scale gy : Z) : bool :=
  match s with
  | [] => false
  | p :: rest =>
      let charEnd := u16 (cursor + 5 * scale) in
      let nextCursor := u16 (cursor + 6 * scale) in
      if lx <? nextCursor then
        if charEnd <=? lx then false
        else
          let column := u8 ((lx - cursor) / scale) in
          negb (Z.land (Z.shiftr (bootGlyph p).[column] gy) 1 =? 0)
      else text_scan rest lx nextCursor scale gy
  end.

(** [bootTextPixelBlack], for a string that is there. *)
Definition bootTextPixelBlack (lx ly x0 y0 : Z) (s : bytes) (scale w_log maxX : Z) : bool :=
  if scale =? 0 then false
  else
    let clipRight := w_log in
    let clipRight := if (0 <=? maxX) && (u16 maxX <? clipRight) then u16 maxX else clipRight in
    if (clipRight <=? lx) || (lx <? x0) then false
    else if (ly <? y0) || (u16 (y0 + 7 * scale) <=? ly) then false
    else let gy := u8 ((ly - y0) / scale) in text_scan s lx x0 scale gy.

(** A conversion to [int16_t]. *)
Definition s16 (x : Z) : Z := let y := u16 x in if y <? 0x8000 then y else y - 0x10000.

(** [bootQrPixelBlack]; [getModule] is [qrcode_getModule] of the code that was made. *)
Definition bootQrPixelBlack (lx ly qrX qrY qrPx modulePx quiet qrSize : Z) (getModule : Z -> Z -> bool) : bool :=
  if (qrX <? 0) || (lx <? u16 qrX) || (u16 (qrX + qrPx) <=? lx) then false
  else if (qrY <? 0) || (ly <? u16 qrY) || (u16 (qrY + qrPx) <=? ly) then false
  else
    let mx := s16 (s16 ((lx - u16 qrX) / u16 modulePx) - s16 quiet) in
    let my := s16 (s16 ((ly - u16 qrY) / u16 modulePx) - s16 quiet) in
    if (mx <? 0) || (my <? 0) || (s16 qrSize <=? mx) || (s16 qrSize <=? my) then false
    else getModule (u8 mx) (u8 my).

Definition bootLogoPixelBlack (lx ly logoX logoY : Z) (bmp : bytes) (bmpW bmpH stride maxX : Z) : bool :=
  if (lx <? logoX) || (logoX + bmpW <=? lx) then false
  else if maxX <=? lx then false
  else if (ly <? logoY) || (logoY + bmpH <=? ly) then false
  else
    let bx := lx - logoX in
    let byy := ly - logoY in
    negb (Z.land (Z.shiftr bmp.[byy * stride + bx / 8] (7 - Z.land bx 7)) 1 =? 0).

(** ** Swatches *)

Definition bootSwatchIndex (lx ly swatchY0 swatchY1 swatchW numSwatches w_log : Z) : Z :=
  if (numSwatches <=? 0) || (swatchW <=? 0) then -1
  else if (ly <? swatchY0) || (swatchY1 <=? ly) then -1
  else if w_log <=? lx then -1
  else
    let idx := lx / swatchW in
    if numSwatches <=? idx then numSwatches - 1 else idx.

Definition bootSwatchIsBorder (lx ly swatchY0 swatchY1 swatchW numSwatches w_log : Z) : bool :=
  let idx := bootSwatchIndex lx ly swatchY0 swatchY1 swatchW numSwatches w_log in
  if idx <? 0 then false
  else
    let boxX0 := idx * swatchW in
    let boxX1 := if idx =? numSwatches - 1 then w_log else (idx + 1) * swatchW in
    (lx =? boxX0) || (lx =? boxX1 - 1) || (ly =? swatchY0) || (ly =? swatchY1 - 1).

(** [kSchemeWhiteValue], [kBwgbrySwatchCodes], [kGray4StoredBase], [kGray4StoredV2]. *)
Definition kSchemeWhiteValue : bytes := [0xFF; 0xFF; 0xFF; 0x55; 0x11; 0xFF; 0xFF; 0xFF; 0x11].
Definition kBwgbrySwatchCodes : bytes := [0; 1; 2; 3; 5; 6].
Definition kGray4StoredBase : bytes := [3; 1; 2; 0].
Definition kGray4StoredV2 : bytes := [3; 2; 1; 0].

Definition bootGray4PanelUsesLutV2 (panelIc : Z) : bool := (panelIc =? 0x0028) || (panelIc =? 0x0048).

(** [bootGray4FillSwatchCodes]: the four codes. *)
Definition bootGray4FillSwatchCodes (panelIc : Z) (direct2bpp : bool) : bytes :=
  let stored := if bootGray4PanelUsesLutV2 panelIc then kGray4StoredV2 else kGray4StoredBase in
  (fun level => if direct2bpp then level else u8 (Z.land (Z.lnot stored.[level]) 3)) <$> [0; 1; 2; 3].

(** ** 4-gray planes *)

(** The pixel loop of [makeGray4PlaneRow], from [x] on. *)
Fixpoint plane_loop (n : nat) (x : Z) (planeRow row2bpp : bytes) (bitSel : Z) : bytes :=
  match n with
  | O => planeRow
  | S n =>
      let code := u8 (Z.land (Z.lnot (Z.shiftr row2bpp.[Z.shiftr x 2] (6 - Z.shiftl (Z.land x 3) 1))) 0x03) in
      let planeRow := if negb (Z.land (Z.shiftr code bitSel) 0x01 =? 0)
                      then planeRow.[Z.shiftr x 3 := Z.lor planeRow.[Z.shiftr x 3] (u8 (Z.shiftr 0x80 (Z.land x 7)))]
                      else planeRow in
      plane_loop n (x + 1) planeRow row2bpp bitSel
  end.

(** [makeGray4PlaneRow]: what it leaves in [planeRow]. *)
Definition makeGray4PlaneRow (row2bpp : bytes) (planePitch w bitSel : Z) : bytes :=
  plane_loop (Z.to_nat w) 0 (replicate (Z.to_nat planePitch) 0) row2bpp bitSel.

(** ** The pixel a row shows *)

(** [w] bits of a byte from bit [k], and the byte with them replaced. *)
Definition bits_at (w k b : Z) : Z := Z.land (Z.shiftr b k) (Z.ones w).
Definition put (w k v b : Z) : Z := Z.lor (Z.land b (Z.lnot (Z.shiftl (Z.ones w) k))) (Z.shiftl (Z.land v (Z.ones w)) k).

(** The code of pixel [x] in a row packed [bpp] bits to a pixel, first pixel in the high bits. *)
Definition per (bpp : Z) : Z := 8 / bpp.
Definition place (bpp x : Z) : Z := 8 - bpp - x mod per bpp * bpp.
Definition pixel (bpp : Z) (row : bytes) (x : Z) : Z := bits_at bpp (place bpp x) row.[x / per bpp].

Lemma testbit_ones w i : 0 <= w -> 0 <= i -> Z.testbit (Z.ones w) i = (i <? w).
Proof. intros Hw Hi. destruct (Z.ltb_spec i w); [by rewrite Z.ones_spec_low by lia|by rewrite Z.ones_spec_high by lia]. Qed.

(** Bit [i] of a mask of [w] bits moved to [k]. *)
Lemma testbit_mask w k v i : 0 <= w -> 0 <= k -> 0 <= i ->
  Z.testbit (Z.shiftl (Z.land v (Z.ones w)) k) i = Z.testbit v (i - k) && (k <=? i) && (i <? k + w).
Proof.
  intros Hw Hk Hi. rewrite Z.shiftl_spec by lia. destruct (Z.leb_spec k i).
  - rewrite Z.land_spec, testbit_ones by lia. rewrite andb_true_r. f_equal. apply eq_true_iff_eq. rewrite !Z.ltb_lt. lia.
  - rewrite Z.testbit_neg_r by lia. by rewrite andb_false_r.
Qed.

Lemma testbit_put w k v b i : 0 <= w -> 0 <= k -> 0 <= i ->
  Z.testbit (put w k v b) i = if (k <=? i) && (i <? k + w) then Z.testbit v (i - k) else Z.testbit b i.
Proof.
  intros Hw Hk Hi. unfold put. rewrite Z.lor_spec, Z.land_spec, Z.lnot_spec, testbit_mask by lia.
  pose proof (testbit_mask w k (-1) i Hw Hk Hi) as Hm. rewrite Z.land_m1_l in Hm. rewrite Hm.
  destruct (Z.leb_spec k i); [rewrite Z.bits_m1 by lia|by rewrite (Z.testbit_neg_r _ (i - k)), !andb_false_r, andb_true_r, orb_false_r by lia].
  destruct (i <? k + w); cbn [andb negb orb]; by rewrite ?andb_true_r, ?andb_false_r, ?orb_false_r.
Qed.

Lemma testbit_bits_at w k b i : 0 <= w -> 0 <= k -> 0 <= i -> Z.testbit (bits_at w k b) i = Z.testbit b (i + k) && (i <? w).
Proof. intros Hw Hk Hi. unfold bits_at. by rewrite Z.land_spec, Z.shiftr_spec, testbit_ones by lia. Qed.

Lemma bits_at_put w k v b : 0 <= w -> 0 <= k -> bits_at w k (put w k v b) = Z.land v (Z.ones w).
Proof.
  intros Hw Hk. apply Z.bits_inj'. intros i Hi. rewrite testbit_bits_at, testbit_put, Z.land_spec, testbit_ones by lia.
  destruct (Z.ltb_spec i w); [|by rewrite !andb_false_r].
  destruct (Z.leb_spec k (i + k)), (Z.ltb_spec (i + k) (k + w)); cbn [andb]; [|lia..]. rewrite !andb_true_r. f_equal. lia.
Qed.

Lemma bits_at_put_ne w k j v b : 0 <= w -> 0 <= k -> 0 <= j -> (j + w <= k \/ k + w <= j) -> bits_at w j (put w k v b) = bits_at w j b.
Proof.
  intros Hw Hk Hj Hd. apply Z.bits_inj'. intros i Hi. rewrite !testbit_bits_at, testbit_put by lia.
  destruct (Z.ltb_spec i w); [|by rewrite !andb_false_r].
  destruct (Z.leb_spec k (i + j)), (Z.ltb_spec (i + j) (k + w)); cbn [andb]; try done. lia.
Qed.

Lemma put_byte w k v b : 0 <= w -> 0 <= k -> k + w <= 8 -> is_byte b -> is_byte (put w k v b).
Proof.
  intros Hw Hk Hkw Hb. assert (Hf : u8 (put w k v b) = put w k v b); [|rewrite <- Hf; by apply (wrap_fits 8)].
  apply Z.bits_inj'. intros i Hi. rewrite wrap_testbit, testbit_put by lia. destruct (Z.ltb_spec i 8); [done|].
  rewrite (fits_testbit_high 8 b i Hb) by lia. destruct (Z.leb_spec k i), (Z.ltb_spec i (k + w)); cbn [andb]; try done. lia.
Qed.

(** Two bytes that agree in their eight bits. *)
Lemma byte_ext a b : is_byte a -> is_byte b -> (forall i, 0 <= i < 8 -> Z.testbit a i = Z.testbit b i) -> a = b.
Proof.
  intros Ha Hb Hi. apply Z.bits_inj'. intros i H0. destruct (Z.ltb_spec i 8); [apply Hi; lia|].
  by rewrite (fits_testbit_high 8 a i Ha), (fits_testbit_high 8 b i Hb) by lia.
Qed.

(** The packings there are. *)
Definition packing (bpp : Z) : Prop := bpp = 1 \/ bpp = 2 \/ bpp = 4.

Lemma per_is : per 1 = 8 /\ per 2 = 4 /\ per 4 = 2.
Proof. done. Qed.

Lemma place_range bpp x : packing bpp -> 0 <= place bpp x /\ place bpp x + bpp <= 8 /\ 0 < per bpp.
Proof.
  destruct per_is as (H1 & H2 & H4). unfold place. intros [-> | [-> | ->]]; rewrite ?H1, ?H2, ?H4;
    Z.to_euclidean_division_equations; lia.
Qed.

(** Setting a pixel replaces its bits. *)
Definition put_pixel (bpp : Z) (row : bytes) (x code : Z) : bytes :=
  row.[x / per bpp := put bpp (place bpp x) code row.[x / per bpp]].

(** [below n k]: a number below a small literal, case by case. *)
Ltac below n k :=
  match n with
  | 0 => exfalso; lia
  | _ => let m := eval compute in (n - 1) in
         destruct (Z.eq_dec k m) as [-> |]; [|below m k]
  end.

(** The bits of a literal byte end before the eighth. *)
Ltac literal_high :=
  match goal with
  | |- 0 <= ?c => vm_compute; congruence
  | |- Z.log2 ?c < _ => let v := eval vm_compute in (Z.log2 c) in change (Z.log2 c) with v; lia
  end.

(** Equality of bytes made of a byte [b] and literal masks. *)
Ltac by_bits b :=
  apply Z.bits_inj'; let i := fresh "i" in intros i ?;
  rewrite ?Z.lor_spec, ?Z.land_spec;
  let H := fresh in
  destruct (Z.ltb_spec i 8) as [H|H];
    [below 8 i; generalize (Z.testbit b); let f := fresh "f" in intros f; try destruct (f _); vm_compute; reflexivity
    |rewrite ?(fits_testbit_high 8 b i) by (done || lia); cbn [andb orb]; rewrite ?Z.bits_above_log2 by literal_high; done].

Lemma set_bit_put b k c : 0 <= k < 8 -> is_byte b -> 0 <= c < 2 ->
  (if negb (c =? 0) then Z.lor b (u8 (Z.shiftl 1 k)) else Z.land b (u8 (Z.lnot (Z.shiftl 1 k)))) =
  Z.lor (Z.land b (Z.lnot (Z.shiftl 1 k))) (Z.shiftl c k).
Proof. intros Hk Hb Hc. below 8 k; below 2 c; cbn [negb Z.eqb]; by_bits b. Qed.

Lemma two_bits_put b j c : 0 <= j < 4 -> is_byte b -> 0 <= c < 4 ->
  Z.lor (Z.land b (u8 (Z.lnot (Z.shiftl 3 (6 - j * 2))))) (u8 (Z.shiftl c (6 - j * 2))) =
  Z.lor (Z.land b (Z.lnot (Z.shiftl 3 (6 - j * 2)))) (Z.shiftl c (6 - j * 2)).
Proof. intros Hj Hb Hc. below 4 j; below 4 c; by_bits b. Qed.

Lemma nibble_put b j c : 0 <= j < 2 -> is_byte b -> 0 <= c < 16 ->
  (if j =? 0 then u8 (Z.lor (Z.land b 0x0F) (Z.shiftl c 4)) else u8 (Z.lor (Z.land b 0xF0) c)) =
  Z.lor (Z.land b (Z.lnot (Z.shiftl 15 (4 - j * 4)))) (Z.shiftl c (4 - j * 4)).
Proof.
  intros Hj Hb Hc. pose proof (put_byte 4 (4 - j * 4) c b ltac:(lia) ltac:(lia) ltac:(lia) Hb) as Hp.
  unfold put in Hp. change (Z.ones 4) with 15 in Hp. replace (Z.land c 15) with c in Hp;
    [|change 15 with (Z.ones 4); rewrite Z.land_ones by lia; symmetry; by apply Z.mod_small].
  rewrite <- (wrap_id 8 _ Hp). below 2 j; cbn [Z.eqb]; f_equal; below 16 c; by_bits b.
Qed.

Lemma land_ones_range v w : 0 <= w -> 0 <= Z.land v (Z.ones w) < 2 ^ w.
Proof. intros Hw. rewrite Z.land_ones by lia. apply Z.mod_pos_bound. lia. Qed.

Lemma set_set {A} (l : list A) i x y : l.[i := x].[i := y] = l.[i := y].
Proof. apply list_insert_insert_eq. Qed.

(** Setting to zero. *)
Lemma clear_bits b w k : 0 <= w -> 0 <= k -> k + w <= 8 -> is_byte b ->
  u8 (Z.land b (Z.lnot (Z.shiftl (Z.ones w) k))) = put w k 0 b.
Proof.
  intros Hw Hk Hkw Hb. rewrite <- (wrap_id 8 (put w k 0 b)) by (by apply put_byte).
  unfold put. by rewrite Z.land_0_l, Z.shiftl_0_l, Z.lor_0_r.
Qed.

Lemma clear_nibble b j : 0 <= j < 2 -> is_byte b -> (if j =? 0 then Z.land b 0x0F else Z.land b 0xF0) = put 4 (4 - j * 4) 0 b.
Proof.
  intros Hj Hb. unfold put. rewrite Z.land_0_l, Z.shiftl_0_l, Z.lor_0_r. below 2 j; cbn [Z.eqb]; by_bits b.
Qed.

Section Setters.
Context (row : bytes) (x pitch : Z).
Ltac in_row := match goal with |- context [?a <? pitch] => destruct (Z.ltb_spec a pitch); [|lia] end.
Context (Hrow : bytes_ok row) (Hx : 0 <= x) (Hpitch : pitch <= len row).

Lemma set_code_put bpp code : packing bpp -> x / per bpp < pitch -> setBootPixelCode row x pitch bpp code = put_pixel bpp row x code.
Proof using Hrow Hx Hpitch.
  destruct per_is as (H1 & H2 & H4). unfold setBootPixelCode, put_pixel, put, place.
  intros [-> | [-> | ->]]; cbn [Z.eqb Pos.eqb]; rewrite ?H1, ?H2, ?H4; intros Hlt; in_row; rewrite ?set_set; f_equal.
  - change (Z.ones 1) with 1. replace (8 - 1 - x mod 8 * 1) with (7 - x mod 8) by lia.
    apply set_bit_put; [pose proof (Z.mod_pos_bound x 8 ltac:(lia)); lia|by apply get_byte|]. apply (land_ones_range code 1). lia.
  - rewrite get_set_eq by (split; [by apply Z.div_pos|lia]). change (Z.ones 2) with 3.
    replace (8 - 2 - x mod 4 * 2) with (6 - x mod 4 * 2) by lia.
    apply two_bits_put; [by apply Z.mod_pos_bound|by apply get_byte|]. apply (land_ones_range code 2). lia.
  - change (Z.ones 4) with 15. replace (8 - 4 - x mod 2 * 4) with (4 - x mod 2 * 4) by lia.
    apply nibble_put; [by apply Z.mod_pos_bound|by apply get_byte|]. apply (land_ones_range code 4). lia.
Qed.

Lemma set_black_put bpp : packing bpp -> x / per bpp < pitch -> setBootPixelBlack row x pitch bpp = put_pixel bpp row x 0.
Proof using Hrow Hx Hpitch.
  destruct per_is as (H1 & H2 & H4). unfold setBootPixelBlack, put_pixel, place.
  intros [-> | [-> | ->]]; cbn [Z.eqb Pos.eqb]; rewrite ?H1, ?H2, ?H4; intros Hlt; in_row; f_equal.
  - replace (8 - 1 - x mod 8 * 1) with (7 - x mod 8) by lia. change 1 with (Z.ones 1) at 1. pose proof (Z.mod_pos_bound x 8 ltac:(lia)).
    apply clear_bits; [lia..|by apply get_byte].
  - replace (8 - 2 - x mod 4 * 2) with (6 - x mod 4 * 2) by lia. change 3 with (Z.ones 2). pose proof (Z.mod_pos_bound x 4 ltac:(lia)).
    apply clear_bits; [lia..|by apply get_byte].
  - replace (8 - 4 - x mod 2 * 4) with (4 - x mod 2 * 4) by lia. apply clear_nibble; [by apply Z.mod_pos_bound|by apply get_byte].
Qed.
End Setters.

(** ** Reading back *)

Lemma len_put_pixel bpp row x code : len (put_pixel bpp row x code) = len row.
Proof. apply len_set. Qed.

Lemma put_pixel_ok bpp row x code : packing bpp -> bytes_ok row -> bytes_ok (put_pixel bpp row x code).
Proof.
  intros Hp Hr. destruct (place_range bpp x Hp) as (? & ? & _). apply Forall_set; [done|].
  apply put_byte; [destruct Hp as [-> | [-> | ->]]; lia|lia..|by apply get_byte].
Qed.

Lemma pixel_put_eq bpp row x code : packing bpp -> 0 <= x -> x / per bpp < len row ->
  pixel bpp (put_pixel bpp row x code) x = Z.land code (Z.ones bpp).
Proof.
  intros Hp Hx Hl. destruct (place_range bpp x Hp) as (? & ? & ?). unfold pixel, put_pixel.
  rewrite get_set_eq by (split; [by apply Z.div_pos|done]). apply bits_at_put; [destruct Hp as [-> | [-> | ->]]; lia|lia].
Qed.

Lemma pixel_put_ne bpp row x y code : packing bpp -> 0 <= x -> 0 <= y -> x <> y -> x / per bpp < len row ->
  pixel bpp (put_pixel bpp row x code) y = pixel bpp row y.
Proof.
  intros Hp Hx Hy Hne Hl. destruct (place_range bpp x Hp) as (? & ? & ?), (place_range bpp y Hp) as (? & ? & _). unfold pixel, put_pixel.
  destruct (Z.eq_dec (x / per bpp) (y / per bpp)) as [He|He]; [|by rewrite get_set_ne by (done || by apply Z.div_pos)].
  rewrite He, get_set_eq by (split; [by apply Z.div_pos|lia]). apply bits_at_put_ne; [destruct Hp as [-> | [-> | ->]]; lia|lia..|].
  assert (x mod per bpp <> y mod per bpp) by (intros Hm; apply Hne; rewrite (Z.div_mod x (per bpp)), (Z.div_mod y (per bpp)) by lia; congruence).
  unfold place. assert (0 < bpp) by (destruct Hp as [-> | [-> | ->]]; lia). nia.
Qed.

(** ** The planes of a 4-gray row *)

Lemma plane_bit_put b x : 0 <= x -> is_byte b -> Z.lor b (u8 (Z.shiftr 0x80 (Z.land x 7))) = put 1 (place 1 x) 1 b.
Proof.
  intros Hx Hb. destruct per_is as (H1 & _). unfold place. rewrite H1. change 7 with (Z.ones 3). rewrite Z.land_ones by lia.
  change (2 ^ 3) with 8. pose proof (Z.mod_pos_bound x 8 ltac:(lia)) as Hm. set (j := x mod 8) in *. clearbody j. unfold put.
  below 8 j; by_bits b.
Qed.

(** The bit of the complemented code that goes to a plane. *)
Lemma plane_code_bit row x bitSel : 0 <= x -> 0 <= bitSel < 2 ->
  (Z.land (Z.shiftr (u8 (Z.land (Z.lnot (Z.shiftr row.[Z.shiftr x 2] (6 - Z.shiftl (Z.land x 3) 1))) 0x03)) bitSel) 0x01 =? 0) =
  Z.testbit (pixel 2 row x) bitSel.
Proof.
  intros Hx Hs. destruct per_is as (_ & H2 & _). unfold pixel, place. rewrite H2.
  change 3 with (Z.ones 2). rewrite (Z.land_ones x), (Z.shiftr_div_pow2 x), Z.shiftl_mul_pow2 by lia.
  change (2 ^ 2) with 4. change (2 ^ 1) with 2. replace (8 - 2 - x mod 4 * 2) with (6 - x mod 4 * 2) by lia.
  pose proof (Z.mod_pos_bound x 4 ltac:(lia)) as Hm. change 1 with (Z.ones 1) at 1.
  rewrite (Z.land_ones _ 1) by lia. change (2 ^ 1) with 2.
  rewrite <- Z.bit0_mod, Z.shiftr_spec, wrap_testbit, Z.land_spec, Z.lnot_spec, Z.shiftr_spec, testbit_ones by lia.
  rewrite testbit_bits_at by lia. destruct (Z.ltb_spec (0 + bitSel) 8), (Z.ltb_spec (0 + bitSel) 2), (Z.ltb_spec bitSel 2); try lia.
  cbn [andb]. rewrite !andb_true_r, Z.add_0_l. by destruct (Z.testbit _ _).
Qed.

Lemma plane_loop_spec n x planeRow row bitSel :
  0 <= x -> x + Z.of_nat n <= 8 * len planeRow -> bytes_ok planeRow -> 0 <= bitSel < 2 ->
  let r := plane_loop n x planeRow row bitSel in
  len r = len planeRow /\ bytes_ok r /\
  forall y, 0 <= y -> (y < x -> pixel 1 r y = pixel 1 planeRow y) /\
    (x <= y < x + Z.of_nat n -> pixel 1 planeRow y = 0 -> pixel 1 r y = Z.b2z (negb (Z.testbit (pixel 2 row y) bitSel))).
Proof.
  cbv zeta. revert x planeRow. induction n as [|n IH]; intros x planeRow Hx Hl Hb Hs; cbn [plane_loop].
  { split; [done|]. split; [done|]. intros y Hy. split; [done|lia]. }
  rewrite plane_code_bit by lia. destruct per_is as (H1 & _). assert (Hp : packing 1) by (by left).
  assert (Hi : x / per 1 < len planeRow) by (rewrite H1; apply Z.div_lt_upper_bound; lia).
  set (next := if negb _ then _ else planeRow).
  assert (Hn : next = if Z.testbit (pixel 2 row x) bitSel then planeRow else put_pixel 1 planeRow x 1).
  { unfold next. destruct (Z.testbit (pixel 2 row x) bitSel); [done|]. cbn [negb]. rewrite plane_bit_put by (done || by apply get_byte).
    unfold put_pixel. rewrite H1, Z.shiftr_div_pow2 by lia. done. }
  assert (Hlen : len next = len planeRow) by (rewrite Hn; destruct (Z.testbit _ _); [done|apply len_put_pixel]).
  assert (Hok : bytes_ok next) by (rewrite Hn; destruct (Z.testbit _ _); [done|by apply put_pixel_ok]).
  destruct (IH (x + 1) next ltac:(lia) ltac:(lia) Hok Hs) as (HL & HB & HP). rewrite HL. split; [done|]. split; [done|].
  assert (Hother : forall y, 0 <= y -> y <> x -> pixel 1 next y = pixel 1 planeRow y).
  { intros y Hy Hne. rewrite Hn. destruct (Z.testbit _ _); [done|]. apply pixel_put_ne; [done..|]. done. }
  intros y Hy. destruct (HP y Hy) as [HA HB']. split; intros Hr.
  - rewrite HA by lia. apply Hother; lia.
  - intros H0. destruct (Z.eq_dec y x) as [->|Hne]; [|rewrite HB' by (lia || by rewrite Hother by lia); done].
    rewrite HA by lia. rewrite Hn. destruct (Z.testbit (pixel 2 row x) bitSel); [done|]. by rewrite pixel_put_eq.
Qed.

(** A plane of a 4-gray row holds, pixel by pixel, the complement of one bit of the code. *)
Lemma gray4_plane row planePitch w bitSel x : 0 <= x < w -> w <= 8 * planePitch -> 0 <= bitSel < 2 ->
  pixel 1 (makeGray4PlaneRow row planePitch w bitSel) x = Z.b2z (negb (Z.testbit (pixel 2 row x) bitSel)).
Proof.
  intros Hx Hw Hs. unfold makeGray4PlaneRow.
  pose proof (plane_loop_spec (Z.to_nat w) 0 (replicate (Z.to_nat planePitch) 0) row bitSel) as Hp. rewrite length_replicate in Hp.
  destruct Hp as (_ & _ & Hp); [lia..| |done|].
  { apply Forall_replicate. unfold is_byte. lia. }
  apply (Hp x ltac:(lia)); [lia|]. unfold pixel, get. destruct per_is as (H1 & _). rewrite H1.
  rewrite lookup_total_replicate_2 by (assert (x / 8 < planePitch) by (apply Z.div_lt_upper_bound; lia); assert (0 <= x / 8) by (apply Z.div_pos; lia); lia).
  unfold bits_at. by rewrite Z.shiftr_0_l.
Qed.

(** ** Text *)

(** The ink of a string on its own grid: six columns to a character, the sixth a gap. *)
Definition ink (s : bytes) (dx dy : Z) : bool :=
  match s !! Z.to_nat (dx / 6) with
  | Some c => (dx mod 6 <? 5) && Z.testbit (bootGlyph c).[dx mod 6] dy
  | None => false
  end.

Lemma land_1_testbit b dy : 0 <= dy -> negb (Z.land (Z.shiftr b dy) 1 =? 0) = Z.testbit b dy.
Proof.
  intros Hd. change 1 with (Z.ones 1). rewrite Z.land_ones by lia. change (2 ^ 1) with 2. rewrite <- Z.bit0_mod, Z.shiftr_spec by lia.
  rewrite Z.add_0_l. by destruct (Z.testbit b dy).
Qed.

Lemma text_scan_is s lx cursor scale gy :
  0 < scale -> 0 <= cursor <= lx -> cursor + 6 * scale * len s < 65536 -> 0 <= gy ->
  text_scan s lx cursor scale gy = ink s ((lx - cursor) / scale) gy.
Proof.
  intros Hs. revert cursor. induction s as [|c s IH]; intros cursor Hc Hl Hg; [done|]. cbn [text_scan length] in *.
  assert (0 <= 6 * scale * len s) by nia. rewrite !wrap_id by (unfold fits; change (2 ^ 16) with 65536; nia).
  destruct (Z.ltb_spec lx (cursor + 6 * scale)) as [Hin|Hout].
  - assert (Hd : 0 <= (lx - cursor) / scale < 6) by (split; [apply Z.div_pos; lia|apply Z.div_lt_upper_bound; lia]).
    unfold ink. rewrite (Z.div_small ((lx - cursor) / scale) 6), Z.mod_small by lia. cbn [lookup list_lookup Z.to_nat].
    destruct (Z.leb_spec (cursor + 5 * scale) lx) as [Hgap|Hink].
    + assert (5 <= (lx - cursor) / scale) by (apply Z.div_le_lower_bound; lia). destruct (Z.ltb_spec ((lx - cursor) / scale) 5); [lia|done].
    + assert ((lx - cursor) / scale < 5) by (apply Z.div_lt_upper_bound; lia). destruct (Z.ltb_spec ((lx - cursor) / scale) 5); [|lia].
      cbn [andb]. rewrite wrap_id by (unfold fits; change (2 ^ 8) with 256; lia). by apply land_1_testbit.
  - rewrite IH by nia. unfold ink. replace (lx - cursor) with (lx - (cursor + 6 * scale) + 6 * scale) by lia.
    rewrite Z.div_add by lia. set (d := (lx - (cursor + 6 * scale)) / scale). assert (0 <= d) by (apply Z.div_pos; lia).
    replace (d + 6) with (d + 1 * 6) by lia. rewrite Z.div_add, Z.mod_add by lia.
    replace (Z.to_nat (d / 6 + 1)) with (S (Z.to_nat (d / 6))) by (assert (0 <= d / 6) by (apply Z.div_pos; lia); lia). done.
Qed.

(** Where a text's ink is: on its grid of squares of [scale] pixels, cut at the right. *)
Lemma text_pixel_is lx ly x0 y0 s scale w_log maxX :
  0 < scale -> 0 <= x0 -> x0 + 6 * scale * len s < 65536 -> 0 <= y0 -> y0 + 7 * scale < 65536 -> 0 <= maxX < 65536 -> scale < 256 ->
  bootTextPixelBlack lx ly x0 y0 s scale w_log maxX =
    (x0 <=? lx) && (lx <? Z.min w_log maxX) && (y0 <=? ly) && (ly <? y0 + 7 * scale) && ink s ((lx - x0) / scale) ((ly - y0) / scale).
Proof.
  intros Hs Hx Hl Hy Hyl Hm H8. unfold bootTextPixelBlack. destruct (Z.eqb_spec scale 0); [lia|].
  rewrite !wrap_id by (unfold fits; change (2 ^ 16) with 65536; lia). destruct (Z.leb_spec 0 maxX); [|lia]. cbn [andb].
  replace (if maxX <? w_log then maxX else w_log) with (Z.min w_log maxX) by (destruct (Z.ltb_spec maxX w_log); lia).
  destruct (Z.leb_spec (Z.min w_log maxX) lx), (Z.ltb_spec lx x0), (Z.ltb_spec lx (Z.min w_log maxX)), (Z.leb_spec x0 lx); try lia; try done.
  cbn [orb andb]. destruct (Z.ltb_spec ly y0), (Z.leb_spec y0 ly); try lia; try done.
  destruct (Z.leb_spec (y0 + 7 * scale) ly), (Z.ltb_spec ly (y0 + 7 * scale)); try lia; try done. cbn [orb andb].
  assert (0 <= (ly - y0) / scale < 7) by (split; [apply Z.div_pos; lia|apply Z.div_lt_upper_bound; lia]).
  rewrite wrap_id by (unfold fits; change (2 ^ 8) with 256; lia). apply text_scan_is; lia.
Qed.

(** On a split panel the two planes of a swatch are the bits of the code its controller
    stores for the level. *)
Lemma gray4_stored panelIc level bit : 0 <= level < 4 -> 0 <= bit < 2 ->
  negb (Z.testbit (bootGray4FillSwatchCodes panelIc false).[level] bit) =
    Z.testbit (if bootGray4PanelUsesLutV2 panelIc then kGray4StoredV2 else kGray4StoredBase).[level] bit.
Proof.
  intros Hl Hb. unfold bootGray4FillSwatchCodes. below 4 level; below 2 bit; by destruct (bootGray4PanelUsesLutV2 panelIc).
Qed.

End BootDraw.
