(* ===== verification/BootLayout.v ===== *)
(** How the boot screen is laid out, [shared/core/od_boot_screen.c]: text widths, the
    caps on scales and QR modules, the placement of text and QR code in the middle zone,
    the header's scales and the footer's segments.  Division of an [int] is [Z.quot]. *)

From stdpp Require Import strings.
From S2P Require Import Prelude Color BootPayload BootDraw.
Import Color BootPayload BootDraw.

Module BootLayout.

(** [strlen] is the list's length: a string is its characters. *)
Definition bootTextWidth (s : bytes) (scale : Z) : Z := if scale =? 0 then 0 else u16 (u32 (len s * 6 * scale)).

Definition bootLineStep (scale : Z) : Z := scale * 10.

Definition bootMaxTextWidth (lines : list bytes) (scale : Z) : Z :=
  foldl (fun maxW line => let tw := bootTextWidth line (u8 scale) in if maxW <? tw then tw else maxW) 0 lines.

Definition formatBootColorSchemeText (scheme outSize : Z) : bytes :=
  if outSize =? 0 then []
  else
    (snprintf (codes
      (if scheme =? OD_COLOR_SCHEME_MONO then "BW"%string
       else if scheme =? OD_COLOR_SCHEME_BWR then "BWR"%string
       else if scheme =? OD_COLOR_SCHEME_BWY then "BWY"%string
       else if scheme =? OD_COLOR_SCHEME_BWRY then "BWRY"%string
       else if scheme =? OD_COLOR_SCHEME_BWGBRY then "6 color"%string
       else if scheme =? OD_COLOR_SCHEME_BWGBRY_SPLIT then "6c split"%string
       else if scheme =? OD_COLOR_SCHEME_GRAY4 then "4 gray"%string
       else if scheme =? OD_COLOR_SCHEME_GRAY16 then "16 gray"%string
       else if scheme =? OD_COLOR_SCHEME_SEVEN_COLOR then "7 color"%string
       else "?"%string)) outSize).1.

Definition bootQrModuleMax (w h_full : Z) : Z :=
  if (1872 <=? w) && (1404 <=? h_full) then 18
  else if (1600 <=? w) && (1200 <=? h_full) then 16
  else if (1200 <=? w) && (900 <=? h_full) then 12
  else if (800 <=? w) && (600 <=? h_full) then 8
  else if (800 <=? w) && (480 <=? h_full) then 7
  else if (600 <=? w) && (400 <=? h_full) && (h_full <? 600) then 7
  else 6.

Definition bootMiddleScaleHi (w_log h_log : Z) (useHighResLayout : bool) : Z :=
  if (1600 <=? w_log) && (1200 <=? h_log) then 10
  else if (800 <=? w_log) && (600 <=? h_log) then 8
  else if negb useHighResLayout then 2
  else if h_log <? 600 then (if 600 <=? w_log then 3 else 2)
  else 6.

Definition bootMiddlePad (scale w_log h_log : Z) (useZoneLayout : bool) : Z :=
  if useZoneLayout && (w_log <? 800) && (400 <=? h_log) && (h_log <? 600) then 4 * scale else 6 * scale.

(** [bootFooterLayoutSegs]: where each segment starts. *)
Definition bootFooterLayoutSegs (segs : list bytes) (scale bandLeft bandRight : Z) : list Z :=
  let numSegs := len segs in
  let totalW := foldl (fun t s => t + bootTextWidth s (u8 scale)) 0 segs in
  let bandW := bandRight - bandLeft in
  let gap := if totalW <? bandW then Z.quot (bandW - totalW) (numSegs + 1) else 0 in
  (foldl (fun '(xs, x) s => (xs ++ [x], x + (bootTextWidth s (u8 scale) + gap))) ([], bandLeft + gap) segs).1.

Definition bootFooterTextPixelBlack (lx ly footerInfoY : Z) (segs : list bytes) (segX : list Z) (scale w_log bandRight : Z) : bool :=
  existsb (fun '(s, x) => bootTextPixelBlack lx ly (u16 x) footerInfoY s scale w_log bandRight) (zip segs segX).

(** ** The header *)

Definition bootHeaderLineGap (manufScale : Z) : Z := let g := 4 * manufScale in if g <? 4 then 4 else g.

(** A string is not empty. *)
Definition nonempty (s : bytes) : bool := negb (len s =? 0).

Definition bootHeaderBlockH (manuf model : bytes) (manufScale modelScale : Z) : Z :=
  let gap := bootHeaderLineGap manufScale in
  if nonempty manuf && nonempty model then 7 * manufScale + gap + 7 * modelScale
  else if nonempty manuf then 7 * manufScale
  else if nonempty model then 7 * modelScale
  else 0.

(** The manufacturer's scale beside the model's. *)
Definition manuf_of (modelS : Z) : Z := Z.quot (modelS * 13 + 19) 20.

(** A [while] loop of [bootPickHeaderScales]: the first scale, from [s] down, at which
    the block fits; one if none above it does. *)
Fixpoint shrink (n : nat) (s : Z) (block : Z -> Z) (room : Z) : Z :=
  match n with
  | O => s
  | S n => if negb (1 <? s) then s else if block s <=? room then s else shrink n (s - 1) block room
  end.

(** [bootPickHeaderScales]: the manufacturer's scale and the model's. *)
Definition bootPickHeaderScales (headerH headerMaxX pad : Z) (manuf model : bytes) : Z * Z :=
  if negb (nonempty manuf) && negb (nonempty model) then (1, 1)
  else
    let availW := headerMaxX - pad in
    let start (s : bytes) :=
      let n := len s in let n := if n <? 20 then 20 else n in
      let s := Z.quot availW (n * 6) in if s <? 1 then 1 else s in
    if nonempty manuf && nonempty model then
      let modelS := start model in
      let modelS := shrink (Z.to_nat modelS) modelS (fun s => bootHeaderBlockH manuf model (manuf_of s) s) (headerH - 8) in
      (manuf_of modelS, modelS)
    else if nonempty model then
      let modelS := start model in
      (1, shrink (Z.to_nat modelS) modelS (fun s => bootHeaderBlockH [] model 1 s) (headerH - 8))
    else
      let manufS := start manuf in
      (shrink (Z.to_nat manufS) manufS (fun s => bootHeaderBlockH manuf [] s 1) (headerH - 8), 1).

(** ** The middle zone *)

(** What [bootLayoutFit] leaves through its pointers. *)
Record placement := { modulePx : Z; qrPx : Z; qrRight : bool; qrX : Z; qrY : Z; availW : Z; textY : Z }.

(** One turn of its loop: the placement at one module size, if the size fits. *)
Definition fit_at (w h blockH pad qrModules maxTextW m : Z) : option placement :=
  let textGap := pad in
  let sideGap := pad in
  let q := m * qrModules in
  if w - pad * 2 <? q then None
  else
    let combinedH := if q <? blockH then blockH else q in
    let avail := w - pad * 2 - q - sideGap in
    if (pad * 2 + maxTextW + sideGap + q <=? w) && (pad * 2 + combinedH <=? h) && (maxTextW <=? avail) then
      let zoneY := Z.quot (h - combinedH) 2 in
      let '(ty, qy) := if blockH <? q then (zoneY + Z.quot (q - blockH) 2, zoneY) else (zoneY, zoneY + Z.quot (blockH - q) 2) in
      Some {| modulePx := m; qrPx := q; qrRight := true; qrX := w - pad - q; qrY := qy; availW := avail; textY := ty |}
    else if (pad * 2 + maxTextW <=? w) && (pad * 2 + blockH + textGap + q <=? h) then
      let totalH := blockH + textGap + q in
      let zoneY := Z.quot (h - totalH) 2 in
      Some {| modulePx := m; qrPx := q; qrRight := false; qrX := Z.quot (w - q) 2; qrY := zoneY + blockH + textGap;
              availW := w - pad * 2; textY := zoneY |}
    else None.

(** The loop, from [n] modules down to one. *)
Fixpoint fit_loop (n : nat) (w h blockH pad qrModules maxTextW : Z) : option placement :=
  match n with
  | O => None
  | S n' => match fit_at w h blockH pad qrModules maxTextW (Z.of_nat n) with
            | Some p => Some p
            | None => fit_loop n' w h blockH pad qrModules maxTextW
            end
  end.

Definition bootLayoutFit (w h h_full blockH pad qrModules maxTextW : Z) : option placement :=
  let minDim := if w <? h then w else h in
  let moduleIdeal := Z.quot (minDim - pad * 2) qrModules in
  let moduleIdeal := if moduleIdeal <? 1 then 1 else moduleIdeal in
  let moduleMax := bootQrModuleMax w h_full in
  let moduleIdeal := if moduleMax <? moduleIdeal then moduleMax else moduleIdeal in
  fit_loop (Z.to_nat moduleIdeal) w h blockH pad qrModules maxTextW.

(** The middle zone as it is drawn: the text's scale, the padding, and the placement
    in coordinates of the screen. *)
Record middle := { middleScaleText : Z; pad : Z; placed : placement }.

Section Middle.
Context (w_log h_log headerH middleH qrModules : Z) (useZoneLayout useHighResLayout : bool) (bootLines : list bytes).

Definition ultraHiResPanel : bool := useZoneLayout && ((1872 <=? w_log) && (1404 <=? h_log)).

(** The text's scale at one turn of the search, and the height of its five lines. *)
Definition text_scale (tryScale : Z) : Z := if ultraHiResPanel then (if 2 <? tryScale then tryScale - 2 else 1) else tryScale.
Definition contentH (scale : Z) : Z :=
  let fwKey1Gap := if useZoneLayout then scale * 6 else 0 in
  if useZoneLayout then 4 * bootLineStep scale + fwKey1Gap + 7 * scale
  else (5 - 1) * bootLineStep scale + 7 * scale.

(** One turn, and the [for] loop over the scales. *)
Definition try_scale (tryScale : Z) : option middle :=
  let scale := text_scale tryScale in
  let pad := bootMiddlePad scale w_log h_log useZoneLayout in
  let maxTextW := bootMaxTextWidth bootLines scale in
  p ← bootLayoutFit w_log (u16 middleH) h_log (contentH scale) pad qrModules maxTextW;
  Some {| middleScaleText := scale; pad := pad; placed := p |}.

Fixpoint scale_loop (n : nat) : option middle :=
  match n with
  | O => None
  | S n' => match try_scale (Z.of_nat n) with Some m => Some m | None => scale_loop n' end
  end.

(** [if (!layoutOk)]: text above the code at scale one, clipped where it does not fit. *)
Definition cramped : middle :=
  let pad := bootMiddlePad 1 w_log h_log useZoneLayout in
  let q := 1 * qrModules in
  let totalH := contentH 1 + pad + q in
  let zoneY := Z.quot (middleH - totalH) 2 in
  let zoneY := if zoneY <? pad then pad else zoneY in
  let zoneY := if middleH - pad <? zoneY + totalH then middleH - pad - totalH else zoneY in
  let zoneY := if zoneY <? pad then pad else zoneY in
  {| middleScaleText := 1; pad := pad;
     placed := {| modulePx := 1; qrPx := q; qrRight := false; qrX := Z.quot (w_log - q) 2; qrY := zoneY + contentH 1 + pad;
                  availW := w_log - pad * 2; textY := zoneY |} |}.

(** Down into the middle zone. *)
Definition into_zone (m : middle) : middle :=
  let p := placed m in
  {| middleScaleText := middleScaleText m; pad := pad m;
     placed := {| modulePx := modulePx p; qrPx := qrPx p; qrRight := qrRight p; qrX := qrX p; qrY := qrY p + headerH;
                  availW := availW p; textY := textY p + headerH |} |}.

Definition scale_hi : Z := if useZoneLayout then bootMiddleScaleHi w_log h_log useHighResLayout else 1.

Definition lay_out_middle : middle :=
  into_zone (match scale_loop (Z.to_nat scale_hi) with Some m => m | None => cramped end).
End Middle.

(** ** The best layout there is *)

(** Two rectangles in the zone, [tw] by [th] for the text and [q] square for the code:
    inside the padding, and at least [pad] apart across or down. *)
Definition arranged (w h pad tw th q tx ty qx qy : Z) : Prop :=
  (pad <= tx /\ tx + tw <= w - pad /\ pad <= ty /\ ty + th <= h - pad) /\
  (pad <= qx /\ qx + q <= w - pad /\ pad <= qy /\ qy + q <= h - pad) /\
  (tx + tw + pad <= qx \/ qx + q + pad <= tx \/ ty + th + pad <= qy \/ qy + q + pad <= ty).

Definition arrangeable (w h pad tw th q : Z) : Prop := exists tx ty qx qy, arranged w h pad tw th q tx ty qx qy.

(** Where the text of a placement starts. *)
Definition text_x (w pad : Z) (p : placement) : Z :=
  let x := if qrRight p then pad else Z.quot (w - availW p) 2 in if x <? pad then pad else x.

Section Fit.
Context (w h th pad qrModules tw : Z).
Context (Hw : 0 <= w) (Hh : 0 <= h) (Hth : 0 <= th) (Hpad : 0 <= pad) (Hqr : 0 < qrModules) (Htw : 0 <= tw).

Ltac quot_half := repeat match goal with |- context [Z.quot ?a 2] => rewrite (Z.quot_div_nonneg a 2) by lia end.

Lemma fit_at_sound m p : 0 < m -> fit_at w h th pad qrModules tw m = Some p ->
  modulePx p = m /\ qrPx p = m * qrModules /\
  arranged w h pad tw th (m * qrModules) (text_x w pad p) (textY p) (qrX p) (qrY p).
Proof using Hw Hh Hth Hpad Hqr Htw.
  intros Hm. unfold fit_at. set (q := m * qrModules). assert (0 < q) by (unfold q; nia). clearbody q.
  destruct (Z.ltb_spec (w - pad * 2) q); [done|].
  destruct (Z.leb_spec (pad * 2 + tw + pad + q) w) as [H1|H1]; cbn [andb].
  - destruct (Z.leb_spec (pad * 2 + (if q <? th then th else q)) h) as [H2|H2]; cbn [andb].
    + destruct (Z.leb_spec tw (w - pad * 2 - q - pad)); [|lia].
      destruct (Z.ltb_spec q th), (Z.ltb_spec th q); try lia; intros [= <-]; cbn; (split; [done|]; split; [done|]);
        unfold arranged, text_x; cbn; rewrite Z.ltb_irrefl; Z.to_euclidean_division_equations; lia.
    + destruct (Z.ltb_spec q th); destruct (Z.leb_spec (pad * 2 + tw) w); cbn [andb]; try lia;
      (destruct (Z.leb_spec (pad * 2 + th + pad + q) h); [lia|done]).
  - destruct (Z.leb_spec (pad * 2 + tw) w); cbn [andb]; [|done].
    destruct (Z.leb_spec (pad * 2 + th + pad + q) h); [|done]. intros [= <-]. cbn. split; [done|]. split; [done|].
    unfold arranged, text_x. cbn. replace (w - (w - pad * 2)) with (pad * 2) by lia. rewrite Z.quot_mul, Z.ltb_irrefl by lia.
    Z.to_euclidean_division_equations. lia.
Qed.

Lemma fit_at_complete m : 0 < m -> fit_at w h th pad qrModules tw m = None -> ~ arrangeable w h pad tw th (m * qrModules).
Proof using Hw Hh Hth Hpad Hqr Htw.
  intros Hm. unfold fit_at. set (q := m * qrModules). assert (0 < q) by (unfold q; nia). clearbody q.
  intros Hf (tx & ty & qx & qy & Ht & Hq & Ha). revert Hf.
  destruct (Z.ltb_spec (w - pad * 2) q); [lia|].
  destruct (Z.leb_spec (pad * 2 + tw + pad + q) w) as [H1|H1]; cbn [andb].
  - destruct (Z.leb_spec (pad * 2 + (if q <? th then th else q)) h) as [H2|H2]; cbn [andb].
    + destruct (Z.leb_spec tw (w - pad * 2 - q - pad)); [|lia]. by destruct (th <? q).
    + destruct (Z.ltb_spec q th); lia.
  - destruct (Z.leb_spec (pad * 2 + tw) w); cbn [andb]; [|lia].
    destruct (Z.leb_spec (pad * 2 + th + pad + q) h); [done|]. lia.
Qed.

Lemma fit_loop_spec n :
  match fit_loop n w h th pad qrModules tw with
  | Some p => 1 <= modulePx p <= Z.of_nat n /\ fit_at w h th pad qrModules tw (modulePx p) = Some p /\
      forall m, modulePx p < m <= Z.of_nat n -> ~ arrangeable w h pad tw th (m * qrModules)
  | None => forall m, 1 <= m <= Z.of_nat n -> ~ arrangeable w h pad tw th (m * qrModules)
  end.
Proof using Hw Hh Hth Hpad Hqr Htw.
  induction n as [|n IH]; [cbn; intros; lia|]. cbn [fit_loop].
  destruct (fit_at w h th pad qrModules tw (Z.of_nat (S n))) as [p|] eqn:Hf.
  - destruct (fit_at_sound (Z.of_nat (S n)) p ltac:(lia) Hf) as (Hm & _). rewrite Hm. split; [lia|]. split; [done|]. intros. lia.
  - pose proof (fit_at_complete (Z.of_nat (S n)) ltac:(lia) Hf) as Hno. destruct (fit_loop n w h th pad qrModules tw) as [p|].
    + destruct IH as (Hr & Hfp & Hmax). split; [lia|]. split; [done|]. intros m Hm.
      destruct (Z.eq_dec m (Z.of_nat (S n))) as [->|]; [done|]. apply Hmax. lia.
    + intros m Hm. destruct (Z.eq_dec m (Z.of_nat (S n))) as [->|]; [done|]. apply IH. lia.
Qed.

Lemma module_max_pos h_full : 6 <= bootQrModuleMax w h_full.
Proof using. unfold bootQrModuleMax. repeat case_match; lia. Qed.

(** No module larger than the loop's first, other than through the cap. *)
Lemma layout_fit_spec h_full :
  match bootLayoutFit w h h_full th pad qrModules tw with
  | Some p => 1 <= modulePx p <= bootQrModuleMax w h_full /\ fit_at w h th pad qrModules tw (modulePx p) = Some p /\
      forall m, modulePx p < m <= bootQrModuleMax w h_full -> ~ arrangeable w h pad tw th (m * qrModules)
  | None => forall m, 1 <= m -> ~ arrangeable w h pad tw th (m * qrModules)
  end.
Proof using Hw Hh Hth Hpad Hqr Htw.
  pose proof (module_max_pos h_full) as Hmax. unfold bootLayoutFit. set (cap := bootQrModuleMax w h_full) in *. clearbody cap.
  set (room := (if w <? h then w else h) - pad * 2).
  set (ideal := Z.quot room qrModules).
  (* a module that fits is within the ideal *)
  assert (Hideal : forall m, 1 <= m -> arrangeable w h pad tw th (m * qrModules) -> m <= ideal).
  { intros m Hm (tx & ty & qx & qy & _ & Hq & _). assert (Hroom : m * qrModules <= room) by (unfold room; destruct (w <? h); lia).
    unfold ideal. rewrite Z.quot_div_nonneg by nia. apply Z.div_le_lower_bound; lia. }
  set (n := if cap <? _ then _ else _). assert (Hn : 1 <= n <= cap /\ (forall m, m <= ideal -> m <= cap -> m <= n)).
  { unfold n. destruct (Z.ltb_spec ideal 1); [destruct (Z.ltb_spec cap 1)|destruct (Z.ltb_spec cap ideal)]; split; lia. }
  clearbody n. destruct Hn as [Hn1 Hn2]. pose proof (fit_loop_spec (Z.to_nat n)) as Hl. rewrite Z2Nat.id in Hl by lia.
  destruct (fit_loop _ _ _ _ _ _ _) as [p|].
  - destruct Hl as (Hr & Hf & Hm). split; [lia|]. split; [done|]. intros m Hm' Ha. apply (Hm m); [|done]. split; [lia|].
    apply Hn2; [apply Hideal; [lia|done]|lia].
  - intros m Hm Ha. pose proof (Hideal m Hm Ha). assert (Hle : 1 <= n) by lia.
    (* if [m] does not fit below the cap, a single pixel to a module does *)
    apply (Hl 1); [lia|]. destruct Ha as (tx & ty & qx & qy & Ht & Hq & Hd). exists tx, ty.
    destruct Hd as [Hd|[Hd|[Hd|Hd]]]; [exists qx, qy|exists qx, qy|exists qx, qy|exists qx, qy]; (split; [exact Ht|]; nia).
Qed.
End Fit.

(** The widest line, for lines whose width does not wrap. *)
Lemma max_text_width lines scale : 0 < scale < 256 -> Forall (fun l => len l * 6 * scale < 65536) lines ->
  0 <= bootMaxTextWidth lines scale /\ Forall (fun l => len l * 6 * scale <= bootMaxTextWidth lines scale) lines.
Proof.
  intros Hs Hl. unfold bootMaxTextWidth. assert (Hw : forall l, len l * 6 * scale < 65536 -> bootTextWidth l (u8 scale) = len l * 6 * scale).
  { intros l H. unfold bootTextWidth. rewrite (wrap_id 8) by (unfold fits; change (2 ^ 8) with 256; lia). destruct (Z.eqb_spec scale 0); [lia|].
    rewrite (wrap_id 32), wrap_id; [done|..]; unfold fits; [change (2 ^ 16) with 65536|change (2 ^ 32) with 4294967296]; nia. }
  assert (Hgen : forall ls m, 0 <= m -> Forall (fun l => len l * 6 * scale < 65536) ls ->
    let r := foldl (fun maxW line => let tw := bootTextWidth line (u8 scale) in if maxW <? tw then tw else maxW) m ls in
    m <= r /\ Forall (fun l => len l * 6 * scale <= r) ls).
  { induction ls as [|l ls IH]; intros m Hm Hls; [by cbn|]. apply Forall_cons in Hls as [H1 H2]. cbn [foldl]. rewrite (Hw l H1).
    cbv zeta. set (next := if m <? len l * 6 * scale then _ else m).
    assert (Hn : m <= next /\ len l * 6 * scale <= next) by (unfold next; destruct (Z.ltb_spec m (len l * 6 * scale)); lia).
    clearbody next. destruct (IH next) as [HA HB]; [lia|done|]. cbv zeta in HA, HB. split; [lia|]. apply Forall_cons. split; [lia|done]. }
  by apply (Hgen lines 0).
Qed.

Section Best.
Context (w_log h_log headerH middleH qrModules : Z) (useZoneLayout useHighResLayout : bool) (bootLines : list bytes).
Context (Hw : fits 16 w_log) (Hm : fits 16 middleH) (Hqr : 0 < qrModules).
Context (Hlines : Forall (fun l => len l <= 64) bootLines).

Abbreviation scale_at := (text_scale w_log h_log useZoneLayout).
Abbreviation content := (contentH useZoneLayout).
Abbreviation pad_of s := (bootMiddlePad s w_log h_log useZoneLayout).
Abbreviation width_of s := (bootMaxTextWidth bootLines s).
Abbreviation tries := (scale_hi w_log h_log useZoneLayout useHighResLayout).

(** At the [s]th scale a code of [m] pixels to a module can be put beside or below the text. *)
Definition possible (s m : Z) : Prop :=
  let scale := scale_at s in arrangeable w_log middleH (pad_of scale) (width_of scale) (content scale) (m * qrModules).

Lemma tries_range : 1 <= tries <= 10.
Proof using. unfold scale_hi, bootMiddleScaleHi. repeat case_match; lia. Qed.

Lemma scale_at_range s : 1 <= s -> 1 <= scale_at s <= s.
Proof using. intros Hs. unfold text_scale. destruct (ultraHiResPanel _ _ _), (Z.ltb_spec 2 s); lia. Qed.

Lemma measures scale : 1 <= scale <= 10 ->
  0 <= pad_of scale /\ 0 <= content scale /\ 0 <= width_of scale /\ Forall (fun l => 6 * scale * len l <= width_of scale) bootLines.
Proof using Hlines.
  intros Hs. unfold bootMiddlePad, contentH, bootLineStep. split; [destruct (_ && _); lia|]. split; [destruct useZoneLayout; lia|].
  destruct (max_text_width bootLines scale) as [H0 H1]; [lia| |split; [done|]].
  - eapply Forall_impl; [exact Hlines|]. cbn. intros l Hl. nia.
  - eapply Forall_impl; [exact H1|]. cbn. intros l Hl. lia.
Qed.

Lemma try_scale_spec s : 1 <= s <= 10 ->
  match try_scale w_log h_log middleH qrModules useZoneLayout bootLines s with
  | Some m => let p := placed m in
      middleScaleText m = scale_at s /\ pad m = pad_of (scale_at s) /\
      1 <= modulePx p <= bootQrModuleMax w_log h_log /\ qrPx p = modulePx p * qrModules /\
      arranged w_log middleH (pad m) (width_of (scale_at s)) (content (scale_at s)) (qrPx p)
        (text_x w_log (pad m) p) (textY p) (qrX p) (qrY p) /\
      forall k, modulePx p < k <= bootQrModuleMax w_log h_log -> ~ possible s k
  | None => forall k, 1 <= k -> ~ possible s k
  end.
Proof using Hw Hm Hqr Hlines.
  intros Hs. pose proof (scale_at_range s ltac:(lia)) as Hr. destruct (measures (scale_at s) ltac:(lia)) as (Hp & Hc & Hwd & _).
  unfold try_scale. rewrite (wrap_id 16 middleH Hm). unfold fits in Hw, Hm.
  pose proof (layout_fit_spec w_log middleH (content (scale_at s)) (pad_of (scale_at s)) qrModules (width_of (scale_at s))
    ltac:(lia) ltac:(lia) Hc Hp Hqr Hwd h_log) as Hl.
  destruct (bootLayoutFit _ _ _ _ _ _ _) as [p|]; cbn [mbind option_bind]; [|done]. destruct Hl as (H1 & Hf & Hmax).
  destruct (fit_at_sound w_log middleH (content (scale_at s)) (pad_of (scale_at s)) qrModules (width_of (scale_at s))
    ltac:(lia) ltac:(lia) Hc Hp Hqr Hwd (modulePx p) p ltac:(lia) Hf) as (_ & Hq & Ha).
  cbn. split_and!; [done|done|lia|lia|done|by rewrite Hq|done].
Qed.

(** The middle zone is used as well as it can be: the text is set at the largest
    scale of the search at which text and QR code have any place in the zone, the code
    is then drawn with the largest module (up to the panel's cap) for which they have,
    both lie inside the zone's padding and keep it between them, and every line of the
    text is within the width set aside.  Only when no scale leaves room for a code of
    one pixel to a module is the fallback drawn, at scale one and below the header. *)
Theorem boot_layout_best :
  let m := lay_out_middle w_log h_log headerH middleH qrModules useZoneLayout useHighResLayout bootLines in
  let p := placed m in
  (exists s, 1 <= s <= tries /\ middleScaleText m = scale_at s /\
     arranged w_log middleH (pad m) (width_of (middleScaleText m)) (content (middleScaleText m)) (qrPx p)
       (text_x w_log (pad m) p) (textY p - headerH) (qrX p) (qrY p - headerH) /\
     Forall (fun l => 6 * middleScaleText m * len l <= width_of (middleScaleText m)) bootLines /\
     qrPx p = modulePx p * qrModules /\ 1 <= modulePx p <= bootQrModuleMax w_log h_log /\
     (forall k, modulePx p < k <= bootQrModuleMax w_log h_log -> ~ possible s k) /\
     (forall s' k, s < s' <= tries -> 1 <= k -> ~ possible s' k)) \/
  ((forall s k, 1 <= s <= tries -> 1 <= k -> ~ possible s k) /\
   middleScaleText m = 1 /\ modulePx p = 1 /\ headerH + pad m <= textY p).
Proof using Hw Hm Hqr Hlines.
  assert (Hloop : forall n, (n <= 10)%nat ->
    match scale_loop w_log h_log middleH qrModules useZoneLayout bootLines n with
    | Some m => exists s, 1 <= s <= Z.of_nat n /\
        try_scale w_log h_log middleH qrModules useZoneLayout bootLines s = Some m /\ forall s' k, s < s' <= Z.of_nat n -> 1 <= k -> ~ possible s' k
    | None => forall s k, 1 <= s <= Z.of_nat n -> 1 <= k -> ~ possible s k
    end).
  { induction n as [|n IH]; intros Hn; [cbn; intros; lia|]. cbn [scale_loop].
    destruct (try_scale _ _ _ _ _ _ (Z.of_nat (S n))) as [m|] eqn:Ht; [exists (Z.of_nat (S n)); split; [lia|]; split; [done|]; intros; lia|].
    pose proof (try_scale_spec (Z.of_nat (S n)) ltac:(lia)) as Hno. rewrite Ht in Hno. specialize (IH ltac:(lia)).
    destruct (scale_loop _ _ _ _ _ _ n) as [m|].
    - destruct IH as (s & Hs & Htry & Hmax). exists s. split; [lia|]. split; [done|]. intros s' k Hs'.
      destruct (Z.eq_dec s' (Z.of_nat (S n))) as [->|]; [apply Hno|apply Hmax; lia].
    - intros s k Hs. destruct (Z.eq_dec s (Z.of_nat (S n))) as [->|]; [apply Hno|apply IH; lia]. }
  pose proof tries_range as Htr. specialize (Hloop (Z.to_nat tries) ltac:(lia)). rewrite Z2Nat.id in Hloop by lia.
  cbv zeta. unfold lay_out_middle. destruct (scale_loop _ _ _ _ _ _ _) as [m|].
  - left. destruct Hloop as (s & Hs & Ht & Hmax). exists s. pose proof (try_scale_spec s ltac:(lia)) as Hsp. rewrite Ht in Hsp. cbn zeta in Hsp.
    destruct Hsp as (Hsc & Hp & Hmod & Hq & Ha & Hk). pose proof (scale_at_range s ltac:(lia)).
    destruct (measures (scale_at s) ltac:(lia)) as (_ & _ & _ & Hfl). cbn. rewrite !Z.add_simpl_r, Hsc. split_and!; try done; lia.
  - right. split; [done|]. cbn. split; [done|]. split; [done|]. match goal with |- context [if ?a <? ?b then ?b else ?a] => destruct (Z.ltb_spec a b) end; lia.
Qed.
End Best.

(** A 400 by 300 panel and a panel of 64 by 32. *)
Definition demo_lines : list bytes := [codes "URL:  OpenDisplay.org"; codes "ID:   OD0A0B0C"; codes "FW:   OD ver 1.2.3"; codes "KEY1: not set"; codes "KEY2: not set"].

Lemma boot_layout_best_witness :
  let m := lay_out_middle 400 300 60 195 49 true false demo_lines in
  middleScaleText m = 2 /\ modulePx (placed m) = 2 /\ ~ possible 400 300 195 49 true demo_lines 2 3.
Proof.
  assert (Hl : Forall (fun l => len l <= 64) demo_lines) by (repeat constructor; vm_compute; congruence).
  assert (Hf : forall x, 0 <= x < 65536 -> fits 16 x) by done.
  pose proof (boot_layout_best 400 300 60 195 49 true false demo_lines (Hf 400 ltac:(lia)) (Hf 195 ltac:(lia)) ltac:(lia) Hl) as Hw.
  cbv zeta in *. split; [vm_compute; reflexivity|]. split; [vm_compute; reflexivity|].
  destruct Hw as [(s & _ & Hs & _ & _ & _ & _ & Hk & _)|(_ & Hs & _)].
  - vm_compute in Hs. destruct s as [|[[]| []|]|]; try discriminate Hs. apply Hk. vm_compute. split; congruence.
  - vm_compute in Hs. discriminate Hs.
Defined.

End BootLayout.
