(* ===== verification/BootScreen.v ===== *)
(** The boot screen's renderer, [od_boot_screen_render] of [shared/core/od_boot_screen.c],
    over the target's callbacks of [od_boot_app.h], a QR encoder and the logo bitmaps:
    what is laid out, what ink each point of the screen has, and the rows that are sent.
    The theorems are in [BootScreenProofs]. *)

From stdpp Require Import strings pretty.
From Stdlib Require Import SpecFloat.
From S2P Require Import Prelude Float Color Proto Config BootPayload BootDraw BootLayout.
Import Float Color Proto Config BootPayload BootDraw BootLayout.

Module BootScreen.

Definition OD_BOOT_PLANE_PRIMARY : Z := 0.
Definition OD_BOOT_PLANE_SECOND : Z := 1.
Definition OD_BOOT_URL_SIZE : Z := 64.
Definition OD_COLOR_SCHEME_GRAY8 : Z := 9.
Definition ECC_MEDIUM : Z := 1.

(** The target's half. *)
Class BootApp (E : Type) := {
  od_boot_app_begin_frame : Z -> Z -> Z -> E -> Z * E;
  od_boot_app_begin_plane : Z -> E -> Z * E;
  od_boot_app_write_row : Z -> Z -> bytes -> E -> Z * E;
  od_boot_app_end_plane : Z -> E -> Z * E;
  od_boot_app_end_frame : E -> Z * E;
  od_boot_app_bits_per_pixel : Z -> E -> Z * E;
  od_boot_app_default_plane : Z -> E -> Z * E;
  od_boot_app_direct_2bpp : E -> bool * E;
  od_boot_app_segments : E -> Z * E;
  od_boot_app_device_id24 : E -> Z * E;
  od_boot_app_firmware_version : E -> Z * Z * Z * E;
  od_boot_app_battery_volts : E -> float32 * E;
  od_boot_app_chip_temp_c : E -> float32 * E;
}.

(** The QR encoder (third-party): the modules are written to a buffer only it reads. *)
Class QrEncoder (Q : Type) := {
  qrcode_getBufferSize : Z -> Z;
  qrcode_initText : Z -> Z -> bytes -> Z * Q;
  qrcode_size : Q -> Z;
  qrcode_getModule : Q -> Z -> Z -> bool;
}.

(** A logo bitmap, and those the build has: [OD_BOOT_LOGO_SIZES] of them. *)
Record logo := { logoBmp : bytes; logoW : Z; logoH : Z; logoStride : Z }.
Record logos := { OD_BOOT_LOGO_SIZES : Z; BOOT_LOGO_S1 : logo; BOOT_LOGO_S2 : logo; BOOT_LOGO_S3 : logo }.

(** The fields of [struct DisplayConfig] and [struct ManufacturerData] that are read. *)
Definition panel_ic_type (d : bytes) : Z := d.[2] + 256 * d.[3].
Definition pixel_width (d : bytes) : Z := d.[4] + 256 * d.[5].
Definition pixel_height (d : bytes) : Z := d.[6] + 256 * d.[7].
Definition legacy_tag_type (d : bytes) : Z := d.[12] + 256 * d.[13].
Definition display_rotation (d : bytes) : Z := d.[14].
Definition partial_update_support (d : bytes) : Z := d.[20].
Definition color_scheme (d : bytes) : Z := d.[21].
Definition manufacturer_id (m : bytes) : Z := m.[0] + 256 * m.[1].

(** [struct od_boot_bufs]; of [qr] only whether it is there and its length matter. *)
Record od_boot_bufs := { b_row : option bytes; row_len : Z; b_qr : bool; qr_len : Z }.

(** ** Formatting *)

(** The string at the start of a buffer. *)
Fixpoint cstr (b : bytes) : bytes := match b with c :: b => if c =? 0 then [] else c :: cstr b | [] => [] end.

(** [%u]; [%06lX] of a number below [2^24]. *)
Definition fmt_u (v : Z) : bytes := codes (pretty (Z.to_N v)).
Definition fmt_06lX (v : Z) : bytes := (fun k => hex.[Z.land (Z.shiftr v k) 15]) <$> [20; 16; 12; 8; 4; 0].

(** [%.df]: the number times [10^d], rounded to the nearest integer, ties to even. *)
Definition scaled (d : Z) (m : positive) (e : Z) : Z :=
  let num := Zpos m * 10 ^ d in
  if 0 <=? e then num * 2 ^ e
  else
    let den := 2 ^ (- e) in
    let q := num / den in
    let r := num mod den in
    if 2 * r <? den then q else if den <? 2 * r then q + 1 else if Z.even q then q else q + 1.
Definition fmt_fixed (d : Z) (x : float32) : bytes :=
  let sign (s : bool) := if s then codes "-" else [] in
  let decimal (n : Z) :=
    let frac := fmt_u (n mod 10 ^ d) in
    fmt_u (n / 10 ^ d) ++ codes "." ++ replicate (Z.to_nat d - length frac) 48 ++ frac in
  match x with
  | S754_zero s => sign s ++ decimal 0
  | S754_infinity s => sign s ++ codes "inf"
  | S754_nan => codes "nan"
  | S754_finite s m e => sign s ++ decimal (scaled d m e)
  end.

(** A string literal in a buffer of [size] bytes. *)
Definition text_in (size : Z) (text : bytes) : bytes := (snprintf text size).1.

(** ** What is drawn *)

(** One string: its corner, scale and right limit. *)
Record label := { l_x : Z; l_y : Z; l_text : bytes; l_scale : Z; l_maxX : Z }.

(** The constants and variables of the renderer its pixel loop reads. *)
Record screen (Q : Type) := {
  s_w : Z; s_h : Z; rotation : Z; w_log : Z; h_log : Z; useZoneLayout : bool; headerH : Z; footerY0 : Z;
  bitsPerPixel : Z; pitch : Z; whiteValue : Z; colorScheme : Z; direct2bpp : bool; useBitplanes : bool;
  swatchY0 : Z; swatchW : Z; numSwatches : Z; swatchCode : bytes; swatchIsColor : list bool;
  labels : list label;
  footerSegs : list bytes; footerSegX : list Z; footerInfoY : Z; footerInfoScale : Z; footerBandRight : Z;
  middlePlaced : placement; s_qrX : Z; qr : Q; logoX : Z; logoY : Z; s_logo : logo;
}.
#[global] Arguments s_w {Q}. #[global] Arguments s_h {Q}. #[global] Arguments rotation {Q}. #[global] Arguments w_log {Q}.
#[global] Arguments h_log {Q}. #[global] Arguments useZoneLayout {Q}. #[global] Arguments headerH {Q}. #[global] Arguments footerY0 {Q}.
#[global] Arguments bitsPerPixel {Q}. #[global] Arguments pitch {Q}. #[global] Arguments whiteValue {Q}. #[global] Arguments colorScheme {Q}.
#[global] Arguments direct2bpp {Q}. #[global] Arguments useBitplanes {Q}. #[global] Arguments swatchY0 {Q}. #[global] Arguments swatchW {Q}.
#[global] Arguments numSwatches {Q}. #[global] Arguments swatchCode {Q}. #[global] Arguments swatchIsColor {Q}. #[global] Arguments labels {Q}.
#[global] Arguments footerSegs {Q}. #[global] Arguments footerSegX {Q}. #[global] Arguments footerInfoY {Q}.
#[global] Arguments footerInfoScale {Q}. #[global] Arguments footerBandRight {Q}. #[global] Arguments middlePlaced {Q}.
#[global] Arguments s_qrX {Q}. #[global] Arguments qr {Q}. #[global] Arguments logoX {Q}. #[global] Arguments logoY {Q}. #[global] Arguments s_logo {Q}.

(** The [switch] that sets the swatches: the sixteen codes, which of them are colours of
    the second plane, and how many are used. *)
Definition codes16 (l : bytes) : bytes := l ++ replicate (16 - length l) 0.
Definition no_colors : list bool := replicate 16 false.
Definition swatches (scheme panelIc : Z) (direct : bool) : bytes * list bool * Z :=
  if (scheme =? OD_COLOR_SCHEME_MONO) || (scheme =? OD_COLOR_SCHEME_SEVEN_COLOR) then (codes16 [0; 1], no_colors, 2)
  else if (scheme =? OD_COLOR_SCHEME_BWR) || (scheme =? OD_COLOR_SCHEME_BWY) then (codes16 [0; 1; 1], no_colors.[2 := true], 3)
  else if scheme =? OD_COLOR_SCHEME_BWRY then (codes16 [0; 1; 2; 3], no_colors, 4)
  else if (scheme =? OD_COLOR_SCHEME_BWGBRY) || (scheme =? OD_COLOR_SCHEME_BWGBRY_SPLIT) then (codes16 kBwgbrySwatchCodes, no_colors, 6)
  else if scheme =? OD_COLOR_SCHEME_GRAY4 then (codes16 (bootGray4FillSwatchCodes panelIc direct), no_colors, 4)
  else if scheme =? OD_COLOR_SCHEME_GRAY16 then ([0; 1; 2; 3; 4; 5; 6; 7; 8; 9; 10; 11; 12; 13; 14; 15], no_colors, 16)
  else (codes16 [], no_colors, 0).

(** The logo that is drawn: the largest the header has room for. *)
Definition pick_logo (ls : logos) (w_log headerH : Z) : logo :=
  let maxLogoH := headerH - 16 in
  let maxLogoW := Z.quot (w_log * 3) 10 in
  let room (l : logo) := (logoH l <=? maxLogoH) && (logoW l <? maxLogoW) in
  if (3 <=? OD_BOOT_LOGO_SIZES ls) && room (BOOT_LOGO_S3 ls) then BOOT_LOGO_S3 ls
  else if (2 <=? OD_BOOT_LOGO_SIZES ls) && room (BOOT_LOGO_S2 ls) then BOOT_LOGO_S2 ls
  else BOOT_LOGO_S1 ls.
Definition no_logo : logo := {| logoBmp := []; logoW := 0; logoH := 0; logoStride := 0 |}.

(** The header's two strings with their corners and scales. *)
Definition header_labels (headerH headerTextMaxX pad : Z) (manufLine modelLine : bytes) : list label :=
  if negb (nonempty manufLine) && negb (nonempty modelLine) then []
  else
    let '(manufS, modelS) := bootPickHeaderScales headerH headerTextMaxX pad manufLine modelLine in
    let headerGap := bootHeaderLineGap manufS in
    let headerBlockH := bootHeaderBlockH manufLine modelLine manufS modelS in
    let headerBlockY0 := Z.quot (headerH - headerBlockH) 2 in
    let '(manufY, modelY) := if nonempty manufLine then (u16 headerBlockY0, u16 (headerBlockY0 + 7 * manufS + headerGap))
                             else (0, u16 headerBlockY0) in
    (if nonempty manufLine then [{| l_x := u16 pad; l_y := manufY; l_text := manufLine; l_scale := u8 manufS; l_maxX := headerTextMaxX |}] else []) ++
    (if nonempty modelLine then [{| l_x := u16 pad; l_y := modelY; l_text := modelLine; l_scale := u8 modelS; l_maxX := headerTextMaxX |}] else []).

(** The five lines of the middle zone from [textY] down. *)
Definition middle_labels (texts : bytes * bytes * bytes * bytes * bytes) (x textY scale maxX : Z) (zone : bool) : list label :=
  let '(domainLine, nameLine, fwLine, k1, k2) := texts in
  let ls := bootLineStep scale in
  let middleFwKey1Gap := if zone then scale * 6 else 0 in
  let domY := u16 textY in
  let nameY := u16 (textY + ls) in
  let fwY := u16 (textY + ls * 2) in
  let k1Y := if zone then u16 (fwY + ls + middleFwKey1Gap) else u16 (fwY + ls) in
  let k2Y := u16 (k1Y + ls) in
  let at_y y text := {| l_x := u16 x; l_y := y; l_text := text; l_scale := u8 scale; l_maxX := maxX |} in
  [at_y domY domainLine; at_y nameY nameLine; at_y fwY fwLine; at_y k1Y k1; at_y k2Y k2].

Section Point.
Context {Q : Type} `{QrEncoder Q}.
Implicit Types (s : screen Q).

(** The [switch] on the rotation: the logical point of a native pixel. *)
Definition logical (s : screen Q) (x_native y_native : Z) : Z * Z :=
  if rotation s =? 1 then (y_native, u16 (h_log s - 1 - x_native))
  else if rotation s =? 2 then (u16 (w_log s - 1 - x_native), u16 (h_log s - 1 - y_native))
  else if rotation s =? 3 then (u16 (w_log s - 1 - y_native), x_native)
  else (x_native, y_native).

Definition swatch_at (s : screen Q) (lx ly : Z) : Z :=
  bootSwatchIndex lx ly (swatchY0 s) (h_log s) (swatchW s) (numSwatches s) (w_log s).
Definition border_at (s : screen Q) (lx ly : Z) : bool :=
  bootSwatchIsBorder lx ly (swatchY0 s) (h_log s) (swatchW s) (numSwatches s) (w_log s).

(** [black]. *)
Definition black (s : screen Q) (lx ly : Z) : bool :=
  border_at s lx ly ||
  (useZoneLayout s && ((ly =? u16 (headerH s)) || (ly =? u16 (headerH s + 1)) || (ly =? u16 (footerY0 s)) || (ly =? u16 (footerY0 s + 1)))) ||
  existsb (fun l => bootTextPixelBlack lx ly (l_x l) (l_y l) (l_text l) (l_scale l) (w_log s) (l_maxX l)) (labels s) ||
  (negb (len (footerSegs s) =? 0) &&
     bootFooterTextPixelBlack lx ly (footerInfoY s) (footerSegs s) (footerSegX s) (u8 (footerInfoScale s)) (w_log s) (footerBandRight s)) ||
  bootQrPixelBlack lx ly (s_qrX s) (qrY (middlePlaced s)) (qrPx (middlePlaced s)) (modulePx (middlePlaced s)) 4 (qrcode_size (qr s))
    (qrcode_getModule (qr s)) ||
  (useZoneLayout s && (0 <? logoW (s_logo s)) &&
     bootLogoPixelBlack lx ly (logoX s) (logoY s) (logoBmp (s_logo s)) (logoW (s_logo s)) (logoH (s_logo s)) (logoStride (s_logo s)) (w_log s)).

(** One pixel of the row: the body of the pixel loop. *)
Definition draw_pixel (s : screen Q) (colorPlanePass : bool) (x_native y_native : Z) (row : bytes) : bytes :=
  let '(lx, ly) := logical s x_native y_native in
  if colorPlanePass then
    let si := swatch_at s lx ly in
    if (0 <=? si) && negb (border_at s lx ly) && (swatchIsColor s).[si] then setBootPixelCode row x_native (pitch s) 1 1 else row
  else if black s lx ly then setBootPixelBlack row x_native (pitch s) (bitsPerPixel s)
  else
    let si := swatch_at s lx ly in
    if 0 <=? si then setBootPixelCode row x_native (pitch s) (bitsPerPixel s) (swatchCode s).[si] else row.

(** The pixel loop, from [x] on. *)
Fixpoint draw_pixels (n : nat) (s : screen Q) (colorPlanePass : bool) (x y_native : Z) (row : bytes) : bytes :=
  match n with
  | O => row
  | S n => draw_pixels n s colorPlanePass (x + 1) y_native (draw_pixel s colorPlanePass x y_native row)
  end.

Definition colorSwatchPlane1 (s : screen Q) : bool := useBitplanes s && (0 <? numSwatches s).
Definition gray4Split (s : screen Q) : bool := (colorScheme s =? OD_COLOR_SCHEME_GRAY4) && negb (direct2bpp s).
Definition planePitch (s : screen Q) : Z := Z.quot (s_w s + 7) 8.
Definition planePasses (s : screen Q) : Z := if gray4Split s || colorSwatchPlane1 s then 2 else 1.
End Point.

(** ** Preparing the screen *)

Section Render.
Context {E Q : Type} `{!BootApp E} `{!QrEncoder Q}.
Context (ls : logos) (B : build).

(** The two optional header strings. *)
Definition header_strings (cfg : od_config) : bytes * bytes :=
  if OD_CONFIG_WITH_DATA_EXTENDED B && data_extended_loaded cfg then
    (text_in 32 (cstr (data_extended cfg)), text_in 32 (cstr (drop 32 (data_extended cfg))))
  else ([], []).

(** The key's two lines. *)
Definition key_lines (key : bytes) (showKey zone : bool) : bytes * bytes :=
  if zone then
    (od_boot_format_key_line (Some (codes "KEY1:")) (Some key) 8 (od_boot_key_is_zero (Some key)) showKey 24,
     od_boot_format_key_line (Some (codes "KEY2:")) (Some (drop 8 key)) 8 (od_boot_key_is_zero (Some key)) showKey 24)
  else
    let keyHex := od_boot_format_key_display (Some key) showKey in
    (take 16 keyHex, take 16 (drop 16 keyHex)).

(** The battery and temperature texts; both empty outside the zone layout. *)
Definition sensor_texts (zone : bool) (e : E) : bytes * bytes * E :=
  if zone then
    let '(batV, e) := od_boot_app_battery_volts e in
    let '(chipT, e) := od_boot_app_chip_temp_c e in
    let vStr := if SFleb (f32 0 0) batV then text_in 8 (fmt_fixed 2 batV ++ codes "V") else text_in 8 (codes "--V") in
    let tStr := if SFltb (f32 (-900) 0) chipT then text_in 8 (fmt_fixed 1 chipT ++ codes "C") else text_in 8 (codes "--C") in
    (vStr, tStr, e)
  else ([], [], e).

Definition footer_texts (zone hires : bool) (vStr tStr : bytes) (scheme partial w_log h_log : Z) : list bytes :=
  if zone && nonempty vStr then
    [vStr; tStr] ++
    (if hires then
       [formatBootColorSchemeText scheme 16] ++ (if negb (partial =? 0) then [codes "+Partial Refresh"] else []) ++
       [text_in 16 (fmt_u w_log ++ codes "x" ++ fmt_u h_log)]
     else [])
  else [].

(** The sizes the renderer takes from the display's configuration. *)
Record geometry := {
  g_w : Z; g_h : Z; g_rotation : Z; g_w_log : Z; g_h_log : Z; g_zone : bool; g_hires : bool; g_headerH : Z; g_footerH : Z;
  g_footerInfoScale : Z; g_footerY0 : Z;
}.
Definition footerInfoH (g : geometry) : Z := g_footerInfoScale g * 7 + 4.
Definition middleH (g : geometry) : Z := g_footerY0 g - g_headerH g.

Definition geometry_of (d : bytes) : geometry :=
  let w := pixel_width d in
  let h := pixel_height d in
  let rotation := display_rotation d in
  let is90or270 := (rotation =? 1) || (rotation =? 3) in
  let w_log := if is90or270 then h else w in
  let h_log := if is90or270 then w else h in
  let useZoneLayout := (400 <=? w_log) && (300 <=? h_log) in
  let useHighResLayout := useZoneLayout && ((600 <=? w_log) && (400 <=? h_log)) in
  let isLandscape := h_log <? w_log in
  let headerH := if useZoneLayout then Z.quot (h_log * (if isLandscape then 20 else 15)) 100 else 0 in
  let footerH := if useZoneLayout then Z.quot (h_log * (if isLandscape then 15 else 12)) 100 else 0 in
  let targetFooterInfoH := if useZoneLayout then Z.quot (h_log * (if isLandscape then 4 else 3)) 100 else 0 in
  {| g_w := w; g_h := h; g_rotation := rotation; g_w_log := w_log; g_h_log := h_log; g_zone := useZoneLayout; g_hires := useHighResLayout;
     g_headerH := headerH; g_footerH := footerH; g_footerInfoScale := Z.quot (targetFooterInfoH - 4) 7; g_footerY0 := h_log - footerH |}.

Definition footerPadTop (g : geometry) : Z := if g_zone g then 8 else 0.

(** The texts of the screen. *)
Record texts := {
  manufLine : bytes; modelLine : bytes; domainLine : bytes; nameLine : bytes; fwLine : bytes; k1 : bytes; k2 : bytes; vStr : bytes; tStr : bytes;
}.

Definition texts_of (cfg : od_config) (zone : bool) (last3 : Z) (key : bytes) (showKey : bool) (fwVersion : Z * Z * Z) (sensors : bytes * bytes) : texts :=
  let last6 := text_in 7 (fmt_06lX last3) in
  let '(fwMajor, fwMinor, fwPatch) := fwVersion in
  let version := fmt_u fwMajor ++ codes "." ++ fmt_u fwMinor ++ codes "." ++ fmt_u fwPatch in
  let keys := key_lines key showKey zone in
  {| manufLine := (header_strings cfg).1; modelLine := (header_strings cfg).2;
     domainLine := if zone then codes "URL:  OpenDisplay.org" else codes "OpenDisplay.org";
     nameLine := text_in 32 (if zone then codes "ID:   OD" ++ last6 else codes "OD" ++ last6);
     fwLine := text_in 32 (if zone then codes "FW:   OD ver " ++ version else codes "FW:O " ++ version);
     k1 := keys.1; k2 := keys.2; vStr := sensors.1; tStr := sensors.2 |}.

(** The renderer's variables, once the target has been asked and the code is made. *)
Definition compose (g : geometry) (d : bytes) (bpp : Z) (direct : bool) (t : texts) (qr : Q) : screen Q :=
  let colorScheme := color_scheme d in
  let zone := g_zone g in
  let pitch := if bpp =? 4 then Z.quot (g_w g + 1) 2 else if bpp =? 2 then Z.quot (g_w g + 3) 4 else Z.quot (g_w g + 7) 8 in
  let whiteValue := if colorScheme <? 9 then kSchemeWhiteValue.[colorScheme] else 0xFF in
  let sw := if zone && (footerPadTop g + 20 <? g_footerH g) then swatches colorScheme (panel_ic_type d) direct
            else (codes16 [], no_colors, 0) in
  let numSwatches := sw.2 in
  let qrModules := u16 (qrcode_size qr + 2 * 4) in
  let m := lay_out_middle (g_w_log g) (g_h_log g) (g_headerH g) (middleH g) qrModules zone (g_hires g)
             [domainLine t; nameLine t; fwLine t; k1 t; k2 t] in
  let p := placed m in
  let pad := pad m in
  let footerSegs := footer_texts zone (g_hires g) (vStr t) (tStr t) colorScheme (partial_update_support d) (g_w_log g) (g_h_log g) in
  let contentRightX := g_w_log g - pad in
  let swatchY0 := g_footerY0 g + footerPadTop g + (if 0 <? len footerSegs then footerInfoH g else 0) in
  let logo := if zone then pick_logo ls (g_w_log g) (g_headerH g) else no_logo in
  let logoX := if zone then contentRightX - logoW logo else pad in
  let qrX := if zone && qrRight p then contentRightX - qrPx p else qrX p in
  let textMaxX := if zone && qrRight p then qrX - pad else g_w_log g in
  {| s_w := g_w g; s_h := g_h g; rotation := g_rotation g; w_log := g_w_log g; h_log := g_h_log g; useZoneLayout := zone;
     headerH := g_headerH g; footerY0 := g_footerY0 g; bitsPerPixel := bpp; pitch := pitch; whiteValue := whiteValue;
     colorScheme := colorScheme; direct2bpp := direct; useBitplanes := (colorScheme =? OD_COLOR_SCHEME_BWR) || (colorScheme =? OD_COLOR_SCHEME_BWY);
     swatchY0 := swatchY0; swatchW := if (0 <? numSwatches) && (2 <? g_h_log g - swatchY0) then Z.quot (g_w_log g) numSwatches else 0;
     numSwatches := numSwatches; swatchCode := sw.1.1; swatchIsColor := sw.1.2;
     labels := (if zone then header_labels (g_headerH g) (logoX - pad) pad (manufLine t) (modelLine t) else []) ++
               middle_labels (domainLine t, nameLine t, fwLine t, k1 t, k2 t) (text_x (g_w_log g) pad p) (textY p) (middleScaleText m) textMaxX zone;
     footerSegs := footerSegs; footerSegX := bootFooterLayoutSegs footerSegs (g_footerInfoScale g) pad (g_w_log g - pad);
     footerInfoY := u16 (g_footerY0 g + Z.quot (footerPadTop g + footerInfoH g - 7 * g_footerInfoScale g) 2);
     footerInfoScale := g_footerInfoScale g; footerBandRight := g_w_log g - pad; middlePlaced := p; s_qrX := qrX; qr := qr;
     logoX := logoX; logoY := if zone then Z.quot (g_headerH g - logoH logo) 2 else 8; s_logo := logo |}.

(** The key that is drawn, and whether it is. *)
Definition drawn_key (sec : option SecurityConfig) : bytes * bool :=
  match od_boot_key_state sec, sec with
  | OD_BOOT_KEY_SHOWN, Some s => (encryption_key s, true)
  | OD_BOOT_KEY_HIDDEN, Some s => (encryption_key s, false)
  | _, _ => (zeros OD_BOOT_KEY_SIZE, false)
  end.

(** The row does not divide among the segments, or does not fit the buffer. *)
Definition unsendable (s : screen Q) (segments row_len : Z) : bool :=
  (negb (segments =? 1) && negb (segments =? 2)) || negb (Z.rem (pitch s) segments =? 0) ||
  (gray4Split s && negb (Z.rem (planePitch s) segments =? 0)) || (row_len <? pitch s + (if gray4Split s then planePitch s else 0)).

(** The arguments the renderer needs: display, row buffer, lengths. *)
Definition arguments (cfg : option od_config) (bufs : option od_boot_bufs) : option (od_config * bytes * bytes * od_boot_bufs) :=
  match cfg, bufs with
  | Some cfg, Some bufs =>
      match b_row bufs with
      | Some row => if (count (displays cfg) =? 0) || negb (b_qr bufs) then None else Some (cfg, (elems (displays cfg)).[0], row, bufs)
      | None => None
      end
  | _, _ => None
  end.

(** [od_boot_screen_render] up to the first output: the screen, the number of segments
    and the row buffer, or [None] for a refusal. *)
Definition prepare (cfg : option od_config) (sec : option SecurityConfig) (bufs : option od_boot_bufs) (e : E)
  : option (screen Q * Z * bytes) * E :=
  let '(key, showKey) := drawn_key sec in
  match arguments cfg bufs with
  | None => (None, e)
  | Some (cfg, d, row, bufs) =>
      let g := geometry_of d in
      if color_scheme d =? OD_COLOR_SCHEME_GRAY8 then (None, e) else
      let '(direct2bpp, e) := od_boot_app_direct_2bpp e in
      let '(bpp, e) := od_boot_app_bits_per_pixel (color_scheme d) e in
      if negb (bpp =? 1) && negb (bpp =? 2) && negb (bpp =? 4) then (None, e) else
      let '(id24, e) := od_boot_app_device_id24 e in
      let last3 := Z.land id24 0xFFFFFF in
      match od_boot_url_build (legacy_tag_type d) last3 (Some key) showKey (manufacturer_id (manufacturer_data cfg)) OD_BOOT_URL_SIZE with
      | None => (None, e)
      | Some url =>
          if (qrcode_getBufferSize 6 =? 0) || (qr_len bufs <? qrcode_getBufferSize 6) then (None, e) else
          let '(rc, qr) := qrcode_initText 6 ECC_MEDIUM url in
          if negb (rc =? 0) then (None, e) else
          let '(fwVersion, e) := od_boot_app_firmware_version e in
          let '(sensors, e) := sensor_texts (g_zone g) e in
          let s := compose g d bpp direct2bpp (texts_of cfg (g_zone g) last3 key showKey fwVersion sensors) qr in
          let '(segments, e) := od_boot_app_segments e in
          if unsendable s segments (row_len bufs) then (None, e) else (Some (s, segments, row), e)
      end
  end.

(** ** Sending it *)

(** A call of the output callbacks, with what it returned. *)
Inductive call :=
| BeginFrame (width height segments rc : Z)
| BeginPlane (plane rc : Z)
| WriteRow (y segment : Z) (data : bytes) (rc : Z)
| EndPlane (plane rc : Z)
| EndFrame (rc : Z).

(** The row buffer, the world, and (ghost) the calls made. *)
Record canvas := { row : bytes; env : E; calls : list call }.
Definition set_row (r : bytes) (c : canvas) : canvas := {| row := r; env := env c; calls := calls c |}.
Definition called (k : Z -> call) (r : Z * E) (c : canvas) : Z * canvas := (r.1, {| row := row c; env := r.2; calls := calls c ++ [k r.1] |}).

Definition begin_frame (w h segments : Z) (c : canvas) : Z * canvas :=
  called (BeginFrame w h segments) (od_boot_app_begin_frame w h segments (env c)) c.
Definition begin_plane (plane : Z) (c : canvas) : Z * canvas := called (BeginPlane plane) (od_boot_app_begin_plane plane (env c)) c.
Definition write_row (y segment : Z) (data : bytes) (c : canvas) : Z * canvas :=
  called (WriteRow y segment data) (od_boot_app_write_row y segment data (env c)) c.
Definition end_plane (plane : Z) (c : canvas) : Z * canvas := called (EndPlane plane) (od_boot_app_end_plane plane (env c)) c.
Definition end_frame (c : canvas) : Z * canvas := called EndFrame (od_boot_app_end_frame (env c)) c.

(** [memset(row, v, n)]. *)
Definition memset (row : bytes) (v n : Z) : bytes := memcpy row 0 (replicate (Z.to_nat n) v).

(** Part [segment] of [segments] of the [n] bytes at [off]. *)
Definition part (row : bytes) (off n segment segments : Z) : bytes :=
  take (Z.to_nat (Z.quot n segments)) (drop (Z.to_nat (off + segment * Z.quot n segments)) row).

(** One row of a pass: drawn, split for a 4-gray panel, and sent. *)
Definition send_row (s : screen Q) (segment segments pass y_native : Z) (c : canvas) : Z * canvas :=
  let colorPlanePass := colorSwatchPlane1 s && (pass =? 1) in
  let r := memset (row c) (if colorPlanePass then 0x00 else whiteValue s) (pitch s) in
  let r := draw_pixels (Z.to_nat (s_w s)) s colorPlanePass 0 y_native r in
  if gray4Split s then
    let r := memcpy r (pitch s) (makeGray4PlaneRow r (planePitch s) (s_w s) pass) in
    write_row y_native segment (part r (pitch s) (planePitch s) segment segments) (set_row r c)
  else write_row y_native segment (part r 0 (pitch s) segment segments) (set_row r c).

(** A [for] loop over rows: false when a row was not taken. *)
Fixpoint row_loop (n : nat) (y : Z) (send : Z -> canvas -> Z * canvas) (c : canvas) : bool * canvas :=
  match n with
  | O => (true, c)
  | S n => let '(rc, c) := send y c in if negb (rc =? 0) then (false, c) else row_loop n (y + 1) send c
  end.

(** [targetPlane]. *)
Definition target_plane (s : screen Q) (pass : Z) (c : canvas) : Z * canvas :=
  if gray4Split s || colorSwatchPlane1 s then (if pass =? 0 then OD_BOOT_PLANE_PRIMARY else OD_BOOT_PLANE_SECOND, c)
  else if useBitplanes s then (OD_BOOT_PLANE_PRIMARY, c)
  else let '(p, e) := od_boot_app_default_plane (colorScheme s) (env c) in (p, {| row := row c; env := e; calls := calls c |}).

(** The body of the loop over the passes. *)
Definition draw_pass (s : screen Q) (segment segments pass : Z) (c : canvas) : bool * canvas :=
  let '(targetPlane, c) := target_plane s pass c in
  let '(rc, c) := begin_plane targetPlane c in
  if negb (rc =? 0) then (false, c)
  else
    let '(ok, c) := row_loop (Z.to_nat (s_h s)) 0 (send_row s segment segments pass) c in
    let '(rc, c) := end_plane targetPlane c in
    (if negb (rc =? 0) then false else ok, c).

Fixpoint pass_loop (n : nat) (pass : Z) (s : screen Q) (segment segments : Z) (c : canvas) : bool * canvas :=
  match n with
  | O => (true, c)
  | S n => let '(ok, c) := draw_pass s segment segments pass c in if ok then pass_loop n (pass + 1) s segment segments c else (false, c)
  end.

(** The second plane of a two-plane panel when it has no swatches: all white. *)
Definition white_plane (s : screen Q) (segment segments : Z) (c : canvas) : bool * canvas :=
  let c := set_row (memset (row c) 0x00 (pitch s)) c in
  let '(rc, c) := begin_plane OD_BOOT_PLANE_SECOND c in
  let ok := rc =? 0 in
  let '(ok, c) := if ok then row_loop (Z.to_nat (s_h s)) 0 (fun y c => write_row y segment (part (row c) 0 (pitch s) segment segments) c) c
                  else (false, c) in
  let '(rc, c) := end_plane OD_BOOT_PLANE_SECOND c in
  (if negb (rc =? 0) then false else ok, c).

(** The body of the loop over the segments. *)
Definition draw_segment (s : screen Q) (segment segments : Z) (c : canvas) : bool * canvas :=
  let '(ok, c) := pass_loop (Z.to_nat (planePasses s)) 0 s segment segments c in
  if useBitplanes s && negb (colorSwatchPlane1 s) && ok then white_plane s segment segments c else (ok, c).

Fixpoint segment_loop (n : nat) (segment : Z) (s : screen Q) (segments : Z) (c : canvas) : bool * canvas :=
  match n with
  | O => (true, c)
  | S n => let '(ok, c) := draw_segment s segment segments c in if ok then segment_loop n (segment + 1) s segments c else (false, c)
  end.

(** The frame, once the screen is prepared. *)
Definition send_frame (s : screen Q) (segments : Z) (c : canvas) : bool * canvas :=
  let '(rc, c) := begin_frame (s_w s) (s_h s) segments c in
  if negb (rc =? 0) then (false, c)
  else
    let '(outputOk, c) := segment_loop (Z.to_nat segments) 0 s segments c in
    let '(rc, c) := end_frame c in
    (if negb (rc =? 0) then false else outputOk, c).

(** [od_boot_screen_render]: the result, the world after it and the calls it made. *)
Definition od_boot_screen_render (cfg : option od_config) (sec : option SecurityConfig) (bufs : option od_boot_bufs) (e : E)
  : bool * E * list call :=
  let '(plan, e) := prepare cfg sec bufs e in
  match plan with
  | None => (false, e, [])
  | Some (s, segments, r) =>
      let '(ok, c) := send_frame s segments {| row := r; env := e; calls := [] |} in
      (ok, env c, calls c)
  end.
End Render.

End BootScreen.
