(* ===== verification/BootScreenProofs.v ===== *)
(** What the boot screen's renderer promises: the calls it makes are the frame's script,
    cut and closed where the target refuses one, and the rows a panel received show, pixel
    by pixel, the screen that was laid out. *)

From S2P Require Import Prelude Float Color BootPayload BootDraw BootLayout Config Proto BootScreen.
Import Float Color BootPayload BootDraw BootLayout Config Proto BootScreen.

Module BootScreenProofs.

(** ** Rows *)

Lemma set_app_l (a b : bytes) i x : 0 <= i < len a -> (a ++ b).[i := x] = a.[i := x] ++ b.
Proof. intros Hi. unfold set. apply insert_app_l. lia. Qed.

Lemma put_pixel_app bpp a b x code : packing bpp -> 0 <= x -> x / per bpp < len a ->
  put_pixel bpp (a ++ b) x code = put_pixel bpp a x code ++ b.
Proof.
  intros Hp Hx Hl. destruct (place_range bpp x Hp) as (_ & _ & ?). assert (0 <= x / per bpp) by (by apply Z.div_pos).
  unfold put_pixel. by rewrite get_app_l, set_app_l by lia.
Qed.

Lemma memset_is row v n : 0 <= n <= len row -> memset row v n = replicate (Z.to_nat n) v ++ drop (Z.to_nat n) row.
Proof. intros Hn. unfold memset, memcpy. cbn [Z.to_nat take app]. by rewrite length_replicate. Qed.

Lemma white_ok scheme : is_byte (if scheme <? 9 then kSchemeWhiteValue.[scheme] else 0xFF).
Proof.
  destruct (Z.ltb_spec scheme 9); [|by unfold is_byte]. apply get_byte. repeat constructor; by unfold is_byte.
Qed.

Section Screen.
Context {Q : Type} `{!QrEncoder Q}.
Implicit Types (s : screen Q).

(** What [prepare] guarantees of a screen, and of the row buffer and segments beside it. *)
Record well_formed (s : screen Q) (segments : Z) (row : bytes) : Prop := {
  wf_w : 0 <= s_w s < 65536;
  wf_h : 0 <= s_h s < 65536;
  wf_turn : (w_log s, h_log s) = if (rotation s =? 1) || (rotation s =? 3) then (s_h s, s_w s) else (s_w s, s_h s);
  wf_packing : packing (bitsPerPixel s);
  wf_pitch : pitch s = (s_w s + per (bitsPerPixel s) - 1) / per (bitsPerPixel s);
  wf_white : is_byte (whiteValue s);
  wf_swatches : 0 <= numSwatches s <= 16 /\ len (swatchCode s) = 16 /\ len (swatchIsColor s) = 16;
  wf_segments : segments = 1 \/ segments = 2;
  wf_parts : Z.rem (pitch s) segments = 0 /\ (gray4Split s = true -> Z.rem (planePitch s) segments = 0);
  wf_exclusive : useBitplanes s = true -> gray4Split s = false;
  wf_row : bytes_ok row /\ pitch s + (if gray4Split s then planePitch s else 0) <= len row;
}.

(** The byte of a pixel is within the row. *)
Lemma in_pitch s segments row x : well_formed s segments row -> 0 <= x < s_w s -> x / per (bitsPerPixel s) < pitch s.
Proof.
  intros Hwf Hx. rewrite (wf_pitch _ _ _ Hwf). destruct (place_range _ x (wf_packing _ _ _ Hwf)) as (_ & _ & ?).
  apply Z.div_lt_upper_bound; [done|]. Z.to_euclidean_division_equations. nia.
Qed.

Lemma in_pitch_bit s segments row x : well_formed s segments row -> 0 <= x < s_w s -> x / per 1 < pitch s.
Proof.
  intros Hwf Hx. pose proof (in_pitch _ _ _ x Hwf Hx) as Hi. destruct per_is as (H1 & H2 & H4).
  destruct (wf_packing _ _ _ Hwf) as [He | [He | He]]; rewrite He, ?H1, ?H2, ?H4 in Hi; rewrite H1;
    Z.to_euclidean_division_equations; lia.
Qed.

(** The code a pixel is given in a pass, if it is given one. *)
Definition pixel_write (s : screen Q) (colorPlanePass : bool) (x y : Z) : option (Z * Z) :=
  let '(lx, ly) := logical s x y in
  let si := swatch_at s lx ly in
  if colorPlanePass then if (0 <=? si) && negb (border_at s lx ly) && (swatchIsColor s).[si] then Some (1, 1) else None
  else if black s lx ly then Some (bitsPerPixel s, 0)
  else if 0 <=? si then Some (bitsPerPixel s, (swatchCode s).[si]) else None.

Lemma draw_pixel_is s segments row0 cpp x y row :
  well_formed s segments row0 -> 0 <= x < s_w s -> bytes_ok row -> pitch s <= len row ->
  draw_pixel s cpp x y row = match pixel_write s cpp x y with Some (bpp, code) => put_pixel bpp row x code | None => row end.
Proof.
  intros Hwf Hx Hr Hl. unfold draw_pixel, pixel_write. destruct (logical s x y) as [lx ly].
  pose proof (in_pitch _ _ _ x Hwf Hx). pose proof (in_pitch_bit _ _ _ x Hwf Hx). pose proof (wf_packing _ _ _ Hwf).
  destruct cpp; [destruct (_ && _); [|done]; by apply set_code_put; [done|lia|done|left|]|].
  destruct (black s lx ly); [by apply set_black_put; [done|lia|..]|].
  destruct (0 <=? _); [by apply set_code_put; [done|lia|..]|done].
Qed.

(** The packing of a pass. *)
Definition pass_bpp (s : screen Q) (colorPlanePass : bool) : Z := if colorPlanePass then 1 else bitsPerPixel s.

Lemma pixel_write_bpp s cpp x y bpp code : pixel_write s cpp x y = Some (bpp, code) -> bpp = pass_bpp s cpp.
Proof. unfold pixel_write, pass_bpp. destruct (logical s x y). repeat case_match; by intros [= <- <-]. Qed.

Lemma pass_packing s segments row cpp : well_formed s segments row -> packing (pass_bpp s cpp).
Proof. intros Hwf. unfold pass_bpp. destruct cpp; [by left|by apply (wf_packing _ _ _ Hwf)]. Qed.

Lemma in_pitch_pass s segments row cpp x : well_formed s segments row -> 0 <= x < s_w s -> x / per (pass_bpp s cpp) < pitch s.
Proof. intros Hwf Hx. destruct cpp; [by eapply in_pitch_bit|by eapply in_pitch]. Qed.

(** The pixel loop: what it leaves of each pixel, and that it keeps to its row. *)
Lemma draw_pixels_spec s segments row0 cpp y n x row tail :
  well_formed s segments row0 -> 0 <= x -> x + Z.of_nat n <= s_w s -> bytes_ok row -> bytes_ok tail -> len row = pitch s ->
  let r := draw_pixels n s cpp x y row in
  draw_pixels n s cpp x y (row ++ tail) = r ++ tail /\ bytes_ok r /\ len r = pitch s /\
  forall k, 0 <= k < s_w s -> pixel (pass_bpp s cpp) r k =
    if (x <=? k) && (k <? x + Z.of_nat n)
    then match pixel_write s cpp k y with Some (_, code) => Z.land code (Z.ones (pass_bpp s cpp)) | None => pixel (pass_bpp s cpp) row k end
    else pixel (pass_bpp s cpp) row k.
Proof.
  intros Hwf. cbv zeta. revert x row. induction n as [|n IH]; intros x row Hx Hn Hr Ht Hl; cbn [draw_pixels].
  { split_and!; [done..|]. intros k Hk. destruct (Z.leb_spec x k), (Z.ltb_spec k (x + Z.of_nat 0)); try done. lia. }
  assert (Hxs : 0 <= x < s_w s) by lia. pose proof (pass_packing _ _ _ cpp Hwf) as Hp.
  pose proof (in_pitch_pass _ _ _ cpp x Hwf Hxs) as Hi.
  rewrite (draw_pixel_is s segments row0 cpp x y (row ++ tail) Hwf Hxs) by first [by apply Forall_app|rewrite length_app; lia].
  rewrite (draw_pixel_is s segments row0 cpp x y row Hwf Hxs Hr) by lia.
  set (next := match pixel_write s cpp x y with Some (bpp, code) => put_pixel bpp row x code | None => row end).
  assert (Hnext : match pixel_write s cpp x y with Some (bpp, code) => put_pixel bpp (row ++ tail) x code | None => row ++ tail end = next ++ tail /\
    bytes_ok next /\ len next = pitch s /\ forall k, 0 <= k < s_w s -> pixel (pass_bpp s cpp) next k =
      if k =? x then match pixel_write s cpp x y with Some (_, code) => Z.land code (Z.ones (pass_bpp s cpp)) | None => pixel (pass_bpp s cpp) row k end
      else pixel (pass_bpp s cpp) row k).
  { unfold next. destruct (pixel_write s cpp x y) as [[bpp code]|] eqn:Hw;
      [|split_and!; [done..|]; intros k _; by destruct (k =? x)].
    apply pixel_write_bpp in Hw as ->. split_and!; [apply put_pixel_app; [done|lia..]|by apply put_pixel_ok|by rewrite len_put_pixel|].
    intros k Hk. destruct (Z.eqb_spec k x) as [->|Hne]; [apply pixel_put_eq; [done|lia..]|apply pixel_put_ne; [done|lia..]]. }
  destruct Hnext as (Ha & Hok & Hlen & Hpix). rewrite Ha. destruct (IH (x + 1) next ltac:(lia) ltac:(lia) Hok Ht Hlen) as (HA & HB & HC & HD).
  split_and!; [done..|]. intros k Hk. rewrite (HD k Hk), (Hpix k Hk).
  destruct (Z.leb_spec (x + 1) k), (Z.leb_spec x k), (Z.ltb_spec k (x + 1 + Z.of_nat n)), (Z.ltb_spec k (x + Z.of_nat (S n))), (Z.eqb_spec k x);
    subst; cbn [andb]; done || lia.
Qed.

(** ** What is sent *)

Definition color_pass (s : screen Q) (pass : Z) : bool := colorSwatchPlane1 s && (pass =? 1).
Definition ground (s : screen Q) (cpp : bool) : Z := if cpp then 0x00 else whiteValue s.

(** The packed row of a pass, and the row of the plane it is for. *)
Definition pass_row (s : screen Q) (pass y : Z) : bytes :=
  let cpp := color_pass s pass in draw_pixels (Z.to_nat (s_w s)) s cpp 0 y (replicate (Z.to_nat (pitch s)) (ground s cpp)).
Definition sent_len (s : screen Q) : Z := if gray4Split s then planePitch s else pitch s.
Definition sent_row (s : screen Q) (pass y : Z) : bytes :=
  if gray4Split s then makeGray4PlaneRow (pass_row s pass y) (planePitch s) (s_w s) pass else pass_row s pass y.
(** The share of a segment. *)
Definition share (r : bytes) (segment segments : Z) : bytes := part r 0 (len r) segment segments.

Lemma plane_loop_app n x planeRow a b bitSel : 0 <= x -> (x + Z.of_nat n <= 4 * len a) ->
  plane_loop n x planeRow (a ++ b) bitSel = plane_loop n x planeRow a bitSel.
Proof.
  revert x planeRow. induction n as [|n IH]; intros x planeRow Hx Hn; [done|]. cbn [plane_loop].
  rewrite (Z.shiftr_div_pow2 x 2) by lia. change (2 ^ 2) with 4.
  rewrite get_app_l by (split; [apply Z.div_pos; lia|apply Z.div_lt_upper_bound; lia]). apply IH; lia.
Qed.

Lemma ground_row s segments row cpp : well_formed s segments row -> 0 <= pitch s ->
  bytes_ok (replicate (Z.to_nat (pitch s)) (ground s cpp)) /\ len (replicate (Z.to_nat (pitch s)) (ground s cpp)) = pitch s.
Proof.
  intros Hwf Hp. split; [|rewrite length_replicate; lia]. apply Forall_replicate. destruct cpp; [by unfold is_byte, ground|apply (wf_white _ _ _ Hwf)].
Qed.

Lemma pitches s segments row : well_formed s segments row ->
  0 <= pitch s /\ 0 <= planePitch s /\ s_w s <= 8 * planePitch s /\ (bitsPerPixel s = 2 -> s_w s <= 4 * pitch s).
Proof.
  intros Hwf. destruct (wf_w _ _ _ Hwf) as [Hw _]. pose proof (wf_pitch _ _ _ Hwf) as Hp.
  assert (Hpp : planePitch s = (s_w s + 7) / 8) by (unfold planePitch; apply Z.quot_div_nonneg; lia). rewrite Hpp.
  destruct per_is as (H1 & H2 & H4). split; [|split; [|split]].
  - rewrite Hp. destruct (place_range _ 0 (wf_packing _ _ _ Hwf)) as (_ & _ & ?). apply Z.div_pos; lia.
  - apply Z.div_pos; lia.
  - Z.to_euclidean_division_equations; lia.
  - intros He. rewrite Hp, He, H2. Z.to_euclidean_division_equations; lia.
Qed.

Lemma plane_row_ok s segments row r bitSel : well_formed s segments row -> 0 <= bitSel < 2 ->
  len (makeGray4PlaneRow r (planePitch s) (s_w s) bitSel) = planePitch s /\ bytes_ok (makeGray4PlaneRow r (planePitch s) (s_w s) bitSel).
Proof.
  intros Hwf Hb. destruct (pitches _ _ _ Hwf) as (_ & Hp & Hw8 & _). destruct (wf_w _ _ _ Hwf) as [Hw _]. unfold makeGray4PlaneRow.
  destruct (plane_loop_spec (Z.to_nat (s_w s)) 0 (replicate (Z.to_nat (planePitch s)) 0) r bitSel) as (Hl & Hok & _);
    [lia|rewrite length_replicate; lia|apply Forall_replicate; by unfold is_byte|done|].
  rewrite Hl, length_replicate. split; [lia|done].
Qed.

Lemma pass_row_ok s segments row pass y : well_formed s segments row -> bytes_ok (pass_row s pass y) /\ len (pass_row s pass y) = pitch s.
Proof.
  intros Hwf. destruct (pitches _ _ _ Hwf) as (Hp & _). destruct (ground_row _ _ _ (color_pass s pass) Hwf Hp) as [Hg Hgl].
  destruct (wf_w _ _ _ Hwf) as [Hw _].
  destruct (draw_pixels_spec s segments row (color_pass s pass) y (Z.to_nat (s_w s)) 0 _ [] Hwf ltac:(lia) ltac:(lia) Hg ltac:(constructor) Hgl)
    as (_ & Hok & Hl & _). done.
Qed.

Lemma sent_row_ok s segments row pass y : well_formed s segments row -> 0 <= pass < 2 ->
  bytes_ok (sent_row s pass y) /\ len (sent_row s pass y) = sent_len s.
Proof.
  intros Hwf Hp. unfold sent_row, sent_len. destruct (gray4Split s); [|by eapply pass_row_ok].
  destruct (plane_row_ok _ _ _ (pass_row s pass y) pass Hwf Hp). done.
Qed.

(** A share of a row in the middle of the buffer. *)
Lemma part_share a r b segment segments : 0 < segments -> 0 <= segment < segments -> Z.rem (len r) segments = 0 ->
  part (a ++ r ++ b) (len a) (len r) segment segments = share r segment segments.
Proof.
  intros Hs Hseg Hr. unfold share, part. set (q := Z.quot (len r) segments).
  assert (Hq : len r = segments * q) by (unfold q; pose proof (Z.quot_rem' (len r) segments); lia). assert (0 <= q) by nia.
  rewrite Z2Nat.inj_add, Nat2Z.id by nia. rewrite drop_app_add' by done. cbn [Z.add].
  rewrite drop_app_le by nia. rewrite take_app_le; [done|]. rewrite length_drop. nia.
Qed.

Context {E : Type} `{!BootApp E}.
Abbreviation canvas := (canvas (E := E)).

(** The buffer of a canvas has room for a row of [s]. *)
Definition roomy (s : screen Q) (c : canvas) : Prop := bytes_ok (row c) /\ pitch s + (if gray4Split s then planePitch s else 0) <= len (row c).

(** The packed code of a 4-gray panel is split from two bits a pixel. *)
Definition splittable (s : screen Q) : Prop := gray4Split s = true -> bitsPerPixel s = 2.

Lemma send_row_is s segment segments pass y row0 c :
  well_formed s segments row0 -> splittable s -> roomy s c -> 0 <= pass < 2 -> 0 <= segment < segments ->
  exists r', bytes_ok r' /\ len r' = len (row c) /\
    send_row s segment segments pass y c = write_row y segment (share (sent_row s pass y) segment segments) (set_row r' c).
Proof.
  intros Hwf Hsp [Hok Hroom] Hpass Hseg. destruct (pitches _ _ _ Hwf) as (Hp & Hpp & _ & H2). destruct (wf_w _ _ _ Hwf) as [Hw _].
  destruct (ground_row _ _ _ (color_pass s pass) Hwf Hp) as [Hg Hgl].
  destruct (pass_row_ok _ _ _ pass y Hwf) as [Hpr Hprl]. destruct (wf_parts _ _ _ Hwf) as [Hr1 Hr2].
  unfold send_row. fold (color_pass s pass). cbn zeta. fold (ground s (color_pass s pass)).
  rewrite memset_is by (destruct (gray4Split s); lia). set (tail := drop (Z.to_nat (pitch s)) (row c)).
  assert (Ht : bytes_ok tail) by (by apply Forall_drop). assert (Htl : len tail = len (row c) - pitch s) by (unfold tail; rewrite length_drop; destruct (gray4Split s); lia).
  destruct (draw_pixels_spec s segments row0 (color_pass s pass) y (Z.to_nat (s_w s)) 0 _ tail Hwf ltac:(lia) ltac:(lia) Hg Ht Hgl) as (Hd & _).
  change (draw_pixels (Z.to_nat (s_w s)) s (color_pass s pass) 0 y (replicate (Z.to_nat (pitch s)) (ground s (color_pass s pass)))) with
    (pass_row s pass y) in Hd. rewrite Hd. clear Hd.
  unfold sent_row. destruct (gray4Split s) eqn:Hgray.
  - assert (Hm : makeGray4PlaneRow (pass_row s pass y ++ tail) (planePitch s) (s_w s) pass =
                 makeGray4PlaneRow (pass_row s pass y) (planePitch s) (s_w s) pass).
    { unfold makeGray4PlaneRow. apply plane_loop_app; [lia|]. specialize (H2 (Hsp Hgray)). lia. }
    rewrite Hm. set (pl := makeGray4PlaneRow _ _ _ _). destruct (plane_row_ok _ _ _ (pass_row s pass y) pass Hwf Hpass) as [Hpl Hplb]. fold pl in Hpl, Hplb.
    assert (Hcp : memcpy (pass_row s pass y ++ tail) (pitch s) pl = pass_row s pass y ++ pl ++ drop (length pl) tail).
    { unfold memcpy. replace (Z.to_nat (pitch s)) with (length (pass_row s pass y)) by lia. by rewrite take_app_length, drop_app_add'. }
    rewrite Hcp. eexists. split; [|split; [|f_equal]].
    + apply Forall_app. split; [done|]. apply Forall_app. split; [done|]. by apply Forall_drop.
    + rewrite !length_app, length_drop. lia.
    + rewrite <- Hprl, <- Hpl. apply part_share; [lia..|]. rewrite Hpl. by apply Hr2.
  - eexists. split; [|split; [|f_equal]].
    + by apply Forall_app.
    + rewrite length_app. lia.
    + rewrite <- Hprl. apply (part_share []); [lia..|]. by rewrite Hprl.
Qed.

(** ** The script of a frame *)

Definition rc_of (k : call) : Z :=
  match k with BeginFrame _ _ _ rc | BeginPlane _ rc | WriteRow _ _ _ rc | EndPlane _ rc | EndFrame rc => rc end.
(** The call, taken by the target. *)
Definition taken (k : call) : call :=
  match k with
  | BeginFrame w h n _ => BeginFrame w h n 0 | BeginPlane p _ => BeginPlane p 0 | WriteRow y g d _ => WriteRow y g d 0
  | EndPlane p _ => EndPlane p 0 | EndFrame _ => EndFrame 0
  end.

Context (default : Z).

Definition plane_for (s : screen Q) (pass : Z) : Z :=
  if gray4Split s || colorSwatchPlane1 s then (if pass =? 0 then OD_BOOT_PLANE_PRIMARY else OD_BOOT_PLANE_SECOND)
  else if useBitplanes s then OD_BOOT_PLANE_PRIMARY else default.

Definition row_script (segment : Z) (data : Z -> bytes) (y h : Z) : list call := (fun y => WriteRow y segment (data y) 0) <$> seqZ y h.
Definition plane_script (p segment h : Z) (data : Z -> bytes) : list call :=
  BeginPlane p 0 :: row_script segment data 0 h ++ [EndPlane p 0].

Definition rows_of (s : screen Q) (pass segment segments y : Z) : bytes := share (sent_row s pass y) segment segments.
Definition white_row (s : screen Q) (segment segments : Z) : bytes := share (replicate (Z.to_nat (pitch s)) 0) segment segments.

Definition pass_script (s : screen Q) (segments segment pass : Z) : list call :=
  plane_script (plane_for s pass) segment (s_h s) (rows_of s pass segment segments).
Definition segment_script (s : screen Q) (segments segment : Z) : list call :=
  concat (pass_script s segments segment <$> seqZ 0 (planePasses s)) ++
  (if useBitplanes s && negb (colorSwatchPlane1 s)
   then plane_script OD_BOOT_PLANE_SECOND segment (s_h s) (fun _ => white_row s segment segments) else []).

Definition frame_script (s : screen Q) (segments : Z) : list call :=
  BeginFrame (s_w s) (s_h s) segments 0 :: concat (segment_script s segments <$> seqZ 0 segments) ++ [EndFrame 0].

(** The plane that is open after some calls. *)
Definition open_plane (d : Z) (ks : list call) : Z := foldl (fun p k => match k with BeginPlane q _ => q | _ => p end) d ks.

(** After a refused call the plane it was in is ended and nothing else is done. *)
Definition plane_closed (d : Z) (pre : list call) (last : call) (post : list call) : Prop :=
  match last with
  | WriteRow _ _ _ _ => exists r, post = [EndPlane (open_plane d pre) r]
  | BeginPlane p _ => post = [] \/ exists r, post = [EndPlane p r]
  | _ => post = []
  end.

(** A run that made the calls of [script], or was refused one of them and closed. *)
Definition follows (script : list call) (closed : Z -> list call -> call -> list call -> Prop) (c : canvas) (r : bool * canvas) : Prop :=
  bytes_ok (row r.2) /\ len (row r.2) = len (row c) /\
  exists new, calls r.2 = calls c ++ new /\
    if r.1 then new = script
    else exists pre last post, new = pre ++ last :: post /\ rc_of last <> 0 /\ (pre ++ [taken last]) `prefix_of` script /\
           forall d, closed d pre last post.

Lemma follows_seq k1 k2 closed c ok c1 r :
  (forall d pre a last post, closed (open_plane d a) pre last post -> closed d (a ++ pre) last post) ->
  follows k1 closed c (ok, c1) -> (ok = true -> follows k2 closed c1 r) -> follows (k1 ++ k2) closed c (if ok then r else (false, c1)).
Proof.
  intros Hcl (H1 & H2 & new & Hn & Hr) Hs. cbn in *. destruct ok.
  - subst new. destruct (Hs eq_refl) as (H3 & H4 & new & Hn' & Hr). split; [done|]. split; [lia|].
    exists (k1 ++ new). split; [by rewrite Hn', Hn, <- app_assoc|]. destruct r.1; [by subst|].
    destruct Hr as (pre & last & post & -> & Hrc & Hp & Hd). exists (k1 ++ pre), last, post. split; [by rewrite <- app_assoc|]. split; [done|].
    split; [rewrite <- app_assoc; by apply prefix_app|]. intros d. by apply Hcl.
  - split; [done|]. split; [done|]. exists new. split; [done|]. destruct Hr as (pre & last & post & -> & Hrc & Hp & Hd).
    exists pre, last, post. split; [done|]. split; [done|]. split; [by apply prefix_app_r|done].
Qed.

Lemma plane_closed_app d pre a last post : plane_closed (open_plane d a) pre last post -> plane_closed d (a ++ pre) last post.
Proof. unfold plane_closed, open_plane. destruct last; try done. by rewrite foldl_app. Qed.

(** The calls of a run so far, and one call. *)
Lemma called_calls (k : Z -> call) (r : Z * E) c : (called k r c).1 = r.1 /\ row (called k r c).2 = row c /\ calls (called k r c).2 = calls c ++ [k r.1].
Proof. done. Qed.

Definition rows_closed (d : Z) (pre : list call) (last : call) (post : list call) : Prop :=
  post = [] /\ exists y g data rc, last = WriteRow y g data rc.

(** [I] is what is known of the row buffer while rows are sent. *)
Lemma row_loop_follows (I : bytes -> Prop) n segment data send y c :
  (forall r, I r -> bytes_ok r /\ len r = len (row c)) ->
  (forall y c', I (row c') -> exists r, I r /\ send y c' = write_row y segment (data y) (set_row r c')) ->
  I (row c) -> follows (row_script segment data y (Z.of_nat n)) rows_closed c (row_loop n y send c).
Proof.
  intros HI Hsend. assert (Hgen : forall c', I (row c') ->
    follows (row_script segment data y (Z.of_nat n)) rows_closed c' (row_loop n y send c')); [|by apply Hgen].
  revert y. induction n as [|n IH]; intros y c' Hb; cbn [row_loop]; pose proof (HI _ Hb) as [Hbo Hl].
  { split; [done|]. split; [done|]. exists []. split; [by rewrite app_nil_r|done]. }
  unfold row_script. rewrite seqZ_cons, fmap_cons by lia. replace (Z.pred (Z.of_nat (S n))) with (Z.of_nat n) by lia.
  fold (row_script segment data (Z.succ y) (Z.of_nat n)). replace (Z.succ y) with (y + 1) by lia.
  destruct (Hsend y c' Hb) as (r & Hr & ->). pose proof (HI _ Hr) as [Hro Hrl]. unfold write_row, called. cbn [env set_row].
  destruct (od_boot_app_write_row y segment (data y) (env c')) as [rc e]. cbn [fst snd]. destruct (Z.eqb_spec rc 0) as [->|Hrc]; cbn [negb].
  - set (c1 := {| row := _; env := _; calls := _ |}). destruct (IH (y + 1) c1) as (HA & HB & new & Hn & Hr'); [done|].
    split; [done|]. split; [cbn in *; lia|]. exists (WriteRow y segment (data y) 0 :: new). split; [rewrite Hn; unfold c1; cbn [calls]; by rewrite <- app_assoc|].
    destruct (row_loop n (y + 1) send c1).1; [by rewrite Hr'|]. destruct Hr' as (pre & last & post & -> & Hrc & Hp & Hd).
    exists (WriteRow y segment (data y) 0 :: pre), last, post. split; [done|]. split; [done|]. split; [by apply prefix_cons|].
    intros d. apply (Hd d).
  - split; [done|]. split; [cbn; lia|]. exists [WriteRow y segment (data y) rc]. split; [done|].
    exists [], (WriteRow y segment (data y) rc), []. split; [done|]. split; [done|]. split; [by apply prefix_cons, prefix_nil|].
    intros d. split; [done|]. by eexists _, _, _, _.
Qed.

Lemma open_plane_rows p segment data y h pre rest : pre ++ rest = row_script segment data y h -> open_plane p pre = p.
Proof.
  intros He. assert (Hf : Forall (fun k => exists y g d rc, k = WriteRow y g d rc) (pre ++ rest)).
  { rewrite He. unfold row_script. apply Forall_fmap, Forall_forall. intros z _. cbn. by eexists _, _, _, _. }
  apply Forall_app in Hf as [Hf _]. clear He. unfold open_plane. induction Hf as [|k pre (? & ? & ? & ? & ->) _ IH]; [done|apply IH].
Qed.

(** A plane, from its begin that was taken to its end. *)
Lemma plane_follows (I : bytes -> Prop) p n segment data send c c1 :
  (forall r, I r -> bytes_ok r /\ len r = len (row c)) ->
  (forall y c', I (row c') -> exists r, I r /\ send y c' = write_row y segment (data y) (set_row r c')) ->
  I (row c) -> begin_plane p c = (0, c1) ->
  follows (plane_script p segment (Z.of_nat n) data) plane_closed c
    (let '(ok, c2) := row_loop n 0 send c1 in let '(rc, c3) := end_plane p c2 in (if negb (rc =? 0) then false else ok, c3)).
Proof.
  intros HI Hsend Hb Hbegin. assert (H1 : row c1 = row c /\ calls c1 = calls c ++ [BeginPlane p 0]).
  { unfold begin_plane, called in Hbegin. injection Hbegin as Hrc <-. cbn. by rewrite Hrc. }
  destruct H1 as [Hrow Hcalls]. rewrite <- Hrow in HI, Hb.
  pose proof (row_loop_follows I n segment data send 0 c1 HI Hsend Hb) as Hrows. destruct (row_loop n 0 send c1) as [ok c2].
  destruct Hrows as (HA & HB & new & Hn & Hr). cbn [fst snd] in *. unfold end_plane, called.
  destruct (od_boot_app_end_plane p (env c2)) as [rc e]. cbn [fst snd]. split; [done|]. cbn [row calls fst snd].
  split; [by rewrite HB, Hrow|]. exists (BeginPlane p 0 :: new ++ [EndPlane p rc]).
  split; [rewrite Hn, Hcalls, <- !app_assoc; done|]. unfold plane_script. destruct ok.
  - subst new. destruct (Z.eqb_spec rc 0) as [->|Hrc]; cbn [negb]; [done|].
    exists (BeginPlane p 0 :: row_script segment data 0 (Z.of_nat n)), (EndPlane p rc), []. by split_and!.
  - assert (Hcut : exists pre last post, BeginPlane p 0 :: new ++ [EndPlane p rc] = pre ++ last :: post /\ rc_of last <> 0 /\
      (pre ++ [taken last]) `prefix_of` BeginPlane p 0 :: row_script segment data 0 (Z.of_nat n) ++ [EndPlane p 0] /\
      forall d, plane_closed d pre last post); [|by destruct (negb (rc =? 0))].
    destruct Hr as (pre & last & post & -> & Hrc & [rest Hp] & Hd). destruct (Hd 0) as (-> & y & g & dt & rc0 & ->).
    exists (BeginPlane p 0 :: pre), (WriteRow y g dt rc0), [EndPlane p rc]. split; [cbn; by rewrite <- app_assoc|]. split; [done|].
    split; [cbn; apply prefix_cons, prefix_app_r; by exists rest|]. intros d. exists rc. do 2 f_equal. symmetry.
    apply (open_plane_rows p segment data 0 (Z.of_nat n) pre ([taken (WriteRow y g dt rc0)] ++ rest)). by rewrite app_assoc.
Qed.

(** A begin that is refused, with what follows it. *)
Lemma refused_begin p n segment data rc post c c1 :
  rc <> 0 -> bytes_ok (row c1) -> len (row c1) = len (row c) -> calls c1 = calls c ++ BeginPlane p rc :: post ->
  (post = [] \/ exists r, post = [EndPlane p r]) ->
  follows (plane_script p segment n data) plane_closed c (false, c1).
Proof.
  intros Hrc Hb Hl Hc Hp. split; [done|]. split; [done|]. exists (BeginPlane p rc :: post). split; [done|].
  exists [], (BeginPlane p rc), post. split; [done|]. split; [done|]. split; [by apply prefix_cons, prefix_nil|]. by intros d.
Qed.

(** ** What is to be seen *)

(** The panel code of a pixel: ink is 0, a swatch its code, and everything else the
    scheme's white. *)
Definition paper (s : screen Q) (x : Z) : Z := bits_at (bitsPerPixel s) (place (bitsPerPixel s) x) (whiteValue s).
Definition code_at (s : screen Q) (x y : Z) : Z :=
  let '(lx, ly) := logical s x y in
  if black s lx ly then 0
  else let si := swatch_at s lx ly in
       if 0 <=? si then Z.land (swatchCode s).[si] (Z.ones (bitsPerPixel s)) else paper s x.
(** A point inside a swatch of the panel's second colour. *)
Definition colored_at (s : screen Q) (x y : Z) : bool :=
  let '(lx, ly) := logical s x y in
  let si := swatch_at s lx ly in (0 <=? si) && negb (border_at s lx ly) && (swatchIsColor s).[si].

(** Bits to a pixel in a plane, and what the plane holds of a pixel: a bit of the
    complemented code on a split 4-gray panel, the second colour in the second plane of
    a two-plane panel, the code otherwise. *)
Definition plane_bpp (s : screen Q) (plane : Z) : Z :=
  if gray4Split s then 1 else if useBitplanes s && (plane =? OD_BOOT_PLANE_SECOND) then 1 else bitsPerPixel s.
Definition shown (s : screen Q) (plane x y : Z) : Z :=
  if gray4Split s then Z.b2z (negb (Z.testbit (code_at s x y) plane))
  else if useBitplanes s && (plane =? OD_BOOT_PLANE_SECOND) then Z.b2z (colorSwatchPlane1 s && colored_at s x y)
  else code_at s x y.

(** The planes of a frame. *)
Definition planes (s : screen Q) : list Z :=
  (plane_for s <$> seqZ 0 (planePasses s)) ++ (if useBitplanes s && negb (colorSwatchPlane1 s) then [OD_BOOT_PLANE_SECOND] else []).

Section Frame.
Context (s : screen Q) (segments : Z) (row0 : bytes).
Context (Hwf : well_formed s segments row0) (Hsplit : splittable s).
Context (Hplane : forall e, (od_boot_app_default_plane (colorScheme s) e).1 = default).

Lemma roomy_len c c' : roomy s c -> bytes_ok (row c') -> len (row c') = len (row c) -> roomy s c'.
Proof using. intros [_ H] Hb Hl. split; [done|lia]. Qed.

Lemma target_plane_is pass c : exists e, target_plane s pass c = (plane_for s pass, {| row := row c; env := e; calls := calls c |}).
Proof using Hplane.
  unfold target_plane, plane_for. destruct (gray4Split s || colorSwatchPlane1 s); [exists (env c); by destruct c|].
  destruct (useBitplanes s); [exists (env c); by destruct c|]. pose proof (Hplane (env c)) as Hp.
  destruct (od_boot_app_default_plane _ _) as [p e]. cbn in Hp. subst p. by exists e.
Qed.

Lemma draw_pass_follows segment pass c : roomy s c -> 0 <= pass < 2 -> 0 <= segment < segments ->
  follows (pass_script s segments segment pass) plane_closed c (draw_pass s segment segments pass c).
Proof using Hwf Hsplit Hplane.
  intros Hroom Hpass Hseg. unfold draw_pass. destruct (target_plane_is pass c) as [e ->]. set (c0 := {| row := _; env := e; calls := _ |}).
  change (follows (pass_script s segments segment pass) plane_closed c0
    (let '(rc, c) := begin_plane (plane_for s pass) c0 in
     if negb (rc =? 0) then (false, c)
     else let '(ok, c) := row_loop (Z.to_nat (s_h s)) 0 (send_row s segment segments pass) c in
          let '(rc, c) := end_plane (plane_for s pass) c in (if negb (rc =? 0) then false else ok, c))).
  assert (Hr0 : roomy s c0) by exact Hroom. clearbody c0. clear Hroom.
  destruct (begin_plane (plane_for s pass) c0) as [rc c1] eqn:Hb. destruct (Z.eqb_spec rc 0) as [->|Hrc]; cbn [negb].
  - unfold pass_script. destruct (wf_h _ _ _ Hwf) as [Hh _]. rewrite <- (Z2Nat.id (s_h s)) at 1 by done.
    apply (plane_follows (fun r => bytes_ok r /\ len r = len (row c0)) _ _ _ _ _ c0 c1); [done| |split; [apply Hr0|done]|done].
    intros y c' [Hb' Hl']. destruct (send_row_is s segment segments pass y row0 c' Hwf Hsplit) as (r & Hr & Hrl & He);
      [by apply (roomy_len c0)|done..|]. exists r. split; [split; [done|lia]|done].
  - unfold begin_plane, called in Hb. injection Hb as Hrc' <-. rewrite Hrc'. eapply refused_begin; [exact Hrc|apply Hr0|done|done|by left].
Qed.

Lemma white_plane_follows segment c : roomy s c -> 0 <= segment < segments ->
  follows (plane_script OD_BOOT_PLANE_SECOND segment (s_h s) (fun _ => white_row s segment segments)) plane_closed c (white_plane s segment segments c).
Proof using Hwf.
  intros Hroom Hseg. destruct (pitches _ _ _ Hwf) as (Hp & Hpp & _). destruct Hroom as [Hb Hlen]. destruct (wf_parts _ _ _ Hwf) as [Hr1 _].
  assert (Hms : memset (row c) 0x00 (pitch s) = replicate (Z.to_nat (pitch s)) 0 ++ drop (Z.to_nat (pitch s)) (row c))
    by (apply memset_is; destruct (gray4Split s); lia).
  unfold white_plane. rewrite Hms. set (c0 := set_row _ c).
  assert (H0 : bytes_ok (row c0) /\ len (row c0) = len (row c)).
  { cbn. split; [apply Forall_app; split; [apply Forall_replicate; by unfold is_byte|by apply Forall_drop]|].
    rewrite length_app, length_replicate, length_drop. destruct (gray4Split s); lia. }
  destruct H0 as [H0 H0l].
  assert (Hc : forall r, follows (plane_script OD_BOOT_PLANE_SECOND segment (s_h s) (fun _ => white_row s segment segments)) plane_closed c0 r ->
    follows (plane_script OD_BOOT_PLANE_SECOND segment (s_h s) (fun _ => white_row s segment segments)) plane_closed c r).
  { intros r (H1 & H2 & H3). split; [done|]. split; [lia|done]. }
  apply Hc. clear Hc. destruct (begin_plane OD_BOOT_PLANE_SECOND c0) as [rc c1] eqn:Hbegin.
  assert (Hpart : part (row c0) 0 (pitch s) segment segments = white_row s segment segments).
  { unfold white_row. rewrite <- (part_share [] _ (drop (Z.to_nat (pitch s)) (row c))) by (rewrite ?length_replicate, ?Z2Nat.id; done || lia).
    rewrite length_replicate, Z2Nat.id by done. done. }
  destruct (Z.eqb_spec rc 0) as [->|Hrc].
  - destruct (wf_h _ _ _ Hwf) as [Hh _]. rewrite <- (Z2Nat.id (s_h s)) at 1 by done.
    cbn [Z.eqb]. apply (plane_follows (eq (row c0)) _ _ _ _ _ c0 c1); [by intros r <-| |done|done].
    intros y c' Hc'. exists (row c0). split; [done|]. rewrite <- Hc', Hpart, Hc'. by destruct c'.
  - unfold begin_plane, called in Hbegin. injection Hbegin as Hrc' <-. rewrite Hrc'. unfold end_plane, called.
    destruct (od_boot_app_end_plane _ _) as [rc2 e2]. cbn. replace (if negb (rc2 =? 0) then false else false) with false by (by destruct (negb _)).
    eapply refused_begin; [exact Hrc|done|done|cbn; by rewrite <- app_assoc|right; by eexists].
Qed.

Lemma pass_loop_follows n segment pass c : roomy s c -> 0 <= pass -> pass + Z.of_nat n <= 2 -> 0 <= segment < segments ->
  follows (concat (pass_script s segments segment <$> seqZ pass (Z.of_nat n))) plane_closed c (pass_loop n pass s segment segments c).
Proof using Hwf Hsplit Hplane.
  revert pass c. induction n as [|n IH]; intros pass c Hroom Hp Hn Hseg; cbn [pass_loop].
  { split; [apply Hroom|]. split; [done|]. exists []. split; [by rewrite app_nil_r|done]. }
  rewrite seqZ_cons by lia. replace (Z.pred (Z.of_nat (S n))) with (Z.of_nat n) by lia. replace (Z.succ pass) with (pass + 1) by lia.
  cbn [fmap list_fmap concat]. pose proof (draw_pass_follows segment pass c Hroom ltac:(lia) Hseg) as Hd.
  destruct (draw_pass s segment segments pass c) as [ok c1]. apply follows_seq; [apply plane_closed_app|done|].
  intros ->. destruct Hd as (Hb & Hl & _). apply IH; [by apply (roomy_len c)|lia..|done].
Qed.

Lemma segment_follows segment c : roomy s c -> 0 <= segment < segments ->
  follows (segment_script s segments segment) plane_closed c (draw_segment s segment segments c).
Proof using Hwf Hsplit Hplane.
  intros Hroom Hseg. unfold draw_segment, segment_script.
  assert (Hpp : 0 <= planePasses s <= 2) by (unfold planePasses; destruct (_ || _); lia).
  pose proof (pass_loop_follows (Z.to_nat (planePasses s)) segment 0 c Hroom ltac:(lia) ltac:(lia) Hseg) as Hp. rewrite Z2Nat.id in Hp by lia.
  destruct (pass_loop _ 0 s segment segments c) as [ok c1]. destruct Hp as (Hb & Hl & Hp).
  destruct (useBitplanes s && negb (colorSwatchPlane1 s)); cbn [andb].
  - replace (if ok then white_plane s segment segments c1 else (ok, c1)) with (if ok then white_plane s segment segments c1 else (false, c1)) by (by destruct ok).
    apply follows_seq; [apply plane_closed_app|done|]. intros ->. apply white_plane_follows; [by apply (roomy_len c)|done].
  - rewrite app_nil_r. done.
Qed.

Lemma segment_loop_follows n segment c : roomy s c -> 0 <= segment -> segment + Z.of_nat n <= segments ->
  follows (concat (segment_script s segments <$> seqZ segment (Z.of_nat n))) plane_closed c (segment_loop n segment s segments c).
Proof using Hwf Hsplit Hplane.
  revert segment c. induction n as [|n IH]; intros segment c Hroom Hs Hn; cbn [segment_loop].
  { split; [apply Hroom|]. split; [done|]. exists []. split; [by rewrite app_nil_r|done]. }
  rewrite seqZ_cons by lia. replace (Z.pred (Z.of_nat (S n))) with (Z.of_nat n) by lia. replace (Z.succ segment) with (segment + 1) by lia.
  cbn [fmap list_fmap concat]. pose proof (segment_follows segment c Hroom ltac:(lia)) as Hd.
  destruct (draw_segment s segment segments c) as [ok c1]. apply follows_seq; [apply plane_closed_app|done|].
  intros ->. destruct Hd as (Hb & Hl & _). apply IH; [by apply (roomy_len c)|lia..].
Qed.

(** A call within the frame. *)
Definition inner (k : call) : Prop := match k with BeginFrame _ _ _ _ | EndFrame _ => False | _ => True end.

Lemma plane_script_inner p segment h data : Forall inner (plane_script p segment h data).
Proof using.
  apply Forall_cons. split; [done|]. apply Forall_app. split; [|by repeat constructor].
  apply Forall_fmap, Forall_forall. by intros.
Qed.

Lemma segments_inner : Forall inner (concat (segment_script s segments <$> seqZ 0 segments)).
Proof using.
  apply Forall_concat, Forall_fmap, Forall_forall. intros segment _. cbn. unfold segment_script. apply Forall_app. split.
  - apply Forall_concat, Forall_fmap, Forall_forall. intros pass _. apply plane_script_inner.
  - destruct (_ && _); [apply plane_script_inner|constructor].
Qed.

(** A refused call, and what is called after it: the plane it was in is ended, and the
    frame if it had begun. *)
Definition frame_closed (pre : list call) (last : call) (post : list call) : Prop :=
  match last with
  | BeginFrame _ _ _ _ | EndFrame _ => post = []
  | BeginPlane p _ => exists r, post = [EndFrame r] \/ exists r', post = [EndPlane p r'; EndFrame r]
  | WriteRow _ _ _ _ => exists r r', post = [EndPlane (open_plane (-1) pre) r; EndFrame r']
  | EndPlane _ _ => exists r, post = [EndFrame r]
  end.

Lemma send_frame_follows c : roomy s c -> calls c = [] ->
  let '(ok, c') := send_frame s segments c in
  if ok then calls c' = frame_script s segments
  else exists pre last post, calls c' = pre ++ last :: post /\ rc_of last <> 0 /\
         (pre ++ [taken last]) `prefix_of` frame_script s segments /\ frame_closed pre last post.
Proof using Hwf Hsplit Hplane.
  intros Hroom Hc. unfold send_frame, begin_frame, called. destruct (od_boot_app_begin_frame _ _ _ _) as [rc e]. cbn [fst snd].
  destruct (Z.eqb_spec rc 0) as [->|Hrc]; cbn [negb].
  2: { rewrite Hc. cbn. exists [], (BeginFrame (s_w s) (s_h s) segments rc), []. split; [done|]. split; [done|].
       split; [by apply prefix_cons, prefix_nil|done]. }
  set (c0 := {| row := row c; env := e; calls := _ |}). assert (Hr0 : roomy s c0) by exact Hroom.
  assert (Hseg : 0 <= segments) by (destruct (wf_segments _ _ _ Hwf) as [-> | ->]; lia).
  pose proof (segment_loop_follows (Z.to_nat segments) 0 c0 Hr0 ltac:(lia) ltac:(lia)) as Hf. rewrite Z2Nat.id in Hf by lia.
  destruct (segment_loop _ 0 s segments c0) as [ok c1]. destruct Hf as (_ & _ & new & Hn & Hr). unfold end_frame, called.
  destruct (od_boot_app_end_frame (env c1)) as [rc e1]. cbn [fst snd calls] in *. unfold c0 in Hn. cbn [calls] in Hn. rewrite Hc in Hn. cbn [app] in Hn. unfold frame_script. destruct ok.
  - subst new. rewrite Hn. destruct (Z.eqb_spec rc 0) as [->|Hrc]; cbn [negb]; [by rewrite <- app_comm_cons|].
    exists (BeginFrame (s_w s) (s_h s) segments 0 :: concat (segment_script s segments <$> seqZ 0 segments)), (EndFrame rc), [].
    split; [done|]. split; [done|]. split; [done|done].
  - replace (if negb (rc =? 0) then false else false) with false by (by destruct (negb _)).
    destruct Hr as (pre & last & post & -> & Hrc & [rest Hp] & Hd). specialize (Hd (-1)). rewrite Hn.
    exists (BeginFrame (s_w s) (s_h s) segments 0 :: pre), last, (post ++ [EndFrame rc]). split; [cbn; by rewrite <- app_assoc|]. split; [done|].
    split; [cbn; apply prefix_cons, prefix_app_r; by exists rest|].
    assert (Hin : inner last).
    { pose proof segments_inner as Hall. rewrite Hp in Hall. apply Forall_app in Hall as [Hall _]. apply Forall_app in Hall as [_ Hall].
      apply Forall_cons in Hall as [Hl _]. by destruct last. }
    unfold plane_closed in Hd. unfold frame_closed. destruct last as [? ? ? ?|p' ?|? ? ? ?|? ?|?]; try done.
    + destruct Hd as [-> |[r ->]]; eexists; [by left|right; by eexists].
    + destruct Hd as [r ->]. by eexists _, _.
    + subst post. by eexists.
Qed.

(** ** The picture *)

(** What a controller has of row [y] of a plane: the shares written while the plane was open. *)
Fixpoint received (open : option Z) (plane y : Z) (ks : list call) : bytes :=
  match ks with
  | [] => []
  | BeginPlane p _ :: ks => received (Some p) plane y ks
  | EndPlane _ _ :: ks => received None plane y ks
  | WriteRow y' _ data _ :: ks => (if bool_decide (open = Some plane) && (y' =? y) then data else []) ++ received open plane y ks
  | _ :: ks => received open plane y ks
  end.

Lemma received_rows open plane y segment data y0 h ks : 0 <= h ->
  received open plane y (row_script segment data y0 h ++ ks) =
    (if bool_decide (open = Some plane) && (y0 <=? y) && (y <? y0 + h) then data y else []) ++ received open plane y ks.
Proof using.
  intros Hh. rewrite <- (Z2Nat.id h) by done. generalize (Z.to_nat h). clear h Hh. intros n. revert y0. induction n as [|n IH]; intros y0.
  { destruct (Z.leb_spec y0 y), (Z.ltb_spec y (y0 + Z.of_nat 0)); rewrite ?andb_false_r, ?andb_true_r; try done. lia. }
  unfold row_script. rewrite seqZ_cons, fmap_cons by lia. replace (Z.pred (Z.of_nat (S n))) with (Z.of_nat n) by lia.
  fold (row_script segment data (Z.succ y0) (Z.of_nat n)). cbn [app received]. rewrite IH, app_assoc. f_equal.
  destruct (bool_decide (open = Some plane)); [|done]. cbn [andb].
  destruct (Z.eqb_spec y0 y), (Z.leb_spec (Z.succ y0) y), (Z.leb_spec y0 y), (Z.ltb_spec y (Z.succ y0 + Z.of_nat n)),
    (Z.ltb_spec y (y0 + Z.of_nat (S n))); subst; cbn [andb]; rewrite ?app_nil_r; done || lia.
Qed.

Lemma received_plane open plane y p segment h data ks : 0 <= y < h ->
  received open plane y (plane_script p segment h data ++ ks) = (if p =? plane then data y else []) ++ received None plane y ks.
Proof using.
  intros Hy. unfold plane_script. cbn [app received]. rewrite <- app_assoc, received_rows by lia. cbn [app received]. f_equal.
  destruct (Z.leb_spec 0 y), (Z.ltb_spec y (0 + h)); try lia. rewrite !andb_true_r.
  destruct (Z.eqb_spec p plane) as [->|Hne]; [by rewrite bool_decide_true|rewrite bool_decide_false by congruence; done].
Qed.

Lemma shares_join r : Z.rem (len r) segments = 0 -> concat ((fun segment => share r segment segments) <$> seqZ 0 segments) = r.
Proof using Hwf.
  intros Hr. destruct (wf_segments _ _ _ Hwf) as [He | He]; rewrite He in *;
    [change (seqZ 0 1) with [0]|change (seqZ 0 2) with [0; 1]]; cbn [fmap list_fmap concat]; unfold share, part; rewrite app_nil_r.
  - rewrite Z.quot_1_r. change (Z.to_nat (0 + 0 * len r)) with 0%nat. by rewrite drop_0, Nat2Z.id, firstn_all.
  - set (q := Z.quot (len r) 2). assert (Hq : len r = 2 * q) by (unfold q; pose proof (Z.quot_rem' (len r) 2); lia).
    change (Z.to_nat (0 + 0 * q)) with 0%nat. rewrite drop_0. replace (0 + 1 * q) with q by lia.
    rewrite (take_ge (drop _ _)) by (rewrite length_drop; lia). apply take_drop.
Qed.

(** What each plane receives of a row, segment by segment. *)
Definition plane_share (plane y segment : Z) : bytes :=
  concat ((fun pass => if plane_for s pass =? plane then rows_of s pass segment segments y else []) <$> seqZ 0 (planePasses s)) ++
  (if useBitplanes s && negb (colorSwatchPlane1 s) && (OD_BOOT_PLANE_SECOND =? plane) then white_row s segment segments else []).

Lemma received_passes plane y segment n pass open ks : 0 <= y < s_h s -> (0 < n)%nat ->
  received open plane y (concat (pass_script s segments segment <$> seqZ pass (Z.of_nat n)) ++ ks) =
    concat ((fun pass => if plane_for s pass =? plane then rows_of s pass segment segments y else []) <$> seqZ pass (Z.of_nat n)) ++
    received None plane y ks.
Proof using.
  intros Hy Hn. revert pass open. induction n as [|n IH]; intros pass open; [lia|].
  rewrite seqZ_cons by lia. replace (Z.pred (Z.of_nat (S n))) with (Z.of_nat n) by lia. cbn [fmap list_fmap concat].
  rewrite <- !app_assoc. unfold pass_script at 1. rewrite received_plane by done. f_equal. destruct n as [|n]; [done|]. apply IH. lia.
Qed.

Lemma passes_pos : 1 <= planePasses s <= 2.
Proof using. unfold planePasses. destruct (_ || _); lia. Qed.

Lemma received_segments plane y n segment open ks : 0 <= y < s_h s -> open = None \/ (0 < n)%nat ->
  received open plane y (concat (segment_script s segments <$> seqZ segment (Z.of_nat n)) ++ ks) =
    concat (plane_share plane y <$> seqZ segment (Z.of_nat n)) ++ received None plane y ks.
Proof using.
  intros Hy Ho. revert segment open Ho. induction n as [|n IH]; intros segment open Ho; [destruct Ho as [-> |]; [done|lia]|].
  rewrite seqZ_cons by lia. replace (Z.pred (Z.of_nat (S n))) with (Z.of_nat n) by lia. cbn [fmap list_fmap concat].
  unfold segment_script at 1, plane_share at 1. rewrite <- !app_assoc. pose proof passes_pos as Hp.
  rewrite <- (Z2Nat.id (planePasses s)) by lia. rewrite received_passes by (done || lia). f_equal.
  destruct (useBitplanes s && negb (colorSwatchPlane1 s)); cbn [andb].
  - rewrite received_plane by done. f_equal. apply IH. by left.
  - cbn [app]. apply IH. by left.
Qed.

Lemma received_frame plane y : 0 <= y < s_h s ->
  received None plane y (frame_script s segments) = concat (plane_share plane y <$> seqZ 0 segments).
Proof using Hwf.
  intros Hy. unfold frame_script. cbn [received]. assert (0 < segments) by (destruct (wf_segments _ _ _ Hwf) as [-> | ->]; lia).
  rewrite <- (Z2Nat.id segments) at 2 by lia. rewrite received_segments by (done || lia). cbn [received].
  by rewrite app_nil_r, Z2Nat.id by lia.
Qed.

(** A row of a pass, pixel by pixel. *)
Lemma pass_row_pixel pass x y : 0 <= x < s_w s ->
  pixel (pass_bpp s (color_pass s pass)) (pass_row s pass y) x =
    if color_pass s pass then Z.b2z (colored_at s x y) else code_at s x y.
Proof using Hwf.
  intros Hx. destruct (pitches _ _ _ Hwf) as (Hp & _). destruct (ground_row _ _ _ (color_pass s pass) Hwf Hp) as [Hg Hgl].
  pose proof (in_pitch_pass _ _ _ (color_pass s pass) x Hwf Hx) as Hi. destruct (place_range _ x (pass_packing _ _ _ (color_pass s pass) Hwf)) as (_ & _ & Hper).
  destruct (draw_pixels_spec s segments row0 (color_pass s pass) y (Z.to_nat (s_w s)) 0 _ [] Hwf ltac:(lia) ltac:(lia) Hg ltac:(constructor) Hgl)
    as (_ & _ & _ & Hpix). unfold pass_row. rewrite (Hpix x Hx).
  assert (Hground : pixel (pass_bpp s (color_pass s pass)) (replicate (Z.to_nat (pitch s)) (ground s (color_pass s pass))) x =
    bits_at (pass_bpp s (color_pass s pass)) (place (pass_bpp s (color_pass s pass)) x) (ground s (color_pass s pass))).
  { unfold pixel, get. rewrite lookup_total_replicate_2; [done|]. assert (0 <= x / per (pass_bpp s (color_pass s pass))) by (apply Z.div_pos; lia). lia. }
  rewrite Hground. destruct (Z.leb_spec 0 x), (Z.ltb_spec x (0 + Z.of_nat (Z.to_nat (s_w s)))); try lia. cbn [andb].
  unfold pixel_write, colored_at, code_at, pass_bpp, ground, paper. destruct (logical s x y) as [lx ly]. destruct (color_pass s pass).
  - destruct (_ && _); [done|]. unfold bits_at. by rewrite Z.shiftr_0_l.
  - destruct (black s lx ly); [by rewrite Z.land_0_l|]. by destruct (0 <=? swatch_at s lx ly).
Qed.

Lemma sent_len_rem : Z.rem (sent_len s) segments = 0.
Proof using Hwf. unfold sent_len. destruct (wf_parts _ _ _ Hwf) as [H1 H2]. destruct (gray4Split s); [by apply H2|done]. Qed.

(** A plane that a pass draws receives the pass's rows; the plane left white, zeros. *)
Lemma received_pass pass y : 0 <= pass < planePasses s -> 0 <= y < s_h s ->
  received None (plane_for s pass) y (frame_script s segments) = sent_row s pass y.
Proof using Hwf.
  intros Hpass Hy. rewrite received_frame by done. pose proof passes_pos as Hpp.
  destruct (sent_row_ok s segments row0 pass y Hwf ltac:(lia)) as [_ Hl].
  rewrite <- (shares_join (sent_row s pass y)) by (rewrite Hl; apply sent_len_rem). f_equal. apply list_fmap_ext. intros _ segment _.
  unfold plane_share, rows_of. revert Hpass. pose proof (wf_exclusive _ _ _ Hwf) as Hex. unfold planePasses, plane_for.
  destruct (gray4Split s || colorSwatchPlane1 s) eqn:Hg.
  - intros Hpass. change (seqZ 0 2) with [0; 1]. cbn [fmap list_fmap concat Z.eqb]. rewrite app_nil_r.
    assert (Hw : useBitplanes s && negb (colorSwatchPlane1 s) = false).
    { destruct (useBitplanes s); [|done]. rewrite (Hex eq_refl) in Hg. cbn in Hg. by rewrite Hg. }
    rewrite Hw. cbn [andb]. rewrite app_nil_r. assert (Hc : pass = 0 \/ pass = 1) by lia. by destruct Hc as [-> | ->]; cbn; rewrite ?app_nil_r.
  - intros Hpass. assert (pass = 0) as -> by lia. change (seqZ 0 1) with [0]. cbn [fmap list_fmap concat]. rewrite Z.eqb_refl, app_nil_r.
    destruct (useBitplanes s); cbn [andb]; [destruct (negb _)|]; cbn; by rewrite app_nil_r.
Qed.

Lemma received_white y : useBitplanes s && negb (colorSwatchPlane1 s) = true -> 0 <= y < s_h s ->
  received None OD_BOOT_PLANE_SECOND y (frame_script s segments) = replicate (Z.to_nat (pitch s)) 0.
Proof using Hwf.
  intros Hw Hy. rewrite received_frame by done. destruct (wf_parts _ _ _ Hwf) as [Hr _]. destruct (pitches _ _ _ Hwf) as (Hp & _).
  rewrite <- (shares_join (replicate (Z.to_nat (pitch s)) 0)) by (rewrite length_replicate, Z2Nat.id; done).
  f_equal. apply list_fmap_ext. intros _ segment _. unfold plane_share. rewrite Hw. apply andb_prop in Hw as [Hb Hc].
  pose proof (wf_exclusive _ _ _ Hwf Hb) as Hg. unfold planePasses, plane_for. rewrite Hg, Hb. apply negb_true_iff in Hc. rewrite Hc. done.
Qed.

(** What was sent shows the picture. *)
Lemma script_shows plane x y : plane ∈ planes s -> 0 <= x < s_w s -> 0 <= y < s_h s ->
  pixel (plane_bpp s plane) (received None plane y (frame_script s segments)) x = shown s plane x y.
Proof using Hwf Hsplit.
  intros Hin Hx Hy. pose proof (wf_exclusive _ _ _ Hwf) as Hex. unfold planes in Hin. apply elem_of_app in Hin as [Hin|Hin].
  - apply list_elem_of_fmap in Hin as (pass & -> & Hpass). apply elem_of_seqZ in Hpass. rewrite received_pass by lia. pose proof passes_pos.
    pose proof (pass_row_pixel pass x y Hx) as Hpix. unfold sent_row, shown, plane_bpp. destruct (pitches _ _ _ Hwf) as (_ & _ & Hw8 & _).
    destruct (gray4Split s) eqn:Hg.
    + assert (Hc : colorSwatchPlane1 s = false) by (unfold colorSwatchPlane1; destruct (useBitplanes s); [by specialize (Hex eq_refl)|done]).
      assert (Hcp : color_pass s pass = false) by (unfold color_pass; by rewrite Hc). rewrite Hcp in Hpix. cbn [pass_bpp] in Hpix.
      unfold pass_bpp in Hpix. rewrite (Hsplit Hg) in Hpix. rewrite gray4_plane by (done || lia). rewrite Hpix. do 3 f_equal.
      unfold plane_for. rewrite Hg. cbn [orb]. assert (Hcase : pass = 0 \/ pass = 1) by lia. by destruct Hcase as [-> | ->].
    + unfold plane_for, color_pass, planePasses in *. rewrite Hg in *. cbn [orb] in *. destruct (colorSwatchPlane1 s) eqn:Hc; cbn [andb] in *.
      * assert (Hb : useBitplanes s = true) by (unfold colorSwatchPlane1 in Hc; by apply andb_prop in Hc as [? _]). rewrite Hb.
        assert (Hcase : pass = 0 \/ pass = 1) by lia. destruct Hcase as [-> | ->]; cbn in *; exact Hpix.
      * assert (pass = 0) as -> by lia. destruct (useBitplanes s); cbn in *; exact Hpix.
  - destruct (useBitplanes s && negb (colorSwatchPlane1 s)) eqn:Hw; [|by apply elem_of_nil in Hin]. apply list_elem_of_singleton in Hin as ->.
    rewrite received_white by done. apply andb_prop in Hw as [Hb Hc]. apply negb_true_iff in Hc. unfold plane_bpp, shown. rewrite (Hex Hb), Hb, Hc. cbn [andb].
    unfold pixel, get. rewrite lookup_total_replicate_2; [unfold bits_at; by rewrite Z.shiftr_0_l|].
    pose proof (in_pitch_bit _ _ _ x Hwf Hx). destruct per_is as (H1 & _). cbn. rewrite H1 in *. assert (0 <= x / 8) by (apply Z.div_pos; lia). lia.
Qed.

(** Native pixels are the points of the screen, each once. *)
Lemma logical_in x y : 0 <= x < s_w s -> 0 <= y < s_h s -> 0 <= (logical s x y).1 < w_log s /\ 0 <= (logical s x y).2 < h_log s.
Proof using Hwf.
  intros Hx Hy. pose proof (wf_turn _ _ _ Hwf) as Ht. destruct (wf_w _ _ _ Hwf), (wf_h _ _ _ Hwf). unfold logical.
  destruct (Z.eqb_spec (rotation s) 1), (Z.eqb_spec (rotation s) 2), (Z.eqb_spec (rotation s) 3); try lia; cbn [orb] in Ht; injection Ht as -> ->;
    cbn [fst snd]; rewrite ?wrap_id by (unfold fits; change (2 ^ 16) with 65536; lia); lia.
Qed.

Lemma logical_inj x y x' y' : 0 <= x < s_w s -> 0 <= y < s_h s -> 0 <= x' < s_w s -> 0 <= y' < s_h s ->
  logical s x y = logical s x' y' -> x = x' /\ y = y'.
Proof using Hwf.
  intros Hx Hy Hx' Hy'. pose proof (wf_turn _ _ _ Hwf) as Ht. destruct (wf_w _ _ _ Hwf), (wf_h _ _ _ Hwf). unfold logical.
  destruct (Z.eqb_spec (rotation s) 1), (Z.eqb_spec (rotation s) 2), (Z.eqb_spec (rotation s) 3); try lia; cbn [orb] in Ht; injection Ht as Hlw Hlh;
    rewrite ?Hlw, ?Hlh, ?wrap_id by (unfold fits; change (2 ^ 16) with 65536; lia); intros [= Hlx Hly]; lia.
Qed.
End Frame.
End Screen.


(** ** What [prepare] guarantees *)

Lemma field16 (d : bytes) i j : bytes_ok d -> 0 <= d.[i] + 256 * d.[j] < 65536.
Proof. intros Hd. pose proof (get_byte d i Hd). pose proof (get_byte d j Hd). unfold is_byte in *. lia. Qed.

Lemma swatches_ok scheme panelIc direct : let '(codes, colors, n) := swatches scheme panelIc direct in
  0 <= n <= 16 /\ len codes = 16 /\ len colors = 16.
Proof.
  unfold swatches, bootGray4FillSwatchCodes.
  repeat match goal with |- context [if ?c then _ else _] => destruct c end; vm_compute; repeat split; congruence.
Qed.

Lemma pitch_is w bpp : 0 <= w -> packing bpp ->
  (if bpp =? 4 then Z.quot (w + 1) 2 else if bpp =? 2 then Z.quot (w + 3) 4 else Z.quot (w + 7) 8) = (w + per bpp - 1) / per bpp.
Proof.
  destruct per_is as (H1 & H2 & H4). intros Hw [-> | [-> | ->]]; cbn [Z.eqb Pos.eqb]; rewrite ?H1, ?H2, ?H4, Z.quot_div_nonneg by lia; f_equal; lia.
Qed.

Section Prepared.
Context {E Q : Type} `{!BootApp E} `{!QrEncoder Q} (ls : logos) (B : build).
(** The target packs 4-gray at two bits a pixel. *)
Context (Hgray : forall e, (od_boot_app_bits_per_pixel OD_COLOR_SCHEME_GRAY4 e).1 = 2).

Lemma compose_wf d bpp direct t (qr : Q) segments row row_len :
  bytes_ok d -> packing bpp -> (color_scheme d = OD_COLOR_SCHEME_GRAY4 -> bpp = 2) -> bytes_ok row -> row_len <= len row ->
  unsendable (compose ls (geometry_of d) d bpp direct t qr) segments row_len = false ->
  well_formed (compose ls (geometry_of d) d bpp direct t qr) segments row /\ splittable (compose ls (geometry_of d) d bpp direct t qr).
Proof using.
  intros Hd Hpk Hg4 Hrow Hlen Hu. set (s := compose _ _ _ _ _ _ _) in *. unfold unsendable in Hu.
  apply orb_false_iff in Hu as [Hu Hfit]. apply orb_false_iff in Hu as [Hu Hr2]. apply orb_false_iff in Hu as [Hseg Hr1].
  pose proof (field16 d 4 5 Hd) as Hw. pose proof (field16 d 6 7 Hd) as Hh. split.
  - constructor.
    + exact Hw.
    + exact Hh.
    + change ((if (display_rotation d =? 1) || (display_rotation d =? 3) then pixel_height d else pixel_width d,
               if (display_rotation d =? 1) || (display_rotation d =? 3) then pixel_width d else pixel_height d) =
              if (display_rotation d =? 1) || (display_rotation d =? 3) then (pixel_height d, pixel_width d) else (pixel_width d, pixel_height d)).
      by destruct (_ || _).
    + exact Hpk.
    + apply pitch_is; [apply Hw|done].
    + apply white_ok.
    + unfold s, compose. cbn [numSwatches swatchCode swatchIsColor]. 
      match goal with |- context [if ?c then swatches _ _ _ else _] => destruct c end; [|vm_compute; repeat split; congruence]. pose proof (swatches_ok (color_scheme d) (panel_ic_type d) direct) as Hsw.
      by destruct (swatches _ _ _) as [[? ?] ?].
    + destruct (Z.eqb_spec segments 1), (Z.eqb_spec segments 2); auto; done.
    + apply negb_false_iff, Z.eqb_eq in Hr1. split; [done|]. intros Hg. rewrite Hg in Hr2. cbn [andb] in Hr2.
      by apply negb_false_iff, Z.eqb_eq in Hr2.
    + unfold gray4Split, s, compose. cbn [colorScheme useBitplanes]. by destruct (Z.eqb_spec (color_scheme d) OD_COLOR_SCHEME_GRAY4) as [-> |].
    + apply Z.ltb_ge in Hfit. split; [done|lia].
  - unfold splittable, gray4Split, s, compose. cbn [colorScheme bitsPerPixel]. intros [Hg _]%andb_prop. apply Hg4. by apply Z.eqb_eq.
Qed.

Lemma prepare_wf cfg sec bufs e s segments r e' :
  (forall c, cfg = Some c -> bytes_ok (elems (displays c)).[0]) ->
  (forall b r, bufs = Some b -> b_row b = Some r -> bytes_ok r /\ row_len b <= len r) ->
  prepare ls B cfg sec bufs e = (Some (s, segments, r), e') -> well_formed s segments r /\ splittable s.
Proof.
  intros Hd Hb. unfold prepare. destruct (drawn_key sec) as [key show]. destruct (arguments cfg bufs) as [[[[c d] row] b]|] eqn:Harg; [|done].
  assert (Hargs : bytes_ok d /\ bytes_ok row /\ row_len b <= len row).
  { unfold arguments in Harg. destruct cfg as [c'|]; [|done]. destruct bufs as [b'|]; [|done]. destruct (b_row b') as [row'|] eqn:Hrow; [|done].
    destruct (_ || _); [done|]. injection Harg as <- <- <- <-. split; [by apply Hd|by apply (Hb b')]. }
  destruct Hargs as (Hdb & Hrow & Hlen). clear Harg Hd Hb. destruct (color_scheme d =? OD_COLOR_SCHEME_GRAY8); [done|].
  destruct (od_boot_app_direct_2bpp e) as [direct e1]. destruct (od_boot_app_bits_per_pixel (color_scheme d) e1) as [bpp e2] eqn:Hbpp.
  destruct (negb (bpp =? 1) && negb (bpp =? 2) && negb (bpp =? 4)) eqn:Hp; [done|].
  destruct (od_boot_app_device_id24 e2) as [id e3]. destruct (od_boot_url_build _ _ _ _ _ _) as [url|]; [|done].
  destruct (_ || _); [done|]. destruct (qrcode_initText _ _ _) as [rc qr]. destruct (negb (rc =? 0)); [done|].
  destruct (od_boot_app_firmware_version e3) as [v e4]. destruct (sensor_texts _ e4) as [t e5].
  destruct (od_boot_app_segments e5) as [segs e6]. set (tx := texts_of _ _ _ _ _ _ _ _). clearbody tx.
  destruct (unsendable _ _ _) eqn:Hu; [done|]. intros [= <- <- <- <-].
  assert (Hpk : packing bpp).
  { unfold packing. destruct (Z.eqb_spec bpp 1), (Z.eqb_spec bpp 2), (Z.eqb_spec bpp 4); try done; lia. }
  eapply (compose_wf d bpp direct tx qr segs row); try done.
  - intros Hg. rewrite Hg in Hbpp. by rewrite <- (Hgray e1), Hbpp.
Qed.

(** What the rest relies on: a target's default plane is a function of the scheme, the
    display's configuration is bytes, and the row buffer is as long as the caller says. *)
Context (default : Z -> Z) (Hdefault : forall scheme e, (od_boot_app_default_plane scheme e).1 = default scheme).
Context (cfg : option od_config) (sec : option SecurityConfig) (bufs : option od_boot_bufs) (e : E).
Context (Hcfg : forall c, cfg = Some c -> bytes_ok (elems (displays c)).[0]).
Context (Hbufs : forall b r, bufs = Some b -> b_row b = Some r -> bytes_ok r /\ row_len b <= len r).

Lemma render_follows s segments r e1 ok e2 ks :
  prepare ls B cfg sec bufs e = (Some (s, segments, r), e1) -> od_boot_screen_render ls B cfg sec bufs e = (ok, e2, ks) ->
  well_formed s segments r /\ splittable s /\
  if ok then ks = frame_script (default (colorScheme s)) s segments
  else exists pre last post, ks = pre ++ last :: post /\ rc_of last <> 0 /\
         (pre ++ [taken last]) `prefix_of` frame_script (default (colorScheme s)) s segments /\ frame_closed pre last post.
Proof using Hgray Hdefault Hcfg Hbufs.
  intros Hprep. unfold od_boot_screen_render. rewrite Hprep. destruct (prepare_wf _ _ _ _ _ _ _ _ Hcfg Hbufs Hprep) as [Hwf Hsp].
  pose proof (send_frame_follows (default (colorScheme s)) s segments r Hwf Hsp (Hdefault (colorScheme s)) {| row := r; env := e1; calls := [] |}
    (wf_row _ _ _ Hwf) eq_refl) as Hf. destruct (send_frame s segments _) as [ok' c']. intros [= <- <- <-]. by split_and!.
Qed.

(** Whatever the target answers, the boot screen's renderer calls it by the book: a
    configuration it cannot draw leads to no call at all; otherwise it makes the calls
    of the frame's script one by one (the frame begun; per segment and pass the plane
    begun, rows 0 to h-1 in order with the segment's share of each, the plane ended; the
    frame ended), returns true exactly when all of them were taken, and stops at the
    first that is refused, then ending the plane that is open and the frame if it had
    begun, and calling nothing else. *)
Theorem boot_screen_calls :
  let '(plan, _) := prepare ls B cfg sec bufs e in
  let '(ok, _, ks) := od_boot_screen_render ls B cfg sec bufs e in
  match plan with
  | None => ok = false /\ ks = []
  | Some (s, segments, _) =>
      let script := frame_script (default (colorScheme s)) s segments in
      if ok then ks = script
      else exists pre last post, ks = pre ++ last :: post /\ rc_of last <> 0 /\ (pre ++ [taken last]) `prefix_of` script /\ frame_closed pre last post
  end.
Proof using Hgray Hdefault Hcfg Hbufs.
  destruct (prepare ls B cfg sec bufs e) as [plan e1] eqn:Hp. destruct (od_boot_screen_render ls B cfg sec bufs e) as [[ok e2] ks] eqn:Hr.
  destruct plan as [[[s segments] r]|]; [by destruct (render_follows _ _ _ _ _ _ _ Hp Hr) as (_ & _ & H)|].
  unfold od_boot_screen_render in Hr. rewrite Hp in Hr. by injection Hr as <- _ <-.
Qed.

End Prepared.


(** ** A black-white-red panel of 16 by 8, upside down *)

Definition toy_scheme_bpp (scheme : Z) : Z := if scheme =? OD_COLOR_SCHEME_GRAY4 then 2 else 1.
#[local] Instance toy_app : BootApp Z := {|
  od_boot_app_begin_frame := fun _ _ _ e => (0, e); od_boot_app_begin_plane := fun _ e => (0, e);
  od_boot_app_write_row := fun _ _ _ e => (if e =? 0 then -1 else 0, e - 1); od_boot_app_end_plane := fun _ e => (0, e);
  od_boot_app_end_frame := fun e => (0, e); od_boot_app_bits_per_pixel := fun scheme e => (toy_scheme_bpp scheme, e);
  od_boot_app_default_plane := fun _ e => (0, e); od_boot_app_direct_2bpp := fun e => (false, e); od_boot_app_segments := fun e => (2, e);
  od_boot_app_device_id24 := fun e => (0xABCDEF, e); od_boot_app_firmware_version := fun e => (1, 2, 3, e);
  od_boot_app_battery_volts := fun e => (f32 0 0, e); od_boot_app_chip_temp_c := fun e => (f32 0 0, e);
|}.
#[local] Instance toy_qr : QrEncoder unit := {|
  qrcode_getBufferSize := fun _ => 211; qrcode_initText := fun _ _ _ => (0, tt); qrcode_size := fun _ => 41;
  qrcode_getModule := fun _ x y => Z.odd (x + y);
|}.
Definition toy_logos : logos := {| OD_BOOT_LOGO_SIZES := 1; BOOT_LOGO_S1 := no_logo; BOOT_LOGO_S2 := no_logo; BOOT_LOGO_S3 := no_logo |}.
Definition toy_display : bytes := (zeros 46).[4 := 16].[6 := 8].[14 := 2].[21 := OD_COLOR_SCHEME_BWR].
Definition toy_cfg : od_config := set_displays od_config_reset {| elems := [toy_display]; count := 1 |}.
Definition toy_bufs : od_boot_bufs := {| b_row := Some (zeros 4); row_len := 4; b_qr := true; qr_len := 256 |}.
(** The target takes [e] rows and refuses the next. *)
Definition toy_render (e : Z) : bool * Z * list call := od_boot_screen_render toy_logos full_build (Some toy_cfg) None (Some toy_bufs) e.

Lemma toy_cfg_ok : forall c, Some toy_cfg = Some c -> bytes_ok (elems (displays c)).[0].
Proof. intros c [= <-]. repeat constructor; vm_compute; repeat split; congruence. Qed.

Lemma toy_bufs_ok : forall b r, Some toy_bufs = Some b -> b_row b = Some r -> bytes_ok r /\ row_len b <= len r.
Proof. intros b r [= <-] [= <-]. split; [repeat constructor; vm_compute; repeat split; congruence|by vm_compute]. Qed.

(** The third row is refused: begun frame, begun plane, two rows taken, then the closing
    calls. *)
Lemma boot_screen_calls_witness :
  let '(ok, _, ks) := toy_render 2 in
  ok = false /\ map rc_of ks = [0; 0; 0; 0; -1; 0; 0] /\
  exists pre last post, ks = pre ++ last :: post /\ rc_of last <> 0 /\ frame_closed pre last post.
Proof.
  pose proof (boot_screen_calls toy_logos full_build (fun _ => eq_refl) (fun _ => 0) (fun _ _ => eq_refl) (Some toy_cfg) None (Some toy_bufs) 2
    toy_cfg_ok toy_bufs_ok) as Hw. unfold toy_render.
  destruct (prepare _ _ _ _ _ _) as [[[[s segments] r]|] e1] eqn:Hp; [|vm_compute in Hp; discriminate Hp].
  destruct (od_boot_screen_render _ _ _ _ _ 2) as [[ok e2] ks] eqn:Hr.
  pose proof (f_equal (fun r => (r.1.1, map rc_of r.2)) Hr) as Hok. vm_compute in Hok. injection Hok as <- Hks. split; [done|]. split; [done|].
  destruct Hw as (pre & last & post & -> & Hrc & _ & Hpost). by exists pre, last, post.
Defined.


(** A second plane without swatches whose begin is refused is ended all the same; the
    passes before it do not end a plane that did not begin. *)
Definition one_plane_app : BootApp Z := {|
  od_boot_app_begin_frame := fun _ _ _ e => (0, e); od_boot_app_begin_plane := fun plane e => (if plane =? 1 then -1 else 0, e);
  od_boot_app_write_row := fun _ _ _ e => (0, e); od_boot_app_end_plane := fun _ e => (0, e);
  od_boot_app_end_frame := fun e => (0, e); od_boot_app_bits_per_pixel := fun scheme e => (toy_scheme_bpp scheme, e);
  od_boot_app_default_plane := fun _ e => (0, e); od_boot_app_direct_2bpp := fun e => (false, e); od_boot_app_segments := fun e => (1, e);
  od_boot_app_device_id24 := fun e => (0xABCDEF, e); od_boot_app_firmware_version := fun e => (1, 2, 3, e);
  od_boot_app_battery_volts := fun e => (f32 0 0, e); od_boot_app_chip_temp_c := fun e => (f32 0 0, e);
|}.

Example refused_plane_is_ended :
  drop 11 (od_boot_screen_render (BootApp0 := one_plane_app) toy_logos full_build (Some toy_cfg) None (Some toy_bufs) 0).2 =
    [BeginPlane 1 (-1); EndPlane 1 0; EndFrame 0].
Proof. vm_compute. reflexivity. Qed.

End BootScreenProofs.
