(* ===== verification/Rfc1951.v ===== *)
(** A reference decoder for the zlib format, written from RFC 1950 and RFC 1951
    and not from the code: a function of the whole stream, as a list of bits,
    with no state between calls.  A compressed symbol is found by comparing the
    bits read with each symbol's canonical codeword; the output is the list of
    all bytes so far.  [InflateRfc] shows that [od_zlib_inflate.c] computes it. *)

From stdpp Require Import strings.
From S2P Require Import Prelude.

Module Rfc1951.

(** ** Bits, section 3.1.1 *)

Definition byte_bits (b : Z) : list bool := map (fun i => Z.testbit b (Z.of_nat i)) (seq 0 8).

(** The bits of each byte from the least significant up. *)
Definition bits_of (b : bytes) : list bool := concat (map byte_bits b).

(** A field of [n] bits, the least significant first. *)
Fixpoint take_bits (n : nat) (bs : list bool) : option (Z * list bool) :=
  match n, bs with
  | O, _ => Some (0, bs)
  | S n, b :: bs => '(v, bs) ← take_bits n bs; Some (Z.b2z b + 2 * v, bs)
  | S _, [] => None
  end.

(** To the next byte boundary: streams are whole bytes. *)
Definition align (bs : list bool) : list bool := drop (length bs mod 8) bs.

(** [n] fields of [w] bits each. *)
Fixpoint take_fields (n : nat) (w : nat) (bs : list bool) : option (list Z * list bool) :=
  match n with
  | O => Some ([], bs)
  | S n =>
      '(v, bs) ← take_bits w bs;
      '(vs, bs) ← take_fields n w bs;
      Some (v :: vs, bs)
  end.

(** ** Canonical codes, section 3.2.2

    A code is the list of its symbols' lengths, 0 for a symbol that is not used. *)

(** How many symbols have codewords of [l] bits. *)
Definition bl_count (lens : list Z) (l : Z) : Z := len (filter (fun x => x = l) lens).

(** [next_code] before any symbol is assigned: the first codeword of [l] bits. *)
Fixpoint first_code (lens : list Z) (l : nat) : Z :=
  match l with
  | O => 0
  | S l => 2 * (first_code lens l + match l with O => 0 | _ => bl_count lens (Z.of_nat l) end)
  end.

(** Symbols of one length have consecutive codewords, in the symbols' order. *)
Definition codeword (lens : list Z) (i : nat) : Z :=
  first_code lens (Z.to_nat lens.[Z.of_nat i]) + bl_count (take i lens) lens.[Z.of_nat i].

(** The symbol whose codeword is the [l] bits [v]. *)
Definition symbol_of (lens : list Z) (l : Z) (v : Z) : option Z :=
  Z.of_nat <$> List.find (fun i => if lens.[Z.of_nat i] =? l then codeword lens i =? v else false) (seq 0 (length lens)).

(** A symbol: its codeword comes most significant bit first, in at most 15 bits. *)
Fixpoint decode_from (lens : list Z) (l v : Z) (bs : list bool) : option (Z * list bool) :=
  match bs with
  | [] => None
  | b :: bs =>
      if 15 <? l + 1 then None
      else
        let v := 2 * v + Z.b2z b in
        match symbol_of lens (l + 1) v with
        | Some i => Some (i, bs)
        | None => decode_from lens (l + 1) v bs
        end
  end.

Definition decode (lens : list Z) (bs : list bool) : option (Z * list bool) := decode_from lens 0 0 bs.

(** ** Lengths and distances, section 3.2.5

    Length symbol [257 + i], [i < 29], and distance symbol [d], [d < 30]: the extra
    bits and the base, by the rule behind the RFC's two tables. *)

Definition length_extra (i : Z) : Z := if (i <? 8) || (i =? 28) then 0 else (i - 4) / 4.
Definition length_from (i : Z) : Z :=
  if i <? 8 then 3 + i else if i =? 28 then 258 else 3 + (4 + i mod 4) * 2 ^ length_extra i.

Definition dist_extra (d : Z) : Z := if d <? 4 then 0 else (d - 2) / 2.
Definition dist_from (d : Z) : Z := if d <? 4 then 1 + d else 1 + (2 + d mod 2) * 2 ^ dist_extra d.

(** ** Compressed data, section 3.2.3 *)

(** [n] bytes from [d] back, which may run into the bytes being copied. *)
Fixpoint copy_back (n : nat) (d : Z) (out : bytes) : bytes :=
  match n with
  | O => out
  | S n => copy_back n d (out ++ [out.[len out - d]])
  end.

Section Window.
(** How far back a stream may refer. *)
Variable window_size : Z.

(** A length and a distance, after the length symbol. *)
Definition take_match (dist : list Z) (i : Z) (bs : list bool) : option (Z * Z * list bool) :=
  '(x, bs) ← take_bits (Z.to_nat (length_extra i)) bs;
  '(d, bs) ← decode dist bs;
  if 30 <=? d then None
  else
    '(y, bs) ← take_bits (Z.to_nat (dist_extra d)) bs;
    Some (length_from i + x, dist_from d + y, bs).

(** The symbols up to the end of the block; each has at least one bit, so [n] more
    than the bits left is enough. *)
Fixpoint block_data (n : nat) (lit dist : list Z) (out : bytes) (bs : list bool) : option (bytes * list bool) :=
  match n with
  | O => None
  | S n =>
      '(sym, bs) ← decode lit bs;
      if sym <? 256 then block_data n lit dist (out ++ [sym]) bs
      else if sym =? 256 then Some (out, bs)
      else if 286 <=? sym then None
      else
        '(l, d, bs) ← take_match dist (sym - 257) bs;
        if (window_size <? d) || (len out <? d) then None
        else block_data n lit dist (copy_back (Z.to_nat l) d out) bs
  end.

(** ** The fixed codes, section 3.2.6 *)

Definition fixed_lit : list Z := replicate 144 8 ++ replicate 112 9 ++ replicate 24 7 ++ replicate 8 8.
Definition fixed_dist : list Z := replicate 32 5.

(** ** The dynamic codes, section 3.2.7 *)

Definition code_length_order : list Z := [16; 17; 18; 0; 8; 7; 9; 6; 10; 5; 11; 4; 12; 3; 13; 2; 14; 1; 15].

(** The code length code, from the lengths sent, in that order. *)
Fixpoint assign (order vs lens : list Z) : list Z :=
  match order, vs with
  | o :: order, v :: vs => assign order vs lens.[o := v]
  | _, _ => lens
  end.

(** What a repeat symbol repeats, and how many times: the bits and the base. *)
Definition repeat_rule (sym : Z) (sofar : list Z) : option (Z * Z * Z) :=
  if sym =? 16 then match last sofar with Some p => Some (p, 2, 3) | None => None end
  else if sym =? 17 then Some (0, 3, 3)
  else Some (0, 7, 11).

(** The [total] code lengths, [sofar] of which are known. *)
Fixpoint code_lengths (n : nat) (clens : list Z) (total : Z) (sofar : list Z) (bs : list bool)
  : option (list Z * list bool) :=
  match n with
  | O => None
  | S n =>
      if total <=? len sofar then Some (sofar, bs)
      else
        '(sym, bs) ← decode clens bs;
        if sym <? 16 then code_lengths n clens total (sofar ++ [sym]) bs
        else
          '(v, w, base) ← repeat_rule sym sofar;
          '(x, bs) ← take_bits (Z.to_nat w) bs;
          if total <? len sofar + (base + x) then None
          else code_lengths n clens total (sofar ++ replicate (Z.to_nat (base + x)) v) bs
  end.

(** The two codes of a dynamic block.  There are at most 286 literal and length
    codes, and a block must be able to end. *)
Definition dynamic_codes (bs : list bool) : option (list Z * list Z * list bool) :=
  '(a, bs) ← take_bits 5 bs;
  '(b, bs) ← take_bits 5 bs;
  '(c, bs) ← take_bits 4 bs;
  let hlit := 257 + a in
  let hdist := 1 + b in
  if 286 <? hlit then None
  else
    '(vs, bs) ← take_fields (Z.to_nat (4 + c)) 3 bs;
    '(lens, bs) ← code_lengths (S (Z.to_nat (hlit + hdist))) (assign code_length_order vs (replicate 19 0))
                    (hlit + hdist) [] bs;
    if lens.[256] =? 0 then None
    else Some (take (Z.to_nat hlit) lens, drop (Z.to_nat hlit) lens, bs).

(** ** Blocks, sections 3.2.3 and 3.2.4 *)

(** A stored block from the byte boundary on: its length, the complement, the data. *)
Definition stored_bytes (out : bytes) (bs : list bool) : option (bytes * list bool) :=
  '(l, bs) ← take_bits 16 bs;
  '(nl, bs) ← take_bits 16 bs;
  if negb (l + nl =? 65535) then None
  else '(data, bs) ← take_fields (Z.to_nat l) 8 bs; Some (out ++ data, bs).

Definition stored_block (out : bytes) (bs : list bool) : option (bytes * list bool) := stored_bytes out (align bs).

Definition block (type : Z) (out : bytes) (bs : list bool) : option (bytes * list bool) :=
  if type =? 0 then stored_block out bs
  else if type =? 1 then block_data (S (length bs)) fixed_lit fixed_dist out bs
  else if type =? 2 then '(lit, dist, bs) ← dynamic_codes bs; block_data (S (length bs)) lit dist out bs
  else None.

(** Blocks up to the final one; a block has at least three bits. *)
Fixpoint blocks (n : nat) (out : bytes) (bs : list bool) : option (bytes * list bool) :=
  match n with
  | O => None
  | S n =>
      '(final, bs) ← take_bits 1 bs;
      '(type, bs) ← take_bits 2 bs;
      '(out, bs) ← block type out bs;
      if final =? 1 then Some (out, bs) else blocks n out bs
  end.

Definition deflate (bs : list bool) : option (bytes * list bool) := blocks (S (length bs)) [] bs.

(** ** The zlib stream, RFC 1950 *)

(** The Adler-32 checksum: two sums modulo 65521. *)
Definition adler_sums (out : bytes) : Z * Z := foldl (fun '(a, b) x => (a + x, b + (a + x))) (1, 0) out.

Definition adler32 (out : bytes) : Z := (adler_sums out).2 mod 65521 * 65536 + (adler_sums out).1 mod 65521.

(** The most significant byte first. *)
Definition big_endian (vs : list Z) : Z := foldl (fun a v => 256 * a + v) 0 vs.

(** CMF and FLG: method 8, a window of at most [window_size], no preset dictionary,
    and the check. *)
Definition header_ok (cmf flg : Z) : bool :=
  (cmf mod 16 =? 8) && (2 ^ (8 + cmf / 16) <=? window_size) && negb (Z.testbit flg 5) && ((256 * cmf + flg) mod 31 =? 0).

(** The image a whole stream holds. *)
Definition zlib (stream : bytes) : option bytes :=
  match stream with
  | cmf :: flg :: rest =>
      if negb (header_ok cmf flg) then None
      else
        '(out, bs) ← deflate (bits_of rest);
        '(check, bs) ← take_fields 4 8 (align bs);
        if (big_endian check =? adler32 out) && bool_decide (bs = []) then Some out else None
  | _ => None
  end.
End Window.

(** ** Facts: what a read leaves, and that the output only grows *)

(** Taking a successful read apart. *)
Ltac bind_in H x :=
  apply bind_Some in H as (x & ? & H).

Lemma take_bits_range n bs v bs' : take_bits n bs = Some (v, bs') -> 0 <= v < 2 ^ Z.of_nat n.
Proof.
  revert bs v. induction n as [|n IH]; intros bs v; cbn [take_bits]; [intros [= <- _]; done|].
  destruct bs as [|b bs]; [done|]. intros H. bind_in H vb. destruct vb as [w bs1]. injection H as <- ->.
  specialize (IH bs w H0). rewrite Nat2Z.inj_succ, Z.pow_succ_r by lia. destruct b; cbn [Z.b2z]; lia.
Qed.

Lemma take_bits_drop n bs v bs' : take_bits n bs = Some (v, bs') -> bs' = drop n bs /\ (length bs' + n)%nat = length bs.
Proof.
  revert bs v. induction n as [|n IH]; intros bs v; cbn [take_bits]; [intros [= _ <-]; split; [done|lia]|].
  destruct bs as [|b bs]; [done|]. intros H. bind_in H vb. destruct vb as [w bs1]. injection H as _ <-.
  destruct (IH bs w H0) as [-> ?]. cbn [length drop]. split; [done|lia].
Qed.

Lemma take_bits_app n m bs :
  take_bits (n + m) bs = '(v, bs) ← take_bits n bs; '(w, bs) ← take_bits m bs; Some (v + 2 ^ Z.of_nat n * w, bs).
Proof.
  revert bs. induction n as [|n IH]; intros bs.
  - cbn [Nat.add take_bits mbind option_bind]. destruct (take_bits m bs) as [[w bs1]|]; [|done]. cbn [mbind option_bind].
    change (2 ^ Z.of_nat 0) with 1. do 2 f_equal. lia.
  - cbn [Nat.add take_bits]. destruct bs as [|b bs]; [done|]. rewrite IH. destruct (take_bits n bs) as [[v bs1]|]; [|done].
    cbn [mbind option_bind]. destruct (take_bits m bs1) as [[w bs2]|]; [|done]. cbn [mbind option_bind].
    rewrite Nat2Z.inj_succ, Z.pow_succ_r by lia. do 2 f_equal. lia.
Qed.

Lemma take_fields_spec n w bs vs bs' :
  take_fields n w bs = Some (vs, bs') ->
  length vs = n /\ Forall (fun v => 0 <= v < 2 ^ Z.of_nat w) vs /\ (length bs' <= length bs)%nat.
Proof.
  revert bs vs. induction n as [|n IH]; intros bs vs; cbn [take_fields]; [intros [= <- <-]; split; [done|]; split; [constructor|lia]|].
  intros H. bind_in H x. destruct x as [v bs1]. bind_in H x. destruct x as [us bs2]. injection H as <- ->.
  destruct (IH bs1 us H1) as (Hl & HF & Hb). apply take_bits_drop in H0 as Hd. apply take_bits_range in H0.
  split; [cbn; lia|]. split; [by constructor|lia].
Qed.

Lemma symbol_of_range lens l v i : symbol_of lens l v = Some i -> 0 <= i < len lens.
Proof.
  unfold symbol_of. destruct (List.find _ _) as [k|] eqn:E; [|done]. intros [= <-].
  apply List.find_some in E as [Hk _]. apply in_seq in Hk. lia.
Qed.

Lemma decode_from_spec lens l v bs i bs' :
  decode_from lens l v bs = Some (i, bs') -> 0 <= i < len lens /\ (length bs' < length bs)%nat.
Proof.
  revert l v. induction bs as [|b bs IH]; intros l v; cbn [decode_from]; [done|]. destruct (15 <? l + 1); [done|].
  destruct (symbol_of _ _ _) as [k|] eqn:E.
  - intros [= -> <-]. apply symbol_of_range in E. cbn [length]. split; [done|lia].
  - intros H. destruct (IH _ _ H). cbn [length]. split; [done|lia].
Qed.

Lemma decode_spec lens bs i bs' : decode lens bs = Some (i, bs') -> 0 <= i < len lens /\ (length bs' < length bs)%nat.
Proof. apply decode_from_spec. Qed.

(** A code's lengths. *)
Definition code_lens (ls : list Z) : Prop := Forall (fun x => 0 <= x < 16) ls.

Lemma repeat_rule_spec sym sofar v w base :
  code_lens sofar -> repeat_rule sym sofar = Some (v, w, base) -> 0 <= v < 16 /\ 2 <= w <= 7 /\ 3 <= base <= 11.
Proof.
  intros HF. unfold repeat_rule. destruct (sym =? 16); [|destruct (sym =? 17); intros [= <- <- <-]; lia].
  destruct (last sofar) as [p|] eqn:E; [|done]. intros [= <- <- <-]. split; [|lia].
  apply last_Some in E as [l ->]. apply Forall_app in HF as [_ HF]. by inversion HF.
Qed.

Lemma code_lengths_spec n clens total sofar bs lens bs' :
  code_lens sofar -> len sofar <= total -> code_lengths n clens total sofar bs = Some (lens, bs') ->
  code_lens lens /\ len lens = total /\ (length bs' <= length bs)%nat.
Proof.
  revert sofar bs. induction n as [|n IH]; intros sofar bs HF Hl; cbn [code_lengths]; [done|].
  destruct (Z.leb_spec total (len sofar)); [intros [= <- <-]; split; [done|lia]|].
  intros H1. bind_in H1 x. destruct x as [sym bs1]. apply decode_spec in H0 as [Hs Hb]. destruct (Z.ltb_spec sym 16).
  - apply IH in H1 as (? & ? & ?); [split; [done|lia]| |].
    + apply Forall_app. split; [done|]. repeat constructor; lia.
    + rewrite length_app. cbn. lia.
  - bind_in H1 x. destruct x as [[v w] base]. bind_in H1 x. destruct x as [c bs2].
    destruct (repeat_rule_spec _ _ _ _ _ HF H2) as (Hv & _ & _). apply take_bits_drop in H3 as [_ Hd].
    destruct (Z.ltb_spec total (len sofar + (base + c))); [done|]. apply IH in H1 as (? & ? & ?); [split; [done|lia]| |].
    + apply Forall_app. split; [done|]. by apply Forall_replicate.
    + rewrite length_app, length_replicate. lia.
Qed.

Lemma len_copy_back n d out : len (copy_back n d out) = len out + Z.of_nat n.
Proof. revert out. induction n as [|n IH]; intros out; cbn [copy_back]; [lia|]. rewrite IH, length_app. cbn. lia. Qed.

Lemma take_match_spec dist i bs l d bs' : take_match dist i bs = Some (l, d, bs') -> (length bs' <= length bs)%nat.
Proof.
  unfold take_match. intros H. bind_in H x. destruct x as [a bs1]. bind_in H x. destruct x as [s bs2].
  destruct (30 <=? s); [done|]. bind_in H x. destruct x as [y bs3]. injection H as _ _ <-.
  apply take_bits_drop in H0 as [_ ?], H2 as [_ ?]. apply decode_spec in H1 as [_ ?]. lia.
Qed.

(** The output so far stays, and the bits left are fewer. *)
Definition grows (out : bytes) (bs : list bool) (out' : bytes) (bs' : list bool) : Prop :=
  len out <= len out' /\ (length bs' <= length bs)%nat.

Lemma block_data_grows W n lit dist out bs out' bs' :
  block_data W n lit dist out bs = Some (out', bs') -> grows out bs out' bs'.
Proof.
  unfold grows. revert out bs. induction n as [|n IH]; intros out bs; cbn [block_data]; [done|].
  intros H. bind_in H x. destruct x as [sym bs1]. apply decode_spec in H0 as [_ ?].
  destruct (sym <? 256); [apply IH in H; rewrite length_app in H; cbn in H; lia|].
  destruct (sym =? 256); [injection H as <- <-; lia|]. destruct (286 <=? sym); [done|].
  bind_in H x. destruct x as [[l d] bs2]. apply take_match_spec in H1. destruct (_ || _); [done|].
  apply IH in H. rewrite len_copy_back in H. lia.
Qed.

Lemma dynamic_codes_shorter bs lit dist bs' : dynamic_codes bs = Some (lit, dist, bs') -> (length bs' <= length bs)%nat.
Proof.
  unfold dynamic_codes. intros H. do 3 (bind_in H x; destruct x as [? ?]). destruct (286 <? _); [done|].
  bind_in H x. destruct x as [vs bs4]. bind_in H x. destruct x as [lens bs5]. destruct (_ =? 0); [done|]. injection H as _ _ <-.
  pose proof (take_bits_range _ _ _ _ H0). pose proof (take_bits_range _ _ _ _ H1).
  apply take_bits_drop in H0 as [_ ?], H1 as [_ ?], H2 as [_ ?].
  apply take_fields_spec in H3 as (_ & _ & ?). apply code_lengths_spec in H4 as (_ & _ & ?); [lia|constructor|].
  cbn. lia.
Qed.

Lemma block_grows W type out bs out' bs' : block W type out bs = Some (out', bs') -> grows out bs out' bs'.
Proof.
  unfold block. destruct (type =? 0); [|destruct (type =? 1); [apply block_data_grows|destruct (type =? 2); [|done]]].
  - unfold stored_block, stored_bytes. intros H. bind_in H x. destruct x as [l bs1]. bind_in H x. destruct x as [nl bs2].
    destruct (negb _); [done|]. bind_in H x. destruct x as [data bs3]. injection H as <- <-.
    apply take_bits_drop in H0 as [_ ?], H1 as [_ ?]. apply take_fields_spec in H2 as (_ & _ & ?).
    unfold align in *. rewrite length_drop in *. unfold grows. rewrite length_app. lia.
  - intros H. bind_in H x. destruct x as [[lit dist] bs1]. apply dynamic_codes_shorter in H0.
    apply block_data_grows in H. unfold grows in *. lia.
Qed.

Lemma blocks_grows W n out bs out' bs' : blocks W n out bs = Some (out', bs') -> grows out bs out' bs'.
Proof.
  revert out bs. induction n as [|n IH]; intros out bs; cbn [blocks]; [done|]. intros H.
  bind_in H x. destruct x as [f bs1]. bind_in H x. destruct x as [ty bs2]. bind_in H x. destruct x as [out3 bs3].
  apply take_bits_drop in H0 as [_ ?], H1 as [_ ?]. apply block_grows in H2. unfold grows in *.
  destruct (f =? 1); [injection H as <- <-; lia|]. apply IH in H. lia.
Qed.
End Rfc1951.
