(* ===== verification/Inflate.v ===== *)
(** The resumable zlib inflater, [shared/core/od_zlib_inflate.c], with the header
    rule of [shared/core/od_zlib_header.h].

    The C code keeps one static stream; here it is the record [inflate], whose
    parts follow the paragraphs of the C structure.  A function that the C code
    can leave with undefined behaviour (an index outside its array) returns
    [None] there, and so does a loop whose fuel runs out; [InflateSafe] shows
    that neither happens. *)

From stdpp Require Import strings.
From S2P Require Import Prelude Span Pump.
Import Span Pump.

Module Inflate.

(** ** Tables *)

Definition length_bits : list Z :=
  [0; 0; 0; 0; 0; 0; 0; 0; 1; 1; 1; 1; 2; 2; 2; 2; 3; 3; 3; 3; 4; 4; 4; 4; 5; 5; 5; 5; 0; 0].

Definition length_base : list Z :=
  [3; 4; 5; 6; 7; 8; 9; 10; 11; 13; 15; 17; 19; 23; 27; 31; 35; 43; 51; 59; 67; 83; 99; 115;
   131; 163; 195; 227; 258; 0].

Definition dist_bits : list Z :=
  [0; 0; 0; 0; 1; 1; 2; 2; 3; 3; 4; 4; 5; 5; 6; 6; 7; 7; 8; 8; 9; 9; 10; 10; 11; 11; 12; 12; 13; 13].

Definition dist_base : list Z :=
  [1; 2; 3; 4; 5; 7; 9; 13; 17; 25; 33; 49; 65; 97; 129; 193; 257; 385; 513; 769; 1025; 1537;
   2049; 3073; 4097; 6145; 8193; 12289; 16385; 24577].

Definition clcidx : list Z := [16; 17; 18; 0; 8; 7; 9; 6; 10; 5; 11; 4; 12; 3; 13; 2; 14; 1; 15].

Definition LITERAL_TRANS : Z := 288.
Definition DISTANCE_TRANS : Z := 32.
Definition CODELEN_TRANS : Z := 19.
Definition LENGTHS_SIZE : Z := 288 + 32.
Definition ADLER_BASE : Z := 65521.

(** The window a target selects. *)
Class ZlibConfig := {
  OPENDISPLAY_ZLIB_WINDOW_BITS : Z;
  window_bits_range : 9 <= OPENDISPLAY_ZLIB_WINDOW_BITS <= 15;
}.

Definition OPENDISPLAY_ZLIB_WINDOW_SIZE `{ZlibConfig} : Z := Z.shiftl 1 OPENDISPLAY_ZLIB_WINDOW_BITS.

(** ** State *)

Inductive inflate_stage :=
| ST_ZLIB_CMF | ST_ZLIB_FLG | ST_BLOCK_FINAL | ST_BLOCK_TYPE | ST_DYNAMIC_TREES | ST_STORED_LEN
| ST_STORED_DATA | ST_BLOCK_DATA | ST_TRAILER | ST_DONE | ST_ERROR.

Inductive block_stage_t := BLK_SYMBOL | BLK_LEN_EXTRA | BLK_DIST_SYMBOL | BLK_DIST_EXTRA | BLK_MATCH_COPY.

Inductive dynamic_stage_t :=
| DYN_HLIT | DYN_HDIST | DYN_HCLEN | DYN_CLEAR_CLEN | DYN_READ_CLEN | DYN_BUILD_CLTREE
| DYN_READ_LENGTHS | DYN_REPEAT_BITS | DYN_BUILD_TREES.

#[export] Instance inflate_stage_eq_dec : EqDecision inflate_stage.
Proof. solve_decision. Defined.

(** The input of the current push and the byte being taken apart. *)
Record bit_source := { input : bytes; input_final : bool; bit_tag : Z; bit_count : Z }.

(** [read_bits_*]: a field read that may be interrupted. *)
Record bits_state := {
  read_bits_active : bool; read_bits_num : Z; read_bits_pos : Z; read_bits_base : Z; read_bits_value : Z;
}.

(** [sym_*]: a symbol that may be interrupted. *)
Record symbol_state := { sym_active : bool; sym_sum : Z; sym_cur : Z; sym_len : Z }.

Record code_reader := { src : bit_source; rbits : bits_state; rsym : symbol_state }.

(** A code: how many symbols of each length, and the symbols in code order.  The
    union [tree] overlays a distance and a code-length tree; both are the same
    sixteen counts followed by their symbols, 32 of which the larger holds. *)
Record code := { table : list Z; trans : list Z }.

Record control := {
  stage : inflate_stage; block_stage : block_stage_t; dynamic_stage : dynamic_stage_t;
  initialized : bool; cmf : Z; bfinal : Z; btype : Z; error : option string;
}.

Record dynamic := {
  lengths : list Z; hlit : Z; hdist : Z; hclen : Z; hlimit : Z; dyn_i : Z; dyn_num : Z;
  dyn_fill_value : Z; dyn_repeat_len : Z; dyn_repeat_bits : Z; dyn_repeat_base : Z;
}.

Record stored := { stored_header_index : Z; stored_len : Z; stored_invlen : Z }.

Record match_state := { match_len : Z; match_offset : Z; length_sym : Z; dist_sym : Z }.

Record history := {
  window : bytes; window_pos : Z; expected_output : Z; output_count : Z; adler : Z;
}.

Record trailer := { trailer_index : Z; trailer_value : Z }.

Record inflate := {
  ctl : control; rd : code_reader; ltree : code; tree : code; dyn : dynamic; sto : stored;
  mat : match_state; hist : history; trl : trailer;
}.

(** *** Writing a part of the state *)

Definition set_ctl (s : inflate) (c : control) : inflate :=
  {| ctl := c; rd := rd s; ltree := ltree s; tree := tree s; dyn := dyn s; sto := sto s;
     mat := mat s; hist := hist s; trl := trl s |}.
Definition set_rd (s : inflate) (r : code_reader) : inflate :=
  {| ctl := ctl s; rd := r; ltree := ltree s; tree := tree s; dyn := dyn s; sto := sto s;
     mat := mat s; hist := hist s; trl := trl s |}.
Definition set_trees (s : inflate) (l d : code) : inflate :=
  {| ctl := ctl s; rd := rd s; ltree := l; tree := d; dyn := dyn s; sto := sto s;
     mat := mat s; hist := hist s; trl := trl s |}.
Definition set_dyn (s : inflate) (d : dynamic) : inflate :=
  {| ctl := ctl s; rd := rd s; ltree := ltree s; tree := tree s; dyn := d; sto := sto s;
     mat := mat s; hist := hist s; trl := trl s |}.
Definition set_sto (s : inflate) (t : stored) : inflate :=
  {| ctl := ctl s; rd := rd s; ltree := ltree s; tree := tree s; dyn := dyn s; sto := t;
     mat := mat s; hist := hist s; trl := trl s |}.
Definition set_mat (s : inflate) (m : match_state) : inflate :=
  {| ctl := ctl s; rd := rd s; ltree := ltree s; tree := tree s; dyn := dyn s; sto := sto s;
     mat := m; hist := hist s; trl := trl s |}.
Definition set_hist (s : inflate) (h : history) : inflate :=
  {| ctl := ctl s; rd := rd s; ltree := ltree s; tree := tree s; dyn := dyn s; sto := sto s;
     mat := mat s; hist := h; trl := trl s |}.
Definition set_trl (s : inflate) (t : trailer) : inflate :=
  {| ctl := ctl s; rd := rd s; ltree := ltree s; tree := tree s; dyn := dyn s; sto := sto s;
     mat := mat s; hist := hist s; trl := t |}.

Definition with_stages (c : control) (st : inflate_stage) (b : block_stage_t) (d : dynamic_stage_t) : control :=
  {| stage := st; block_stage := b; dynamic_stage := d; initialized := initialized c; cmf := cmf c;
     bfinal := bfinal c; btype := btype c; error := error c |}.
Definition with_header (c : control) (m f t : Z) : control :=
  {| stage := stage c; block_stage := block_stage c; dynamic_stage := dynamic_stage c;
     initialized := initialized c; cmf := m; bfinal := f; btype := t; error := error c |}.

Definition set_stage (s : inflate) (st : inflate_stage) : inflate :=
  set_ctl s (with_stages (ctl s) st (block_stage (ctl s)) (dynamic_stage (ctl s))).
Definition set_block_stage (s : inflate) (b : block_stage_t) : inflate :=
  set_ctl s (with_stages (ctl s) (stage (ctl s)) b (dynamic_stage (ctl s))).
Definition set_dynamic_stage (s : inflate) (d : dynamic_stage_t) : inflate :=
  set_ctl s (with_stages (ctl s) (stage (ctl s)) (block_stage (ctl s)) d).

Definition set_error (s : inflate) (m : string) : inflate :=
  set_ctl s {| stage := ST_ERROR; block_stage := block_stage (ctl s); dynamic_stage := dynamic_stage (ctl s);
               initialized := initialized (ctl s); cmf := cmf (ctl s); bfinal := bfinal (ctl s);
               btype := btype (ctl s); error := Some m |}.

(** ** Arrays: an index outside one is undefined *)

Definition at_index (l : list Z) (i : Z) : option Z := if i <? 0 then None else l !! Z.to_nat i.
Definition put_index (l : list Z) (i v : Z) : option (list Z) :=
  if (0 <=? i) && (i <? len l) then Some l.[i := v] else None.

(** ** The bit reader

    A read gives its value (the C functions return 1), starves (0) or fails (-1,
    with the error they set). *)

Inductive res (A : Type) := Got (a : A) | Starved | Failed (why : string).
Arguments Got {A} _.
Arguments Starved {A}.
Arguments Failed {A} _.

Definition with_input (x : bit_source) (b : bytes) : bit_source :=
  {| input := b; input_final := input_final x; bit_tag := bit_tag x; bit_count := bit_count x |}.
Definition with_bits (x : bit_source) (tag count : Z) : bit_source :=
  {| input := input x; input_final := input_final x; bit_tag := tag; bit_count := count |}.

Definition read_byte (x : bit_source) : res Z * bit_source :=
  match input x with
  | b :: rest => (Got b, with_input x rest)
  | [] => if input_final x then (Failed "truncated zlib stream", x) else (Starved, x)
  end.

Definition take_bit (x : bit_source) : res Z * bit_source :=
  (Got (Z.land (bit_tag x) 1), with_bits x (Z.shiftr (bit_tag x) 1) (u8 (bit_count x - 1))).

Definition read_bit (x : bit_source) : res Z * bit_source :=
  if bit_count x =? 0 then
    match read_byte x with
    | (Got b, x) => take_bit (with_bits x b 8)
    | (Starved, x) => (Starved, x)
    | (Failed m, x) => (Failed m, x)
    end
  else take_bit x.

Definition bits_start (b : bits_state) (num base : Z) : bits_state :=
  if read_bits_active b then b
  else {| read_bits_active := true; read_bits_num := u8 num; read_bits_pos := 0; read_bits_base := base;
          read_bits_value := 0 |}.

Definition bits_add (b : bits_state) (bit : Z) : bits_state :=
  {| read_bits_active := read_bits_active b; read_bits_num := read_bits_num b;
     read_bits_pos := u8 (read_bits_pos b + 1); read_bits_base := read_bits_base b;
     read_bits_value := if bit =? 0 then read_bits_value b
                        else u32 (read_bits_value b + Z.shiftl 1 (read_bits_pos b)) |}.

Definition bits_done (b : bits_state) : bits_state :=
  {| read_bits_active := false; read_bits_num := read_bits_num b; read_bits_pos := read_bits_pos b;
     read_bits_base := read_bits_base b; read_bits_value := read_bits_value b |}.

(** The [while] of [read_bits]; [n] turns are left. *)
Fixpoint bits_loop (n : nat) (x : bit_source) (b : bits_state) : res Z * bit_source * bits_state :=
  match n with
  | O => (Got (u32 (read_bits_value b + read_bits_base b)), x, bits_done b)
  | S n =>
      match read_bit x with
      | (Got bit, x) => bits_loop n x (bits_add b bit)
      | (Starved, x) => (Starved, x, b)
      | (Failed m, x) => (Failed m, x, b)
      end
  end.

Definition read_bits (num base : Z) (r : code_reader) : res Z * code_reader :=
  let b := bits_start (rbits r) num base in
  let '(v, x, b) := bits_loop (Z.to_nat (read_bits_num b - read_bits_pos b)) (src r) b in
  (v, {| src := x; rbits := b; rsym := rsym r |}).

Definition symbol_start (y : symbol_state) : symbol_state :=
  if sym_active y then y else {| sym_active := true; sym_sum := 0; sym_cur := 0; sym_len := 0 |}.

(** One bit of a symbol, after the length check: [c] codes have the new length. *)
Definition symbol_add (y : symbol_state) (bit c : Z) : symbol_state :=
  {| sym_active := sym_active y; sym_sum := sym_sum y + c; sym_cur := 2 * sym_cur y + bit - c;
     sym_len := sym_len y + 1 |}.

Definition symbol_overrun (y : symbol_state) (bit : Z) : symbol_state :=
  {| sym_active := sym_active y; sym_sum := sym_sum y; sym_cur := 2 * sym_cur y + bit; sym_len := sym_len y + 1 |}.

Definition symbol_done (y : symbol_state) (sum : Z) : symbol_state :=
  {| sym_active := false; sym_sum := sum; sym_cur := sym_cur y; sym_len := sym_len y |}.

(** After the last bit of a symbol: [sym_cur] is negative. *)
Definition symbol_value (c : code) (trans_size : Z) (x : bit_source) (y : symbol_state)
  : option (res Z * bit_source * symbol_state) :=
  let sum := sym_sum y + sym_cur y in
  let y := {| sym_active := sym_active y; sym_sum := sum; sym_cur := sym_cur y; sym_len := sym_len y |} in
  if (sum <? 0) || (trans_size <=? sum) then Some (Failed "invalid huffman symbol", x, y)
  else
    symbol ← at_index (trans c) sum;
    Some (Got symbol, x, symbol_done y sum).

(** The [do ... while] of [decode_symbol]; a code has at most 15 bits. *)
Fixpoint symbol_loop (fuel : nat) (c : code) (trans_size : Z) (x : bit_source) (y : symbol_state)
  : option (res Z * bit_source * symbol_state) :=
  match fuel with
  | O => None
  | S fuel =>
      match read_bit x with
      | (Got bit, x) =>
          if sym_len y + 1 =? 16 then Some (Failed "invalid huffman code", x, symbol_overrun y bit)
          else
            count ← at_index (table c) (sym_len y + 1);
            let y := symbol_add y bit count in
            if 0 <=? sym_cur y then symbol_loop fuel c trans_size x y else symbol_value c trans_size x y
      | (Starved, x) => Some (Starved, x, y)
      | (Failed m, x) => Some (Failed m, x, y)
      end
  end.

Definition decode_symbol (c : code) (trans_size : Z) (r : code_reader) : option (res Z * code_reader) :=
  '(v, x, y) ← symbol_loop 16 c trans_size (src r) (symbol_start (rsym r));
  Some (v, {| src := x; rbits := rbits r; rsym := y |}).

Definition reset_readers (r : code_reader) : code_reader :=
  {| src := src r;
     rbits := bits_done (rbits r);
     rsym := {| sym_active := false; sym_sum := sym_sum (rsym r); sym_cur := sym_cur (rsym r);
                sym_len := sym_len (rsym r) |} |}.

Definition reset_code_readers (s : inflate) : inflate := set_rd s (reset_readers (rd s)).

(** A read's outcome on the stream: the error it sets. *)
Definition after_read {A} (s : inflate) (v : res A) (r : code_reader) : inflate :=
  match v with Failed m => set_error (set_rd s r) m | _ => set_rd s r end.

Definition on_source (r : code_reader) (x : bit_source) : code_reader := {| src := x; rbits := rbits r; rsym := rsym r |}.

(** [rc <= 0] of a read, and [s.stage == ST_ERROR ? -1 : 0]. *)
Definition rc_of {A} (v : res A) : Z := match v with Got _ => 1 | Starved => 0 | Failed _ => -1 end.
Definition stop_code (s : inflate) : Z := if bool_decide (stage (ctl s) = ST_ERROR) then -1 else 0.

(** ** Code tables *)

(** Counting the lengths: [n] of them from [i]; a length of 16 or more fails. *)
Fixpoint count_lengths (n : nat) (lens : list Z) (i : Z) (tbl : list Z) : option (list Z * bool) :=
  match n with
  | O => Some (tbl, true)
  | S n =>
      l ← at_index lens i;
      if 16 <=? l then Some (tbl, false)
      else
        c ← at_index tbl l;
        tbl ← put_index tbl l (u16 (c + 1));
        count_lengths n lens (i + 1) tbl
  end.

(** [offs]: where the symbols of each length start; and the number of symbols. *)
Fixpoint offsets (tbl : list Z) (sum : Z) : list Z * Z :=
  match tbl with
  | [] => ([], sum)
  | c :: tbl => let '(offs, total) := offsets tbl (u32 (sum + c)) in (u16 sum :: offs, total)
  end.

(** Placing the symbols: [n] of them from [i]. *)
Fixpoint place_symbols (n : nat) (lens : list Z) (i : Z) (offs tr : list Z) : option (list Z) :=
  match n with
  | O => Some tr
  | S n =>
      l ← at_index lens i;
      if l =? 0 then place_symbols n lens (i + 1) offs tr
      else
        o ← at_index offs l;
        tr ← put_index tr o (u16 i);
        offs ← put_index offs l (u16 (o + 1));
        place_symbols n lens (i + 1) offs tr
  end.

(** [build_tree]: the code, and the error of a refusal. *)
Definition build_tree (c : code) (trans_size : Z) (lens : list Z) (num : Z)
  : option (code * option string) :=
  '(tbl, ok) ← count_lengths (Z.to_nat num) lens 0 (replicate 16 0);
  if negb ok then Some ({| table := tbl; trans := trans c |}, Some "invalid huffman code length")
  else
    let tbl := tbl.[0 := 0] in
    let '(offs, sum) := offsets tbl 0 in
    if trans_size <? sum then
      Some ({| table := tbl; trans := trans c |}, Some "huffman tree exceeds symbol storage")
    else
      tr ← place_symbols (Z.to_nat num) lens 0 offs (trans c);
      Some ({| table := tbl; trans := tr |}, None).

Definition upfrom (a : Z) (n : nat) : list Z := map (fun i => a + Z.of_nat i) (seq 0 n).

Definition fixed_ltree : code :=
  {| table := [0; 0; 0; 0; 0; 0; 0; 24; 152; 112; 0; 0; 0; 0; 0; 0];
     trans := upfrom 256 24 ++ upfrom 0 144 ++ upfrom 280 8 ++ upfrom 144 112 |}.

Definition fixed_dtree : code :=
  {| table := [0; 0; 0; 0; 0; 32; 0; 0; 0; 0; 0; 0; 0; 0; 0; 0]; trans := upfrom 0 32 |}.

Definition build_fixed_trees (s : inflate) : inflate := set_trees s fixed_ltree fixed_dtree.

(** ** Output *)

Definition adler_update_byte (a byte : Z) : Z :=
  let s1 := Z.land a 0xffff + byte in
  let s1 := if ADLER_BASE <=? s1 then s1 - ADLER_BASE else s1 in
  let s2 := u32 (Z.shiftr a 16 + s1) mod ADLER_BASE in
  Z.lor (u32 (Z.shiftl s2 16)) s1.

Section Operations.
Context `{ZlibConfig}.

(** Where a poll writes: its buffer's size, and the [*produced] bytes in it. *)
Record sink := { capacity : Z; written : bytes }.
Definition produced (o : sink) : Z := len (written o).

(** Only when there is room and the stream expects the byte. *)
Definition record_byte (h : history) (byte : Z) : option history :=
  w ← put_index (window h) (window_pos h) byte;
  Some {| window := w;
          window_pos := Z.land (u32 (window_pos h + 1)) (OPENDISPLAY_ZLIB_WINDOW_SIZE - 1);
          expected_output := expected_output h; output_count := u32 (output_count h + 1);
          adler := adler_update_byte (adler h) byte |}.

Definition put_output_byte (byte : Z) (o : sink) (s : inflate) : option (bool * sink * inflate) :=
  if capacity o <=? produced o then Some (false, o, s)
  else if expected_output (hist s) <=? output_count (hist s) then
    Some (false, o, set_error s "decompressed output exceeds expected size")
  else
    h ← record_byte (hist s) byte;
    Some (true, {| capacity := capacity o; written := written o ++ [byte] |}, set_hist s h).

(** ** Loops

    A turn of a [for (;;)] either leaves it with a code or goes round again. *)

Fixpoint turns {S R : Type} (fuel : nat) (turn : S -> option (S * option R)) (s : S) : option (S * R) :=
  match fuel with
  | O => None
  | Datatypes.S fuel =>
      '(s, r) ← turn s;
      match r with Some r => Some (s, r) | None => turns fuel turn s end
  end.

(** ** Dynamic code tables *)

Definition with_lengths (d : dynamic) (l : list Z) (i num : Z) : dynamic :=
  {| lengths := l; hlit := hlit d; hdist := hdist d; hclen := hclen d; hlimit := hlimit d; dyn_i := i;
     dyn_num := num; dyn_fill_value := dyn_fill_value d; dyn_repeat_len := dyn_repeat_len d;
     dyn_repeat_bits := dyn_repeat_bits d; dyn_repeat_base := dyn_repeat_base d |}.
Definition with_tree_sizes (d : dynamic) (l dd c lim : Z) : dynamic :=
  {| lengths := lengths d; hlit := l; hdist := dd; hclen := c; hlimit := lim; dyn_i := dyn_i d;
     dyn_num := dyn_num d; dyn_fill_value := dyn_fill_value d; dyn_repeat_len := dyn_repeat_len d;
     dyn_repeat_bits := dyn_repeat_bits d; dyn_repeat_base := dyn_repeat_base d |}.
Definition with_repeat (d : dynamic) (fill n bits base : Z) : dynamic :=
  {| lengths := lengths d; hlit := hlit d; hdist := hdist d; hclen := hclen d; hlimit := hlimit d;
     dyn_i := dyn_i d; dyn_num := dyn_num d; dyn_fill_value := fill; dyn_repeat_len := n;
     dyn_repeat_bits := bits; dyn_repeat_base := base |}.

(** A field of the header: on a value, what it goes to. *)
Definition dyn_field (num base : Z) (k : inflate -> Z -> inflate * option Z) (s : inflate) : inflate * option Z :=
  let '(v, r) := read_bits num base (rd s) in
  let s := after_read s v r in
  match v with Got x => k s x | _ => (s, Some (stop_code s)) end.

Fixpoint clear_lengths (n : nat) (l : list Z) (i : Z) : option (list Z * Z) :=
  match n with
  | O => Some (l, i)
  | S n => l ← put_index l i 0; clear_lengths n l (i + 1)
  end.

(** The [while] of [DYN_READ_CLEN]: [n] lengths are left. *)
Fixpoint read_clens (n : nat) (s : inflate) : option (inflate * option Z) :=
  match n with
  | O => Some (set_dynamic_stage s DYN_BUILD_CLTREE, None)
  | S n =>
      let '(v, r) := read_bits 3 0 (rd s) in
      let s := after_read s v r in
      match v with
      | Got x =>
          i ← at_index clcidx (dyn_i (dyn s));
          l ← put_index (lengths (dyn s)) i (u8 x);
          read_clens n (set_dyn s (with_lengths (dyn s) l (dyn_i (dyn s) + 1) (dyn_num (dyn s))))
      | _ => Some (s, Some (stop_code s))
      end
  end.

(** The symbols that repeat a length: the value, the width and the base of the count. *)
Definition repeat_of (s : inflate) (sym : Z) : option (option (Z * Z * Z)) :=
  if sym =? 16 then
    if dyn_num (dyn s) =? 0 then Some None
    else l ← at_index (lengths (dyn s)) (dyn_num (dyn s) - 1); Some (Some (l, 2, 3))
  else if sym =? 17 then Some (Some (0, 3, 3))
  else if sym =? 18 then Some (Some (0, 7, 11))
  else Some None.

Definition repeat_error (sym : Z) : string :=
  if sym =? 16 then "invalid dynamic repeat" else "invalid dynamic code length symbol".

(** The [while] of [DYN_READ_LENGTHS], whose test is [dyn_num < hlimit]: [n] lengths are left. *)
Fixpoint read_lengths (n : nat) (s : inflate) : option (inflate * option Z) :=
  match n with
  | O => Some (set_dynamic_stage s DYN_BUILD_TREES, None)
  | S n =>
      '(v, r) ← decode_symbol (tree s) CODELEN_TRANS (rd s);
      let s := after_read s v r in
      match v with
      | Got sym =>
          if sym <? 16 then
            l ← put_index (lengths (dyn s)) (dyn_num (dyn s)) (u8 sym);
            read_lengths n (set_dyn s (with_lengths (dyn s) l (dyn_i (dyn s)) (dyn_num (dyn s) + 1)))
          else
            rep ← repeat_of s sym;
            match rep with
            | None => Some (set_error s (repeat_error sym), Some (-1))
            | Some (fill, bits, base) =>
                Some (set_dynamic_stage
                        (set_dyn s (with_repeat (dyn s) fill (dyn_repeat_len (dyn s)) bits base)) DYN_REPEAT_BITS,
                      None)
            end
      | _ => Some (s, Some (stop_code s))
      end
  end.

(** [while (s.dyn_repeat_len--)] *)
Fixpoint fill_lengths (n : nat) (l : list Z) (i fill : Z) : option (list Z * Z) :=
  match n with
  | O => Some (l, i)
  | S n => l ← put_index l i fill; fill_lengths n l (i + 1) fill
  end.

Definition repeat_lengths (s : inflate) (n : Z) : option (inflate * option Z) :=
  let d := with_repeat (dyn s) (dyn_fill_value (dyn s)) n (dyn_repeat_bits (dyn s)) (dyn_repeat_base (dyn s)) in
  if hlimit d <? u32 (dyn_num d + n) then Some (set_error (set_dyn s d) "dynamic repeat exceeds tree size", Some (-1))
  else
    '(l, i) ← fill_lengths (Z.to_nat n) (lengths d) (dyn_num d) (dyn_fill_value d);
    let d := with_repeat d (dyn_fill_value d) (u32 (-1)) (dyn_repeat_bits d) (dyn_repeat_base d) in
    Some (set_dynamic_stage (set_dyn s (with_lengths d l (dyn_i d) i)) DYN_READ_LENGTHS, None).

Definition build_dynamic (s : inflate) : option (inflate * option Z) :=
  let d := dyn s in
  eob ← at_index (lengths d) 256;
  if eob =? 0 then Some (set_error s "dynamic tree missing end-of-block", Some (-1))
  else
    '(lc, err) ← build_tree (ltree s) LITERAL_TRANS (lengths d) (hlit d);
    let s := set_trees s lc (tree s) in
    match err with
    | Some m => Some (set_error s m, Some (-1))
    | None =>
        '(dc, err) ← build_tree (tree s) DISTANCE_TRANS (drop (Z.to_nat (hlit d)) (lengths d)) (hdist d);
        let s := set_trees s (ltree s) dc in
        match err with
        | Some m => Some (set_error s m, Some (-1))
        | None => Some (reset_code_readers (set_dynamic_stage s DYN_HLIT), Some 1)
        end
    end.

(** One turn of [process_dynamic_trees]. *)
Definition dyn_turn (s : inflate) : option (inflate * option Z) :=
  let d := dyn s in
  match dynamic_stage (ctl s) with
  | DYN_HLIT =>
      Some (dyn_field 5 257 (fun s x =>
        (set_dynamic_stage (set_dyn s (with_tree_sizes (dyn s) x (hdist (dyn s)) (hclen (dyn s)) (hlimit (dyn s)))) DYN_HDIST,
         None)) s)
  | DYN_HDIST =>
      Some (dyn_field 5 1 (fun s x =>
        (set_dynamic_stage (set_dyn s (with_tree_sizes (dyn s) (hlit (dyn s)) x (hclen (dyn s)) (hlimit (dyn s)))) DYN_HCLEN,
         None)) s)
  | DYN_HCLEN =>
      Some (dyn_field 4 4 (fun s x =>
        let s := set_dyn s (with_tree_sizes (dyn s) (hlit (dyn s)) (hdist (dyn s)) x (hlimit (dyn s))) in
        let d := dyn s in
        if (286 <? hlit d) || (32 <? hdist d) || (LENGTHS_SIZE <? u32 (hlit d + hdist d)) then
          (set_error s "invalid dynamic tree sizes", Some (-1))
        else
          (set_dynamic_stage (set_dyn s (with_lengths d (lengths d) 0 (dyn_num d))) DYN_CLEAR_CLEN, None)) s)
  | DYN_CLEAR_CLEN =>
      '(l, _) ← clear_lengths (Z.to_nat (19 - dyn_i d)) (lengths d) (dyn_i d);
      Some (set_dynamic_stage (set_dyn s (with_lengths d l 0 (dyn_num d))) DYN_READ_CLEN, None)
  | DYN_READ_CLEN => read_clens (Z.to_nat (hclen d - dyn_i d)) s
  | DYN_BUILD_CLTREE =>
      '(c, err) ← build_tree (tree s) CODELEN_TRANS (lengths d) 19;
      let s := set_trees s (ltree s) c in
      match err with
      | Some m => Some (set_error s m, Some (-1))
      | None =>
          let d := with_tree_sizes d (hlit d) (hdist d) (hclen d) (u32 (hlit d + hdist d)) in
          Some (reset_code_readers (set_dynamic_stage (set_dyn s (with_lengths d (lengths d) (dyn_i d) 0))
                                      DYN_READ_LENGTHS), None)
      end
  | DYN_READ_LENGTHS => read_lengths (Z.to_nat (hlimit d - dyn_num d)) s
  | DYN_REPEAT_BITS =>
      let '(v, r) := read_bits (dyn_repeat_bits d) (dyn_repeat_base d) (rd s) in
      let s := after_read s v r in
      match v with Got n => repeat_lengths s n | _ => Some (s, Some (stop_code s)) end
  | DYN_BUILD_TREES => build_dynamic s
  end.

(** Each repeat writes at least three lengths, so this many turns are enough. *)
Definition dyn_fuel : nat := 2 * Z.to_nat LENGTHS_SIZE + 20.

Definition process_dynamic_trees (s : inflate) : option (inflate * Z) := turns dyn_fuel dyn_turn s.

(** ** Stored blocks and the trailer *)

Definition with_stored (t : stored) (i l inv : Z) : stored :=
  {| stored_header_index := i; stored_len := l; stored_invlen := inv |}.

Definition stored_header_byte (t : stored) (byte : Z) : stored :=
  let i := stored_header_index t in
  if i =? 0 then with_stored t (u8 (i + 1)) byte (stored_invlen t)
  else if i =? 1 then with_stored t (u8 (i + 1)) (Z.lor (stored_len t) (u16 (Z.shiftl byte 8))) (stored_invlen t)
  else if i =? 2 then with_stored t (u8 (i + 1)) (stored_len t) byte
  else with_stored t (u8 (i + 1)) (stored_len t) (Z.lor (stored_invlen t) (u16 (Z.shiftl byte 8))).

(** [read_byte] on the stream. *)
Definition next_byte (s : inflate) : res Z * inflate :=
  let '(v, x) := read_byte (src (rd s)) in (v, after_read s v (on_source (rd s) x)).

Fixpoint stored_header_loop (n : nat) (s : inflate) : inflate * Z :=
  match n with
  | O =>
      if negb (stored_len (sto s) =? u16 (Z.lnot (stored_invlen (sto s)))) then
        (set_error s "invalid stored block length", -1)
      else (set_sto s (with_stored (sto s) 0 (stored_len (sto s)) (stored_invlen (sto s))), 1)
  | S n =>
      let '(v, s) := next_byte s in
      match v with
      | Got b => stored_header_loop n (set_sto s (stored_header_byte (sto s) b))
      | _ => (s, rc_of v)
      end
  end.

Definition process_stored_header (s : inflate) : inflate * Z :=
  stored_header_loop (Z.to_nat (4 - stored_header_index (sto s))) s.

(** The [while (s.stored_len > 0)]; [n] bytes are left. *)
Fixpoint stored_data_loop (n : nat) (o : sink) (s : inflate) : option (sink * inflate * Z) :=
  match n with
  | O => Some (o, s, 1)
  | S n =>
      if capacity o <=? produced o then Some (o, s, 2)
      else
        let '(v, s) := next_byte s in
        match v with
        | Got b =>
            '(ok, o, s) ← put_output_byte b o s;
            if negb ok then Some (o, s, if bool_decide (stage (ctl s) = ST_ERROR) then -1 else 2)
            else stored_data_loop n o
                   (set_sto s (with_stored (sto s) (stored_header_index (sto s)) (u16 (stored_len (sto s) - 1))
                                 (stored_invlen (sto s))))
        | _ => Some (o, s, rc_of v)
        end
  end.

Definition process_stored_data (o : sink) (s : inflate) : option (sink * inflate * Z) :=
  stored_data_loop (Z.to_nat (stored_len (sto s))) o s.

Definition trailer_byte (t : trailer) (byte : Z) : trailer :=
  {| trailer_index := u8 (trailer_index t + 1); trailer_value := Z.lor (u32 (Z.shiftl (trailer_value t) 8)) byte |}.

Definition trailer_check (s : inflate) : inflate * Z :=
  if negb (trailer_value (trl s) =? adler (hist s)) then (set_error s "zlib adler32 mismatch", -1)
  else if negb (output_count (hist s) =? expected_output (hist s)) then
    (set_error s "decompressed output size mismatch", -1)
  else if negb (len (input (src (rd s))) =? 0) then (set_error s "input after end of zlib stream", -1)
  else (set_stage s ST_DONE, 1).

Fixpoint trailer_loop (n : nat) (s : inflate) : inflate * Z :=
  match n with
  | O => trailer_check s
  | S n =>
      let '(v, s) := next_byte s in
      match v with
      | Got b => trailer_loop n (set_trl s (trailer_byte (trl s) b))
      | _ => (s, rc_of v)
      end
  end.

Definition process_trailer (s : inflate) : inflate * Z :=
  trailer_loop (Z.to_nat (4 - trailer_index (trl s))) s.

(** ** Compressed blocks *)

Definition with_match (m : match_state) (l o ls ds : Z) : match_state :=
  {| match_len := l; match_offset := o; length_sym := ls; dist_sym := ds |}.

Definition block_out : Type := option ((sink * inflate) * option Z).

(** Leaving the turn, or going round. *)
Definition leave (o : sink) (s : inflate) (rc : Z) : block_out := Some ((o, s), Some rc).
Definition again (o : sink) (s : inflate) : block_out := Some ((o, s), None).

Definition block_symbol (o : sink) (s : inflate) : block_out :=
  '(v, r) ← decode_symbol (ltree s) LITERAL_TRANS (rd s);
  let s := after_read s v r in
  match v with
  | Got sym =>
      if sym <? 256 then
        '(ok, o, s) ← put_output_byte (u8 sym) o s;
        if negb ok then leave o s (if bool_decide (stage (ctl s) = ST_ERROR) then -1 else 2) else leave o s 1
      else if sym =? 256 then leave o (set_block_stage s BLK_SYMBOL) 3
      else
        let sym := sym - 257 in
        if (sym <? 0) || (29 <=? sym) then leave o (set_error s "invalid length symbol") (-1)
        else
          let m := mat s in
          again o (set_block_stage (set_mat s (with_match m (match_len m) (match_offset m) sym (dist_sym m)))
                     BLK_LEN_EXTRA)
  | _ => leave o s (rc_of v)
  end.

Definition block_len_extra (o : sink) (s : inflate) : block_out :=
  nb ← at_index length_bits (length_sym (mat s));
  base ← at_index length_base (length_sym (mat s));
  let '(v, r) := read_bits nb base (rd s) in
  let s := after_read s v r in
  match v with
  | Got n =>
      let m := mat s in
      again o (set_block_stage (set_mat s (with_match m n (match_offset m) (length_sym m) (dist_sym m)))
                 BLK_DIST_SYMBOL)
  | _ => leave o s (stop_code s)
  end.

Definition block_dist_symbol (o : sink) (s : inflate) : block_out :=
  '(v, r) ← decode_symbol (tree s) DISTANCE_TRANS (rd s);
  let s := after_read s v r in
  match v with
  | Got sym =>
      let m := mat s in
      let s := set_mat s (with_match m (match_len m) (match_offset m) (length_sym m) sym) in
      if (sym <? 0) || (30 <=? sym) then leave o (set_error s "invalid distance symbol") (-1)
      else again o (set_block_stage s BLK_DIST_EXTRA)
  | _ => leave o s (rc_of v)
  end.

Definition block_dist_extra (o : sink) (s : inflate) : block_out :=
  nb ← at_index dist_bits (dist_sym (mat s));
  base ← at_index dist_base (dist_sym (mat s));
  let '(v, r) := read_bits nb base (rd s) in
  let s := after_read s v r in
  match v with
  | Got n =>
      let m := mat s in
      let s := set_mat s (with_match m (match_len m) n (length_sym m) (dist_sym m)) in
      if (n =? 0) || (OPENDISPLAY_ZLIB_WINDOW_SIZE <? n) || (output_count (hist s) <? n) then
        leave o (set_error s "invalid back-reference distance") (-1)
      else again o (set_block_stage s BLK_MATCH_COPY)
  | _ => leave o s (stop_code s)
  end.

(** [(s.window_pos + SIZE - s.match_offset) & (SIZE - 1)] *)
Definition match_source (s : inflate) : Z :=
  Z.land (u32 (window_pos (hist s) + OPENDISPLAY_ZLIB_WINDOW_SIZE - match_offset (mat s)))
    (OPENDISPLAY_ZLIB_WINDOW_SIZE - 1).

(** The [while (s.match_len > 0)]; [n] bytes are left. *)
Fixpoint match_copy (n : nat) (o : sink) (s : inflate) : block_out :=
  match n with
  | O => again o (set_block_stage s BLK_SYMBOL)
  | S n =>
      if capacity o <=? produced o then leave o s 2
      else
        byte ← at_index (window (hist s)) (match_source s);
        '(ok, o, s) ← put_output_byte byte o s;
        if negb ok then leave o s (if bool_decide (stage (ctl s) = ST_ERROR) then -1 else 2)
        else
          let m := mat s in
          match_copy n o (set_mat s (with_match m (u32 (match_len m - 1)) (match_offset m) (length_sym m) (dist_sym m)))
  end.

(** One turn of [process_block_data]. *)
Definition block_turn (os : sink * inflate) : block_out :=
  let '(o, s) := os in
  if capacity o <=? produced o then leave o s 2
  else
    match block_stage (ctl s) with
    | BLK_SYMBOL => block_symbol o s
    | BLK_LEN_EXTRA => block_len_extra o s
    | BLK_DIST_SYMBOL => block_dist_symbol o s
    | BLK_DIST_EXTRA => block_dist_extra o s
    | BLK_MATCH_COPY => match_copy (Z.to_nat (match_len (mat s))) o s
    end.

(** Bits not yet read: every turn that goes back to a symbol has read one. *)
Definition bits_left (s : inflate) : Z := 8 * len (input (src (rd s))) + bit_count (src (rd s)).

Definition block_fuel (s : inflate) : nat := 5 * Z.to_nat (bits_left s) + 10.

Definition process_block_data (o : sink) (s : inflate) : option ((sink * inflate) * Z) :=
  turns (block_fuel s) block_turn (o, s).

(** ** The stream header, [od_zlib_header_check] *)

Inductive od_zlib_header_result :=
| OD_ZLIB_HEADER_OK | OD_ZLIB_HEADER_NEED_MORE | OD_ZLIB_HEADER_BAD | OD_ZLIB_HEADER_WINDOW_TOO_BIG.

Definition od_zlib_header_check (m flg : Z) : od_zlib_header_result :=
  if negb (u32 (256 * m + flg) mod 31 =? 0) || negb (Z.land m 0x0F =? 8) || negb (Z.land flg 0x20 =? 0) then
    OD_ZLIB_HEADER_BAD
  else if OPENDISPLAY_ZLIB_WINDOW_BITS <? Z.shiftr m 4 + 8 then OD_ZLIB_HEADER_WINDOW_TOO_BIG
  else OD_ZLIB_HEADER_OK.

(** [od_zlib_header_t]: the observer for targets whose inflater does not check the
    header itself. *)
Record od_zlib_header := { header_cmf : Z; have : Z; validated : bool }.

Definition od_zlib_header_reset : od_zlib_header := {| header_cmf := 0; have := 0; validated := false |}.

(** The [for] of [od_zlib_header_observe]: one of the first two bytes at a time. *)
Fixpoint observe_bytes (h : od_zlib_header) (inp : bytes) : od_zlib_header_result * od_zlib_header :=
  match inp with
  | [] => (OD_ZLIB_HEADER_NEED_MORE, h)
  | b :: inp =>
      if have h =? 0 then observe_bytes {| header_cmf := b; have := 1; validated := validated h |} inp
      else
        let rc := od_zlib_header_check (header_cmf h) b in
        (rc, {| header_cmf := header_cmf h; have := 2;
                validated := match rc with OD_ZLIB_HEADER_OK => true | _ => validated h end |})
  end.

Definition od_zlib_header_observe (h : od_zlib_header) (inp : bytes) : od_zlib_header_result * od_zlib_header :=
  if validated h then (OD_ZLIB_HEADER_OK, h) else observe_bytes h inp.

(** ** The operations *)

Definition code_zero (n : Z) : code := {| table := replicate 16 0; trans := replicate (Z.to_nat n) 0 |}.

(** [od_zlib_stream_reset]; the static stream before it is not initialized. *)
Definition stream_zero (expected : Z) (ready : bool) : inflate :=
  {| ctl := {| stage := ST_ZLIB_CMF; block_stage := BLK_SYMBOL; dynamic_stage := DYN_HLIT; initialized := ready;
               cmf := 0; bfinal := 0; btype := 0; error := None |};
     rd := {| src := {| input := []; input_final := false; bit_tag := 0; bit_count := 0 |};
              rbits := {| read_bits_active := false; read_bits_num := 0; read_bits_pos := 0;
                          read_bits_base := 0; read_bits_value := 0 |};
              rsym := {| sym_active := false; sym_sum := 0; sym_cur := 0; sym_len := 0 |} |};
     ltree := code_zero LITERAL_TRANS; tree := code_zero DISTANCE_TRANS;
     dyn := {| lengths := replicate (Z.to_nat LENGTHS_SIZE) 0; hlit := 0; hdist := 0; hclen := 0; hlimit := 0;
               dyn_i := 0; dyn_num := 0; dyn_fill_value := 0; dyn_repeat_len := 0; dyn_repeat_bits := 0;
               dyn_repeat_base := 0 |};
     sto := {| stored_header_index := 0; stored_len := 0; stored_invlen := 0 |};
     mat := {| match_len := 0; match_offset := 0; length_sym := 0; dist_sym := 0 |};
     hist := {| window := replicate (Z.to_nat OPENDISPLAY_ZLIB_WINDOW_SIZE) 0; window_pos := 0;
                expected_output := expected; output_count := 0; adler := 1 |};
     trl := {| trailer_index := 0; trailer_value := 0 |} |}.

Definition od_zlib_stream_reset (expected : Z) : inflate := stream_zero expected true.

Definition load_input (s : inflate) (b : bytes) (final : bool) : inflate :=
  set_rd s (on_source (rd s) {| input := b; input_final := final; bit_tag := bit_tag (src (rd s));
                                 bit_count := bit_count (src (rd s)) |}).

(** [input] is [None] for a null pointer. *)
Definition od_zlib_stream_push (s : inflate) (inp : option bytes) (n : Z) (final : bool)
  : od_zlib_status * inflate :=
  if negb (initialized (ctl s)) then (OD_ZLIB_STATUS_ERROR, set_error s "zlib stream not initialized")
  else if (0 <? n) && negb (bool_decide (is_Some inp)) then
    (OD_ZLIB_STATUS_ERROR, set_error s "zlib stream input is null")
  else if negb (len (input (src (rd s))) =? 0) then
    (OD_ZLIB_STATUS_ERROR, set_error s "previous input not fully consumed")
  else
    let s := load_input s (match inp with Some b => take (Z.to_nat n) b | None => [] end) final in
    if bool_decide (stage (ctl s) = ST_DONE) then
      if negb (n =? 0) then (OD_ZLIB_STATUS_ERROR, set_error s "input after end of zlib stream")
      else (OD_ZLIB_STATUS_DONE, s)
    else (OD_ZLIB_STATUS_NEEDS_INPUT, s).

Definition poll_out : Type := option ((sink * inflate) * option od_zlib_status).

Definition stop (o : sink) (s : inflate) (st : od_zlib_status) : poll_out := Some ((o, s), Some st).
Definition go (o : sink) (s : inflate) : poll_out := Some ((o, s), None).

(** [s.stage == ST_ERROR ? OD_ZLIB_STATUS_ERROR : OD_ZLIB_STATUS_NEEDS_INPUT] *)
Definition starved_status (s : inflate) : od_zlib_status :=
  if bool_decide (stage (ctl s) = ST_ERROR) then OD_ZLIB_STATUS_ERROR else OD_ZLIB_STATUS_NEEDS_INPUT.

(** [*produced ? OD_ZLIB_STATUS_OUTPUT_READY : OD_ZLIB_STATUS_NEEDS_INPUT] *)
Definition produced_status (o : sink) : od_zlib_status :=
  if produced o =? 0 then OD_ZLIB_STATUS_NEEDS_INPUT else OD_ZLIB_STATUS_OUTPUT_READY.

Definition poll_flg (o : sink) (s : inflate) : poll_out :=
  let '(v, s) := next_byte s in
  match v with
  | Got b =>
      match od_zlib_header_check (cmf (ctl s)) b with
      | OD_ZLIB_HEADER_BAD => stop o (set_error s "invalid zlib header") OD_ZLIB_STATUS_ERROR
      | OD_ZLIB_HEADER_WINDOW_TOO_BIG =>
          stop o (set_error s "zlib stream window exceeds firmware limit") OD_ZLIB_STATUS_ERROR
      | _ => go o (set_stage s ST_BLOCK_FINAL)
      end
  | _ => stop o s (starved_status s)
  end.

Definition poll_type (o : sink) (s : inflate) : poll_out :=
  let '(v, r) := read_bits 2 0 (rd s) in
  let s := after_read s v r in
  match v with
  | Got t =>
      let s := set_ctl s (with_header (ctl s) (cmf (ctl s)) (bfinal (ctl s)) (u8 t)) in
      if u8 t =? 0 then
        let s := set_rd s (on_source (rd s) (with_bits (src (rd s)) (bit_tag (src (rd s))) 0)) in
        go o (set_stage (set_sto s (with_stored (sto s) 0 0 0)) ST_STORED_LEN)
      else if u8 t =? 1 then
        go o (set_stage (reset_code_readers (set_block_stage (build_fixed_trees s) BLK_SYMBOL)) ST_BLOCK_DATA)
      else if u8 t =? 2 then
        go o (set_stage (reset_code_readers (set_dynamic_stage s DYN_HLIT)) ST_DYNAMIC_TREES)
      else stop o (set_error s "invalid deflate block type") OD_ZLIB_STATUS_ERROR
  | _ => stop o s (starved_status s)
  end.

(** [s.bfinal ? ST_TRAILER : ST_BLOCK_FINAL] *)
Definition after_block (s : inflate) : inflate :=
  set_stage s (if bfinal (ctl s) =? 0 then ST_BLOCK_FINAL else ST_TRAILER).

(** The [switch] of [od_zlib_stream_poll]. *)
Definition poll_stage (o : sink) (s : inflate) : poll_out :=
  match stage (ctl s) with
  | ST_ZLIB_CMF =>
      let '(v, s) := next_byte s in
      match v with
      | Got b => go o (set_stage (set_ctl s (with_header (ctl s) b (bfinal (ctl s)) (btype (ctl s)))) ST_ZLIB_FLG)
      | _ => stop o s (starved_status s)
      end
  | ST_ZLIB_FLG => poll_flg o s
  | ST_BLOCK_FINAL =>
      let '(v, x) := read_bit (src (rd s)) in
      let s := after_read s v (on_source (rd s) x) in
      match v with
      | Got b => go o (set_stage (set_ctl s (with_header (ctl s) (cmf (ctl s)) (u8 b) (btype (ctl s)))) ST_BLOCK_TYPE)
      | _ => stop o s (starved_status s)
      end
  | ST_BLOCK_TYPE => poll_type o s
  | ST_DYNAMIC_TREES =>
      '(s, rc) ← process_dynamic_trees s;
      if rc <? 0 then stop o s OD_ZLIB_STATUS_ERROR
      else if rc =? 0 then stop o s OD_ZLIB_STATUS_NEEDS_INPUT
      else go o (set_stage (set_block_stage s BLK_SYMBOL) ST_BLOCK_DATA)
  | ST_STORED_LEN =>
      let '(s, rc) := process_stored_header s in
      if rc <? 0 then stop o s OD_ZLIB_STATUS_ERROR
      else if rc =? 0 then stop o s OD_ZLIB_STATUS_NEEDS_INPUT
      else go o (set_stage s ST_STORED_DATA)
  | ST_STORED_DATA =>
      '(o, s, rc) ← process_stored_data o s;
      if rc <? 0 then stop o s OD_ZLIB_STATUS_ERROR
      else if rc =? 0 then stop o s (produced_status o)
      else if rc =? 2 then stop o s OD_ZLIB_STATUS_OUTPUT_READY
      else go o (after_block s)
  | ST_BLOCK_DATA =>
      '((o, s), rc) ← process_block_data o s;
      if rc <? 0 then stop o s OD_ZLIB_STATUS_ERROR
      else if rc =? 0 then stop o s (produced_status o)
      else if rc =? 2 then stop o s OD_ZLIB_STATUS_OUTPUT_READY
      else go o (if rc =? 3 then after_block s else s)
  | ST_TRAILER =>
      let '(s, rc) := process_trailer s in
      if rc <? 0 then stop o s OD_ZLIB_STATUS_ERROR
      else if rc =? 0 then stop o s (produced_status o)
      else stop o s OD_ZLIB_STATUS_DONE
  | ST_DONE => stop o s OD_ZLIB_STATUS_DONE
  | ST_ERROR => stop o s OD_ZLIB_STATUS_ERROR
  end.

(** One turn of its loop. *)
Definition poll_turn (os : sink * inflate) : poll_out :=
  let '(o, s) := os in
  if capacity o <=? produced o then stop o s OD_ZLIB_STATUS_OUTPUT_READY else poll_stage o s.

(** Between two bits that are read the loop passes a bounded number of stages. *)
Definition poll_fuel (s : inflate) : nat := 20 * Z.to_nat (bits_left s) + 20.

(** The bytes written to [output], of a buffer of [cap]. *)
Definition od_zlib_stream_poll (s : inflate) (cap : Z) : option (od_zlib_status * bytes * inflate) :=
  if negb (initialized (ctl s)) then
    Some (OD_ZLIB_STATUS_ERROR, [], set_error s "zlib stream not initialized")
  else if bool_decide (stage (ctl s) = ST_ERROR) then Some (OD_ZLIB_STATUS_ERROR, [], s)
  else if bool_decide (stage (ctl s) = ST_DONE) then Some (OD_ZLIB_STATUS_DONE, [], s)
  else
    '((o, s), st) ← turns (poll_fuel s) poll_turn ({| capacity := cap; written := [] |}, s);
    Some (st, written o, s).

Definition od_zlib_stream_error (s : inflate) : string :=
  match error (ctl s) with Some m => m | None => "" end.

Definition od_zlib_stream_output_count (s : inflate) : Z := output_count (hist s).
End Operations.

End Inflate.
