(* ===== verification/InflateRead.v ===== *)
(** The inflater's reads and its code tables: what a read does to the source,
    and that building a code from any lengths stays inside the tables. *)

From stdpp Require Import strings.
From S2P Require Import Prelude Span Pump Inflate.
Import Span Pump Inflate.

Module InflateRead.

(** ** The bit reader *)

Definition source_ok (x : bit_source) : Prop := 0 <= bit_count x <= 8.
Definition sbits (x : bit_source) : Z := 8 * len (input x) + bit_count x.

(** What a read does to the source; [need] is what success costs. *)
Definition read_rel {A} (x : bit_source) (v : res A) (x' : bit_source) (need : Z) : Prop :=
  source_ok x' /\ input_final x' = input_final x /\ input x' `suffix_of` input x /\ sbits x' <= sbits x /\
  match v with
  | Got _ => sbits x' <= sbits x - need
  | Starved => input x' = [] /\ input_final x = false
  | Failed _ => True
  end.

Lemma read_rel_trans {A B} (v : res A) (w : res B) x y z n m :
  read_rel x v y n -> 0 <= n -> (match v with Got _ => True | _ => False end) -> read_rel y w z m ->
  read_rel x w z (n + m).
Proof.
  unfold read_rel. intros (H1 & H2 & H5 & H3 & H4) Hn Hv (K1 & K2 & K5 & K3 & K4). destruct v; try done.
  split; [done|]. split; [congruence|]. split; [by etrans|]. split; [lia|]. destruct w; [lia| |done]. destruct K4. split; congruence.
Qed.

Lemma read_rel_weaken {A} (v : res A) x y n m : read_rel x v y n -> m <= n -> read_rel x v y m.
Proof. unfold read_rel. intros (H1 & H2 & H5 & H3 & H4) Hm. split; [done|]. split; [done|]. split; [done|]. split; [done|]. destruct v; [lia|done|done]. Qed.

Ltac reader_tac :=
  unfold read_rel, sbits, source_ok in *; cbn [fst snd input bit_count input_final bit_tag with_bits with_input length] in *;
  repeat match goal with H : _ /\ _ |- _ => destruct H | |- _ /\ _ => split end;
  try match goal with Hi : input ?x = _ |- input ?x `suffix_of` _ => rewrite Hi end;
  try (done || congruence || lia).

Lemma read_byte_spec x : source_ok x -> let '(v, x') := read_byte x in read_rel x v x' 8.
Proof.
  intros Hx. unfold read_byte. destruct (input x) as [|b rest] eqn:Ei.
  - destruct (input_final x) eqn:Ef; reader_tac.
  - reader_tac; rewrite Ei; cbn [length]; [by exists [b]|lia..].
Qed.

Lemma take_bit_spec x :
  source_ok x -> 0 < bit_count x ->
  exists b, (take_bit x).1 = Got b /\ (b = 0 \/ b = 1) /\ source_ok (take_bit x).2 /\
    input_final (take_bit x).2 = input_final x /\ input (take_bit x).2 = input x /\ sbits (take_bit x).2 = sbits x - 1.
Proof.
  intros Hx Hc. unfold take_bit. exists (Z.land (bit_tag x) 1).
  assert (Hb : Z.land (bit_tag x) 1 = bit_tag x mod 2) by apply (Z.land_ones (bit_tag x) 1 ltac:(lia)).
  pose proof (Z.mod_pos_bound (bit_tag x) 2). reader_tac; rewrite ?(wrap_id 8) by (unfold fits; lia); lia.
Qed.

Lemma read_bit_spec x :
  source_ok x -> let '(v, x') := read_bit x in
  read_rel x v x' 1 /\ match v with Got b => b = 0 \/ b = 1 | _ => True end.
Proof.
  intros Hx. unfold read_bit. destruct (Z.eqb_spec (bit_count x) 0) as [Hz|Hz].
  - pose proof (read_byte_spec x Hx) as Hb. destruct (read_byte x) as [[b| |m] x1].
    + destruct (take_bit_spec (with_bits x1 b 8)) as (c & Hc & Hr & Hs2 & Hf2 & Hi2 & Hn2); [reader_tac..|].
      destruct (take_bit _) as [v x2]. cbn [fst snd] in *. subst v. split; [|done]. reader_tac.
    + split; [|done]. reader_tac.
    + split; [|done]. reader_tac.
  - destruct (take_bit_spec x Hx) as (c & Hc & Hr & Hs2 & Hf2 & Hi2 & Hn2); [reader_tac|].
    destruct (take_bit x) as [v x2]. cbn [fst snd] in *. subst v. split; [|done]. reader_tac.
Qed.

(** An interrupted field read knows what it reads; [None] when none is expected. *)
Definition bits_ok (expect : option (Z * Z)) (b : bits_state) : Prop :=
  read_bits_active b = true ->
  expect = Some (read_bits_num b, read_bits_base b) /\ 0 <= read_bits_pos b < read_bits_num b /\
  0 <= read_bits_value b < 2 ^ read_bits_pos b.

Definition field_ok (num base : Z) : Prop := 0 <= num <= 13 /\ 0 <= base <= 65536.

Lemma pow_13 n : 0 <= n <= 13 -> 2 ^ n <= 8192.
Proof. intros Hn. change 8192 with (2 ^ 13). apply Z.pow_le_mono_r; lia. Qed.

(** The loop, from [pos] bits on. *)
Lemma bits_loop_spec n x b num base :
  source_ok x -> field_ok num base -> read_bits_active b = true -> read_bits_num b = num -> read_bits_base b = base ->
  0 <= read_bits_pos b -> num = read_bits_pos b + Z.of_nat n -> 0 <= read_bits_value b < 2 ^ read_bits_pos b ->
  let '(v, x', b') := bits_loop n x b in
  read_rel x v x' (Z.of_nat n) /\
  match v with
  | Got a => base <= a < base + 2 ^ num /\ read_bits_active b' = false
  | Starved => bits_ok (Some (num, base)) b'
  | Failed _ => True
  end.
Proof.
  intros Hx [Hnum Hbase]. revert x b Hx.
  induction n as [|n IH]; intros x b Hx Ha Hn Hb Hp He Hv; cbn [bits_loop].
  - rewrite Z.add_0_r in He. pose proof (pow_13 num Hnum). rewrite <- He in Hv.
    rewrite wrap_id by (unfold fits; change (2 ^ 32) with 4294967296; lia). split; [reader_tac|]. split; [lia|done].
  - pose proof (read_bit_spec x Hx) as Hr. destruct (read_bit x) as [[bit| |m] x1]; destruct Hr as [Hr Hbit].
    + assert (Hs1 : source_ok x1) by apply Hr.
      pose proof (pow_13 (read_bits_pos b) ltac:(lia)) as Hpow.
      assert (Hpos : read_bits_pos (bits_add b bit) = read_bits_pos b + 1).
      { cbn. apply wrap_id. unfold fits. lia. }
      assert (Hval : 0 <= read_bits_value (bits_add b bit) < 2 ^ (read_bits_pos b + 1)).
      { cbn. rewrite Z.pow_add_r by lia. change (2 ^ 1) with 2. destruct (bit =? 0); [lia|].
        rewrite Z.shiftl_1_l, wrap_id by (unfold fits; change (2 ^ 32) with 4294967296; lia). lia. }
      specialize (IH x1 (bits_add b bit) Hs1 Ha Hn Hb). rewrite Hpos in IH.
      specialize (IH ltac:(lia) ltac:(lia) Hval). destruct (bits_loop _ _ _) as [[v x2] b2]. destruct IH as [IH Hpost].
      split; [|done]. replace (Z.of_nat (S n)) with (1 + Z.of_nat n) by lia.
      eapply (read_rel_trans (Got bit)); [exact Hr|lia|done|exact IH].
    + split; [reader_tac|]. intros _. rewrite Hn, Hb. split; [done|]. split; [lia|done].
    + split; [reader_tac|done].
Qed.

Definition reader_sym_same (r r' : code_reader) : Prop := rsym r' = rsym r.

Lemma read_bits_spec num base r :
  source_ok (src r) -> field_ok num base -> bits_ok (Some (num, base)) (rbits r) ->
  let '(v, r') := read_bits num base r in
  read_rel (src r) v (src r') (Z.min 1 num) /\ reader_sym_same r r' /\
  match v with
  | Got a => base <= a < base + 2 ^ num /\ read_bits_active (rbits r') = false
  | Starved => bits_ok (Some (num, base)) (rbits r')
  | Failed _ => True
  end.
Proof.
  intros Hx Hf Hb. unfold read_bits, bits_start. pose proof Hf as [Hnum Hbase].
  assert (Hgo : forall b, read_bits_active b = true -> read_bits_num b = num -> read_bits_base b = base ->
    0 <= read_bits_pos b -> (num = 0 /\ read_bits_pos b = 0 \/ read_bits_pos b < num) ->
    0 <= read_bits_value b < 2 ^ read_bits_pos b ->
    let '(v, r') := (let '(v, x, b) := bits_loop (Z.to_nat (read_bits_num b - read_bits_pos b)) (src r) b in
                     (v, {| src := x; rbits := b; rsym := rsym r |})) in
    read_rel (src r) v (src r') (Z.min 1 num) /\ reader_sym_same r r' /\
    match v with
    | Got a => base <= a < base + 2 ^ num /\ read_bits_active (rbits r') = false
    | Starved => bits_ok (Some (num, base)) (rbits r')
    | Failed _ => True
    end).
  { intros b Ha Hn Hbb Hp Hlt Hv.
    pose proof (bits_loop_spec (Z.to_nat (read_bits_num b - read_bits_pos b)) (src r) b num base Hx Hf Ha Hn Hbb Hp ltac:(lia) Hv) as Hl.
    destruct (bits_loop _ _ _) as [[v x] b']. destruct Hl as [Hl Hpost]. split; [|by split].
    unfold read_rel in *. cbn [src]. destruct v; [|done|done]. intuition lia. }
  destruct (read_bits_active (rbits r)) eqn:Ea.
  - destruct (Hb Ea) as (He & Hp & Hv). injection He as He1 He2. apply Hgo; try done; try lia.
  - cbv zeta. apply Hgo; cbn [read_bits_active read_bits_num read_bits_base read_bits_pos read_bits_value]; try done; try lia.
    apply wrap_id. unfold fits. lia.
Qed.

(** ** Arrays *)

Lemma at_index_some l i : 0 <= i < len l -> at_index l i = Some l.[i].
Proof.
  intros Hi. unfold at_index, get. destruct (Z.ltb_spec i 0); [lia|]. apply list_lookup_lookup_total_lt. lia.
Qed.

Lemma put_index_some l i v : 0 <= i < len l -> put_index l i v = Some l.[i := v].
Proof. intros Hi. unfold put_index. destruct (Z.leb_spec 0 i), (Z.ltb_spec i (len l)); (done || lia). Qed.

(** ** Symbols *)

Definition code_ok (size : Z) (c : code) : Prop := len (table c) = 16 /\ len (trans c) = size.

Definition symbol_ok (y : symbol_state) : Prop := sym_active y = true -> 0 <= sym_len y <= 15.

Lemma symbol_value_spec c size x y :
  size <= len (trans c) -> source_ok x ->
  exists v x' y', symbol_value c size x y = Some (v, x', y') /\ x' = x /\
    match v with Got _ => sym_active y' = false | Starved => False | Failed _ => True end.
Proof.
  intros Hc Hx. unfold symbol_value. destruct (_ <? 0) eqn:E1; cbn [orb]; [by eexists _, _, _|].
  destruct (size <=? _) eqn:E2; [by eexists _, _, _|]. apply Z.ltb_ge in E1. apply Z.leb_gt in E2.
  rewrite at_index_some by lia. by eexists _, _, _.
Qed.

Lemma symbol_loop_spec fuel c size x y :
  len (table c) = 16 -> size <= len (trans c) -> source_ok x -> 0 <= sym_len y <= 15 -> 16 - sym_len y <= Z.of_nat fuel ->
  exists v x' y', symbol_loop fuel c size x y = Some (v, x', y') /\ read_rel x v x' 1 /\
    match v with Got _ => sym_active y' = false | Starved => 0 <= sym_len y' <= 15 | Failed _ => True end.
Proof.
  intros Ht Hc. revert x y. induction fuel as [|fuel IH]; intros x y Hx Hl Hf; [lia|]. cbn [symbol_loop].
  pose proof (read_bit_spec x Hx) as Hr. destruct (read_bit x) as [[bit| |m] x1]; destruct Hr as [Hr Hbit].
  - destruct (Z.eqb_spec (sym_len y + 1) 16); [eexists _, _, _; split; [done|]; split; [reader_tac|done]|].
    rewrite at_index_some by lia. cbn [mbind option_bind].
    assert (Hs1 : source_ok x1) by apply Hr. destruct (0 <=? _).
    + destruct (IH x1 (symbol_add y bit (table c).[sym_len y + 1])) as (v & x2 & y2 & -> & Hrel & Hpost); [done|cbn; lia|cbn; lia|].
      exists v, x2, y2. split; [done|]. split; [|done].
      eapply read_rel_weaken; [eapply (read_rel_trans (Got bit)); [exact Hr|lia|done|exact Hrel]|lia].
    + destruct (symbol_value_spec c size x1 (symbol_add y bit (table c).[sym_len y + 1]) Hc Hs1) as (v & x2 & y2 & -> & -> & Hpost).
      exists v, x1, y2. split; [done|]. destruct v; [|done|]; (split; [reader_tac|done]).
  - eexists _, _, _. split; [done|]. split; [reader_tac|done].
  - eexists _, _, _. split; [done|]. split; [reader_tac|done].
Qed.

Lemma decode_symbol_spec c size r :
  len (table c) = 16 -> size <= len (trans c) -> source_ok (src r) -> symbol_ok (rsym r) ->
  exists v r', decode_symbol c size r = Some (v, r') /\ read_rel (src r) v (src r') 1 /\ rbits r' = rbits r /\
    match v with Failed _ => True | _ => symbol_ok (rsym r') end.
Proof.
  intros Ht Hc Hx Hy. unfold decode_symbol.
  assert (Hs : 0 <= sym_len (symbol_start (rsym r)) <= 15).
  { unfold symbol_start. destruct (sym_active (rsym r)) eqn:Ea; [by apply Hy|cbn; lia]. }
  destruct (symbol_loop_spec 16 c size (src r) (symbol_start (rsym r)) Ht Hc Hx Hs ltac:(lia)) as (v & x & y & -> & Hrel & Hpost).
  eexists v, _. split; [done|]. split; [done|]. split; [done|]. destruct v; [intros Ha; cbn in Ha; congruence|by intros _|done].
Qed.

(** ** Building a code *)

(** How many of the lengths are [l]. *)
Definition cnt (l : Z) (ls : list Z) : Z := len (filter (fun x => x = l) ls).

Lemma cnt_cons l x ls : cnt l (x :: ls) = (if bool_decide (x = l) then 1 else 0) + cnt l ls.
Proof. unfold cnt. rewrite filter_cons. case_decide; case_bool_decide; try done. cbn [length]. lia. Qed.

Lemma cnt_range l ls : 0 <= cnt l ls <= len ls.
Proof. unfold cnt. pose proof (length_filter (fun x => x = l) ls). lia. Qed.

Lemma drop_cons_nth (ls : list Z) i x seg :
  0 <= i -> drop (Z.to_nat i) ls = x :: seg -> at_index ls i = Some x /\ drop (Z.to_nat (i + 1)) ls = seg.
Proof.
  intros Hi Hd. unfold at_index. destruct (Z.ltb_spec i 0); [lia|].
  split; [rewrite <- (Nat.add_0_r (Z.to_nat i)), <- lookup_drop, Hd; done|].
  rewrite Z2Nat.inj_add, <- drop_drop, Hd by lia. done.
Qed.

Lemma count_lengths_spec lens seg rest i tbl :
  0 <= i -> drop (Z.to_nat i) lens = seg ++ rest -> Forall (fun x => 0 <= x) seg -> len tbl = 16 ->
  (forall l, 0 <= l < 16 -> 0 <= tbl.[l] /\ tbl.[l] + len seg < 65536) ->
  exists tbl' ok, count_lengths (length seg) lens i tbl = Some (tbl', ok) /\ len tbl' = 16 /\
    (ok = true -> Forall (fun x => 0 <= x < 16) seg /\ forall l, 0 <= l < 16 -> tbl'.[l] = tbl.[l] + cnt l seg).
Proof.
  revert i tbl. induction seg as [|x seg IH]; intros i tbl Hi Hd Hpos Ht Hb.
  - exists tbl, true. split; [done|]. split; [done|]. intros _. split; [constructor|]. intros l Hl. unfold cnt. cbn. lia.
  - cbn [length count_lengths]. destruct (drop_cons_nth lens i x (seg ++ rest) Hi Hd) as [-> Hd']. cbn [mbind option_bind].
    inversion Hpos as [|? ? Hx Hpos']; subst. destruct (Z.leb_spec 16 x); [by eexists _, false|].
    rewrite at_index_some by lia. cbn [mbind option_bind]. rewrite put_index_some by lia. cbn [mbind option_bind].
    cbn [length] in Hb.
    assert (Hw : u16 (tbl.[x] + 1) = tbl.[x] + 1).
    { apply wrap_id. unfold fits. change (2 ^ 16) with 65536. pose proof (Hb x ltac:(lia)). lia. }
    rewrite Hw. destruct (IH (i + 1) (tbl.[x := tbl.[x] + 1])) as (tbl' & ok & -> & Hl' & Hok); [lia|done|done|by rewrite len_set| |].
    { intros l Hl. specialize (Hb l Hl). destruct (Z.eq_dec l x) as [->|Hne]; [rewrite get_set_eq by lia|rewrite get_set_ne by lia]; lia. }
    exists tbl', ok. split; [done|]. split; [done|]. intros Hk. destruct (Hok Hk) as [HF Hc]. split; [by constructor|].
    intros l Hl. rewrite Hc, cnt_cons by done. destruct (Z.eq_dec l x) as [->|Hne].
    + rewrite get_set_eq, bool_decide_eq_true_2 by (done || lia). lia.
    + rewrite get_set_ne, bool_decide_eq_false_2 by (lia || congruence). lia.
Qed.

(** The sum of the counts below a length. *)
Fixpoint below (tbl : list Z) (l : nat) : Z :=
  match l, tbl with S l, c :: tbl => c + below tbl l | _, _ => 0 end.

Lemma below_mono tbl l m : Forall (fun c => 0 <= c) tbl -> (l <= m)%nat -> 0 <= below tbl l <= below tbl m.
Proof.
  intros HF. revert l m. induction HF as [|c tbl Hc HF IH]; intros l m Hlm; destruct l, m; cbn [below]; try lia.
  - pose proof (IH 0%nat m ltac:(lia)). cbn [below] in *. destruct tbl; cbn [below] in *; lia.
  - pose proof (IH l m ltac:(lia)). lia.
Qed.

Lemma offsets_spec tbl sum :
  Forall (fun c => 0 <= c) tbl -> 0 <= sum -> sum + below tbl (length tbl) < 65536 ->
  let '(offs, total) := offsets tbl sum in
  length offs = length tbl /\ total = sum + below tbl (length tbl) /\
  forall l, (l < length tbl)%nat -> offs !! l = Some (sum + below tbl l).
Proof.
  intros HF. revert sum. induction HF as [|c tbl Hc HF IH]; intros sum Hs Hlt; cbn [offsets below length] in *.
  - split; [done|]. split; [lia|]. intros l Hl. lia.
  - pose proof (below_mono tbl 0 (length tbl) HF ltac:(lia)).
    rewrite !wrap_id by (unfold fits; change (2 ^ 32) with 4294967296; change (2 ^ 16) with 65536; lia).
    specialize (IH (sum + c) ltac:(lia) ltac:(lia)). destruct (offsets tbl (sum + c)) as [offs total].
    destruct IH as (Hl & -> & Ho). split; [cbn; lia|]. split; [lia|]. intros [|l] Hlt'; cbn [lookup list_lookup below].
    + f_equal. destruct tbl; cbn; lia.
    + rewrite Ho by lia. f_equal. lia.
Qed.

Lemma place_symbols_spec lens seg rest i offs tr T :
  0 <= i -> drop (Z.to_nat i) lens = seg ++ rest -> Forall (fun x => 0 <= x < 16) seg -> len offs = 16 -> T <= len tr ->
  T < 65536 -> (forall l, 1 <= l < 16 -> 0 <= offs.[l] /\ offs.[l] + cnt l seg <= T) ->
  exists tr', place_symbols (length seg) lens i offs tr = Some tr' /\ len tr' = len tr.
Proof.
  revert i offs tr. induction seg as [|x seg IH]; intros i offs tr Hi Hd Hpos Ho Htr HT Hb; [by exists tr|].
  cbn [length place_symbols]. destruct (drop_cons_nth lens i x (seg ++ rest) Hi Hd) as [-> Hd']. cbn [mbind option_bind].
  inversion Hpos as [|? ? Hx Hpos']; subst. destruct (Z.eqb_spec x 0) as [->|Hx0].
  - apply IH; try done; [lia|]. intros l Hl. specialize (Hb l Hl). rewrite cnt_cons, bool_decide_eq_false_2 in Hb by lia. done.
  - pose proof (Hb x ltac:(lia)) as Hbx. rewrite cnt_cons, bool_decide_eq_true_2 in Hbx by done. pose proof (cnt_range x seg).
    rewrite at_index_some by lia. cbn [mbind option_bind]. rewrite put_index_some by lia. cbn [mbind option_bind].
    rewrite put_index_some by lia. cbn [mbind option_bind].
    destruct (IH (i + 1) (offs.[x := u16 (offs.[x] + 1)]) (tr.[offs.[x] := u16 i])) as (tr' & -> & Hl').
    + lia.
    + done.
    + done.
    + by rewrite len_set.
    + by rewrite len_set.
    + done.
    + rewrite wrap_id by (unfold fits; change (2 ^ 16) with 65536; lia). intros l Hl. specialize (Hb l Hl). rewrite cnt_cons in Hb.
      destruct (Z.eq_dec l x) as [->|Hne]; [rewrite get_set_eq by lia; lia|].
      rewrite get_set_ne by lia. rewrite bool_decide_eq_false_2 in Hb by congruence. lia.
    + exists tr'. split; [done|]. rewrite Hl'. apply len_set.
Qed.

Lemma below_step tbl (l : nat) : (l < length tbl)%nat -> below tbl (S l) = below tbl l + tbl.[Z.of_nat l].
Proof.
  revert l. induction tbl as [|c tbl IH]; intros l Hl; cbn [length] in Hl; [lia|]. destruct l as [|l].
  - change ((c :: tbl).[Z.of_nat 0]) with c. cbn [below]. destruct tbl; cbn [below]; lia.
  - change (below (c :: tbl) (S (S l))) with (c + below tbl (S l)). change (below (c :: tbl) (S l)) with (c + below tbl l).
    rewrite IH by lia. unfold get. rewrite !Nat2Z.id. change ((c :: tbl) !!! S l) with (tbl !!! l). lia.
Qed.

Lemma Forall_get_iff (P : Z -> Prop) (l : list Z) : (forall i, 0 <= i < len l -> P l.[i]) -> Forall P l.
Proof.
  intros HP. apply Forall_lookup_2. intros i x Hi. specialize (HP (Z.of_nat i)). unfold get in HP. rewrite Nat2Z.id in HP.
  rewrite (list_lookup_total_correct _ _ _ Hi) in HP. apply HP. apply lookup_lt_Some in Hi. lia.
Qed.

Definition code_shape (n : Z) (c : code) : Prop := len (table c) = 16 /\ len (trans c) = n.

Lemma sum_counts (tbl : list Z) (seg : list Z) :
  len tbl = 16 -> tbl.[0] = 0 -> (forall l, 1 <= l < 16 -> tbl.[l] = cnt l seg) -> Forall (fun x => 0 <= x < 16) seg ->
  below tbl 16 <= len seg.
Proof.
  intros Ht H0 Hc Hseg. revert tbl Ht H0 Hc. induction Hseg as [|x seg Hx Hseg IH]; intros tbl Ht H0 Hc.
  - assert (Hz : forall n, (n <= 16)%nat -> below tbl n = 0); [|by rewrite Hz].
    induction n as [|n IHn]; intros Hn; [by destruct tbl|]. rewrite below_step, IHn by lia.
    destruct (Z.eq_dec (Z.of_nat n) 0) as [->|]; [lia|]. rewrite Hc by lia. done.
  - set (tbl' := tbl.[x := if x =? 0 then 0 else tbl.[x] - 1]).
    assert (Hb : below tbl 16 <= below tbl' 16 + 1).
    { assert (Hn : forall n, (n <= 16)%nat -> below tbl n <= below tbl' n + (if x <? Z.of_nat n then 1 else 0)).
      { induction n as [|n IHn]; intros Hn; [destruct tbl, tbl'; cbn; destruct (_ <? _); lia|].
        specialize (IHn ltac:(lia)). rewrite !below_step by (unfold tbl'; rewrite ?len_set in *; unfold set; rewrite ?length_insert; lia).
        unfold tbl'. destruct (Z.eq_dec x (Z.of_nat n)) as [Heq|Hne].
        - assert (Hz : x = 0 -> tbl.[x] = 0) by (by intros ->).
          assert (Hg : tbl.[x := if x =? 0 then 0 else tbl.[x] - 1].[Z.of_nat n] = if x =? 0 then 0 else tbl.[x] - 1)
            by (rewrite <- Heq; apply get_set_eq; lia).
          assert (Hg' : tbl.[Z.of_nat n] = tbl.[x]) by (by rewrite Heq). rewrite Hg, Hg'. fold tbl'. revert IHn.
          destruct (Z.eqb_spec x 0), (Z.ltb_spec x (Z.of_nat n)), (Z.ltb_spec x (Z.of_nat (S n))); lia.
        - rewrite get_set_ne by lia. fold tbl'. revert IHn.
          destruct (Z.ltb_spec x (Z.of_nat n)), (Z.ltb_spec x (Z.of_nat (S n))); lia. }
      pose proof (Hn 16%nat ltac:(lia)). destruct (x <? _); lia. }
    assert (Hi : below tbl' 16 <= len seg).
    { apply IH; unfold tbl'.
      - by rewrite len_set.
      - destruct (Z.eq_dec x 0) as [Hx0|]; [rewrite Hx0; by rewrite get_set_eq by lia|by rewrite get_set_ne by lia].
      - intros l Hl. specialize (Hc l Hl). rewrite cnt_cons in Hc. destruct (Z.eq_dec l x) as [->|].
        + rewrite get_set_eq by lia. rewrite bool_decide_eq_true_2 in Hc by done. destruct (Z.eqb_spec x 0); lia.
        + rewrite get_set_ne by lia. rewrite bool_decide_eq_false_2 in Hc by congruence. lia. }
    cbn [length]. lia.
Qed.

Lemma build_tree_spec n c size lens num :
  code_shape n c -> size <= n -> n < 65536 -> 0 <= num <= len lens -> num < 60000 -> Forall (fun x => 0 <= x) lens ->
  exists c' err, build_tree c size lens num = Some (c', err) /\ code_shape n c'.
Proof.
  intros [Ht Htr] Hsz Hn Hnum Hmax Hpos. unfold build_tree.
  set (seg := take (Z.to_nat num) lens).
  assert (Hseg : drop (Z.to_nat 0) lens = seg ++ drop (Z.to_nat num) lens) by (symmetry; apply take_drop).
  assert (Hlen : length seg = Z.to_nat num) by (unfold seg; rewrite length_take; lia).
  rewrite <- Hlen.
  destruct (count_lengths_spec lens seg _ 0 (replicate 16 0) ltac:(lia) Hseg) as (tbl & ok & -> & Hl & Hok).
  - by apply Forall_take.
  - done.
  - intros l Hl. unfold get. rewrite lookup_total_replicate_2 by lia. lia.
  - cbn [mbind option_bind]. destruct ok; cbn [negb]; [|by eexists _, _].
    destruct (Hok eq_refl) as [HF Hc]. clear Hok.
    assert (Hc0 : forall l, 1 <= l < 16 -> tbl.[0 := 0].[l] = cnt l seg).
    { intros l Hl'. rewrite get_set_ne, Hc by lia. unfold get. rewrite lookup_total_replicate_2 by lia. lia. }
    assert (Hz : tbl.[0 := 0].[0] = 0) by (apply get_set_eq; lia).
    assert (Hl0 : len tbl.[0 := 0] = 16) by (by rewrite len_set).
    set (tb := tbl.[0 := 0]) in *. clearbody tb. pose proof (sum_counts tb seg Hl0 Hz Hc0 HF) as Hsum.
    assert (HFt : Forall (fun c => 0 <= c) tb).
    { apply Forall_get_iff. intros l Hl'. destruct (Z.eq_dec l 0) as [->|]; [lia|]. rewrite Hc0 by lia. apply cnt_range. }
    assert (Hlt : length tb = 16%nat) by lia.
    pose proof (offsets_spec tb 0 HFt ltac:(lia)) as Hoff. rewrite Hlt in Hoff. specialize (Hoff ltac:(lia)).
    destruct (offsets tb 0) as [offs total]. destruct Hoff as (Hol & -> & Ho). rewrite Z.add_0_l.
    destruct (Z.ltb_spec size (below tb 16)); [by eexists _, _|].
    destruct (place_symbols_spec lens seg _ 0 offs (trans c) (below tb 16) ltac:(lia) Hseg HF) as (tr & -> & Hl'); try lia.
    + intros l Hl'. assert (Hol' : offs.[l] = below tb (Z.to_nat l)).
      { unfold get. apply list_lookup_total_correct. rewrite Ho by lia. f_equal. }
      rewrite Hol', <- Hc0 by lia. pose proof (below_step tb (Z.to_nat l) ltac:(lia)) as Hst. rewrite Z2Nat.id in Hst by lia.
      pose proof (below_mono tb (S (Z.to_nat l)) 16 HFt ltac:(lia)). pose proof (below_mono tb 0 (Z.to_nat l) HFt ltac:(lia)).
      split; [|lia]. destruct tb; cbn [below] in *; lia.
    + cbn [mbind option_bind]. eexists _, _. split; [done|]. split; [done|]. cbn. lia.
Qed.

End InflateRead.
