(* ===== verification/InflateSafe.v ===== *)
(** The inflater is total: on every stream, however malformed, no index leaves
    its array and every loop ends within its fuel. *)

From stdpp Require Import strings.
From S2P Require Import Prelude Span Pump Rfc1951 Inflate InflateRead.
Import Span Pump Inflate InflateRead.
Import Rfc1951(adler_sums, adler32).

Module InflateSafe.

(** Every turn that goes round again takes the measure down: then the loop leaves. *)
Lemma turns_total {S R : Type} (body : S -> option (S * option R)) (I : S -> Prop) (Q : S -> R -> Prop) (mu : S -> nat) :
  (forall s, I s -> exists s' r, body s = Some (s', r) /\
     match r with None => I s' /\ (mu s' < mu s)%nat | Some r => Q s' r end) ->
  forall fuel s, I s -> (mu s < fuel)%nat -> exists s' r, turns fuel body s = Some (s', r) /\ Q s' r.
Proof.
  intros Hb. induction fuel as [|fuel IH]; intros s Hs Hm; [lia|]. cbn [turns].
  destruct (Hb s Hs) as (s' & r & -> & Hr). cbn [mbind option_bind]. destruct r as [r|]; [by exists s', r|].
  destruct Hr as [HI Hlt]. apply IH; [done|lia].
Qed.

Ltac isimpl :=
  cbn [ctl rd ltree tree dyn sto mat hist trl set_ctl set_rd set_trees set_dyn set_sto set_mat set_hist set_trl
       set_stage set_block_stage set_dynamic_stage set_error with_stages with_header stage block_stage dynamic_stage
       initialized cmf bfinal btype error src rbits rsym with_lengths with_tree_sizes with_repeat lengths hlit hdist hclen
       hlimit dyn_i dyn_num dyn_fill_value dyn_repeat_len dyn_repeat_bits dyn_repeat_base with_stored
       stored_header_index stored_len stored_invlen with_match match_len match_offset length_sym dist_sym window
       window_pos expected_output output_count adler trailer_index trailer_value on_source reset_code_readers
       reset_readers bits_done read_bits_active input input_final bit_tag bit_count od_zlib_stream_reset stream_zero
       fst snd] in *.

(** ** The checksum *)

Lemma adler_sums_snoc out x :
  adler_sums (out ++ [x]) = ((adler_sums out).1 + x, (adler_sums out).2 + ((adler_sums out).1 + x)).
Proof. unfold adler_sums. rewrite foldl_snoc. by destruct (foldl _ _ out). Qed.

(** The byte-at-a-time update computes them. *)
Lemma adler_update_spec out x :
  is_byte x -> adler_update_byte (adler32 out) x = adler32 (out ++ [x]).
Proof.
  intros Hx. unfold is_byte in Hx. unfold adler32. rewrite adler_sums_snoc. cbn [fst snd].
  set (a := (adler_sums out).1). set (b := (adler_sums out).2). unfold adler_update_byte, ADLER_BASE.
  pose proof (Z.mod_pos_bound a 65521 ltac:(lia)). pose proof (Z.mod_pos_bound b 65521 ltac:(lia)).
  change 0xffff with (Z.ones 16). rewrite Z.land_ones, Z.shiftr_div_pow2 by lia. change (2 ^ 16) with 65536.
  replace ((b mod 65521 * 65536 + a mod 65521) mod 65536) with (a mod 65521)
    by (apply (Z.mod_unique _ _ (b mod 65521)); lia).
  replace ((b mod 65521 * 65536 + a mod 65521) / 65536) with (b mod 65521)
    by (apply (Z.div_unique _ _ _ (a mod 65521)); lia).
  assert (Ha : (if 65521 <=? a mod 65521 + x then a mod 65521 + x - 65521 else a mod 65521 + x) = (a + x) mod 65521).
  { rewrite <- Z.add_mod_idemp_l by lia. destruct (Z.leb_spec 65521 (a mod 65521 + x)); [apply (Z.mod_unique _ _ 1)|symmetry; apply Z.mod_small]; lia. }
  rewrite Ha. pose proof (Z.mod_pos_bound (a + x) 65521 ltac:(lia)).
  rewrite (wrap_id 32 (_ + _)) by (unfold fits; change (2 ^ 32) with 4294967296; lia).
  assert (Hb : (b mod 65521 + (a + x) mod 65521) mod 65521 = (b + (a + x)) mod 65521) by (symmetry; apply Z.add_mod; lia).
  rewrite Hb. pose proof (Z.mod_pos_bound (b + (a + x)) 65521 ltac:(lia)).
  rewrite Z.shiftl_mul_pow2 by lia. change (2 ^ 16) with 65536.
  rewrite (wrap_id 32) by (unfold fits; change (2 ^ 32) with 4294967296; lia).
  change 65536 with (2 ^ 16). rewrite <- Z.shiftl_mul_pow2 by lia. apply lor_shiftl_add; [lia|]. unfold fits. change (2 ^ 16) with 65536. lia.
Qed.

Lemma suffix_bytes_ok l k : bytes_ok k -> l `suffix_of` k -> bytes_ok l.
Proof. intros Hk [p ->]. by apply Forall_app in Hk as [_ ?]. Qed.

(** The size the stream was reset for. *)
Class Image := { image_size : Z; image_fits : fits 32 image_size }.

Section Safety.
Context `{ZlibConfig, Image}.

Lemma window_size : 512 <= OPENDISPLAY_ZLIB_WINDOW_SIZE <= 32768.
Proof.
  unfold OPENDISPLAY_ZLIB_WINDOW_SIZE. pose proof window_bits_range. rewrite Z.shiftl_1_l.
  change 512 with (2 ^ 9). change 32768 with (2 ^ 15). split; apply Z.pow_le_mono_r; lia.
Qed.

Lemma window_mask x : Z.land x (OPENDISPLAY_ZLIB_WINDOW_SIZE - 1) = x mod OPENDISPLAY_ZLIB_WINDOW_SIZE.
Proof.
  unfold OPENDISPLAY_ZLIB_WINDOW_SIZE. pose proof window_bits_range. rewrite Z.shiftl_1_l.
  rewrite <- Z.land_ones by lia. f_equal. rewrite Z.ones_equiv. lia.
Qed.

Lemma window_mod x : 0 <= x mod OPENDISPLAY_ZLIB_WINDOW_SIZE < OPENDISPLAY_ZLIB_WINDOW_SIZE.
Proof. apply Z.mod_pos_bound. pose proof window_size. lia. Qed.

Lemma window_mask_range x : 0 <= Z.land x (OPENDISPLAY_ZLIB_WINDOW_SIZE - 1) < OPENDISPLAY_ZLIB_WINDOW_SIZE.
Proof. rewrite window_mask. apply window_mod. Qed.

(** The bytes written since the reset. *)
Variable out : bytes.

(** ** The invariant *)

(** The field read a stage can be interrupted in. *)
Definition pending (s : inflate) : option (Z * Z) :=
  match stage (ctl s) with
  | ST_BLOCK_TYPE => Some (2, 0)
  | ST_DYNAMIC_TREES =>
      match dynamic_stage (ctl s) with
      | DYN_HLIT => Some (5, 257)
      | DYN_HDIST => Some (5, 1)
      | DYN_HCLEN => Some (4, 4)
      | DYN_READ_CLEN => if dyn_i (dyn s) <? hclen (dyn s) then Some (3, 0) else None
      | DYN_REPEAT_BITS => Some (dyn_repeat_bits (dyn s), dyn_repeat_base (dyn s))
      | _ => None
      end
  | ST_BLOCK_DATA =>
      match block_stage (ctl s) with
      | BLK_LEN_EXTRA => Some (length_bits.[length_sym (mat s)], length_base.[length_sym (mat s)])
      | BLK_DIST_EXTRA => Some (dist_bits.[dist_sym (mat s)], dist_base.[dist_sym (mat s)])
      | _ => None
      end
  | _ => None
  end.

Definition sizes_ok (d : dynamic) : Prop := 257 <= hlit d <= 286 /\ 1 <= hdist d <= 32 /\ 4 <= hclen d <= 19.

Definition reading_ok (d : dynamic) : Prop :=
  sizes_ok d /\ hlimit d = hlit d + hdist d /\ 0 <= dyn_num d <= hlimit d.

Definition repeat_ok (d : dynamic) : Prop :=
  0 <= dyn_fill_value d /\ 2 <= dyn_repeat_bits d <= 7 /\ 3 <= dyn_repeat_base d <= 11.

Definition dyn_ok (st : dynamic_stage_t) (d : dynamic) : Prop :=
  match st with
  | DYN_HLIT => True
  | DYN_HDIST => 257 <= hlit d <= 288
  | DYN_HCLEN => 257 <= hlit d <= 288 /\ 1 <= hdist d <= 32
  | DYN_CLEAR_CLEN => sizes_ok d /\ dyn_i d = 0
  | DYN_READ_CLEN => sizes_ok d /\ 0 <= dyn_i d <= hclen d
  | DYN_BUILD_CLTREE | DYN_BUILD_TREES => sizes_ok d
  | DYN_READ_LENGTHS => reading_ok d
  | DYN_REPEAT_BITS => reading_ok d /\ repeat_ok d
  end.

Definition lengths_ok (d : dynamic) : Prop := len (lengths d) = LENGTHS_SIZE /\ Forall (fun x => 0 <= x) (lengths d).

Definition match_ok (st : block_stage_t) (m : match_state) : Prop :=
  fits 32 (match_len m) /\
  match st with
  | BLK_LEN_EXTRA => 0 <= length_sym m < 29
  | BLK_DIST_EXTRA => 0 <= dist_sym m < 30
  | BLK_MATCH_COPY => 1 <= match_offset m <= OPENDISPLAY_ZLIB_WINDOW_SIZE /\ match_offset m <= len out
  | _ => True
  end.

(** The window holds the last bytes written, each at its place modulo the size. *)
Record hist_ok (h : history) : Prop := {
  hist_window : len (window h) = OPENDISPLAY_ZLIB_WINDOW_SIZE;
  hist_pos : window_pos h = len out mod OPENDISPLAY_ZLIB_WINDOW_SIZE;
  hist_count : output_count h = len out;
  hist_expected : expected_output h = image_size;
  hist_room : len out <= image_size;
  hist_adler : adler h = adler32 out;
  hist_bytes : bytes_ok out;
  hist_last i : 0 <= i < len out -> len out - OPENDISPLAY_ZLIB_WINDOW_SIZE <= i ->
    (window h).[i mod OPENDISPLAY_ZLIB_WINDOW_SIZE] = out.[i];
}.

Record core (s : inflate) : Prop := {
  core_source : source_ok (src (rd s));
  core_input : bytes_ok (input (src (rd s)));
  core_bits : bits_ok (pending s) (rbits (rd s));
  core_sym : symbol_ok (rsym (rd s));
  core_ltree : code_shape LITERAL_TRANS (ltree s);
  core_tree : code_shape DISTANCE_TRANS (tree s);
  core_lengths : lengths_ok (dyn s);
  core_dyn : stage (ctl s) = ST_DYNAMIC_TREES -> dyn_ok (dynamic_stage (ctl s)) (dyn s);
  core_sto : 0 <= stored_header_index (sto s) <= 4 /\ fits 16 (stored_len (sto s));
  core_mat : match_ok (block_stage (ctl s)) (mat s);
  core_hist : hist_ok (hist s);
  core_trl : 0 <= trailer_index (trl s) <= 4;
  core_init : initialized (ctl s) = true;
  core_done : stage (ctl s) = ST_DONE -> trailer_value (trl s) = adler32 out /\ len out = image_size;
}.

(** A stream in error is left alone. *)
Definition inv (s : inflate) : Prop := stage (ctl s) = ST_ERROR \/ core s.

(** ** Changing a part of a state with no field read under way *)

Definition calm (s : inflate) : Prop := core s /\ read_bits_active (rbits (rd s)) = false.

Lemma calm_of_core s : core s -> pending s = None -> calm s.
Proof.
  intros Hc Hp. split; [done|]. destruct (read_bits_active _) eqn:Ea; [|done].
  destruct (core_bits s Hc Ea) as [He _]. congruence.
Qed.

(** A change that leaves the readers alone. *)
Ltac calm_tac :=
  intros [Hcore Hact]; intros; split; [|exact Hact]; destruct Hcore; constructor; isimpl;
  try (intros Hon; isimpl; congruence); try done; auto.

Lemma calm_dyn s d st :
  calm s -> lengths_ok d -> dyn_ok st d -> calm (set_dynamic_stage (set_dyn s d) st).
Proof. calm_tac. Qed.

Lemma calm_dyn_only s d :
  calm s -> lengths_ok d -> dyn_ok (dynamic_stage (ctl s)) d -> calm (set_dyn s d).
Proof. calm_tac. Qed.

Lemma calm_dynamic_stage s st : calm s -> dyn_ok st (dyn s) -> calm (set_dynamic_stage s st).
Proof. calm_tac. Qed.

Lemma calm_block s m b : calm s -> match_ok b m -> calm (set_block_stage (set_mat s m) b).
Proof. calm_tac. Qed.

Lemma calm_mat s m : calm s -> match_ok (block_stage (ctl s)) m -> calm (set_mat s m).
Proof. calm_tac. Qed.

Lemma calm_block_symbol s : calm s -> calm (set_block_stage s BLK_SYMBOL).
Proof. calm_tac. split; [apply core_mat0|done]. Qed.

Lemma calm_stage s st :
  calm s -> st <> ST_DONE -> (st = ST_DYNAMIC_TREES -> dyn_ok (dynamic_stage (ctl s)) (dyn s)) -> calm (set_stage s st).
Proof. calm_tac. Qed.

Lemma calm_trees s l d :
  calm s -> code_shape LITERAL_TRANS l -> code_shape DISTANCE_TRANS d -> calm (set_trees s l d).
Proof. calm_tac. Qed.

Lemma calm_sto s t :
  calm s -> 0 <= stored_header_index t <= 4 /\ fits 16 (stored_len t) -> calm (set_sto s t).
Proof. calm_tac. Qed.

Lemma calm_trl s t : calm s -> stage (ctl s) <> ST_DONE -> 0 <= trailer_index t <= 4 -> calm (set_trl s t).
Proof. calm_tac. Qed.

Lemma calm_header s m f t : calm s -> calm (set_ctl s (with_header (ctl s) m f t)).
Proof. calm_tac. Qed.

Lemma calm_reset s : calm s -> calm (reset_code_readers s).
Proof. intros [Hcore Hact]. split; [|done]. destruct Hcore. constructor; isimpl; try done; intros Hon; isimpl; discriminate. Qed.

Lemma calm_rd s r :
  calm s -> rbits r = rbits (rd s) -> source_ok (src r) -> bytes_ok (input (src r)) -> symbol_ok (rsym r) -> calm (set_rd s r).
Proof.
  intros [Hcore Hact] Hb Hs Hi Hy. split; [|isimpl; congruence]. destruct Hcore. constructor; isimpl; try done.
  intros Hon. isimpl. congruence.
Qed.

Lemma error_inv s m : inv (set_error s m).
Proof. by left. Qed.

Lemma core_inv s : core s -> inv s.
Proof. by right. Qed.

(** ** Reads on the stream *)

(** Nothing left to read, and more to come. *)
Definition stuck (s : inflate) : Prop := input (src (rd s)) = [] /\ input_final (src (rd s)) = false.

Lemma bits_left_sbits s : bits_left s = sbits (src (rd s)).
Proof. done. Qed.

(** What a read leaves: the value and a calm state with fewer bits, or a state to
    come back to, or the error. *)
Definition read_post {A} (s : inflate) (v : res A) (r : code_reader) (need : Z) (P : A -> Prop) : Prop :=
  bits_left (after_read s v r) <= bits_left s /\
  match v with
  | Got a => P a /\ calm (set_rd s r) /\ bits_left (set_rd s r) <= bits_left s - need
  | Starved => core (set_rd s r) /\ stuck (set_rd s r)
  | Failed _ => True
  end.

Lemma core_read_bits s num base :
  core s -> pending s = Some (num, base) -> field_ok num base ->
  let '(v, r) := read_bits num base (rd s) in
  read_post s v r (Z.min 1 num) (fun a => base <= a < base + 2 ^ num).
Proof.
  intros Hc Hp Hf. pose proof (core_bits s Hc) as Hb. rewrite Hp in Hb.
  pose proof (read_bits_spec num base (rd s) (core_source s Hc) Hf Hb) as Hr.
  destruct (read_bits num base (rd s)) as [v r]. destruct Hr as ((Hs & Hfin & Hsuf & Hle & Hrel) & Hsym & Hpost).
  unfold read_post. unfold reader_sym_same in Hsym.
  assert (Hcore : forall e, pending s = e -> bits_ok e (rbits r) -> core (set_rd s r)).
  { intros e He Hok. destruct Hc. constructor; isimpl; try done; [by eapply suffix_bytes_ok| |by rewrite Hsym]. change (bits_ok (pending s) (rbits r)). by rewrite He. }
  destruct v as [a| |m]; cbn [after_read].
  - destruct Hpost as [Ha Hact]. rewrite !bits_left_sbits. isimpl. split; [lia|]. split; [done|]. split; [|lia].
    split; [|exact Hact]. apply (Hcore _ eq_refl). intros Hon. congruence.
  - rewrite !bits_left_sbits. isimpl. split; [lia|]. split; [by eapply Hcore|]. unfold stuck. isimpl. destruct Hrel. split; congruence.
  - rewrite !bits_left_sbits. isimpl. split; [lia|done].
Qed.

Lemma core_decode s c n size :
  core s -> pending s = None -> code_shape n c -> size <= n ->
  exists v r, decode_symbol c size (rd s) = Some (v, r) /\ read_post s v r 1 (fun _ => True).
Proof.
  intros Hc Hp [Ht Hn] Hsz.
  destruct (decode_symbol_spec c size (rd s) Ht ltac:(lia) (core_source s Hc) (core_sym s Hc)) as (v & r & Hd & (Hs & Hfin & Hsuf & Hle & Hrel) & Hbits & Hpost).
  exists v, r. split; [done|]. unfold read_post. destruct (calm_of_core s Hc Hp) as [_ Hact].
  assert (Hcalm : symbol_ok (rsym r) -> calm (set_rd s r)) by (intros; apply calm_rd; auto; [by apply calm_of_core|eapply suffix_bytes_ok, Hsuf; apply Hc]).
  destruct v as [a| |m]; cbn [after_read]; rewrite !bits_left_sbits; isimpl; (split; [lia|]); [|split|done].
  - split; [done|]. split; [by apply Hcalm|lia].
  - by apply Hcalm.
  - unfold stuck. isimpl. destruct Hrel. split; congruence.
Qed.

Lemma core_next_byte s :
  core s -> pending s = None ->
  let '(v, s') := next_byte s in
  bits_left s' <= bits_left s /\
  match v with
  | Got b => exists x, s' = set_rd s (on_source (rd s) x) /\ calm s' /\ bits_left s' <= bits_left s - 8
  | Starved => s' = s /\ stuck s
  | Failed _ => stage (ctl s') = ST_ERROR
  end.
Proof.
  intros Hc Hp. unfold next_byte, read_byte. destruct (input (src (rd s))) as [|b rest] eqn:Ei.
  - destruct (input_final (src (rd s))) eqn:Ef; cbn [after_read]; rewrite !bits_left_sbits; isimpl.
    + split; [lia|done].
    + split; [lia|]. split; [|by split]. by destruct s as [? [] ? ? ? ? ? ? ?].
  - cbn [after_read]. rewrite !bits_left_sbits. isimpl. unfold sbits. isimpl. cbn [with_input input bit_count]. rewrite Ei. cbn [length].
    split; [lia|]. exists (with_input (src (rd s)) rest). split; [done|]. split; [|lia].
    apply calm_rd; [by apply calm_of_core|done|exact (core_source s Hc)| |exact (core_sym s Hc)].
    pose proof (core_input s Hc) as Hi. rewrite Ei in Hi. by inversion Hi.
Qed.

(** ** The dynamic code tables *)

Definition dyn_mu (s : inflate) : nat :=
  let d := dyn s in
  match dynamic_stage (ctl s) with
  | DYN_HLIT => 650 | DYN_HDIST => 649 | DYN_HCLEN => 648 | DYN_CLEAR_CLEN => 647 | DYN_READ_CLEN => 646
  | DYN_BUILD_CLTREE => 645
  | DYN_READ_LENGTHS => 2 * Z.to_nat (hlimit d - dyn_num d) + 2
  | DYN_REPEAT_BITS => 2 * Z.to_nat (hlimit d - dyn_num d) + 1
  | DYN_BUILD_TREES => 0
  end%nat.

Definition in_dyn (s : inflate) : Prop := stage (ctl s) = ST_DYNAMIC_TREES.

(** How [process_dynamic_trees] can end. *)
Definition dyn_done (s : inflate) (rc : Z) : Prop :=
  (rc = -1 /\ stage (ctl s) = ST_ERROR) \/ (rc = 0 /\ core s /\ in_dyn s /\ stuck s) \/ (rc = 1 /\ calm s /\ in_dyn s).

Definition dyn_post (s s' : inflate) (r : option Z) : Prop :=
  bits_left s' <= bits_left s /\
  match r with None => core s' /\ in_dyn s' /\ (dyn_mu s' < dyn_mu s)%nat | Some rc => dyn_done s' rc end.

Lemma dyn_stop {A} s (v : res A) r n P :
  in_dyn s -> read_post s v r n P -> (match v with Got _ => False | _ => True end) ->
  dyn_done (after_read s v r) (stop_code (after_read s v r)).
Proof.
  intros Hd [_ Hp] Hv. destruct v as [a| |m]; [done| |].
  - destruct Hp as [Hc Hs]. right. left. cbn [after_read]. unfold stop_code, in_dyn in *. isimpl.
    rewrite bool_decide_eq_false_2 by congruence. done.
  - left. cbn [after_read]. unfold stop_code. isimpl. done.
Qed.

Lemma dyn_error s0 s m : bits_left s <= bits_left s0 -> dyn_post s0 (set_error s m) (Some (-1)).
Proof. intros Hb. split; [exact Hb|]. by left. Qed.

(** What remains to be shown after a field is read: where it goes on a value. *)
Lemma read_cases s0 s num base :
  core s -> in_dyn s -> bits_left s <= bits_left s0 -> pending s = Some (num, base) -> field_ok num base ->
  let '(v, r) := read_bits num base (rd s) in
  match v with
  | Got a => base <= a < base + 2 ^ num /\ calm (set_rd s r) /\ bits_left (set_rd s r) <= bits_left s0
  | _ => dyn_post s0 (after_read s v r) (Some (stop_code (after_read s v r)))
  end.
Proof.
  intros Hc Hd Hb0 Hp Hf. pose proof (core_read_bits s num base Hc Hp Hf) as Hr.
  destruct (read_bits num base (rd s)) as [v r]. destruct v as [a| |m] eqn:Ev.
  - destruct Hr as (Hb & Ha & Hcalm & _). cbn [after_read] in *. split; [done|]. split; [done|lia].
  - split; [destruct Hr; lia|]. by eapply dyn_stop.
  - split; [destruct Hr; lia|]. by eapply dyn_stop.
Qed.

Lemma dyn_field_cases s0 s num base k :
  core s -> in_dyn s -> bits_left s <= bits_left s0 -> pending s = Some (num, base) -> field_ok num base ->
  (forall r a, calm (set_rd s r) -> bits_left (set_rd s r) <= bits_left s0 -> base <= a < base + 2 ^ num ->
     let '(s', r) := k (set_rd s r) a in dyn_post s0 s' r) ->
  let '(s', r) := dyn_field num base k s in dyn_post s0 s' r.
Proof.
  intros Hc Hd Hb0 Hp Hf Hk. unfold dyn_field. pose proof (read_cases s0 s num base Hc Hd Hb0 Hp Hf) as Hr.
  destruct (read_bits num base (rd s)) as [[a| |m] r]; [|done|done]. destruct Hr as (Ha & Hcalm & Hb). by apply Hk.
Qed.

(** The next stage, from a calm state. *)
Lemma dyn_next s0 s d st :
  calm s -> in_dyn s -> bits_left s <= bits_left s0 -> lengths_ok d -> dyn_ok st d ->
  (dyn_mu (set_dynamic_stage (set_dyn s d) st) < dyn_mu s0)%nat ->
  dyn_post s0 (set_dynamic_stage (set_dyn s d) st) None.
Proof. intros Hc Hd Hb Hl Ho Hm. split; [exact Hb|]. split; [by apply calm_dyn|]. by split. Qed.

Lemma lengths_put d i v l :
  lengths_ok d -> 0 <= v -> put_index (lengths d) i v = Some l -> len l = LENGTHS_SIZE /\ Forall (fun x => 0 <= x) l.
Proof.
  intros [Hl HF] Hv. unfold put_index. destruct (_ && _); [|done]. intros [= <-]. rewrite len_set. split; [done|]. by apply Forall_set.
Qed.

Lemma clear_lengths_spec n l i :
  0 <= i -> i + Z.of_nat n <= len l -> Forall (fun x => 0 <= x) l ->
  exists l', clear_lengths n l i = Some (l', i + Z.of_nat n) /\ len l' = len l /\ Forall (fun x => 0 <= x) l'.
Proof.
  revert l i. induction n as [|n IH]; intros l i Hi Hn HF; cbn [clear_lengths].
  - exists l. rewrite Z.add_0_r. done.
  - rewrite put_index_some by lia. cbn [mbind option_bind].
    destruct (IH (l.[i := 0]) (i + 1)) as (l' & -> & Hl & HF'); [lia|rewrite len_set; lia|by apply Forall_set|].
    exists l'. rewrite len_set in Hl. split; [f_equal; f_equal; lia|done].
Qed.

Lemma fill_lengths_spec n l i fill :
  0 <= i -> 0 <= fill -> i + Z.of_nat n <= len l -> Forall (fun x => 0 <= x) l ->
  exists l', fill_lengths n l i fill = Some (l', i + Z.of_nat n) /\ len l' = len l /\ Forall (fun x => 0 <= x) l'.
Proof.
  intros Hi Hf. revert l i Hi. induction n as [|n IH]; intros l i Hi Hn HF; cbn [fill_lengths].
  - exists l. rewrite Z.add_0_r. done.
  - rewrite put_index_some by lia. cbn [mbind option_bind].
    destruct (IH (l.[i := fill]) (i + 1)) as (l' & -> & Hl & HF'); [lia|rewrite len_set; lia|by apply Forall_set|].
    exists l'. rewrite len_set in Hl. split; [f_equal; f_equal; lia|done].
Qed.

Lemma read_clens_spec n s0 s :
  core s -> in_dyn s -> dynamic_stage (ctl s) = DYN_READ_CLEN -> Z.of_nat n = hclen (dyn s) - dyn_i (dyn s) ->
  bits_left s <= bits_left s0 -> dyn_mu s0 = 646%nat ->
  exists s' r, read_clens n s = Some (s', r) /\ dyn_post s0 s' r.
Proof.
  revert s. induction n as [|n IH]; intros s Hc Hd Hst Hn Hb Hmu; cbn [read_clens];
    pose proof (core_dyn s Hc Hd) as Hok; rewrite Hst in Hok; destruct Hok as [Hsz Hi].
  - assert (Hp : pending s = None).
    { unfold pending. unfold in_dyn in Hd. rewrite Hd, Hst. destruct (Z.ltb_spec (dyn_i (dyn s)) (hclen (dyn s))); (lia || done). }
    eexists _, _. split; [done|]. split; [exact Hb|]. split; [apply calm_dynamic_stage; [by apply calm_of_core|done]|].
    split; [done|]. rewrite Hmu. unfold dyn_mu. isimpl. lia.
  - assert (Hp : pending s = Some (3, 0)).
    { unfold pending. unfold in_dyn in Hd. rewrite Hd, Hst. destruct (Z.ltb_spec (dyn_i (dyn s)) (hclen (dyn s))); (lia || done). }
    pose proof (read_cases s0 s 3 0 Hc Hd Hb Hp ltac:(split; lia)) as Hr.
    destruct (read_bits 3 0 (rd s)) as [[a| |m] r]; [|by eexists _, _..]. cbn [after_read]. destruct Hr as (Ha & Hcalm & Hbits).
    set (s1 := set_rd s r) in *. change (dyn s1) with (dyn s).
    destruct Hsz as (Hsz1 & Hsz2 & Hsz3). rewrite at_index_some by (cbn; lia). cbn [mbind option_bind].
    assert (Hidx : 0 <= clcidx.[dyn_i (dyn s)] < 19).
    { apply (Forall_get (fun x => 0 <= x < 19)); [|cbn; lia]. repeat constructor; lia. }
    destruct (core_lengths s Hc) as [Hl HF]. unfold LENGTHS_SIZE in *. rewrite put_index_some by lia. cbn [mbind option_bind].
    apply IH; try done.
    + apply calm_dyn_only; [done| |].
      * split; isimpl; [by rewrite len_set|]. apply Forall_set; [done|]. apply wrap_fits. lia.
      * change (ctl s1) with (ctl s). rewrite Hst. split; [done|]. isimpl. lia.
    + isimpl. lia.
Qed.

(** What remains to be shown after a symbol is decoded: where it goes on a value. *)
Lemma decode_cases s0 s c n size :
  core s -> in_dyn s -> bits_left s <= bits_left s0 -> pending s = None -> code_shape n c -> size <= n ->
  exists v r, decode_symbol c size (rd s) = Some (v, r) /\
    match v with
    | Got a => calm (set_rd s r) /\ bits_left (set_rd s r) <= bits_left s0
    | _ => dyn_post s0 (after_read s v r) (Some (stop_code (after_read s v r)))
    end.
Proof.
  intros Hc Hd Hb0 Hp Hn Hsz. destruct (core_decode s c n size Hc Hp Hn Hsz) as (v & r & -> & Hr). eexists _, _. split; [done|].
  destruct v as [a| |m] eqn:Ev.
  - destruct Hr as (Hb & _ & Hcalm & _). cbn [after_read] in *. split; [done|lia].
  - split; [destruct Hr; lia|]. by eapply dyn_stop.
  - split; [destruct Hr; lia|]. by eapply dyn_stop.
Qed.

Lemma lengths_nonneg d i : lengths_ok d -> 0 <= i < LENGTHS_SIZE -> 0 <= (lengths d).[i].
Proof. intros [Hl HF] Hi. apply (Forall_get (fun x => 0 <= x)); [done|lia]. Qed.

(** The repeat symbols, at a place with a length before it unless it is the first. *)
Lemma repeat_of_spec s sym :
  lengths_ok (dyn s) -> 0 <= dyn_num (dyn s) <= LENGTHS_SIZE ->
  exists rep, repeat_of s sym = Some rep /\
    match rep with Some (fill, bits, base) => 0 <= fill /\ 2 <= bits <= 7 /\ 3 <= base <= 11 | None => True end.
Proof.
  intros Hl Hn. unfold repeat_of. destruct (sym =? 16); [destruct (Z.eqb_spec (dyn_num (dyn s)) 0); [by eexists|]|].
  - rewrite at_index_some by (destruct Hl; lia). cbn [mbind option_bind]. eexists. split; [done|].
    pose proof (lengths_nonneg (dyn s) (dyn_num (dyn s) - 1) Hl ltac:(lia)). split; [done|lia].
  - destruct (sym =? 17), (sym =? 18); (eexists; split; [done|]); (split; [done|lia]) || done.
Qed.

Lemma read_lengths_spec n s0 s :
  core s -> in_dyn s -> dynamic_stage (ctl s) = DYN_READ_LENGTHS -> Z.of_nat n = hlimit (dyn s) - dyn_num (dyn s) ->
  bits_left s <= bits_left s0 -> (dyn_mu s <= dyn_mu s0)%nat ->
  exists s' r, read_lengths n s = Some (s', r) /\ dyn_post s0 s' r.
Proof.
  revert s. induction n as [|n IH]; intros s Hc Hd Hst Hn Hb Hmu; cbn [read_lengths];
    pose proof (core_dyn s Hc Hd) as Hok; rewrite Hst in Hok; destruct Hok as (Hsz & Hlim & Hnum);
    (assert (Hp : pending s = None) by (unfold pending; unfold in_dyn in Hd; by rewrite Hd, Hst));
    unfold dyn_mu in Hmu at 1; rewrite Hst in Hmu.
  - eexists _, _. split; [done|]. split; [exact Hb|]. split; [apply calm_dynamic_stage; [by apply calm_of_core|done]|].
    split; [done|]. unfold dyn_mu at 1. isimpl. lia.
  - destruct (decode_cases s0 s (tree s) _ CODELEN_TRANS Hc Hd Hb Hp (core_tree s Hc) ltac:(done)) as (v & r & -> & Hv).
    cbn [mbind option_bind]. destruct v as [sym| |m]; [|by eexists _, _..]. cbn [after_read]. destruct Hv as [Hcalm Hbits].
    set (s1 := set_rd s r) in *. change (dyn s1) with (dyn s). destruct Hsz as (Hs1 & Hs2 & Hs3).
    pose proof (core_lengths s1 (proj1 Hcalm)) as Hlen. change (dyn s1) with (dyn s) in Hlen.
    destruct (sym <? 16).
    + rewrite put_index_some by (destruct Hlen as [-> _]; unfold LENGTHS_SIZE; lia).
      cbn [mbind option_bind]. destruct Hlen as [Hl HF]. apply IH.
      * apply calm_dyn_only; [done| |].
        -- split; isimpl; [by rewrite len_set|]. apply Forall_set; [done|]. destruct (wrap_fits 8 sym ltac:(lia)); done.
        -- change (ctl s1) with (ctl s). rewrite Hst. split; [done|]. isimpl. lia.
      * done.
      * done.
      * isimpl. lia.
      * exact Hbits.
      * unfold dyn_mu at 1. isimpl. change (ctl s1) with (ctl s). rewrite Hst. lia.
    + destruct (repeat_of_spec s1 sym Hlen) as (rep & -> & Hrep); [change (dyn s1) with (dyn s); unfold LENGTHS_SIZE; lia|]. cbn [mbind option_bind].
      destruct rep as [[[fill bits] base]|]; [|by eexists _, _; split; [done|]; apply dyn_error].
      eexists _, _. split; [done|]. apply dyn_next; [done|done|done|done| |].
      * split; [done|]. unfold repeat_ok. isimpl. done.
      * unfold dyn_mu at 1. isimpl. change (dyn s1) with (dyn s). lia.
Qed.

Lemma repeat_lengths_spec s0 s n :
  calm s -> in_dyn s -> reading_ok (dyn s) -> repeat_ok (dyn s) -> bits_left s <= bits_left s0 -> 3 <= n < 256 ->
  (2 * Z.to_nat (hlimit (dyn s) - dyn_num (dyn s)) + 1 <= dyn_mu s0)%nat ->
  exists s' r, repeat_lengths s n = Some (s', r) /\ dyn_post s0 s' r.
Proof.
  intros Hcalm Hd ((Hs1 & Hs2 & Hs3) & Hlim & Hnum) (Hfill & _) Hb Hn Hmu. unfold repeat_lengths. isimpl.
  destruct (core_lengths s (proj1 Hcalm)) as [Hl HF].
  rewrite wrap_id by (unfold fits; change (2 ^ 32) with 4294967296; lia).
  destruct (Z.ltb_spec (hlimit (dyn s)) (dyn_num (dyn s) + n)); [by eexists _, _; split; [done|]; apply dyn_error|].
  destruct (fill_lengths_spec (Z.to_nat n) (lengths (dyn s)) (dyn_num (dyn s)) (dyn_fill_value (dyn s))) as (l & -> & Hl' & HF');
    [lia|done|unfold LENGTHS_SIZE in Hl; lia|done|].
  cbn [mbind option_bind]. eexists _, _. split; [done|]. apply dyn_next; [done|done|done|by split; isimpl; [congruence|]| |].
  - split; [done|]. isimpl. lia.
  - unfold dyn_mu at 1. isimpl. lia.
Qed.

Lemma build_dynamic_spec s0 s :
  calm s -> in_dyn s -> sizes_ok (dyn s) -> bits_left s <= bits_left s0 ->
  exists s' r, build_dynamic s = Some (s', r) /\ dyn_post s0 s' r.
Proof.
  intros Hcalm Hd (Hs1 & Hs2 & _) Hb. unfold build_dynamic. pose proof (proj1 Hcalm) as Hc.
  destruct (core_lengths s Hc) as [Hl HF]. unfold LENGTHS_SIZE in Hl. rewrite at_index_some by lia. cbn [mbind option_bind].
  destruct (_ =? 0); [by eexists _, _; split; [done|]; apply dyn_error|].
  destruct (build_tree_spec LITERAL_TRANS (ltree s) LITERAL_TRANS (lengths (dyn s)) (hlit (dyn s))) as (lc & err & -> & Hlc);
    [apply core_ltree, Hc|done|done|lia|lia|done|].
  cbn [mbind option_bind]. destruct err as [m|]; [by eexists _, _; split; [done|]; apply dyn_error|]. isimpl.
  destruct (build_tree_spec DISTANCE_TRANS (tree s) DISTANCE_TRANS (drop (Z.to_nat (hlit (dyn s))) (lengths (dyn s))) (hdist (dyn s)))
    as (dc & err & -> & Hdc); [apply core_tree, Hc|done|done|rewrite length_drop; lia|lia|by apply Forall_drop|].
  cbn [mbind option_bind]. destruct err as [m|]; [by eexists _, _; split; [done|]; apply dyn_error|].
  eexists _, _. split; [done|]. split; [exact Hb|]. right. right. split; [done|]. split; [|done].
  apply calm_reset, calm_dynamic_stage; [by apply calm_trees; [apply calm_trees; [done|done|apply core_tree, Hc]| |]|done].
Qed.

Ltac dyn_field_step Hc Hd Hpend :=
  match goal with |- context [dyn_field ?n ?b ?k ?s] =>
    let Hf := fresh "Hf" in
    pose proof (dyn_field_cases s s n b k Hc Hd ltac:(lia) Hpend ltac:(split; lia)) as Hf;
    destruct (dyn_field n b k s) as [s' r]; eexists _, _; split; [done|]; apply Hf; clear Hf;
    intros r' a Hcalm Hb Ha
  end.

(** Each turn gives a step of the loop. *)
Lemma dyn_turn_spec s : core s -> in_dyn s -> exists s' r, dyn_turn s = Some (s', r) /\ dyn_post s s' r.
Proof.
  intros Hc Hd. pose proof (core_dyn s Hc Hd) as Hok. pose proof (core_lengths s Hc) as Hlen. unfold dyn_turn.
  assert (Hpend : pending s = match dynamic_stage (ctl s) with
    | DYN_HLIT => Some (5, 257) | DYN_HDIST => Some (5, 1) | DYN_HCLEN => Some (4, 4)
    | DYN_READ_CLEN => if dyn_i (dyn s) <? hclen (dyn s) then Some (3, 0) else None
    | DYN_REPEAT_BITS => Some (dyn_repeat_bits (dyn s), dyn_repeat_base (dyn s))
    | _ => None end) by (unfold pending; unfold in_dyn in Hd; by rewrite Hd).
  destruct (dynamic_stage (ctl s)) eqn:Hst; cbn [dyn_ok] in Hok.
  - dyn_field_step Hc Hd Hpend. apply dyn_next; try done; [cbn in *; lia|].
    unfold dyn_mu. rewrite Hst. isimpl. lia.
  - dyn_field_step Hc Hd Hpend. apply dyn_next; try done; [cbn in *; lia|].
    unfold dyn_mu. rewrite Hst. isimpl. lia.
  - dyn_field_step Hc Hd Hpend. isimpl. destruct (_ || _) eqn:E; [by apply dyn_error|].
    rewrite !orb_false_iff, !Z.ltb_ge in E. apply (dyn_next s (set_rd s r')); try done; [|unfold dyn_mu; rewrite Hst; isimpl; lia].
    unfold dyn_ok, sizes_ok. cbn in *. lia.
  - destruct Hok as [Hsz Hi]. rewrite Hi. destruct Hlen as [Hl HF].
    destruct (clear_lengths_spec (Z.to_nat (19 - 0)) (lengths (dyn s)) 0) as (l & -> & Hl' & HF'); [lia|rewrite Hl; unfold LENGTHS_SIZE; lia|done|].
    cbn [mbind option_bind]. eexists _, _. split; [done|]. apply dyn_next; [by apply calm_of_core|done|lia|split; isimpl; [congruence|done]| |].
    + split; [done|]. isimpl. destruct Hsz. lia.
    + unfold dyn_mu. rewrite Hst. isimpl. lia.
  - destruct Hok as [Hsz Hi]. apply read_clens_spec; try done; [lia|]. unfold dyn_mu. by rewrite Hst.
  - destruct Hlen as [Hl HF].
    destruct (build_tree_spec DISTANCE_TRANS (tree s) CODELEN_TRANS (lengths (dyn s)) 19) as (c & err & -> & Hcc);
      [apply core_tree, Hc|done|done|rewrite Hl; unfold LENGTHS_SIZE; lia|lia|done|].
    cbn [mbind option_bind]. destruct err as [m|]; [by eexists _, _; split; [done|]; apply dyn_error|]. isimpl.
    eexists _, _. split; [done|]. split; [done|]. split; [|split; [done|]].
    + apply calm_reset, calm_dyn; [apply calm_trees; [by apply calm_of_core|apply core_ltree, Hc|done]|done|].
      destruct Hok as (Hs1 & Hs2 & Hs3). rewrite wrap_id by (unfold fits; change (2 ^ 32) with 4294967296; lia).
      split; [done|]. isimpl. lia.
    + destruct Hok as (Hs1 & Hs2 & Hs3). unfold dyn_mu. rewrite Hst. isimpl.
      rewrite wrap_id by (unfold fits; change (2 ^ 32) with 4294967296; lia). lia.
  - destruct Hok as (Hsz & Hlim & Hnum). apply read_lengths_spec; try done; lia.
  - destruct Hok as [Hread Hrep]. destruct Hrep as (Hr1 & Hr2 & Hr3).
    pose proof (read_cases s s _ _ Hc Hd ltac:(lia) Hpend ltac:(split; lia)) as Hr.
    destruct (read_bits _ _ (rd s)) as [[a| |m] r]; [|by eexists _, _..]. cbn [after_read]. destruct Hr as (Ha & Hcalm & Hb).
    apply repeat_lengths_spec; try done.
    + assert (2 ^ dyn_repeat_bits (dyn s) <= 2 ^ 7) by (apply Z.pow_le_mono_r; lia). change (2 ^ 7) with 128 in *. lia.
    + unfold dyn_mu. rewrite Hst. done.
  - apply build_dynamic_spec; try done. by apply calm_of_core.
Qed.

Lemma dyn_mu_bound s : core s -> in_dyn s -> (dyn_mu s < dyn_fuel)%nat.
Proof.
  intros Hc Hd. pose proof (core_dyn s Hc Hd) as Hok. unfold dyn_fuel, LENGTHS_SIZE.
  unfold dyn_mu. destruct (dynamic_stage (ctl s)); cbn [dyn_ok] in Hok; try lia.
  - destruct Hok as ((H1 & H2 & H3) & H4 & H5). lia.
  - destruct Hok as [((H1 & H2 & H3) & H4 & H5) _]. lia.
Qed.

Lemma process_dynamic_total s :
  core s -> in_dyn s ->
  exists s' rc, process_dynamic_trees s = Some (s', rc) /\ bits_left s' <= bits_left s /\ dyn_done s' rc.
Proof.
  intros Hc Hd. unfold process_dynamic_trees.
  destruct (turns_total dyn_turn (fun x => core x /\ in_dyn x /\ bits_left x <= bits_left s)
    (fun x rc => bits_left x <= bits_left s /\ dyn_done x rc) dyn_mu) with (fuel := dyn_fuel) (s := s) as (s' & rc & Ht & Hq).
  - intros x (Hcx & Hdx & Hbx). destruct (dyn_turn_spec x Hcx Hdx) as (s' & r & Ht & Hb & Hr). exists s', r. split; [done|].
    destruct r as [rc|]; [by split; [lia|]|]. destruct Hr as (H1 & H2 & H3). split; [|done]. split; [done|]. split; [done|lia].
  - done.
  - by apply dyn_mu_bound.
  - by exists s', rc.
Qed.

End Safety.

(** ** Output *)

Section Output.
Context `{ZlibConfig, Image}.

Lemma image_range : 0 <= image_size < 4294967296.
Proof. exact image_fits. Qed.

Lemma history_start :
  hist_ok [] {| window := replicate (Z.to_nat OPENDISPLAY_ZLIB_WINDOW_SIZE) 0; window_pos := 0;
                expected_output := image_size; output_count := 0; adler := 1 |}.
Proof.
  pose proof image_range. pose proof window_size. constructor; isimpl; try done.
  - rewrite length_replicate. lia.
  - cbn. lia.
  - constructor.
  - intros i Hi. cbn in Hi. lia.
Qed.

Lemma reset_core : core [] (od_zlib_stream_reset image_size).
Proof.
  constructor; try done.
  - constructor.
  - split; [done|]. by apply Forall_replicate.
  - apply history_start.
Qed.

(** A byte recorded is the next of the output. *)
Lemma record_byte_spec out h byte :
  hist_ok out h -> is_byte byte -> len out < image_size ->
  exists h', record_byte h byte = Some h' /\ hist_ok (out ++ [byte]) h'.
Proof.
  intros Hh Hb Hlt. pose proof window_size as HW. pose proof image_range as HI. destruct Hh as [Hw Hp Hc He Hr Ha Hby Hlast]. unfold record_byte.
  pose proof (window_mod (len out)).
  rewrite put_index_some by lia. cbn [mbind option_bind]. eexists. split; [done|].
  assert (Hlen : len (out ++ [byte]) = len out + 1) by (rewrite length_app; cbn; lia).
  constructor; isimpl; rewrite ?Hlen.
  - by rewrite len_set.
  - rewrite Hp, window_mask, wrap_id by (unfold fits; change (2 ^ 32) with 4294967296; lia). by rewrite Z.add_mod_idemp_l by lia.
  - rewrite Hc. apply wrap_id. unfold fits. change (2 ^ 32) with 4294967296. lia.
  - done.
  - lia.
  - rewrite Ha. by apply adler_update_spec.
  - apply Forall_app. split; [done|by constructor].
  - intros i Hi Hin. destruct (Z.eq_dec i (len out)) as [->|Hne].
    + rewrite Hp, get_set_eq by lia. symmetry. apply get_snoc.
    + pose proof (window_mod i).
      rewrite Hp, get_set_ne; [|lia|lia|].
      * rewrite get_app_l by lia. apply Hlast; lia.
      * intros Hm. apply Hne. symmetry. apply (mod_apart OPENDISPLAY_ZLIB_WINDOW_SIZE); [lia|done|lia].
Qed.

(** Room left in the buffer. *)
Definition room (o : sink) : Prop := produced o < capacity o.

(** The sink, [new] bytes later and within its buffer. *)
Definition extended (o o' : sink) (new : bytes) : Prop :=
  capacity o' = capacity o /\ written o' = written o ++ new /\ produced o' <= Z.max (capacity o) (produced o).

Lemma extended_refl o : extended o o [].
Proof. split; [done|]. rewrite app_nil_r. split; [done|lia]. Qed.

Lemma extended_trans o1 o2 o3 a b : extended o1 o2 a -> extended o2 o3 b -> extended o1 o3 (a ++ b).
Proof. intros (H1 & H2 & H3) (H4 & H5 & H6). split; [congruence|]. split; [by rewrite H5, H2, app_assoc|lia]. Qed.

Lemma match_ok_more out b st m : match_ok out st m -> match_ok (out ++ [b]) st m.
Proof. intros [H1 H2]. split; [done|]. destruct st; try done. rewrite length_app. cbn. lia. Qed.

Lemma core_more out s h b :
  core out s -> stage (ctl s) <> ST_DONE -> hist_ok (out ++ [b]) h -> core (out ++ [b]) (set_hist s h).
Proof.
  intros Hc Hs Hh. destruct Hc. constructor; isimpl; try done; auto.
  by apply match_ok_more.
Qed.

Lemma calm_more out s h b :
  calm out s -> stage (ctl s) <> ST_DONE -> hist_ok (out ++ [b]) h -> calm (out ++ [b]) (set_hist s h).
Proof. intros [Hc Ha] Hs Hh. split; [by apply core_more|exact Ha]. Qed.

(** The three outcomes of a byte put out. *)
Inductive put_post (out : bytes) (byte : Z) (o : sink) (s : inflate) : bool * sink * inflate -> Prop :=
| Put_recorded o' h :
    room o -> extended o o' [byte] -> calm (out ++ [byte]) (set_hist s h) -> put_post out byte o s (true, o', set_hist s h)
| Put_full : ~ room o -> put_post out byte o s (false, o, s)
| Put_excess m : put_post out byte o s (false, o, set_error s m).

Lemma put_output_spec out byte o s :
  calm out s -> is_byte byte -> stage (ctl s) <> ST_DONE ->
  exists r, put_output_byte byte o s = Some r /\ put_post out byte o s r.
Proof.
  intros Hc Hb Hs. unfold put_output_byte. destruct (Z.leb_spec (capacity o) (produced o)) as [Hle|Hlt].
  { eexists. split; [done|]. constructor. unfold room. lia. }
  pose proof (core_hist out s (proj1 Hc)) as Hh. rewrite (hist_count out _ Hh), (hist_expected out _ Hh).
  destruct (Z.leb_spec image_size (len out)); [by eexists; split; [done|]; constructor|].
  destruct (record_byte_spec out (hist s) byte Hh Hb ltac:(lia)) as (h & -> & Hh'). cbn [mbind option_bind].
  eexists. split; [done|]. constructor; [done| |by apply calm_more].
  split; [done|]. split; [done|]. unfold produced in *. cbn [written]. rewrite length_app. cbn. lia.
Qed.
End Output.

End InflateSafe.
