(* ===== verification/InflateRun.v ===== *)
(** The inflater's operations: every poll ends, in bounds, and what it has
    written is what its counters, window and checksum say. *)

From stdpp Require Import strings.
From S2P Require Import Prelude Span Pump Inflate InflateRead InflateSafe.
Import Span Pump Inflate InflateRead InflateSafe.

Module InflateRun.

Section Run.
Context `{ZlibConfig, Image}.

(** ** Stored blocks and the trailer *)

Lemma pending_none out s :
  core out s -> (stage (ctl s) <> ST_BLOCK_TYPE) -> (stage (ctl s) <> ST_DYNAMIC_TREES) -> (stage (ctl s) <> ST_BLOCK_DATA) ->
  calm out s.
Proof. intros Hc H1 H2 H3. apply calm_of_core; [done|]. unfold pending. by destruct (stage (ctl s)). Qed.

(** How a loop over bytes can end: in error, out of input, or through. *)
Definition byte_loop_post (out : bytes) (s s' : inflate) (rc : Z) : Prop :=
  bits_left s' <= bits_left s /\
  ((rc = -1 /\ stage (ctl s') = ST_ERROR) \/
   (calm out s' /\ ctl s' = ctl s /\ (rc = 0 /\ stuck s' \/ rc = 1))).

Lemma next_byte_cases out s :
  calm out s ->
  let '(v, s') := next_byte s in
  match v with
  | Got b => is_byte b /\ calm out s' /\ bits_left s' <= bits_left s /\ exists x, s' = set_rd s (on_source (rd s) x)
  | _ => byte_loop_post out s s' (rc_of v)
  end.
Proof.
  intros Hc. destruct Hc as [Hc Ha]. assert (Hn : exists p, pending s = p) by by eexists.
  unfold next_byte, read_byte. destruct (input (src (rd s))) as [|b rest] eqn:Ei.
  - destruct (input_final (src (rd s))) eqn:Ef; cbn [after_read].
    + split; [done|]. by left.
    + assert (He : set_rd s (on_source (rd s) (src (rd s))) = s) by by destruct s as [? [] ? ? ? ? ? ? ?].
      rewrite He. split; [lia|]. right. split; [by split|]. split; [done|]. left. split; [done|]. by split.
  - cbn [after_read]. pose proof (core_input out s Hc) as Hi. rewrite Ei in Hi. inversion Hi as [|? ? Hb Hrest]; subst.
    split; [done|]. split; [|split; [|by eexists]].
    + apply calm_rd; [by split|done|exact (core_source out s Hc)|exact Hrest|exact (core_sym out s Hc)].
    + unfold bits_left. isimpl. cbn [with_input input bit_count]. rewrite Ei. cbn [length]. lia.
Qed.

Lemma header_byte_index t b : 0 <= stored_header_index t < 4 -> stored_header_index (stored_header_byte t b) = stored_header_index t + 1.
Proof.
  intros Hi. assert (Hu : u8 (stored_header_index t + 1) = stored_header_index t + 1) by (apply wrap_id; unfold fits; lia).
  unfold stored_header_byte. repeat destruct (_ =? _); cbn [with_stored stored_header_index]; exact Hu.
Qed.

Lemma header_byte_len t b :
  fits 16 (stored_len t) -> is_byte b -> fits 16 (stored_len (stored_header_byte t b)).
Proof.
  intros Hl Hb. unfold stored_header_byte. repeat destruct (_ =? _); cbn [with_stored stored_len]; try done.
  - unfold is_byte, fits in *. change (2 ^ 16) with 65536. lia.
  - apply fits_lor; [lia|done|by apply wrap_fits].
Qed.

Lemma stored_header_total out n s :
  calm out s -> Z.of_nat n = 4 - stored_header_index (sto s) ->
  let '(s', rc) := stored_header_loop n s in byte_loop_post out s s' rc.
Proof.
  revert s. induction n as [|n IH]; intros s Hc Hn; cbn [stored_header_loop].
  - destruct (negb _); [by split; [|by left]|]. split; [done|]. right. split; [apply calm_sto; [done|split; [cbn; lia|apply (core_sto out s (proj1 Hc))]]|]. split; [done|by right].
  - pose proof (next_byte_cases out s Hc) as Hb. destruct (next_byte s) as [[b| |m] s1]; [|exact Hb..].
    destruct Hb as (Hb & Hc1 & Hle & x & ->). pose proof (core_sto out s (proj1 Hc)) as [Hi Hl].
    pose proof (header_byte_index (sto s) b ltac:(lia)) as Hidx.
    specialize (IH (set_sto (set_rd s (on_source (rd s) x)) (stored_header_byte (sto s) b))).
    cbn [sto set_rd]. destruct (stored_header_loop n _) as [s' rc]. destruct IH as [Hb' Hpost].
    + apply calm_sto; [done|]. split; [lia|by apply header_byte_len].
    + isimpl. lia.
    + split; [|exact Hpost]. etrans; [exact Hb'|exact Hle].
Qed.

(** How a loop that puts bytes out can end. *)
Definition out_post (out : bytes) (o o' : sink) (s s' : inflate) (rc : Z) : Prop :=
  bits_left s' <= bits_left s /\
  exists new, extended o o' new /\
    ((rc = -1 /\ stage (ctl s') = ST_ERROR) \/
     (calm (out ++ new) s' /\ ctl s' = ctl s /\ (rc = 0 /\ stuck s' \/ rc = 1 \/ rc = 2 /\ ~ room o'))).

Lemma out_post_nothing out o s s' rc : byte_loop_post out s s' rc -> out_post out o o s s' rc.
Proof.
  intros [Hb Hp]. split; [done|]. exists []. split; [apply extended_refl|]. rewrite app_nil_r. tauto.
Qed.

Lemma out_post_trans out b o o1 o2 s s1 s2 rc :
  bits_left s1 <= bits_left s -> ctl s1 = ctl s -> extended o o1 [b] -> out_post (out ++ [b]) o1 o2 s1 s2 rc ->
  out_post out o o2 s s2 rc.
Proof.
  intros Hb Hctl He (Hb2 & new & He2 & Hp). split; [lia|]. exists (b :: new).
  split; [exact (extended_trans _ _ _ _ _ He He2)|]. rewrite <- app_assoc in Hp. rewrite <- Hctl. exact Hp.
Qed.

Lemma stored_data_total out n o s :
  calm out s -> stage (ctl s) = ST_STORED_DATA ->
  exists o' s' rc, stored_data_loop n o s = Some (o', s', rc) /\ out_post out o o' s s' rc.
Proof.
  revert out o s. induction n as [|n IH]; intros out o s Hc Hst; cbn [stored_data_loop].
  - eexists _, _, _. split; [done|]. apply out_post_nothing. split; [done|]. right. split; [done|]. split; [done|by right].
  - destruct (Z.leb_spec (capacity o) (produced o)) as [Hf|Hr].
    { eexists _, _, _. split; [done|]. split; [done|]. exists []. split; [apply extended_refl|]. right. rewrite app_nil_r.
      split; [done|]. split; [done|]. right. right. split; [done|]. unfold room. lia. }
    pose proof (next_byte_cases out s Hc) as Hb. destruct (next_byte s) as [[b| |m] s1];
      [|by eexists _, _, _; split; [done|]; apply out_post_nothing..].
    destruct Hb as (Hb & Hc1 & Hle & x & ->).
    destruct (put_output_spec out b o _ Hc1 Hb ltac:(isimpl; congruence)) as (r & -> & Hput). cbn [mbind option_bind].
    destruct Hput as [o' h Hroom He Hcalm| |m]; cbn [negb].
    + set (s2 := set_hist (set_rd s (on_source (rd s) x)) h) in *.
      destruct (IH (out ++ [b]) o' (set_sto s2 (with_stored (sto s2) (stored_header_index (sto s2)) (u16 (stored_len (sto s2) - 1))
        (stored_invlen (sto s2))))) as (o2 & s3 & rc & -> & Hp).
      * apply calm_sto; [done|]. split; [apply (core_sto _ _ (proj1 Hcalm))|by apply wrap_fits].
      * exact Hst.
      * eexists _, _, _. split; [done|]. eapply out_post_trans; [exact Hle|..|exact Hp]; done.
    + unfold room in *. lia.
    + eexists _, _, _. split; [done|]. cbn [bool_decide]. split; [exact Hle|]. exists []. split; [apply extended_refl|]. by left.
Qed.

Lemma trailer_total out n s :
  calm out s -> stage (ctl s) = ST_TRAILER -> Z.of_nat n = 4 - trailer_index (trl s) ->
  let '(s', rc) := trailer_loop n s in
  bits_left s' <= bits_left s /\
  ((rc = -1 /\ stage (ctl s') = ST_ERROR) \/ (rc = 0 /\ calm out s' /\ ctl s' = ctl s /\ stuck s') \/
   (rc = 1 /\ calm out s' /\ stage (ctl s') = ST_DONE)).
Proof.
  revert s. induction n as [|n IH]; intros s Hc Hst Hn; cbn [trailer_loop].
  - unfold trailer_check. destruct (Z.eqb_spec (trailer_value (trl s)) (adler (hist s))) as [Ha|]; cbn [negb]; [|by split; [|by left]].
    destruct (Z.eqb_spec (output_count (hist s)) (expected_output (hist s))) as [He|]; cbn [negb]; [|by split; [|by left]].
    destruct (negb _); [by split; [|by left]|]. split; [done|]. right. right. split; [done|]. split; [|done].
    destruct Hc as [Hcore Hact]. pose proof (core_hist _ _ Hcore) as Hh. destruct Hcore. split; [|exact Hact].
    constructor; isimpl; try done.
    + intros Hon. isimpl. congruence.
    + intros _. rewrite Ha. split; [apply Hh|]. rewrite <- (hist_count out _ Hh), He. apply Hh.
  - pose proof (next_byte_cases out s Hc) as Hb. destruct (next_byte s) as [[b| |m] s1].
    + destruct Hb as (Hb & Hc1 & Hle & x & ->). pose proof (core_trl out s (proj1 Hc)) as Hi.
      assert (Hu : u8 (trailer_index (trl s) + 1) = trailer_index (trl s) + 1) by (apply wrap_id; unfold fits; lia).
      specialize (IH (set_trl (set_rd s (on_source (rd s) x)) (trailer_byte (trl s) b))).
      cbn [trl set_rd]. destruct (trailer_loop n _) as [s' rc]. destruct IH as [Hb' Hpost].
      * apply calm_trl; [done|isimpl; congruence|]. cbn [trailer_byte trailer_index]. lia.
      * exact Hst.
      * isimpl. cbn [trailer_byte trailer_index]. lia.
      * split; [|exact Hpost]. etrans; [exact Hb'|exact Hle].
    + destruct Hb as [Hb [[? ?]|(Hc1 & Hctl & [[_ Hs]|?])]]; [done| |done]. split; [done|]. right. left. done.
    + destruct Hb as [Hb [[? ?]|(Hc1 & Hctl & [[? Hs]|?])]]; [|done..]. split; [done|]. by left.
Qed.

(** ** Compressed blocks *)

Definition in_block (s : inflate) : Prop := stage (ctl s) = ST_BLOCK_DATA.

Definition block_rank (b : block_stage_t) : nat :=
  match b with
  | BLK_SYMBOL => 0 | BLK_MATCH_COPY => 1 | BLK_DIST_EXTRA => 2 | BLK_DIST_SYMBOL => 3 | BLK_LEN_EXTRA => 4
  end.

Definition block_mu (s : inflate) : nat := 5 * Z.to_nat (bits_left s) + block_rank (block_stage (ctl s)).

(** Where the block is left: error, out of input, buffer full, or after a symbol. *)
Definition block_done (out : bytes) (o : sink) (s0 s : inflate) (rc : Z) : Prop :=
  (rc = -1 /\ stage (ctl s) = ST_ERROR) \/
  (core out s /\ in_block s /\
    (rc = 0 /\ stuck s \/ rc = 2 /\ ~ room o \/ ((rc = 1 \/ rc = 3) /\ calm out s /\ bits_left s < bits_left s0))).

Definition block_post (out : bytes) (o o' : sink) (s s' : inflate) (r : option Z) : Prop :=
  bits_left s' <= bits_left s /\
  exists new, extended o o' new /\
    match r with
    | None => core (out ++ new) s' /\ in_block s' /\ (block_mu s' < block_mu s)%nat
    | Some rc => block_done (out ++ new) o' s s' rc
    end.

Definition block_ok (out : bytes) (o : sink) (s : inflate) (r : block_out) : Prop :=
  exists o' s' rc, r = Some ((o', s'), rc) /\ block_post out o o' s s' rc.

Lemma block_leave out o s s' rc :
  bits_left s' <= bits_left s -> block_done out o s s' rc -> block_ok out o s (leave o s' rc).
Proof.
  intros Hb Hd. eexists _, _, _. split; [done|]. split; [done|]. exists []. rewrite app_nil_r. split; [apply extended_refl|done].
Qed.

Lemma block_error out o s s' m :
  bits_left s' <= bits_left s -> block_ok out o s (leave o (set_error s' m) (-1)).
Proof. intros Hb. apply block_leave; [exact Hb|]. by left. Qed.

Lemma block_again out o s s' :
  bits_left s' <= bits_left s -> core out s' -> in_block s' -> (block_mu s' < block_mu s)%nat -> block_ok out o s (again o s').
Proof.
  intros Hb Hc Hi Hm. eexists _, _, _. split; [done|]. split; [done|]. exists []. rewrite app_nil_r. split; [apply extended_refl|done].
Qed.

(** A read that stops the block. *)
Lemma block_stop {A} out o s (v : res A) r n P :
  in_block s -> read_post out s v r n P -> (match v with Got _ => False | _ => True end) ->
  block_ok out o s (leave o (after_read s v r) (rc_of v)) /\
  block_ok out o s (leave o (after_read s v r) (stop_code (after_read s v r))).
Proof.
  intros Hd [Hb Hp] Hv. assert (Hk : block_ok out o s (leave o (after_read s v r) (rc_of v))).
  { destruct v as [a| |m]; [done|destruct Hp as [Hc Hs]|]; (apply block_leave; [done|]); [|by left].
    right. split; [done|]. split; [exact Hd|]. by left. }
  split; [exact Hk|]. assert (stop_code (after_read s v r) = rc_of v) as ->; [|exact Hk].
  destruct v; [done| |done]. cbn [after_read]. unfold stop_code, in_block in *. isimpl. by rewrite bool_decide_eq_false_2 by congruence.
Qed.

Lemma bits_left_nonneg out s : core out s -> 0 <= bits_left s.
Proof. intros Hc. pose proof (core_source out s Hc) as Hs. unfold source_ok, bits_left in *. lia. Qed.

Lemma block_mu_lt s s' :
  0 <= bits_left s' -> bits_left s' <= bits_left s ->
  bits_left s' < bits_left s \/ (block_rank (block_stage (ctl s')) < block_rank (block_stage (ctl s)))%nat ->
  (block_mu s' < block_mu s)%nat.
Proof.
  intros Hp0 Hp1 Hp2. unfold block_mu. destruct Hp2; [|lia].
  assert (block_rank (block_stage (ctl s')) <= 4)%nat by (destruct (block_stage (ctl s')); cbn; lia). lia.
Qed.

Lemma block_symbol_ok out o s :
  core out s -> in_block s -> block_stage (ctl s) = BLK_SYMBOL -> room o -> block_ok out o s (block_symbol o s).
Proof.
  intros Hc Hd Hb Hroom. unfold block_symbol.
  assert (Hp : pending s = None) by (unfold pending; unfold in_block in Hd; by rewrite Hd, Hb).
  destruct (core_decode out s _ _ LITERAL_TRANS Hc Hp (core_ltree out s Hc) ltac:(done)) as (v & r & -> & Hr). cbn [mbind option_bind].
  destruct v as [sym| |m]; [|apply (block_stop out o s _ r _ _ Hd Hr I)..]. destruct Hr as (Hle & _ & Hcalm & Hlt). cbn [after_read] in *.
  set (s1 := set_rd s r) in *. pose proof (bits_left_nonneg out s1 (proj1 Hcalm)).
  destruct (sym <? 256).
  { destruct (put_output_spec out (u8 sym) o s1 Hcalm (wrap_fits 8 sym ltac:(lia))) as (x & -> & Hx); [change (stage (ctl s) <> ST_DONE); unfold in_block in Hd; congruence|].
    cbn [mbind option_bind]. destruct Hx as [o' h _ He Hcm|Hf|m]; cbn [negb]; [|done|by apply block_error].
    eexists _, _, _. split; [done|]. split; [exact Hle|]. exists [u8 sym]. split; [done|]. right. split; [apply Hcm|]. split; [exact Hd|].
    right. right. split; [by left|]. split; [done|]. change (bits_left s1 < bits_left s). lia. }
  destruct (sym =? 256).
  { apply block_leave; [exact Hle|]. right. split; [apply calm_block_symbol, Hcalm|]. split; [exact Hd|]. right. right. split; [by right|].
    split; [by apply calm_block_symbol|]. change (bits_left s1 < bits_left s). lia. }
  destruct (_ || _) eqn:E; [by apply block_error|]. rewrite orb_false_iff, Z.ltb_ge, Z.leb_gt in E.
  apply block_again; [exact Hle| |exact Hd|].
  - apply calm_block; [done|]. pose proof (core_mat out s Hc) as [Hm _]. by split.
  - apply block_mu_lt; [done|exact Hle|]. left. change (bits_left s1 < bits_left s). lia.
Qed.

Lemma length_fields i : 0 <= i < 30 -> field_ok length_bits.[i] length_base.[i].
Proof.
  intros Hi. split.
  - apply (Forall_get (fun x => 0 <= x <= 13)); [repeat constructor; lia|cbn; lia].
  - apply (Forall_get (fun x => 0 <= x <= 65536)); [repeat constructor; lia|cbn; lia].
Qed.

Lemma dist_fields i : 0 <= i < 30 -> field_ok dist_bits.[i] dist_base.[i].
Proof.
  intros Hi. split.
  - apply (Forall_get (fun x => 0 <= x <= 13)); [repeat constructor; lia|cbn; lia].
  - apply (Forall_get (fun x => 0 <= x <= 65536)); [repeat constructor; lia|cbn; lia].
Qed.

Lemma block_len_extra_ok out o s :
  core out s -> in_block s -> block_stage (ctl s) = BLK_LEN_EXTRA -> block_ok out o s (block_len_extra o s).
Proof.
  intros Hc Hd Hb. unfold block_len_extra. pose proof (core_mat out s Hc) as [Hm Hl]. rewrite Hb in Hl.
  rewrite !at_index_some by (cbn; lia). cbn [mbind option_bind].
  assert (Hp : pending s = Some (length_bits.[length_sym (mat s)], length_base.[length_sym (mat s)]))
    by (unfold pending; unfold in_block in Hd; by rewrite Hd, Hb).
  pose proof (length_fields (length_sym (mat s)) ltac:(lia)) as Hf. pose proof (core_read_bits out s _ _ Hc Hp Hf) as Hr.
  destruct (read_bits _ _ _) as [[n| |m] r];
    [|apply (block_stop out o s _ r _ _ Hd Hr I)..].
  destruct Hr as (Hle & Hn & Hcalm & _). cbn [after_read] in *. pose proof (bits_left_nonneg out _ (proj1 Hcalm)).
  apply block_again; [exact Hle| |exact Hd|].
  - apply calm_block; [done|]. split; [|done]. destruct Hf as [Hf1 Hf2]. pose proof (pow_13 _ Hf1).
    unfold fits. change (2 ^ 32) with 4294967296. isimpl. lia.
  - apply block_mu_lt; [done|exact Hle|]. right. rewrite Hb. isimpl. cbn. lia.
Qed.

Lemma block_dist_symbol_ok out o s :
  core out s -> in_block s -> block_stage (ctl s) = BLK_DIST_SYMBOL -> block_ok out o s (block_dist_symbol o s).
Proof.
  intros Hc Hd Hb. unfold block_dist_symbol. pose proof (core_mat out s Hc) as [Hm _].
  assert (Hp : pending s = None) by (unfold pending; unfold in_block in Hd; by rewrite Hd, Hb).
  destruct (core_decode out s _ _ DISTANCE_TRANS Hc Hp (core_tree out s Hc) ltac:(done)) as (v & r & -> & Hr). cbn [mbind option_bind].
  destruct v as [sym| |m]; [|apply (block_stop out o s _ r _ _ Hd Hr I)..]. destruct Hr as (Hle & _ & Hcalm & Hlt). cbn [after_read] in *.
  pose proof (bits_left_nonneg out _ (proj1 Hcalm)).
  destruct (_ || _) eqn:E; [by apply block_error|]. rewrite orb_false_iff, Z.ltb_ge, Z.leb_gt in E.
  apply block_again; [exact Hle| |exact Hd|].
  - apply (calm_block out (set_rd s r)); [done|]. by split.
  - apply block_mu_lt; [done|exact Hle|]. right. rewrite Hb. isimpl. cbn. lia.
Qed.

Lemma block_dist_extra_ok out o s :
  core out s -> in_block s -> block_stage (ctl s) = BLK_DIST_EXTRA -> block_ok out o s (block_dist_extra o s).
Proof.
  intros Hc Hd Hb. unfold block_dist_extra. pose proof (core_mat out s Hc) as [Hm Hl]. rewrite Hb in Hl.
  rewrite !at_index_some by (cbn; lia). cbn [mbind option_bind].
  assert (Hp : pending s = Some (dist_bits.[dist_sym (mat s)], dist_base.[dist_sym (mat s)]))
    by (unfold pending; unfold in_block in Hd; by rewrite Hd, Hb).
  pose proof (dist_fields (dist_sym (mat s)) ltac:(lia)) as Hf. pose proof (core_read_bits out s _ _ Hc Hp Hf) as Hr.
  destruct (read_bits _ _ _) as [[n| |m] r];
    [|apply (block_stop out o s _ r _ _ Hd Hr I)..].
  destruct Hr as (Hle & Hn & Hcalm & _). cbn [after_read] in *. pose proof (bits_left_nonneg out _ (proj1 Hcalm)).
  destruct (_ || _) eqn:E; [by apply block_error|]. rewrite !orb_false_iff, Z.eqb_neq, !Z.ltb_ge in E. isimpl.
  rewrite (hist_count out _ (core_hist out s Hc)) in E. destruct Hf as [Hf1 Hf2].
  apply block_again; [exact Hle| |exact Hd|].
  - apply (calm_block out (set_rd s r)); [done|]. split; [done|]. isimpl. lia.
  - apply block_mu_lt; [done|exact Hle|]. right. rewrite Hb. isimpl. cbn. lia.
Qed.

(** The byte a match copies is the one [match_offset] back. *)
Lemma match_source_spec out s :
  core out s -> block_stage (ctl s) = BLK_MATCH_COPY ->
  0 <= match_source s < OPENDISPLAY_ZLIB_WINDOW_SIZE /\ (window (hist s)).[match_source s] = out.[len out - match_offset (mat s)].
Proof.
  intros Hc Hb. pose proof (core_mat out s Hc) as [_ Hm]. rewrite Hb in Hm. destruct Hm as [Ho Hlen].
  pose proof (core_hist out s Hc) as Hh. pose proof window_size. unfold match_source. split; [apply window_mask_range|].
  rewrite (hist_pos out _ Hh). pose proof (window_mod (len out)).
  rewrite wrap_id by (unfold fits; change (2 ^ 32) with 4294967296; lia). rewrite window_mask.
  assert (He : (len out mod OPENDISPLAY_ZLIB_WINDOW_SIZE + OPENDISPLAY_ZLIB_WINDOW_SIZE - match_offset (mat s))
               mod OPENDISPLAY_ZLIB_WINDOW_SIZE = (len out - match_offset (mat s)) mod OPENDISPLAY_ZLIB_WINDOW_SIZE).
  { replace (_ + _ - _) with (len out mod OPENDISPLAY_ZLIB_WINDOW_SIZE - match_offset (mat s) + 1 * OPENDISPLAY_ZLIB_WINDOW_SIZE) by lia.
    rewrite Z.mod_add by lia. apply Zminus_mod_idemp_l. }
  rewrite He. apply (hist_last out _ Hh); lia.
Qed.

Lemma block_ok_trans out b o o1 s s1 r :
  bits_left s1 = bits_left s -> block_stage (ctl s1) = block_stage (ctl s) -> extended o o1 [b] ->
  block_ok (out ++ [b]) o1 s1 r -> block_ok out o s r.
Proof.
  intros Hb Hst He (o' & s' & rc & -> & Hb' & new & He' & Hp). eexists _, _, _. split; [done|]. split; [lia|]. exists (b :: new).
  split; [exact (extended_trans _ _ _ _ _ He He')|]. rewrite <- app_assoc in Hp. unfold block_done, block_mu in *. rewrite <- Hb, <- Hst.
  exact Hp.
Qed.

Lemma match_copy_ok out n o s :
  core out s -> in_block s -> block_stage (ctl s) = BLK_MATCH_COPY -> block_ok out o s (match_copy n o s).
Proof.
  revert out o s. induction n as [|n IH]; intros out o s Hc Hd Hb; cbn [match_copy];
    (assert (Hcalm : calm out s) by (apply calm_of_core; [done|]; unfold pending; unfold in_block in Hd; by rewrite Hd, Hb)).
  - apply block_again; [done|by apply calm_block_symbol|done|].
    apply block_mu_lt; [exact (bits_left_nonneg out s Hc)|done|]. right. rewrite Hb. isimpl. cbn. lia.
  - destruct (Z.leb_spec (capacity o) (produced o)) as [Hf|Hr].
    { apply block_leave; [done|]. right. split; [done|]. split; [done|]. right. left. split; [done|]. unfold room. lia. }
    destruct (match_source_spec out s Hc Hb) as [Hi Hv]. pose proof (core_mat out s Hc) as [Hlen Hm]. rewrite Hb in Hm.
    pose proof (core_hist out s Hc) as Hh. rewrite at_index_some by (rewrite (hist_window out _ Hh); lia). cbn [mbind option_bind].
    rewrite Hv. set (byte := out.[len out - match_offset (mat s)]).
    assert (Hbyte : is_byte byte) by (apply Forall_get; [apply Hh|lia]).
    destruct (put_output_spec out byte o s Hcalm Hbyte ltac:(unfold in_block in Hd; congruence)) as (x & -> & Hx). cbn [mbind option_bind].
    destruct Hx as [o' h _ He Hcm|Hfull|m]; cbn [negb]; [|unfold room in Hfull; lia|by apply block_error].
    eapply (block_ok_trans out byte o o' s); [| |exact He|apply IH]; try done.
    apply calm_mat; [done|]. pose proof (core_mat _ _ (proj1 Hcm)) as [_ Hm'].
    change (block_stage (ctl (set_hist s h))) with (block_stage (ctl s)) in *. rewrite Hb in *.
    split; [apply wrap_fits; lia|exact Hm'].
Qed.

Lemma block_turn_ok out o s : core out s -> in_block s -> block_ok out o s (block_turn (o, s)).
Proof.
  intros Hc Hd. unfold block_turn. destruct (Z.leb_spec (capacity o) (produced o)) as [Hf|Hr].
  { apply block_leave; [done|]. right. split; [done|]. split; [done|]. right. left. split; [done|]. unfold room. lia. }
  destruct (block_stage (ctl s)) eqn:Hb.
  - by apply block_symbol_ok.
  - by apply block_len_extra_ok.
  - by apply block_dist_symbol_ok.
  - by apply block_dist_extra_ok.
  - by apply match_copy_ok.
Qed.

Lemma process_block_total out o s :
  core out s -> in_block s ->
  exists o' s' rc, process_block_data o s = Some ((o', s'), rc) /\ block_post out o o' s s' (Some rc).
Proof.
  intros Hc Hd. unfold process_block_data.
  destruct (turns_total block_turn
    (fun x => bits_left x.2 <= bits_left s /\ exists new, extended o x.1 new /\ core (out ++ new) x.2 /\ in_block x.2)
    (fun x rc => block_post out o x.1 s x.2 (Some rc)) (fun x => block_mu x.2)) with (fuel := block_fuel s) (s := (o, s))
    as ([o' s'] & rc & -> & Hq).
  - intros [o1 s1] (Hb & new & He & Hc1 & Hd1). cbn [fst snd] in *.
    destruct (block_turn_ok (out ++ new) o1 s1 Hc1 Hd1) as (o2 & s2 & r & -> & Hb2 & new2 & He2 & Hp). eexists _, _. split; [done|].
    rewrite <- app_assoc in Hp. pose proof (extended_trans _ _ _ _ _ He He2) as He3. destruct r as [rc|]; cbn [fst snd].
    + split; [lia|]. exists (new ++ new2). split; [done|]. unfold block_done in *. intuition lia.
    + destruct Hp as (Hc2 & Hd2 & Hm). split; [|done]. split; [lia|]. by exists (new ++ new2).
  - cbn [fst snd]. split; [done|]. exists []. rewrite app_nil_r. split; [apply extended_refl|done].
  - cbn [snd]. unfold block_mu, block_fuel. assert (block_rank (block_stage (ctl s)) <= 4)%nat by (destruct (block_stage (ctl s)); cbn; lia). lia.
  - by exists o', s', rc.
Qed.

(** ** Polls *)

Definition stage_rank (st : inflate_stage) : nat :=
  match st with
  | ST_ZLIB_CMF => 10 | ST_ZLIB_FLG => 9 | ST_DYNAMIC_TREES => 8 | ST_STORED_LEN => 7 | ST_STORED_DATA => 6
  | ST_BLOCK_TYPE => 5 | ST_BLOCK_FINAL => 4 | ST_BLOCK_DATA => 3 | ST_TRAILER => 2 | ST_DONE => 1 | ST_ERROR => 0
  end.

Definition poll_mu (s : inflate) : nat := 20 * Z.to_nat (bits_left s) + stage_rank (stage (ctl s)).

(** What each status says of the stream and of the buffer. *)
Definition poll_done (out : bytes) (o : sink) (s : inflate) (st : od_zlib_status) : Prop :=
  match st with
  | OD_ZLIB_STATUS_ERROR => stage (ctl s) = ST_ERROR
  | OD_ZLIB_STATUS_DONE => core out s /\ stage (ctl s) = ST_DONE
  | OD_ZLIB_STATUS_NEEDS_INPUT => core out s /\ stuck s
  | OD_ZLIB_STATUS_OUTPUT_READY => core out s /\ (~ room o \/ produced o <> 0)
  end.

Definition poll_post (out : bytes) (o o' : sink) (s s' : inflate) (r : option od_zlib_status) : Prop :=
  bits_left s' <= bits_left s /\
  exists new, extended o o' new /\
    match r with
    | None => core (out ++ new) s' /\ (poll_mu s' < poll_mu s)%nat
    | Some st => poll_done (out ++ new) o' s' st
    end.

Definition poll_ok (out : bytes) (o : sink) (s : inflate) (r : poll_out) : Prop :=
  exists o' s' st, r = Some ((o', s'), st) /\ poll_post out o o' s s' st.

Lemma poll_stop out o s s' st : bits_left s' <= bits_left s -> poll_done out o s' st -> poll_ok out o s (stop o s' st).
Proof.
  intros Hb Hd. eexists _, _, _. split; [done|]. split; [done|]. exists []. rewrite app_nil_r. split; [apply extended_refl|done].
Qed.

Lemma poll_error out o s s' m : bits_left s' <= bits_left s -> poll_ok out o s (stop o (set_error s' m) OD_ZLIB_STATUS_ERROR).
Proof. intros Hb. by apply poll_stop. Qed.

(** Going round costs bits, or leads to a stage of lower rank. *)
Lemma poll_mu_lt s s' d :
  0 <= bits_left s' -> 0 <= d -> bits_left s' <= bits_left s - d ->
  (stage_rank (stage (ctl s')) < 20 * Z.to_nat d + stage_rank (stage (ctl s)))%nat -> (poll_mu s' < poll_mu s)%nat.
Proof. unfold poll_mu. lia. Qed.

Lemma poll_go out o s s' d :
  core out s' -> 0 <= d -> bits_left s' <= bits_left s - d ->
  (stage_rank (stage (ctl s')) < 20 * Z.to_nat d + stage_rank (stage (ctl s)))%nat -> poll_ok out o s (go o s').
Proof.
  intros Hc Hd Hb Hr. pose proof (bits_left_nonneg out s' Hc) as Hnn. eexists _, _, _. split; [done|]. split; [lia|]. exists []. rewrite app_nil_r.
  split; [apply extended_refl|]. split; [done|]. by apply (poll_mu_lt s s' d).
Qed.

(** A read that stops the poll. *)
Lemma poll_starved out o s s' :
  bits_left s' <= bits_left s -> (stage (ctl s') = ST_ERROR \/ (core out s' /\ stage (ctl s') <> ST_ERROR /\ stuck s')) ->
  poll_ok out o s (stop o s' (starved_status s')).
Proof.
  intros Hb Hs. apply poll_stop; [done|]. unfold starved_status. destruct Hs as [He|(Hc & He & Hst)].
  - by rewrite bool_decide_eq_true_2.
  - by rewrite bool_decide_eq_false_2.
Qed.

Lemma byte_starved out o s s' rc :
  stage (ctl s) <> ST_ERROR -> byte_loop_post out s s' rc -> rc <> 1 -> poll_ok out o s (stop o s' (starved_status s')).
Proof.
  intros He (Hb & Hp) Hrc. apply poll_starved; [done|]. destruct Hp as [[_ Hp]|(Hc & Hctl & [[_ Hs]|])]; [by left| |done].
  right. split; [apply Hc|]. split; [congruence|done].
Qed.

Lemma poll_cmf_ok out o s : core out s -> stage (ctl s) = ST_ZLIB_CMF -> room o -> poll_ok out o s (poll_turn (o, s)).
Proof.
  intros Hc Hst Hr. unfold poll_turn, poll_stage, room in *. destruct (Z.leb_spec (capacity o) (produced o)); [lia|]. rewrite Hst.
  assert (Hcalm : calm out s) by (by apply pending_none; rewrite ?Hst). pose proof (next_byte_cases out s Hcalm) as Hb.
  destruct (next_byte s) as [[b| |m] s1]; [|by eapply byte_starved; [congruence|exact Hb|]..].
  destruct Hb as (Hb & Hc1 & Hle & x & ->).
  apply (poll_go out o s _ 0); [|lia|rewrite Z.sub_0_r; exact Hle|rewrite Hst; cbn; lia].
  apply calm_stage; [by apply calm_header|done|done].
Qed.

Lemma poll_flg_ok out o s : core out s -> stage (ctl s) = ST_ZLIB_FLG -> poll_ok out o s (poll_flg o s).
Proof.
  intros Hc Hst. unfold poll_flg.
  assert (Hcalm : calm out s) by (by apply pending_none; rewrite ?Hst). pose proof (next_byte_cases out s Hcalm) as Hb.
  destruct (next_byte s) as [[b| |m] s1]; [|by eapply byte_starved; [congruence|exact Hb|]..].
  destruct Hb as (Hb & Hc1 & Hle & x & ->).
  assert (Hgo : poll_ok out o s (go o (set_stage (set_rd s (on_source (rd s) x)) ST_BLOCK_FINAL))).
  { apply (poll_go out o s _ 0); [|lia|rewrite Z.sub_0_r; exact Hle|rewrite Hst; cbn; lia]. by apply calm_stage. }
  destruct (od_zlib_header_check _ _); [exact Hgo|exact Hgo|by apply poll_error..].
Qed.

Lemma poll_final_ok out o s : core out s -> stage (ctl s) = ST_BLOCK_FINAL -> room o -> poll_ok out o s (poll_turn (o, s)).
Proof.
  intros Hc Hst Hr. unfold poll_turn, poll_stage, room in *. destruct (Z.leb_spec (capacity o) (produced o)); [lia|]. rewrite Hst.
  assert (Hcalm : calm out s) by (by apply pending_none; rewrite ?Hst).
  pose proof (read_bit_spec (src (rd s)) (core_source out s Hc)) as Hb. destruct (read_bit (src (rd s))) as [v x].
  destruct Hb as [(Hs & Hfin & Hsuf & Hle & Hrel) _].
  assert (Hcr : calm out (set_rd s (on_source (rd s) x))).
  { apply calm_rd; [done|done|done|eapply suffix_bytes_ok, Hsuf; apply Hc|exact (core_sym out s Hc)]. }
  destruct v as [b| |m]; cbn [after_read].
  - apply (poll_go out o s _ 1); [|lia| |rewrite Hst; cbn; lia].
    + apply calm_stage; [by apply calm_header|done|done].
    + rewrite bits_left_sbits in *. isimpl. rewrite bits_left_sbits. lia.
  - apply poll_starved; [rewrite !bits_left_sbits; isimpl; lia|]. right. split; [apply Hcr|]. split; [isimpl; congruence|].
    destruct Hrel. unfold stuck. isimpl. split; congruence.
  - apply poll_starved; [rewrite !bits_left_sbits; isimpl; lia|]. by left.
Qed.

Lemma poll_type_ok out o s : core out s -> stage (ctl s) = ST_BLOCK_TYPE -> poll_ok out o s (poll_type o s).
Proof.
  intros Hc Hst. unfold poll_type. assert (Hp : pending s = Some (2, 0)) by (unfold pending; by rewrite Hst).
  pose proof (core_read_bits out s 2 0 Hc Hp ltac:(split; lia)) as Hr. destruct (read_bits 2 0 (rd s)) as [[t| |m] r].
  2: { destruct Hr as [Hb [Hc1 Hs]]. apply poll_starved; [done|]. right. split; [done|]. split; [cbn [after_read]; isimpl; congruence|done]. }
  2: { destruct Hr as [Hb _]. apply poll_starved; [done|]. by left. }
  destruct Hr as (Hb & Ht & Hcalm & Hlt). cbn [after_read] in *. set (s1 := set_rd s r) in *.
  assert (Hc1 : calm out (set_ctl s1 (with_header (ctl s1) (cmf (ctl s1)) (bfinal (ctl s1)) (u8 t)))) by by apply calm_header.
  set (s2 := set_ctl s1 _) in *. assert (Hb2 : bits_left s2 <= bits_left s - 1) by (change (bits_left s1 <= bits_left s - 1); lia).
  assert (Hs2 : stage (ctl s2) = ST_BLOCK_TYPE) by exact Hst.
  destruct (u8 t =? 0); [|destruct (u8 t =? 1); [|destruct (u8 t =? 2); [|apply poll_error; exact Hb]]].
  - apply (poll_go out o s _ 1); [|lia| |rewrite Hst; cbn; lia].
    + apply calm_stage; [|done|done]. apply calm_sto; [|split; [cbn; lia|done]].
      apply calm_rd; [done|done| |exact (core_input _ _ (proj1 Hc1))|exact (core_sym _ _ (proj1 Hc1))]. unfold source_ok. cbn. lia.
    + pose proof (core_source _ _ (proj1 Hc1)) as Hso. unfold source_ok, bits_left in *. isimpl. cbn [with_bits input bit_count]. lia.
  - apply (poll_go out o s _ 1); [|lia|exact Hb2|rewrite Hst; cbn; lia].
    apply calm_stage; [|done|done]. apply calm_reset, calm_block_symbol, calm_trees; [done|done|done].
  - apply (poll_go out o s _ 1); [|lia|exact Hb2|rewrite Hst; cbn; lia].
    apply calm_stage; [|done|done]. apply calm_reset, calm_dynamic_stage; done.
Qed.

Lemma poll_stop_new out new o o' s s' st :
  extended o o' new -> bits_left s' <= bits_left s -> poll_done (out ++ new) o' s' st -> poll_ok out o s (stop o' s' st).
Proof. intros He Hb Hd. eexists _, _, _. split; [done|]. split; [done|]. by exists new. Qed.

Lemma poll_go_new out new o o' s s' d :
  extended o o' new -> core (out ++ new) s' -> 0 <= d -> bits_left s' <= bits_left s - d ->
  (stage_rank (stage (ctl s')) < 20 * Z.to_nat d + stage_rank (stage (ctl s)))%nat -> poll_ok out o s (go o' s').
Proof.
  intros He Hc Hd Hb Hr. pose proof (bits_left_nonneg _ s' Hc) as Hnn. eexists _, _, _. split; [done|]. split; [lia|]. exists new.
  split; [done|]. split; [done|]. by apply (poll_mu_lt s s' d).
Qed.

Lemma produced_done out o s : core out s -> stuck s -> poll_done out o s (produced_status o).
Proof.
  intros Hc Hs. unfold produced_status. destruct (Z.eqb_spec (produced o) 0); [done|]. split; [done|by right].
Qed.

Lemma after_block_calm out s : calm out s -> calm out (after_block s).
Proof. intros Hc. unfold after_block. destruct (_ =? 0); by apply calm_stage. Qed.

Lemma after_block_rank s : (stage_rank (stage (ctl (after_block s))) <= 4)%nat.
Proof. unfold after_block. destruct (_ =? 0); cbn; lia. Qed.

Lemma poll_dynamic_ok out o s : core out s -> stage (ctl s) = ST_DYNAMIC_TREES -> room o -> poll_ok out o s (poll_turn (o, s)).
Proof.
  intros Hc Hst Hr. unfold poll_turn, poll_stage, room in *. destruct (Z.leb_spec (capacity o) (produced o)); [lia|]. rewrite Hst.
  destruct (process_dynamic_total out s Hc Hst) as (s' & rc & -> & Hb & Hd). cbn [mbind option_bind].
  destruct Hd as [[-> He]|[(-> & Hc' & Hi & Hs)|(-> & Hcalm & Hi)]]; cbn -[go stop].
  - by apply poll_stop.
  - by apply poll_stop.
  - apply (poll_go out o s _ 0); [|lia|rewrite Z.sub_0_r; exact Hb|rewrite Hst; cbn; lia].
    apply calm_stage; [by apply calm_block_symbol|done|done].
Qed.

Lemma poll_stored_len_ok out o s : core out s -> stage (ctl s) = ST_STORED_LEN -> room o -> poll_ok out o s (poll_turn (o, s)).
Proof.
  intros Hc Hst Hr. unfold poll_turn, poll_stage, room in *. destruct (Z.leb_spec (capacity o) (produced o)); [lia|]. rewrite Hst.
  assert (Hcalm : calm out s) by (by apply pending_none; rewrite ?Hst). unfold process_stored_header.
  pose proof (core_sto out s Hc) as [Hsto _].
  pose proof (stored_header_total out (Z.to_nat (4 - stored_header_index (sto s))) s Hcalm ltac:(lia)) as Hp.
  destruct (stored_header_loop _ s) as [s' rc]. destruct Hp as (Hb & [[-> He]|(Hc' & Hctl & [[-> Hs]| ->])]); cbn -[go stop].
  - by apply poll_stop.
  - apply poll_stop; [done|]. split; [apply Hc'|done].
  - apply (poll_go out o s _ 0); [|lia|rewrite Z.sub_0_r; exact Hb|rewrite Hst; cbn; lia]. by apply calm_stage.
Qed.

Lemma poll_stored_data_ok out o s : core out s -> stage (ctl s) = ST_STORED_DATA -> room o -> poll_ok out o s (poll_turn (o, s)).
Proof.
  intros Hc Hst Hr. unfold poll_turn, poll_stage, room in *. destruct (Z.leb_spec (capacity o) (produced o)); [lia|]. rewrite Hst.
  assert (Hcalm : calm out s) by (by apply pending_none; rewrite ?Hst). unfold process_stored_data.
  destruct (stored_data_total out (Z.to_nat (stored_len (sto s))) o s Hcalm Hst) as (o' & s' & rc & -> & Hb & new & He & Hp).
  cbn [mbind option_bind]. destruct Hp as [[-> Hs]|(Hc' & Hctl & [[-> Hs]|[->|[-> Hf]]])]; cbn -[go stop].
  - by eapply poll_stop_new.
  - eapply poll_stop_new; [done|done|]. apply produced_done; [apply Hc'|done].
  - apply (poll_go_new out new o o' s _ 0); [done|by apply after_block_calm|lia|rewrite Z.sub_0_r; exact Hb|].
    rewrite Hst. pose proof (after_block_rank s'). change (stage_rank ST_STORED_DATA) with 6%nat. lia.
  - eapply poll_stop_new; [done|done|]. split; [apply Hc'|by left].
Qed.

Lemma poll_block_ok out o s : core out s -> in_block s -> room o -> poll_ok out o s (poll_turn (o, s)).
Proof.
  intros Hc Hst Hr. unfold poll_turn, poll_stage, room in *. destruct (Z.leb_spec (capacity o) (produced o)); [lia|]. rewrite Hst.
  destruct (process_block_total out o s Hc Hst) as (o' & s' & rc & -> & Hb & new & He & Hp). cbn [mbind option_bind].
  destruct Hp as [[-> Hs]|(Hc' & Hi & [[-> Hs]|[[-> Hf]|[[-> | ->] [Hcalm Hlt]]]])]; cbn -[go stop].
  - by eapply poll_stop_new.
  - eapply poll_stop_new; [done|done|]. by apply produced_done.
  - eapply poll_stop_new; [done|done|]. split; [done|by left].
  - apply (poll_go_new out new o o' s s' 1); [done|done|lia|lia|]. rewrite Hst, Hi. cbn. lia.
  - apply (poll_go_new out new o o' s _ 1); [done|by apply after_block_calm|lia| |].
    + change (bits_left s' <= bits_left s - 1). lia.
    + rewrite Hst. pose proof (after_block_rank s'). change (stage_rank ST_BLOCK_DATA) with 3%nat. lia.
Qed.

Lemma poll_trailer_ok out o s : core out s -> stage (ctl s) = ST_TRAILER -> room o -> poll_ok out o s (poll_turn (o, s)).
Proof.
  intros Hc Hst Hr. unfold poll_turn, poll_stage, room in *. destruct (Z.leb_spec (capacity o) (produced o)); [lia|]. rewrite Hst.
  assert (Hcalm : calm out s) by (by apply pending_none; rewrite ?Hst). unfold process_trailer. pose proof (core_trl out s Hc) as Ht.
  pose proof (trailer_total out (Z.to_nat (4 - trailer_index (trl s))) s Hcalm Hst ltac:(lia)) as Hp.
  destruct (trailer_loop _ s) as [s' rc]. destruct Hp as (Hb & [[-> He]|[(-> & Hc' & _ & Hs)|(-> & Hc' & Hd)]]); cbn -[go stop].
  - by apply poll_stop.
  - apply poll_stop; [done|]. apply produced_done; [apply Hc'|done].
  - apply poll_stop; [done|]. split; [apply Hc'|done].
Qed.

(** Every turn of the loop. *)
Lemma poll_turn_ok out o s : core out s -> poll_ok out o s (poll_turn (o, s)).
Proof.
  intros Hc. destruct (Z.leb_spec (capacity o) (produced o)) as [Hf|Hr].
  { unfold poll_turn, poll_stage. destruct (Z.leb_spec (capacity o) (produced o)); [|lia]. apply poll_stop; [done|]. split; [done|]. left. unfold room. lia. }
  destruct (stage (ctl s)) eqn:Hst.
  - by apply poll_cmf_ok.
  - unfold poll_turn, poll_stage. destruct (Z.leb_spec (capacity o) (produced o)); [lia|]. rewrite Hst. by apply poll_flg_ok.
  - by apply poll_final_ok.
  - unfold poll_turn, poll_stage. destruct (Z.leb_spec (capacity o) (produced o)); [lia|]. rewrite Hst. by apply poll_type_ok.
  - by apply poll_dynamic_ok.
  - by apply poll_stored_len_ok.
  - by apply poll_stored_data_ok.
  - by apply poll_block_ok.
  - by apply poll_trailer_ok.
  - unfold poll_turn, poll_stage. destruct (Z.leb_spec (capacity o) (produced o)); [lia|]. rewrite Hst. by apply poll_stop.
  - unfold poll_turn, poll_stage. destruct (Z.leb_spec (capacity o) (produced o)); [lia|]. rewrite Hst. by apply poll_stop.
Qed.

Lemma poll_mu_fuel s : (poll_mu s < poll_fuel s)%nat.
Proof. unfold poll_mu, poll_fuel. assert (stage_rank (stage (ctl s)) <= 10)%nat by (destruct (stage (ctl s)); cbn; lia). lia. Qed.


End Run.

End InflateRun.
