(* ===== verification/Inflater.v ===== *)
(** The inflater as its clients see it: every sequence of pushes and polls is
    free of undefined behaviour, what has been written is what the counters and
    the checksum say, and the pump over it delivers exactly that. *)

From stdpp Require Import strings.
From S2P Require Import Prelude Span Pump Rfc1951 Inflate InflateRead InflateSafe InflateRun.
Import Span Pump Inflate InflateRead InflateSafe InflateRun.
Import Rfc1951(adler32).

Module Inflater.

Section Client.
Context `{ZlibConfig, Image}.

(** A stream in error, or one that has written [out]. *)
Definition stream_ok (out : bytes) (s : inflate) : Prop := stage (ctl s) = ST_ERROR \/ core out s.

(** What a poll returns, and what its status says. *)
Definition poll_answer (out : bytes) (cap : Z) (r : od_zlib_status * bytes * inflate) : Prop :=
  let '(st, new, s') := r in
  len new <= Z.max cap 0 /\ stream_ok (out ++ new) s' /\
  match st with
  | OD_ZLIB_STATUS_ERROR => stage (ctl s') = ST_ERROR
  | OD_ZLIB_STATUS_DONE =>
      stage (ctl s') = ST_DONE /\ len (out ++ new) = image_size /\ trailer_value (trl s') = adler32 (out ++ new)
  | OD_ZLIB_STATUS_NEEDS_INPUT => stuck s' /\ core (out ++ new) s'
  | OD_ZLIB_STATUS_OUTPUT_READY => (0 < cap -> new <> []) /\ core (out ++ new) s'
  end.

Lemma poll_loop_total out o s :
  core out s ->
  exists o' s' st, turns (poll_fuel s) poll_turn (o, s) = Some ((o', s'), st) /\
    exists new, extended o o' new /\ poll_done (out ++ new) o' s' st.
Proof.
  intros Hc.
  destruct (turns_total poll_turn (fun x => exists new, extended o x.1 new /\ core (out ++ new) x.2)
    (fun x st => exists new, extended o x.1 new /\ poll_done (out ++ new) x.1 x.2 st) (fun x => poll_mu x.2))
    with (fuel := poll_fuel s) (s := (o, s)) as ([o' s'] & st & -> & Hq).
  - intros [o1 s1] (new & He & Hc1). cbn [fst snd] in *.
    destruct (poll_turn_ok (out ++ new) o1 s1 Hc1) as (o2 & s2 & r & -> & _ & new2 & He2 & Hp). eexists _, _. split; [done|].
    rewrite <- app_assoc in Hp. pose proof (extended_trans _ _ _ _ _ He He2) as He3.
    destruct r as [st|]; cbn [fst snd]; [by exists (new ++ new2)|]. destruct Hp as [Hc2 Hm]. split; [|done]. by exists (new ++ new2).
  - cbn [fst snd]. exists []. rewrite app_nil_r. split; [apply extended_refl|done].
  - apply poll_mu_fuel.
  - by exists o', s', st.
Qed.

(** A poll of any stream that has been reset. *)
Lemma poll_total out s cap :
  stream_ok out s -> exists r, od_zlib_stream_poll s cap = Some r /\ poll_answer out cap r.
Proof.
  intros Hs. unfold od_zlib_stream_poll.
  destruct (initialized (ctl s)) eqn:Hi; cbn [negb].
  2: { eexists. split; [done|]. unfold poll_answer. rewrite app_nil_r. split; [cbn; lia|]. split; [by left|done]. }
  destruct (bool_decide_reflect (stage (ctl s) = ST_ERROR)) as [He|He].
  { eexists. split; [done|]. unfold poll_answer. rewrite app_nil_r. split; [cbn; lia|]. split; [by left|done]. }
  destruct Hs as [|Hc]; [done|].
  destruct (bool_decide_reflect (stage (ctl s) = ST_DONE)) as [Hd|Hd].
  { eexists. split; [done|]. unfold poll_answer. rewrite app_nil_r. split; [cbn; lia|]. split; [by right|].
    pose proof (core_done out s Hc Hd) as [Ht Hl]. by split. }
  destruct (poll_loop_total out {| capacity := cap; written := [] |} s Hc) as (o' & s' & st & -> & new & He' & Hp).
  cbn [mbind option_bind]. eexists. split; [done|]. destruct He' as (Hcap & Hw & Hle). cbn [written capacity] in *.
  rewrite Hw. cbn [app]. unfold produced in Hle. cbn [written] in Hle. rewrite Hw in Hle. cbn [app length] in Hle.
  split; [lia|]. destruct st; cbn [poll_done] in Hp.
  - destruct Hp as [Hc' Hst]. split; [by right|done].
  - destruct Hp as [Hc' Hst]. split; [by right|]. split; [|done]. intros Hpos.
    unfold room, produced in Hst. rewrite Hw, Hcap in Hst. destruct new; [cbn in Hst; lia|done].
  - destruct Hp as [Hc' Hst]. split; [by right|]. pose proof (core_done _ s' Hc' Hst) as [Ht Hl]. by split.
  - split; [by left|done].
Qed.

(** A push keeps the stream, and answers with an error only in error. *)
Lemma push_core out s b n final :
  core out s -> bytes_ok b ->
  let '(st, s') := od_zlib_stream_push s (Some b) n final in
  match st with OD_ZLIB_STATUS_ERROR => stage (ctl s') = ST_ERROR | _ => core out s' end.
Proof.
  intros Hc Hb. unfold od_zlib_stream_push. rewrite bool_decide_true by by eexists. rewrite andb_false_r.
  destruct (initialized (ctl s)) eqn:Hi; cbn [negb]; [|done]. destruct (negb (_ =? 0)); [done|].
  assert (Hl : core out (load_input s (take (Z.to_nat n) b) final)).
  { pose proof (core_source out s Hc). destruct Hc. constructor; isimpl; try done. by apply Forall_take. }
  destruct (bool_decide _); [|exact Hl]. destruct (negb _); [done|exact Hl].
Qed.

Lemma push_ok out s b n final :
  stream_ok out s -> bytes_ok b -> stream_ok out (od_zlib_stream_push s (Some b) n final).2.
Proof.
  intros [He|Hc] Hb.
  - left. unfold od_zlib_stream_push. repeat (destruct (negb _); [done|]). destruct (_ && _); [done|].
    repeat (destruct (negb _); [done|]). destruct (bool_decide _); [destruct (negb _)|]; done.
  - pose proof (push_core out s b n final Hc Hb) as Hp. destruct (od_zlib_stream_push _ _ _ _) as [st s'].
    destruct st; [by right|by right|by right|by left].
Qed.

(** *** Whole runs *)

(** What a client can do after the reset. *)
Inductive call := Push (b : bytes) (final : bool) | Poll (cap : Z).

(** The bytes written and the state, after the calls. *)
Fixpoint run_calls (cs : list call) (s : inflate) : option (bytes * inflate) :=
  match cs with
  | [] => Some ([], s)
  | Push b final :: cs => run_calls cs (od_zlib_stream_push s (Some b) (len b) final).2
  | Poll cap :: cs =>
      '(_, new, s) ← od_zlib_stream_poll s cap;
      '(out, s) ← run_calls cs s;
      Some (new ++ out, s)
  end.

Definition call_ok (c : call) : Prop := match c with Push b _ => bytes_ok b | Poll _ => True end.

Lemma run_calls_ok cs out s :
  Forall call_ok cs -> stream_ok out s -> exists new s', run_calls cs s = Some (new, s') /\ stream_ok (out ++ new) s'.
Proof.
  intros Hcs. revert out s. induction Hcs as [|c cs Hc Hcs IH]; intros out s Hs; cbn [run_calls].
  - exists [], s. by rewrite app_nil_r.
  - destruct c as [b final|cap].
    + apply IH, push_ok; done.
    + destruct (poll_total out s cap Hs) as ([[st new] s1] & -> & _ & Hs1 & _). cbn [mbind option_bind].
      destruct (IH _ s1 Hs1) as (rest & s2 & -> & Hs2). cbn [mbind option_bind]. exists (new ++ rest), s2. by rewrite app_assoc.
Qed.

(** C10. The inflater is free of undefined behaviour and of endless loops on every
    input: any sequence of pushes of bytes and polls after a reset, however
    malformed the stream, runs to its end (no index leaves its array, every loop
    ends within its fuel); while the stream is not in error the bytes written so
    far number at most the declared size, the output counter is their number and
    the running checksum is their Adler-32; and when it is done they are exactly
    as many as declared and their Adler-32 is the one in the trailer. *)
Theorem inflate_safe (cs : list call) :
  Forall call_ok cs ->
  exists out s, run_calls cs (od_zlib_stream_reset image_size) = Some (out, s) /\
    (stage (ctl s) <> ST_ERROR ->
      len out <= image_size /\ od_zlib_stream_output_count s = len out /\ adler (hist s) = adler32 out /\
      (stage (ctl s) = ST_DONE -> len out = image_size /\ trailer_value (trl s) = adler32 out)).
Proof.
  intros Hcs. destruct (run_calls_ok cs [] _ Hcs (or_intror reset_core)) as (out & s & -> & Hs).
  exists out, s. split; [done|]. intros He. destruct Hs as [|Hc]; [done|]. pose proof (core_hist _ _ Hc) as Hh.
  split; [apply Hh|]. split; [apply Hh|]. split; [apply Hh|]. intros Hd. destruct (core_done _ _ Hc Hd). by split.
Qed.

(** *** Errors *)

(** An error lasts until the next reset. *)
Lemma error_sticky cs s :
  stage (ctl s) = ST_ERROR -> exists s', run_calls cs s = Some ([], s') /\ stage (ctl s') = ST_ERROR.
Proof.
  revert s. induction cs as [|[b final|cap] cs IH]; intros s He; cbn [run_calls]; [by exists s|apply IH|].
  - unfold od_zlib_stream_push. repeat (destruct (negb _); [done|]). destruct (_ && _); [done|].
    repeat (destruct (negb _); [done|]). destruct (bool_decide _); [destruct (negb _)|]; done.
  - assert (Hp : exists s1, od_zlib_stream_poll s cap = Some (OD_ZLIB_STATUS_ERROR, [], s1) /\ stage (ctl s1) = ST_ERROR).
    { unfold od_zlib_stream_poll. destruct (negb _); [by eexists|]. rewrite bool_decide_eq_true_2 by done. by exists s. }
    destruct Hp as (s1 & -> & He1). cbn [mbind option_bind]. destruct (IH s1 He1) as (s2 & -> & He2). by exists s2.
Qed.

(** The header rule of RFC 1950 and of the selected window. *)
Definition header_good (m flg : Z) : Prop :=
  (256 * m + flg) mod 31 = 0 /\ m mod 16 = 8 /\ Z.testbit flg 5 = false /\ m / 16 + 8 <= OPENDISPLAY_ZLIB_WINDOW_BITS.

Lemma header_check_spec m flg :
  is_byte m -> is_byte flg -> od_zlib_header_check m flg = OD_ZLIB_HEADER_OK <-> header_good m flg.
Proof.
  unfold is_byte. intros Hm Hf. unfold od_zlib_header_check, header_good.
  rewrite wrap_id by (unfold fits; change (2 ^ 32) with 4294967296; lia).
  change 0x0F with (Z.ones 4). rewrite Z.land_ones, Z.shiftr_div_pow2 by lia. change (2 ^ 4) with 16.
  assert (Hbit : (Z.land flg 0x20 =? 0) = negb (Z.testbit flg 5)).
  { change 0x20 with (2 ^ 5). destruct (Z.testbit flg 5) eqn:Et.
    - apply Z.eqb_neq. intros Hz. apply (f_equal (fun x => Z.testbit x 5)) in Hz. by rewrite Z.land_spec, Et, Z.pow2_bits_true in Hz.
    - apply Z.eqb_eq, Z.bits_inj'. intros i Hi. rewrite Z.land_spec, Z.bits_0.
      destruct (Z.eq_dec i 5) as [->|]; [by rewrite Et|]. rewrite Z.pow2_bits_false by lia. apply andb_false_r. }
  rewrite Hbit. destruct (Z.eqb_spec ((256 * m + flg) mod 31) 0), (Z.eqb_spec (m mod 16) 8), (Z.testbit flg 5),
    (Z.ltb_spec OPENDISPLAY_ZLIB_WINDOW_BITS (m / 16 + 8)); cbn; (split; [intros; try done|intros (? & ? & ? & ?)]); try done; lia.
Qed.

(** The observer sees the same header in one piece or two. *)
Lemma header_observe_app h a b :
  validated h = false -> (od_zlib_header_observe h a).1 = OD_ZLIB_HEADER_NEED_MORE ->
  od_zlib_header_observe h (a ++ b) = od_zlib_header_observe (od_zlib_header_observe h a).2 b.
Proof.
  unfold od_zlib_header_observe. intros Hv. rewrite Hv. revert h Hv. induction a as [|x a IH]; intros h Hv; cbn [app observe_bytes].
  - cbn [fst snd]. by rewrite Hv.
  - destruct (have h =? 0).
    + intros Hn. exact (IH {| header_cmf := x; have := 1; validated := validated h |} Hv Hn).
    + cbn [fst]. unfold od_zlib_header_check. destruct (_ || _ || _); [done|]. by destruct (_ <? _).
Qed.

(** A header outside the rule is refused for good: when the first two bytes
    fail the checksum, name another method, ask for a preset dictionary or want
    a window larger than the target's, the first poll with room fails, and no
    later push or poll writes a byte or leaves the error until the next reset. *)
Theorem bad_header_refused (m flg : Z) (rest : bytes) (final : bool) (cap : Z) (cs : list call) :
  is_byte m -> is_byte flg -> 0 < cap -> ~ header_good m flg ->
  exists s, run_calls (Push (m :: flg :: rest) final :: Poll cap :: cs) (od_zlib_stream_reset image_size) = Some ([], s) /\
    stage (ctl s) = ST_ERROR.
Proof.
  intros Hm Hf Hcap Hbad. cbn [run_calls]. rewrite <- (header_check_spec m flg Hm Hf) in Hbad.
  set (z := (od_zlib_stream_push _ _ _ _).2).
  assert (Hz : z = load_input (od_zlib_stream_reset image_size) (m :: flg :: rest) final).
  { subst z. unfold od_zlib_stream_push. rewrite bool_decide_true by by eexists. rewrite andb_false_r.
    rewrite Nat2Z.id, firstn_all. done. }
  clearbody z. subst z. unfold od_zlib_stream_poll. cbn [negb initialized ctl].
  assert (Hfuel : exists k, poll_fuel (load_input (od_zlib_stream_reset image_size) (m :: flg :: rest) final) = S (S k)).
  { exists (20 * Z.to_nat (bits_left (load_input (od_zlib_stream_reset image_size) (m :: flg :: rest) final)) + 18)%nat.
    unfold poll_fuel. lia. }
  destruct Hfuel as [k ->]. cbn [turns]. assert (Hle : (cap <=? 0) = false) by lia.
  assert (H1 : poll_turn ({| capacity := cap; written := [] |}, load_input (od_zlib_stream_reset image_size) (m :: flg :: rest) final)
    = Some (({| capacity := cap; written := [] |},
        set_stage (set_ctl (load_input (od_zlib_stream_reset image_size) (flg :: rest) final)
          (with_header (ctl (od_zlib_stream_reset image_size)) m 0 0)) ST_ZLIB_FLG), None)).
  { unfold poll_turn, poll_stage, produced. cbn [capacity written length]. change (Z.of_nat 0) with 0. rewrite Hle. reflexivity. }
  change (negb (initialized _)) with false. rewrite bool_decide_eq_false_2, bool_decide_eq_false_2 by done. rewrite H1.
  cbn [mbind option_bind].
  assert (H2 : exists why, poll_turn ({| capacity := cap; written := [] |},
      set_stage (set_ctl (load_input (od_zlib_stream_reset image_size) (flg :: rest) final)
          (with_header (ctl (od_zlib_stream_reset image_size)) m 0 0)) ST_ZLIB_FLG)
    = Some (({| capacity := cap; written := [] |}, set_error (set_stage (set_ctl (load_input (od_zlib_stream_reset image_size) rest final)
          (with_header (ctl (od_zlib_stream_reset image_size)) m 0 0)) ST_ZLIB_FLG) why), Some OD_ZLIB_STATUS_ERROR)).
  { unfold poll_turn, poll_stage, produced. cbn [capacity written length]. change (Z.of_nat 0) with 0. rewrite Hle.
    cbn [stage ctl set_stage set_ctl with_stages]. unfold poll_flg. cbn [next_byte read_byte]. cbn.
    unfold od_zlib_header_check in *. destruct (_ || _ || _); [by eexists|]. destruct (_ <? _); [by eexists|done]. }
  destruct H2 as [why ->]. cbn [mbind option_bind written].
  match goal with |- context [run_calls cs ?z] => destruct (error_sticky cs z) as (s' & -> & He); [done|] end. by exists s'.
Qed.

(** ** The pump over it *)

(** [targets/nordic-zephyr/src/od_inflate_app.c]; [A] is what the rest of the
    firmware holds.  A poll that the C code leaves undefined, which [poll_total]
    excludes, is answered with an error here. *)
#[export] Instance zlib_inflater {A : Type} : Inflater (inflate * A) := {
  od_inflate_app_reset s expected := (od_zlib_stream_reset expected, s.2);
  od_inflate_app_push s input final :=
    let '(st, z) := od_zlib_stream_push s.1 (sp input) (sn input) final in (st, (z, s.2));
  od_inflate_app_poll s cap :=
    match od_zlib_stream_poll s.1 cap with
    | Some (st, new, z) => (st, new, (z, s.2))
    | None => (OD_ZLIB_STATUS_ERROR, [], s)
    end;
  od_inflate_app_error s := od_zlib_stream_error s.1;
  od_inflate_app_output_count s := od_zlib_stream_output_count s.1;
}.

(** *** Output is reported only when there is some, whatever the state *)

Lemma turns_post {S R : Type} (body : S -> option (S * option R)) (I : S -> Prop) (Q : S -> R -> Prop) fuel s s' r :
  (forall s s' r, I s -> body s = Some (s', r) -> match r with None => I s' | Some r => Q s' r end) ->
  I s -> turns fuel body s = Some (s', r) -> Q s' r.
Proof.
  intros Hb. revert s. induction fuel as [|fuel IH]; intros s Hs; cbn [turns]; [done|].
  destruct (body s) as [[s1 r1]|] eqn:Eb; cbn [mbind option_bind]; [|done]. pose proof (Hb _ _ _ Hs Eb) as Hp.
  destruct r1 as [r1|]; [by intros [= <- <-]|by apply IH].
Qed.

(** Leaving with 2 means the buffer is full. *)
Definition full_if_two (o o' : sink) (rc : option Z) : Prop := capacity o' = capacity o /\ (rc = Some 2 -> ~ room o').

Lemma rc_of_not_two {A} (v : res A) : rc_of v <> 2.
Proof. by destruct v. Qed.

Lemma stop_code_not_two s : stop_code s <> 2.
Proof. unfold stop_code. by destruct (bool_decide _). Qed.

Lemma put_output_full byte o s ok o' s' :
  put_output_byte byte o s = Some (ok, o', s') -> capacity o' = capacity o /\ (ok = false -> ~ room o' \/ stage (ctl s') = ST_ERROR).
Proof.
  unfold put_output_byte, room. destruct (Z.leb_spec (capacity o) (produced o)).
  { intros [= <- <- <-]. split; [done|]. left. lia. }
  destruct (_ <=? _); [intros [= <- <- <-]; split; [done|by right]|].
  destruct (record_byte _ _); cbn [mbind option_bind]; [|done]. by intros [= <- <- <-].
Qed.

(** [s.stage == ST_ERROR ? -1 : 2] after a byte that was not put out. *)
Lemma refused_full o o' s (ok : bool) (x : Z) :
  capacity o' = capacity o -> (ok = false -> ~ room o' \/ stage (ctl s) = ST_ERROR) -> ok = false ->
  full_if_two o o' (Some (if bool_decide (stage (ctl s) = ST_ERROR) then -1 else x)).
Proof. intros Hc Hr Hok. split; [done|]. destruct (Hr Hok) as [|He]; [done|]. by rewrite bool_decide_eq_true_2. Qed.

Ltac not_two :=
  intros [= <- <- <-]; split; [done|intros [= Htwo]; exfalso; revert Htwo; solve [apply rc_of_not_two|apply stop_code_not_two|done]].

Lemma stored_data_full n o s o' s' rc :
  stored_data_loop n o s = Some (o', s', rc) -> full_if_two o o' (Some rc).
Proof.
  revert o s. induction n as [|n IH]; intros o s; cbn [stored_data_loop]; [by intros [= <- <- <-]|].
  destruct (Z.leb_spec (capacity o) (produced o)); [intros [= <- <- <-]; split; [done|unfold room; lia]|].
  destruct (next_byte s) as [[b| |m] s1]; [|not_two..].
  destruct (put_output_byte b o s1) as [[[ok o1] s2]|] eqn:Ep; cbn [mbind option_bind]; [|done].
  destruct (put_output_full _ _ _ _ _ _ Ep) as [Hc Hr]. destruct ok; cbn [negb].
  - intros Hl. destruct (IH _ _ Hl) as [Hc' Hr']. by split; [congruence|].
  - intros [= <- <- <-]. by eapply refused_full.
Qed.

Lemma match_copy_full n o s o' s' r :
  match_copy n o s = Some ((o', s'), r) -> full_if_two o o' r.
Proof.
  revert o s. induction n as [|n IH]; intros o s; cbn [match_copy]; [by intros [= <- <- <-]|].
  destruct (Z.leb_spec (capacity o) (produced o)); [intros [= <- <- <-]; split; [done|unfold room; lia]|].
  destruct (at_index _ _) as [b|]; cbn [mbind option_bind]; [|done].
  destruct (put_output_byte b o s) as [[[ok o1] s2]|] eqn:Ep; cbn [mbind option_bind]; [|done].
  destruct (put_output_full _ _ _ _ _ _ Ep) as [Hc Hr]. destruct ok; cbn [negb].
  - intros Hl. destruct (IH _ _ Hl) as [Hc' Hr']. by split; [congruence|].
  - intros [= <- <- <-]. by eapply refused_full.
Qed.

Lemma block_turn_full o s o' s' r :
  block_turn (o, s) = Some ((o', s'), r) -> full_if_two o o' r.
Proof.
  unfold block_turn, leave, again. destruct (Z.leb_spec (capacity o) (produced o)); [intros [= <- <- <-]; split; [done|unfold room; lia]|].
  destruct (block_stage (ctl s)).
  - unfold block_symbol, leave, again. destruct (decode_symbol _ _ _) as [[[v| |m] r1]|]; cbn [mbind option_bind]; [|not_two..|done].
    destruct (v <? 256).
    + destruct (put_output_byte _ _ _) as [[[ok o1] s2]|] eqn:Ep; cbn [mbind option_bind]; [|done].
      destruct (put_output_full _ _ _ _ _ _ Ep) as [Hc Hr]. destruct ok; cbn [negb]; [by intros [= <- <- <-]|].
      intros [= <- <- <-]. by eapply refused_full.
    + destruct (_ =? _); [not_two|]. destruct (_ || _); not_two.
  - unfold block_len_extra, leave, again. destruct (at_index length_bits _); cbn [mbind option_bind]; [|done].
    destruct (at_index _ _); cbn [mbind option_bind]; [|done]. destruct (read_bits _ _ _) as [[v| |m] r1]; not_two.
  - unfold block_dist_symbol, leave, again. destruct (decode_symbol _ _ _) as [[[v| |m] r1]|]; cbn [mbind option_bind]; [|not_two..|done].
    destruct (_ || _); not_two.
  - unfold block_dist_extra, leave, again. destruct (at_index dist_bits _); cbn [mbind option_bind]; [|done].
    destruct (at_index _ _); cbn [mbind option_bind]; [|done]. destruct (read_bits _ _ _) as [[v| |m] r1]; [|not_two..].
    destruct (_ || _); not_two.
  - apply match_copy_full.
Qed.

Lemma process_block_full o s o' s' rc :
  process_block_data o s = Some ((o', s'), rc) -> full_if_two o o' (Some rc).
Proof.
  intros Hp. refine (turns_post block_turn (fun x => capacity x.1 = capacity o)
    (fun x rc => full_if_two o x.1 (Some rc)) _ (o, s) (o', s') rc _ eq_refl Hp).
  intros [o1 s1] [o2 s2] r Hc Ht. cbn [fst] in *. destruct (block_turn_full _ _ _ _ _ Ht) as [Hc2 Hr].
  destruct r; [split; [congruence|done]|congruence].
Qed.

Definition reports (o o' : sink) (st : option od_zlib_status) : Prop :=
  capacity o' = capacity o /\ (st = Some OD_ZLIB_STATUS_OUTPUT_READY -> ~ room o' \/ produced o' <> 0).

Lemma produced_reports o o' : capacity o' = capacity o -> reports o o' (Some (produced_status o')).
Proof. intros Hc. split; [done|]. unfold produced_status. destruct (Z.eqb_spec (produced o') 0); [done|by right]. Qed.

Ltac quiet := intros [= <- <- <-]; by split.

Lemma starved_reports o s : reports o o (Some (starved_status s)).
Proof. split; [done|]. unfold starved_status. by destruct (bool_decide _). Qed.

Lemma poll_turn_reports o s o' s' st : poll_turn (o, s) = Some ((o', s'), st) -> reports o o' st.
Proof.
  unfold poll_turn, poll_stage, go, stop. destruct (Z.leb_spec (capacity o) (produced o)).
  { intros [= <- <- <-]. split; [done|]. left. unfold room. lia. }
  destruct (stage (ctl s)).
  - destruct (next_byte s) as [[v| |m] s1]; intros [= <- <- <-]; [done|apply starved_reports..].
  - unfold poll_flg, go, stop. destruct (next_byte s) as [[v| |m] s1]; [|intros [= <- <- <-]; apply starved_reports..].
    destruct (od_zlib_header_check _ _); quiet.
  - destruct (read_bit _) as [[v| |m] x]; intros [= <- <- <-]; [done|apply starved_reports..].
  - unfold poll_type, go, stop. destruct (read_bits _ _ _) as [[v| |m] x]; [|intros [= <- <- <-]; apply starved_reports..].
    repeat (destruct (_ =? _); [quiet|]). quiet.
  - destruct (process_dynamic_trees s) as [[s1 rc]|]; cbn [mbind option_bind]; [|done]. destruct (_ <? _); [quiet|]. destruct (_ =? _); quiet.
  - destruct (process_stored_header s) as [s1 rc]. destruct (_ <? _); [quiet|]. destruct (_ =? _); quiet.
  - destruct (process_stored_data o s) as [[[o1 s1] rc]|] eqn:Ep; cbn [mbind option_bind]; [|done].
    destruct (stored_data_full _ _ _ _ _ _ Ep) as [Hc Hr]. destruct (_ <? _); [quiet|].
    destruct (_ =? 0); [intros [= <- <- <-]; by apply produced_reports|].
    destruct (Z.eqb_spec rc 2) as [->|]; [|quiet]. intros [= <- <- <-]. split; [done|]. left. by apply Hr.
  - destruct (process_block_data o s) as [[[o1 s1] rc]|] eqn:Ep; cbn [mbind option_bind]; [|done].
    destruct (process_block_full _ _ _ _ _ Ep) as [Hc Hr]. destruct (_ <? _); [quiet|].
    destruct (_ =? 0); [intros [= <- <- <-]; by apply produced_reports|].
    destruct (Z.eqb_spec rc 2) as [->|]; [|quiet]. intros [= <- <- <-]. split; [done|]. left. by apply Hr.
  - destruct (process_trailer s) as [s1 rc]. destruct (_ <? _); [quiet|]. destruct (_ =? _); [|quiet].
    intros [= <- <- <-]. by apply produced_reports.
  - quiet.
  - quiet.
Qed.

#[export] Instance zlib_inflater_progress {A : Type} : InflaterProgress (inflate * A).
Proof.
  intros [s a] [s' a'] cap out Hcap. cbn [od_inflate_app_poll zlib_inflater fst snd]. unfold od_zlib_stream_poll.
  destruct (negb _); [done|]. destruct (bool_decide _); [done|]. destruct (bool_decide _); [done|].
  destruct (turns _ _ _) as [[[o' s1] st]|] eqn:Et; cbn [mbind option_bind]; [|done].
  assert (Hr : reports {| capacity := cap; written := [] |} o' (Some st)).
  { refine (turns_post poll_turn (fun x => capacity x.1 = cap) (fun x st => reports {| capacity := cap; written := [] |} x.1 (Some st))
      _ _ (o', s1) st _ _ Et); [|done].
    intros [o1 s2] [o2 s3] r Hc Ht. cbn [fst] in *. destruct (poll_turn_reports _ _ _ _ _ Ht) as [Hc2 Hr].
    destruct r; [split; [cbn; congruence|done]|congruence]. }
  intros [= -> <- _ _]. destruct Hr as [Hc Hr]. specialize (Hr eq_refl). unfold room, produced in Hr. cbn [capacity] in Hc.
  destruct (written o'); [cbn in Hr; lia|done].
Qed.

(** A client that keeps what it is given, and may refuse it. *)
Definition keep (accept : bytes -> bytes -> bool) (b : bytes) (s : inflate * bytes) : bool * (inflate * bytes) :=
  if accept s.2 b then (true, (s.1, s.2 ++ b)) else (false, s).

(** Chunks pushed one after the other, until the pump is done or refuses. *)
Fixpoint pump_chunks (accept : bytes -> bytes -> bool) (cap : Z) (cs : list (bytes * bool)) (p : pump) (s : inflate * bytes)
  : option (od_zlib_pump_status * pump * (inflate * bytes)) :=
  match cs with
  | [] => Some (OD_ZLIB_PUMP_MORE, p, s)
  | (b, final) :: cs =>
      '(st, p, s) ← od_zlib_pump_push p s (of_bytes b) final true cap (Some (keep accept));
      match st with OD_ZLIB_PUMP_MORE => pump_chunks accept cap cs p s | _ => Some (st, p, s) end
  end.

(** A pump between pushes: what was delivered is what the stream has written. *)
Record pumping (p : pump) (s : inflate * bytes) : Prop := {
  pm_core : core s.2 s.1;
  pm_error : s_pump_error p = Pe_none;
  pm_expected : s_expected_output p = image_size;
  pm_emitted : s_emitted_output p = len s.2;
}.

Definition pumped (o : od_zlib_pump_status * pump * (inflate * bytes)) : Prop :=
  let '(st, p, s) := o in
  len s.2 <= image_size /\
  match st with
  | OD_ZLIB_PUMP_MORE => pumping p s
  | OD_ZLIB_PUMP_DONE => len s.2 = image_size /\ trailer_value (trl s.1) = adler32 s.2
  | OD_ZLIB_PUMP_ERROR => s_pump_error p <> Pe_none
  end.

Lemma pumped_error p s m : len s.2 <= image_size -> pumped (OD_ZLIB_PUMP_ERROR, with_error p m, s).
Proof. by split. Qed.

(** A delivery: refused, or kept. *)
Lemma deliver_keep accept cap p z c new :
  s_expected_output p = image_size -> s_emitted_output p = len c -> s_pump_error p = Pe_none ->
  len c <= image_size ->
  let '(ok, p', s') := deliver (keep accept) p (z, c) cap new in
  if ok then s' = (z, c ++ new) /\ len (c ++ new) <= image_size /\ s_expected_output p' = image_size /\
             s_emitted_output p' = len (c ++ new) /\ s_pump_error p' = Pe_none
  else s' = (z, c) /\ s_pump_error p' <> Pe_none.
Proof.
  intros He Hm Hp Hle. pose proof image_range. unfold deliver. destruct (cap <? len new); [done|].
  destruct (Z.eqb_spec (len new) 0) as [Hz|Hz].
  { destruct new; [|cbn in Hz; lia]. rewrite app_nil_r. split; [done|]. repeat split; done. }
  rewrite He, Hm. destruct (Z.ltb_spec image_size (len c)); [lia|]. cbn [orb].
  rewrite wrap_id by (unfold fits; change (2 ^ 32) with 4294967296; lia).
  destruct (Z.ltb_spec (image_size - len c) (len new)); [done|]. unfold keep. cbn [fst snd].
  destruct (accept c new); [|done]. cbn [with_emitted s_expected_output s_emitted_output s_pump_error].
  rewrite length_app, wrap_id by (unfold fits; change (2 ^ 32) with 4294967296; lia).
  split; [done|]. split; [lia|]. split; [done|]. split; [lia|done].
Qed.

Lemma pump_loop_pumped accept fuel final cap p s :
  0 < cap -> pumping p s -> (Z.to_nat (image_size - len s.2) < fuel)%nat ->
  exists o, pump_loop fuel (keep accept) final cap p s = Some o /\ pumped o.
Proof.
  intros Hcap. revert p s. induction fuel as [|fuel IH]; intros p [z c] [Hc Hp He Hm] Hf; [lia|]. cbn [fst snd] in *.
  cbn [pump_loop od_inflate_app_poll zlib_inflater fst snd].
  destruct (poll_total c z cap (or_intror Hc)) as ([[st new] z'] & -> & Hlen & Hs & Hst).
  pose proof (hist_room _ _ (core_hist _ _ Hc)) as Hle.
  pose proof (deliver_keep accept cap p z' c new He Hm Hp Hle) as Hd.
  destruct (deliver (keep accept) p (z', c) cap new) as [[ok p'] s']. destruct ok; cbn [negb].
  2: { destruct Hd as [-> Hd]. eexists. split; [done|]. by split. }
  destruct Hd as (-> & Hle' & He' & Hm' & Hp'). destruct st.
  - destruct Hst as [Hst Hc']. destruct final; [by eexists; split; [done|]; apply pumped_error|].
    eexists. split; [done|]. split; [done|]. by split.
  - destruct Hst as [Hn Hc']. apply IH; [by split|]. cbn [snd]. specialize (Hn Hcap). destruct new; [done|].
    rewrite length_app in *. cbn [length] in *. lia.
  - destruct Hst as (Hd & Hi & Ht). rewrite He', Hm'. destruct (_ || _); [by eexists; split; [done|]; apply pumped_error|].
    eexists. split; [done|]. by split.
  - eexists. split; [done|]. by apply pumped_error.
Qed.

Lemma pump_push_pumped accept cap p s b final :
  0 < cap -> bytes_ok b -> pumping p s ->
  exists o, od_zlib_pump_push p s (of_bytes b) final true cap (Some (keep accept)) = Some o /\ pumped o.
Proof.
  intros Hcap Hb Hpm. pose proof Hpm as [Hc Hp He Hm]. unfold od_zlib_pump_push. rewrite Hp. cbn [od_span_valid of_bytes od_span_make sp is_null negb orb
    od_mut_span_valid]. destruct (Z.eqb_spec cap 0); [lia|].
  cbn [od_inflate_app_push zlib_inflater sp sn od_span_make of_bytes].
  pose proof (push_core s.2 s.1 b (len b) final Hc Hb) as Hpush.
  pose proof (hist_room _ _ (core_hist _ _ Hc)) as Hle.
  destruct (od_zlib_stream_push s.1 (Some b) (len b) final) as [st z].
  assert (Hl : core s.2 z -> exists o, pump_loop (pump_fuel p) (keep accept) final cap p (z, s.2) = Some o /\ pumped o).
  { intros Hz. apply pump_loop_pumped; [done|by split|]. cbn [snd]. unfold pump_fuel. rewrite He, Hm. lia. }
  destruct st; [apply Hl, Hpush..|]. eexists. split; [done|]. by apply pumped_error.
Qed.

(** The pump over this inflater delivers what the stream says: whatever the
    chunks pushed after a reset, every push returns; the client never gets more
    than the declared size; when the pump reports DONE the client holds exactly
    that many bytes and their Adler-32 is the one in the trailer; and while it
    asks for more, what the client holds is all the inflater has written. *)
Theorem pump_inflates (accept : bytes -> bytes -> bool) (cap : Z) (cs : list (bytes * bool)) (p : pump) (z : inflate) :
  0 < cap -> Forall (fun c => bytes_ok c.1) cs ->
  let '(p, s) := od_zlib_pump_reset p (z, []) image_size in
  exists st p' z' c, pump_chunks accept cap cs p s = Some (st, p', (z', c)) /\ len c <= image_size /\
    match st with
    | OD_ZLIB_PUMP_MORE => od_zlib_stream_output_count z' = len c /\ adler (hist z') = adler32 c
    | OD_ZLIB_PUMP_DONE => len c = image_size /\ trailer_value (trl z') = adler32 c
    | OD_ZLIB_PUMP_ERROR => s_pump_error p' <> Pe_none
    end.
Proof.
  intros Hcap Hcs. unfold od_zlib_pump_reset. cbn [od_inflate_app_reset zlib_inflater snd].
  assert (Hpm : pumping {| s_pump_error := Pe_none; s_expected_output := image_size; s_emitted_output := 0 |}
                  (od_zlib_stream_reset image_size, [])) by (split; try done; apply reset_core).
  revert Hpm. generalize {| s_pump_error := Pe_none; s_expected_output := image_size; s_emitted_output := 0 |}.
  generalize (od_zlib_stream_reset image_size, @nil Z).
  induction Hcs as [|[b final] cs Hb Hcs IH]; intros s q Hpm; cbn [pump_chunks].
  - pose proof (core_hist _ _ (pm_core _ _ Hpm)) as Hh. exists OD_ZLIB_PUMP_MORE, q, s.1, s.2.
    split; [by rewrite <- surjective_pairing|]. split; [apply Hh|]. split; apply Hh.
  - destruct (pump_push_pumped accept cap q s b final Hcap Hb Hpm) as ([[st p'] [z' c]] & -> & Hle & Hst).
    cbn [mbind option_bind fst snd] in *. destruct st; [by apply IH|by exists OD_ZLIB_PUMP_DONE, p', z', c|by exists OD_ZLIB_PUMP_ERROR, p', z', c].
Qed.
End Client.

(** ** Examples *)

(** A 512-byte window, and "abcabcabcabcabcabcabc" in one block of fixed codes:
    three literals and a match that overlaps itself. *)
Definition demo_config : ZlibConfig.
Proof. refine {| OPENDISPLAY_ZLIB_WINDOW_BITS := 9 |}. done. Defined.

Definition demo_image : Image.
Proof. refine {| image_size := 21 |}. done. Defined.

#[local] Existing Instances demo_config demo_image.

Definition demo_stream : bytes := [24; 211; 75; 76; 74; 78; 196; 64; 0; 88; 117; 8; 11].

Definition demo_text : bytes := concat (replicate 7 [97; 98; 99]).

Lemma inflate_safe_witness :
  exists s, run_calls [Push (take 6 demo_stream) false; Poll 8; Push (drop 6 demo_stream) true; Poll 8; Poll 8; Poll 8]
              (od_zlib_stream_reset image_size) = Some (demo_text, s) /\
    stage (ctl s) = ST_DONE /\ trailer_value (trl s) = adler32 demo_text.
Proof.
  destruct (inflate_safe
    [Push (take 6 demo_stream) false; Poll 8; Push (drop 6 demo_stream) true; Poll 8; Poll 8; Poll 8]) as (out & s & Hr & Hs).
  - repeat constructor; done.
  - pose proof (f_equal (option_map (fun x => (x.1, stage (ctl x.2)))) Hr) as Hv. cbn [option_map fst snd] in Hv.
    assert (Ho : out = demo_text /\ stage (ctl s) = ST_DONE) by (vm_compute in Hv; injection Hv as Hv1 Hv2; split; [exact (eq_sym Hv1)|exact (eq_sym Hv2)]).
    destruct Ho as [-> Hd]. exists s. split; [exact Hr|]. split; [exact Hd|]. apply Hs; [congruence|done].
Defined.

Lemma bad_header_refused_witness :
  exists s, run_calls [Push [24; 212; 75] false; Poll 8; Push [76] true; Poll 8]
              (od_zlib_stream_reset image_size) = Some ([], s) /\ stage (ctl s) = ST_ERROR.
Proof.
  apply (bad_header_refused 24 212 [75] false 8 [Push [76] true; Poll 8]).
  - unfold is_byte. lia.
  - unfold is_byte. lia.
  - lia.
  - intros (Hm & _). vm_compute in Hm. discriminate.
Defined.

Lemma pump_inflates_witness :
  exists p z, pump_chunks (fun _ _ => true) 4 [(take 5 demo_stream, false); (drop 5 demo_stream, true)]
    (od_zlib_pump_reset pump_init (od_zlib_stream_reset 21, @nil Z) image_size).1
    (od_zlib_stream_reset 21, []) = Some (OD_ZLIB_PUMP_DONE, p, (z, demo_text)) /\
    trailer_value (trl z) = adler32 demo_text.
Proof.
  pose proof (pump_inflates (fun _ _ => true) 4 [(take 5 demo_stream, false); (drop 5 demo_stream, true)]
    pump_init (od_zlib_stream_reset 21) ltac:(lia) ltac:(repeat constructor; done)) as Hp.
  cbn [od_zlib_pump_reset od_inflate_app_reset zlib_inflater snd] in Hp. destruct Hp as (st & p & z & c & Hr & Hle & Hst).
  pose proof (f_equal (option_map (fun x => (x.1.1, x.2.2))) Hr) as Hv. cbn [option_map fst snd] in Hv.
  assert (Hx : st = OD_ZLIB_PUMP_DONE /\ c = demo_text)
    by (vm_compute in Hv; injection Hv as Hv1 Hv2; split; [exact (eq_sym Hv1)|exact (eq_sym Hv2)]).
  destruct Hx as [-> ->]. exists p, z. split; [exact Hr|apply Hst].
Defined.

End Inflater.
