(* ===== verification/InflateChunks.v ===== *)
(** The inflater's result does not depend on how its input is cut into pushes
    or how large the buffers of its polls are: an interrupted run, resumed, does
    what the uninterrupted run does. *)

From stdpp Require Import strings.
From S2P Require Import Prelude Span Pump Inflate InflateRead InflateSafe InflateRun Inflater.
Import Span Pump Inflate InflateRead InflateSafe InflateRun Inflater.

Module InflateChunks.

(** ** Loops and their fuel *)

Lemma turns_more {S R : Type} (body : S -> option (S * option R)) n k s r :
  turns n body s = Some r -> (n <= k)%nat -> turns k body s = Some r.
Proof.
  revert k s. induction n as [|n IH]; intros k s Ht Hk; [done|]. destruct k as [|k]; [lia|]. cbn [turns] in *.
  destruct (body s) as [[s1 r1]|]; cbn [mbind option_bind] in *; [|done]. destruct r1; [done|]. apply IH; [done|lia].
Qed.

(** The loop leaves with [r], whatever the fuel. *)
Definition ends {S R : Type} (body : S -> option (S * option R)) (s : S) (r : S * R) : Prop :=
  exists n, turns n body s = Some r.

Lemma ends_unique {S R : Type} (body : S -> option (S * option R)) n s r r' :
  ends body s r -> turns n body s = Some r' -> r' = r.
Proof.
  intros [k Hk] Hn. pose proof (turns_more body n (n + k) s r' Hn ltac:(lia)) as H1.
  pose proof (turns_more body k (n + k) s r Hk ltac:(lia)) as H2. congruence.
Qed.

Lemma ends_step {S R : Type} (body : S -> option (S * option R)) s s' r :
  body s = Some (s', None) -> ends body s' r -> ends body s r.
Proof. intros Hb [n Hn]. exists (Datatypes.S n). cbn [turns]. by rewrite Hb. Qed.

Lemma ends_now {S R : Type} (body : S -> option (S * option R)) s s' r :
  body s = Some (s', Some r) -> ends body s (s', r).
Proof. intros Hb. exists 1%nat. cbn [turns]. by rewrite Hb. Qed.

(** Only the first turn matters. *)
Lemma ends_same {S R : Type} (body : S -> option (S * option R)) s s' r :
  body s = body s' -> ends body s' r -> ends body s r.
Proof. intros Hb [[|n] Hn]; [done|]. exists (Datatypes.S n). cbn [turns] in *. by rewrite Hb. Qed.

(** ** More input, the last of it *)

Section Feed.
(** The input still to be pushed. *)
Variable more : bytes.

Definition feed_source (x : bit_source) : bit_source :=
  {| input := input x ++ more; input_final := true; bit_tag := bit_tag x; bit_count := bit_count x |}.

Definition feed_reader (r : code_reader) : code_reader := on_source r (feed_source (src r)).

Definition feed (s : inflate) : inflate := set_rd s (feed_reader (rd s)).

(** What a read does with the rest of the input at hand: the same when it gets
    its value, and what the interrupted read does next when it starves. *)
Lemma read_byte_feed x :
  let '(v, x') := read_byte x in
  match v with Got b => read_byte (feed_source x) = (Got b, feed_source x') | Starved => x' = x | Failed _ => True end.
Proof. unfold read_byte, feed_source. destruct x as [[|b rest] [] t c]; done. Qed.

Lemma read_bit_feed x :
  let '(v, x') := read_bit x in
  match v with Got b => read_bit (feed_source x) = (Got b, feed_source x') | Starved => x' = x | Failed _ => True end.
Proof.
  unfold read_bit. change (bit_count (feed_source x)) with (bit_count x). destruct (bit_count x =? 0); [|done].
  pose proof (read_byte_feed x) as Hb. destruct (read_byte x) as [[b| |m] x1]; [|done|done]. rewrite Hb. done.
Qed.

(** A field read: [num] bits, of which the pending state says how many are in. *)
Lemma bits_loop_feed n x b num :
  read_bits_num b = num -> num < 256 -> 0 <= read_bits_pos b -> num = read_bits_pos b + Z.of_nat n ->
  let '(v, x', b') := bits_loop n x b in
  match v with
  | Got a => bits_loop n (feed_source x) b = (Got a, feed_source x', b')
  | Starved =>
      read_bits_num b' = num /\ read_bits_active b' = read_bits_active b /\
      bits_loop n (feed_source x) b = bits_loop (Z.to_nat (num - read_bits_pos b')) (feed_source x') b'
  | Failed _ => True
  end.
Proof.
  intros Hn Hmax. revert x b Hn. induction n as [|n IH]; intros x b Hn Hp He; cbn [bits_loop]; [done|].
  pose proof (read_bit_feed x) as Hb. destruct (read_bit x) as [[bit| |m] x1]; [|subst x1|done].
  - rewrite Hb. assert (Hpos : read_bits_pos (bits_add b bit) = read_bits_pos b + 1) by (apply wrap_id; unfold fits; lia).
    specialize (IH x1 (bits_add b bit) Hn). rewrite Hpos in IH. specialize (IH ltac:(lia) ltac:(lia)).
    destruct (bits_loop n x1 (bits_add b bit)) as [[v x2] b2]. destruct v; done.
  - split; [done|]. split; [done|]. replace (Z.to_nat (num - read_bits_pos b)) with (S n) by lia. done.
Qed.

Lemma read_bits_feed num base r :
  field_ok num base -> bits_ok (Some (num, base)) (rbits r) ->
  let '(v, r') := read_bits num base r in
  match v with
  | Got a => read_bits num base (feed_reader r) = (Got a, feed_reader r')
  | Starved => read_bits num base (feed_reader r) = read_bits num base (feed_reader r')
  | Failed _ => True
  end.
Proof.
  intros [Hnum Hbase] Hb. unfold read_bits. cbn [rbits feed_reader on_source src rsym].
  assert (Hs : exists b0, bits_start (rbits r) num base = b0 /\ read_bits_num b0 = num /\ read_bits_active b0 = true /\
    0 <= read_bits_pos b0 <= num).
  { eexists. split; [done|]. unfold bits_start. destruct (read_bits_active (rbits r)) eqn:Ea.
    - destruct (Hb Ea) as (He & Hp & _). injection He as He _. split; [done|]. split; [done|]. lia.
    - cbn [read_bits_num read_bits_active read_bits_pos]. rewrite wrap_id by (unfold fits; lia). split; [done|]. split; [done|]. lia. }
  destruct Hs as (b0 & -> & Hn0 & Ha0 & Hp0).
  pose proof (bits_loop_feed (Z.to_nat (read_bits_num b0 - read_bits_pos b0)) (src r) b0 num Hn0 ltac:(lia) ltac:(lia) ltac:(lia)) as Hl.
  destruct (bits_loop _ (src r) b0) as [[v x'] b']. destruct v as [a| |m]; [by rewrite Hl| |done].
  destruct Hl as (Hn' & Ha' & ->). unfold bits_start. cbn [rbits src rsym]. rewrite Ha', Ha0. by rewrite Hn'.
Qed.

(** *** Symbols *)

Lemma symbol_loop_more n k c size x y r :
  symbol_loop n c size x y = Some r -> (n <= k)%nat -> symbol_loop k c size x y = Some r.
Proof.
  revert k x y. induction n as [|n IH]; intros k x y Hs Hk; [done|]. destruct k as [|k]; [lia|]. cbn [symbol_loop] in *.
  destruct (read_bit x) as [[bit| |m] x1]; [|done|done]. destruct (_ =? 16); [done|].
  destruct (at_index _ _); cbn [mbind option_bind] in *; [|done]. destruct (0 <=? _); [apply IH; [done|lia]|done].
Qed.

Lemma symbol_loop_feed n c size x y :
  match symbol_loop n c size x y with
  | Some (Got a, x', y') => symbol_loop n c size (feed_source x) y = Some (Got a, feed_source x', y')
  | Some (Starved, x', y') =>
      sym_active y' = sym_active y /\
      exists k, (k <= n)%nat /\ Z.of_nat n - Z.of_nat k = sym_len y' - sym_len y /\ symbol_loop n c size (feed_source x) y = symbol_loop k c size (feed_source x') y'
  | _ => True
  end.
Proof.
  revert x y. induction n as [|n IH]; intros x y; cbn [symbol_loop]; [done|].
  pose proof (read_bit_feed x) as Hb. destruct (read_bit x) as [[bit| |m] x1]; [rewrite Hb|subst x1|done].
  - destruct (_ =? 16); [done|]. destruct (at_index (table c) _) as [k|]; cbn [mbind option_bind]; [|done].
    destruct (0 <=? _).
    + specialize (IH x1 (symbol_add y bit k)). destruct (symbol_loop n _ _ x1 _) as [[[[a| |m] x'] y']|]; [done| |done|done].
      destruct IH as (Ha & j & Hle & Hj & ->). split; [done|]. exists j. split; [lia|]. split; [cbn [symbol_add sym_len] in Hj; lia|done].
    + unfold symbol_value. destruct (_ || _); [done|]. destruct (at_index _ _); cbn [mbind option_bind]; done.
  - split; [done|]. exists (S n). split; [lia|]. split; [lia|done].
Qed.

Lemma decode_symbol_feed c n size r :
  code_shape n c -> size <= n -> source_ok (src r) -> symbol_ok (rsym r) ->
  exists v r', decode_symbol c size r = Some (v, r') /\
    match v with
    | Got a => decode_symbol c size (feed_reader r) = Some (Got a, feed_reader r')
    | Starved => decode_symbol c size (feed_reader r) = decode_symbol c size (feed_reader r')
    | Failed _ => True
    end.
Proof.
  intros [Ht Hn] Hsz Hx Hy. destruct (decode_symbol_spec c size r Ht ltac:(lia) Hx Hy) as (v & r' & Hd & (Hx' & _) & _ & Hpost).
  exists v, r'. split; [exact Hd|]. unfold decode_symbol in *. cbn [src rsym rbits feed_reader on_source].
  set (y0 := symbol_start (rsym r)) in *.
  assert (Hy0 : sym_active y0 = true /\ 0 <= sym_len y0).
  { unfold y0, symbol_start. destruct (sym_active (rsym r)) eqn:Ea; [split; [done|by apply Hy]|done]. }
  pose proof (symbol_loop_feed 16 c size (src r) y0) as Hl.
  destruct (symbol_loop 16 c size (src r) y0) as [[[w x'] y']|]; cbn [mbind option_bind] in Hd; [|done].
  injection Hd as -> <-. destruct v as [a| |m]; [by rewrite Hl| |done].
  destruct Hl as (Ha & k & Hle & Hk & ->). destruct Hy0 as [Hact Hlen0]. cbn [src rsym rbits] in *. unfold symbol_start. rewrite Ha, Hact.
  specialize (Hpost ltac:(by rewrite Ha)).
  destruct (symbol_loop_spec k c size (feed_source x') y' Ht ltac:(lia) Hx' Hpost ltac:(lia)) as (v2 & x2 & y2 & Hr2 & _).
  rewrite Hr2, (symbol_loop_more k 16 c size (feed_source x') y' _ Hr2 ltac:(lia)). done.
Qed.

(** ** The dynamic code tables *)

Section Stream.
Context `{ZlibConfig, Image}.

(** What a step of [process_dynamic_trees] does with the rest of the input. *)
Definition dyn_feeds (turn : inflate -> option (inflate * option Z)) (s s' : inflate) (r : option Z) : Prop :=
  match r with
  | None => turn (feed s) = Some (feed s', None)
  | Some rc =>
      (rc = 1 -> turn (feed s) = Some (feed s', Some 1)) /\
      (rc = 0 -> turn (feed s) = dyn_turn (feed s'))
  end.

Lemma stop_code_error s m : stop_code (set_error s m) = -1.
Proof. done. Qed.

Lemma dyn_field_feed num base k s :
  field_ok num base -> bits_ok (Some (num, base)) (rbits (rd s)) ->
  (forall s a, k (feed s) a = (feed (k s a).1, (k s a).2)) ->
  (forall s a, (k s a).2 = None \/ (k s a).2 = Some (-1)) ->
  let '(s', r) := dyn_field num base k s in
  match r with
  | None => dyn_field num base k (feed s) = (feed s', None)
  | Some rc =>
      (rc = 1 -> dyn_field num base k (feed s) = (feed s', Some 1)) /\
      (rc = 0 -> dyn_field num base k (feed s) = dyn_field num base k (feed s') /\ exists x, s' = set_rd s x)
  end.
Proof.
  intros Hf Hb Hk Hr. unfold dyn_field. pose proof (read_bits_feed num base (rd s) Hf Hb) as Hl.
  destruct (read_bits num base (rd s)) as [[a| |m] r]; cbn [after_read].
  - assert (Hfd : read_bits num base (rd (feed s)) = (Got a, feed_reader r)) by exact Hl. rewrite Hfd. cbn [after_read].
    change (set_rd (feed s) (feed_reader r)) with (feed (set_rd s r)). rewrite Hk. destruct (Hr (set_rd s r) a) as [He|He];
      destruct (k (set_rd s r) a) as [s' o]; cbn [fst snd] in *; subst o; [done|]. split; intros [=].
  - split; [unfold stop_code; destruct (bool_decide _); intros [=]|]. intros _. split; [|by eexists].
    assert (Hfd : read_bits num base (rd (feed s)) = read_bits num base (rd (feed (set_rd s r)))) by exact Hl. rewrite Hfd. done.
  - rewrite stop_code_error. split; intros [=].
Qed.

Lemma read_clens_feed n s :
  source_ok (src (rd s)) -> bits_ok (Some (3, 0)) (rbits (rd s)) -> dynamic_stage (ctl s) = DYN_READ_CLEN ->
  Z.of_nat n = hclen (dyn s) - dyn_i (dyn s) ->
  match read_clens n s with Some (s', r) => dyn_feeds (read_clens n) s s' r | None => True end.
Proof.
  revert s. induction n as [|n IH]; intros s Hx Hb Hst Hn; cbn [read_clens]; [done|].
  pose proof (read_bits_feed 3 0 (rd s) ltac:(split; lia) Hb) as Hl.
  pose proof (read_bits_spec 3 0 (rd s) Hx ltac:(split; lia) Hb) as Hs.
  destruct (read_bits 3 0 (rd s)) as [[a| |m] r] eqn:Er; cbn [after_read].
  - destruct Hs as ((Hx1 & _) & _ & _ & Hact). unfold dyn_feeds. cbn [read_clens].
    assert (Hfd : read_bits 3 0 (rd (feed s)) = (Got a, feed_reader r)) by exact Hl. rewrite Hfd. cbn [after_read].
    change (dyn (set_rd (feed s) (feed_reader r))) with (dyn (set_rd s r)).
    destruct (at_index clcidx _) as [i|]; cbn [mbind option_bind]; [|done]. destruct (put_index _ _ _) as [l|]; cbn [mbind option_bind]; [|done].
    specialize (IH (set_dyn (set_rd s r) (with_lengths (dyn (set_rd s r)) l (dyn_i (dyn (set_rd s r)) + 1) (dyn_num (dyn (set_rd s r)))))).
    apply IH; [exact Hx1|by intros Hon; isimpl; congruence|exact Hst|isimpl; lia].
  - unfold dyn_feeds, stop_code. destruct (bool_decide _); (split; [intros [=]|]); [intros [=]|intros _].
    unfold dyn_turn. change (dynamic_stage (ctl (feed (set_rd s r)))) with (dynamic_stage (ctl s)). rewrite Hst.
    change (hclen (dyn (feed (set_rd s r))) - dyn_i (dyn (feed (set_rd s r)))) with (hclen (dyn s) - dyn_i (dyn s)).
    replace (Z.to_nat (hclen (dyn s) - dyn_i (dyn s))) with (S n) by lia. cbn [read_clens].
    assert (Hfd : read_bits 3 0 (rd (feed s)) = read_bits 3 0 (rd (feed (set_rd s r)))) by exact Hl. rewrite Hfd. done.
  - rewrite stop_code_error. split; intros [=].
Qed.

Lemma read_lengths_feed n s :
  source_ok (src (rd s)) -> symbol_ok (rsym (rd s)) -> code_shape DISTANCE_TRANS (tree s) ->
  dynamic_stage (ctl s) = DYN_READ_LENGTHS -> Z.of_nat n = hlimit (dyn s) - dyn_num (dyn s) ->
  match read_lengths n s with Some (s', r) => dyn_feeds (read_lengths n) s s' r | None => True end.
Proof.
  revert s. induction n as [|n IH]; intros s Hx Hy Ht Hst Hn; cbn [read_lengths]; [done|].
  destruct (decode_symbol_feed (tree s) _ CODELEN_TRANS (rd s) Ht ltac:(done) Hx Hy) as (v & r & Hd & Hl).
  destruct (decode_symbol_spec (tree s) CODELEN_TRANS (rd s)) as (v' & r' & Hd' & (Hx1 & _) & _ & Hy1);
    [apply Ht|destruct Ht as [_ ->]; done|done|done|]. rewrite Hd in Hd'. injection Hd' as <- <-. rewrite Hd. cbn [mbind option_bind].
  destruct v as [a| |m]; cbn [after_read].
  - unfold dyn_feeds. cbn [read_lengths].
    assert (Hfd : decode_symbol (tree (feed s)) CODELEN_TRANS (rd (feed s)) = Some (Got a, feed_reader r)) by exact Hl. rewrite Hfd.
    cbn [mbind option_bind after_read]. change (set_rd (feed s) (feed_reader r)) with (feed (set_rd s r)).
    change (dyn (feed (set_rd s r))) with (dyn (set_rd s r)). destruct (a <? 16).
    + destruct (put_index _ _ _) as [l|]; cbn [mbind option_bind]; [|done].
      apply (IH (set_dyn (set_rd s r) (with_lengths (dyn (set_rd s r)) l (dyn_i (dyn (set_rd s r))) (dyn_num (dyn (set_rd s r)) + 1))));
        [exact Hx1|exact Hy1|exact Ht|exact Hst|isimpl; lia].
    + change (repeat_of (feed (set_rd s r)) a) with (repeat_of (set_rd s r) a).
      destruct (repeat_of _ _) as [[[[fill bits] base]|]|]; cbn [mbind option_bind]; [done| |done]. split; intros [=].
  - unfold dyn_feeds, stop_code. destruct (bool_decide _); (split; [intros [=]|]); [intros [=]|intros _].
    unfold dyn_turn. change (dynamic_stage (ctl (feed (set_rd s r)))) with (dynamic_stage (ctl s)). rewrite Hst.
    change (hlimit (dyn (feed (set_rd s r))) - dyn_num (dyn (feed (set_rd s r)))) with (hlimit (dyn s) - dyn_num (dyn s)).
    replace (Z.to_nat (hlimit (dyn s) - dyn_num (dyn s))) with (S n) by lia. cbn [read_lengths].
    assert (Hfd : decode_symbol (tree (feed s)) CODELEN_TRANS (rd (feed s))
      = decode_symbol (tree (feed (set_rd s r))) CODELEN_TRANS (rd (feed (set_rd s r)))) by exact Hl. rewrite Hfd. done.
  - rewrite stop_code_error. split; intros [=].
Qed.

Lemma repeat_lengths_feed s n :
  match repeat_lengths s n with
  | Some (s', r) => r <> Some 1 /\ r <> Some 0 /\ (r = None -> repeat_lengths (feed s) n = Some (feed s', None))
  | None => True
  end.
Proof.
  unfold repeat_lengths. change (dyn (feed s)) with (dyn s). destruct (_ <? _); [done|].
  destruct (fill_lengths _ _ _ _) as [[l i]|]; cbn [mbind option_bind]; done.
Qed.

Lemma build_dynamic_feed s :
  match build_dynamic s with
  | Some (s', r) => r <> None /\ r <> Some 0 /\ (r = Some 1 -> build_dynamic (feed s) = Some (feed s', Some 1))
  | None => True
  end.
Proof.
  unfold build_dynamic. change (dyn (feed s)) with (dyn s). destruct (at_index _ _); cbn [mbind option_bind]; [|done].
  destruct (_ =? 0); [done|]. change (ltree (feed s)) with (ltree s).
  destruct (build_tree (ltree s) _ _ _) as [[lc [m|]]|]; cbn [mbind option_bind]; [done| |done].
  change (tree (set_trees (feed s) lc (tree (feed s)))) with (tree (set_trees s lc (tree s))).
  destruct (build_tree (tree _) _ _ _) as [[dc [m|]]|]; cbn [mbind option_bind]; done.
Qed.

(** The turn at a stage that reads one field. *)
Ltac field_turn Hfield Hst Hbits :=
  match goal with |- context [dyn_field ?n ?b ?k ?s] =>
    specialize (Hfield n b k ltac:(split; lia) Hbits); destruct (dyn_field n b k s) as [s' r]; apply Hfield;
    [..|intros x; unfold dyn_turn; change (dynamic_stage (ctl (feed (set_rd s x)))) with (dynamic_stage (ctl s)); by rewrite Hst
       |unfold dyn_turn; change (dynamic_stage (ctl (feed s))) with (dynamic_stage (ctl s)); by rewrite Hst]
  end.

Lemma dyn_turn_feed out s :
  core out s -> in_dyn s -> match dyn_turn s with Some (s', r) => dyn_feeds dyn_turn s s' r | None => True end.
Proof.
  intros Hc Hd. pose proof (core_bits out s Hc) as Hbits. pose proof (core_source out s Hc) as Hx. pose proof (core_dyn out s Hc Hd) as Hok.
  unfold pending in Hbits. unfold in_dyn in Hd. rewrite Hd in Hbits.
  assert (Hfield : forall num base k,
    field_ok num base -> bits_ok (Some (num, base)) (rbits (rd s)) ->
    (forall s a, k (feed s) a = (feed (k s a).1, (k s a).2)) -> (forall s a, (k s a).2 = None \/ (k s a).2 = Some (-1)) ->
    (forall x, dyn_turn (feed (set_rd s x)) = Some (dyn_field num base k (feed (set_rd s x)))) ->
    dyn_turn (feed s) = Some (dyn_field num base k (feed s)) ->
    let '(s', r) := dyn_field num base k s in dyn_feeds dyn_turn s s' r).
  { intros num base k Hf Hb Hk Hr Hsame Hself. pose proof (dyn_field_feed num base k s Hf Hb Hk Hr) as Hfd.
    destruct (dyn_field num base k s) as [s' r]. unfold dyn_feeds. rewrite Hself. destruct r as [rc|]; [|by rewrite Hfd].
    destruct Hfd as [H1 H2]. split; [intros Hrc; by rewrite H1|]. intros Hrc. destruct (H2 Hrc) as [-> [x ->]]. by rewrite Hsame. }
  unfold dyn_turn at 1. destruct (dynamic_stage (ctl s)) eqn:Hst; cbn [dyn_ok] in Hok.
  - field_turn Hfield Hst Hbits; [done|by left].
  - field_turn Hfield Hst Hbits; [done|by left].
  - field_turn Hfield Hst Hbits; intros s0 a; cbv zeta.
    + change (dyn (feed s0)) with (dyn s0). by destruct (_ || _).
    + destruct (_ || _); [by right|by left].
  - destruct (clear_lengths _ _ _) as [[l i]|] eqn:El; cbn [mbind option_bind]; [|done].
    unfold dyn_feeds, dyn_turn. change (dyn (feed s)) with (dyn s). change (dynamic_stage (ctl (feed s))) with (dynamic_stage (ctl s)).
    by rewrite Hst, El.
  - destruct Hok as [_ Hi]. pose proof (read_clens_feed (Z.to_nat (hclen (dyn s) - dyn_i (dyn s))) s Hx) as Hl.
    assert (Hb : bits_ok (Some (3, 0)) (rbits (rd s))).
    { intros Hon. destruct (Hbits Hon) as [He Hp]. destruct (_ <? _); [by split|done]. }
    specialize (Hl Hb Hst ltac:(lia)). destruct (read_clens _ s) as [[s' r]|]; [|done].
    assert (Hturn : dyn_turn (feed s) = read_clens (Z.to_nat (hclen (dyn s) - dyn_i (dyn s))) (feed s)).
    { unfold dyn_turn. change (dynamic_stage (ctl (feed s))) with (dynamic_stage (ctl s)). by rewrite Hst. }
    unfold dyn_feeds in *. by rewrite Hturn.
  - destruct (build_tree _ _ _ _) as [[c [m|]]|] eqn:Eb; cbn [mbind option_bind]; [by split|  |done].
    unfold dyn_feeds, dyn_turn. change (dyn (feed s)) with (dyn s). change (dynamic_stage (ctl (feed s))) with (dynamic_stage (ctl s)).
    rewrite Hst. change (tree (feed s)) with (tree s). rewrite Eb. done.
  - destruct Hok as (Hsz & Hlim & Hnum).
    pose proof (read_lengths_feed (Z.to_nat (hlimit (dyn s) - dyn_num (dyn s))) s Hx (core_sym out s Hc) (core_tree out s Hc) Hst ltac:(lia)) as Hl.
    destruct (read_lengths _ s) as [[s' r]|]; [|done].
    assert (Hturn : dyn_turn (feed s) = read_lengths (Z.to_nat (hlimit (dyn s) - dyn_num (dyn s))) (feed s)).
    { unfold dyn_turn. change (dynamic_stage (ctl (feed s))) with (dynamic_stage (ctl s)). by rewrite Hst. }
    unfold dyn_feeds in *. by rewrite Hturn.
  - destruct Hok as [_ (_ & Hr2 & Hr3)]. pose proof (read_bits_feed (dyn_repeat_bits (dyn s)) (dyn_repeat_base (dyn s)) (rd s) ltac:(split; lia) Hbits) as Hl.
    destruct (read_bits _ _ (rd s)) as [[n| |m] r] eqn:Er; cbn [after_read].
    + pose proof (repeat_lengths_feed (set_rd s r) n) as Hrep. destruct (repeat_lengths _ n) as [[s' o]|]; [|done].
      destruct Hrep as (H1 & H2 & H3). destruct o as [rc|]; [split; intros ->; done|]. unfold dyn_feeds, dyn_turn.
      change (dyn (feed s)) with (dyn s). change (dynamic_stage (ctl (feed s))) with (dynamic_stage (ctl s)). rewrite Hst.
      change (rd (feed s)) with (feed_reader (rd s)). rewrite Hl. exact (H3 eq_refl).
    + unfold dyn_feeds, stop_code. destruct (bool_decide _); (split; [intros [=]|]); [intros [=]|intros _].
      unfold dyn_turn. change (dynamic_stage (ctl (feed (set_rd s r)))) with (dynamic_stage (ctl s)).
      change (dynamic_stage (ctl (feed s))) with (dynamic_stage (ctl s)). rewrite Hst.
      change (rd (feed s)) with (feed_reader (rd s)). change (dyn (feed s)) with (dyn s). rewrite Hl. done.
    + split; intros [=].
  - pose proof (build_dynamic_feed s) as Hl. destruct (build_dynamic s) as [[s' [rc|]]|]; [|by destruct Hl|done].
    destruct Hl as (_ & H2 & H3). split; [|by intros ->]. intros ->. unfold dyn_turn.
    change (dynamic_stage (ctl (feed s))) with (dynamic_stage (ctl s)). rewrite Hst. exact (H3 eq_refl).
Qed.

Hypothesis more_ok : bytes_ok more.

Lemma core_feed out s : core out s -> core out (feed s).
Proof.
  intros Hc. pose proof (core_source out s Hc) as Hso. destruct Hc. constructor; isimpl; try done. by apply Forall_app.
Qed.

(** Interrupted, it goes on as it would have; through, it is through. *)
Lemma process_dynamic_feed out s :
  core out s -> in_dyn s ->
  match process_dynamic_trees s with
  | Some (s', rc) =>
      (rc = 1 -> process_dynamic_trees (feed s) = Some (feed s', 1)) /\
      (rc = 0 -> process_dynamic_trees (feed s) = process_dynamic_trees (feed s'))
  | None => True
  end.
Proof.
  intros Hc Hd. unfold process_dynamic_trees.
  assert (Hl : forall n s, core out s -> in_dyn s -> match turns n dyn_turn s with
    | Some (s', rc) => (rc = 1 -> ends dyn_turn (feed s) (feed s', 1)) /\
        (rc = 0 -> core out s' /\ in_dyn s' /\ forall r, ends dyn_turn (feed s') r -> ends dyn_turn (feed s) r)
    | None => True end).
  { induction n as [|n IH]; intros s0 Hc0 Hd0; cbn [turns]; [done|].
    pose proof (dyn_turn_feed out s0 Hc0 Hd0) as Hf. destruct (dyn_turn_spec out s0 Hc0 Hd0) as (s1 & r & Ht & Hb & Hpost).
    rewrite Ht in *. cbn [mbind option_bind]. destruct r as [rc|].
    - destruct Hf as [H1 H2]. split; [intros Hrc; subst rc; apply ends_now, H1, eq_refl|]. intros Hrc. subst rc.
      destruct Hpost as [[? _]|[(_ & Hc1 & Hd1 & _)|[? _]]]; [done| |done]. split; [done|]. split; [done|].
      intros r Hr. eapply ends_same, Hr. by apply H2.
    - destruct Hpost as (Hc1 & Hd1 & _). specialize (IH s1 Hc1 Hd1). destruct (turns n dyn_turn s1) as [[s' rc]|]; [|done].
      destruct IH as [IH1 IH2]. unfold dyn_feeds in Hf. split; [intros Hrc; by eapply ends_step, IH1|]. intros Hrc.
      destruct (IH2 Hrc) as (Hc' & Hd' & Hr). split; [done|]. split; [done|]. intros r Hr'. by eapply ends_step, Hr. }
  specialize (Hl dyn_fuel s Hc Hd). destruct (turns dyn_fuel dyn_turn s) as [[s' rc]|]; [|done]. destruct Hl as [H1 H2].
  destruct (process_dynamic_total out (feed s) (core_feed out s Hc) Hd) as (sa & ra & Ha & _). unfold process_dynamic_trees in Ha. rewrite Ha.
  split; intros Hrc.
  - f_equal. symmetry. apply H1 in Hrc. symmetry. exact (ends_unique _ _ _ _ _ Hrc Ha).
  - destruct (H2 Hrc) as (Hc' & Hd' & Hr).
    destruct (process_dynamic_total out (feed s') (core_feed out s' Hc') Hd') as (sb & rb & Hb & _). unfold process_dynamic_trees in Hb.
    rewrite Hb. f_equal. apply (ends_unique _ _ _ _ _ (Hr _ (ex_intro _ _ Hb)) Ha).
Qed.

(** ** Output into a buffer that is never full *)

Definition ample (out : bytes) : sink := {| capacity := image_size + 1; written := out |}.

Lemma ample_room out s : core out s -> room (ample out).
Proof. intros Hc. pose proof (hist_room _ _ (core_hist _ _ Hc)). unfold room, produced, ample. cbn. lia. Qed.

Lemma extended_unique o o' a b : extended o o' a -> extended o o' b -> a = b.
Proof. intros (_ & Ha & _) (_ & Hb & _). rewrite Ha in Hb. by apply app_inv_head in Hb. Qed.

Lemma put_output_feed out byte o o' s s' :
  core out s -> put_output_byte byte o s = Some (true, o', s') ->
  put_output_byte byte (ample out) (feed s) = Some (true, ample (out ++ [byte]), feed s').
Proof.
  intros Hc. pose proof (ample_room out s Hc) as Hr. unfold put_output_byte, room in *.
  destruct (Z.leb_spec (capacity o) (produced o)); [done|]. destruct (Z.leb_spec (capacity (ample out)) (produced (ample out))); [lia|].
  change (hist (feed s)) with (hist s). destruct (_ <=? _); [done|]. destruct (record_byte _ _); cbn [mbind option_bind]; [|done].
  by intros [= _ <-].
Qed.

Lemma next_byte_feed s :
  let '(v, s') := next_byte s in
  match v with Got b => next_byte (feed s) = (Got b, feed s') | Starved => s' = s | Failed _ => True end.
Proof.
  unfold next_byte. pose proof (read_byte_feed (src (rd s))) as Hb. destruct (read_byte (src (rd s))) as [[b| |m] x]; [|subst x|done].
  - change (src (rd (feed s))) with (feed_source (src (rd s))). rewrite Hb. done.
  - by destruct s as [? [] ? ? ? ? ? ? ?].
Qed.

Lemma stored_header_feed out n s :
  calm out s -> Z.of_nat n = 4 - stored_header_index (sto s) ->
  let '(s', rc) := stored_header_loop n s in
  (rc = 1 -> stored_header_loop n (feed s) = (feed s', 1)) /\
  (rc = 0 -> stored_header_loop n (feed s) = process_stored_header (feed s')).
Proof.
  revert s. induction n as [|n IH]; intros s Hc Hn; cbn [stored_header_loop].
  - change (sto (feed s)) with (sto s). by destruct (negb _).
  - pose proof (next_byte_cases out s Hc) as Hcase. pose proof (next_byte_feed s) as Hf.
    destruct (next_byte s) as [[b| |m] s1]; [|subst s1|done].
    + rewrite Hf. destruct Hcase as (Hb & Hc1 & _ & x & ->). pose proof (core_sto out s (proj1 Hc)) as [Hi Hl].
      pose proof (header_byte_index (sto s) b ltac:(lia)) as Hidx.
      apply (IH (set_sto (set_rd s (on_source (rd s) x)) (stored_header_byte (sto s) b))).
      * apply calm_sto; [done|]. split; [lia|by apply header_byte_len].
      * isimpl. lia.
    + split; [done|]. intros _. unfold process_stored_header. change (sto (feed s)) with (sto s).
      replace (Z.to_nat (4 - stored_header_index (sto s))) with (S n) by lia. done.
Qed.

Lemma stored_data_feed out n o s :
  calm out s -> stage (ctl s) = ST_STORED_DATA -> Z.of_nat n = stored_len (sto s) ->
  match stored_data_loop n o s with
  | Some (o', s', rc) => exists new, extended o o' new /\
      (rc = 1 -> stored_data_loop n (ample out) (feed s) = Some (ample (out ++ new), feed s', 1)) /\
      (rc = 0 \/ rc = 2 -> stored_data_loop n (ample out) (feed s) = process_stored_data (ample (out ++ new)) (feed s'))
  | None => True
  end.
Proof.
  revert out o s. induction n as [|n IH]; intros out o s Hc Hst Hn; cbn [stored_data_loop].
  { exists []. rewrite app_nil_r. split; [apply extended_refl|]. split; [done|]. intros [|]; done. }
  assert (Hself : stored_data_loop (S n) (ample out) (feed s) = process_stored_data (ample out) (feed s)).
  { unfold process_stored_data. change (sto (feed s)) with (sto s). rewrite <- Hn. by rewrite Nat2Z.id. }
  pose proof (ample_room out s (proj1 Hc)) as Hr. cbn [stored_data_loop] in Hself.
  destruct (Z.leb_spec (capacity o) (produced o)) as [Hf|Hro].
  { exists []. rewrite app_nil_r. split; [apply extended_refl|]. split; [done|]. by intros _. }
  pose proof (next_byte_cases out s Hc) as Hcase. pose proof (next_byte_feed s) as Hf.
  destruct (next_byte s) as [[b| |m] s1].
  - rewrite Hf in *. destruct Hcase as (Hb & Hc1 & _ & x & ->). unfold room in Hr.
    destruct (Z.leb_spec (capacity (ample out)) (produced (ample out))); [lia|].
    destruct (put_output_spec out b o _ Hc1 Hb ltac:(isimpl; congruence)) as (r & Hput & Hpost). rewrite Hput. cbn [mbind option_bind].
    destruct Hpost as [o' h Hroom He Hcalm|Hfull|m]; cbn [negb].
    + rewrite (put_output_feed out b o o' _ _ (proj1 Hc1) Hput). cbn [mbind option_bind negb].
      set (s2 := set_hist (set_rd s (on_source (rd s) x)) h) in *.
      pose proof (core_sto _ _ (proj1 Hcalm)) as [Hi Hl]. change (sto s2) with (sto s) in *.
      assert (Hu : u16 (stored_len (sto s) - 1) = stored_len (sto s) - 1) by (apply wrap_id; unfold fits in *; lia).
      specialize (IH (out ++ [b]) o' (set_sto s2 (with_stored (sto s) (stored_header_index (sto s)) (u16 (stored_len (sto s) - 1)) (stored_invlen (sto s))))).
      change (sto (feed s2)) with (sto s). destruct (stored_data_loop n o' _) as [[[o2 s3] rc]|]; [|done].
      destruct IH as (new & He2 & Hx1 & Hx2).
      * apply calm_sto; [done|]. split; [exact Hi|by apply wrap_fits].
      * exact Hst.
      * isimpl. lia.
      * exists (b :: new). split; [exact (extended_trans _ _ _ _ _ He He2)|]. rewrite <- app_assoc in Hx1, Hx2. by split.
    + unfold room in Hfull. lia.
    + exists []. split; [apply extended_refl|]. split; [done|]. intros [|]; done.
  - subst s1. exists []. rewrite app_nil_r. split; [apply extended_refl|]. split; [done|]. by intros _.
  - exists []. split; [apply extended_refl|]. split; [done|]. intros [|]; done.
Qed.

(** *** Compressed blocks *)

(** What [t], the same step on the rest of the input, does. *)
Definition block_feeds (t : block_out) (out : bytes) (s' : inflate) (r : option Z) : Prop :=
  match r with
  | None => t = Some ((ample out, feed s'), None)
  | Some rc =>
      (rc = 1 \/ rc = 3 -> t = Some ((ample out, feed s'), Some rc)) /\
      (rc = 0 \/ rc = 2 -> t = block_turn (ample out, feed s'))
  end.

Lemma block_turn_ample out s s' :
  core out s ->
  block_turn (ample out, s') =
    match block_stage (ctl s') with
    | BLK_SYMBOL => block_symbol (ample out) s'
    | BLK_LEN_EXTRA => block_len_extra (ample out) s'
    | BLK_DIST_SYMBOL => block_dist_symbol (ample out) s'
    | BLK_DIST_EXTRA => block_dist_extra (ample out) s'
    | BLK_MATCH_COPY => match_copy (Z.to_nat (match_len (mat s'))) (ample out) s'
    end.
Proof.
  intros Hc. pose proof (ample_room out s Hc) as Hr. unfold room in Hr. unfold block_turn.
  destruct (Z.leb_spec (capacity (ample out)) (produced (ample out))); [lia|done].
Qed.

Definition block_fed (t : block_out) (out : bytes) (o : sink) (res : block_out) : Prop :=
  match res with
  | Some ((o', s'), r) => exists new, extended o o' new /\ block_feeds t (out ++ new) s' r
  | None => True
  end.

Lemma fed_leave t out o s rc :
  (rc = 1 \/ rc = 3 -> t = Some ((ample out, feed s), Some rc)) -> (rc = 0 \/ rc = 2 -> t = block_turn (ample out, feed s)) ->
  block_fed t out o (leave o s rc).
Proof. intros H1 H2. exists []. rewrite app_nil_r. split; [apply extended_refl|by split]. Qed.

Lemma fed_error t out o s : block_fed t out o (leave o s (-1)).
Proof. apply fed_leave; intros [|]; done. Qed.

Lemma fed_again t out o s : t = Some ((ample out, feed s), None) -> block_fed t out o (again o s).
Proof. intros Ht. exists []. rewrite app_nil_r. split; [apply extended_refl|done]. Qed.

Lemma match_copy_feed out n o s :
  core out s -> in_block s -> block_stage (ctl s) = BLK_MATCH_COPY -> Z.of_nat n = match_len (mat s) ->
  block_fed (match_copy n (ample out) (feed s)) out o (match_copy n o s).
Proof.
  revert out o s. induction n as [|n IH]; intros out o s Hc Hd Hb Hn; cbn [match_copy]; [by apply fed_again|].
  assert (Hself : match_copy (S n) (ample out) (feed s) = block_turn (ample out, feed s)).
  { rewrite (block_turn_ample out s) by done. change (block_stage (ctl (feed s))) with (block_stage (ctl s)). rewrite Hb.
    change (mat (feed s)) with (mat s). rewrite <- Hn. by rewrite Nat2Z.id. }
  pose proof (ample_room out s Hc) as Hr. cbn [match_copy] in Hself.
  destruct (Z.leb_spec (capacity o) (produced o)) as [Hf|Hro]; [apply fed_leave; [intros [|]; done|by intros _]|].
  assert (Hcalm : calm out s) by (apply calm_of_core; [done|]; unfold pending; unfold in_block in Hd; by rewrite Hd, Hb).
  destruct (match_source_spec out s Hc Hb) as [Hi Hv]. pose proof (core_mat out s Hc) as [Hlen Hm]. rewrite Hb in Hm.
  pose proof (core_hist out s Hc) as Hh. unfold room in Hr.
  destruct (Z.leb_spec (capacity (ample out)) (produced (ample out))); [lia|].
  change (window (hist (feed s))) with (window (hist s)). change (match_source (feed s)) with (match_source s).
  rewrite at_index_some by (rewrite (hist_window out _ Hh); lia). cbn [mbind option_bind]. set (byte := (window (hist s)).[match_source s]) in *.
  assert (Hbyte : is_byte byte) by (rewrite Hv; apply Forall_get; [apply Hh|lia]).
  destruct (put_output_spec out byte o s Hcalm Hbyte ltac:(unfold in_block in Hd; congruence)) as (x & Hput & Hx). rewrite Hput.
  cbn [mbind option_bind]. destruct Hx as [o' h _ He Hcm|Hfull|m]; cbn [negb]; [|unfold room in Hfull; lia|apply fed_error].
  rewrite (put_output_feed out byte o o' _ _ Hc Hput). cbn [mbind option_bind negb].
  assert (Hu : u32 (match_len (mat s) - 1) = match_len (mat s) - 1) by (apply wrap_id; unfold fits in *; lia).
  set (s2 := set_mat (set_hist s h) (with_match (mat s) (u32 (match_len (mat s) - 1)) (match_offset (mat s)) (length_sym (mat s)) (dist_sym (mat s)))).
  assert (Hc2 : core (out ++ [byte]) s2).
  { apply calm_mat; [done|]. pose proof (core_mat _ _ (proj1 Hcm)) as [_ Hm'].
    change (block_stage (ctl (set_hist s h))) with (block_stage (ctl s)) in *. rewrite Hb in *.
    split; [apply wrap_fits; lia|exact Hm']. }
  specialize (IH (out ++ [byte]) o' s2 Hc2 Hd Hb ltac:(unfold s2; isimpl; lia)).
  unfold block_fed in *. change (mat (set_hist s h)) with (mat s). change (mat (feed (set_hist s h))) with (mat s).
  change (set_mat (feed (set_hist s h)) (with_match (mat s) (u32 (match_len (mat s) - 1)) (match_offset (mat s)) (length_sym (mat s)) (dist_sym (mat s))))
    with (feed s2). fold s2.
  destruct (match_copy n o' s2) as [[[o2 s3] r]|]; [|done]. destruct IH as (new & He2 & Hf2). exists (byte :: new).
  split; [exact (extended_trans _ _ _ _ _ He He2)|]. rewrite <- app_assoc in Hf2. exact Hf2.
Qed.

(** A read that starves, at a stage whose turn is [f]. *)
Lemma fed_starved out o s r (f : sink -> inflate -> block_out) rc :
  core out s -> block_turn (ample out, feed (set_rd s r)) = f (ample out) (feed (set_rd s r)) ->
  f (ample out) (feed s) = f (ample out) (feed (set_rd s r)) -> rc <> 1 -> rc <> 3 ->
  block_fed (f (ample out) (feed s)) out o (leave o (set_rd s r) rc).
Proof. intros Hc Ht Hf H1 H3. apply fed_leave; [intros [|]; done|]. intros _. congruence. Qed.

Lemma block_symbol_feed out o s :
  core out s -> in_block s -> block_stage (ctl s) = BLK_SYMBOL -> room o ->
  block_fed (block_symbol (ample out) (feed s)) out o (block_symbol o s).
Proof.
  intros Hc Hd Hb Hroom.
  assert (Hp : pending s = None) by (unfold pending; unfold in_block in Hd; by rewrite Hd, Hb).
  destruct (core_decode out s _ _ LITERAL_TRANS Hc Hp (core_ltree out s Hc) ltac:(done)) as (v & r & Hdec & Hr).
  destruct (decode_symbol_feed (ltree s) _ LITERAL_TRANS (rd s) (core_ltree out s Hc) ltac:(done) (core_source out s Hc) (core_sym out s Hc))
    as (v' & r' & Hdec' & Hfeed). rewrite Hdec in Hdec'. injection Hdec' as <- <-.
  unfold block_symbol at 2. rewrite Hdec. cbn [mbind option_bind].
  destruct v as [sym| |m]; cbn [after_read].
  - destruct Hr as (Hle & _ & Hcalm & Hlt). unfold block_symbol.
    assert (Hfd : decode_symbol (ltree (feed s)) LITERAL_TRANS (rd (feed s)) = Some (Got sym, feed_reader r)) by exact Hfeed.
    rewrite Hfd. cbn [mbind option_bind after_read]. change (set_rd (feed s) (feed_reader r)) with (feed (set_rd s r)).
    cbn [after_read] in *. set (s1 := set_rd s r) in *. destruct (sym <? 256).
    { destruct (put_output_spec out (u8 sym) o s1 Hcalm (wrap_fits 8 sym ltac:(lia))) as (x & Hput & Hx);
        [change (stage (ctl s) <> ST_DONE); unfold in_block in Hd; congruence|]. rewrite Hput. cbn [mbind option_bind].
      destruct Hx as [o' h _ He Hcm|Hf|m]; cbn [negb]; [|done|apply fed_error].
      rewrite (put_output_feed out _ o o' _ _ (proj1 Hcalm) Hput). cbn [mbind option_bind negb].
      exists [u8 sym]. split; [done|]. split; [done|]. intros [|]; done. }
    destruct (sym =? 256); [apply fed_leave; [done|intros [|]; done]|].
    destruct (_ || _) eqn:E; [apply fed_error|]. by apply fed_again.
  - apply (fed_starved out o s r block_symbol); [done| | |done|done].
    + rewrite (block_turn_ample out s) by done. change (block_stage (ctl (feed (set_rd s r)))) with (block_stage (ctl s)). by rewrite Hb.
    + unfold block_symbol.
      assert (Hfd : decode_symbol (ltree (feed s)) LITERAL_TRANS (rd (feed s))
        = decode_symbol (ltree (feed (set_rd s r))) LITERAL_TRANS (rd (feed (set_rd s r)))) by exact Hfeed.
      by rewrite Hfd.
  - apply fed_error.
Qed.

Lemma block_len_extra_feed out o s :
  core out s -> in_block s -> block_stage (ctl s) = BLK_LEN_EXTRA ->
  block_fed (block_len_extra (ample out) (feed s)) out o (block_len_extra o s).
Proof.
  intros Hc Hd Hb. pose proof (core_mat out s Hc) as [Hm Hl]. rewrite Hb in Hl.
  pose proof (core_bits out s Hc) as Hbits. unfold pending in Hbits. unfold in_block in Hd. rewrite Hd, Hb in Hbits.
  pose proof (read_bits_feed _ _ (rd s) (length_fields (length_sym (mat s)) ltac:(lia)) Hbits) as Hfeed.
  assert (Hgen : forall o' s', length_sym (mat s') = length_sym (mat s) -> block_len_extra o' s' =
    let '(v, r) := read_bits length_bits.[length_sym (mat s)] length_base.[length_sym (mat s)] (rd s') in
    let s := after_read s' v r in
    match v with
    | Got n => again o' (set_block_stage (set_mat s (with_match (mat s) n (match_offset (mat s)) (length_sym (mat s)) (dist_sym (mat s)))) BLK_DIST_SYMBOL)
    | _ => leave o' s (stop_code s)
    end).
  { intros o' s' He. unfold block_len_extra. rewrite He, !at_index_some by (cbn; lia). done. }
  destruct (read_bits _ _ (rd s)) as [[n| |m] r] eqn:Er; rewrite (Hgen o s eq_refl), Er; cbn [after_read].
  - rewrite (Hgen (ample out) (feed s) eq_refl). change (rd (feed s)) with (feed_reader (rd s)). rewrite Hfeed. by apply fed_again.
  - apply (fed_starved out o s r block_len_extra); [done| | |by unfold stop_code; destruct (bool_decide _)..].
    + rewrite (block_turn_ample out s) by done. change (block_stage (ctl (feed (set_rd s r)))) with (block_stage (ctl s)). by rewrite Hb.
    + rewrite !Hgen by done. change (rd (feed s)) with (feed_reader (rd s)). by rewrite Hfeed.
  - apply fed_error.
Qed.

Lemma block_dist_symbol_feed out o s :
  core out s -> in_block s -> block_stage (ctl s) = BLK_DIST_SYMBOL ->
  block_fed (block_dist_symbol (ample out) (feed s)) out o (block_dist_symbol o s).
Proof.
  intros Hc Hd Hb.
  destruct (decode_symbol_feed (tree s) _ DISTANCE_TRANS (rd s) (core_tree out s Hc) ltac:(done) (core_source out s Hc) (core_sym out s Hc))
    as (v & r & Hdec & Hfeed).
  unfold block_dist_symbol at 2. rewrite Hdec. cbn [mbind option_bind].
  destruct v as [sym| |m]; cbn [after_read].
  - unfold block_dist_symbol.
    assert (Hfd : decode_symbol (tree (feed s)) DISTANCE_TRANS (rd (feed s)) = Some (Got sym, feed_reader r)) by exact Hfeed.
    rewrite Hfd. cbn [mbind option_bind after_read]. destruct (_ || _); [apply fed_error|]. by apply fed_again.
  - apply (fed_starved out o s r block_dist_symbol); [done| | |done|done].
    + rewrite (block_turn_ample out s) by done. change (block_stage (ctl (feed (set_rd s r)))) with (block_stage (ctl s)). by rewrite Hb.
    + unfold block_dist_symbol.
      assert (Hfd : decode_symbol (tree (feed s)) DISTANCE_TRANS (rd (feed s))
        = decode_symbol (tree (feed (set_rd s r))) DISTANCE_TRANS (rd (feed (set_rd s r)))) by exact Hfeed.
      by rewrite Hfd.
  - apply fed_error.
Qed.

Lemma block_dist_extra_feed out o s :
  core out s -> in_block s -> block_stage (ctl s) = BLK_DIST_EXTRA ->
  block_fed (block_dist_extra (ample out) (feed s)) out o (block_dist_extra o s).
Proof.
  intros Hc Hd Hb. pose proof (core_mat out s Hc) as [Hm Hl]. rewrite Hb in Hl.
  pose proof (core_bits out s Hc) as Hbits. unfold pending in Hbits. unfold in_block in Hd. rewrite Hd, Hb in Hbits.
  pose proof (read_bits_feed _ _ (rd s) (dist_fields (dist_sym (mat s)) ltac:(lia)) Hbits) as Hfeed.
  assert (Hgen : forall o' s', dist_sym (mat s') = dist_sym (mat s) -> block_dist_extra o' s' =
    let '(v, r) := read_bits dist_bits.[dist_sym (mat s)] dist_base.[dist_sym (mat s)] (rd s') in
    let s := after_read s' v r in
    match v with
    | Got n =>
        let s := set_mat s (with_match (mat s) (match_len (mat s)) n (length_sym (mat s)) (dist_sym (mat s))) in
        if (n =? 0) || (OPENDISPLAY_ZLIB_WINDOW_SIZE <? n) || (output_count (hist s) <? n) then
          leave o' (set_error s "invalid back-reference distance") (-1)
        else again o' (set_block_stage s BLK_MATCH_COPY)
    | _ => leave o' s (stop_code s)
    end).
  { intros o' s' He. unfold block_dist_extra. rewrite He, !at_index_some by (cbn; lia). done. }
  destruct (read_bits _ _ (rd s)) as [[n| |m] r] eqn:Er; rewrite (Hgen o s eq_refl), Er; cbn [after_read].
  - rewrite (Hgen (ample out) (feed s) eq_refl). change (rd (feed s)) with (feed_reader (rd s)). rewrite Hfeed. cbn [after_read]. cbv zeta.
    change (hist (set_mat (set_rd (feed s) (feed_reader r)) ?m)) with (hist s). destruct (_ || _); [apply fed_error|]. by apply fed_again.
  - apply (fed_starved out o s r block_dist_extra); [done| | |by unfold stop_code; destruct (bool_decide _)..].
    + rewrite (block_turn_ample out s) by done. change (block_stage (ctl (feed (set_rd s r)))) with (block_stage (ctl s)). by rewrite Hb.
    + rewrite !Hgen by done. change (rd (feed s)) with (feed_reader (rd s)). by rewrite Hfeed.
  - apply fed_error.
Qed.

Lemma block_turn_feed out o s : core out s -> in_block s -> block_fed (block_turn (ample out, feed s)) out o (block_turn (o, s)).
Proof.
  intros Hc Hd. pose proof (core_mat out s Hc) as [Hlen _].
  destruct (Z.leb_spec (capacity o) (produced o)) as [Hf|Hr].
  { unfold block_turn at 2. destruct (Z.leb_spec (capacity o) (produced o)); [|lia]. apply fed_leave; [intros [|]; done|done]. }
  rewrite (block_turn_ample out s) by done. unfold block_turn. destruct (Z.leb_spec (capacity o) (produced o)); [lia|].
  change (block_stage (ctl (feed s))) with (block_stage (ctl s)). destruct (block_stage (ctl s)) eqn:Hb.
  - by apply block_symbol_feed.
  - by apply block_len_extra_feed.
  - by apply block_dist_symbol_feed.
  - by apply block_dist_extra_feed.
  - apply match_copy_feed; try done. change (mat (feed s)) with (mat s). unfold fits in Hlen. lia.
Qed.

(** Interrupted, the block goes on as it would have; through, it is through. *)
Lemma process_block_feed out o s :
  core out s -> in_block s ->
  exists o' s' rc new, process_block_data o s = Some ((o', s'), rc) /\ extended o o' new /\ block_done (out ++ new) o' s s' rc /\
    (rc = 1 \/ rc = 3 -> process_block_data (ample out) (feed s) = Some ((ample (out ++ new), feed s'), rc)) /\
    (rc = 0 \/ rc = 2 -> process_block_data (ample out) (feed s) = process_block_data (ample (out ++ new)) (feed s')).
Proof.
  intros Hc Hd.
  assert (Hl : forall n out o s, core out s -> in_block s -> match turns n block_turn (o, s) with
    | Some ((o', s'), rc) => exists new, extended o o' new /\
        (rc = 1 \/ rc = 3 -> ends block_turn (ample out, feed s) ((ample (out ++ new), feed s'), rc)) /\
        (forall r, rc = 0 \/ rc = 2 -> ends block_turn (ample (out ++ new), feed s') r -> ends block_turn (ample out, feed s) r)
    | None => True end).
  { induction n as [|n IH]; intros out0 o0 s0 Hc0 Hd0; cbn [turns]; [done|].
    pose proof (block_turn_feed out0 o0 s0 Hc0 Hd0) as Hf.
    destruct (block_turn_ok out0 o0 s0 Hc0 Hd0) as (o1 & s1 & r & Ht & Hb & new1 & He1 & Hpost).
    rewrite Ht in *. cbn [mbind option_bind]. destruct Hf as (new & He & Hf). rewrite (extended_unique _ _ _ _ He He1) in *.
    destruct r as [rc|].
    - exists new1. split; [done|]. destruct Hf as [Hf1 Hf2]. split; [intros Hrc; by apply ends_now, Hf1|].
      intros r Hrc Hr. eapply ends_same, Hr. by apply Hf2.
    - destruct Hpost as (Hc1 & Hd1 & _). specialize (IH (out0 ++ new1) o1 s1 Hc1 Hd1).
      destruct (turns n block_turn (o1, s1)) as [[[o2 s2] rc]|]; [|done]. destruct IH as (new2 & He2 & IH1 & IH2).
      exists (new1 ++ new2). rewrite app_assoc. split; [exact (extended_trans _ _ _ _ _ He1 He2)|].
      split; [intros Hrc; eapply ends_step, IH1, Hrc; exact Hf|]. intros r Hrc Hr. eapply ends_step, IH2; [exact Hf|exact Hrc|exact Hr]. }
  destruct (process_block_total out o s Hc Hd) as (o' & s' & rc & Hp & Hb & new & He & Hdone).
  specialize (Hl (block_fuel s) out o s Hc Hd). unfold process_block_data in *. rewrite Hp in *.
  destruct Hl as (new' & He' & H1 & H2). rewrite (extended_unique _ _ _ _ He' He) in *.
  exists o', s', rc, new. split; [done|]. split; [done|]. split; [done|].
  destruct (process_block_total out (ample out) (feed s) (core_feed out s Hc) Hd) as (oa & sa & ra & Ha & _).
  unfold process_block_data in Ha. rewrite Ha. split; intros Hrc.
  - f_equal. exact (ends_unique _ _ _ _ _ (H1 Hrc) Ha).
  - assert (Hcd : core (out ++ new) s' /\ in_block s') by (destruct Hdone as [[-> _]|(? & ? & _)]; [destruct Hrc; done|done]).
    destruct Hcd as [Hc' Hd'].
    destruct (process_block_total _ (ample (out ++ new)) (feed s') (core_feed _ s' Hc') Hd') as (ob & sb & rb & Hbk & _).
    unfold process_block_data in Hbk. rewrite Hbk. f_equal. exact (ends_unique _ _ _ _ _ (H2 _ Hrc (ex_intro _ _ Hbk)) Ha).
Qed.
End Stream.
End Feed.
End InflateChunks.
