(* ===== verification/InflateWhole.v ===== *)
(** A run of pushes and polls, however cut, against one push of the whole
    stream and one poll into a buffer that holds the whole image. *)

From stdpp Require Import strings.
From S2P Require Import Prelude Span Pump Inflate InflateRead InflateSafe InflateRun Inflater InflateChunks.
Import Span Pump Inflate InflateRead InflateSafe InflateRun Inflater InflateChunks.

Module InflateWhole.

Section Whole.
Context `{ZlibConfig, Image}.

(** The input still to be pushed. *)
Variable more : bytes.
Hypothesis more_ok : bytes_ok more.

(** A return code, compared. *)
Ltac code_cases :=
  repeat match goal with
  | |- context [Z.ltb (Zneg ?p) ?b] => let v := eval compute in (Z.ltb (Zneg p) b) in change (Z.ltb (Zneg p) b) with v
  | |- context [Z.ltb (Zpos ?p) 0] => change (Z.ltb (Zpos p) 0) with false
  | |- context [Z.ltb 0 0] => change (Z.ltb 0 0) with false
  | |- context [Z.eqb 0 0] => change (Z.eqb 0 0) with true
  | |- context [Z.eqb (Zpos ?p) 0] => change (Z.eqb (Zpos p) 0) with false
  | |- context [Z.eqb (Zpos ?p) (Zpos ?q)] => let v := eval compute in (Z.eqb (Zpos p) (Zpos q)) in change (Z.eqb (Zpos p) (Zpos q)) with v
  end; cbv iota.

(** ** The trailer *)

Lemma trailer_feed out n s :
  calm out s -> stage (ctl s) = ST_TRAILER -> Z.of_nat n = 4 - trailer_index (trl s) ->
  let '(s', rc) := trailer_loop n s in
  (rc = 0 -> trailer_loop n (feed more s) = process_trailer (feed more s')) /\
  (rc = 1 -> more = [] -> trailer_loop n (feed more s) = (feed more s', 1)).
Proof.
  revert s. induction n as [|n IH]; intros s Hc Hst Hn; cbn [trailer_loop].
  - unfold trailer_check. change (trl (feed more s)) with (trl s). change (hist (feed more s)) with (hist s).
    destruct (negb _); [done|]. destruct (negb _); [done|].
    destruct (Z.eqb_spec (len (input (src (rd s)))) 0) as [Hz|]; cbn [negb]; [|done]. split; [done|]. intros _ ->.
    change (input (src (rd (feed [] s)))) with (input (src (rd s)) ++ []). rewrite app_nil_r, Hz. done.
  - pose proof (next_byte_cases out s Hc) as Hcase. pose proof (next_byte_feed more s) as Hf.
    destruct (next_byte s) as [[b| |m] s1]; [|subst s1|done].
    + rewrite Hf. destruct Hcase as (Hb & Hc1 & _ & x & ->). pose proof (core_trl out s (proj1 Hc)) as Hi.
      assert (Hu : u8 (trailer_index (trl s) + 1) = trailer_index (trl s) + 1) by (apply wrap_id; unfold fits; lia).
      apply (IH (set_trl (set_rd s (on_source (rd s) x)) (trailer_byte (trl s) b))).
      * apply calm_trl; [done|isimpl; congruence|]. cbn [trailer_byte trailer_index]. lia.
      * exact Hst.
      * isimpl. cbn [trailer_byte trailer_index]. lia.
    + split; [|done]. intros _. unfold process_trailer. change (trl (feed more s)) with (trl s).
      replace (Z.to_nat (4 - trailer_index (trl s))) with (S n) by lia. done.
Qed.

(** ** Turns of the poll *)

Definition live (st : od_zlib_status) : Prop := st = OD_ZLIB_STATUS_NEEDS_INPUT \/ st = OD_ZLIB_STATUS_OUTPUT_READY.

(** What [t], the same turn on the rest of the input, does. *)
Definition poll_fed (t : poll_out) (out : bytes) (o : sink) (res : poll_out) : Prop :=
  match res with
  | Some ((o', s'), r) => exists new, extended o o' new /\
      match r with
      | None => t = Some ((ample (out ++ new), feed more s'), None)
      | Some st =>
          (live st -> t = poll_stage (ample (out ++ new)) (feed more s')) /\
          (st = OD_ZLIB_STATUS_DONE -> more = [] -> t = Some ((ample (out ++ new), feed more s'), Some st))
      end
  | None => True
  end.

Lemma polled_stop t out o s st :
  (live st -> t = poll_stage (ample out) (feed more s)) ->
  (st = OD_ZLIB_STATUS_DONE -> more = [] -> t = Some ((ample out, feed more s), Some st)) ->
  poll_fed t out o (stop o s st).
Proof. intros Hl Hd. exists []. rewrite app_nil_r. split; [apply extended_refl|by split]. Qed.

Lemma polled_error t out o s : poll_fed t out o (stop o s OD_ZLIB_STATUS_ERROR).
Proof. apply polled_stop; [intros [|]; done|done]. Qed.

Lemma polled_go t out o s : t = Some ((ample out, feed more s), None) -> poll_fed t out o (go o s).
Proof. intros Ht. exists []. rewrite app_nil_r. split; [apply extended_refl|done]. Qed.

Lemma starved_not_done s : starved_status s <> OD_ZLIB_STATUS_DONE.
Proof. unfold starved_status. by destruct (bool_decide _). Qed.

Lemma polled_starved t out o s : t = poll_stage (ample out) (feed more s) -> poll_fed t out o (stop o s (starved_status s)).
Proof. intros Ht. apply polled_stop; [done|]. intros Hs. by apply starved_not_done in Hs. Qed.

Lemma cmf_feed out o s :
  core out s -> stage (ctl s) = ST_ZLIB_CMF -> poll_fed (poll_stage (ample out) (feed more s)) out o (poll_stage o s).
Proof.
  intros Hc Hst. unfold poll_stage. change (stage (ctl (feed more s))) with (stage (ctl s)). rewrite Hst.
  pose proof (next_byte_feed more s) as Hf. destruct (next_byte s) as [[b| |m] s1] eqn:Eb.
  - rewrite Hf. by apply polled_go.
  - subst s1. apply polled_starved. unfold poll_stage. change (stage (ctl (feed more s))) with (stage (ctl s)). by rewrite Hst.
  - unfold next_byte in Eb. destruct (read_byte _) as [[| |]]; injection Eb as ? <-; try done. apply polled_error.
Qed.

Lemma flg_feed out o s :
  core out s -> stage (ctl s) = ST_ZLIB_FLG -> poll_fed (poll_stage (ample out) (feed more s)) out o (poll_stage o s).
Proof.
  intros Hc Hst. unfold poll_stage. change (stage (ctl (feed more s))) with (stage (ctl s)). rewrite Hst.
  unfold poll_flg. pose proof (next_byte_feed more s) as Hf. destruct (next_byte s) as [[b| |m] s1] eqn:Eb.
  - rewrite Hf. change (ctl (feed more s1)) with (ctl s1).
    destruct (od_zlib_header_check _ _); [by apply polled_go|by apply polled_go|apply polled_error..].
  - subst s1. apply polled_starved. unfold poll_stage. change (stage (ctl (feed more s))) with (stage (ctl s)). by rewrite Hst.
  - unfold next_byte in Eb. destruct (read_byte _) as [[| |]]; injection Eb as ? <-; try done. apply polled_error.
Qed.

Lemma final_feed out o s :
  core out s -> stage (ctl s) = ST_BLOCK_FINAL -> poll_fed (poll_stage (ample out) (feed more s)) out o (poll_stage o s).
Proof.
  intros Hc Hst. unfold poll_stage. change (stage (ctl (feed more s))) with (stage (ctl s)). rewrite Hst.
  change (src (rd (feed more s))) with (feed_source more (src (rd s))).
  pose proof (read_bit_feed more (src (rd s))) as Hf. destruct (read_bit (src (rd s))) as [[b| |m] x] eqn:Eb; cbn [after_read].
  - rewrite Hf. by apply polled_go.
  - subst x. assert (He : set_rd s (on_source (rd s) (src (rd s))) = s) by by destruct s as [? [] ? ? ? ? ? ? ?].
    rewrite He. apply polled_starved. unfold poll_stage. change (stage (ctl (feed more s))) with (stage (ctl s)). by rewrite Hst.
  - apply polled_error.
Qed.

Lemma type_feed out o s :
  core out s -> stage (ctl s) = ST_BLOCK_TYPE -> poll_fed (poll_stage (ample out) (feed more s)) out o (poll_stage o s).
Proof.
  intros Hc Hst. unfold poll_stage. change (stage (ctl (feed more s))) with (stage (ctl s)). rewrite Hst. unfold poll_type.
  assert (Hb : bits_ok (Some (2, 0)) (rbits (rd s))).
  { pose proof (core_bits out s Hc) as Hb. unfold pending in Hb. by rewrite Hst in Hb. }
  change (rd (feed more s)) with (feed_reader more (rd s)).
  pose proof (read_bits_feed more 2 0 (rd s) ltac:(split; lia) Hb) as Hf. destruct (read_bits 2 0 (rd s)) as [[t| |m] r] eqn:Er; cbn [after_read].
  - rewrite Hf. cbn [after_read]. destruct (u8 t =? 0); [by apply polled_go|]. destruct (u8 t =? 1); [by apply polled_go|].
    destruct (u8 t =? 2); [by apply polled_go|apply polled_error].
  - rewrite Hf. apply polled_starved. unfold poll_stage. change (stage (ctl (feed more (set_rd s r)))) with (stage (ctl s)). by rewrite Hst.
  - apply polled_error.
Qed.

Lemma dynamic_feed out o s :
  core out s -> stage (ctl s) = ST_DYNAMIC_TREES -> poll_fed (poll_stage (ample out) (feed more s)) out o (poll_stage o s).
Proof.
  intros Hc Hst. unfold poll_stage. change (stage (ctl (feed more s))) with (stage (ctl s)). rewrite Hst.
  pose proof (process_dynamic_feed more more_ok out s Hc Hst) as Hf.
  destruct (process_dynamic_total out s Hc Hst) as (s' & rc & Hp & Hb & Hd). rewrite Hp in *. cbn [mbind option_bind]. destruct Hf as [H1 H2].
  destruct Hd as [[-> He]|[(-> & Hc' & Hi & Hs)|(-> & Hcalm & Hi)]]; code_cases.
  - apply polled_error.
  - apply polled_stop; [|done]. intros _. rewrite (H2 eq_refl). unfold poll_stage.
    change (stage (ctl (feed more s'))) with (stage (ctl s')). by rewrite Hi.
  - rewrite (H1 eq_refl). cbn [mbind option_bind]; code_cases. by apply polled_go.
Qed.

Lemma stored_len_feed out o s :
  core out s -> stage (ctl s) = ST_STORED_LEN -> poll_fed (poll_stage (ample out) (feed more s)) out o (poll_stage o s).
Proof.
  intros Hc Hst. unfold poll_stage. change (stage (ctl (feed more s))) with (stage (ctl s)). rewrite Hst.
  assert (Hcalm : calm out s) by (by apply pending_none; rewrite ?Hst). unfold process_stored_header at 2.
  pose proof (core_sto out s Hc) as [Hsto _].
  pose proof (stored_header_feed more out (Z.to_nat (4 - stored_header_index (sto s))) s Hcalm ltac:(lia)) as Hf.
  pose proof (stored_header_total out (Z.to_nat (4 - stored_header_index (sto s))) s Hcalm ltac:(lia)) as Hp.
  assert (Hself : process_stored_header (feed more s) = stored_header_loop (Z.to_nat (4 - stored_header_index (sto s))) (feed more s)) by done.
  rewrite Hself. destruct (stored_header_loop _ s) as [s' rc]. destruct Hf as [H1 H2].
  destruct Hp as (Hb & [[-> He]|(Hc' & Hctl & [[-> Hs]| ->])]); code_cases.
  - apply polled_error.
  - apply polled_stop; [|done]. intros _. rewrite (H2 eq_refl). unfold poll_stage.
    change (stage (ctl (feed more s'))) with (stage (ctl s')). by rewrite Hctl, Hst.
  - rewrite (H1 eq_refl). cbn [mbind option_bind]; code_cases. by apply polled_go.
Qed.

Lemma produced_live o : produced_status o <> OD_ZLIB_STATUS_DONE.
Proof. unfold produced_status. by destruct (_ =? _). Qed.

Lemma stored_feed out o s :
  core out s -> stage (ctl s) = ST_STORED_DATA -> poll_fed (poll_stage (ample out) (feed more s)) out o (poll_stage o s).
Proof.
  intros Hc Hst. unfold poll_stage. change (stage (ctl (feed more s))) with (stage (ctl s)). rewrite Hst.
  assert (Hcalm : calm out s) by (by apply pending_none; rewrite ?Hst). pose proof (core_sto out s Hc) as [_ Hl]. unfold fits in Hl.
  unfold process_stored_data at 2.
  pose proof (stored_data_feed more out (Z.to_nat (stored_len (sto s))) o s Hcalm Hst ltac:(lia)) as Hf.
  destruct (stored_data_total out (Z.to_nat (stored_len (sto s))) o s Hcalm Hst) as (o' & s' & rc & Hp & Hb & new & He & Hpost).
  rewrite Hp in *. cbn [mbind option_bind]. destruct Hf as (new' & He' & H1 & H2). rewrite (extended_unique _ _ _ _ He' He) in *.
  assert (Hself : process_stored_data (ample out) (feed more s) = stored_data_loop (Z.to_nat (stored_len (sto s))) (ample out) (feed more s)) by done.
  rewrite Hself.
  assert (Hsame : rc = 0 \/ rc = 2 -> stage (ctl s') = ST_STORED_DATA -> 
    ('(o, s, rc) ← stored_data_loop (Z.to_nat (stored_len (sto s))) (ample out) (feed more s);
      if rc <? 0 then stop o s OD_ZLIB_STATUS_ERROR else if rc =? 0 then stop o s (produced_status o)
      else if rc =? 2 then stop o s OD_ZLIB_STATUS_OUTPUT_READY else go o (after_block s))
    = poll_stage (ample (out ++ new)) (feed more s')).
  { intros Hrc Hs'. rewrite (H2 Hrc). unfold poll_stage. change (stage (ctl (feed more s'))) with (stage (ctl s')). by rewrite Hs'. }
  destruct Hpost as [[-> Hs]|(Hc' & Hctl & Hrc)]; [exists new; split; [done|]; split; [intros [|]; done|done]|].
  assert (Hs' : stage (ctl s') = ST_STORED_DATA) by congruence.
  destruct Hrc as [[-> Hs]|[->|[-> Hfull]]]; code_cases; exists new; (split; [done|]).
  - split; [intros _; apply Hsame; [by left|done]|]. intros Hd. by apply produced_live in Hd.
  - rewrite (H1 eq_refl). cbn [mbind option_bind]. code_cases. unfold go. unfold after_block. change (ctl (feed more s')) with (ctl s'). by destruct (_ =? 0).
  - split; [intros _; apply Hsame; [by right|done]|done].
Qed.

Lemma block_feed out o s :
  core out s -> in_block s -> poll_fed (poll_stage (ample out) (feed more s)) out o (poll_stage o s).
Proof.
  intros Hc Hst. unfold poll_stage. change (stage (ctl (feed more s))) with (stage (ctl s)). rewrite Hst.
  destruct (process_block_feed more more_ok out o s Hc Hst) as (o' & s' & rc & new & Hp & He & Hpost & H1 & H2).
  rewrite Hp. cbn [mbind option_bind].
  assert (Hsame : rc = 0 \/ rc = 2 -> stage (ctl s') = ST_BLOCK_DATA -> 
    ('((o, s), rc) ← process_block_data (ample out) (feed more s);
      if rc <? 0 then stop o s OD_ZLIB_STATUS_ERROR else if rc =? 0 then stop o s (produced_status o)
      else if rc =? 2 then stop o s OD_ZLIB_STATUS_OUTPUT_READY else go o (if rc =? 3 then after_block s else s))
    = poll_stage (ample (out ++ new)) (feed more s')).
  { intros Hrc Hs'. rewrite (H2 Hrc). unfold poll_stage. change (stage (ctl (feed more s'))) with (stage (ctl s')). by rewrite Hs'. }
  destruct Hpost as [[-> Hs]|(Hc' & Hs' & Hrc)]; [exists new; split; [done|]; split; [intros [|]; done|done]|].
  destruct Hrc as [[-> Hs]|[[-> Hfull]|[[-> | ->] _]]]; code_cases; exists new; (split; [done|]).
  - split; [intros _; apply Hsame; [by left|done]|]. intros Hd. by apply produced_live in Hd.
  - split; [intros _; apply Hsame; [by right|done]|done].
  - rewrite (H1 (or_introl eq_refl)). done.
  - rewrite (H1 (or_intror eq_refl)). cbn [mbind option_bind]. code_cases. unfold go, after_block. change (ctl (feed more s')) with (ctl s'). by destruct (_ =? 0).
Qed.

Lemma trailer_stage_feed out o s :
  core out s -> stage (ctl s) = ST_TRAILER -> poll_fed (poll_stage (ample out) (feed more s)) out o (poll_stage o s).
Proof.
  intros Hc Hst. unfold poll_stage. change (stage (ctl (feed more s))) with (stage (ctl s)). rewrite Hst.
  assert (Hcalm : calm out s) by (by apply pending_none; rewrite ?Hst). pose proof (core_trl out s Hc) as Ht.
  unfold process_trailer at 2.
  pose proof (trailer_feed out (Z.to_nat (4 - trailer_index (trl s))) s Hcalm Hst ltac:(lia)) as Hf.
  pose proof (trailer_total out (Z.to_nat (4 - trailer_index (trl s))) s Hcalm Hst ltac:(lia)) as Hp.
  assert (Hself : process_trailer (feed more s) = trailer_loop (Z.to_nat (4 - trailer_index (trl s))) (feed more s)) by done.
  rewrite Hself. destruct (trailer_loop _ s) as [s' rc]. destruct Hf as [H1 H2].
  destruct Hp as (Hb & [[-> He]|[(-> & Hc' & Hctl & Hs)|(-> & Hc' & Hd)]]); code_cases.
  - apply polled_error.
  - apply polled_stop; [|intros Hx; by apply produced_live in Hx]. intros _. rewrite (H1 eq_refl). unfold poll_stage.
    change (stage (ctl (feed more s'))) with (stage (ctl s')). by rewrite Hctl, Hst.
  - apply polled_stop; [intros [|]; done|]. intros _ Hm. by rewrite (H2 eq_refl Hm).
Qed.

Lemma poll_stage_feed out o s :
  core out s -> poll_fed (poll_stage (ample out) (feed more s)) out o (poll_stage o s).
Proof.
  intros Hc. destruct (stage (ctl s)) eqn:Hst.
  - by apply cmf_feed.
  - by apply flg_feed.
  - by apply final_feed.
  - by apply type_feed.
  - by apply dynamic_feed.
  - by apply stored_len_feed.
  - by apply stored_feed.
  - by apply block_feed.
  - by apply trailer_stage_feed.
  - unfold poll_stage. change (stage (ctl (feed more s))) with (stage (ctl s)). rewrite Hst. apply polled_stop; [intros [|]; done|done].
  - unfold poll_stage at 2. rewrite Hst. apply polled_error.
Qed.

(** ** Polls *)

Lemma poll_turn_ample out s s' : core out s -> poll_turn (ample out, s') = poll_stage (ample out) s'.
Proof.
  intros Hc. pose proof (ample_room out s Hc) as Hr. unfold room in Hr. unfold poll_turn.
  destruct (Z.leb_spec (capacity (ample out)) (produced (ample out))); [lia|done].
Qed.

Lemma poll_turn_feed out o s : core out s -> poll_fed (poll_turn (ample out, feed more s)) out o (poll_turn (o, s)).
Proof.
  intros Hc. rewrite (poll_turn_ample out s) by done. unfold poll_turn.
  destruct (Z.leb_spec (capacity o) (produced o)); [by apply polled_stop|by apply poll_stage_feed].
Qed.

(** Interrupted, the poll goes on as it would have; done, it is done. *)
Lemma poll_loop_feed n out o s :
  core out s ->
  match turns n poll_turn (o, s) with
  | Some ((o', s'), st) => exists new, extended o o' new /\
      (forall r, live st -> ends poll_turn (ample (out ++ new), feed more s') r -> ends poll_turn (ample out, feed more s) r) /\
      (st = OD_ZLIB_STATUS_DONE -> more = [] -> ends poll_turn (ample out, feed more s) ((ample (out ++ new), feed more s'), st))
  | None => True
  end.
Proof.
  revert out o s. induction n as [|n IH]; intros out o s Hc; cbn [turns]; [done|].
  pose proof (poll_turn_feed out o s Hc) as Hf.
  destruct (poll_turn_ok out o s Hc) as (o1 & s1 & r & Ht & Hb & new1 & He1 & Hpost).
  rewrite Ht in *. cbn [mbind option_bind]. destruct Hf as (new & He & Hf). rewrite (extended_unique _ _ _ _ He He1) in *.
  destruct r as [st|].
  - exists new1. split; [done|]. destruct Hf as [Hf1 Hf2]. split.
    + intros r Hlive Hr. eapply ends_same, Hr. rewrite (Hf1 Hlive). symmetry. eapply poll_turn_ample.
      destruct Hlive as [-> | ->]; apply Hpost.
    + intros Hst Hm. by apply ends_now, Hf2.
  - destruct Hpost as [Hc1 _]. specialize (IH (out ++ new1) o1 s1 Hc1).
    destruct (turns n poll_turn (o1, s1)) as [[[o2 s2] st]|]; [|done]. destruct IH as (new2 & He2 & IH1 & IH2).
    exists (new1 ++ new2). rewrite app_assoc. split; [exact (extended_trans _ _ _ _ _ He1 He2)|].
    split; [intros r Hl Hr; eapply ends_step, IH1; [exact Hf|exact Hl|exact Hr]|]. intros Hst Hm. eapply ends_step, IH2; [exact Hf|done|done].
Qed.

Lemma poll_feed out s cap :
  core out s ->
  match od_zlib_stream_poll s cap with
  | Some (st, new, s') =>
      (forall r, live st -> ends poll_turn (ample (out ++ new), feed more s') r -> ends poll_turn (ample out, feed more s) r) /\
      (st = OD_ZLIB_STATUS_DONE -> stage (ctl s) <> ST_DONE -> more = [] ->
       ends poll_turn (ample out, feed more s) ((ample (out ++ new), feed more s'), st))
  | None => True
  end.
Proof.
  intros Hc. unfold od_zlib_stream_poll. rewrite (core_init out s Hc). cbn [negb].
  destruct (bool_decide_reflect (stage (ctl s) = ST_ERROR)); [split; [intros r [|]; done|done]|].
  destruct (bool_decide_reflect (stage (ctl s) = ST_DONE)); [split; [intros r [|]; done|done]|].
  pose proof (poll_loop_feed (poll_fuel s) out {| capacity := cap; written := [] |} s Hc) as Hl.
  destruct (turns _ _ _) as [[[o' s'] st]|]; cbn [mbind option_bind]; [|done].
  destruct Hl as (new & (_ & Hw & _) & H1 & H2). cbn [written app] in Hw. rewrite Hw. split; [done|]. intros Hst _. by apply H2.
Qed.
End Whole.

(** ** Whole runs *)

Section Runs.
Context `{ZlibConfig, Image}.

(** All the bytes pushed. *)
Definition pushed (cs : list call) : bytes := concat (map (fun c => match c with Push b _ => b | Poll _ => [] end) cs).

Lemma pushed_ok cs : Forall call_ok cs -> bytes_ok (pushed cs).
Proof.
  intros Hcs. unfold pushed. induction Hcs as [|[b f|cap] cs Hc Hcs IH]; cbn [map concat]; [constructor|by apply Forall_app|done].
Qed.

(** A push that does not fail loads its bytes. *)
Lemma push_loads s b final :
  let '(_, s') := od_zlib_stream_push s (Some b) (len b) final in
  stage (ctl s') = ST_ERROR \/
  (s' = load_input s b final /\ input (src (rd s)) = [] /\ (stage (ctl s) = ST_DONE -> b = [])).
Proof.
  unfold od_zlib_stream_push. destruct (negb _); [by left|]. rewrite bool_decide_true by by eexists. rewrite andb_false_r.
  destruct (Z.eqb_spec (len (input (src (rd s)))) 0) as [Hz|]; cbn [negb]; [|by left].
  assert (Hi : input (src (rd s)) = []) by (destruct (input (src (rd s))); [done|cbn in Hz; lia]).
  rewrite Nat2Z.id, firstn_all. change (stage (ctl (load_input s b final))) with (stage (ctl s)).
  destruct (bool_decide_reflect (stage (ctl s) = ST_DONE)); [|by right].
  destruct (Z.eqb_spec (len b) 0) as [Hb|]; cbn [negb]; [|by left]. right. split; [done|]. split; [done|]. intros _.
  destruct b; [done|cbn in Hb; lia].
Qed.

(** From an error no run ends done. *)
Lemma error_not_done cs s new s' :
  stage (ctl s) = ST_ERROR -> run_calls cs s = Some (new, s') -> stage (ctl s') <> ST_DONE.
Proof. intros He Hr. destruct (error_sticky cs s He) as (s2 & Hr2 & He2). rewrite Hr2 in Hr. injection Hr as _ <-. congruence. Qed.

(** When the stream is done nothing more comes in or out. *)
Lemma done_tail cs out s new s' :
  Forall call_ok cs -> core out s -> stage (ctl s) = ST_DONE -> run_calls cs s = Some (new, s') -> stage (ctl s') = ST_DONE ->
  new = [] /\ pushed cs = [] /\ feed [] s' = feed [] s.
Proof.
  intros Hcs. revert s new. induction Hcs as [|[b f|cap] cs Hok Hcs IH]; intros s new Hc Hd; cbn [run_calls].
  - by intros [= <- <-].
  - pose proof (push_loads s b f) as Hp. pose proof (push_core out s b (len b) f Hc Hok) as Hpc.
    destruct (od_zlib_stream_push _ _ _ _) as [st s1]. cbn [snd]. intros Hr Hd'.
    destruct Hp as [He|(-> & Hi & Hb)]; [by destruct (error_not_done cs s1 new s' He Hr)|]. specialize (Hb Hd). subst b.
    assert (Hc1 : core out (load_input s [] f)) by (destruct st; try done; change (stage (ctl s) = ST_ERROR) in Hpc; congruence).
    destruct (IH _ _ Hc1 Hd Hr Hd') as (-> & Hpu & Hfe). split; [done|]. split; [done|]. rewrite Hfe.
    unfold feed, feed_reader, feed_source, load_input. isimpl. by rewrite Hi.
  - unfold od_zlib_stream_poll at 1. rewrite (core_init out s Hc), bool_decide_eq_false_2, bool_decide_eq_true_2 by congruence.
    cbn [negb mbind option_bind]. destruct (run_calls cs s) as [[new2 s2]|] eqn:Er; cbn [mbind option_bind]; [|done].
    intros [= <- <-] Hd'. destruct (IH s new2 Hc Hd Er Hd') as (-> & Hpu & Hfe). done.
Qed.

Lemma run_whole cs out s new s' :
  Forall call_ok cs -> core out s -> run_calls cs s = Some (new, s') -> stage (ctl s') = ST_DONE ->
  ends poll_turn (ample out, feed (pushed cs) s) ((ample (out ++ new), feed [] s'), OD_ZLIB_STATUS_DONE).
Proof.
  intros Hcs. revert out s new. induction Hcs as [|[b f|cap] cs Hok Hcs IH]; intros out s new Hc; cbn [run_calls].
  - intros [= <- <-] Hd. rewrite app_nil_r. apply ends_now. rewrite (poll_turn_ample out s) by done. unfold poll_stage.
    change (stage (ctl (feed (pushed []) s))) with (stage (ctl s)). by rewrite Hd.
  - pose proof (push_loads s b f) as Hp. pose proof (push_core out s b (len b) f Hc Hok) as Hpc.
    destruct (od_zlib_stream_push _ _ _ _) as [st s1]. cbn [snd]. intros Hr Hd'.
    destruct Hp as [He|(-> & Hi & Hb)]; [by destruct (error_not_done cs s1 new s' He Hr)|].
    assert (Hc1 : core out (load_input s b f)).
    { destruct st; try done. destruct (error_not_done cs _ new s' Hpc Hr Hd'). }
    replace (feed (pushed (Push b f :: cs)) s) with (feed (pushed cs) (load_input s b f)); [by apply IH|].
    unfold feed, feed_reader, feed_source, load_input, pushed. isimpl. by rewrite Hi.
  - destruct (poll_total out s cap (or_intror Hc)) as ([[st new1] s1] & Hp & _ & Hs1 & Hst). pose proof (poll_feed (pushed cs) (pushed_ok cs Hcs) out s cap Hc) as Hf.
    rewrite Hp in *. cbn [mbind option_bind]. destruct Hf as [Hf1 Hf2].
    destruct (run_calls cs s1) as [[new2 s2]|] eqn:Er; cbn [mbind option_bind]; [|done]. intros [= <- <-] Hd'. rewrite app_assoc.
    assert (Hlive : live st -> core (out ++ new1) s1 ->
      ends poll_turn (ample out, feed (pushed cs) s) ((ample ((out ++ new1) ++ new2), feed [] s2), OD_ZLIB_STATUS_DONE)).
    { intros Hl Hc1. apply Hf1; [done|]. by apply IH. }
    destruct st.
    + apply Hlive; [by left|apply Hst].
    + apply Hlive; [by right|apply Hst].
    + destruct (decide (stage (ctl s) = ST_DONE)) as [Hd|Hd].
      * revert Hp. unfold od_zlib_stream_poll. rewrite (core_init out s Hc), bool_decide_eq_false_2, bool_decide_eq_true_2 by congruence.
        intros [= <- <-]. rewrite app_nil_r. by apply IH.
      * destruct Hst as (Hd1 & _ & _). destruct Hs1 as [He|Hc1]; [congruence|].
        destruct (done_tail cs _ s1 new2 s2 Hcs Hc1 Hd1 Er Hd') as (-> & Hpu & Hfe). rewrite app_nil_r, Hfe, Hpu in *.
        change (pushed (Poll cap :: cs)) with (pushed cs). rewrite Hpu. by apply Hf2.
    + by destruct (error_not_done cs s1 new2 s2 Hst Er).
Qed.

(** The output depends only on the bytes pushed: when any sequence of pushes
    and polls ends with the stream done, one push of all its bytes and one poll
    into a buffer with room for the image give the same output and are done too,
    however the input was cut and however small the buffers were. *)
Theorem inflate_whole (cs : list call) (out : bytes) (s : inflate) :
  Forall call_ok cs -> run_calls cs (od_zlib_stream_reset image_size) = Some (out, s) -> stage (ctl s) = ST_DONE ->
  exists s1, run_calls [Push (pushed cs) true; Poll (image_size + 1)] (od_zlib_stream_reset image_size) = Some (out, s1) /\
    stage (ctl s1) = ST_DONE.
Proof.
  intros Hcs Hr Hd. pose proof (run_whole cs [] _ out s Hcs reset_core Hr Hd) as Hw. cbn [app] in Hw.
  exists (feed [] s). split; [|exact Hd]. cbn [run_calls].
  assert (Hp : (od_zlib_stream_push (od_zlib_stream_reset image_size) (Some (pushed cs)) (len (pushed cs)) true).2
    = feed (pushed cs) (od_zlib_stream_reset image_size)).
  { unfold od_zlib_stream_push. rewrite bool_decide_true by by eexists. rewrite andb_false_r, Nat2Z.id, firstn_all. done. }
  rewrite Hp. unfold od_zlib_stream_poll. change (negb (initialized _)) with false.
  rewrite bool_decide_eq_false_2, bool_decide_eq_false_2 by done.
  destruct (poll_loop_total [] (ample []) (feed (pushed cs) (od_zlib_stream_reset image_size))
    (core_feed _ (pushed_ok cs Hcs) [] _ reset_core)) as (o' & s' & st & Ht & _).
  change {| capacity := image_size + 1; written := [] |} with (ample []). rewrite Ht. pose proof (ends_unique _ _ _ _ _ Hw Ht) as He. injection He as -> -> ->. cbn [mbind option_bind written ample].
  by rewrite app_nil_r.
Qed.
End Runs.

#[local] Existing Instances demo_config demo_image.

(** The demo stream in three pieces, read out seven bytes at a time. *)
Definition demo_calls : list call :=
  [Push (take 3 demo_stream) false; Poll 7; Push (take 5 (drop 3 demo_stream)) false; Poll 7; Poll 7; Poll 7;
   Push (drop 8 demo_stream) true; Poll 7; Poll 7].

Lemma inflate_whole_witness :
  exists s1, run_calls [Push demo_stream true; Poll 22] (od_zlib_stream_reset image_size) = Some (demo_text, s1) /\
    stage (ctl s1) = ST_DONE.
Proof.
  assert (Hok : Forall call_ok demo_calls) by (repeat constructor; done).
  destruct (run_calls_ok demo_calls [] _ Hok (or_intror reset_core)) as (out & s & Hr & _).
  pose proof (f_equal (option_map (fun x => (x.1, stage (ctl x.2)))) Hr) as Hv. cbn [option_map fst snd] in Hv.
  assert (Ho : out = demo_text /\ stage (ctl s) = ST_DONE)
    by (vm_compute in Hv; injection Hv as Hv1 Hv2; split; [exact (eq_sym Hv1)|exact (eq_sym Hv2)]).
  destruct Ho as [-> Hd]. exact (inflate_whole demo_calls demo_text s Hok Hr Hd).
Defined.
End InflateWhole.
