(* ===== verification/InflateCode.v ===== *)
(** The inflater's reads against the reference decoder: with the last of the
    input at hand, a field read takes the bits the RFC's field has, a code built
    from a list of lengths holds their canonical codewords, and a symbol decoded
    with it is the symbol whose codeword the bits are. *)

From stdpp Require Import strings.
From S2P Require Import Prelude Span Pump Inflate InflateRead Rfc1951.
Import Span Pump Inflate InflateRead Rfc1951.

Module InflateCode.

(** ** Bits *)

(** The low [n] bits of the byte being taken apart. *)
Definition tag_bits (n : nat) (t : Z) : list bool := map (fun i => Z.testbit t (Z.of_nat i)) (seq 0 n).

Lemma tag_bits_S n t : tag_bits (S n) t = Z.testbit t 0 :: tag_bits n (Z.shiftr t 1).
Proof.
  unfold tag_bits. cbn [seq map]. f_equal. rewrite <- seq_shift, map_map. apply map_ext. intros i.
  rewrite Z.shiftr_spec by lia. f_equal. lia.
Qed.

Lemma land_1 t : Z.land t 1 = Z.b2z (Z.testbit t 0).
Proof. rewrite Z.bit0_odd. change 1 with (Z.ones 1) at 1. rewrite Z.land_ones by lia. change (2 ^ 1) with 2. by rewrite Zmod_odd; destruct (Z.odd t). Qed.

(** The source, with nothing more to be pushed, holds these bits. *)
Definition reads (x : bit_source) (bs : list bool) : Prop :=
  input_final x = true /\ 0 <= bit_count x < 8 /\
  bs = tag_bits (Z.to_nat (bit_count x)) (bit_tag x) ++ bits_of (input x).

Lemma take_bit_reads x k bs :
  bit_count x = Z.of_nat (S k) -> (k < 8)%nat -> input_final x = true -> bs = tag_bits (S k) (bit_tag x) ++ bits_of (input x) ->
  exists b bs' x', bs = b :: bs' /\ take_bit x = (Got (Z.b2z b), x') /\ reads x' bs'.
Proof.
  intros Hc Hk Hf ->. rewrite tag_bits_S. unfold take_bit. rewrite land_1. eexists _, _, _. split; [done|]. split; [done|].
  unfold reads. cbn [with_bits input_final bit_count bit_tag input]. rewrite Hc.
  replace (u8 (Z.of_nat (S k) - 1)) with (Z.of_nat k) by (symmetry; rewrite wrap_id by (unfold fits; lia); lia).
  rewrite Nat2Z.id. split; [done|]. split; [lia|done].
Qed.

Lemma read_bit_reads x bs :
  reads x bs ->
  match bs with
  | [] => exists m x', read_bit x = (Failed m, x')
  | b :: bs' => exists x', read_bit x = (Got (Z.b2z b), x') /\ reads x' bs'
  end.
Proof.
  intros (Hf & Hc & ->). unfold read_bit. destruct (Z.eqb_spec (bit_count x) 0) as [H0|Hn].
  - rewrite H0. cbn [Z.to_nat tag_bits seq map app]. unfold read_byte. destruct (input x) as [|b rest] eqn:Ei.
    + rewrite Hf. by eexists _, _.
    + destruct (take_bit_reads (with_bits (with_input x rest) b 8) 7 (bits_of (b :: rest))) as (b0 & bs' & x' & -> & -> & Hr);
        [done|lia|done|done|by eexists].
  - destruct (take_bit_reads x (Z.to_nat (bit_count x - 1)) (tag_bits (Z.to_nat (bit_count x)) (bit_tag x) ++ bits_of (input x)))
      as (b0 & bs' & x' & -> & -> & Hr); [lia|lia|done| |by eexists].
    by replace (S (Z.to_nat (bit_count x - 1))) with (Z.to_nat (bit_count x)) by lia.
Qed.

(** No read is under way. *)
Definition ready (r : code_reader) (bs : list bool) : Prop :=
  reads (src r) bs /\ read_bits_active (rbits r) = false /\ sym_active (rsym r) = false.

(** A read does what the reference's does: the same value, or a failure. *)
Definition follows (ref : option (Z * list bool)) (base : Z) (v : res Z) (r : code_reader) : Prop :=
  match ref with
  | Some (a, bs) => v = Got (base + a) /\ ready r bs
  | None => exists m, v = Failed m
  end.

(** ** Fields *)

Lemma bits_loop_reads n x b bs :
  reads x bs -> 0 <= read_bits_pos b -> read_bits_pos b + Z.of_nat n <= 16 -> 0 <= read_bits_value b < 2 ^ read_bits_pos b ->
  0 <= read_bits_base b <= 65536 ->
  match take_bits n bs with
  | Some (v, bs') => exists x' b', bits_loop n x b = (Got (read_bits_value b + 2 ^ read_bits_pos b * v + read_bits_base b), x', b') /\
      reads x' bs' /\ read_bits_active b' = false
  | None => exists m x' b', bits_loop n x b = (Failed m, x', b')
  end.
Proof.
  revert x b bs. induction n as [|n IH]; intros x b bs Hx Hp Hn Hv Hb; cbn [take_bits bits_loop].
  - exists x, (bits_done b). split; [|done]. do 2 f_equal. assert (2 ^ read_bits_pos b <= 2 ^ 16) by (apply Z.pow_le_mono_r; lia).
    change (2 ^ 16) with 65536 in *. rewrite wrap_id by (unfold fits; change (2 ^ 32) with 4294967296; lia). f_equal. lia.
  - pose proof (read_bit_reads x bs Hx) as Hr. destruct bs as [|bit bs].
    { destruct Hr as (m & x' & ->). by eexists _, _, _. }
    destruct Hr as (x1 & -> & Hx1). assert (Hpow : 2 ^ read_bits_pos b <= 2 ^ 15) by (apply Z.pow_le_mono_r; lia).
    change (2 ^ 15) with 32768 in *.
    assert (Hpos : read_bits_pos (bits_add b (Z.b2z bit)) = read_bits_pos b + 1) by (apply wrap_id; unfold fits; lia).
    assert (Hval : read_bits_value (bits_add b (Z.b2z bit)) = read_bits_value b + 2 ^ read_bits_pos b * Z.b2z bit).
    { cbn [bits_add read_bits_value]. destruct bit; cbn [Z.b2z Z.eqb]; [|lia].
      rewrite Z.shiftl_1_l, wrap_id by (unfold fits; change (2 ^ 32) with 4294967296; lia). lia. }
    specialize (IH x1 (bits_add b (Z.b2z bit)) bs Hx1). rewrite Hpos, Hval in IH. rewrite Z.pow_add_r in IH by lia.
    change (2 ^ 1) with 2 in IH. specialize (IH ltac:(lia) ltac:(lia) ltac:(destruct bit; cbn [Z.b2z]; lia) Hb).
    destruct (take_bits n bs) as [[v bs']|]; cbn [mbind option_bind]; [|done]. destruct IH as (x' & b' & -> & Hx' & Hb').
    exists x', b'. split; [|done]. do 3 f_equal. cbn [bits_add read_bits_base]. lia.
Qed.

Lemma read_bits_follows num base r bs :
  ready r bs -> 0 <= num <= 13 -> 0 <= base <= 65536 ->
  let '(v, r') := read_bits num base r in follows (take_bits (Z.to_nat num) bs) base v r'.
Proof.
  intros (Hx & Ha & Hy) Hn Hb. unfold read_bits, bits_start. rewrite Ha. cbn [read_bits_num read_bits_pos].
  rewrite wrap_id by (unfold fits; lia). rewrite Z.sub_0_r.
  set (b := {| read_bits_active := true; read_bits_num := num; read_bits_pos := 0; read_bits_base := base; read_bits_value := 0 |}).
  pose proof (bits_loop_reads (Z.to_nat num) (src r) b bs Hx) as Hl. cbn [b read_bits_pos read_bits_value read_bits_base] in Hl.
  specialize (Hl ltac:(lia) ltac:(lia) ltac:(split; [lia|reflexivity]) Hb). fold b in Hl. unfold follows.
  destruct (take_bits _ _) as [[v bs']|].
  - destruct Hl as (x' & b' & -> & Hx' & Hb'). split; [f_equal; change (2 ^ 0) with 1; lia|]. by split.
  - destruct Hl as (m & x' & b' & ->). by exists m.
Qed.

(** ** Codewords *)

Lemma cnt_app l a b : cnt l (a ++ b) = cnt l a + cnt l b.
Proof. unfold cnt. rewrite filter_app, length_app. lia. Qed.

Lemma take_snoc (ls : list Z) (i : nat) : (i < length ls)%nat -> take (S i) ls = take i ls ++ [ls.[Z.of_nat i]].
Proof. intros Hi. unfold get. rewrite Nat2Z.id. apply take_S_r, list_lookup_lookup_total_lt, Hi. Qed.

(** The symbols of one length are numbered below their count. *)
Lemma cnt_take_lt l ls (i : nat) : (i < length ls)%nat -> ls.[Z.of_nat i] = l -> cnt l (take i ls) < cnt l ls.
Proof.
  intros Hi Hl. rewrite <- (take_drop (S i) ls) at 2. rewrite cnt_app, take_snoc, cnt_app, cnt_cons, Hl, bool_decide_eq_true_2 by done.
  pose proof (cnt_range l (drop (S i) ls)). change (cnt l []) with 0. lia.
Qed.

(** And every number below the count is one's. *)
Lemma cnt_take_onto l ls r :
  0 <= r < cnt l ls -> exists i, (i < length ls)%nat /\ ls.[Z.of_nat i] = l /\ cnt l (take i ls) = r.
Proof.
  induction ls as [|x ls IH] using rev_ind; [change (cnt l []) with 0; lia|]. rewrite cnt_app, cnt_cons. change (cnt l []) with 0. intros Hr.
  destruct (Z.lt_ge_cases r (cnt l ls)) as [Hlt|Hge].
  - destruct IH as (i & Hi & Hl & Hc); [lia|]. exists i. rewrite length_app. split; [cbn; lia|].
    rewrite get_app_l by lia. rewrite take_app_le by lia. done.
  - case_bool_decide as Hx; [|lia]. exists (length ls). rewrite length_app, get_snoc, take_app_length. split; [cbn; lia|]. split; [done|lia].
Qed.

Lemma symbol_of_none lens l v :
  first_code lens (Z.to_nat l) + cnt l lens <= v -> symbol_of lens l v = None.
Proof.
  intros Hv. unfold symbol_of. destruct (List.find _ _) as [i|] eqn:E; [|done].
  apply List.find_some in E as [Hi Hp]. apply in_seq in Hi. destruct (Z.eqb_spec lens.[Z.of_nat i] l) as [Hl|]; [|done].
  apply Z.eqb_eq in Hp. unfold codeword in Hp. rewrite Hl in Hp. change (bl_count (take i lens) l) with (cnt l (take i lens)) in Hp.
  pose proof (cnt_take_lt l lens i ltac:(lia) Hl). lia.
Qed.

Lemma symbol_of_some lens l v :
  first_code lens (Z.to_nat l) <= v < first_code lens (Z.to_nat l) + cnt l lens ->
  exists i, symbol_of lens l v = Some (Z.of_nat i) /\ (i < length lens)%nat /\ lens.[Z.of_nat i] = l /\
    v = first_code lens (Z.to_nat l) + cnt l (take i lens).
Proof.
  intros Hv. unfold symbol_of. destruct (List.find _ _) as [i|] eqn:E.
  - apply List.find_some in E as [Hi Hp]. apply in_seq in Hi. destruct (Z.eqb_spec lens.[Z.of_nat i] l) as [Hl|]; [|done].
    apply Z.eqb_eq in Hp. exists i. split; [done|]. split; [lia|]. split; [done|].
    unfold codeword in Hp. rewrite Hl in Hp. change (bl_count (take i lens) l) with (cnt l (take i lens)) in Hp. lia.
  - destruct (cnt_take_onto l lens (v - first_code lens (Z.to_nat l))) as (i & Hi & Hl & Hc); [lia|].
    pose proof (List.find_none _ _ E i) as Hn. specialize (Hn ltac:(apply in_seq; lia)). cbn beta in Hn.
    rewrite Hl, Z.eqb_refl in Hn. apply Z.eqb_neq in Hn. unfold codeword in Hn. rewrite Hl in Hn.
    change (bl_count (take i lens) l) with (cnt l (take i lens)) in Hn. lia.
Qed.

(** The code holds the lengths' codewords: the counts, and at each codeword's
    place its symbol. *)
Record code_for (size : Z) (lens : list Z) (c : code) : Prop := {
  for_table : len (table c) = 16;
  for_zero : (table c).[0] = 0;
  for_count l : 1 <= l < 16 -> (table c).[l] = cnt l lens;
  for_total : below (table c) 16 <= size;
  for_trans : size <= len (trans c);
  for_symbol i : (i < length lens)%nat -> 1 <= lens.[Z.of_nat i] < 16 ->
    (trans c).[below (table c) (Z.to_nat lens.[Z.of_nat i]) + cnt lens.[Z.of_nat i] (take i lens)] = Z.of_nat i;
}.

Lemma for_nonneg size lens c : code_for size lens c -> Forall (fun x => 0 <= x) (table c).
Proof.
  intros Hf. apply Forall_get_iff. intros l Hl. rewrite (for_table _ _ _ Hf) in Hl.
  destruct (Z.eq_dec l 0) as [->|]; [rewrite (for_zero _ _ _ Hf); lia|]. rewrite (for_count _ _ _ Hf) by lia. apply cnt_range.
Qed.

(** [next_code], in the counts. *)
Lemma first_code_next size lens c l :
  code_for size lens c -> 0 <= l <= 15 ->
  first_code lens (Z.to_nat (l + 1)) = 2 * (first_code lens (Z.to_nat l) + (table c).[l]).
Proof.
  intros Hf Hl. replace (Z.to_nat (l + 1)) with (S (Z.to_nat l)) by lia. cbn [first_code]. f_equal. f_equal.
  destruct (Z.to_nat l) as [|k] eqn:E; [replace l with 0 by lia; by rewrite (for_zero _ _ _ Hf)|].
  rewrite (for_count _ _ _ Hf) by lia. replace (Z.of_nat (S k)) with l by lia. done.
Qed.

Lemma below_next size lens c l :
  code_for size lens c -> 0 <= l < 16 -> below (table c) (Z.to_nat (l + 1)) = below (table c) (Z.to_nat l) + (table c).[l].
Proof.
  intros Hf Hl. pose proof (for_table _ _ _ Hf). replace (Z.to_nat (l + 1)) with (S (Z.to_nat l)) by lia.
  rewrite below_step by lia. by rewrite Z2Nat.id by lia.
Qed.

(** ** Symbols *)

(** The reader after [l] bits [v] none of whose prefixes is a codeword. *)
Definition symbol_at (lens : list Z) (c : code) (l v : Z) (y : symbol_state) : Prop :=
  sym_len y = l /\ 0 <= l <= 15 /\ sym_sum y = below (table c) (Z.to_nat (l + 1)) /\
  sym_cur y = v - first_code lens (Z.to_nat l) - (table c).[l] /\ 0 <= sym_cur y.

Lemma symbol_value_codeword size lens c l v x y :
  code_for size lens c -> 1 <= l <= 15 -> sym_sum y = below (table c) (Z.to_nat (l + 1)) ->
  sym_cur y = v - first_code lens (Z.to_nat l) - (table c).[l] -> sym_cur y < 0 -> first_code lens (Z.to_nat l) <= v ->
  exists i y', symbol_of lens l v = Some i /\ symbol_value c size x y = Some (Got i, x, y') /\ sym_active y' = false.
Proof.
  intros Hf Hl Hs Hc Hneg Hv. rewrite (for_count _ _ _ Hf) in Hc by lia.
  destruct (symbol_of_some lens l v ltac:(lia)) as (i & Hi & Hlt & Hli & Hvi). exists (Z.of_nat i).
  pose proof (below_next size lens c l Hf ltac:(lia)) as Hb. rewrite (for_count _ _ _ Hf) in Hb by lia.
  pose proof (for_table _ _ _ Hf) as Ht. pose proof (for_total _ _ _ Hf). pose proof (for_trans _ _ _ Hf).
  pose proof (below_mono (table c) (Z.to_nat (l + 1)) 16 (for_nonneg _ _ _ Hf) ltac:(lia)) as H1.
  pose proof (below_mono (table c) 0 (Z.to_nat l) (for_nonneg _ _ _ Hf) ltac:(lia)) as H2.
  pose proof (cnt_range l (take i lens)) as Hr. unfold symbol_value.
  assert (Hsum : sym_sum y + sym_cur y = below (table c) (Z.to_nat l) + cnt l (take i lens)) by lia. rewrite Hsum.
  destruct (Z.ltb_spec (below (table c) (Z.to_nat l) + cnt l (take i lens)) 0); [lia|]. cbn [orb].
  destruct (Z.leb_spec size (below (table c) (Z.to_nat l) + cnt l (take i lens))); [lia|].
  rewrite at_index_some by lia. cbn [mbind option_bind]. pose proof (for_symbol _ _ _ Hf i Hlt ltac:(lia)) as Hsy.
  rewrite Hli in Hsy. rewrite Hsy. by eexists.
Qed.

Lemma symbol_loop_decodes size lens c n l v x y bs :
  code_for size lens c -> reads x bs -> symbol_at lens c l v y -> 16 <= l + Z.of_nat n ->
  match decode_from lens l v bs with
  | Some (i, bs') => exists x' y', symbol_loop n c size x y = Some (Got i, x', y') /\ reads x' bs' /\ sym_active y' = false
  | None => exists m x' y', symbol_loop n c size x y = Some (Failed m, x', y')
  end.
Proof.
  intros Hf. revert n l v x y. induction bs as [|b bs IH]; intros n l v x y Hx (Hyl & Hl & Hys & Hyc & Hge) Hn;
    (destruct n as [|n]; [lia|]); cbn [decode_from symbol_loop]; pose proof (read_bit_reads x _ Hx) as Hr.
  { destruct Hr as (m & x' & ->). by eexists _, _, _. }
  destruct Hr as (x1 & -> & Hx1). rewrite Hyl. destruct (Z.ltb_spec 15 (l + 1)), (Z.eqb_spec (l + 1) 16); try lia; [by eexists _, _, _|].
  rewrite at_index_some by (rewrite (for_table _ _ _ Hf); lia). cbn [mbind option_bind].
  pose proof (first_code_next size lens c l Hf Hl) as Hfc. pose proof (below_next size lens c (l + 1) Hf ltac:(lia)) as Hbe.
  set (v' := 2 * v + Z.b2z b). set (y' := symbol_add y (Z.b2z b) (table c).[l + 1]).
  assert (Hb : 0 <= Z.b2z b) by (destruct b; cbn; lia).
  assert (Hs' : sym_sum y' = below (table c) (Z.to_nat (l + 1 + 1))) by (cbn [y' symbol_add sym_sum]; lia).
  assert (Hc' : sym_cur y' = v' - first_code lens (Z.to_nat (l + 1)) - (table c).[l + 1]) by (cbn [y' symbol_add sym_cur]; lia).
  destruct (Z.leb_spec 0 (sym_cur y')) as [Hcur|Hcur].
  - rewrite symbol_of_none by (rewrite <- (for_count _ _ _ Hf) by lia; lia).
    apply IH; [done| |lia]. split; [cbn [y' symbol_add sym_len]; lia|]. split; [lia|]. done.
  - destruct (symbol_value_codeword size lens c (l + 1) v' x1 y' Hf ltac:(lia) Hs' Hc' Hcur ltac:(lia)) as (i & y2 & -> & -> & Ha).
    by eexists _, _.
Qed.

Lemma decode_follows size lens c r bs :
  code_for size lens c -> ready r bs ->
  exists v r', decode_symbol c size r = Some (v, r') /\ follows (decode lens bs) 0 v r'.
Proof.
  intros Hf (Hx & Ha & Hy). unfold decode_symbol, symbol_start. rewrite Hy.
  set (y := {| sym_active := true; sym_sum := 0; sym_cur := 0; sym_len := 0 |}).
  assert (Hat : symbol_at lens c 0 0 y).
  { split; [done|]. split; [lia|]. pose proof (for_zero _ _ _ Hf) as Hz. pose proof (below_next size lens c 0 Hf ltac:(lia)) as Hb.
    replace (below (table c) (Z.to_nat 0)) with 0 in Hb by (by destruct (table c)). rewrite Hb, Hz. done. }
  pose proof (symbol_loop_decodes size lens c 16 0 0 (src r) y bs Hf Hx Hat ltac:(lia)) as Hl. unfold decode, follows.
  destruct (decode_from lens 0 0 bs) as [[i bs']|].
  - destruct Hl as (x' & y' & -> & Hx' & Hy'). cbn [mbind option_bind]. eexists _, _. split; [done|]. split; [done|]. by split.
  - destruct Hl as (m & x' & y' & ->). cbn [mbind option_bind]. eexists _, _. split; [done|]. by exists m.
Qed.

(** ** Building a code *)

(** Where the symbol [j] is placed. *)
Definition place (tb ls : list Z) (j : nat) : Z :=
  below tb (Z.to_nat ls.[Z.of_nat j]) + cnt ls.[Z.of_nat j] (take j ls).

(** The counts of the lengths, and nothing for the symbols that are not used. *)
Record counts (tb ls : list Z) : Prop := {
  counts_len : len tb = 16;
  counts_zero : tb.[0] = 0;
  counts_at l : 1 <= l < 16 -> tb.[l] = cnt l ls;
}.

Lemma counts_nonneg tb ls : counts tb ls -> Forall (fun x => 0 <= x) tb.
Proof.
  intros [Ht Hz Hc]. apply Forall_get_iff. intros l Hl. destruct (Z.eq_dec l 0) as [->|]; [lia|]. rewrite Hc by lia. apply cnt_range.
Qed.

(** The places of one length are its own. *)
Lemma symbol_place_range tb ls l r :
  counts tb ls -> 1 <= l < 16 -> 0 <= r < cnt l ls ->
  below tb (Z.to_nat l) <= below tb (Z.to_nat l) + r < below tb (Z.to_nat (l + 1)) /\ below tb (Z.to_nat (l + 1)) <= below tb 16 /\
  0 <= below tb (Z.to_nat l).
Proof.
  intros Hc Hl Hr. pose proof (counts_len _ _ Hc). replace (Z.to_nat (l + 1)) with (S (Z.to_nat l)) by lia.
  rewrite below_step by lia. rewrite Z2Nat.id by lia. rewrite (counts_at _ _ Hc l) by lia.
  pose proof (below_mono tb (S (Z.to_nat l)) 16 (counts_nonneg _ _ Hc) ltac:(lia)) as Hm.
  pose proof (below_mono tb 0 (Z.to_nat l) (counts_nonneg _ _ Hc) ltac:(lia)) as Hp.
  rewrite below_step in Hm by lia. rewrite Z2Nat.id in Hm by lia. rewrite (counts_at _ _ Hc l) in Hm by lia.
  assert (below tb 0 = 0) by (by destruct tb). split; [lia|]. split; lia.
Qed.

Lemma place_apart tb ls l r l' r' :
  counts tb ls -> 1 <= l < 16 -> 0 <= r < cnt l ls -> 1 <= l' < 16 -> 0 <= r' < cnt l' ls -> l <> l' \/ r <> r' ->
  below tb (Z.to_nat l) + r <> below tb (Z.to_nat l') + r'.
Proof.
  intros Hc Hl Hr Hl' Hr' Hne. pose proof (symbol_place_range tb ls l r Hc Hl Hr). pose proof (symbol_place_range tb ls l' r' Hc Hl' Hr').
  assert (Hlt : forall a b, 1 <= a -> a < b < 16 -> below tb (Z.to_nat (a + 1)) <= below tb (Z.to_nat b)).
  { intros a b Ha Hb. apply (below_mono tb); [by eapply counts_nonneg|lia]. }
  destruct (Z.lt_trichotomy l l') as [Hlt'|[->|Hlt']]; [|lia|].
  - specialize (Hlt l l' ltac:(lia) ltac:(lia)). lia.
  - specialize (Hlt l' l ltac:(lia) ltac:(lia)). lia.
Qed.

(** The symbols of [dn] are placed. *)
Definition placed (tb dn tr : list Z) : Prop :=
  forall j, (j < length dn)%nat -> 1 <= dn.[Z.of_nat j] < 16 -> tr.[place tb dn j] = Z.of_nat j.

Lemma place_app tb dn more j : (j < length dn)%nat -> place tb (dn ++ more) j = place tb dn j.
Proof. intros Hj. unfold place. by rewrite get_app_l, take_app_le by lia. Qed.

Lemma placed_snoc tb dn more x tr :
  counts tb (dn ++ x :: more) -> 1 <= x < 16 -> below tb 16 <= len tr -> placed tb dn tr ->
  placed tb (dn ++ [x]) (tr.[below tb (Z.to_nat x) + cnt x dn := Z.of_nat (length dn)]).
Proof.
  intros Hc Hx Htr Hp j Hj Hl. rewrite length_app in Hj. cbn [length] in Hj.
  pose proof (cnt_range x dn). assert (Hrx : 0 <= cnt x dn < cnt x (dn ++ x :: more)).
  { rewrite cnt_app, cnt_cons, bool_decide_eq_true_2 by done. pose proof (cnt_range x more). lia. }
  pose proof (symbol_place_range tb _ x (cnt x dn) Hc Hx Hrx).
  destruct (Nat.eq_dec j (length dn)) as [->|Hne].
  - unfold place. rewrite get_snoc, take_app_length. apply get_set_eq. lia.
  - assert (Hlt : (j < length dn)%nat) by lia. rewrite get_app_l in Hl by lia. rewrite place_app by done. unfold place.
    pose proof (cnt_take_lt _ dn j Hlt eq_refl). pose proof (cnt_range dn.[Z.of_nat j] (take j dn)).
    assert (Hrj : 0 <= cnt dn.[Z.of_nat j] (take j dn) < cnt dn.[Z.of_nat j] (dn ++ x :: more)).
    { rewrite cnt_app. pose proof (cnt_range dn.[Z.of_nat j] (x :: more)). lia. }
    pose proof (symbol_place_range tb _ _ _ Hc Hl Hrj). rewrite get_set_ne; [by apply Hp|lia|lia|].
    apply (place_apart tb (dn ++ x :: more)); try done. destruct (Z.eq_dec x dn.[Z.of_nat j]) as [->|]; [right; lia|by left].
Qed.

Lemma place_symbols_places tb dn seg rest offs tr :
  code_lens (dn ++ seg) -> len (dn ++ seg) < 65536 -> counts tb (dn ++ seg) -> len offs = 16 -> below tb 16 <= len tr ->
  below tb 16 < 65536 -> (forall l, 1 <= l < 16 -> offs.[l] = below tb (Z.to_nat l) + cnt l dn) -> placed tb dn tr ->
  exists tr', place_symbols (length seg) (dn ++ seg ++ rest) (len dn) offs tr = Some tr' /\ len tr' = len tr /\
    placed tb (dn ++ seg) tr'.
Proof.
  revert dn offs tr. induction seg as [|x seg IH]; intros dn offs tr HF Hlen Hc Ho Htr Hmax Hoff Hp; cbn [length place_symbols].
  { exists tr. by rewrite app_nil_r. }
  assert (Hi : at_index (dn ++ (x :: seg) ++ rest) (len dn) = Some x).
  { rewrite at_index_some by (rewrite length_app; cbn [app length]; lia). f_equal. unfold get. rewrite Nat2Z.id.
    apply list_lookup_total_correct. by rewrite lookup_app_r, Nat.sub_diag by lia. }
  rewrite Hi. cbn [mbind option_bind]. replace (dn ++ (x :: seg) ++ rest) with ((dn ++ [x]) ++ seg ++ rest) by (by rewrite <- app_assoc).
  replace (len dn + 1) with (len (dn ++ [x])) by (rewrite length_app; cbn; lia).
  assert (He : dn ++ x :: seg = (dn ++ [x]) ++ seg) by (by rewrite <- app_assoc). rewrite He in *.
  assert (Hx : 0 <= x < 16) by (apply Forall_app in HF as [HF _]; apply Forall_app in HF as [_ HF]; by inversion HF).
  destruct (Z.eqb_spec x 0) as [->|Hx0].
  - apply IH; try done.
    + intros l Hl. rewrite cnt_app, cnt_cons, bool_decide_eq_false_2 by lia. change (cnt l []) with 0. rewrite Hoff by done. lia.
    + intros j Hj Hl. rewrite length_app in Hj. cbn [length] in Hj. destruct (Nat.eq_dec j (length dn)) as [->|]; [rewrite get_snoc in Hl; lia|].
      rewrite get_app_l in Hl by lia. rewrite place_app by lia. apply Hp; [lia|done].
  - pose proof (cnt_range x dn). assert (Hrx : 0 <= cnt x dn < cnt x ((dn ++ [x]) ++ seg)).
    { rewrite !cnt_app, cnt_cons, bool_decide_eq_true_2 by done. pose proof (cnt_range x seg). change (cnt x []) with 0. lia. }
    pose proof (symbol_place_range tb _ x (cnt x dn) Hc ltac:(lia) Hrx). rewrite at_index_some by lia. cbn [mbind option_bind].
    rewrite Hoff by lia. rewrite put_index_some by lia. cbn [mbind option_bind]. rewrite put_index_some by lia. cbn [mbind option_bind].
    assert (Hu : u16 (len dn) = len dn).
    { apply wrap_id. unfold fits. change (2 ^ 16) with 65536. rewrite !length_app in Hlen. lia. }
    rewrite Hu. destruct (IH (dn ++ [x]) (offs.[x := u16 (below tb (Z.to_nat x) + cnt x dn + 1)])
      (tr.[below tb (Z.to_nat x) + cnt x dn := len dn])) as (tr' & -> & Hl' & Hp'); try done.
    + by rewrite len_set.
    + by rewrite len_set.
    + intros l Hl. rewrite cnt_app, cnt_cons. change (cnt l []) with 0. destruct (Z.eq_dec l x) as [->|Hne].
      * rewrite get_set_eq, bool_decide_eq_true_2, wrap_id by (done || lia || (unfold fits; change (2 ^ 16) with 65536; lia)). lia.
      * rewrite get_set_ne, bool_decide_eq_false_2, Hoff by (lia || congruence). lia.
    + apply (placed_snoc tb dn seg); [|lia|lia|done]. by rewrite He.
    + exists tr'. split; [done|]. split; [rewrite Hl'; apply len_set|done].
Qed.

Lemma count_lengths_ok seg rest i lens tbl r :
  0 <= i -> drop (Z.to_nat i) lens = seg ++ rest -> code_lens seg -> count_lengths (length seg) lens i tbl = Some r -> r.2 = true.
Proof.
  revert i tbl. induction seg as [|x seg IH]; intros i tbl Hi Hd HF; cbn [length count_lengths]; [by intros [= <-]|].
  destruct (drop_cons_nth lens i x (seg ++ rest) Hi Hd) as [-> Hd']. cbn [mbind option_bind]. inversion HF; subst.
  destruct (Z.leb_spec 16 x); [lia|]. destruct (at_index _ _); cbn [mbind option_bind]; [|done].
  destruct (put_index _ _ _); cbn [mbind option_bind]; [|done]. apply IH; [lia|done|done].
Qed.

(** Any lengths below 16, as many as there is room for, make a code. *)
Lemma build_tree_code c n size lens num :
  code_shape n c -> size <= n -> n < 60000 -> 0 <= num <= size -> num <= len lens -> code_lens (take (Z.to_nat num) lens) ->
  exists c', build_tree c size lens num = Some (c', None) /\ code_for size (take (Z.to_nat num) lens) c' /\ code_shape n c'.
Proof.
  intros [Ht Htr] Hsz Hn Hnum Hlen HF. unfold build_tree. set (seg := take (Z.to_nat num) lens) in *.
  assert (Hseg : drop (Z.to_nat 0) lens = seg ++ drop (Z.to_nat num) lens) by (symmetry; apply take_drop).
  assert (Hls : length seg = Z.to_nat num) by (unfold seg; rewrite length_take; lia). rewrite <- Hls.
  destruct (count_lengths_spec lens seg _ 0 (replicate 16 0) ltac:(lia) Hseg) as (tbl & ok & Hct & Hl & Hok).
  - eapply Forall_impl; [exact HF|]. cbn. lia.
  - done.
  - intros l Hl. unfold get. rewrite lookup_total_replicate_2 by lia. lia.
  - pose proof (count_lengths_ok seg _ 0 lens _ _ ltac:(lia) Hseg HF Hct) as Hk. cbn [snd] in Hk. subst ok.
    rewrite Hct. cbn [mbind option_bind negb]. destruct (Hok eq_refl) as [_ Hc]. clear Hok.
    assert (Hcs : counts tbl.[0 := 0] seg).
    { constructor; [by rewrite len_set|apply get_set_eq; lia|]. intros l Hl'. rewrite get_set_ne, Hc by lia. unfold get.
      rewrite lookup_total_replicate_2 by lia. lia. }
    set (tb := tbl.[0 := 0]) in *. clearbody tb. pose proof (counts_len _ _ Hcs) as Hlt.
    pose proof (sum_counts tb seg Hlt (counts_zero _ _ Hcs) (counts_at _ _ Hcs) HF) as Hsum.
    pose proof (counts_nonneg _ _ Hcs) as HFt.
    pose proof (offsets_spec tb 0 HFt ltac:(lia)) as Hoff. replace (length tb) with 16%nat in Hoff by lia. specialize (Hoff ltac:(lia)).
    destruct (offsets tb 0) as [offs total]. destruct Hoff as (Hol & -> & Ho). rewrite Z.add_0_l.
    destruct (Z.ltb_spec size (below tb 16)); [lia|].
    pose proof (place_symbols_places tb [] seg (drop (Z.to_nat num) lens) offs (trans c)) as Hpl. cbn [app] in Hpl.
    destruct Hpl as (tr & Hpl & Hl' & Hp); try done; try lia.
    + intros l Hl'. unfold get. change (cnt l []) with 0. rewrite Z.add_0_r. apply list_lookup_total_correct. rewrite Ho by lia. f_equal.
    + intros j Hj. cbn in Hj. lia.
    + unfold seg in Hpl at 2. rewrite take_drop in Hpl. change (len []) with 0 in Hpl. rewrite Hpl. cbn [mbind option_bind].
      eexists. split; [done|]. split; [|split; [done|cbn [trans]; lia]]. constructor; cbn [table trans]; try apply Hcs; try done; try lia.
Qed.

(** The fixed codes are the RFC's. *)
Lemma fixed_codes : code_for LITERAL_TRANS fixed_lit fixed_ltree /\ code_for DISTANCE_TRANS fixed_dist fixed_dtree.
Proof.
  assert (Hlen : forall b ls, forallb (fun x => (0 <=? x) && (x <? b)) ls = true -> Forall (fun x => 0 <= x < b) ls).
  { intros b ls Hb. apply List.Forall_forall. intros x Hx. rewrite List.forallb_forall in Hb. specialize (Hb x Hx).
    apply andb_true_iff in Hb as [? ?]. lia. }
  split.
  - destruct (build_tree_code (code_zero LITERAL_TRANS) LITERAL_TRANS LITERAL_TRANS fixed_lit 288) as (c & Hb & Hf & _);
      [done|done|done|done|done|by apply Hlen|].
    assert (Hv : build_tree (code_zero LITERAL_TRANS) LITERAL_TRANS fixed_lit 288 = Some (fixed_ltree, None)) by (by vm_compute).
    rewrite Hv in Hb. injection Hb as <-. exact Hf.
  - destruct (build_tree_code (code_zero DISTANCE_TRANS) DISTANCE_TRANS DISTANCE_TRANS fixed_dist 32) as (c & Hb & Hf & _);
      [done|done|done|done|done|by apply Hlen|].
    assert (Hv : build_tree (code_zero DISTANCE_TRANS) DISTANCE_TRANS fixed_dist 32 = Some (fixed_dtree, None)) by (by vm_compute).
    rewrite Hv in Hb. injection Hb as <-. exact Hf.
Qed.
End InflateCode.
