(* ===== verification/InflateDyn.v ===== *)
(** The header of a dynamic block: with the last of the input at hand,
    [process_dynamic_trees] ends with the two codes that the reference decoder
    reads from the same bits, and in error when there are none. *)

From stdpp Require Import strings.
From S2P Require Import Prelude Span Pump Inflate InflateRead InflateSafe InflateRun Inflater InflateChunks Rfc1951 InflateCode.
Import Span Pump Inflate InflateRead InflateSafe InflateRun Inflater InflateChunks Rfc1951 InflateCode.

Module InflateDyn.

(** ** Arrays *)

Lemma take_set_snoc (l : list Z) i v :
  0 <= i < len l -> take (Z.to_nat (i + 1)) l.[i := v] = take (Z.to_nat i) l ++ [v].
Proof.
  intros Hi. replace (Z.to_nat (i + 1)) with (S (Z.to_nat i)) by lia. unfold set.
  rewrite (take_S_r _ _ v) by (apply list_lookup_insert_eq; lia). by rewrite take_insert_ge by lia.
Qed.

Lemma fill_lengths_take n l i v :
  0 <= i -> i + Z.of_nat n <= len l ->
  exists l', fill_lengths n l i v = Some (l', i + Z.of_nat n) /\ len l' = len l /\
    take (Z.to_nat (i + Z.of_nat n)) l' = take (Z.to_nat i) l ++ replicate n v.
Proof.
  revert l i. induction n as [|n IH]; intros l i Hi Hn; cbn [fill_lengths].
  - exists l. rewrite Z.add_0_r, app_nil_r. done.
  - rewrite put_index_some by lia. cbn [mbind option_bind].
    destruct (IH l.[i := v] (i + 1)) as (l' & -> & Hl & Ht); [lia|rewrite len_set; lia|].
    exists l'. rewrite len_set in Hl. replace (i + Z.of_nat (S n)) with (i + 1 + Z.of_nat n) by lia. split; [done|]. split; [done|].
    rewrite Ht, take_set_snoc, <- app_assoc by lia. done.
Qed.

Lemma clear_is_fill n l i : clear_lengths n l i = fill_lengths n l i 0.
Proof.
  revert l i. induction n as [|n IH]; intros l i; cbn [clear_lengths fill_lengths]; [done|].
  destruct (put_index l i 0); cbn [mbind option_bind]; [apply IH|done].
Qed.

Lemma get_take (l : list Z) (n i : Z) : 0 <= i < n -> (take (Z.to_nat n) l).[i] = l.[i].
Proof. intros Hi. unfold get. rewrite lookup_total_take, decide_True by lia. done. Qed.

(** ** The header's state and result *)

(** What the header leaves alone, for later. *)
Definition kept (s : inflate) : Z * trailer := (bfinal (ctl s), trl s).

Record dyn_frame (f : Z * trailer) (s : inflate) : Prop := {
  frame_final : kept s = f;
  frame_lengths : len (lengths (dyn s)) = LENGTHS_SIZE;
  frame_ltree : code_shape LITERAL_TRANS (ltree s);
  frame_tree : code_shape DISTANCE_TRANS (tree s);
}.

(** The loop ends with the reference's codes, or in error. *)
Definition dyn_result (f : Z * trailer) (ref : option (list Z * list Z * list bool)) (s : inflate) : Prop :=
  match ref with
  | Some (lit, dist, bs) => exists s', ends dyn_turn s (s', 1) /\ code_for LITERAL_TRANS lit (ltree s') /\
      code_for DISTANCE_TRANS dist (tree s') /\ ready (rd s') bs /\ kept s' = f
  | None => exists s', ends dyn_turn s (s', -1)
  end.

Lemma dyn_step f ref s s1 : dyn_turn s = Some (s1, None) -> dyn_result f ref s1 -> dyn_result f ref s.
Proof.
  intros Ht. destruct ref as [[[lit dist] bs]|]; cbn [dyn_result].
  - intros (s' & He & Hr). exists s'. split; [by eapply ends_step|done].
  - intros (s' & He). exists s'. by eapply ends_step.
Qed.

Lemma dyn_same f ref s s1 : dyn_turn s = dyn_turn s1 -> dyn_result f ref s1 -> dyn_result f ref s.
Proof.
  intros Ht. destruct ref as [[[lit dist] bs]|]; cbn [dyn_result].
  - intros (s' & He & Hr). exists s'. split; [by eapply ends_same|done].
  - intros (s' & He). exists s'. by eapply ends_same.
Qed.

Lemma dyn_fail f s s1 : dyn_turn s = Some (s1, Some (-1)) -> dyn_result f None s.
Proof. intros Ht. exists s1. by apply ends_now. Qed.

(** A frame survives what leaves its parts alone. *)
Lemma frame_same f s s1 :
  dyn_frame f s -> kept s1 = kept s -> len (lengths (dyn s1)) = len (lengths (dyn s)) -> ltree s1 = ltree s ->
  tree s1 = tree s -> dyn_frame f s1.
Proof. intros [H1 H2 H3 H4] E1 E2 E3 E4. constructor; [congruence|congruence|by rewrite E3|by rewrite E4]. Qed.

(** A header field. *)
Lemma dyn_field_follows num base k s bs :
  ready (rd s) bs -> 0 <= num <= 13 -> 0 <= base <= 65536 ->
  match take_bits (Z.to_nat num) bs with
  | Some (a, bs') => exists r, dyn_field num base k s = k (set_rd s r) (base + a) /\ ready r bs'
  | None => exists s', dyn_field num base k s = (s', Some (-1))
  end.
Proof.
  intros Hr Hn Hb. unfold dyn_field. pose proof (read_bits_follows num base (rd s) bs Hr Hn Hb) as Hf.
  destruct (read_bits num base (rd s)) as [v r]. unfold follows in Hf. destruct (take_bits _ _) as [[a bs']|].
  - destruct Hf as [-> Hr']. by exists r.
  - destruct Hf as [m ->]. by eexists.
Qed.

(** ** The two codes *)

Lemma build_dynamic_codes f s lens bs hl :
  dyn_frame f s -> ready (rd s) bs -> hlit (dyn s) = hl -> 257 <= hl <= 286 -> 1 <= hdist (dyn s) <= 32 ->
  code_lens lens -> len lens = hl + hdist (dyn s) -> take (Z.to_nat (hl + hdist (dyn s))) (lengths (dyn s)) = lens ->
  dynamic_stage (ctl s) = DYN_BUILD_TREES ->
  dyn_result f (if lens.[256] =? 0 then None else Some (take (Z.to_nat hl) lens, drop (Z.to_nat hl) lens, bs)) s.
Proof.
  intros Hfr Hr <- Hhl Hhd HF Hlen Htk Hst. pose proof (frame_lengths f s Hfr) as Hls. unfold LENGTHS_SIZE in Hls.
  set (hl := hlit (dyn s)) in *. set (hd := hdist (dyn s)) in *.
  assert (Hlit : take (Z.to_nat hl) (lengths (dyn s)) = take (Z.to_nat hl) lens) by (rewrite <- Htk, take_take; f_equal; lia).
  assert (Hdist : take (Z.to_nat hd) (drop (Z.to_nat hl) (lengths (dyn s))) = drop (Z.to_nat hl) lens).
  { rewrite <- Htk, take_drop_commute. f_equal. f_equal. lia. }
  destruct (build_tree_code (ltree s) LITERAL_TRANS LITERAL_TRANS (lengths (dyn s)) hl) as (lc & Hlc & Hfl & _);
    [apply Hfr|done|done|unfold LITERAL_TRANS; lia|lia|rewrite Hlit; by apply Forall_take|].
  destruct (build_tree_code (tree s) DISTANCE_TRANS DISTANCE_TRANS (drop (Z.to_nat hl) (lengths (dyn s))) hd) as (dc & Hdc & Hfd & _);
    [apply Hfr|done|done|unfold DISTANCE_TRANS; lia|rewrite length_drop; lia|rewrite Hdist; by apply Forall_drop|].
  assert (Ht : dyn_turn s = build_dynamic s) by (unfold dyn_turn; by rewrite Hst).
  unfold build_dynamic in Ht. rewrite at_index_some in Ht by lia. cbn [mbind option_bind] in Ht.
  assert (He : lens.[256] = (lengths (dyn s)).[256]) by (rewrite <- Htk; apply get_take; lia). rewrite He.
  destruct (_ =? 0); [by eapply dyn_fail|]. fold hl hd in Ht. rewrite Hlc in Ht. cbn [mbind option_bind] in Ht. isimpl.
  rewrite Hdc in Ht. cbn [mbind option_bind] in Ht. isimpl. eexists. split; [by apply ends_now|]. isimpl.
  rewrite Hlit in Hfl. rewrite Hdist in Hfd. split; [done|]. split; [done|]. split; [|apply Hfr].
  destruct Hr as (Hx & _ & _). by split.
Qed.

(** ** The code lengths *)

Record reading (clens : list Z) (hl hd : Z) (sofar : list Z) (bs : list bool) (s : inflate) : Prop := {
  reading_hlit : hlit (dyn s) = hl;
  reading_hdist : hdist (dyn s) = hd;
  reading_limit : hlimit (dyn s) = hl + hd;
  reading_num : dyn_num (dyn s) = len sofar;
  reading_sofar : take (Z.to_nat (len sofar)) (lengths (dyn s)) = sofar;
  reading_code : code_for CODELEN_TRANS clens (tree s);
  reading_ready : ready (rd s) bs;
}.

Definition split_at (hl : Z) (r : option (list Z * list bool)) : option (list Z * list Z * list bool) :=
  '(lens, bs) ← r; if lens.[256] =? 0 then None else Some (take (Z.to_nat hl) lens, drop (Z.to_nat hl) lens, bs).

Lemma repeat_rule_follows s sym sofar :
  dyn_num (dyn s) = len sofar -> take (Z.to_nat (len sofar)) (lengths (dyn s)) = sofar -> len sofar <= len (lengths (dyn s)) ->
  16 <= sym < 19 -> repeat_of s sym = Some (repeat_rule sym sofar).
Proof.
  intros Hn Ht Hl Hs. unfold repeat_of, repeat_rule. destruct (Z.eqb_spec sym 16).
  - rewrite Hn. destruct sofar as [|x sofar'] using rev_ind; [done|]. clear IHsofar'. rewrite last_snoc.
    rewrite length_app in *. cbn [length] in *. destruct (Z.eqb_spec (Z.of_nat (length sofar' + 1)) 0); [lia|].
    rewrite at_index_some by lia. cbn [mbind option_bind]. do 3 f_equal.
    rewrite <- (get_take (lengths (dyn s)) (Z.of_nat (length sofar' + 1))) by lia. rewrite Ht.
    replace (Z.of_nat (length sofar' + 1) - 1) with (len sofar') by lia. by rewrite get_snoc.
  - destruct (Z.eqb_spec sym 17); [done|]. destruct (Z.eqb_spec sym 18); [done|lia].
Qed.

(** One length more. *)
Lemma reading_literal clens hl hd sofar bs0 bs s r x :
  reading clens hl hd sofar bs0 s -> ready r bs -> 0 <= x < 16 -> len sofar < len (lengths (dyn s)) ->
  forall l, l = (lengths (dyn s)).[dyn_num (dyn s) := u8 x] ->
  reading clens hl hd (sofar ++ [x]) bs (set_dyn (set_rd s r) (with_lengths (dyn s) l (dyn_i (dyn s)) (dyn_num (dyn s) + 1))).
Proof.
  intros [H1 H2 H3 H4 H5 H6 H7] Hr Hx Hl l ->. constructor; isimpl; try done.
  - rewrite length_app, H4. cbn. lia.
  - rewrite length_app. cbn [length]. replace (Z.of_nat (length sofar + 1)) with (len sofar + 1) by lia.
    rewrite H4, take_set_snoc, H5 by lia. by rewrite wrap_id by (unfold fits; lia).
Qed.

(** A repeat, after its count. *)
Lemma repeat_lengths_follows clens hl hd sofar bs s n v :
  reading clens hl hd sofar bs s -> len (lengths (dyn s)) = LENGTHS_SIZE -> hl + hd <= LENGTHS_SIZE -> len sofar <= hl + hd ->
  0 <= n < 256 -> dyn_fill_value (dyn s) = v ->
  if hl + hd <? len sofar + n then exists s', repeat_lengths s n = Some (s', Some (-1))
  else exists s', repeat_lengths s n = Some (s', None) /\ reading clens hl hd (sofar ++ replicate (Z.to_nat n) v) bs s' /\
    len (lengths (dyn s')) = len (lengths (dyn s)) /\ ctl s' = ctl (set_dynamic_stage s DYN_READ_LENGTHS) /\
    ltree s' = ltree s /\ tree s' = tree s /\ trl s' = trl s.
Proof.
  intros [H1 H2 H3 H4 H5 H6 H7] Hl Hmax Hso Hn <-. unfold LENGTHS_SIZE in *. unfold repeat_lengths. isimpl.
  rewrite H3, H4, wrap_id by (unfold fits; change (2 ^ 32) with 4294967296; lia).
  destruct (Z.ltb_spec (hl + hd) (len sofar + n)); [by eexists|].
  destruct (fill_lengths_take (Z.to_nat n) (lengths (dyn s)) (len sofar) (dyn_fill_value (dyn s))) as (l & -> & Hl' & Ht); [lia|lia|].
  cbn [mbind option_bind]. eexists. split; [done|]. split; [|done]. constructor; isimpl; try done.
  - rewrite length_app, length_replicate. lia.
  - rewrite length_app, length_replicate, Nat2Z.inj_add, Ht, H5. done.
Qed.

Lemma decode_after s size lens bs c :
  code_for size lens c -> ready (rd s) bs ->
  match decode lens bs with
  | Some (i, bs') => exists r, decode_symbol c size (rd s) = Some (Got i, r) /\ ready r bs'
  | None => exists m r, decode_symbol c size (rd s) = Some (Failed m, r)
  end.
Proof.
  intros Hc Hr. destruct (decode_follows size lens c (rd s) bs Hc Hr) as (v & r & -> & Hf). unfold follows in Hf.
  destruct (decode lens bs) as [[i bs']|]; [destruct Hf as [-> ?]; by exists r|destruct Hf as [m ->]; by exists m, r].
Qed.

Section Lengths.
Variables (f : Z * trailer) (clens : list Z) (hl hd : Z).
Hypothesis clens_len : len clens = 19.
Hypothesis hl_range : 257 <= hl <= 286.
Hypothesis hd_range : 1 <= hd <= 32.

(** The loop, at a symbol. *)
Definition at_symbol (sofar : list Z) (bs : list bool) (s : inflate) : Prop :=
  dyn_frame f s /\ dynamic_stage (ctl s) = DYN_READ_LENGTHS /\ reading clens hl hd sofar bs s /\ len sofar <= hl + hd.

Lemma at_symbol_turn sofar bs s :
  at_symbol sofar bs s -> dyn_turn s = read_lengths (Z.to_nat (hl + hd - len sofar)) s.
Proof.
  intros (_ & Hst & Hrd & _). unfold dyn_turn. by rewrite Hst, (reading_limit _ _ _ _ _ _ Hrd), (reading_num _ _ _ _ _ _ Hrd).
Qed.

(** The symbol decoded, and what the turn does with it. *)
Lemma at_symbol_decode sofar bs s :
  at_symbol sofar bs s -> len sofar < hl + hd ->
  match decode clens bs with
  | Some (sym, bs') => exists r, ready r bs' /\
      dyn_turn s =
        if sym <? 16 then
          l ← put_index (lengths (dyn s)) (len sofar) (u8 sym);
          read_lengths (Z.to_nat (hl + hd - (len sofar + 1)))
            (set_dyn (set_rd s r) (with_lengths (dyn s) l (dyn_i (dyn s)) (dyn_num (dyn s) + 1)))
        else
          rep ← repeat_of (set_rd s r) sym;
          match rep with
          | None => Some (set_error (set_rd s r) (repeat_error sym), Some (-1))
          | Some (fill, bits, base) =>
              Some (set_dynamic_stage
                      (set_dyn (set_rd s r) (with_repeat (dyn s) fill (dyn_repeat_len (dyn s)) bits base)) DYN_REPEAT_BITS, None)
          end
  | None => exists s', dyn_turn s = Some (s', Some (-1))
  end.
Proof.
  intros Hat Hlt. rewrite (at_symbol_turn sofar bs s Hat). destruct Hat as (_ & _ & Hrd & _).
  replace (Z.to_nat (hl + hd - len sofar)) with (S (Z.to_nat (hl + hd - (len sofar + 1)))) by lia. cbn [read_lengths].
  pose proof (decode_after s _ clens bs _ (reading_code _ _ _ _ _ _ Hrd) (reading_ready _ _ _ _ _ _ Hrd)) as Hd.
  destruct (decode clens bs) as [[sym bs']|].
  - destruct Hd as (r & -> & Hr). exists r. split; [done|]. cbn [mbind option_bind after_read]. isimpl.
    by rewrite (reading_num _ _ _ _ _ _ Hrd).
  - destruct Hd as (m & r & ->). cbn [mbind option_bind]. by eexists.
Qed.

Lemma at_symbol_literal sofar bs s sym bs' :
  at_symbol sofar bs s -> len sofar < hl + hd -> decode clens bs = Some (sym, bs') -> sym < 16 ->
  exists s1, dyn_turn s = dyn_turn s1 /\ at_symbol (sofar ++ [sym]) bs' s1.
Proof.
  intros Hat Hlt Hd Hs. pose proof (at_symbol_decode sofar bs s Hat Hlt) as Ht. rewrite Hd in Ht. destruct Ht as (r & Hr & Ht).
  apply decode_spec in Hd as [Hsym _]. destruct Hat as (Hfr & Hst & Hrd & Hle). pose proof (frame_lengths f s Hfr) as Hlen.
  unfold LENGTHS_SIZE in Hlen. destruct (Z.ltb_spec sym 16); [|lia]. rewrite put_index_some in Ht by lia. cbn [mbind option_bind] in Ht.
  set (s1 := set_dyn (set_rd s r) _) in Ht. exists s1.
  assert (Hl : len (sofar ++ [sym]) = len sofar + 1) by (rewrite length_app; cbn; lia).
  assert (Hat1 : at_symbol (sofar ++ [sym]) bs' s1).
  { split; [eapply frame_same; try done; unfold s1; isimpl; by rewrite len_set|]. split; [done|]. split; [|lia].
    apply (reading_literal clens hl hd sofar bs bs' s r sym); try done; [lia..|]. by rewrite (reading_num _ _ _ _ _ _ Hrd). }
  split; [|done]. by rewrite Ht, (at_symbol_turn _ _ _ Hat1), Hl.
Qed.

Lemma at_symbol_repeat sofar bs s sym bs' :
  at_symbol sofar bs s -> len sofar < hl + hd -> code_lens sofar -> decode clens bs = Some (sym, bs') -> 16 <= sym ->
  match '(v, w, base) ← repeat_rule sym sofar; '(x, bs) ← take_bits (Z.to_nat w) bs';
        if hl + hd <? len sofar + (base + x) then None else Some (sofar ++ replicate (Z.to_nat (base + x)) v, bs) with
  | Some (sofar', bs') => exists s1, (forall ref, dyn_result f ref s1 -> dyn_result f ref s) /\ at_symbol sofar' bs' s1
  | None => dyn_result f None s
  end.
Proof.
  intros Hat Hlt HF Hd Hs. pose proof (at_symbol_decode sofar bs s Hat Hlt) as Ht. rewrite Hd in Ht. destruct Ht as (r & Hr & Ht).
  apply decode_spec in Hd as [Hsym _]. destruct Hat as (Hfr & Hst & Hrd & Hle). pose proof (frame_lengths f s Hfr) as Hlen.
  pose proof Hrd as [H1 H2 H3 H4 H5 H6 H7]. destruct (Z.ltb_spec sym 16); [lia|].
  assert (Hrep : repeat_of (set_rd s r) sym = Some (repeat_rule sym sofar)).
  { apply repeat_rule_follows; isimpl; try done; [rewrite Hlen; unfold LENGTHS_SIZE; lia|lia]. }
  rewrite Hrep in Ht. cbn [mbind option_bind] in Ht.
  destruct (repeat_rule sym sofar) as [[[v w] base]|] eqn:Er; cbn [mbind option_bind]; [|by eapply dyn_fail].
  destruct (repeat_rule_spec _ _ _ _ _ HF Er) as (Hv & Hw & Hbase).
  set (s1 := set_dynamic_stage _ DYN_REPEAT_BITS) in Ht.
  assert (Ht1 : dyn_turn s1 = let '(v, r) := read_bits w base r in
    let s := after_read s1 v r in match v with Got n => repeat_lengths s n | _ => Some (s, Some (stop_code s)) end) by done.
  pose proof (read_bits_follows w base r bs' Hr ltac:(lia) ltac:(lia)) as Hb. destruct (read_bits w base r) as [u r2].
  unfold follows in Hb. destruct (take_bits (Z.to_nat w) bs') as [[x bs2]|] eqn:Eb; cbn [mbind option_bind].
  2: { destruct Hb as [m ->]. eapply dyn_step, dyn_fail; [exact Ht|exact Ht1]. }
  destruct Hb as [-> Hr2]. apply take_bits_range in Eb. rewrite Z2Nat.id in Eb by lia.
  assert (2 ^ w <= 2 ^ 7) by (apply Z.pow_le_mono_r; lia). change (2 ^ 7) with 128 in *.
  assert (Hrd2 : reading clens hl hd sofar bs2 (set_rd s1 r2)) by by constructor.
  pose proof (repeat_lengths_follows clens hl hd sofar bs2 (set_rd s1 r2) (base + x) v Hrd2 Hlen ltac:(unfold LENGTHS_SIZE; lia)
    ltac:(lia) ltac:(lia) eq_refl) as Hrl. cbn [after_read] in Ht1.
  destruct (Z.ltb_spec (hl + hd) (len sofar + (base + x))).
  - destruct Hrl as [s' Hrl]. rewrite Hrl in Ht1. eapply dyn_step, dyn_fail; [exact Ht|exact Ht1].
  - destruct Hrl as (s' & Hrl & Hrd' & Hl' & Hctl & Hlt' & Htr' & Htl'). rewrite Hrl in Ht1. exists s'.
    split; [intros ref Href; eapply dyn_step, dyn_step, Href; [exact Ht|exact Ht1]|].
    split; [eapply frame_same; try done; unfold kept; by rewrite Hctl, Htl'|]. split; [by rewrite Hctl|]. split; [done|].
    rewrite length_app, length_replicate. lia.
Qed.

Lemma lengths_follow n sofar bs s :
  at_symbol sofar bs s -> code_lens sofar -> hl + hd < len sofar + Z.of_nat n ->
  dyn_result f (split_at hl (code_lengths n clens (hl + hd) sofar bs)) s.
Proof.
  revert sofar bs s. induction n as [|n IH]; intros sofar bs s Hat HF Hn; [destruct Hat as (_ & _ & _ & ?); lia|]. cbn [code_lengths].
  destruct (Z.leb_spec (hl + hd) (len sofar)) as [Hge|Hlt].
  { pose proof (at_symbol_turn sofar bs s Hat) as Ht. destruct Hat as (Hfr & Hst & [H1 H2 H3 H4 H5 H6 H7] & Hle).
    cbn [split_at mbind option_bind]. replace (Z.to_nat (hl + hd - len sofar)) with O in Ht by lia. cbn [read_lengths] in Ht.
    eapply dyn_step; [exact Ht|]. apply build_dynamic_codes; isimpl; try done; try lia; rewrite ?H2; try lia.
    - by eapply frame_same.
    - by replace (hl + hd) with (len sofar) by lia. }
  pose proof (at_symbol_decode sofar bs s Hat Hlt) as Ht.
  destruct (decode clens bs) as [[sym bs1]|] eqn:Ed; cbn [mbind option_bind split_at]; [|destruct Ht as [s' Ht]; by eapply dyn_fail].
  clear Ht. pose proof (decode_spec _ _ _ _ Ed) as [Hsym _]. destruct (Z.ltb_spec sym 16) as [H16|H16].
  - destruct (at_symbol_literal sofar bs s sym bs1 Hat Hlt Ed H16) as (s1 & Ht & Hat1). eapply dyn_same; [exact Ht|].
    apply IH; [done|apply Forall_app; split; [done|repeat constructor; lia]|]. rewrite length_app. cbn. lia.
  - pose proof (at_symbol_repeat sofar bs s sym bs1 Hat Hlt HF Ed H16) as Hrep.
    destruct (repeat_rule sym sofar) as [[[v w] base]|] eqn:Er; cbn [mbind option_bind] in *; [|done].
    destruct (repeat_rule_spec _ _ _ _ _ HF Er) as (Hv & Hw & Hbase).
    destruct (take_bits (Z.to_nat w) bs1) as [[x bs2]|] eqn:Eb; cbn [mbind option_bind] in *; [|done].
    apply take_bits_range in Eb. destruct (Z.ltb_spec (hl + hd) (len sofar + (base + x))); [done|].
    destruct Hrep as (s1 & Hgo & Hat1). apply Hgo. apply IH; [done|apply Forall_app; split; [done|by apply Forall_replicate]|].
    rewrite length_app, length_replicate. lia.
Qed.
End Lengths.

(** ** The code length code *)

Lemma dyn_unchanged s : set_dyn (set_rd s (rd s)) (with_lengths (dyn s) (lengths (dyn s)) (dyn_i (dyn s)) (dyn_num (dyn s))) = s.
Proof. by destruct s as [? ? ? ? [] ? ? ? ?]. Qed.

Lemma clcidx_range i : 0 <= i < 19 -> 0 <= clcidx.[i] < 19.
Proof. intros Hi. apply (Forall_get (fun x => 0 <= x < 19)); [repeat constructor; lia|done]. Qed.

Lemma clcidx_drop i : 0 <= i < 19 -> drop (Z.to_nat i) clcidx = clcidx.[i] :: drop (Z.to_nat (i + 1)) clcidx.
Proof.
  intros Hi. replace (Z.to_nat (i + 1)) with (S (Z.to_nat i)) by lia. apply drop_S. unfold get.
  apply list_lookup_lookup_total_lt. change (length clcidx) with 19%nat. lia.
Qed.

Lemma read_clens_follow n bs s :
  ready (rd s) bs -> 0 <= dyn_i (dyn s) -> dyn_i (dyn s) + Z.of_nat n <= 19 -> len (lengths (dyn s)) = LENGTHS_SIZE ->
  match take_fields n 3 bs with
  | Some (vs, bs') => exists r l,
      read_clens n s = Some (set_dynamic_stage (set_dyn (set_rd s r)
        (with_lengths (dyn s) l (dyn_i (dyn s) + Z.of_nat n) (dyn_num (dyn s)))) DYN_BUILD_CLTREE, None) /\
      ready r bs' /\ len l = LENGTHS_SIZE /\ take 19 l = assign (drop (Z.to_nat (dyn_i (dyn s))) clcidx) vs (take 19 (lengths (dyn s)))
  | None => exists s', read_clens n s = Some (s', Some (-1))
  end.
Proof.
  revert bs s. induction n as [|n IH]; intros bs s Hr Hi Hn Hl; cbn [take_fields read_clens].
  { exists (rd s), (lengths (dyn s)). rewrite Z.add_0_r, dyn_unchanged. split; [done|]. split; [done|]. split; [done|].
    by destruct (drop _ clcidx). }
  pose proof (read_bits_follows 3 0 (rd s) bs Hr ltac:(lia) ltac:(lia)) as Hb. change (Z.to_nat 3) with 3%nat in Hb.
  destruct (read_bits 3 0 (rd s)) as [u r]. unfold follows in Hb.
  destruct (take_bits 3 bs) as [[v bs1]|] eqn:Ev; cbn [mbind option_bind]; [|destruct Hb as [m ->]; by eexists].
  destruct Hb as [-> Hr1]. cbn [after_read]. isimpl. apply take_bits_range in Ev. change (2 ^ Z.of_nat 3) with 8 in Ev.
  rewrite at_index_some by (cbn; lia). cbn [mbind option_bind]. pose proof (clcidx_range (dyn_i (dyn s)) ltac:(lia)) as Hc.
  rewrite put_index_some by (rewrite Hl; unfold LENGTHS_SIZE; lia). cbn [mbind option_bind]. rewrite wrap_id by (unfold fits; lia).
  set (s1 := set_dyn _ _). specialize (IH bs1 s1 Hr1). unfold s1 in IH at 1 2 3. isimpl. rewrite len_set in IH.
  specialize (IH ltac:(lia) ltac:(lia) Hl). destruct (take_fields n 3 bs1) as [[vs bs2]|]; cbn [mbind option_bind]; [|done].
  destruct IH as (r2 & l & -> & Hr2 & Hl2 & Ht). exists r2, l.
  split; [unfold s1; isimpl; do 5 f_equal; lia|]. split; [done|]. split; [done|].
  rewrite Ht. unfold s1. isimpl. rewrite (clcidx_drop (dyn_i (dyn s))) by lia. cbn [assign]. f_equal.
  unfold set. rewrite take_insert_lt by lia. done.
Qed.

Lemma assign_lens order vs lens :
  Forall (fun v => 0 <= v < 8) vs -> code_lens lens -> code_lens (assign order vs lens) /\ len (assign order vs lens) = len lens.
Proof.
  intros Hv. revert order lens. induction Hv as [|v vs Hv HF IH]; intros [|o order] lens Hl; cbn [assign]; try done.
  destruct (IH order lens.[o := v]) as [H1 H2]; [apply Forall_set; [done|lia]|]. by rewrite H2, len_set.
Qed.

(** ** The whole header *)

Lemma build_cltree_follow f clens vs bs s hl hd :
  dyn_frame f s -> dynamic_stage (ctl s) = DYN_BUILD_CLTREE -> ready (rd s) bs -> Forall (fun v => 0 <= v < 8) vs ->
  clens = assign code_length_order vs (replicate 19 0) -> take 19 (lengths (dyn s)) = clens ->
  hlit (dyn s) = hl -> hdist (dyn s) = hd -> 257 <= hl <= 286 -> 1 <= hd <= 32 ->
  dyn_result f (split_at hl (code_lengths (S (Z.to_nat (hl + hd))) clens (hl + hd) [] bs)) s.
Proof.
  intros Hfr Hst Hr Hvs Hcl Htk Hhl Hhd Hl Hd. pose proof (frame_lengths f s Hfr) as Hlen. unfold LENGTHS_SIZE in Hlen.
  destruct (assign_lens code_length_order vs (replicate 19 0) Hvs) as [HF H19]; [by apply Forall_replicate|].
  rewrite <- Hcl in HF, H19. rewrite length_replicate in H19.
  destruct (build_tree_code (tree s) DISTANCE_TRANS CODELEN_TRANS (lengths (dyn s)) 19) as (c & Hc & Hf & Hsh);
    [apply Hfr|done|done|done|lia|change (Z.to_nat 19) with 19%nat; by rewrite Htk|].
  change (Z.to_nat 19) with 19%nat in Hf. rewrite Htk in Hf.
  assert (Ht : dyn_turn s = Some (reset_code_readers (set_dynamic_stage (set_dyn (set_trees s (ltree s) c)
    (with_lengths (with_tree_sizes (dyn s) hl hd (hclen (dyn s)) (u32 (hl + hd))) (lengths (dyn s)) (dyn_i (dyn s)) 0)) DYN_READ_LENGTHS), None)).
  { unfold dyn_turn. rewrite Hst, Hc. cbn [mbind option_bind]. isimpl. by rewrite Hhl, Hhd. }
  eapply dyn_step; [exact Ht|]. apply lengths_follow; try done; [|constructor|cbn; lia].
  rewrite wrap_id by (unfold fits; change (2 ^ 32) with 4294967296; lia).
  split; [|split; [done|split; [|cbn; lia]]].
  - destruct Hfr. by constructor.
  - constructor; isimpl; try done. destruct Hr as (Hx & _ & _). by split.
Qed.

(** A field, and what follows it. *)
Lemma dyn_field_step f num base k ref bs s :
  ready (rd s) bs -> 0 <= num <= 13 -> 0 <= base <= 65536 -> dyn_turn s = Some (dyn_field num base k s) ->
  (forall a bs' r, 0 <= a < 2 ^ num -> ready r bs' ->
     match k (set_rd s r) (base + a) with
     | (s1, None) => dyn_result f (ref a bs') s1
     | (_, Some rc) => rc = -1 /\ ref a bs' = None
     end) ->
  dyn_result f ('(a, bs) ← take_bits (Z.to_nat num) bs; ref a bs) s.
Proof.
  intros Hr Hn Hb Ht Hk. pose proof (dyn_field_follows num base k s bs Hr Hn Hb) as Hf.
  destruct (take_bits (Z.to_nat num) bs) as [[a bs']|] eqn:Ea; cbn [mbind option_bind].
  - destruct Hf as (r & Hf & Hr'). apply take_bits_range in Ea. rewrite Z2Nat.id in Ea by lia. specialize (Hk a bs' r Ea Hr').
    rewrite Hf in Ht. destruct (k _ _) as [s1 [rc|]]; [|by eapply dyn_step]. destruct Hk as [-> ->]. by eapply dyn_fail.
  - destruct Hf as [s' Hf]. rewrite Hf in Ht. by eapply dyn_fail.
Qed.

(** After the three fields: the lengths of the code length code. *)
Lemma clens_follow f bs s hl hd :
  dyn_frame f s -> dynamic_stage (ctl s) = DYN_CLEAR_CLEN -> ready (rd s) bs -> dyn_i (dyn s) = 0 ->
  hlit (dyn s) = hl -> hdist (dyn s) = hd -> 257 <= hl <= 286 -> 1 <= hd <= 32 -> 0 <= hclen (dyn s) <= 19 ->
  dyn_result f ('(vs, bs) ← take_fields (Z.to_nat (hclen (dyn s))) 3 bs;
                split_at hl (code_lengths (S (Z.to_nat (hl + hd))) (assign code_length_order vs (replicate 19 0)) (hl + hd) [] bs)) s.
Proof.
  intros Hfr Hst Hr Hi Hhl Hhd Hl Hd Hhc. pose proof (frame_lengths f s Hfr) as Hlen. unfold LENGTHS_SIZE in Hlen.
  destruct (fill_lengths_take 19 (lengths (dyn s)) 0 0) as (l & Hcl & Hll & Htl); [lia|lia|].
  assert (Ht : dyn_turn s = Some (set_dynamic_stage (set_dyn s (with_lengths (dyn s) l 0 (dyn_num (dyn s)))) DYN_READ_CLEN, None)).
  { unfold dyn_turn. rewrite Hst, Hi, clear_is_fill. change (Z.to_nat (19 - 0)) with 19%nat. by rewrite Hcl. }
  eapply dyn_step; [exact Ht|]. clear Ht. set (s1 := set_dynamic_stage _ DYN_READ_CLEN).
  assert (Ht : dyn_turn s1 = read_clens (Z.to_nat (hclen (dyn s))) s1) by (unfold dyn_turn, s1; isimpl; by rewrite Z.sub_0_r).
  pose proof (read_clens_follow (Z.to_nat (hclen (dyn s))) bs s1 Hr) as Hc. unfold s1 in Hc at 1 2 3. isimpl.
  specialize (Hc ltac:(lia) ltac:(lia) ltac:(by rewrite Hll)).
  destruct (take_fields _ 3 bs) as [[vs bs1]|] eqn:Ev; cbn [mbind option_bind].
  - destruct Hc as (r & l2 & Hrc & Hr2 & Hl2 & Ht2). rewrite Hrc in Ht. eapply dyn_step; [exact Ht|].
    apply take_fields_spec in Ev as (_ & HF & _).
    apply (build_cltree_follow f _ vs); try done.
    + eapply frame_same; try done. isimpl. unfold s1. isimpl. by rewrite Hl2, Hlen.
    + isimpl. rewrite Ht2. unfold s1. isimpl. change (0 + Z.of_nat 19) with 19 in Htl. change (Z.to_nat 19) with 19%nat in Htl. by rewrite Htl.
  - destruct Hc as [s' Hrc]. rewrite Hrc in Ht. by eapply dyn_fail.
Qed.

Lemma dynamic_follow f bs s :
  dyn_frame f s -> dynamic_stage (ctl s) = DYN_HLIT -> ready (rd s) bs -> dyn_result f (dynamic_codes bs) s.
Proof.
  intros Hfr Hst Hr. unfold dynamic_codes. change 5%nat with (Z.to_nat 5). change 4%nat with (Z.to_nat 4).
  eapply dyn_field_step with (num := 5) (base := 257); [exact Hr|lia|lia|unfold dyn_turn; by rewrite Hst|]. intros a bs1 r1 Ha Hr1. cbv beta iota.
  eapply dyn_field_step with (num := 5) (base := 1); [exact Hr1|lia|lia|done|]. intros b bs2 r2 Hb Hr2. cbv beta iota.
  eapply dyn_field_step with (num := 4) (base := 4); [exact Hr2|lia|lia|done|]. intros c bs3 r3 Hc Hr3. cbv beta iota zeta. isimpl.
  change (2 ^ 5) with 32 in *. change (2 ^ 4) with 16 in *.
  rewrite wrap_id by (unfold fits; change (2 ^ 32) with 4294967296; lia).
  destruct (Z.ltb_spec 286 (257 + a)); [done|]. cbn [orb]. destruct (Z.ltb_spec 32 (1 + b)); [lia|]. cbn [orb].
  destruct (Z.ltb_spec LENGTHS_SIZE (257 + a + (1 + b))); [unfold LENGTHS_SIZE in *; lia|].
  match goal with |- dyn_result _ _ ?x => pose proof (clens_follow f bs3 x (257 + a) (1 + b)) as Hk end. isimpl.
  apply Hk; try done; try lia.
  by eapply frame_same.
Qed.
End InflateDyn.
