(* ===== verification/InflateRfc.v ===== *)
(** The inflater computes what RFC 1950 and RFC 1951 say: pushed a whole stream,
    it ends done with exactly the image the reference decoder reads from it, and
    with an error when there is none. *)

From stdpp Require Import strings.
From S2P Require Import Prelude Span Pump Inflate InflateRead InflateSafe InflateRun Inflater InflateChunks InflateWhole.
From S2P Require Import Rfc1951 InflateCode InflateDyn.
Import Span Pump Inflate InflateRead InflateSafe InflateRun Inflater InflateChunks InflateWhole.
Import Rfc1951 InflateCode InflateDyn.

Module InflateRfc.

(** ** Whole bytes *)

Lemma take_bits_tag n t r : take_bits n (tag_bits n t ++ r) = Some (t mod 2 ^ Z.of_nat n, r).
Proof.
  revert t. induction n as [|n IH]; intros t; [cbn; by rewrite Z.mod_1_r|]. rewrite tag_bits_S. cbn [app take_bits].
  rewrite IH. cbn [mbind option_bind]. do 2 f_equal. rewrite Nat2Z.inj_succ, Z.pow_succ_r, Z.rem_mul_r by lia.
  rewrite Z.bit0_odd, Zmod_odd, Z.shiftr_div_pow2 by lia. change (2 ^ 1) with 2. by destruct (Z.odd t).
Qed.

Lemma bits_of_cons b l : bits_of (b :: l) = tag_bits 8 b ++ bits_of l.
Proof. done. Qed.

Lemma length_bits_of l : length (bits_of l) = (8 * length l)%nat.
Proof. induction l as [|b l IH]; [done|]. rewrite bits_of_cons, length_app, IH. cbn. lia. Qed.

Lemma take_byte b l : is_byte b -> take_bits 8 (bits_of (b :: l)) = Some (b, bits_of l).
Proof. intros Hb. rewrite bits_of_cons, take_bits_tag. change (2 ^ Z.of_nat 8) with 256. by rewrite Z.mod_small. Qed.

Lemma take_half a b l : is_byte a -> is_byte b -> take_bits 16 (bits_of (a :: b :: l)) = Some (a + 256 * b, bits_of l).
Proof.
  intros Ha Hb. change 16%nat with (8 + 8)%nat. rewrite take_bits_app, take_byte by done. cbn [mbind option_bind].
  by rewrite take_byte by done.
Qed.

Lemma take_bits_short n bs : (length bs < n)%nat -> take_bits n bs = None.
Proof. intros Hl. destruct (take_bits n bs) as [[v bs']|] eqn:E; [|done]. apply take_bits_drop in E as [_ ?]. lia. Qed.

Lemma take_bytes n l :
  bytes_ok l -> take_fields n 8 (bits_of l) = if decide (n <= length l)%nat then Some (take n l, bits_of (drop n l)) else None.
Proof.
  intros Hl. revert l Hl. induction n as [|n IH]; intros l Hl; cbn [take_fields].
  - rewrite decide_True by lia. done.
  - destruct Hl as [|b l Hb Hl]; [by rewrite decide_False by (cbn; lia)|]. rewrite take_byte by done. cbn [mbind option_bind].
    rewrite IH by done. cbn [length take drop]. destruct (decide (n <= length l)%nat), (decide (S n <= S (length l))%nat); (lia || done).
Qed.

(** Between bytes the bits are the input's. *)
Lemma align_reads x bs : reads x bs -> align bs = bits_of (input x).
Proof.
  intros (_ & Hc & ->). unfold align. rewrite length_app, length_bits_of. unfold tag_bits. rewrite length_map, length_seq.
  replace ((Z.to_nat (bit_count x) + 8 * length (input x)) mod 8)%nat with (Z.to_nat (bit_count x)).
  - apply drop_app_length'. by rewrite length_map, length_seq.
  - rewrite (Nat.mul_comm 8), Nat.Div0.mod_add, Nat.mod_small by lia. done.
Qed.

(** The stream with less of its input. *)
Definition eat (s : inflate) (l : bytes) : inflate := set_rd s (on_source (rd s) (with_input (src (rd s)) l)).

Lemma next_byte_eats s :
  input_final (src (rd s)) = true ->
  match input (src (rd s)) with
  | b :: l => next_byte s = (Got b, eat s l)
  | [] => exists m, next_byte s = (Failed m, set_error s m)
  end.
Proof.
  intros Hf. unfold next_byte, read_byte. destruct (input (src (rd s))) as [|b l]; [|done]. rewrite Hf. eexists. cbn [after_read].
  by destruct s as [? [] ? ? ? ? ? ? ?].
Qed.

(** *** The trailer's and the length field's bytes *)

Lemma trailer_loop_bytes n s :
  input_final (src (rd s)) = true ->
  if decide (n <= length (input (src (rd s))))%nat then
    trailer_loop n s = trailer_check (set_trl (eat s (drop n (input (src (rd s)))))
                                        (foldl trailer_byte (trl s) (take n (input (src (rd s))))))
  else exists s', trailer_loop n s = (s', -1).
Proof.
  revert s. induction n as [|n IH]; intros s Hf; cbn [trailer_loop].
  - rewrite decide_True by lia. cbn [take drop foldl]. by destruct s as [? [[] ? ?] ? ? ? ? ? ? ?].
  - pose proof (next_byte_eats s Hf) as Hb. destruct (input (src (rd s))) as [|b l] eqn:Ei.
    + rewrite decide_False by (cbn; lia). destruct Hb as [m ->]. by eexists.
    + rewrite Hb. specialize (IH (set_trl (eat s l) (trailer_byte (trl s) b)) Hf). change (trl (eat s l)) with (trl s).
      change (input (src (rd (set_trl (eat s l) (trailer_byte (trl s) b))))) with l in IH. cbn [length take drop foldl].
      destruct (decide (n <= length l)%nat), (decide (S n <= S (length l))%nat); (lia || done).
Qed.

Lemma trailer_value_bytes vs :
  bytes_ok vs -> length vs = 4%nat ->
  trailer_value (foldl trailer_byte {| trailer_index := 0; trailer_value := 0 |} vs) = big_endian vs.
Proof.
  intros Hb Hl. destruct vs as [|a [|b [|c [|d [|]]]]]; try done. inversion_clear Hb as [|? ? Ha Hb']. inversion_clear Hb' as [|? ? Hbb Hc'].
  inversion_clear Hc' as [|? ? Hcc Hd']. inversion_clear Hd' as [|? ? Hd _]. unfold is_byte in *.
  assert (Hstep : forall v x, 0 <= v < 2 ^ 24 -> 0 <= x < 256 -> Z.lor (u32 (Z.shiftl v 8)) x = 256 * v + x).
  { intros v x Hv Hx. change (2 ^ 24) with 16777216 in Hv. rewrite wrap_id.
    - rewrite (lor_shiftl_add v x 8) by (unfold fits; lia). rewrite Z.shiftl_mul_pow2 by lia. change (2 ^ 8) with 256. lia.
    - unfold fits. rewrite Z.shiftl_mul_pow2 by lia. change (2 ^ 8) with 256. change (2 ^ 32) with 4294967296. lia. }
  unfold big_endian. cbn [foldl trailer_byte trailer_value]. change (2 ^ 24) with 16777216 in Hstep.
  rewrite (Hstep 0 a), (Hstep _ b), (Hstep _ c), (Hstep _ d) by lia. done.
Qed.

Lemma header_loop_bytes n s :
  input_final (src (rd s)) = true ->
  if decide (n <= length (input (src (rd s))))%nat then
    stored_header_loop n s = stored_header_loop 0 (set_sto (eat s (drop n (input (src (rd s)))))
                                        (foldl stored_header_byte (sto s) (take n (input (src (rd s))))))
  else exists s', stored_header_loop n s = (s', -1).
Proof.
  revert s. induction n as [|n IH]; intros s Hf.
  - rewrite decide_True by lia. cbn [take drop foldl]. by destruct s as [? [[] ? ?] ? ? ? ? ? ? ?].
  - cbn [stored_header_loop]. pose proof (next_byte_eats s Hf) as Hb. destruct (input (src (rd s))) as [|b l] eqn:Ei.
    + rewrite decide_False by (cbn; lia). destruct Hb as [m ->]. by eexists.
    + rewrite Hb. specialize (IH (set_sto (eat s l) (stored_header_byte (sto s) b)) Hf). change (sto (eat s l)) with (sto s).
      change (input (src (rd (set_sto (eat s l) (stored_header_byte (sto s) b))))) with l in IH. cbn [length take drop foldl].
      destruct (decide (n <= length l)%nat), (decide (S n <= S (length l))%nat); (lia || done).
Qed.

Lemma lor_half a b : is_byte a -> is_byte b -> Z.lor a (u16 (Z.shiftl b 8)) = a + 256 * b.
Proof.
  unfold is_byte. intros Ha Hb. rewrite wrap_id by (unfold fits; rewrite Z.shiftl_mul_pow2 by lia; change (2 ^ 8) with 256; change (2 ^ 16) with 65536; lia).
  rewrite Z.lor_comm, (lor_shiftl_add b a 8) by (unfold fits; lia). rewrite Z.shiftl_mul_pow2 by lia. change (2 ^ 8) with 256. lia.
Qed.

Lemma header_fold a b c d t :
  is_byte a -> is_byte b -> is_byte c -> is_byte d -> stored_header_index t = 0 ->
  foldl stored_header_byte t [a; b; c; d] = with_stored t 4 (a + 256 * b) (c + 256 * d).
Proof.
  intros Ha Hb Hc Hd Ht. cbn [foldl].
  assert (H0 : stored_header_byte t a = with_stored t 1 a (stored_invlen t)) by (unfold stored_header_byte; by rewrite Ht).
  rewrite H0. set (t1 := with_stored t 1 a (stored_invlen t)).
  change (stored_header_byte t1 b) with (with_stored t1 2 (Z.lor a (u16 (Z.shiftl b 8))) (stored_invlen t)).
  rewrite lor_half by done. set (t2 := with_stored t1 2 _ _). change (stored_header_byte t2 c) with (with_stored t2 3 (a + 256 * b) c).
  set (t3 := with_stored t2 3 _ _). change (stored_header_byte t3 d) with (with_stored t3 4 (a + 256 * b) (Z.lor c (u16 (Z.shiftl d 8)))).
  by rewrite lor_half by done.
Qed.

(** A stored block's length, and its complement. *)
Lemma stored_header_follows s :
  input_final (src (rd s)) = true -> bytes_ok (input (src (rd s))) -> stored_header_index (sto s) = 0 ->
  match '(l, bs) ← take_bits 16 (bits_of (input (src (rd s)))); '(nl, bs) ← take_bits 16 bs;
        if negb (l + nl =? 65535) then None else Some (l, bs) with
  | Some (l, bs) => exists k i, process_stored_header s = (set_sto (eat s k) (with_stored (sto s) 0 l i), 1) /\
      bs = bits_of k /\ bytes_ok k
  | None => exists s', process_stored_header s = (s', -1)
  end.
Proof.
  intros Hf Hb Hi. unfold process_stored_header. rewrite Hi. change (Z.to_nat (4 - 0)) with 4%nat.
  pose proof (header_loop_bytes 4 s Hf) as Hl. destruct (input (src (rd s))) as [|a [|b [|c [|d k]]]];
    cbn [length] in Hl; (rewrite decide_False in Hl by lia) || (rewrite decide_True in Hl by lia).
  - by rewrite take_bits_short by (cbn; lia).
  - by rewrite take_bits_short by (rewrite length_bits_of; cbn; lia).
  - apply Forall_cons in Hb as [Ha Hb]. apply Forall_cons in Hb as [Hb _]. rewrite take_half by done. cbn [mbind option_bind].
    by rewrite take_bits_short by (cbn; lia).
  - apply Forall_cons in Hb as [Ha Hb]. apply Forall_cons in Hb as [Hb _]. rewrite take_half by done. cbn [mbind option_bind].
    by rewrite take_bits_short by (rewrite length_bits_of; cbn; lia).
  - apply Forall_cons in Hb as [Ha Hb]. apply Forall_cons in Hb as [Hb Hc]. apply Forall_cons in Hc as [Hc Hd].
    apply Forall_cons in Hd as [Hd Hk]. rewrite take_half by done. cbn [mbind option_bind]. rewrite take_half by done.
    cbn [mbind option_bind]. cbn [take drop] in Hl. rewrite header_fold in Hl by done. rewrite Hl. cbn [stored_header_loop]. isimpl.
    assert (Hn : u16 (Z.lnot (c + 256 * d)) = 65535 - (c + 256 * d)).
    { unfold is_byte in *. unfold wrap, Z.lnot. change (2 ^ 16) with 65536. symmetry. apply (Z.mod_unique _ _ (-1)); lia. }
    rewrite Hn. destruct (Z.eqb_spec (a + 256 * b + (c + 256 * d)) 65535), (Z.eqb_spec (a + 256 * b) (65535 - (c + 256 * d)));
      try lia; cbn [negb]; [|by eexists]. exists k, (c + 256 * d). done.
Qed.

(** ** Output *)

Section Stream.
Context `{ZlibConfig, Image}.

Lemma put_ample out b s :
  hist_ok out (hist s) -> is_byte b ->
  if len out <? image_size then exists h, put_output_byte b (ample out) s = Some (true, ample (out ++ [b]), set_hist s h) /\ hist_ok (out ++ [b]) h
  else exists m, put_output_byte b (ample out) s = Some (false, ample out, set_error s m).
Proof.
  intros Hh Hb. pose proof (hist_room _ _ Hh) as Hr. unfold put_output_byte, produced, ample. cbn [capacity written].
  destruct (Z.leb_spec (image_size + 1) (len out)); [lia|]. rewrite (hist_expected _ _ Hh), (hist_count _ _ Hh).
  destruct (Z.leb_spec image_size (len out)), (Z.ltb_spec (len out) image_size); try lia; [by eexists|].
  destruct (record_byte_spec out (hist s) b Hh Hb ltac:(lia)) as (h & -> & Hh'). cbn [mbind option_bind]. by exists h.
Qed.

Lemma stored_data_follows n out s :
  input_final (src (rd s)) = true -> bytes_ok (input (src (rd s))) -> hist_ok out (hist s) ->
  if decide ((n <= length (input (src (rd s))))%nat /\ len out + Z.of_nat n <= image_size) then
    exists h t, stored_data_loop n (ample out) s =
      Some (ample (out ++ take n (input (src (rd s)))), set_sto (set_hist (eat s (drop n (input (src (rd s))))) h) t, 1)
  else exists o' s', stored_data_loop n (ample out) s = Some (o', s', -1).
Proof.
  revert out s. induction n as [|n IH]; intros out s Hf Hb Hh; cbn [stored_data_loop].
  { pose proof (hist_room _ _ Hh). rewrite decide_True by lia. exists (hist s), (sto s). cbn [take drop]. rewrite app_nil_r.
    do 3 f_equal. by destruct s as [? [[] ? ?] ? ? ? ? ? ? ?]. }
  pose proof (hist_room _ _ Hh) as Hroom. destruct (Z.leb_spec (capacity (ample out)) (produced (ample out))) as [Hle|_].
  { unfold produced, ample in Hle. cbn [capacity written] in Hle. lia. }
  pose proof (next_byte_eats s Hf) as Hn. destruct (input (src (rd s))) as [|b l] eqn:Ei.
  { rewrite decide_False by (cbn; lia). destruct Hn as [m ->]. by eexists _, _. }
  rewrite Hn. apply Forall_cons in Hb as [Hbb Hl]. pose proof (put_ample out b (eat s l) Hh Hbb) as Hp.
  destruct (Z.ltb_spec (len out) image_size).
  - destruct Hp as (h & -> & Hh'). cbn [mbind option_bind negb]. set (s1 := set_sto _ _).
    specialize (IH (out ++ [b]) s1 Hf Hl Hh'). change (input (src (rd s1))) with l in IH. rewrite length_app in IH.
    cbn [length take drop] in *.
    destruct (decide ((n <= length l)%nat /\ _)) as [[Hd1 Hd2]|Hno], (decide ((S n <= S (length l))%nat /\ _)) as [[Hd3 Hd4]|Hno2]; try lia; [|done].
    destruct IH as (h2 & t2 & ->). exists h2, t2. by rewrite <- app_assoc.
  - rewrite decide_False by (cbn [length]; lia). destruct Hp as [m ->]. cbn [mbind option_bind negb]. by eexists _, _.
Qed.

(** ** Whole polls, into a buffer that holds the image *)

(** The poll ends done with the reference's image, or in error. *)
Definition run_result (ref : option bytes) (out : bytes) (s : inflate) : Prop :=
  match ref with
  | Some out' => exists s', ends poll_turn (ample out, s) ((ample out', s'), OD_ZLIB_STATUS_DONE) /\ stage (ctl s') = ST_DONE
  | None => exists o' s', ends poll_turn (ample out, s) ((o', s'), OD_ZLIB_STATUS_ERROR)
  end.

Lemma core_next out s out1 s1 :
  core out s -> poll_turn (ample out, s) = Some ((ample out1, s1), None) -> core out1 s1.
Proof.
  intros Hc Ht. destruct (poll_turn_ok out (ample out) s Hc) as (o' & s' & st & Ht' & _ & new & (_ & Hw & _) & Hp).
  rewrite Ht in Ht'. injection Ht' as <- <- <-. cbn [written ample] in Hw. subst out1. apply Hp.
Qed.

Lemma run_step ref out s out1 s1 :
  core out s -> poll_turn (ample out, s) = Some ((ample out1, s1), None) -> (core out1 s1 -> run_result ref out1 s1) ->
  run_result ref out s.
Proof.
  intros Hc Ht Hr. specialize (Hr (core_next _ _ _ _ Hc Ht)). destruct ref as [out'|]; cbn [run_result] in *.
  - destruct Hr as (s' & He & Hd). exists s'. split; [by eapply ends_step|done].
  - destruct Hr as (o' & s' & He). exists o', s'. by eapply ends_step.
Qed.

Lemma run_same ref out s out1 s1 :
  poll_turn (ample out, s) = poll_turn (ample out1, s1) -> run_result ref out1 s1 -> run_result ref out s.
Proof.
  intros Ht. destruct ref as [out'|]; cbn [run_result].
  - intros (s' & He & Hd). exists s'. split; [by eapply ends_same|done].
  - intros (o' & s' & He). exists o', s'. by eapply ends_same.
Qed.

Lemma run_fail out s o' s' :
  poll_turn (ample out, s) = Some ((o', s'), Some OD_ZLIB_STATUS_ERROR) -> run_result None out s.
Proof. intros Ht. exists o', s'. by apply ends_now. Qed.

(** *** The trailer *)

(** What the reference checks after the last block, and the size of the image. *)
Definition trailer_ref (out : bytes) (bs : list bool) : option bytes :=
  '(check, bs) ← take_fields 4 8 (align bs);
  if (big_endian check =? adler32 out) && bool_decide (bs = []) && (len out =? image_size) then Some out else None.

Lemma bits_of_nil l : bits_of l = [] <-> l = [].
Proof. split; [|by intros ->]. intros Hb. apply (f_equal length) in Hb. rewrite length_bits_of in Hb. destruct l; [done|cbn in Hb; lia]. Qed.

Lemma trailer_follows out s bs :
  core out s -> stage (ctl s) = ST_TRAILER -> reads (src (rd s)) bs -> trl s = {| trailer_index := 0; trailer_value := 0 |} ->
  run_result (trailer_ref out bs) out s.
Proof.
  intros Hc Hst Hx Htr. pose proof (poll_turn_ample out s s Hc) as Ht. unfold poll_stage in Ht. rewrite Hst in Ht.
  unfold process_trailer in Ht. rewrite Htr in Ht. cbn [trailer_index] in Ht. change (Z.to_nat (4 - 0)) with 4%nat in Ht.
  pose proof (trailer_loop_bytes 4 s (proj1 Hx)) as Hl. unfold trailer_ref. rewrite (align_reads _ _ Hx), take_bytes by apply Hc.
  destruct (decide (4 <= length (input (src (rd s))))%nat) as [H4|H4]; cbn [mbind option_bind].
  2: { destruct Hl as [s' Hl]. rewrite Hl in Ht. exact (run_fail _ _ _ _ Ht). }
  set (vs := take 4 _) in *. set (k := drop 4 _) in *. rewrite Hl in Ht. unfold trailer_check in Ht. rewrite Htr in Ht. isimpl.
  change (hist (eat s k)) with (hist s) in Ht. pose proof (core_hist out s Hc) as Hh.
  rewrite trailer_value_bytes, (hist_adler _ _ Hh), (hist_count _ _ Hh), (hist_expected _ _ Hh) in Ht;
    [|apply Forall_take, Hc|unfold vs; rewrite length_take; lia].
  destruct (Z.eqb_spec (big_endian vs) (adler32 out)) as [Ha|Ha]; cbn [negb andb] in *.
  2: { exact (run_fail _ _ _ _ Ht). }
  change (input (src (rd (eat s k)))) with k in Ht.
  destruct (Z.eqb_spec (len out) image_size) as [He|He]; cbn [negb andb] in *.
  2: { rewrite andb_false_r. exact (run_fail _ _ _ _ Ht). }
  destruct (Z.eqb_spec (len k) 0) as [Hk|Hk]; cbn [negb] in Ht.
  - assert (k = []) as Hk0 by (destruct k; [done|cbn in Hk; lia]). rewrite bool_decide_true by by apply bits_of_nil. cbn [andb].
    eexists. split; [exact (ends_now poll_turn _ _ _ Ht)|done].
  - rewrite bool_decide_false by (rewrite bits_of_nil; intros ->; done). exact (run_fail _ _ _ _ Ht).
Qed.

(** *** Turns of a compressed block *)

Lemma poll_in_block out s s' :
  core out s -> in_block s' -> poll_turn (ample out, s') =
    '((o, s), rc) ← process_block_data (ample out) s';
    if rc <? 0 then stop o s OD_ZLIB_STATUS_ERROR
    else if rc =? 0 then stop o s (produced_status o)
    else if rc =? 2 then stop o s OD_ZLIB_STATUS_OUTPUT_READY
    else go o (if rc =? 3 then after_block s else s).
Proof. intros Hc Hi. rewrite (poll_turn_ample out s) by done. unfold poll_stage. by rewrite Hi. Qed.

(** A turn that goes round: the same poll from there. *)
Lemma block_again_follows out s out1 s1 :
  core out s -> in_block s -> block_turn (ample out, s) = Some ((ample out1, s1), None) ->
  core out1 s1 /\ in_block s1 /\ forall ref, run_result ref out1 s1 -> run_result ref out s.
Proof.
  intros Hc Hi Ht. destruct (block_turn_ok out (ample out) s Hc Hi) as (o' & s' & r & Ht' & _ & new & (_ & Hw & _) & Hp).
  rewrite Ht in Ht'. injection Ht' as <- <- <-. cbn [written ample] in Hw. subst out1. destruct Hp as (Hc1 & Hi1 & _).
  split; [done|]. split; [done|]. intros ref. apply run_same. rewrite (poll_in_block out s s), (poll_in_block _ s1 s1) by done.
  destruct (process_block_total out (ample out) s Hc Hi) as (o2 & s2 & rc2 & H2 & _).
  destruct (process_block_total _ (ample (out ++ new)) s1 Hc1 Hi1) as (o3 & s3 & rc3 & H3 & _).
  assert (He : ((o2, s2), rc2) = ((o3, s3), rc3)).
  { apply (ends_unique block_turn (block_fuel s) (ample out, s)); [|exact H2]. eapply ends_step; [exact Ht|]. by exists (block_fuel s1). }
  by rewrite H2, H3, He.
Qed.

(** A turn that leaves the block's loop. *)
Lemma block_leave_follows out s o1 s1 rc :
  core out s -> in_block s -> block_turn (ample out, s) = Some ((o1, s1), Some rc) ->
  process_block_data (ample out) s = Some ((o1, s1), rc).
Proof.
  intros Hc Hi Ht. unfold process_block_data, block_fuel. rewrite Nat.add_comm. cbn [Nat.add turns]. by rewrite Ht.
Qed.

Lemma block_fail_follows out s o1 s1 :
  core out s -> in_block s -> block_turn (ample out, s) = Some ((o1, s1), Some (-1)) -> run_result None out s.
Proof.
  intros Hc Hi Ht. pose proof (poll_in_block out s s Hc Hi) as Hp. rewrite (block_leave_follows _ _ _ _ _ Hc Hi Ht) in Hp.
  exact (run_fail _ _ _ _ Hp).
Qed.

(** The extra bits and bases are the RFC's. *)
Lemma length_tables i : 0 <= i < 29 -> at_index length_bits i = Some (length_extra i) /\ at_index length_base i = Some (length_from i).
Proof.
  intros Hi. pose proof (forallb_below (fun i => bool_decide (at_index length_bits i = Some (length_extra i) /\
    at_index length_base i = Some (length_from i))) 29) as Hb. specialize (Hb ltac:(by vm_compute) i Hi). by apply bool_decide_eq_true in Hb.
Qed.

Lemma dist_tables d : 0 <= d < 30 -> at_index dist_bits d = Some (dist_extra d) /\ at_index dist_base d = Some (dist_from d).
Proof.
  intros Hi. pose proof (forallb_below (fun d => bool_decide (at_index dist_bits d = Some (dist_extra d) /\
    at_index dist_base d = Some (dist_from d))) 30) as Hb. specialize (Hb ltac:(by vm_compute) d Hi). by apply bool_decide_eq_true in Hb.
Qed.

Lemma length_extra_range i : 0 <= i < 29 -> 0 <= length_extra i <= 13 /\ 3 <= length_from i <= 258.
Proof.
  intros Hi. pose proof (forallb_below (fun i => (0 <=? length_extra i) && (length_extra i <=? 13) && (3 <=? length_from i) &&
    (length_from i <=? 258)) 29 ltac:(by vm_compute) i Hi) as Hb. cbn beta in Hb. lia.
Qed.

Lemma dist_extra_range d : 0 <= d < 30 -> 0 <= dist_extra d <= 13 /\ 1 <= dist_from d <= 24577.
Proof.
  intros Hi. pose proof (forallb_below (fun d => (0 <=? dist_extra d) && (dist_extra d <=? 13) && (1 <=? dist_from d) &&
    (dist_from d <=? 24577)) 30 ltac:(by vm_compute) d Hi) as Hb. cbn beta in Hb. lia.
Qed.

(** The state at a symbol, and what stays the same through a block. *)
Record coding (lit dist : list Z) (k : Z * trailer) (s : inflate) : Prop := {
  coding_lit : code_for LITERAL_TRANS lit (ltree s);
  coding_dist : code_for DISTANCE_TRANS dist (tree s);
  coding_kept : kept s = k;
}.

Definition at_stage (st : block_stage_t) (out : bytes) (bs : list bool) (s : inflate) : Prop :=
  core out s /\ in_block s /\ block_stage (ctl s) = st /\ ready (rd s) bs.

(** The steps of a match: each goes on where the reference does. *)
Definition goes (st : block_stage_t) (lit dist : list Z) (k : Z * trailer) (out : bytes) (bs : list bool) (s s1 : inflate) : Prop :=
  at_stage st out bs s1 /\ coding lit dist k s1 /\ forall ref, run_result ref out s1 -> run_result ref out s.

Lemma len_extra_follows lit dist k out bs s i :
  at_stage BLK_LEN_EXTRA out bs s -> coding lit dist k s -> length_sym (mat s) = i -> 0 <= i < 29 ->
  match take_bits (Z.to_nat (length_extra i)) bs with
  | Some (x, bs') => exists s1, goes BLK_DIST_SYMBOL lit dist k out bs' s s1 /\ match_len (mat s1) = length_from i + x
  | None => run_result None out s
  end.
Proof.
  intros (Hc & Hi & Hst & Hr) [Hlit Hdist Hk] Hls Hir.
  pose proof (block_turn_ample out s s Hc) as Ht. rewrite Hst in Ht. unfold block_len_extra in Ht. rewrite Hls in Ht.
  destruct (length_tables i Hir) as [Htb Htf]. rewrite Htb, Htf in Ht. cbn [mbind option_bind] in Ht.
  destruct (length_extra_range i Hir) as [Hx Hfr].
  pose proof (read_bits_follows (length_extra i) (length_from i) (rd s) bs Hr Hx ltac:(lia)) as Hb.
  destruct (read_bits _ _ (rd s)) as [v r]. unfold follows in Hb. destruct (take_bits _ bs) as [[x bs1]|].
  - destruct Hb as [-> Hr1]. destruct (block_again_follows _ _ _ _ Hc Hi Ht) as (Hc1 & Hi1 & Hrun1).
    eexists. by split; [split; [|split; [|exact Hrun1]]|].
  - destruct Hb as [m ->]. exact (block_fail_follows _ _ _ _ Hc Hi Ht).
Qed.

Lemma dist_symbol_follows lit dist k out bs s :
  at_stage BLK_DIST_SYMBOL out bs s -> coding lit dist k s ->
  match decode dist bs with
  | Some (d, bs') =>
      if 30 <=? d then run_result None out s
      else exists s1, goes BLK_DIST_EXTRA lit dist k out bs' s s1 /\ match_len (mat s1) = match_len (mat s) /\ dist_sym (mat s1) = d
  | None => run_result None out s
  end.
Proof.
  intros (Hc & Hi & Hst & Hr) [Hlit Hdist Hk].
  pose proof (block_turn_ample out s s Hc) as Ht. rewrite Hst in Ht. unfold block_dist_symbol in Ht.
  pose proof (decode_after s _ dist bs _ Hdist Hr) as Hd. destruct (decode dist bs) as [[d bs1]|] eqn:Ed.
  2: { destruct Hd as (m & r & Hd). rewrite Hd in Ht. exact (block_fail_follows _ _ _ _ Hc Hi Ht). }
  destruct Hd as (r & Hd & Hr1). rewrite Hd in Ht. cbn [mbind option_bind after_read] in Ht. apply decode_spec in Ed as [Hdr _].
  destruct (Z.ltb_spec d 0); [lia|]. cbn [orb] in Ht. destruct (30 <=? d).
  - exact (block_fail_follows _ _ _ _ Hc Hi Ht).
  - destruct (block_again_follows _ _ _ _ Hc Hi Ht) as (Hc1 & Hi1 & Hrun1).
    eexists. by split; [split; [|split; [|exact Hrun1]]|].
Qed.

Lemma dist_extra_follows lit dist k out bs s d :
  at_stage BLK_DIST_EXTRA out bs s -> coding lit dist k s -> dist_sym (mat s) = d -> 0 <= d < 30 ->
  match take_bits (Z.to_nat (dist_extra d)) bs with
  | Some (y, bs') =>
      if (OPENDISPLAY_ZLIB_WINDOW_SIZE <? dist_from d + y) || (len out <? dist_from d + y) then run_result None out s
      else exists s1, goes BLK_MATCH_COPY lit dist k out bs' s s1 /\ match_len (mat s1) = match_len (mat s) /\
        match_offset (mat s1) = dist_from d + y
  | None => run_result None out s
  end.
Proof.
  intros (Hc & Hi & Hst & Hr) [Hlit Hdist Hk] Hls Hdr.
  pose proof (block_turn_ample out s s Hc) as Ht. rewrite Hst in Ht. unfold block_dist_extra in Ht. rewrite Hls in Ht.
  destruct (dist_tables d Hdr) as [Htb Htf]. rewrite Htb, Htf in Ht. cbn [mbind option_bind] in Ht.
  destruct (dist_extra_range d Hdr) as [Hx Hfr].
  pose proof (read_bits_follows (dist_extra d) (dist_from d) (rd s) bs Hr Hx ltac:(lia)) as Hb.
  destruct (read_bits _ _ (rd s)) as [v r]. unfold follows in Hb. destruct (take_bits _ bs) as [[y bs1]|] eqn:Ey.
  2: { destruct Hb as [m ->]. exact (block_fail_follows _ _ _ _ Hc Hi Ht). }
  destruct Hb as [-> Hr1]. cbn [after_read] in Ht. apply take_bits_range in Ey. isimpl.
  rewrite (hist_count out _ (core_hist out s Hc)) in Ht. destruct (Z.eqb_spec (dist_from d + y) 0); [lia|]. cbn [orb] in Ht.
  destruct (_ || _).
  - exact (block_fail_follows _ _ _ _ Hc Hi Ht).
  - destruct (block_again_follows _ _ _ _ Hc Hi Ht) as (Hc1 & Hi1 & Hrun1).
    eexists. by split; [split; [|split; [|exact Hrun1]]|].
Qed.

Lemma goes_trans st st' lit dist k out bs bs' s s1 s2 :
  goes st lit dist k out bs s s1 -> goes st' lit dist k out bs' s1 s2 -> goes st' lit dist k out bs' s s2.
Proof. intros (_ & _ & H1) (H2 & H3 & H4). split; [done|]. split; [done|]. auto. Qed.

(** A match, after its length symbol. *)
Lemma match_follows lit dist k out bs s i :
  at_stage BLK_LEN_EXTRA out bs s -> coding lit dist k s -> length_sym (mat s) = i -> 0 <= i < 29 ->
  match take_match dist i bs with
  | Some (l, d, bs') =>
      if (OPENDISPLAY_ZLIB_WINDOW_SIZE <? d) || (len out <? d) then run_result None out s
      else exists s1, goes BLK_MATCH_COPY lit dist k out bs' s s1 /\ match_len (mat s1) = l /\ match_offset (mat s1) = d
  | None => run_result None out s
  end.
Proof.
  intros Hat Hcd Hls Hir. unfold take_match. pose proof (len_extra_follows _ _ _ _ _ _ _ Hat Hcd Hls Hir) as H1.
  destruct (take_bits _ bs) as [[x bs1]|]; cbn [mbind option_bind]; [|done].
  destruct H1 as (s1 & Hg1 & Hl1). pose proof Hg1 as (Hat1 & Hcd1 & Hrun1).
  pose proof (dist_symbol_follows _ _ _ _ _ _ Hat1 Hcd1) as H2. destruct (decode dist bs1) as [[d bs2]|] eqn:Ed; cbn [mbind option_bind]; [|by apply Hrun1].
  apply decode_spec in Ed as [Hdr _]. destruct (Z.leb_spec 30 d); [by apply Hrun1|].
  destruct H2 as (s2 & Hg2 & Hl2 & Hs2). pose proof Hg2 as (Hat2 & Hcd2 & Hrun2).
  pose proof (dist_extra_follows _ _ _ _ _ _ _ Hat2 Hcd2 Hs2 ltac:(lia)) as H3.
  destruct (take_bits _ bs2) as [[y bs3]|]; cbn [mbind option_bind]; [|by apply Hrun1, Hrun2].
  destruct (_ || _); [by apply Hrun1, Hrun2|]. destruct H3 as (s3 & Hg3 & Hl3 & Hs3).
  exists s3. split; [by eapply goes_trans, goes_trans|]. split; [congruence|done].
Qed.

(** The copy of a match, byte by byte: it may run into what it writes. *)
Lemma match_copy_follows n lit dist k out bs s d :
  at_stage BLK_MATCH_COPY out bs s -> coding lit dist k s -> match_offset (mat s) = d ->
  if len out + Z.of_nat n <=? image_size then
    exists s1, match_copy n (ample out) s = again (ample (copy_back n d out)) s1 /\ ready (rd s1) bs /\ coding lit dist k s1 /\
      block_stage (ctl s1) = BLK_SYMBOL
  else exists o' s', match_copy n (ample out) s = leave o' s' (-1).
Proof.
  revert out s. induction n as [|n IH]; intros out s (Hc & Hi & Hst & Hr) Hcd Hd; cbn [match_copy copy_back];
    pose proof (core_hist out s Hc) as Hh; pose proof (hist_room _ _ Hh) as Hroom.
  - destruct (Z.leb_spec (len out + Z.of_nat 0) image_size); [|lia]. eexists. split; [done|]. split; [done|]. destruct Hcd. by split.
  - destruct (Z.leb_spec (capacity (ample out)) (produced (ample out))) as [Hle|_].
    { unfold produced, ample in Hle. cbn [capacity written] in Hle. lia. }
    destruct (match_source_spec out s Hc Hst) as [Hsrc Hv]. rewrite at_index_some by (rewrite (hist_window _ _ Hh); lia).
    cbn [mbind option_bind]. rewrite Hv, Hd. set (b := out.[len out - d]).
    pose proof (core_mat out s Hc) as [Hml Hm]. rewrite Hst, Hd in Hm.
    assert (Hb : is_byte b) by (apply Forall_get; [apply Hh|lia]). pose proof (put_ample out b s Hh Hb) as Hp.
    destruct (Z.ltb_spec (len out) image_size).
    + destruct Hp as (h & -> & Hh'). cbn [mbind option_bind negb]. set (s1 := set_mat _ _).
      assert (Hat1 : at_stage BLK_MATCH_COPY (out ++ [b]) bs s1).
      { split; [|done]. assert (Hcm : calm (out ++ [b]) (set_hist s h)).
        { apply calm_more; [apply calm_of_core; [done|]|unfold in_block in Hi; congruence|done]. unfold pending. unfold in_block in Hi. by rewrite Hi, Hst. }
        apply calm_mat; [done|]. pose proof (core_mat _ _ (proj1 Hcm)) as [_ Hm'].
        change (block_stage (ctl (set_hist s h))) with (block_stage (ctl s)) in *. rewrite Hst in *. split; [apply wrap_fits; lia|exact Hm']. }
      specialize (IH (out ++ [b]) s1 Hat1). rewrite length_app in IH. cbn [length] in IH.
      replace (Z.of_nat (length out + 1) + Z.of_nat n) with (len out + Z.of_nat (S n)) in IH by lia.
      apply IH; [destruct Hcd; by split|exact Hd].
    + destruct (Z.leb_spec (len out + Z.of_nat (S n)) image_size); [lia|]. destruct Hp as [m ->]. by eexists _, _.
Qed.

(** ** One block *)

Section Block.
(** What follows the block: whether it is the final one, and what the reference
    makes of the output and the bits left. *)
Variables (final : Z) (rest : bytes -> list bool -> option bytes) (bound : nat).

Definition trl_zero : trailer := {| trailer_index := 0; trailer_value := 0 |}.

Definition between (out : bytes) (bs : list bool) (s : inflate) : Prop :=
  core out s /\ stage (ctl s) = (if final =? 0 then ST_BLOCK_FINAL else ST_TRAILER) /\ ready (rd s) bs /\ trl s = trl_zero.

Hypothesis rest_follows : forall out bs s, between out bs s -> (length bs <= bound)%nat -> run_result (rest out bs) out s.
Hypothesis rest_excess : forall out bs, image_size < len out -> rest out bs = None.

(** The last turn of a block. *)
Lemma block_over out s out1 s1 bs :
  core out s -> poll_turn (ample out, s) = Some ((ample out1, after_block s1), None) -> ready (rd s1) bs ->
  kept s1 = (final, trl_zero) -> (length bs <= bound)%nat -> run_result (rest out1 bs) out s.
Proof.
  intros Hc Ht Hr [= Hf Htr] Hb. eapply run_step; [exact Hc|exact Ht|]. intros Hc1. apply rest_follows; [|done].
  split; [done|]. split; [unfold after_block; by rewrite Hf|]. by split.
Qed.

Lemma stored_follows out s bs :
  core out s -> stage (ctl s) = ST_STORED_LEN -> ready (rd s) bs -> bit_count (src (rd s)) = 0 -> stored_header_index (sto s) = 0 ->
  kept s = (final, trl_zero) -> (length bs <= bound)%nat ->
  run_result ('(out, bs) ← stored_bytes out bs; rest out bs) out s.
Proof.
  unfold stored_bytes.
  intros Hc Hst ((Hf & Hbc & Hbs) & Ha & Hy) Hbz Hi Hk Hlen. assert (Hb : bs = bits_of (input (src (rd s)))) by (by rewrite Hbs, Hbz). clear Hbs. subst bs.
  pose proof (poll_turn_ample out s s Hc) as Ht. unfold poll_stage in Ht. rewrite Hst in Ht.
  pose proof (stored_header_follows s Hf (core_input out s Hc) Hi) as Hh.
  destruct (take_bits 16 _) as [[l bs1]|] eqn:E1; cbn [mbind option_bind] in *; [|destruct Hh as [s' Hh]; rewrite Hh in Ht; exact (run_fail _ _ _ _ Ht)].
  destruct (take_bits 16 bs1) as [[nl bs2]|] eqn:E2; cbn [mbind option_bind] in *; [|destruct Hh as [s' Hh]; rewrite Hh in Ht; exact (run_fail _ _ _ _ Ht)].
  destruct (negb _); cbn [mbind option_bind] in *; [destruct Hh as [s' Hh]; rewrite Hh in Ht; exact (run_fail _ _ _ _ Ht)|].
  destruct Hh as (k & i & Hh & -> & Hkb). rewrite Hh in Ht. eapply run_step; [exact Hc|exact Ht|]. intros Hc1. clear Ht Hh.
  apply take_bits_range in E1 as Hl. apply take_bits_drop in E1 as [_ Hd1], E2 as [_ Hd2].
  set (s1 := set_stage _ ST_STORED_DATA) in *. pose proof (poll_turn_ample out s1 s1 Hc1) as Ht. unfold poll_stage in Ht.
  change (stage (ctl s1)) with ST_STORED_DATA in Ht. unfold process_stored_data in Ht. change (stored_len (sto s1)) with l in Ht.
  pose proof (stored_data_follows (Z.to_nat l) out s1 Hf Hkb (core_hist _ _ Hc1)) as Hs. change (input (src (rd s1))) with k in Hs.
  rewrite take_bytes by done. destruct (decide (Z.to_nat l <= length k)%nat) as [Hlk|Hlk]; cbn [mbind option_bind].
  2: { rewrite decide_False in Hs by lia. destruct Hs as (o' & s' & Hs). rewrite Hs in Ht. exact (run_fail _ _ _ _ Ht). }
  destruct (decide (_ /\ _)) as [[_ Hroom]|Hroom].
  - destruct Hs as (h & t & Hs). rewrite Hs in Ht. eapply block_over; [exact Hc1|exact Ht| |exact Hk|].
    + split; [|by split]. split; [done|]. split; [exact Hbc|].
      change (bits_of (drop (Z.to_nat l) k) =
        tag_bits (Z.to_nat (bit_count (src (rd s)))) (bit_tag (src (rd s))) ++ bits_of (drop (Z.to_nat l) k)). by rewrite Hbz.
    + rewrite length_bits_of, length_drop. rewrite length_bits_of in Hd2. lia.
  - destruct Hs as (o' & s' & Hs). rewrite Hs in Ht. rewrite rest_excess; [exact (run_fail _ _ _ _ Ht)|].
    rewrite length_app, length_take. lia.
Qed.

(** *** Compressed data *)

Lemma data_excess n lit dist out bs :
  image_size < len out -> ('(out, bs) ← block_data OPENDISPLAY_ZLIB_WINDOW_SIZE n lit dist out bs; rest out bs) = None.
Proof.
  intros Hx. destruct (block_data _ n lit dist out bs) as [[out' bs']|] eqn:E; cbn [mbind option_bind]; [|done].
  apply block_data_grows in E as [Hl _]. apply rest_excess. lia.
Qed.

(** A literal: one byte more, or one too many. *)
Lemma literal_follows lit dist k out bs bs' s sym :
  at_stage BLK_SYMBOL out bs s -> coding lit dist k s -> decode lit bs = Some (sym, bs') -> sym < 256 ->
  if len out <? image_size then
    exists s1, poll_turn (ample out, s) = Some ((ample (out ++ [sym]), s1), None) /\ coding lit dist k s1 /\
      (core (out ++ [sym]) s1 -> at_stage BLK_SYMBOL (out ++ [sym]) bs' s1)
  else run_result None out s.
Proof.
  intros (Hc & Hi & Hst & Hr) Hcd Hd Hs. pose proof Hcd as [Hlit Hdist Hk].
  pose proof (block_turn_ample out s s Hc) as Ht. rewrite Hst in Ht. unfold block_symbol in Ht.
  pose proof (decode_after s _ lit bs _ Hlit Hr) as Hda. rewrite Hd in Hda. destruct Hda as (r & Hda & Hr1). rewrite Hda in Ht.
  cbn [mbind option_bind after_read] in Ht. apply decode_spec in Hd as [Hsr _]. destruct (Z.ltb_spec sym 256); [|lia].
  rewrite wrap_id in Ht by (unfold fits; lia).
  pose proof (put_ample out sym (set_rd s r) (core_hist out s Hc) ltac:(unfold is_byte; lia)) as Hp.
  destruct (Z.ltb_spec (len out) image_size).
  - destruct Hp as (h & Hp & Hh). rewrite Hp in Ht. cbn [mbind option_bind negb] in Ht. eexists.
    split; [rewrite (poll_in_block out s s), (block_leave_follows _ _ _ _ _ Hc Hi Ht) by done; reflexivity|].
    split; [by split|]. intros Hc1. by split.
  - destruct Hp as [m Hp]. rewrite Hp in Ht. cbn [mbind option_bind negb] in Ht. exact (block_fail_follows _ _ _ _ Hc Hi Ht).
Qed.

(** The end of the block. *)
Lemma end_follows lit dist out bs bs' s :
  at_stage BLK_SYMBOL out bs s -> coding lit dist (final, trl_zero) s -> decode lit bs = Some (256, bs') ->
  (length bs' <= bound)%nat -> run_result (rest out bs') out s.
Proof.
  intros (Hc & Hi & Hst & Hr) [Hlit Hdist Hk] Hd Hb.
  pose proof (block_turn_ample out s s Hc) as Ht. rewrite Hst in Ht. unfold block_symbol in Ht.
  pose proof (decode_after s _ lit bs _ Hlit Hr) as Hda. rewrite Hd in Hda. destruct Hda as (r & Hda & Hr1). rewrite Hda in Ht.
  cbn [mbind option_bind after_read] in Ht. pose proof (block_leave_follows _ _ _ _ _ Hc Hi Ht) as Hl.
  eapply (block_over out s out (set_block_stage (set_rd s r) BLK_SYMBOL)); [exact Hc| |exact Hr1|exact Hk|done].
  rewrite (poll_in_block out s s), Hl by done. done.
Qed.

(** A length symbol. *)
Lemma length_follows lit dist k out bs bs' s sym :
  at_stage BLK_SYMBOL out bs s -> coding lit dist k s -> decode lit bs = Some (sym, bs') -> 256 < sym ->
  if 286 <=? sym then run_result None out s
  else exists s1, goes BLK_LEN_EXTRA lit dist k out bs' s s1 /\ length_sym (mat s1) = sym - 257.
Proof.
  intros (Hc & Hi & Hst & Hr) [Hlit Hdist Hk] Hd Hs.
  pose proof (block_turn_ample out s s Hc) as Ht. rewrite Hst in Ht. unfold block_symbol in Ht.
  pose proof (decode_after s _ lit bs _ Hlit Hr) as Hda. rewrite Hd in Hda. destruct Hda as (r & Hda & Hr1). rewrite Hda in Ht.
  cbn [mbind option_bind after_read] in Ht. destruct (Z.ltb_spec sym 256); [lia|]. destruct (Z.eqb_spec sym 256); [lia|].
  destruct (Z.ltb_spec (sym - 257) 0); [lia|]. cbn [orb] in Ht. destruct (Z.leb_spec 286 sym), (Z.leb_spec 29 (sym - 257)); try lia.
  - exact (block_fail_follows _ _ _ _ Hc Hi Ht).
  - destruct (block_again_follows _ _ _ _ Hc Hi Ht) as (Hc1 & Hi1 & Hrun1).
    eexists. by split; [split; [|split; [|exact Hrun1]]|].
Qed.

(** No symbol. *)
Lemma no_symbol_follows lit dist k out bs s :
  at_stage BLK_SYMBOL out bs s -> coding lit dist k s -> decode lit bs = None -> run_result None out s.
Proof.
  intros (Hc & Hi & Hst & Hr) [Hlit Hdist Hk] Hd.
  pose proof (block_turn_ample out s s Hc) as Ht. rewrite Hst in Ht. unfold block_symbol in Ht.
  pose proof (decode_after s _ lit bs _ Hlit Hr) as Hda. rewrite Hd in Hda. destruct Hda as (m & r & Hda). rewrite Hda in Ht.
  exact (block_fail_follows _ _ _ _ Hc Hi Ht).
Qed.

Lemma data_follows n lit dist out bs s :
  at_stage BLK_SYMBOL out bs s -> coding lit dist (final, trl_zero) s -> (length bs < n)%nat -> (length bs <= bound)%nat ->
  run_result ('(out, bs) ← block_data OPENDISPLAY_ZLIB_WINDOW_SIZE n lit dist out bs; rest out bs) out s.
Proof.
  revert out bs s. induction n as [|n IH]; intros out bs s Hat Hcd Hn Hb; [lia|]. cbn [block_data].
  destruct (decode lit bs) as [[sym bs1]|] eqn:Ed; cbn [mbind option_bind]; [|by eapply no_symbol_follows].
  pose proof (decode_spec _ _ _ _ Ed) as [Hsym Hb1]. destruct (Z.ltb_spec sym 256) as [Hs|Hs].
  { pose proof (literal_follows _ _ _ _ _ _ _ _ Hat Hcd Ed Hs) as Hl. destruct (Z.ltb_spec (len out) image_size).
    - destruct Hl as (s1 & Ht & Hcd1 & Hat1). eapply run_step; [apply Hat|exact Ht|]. intros Hc1. apply IH; [auto|done|lia|lia].
    - change (_ ≫= _) with ('(out, bs) ← block_data OPENDISPLAY_ZLIB_WINDOW_SIZE n lit dist (out ++ [sym]) bs1; rest out bs).
      rewrite data_excess; [done|]. rewrite length_app. cbn. lia. }
  destruct (Z.eqb_spec sym 256) as [->|Hne]; [by eapply end_follows; [| | |lia]|].
  pose proof (length_follows _ _ _ _ _ _ _ _ Hat Hcd Ed ltac:(lia)) as Hl. destruct (Z.leb_spec 286 sym); [done|].
  destruct Hl as (s1 & (Hat1 & Hcd1 & Hrun1) & Hl1). pose proof (match_follows _ _ _ _ _ _ _ Hat1 Hcd1 Hl1 ltac:(lia)) as Hm.
  destruct (take_match dist (sym - 257) bs1) as [[[l d] bs2]|] eqn:Em; cbn [mbind option_bind]; [|by apply Hrun1].
  apply take_match_spec in Em. destruct (_ || _); [by apply Hrun1|]. destruct Hm as (s2 & (Hat2 & Hcd2 & Hrun2) & Hl2 & Ho2).
  apply Hrun1, Hrun2. pose proof (match_copy_follows (Z.to_nat l) _ _ _ _ _ _ _ Hat2 Hcd2 Ho2) as Hcp.
  pose proof Hat2 as (Hc2 & Hi2 & Hst2 & _). pose proof (block_turn_ample out s2 s2 Hc2) as Ht. rewrite Hst2, Hl2 in Ht.
  destruct (Z.leb_spec (len out + Z.of_nat (Z.to_nat l)) image_size).
  - destruct Hcp as (s3 & Hcp & Hr3 & Hcd3 & Hst3). rewrite Hcp in Ht.
    destruct (block_again_follows _ _ _ _ Hc2 Hi2 Ht) as (Hc3 & Hi3 & Hrun3). apply Hrun3, IH; [by split|done|lia|lia].
  - destruct Hcp as (o' & s' & Hcp). rewrite Hcp in Ht.
    change (_ ≫= _) with ('(out, bs) ← block_data OPENDISPLAY_ZLIB_WINDOW_SIZE n lit dist (copy_back (Z.to_nat l) d out) bs2; rest out bs).
    rewrite data_excess by (rewrite len_copy_back; lia). exact (block_fail_follows _ _ _ _ Hc2 Hi2 Ht).
Qed.

(** *** A block after its two type bits *)

Lemma dynamic_block_follows out bs s :
  core out s -> stage (ctl s) = ST_DYNAMIC_TREES -> dynamic_stage (ctl s) = DYN_HLIT -> ready (rd s) bs ->
  kept s = (final, trl_zero) -> (length bs <= bound)%nat ->
  run_result ('(out, bs) ← ('(lit, dist, bs) ← dynamic_codes bs;
                            block_data OPENDISPLAY_ZLIB_WINDOW_SIZE (S (length bs)) lit dist out bs); rest out bs) out s.
Proof.
  intros Hc Hst Hds Hr Hk Hb. pose proof (poll_turn_ample out s s Hc) as Ht. unfold poll_stage in Ht. rewrite Hst in Ht.
  assert (Hfr : dyn_frame (final, trl_zero) s) by (constructor; [done|apply Hc..]).
  pose proof (dynamic_follow _ bs s Hfr Hds Hr) as Hd. destruct (process_dynamic_total out s Hc Hst) as (s' & rc & Hp & _).
  rewrite Hp in Ht. cbn [mbind option_bind] in Ht. unfold process_dynamic_trees in Hp.
  destruct (dynamic_codes bs) as [[[lit dist] bs1]|] eqn:Ed; cbn [mbind option_bind dyn_result] in *.
  - destruct Hd as (s1 & He & Hlit & Hdist & Hr1 & Hk1). pose proof (ends_unique _ _ _ _ _ He Hp) as Heq. injection Heq as -> ->.
    apply dynamic_codes_shorter in Ed. eapply run_step; [exact Hc|exact Ht|]. intros Hc1.
    apply data_follows; [by split|by split|lia|lia].
  - destruct Hd as (s1 & He). pose proof (ends_unique _ _ _ _ _ He Hp) as Heq. injection Heq as -> ->. exact (run_fail _ _ _ _ Ht).
Qed.

Lemma type_follows out bs s :
  core out s -> stage (ctl s) = ST_BLOCK_TYPE -> ready (rd s) bs -> kept s = (final, trl_zero) -> (length bs <= bound)%nat ->
  run_result ('(type, bs) ← take_bits 2 bs; '(out, bs) ← block OPENDISPLAY_ZLIB_WINDOW_SIZE type out bs; rest out bs) out s.
Proof.
  intros Hc Hst Hr Hk Hb. pose proof (poll_turn_ample out s s Hc) as Ht. unfold poll_stage in Ht. rewrite Hst in Ht.
  unfold poll_type in Ht. pose proof (read_bits_follows 2 0 (rd s) bs Hr ltac:(lia) ltac:(lia)) as Hf.
  change (Z.to_nat 2) with 2%nat in Hf. destruct (read_bits 2 0 (rd s)) as [v r]. unfold follows in Hf.
  destruct (take_bits 2 bs) as [[t bs1]|] eqn:Et; cbn [mbind option_bind].
  2: { destruct Hf as [m ->]. exact (run_fail _ _ _ _ Ht). }
  destruct Hf as [-> Hr1]. rewrite Z.add_0_l in Ht. cbn [after_read] in Ht. apply take_bits_range in Et as Htr. apply take_bits_drop in Et as [_ Hd].
  change (2 ^ Z.of_nat 2) with 4 in Htr. rewrite wrap_id in Ht by (unfold fits; lia). unfold block.
  destruct (Z.eqb_spec t 0); [|destruct (Z.eqb_spec t 1); [|destruct (Z.eqb_spec t 2)]].
  - eapply run_step; [exact Hc|exact Ht|]. intros Hc1. unfold stored_block. destruct Hr1 as (Hx & Ha & Hy).
    rewrite (align_reads _ _ Hx). apply align_reads in Hx as Hal.
    apply stored_follows; try done.
    + split; [|by split]. split; [apply Hx|]. by split.
    + rewrite <- Hal. unfold align. rewrite length_drop. lia.
  - eapply run_step; [exact Hc|exact Ht|]. intros Hc1. destruct fixed_codes as [Hlit Hdist].
    apply data_follows; [|by split|lia|lia]. split; [done|]. split; [done|]. split; [done|]. destruct Hr1 as (Hx & _ & _). by split.
  - eapply run_step; [exact Hc|exact Ht|]. intros Hc1. apply dynamic_block_follows; try done; [|lia].
    destruct Hr1 as (Hx & _ & _). by split.
  - exact (run_fail _ _ _ _ Ht).
Qed.
End Block.

(** ** Whole streams *)

Definition blocks_ref (n : nat) (out : bytes) (bs : list bool) : option bytes :=
  '(out, bs) ← blocks OPENDISPLAY_ZLIB_WINDOW_SIZE n out bs; trailer_ref out bs.

Lemma trailer_excess out bs : image_size < len out -> trailer_ref out bs = None.
Proof.
  intros Hx. unfold trailer_ref. destruct (take_fields 4 8 (align bs)) as [[vs bs']|]; cbn [mbind option_bind]; [|done].
  destruct (Z.eqb_spec (len out) image_size); [lia|]. rewrite andb_false_r. done.
Qed.

Lemma blocks_excess n out bs : image_size < len out -> blocks_ref n out bs = None.
Proof.
  intros Hx. unfold blocks_ref. destruct (blocks _ n out bs) as [[out' bs']|] eqn:E; cbn [mbind option_bind]; [|done].
  apply blocks_grows in E as [Hl _]. apply trailer_excess. lia.
Qed.

(** What follows a block whose final bit is [final]. *)
Definition block_rest (n : nat) (final : Z) (out : bytes) (bs : list bool) : option bytes :=
  if final =? 1 then trailer_ref out bs else blocks_ref n out bs.

Lemma blocks_ref_step n out b bs :
  blocks_ref (S n) out (b :: bs) =
    '(type, bs) ← take_bits 2 bs; '(out, bs) ← block OPENDISPLAY_ZLIB_WINDOW_SIZE type out bs; block_rest n (Z.b2z b) out bs.
Proof.
  unfold blocks_ref, block_rest. cbn [blocks].
  assert (Hb : take_bits 1 (b :: bs) = Some (Z.b2z b, bs)) by (cbn; by rewrite Z.add_0_r). rewrite Hb. cbn [mbind option_bind].
  destruct (take_bits 2 bs) as [[t bs1]|]; cbn [mbind option_bind]; [|done].
  destruct (block _ t out bs1) as [[out1 bs2]|]; cbn [mbind option_bind]; [|done]. by destruct (Z.b2z b =? 1).
Qed.

Lemma blocks_follow n out bs s :
  core out s -> stage (ctl s) = ST_BLOCK_FINAL -> ready (rd s) bs -> trl s = trl_zero -> (length bs < n)%nat ->
  run_result (blocks_ref n out bs) out s.
Proof.
  revert out bs s. induction n as [|n IH]; intros out bs s Hc Hst (Hx & Ha & Hy) Htr Hn; [lia|].
  pose proof (poll_turn_ample out s s Hc) as Ht. unfold poll_stage in Ht. rewrite Hst in Ht.
  pose proof (read_bit_reads (src (rd s)) bs Hx) as Hb. destruct bs as [|b bs1].
  { destruct Hb as (m & x & Hb). rewrite Hb in Ht. exact (run_fail _ _ _ _ Ht). }
  destruct Hb as (x & Hb & Hx1). rewrite Hb in Ht. cbn [after_read] in Ht. eapply run_step; [exact Hc|exact Ht|]. intros Hc1.
  cbn [length] in Hn. rewrite blocks_ref_step. apply (type_follows (Z.b2z b) (block_rest n (Z.b2z b)) (length bs1)); try done.
  - unfold block_rest. intros out2 bs2 s2 (Hc2 & Hst2 & Hr2 & Htr2) Hl2. destruct b; cbn [Z.b2z Z.eqb Pos.eqb] in *.
    + apply trailer_follows; [done|done|apply Hr2|done].
    + apply IH; [done|done|done|done|lia].
  - unfold block_rest. intros out2 bs2 Hx2. destruct (_ =? 1); [by apply trailer_excess|by apply blocks_excess].
  - unfold kept. isimpl. rewrite Htr. by destruct b.
Qed.

Lemma header_follows m flg : is_byte m -> is_byte flg -> header_ok OPENDISPLAY_ZLIB_WINDOW_SIZE m flg = true <-> header_good m flg.
Proof.
  intros Hm Hf. unfold header_ok, header_good. rewrite !andb_true_iff, negb_true_iff, !Z.eqb_eq, Z.leb_le.
  unfold OPENDISPLAY_ZLIB_WINDOW_SIZE. rewrite Z.shiftl_1_l. pose proof window_bits_range. unfold is_byte in *.
  rewrite <- Z.pow_le_mono_r_iff by lia. intuition lia.
Qed.

(** The image a whole stream holds, when it is of the size expected. *)
Definition image_ref (stream : bytes) : option bytes :=
  out ← zlib OPENDISPLAY_ZLIB_WINDOW_SIZE stream; if len out =? image_size then Some out else None.

Lemma image_ref_blocks m flg l :
  image_ref (m :: flg :: l) =
    if header_ok OPENDISPLAY_ZLIB_WINDOW_SIZE m flg then blocks_ref (S (length (bits_of l))) [] (bits_of l) else None.
Proof.
  unfold image_ref, zlib, deflate, blocks_ref, trailer_ref. destruct (header_ok _ m flg); cbn [negb mbind option_bind]; [|done].
  destruct (blocks _ _ [] (bits_of l)) as [[out bs]|]; cbn [mbind option_bind]; [|done].
  destruct (take_fields 4 8 (align bs)) as [[vs bs']|]; cbn [mbind option_bind]; [|done].
  destruct (_ && bool_decide _); [|done]. cbn [mbind option_bind andb]. by destruct (len out =? image_size).
Qed.

(** The stream with all of its input at hand. *)
Definition loaded (stream : bytes) : inflate := feed stream (od_zlib_stream_reset image_size).

Lemma stream_follows stream : bytes_ok stream -> run_result (image_ref stream) [] (loaded stream).
Proof.
  intros Hb. pose proof (core_feed stream Hb [] _ reset_core) as Hc. fold (loaded stream) in Hc.
  pose proof (poll_turn_ample [] _ (loaded stream) Hc) as Ht. unfold poll_stage in Ht. change (stage (ctl (loaded stream))) with ST_ZLIB_CMF in Ht.
  pose proof (next_byte_eats (loaded stream) eq_refl) as Hn. change (input (src (rd (loaded stream)))) with stream in Hn.
  destruct Hb as [|m l Hm Hb].
  { destruct Hn as [e Hn]. rewrite Hn in Ht. exact (run_fail _ _ _ _ Ht). }
  rewrite Hn in Ht. eapply run_step; [exact Hc|exact Ht|]. intros Hc1. clear Ht Hn Hc.
  set (s1 := set_stage _ ST_ZLIB_FLG) in *. pose proof (poll_turn_ample [] _ s1 Hc1) as Ht. unfold poll_stage in Ht.
  change (stage (ctl s1)) with ST_ZLIB_FLG in Ht. unfold poll_flg in Ht. pose proof (next_byte_eats s1 eq_refl) as Hn.
  change (input (src (rd s1))) with l in Hn. destruct Hb as [|flg l Hf Hb].
  { destruct Hn as [e Hn]. rewrite Hn in Ht. exact (run_fail _ _ _ _ Ht). }
  rewrite Hn in Ht. change (cmf (ctl (eat s1 l))) with m in Ht. rewrite image_ref_blocks.
  pose proof (header_check_spec m flg Hm Hf) as Hh. pose proof (header_follows m flg Hm Hf) as Hk. rewrite <- Hh in Hk. clear Hh.
  destruct (header_ok _ m flg).
  - rewrite (proj1 Hk eq_refl) in Ht. eapply run_step; [exact Hc1|exact Ht|]. intros Hc2.
    apply blocks_follow; try done. lia.
  - destruct (od_zlib_header_check m flg) eqn:E; [by pose proof (proj2 Hk eq_refl)| |exact (run_fail _ _ _ _ Ht)..].
    exfalso. unfold od_zlib_header_check in E. repeat (destruct (_ : bool) in E; try done).
Qed.

(** One push of the stream, and one poll with room for the image. *)
Definition whole (stream : bytes) : list call := [Push stream true; Poll (image_size + 1)].

Lemma run_whole_poll stream :
  bytes_ok stream ->
  exists o s st, ends poll_turn (ample [], loaded stream) ((o, s), st) /\
    run_calls (whole stream) (od_zlib_stream_reset image_size) = Some (written o, s) /\ (st = OD_ZLIB_STATUS_ERROR -> stage (ctl s) = ST_ERROR).
Proof.
  intros Hb. destruct (poll_loop_total [] (ample []) (loaded stream) (core_feed stream Hb [] _ reset_core)) as (o & s & st & Ht & new & He & Hp).
  exists o, s, st. split; [by eexists|]. split.
  - unfold whole. cbn [run_calls].
    assert (Hpu : (od_zlib_stream_push (od_zlib_stream_reset image_size) (Some stream) (len stream) true).2 = loaded stream).
    { unfold od_zlib_stream_push. rewrite bool_decide_true by by eexists. rewrite andb_false_r, Nat2Z.id, firstn_all. done. }
    rewrite Hpu. unfold od_zlib_stream_poll. change (negb (initialized _)) with false.
    rewrite bool_decide_eq_false_2, bool_decide_eq_false_2 by done. change {| capacity := image_size + 1; written := [] |} with (ample []).
    rewrite Ht. cbn [mbind option_bind]. by rewrite app_nil_r.
  - intros ->. exact Hp.
Qed.

Lemma image_ref_some stream out :
  image_ref stream = Some out <-> zlib OPENDISPLAY_ZLIB_WINDOW_SIZE stream = Some out /\ len out = image_size.
Proof.
  unfold image_ref. destruct (zlib _ stream) as [img|]; cbn [mbind option_bind]; [|split; [done|by intros [? _]]].
  destruct (Z.eqb_spec (len img) image_size); (split; [try done; by intros [= <-]|intros [[= <-] ?]; done]).
Qed.

(** The poll that ends done has written the reference's image. *)
Lemma ends_image stream out s :
  bytes_ok stream -> ends poll_turn (ample [], loaded stream) ((ample out, s), OD_ZLIB_STATUS_DONE) -> image_ref stream = Some out.
Proof.
  intros Hb [n Hn]. pose proof (stream_follows stream Hb) as Hr. destruct (image_ref stream) as [img|].
  - destruct Hr as (s' & He & _). pose proof (ends_unique _ _ _ _ _ He Hn) as Heq. injection Heq as -> _. done.
  - destruct Hr as (o' & s' & He). pose proof (ends_unique _ _ _ _ _ He Hn) as Heq. injection Heq as _ _ Heq. done.
Qed.

Lemma whole_image stream out :
  bytes_ok stream -> image_ref stream = Some out ->
  exists s, run_calls (whole stream) (od_zlib_stream_reset image_size) = Some (out, s) /\ stage (ctl s) = ST_DONE.
Proof.
  intros Hb Hi. pose proof (stream_follows stream Hb) as Hr. rewrite Hi in Hr. destruct Hr as (s & He & Hd).
  destruct (run_whole_poll stream Hb) as (o' & s' & st & [n Hn] & Hc & _). pose proof (ends_unique _ _ _ _ _ He Hn) as Heq.
  injection Heq as -> -> ->. by exists s.
Qed.

Lemma whole_done stream out s :
  bytes_ok stream -> run_calls (whole stream) (od_zlib_stream_reset image_size) = Some (out, s) -> stage (ctl s) = ST_DONE ->
  image_ref stream = Some out.
Proof.
  intros Hb Hr Hd. destruct (run_whole_poll stream Hb) as (o' & s' & st & [n Hn] & Hc & Her). rewrite Hr in Hc.
  injection Hc as -> ->. pose proof (stream_follows stream Hb) as Hf. destruct (image_ref stream) as [img|].
  - destruct Hf as (s1 & He & _). pose proof (ends_unique _ _ _ _ _ He Hn) as Heq. by injection Heq as -> _ _.
  - destruct Hf as (o1 & s1 & He). pose proof (ends_unique _ _ _ _ _ He Hn) as Heq. injection Heq as _ _ ->.
    rewrite Her in Hd by done. done.
Qed.

(** C9. The inflater is a zlib decoder: one push of a stream and one poll end
    done exactly when the reference decoder written from RFC 1950 and RFC 1951
    (no window beyond the target's) reads an image of the expected size from
    it, and the bytes written are that image; and whenever any sequence of
    pushes and polls ends done, it has written what the reference reads from
    all the bytes pushed. *)
Theorem inflate_rfc (cs : list call) (out : bytes) :
  Forall call_ok cs ->
  ((exists s, run_calls (whole (pushed cs)) (od_zlib_stream_reset image_size) = Some (out, s) /\ stage (ctl s) = ST_DONE) <->
   zlib OPENDISPLAY_ZLIB_WINDOW_SIZE (pushed cs) = Some out /\ len out = image_size) /\
  (forall s, run_calls cs (od_zlib_stream_reset image_size) = Some (out, s) -> stage (ctl s) = ST_DONE ->
   zlib OPENDISPLAY_ZLIB_WINDOW_SIZE (pushed cs) = Some out /\ len out = image_size).
Proof.
  intros Hcs. pose proof (pushed_ok cs Hcs) as Hb. rewrite <- (image_ref_some (pushed cs) out).
  split; [split|].
  - intros (s & Hr & Hd). by apply (whole_done _ _ s).
  - intros Hi. by apply whole_image.
  - intros s Hr Hd. apply image_ref_some, (ends_image _ _ (feed [] s) Hb).
    exact (run_whole cs [] _ out s Hcs reset_core Hr Hd).
Qed.
End Stream.

#[local] Existing Instances demo_config demo_image.

(** The demo stream in three pieces, read out seven bytes at a time. *)
Lemma inflate_rfc_witness :
  zlib OPENDISPLAY_ZLIB_WINDOW_SIZE demo_stream = Some demo_text /\
  exists s, run_calls (whole demo_stream) (od_zlib_stream_reset image_size) = Some (demo_text, s) /\ stage (ctl s) = ST_DONE.
Proof.
  assert (Hok : Forall call_ok demo_calls) by (repeat constructor; done).
  destruct (run_calls_ok demo_calls [] _ Hok (or_intror reset_core)) as (out & s & Hr & _).
  pose proof (f_equal (option_map (fun x => (x.1, stage (ctl x.2)))) Hr) as Hv. cbn [option_map fst snd] in Hv.
  assert (Ho : out = demo_text /\ stage (ctl s) = ST_DONE)
    by (vm_compute in Hv; injection Hv as Hv1 Hv2; split; [exact (eq_sym Hv1)|exact (eq_sym Hv2)]).
  destruct Ho as [-> Hd]. destruct (inflate_rfc demo_calls demo_text Hok) as [Hwhole Hany].
  pose proof (Hany s Hr Hd) as Hz. split; [exact (proj1 Hz)|]. exact (proj2 Hwhole Hz).
Defined.
End InflateRfc.
