(* ===== verification/TransferImage.v ===== *)
(** From the sender's bytes to the panel: the PIPE stream of
    [shared/core/od_xfer.c], the pump of [shared/core/od_zlib_pump.c] and the
    inflater of [shared/core/od_zlib_inflate.c] put together.  An upload is the
    sequence of calls [od_pipe.c] makes for the frames of one image; the theorem
    says what the panel's memory holds when it succeeds. *)

From S2P Require Import Prelude Hal TxQueue Span Proto Session World Reply Dispatch Color Pump PipeState XferState Xfer.
From S2P Require Import XferDirect XferPartial Pipe Transfer TransferCmds TransferSession Rfc1951 Inflate InflateRead InflateSafe.
From S2P Require Import InflateRun Inflater InflateChunks InflateWhole InflateCode InflateDyn InflateRfc.
Import Hal TxQueue Span Proto Session World Reply Dispatch Color Pump PipeState XferState Xfer Pipe Transfer TransferCmds.
Import Rfc1951 Inflate InflateRead InflateSafe InflateRun Inflater InflateChunks InflateWhole InflateRfc.

Module TransferImage.

Open Scope xfer_scope.

(** ** The pump, for a client that follows every byte *)

Section Pump.
Context {S : Type} `{InflaterProgress S}.
Variable (sink : bytes -> S -> bool * S) (cap expected : Z) (I : Z -> S -> Prop) (D : S -> Prop).

(** One round: a poll, and its bytes taken by the sink. *)
Definition exact_client : Prop :=
  forall n s, I n s -> 0 <= n <= expected ->
    let '(st, out, s1) := od_inflate_app_poll s cap in
    let s2 := if len out =? 0 then s1 else (sink out s1).2 in
    len out = 0 \/ n + len out <= expected /\ (sink out s1).1 = true ->
    I (n + len out) s2 /\ (st = OD_ZLIB_STATUS_DONE -> D s2).

Definition exact_post (o : od_zlib_pump_status * pump * S) : Prop :=
  let '(st, p, s) := o in
  pump_ok p /\ s_expected_output p = expected /\
  match st with
  | OD_ZLIB_PUMP_MORE => I (s_emitted_output p) s
  | OD_ZLIB_PUMP_DONE => I (s_emitted_output p) s /\ D s
  | OD_ZLIB_PUMP_ERROR => True
  end.

Lemma exact_error p m s : pump_ok p -> s_expected_output p = expected -> exact_post (OD_ZLIB_PUMP_ERROR, with_error p m, s).
Proof. by intros. Qed.

(** A delivery that goes on has taken the whole chunk. *)
Lemma deliver_exact p s out :
  pump_ok p -> s_expected_output p = expected ->
  let '(ok, p', s') := deliver sink p s cap out in
  pump_ok p' /\ s_expected_output p' = expected /\
  (ok = true -> s_emitted_output p' = s_emitted_output p + len out /\
     s' = (if len out =? 0 then s else (sink out s).2) /\
     (len out = 0 \/ s_emitted_output p + len out <= expected /\ (sink out s).1 = true)).
Proof.
  intros Hp He. pose proof Hp as (Hle & Hf & H0'). unfold deliver.
  destruct (Z.ltb_spec cap (len out)); [by split|].
  destruct (Z.eqb_spec (len out) 0) as [Hz|Hz]; [split; [done|]; split; [done|]; intros _; rewrite Hz, Z.add_0_r; auto|].
  unfold fits in Hf. rewrite (wrap_id 32) by (unfold fits; lia).
  destruct (Z.ltb_spec (s_expected_output p) (s_emitted_output p)); [lia|]. cbn [orb].
  destruct (Z.ltb_spec (s_expected_output p - s_emitted_output p) (len out)); [by split|].
  destruct (sink out s) as [[] s'] eqn:Es; cbn [fst snd]; [|by split].
  unfold pump_ok, fits. cbn [with_emitted s_emitted_output s_expected_output].
  rewrite (wrap_id 32) by (unfold fits; lia). split; [lia|]. split; [done|]. intros _. split; [lia|]. split; [done|]. right. split; [lia|done].
Qed.

Lemma pump_loop_exact final fuel p s :
  0 < cap -> exact_client -> pump_ok p -> s_expected_output p = expected -> I (s_emitted_output p) s ->
  (Z.to_nat (expected - s_emitted_output p) < fuel)%nat ->
  exists o, pump_loop fuel sink final cap p s = Some o /\ exact_post o.
Proof.
  intros Hcap Hc. revert p s. induction fuel as [|fuel IH]; intros p s Hp He HI Hfuel; [lia|].
  cbn [pump_loop]. pose proof Hp as (Hle & _ & H0'). pose proof (Hc _ s HI ltac:(lia)) as Hround.
  pose proof (poll_ready_produces s) as Hready.
  destruct (od_inflate_app_poll s cap) as [[status out] s1] eqn:Epoll. cbn zeta in Hround.
  pose proof (deliver_exact p s1 out Hp He) as Hd.
  destruct (deliver sink p s1 cap out) as [[ok p2] s2]. destruct Hd as (Hp2 & He2 & Hd).
  destruct ok; cbn [negb]; [|by eexists; split; [done|]].
  destruct (Hd eq_refl) as (Hem & -> & Htaken). destruct (Hround Htaken) as [HI2 HD2]. rewrite <- Hem in HI2. destruct status.
  - destruct final; (eexists; split; [done|]); [by apply exact_error|]. by split.
  - assert (out <> []) by by eapply Hready.
    apply IH; try done. destruct out; [done|]. cbn [length] in Hem. destruct Hp2 as (? & _). lia.
  - destruct (_ || _); (eexists; split; [done|]); [by apply exact_error|].
    split; [done|]. split; [done|]. split; [done|]. by apply HD2.
  - eexists; split; [done|]. by apply exact_error.
Qed.

Lemma pump_push_exact p s input final :
  0 < cap -> exact_client -> od_span_valid input = true -> pump_ok p -> s_expected_output p = expected ->
  I (s_emitted_output p) (od_inflate_app_push s input final).2 ->
  exists o, od_zlib_pump_push p s input final true cap (Some sink) = Some o /\ exact_post o.
Proof.
  intros Hcap Hc Hv Hp He HI. unfold od_zlib_pump_push. rewrite Hv. cbn [negb orb od_mut_span_valid].
  destruct (Z.eqb_spec cap 0); [lia|]. destruct (od_inflate_app_push s input final) as [status s1]. cbn [snd] in HI.
  assert (Hl : exists o, pump_loop (pump_fuel p) sink final cap p s1 = Some o /\ exact_post o)
    by (apply pump_loop_exact; try done; unfold pump_fuel; lia).
  assert (Herr : forall m, exists o, Some (OD_ZLIB_PUMP_ERROR, with_error p m, s1) = Some o /\ exact_post o)
    by (intros m; eexists; split; [done|]; by apply exact_error).
  destruct (s_pump_error p); [by eexists; split; [done|]|destruct status; auto..].
Qed.
End Pump.

(** ** The stream's history *)

Section Linked.
Context `{ZlibConfig, Image}.

Lemma run_calls_app cs cs' s :
  run_calls (cs ++ cs') s =
    '(out, s) ← run_calls cs s; '(out', s) ← run_calls cs' s; Some (out ++ out', s).
Proof.
  revert s. induction cs as [|[b f|cap] cs IH]; intros s; cbn [run_calls app mbind option_bind].
  - by destruct (run_calls cs' s) as [[]|].
  - apply IH.
  - destruct (od_zlib_stream_poll s cap) as [[[st new] s1]|]; cbn [mbind option_bind]; [|done]. rewrite IH.
    destruct (run_calls cs s1) as [[o s2]|]; cbn [mbind option_bind]; [|done].
    destruct (run_calls cs' s2) as [[o' s3]|]; cbn [mbind option_bind]; [|done]. by rewrite app_assoc.
Qed.

Lemma pushed_app cs cs' : pushed (cs ++ cs') = pushed cs ++ pushed cs'.
Proof. unfold pushed. by rewrite map_app, concat_app. Qed.

(** Since its reset the stream was given [fed] and has written [out]. *)
Definition linked (out fed : bytes) (z : inflate) : Prop :=
  exists cs, Forall call_ok cs /\ pushed cs = fed /\ run_calls cs (od_zlib_stream_reset image_size) = Some (out, z).

Lemma linked_reset : linked [] [] (od_zlib_stream_reset image_size).
Proof. by exists []. Qed.

Lemma linked_more out fed z cs :
  linked out fed z -> Forall call_ok cs ->
  exists new z', run_calls cs z = Some (new, z') /\ linked (out ++ new) (fed ++ pushed cs) z'.
Proof.
  intros (cs0 & Hok0 & <- & Hr) Hok.
  destruct (run_calls_ok cs0 [] _ Hok0 (or_intror reset_core)) as (o & z0 & Hr0 & Hs). rewrite Hr in Hr0. injection Hr0 as <- <-.
  destruct (run_calls_ok cs out z Hok Hs) as (new & z' & Hr' & _). exists new, z'. split; [done|]. exists (cs0 ++ cs).
  split; [by apply Forall_app|]. split; [apply pushed_app|]. rewrite run_calls_app, Hr. cbn [mbind option_bind]. by rewrite Hr'.
Qed.

Lemma linked_push out fed z b final :
  linked out fed z -> bytes_ok b -> linked out (fed ++ b) (od_zlib_stream_push z (Some b) (len b) final).2.
Proof.
  intros Hl Hb. destruct (linked_more out fed z [Push b final] Hl) as (new & z' & Hr & Hl'); [by repeat constructor|].
  cbn [run_calls] in Hr. injection Hr as <- <-. revert Hl'. unfold pushed. cbn [map concat]. by rewrite !app_nil_r.
Qed.

Lemma linked_poll out fed z cap :
  linked out fed z -> exists st new z', od_zlib_stream_poll z cap = Some (st, new, z') /\ linked (out ++ new) fed z' /\
    (st = OD_ZLIB_STATUS_DONE -> stage (ctl z') = ST_DONE).
Proof.
  intros Hl. destruct (linked_more out fed z [Poll cap] Hl) as (new & z' & Hr & Hl'); [by repeat constructor|].
  destruct Hl as (cs0 & Hok0 & _ & Hr0). destruct (run_calls_ok cs0 [] _ Hok0 (or_intror reset_core)) as (o & z0 & Hr1 & Hs).
  rewrite Hr0 in Hr1. injection Hr1 as <- <-. destruct (poll_total out z cap Hs) as ([[st new1] z1] & Hp & _ & _ & Hst).
  cbn [run_calls] in Hr. rewrite Hp in Hr. cbn [mbind option_bind] in Hr. injection Hr as <- <-. exists st, new1, z1. split; [done|].
  split; [by revert Hl'; unfold pushed; cbn [map concat]; rewrite !app_nil_r|]. intros ->. apply Hst.
Qed.

(** Done, it has written what the reference decoder reads. *)
Lemma linked_image out fed z :
  linked out fed z -> stage (ctl z) = ST_DONE -> zlib OPENDISPLAY_ZLIB_WINDOW_SIZE fed = Some out /\ len out = image_size.
Proof.
  intros (cs & Hok & <- & Hr) Hd. apply image_ref_some, (ends_image _ _ (feed [] z) (pushed_ok cs Hok)).
  exact (run_whole cs [] _ out z Hok reset_core Hr Hd).
Qed.
End Linked.

(** ** The target *)

(** A target that runs the inflater of the repository: its hooks for the pump are
    the stream's functions, and the panel's leave the stream alone. *)
Class ZlibTarget (E : Type) `{ZlibConfig, Inflater E, XferApp E} := {
  zpart : E -> inflate;
  zpart_reset e n : zpart (od_inflate_app_reset e n) = od_zlib_stream_reset n;
  zpart_push e i f : zpart (od_inflate_app_push e i f).2 = (od_zlib_stream_push (zpart e) (sp i) (sn i) f).2;
  zpart_poll e cap st new z :
    od_zlib_stream_poll (zpart e) cap = Some (st, new, z) ->
    exists e', od_inflate_app_poll e cap = (st, new, e') /\ zpart e' = z;
  zpart_begin_full e g : zpart (od_xfer_app_begin_full e g).2 = zpart e;
  zpart_write e off b : zpart (od_xfer_app_write e off b).2 = zpart e;
}.

(** What the panel's memory holds: each write puts the bytes the driver took at
    the offset it was given. *)
Fixpoint panel_data (trace : list panel_event) : bytes :=
  match trace with
  | [] => []
  | EvBegin _ _ _ :: _ => []
  | EvWrite offset data n :: rest =>
      let buf := panel_data rest in
      take (Z.to_nat offset) buf ++ take (Z.to_nat n) data ++ drop (Z.to_nat (offset + n)) buf
  | _ :: rest => panel_data rest
  end.

Section Upload.
Context {E : Type} `{Radio E} `{Crypto E} `{SessionApp E} `{CommandApp E}
  `{Inflater E} `{XferApp E} `{PipeConfig}.

(** The payloads in order, empty ones skipped, while the results are good: what
    [od_pipe.c] makes of its DATA frames. *)
Fixpoint consume_all (ps : list bytes) : M E bool :=
  match ps with
  | [] => ret true
  | p :: ps =>
      if len p =? 0 then consume_all ps
      else
        let* r := od_xfer_pipe_consume (of_bytes p) in
        match r with OD_XFER_STREAM_OK => consume_all ps | _ => ret false end
  end.

(** END: the stream is finalized and complete. *)
Definition finish : M E bool :=
  let* r := od_xfer_pipe_finalize in
  let* x := gets t_xfer in
  ret (match r with OD_XFER_STREAM_OK => true | _ => false end && od_xfer_pipe_complete x).

(** An upload as [od_pipe.c] makes it of its START, DATA and END frames: whether
    every step succeeded. *)
Definition stream_all (ps : list bytes) : M E bool :=
  let* ok := od_xfer_pipe_activate in
  if negb ok then ret false
  else
    let* ok := consume_all ps in
    if negb ok then ret false else finish.

Definition upload (ctx : option od_cmd_ctx) (total : Z) (z : bool) (ps : list bytes) : M E bool :=
  let* cause := od_xfer_pipe_arm_full ctx total z in
  match cause with OD_XFER_START_OK => stream_all ps | _ => ret false end.
End Upload.

Section Arm.
Context {E : Type} `{Radio E} `{Crypto E} `{SessionApp E} `{CommandApp E}
  `{InflaterProgress E} `{XferAppLaws E} `{PipeConfig} `{!ZlibConfig} `{!ZlibTarget E}.
Implicit Types (s : tstate E).

(** What START leaves. *)
Record armed_image (total : Z) (z : bool) s : Prop := {
  ai_fits : fits 32 total;
  ai_mode : mode (t_xfer s) = OD_XFER_PIPE_FULL;
  ai_compressed : compressed (t_xfer s) = z;
  ai_expected : expected_bytes (t_xfer s) = total;
  ai_total : total_bytes (geometry (t_xfer s)) = total;
  ai_written : written_bytes (t_xfer s) = 0;
  ai_pump : z = true -> s_expected_output (t_pump s) = total /\ s_emitted_output (t_pump s) = 0;
  ai_stream : z = true -> zpart (t_env s) = od_zlib_stream_reset total;
}.

Lemma wp_arm_image ctx total z s (Q : od_xfer_start_cause -> tstate E -> Prop) :
  tinv s -> (forall s', armed_image total z s' -> Q OD_XFER_START_OK s') ->
  (forall cause s', cause <> OD_XFER_START_OK -> Q cause s') ->
  wp (od_xfer_pipe_arm_full ctx total z) Q s.
Proof.
  intros (_ & _ & Hi & _) HT HF. unfold od_xfer_pipe_arm_full. do 2 wp_step. destruct ctx as [c|]; [|by wp_step; apply HF].
  wp_step; [by wp_step; apply HF|]. wp_step; [by wp_step; apply HF|]. do 3 wp_step. wp_step.
  destruct a as [pi|]; [|by wp_step; apply HF].
  wp_step; [by wp_step; apply HF|]. wp_step; [by wp_step; apply HF|]. wp_step; [by wp_step; apply HF|].
  do 4 wp_step. apply negb_false_iff, Z.eqb_eq in Hb3. apply negb_false_iff, bool_decide_eq_true in Hb.
  set (s1 := set_xfer _ _).
  assert (Hs1 : forall p e, (z = true -> s_expected_output p = total /\ s_emitted_output p = 0 /\
                                         zpart e = od_zlib_stream_reset total) ->
    armed_image total z (set_pump p (put_env e s1))).
  { intros p e' Hz. unfold s1. split; tsimpl; try done; [rewrite Hb3; by eapply panel_total_fits|by rewrite (Hi Hb)|intros Hzt; by destruct (Hz Hzt) as (? & ? & ?)..]. }
  wp_step. destruct z.
  - unfold od_xfer_stream_reset. do 2 wp_step. apply HT, Hs1. intros _. split; [done|]. split; [done|]. apply zpart_reset.
  - do 2 wp_step. apply HT. specialize (Hs1 (t_pump s1) (t_env s1) ltac:(done)). by destruct Hs1.
Qed.
End Arm.

(** The image of the bytes sent: what the reference decoder reads from them, or
    the front of them. *)
Definition image_on_panel `{ZlibConfig} (z : bool) (sent img : bytes) : Prop :=
  if z then zlib OPENDISPLAY_ZLIB_WINDOW_SIZE sent = Some img else img = take (length img) sent.

Section Streaming.
Context {E : Type} `{Radio E} `{Crypto E} `{SessionApp E} `{CommandApp E}
  `{InflaterProgress E} `{XferAppLaws E} `{PipeConfig} `{Image} `{!ZlibConfig} `{!ZlibTarget E}.
Implicit Types (s : tstate E).

(** The transfer in the middle of its stream: [ins] taken from the sender, [fed]
    given to the inflater, [n] bytes on the panel. *)
Record drawing (ins fed : bytes) (n : Z) s : Prop := {
  dr_mode : mode (t_xfer s) = OD_XFER_PIPE_FULL;
  dr_compressed : compressed (t_xfer s) = true;
  dr_expected : expected_bytes (t_xfer s) = image_size;
  dr_written : written_bytes (t_xfer s) = n;
  dr_held : len (panel_data (t_trace s)) = n;
  dr_inputs : inputs (t_trace s) = ins;
  dr_linked : linked (panel_data (t_trace s)) fed (zpart (t_env s));
}.

Lemma panel_data_append trace data off n :
  off = len (panel_data trace) -> n = len data -> panel_data (EvWrite off data n :: trace) = panel_data trace ++ data.
Proof.
  intros -> ->. cbn [panel_data]. rewrite !Nat2Z.id, !firstn_all, drop_ge by lia. by rewrite app_nil_r.
Qed.

(** The stream is done. *)
Definition stream_done s : Prop := stage (ctl (zpart (t_env s))) = ST_DONE.

Lemma sink_draws ins fed n s e' new z' :
  drawing ins fed n s -> 0 <= n <= image_size -> linked (panel_data (t_trace s) ++ new) fed z' -> zpart e' = z' ->
  let s1 := put_env e' s in
  let s2 := if len new =? 0 then s1 else (stream_sink new s1).2 in
  len new = 0 \/ n + len new <= image_size /\ (stream_sink new s1).1 = true ->
  drawing ins fed (n + len new) s2 /\ zpart (t_env s2) = z'.
Proof.
  intros [Hm Hz He Hw Hh Hi Hl] Hn Hl' Hz'. cbn zeta. pose proof image_fits as Hf. unfold fits in Hf.
  destruct (Z.eqb_spec (len new) 0) as [Hnew|Hnew].
  { intros _. destruct new; [|done]. rewrite app_nil_r in Hl'. cbn [length]. rewrite Z.add_0_r.
    split; [|done]. constructor; try done. change (linked (panel_data (t_trace s)) fed (zpart e')). by rewrite Hz'. }
  intros [|[Hle Hok]]; [done|]. revert Hok. unfold stream_sink. change (t_xfer (put_env e' s)) with (t_xfer s).
  rewrite He, Hw, app_write_eq. change (t_env (put_env e' s)) with e'.
  pose proof (zpart_write e' n new) as Hzw. destruct (od_xfer_app_write e' n new) as [k e2]. cbn [snd] in Hzw.
  destruct (_ || _); [done|]. destruct (_ || _); [done|]. destruct (Z.eqb_spec k (len new)) as [->|]; [|done]. intros _. cbn [negb fst snd].
  split; [|by rewrite <- Hz'].
  assert (Hd : panel_data (EvWrite n new (len new) :: t_trace s) = panel_data (t_trace s) ++ new)
    by (apply panel_data_append; done).
  constructor; tsimpl; cbn [with_written mode compressed expected_bytes written_bytes]; try done.
  - apply wrap_id. unfold fits. lia.
  - rewrite Hd, length_app. lia.
  - rewrite Hd. change (linked (panel_data (t_trace s) ++ new) fed (zpart e2)). by rewrite Hzw, Hz'.
Qed.

Lemma stream_sink_exact ins fed cap : exact_client stream_sink cap image_size (drawing ins fed) stream_done.
Proof.
  intros n s Hd Hn. cbn [od_inflate_app_poll lift_inflater].
  destruct (linked_poll _ _ _ cap (dr_linked _ _ _ _ Hd)) as (st & new & z' & Hp & Hl & Hdone).
  destruct (zpart_poll _ _ _ _ _ Hp) as (e' & -> & He'). intros Htaken.
  destruct (sink_draws ins fed n s e' new z' Hd Hn Hl He' Htaken) as [Hd' Hz]. split; [done|]. intros Hst.
  unfold stream_done. rewrite Hz. by apply Hdone.
Qed.

(** The pump's counters are the transfer's. *)
Definition pump_on (n : Z) (p : pump) : Prop :=
  s_expected_output p = image_size /\ s_emitted_output p = n /\ 0 <= n <= image_size.

(** The input spans of the PIPE stream: a chunk, or none with END. *)
Definition span_of (b : bytes) (input : od_span) : Prop := input = of_bytes b \/ input = od_span_none /\ b = [].

Lemma span_of_valid b input : span_of b input -> od_span_valid input = true.
Proof. by intros [-> | [-> _]]. Qed.

Lemma push_draws ins fed n b input final s :
  span_of b input -> bytes_ok b -> drawing ins fed n s ->
  drawing ins (fed ++ b) n (od_inflate_app_push s input final).2.
Proof.
  intros Hs Hb [Hm Hz He Hw Hh Hi Hl]. cbn [od_inflate_app_push lift_inflater].
  pose proof (zpart_push (t_env s) input final) as Hp. destruct (od_inflate_app_push (t_env s) input final) as [st e]. cbn [snd] in *.
  constructor; try done. change (linked (panel_data (t_trace s)) (fed ++ b) (zpart e)). rewrite Hp.
  pose proof (linked_push _ _ _ b final Hl Hb) as Hl'. by destruct Hs as [-> | [-> ->]].
Qed.

Lemma wp_push_draws ins fed n b input final s (Q : od_xfer_stream_result -> tstate E -> Prop) :
  span_of b input -> bytes_ok b -> pump_on n (t_pump s) -> drawing ins fed n s ->
  (forall n' s', drawing ins (fed ++ b) n' s' -> pump_on n' (t_pump s') -> (final = true -> stream_done s') ->
     Q OD_XFER_STREAM_OK s') ->
  (forall r s', r <> OD_XFER_STREAM_OK -> Q r s') ->
  wp (od_xfer_stream_push input final) Q s.
Proof.
  intros Hs Hb (He & Hm & Hn) Hd HT HF. unfold od_xfer_stream_push. wp_step. wp_step. wp_step; [by wp_step; apply HF|].
  wp_step. wp_step. wp_step. unfold wp at 1. unfold run_pump. set (s1 := set_sink_failed false s).
  destruct (od_xfer_app_inflate_scratch (t_env s)) as [p cap] eqn:Esc. cbn [fst snd] in *.
  pose proof (scratch_size (t_env s)) as Hcap. rewrite Esc in Hcap. cbn [snd] in Hcap.
  apply orb_false_iff in Hb0 as [Hv Hcap0]. apply Z.eqb_neq in Hcap0. apply orb_false_iff in Hv as [_ Hv].
  apply negb_false_iff in Hv. unfold od_mut_span_valid in Hv. destruct (Z.eqb_spec cap 0); [done|]. rewrite orb_false_r in Hv. subst p.
  assert (Hd1 : drawing ins fed n s1) by by destruct Hd.
  destruct (pump_push_exact stream_sink cap image_size (drawing ins (fed ++ b)) stream_done (t_pump s1) s1 input final)
    as ([[st p] s2] & Hpush & Hpost); try done.
  - lia.
  - apply stream_sink_exact.
  - by apply (span_of_valid b).
  - unfold pump_ok. change (t_pump s1) with (t_pump s). rewrite He, Hm. split; [lia|]. split; [apply image_fits|lia].
  - change (t_pump s1) with (t_pump s). rewrite Hm. by apply push_draws.
  - rewrite Hpush. destruct Hpost as ((Hle & _ & H0') & Hpe & Hst). do 2 wp_step.
    assert (Hset : forall n', drawing ins (fed ++ b) n' s2 -> drawing ins (fed ++ b) n' (set_pump p s2)) by by intros n' [].
    assert (Hon : pump_on (s_emitted_output p) p) by (split; [done|]; split; [done|lia]).
    destruct st.
    + wp_step. destruct final; [by apply HF|]. cbn [negb orb].
      apply (HT (s_emitted_output p)); [by apply Hset|exact Hon|done].
    + wp_step. rewrite bool_decide_eq_true_2, orb_true_r by done. destruct Hst as [Hst Hdone].
      apply (HT (s_emitted_output p)); [by apply Hset|exact Hon|by intros _].
    + wp_step. apply HF. by destruct (t_sink_failed _).
Qed.

(** The same without compression: the panel holds the front of what was taken. *)
Record raw_drawing (ins : bytes) s : Prop := {
  rw_mode : mode (t_xfer s) = OD_XFER_PIPE_FULL;
  rw_compressed : compressed (t_xfer s) = false;
  rw_expected : expected_bytes (t_xfer s) = image_size;
  rw_written : written_bytes (t_xfer s) = len (panel_data (t_trace s));
  rw_held : panel_data (t_trace s) = take (Z.to_nat image_size) ins;
  rw_inputs : inputs (t_trace s) = ins;
}.

Definition going (z : bool) (ins : bytes) s : Prop :=
  if z then exists n, pump_on n (t_pump s) /\ drawing ins ins n s else raw_drawing ins s.

(** The panel, begun. *)
Lemma wp_activate_draws z s (Q : bool -> tstate E -> Prop) :
  armed_image image_size z s ->
  (forall s', going z [] s' -> Q true s') -> (forall s', Q false s') ->
  wp od_xfer_pipe_activate Q s.
Proof.
  intros [_ Hm Hz He Ht Hw Hp Hs] HT HF. unfold od_xfer_pipe_activate. do 2 wp_step. rewrite Hm.
  wp_step. apply wp_bind, wp_gets, wp_bind, wp_hook. intros ok e Ebegin.
  pose proof (zpart_begin_full (t_env s) (geometry (t_xfer s))) as Hzb. rewrite Ebegin in Hzb. cbn [snd] in Hzb.
  do 4 wp_step. destruct ok; cbn [negb].
  - do 2 wp_step. apply HT. destruct z.
    + destruct (Hp eq_refl) as [Hpe Hpm]. exists 0. split; [split; [done|]; split; [done|]; pose proof image_fits as Hf; unfold fits in Hf; lia|].
      constructor; tsimpl; try done. change (linked [] [] (zpart e)). rewrite Hzb, (Hs eq_refl). apply linked_reset.
    + constructor; tsimpl; try done. cbn [panel_data]. by rewrite take_nil.
  - eapply wp_mono; [|by intros [] s' _; wp_step; apply HF].
    instantiate (1 := fun _ _ => True). unfold od_xfer_pipe_enter_fatal, abort_hardware, app_abort. wp_go; done.
Qed.

Lemma take_app_front (n : Z) (l k : bytes) :
  0 <= n -> take (Z.to_nat n) (l ++ k) = take (Z.to_nat n) l ++ take (Z.to_nat (n - len (take (Z.to_nat n) l))) k.
Proof.
  intros Hn. rewrite take_app, length_take. do 2 f_equal. lia.
Qed.

(** A raw payload. *)
Lemma raw_consume_draws ins b s (Q : od_xfer_stream_result -> tstate E -> Prop) :
  0 < len b <= UINT32_MAX -> raw_drawing ins s ->
  (forall s', raw_drawing (ins ++ b) s' -> Q OD_XFER_STREAM_OK s') ->
  (forall r s', r <> OD_XFER_STREAM_OK -> Q r s') ->
  forall s1 r, t_xfer s1 = with_received (t_xfer s) r -> t_trace s1 = EvInput b :: t_trace s ->
  wp (pipe_consume_raw (of_bytes b)) Q s1.
Proof.
  intros Hb [Hm Hz He Hw Hh Hi] HT HF s1 r Hx Ht. unfold pipe_consume_raw. do 2 wp_step. rewrite Hx.
  cbn [with_received expected_bytes written_bytes mode]. rewrite He, Hw, Hm. pose proof image_fits as Hf. unfold fits, UINT32_MAX in *.
  set (held := len (panel_data (t_trace s))). assert (Hle : 0 <= held <= image_size) by (unfold held; rewrite Hh, length_take; lia).
  destruct (Z.ltb_spec image_size held); [lia|]. rewrite (wrap_id 32 (_ - _)) by (unfold fits; lia). cbn [andb].
  rewrite bool_decide_eq_false_2 by done. cbn [andb]. set (n := if _ <? _ then _ else _).
  assert (Hn : n = Z.min (len b) (image_size - held)).
  { unfold n. cbn [sn of_bytes od_span_make]. destruct (Z.ltb_spec (len b) (image_size - held)); lia. }
  assert (Htake : od_span_take (of_bytes b) n = od_span_make (Some b) n).
  { unfold od_span_take. cbn [od_span_valid of_bytes od_span_make sp sn is_null negb orb]. f_equal. destruct (Z.ltb_spec n (len b)); lia. }
  rewrite Htake. cbn [sn od_span_make].
  assert (Hend : forall s2, t_xfer s2 = with_written (t_xfer s1) (held + n) ->
    panel_data (t_trace s2) = panel_data (t_trace s) ++ take (Z.to_nat n) b -> inputs (t_trace s2) = ins ++ b ->
    raw_drawing (ins ++ b) s2).
  { intros s2 Hx2 Hp2 Hi2. constructor; rewrite ?Hx2, ?Hx, ?Hi2; try done.
    - cbn [with_written written_bytes]. rewrite Hp2, length_app, length_take. fold held. lia.
    - rewrite Hp2, take_app_front, <- Hh by lia. f_equal. fold held. rewrite Hn.
      destruct (Z.min_spec (len b) (image_size - held)) as [[? ->]|[? ->]]; [|done]. rewrite !take_ge; (done || lia). }
  destruct (Z.eqb_spec n 0) as [Hz0|Hz0].
  - wp_step. apply HT, Hend.
    + rewrite Hz0, Z.add_0_r, Hx. unfold held. rewrite <- Hw. by destruct (t_xfer s).
    + rewrite Ht, Hz0. cbn [panel_data take]. by rewrite app_nil_r.
    + rewrite Ht. cbn [inputs]. by rewrite Hi.
  - wp_step. apply wp_write. intros k e. rewrite (wrap_id 32 n) by (unfold fits; lia).
    change (contents (od_span_make (Some b) n)) with (take (Z.to_nat n) b).
    destruct (Z.eqb_spec k n) as [->|Hne]; cbn [negb]; [|by wp_step; apply HF].
    do 3 wp_step. apply HT, Hend; tsimpl.
    + rewrite wrap_id; rewrite Hx; cbn [with_received written_bytes]; rewrite Hw; [done|unfold fits; fold held; lia].
    + rewrite Ht. rewrite panel_data_append; cbn [panel_data]; [done|done|rewrite length_take; lia].
    + cbn [inputs]. rewrite Ht. cbn [inputs]. by rewrite Hi.
Qed.

(** A chunk, and all of them. *)
Lemma wp_consume_going z ins b s (Q : od_xfer_stream_result -> tstate E -> Prop) :
  bytes_ok b -> going z ins s ->
  (forall s', going z (ins ++ b) s' -> Q OD_XFER_STREAM_OK s') -> (forall r s', r <> OD_XFER_STREAM_OK -> Q r s') ->
  wp (od_xfer_pipe_consume (of_bytes b)) Q s.
Proof.
  intros Hb Hg HT HF. unfold od_xfer_pipe_consume.
  do 2 wp_step. wp_step; [by wp_step; apply HF|]. wp_step; [by wp_step; apply HF|].
  apply orb_false_iff in Hb0 as [Hb0 _]. apply orb_false_iff in Hb0 as [Hb0 Hmax]. apply orb_false_iff in Hb0 as [_ Hn0].
  unfold od_xfer_log_chunk. rewrite Hn0. cbn [negb od_span_valid of_bytes od_span_make sp is_null orb]. do 5 wp_step.
  rewrite contents_of_bytes. cbn [sn od_span_make of_bytes] in *. apply Z.eqb_neq in Hn0. apply Z.ltb_ge in Hmax.
  destruct z; cbn [going] in *.
  - destruct Hg as (n & Hp & [Hm Hz He Hw Hh Hi Hl]). rewrite Hz.
    apply (wp_push_draws (ins ++ b) ins n b); [by left|done|done| |intros n' s' Hd Hp' _; apply HT; by exists n'|done].
    constructor; tsimpl; try done. cbn [inputs]. by rewrite Hi.
  - rewrite (rw_compressed _ _ Hg). eapply raw_consume_draws; [lia|exact Hg|done|done|done|done].
Qed.

Lemma wp_consume_all z ins ps s (Q : bool -> tstate E -> Prop) :
  Forall bytes_ok ps -> going z ins s ->
  (forall s', going z (ins ++ concat ps) s' -> Q true s') -> (forall s', Q false s') ->
  wp (consume_all ps) Q s.
Proof.
  intros Hps. revert ins s. induction Hps as [|b ps Hb Hps IH]; intros ins s Hg HT HF; cbn [consume_all].
  { wp_step. apply HT. cbn [concat]. by rewrite app_nil_r. }
  destruct (Z.eqb_spec (len b) 0) as [Hb0|Hb0]; [destruct b; [by apply (IH ins)|done]|].
  wp_step. apply (wp_consume_going z ins b); [done..| |].
  - intros s' Hg'. eapply IH; [exact Hg'| |done]. intros s2. rewrite <- app_assoc. apply HT.
  - intros r s' Hr. destruct r; [done|wp_step; apply HF..].
Qed.

(** END. *)
Lemma wp_finish_going z ins s (Q : bool -> tstate E -> Prop) :
  going z ins s ->
  (forall s', image_on_panel z ins (panel_data (t_trace s')) ->
     inputs (t_trace s') = ins -> written_bytes (t_xfer s') = image_size -> expected_bytes (t_xfer s') = image_size ->
     mode (t_xfer s') = OD_XFER_PIPE_FULL -> len (panel_data (t_trace s')) = image_size -> Q true s') ->
  (forall s', Q false s') ->
  wp finish Q s.
Proof.
  intros Hg HT HF. unfold finish, od_xfer_pipe_finalize. do 3 wp_step. destruct z; cbn [going] in Hg.
  - destruct Hg as (n & Hp & Hd). rewrite (dr_mode _ _ _ _ Hd), (dr_compressed _ _ _ _ Hd). cbn [is_pipe negb].
    wp_step; [|do 3 wp_step; apply HF].
    apply (wp_push_draws ins ins n []); [by right|constructor|done|done| |intros r s' Hr; do 2 wp_step; destruct r; (done || apply HF)].
    intros n' s' Hd' _ Hdone. rewrite app_nil_r in Hd'.
    destruct (linked_image _ _ _ (dr_linked _ _ _ _ Hd') (Hdone eq_refl)) as [Hzl Hlen].
    destruct Hd' as [Hm _ He Hw Hh Hi _]. do 2 wp_step. cbn [andb]. unfold od_xfer_pipe_complete. rewrite Hm, Hw, He.
    replace (n' =? image_size) with true by (symmetry; apply Z.eqb_eq; congruence). cbn [is_pipe andb].
    apply HT; congruence || done.
  - destruct Hg as [Hm Hz He Hw Hh Hi]. rewrite Hm, Hz. cbn [is_pipe negb]. do 3 wp_step. cbn [andb]. unfold od_xfer_pipe_complete.
    rewrite Hm. cbn [is_pipe andb]. destruct (Z.eqb_spec (written_bytes (t_xfer s)) (expected_bytes (t_xfer s))) as [Hc|]; [|apply HF].
    assert (Hl : len (panel_data (t_trace s)) = image_size) by congruence.
    apply HT; try done; [|congruence]. cbn [image_on_panel]. rewrite Hh at 1. f_equal. lia.
Qed.
End Streaming.

(** ** Whole uploads *)

Section Image.
Context {E : Type} `{Radio E} `{Crypto E} `{SessionApp E} `{CommandApp E}
  `{InflaterProgress E} `{XferAppLaws E} `{PipeConfig} `{!ZlibConfig} `{!ZlibTarget E}.
Implicit Types (s : tstate E).

(** What a good upload leaves. *)
Definition image_shown (total : Z) (z : bool) (sent : bytes) s : Prop :=
  image_on_panel z sent (panel_data (t_trace s)) /\ len (panel_data (t_trace s)) = total /\
  inputs (t_trace s) = sent /\ mode (t_xfer s) = OD_XFER_PIPE_FULL /\
  expected_bytes (t_xfer s) = total /\ written_bytes (t_xfer s) = total.

Lemma wp_stream_image total z ps s (Q : bool -> tstate E -> Prop) :
  armed_image total z s -> Forall bytes_ok ps ->
  (forall s', image_shown total z (concat ps) s' -> Q true s') -> (forall s', Q false s') ->
  wp (stream_all ps) Q s.
Proof.
  intros Ha Hps HT HF. set (I := {| image_size := total; image_fits := ai_fits _ _ _ Ha |} : Image).
  unfold stream_all. wp_step. apply (wp_activate_draws z s); [exact Ha| |intros s'; apply (wp_ret false), HF].
  intros s1 Hg. cbn [negb]. wp_step.
  apply (wp_consume_all z [] ps s1); [done..| |intros s'; apply (wp_ret false), HF].
  intros s2 Hg2. cbn [negb app] in *. apply (wp_finish_going z (concat ps) s2); [exact Hg2| |exact HF].
  intros s3 Hi Hin Hw He Hm Hl. apply HT. by split_and!.
Qed.

(** C7. The image a sender sent is the image on the panel: from any state between
    commands, a PIPE upload of a whole image (START, its DATA payloads however
    cut, END) returns, and when every step succeeds the panel's memory holds an
    image of exactly the size START announced, which is, for a compressed
    upload, what the reference zlib decoder reads from the concatenation of the
    payloads and, for a raw one, the front of that concatenation; nothing else
    was taken from the sender, and every announced byte is accounted as written. *)
Theorem upload_shows_image (ctx : option od_cmd_ctx) (total : Z) (z : bool) (ps : list bytes) (s : tstate E) :
  tinv s -> Forall bytes_ok ps ->
  exists ok s', upload ctx total z ps s = Some (ok, s') /\ (ok = true -> image_shown total z (concat ps) s').
Proof.
  intros Ht Hps.
  assert (Hw : wp (upload ctx total z ps) (fun ok s' => ok = true -> image_shown total z (concat ps) s') s).
  { unfold upload. wp_step. apply (wp_arm_image ctx total z s); [exact Ht| |intros cause s' Hc; destruct cause; done].
    intros s1 Ha. apply (wp_stream_image total z ps s1); [exact Ha|exact Hps|done|done]. }
  unfold wp in Hw. destruct (upload ctx total z ps s) as [[ok s']|]; [|done]. by exists ok, s'.
Qed.
End Image.

(** ** A panel of 24 by 7, and the demo stream in two payloads *)

#[local] Existing Instances demo_config TransferSession.toy_pipe_config.

Definition small_geometry : od_color_geometry := (od_color_direct_geometry OD_COLOR_SCHEME_MONO 24 7).2.

#[local] Instance small_panel : XferApp (inflate * unit) := {
  OD_CAP_PARTIAL := false;
  OD_XFER_DIRECT_AUTO_END := false;
  od_xfer_app_prepare_start e := e;
  od_xfer_app_panel_info e :=
    (Some {| pi_geometry := small_geometry; pi_width := 24; pi_height := 7; partial_enabled := false |}, e);
  od_xfer_app_begin_full e _ := (true, e);
  od_xfer_app_begin_partial e _ _ _ _ _ := (true, e);
  od_xfer_app_write e _ data := (len data, e);
  od_xfer_app_inflate_scratch _ := (true, 8);
  od_xfer_app_abort e _ := e;
  od_xfer_app_before_refresh w _ := (OD_XFER_BARRIER_PROCEED, w);
  od_xfer_app_barrier_abort e _ := e;
  od_xfer_app_refresh e _ := (true, true, e);
  od_xfer_app_displayed_etag _ := 0;
  od_xfer_app_set_displayed_etag e _ := e;
  od_xfer_app_now_ms e := (1000, e);
}.

#[local] Instance small_panel_laws : XferAppLaws (inflate * unit).
Proof.
  split.
  - intros e pi e' [= <- _]. vm_compute. split; congruence.
  - intros e. vm_compute. congruence.
Qed.

#[local] Instance small_target : ZlibTarget (inflate * unit).
Proof.
  refine {| zpart := fst |}; try done.
  - intros [z u] i f. cbn [od_inflate_app_push zlib_inflater fst snd]. by destruct (od_zlib_stream_push _ _ _ _).
  - intros [z u] cap st new z' Hp. cbn [fst] in Hp. cbn [od_inflate_app_poll zlib_inflater fst snd]. rewrite Hp. by exists (z', u).
Defined.

Definition small_start : tstate (inflate * unit) :=
  TransferSession.power_on {| w_env := (od_zlib_stream_reset 0, tt); w_txq := txq_init; w_session := demo_session |} TransferSession.toy_token.

Lemma upload_shows_image_witness :
  exists s', upload (Some TransferSession.toy_ctx) 21 true [take 5 demo_stream; drop 5 demo_stream] small_start = Some (true, s') /\
    panel_data (t_trace s') = demo_text.
Proof.
  destruct (upload_shows_image (Some TransferSession.toy_ctx) 21 true [take 5 demo_stream; drop 5 demo_stream] small_start)
    as (ok & s' & Hu & Hi).
  - apply TransferSession.power_on_tinv.
  - repeat constructor; done.
  - pose proof (f_equal (option_map fst) Hu) as Hv. cbn [option_map fst] in Hv.
    assert (Hok : ok = true) by (vm_compute in Hv; injection Hv as Hv; exact (eq_sym Hv)). subst ok.
    exists s'. split; [exact Hu|]. destruct (Hi eq_refl) as (Hz & _).
    assert (Hd : zlib OPENDISPLAY_ZLIB_WINDOW_SIZE (concat [take 5 demo_stream; drop 5 demo_stream]) = Some demo_text)
      by (vm_compute; reflexivity).
    cbn [image_on_panel] in Hz. rewrite Hd in Hz. injection Hz as Hz. exact (eq_sym Hz).
Defined.

End TransferImage.
