(* ===== verification/LinkOwner.v ===== *)
(** The connection arbiter of the ESP32 target, [targets/esp32-idf/src/link_owner.h]
    and [link_owner.cpp]: one 32-bit word names the link that owns the device, and
    an activity clock says how long that owner has been silent.  Here its
    functions run alone; [LinkRace] interleaves them. *)

From S2P Require Import Prelude.

Module LinkOwner.

(** [enum LinkOwnerKind], held in a [uint8_t]. *)
Definition OWNER_NONE : Z := 0.
Definition OWNER_BLE : Z := 1.
Definition OWNER_LAN : Z := 2.
Definition OWNER_TERMINAL : Z := 3.

Definition OD_LINK_WORD_TERMINAL : Z := 0xC0000000.

(** [struct LinkId]. *)
Record LinkId := { who : Z; handle : Z; epoch : Z }.

Definition id_ok (id : LinkId) : Prop := fits 8 (who id) /\ fits 16 (handle id) /\ fits 16 (epoch id).

(** ** The word *)

Definition linkPackWord (who handle epoch : Z) : Z :=
  Z.lor (Z.lor (u32 (Z.shiftl (Z.land who 0x3) 30)) (u32 (Z.shiftl (Z.land handle 0x3FFF) 16))) epoch.

Definition linkUnpackWord (w : Z) : LinkId :=
  {| who := u8 (Z.land (Z.shiftr w 30) 0x3);
     handle := u16 (Z.land (Z.shiftr w 16) 0x3FFF);
     epoch := u16 (Z.land w 0xFFFF) |}.

Definition linkIdWord (id : LinkId) : Z := linkPackWord (who id) (handle id) (epoch id).

(** ** The statics *)

Record link := { s_ownerWord : Z; s_epochCounter : Z; s_baselineMs : Z; s_baselineOwner : Z }.

Definition link_boot : link :=
  {| s_ownerWord := 0; s_epochCounter := 0; s_baselineMs := 0; s_baselineOwner := 0 |}.

Definition set_owner (w : Z) (l : link) : link :=
  {| s_ownerWord := w; s_epochCounter := s_epochCounter l; s_baselineMs := s_baselineMs l;
     s_baselineOwner := s_baselineOwner l |}.
Definition set_epoch (e : Z) (l : link) : link :=
  {| s_ownerWord := s_ownerWord l; s_epochCounter := e; s_baselineMs := s_baselineMs l;
     s_baselineOwner := s_baselineOwner l |}.
Definition set_baseline (t : Z) (l : link) : link :=
  {| s_ownerWord := s_ownerWord l; s_epochCounter := s_epochCounter l; s_baselineMs := t;
     s_baselineOwner := s_baselineOwner l |}.
Definition set_tag (w : Z) (l : link) : link :=
  {| s_ownerWord := s_ownerWord l; s_epochCounter := s_epochCounter l; s_baselineMs := s_baselineMs l;
     s_baselineOwner := w |}.

(** [od_hal_uptime_ms]. *)
Class Uptime (E : Type) := { od_hal_uptime_ms : E -> Z * E }.

(** ** The operations *)

(** One turn of the allocator. *)
Definition next_epoch (l : link) : Z * link :=
  let e := u16 (s_epochCounter l + 1) in (e, set_epoch e l).

(** The [do]-[while] of [linkNextEpoch]; [None] when the fuel runs out. *)
Fixpoint draw (fuel : nat) (l : link) : option (Z * link) :=
  match fuel with
  | O => None
  | S fuel => let '(e, l) := next_epoch l in if e =? 0 then draw fuel l else Some (e, l)
  end.

Definition linkNextEpoch (l : link) : option (Z * link) := draw 2 l.

(** [__atomic_compare_exchange_n] on the owner word. *)
Definition cas_owner (expected desired : Z) (l : link) : bool * link :=
  if s_ownerWord l =? expected then (true, set_owner desired l) else (false, l).

Definition may_claim (id : LinkId) : bool := (who id =? OWNER_BLE) || (who id =? OWNER_LAN).
Definition may_release (id : LinkId) : bool := negb ((who id =? OWNER_NONE) || (who id =? OWNER_TERMINAL)).

Definition linkRelease (id : LinkId) (l : link) : link :=
  if negb (may_release id) then l else (cas_owner (linkIdWord id) 0 l).2.

Definition linkMarkTerminal (l : link) : LinkId * link :=
  (linkUnpackWord (s_ownerWord l), set_owner OD_LINK_WORD_TERMINAL l).

Definition linkOwnerWord (l : link) : Z := s_ownerWord l.
Definition linkOwnerId (l : link) : LinkId := linkUnpackWord (linkOwnerWord l).
Definition linkIsOwner (id : LinkId) (l : link) : bool :=
  if who id =? OWNER_NONE then false else linkIdWord id =? linkOwnerWord l.
Definition linkIsOwnerWord (w : Z) (l : link) : bool := negb (w =? 0) && (w =? linkOwnerWord l).

Section Clock.
Context {E : Type} `{Uptime E}.

Definition linkClaim (id : LinkId) (l : link) (e : E) : bool * link * E :=
  if negb (may_claim id) then (false, l, e)
  else
    let '(won, l) := cas_owner 0 (linkIdWord id) l in
    if won then
      let '(now, e) := od_hal_uptime_ms e in
      (true, set_tag (linkIdWord id) (set_baseline now l), e)
    else (false, l, e).

Definition linkMsSinceOwnerCommand (l : link) (e : E) : Z * E :=
  let owner := linkOwnerWord l in
  if negb (may_claim (linkUnpackWord owner)) then (0, e)
  else if negb (s_baselineOwner l =? owner) then (0, e)
  else
    let base := s_baselineMs l in
    if negb (linkOwnerWord l =? owner) then (0, e)
    else let '(now, e) := od_hal_uptime_ms e in (u32 (now - base), e).

(** [linkStampRefreshEnd] has the same body. *)
Definition linkStampOwnerCommand (l : link) (e : E) : link * E :=
  let '(now, e) := od_hal_uptime_ms e in
  let l := set_baseline now l in (set_tag (linkOwnerWord l) l, e).

Definition linkStampRefreshEnd (l : link) (e : E) : link * E :=
  let '(now, e) := od_hal_uptime_ms e in
  let l := set_baseline now l in (set_tag (linkOwnerWord l) l, e).
End Clock.

(** ** The word names one link *)

Lemma pack_sum w h e :
  fits 16 e -> linkPackWord w h e = (w mod 4) * 2 ^ 30 + (h mod 2 ^ 14) * 2 ^ 16 + e.
Proof.
  intros He. unfold linkPackWord. change 0x3 with (Z.ones 2). change 0x3FFF with (Z.ones 14).
  rewrite !Z.land_ones by lia. change (2 ^ 2) with 4.
  pose proof (Z.mod_pos_bound w 4 ltac:(lia)). pose proof (Z.mod_pos_bound h (2 ^ 14) ltac:(lia)).
  assert (Hh : fits 30 (Z.shiftl (h mod 2 ^ 14) 16)) by (rewrite Z.shiftl_mul_pow2 by lia; unfold fits; lia).
  rewrite !(wrap_id 32) by (rewrite Z.shiftl_mul_pow2 by lia; unfold fits; lia).
  rewrite lor_shiftl_add by (done || lia).
  replace (Z.shiftl (w mod 4) 30 + Z.shiftl (h mod 2 ^ 14) 16) with (Z.shiftl ((w mod 4) * 2 ^ 14 + h mod 2 ^ 14) 16)
    by (rewrite !Z.shiftl_mul_pow2 by lia; lia).
  rewrite lor_shiftl_add by (done || lia). rewrite Z.shiftl_mul_pow2 by lia. lia.
Qed.

Lemma unpack_pack w h e :
  fits 16 e -> linkUnpackWord (linkPackWord w h e) = {| who := w mod 4; handle := h mod 2 ^ 14; epoch := e |}.
Proof.
  intros He. rewrite pack_sum by done. unfold linkUnpackWord, fits in *.
  pose proof (Z.mod_pos_bound w 4 ltac:(lia)). pose proof (Z.mod_pos_bound h (2 ^ 14) ltac:(lia)).
  change 0x3 with (Z.ones 2). change 0x3FFF with (Z.ones 14). change 0xFFFF with (Z.ones 16).
  rewrite !Z.land_ones, !Z.shiftr_div_pow2 by lia. set (x := w mod 4) in *. set (y := h mod 2 ^ 14) in *.
  replace ((x * 2 ^ 30 + y * 2 ^ 16 + e) / 2 ^ 30) with x by (apply (Z.div_unique_pos _ _ _ (y * 2 ^ 16 + e)); lia).
  replace ((x * 2 ^ 30 + y * 2 ^ 16 + e) / 2 ^ 16) with (x * 2 ^ 14 + y) by (apply (Z.div_unique_pos _ _ _ e); lia).
  replace ((x * 2 ^ 30 + y * 2 ^ 16 + e) mod 2 ^ 16) with e by (apply (Z.mod_unique_pos _ _ (x * 2 ^ 14 + y)); lia).
  replace ((x * 2 ^ 14 + y) mod 2 ^ 14) with y by (apply (Z.mod_unique_pos _ _ x); lia).
  rewrite (Z.mod_small x) by lia. rewrite !wrap_id by (unfold fits; lia). done.
Qed.

(** A link the arbiter can admit. *)
Definition client (id : LinkId) : Prop :=
  may_claim id = true /\ 0 <= handle id < 2 ^ 14 /\ fits 16 (epoch id).

Lemma unpack_client id : client id -> linkUnpackWord (linkIdWord id) = id.
Proof.
  intros (Hw & Hh & He). unfold linkIdWord. rewrite unpack_pack by done. destruct id as [w h e]. cbn [who handle epoch may_claim] in *.
  rewrite (Z.mod_small h) by lia. f_equal. unfold may_claim, OWNER_BLE, OWNER_LAN in Hw. cbn [who] in Hw.
  apply orb_true_iff in Hw as [Hw|Hw]; apply Z.eqb_eq in Hw; by subst w.
Qed.

(** The word of an admissible link is its own: it is not the free word, not the
    terminal one, and no other link's. *)
Lemma client_word id id' :
  client id -> linkIdWord id <> 0 /\ linkIdWord id <> OD_LINK_WORD_TERMINAL /\
  (client id' -> linkIdWord id = linkIdWord id' -> id = id').
Proof.
  intros Hc. pose proof (unpack_client id Hc) as Hu. destruct Hc as (Hw & _). split_and!.
  - intros H0. rewrite H0 in Hu. rewrite <- Hu in Hw. discriminate.
  - intros H0. rewrite H0 in Hu. rewrite <- Hu in Hw. discriminate.
  - intros Hc' Heq. rewrite <- Hu, Heq. by apply unpack_client.
Qed.

(** ** Epochs *)

(** Two turns are enough: zero is not drawn twice in a row. *)
Lemma linkNextEpoch_total l :
  fits 16 (s_epochCounter l) ->
  let e := if s_epochCounter l =? 65535 then 1 else s_epochCounter l + 1 in
  linkNextEpoch l = Some (e, set_epoch e l) /\ fits 16 e /\ e <> 0.
Proof.
  intros He. unfold fits in He. change (2 ^ 16) with 65536 in He. unfold linkNextEpoch. cbn [draw next_epoch].
  destruct (Z.eqb_spec (s_epochCounter l) 65535) as [Hw|Hw].
  - rewrite Hw. split; [done|]. unfold fits. lia.
  - rewrite (wrap_id 16) by (unfold fits; lia). destruct (Z.eqb_spec (s_epochCounter l + 1) 0); [lia|].
    split; [done|]. unfold fits. lia.
Qed.

End LinkOwner.
