(* ===== verification/LinkRace.v ===== *)
(** The arbiter of [LinkOwner] under its two tasks: the Bluetooth stack's host task,
    which connects and disconnects ([targets/esp32-idf/src/ble_transport_esp32.cpp]),
    and the loop task, which accepts LAN clients, releases, stamps, reads the
    activity clock and refuses contenders ([wifi_service.cpp], [session_guard.cpp],
    [main.cpp]).  One step is one access to shared memory; the steps of the two tasks
    interleave freely. *)

From S2P Require Import Prelude LinkOwner.
Import LinkOwner.

Module LinkRace.

(** [BleInstance]: one entry of [s_instances]. *)
Record BleInstance := { word : Z; subscribed : Z; decidedWord : Z }.

Definition instance_zero : BleInstance := {| word := 0; subscribed := 0; decidedWord := 0 |}.

Definition put_word (w : Z) (x : BleInstance) : BleInstance :=
  {| word := w; subscribed := subscribed x; decidedWord := decidedWord x |}.
Definition put_subscribed (b : Z) (x : BleInstance) : BleInstance :=
  {| word := word x; subscribed := b; decidedWord := decidedWord x |}.
Definition put_decided (w : Z) (x : BleInstance) : BleInstance :=
  {| word := word x; subscribed := subscribed x; decidedWord := w |}.

(** [instanceIndexOf]; only the host task writes the words it compares. *)
Fixpoint instanceIndexOf (table : list BleInstance) (h : Z) : option nat :=
  match table with
  | [] => None
  | x :: table =>
      if negb (word x =? 0) && (handle (linkUnpackWord (word x)) =? h) then Some O
      else S <$> instanceIndexOf table h
  end.

(** ** Where each task stands *)

(** After a won compare-and-swap: to read the clock, to store it (a clock value is
    kept as the time it was read at; what is stored is its low 32 bits), to publish
    the tag. *)
Inductive claiming := Cl_clock | Cl_store (t : Z) | Cl_tag.

(** [od_ble_evt_connect] ([linkNextEpoch], [instancePublish], [linkClaim], the decided
    word) and [od_ble_evt_disconnect] ([instanceRetire]). *)
Inductive host_pc :=
| H_idle
| H_epoch (h : Z)
| H_publish (h w : Z) (i : nat)
| H_subscribed (h w : Z) (i : nat)
| H_undecided (h w : Z) (i : nat)
| H_cas (h w : Z)
| H_claim (h w : Z) (c : claiming)
| H_decide (h w : Z)
| H_retire_subscribed (i : nat)
| H_retire_decided (i : nat)
| H_retire_word (i : nat).

(** The LAN accept, the stamps, [linkMsSinceOwnerCommand], and
    [serviceContenderRefusal]. *)
Inductive loop_pc :=
| L_idle
| L_epoch
| L_cas (w : Z)
| L_claim (w : Z) (c : claiming)
| L_stamp_clock
| L_stamp_store (t : Z)
| L_stamp_load (t : Z)
| L_stamp_tag (w : Z)
| L_read_tag (w : Z)
| L_read_base (w : Z)
| L_read_check (w base : Z)
| L_read_clock (w base : Z)
| L_scan (i : nat)
| L_scan_decided (i : nat) (w : Z)
| L_scan_owner (i : nat) (w : Z).

(** What happened to the owner word. *)
Inductive link_event := Ev_claim (w : Z) | Ev_release (w : Z) | Ev_terminal.

#[export] Instance link_event_eq_dec : EqDecision link_event.
Proof. solve_decision. Defined.

(** One answer of the activity clock: for whom, what, when, and since when the
    owner's silence may be counted. *)
Record reading := { rd_owner : Z; rd_ms : Z; rd_now : Z; rd_origin : Z }.

(** The ghosts: when the stored baseline was read, since when the owner may be called
    silent, the history of the word, the words whose claim was decided, the answers
    given, and the links asked to leave. *)
Record ghost := {
  g_base : Z; g_origin : Z; g_hist : list link_event; g_tried : list Z;
  g_reads : list reading; g_refused : list Z;
}.

Record sys := {
  mem : link; table : list BleInstance; host : host_pc; loop : loop_pc; now : Z; gh : ghost;
}.

Definition boot (n : nat) : sys :=
  {| mem := link_boot; table := replicate n instance_zero; host := H_idle; loop := L_idle; now := 0;
     gh := {| g_base := 0; g_origin := 0; g_hist := []; g_tried := []; g_reads := []; g_refused := [] |} |}.

Definition set_mem (m : link) (s : sys) : sys :=
  {| mem := m; table := table s; host := host s; loop := loop s; now := now s; gh := gh s |}.
Definition set_table (i : nat) (f : BleInstance -> BleInstance) (s : sys) : sys :=
  {| mem := mem s; table := alter f i (table s); host := host s; loop := loop s; now := now s; gh := gh s |}.
Definition set_host (p : host_pc) (s : sys) : sys :=
  {| mem := mem s; table := table s; host := p; loop := loop s; now := now s; gh := gh s |}.
Definition set_loop (p : loop_pc) (s : sys) : sys :=
  {| mem := mem s; table := table s; host := host s; loop := p; now := now s; gh := gh s |}.
Definition set_now (t : Z) (s : sys) : sys :=
  {| mem := mem s; table := table s; host := host s; loop := loop s; now := t; gh := gh s |}.
Definition set_ghost (g : ghost) (s : sys) : sys :=
  {| mem := mem s; table := table s; host := host s; loop := loop s; now := now s; gh := g |}.

Definition owner (s : sys) : Z := s_ownerWord (mem s).

Definition log_event (ev : link_event) (s : sys) : sys :=
  let g := gh s in
  set_ghost {| g_base := g_base g; g_origin := g_origin g; g_hist := ev :: g_hist g; g_tried := g_tried g;
               g_reads := g_reads g; g_refused := g_refused g |} s.
Definition log_tried (w : Z) (s : sys) : sys :=
  let g := gh s in
  set_ghost {| g_base := g_base g; g_origin := g_origin g; g_hist := g_hist g; g_tried := w :: g_tried g;
               g_reads := g_reads g; g_refused := g_refused g |} s.
Definition log_origin (t : Z) (s : sys) : sys :=
  let g := gh s in
  set_ghost {| g_base := g_base g; g_origin := t; g_hist := g_hist g; g_tried := g_tried g;
               g_reads := g_reads g; g_refused := g_refused g |} s.
Definition log_read (w ms : Z) (s : sys) : sys :=
  let g := gh s in
  set_ghost {| g_base := g_base g; g_origin := g_origin g; g_hist := g_hist g; g_tried := g_tried g;
               g_reads := {| rd_owner := w; rd_ms := ms; rd_now := now s; rd_origin := g_origin g |} :: g_reads g;
               g_refused := g_refused g |} s.
Definition log_refused (w : Z) (s : sys) : sys :=
  let g := gh s in
  set_ghost {| g_base := g_base g; g_origin := g_origin g; g_hist := g_hist g; g_tried := g_tried g;
               g_reads := g_reads g; g_refused := w :: g_refused g |} s.

(** ** Single accesses *)

(** [__atomic_store_n(&s_baselineMs, ...)] of a clock read at [t]. *)
Definition store_baseline (t : Z) (s : sys) : sys :=
  let g := gh s in
  set_ghost {| g_base := t; g_origin := g_origin g; g_hist := g_hist g; g_tried := g_tried g;
               g_reads := g_reads g; g_refused := g_refused g |} (set_mem (set_baseline (u32 t) (mem s)) s).

Definition store_tag (w : Z) (s : sys) : sys := set_mem (set_tag w (mem s)) s.

(** A stamp that has read the clock and not yet the owner. *)
Definition stamp_since (p : loop_pc) : option Z :=
  match p with L_stamp_store t | L_stamp_load t => Some t | _ => None end.

(** The compare-and-swap of [linkClaim].  The winner's silence counts from now, or
    from the clock a stamp in progress has read. *)
Definition try_claim (w : Z) (s : sys) : bool * sys :=
  let '(won, m) := cas_owner 0 w (mem s) in
  let s := log_tried w (set_mem m s) in
  if won then (true, log_event (Ev_claim w) (log_origin (default (now s) (stamp_since (loop s))) s)) else (false, s).

(** One more access of a won claim: where it stands, [None] when it is done. *)
Definition claim_step (w : Z) (c : claiming) (s : sys) : option claiming * sys :=
  match c with
  | Cl_clock => (Some (Cl_store (now s)), s)
  | Cl_store t => (Some Cl_tag, store_baseline t s)
  | Cl_tag => (None, store_tag w s)
  end.

(** ** The host task *)

Definition host_step (s : sys) : sys :=
  match host s with
  | H_idle => s
  | H_epoch h =>
      let '(e, m) := next_epoch (mem s) in
      let s := set_mem m s in
      if e =? 0 then s else set_host (H_publish h (linkPackWord OWNER_BLE h e) 0) s
  | H_publish h w i =>
      match table s !! i with
      | Some x =>
          if word x =? 0 then set_host (H_subscribed h w i) (set_table i (put_word w) s)
          else set_host (H_publish h w (S i)) s
      | None => set_host (H_decide h 0) s
      end
  | H_subscribed h w i => set_host (H_undecided h w i) (set_table i (put_subscribed 0) s)
  | H_undecided h w i => set_host (H_cas h w) (set_table i (put_decided 0) s)
  | H_cas h w =>
      let '(won, s) := try_claim w s in
      set_host (if won then H_claim h w Cl_clock else H_decide h w) s
  | H_claim h w c =>
      let '(c, s) := claim_step w c s in
      set_host (match c with Some c => H_claim h w c | None => H_decide h w end) s
  | H_decide h w =>
      match instanceIndexOf (table s) h with
      | Some i => set_host H_idle (set_table i (put_decided w) s)
      | None => set_host H_idle s
      end
  | H_retire_subscribed i => set_host (H_retire_decided i) (set_table i (put_subscribed 0) s)
  | H_retire_decided i => set_host (H_retire_word i) (set_table i (put_decided 0) s)
  | H_retire_word i => set_host H_idle (set_table i (put_word 0) s)
  end.

(** ** The loop task *)

Definition loop_step (s : sys) : sys :=
  match loop s with
  | L_idle => s
  | L_epoch =>
      let '(e, m) := next_epoch (mem s) in
      let s := set_mem m s in
      if e =? 0 then s else set_loop (L_cas (linkPackWord OWNER_LAN 0 e)) s
  | L_cas w =>
      let '(won, s) := try_claim w s in
      set_loop (if won then L_claim w Cl_clock else L_idle) s
  | L_claim w c =>
      let '(c, s) := claim_step w c s in
      set_loop (match c with Some c => L_claim w c | None => L_idle end) s
  | L_stamp_clock => set_loop (L_stamp_store (now s)) s
  | L_stamp_store t => set_loop (L_stamp_load t) (store_baseline t s)
  | L_stamp_load t => set_loop (L_stamp_tag (owner s)) s
  | L_stamp_tag w => set_loop L_idle (store_tag w s)
  | L_read_tag w =>
      if s_baselineOwner (mem s) =? w then set_loop (L_read_base w) s else set_loop L_idle (log_read w 0 s)
  | L_read_base w => set_loop (L_read_check w (s_baselineMs (mem s))) s
  | L_read_check w b =>
      if owner s =? w then set_loop (L_read_clock w b) s else set_loop L_idle (log_read w 0 s)
  | L_read_clock w b => set_loop L_idle (log_read w (u32 (u32 (now s) - b)) s)
  | L_scan i =>
      match table s !! i with
      | Some x => if word x =? 0 then set_loop (L_scan (S i)) s else set_loop (L_scan_decided i (word x)) s
      | None => set_loop L_idle s
      end
  | L_scan_decided i w =>
      match table s !! i with
      | Some x => if decidedWord x =? w then set_loop (L_scan_owner i w) s else set_loop (L_scan (S i)) s
      | None => set_loop L_idle s
      end
  | L_scan_owner i w =>
      if w =? owner s then set_loop (L_scan (S i)) s else set_loop (L_scan (S i)) (log_refused w s)
  end.

(** ** Runs *)

(** Time passes; the stack reports a connection or a disconnection; the loop task
    starts an operation ([linkRelease] and [linkMarkTerminal] are one access each). *)
Inductive action :=
| Tick (d : Z) | Connect (h : Z) | Disconnect (h : Z) | HostStep
| Accept | Release (id : LinkId) | Terminal | Stamp | Read | Scan | LoopStep.

Definition host_start (f : sys -> sys) (s : sys) : sys := match host s with H_idle => f s | _ => s end.
Definition loop_start (f : sys -> sys) (s : sys) : sys := match loop s with L_idle => f s | _ => s end.

(** The argument of a release is an enumerator and two 16-bit fields. *)
Definition release_arg (id : LinkId) : bool :=
  (0 <=? who id) && (who id <=? OWNER_TERMINAL) && (0 <=? epoch id) && (epoch id <=? 0xFFFF).

Definition release (id : LinkId) (s : sys) : sys :=
  let s' := set_mem (linkRelease id (mem s)) s in
  if owner s' =? owner s then s' else log_event (Ev_release (linkIdWord id)) s'.

Definition exec (a : action) (s : sys) : sys :=
  match a with
  | Tick d => set_now (now s + Z.max 0 d) s
  | Connect h => if (0 <=? h) && (h <? 2 ^ 14) then host_start (set_host (H_epoch h)) s else s
  | Disconnect h =>
      host_start (fun s => match instanceIndexOf (table s) h with
                           | Some i => set_host (H_retire_subscribed i) s | None => s end) s
  | HostStep => host_step s
  | Accept => loop_start (fun s => if who (linkOwnerId (mem s)) =? OWNER_NONE then set_loop L_epoch s else s) s
  | Release id => if release_arg id then loop_start (release id) s else s
  | Terminal => loop_start (fun s => log_event Ev_terminal (set_mem (linkMarkTerminal (mem s)).2 s)) s
  | Stamp => loop_start (set_loop L_stamp_clock) s
  | Read =>
      loop_start (fun s => if may_claim (linkUnpackWord (owner s)) then set_loop (L_read_tag (owner s)) s
                           else log_read (owner s) 0 s) s
  | Scan => loop_start (set_loop (L_scan 0)) s
  | LoopStep => loop_step s
  end.

Definition run (acts : list action) (s : sys) : sys := fold_left (fun s a => exec a s) acts s.

Lemma run_app a b s : run (a ++ b) s = run b (run a s).
Proof. apply fold_left_app. Qed.

(** A run keeps what every action keeps. *)
Lemma run_ind (P : list action -> sys -> Prop) acts s0 :
  P [] s0 -> (forall past a s, P past s -> P (past ++ [a]) (exec a s)) -> P acts (run acts s0).
Proof.
  intros H0 Hs. induction acts as [|a acts IH] using rev_ind; [done|]. rewrite run_app. cbn. by apply Hs.
Qed.

(** ** The word is a lock *)

(** A word that names a client. *)
Definition held (w : Z) : bool := may_claim (linkUnpackWord w).

Lemma held_not w : held w = true -> w <> 0 /\ w <> OD_LINK_WORD_TERMINAL.
Proof. intros Hw. split; intros ->; discriminate. Qed.

Lemma pack_held k h e : k = OWNER_BLE \/ k = OWNER_LAN -> fits 16 e -> held (linkPackWord k h e) = true.
Proof. intros Hk He. unfold held. rewrite unpack_pack by done. by destruct Hk as [-> | ->]. Qed.

(** The holder after a history, newest event first; [None] when it is not a lock's. *)
Fixpoint lock_of (hist : list link_event) : option Z :=
  match hist with
  | [] => Some 0
  | Ev_claim w :: r => o ← lock_of r; if (o =? 0) && held w then Some w else None
  | Ev_release w :: r => o ← lock_of r; if (o =? w) && held w then Some 0 else None
  | Ev_terminal :: r => _ ← lock_of r; Some OD_LINK_WORD_TERMINAL
  end.

(** The word a task is about to claim. *)
Definition host_claims (p : host_pc) : option Z :=
  match p with
  | H_publish _ w _ | H_subscribed _ w _ | H_undecided _ w _ | H_cas _ w => Some w
  | _ => None
  end.
Definition loop_claims (p : loop_pc) : option Z := match p with L_cas w => Some w | _ => None end.

Record lock_inv (s : sys) : Prop := {
  li_lock : lock_of (g_hist (gh s)) = Some (owner s);
  li_host : forall w, host_claims (host s) = Some w -> held w = true;
  li_loop : forall w, loop_claims (loop s) = Some w -> held w = true;
}.

Lemma next_epoch_fits l : fits 16 (next_epoch l).1.
Proof. apply (wrap_fits 16). lia. Qed.

(** A claim's compare-and-swap. *)
Lemma try_claim_lock w s :
  lock_of (g_hist (gh s)) = Some (owner s) -> held w = true ->
  lock_of (g_hist (gh (try_claim w s).2)) = Some (owner (try_claim w s).2).
Proof.
  intros Hl Hw. unfold try_claim, cas_owner. fold (owner s). destruct (Z.eqb_spec (owner s) 0) as [H0|]; [|exact Hl].
  cbn [snd log_event log_origin log_tried set_ghost set_mem gh g_hist lock_of mbind option_bind].
  rewrite Hl, H0. cbn [mbind option_bind Z.eqb andb]. by rewrite Hw.
Qed.

Lemma try_claim_frame w s :
  host (try_claim w s).2 = host s /\ loop (try_claim w s).2 = loop s /\ table (try_claim w s).2 = table s.
Proof. unfold try_claim. by destruct (cas_owner _ _ _) as [[] ?]. Qed.

Lemma claim_step_frame w c s :
  let s' := (claim_step w c s).2 in
  host s' = host s /\ loop s' = loop s /\ table s' = table s /\ owner s' = owner s /\ g_hist (gh s') = g_hist (gh s).
Proof. by destruct c. Qed.

Lemma release_word id :
  release_arg id = true -> may_release id = true -> held (linkIdWord id) = true.
Proof.
  unfold release_arg, may_release, OWNER_NONE, OWNER_TERMINAL. rewrite !andb_true_iff, negb_true_iff, orb_false_iff, !Z.leb_le, !Z.eqb_neq.
  intros (((Hw0 & Hw3) & He0) & He) [Hn Ht]. unfold linkIdWord. apply pack_held; [unfold OWNER_BLE, OWNER_LAN; lia|].
  unfold fits. change (2 ^ 16) with 65536. lia.
Qed.

Lemma release_cases id s :
  release_arg id = true ->
  release id s = s \/
  (owner s = linkIdWord id /\ held (linkIdWord id) = true /\
   release id s = log_event (Ev_release (linkIdWord id)) (set_mem (set_owner 0 (mem s)) s)).
Proof.
  intros Ha. unfold release, linkRelease, cas_owner, owner. destruct (may_release id) eqn:Hm; cbn [negb].
  2: { left. cbn [mem set_mem]. rewrite Z.eqb_refl. by destruct s. }
  pose proof (release_word id Ha Hm) as Hw. destruct (held_not _ Hw) as [H0 _].
  destruct (Z.eqb_spec (s_ownerWord (mem s)) (linkIdWord id)) as [He|He]; cbn [snd mem set_mem].
  - right. split; [done|]. split; [done|]. cbn [set_owner s_ownerWord]. destruct (Z.eqb_spec 0 (s_ownerWord (mem s))); [congruence|done].
  - left. rewrite Z.eqb_refl. by destruct s.
Qed.

Lemma host_step_lock s : lock_inv s -> lock_inv (host_step s).
Proof.
  intros [Hl Hh Hp]. unfold host_step. destruct (host s) eqn:Eh; cbn [host_claims] in Hh.
  - by split; rewrite ?Eh.
  - pose proof (next_epoch_fits (mem s)) as Hf. unfold next_epoch in *. cbn [fst] in Hf. destruct (_ =? 0); split; try done.
    + cbn [host set_mem]. by rewrite Eh.
    + intros w [= <-]. apply pack_held; [by left|done].
  - destruct (table s !! i) as [x|]; [destruct (word x =? 0)|]; split; done.
  - by split.
  - by split.
  - pose proof (try_claim_lock w s Hl (Hh w eq_refl)) as Hl'. destruct (try_claim_frame w s) as (_ & Hlp & _).
    destruct (try_claim w s) as [[] s']; split; try done; cbn [snd set_host loop] in *; by rewrite Hlp.
  - destruct (claim_step_frame w c s) as (_ & Hlp & _ & Ho & Hg). destruct (claim_step w c s) as [[c'|] s'];
      cbn [snd] in *; (split; [by rewrite <- Ho, <- Hg in Hl|done|cbn [set_host loop]; by rewrite Hlp]).
  - destruct (instanceIndexOf _ _); by split.
  - by split.
  - by split.
  - by split.
Qed.

Lemma loop_step_lock s : lock_inv s -> lock_inv (loop_step s).
Proof.
  intros [Hl Hh Hp]. unfold loop_step. destruct (loop s) eqn:Ep; cbn [loop_claims] in Hp.
  - by split; rewrite ?Ep.
  - pose proof (next_epoch_fits (mem s)) as Hf. unfold next_epoch in *. cbn [fst] in Hf. destruct (_ =? 0); split; try done.
    + cbn [loop set_mem]. by rewrite Ep.
    + intros w [= <-]. apply pack_held; [by right|done].
  - pose proof (try_claim_lock w s Hl (Hp w eq_refl)) as Hl'. destruct (try_claim_frame w s) as (Hho & _ & _).
    destruct (try_claim w s) as [[] s']; split; try done; cbn [snd set_loop host] in *; by rewrite Hho.
  - destruct (claim_step_frame w c s) as (Hho & _ & _ & Ho & Hg). destruct (claim_step w c s) as [[c'|] s'];
      cbn [snd] in *; (split; [by rewrite <- Ho, <- Hg in Hl|cbn [set_loop host]; by rewrite Hho|done]).
  - by split.
  - by split.
  - by split.
  - by split.
  - destruct (_ =? _); by split.
  - by split.
  - destruct (_ =? _); by split.
  - by split.
  - destruct (table s !! i) as [x|]; [destruct (word x =? 0)|]; by split.
  - destruct (table s !! i) as [x|]; [destruct (decidedWord x =? w)|]; by split.
  - destruct (_ =? _); by split.
Qed.

Lemma exec_lock a s : lock_inv s -> lock_inv (exec a s).
Proof.
  intros Hi. pose proof Hi as [Hl Hh Hp]. destruct a; cbn [exec]; unfold host_start, loop_start.
  - by split.
  - destruct (_ && _); [|done]. destruct (host s); done || by split.
  - destruct (host s); try done. destruct (instanceIndexOf _ _); [by split|done].
  - by apply host_step_lock.
  - destruct (loop s); try done. destruct (_ =? _); [by split|done].
  - destruct (release_arg id) eqn:Ha; [|done]. destruct (loop s) eqn:Ep; try done.
    destruct (release_cases id s Ha) as [-> | (Ho & Hw & ->)]; [done|]. split; [|done|cbn [loop log_event set_ghost set_mem]; by rewrite Ep].
    cbn [gh log_event set_ghost g_hist lock_of set_mem]. rewrite Hl. cbn [mbind option_bind]. by rewrite Ho, Z.eqb_refl, Hw.
  - destruct (loop s) eqn:Ep; try done. split; [|done|cbn [loop log_event set_ghost set_mem]; by rewrite Ep].
    cbn [gh log_event set_ghost g_hist lock_of set_mem]. by rewrite Hl.
  - destruct (loop s); done || by split.
  - destruct (loop s) eqn:Ep; try done. destruct (may_claim _); (split; [done|done|cbn; by rewrite ?Ep]).
  - destruct (loop s); done || by split.
  - by apply loop_step_lock.
Qed.

Lemma run_lock acts n : lock_inv (run acts (boot n)).
Proof. apply (run_ind (fun _ => lock_inv)); [by split|]. intros past a s. apply exec_lock. Qed.

(** What a lock's history says. *)
Lemma terminal_last hist o : lock_of hist = Some o -> Ev_terminal ∈ hist -> o = OD_LINK_WORD_TERMINAL.
Proof.
  revert o. induction hist as [|ev hist IH]; intros o; [by intros _ ?%elem_of_nil|].
  destruct ev; cbn [lock_of]; destruct (lock_of hist) as [o'|]; cbn [mbind option_bind]; try done;
    rewrite elem_of_cons; intros Hl [?|Hin]; try done; try (specialize (IH _ eq_refl Hin); subst o').
  - done.
  - destruct (Z.eqb_spec OD_LINK_WORD_TERMINAL w) as [<-|]; [|done]. done.
  - by injection Hl.
  - by injection Hl.
Qed.

(** While a client holds the word, only its release or the terminal gate ends it. *)
Lemma lock_suffix newer hist o : lock_of (newer ++ hist) = Some o -> exists o', lock_of hist = Some o'.
Proof.
  revert o. induction newer as [|ev newer IH]; intros o; [by eexists|]. cbn [app]. destruct ev; cbn [lock_of];
    destruct (lock_of (newer ++ hist)) as [o'|] eqn:E; cbn [mbind option_bind]; try done; intros _; by eapply IH.
Qed.

Lemma lock_held mid w r o :
  held w = true -> lock_of (mid ++ Ev_claim w :: r) = Some o -> Ev_release w ∉ mid -> o = w \/ o = OD_LINK_WORD_TERMINAL.
Proof.
  intros Hw. destruct (held_not _ Hw) as [Hw0 Hwt]. revert o. induction mid as [|ev mid IH]; intros o; cbn [app].
  - cbn [lock_of]. destruct (lock_of r) as [o'|]; cbn [mbind option_bind]; [|done]. destruct (_ && _); [|done]. intros [= <-] _. by left.
  - destruct ev; cbn [lock_of]; destruct (lock_of (mid ++ Ev_claim w :: r)) as [o'|]; cbn [mbind option_bind]; try done;
      rewrite not_elem_of_cons; intros Hl [Hne Hni]; destruct (IH _ eq_refl Hni) as [-> | ->].
    + by destruct (Z.eqb_spec w 0).
    + done.
    + destruct (Z.eqb_spec w w0) as [->|]; [done|done].
    + destruct (Z.eqb_spec OD_LINK_WORD_TERMINAL w0) as [<-|]; done.
    + injection Hl. by right.
    + injection Hl. by right.
Qed.

(** C26. One link owns the device at a time: however the host task's and the loop
    task's accesses interleave, the owner word is the holder of a lock with the history
    of the claims that won, the releases that took effect and the terminal marks; a
    claim wins only when nothing holds it, so between two winning claims the first
    winner was released, by its full identity; and once the terminal gate is shut the
    word stays terminal. *)
Theorem link_owner_lock (n : nat) (acts : list action) :
  let s := run acts (boot n) in
  lock_of (g_hist (gh s)) = Some (owner s) /\
  (forall newer w2 mid w1 older, g_hist (gh s) = newer ++ Ev_claim w2 :: mid ++ Ev_claim w1 :: older -> Ev_release w1 ∈ mid) /\
  (Ev_terminal ∈ g_hist (gh s) -> owner s = OD_LINK_WORD_TERMINAL).
Proof.
  cbv zeta. pose proof (run_lock acts n) as [Hl _ _]. split; [done|]. split; [|by apply terminal_last].
  intros newer w2 mid w1 older He. rewrite He in Hl. apply lock_suffix in Hl as [o Hl]. cbn [lock_of] in Hl.
  destruct (decide (Ev_release w1 ∈ mid)) as [|Hni]; [done|]. exfalso.
  destruct (lock_of (mid ++ Ev_claim w1 :: older)) as [o'|] eqn:El; cbn [mbind option_bind] in Hl; [|done].
  destruct (Z.eqb_spec o' 0) as [->|]; [|done].
  assert (Hw1 : held w1 = true).
  { destruct (lock_suffix mid (Ev_claim w1 :: older) _ El) as [o1 H1]. cbn [lock_of] in H1.
    destruct (lock_of older); cbn [mbind option_bind] in H1; [|done]. by destruct (_ =? _), (held w1). }
  destruct (lock_held mid w1 older 0 Hw1 El Hni) as [H0|]; [|done]. by destruct (held_not _ Hw1).
Qed.

End LinkRace.
