(* ===== verification/LinkProofs.v ===== *)
(** What the interleaved arbiter of [LinkRace] guarantees its clients: a contender that
    is asked to leave never owns the device, and an owner's silence is never
    overstated. *)

From S2P Require Import Prelude LinkOwner LinkRace.
Import LinkOwner LinkRace.

Module LinkProofs.

(** ** Identities

    Epochs are drawn from a 16-bit counter; for the first 65535 connections no
    identity is used twice. *)

Definition cost (a : action) : Z := match a with Connect _ | Accept => 1 | _ => 0 end.

Fixpoint connects (acts : list action) : Z :=
  match acts with [] => 0 | a :: acts => cost a + connects acts end.

Lemma connects_nonneg acts : 0 <= connects acts.
Proof. induction acts as [|[] acts IH]; cbn [connects cost]; lia. Qed.

Lemma connects_app a b : connects (a ++ b) = connects a + connects b.
Proof. induction a as [|x a IH]; cbn [connects app]; lia. Qed.

Definition kind_of (w : Z) : Z := who (linkUnpackWord w).
Definition epoch_of (w : Z) : Z := epoch (linkUnpackWord w).

(** A word drawn and not yet claimed. *)
Definition pending (k ctr : Z) (tried : list Z) (w : Z) : Prop :=
  kind_of w = k /\ held w = true /\ epoch_of w <= ctr /\ w ∉ tried.

Definition known (tried : list Z) (w : Z) : Prop := w = 0 \/ w = OD_LINK_WORD_TERMINAL \/ w ∈ tried.

Definition host_ids (ctr : Z) (tried : list Z) (p : host_pc) : Prop :=
  match p with
  | H_publish _ w _ | H_subscribed _ w _ | H_undecided _ w _ | H_cas _ w => pending OWNER_BLE ctr tried w
  | H_claim _ w _ => w ∈ tried
  | H_decide _ w => w = 0 \/ w ∈ tried
  | _ => True
  end.

Definition loop_ids (ctr : Z) (tried : list Z) (p : loop_pc) : Prop :=
  match p with
  | L_cas w => pending OWNER_LAN ctr tried w
  | L_claim w _ => w ∈ tried
  | L_stamp_tag w => known tried w
  | L_scan_decided _ w => w <> 0
  | L_scan_owner _ w => w ∈ tried
  | _ => True
  end.

Definition host_draws (p : host_pc) : Z := match p with H_epoch _ => 1 | _ => 0 end.
Definition loop_draws (p : loop_pc) : Z := match p with L_epoch => 1 | _ => 0 end.

Definition decided_ids (tried : list Z) (x : BleInstance) : Prop := decidedWord x = 0 \/ decidedWord x ∈ tried.

(** [k] connections were started. *)
Record ids (k : Z) (s : sys) : Prop := {
  id_count : 0 <= s_epochCounter (mem s) /\ s_epochCounter (mem s) + host_draws (host s) + loop_draws (loop s) <= k;
  id_tried : Forall (fun w => held w = true /\ epoch_of w <= s_epochCounter (mem s)) (g_tried (gh s));
  id_owner : known (g_tried (gh s)) (owner s);
  id_tag : known (g_tried (gh s)) (s_baselineOwner (mem s));
  id_host : host_ids (s_epochCounter (mem s)) (g_tried (gh s)) (host s);
  id_loop : loop_ids (s_epochCounter (mem s)) (g_tried (gh s)) (loop s);
  id_table : Forall (decided_ids (g_tried (gh s))) (table s);
  id_refused : Forall (fun w => w ∈ g_tried (gh s) /\ owner s <> w) (g_refused (gh s));
}.

Lemma boot_ids n : ids 0 (boot n).
Proof.
  split; try done; try (by left); try constructor; cbn; try lia. apply Forall_replicate. by left.
Qed.

Lemma known_cons w tried x : known tried x -> known (w :: tried) x.
Proof. unfold known. rewrite elem_of_cons. tauto. Qed.

Lemma kind_pack k h e : k = OWNER_BLE \/ k = OWNER_LAN -> fits 16 e -> kind_of (linkPackWord k h e) = k /\ epoch_of (linkPackWord k h e) = e.
Proof. intros Hk He. unfold kind_of, epoch_of. rewrite unpack_pack by done. by destruct Hk as [-> | ->]. Qed.

(** The next epoch is new. *)
Lemma draw_pending k h ctr tried :
  k = OWNER_BLE \/ k = OWNER_LAN -> 0 <= ctr < 65535 -> Forall (fun w => held w = true /\ epoch_of w <= ctr) tried ->
  u16 (ctr + 1) = ctr + 1 /\ pending k (ctr + 1) tried (linkPackWord k h (ctr + 1)).
Proof.
  intros Hk Hc Ht. assert (He : fits 16 (ctr + 1)) by (unfold fits; lia). split; [by apply wrap_id|].
  destruct (kind_pack k h (ctr + 1) Hk He) as [Hkk Hke]. split_and!; [done|by apply pack_held|lia|].
  intros Hin. rewrite Forall_forall in Ht. apply Ht in Hin as [_ Hle]. lia.
Qed.

Lemma ctr_mono ctr ctr' tried : ctr <= ctr' ->
  (forall p, host_ids ctr tried p -> host_ids ctr' tried p) /\ (forall p, loop_ids ctr tried p -> loop_ids ctr' tried p) /\
  (Forall (fun w => held w = true /\ epoch_of w <= ctr) tried -> Forall (fun w => held w = true /\ epoch_of w <= ctr') tried).
Proof.
  intros Hle. unfold host_ids, loop_ids, pending. split_and!.
  - intros p. destruct p; intuition lia.
  - intros p. destruct p; intuition lia.
  - intros HF. eapply Forall_impl; [exact HF|]. intros w [? ?]. split; [done|lia].
Qed.

(** One task's claim leaves the other's word untried. *)
Lemma host_ids_cons ctr tried w p : kind_of w = OWNER_LAN -> host_ids ctr tried p -> host_ids ctr (w :: tried) p.
Proof.
  intros Hk. unfold host_ids, pending. destruct p; try done; rewrite ?elem_of_cons; try tauto; intros (Hb & ? & ? & ?);
    (split_and!; [done..|]); intros [->|]; try done; rewrite Hb in Hk; discriminate.
Qed.

Lemma loop_ids_cons ctr tried w p : kind_of w = OWNER_BLE -> loop_ids ctr tried p -> loop_ids ctr (w :: tried) p.
Proof.
  intros Hk. unfold loop_ids, pending. destruct p; try done; rewrite ?elem_of_cons; try tauto; try by apply known_cons.
  intros (Hb & ? & ? & ?). split_and!; [done..|]. intros [->|]; try done. rewrite Hb in Hk. discriminate.
Qed.

Lemma decided_cons w tried t : Forall (decided_ids tried) t -> Forall (decided_ids (w :: tried)) t.
Proof. intros HF. eapply Forall_impl; [exact HF|]. intros x. unfold decided_ids. rewrite elem_of_cons. tauto. Qed.

(** A compare-and-swap of a pending word. *)
Lemma try_claim_ids k w kd s :
  ids k s -> pending kd (s_epochCounter (mem s)) (g_tried (gh s)) w ->
  let s' := (try_claim w s).2 in
  s_epochCounter (mem s') = s_epochCounter (mem s) /\ g_tried (gh s') = w :: g_tried (gh s) /\
  Forall (fun w => held w = true /\ epoch_of w <= s_epochCounter (mem s')) (g_tried (gh s')) /\
  known (g_tried (gh s')) (owner s') /\ s_baselineOwner (mem s') = s_baselineOwner (mem s) /\
  Forall (fun x => x ∈ g_tried (gh s') /\ owner s' <> x) (g_refused (gh s')).
Proof.
  intros [Hc Ht Ho Hg Hh Hl Htb Hr] (Hk & Hw & He & Hn). cbv zeta. unfold try_claim, cas_owner. fold (owner s).
  assert (Hr' : forall o, o = w \/ o = owner s -> Forall (fun x => x ∈ w :: g_tried (gh s) /\ o <> x) (g_refused (gh s))).
  { intros o Hoo. eapply Forall_impl; [exact Hr|]. intros x [Hx Hne]. split; [by right|].
    destruct Hoo as [-> | ->]; [intros ->; done|done]. }
  destruct (Z.eqb_spec (owner s) 0) as [H0|H0]; (split_and!; [done|done|by constructor| |done|]).
  - right. right. by left.
  - by apply Hr'; left.
  - by apply known_cons.
  - by apply Hr'; right.
Qed.

Lemma table_ids k s i f :
  ids k s -> (forall x, decided_ids (g_tried (gh s)) x -> decided_ids (g_tried (gh s)) (f x)) ->
  Forall (decided_ids (g_tried (gh s))) (alter f i (table s)).
Proof. intros Hi Hf. apply Forall_alter; [apply Hi|]. intros x _ Hx. by apply Hf. Qed.

Lemma claim_step_ids w c s :
  let s' := (claim_step w c s).2 in
  s_epochCounter (mem s') = s_epochCounter (mem s) /\ g_tried (gh s') = g_tried (gh s) /\ owner s' = owner s /\
  g_refused (gh s') = g_refused (gh s) /\ (s_baselineOwner (mem s') = s_baselineOwner (mem s) \/ s_baselineOwner (mem s') = w).
Proof. destruct c; cbn; auto 10. Qed.

Lemma host_step_ids k s : ids k s -> k <= 65535 -> ids k (host_step s).
Proof.
  intros Hi Hk. pose proof Hi as [Hc Ht Ho Hg Hh Hl Htb Hr]. unfold host_step.
  assert (Htab : forall i f p, (forall x, decided_ids (g_tried (gh s)) x -> decided_ids (g_tried (gh s)) (f x)) ->
    host_ids (s_epochCounter (mem s)) (g_tried (gh s)) p -> host_draws p <= host_draws (host s) ->
    ids k (set_host p (set_table i f s))).
  { intros i f p Hf Hp Hd. split; try done; [cbn [mem host loop set_host set_table]; lia|].
    by apply (table_ids k s). }
  assert (Hpc : forall p, host_ids (s_epochCounter (mem s)) (g_tried (gh s)) p -> host_draws p <= host_draws (host s) ->
    ids k (set_host p s)).
  { intros p Hp Hd. split; try done. cbn [mem host loop set_host]. lia. }
  destruct (host s) eqn:Eh; cbn [host_ids host_draws] in *.
  - done.
  - unfold next_epoch. pose proof (draw_pending OWNER_BLE h (s_epochCounter (mem s)) _ (or_introl eq_refl) ltac:(destruct (loop s); cbn in Hc; lia) Ht) as [Hu Hw].
    rewrite Hu. destruct (Z.eqb_spec (s_epochCounter (mem s) + 1) 0); [lia|].
    destruct (ctr_mono (s_epochCounter (mem s)) (s_epochCounter (mem s) + 1) (g_tried (gh s)) ltac:(lia)) as (_ & Hm & Hm2).
    split; cbn [mem host loop set_host set_mem set_epoch s_epochCounter s_baselineOwner gh table host_ids host_draws]; auto. lia.
  - destruct (table s !! i) as [x|]; [destruct (word x =? 0)|].
    + by apply Htab.
    + by apply Hpc.
    + apply Hpc; [by left|done].
  - by apply Htab.
  - apply Htab; [|done|done]. by intros x _; left.
  - destruct (try_claim_ids k w OWNER_BLE s Hi Hh) as (Hc' & Htr & Ht' & Ho' & Hg' & Hr'). destruct (try_claim_frame w s) as (_ & Hlp & Htb').
    destruct (try_claim w s) as [won s']. cbn [snd] in *.
    split; cbn [mem host loop set_host gh table]; try done; rewrite ?Hc', ?Hlp, ?Htr, ?Hg', ?Htb'.
    + destruct won; cbn [host_draws]; lia.
    + by apply known_cons.
    + destruct won; cbn [host_ids]; [by left|right; by left].
    + apply loop_ids_cons; [apply Hh|done].
    + by apply decided_cons.
  - destruct (claim_step_ids w c s) as (Hc' & Htr & Ho' & Hr' & Hg'). destruct (claim_step_frame w c s) as (_ & Hlp & Htb' & _).
    destruct (claim_step w c s) as [c' s']. cbn [snd] in *.
    split; cbn [mem host loop set_host gh table]; try (change (owner (set_host _ s')) with (owner s'));
      rewrite ?Hc', ?Hlp, ?Htr, ?Htb', ?Ho', ?Hr'; try done.
    + destruct c'; cbn [host_draws]; lia.
    + destruct Hg' as [-> | ->]; [done|]. right. by right.
    + destruct c'; cbn [host_ids]; [done|by right].
  - destruct (instanceIndexOf _ _) as [i|]; [|by apply Hpc]. apply Htab; [|done|done]. by intros x _.
  - by apply Htab.
  - apply Htab; [|done|done]. by intros x _; left.
  - by apply Htab.
Qed.

Lemma loop_step_ids k s : ids k s -> k <= 65535 -> ids k (loop_step s).
Proof.
  intros Hi Hk. pose proof Hi as [Hc Ht Ho Hg Hh Hl Htb Hr]. unfold loop_step.
  assert (Hpc : forall p, loop_ids (s_epochCounter (mem s)) (g_tried (gh s)) p -> loop_draws p <= loop_draws (loop s) ->
    ids k (set_loop p s)).
  { intros p Hp Hd. split; try done. cbn [mem host loop set_loop]. lia. }
  destruct (loop s) eqn:Ep; cbn [loop_ids loop_draws] in *.
  - done.
  - unfold next_epoch. pose proof (draw_pending OWNER_LAN 0 (s_epochCounter (mem s)) _ (or_intror eq_refl) ltac:(destruct (host s); cbn in Hc; lia) Ht) as [Hu Hw].
    rewrite Hu. destruct (Z.eqb_spec (s_epochCounter (mem s) + 1) 0); [lia|].
    destruct (ctr_mono (s_epochCounter (mem s)) (s_epochCounter (mem s) + 1) (g_tried (gh s)) ltac:(lia)) as (Hm & _ & Hm2).
    split; cbn [mem host loop set_loop set_mem set_epoch s_epochCounter s_baselineOwner gh table loop_ids loop_draws]; auto. lia.
  - destruct (try_claim_ids k w OWNER_LAN s Hi Hl) as (Hc' & Htr & Ht' & Ho' & Hg' & Hr'). destruct (try_claim_frame w s) as (Hho & _ & Htb').
    destruct (try_claim w s) as [won s']. cbn [snd] in *.
    split; cbn [mem host loop set_loop gh table]; try done; rewrite ?Hc', ?Hho, ?Htr, ?Hg', ?Htb'.
    + destruct won; cbn [loop_draws]; lia.
    + by apply known_cons.
    + apply host_ids_cons; [apply Hl|done].
    + destruct won; cbn [loop_ids]; [by left|done].
    + by apply decided_cons.
  - destruct (claim_step_ids w c s) as (Hc' & Htr & Ho' & Hr' & Hg'). destruct (claim_step_frame w c s) as (Hho & _ & Htb' & _).
    destruct (claim_step w c s) as [c' s']. cbn [snd] in *.
    split; cbn [mem host loop set_loop gh table]; try (change (owner (set_loop _ s')) with (owner s'));
      rewrite ?Hc', ?Hho, ?Htr, ?Htb', ?Ho', ?Hr'; try done.
    + destruct c'; cbn [loop_draws]; lia.
    + destruct Hg' as [-> | ->]; [done|]. right. by right.
    + by destruct c'.
  - by apply Hpc.
  - split; try done; cbn; destruct (host s); cbn in *; lia.
  - by apply Hpc.
  - split; try done; cbn; destruct (host s); cbn in *; lia.
  - destruct (_ =? _); [by apply Hpc|]. split; try done; cbn; destruct (host s); cbn in *; lia.
  - by apply Hpc.
  - destruct (_ =? _); [by apply Hpc|]. split; try done; cbn; destruct (host s); cbn in *; lia.
  - split; try done; cbn; destruct (host s); cbn in *; lia.
  - destruct (table s !! i) as [x|]; [|by apply Hpc]. destruct (Z.eqb_spec (word x) 0); by apply Hpc.
  - destruct (table s !! i) as [x|] eqn:Ex; [|by apply Hpc]. destruct (Z.eqb_spec (decidedWord x) w) as [Hd|]; [|by apply Hpc].
    apply Hpc; [|done]. cbn [loop_ids]. pose proof (Forall_lookup_1 _ _ _ _ Htb Ex) as [H0|Hin]; congruence.
  - destruct (Z.eqb_spec w (owner s)); [by apply Hpc|].
    split; try done. constructor; [|done]. by split.
Qed.

Lemma ids_mono k k' s : ids k s -> k <= k' -> ids k' s.
Proof. intros [Hc Ht Ho Hg Hh Hl Htb Hr] Hk. split; try done. lia. Qed.

Lemma owner_known k s w : ids k s -> owner s = w -> held w = true -> w ∈ g_tried (gh s).
Proof. intros Hi <- Hw. destruct (held_not _ Hw). by destruct (id_owner _ _ Hi) as [|[|]]. Qed.

Lemma exec_ids k a s : ids k s -> k + cost a <= 65535 -> ids (k + cost a) (exec a s).
Proof.
  intros Hi Hk. assert (Hk' : k <= k + cost a) by (destruct a; cbn; lia).
  pose proof (ids_mono _ _ _ Hi Hk') as Hi'. pose proof Hi as [Hc Ht Ho Hg Hh Hl Htb Hr].
  destruct a; cbn [exec]; unfold host_start, loop_start.
  - by destruct Hi'.
  - destruct (_ && _); [|exact Hi']. destruct (host s) eqn:Eh; [|exact Hi'..]. split; try done. cbn [cost mem host loop set_host host_draws] in *. lia.
  - destruct (host s) eqn:Eh; [|exact Hi'..]. destruct (instanceIndexOf _ _); [|exact Hi']. split; try done.
    cbn [cost mem host loop set_host host_draws] in *. lia.
  - by apply host_step_ids.
  - destruct (loop s) eqn:Ep; [|exact Hi'..]. destruct (_ =? _); [|exact Hi']. split; try done. cbn [cost mem host loop set_loop loop_draws] in *. lia.
  - destruct (release_arg id) eqn:Ha; [|exact Hi']. destruct (loop s) eqn:Ep; [|exact Hi'..].
    destruct (release_cases id s Ha) as [-> | (Hw & Hwh & ->)]; [exact Hi'|]. split; try done.
    + cbn [cost mem host loop log_event set_ghost set_mem set_owner s_epochCounter] in *. rewrite Ep. cbn [loop_draws] in *. lia.
    + by left.
    + change (loop (log_event _ _)) with (loop s). by rewrite Ep.
    + eapply Forall_impl; [exact Hr|]. intros w [Hin _]. split; [done|]. change (0 <> w). intros <-.
      rewrite Forall_forall in Ht. by destruct (Ht 0 Hin).
  - destruct (loop s) eqn:Ep; [|exact Hi'..]. split; try done.
    + cbn [cost mem host loop log_event set_ghost set_mem linkMarkTerminal set_owner snd s_epochCounter] in *. rewrite Ep. cbn [loop_draws] in *. lia.
    + by right; left.
    + change (loop (log_event _ _)) with (loop s). by rewrite Ep.
    + eapply Forall_impl; [exact Hr|]. intros w [Hin _]. split; [done|]. change (OD_LINK_WORD_TERMINAL <> w). intros <-.
      rewrite Forall_forall in Ht. by destruct (Ht _ Hin).
  - destruct (loop s) eqn:Ep; [|exact Hi'..]. split; try done. cbn [cost mem host loop set_loop loop_draws] in *. lia.
  - destruct (loop s) eqn:Ep; [|exact Hi'..]. destruct (may_claim _); (split; try done); cbn [cost mem host loop set_loop log_read set_ghost loop_draws] in *;
      rewrite ?Ep; cbn [loop_draws]; lia || done.
  - destruct (loop s) eqn:Ep; [|exact Hi'..]. split; try done. cbn [cost mem host loop set_loop loop_draws] in *. lia.
  - by apply loop_step_ids.
Qed.

Lemma run_ids k acts s : ids k s -> k + connects acts <= 65535 -> ids (k + connects acts) (run acts s).
Proof.
  revert k s. induction acts as [|a acts IH]; intros k s Hi Hk; cbn [connects] in *; [by rewrite Z.add_0_r|].
  pose proof (connects_nonneg acts). change (run (a :: acts) s) with (run acts (exec a s)). rewrite Z.add_assoc.
  apply IH; [apply exec_ids; [done|lia]|lia].
Qed.

(** A refused link stays on record. *)
Lemma claims_refused w c s :
  g_refused (gh (try_claim w s).2) = g_refused (gh s) /\ g_refused (gh (claim_step w c s).2) = g_refused (gh s).
Proof. unfold try_claim. destruct (cas_owner _ _ _) as [[] ?], c; done. Qed.

Lemma host_step_refused s : g_refused (gh (host_step s)) = g_refused (gh s).
Proof.
  unfold host_step, next_epoch. destruct (host s) as [| | h w i | | |h w|h w c|h w| | |]; try done.
  - by destruct (_ =? 0).
  - destruct (table s !! i) as [x|]; [by destruct (word x =? 0)|done].
  - destruct (claims_refused w Cl_tag s) as [Hr _]. by destruct (try_claim w s).
  - destruct (claims_refused w c s) as [_ Hr]. by destruct (claim_step w c s) as [[] ?].
  - by destruct (instanceIndexOf _ _).
Qed.

Lemma loop_step_refused s w : w ∈ g_refused (gh s) -> w ∈ g_refused (gh (loop_step s)).
Proof.
  intros Hin. unfold loop_step, next_epoch. destruct (loop s) as [| |x|x c| | | | |x| |x b| |i|i x|i x]; try done.
  - by destruct (_ =? 0).
  - destruct (claims_refused x Cl_tag s) as [Hr _]. destruct (try_claim x s). cbn [snd] in Hr. cbn [set_loop gh]. by rewrite Hr.
  - destruct (claims_refused x c s) as [_ Hr]. destruct (claim_step x c s) as [c' s']. cbn [snd] in Hr. cbn [set_loop gh]. by rewrite Hr.
  - by destruct (_ =? _).
  - by destruct (_ =? _).
  - destruct (table s !! i) as [y|]; [by destruct (word y =? 0)|done].
  - destruct (table s !! i) as [y|]; [by destruct (decidedWord y =? x)|done].
  - destruct (_ =? _); [done|]. by right.
Qed.

Lemma exec_refused a s w : w ∈ g_refused (gh s) -> w ∈ g_refused (gh (exec a s)).
Proof.
  intros Hin. destruct a; cbn [exec]; unfold host_start, loop_start.
  - done.
  - destruct (_ && _), (host s); exact Hin.
  - destruct (host s), (instanceIndexOf (table s) h); exact Hin.
  - by rewrite host_step_refused.
  - destruct (loop s), (who (linkOwnerId (mem s)) =? OWNER_NONE); exact Hin.
  - destruct (release_arg id) eqn:Ha; [|exact Hin]. destruct (loop s); try exact Hin.
    destruct (release_cases id s Ha) as [-> | (_ & _ & ->)]; exact Hin.
  - destruct (loop s); exact Hin.
  - destruct (loop s); exact Hin.
  - destruct (loop s), (may_claim (linkUnpackWord (owner s))); exact Hin.
  - destruct (loop s); exact Hin.
  - by apply loop_step_refused.
Qed.

Lemma run_refused acts s w : w ∈ g_refused (gh s) -> w ∈ g_refused (gh (run acts s)).
Proof.
  revert s. induction acts as [|a acts IH]; intros s Hin; [done|]. change (run (a :: acts) s) with (run acts (exec a s)).
  by apply IH, exec_refused.
Qed.

(** C27. Refusing contenders never costs the owner its link: however the connect
    callback and the loop's scan interleave, over the first 65535 connections, a link
    that the scan asks to leave does not own the device, neither at that moment nor at
    any later one; so no connection that wins the slot is ever refused. *)
Theorem refused_never_owns (n : nat) (past future : list action) (w : Z) :
  connects (past ++ future) <= 65535 ->
  w ∈ g_refused (gh (run past (boot n))) ->
  owner (run past (boot n)) <> w /\ owner (run (past ++ future) (boot n)) <> w.
Proof.
  intros Hc Hin. rewrite connects_app in Hc. pose proof (connects_nonneg future).
  pose proof (run_ids 0 past (boot n) (boot_ids n) ltac:(lia)) as Hp.
  pose proof (run_ids 0 (past ++ future) (boot n) (boot_ids n) ltac:(rewrite connects_app; lia)) as Hf.
  pose proof (id_refused _ _ Hp) as Hrp. pose proof (id_refused _ _ Hf) as Hrf. rewrite Forall_forall in Hrp, Hrf.
  split; [by apply Hrp|]. apply Hrf. rewrite run_app. by apply run_refused.
Qed.

(** ** The activity clock *)

(** A release does not overtake the host task's claim of the same link: a link is
    torn down only after its connect callback has returned. *)
Definition in_order (a : action) (s : sys) : bool :=
  match a, host s with
  | Release id, H_claim _ w _ => negb (linkIdWord id =? w)
  | _, _ => true
  end.

Fixpoint orderly (acts : list action) (s : sys) : bool :=
  match acts with [] => true | a :: acts => in_order a s && orderly acts (exec a s) end.

Definition claim_clock (s : sys) (w : Z) (c : claiming) : Prop :=
  match c with
  | Cl_clock => True
  | Cl_store t => t <= now s /\ (owner s = w -> g_origin (gh s) <= t)
  | Cl_tag => owner s = w -> g_origin (gh s) <= g_base (gh s)
  end.

(** A baseline read for the owner [w]. *)
Definition base_for (s : sys) (w b : Z) : Prop :=
  owner s = w /\ held w = true /\ exists t, b = u32 t /\ g_origin (gh s) <= t <= now s.

Definition loop_clock (s : sys) (p : loop_pc) : Prop :=
  match p with
  | L_claim w c => owner s = w /\ claim_clock s w c
  | L_stamp_store t => t <= now s /\ (held (owner s) = true -> g_origin (gh s) <= t)
  | L_stamp_load t =>
      t <= now s /\ (owner s = 0 -> g_base (gh s) = t) /\ (held (owner s) = true -> g_origin (gh s) <= g_base (gh s))
  | L_stamp_tag w => held w = true -> owner s = w /\ g_origin (gh s) <= g_base (gh s)
  | L_read_tag w => owner s = w /\ held w = true
  | L_read_base w => owner s = w /\ held w = true /\ g_origin (gh s) <= g_base (gh s)
  | L_read_check w b | L_read_clock w b => base_for s w b
  | _ => True
  end.

Definition reading_ok (r : reading) : Prop :=
  rd_origin r <= rd_now r /\
  (rd_ms r = 0 \/ exists t, rd_origin r <= t <= rd_now r /\ rd_ms r = u32 (rd_now r - t)).

Record clocked (s : sys) : Prop := {
  ck_base : s_baselineMs (mem s) = u32 (g_base (gh s));
  ck_past : g_base (gh s) <= now s /\ g_origin (gh s) <= now s;
  ck_tag : held (owner s) = true -> s_baselineOwner (mem s) = owner s -> g_origin (gh s) <= g_base (gh s);
  ck_host : match host s with H_claim _ w c => (owner s = w \/ owner s = OD_LINK_WORD_TERMINAL) /\ claim_clock s w c | _ => True end;
  ck_loop : loop_clock s (loop s);
  ck_reads : Forall reading_ok (g_reads (gh s));
}.

Lemma boot_clocked n : clocked (boot n).
Proof. split; try done. Qed.

(** What the activity clock's facts speak of. *)
Definition same_clock (s s' : sys) : Prop :=
  owner s' = owner s /\ s_baselineMs (mem s') = s_baselineMs (mem s) /\
  s_baselineOwner (mem s') = s_baselineOwner (mem s) /\ now s' = now s /\
  g_base (gh s') = g_base (gh s) /\ g_origin (gh s') = g_origin (gh s) /\ g_reads (gh s') = g_reads (gh s).

Lemma same_clock_loop s s' p : same_clock s s' -> loop_clock s p -> loop_clock s' p.
Proof.
  intros (Ho & _ & _ & Hn & Hb & Hg & _). unfold loop_clock, base_for, claim_clock.
  rewrite Ho, Hn, Hb, Hg. done.
Qed.

Lemma same_clock_claim s s' w c : same_clock s s' -> claim_clock s w c -> claim_clock s' w c.
Proof. intros (Ho & _ & _ & Hn & Hb & Hg & _). unfold claim_clock. by rewrite Ho, Hn, Hb, Hg. Qed.

(** A step of the host that leaves the clock alone, and one of the loop. *)
Lemma clocked_host s s' :
  clocked s -> same_clock s s' -> loop s' = loop s ->
  match host s' with H_claim _ w c => (owner s = w \/ owner s = OD_LINK_WORD_TERMINAL) /\ claim_clock s w c | _ => True end ->
  clocked s'.
Proof.
  intros [Hb Hp Ht Hh Hl Hr] Hs Hlp Hh'. pose proof Hs as (Ho & Hbm & Htg & Hn & Hgb & Hgo & Hgr).
  split; rewrite ?Ho, ?Hbm, ?Htg, ?Hn, ?Hgb, ?Hgo, ?Hgr, ?Hlp; try done.
  - destruct (host s'); try done. destruct Hh' as [? Hc]. split; [done|]. by apply (same_clock_claim s).
  - by apply (same_clock_loop s).
Qed.

Lemma clocked_loop s s' :
  clocked s -> same_clock s s' -> host s' = host s -> loop_clock s (loop s') -> clocked s'.
Proof.
  intros [Hb Hp Ht Hh Hl Hr] Hs Hho Hl'. pose proof Hs as (Ho & Hbm & Htg & Hn & Hgb & Hgo & Hgr).
  split; rewrite ?Ho, ?Hbm, ?Htg, ?Hn, ?Hgb, ?Hgo, ?Hgr, ?Hho; try done.
  - destruct (host s); try done. destruct Hh as [? Hc]. split; [done|]. by apply (same_clock_claim s).
  - by apply (same_clock_loop s).
Qed.

Lemma tried_held k s w : ids k s -> w ∈ g_tried (gh s) -> held w = true.
Proof. intros Hi Hin. pose proof (id_tried _ _ Hi) as Ht. rewrite Forall_forall in Ht. by destruct (Ht w Hin). Qed.

(** A won compare-and-swap: no task holds the word, and no tag names it yet. *)
Lemma won_clock k w kd s p :
  ids k s -> clocked s -> pending kd (s_epochCounter (mem s)) (g_tried (gh s)) w -> owner s = 0 ->
  (p = loop s \/ p = L_claim w Cl_clock) ->
  let s' := (try_claim w s).2 in
  g_origin (gh s') <= now s' /\ s_baselineOwner (mem s') <> w /\ loop_clock s' p /\
  match host s with H_claim _ _ _ => False | _ => True end.
Proof.
  intros Hi [Hb Hp Ht Hh Hl Hr] (Hk & Hw & He & Hn) H0 Hpp. cbv zeta. destruct (held_not _ Hw) as [Hw0 Hwt].
  unfold try_claim, cas_owner. fold (owner s). rewrite H0. cbn [Z.eqb snd].
  set (s' := log_event _ _). assert (Hor : g_origin (gh s') = default (now s) (stamp_since (loop s))) by done.
  assert (Hsince : default (now s) (stamp_since (loop s)) <= now s).
  { destruct (loop s); simpl; (reflexivity || (destruct Hl as [Hl _]; exact Hl)). }
  split_and!.
  - by rewrite Hor.
  - change (s_baselineOwner (mem s) <> w). intros <-. destruct (id_tag _ _ Hi) as [?|[?|?]]; done.
  - destruct Hpp as [-> | ->]; [|done]. pose proof (id_loop _ _ Hi) as Hil.
    destruct (loop s) eqn:Ep; cbn [loop_clock loop_ids] in *; try done; rewrite ?H0 in *.
    + destruct Hl as [<- _]. apply (tried_held k s) in Hil; done.
    + rewrite Hor. simpl. change (now s') with (now s). destruct Hl. split; [done|lia].
    + rewrite Hor. simpl. change (owner s') with w. change (now s') with (now s). change (g_base (gh s')) with (g_base (gh s)).
      destruct Hl as (? & Hbt & _). split; [done|]. split; [done|]. intros _. rewrite Hbt by done. lia.
    + intros Hh'. destruct (Hl Hh') as [<- _]. done.
    + destruct Hl as [<- ?]. done.
    + destruct Hl as (<- & ? & _). done.
    + destruct Hl as (He1 & He2 & _). rewrite <- He1, H0 in He2. done.
    + destruct Hl as (He1 & He2 & _). rewrite <- He1, H0 in He2. done.
  - pose proof (id_host _ _ Hi) as Hih. destruct (host s); try done. cbn [host_ids] in Hih.
    apply (tried_held k s) in Hih; [|done]. destruct (held_not _ Hih). destruct Hh as [[?|Ht0] _]; [congruence|by rewrite H0 in Ht0].
Qed.

(** Storing a baseline read while the owner could be called silent. *)
Lemma store_clock s t p q :
  clocked s -> t <= now s -> (held (owner s) = true -> g_origin (gh s) <= t) ->
  let s' := store_baseline t s in
  (match p with H_claim _ w c => held w = true /\ (owner s = w \/ owner s = OD_LINK_WORD_TERMINAL) /\ claim_clock s' w c | _ => True end) ->
  loop_clock s' q ->
  clocked {| mem := mem s'; table := table s'; host := p; loop := q; now := now s'; gh := gh s' |}.
Proof.
  intros [Hb [Hp1 Hp2] Ht Hh Hl Hr] Htn Hor. cbv zeta. intros Hp Hq.
  split; cbn [mem host loop now gh store_baseline set_ghost set_mem g_base g_origin g_reads s_baselineMs s_baselineOwner set_baseline];
    try done.
  - intros Ho _. by apply Hor.
  - destruct p; try done. by destruct Hp as (_ & ? & ?).
Qed.

Lemma tag_clock s w p q :
  clocked s -> (held w = true -> owner s = w -> g_origin (gh s) <= g_base (gh s)) ->
  let s' := store_tag w s in
  (match p with H_claim _ w c => (owner s = w \/ owner s = OD_LINK_WORD_TERMINAL) /\ claim_clock s' w c | _ => True end) ->
  loop_clock s' q ->
  clocked {| mem := mem s'; table := table s'; host := p; loop := q; now := now s'; gh := gh s' |}.
Proof.
  intros [Hb Hp Ht Hh Hl Hr] Htag. cbv zeta. intros Hh' Hq. split; try done.
  intros Ho He. cbn in He. apply Htag; [|done]. change (held (owner s) = true) in Ho. by rewrite He.
Qed.

(** The loop's facts survive a baseline stored by the host. *)
Lemma store_loop k s t :
  ids k s -> clocked s -> owner s <> 0 -> (held (owner s) = true -> g_origin (gh s) <= t) ->
  loop_clock (store_baseline t s) (loop s).
Proof.
  intros Hi [_ _ _ _ Hl _] H0 Hor. pose proof (id_loop _ _ Hi) as Hil. unfold loop_clock, claim_clock in *.
  destruct (loop s); cbn [loop_ids] in Hil; try exact Hl.
  - destruct c; try exact Hl. destruct Hl as [Ho _]. split; [exact Ho|]. intros _. apply Hor. rewrite Ho.
    by apply (tried_held k s).
  - destruct Hl as (? & _ & _). split; [done|]. split; [done|exact Hor].
  - intros Hw. destruct (Hl Hw) as [Ho _]. split; [exact Ho|]. apply Hor. by rewrite Ho.
  - destruct Hl as (Ho & Hw & _). split; [exact Ho|]. split; [done|]. apply Hor. by rewrite Ho.
Qed.

Lemma host_step_clocked k s : ids k s -> k <= 65535 -> clocked s -> clocked (host_step s).
Proof.
  intros Hi Hk Hc. pose proof Hc as [Hb Hp Ht Hh Hl Hr]. unfold host_step.
  assert (Hquiet : forall s', same_clock s s' -> loop s' = loop s -> (match host s' with H_claim _ _ _ => False | _ => True end) -> clocked s').
  { intros s' Hs Hlp Hno. apply (clocked_host s s' Hc Hs Hlp). by destruct (host s'). }
  destruct (host s) as [|h|h w i|h w i|h w i|h w|h w c|h w|i|i|i] eqn:Eh.
  - exact Hc.
  - unfold next_epoch. destruct (_ =? 0); apply Hquiet; try done. by cbn [host set_mem]; rewrite Eh.
  - destruct (table s !! i) as [x|]; [destruct (word x =? 0)|]; by apply Hquiet.
  - by apply Hquiet.
  - by apply Hquiet.
  - pose proof (id_host _ _ Hi) as Hih. rewrite Eh in Hih. cbn [host_ids] in Hih.
    destruct (decide (owner s = 0)) as [H0|H0].
    + pose proof (won_clock k w OWNER_BLE s (loop s) Hi Hc Hih H0 (or_introl eq_refl)) as (Ho' & Htg & Hl' & _).
      revert Ho' Htg Hl'. unfold try_claim, cas_owner. fold (owner s). rewrite H0. cbn [Z.eqb snd]. intros Ho' Htg Hl'.
      split; try done.
      * split; [apply Hp|exact Ho'].
      * split; [by left|done].
    + unfold try_claim, cas_owner. fold (owner s). destruct (Z.eqb_spec (owner s) 0); [done|]. apply Hquiet; try done.
  - destruct Hh as [Ho Hcl]. pose proof (id_host _ _ Hi) as Hih. rewrite Eh in Hih. cbn [host_ids] in Hih.
    pose proof (tried_held k s w Hi Hih) as Hw. destruct c as [|t|]; cbn [claim_step claim_clock] in *.
    + apply (clocked_host s _ Hc); try done. cbn [host set_host]. split; [done|]. cbn [claim_clock]. split; [lia|]. intros _. apply Hp.
    + destruct Hcl as [Htn Hto].
      assert (Hor : held (owner s) = true -> g_origin (gh s) <= t) by (intros Ho'; destruct Ho as [?|Ho]; [auto|by rewrite Ho in Ho']).
      assert (H0 : owner s <> 0) by (destruct (held_not _ Hw); destruct Ho as [-> | ->]; done).
      refine (store_clock s t (H_claim h w Cl_tag) (loop s) Hc Htn Hor _ (store_loop k s t Hi Hc H0 Hor)).
      split; [done|]. split; [exact Ho|exact Hto].
    + refine (tag_clock s w (H_decide h w) (loop s) Hc (fun _ => Hcl) I Hl).
  - destruct (instanceIndexOf _ _); by apply Hquiet.
  - by apply Hquiet.
  - by apply Hquiet.
  - by apply Hquiet.
Qed.

(** The host's facts survive a baseline stored by the loop. *)
Lemma store_host k s t :
  ids k s -> clocked s -> (held (owner s) = true -> g_origin (gh s) <= t) ->
  match host s with
  | H_claim _ w c => held w = true /\ (owner s = w \/ owner s = OD_LINK_WORD_TERMINAL) /\ claim_clock (store_baseline t s) w c
  | _ => True
  end.
Proof.
  intros Hi [_ _ _ Hh _ _] Hor. pose proof (id_host _ _ Hi) as Hih. destruct (host s); try done. cbn [host_ids] in Hih.
  pose proof (tried_held k s w Hi Hih) as Hw. destruct Hh as [Ho Hc]. split; [done|]. split; [done|].
  destruct c; try exact Hc. intros He. apply Hor. by rewrite <- He in Hw.
Qed.

Lemma wrap_elapsed t n : u32 (u32 n - u32 t) = u32 (n - t).
Proof. unfold wrap. by rewrite <- Zminus_mod. Qed.

Lemma loop_step_clocked k s : ids k s -> k <= 65535 -> clocked s -> clocked (loop_step s).
Proof.
  intros Hi Hk Hc. pose proof Hc as [Hb Hp Ht Hh Hl Hr]. unfold loop_step.
  assert (Hquiet : forall s', same_clock s s' -> host s' = host s -> loop_clock s (loop s') -> clocked s')
    by (intros s' Hs Hho Hlp; exact (clocked_loop s s' Hc Hs Hho Hlp)).
  assert (Hread : forall w ms, reading_ok {| rd_owner := w; rd_ms := ms; rd_now := now s; rd_origin := g_origin (gh s) |} ->
    clocked (set_loop L_idle (log_read w ms s))).
  { intros w ms Hrd. split; try done. by constructor. }
  destruct (loop s) as [| |w|w c| |t|t|w|w|w|w b|w b|i|i w|i w] eqn:Ep; cbn [loop_clock] in Hl.
  - exact Hc.
  - unfold next_epoch. destruct (_ =? 0); apply Hquiet; try done. by cbn [loop set_mem]; rewrite Ep.
  - pose proof (id_loop _ _ Hi) as Hil. rewrite Ep in Hil. cbn [loop_ids] in Hil.
    destruct (decide (owner s = 0)) as [H0|H0].
    + pose proof (won_clock k w OWNER_LAN s (L_claim w Cl_clock) Hi Hc Hil H0 (or_intror eq_refl)) as (Ho' & Htg & Hl' & Hno).
      revert Ho' Htg Hl'. unfold try_claim, cas_owner. fold (owner s). rewrite H0. cbn [Z.eqb snd]. intros Ho' Htg Hl'.
      split; try done.
      * split; [apply Hp|exact Ho'].
      * cbn [host set_loop log_event log_origin log_tried set_ghost set_mem]. by destruct (host s).
    + unfold try_claim, cas_owner. fold (owner s). destruct (Z.eqb_spec (owner s) 0); [done|]. apply Hquiet; try done.
  - destruct Hl as [Ho Hcl]. pose proof (id_loop _ _ Hi) as Hil. rewrite Ep in Hil. cbn [loop_ids] in Hil.
    pose proof (tried_held k s w Hi Hil) as Hw. destruct c as [|t|]; cbn [claim_step claim_clock] in *.
    + apply Hquiet; try done. split; [done|]. cbn [claim_clock]. split; [lia|]. intros _. apply Hp.
    + destruct Hcl as [Htn Hto]. assert (Hor : held (owner s) = true -> g_origin (gh s) <= t) by auto.
      refine (store_clock s t (host s) (L_claim w Cl_tag) Hc Htn Hor (store_host k s t Hi Hc Hor) _).
      split; [exact Ho|exact Hto].
    + refine (tag_clock s w (host s) L_idle Hc (fun _ => Hcl) _ I). exact Hh.
  - apply Hquiet; try done. cbn [loop set_loop loop_clock]. split; [lia|]. intros _. apply Hp.
  - destruct Hl as [Htn Hor].
    refine (store_clock s t (host s) (L_stamp_load t) Hc Htn Hor (store_host k s t Hi Hc Hor) _).
    split; [exact Htn|]. split; [done|exact Hor].
  - apply Hquiet; try done. cbn [loop set_loop loop_clock]. intros Hw. split; [done|]. by apply Hl.
  - refine (tag_clock s w (host s) L_idle Hc _ Hh I). intros Hw _. by apply Hl.
  - destruct Hl as [Ho Hw]. destruct (Z.eqb_spec (s_baselineOwner (mem s)) w) as [He|]; [|apply Hread; split; [apply Hp|by left]].
    apply Hquiet; try done. cbn [loop set_loop loop_clock]. split; [done|]. split; [done|]. apply Ht; congruence.
  - destruct Hl as (Ho & Hw & Hor). apply Hquiet; try done. cbn [loop set_loop loop_clock]. split; [done|]. split; [done|].
    exists (g_base (gh s)). split; [done|]. split; [done|apply Hp].
  - destruct (_ =? _); [by apply Hquiet|apply Hread; split; [apply Hp|by left]].
  - destruct Hl as (Ho & Hw & t & -> & Hor & Hn). apply Hread. split; [apply Hp|]. right. exists t. cbn [rd_origin rd_now rd_ms].
    split; [done|]. by rewrite wrap_elapsed.
  - destruct (table s !! i) as [x|]; [destruct (word x =? 0)|]; by apply Hquiet.
  - destruct (table s !! i) as [x|]; [destruct (decidedWord x =? w)|]; by apply Hquiet.
  - destruct (_ =? _); by apply Hquiet.
Qed.

Lemma later_claim n s w c : now s <= n -> claim_clock s w c -> claim_clock (set_now n s) w c.
Proof. intros Hn. destruct c; try done. intros [Ht Ho]. split; [|exact Ho]. change (t <= n). lia. Qed.

Lemma later_base n s w b : now s <= n -> base_for s w b -> base_for (set_now n s) w b.
Proof.
  intros Hn (Ho & Hw & t & -> & Hor & Ht). split; [exact Ho|]. split; [done|]. exists t. split; [done|]. split; [exact Hor|].
  change (t <= n). lia.
Qed.

Lemma later_clocked n s : now s <= n -> clocked s -> clocked (set_now n s).
Proof.
  intros Hn [Hb Hp Ht Hh Hl Hr]. split; try done.
  - destruct Hp. cbn [gh set_now now]. split; lia.
  - cbn [host set_now]. destruct (host s); try done. destruct Hh as [Ho Hc]. split; [exact Ho|]. by apply later_claim.
  - cbn [loop set_now]. destruct (loop s); try exact Hl.
    + destruct Hl as [Ho Hc]. split; [exact Ho|]. by apply later_claim.
    + destruct Hl as [Hln Ho]. split; [change (t <= n); lia|exact Ho].
    + destruct Hl as (Hln & Ho). split; [change (t <= n); lia|exact Ho].
    + by apply later_base.
    + by apply later_base.
Qed.

(** The loop gives the word up, or shuts the gate. *)
Lemma end_clocked k s o evs :
  ids k s -> clocked s -> loop s = L_idle -> held o = false ->
  (forall h w c, host s = H_claim h w c -> o = OD_LINK_WORD_TERMINAL) ->
  clocked (log_event evs (set_mem (set_owner o (mem s)) s)).
Proof.
  intros Hi [Hb Hp Ht Hh Hl Hr] Hidle Ho Hterm. split; try done.
  - change (held o = true -> s_baselineOwner (mem s) = o -> g_origin (gh s) <= g_base (gh s)). by rewrite Ho.
  - change (host (log_event evs (set_mem (set_owner o (mem s)) s))) with (host s).
    pose proof (id_host _ _ Hi) as Hih. destruct (host s) eqn:Eh; try done. cbn [host_ids] in Hih.
    pose proof (tried_held k s w Hi Hih) as Hw. rewrite (Hterm _ _ _ eq_refl). split; [by right|].
    destruct (held_not _ Hw) as [_ Hwt]. destruct Hh as [_ Hc]. destruct c; try done; cbn [claim_clock] in *.
    + split; [apply Hc|]. intros He. by destruct Hwt.
    + intros He. by destruct Hwt.
  - change (loop (log_event evs (set_mem (set_owner o (mem s)) s))) with (loop s). by rewrite Hidle.
Qed.

Lemma exec_clocked k a s :
  ids k s -> k + cost a <= 65535 -> in_order a s = true -> clocked s -> clocked (exec a s).
Proof.
  intros Hi Hk Hord Hc. assert (Hk0 : k <= 65535) by (destruct a; cbn in Hk; lia).
  pose proof Hc as [Hb Hp Ht Hh Hl Hr]. destruct a; cbn [exec]; unfold host_start, loop_start.
  - apply later_clocked; [lia|done].
  - destruct (_ && _); [|exact Hc]. destruct (host s) eqn:Eh; [|exact Hc..]. by apply (clocked_host s _ Hc).
  - destruct (host s) eqn:Eh; [|exact Hc..]. destruct (instanceIndexOf _ _); [|exact Hc]. by apply (clocked_host s _ Hc).
  - by apply (host_step_clocked k).
  - destruct (loop s) eqn:Ep; [|exact Hc..]. destruct (_ =? _); [|exact Hc]. by apply (clocked_loop s _ Hc).
  - destruct (release_arg id) eqn:Ha; [|exact Hc]. destruct (loop s) eqn:Ep; [|exact Hc..].
    destruct (release_cases id s Ha) as [-> | (Ho & Hw & ->)]; [exact Hc|]. apply (end_clocked k); try done.
    intros h w c Eh. unfold in_order in Hord. rewrite Eh in Hord, Hh. apply negb_true_iff, Z.eqb_neq in Hord.
    destruct (held_not _ Hw). destruct Hh as [[?|?] _]; congruence.
  - destruct (loop s) eqn:Ep; [|exact Hc..]. by apply (end_clocked k s OD_LINK_WORD_TERMINAL).
  - destruct (loop s) eqn:Ep; [|exact Hc..]. by apply (clocked_loop s _ Hc).
  - destruct (loop s) eqn:Ep; [|exact Hc..]. destruct (may_claim (linkUnpackWord (owner s))) eqn:Hm.
    + apply (clocked_loop s _ Hc); try done.
    + split; try done; [change (loop (log_read (owner s) 0 s)) with (loop s); by rewrite Ep|]. constructor; [split; [apply Hp|by left]|done].
  - destruct (loop s) eqn:Ep; [|exact Hc..]. by apply (clocked_loop s _ Hc).
  - by apply (loop_step_clocked k).
Qed.

Lemma run_clocked k acts s :
  ids k s -> k + connects acts <= 65535 -> orderly acts s = true -> clocked s -> clocked (run acts s).
Proof.
  revert k s. induction acts as [|a acts IH]; intros k s Hi Hk Ho Hc; [done|]. cbn [connects orderly] in *.
  pose proof (connects_nonneg acts). apply andb_true_iff in Ho as [Ho1 Ho2]. change (run (a :: acts) s) with (run acts (exec a s)).
  apply (IH (k + cost a)); [apply exec_ids; [done|lia]|lia|done|]. apply (exec_clocked k); [done|lia|done|done].
Qed.


(** ** On a concrete run *)

Definition hs (n : nat) : list action := replicate n HostStep.
Definition ls (n : nat) : list action := replicate n LoopStep.

(** A client connects to a table of three, is silent for half a second, and another
    knocks: the clock says 500, and the scan asks the other to leave. *)
Definition knock : list action :=
  [Connect 4] ++ hs 9 ++ [Tick 500; Read] ++ ls 4 ++ [Connect 5] ++ hs 9 ++ [Scan] ++ ls 12.


Lemma refused_never_owns_witness :
  g_refused (gh (run knock (boot 3))) = [linkPackWord OWNER_BLE 5 2] /\
  owner (run (knock ++ [Release {| who := OWNER_BLE; handle := 4; epoch := 1 |}; Scan] ++ ls 12) (boot 3)) <> linkPackWord OWNER_BLE 5 2.
Proof.
  assert (Hr : g_refused (gh (run knock (boot 3))) = [linkPackWord OWNER_BLE 5 2]) by (vm_compute; reflexivity).
  split; [exact Hr|]. apply (refused_never_owns 3 knock); [vm_compute; congruence|rewrite Hr; left].
Defined.

(** ** Where the discipline has a gap

    A refresh ends while nobody owns the device; between its load of the owner word
    and its store of the tag, a client is admitted.  The stamp's tag then overwrites
    the client's, and the client's silence reads zero for as long as it stays silent:
    the idle timeout never drops it. *)
Definition lost_stamp : list action := [Stamp] ++ ls 3 ++ [Connect 4] ++ hs 9 ++ ls 1.

Lemma stamp_hides_silence (d : Z) :
  0 <= d ->
  let s := run (lost_stamp ++ [Tick d; Read; LoopStep]) (boot 3) in
  owner s = linkPackWord OWNER_BLE 4 1 /\ host s = H_idle /\
  g_reads (gh s) = [{| rd_owner := owner s; rd_ms := 0; rd_now := d; rd_origin := 0 |}].
Proof.
  intros Hd. cbv zeta. rewrite run_app.
  assert (Hs : exists s, run lost_stamp (boot 3) = s /\ owner s = linkPackWord OWNER_BLE 4 1 /\ host s = H_idle /\ loop s = L_idle /\
    s_baselineOwner (mem s) = 0 /\ now s = 0 /\ gh s = {| g_base := 0; g_origin := 0; g_hist := [Ev_claim (linkPackWord OWNER_BLE 4 1)];
      g_tried := [linkPackWord OWNER_BLE 4 1]; g_reads := []; g_refused := [] |}) by (eexists; vm_compute; by split_and!).
  destruct Hs as (s & -> & Ho & Hh & Hl & Ht & Hn & Hg). unfold owner in Ho. destruct s as [[o c b t] tb h l nw g].
  cbn in Ho, Hh, Hl, Ht, Hn, Hg. subst. cbn -[linkPackWord Z.max]. split_and!; [done|done|]. by rewrite Z.max_r.
Qed.

(** Why releases wait: a connect callback overtaken by its own link's release stores
    its old baseline for the next owner. *)
Definition overtaken : list action :=
  [Connect 4] ++ hs 6 ++ [Release {| who := OWNER_BLE; handle := 4; epoch := 1 |}; Tick 1000; Accept] ++ ls 5 ++
  [Tick 20; HostStep; Read] ++ ls 4.

Lemma overtaken_clock :
  option_map (fun r => (rd_ms r, rd_now r - rd_origin r)) (head (g_reads (gh (run overtaken (boot 3))))) = Some (1020, 20).
Proof. vm_compute. reflexivity. Qed.

End LinkProofs.
