(* ===== verification/SessionGuard.v ===== *)
(** The end of a session on the ESP32 target: the one teardown routine,
    [targets/esp32-idf/src/session_guard.cpp], the auth-abuse run of
    [communication.cpp], and the services of [main.cpp] and [display_service.cpp] that
    call them.  The device here is the sum of the parts modelled elsewhere, over one
    world [E] that they share. *)

From S2P Require Import Prelude Ring Hal TxQueue RxQueue Span Session World Gate Dispatch ConfigRead ConfigAsm Config Pump PipeState XferState Xfer Transfer Touch I2c Core LinkOwner.
Import Hal World Gate Dispatch Pump PipeState XferState Xfer Transfer LinkOwner.

Module SessionGuard.

Definition OD_BLE_LINK_DOWN_WAIT_MS : Z := 150.
Definition OD_BLE_LINK_DOWN_POLL_MS : Z := 2.
Definition OD_AUTH_ABUSE_THRESHOLD : Z := 10.
Definition OD_AUTH_ABUSE_FLUSH_MS : Z := 500.
Definition OD_AUTH_ABUSE_DWELL_FALLBACK_MS : Z := 50.
Definition OD_BLE_IDLE_TIMEOUT_MS : Z := 120000.
Definition OD_LAN_READ_TIMEOUT_S : Z := 30.
Definition TRANSFER_WATCHDOG_MS : Z := 900000.

(** What the target's tasks, stack and build supply.  [instance_word e i] is one atomic
    load of [s_instances[i].word], which the host task writes at any time. *)
Class BleStack (E : Type) := {
  OD_BLE_MAX_INSTANCES : nat;
  OPENDISPLAY_HAS_WIFI : bool;
  instance_word : E -> nat -> Z * E;
  s_ready : E -> bool * E;
  od_ble_disconnect : E -> Z -> bool * E;
  od_ble_conn_interval_units : E -> Z -> Z * E;
  od_hal_delay_ms : E -> Z -> E;
  wifiLanDropOwnedSocket : E -> E;
  wifiLanClientConnected : E -> bool * E;
}.

(** [(int32_t)(now - deadline) >= 0]. *)
Definition reached (now deadline : Z) : bool := u32 (now - deadline) <? 2 ^ 31.

(** ** The owner's link *)

Section Link.
Context {E : Type} `{!Uptime E, !BleStack E}.

(** [instanceIndexOf], from entry [i], on the loop task: every entry is loaded afresh. *)
Fixpoint index_from (n i : nat) (h : Z) (e : E) : option nat * E :=
  match n with
  | O => (None, e)
  | S n =>
      let '(w, e) := instance_word e i in
      if negb (w =? 0) && (handle (linkUnpackWord w) =? h) then (Some i, e) else index_from n (S i) h e
  end.

Definition instanceIndexOf (h : Z) (e : E) : option nat * E := index_from OD_BLE_MAX_INSTANCES 0 h e.

Definition instanceLive (h ep : Z) (e : E) : bool * E :=
  let '(idx, e) := instanceIndexOf h e in
  match idx with
  | None => (false, e)
  | Some i => let '(w, e) := instance_word e i in (w =? linkPackWord OWNER_BLE h ep, e)
  end.

Definition disconnect (h ep : Z) (e : E) : bool * E :=
  let '(ready, e) := s_ready e in
  if negb ready then (false, e)
  else
    let '(live, e) := instanceLive h ep e in
    if negb live then (true, e) else od_ble_disconnect e h.

Definition connIntervalMs (h : Z) (e : E) : Z * E :=
  let '(units, e) := od_ble_conn_interval_units e h in
  if units =? 0 then (0, e) else (u16 ((units * 5 + 3) / 4), e).

(** The wait of [bleDropAndWait]; [None] when the fuel runs out. *)
Fixpoint wait_down (fuel : nat) (h ep deadline : Z) (e : E) : option (bool * E) :=
  match fuel with
  | O => None
  | S fuel =>
      let '(now, e) := od_hal_uptime_ms e in
      if negb (reached now deadline) then
        let '(live, e) := instanceLive h ep e in
        if negb live then Some (true, e) else wait_down fuel h ep deadline (od_hal_delay_ms e OD_BLE_LINK_DOWN_POLL_MS)
      else let '(live, e) := instanceLive h ep e in Some (negb live, e)
  end.

(** A wait of 150 ms in polls of at least 2 ms: 75 polls and the last look. *)
Definition wait_fuel : nat := 76.

Definition bleDropAndWait (h ep : Z) (e : E) : option (bool * E) :=
  let '(live, e) := instanceLive h ep e in
  if negb live then Some (true, e)
  else
    let '(_, e) := disconnect h ep e in
    let '(now, e) := od_hal_uptime_ms e in
    wait_down wait_fuel h ep (u32 (now + OD_BLE_LINK_DOWN_WAIT_MS)) e.
End Link.

(** ** The device *)

(** [s_authRejectRun], [s_authAbuseDropPending], [s_authAbuseDeadlineMs],
    [s_authAbuseDwellUntil]. *)
Record abuse := { reject_run : Z; drop_pending : bool; abuse_deadline : Z; dwell_until : Z }.

Definition abuse_zero : abuse := {| reject_run := 0; drop_pending := false; abuse_deadline := 0; dwell_until := 0 |}.

Record device (E : Type) := {
  d_core : Core.core E; d_rxq : RxQueue.rxq; g_configAsm : ConfigAsm.od_config_asm; d_touch : Touch.touch E;
  s_next_due_ms : Z; globalConfig : Config.od_config; d_abuse : abuse; d_link : link;
  epdRefreshInProgress : bool; s_disconnectCleanupPending : bool; s_cleanupForOwner : Z;
}.
Arguments d_core {E} _.
Arguments d_rxq {E} _.
Arguments g_configAsm {E} _.
Arguments d_touch {E} _.
Arguments s_next_due_ms {E} _.
Arguments globalConfig {E} _.
Arguments d_abuse {E} _.
Arguments d_link {E} _.
Arguments epdRefreshInProgress {E} _.
Arguments s_disconnectCleanupPending {E} _.
Arguments s_cleanupForOwner {E} _.

Section Device.
Context {E : Type}.
Implicit Types d : device E.

Definition set_core k d : device E :=
  {| d_core := k; d_rxq := d_rxq d; g_configAsm := g_configAsm d; d_touch := d_touch d; s_next_due_ms := s_next_due_ms d;
     globalConfig := globalConfig d; d_abuse := d_abuse d; d_link := d_link d; epdRefreshInProgress := epdRefreshInProgress d;
     s_disconnectCleanupPending := s_disconnectCleanupPending d; s_cleanupForOwner := s_cleanupForOwner d |}.
Definition set_rxq q d : device E :=
  {| d_core := d_core d; d_rxq := q; g_configAsm := g_configAsm d; d_touch := d_touch d; s_next_due_ms := s_next_due_ms d;
     globalConfig := globalConfig d; d_abuse := d_abuse d; d_link := d_link d; epdRefreshInProgress := epdRefreshInProgress d;
     s_disconnectCleanupPending := s_disconnectCleanupPending d; s_cleanupForOwner := s_cleanupForOwner d |}.
Definition set_asm a d : device E :=
  {| d_core := d_core d; d_rxq := d_rxq d; g_configAsm := a; d_touch := d_touch d; s_next_due_ms := s_next_due_ms d;
     globalConfig := globalConfig d; d_abuse := d_abuse d; d_link := d_link d; epdRefreshInProgress := epdRefreshInProgress d;
     s_disconnectCleanupPending := s_disconnectCleanupPending d; s_cleanupForOwner := s_cleanupForOwner d |}.
Definition set_touch x due d : device E :=
  {| d_core := d_core d; d_rxq := d_rxq d; g_configAsm := g_configAsm d; d_touch := x; s_next_due_ms := due;
     globalConfig := globalConfig d; d_abuse := d_abuse d; d_link := d_link d; epdRefreshInProgress := epdRefreshInProgress d;
     s_disconnectCleanupPending := s_disconnectCleanupPending d; s_cleanupForOwner := s_cleanupForOwner d |}.
Definition set_abuse a d : device E :=
  {| d_core := d_core d; d_rxq := d_rxq d; g_configAsm := g_configAsm d; d_touch := d_touch d; s_next_due_ms := s_next_due_ms d;
     globalConfig := globalConfig d; d_abuse := a; d_link := d_link d; epdRefreshInProgress := epdRefreshInProgress d;
     s_disconnectCleanupPending := s_disconnectCleanupPending d; s_cleanupForOwner := s_cleanupForOwner d |}.
Definition set_link l d : device E :=
  {| d_core := d_core d; d_rxq := d_rxq d; g_configAsm := g_configAsm d; d_touch := d_touch d; s_next_due_ms := s_next_due_ms d;
     globalConfig := globalConfig d; d_abuse := d_abuse d; d_link := l; epdRefreshInProgress := epdRefreshInProgress d;
     s_disconnectCleanupPending := s_disconnectCleanupPending d; s_cleanupForOwner := s_cleanupForOwner d |}.
Definition set_cleanup pending word d : device E :=
  {| d_core := d_core d; d_rxq := d_rxq d; g_configAsm := g_configAsm d; d_touch := d_touch d; s_next_due_ms := s_next_due_ms d;
     globalConfig := globalConfig d; d_abuse := d_abuse d; d_link := d_link d; epdRefreshInProgress := epdRefreshInProgress d;
     s_disconnectCleanupPending := pending; s_cleanupForOwner := word |}.

Definition d_world d : world E := XferState.t_world (Core.k_transfer (d_core d)).
Definition set_world w d : device E :=
  let k := d_core d in
  set_core {| Core.k_transfer := XferState.set_world w (Core.k_transfer k); Core.k_nfc := Core.k_nfc k;
              Core.k_reader := Core.k_reader k |} d.
Definition env d : E := w_env (d_world d).
Definition put_env e d : device E := set_world (set_env (d_world d) e) d.

(** A call that answers and moves the shared world. *)
Definition ask {A} (f : E -> A * E) d : A * device E := let '(a, e) := f (env d) in (a, put_env e d).

(** ** The pieces of a teardown *)

Definition resetChunkedWriteState d : device E := set_asm (ConfigAsm.od_config_asm_reset (g_configAsm d)) d.

Definition resetAuthAbuseCounter d : device E := set_abuse abuse_zero d.

(** The touch driver works in the shared world. *)
Definition enter (e : E) (x : Touch.touch E) : Touch.touch E :=
  {| Touch.s_rt := Touch.s_rt x; Touch.s_suspend := Touch.s_suspend x; Touch.t_block := Touch.t_block x;
     Touch.t_env := e; Touch.t_trace := Touch.t_trace x |}.

Section Teardown.
Context `{!Uptime E, !BleStack E, !I2c.I2c E, !Touch.TouchApp E}.
Context `{Radio E} `{Crypto E} `{SessionApp E} `{Dispatch.CommandApp E} `{InflaterProgress E} `{XferAppLaws E} `{PipeConfig}.

Definition touchForceResume d : device E :=
  let '(now, d) := ask od_hal_uptime_ms d in
  let '(delay, x) := Touch.od_touch_gt911_force_resume (enter (env d) (d_touch d)) (Some (globalConfig d)) now in
  let d := put_env (Touch.t_env x) d in
  set_touch x (if delay =? Touch.OD_TOUCH_NO_CHANGE then s_next_due_ms d else u32 (now + delay)) d.

(** Step 8 of [abortToKnownState]: the drop, on the owner's transport. *)
Definition drop_link (dropLink : bool) (ownerId : LinkId) d : option (device E) :=
  if dropLink then
    if who ownerId =? OWNER_BLE then
      '(_, e) ← bleDropAndWait (handle ownerId) (epoch ownerId) (env d); Some (put_env e d)
    else if who ownerId =? OWNER_LAN then
      Some (if OPENDISPLAY_HAS_WIFI then put_env (wifiLanDropOwnedSocket (env d)) d else d)
    else Some d
  else Some d.

(** [abortToKnownState] with an explicit owner. *)
Definition abortToKnownState (dropLink : bool) (ownerId : LinkId) d : option (device E) :=
  let d := resetChunkedWriteState d in
  let d := touchForceResume d in
  let d := resetAuthAbuseCounter d in
  let d := set_rxq (RxQueue.od_rxq_reset (d_rxq d)).1 d in
  k ← Core.od_core_reset (d_core d);
  let d := set_core k d in
  d ← drop_link dropLink ownerId d;
  Some (set_link (linkRelease ownerId (d_link d)) d).

(** ** Who calls it *)

Definition serviceIdleTimeout d : option (device E) :=
  if epdRefreshInProgress d then Some d
  else
    let owner := linkOwnerId (d_link d) in
    if negb (may_claim owner) then Some d
    else
      let limitMs := if OPENDISPLAY_HAS_WIFI && (who owner =? OWNER_LAN) then u32 (OD_LAN_READ_TIMEOUT_S * 1000)
                     else OD_BLE_IDLE_TIMEOUT_MS in
      let '(idleMs, d) := ask (linkMsSinceOwnerCommand (d_link d)) d in
      if idleMs <=? limitMs then Some d else abortToKnownState true owner d.

Definition requestTransferSessionCleanup d : device E := set_cleanup true (linkOwnerWord (d_link d)) d.

(** Whether the owner's transport still holds its link. *)
Definition owner_up (owner : LinkId) (e : E) : bool * E :=
  if who owner =? OWNER_BLE then instanceLive (handle owner) (epoch owner) e
  else if OPENDISPLAY_HAS_WIFI && (who owner =? OWNER_LAN) then wifiLanClientConnected e
  else (false, e).

Definition serviceBleDisconnectCleanup d : option (device E) :=
  if negb (s_disconnectCleanupPending d) || epdRefreshInProgress d then Some d
  else
    let forOwner := s_cleanupForOwner d in
    let d := set_cleanup false 0 d in
    if forOwner =? 0 then Some d
    else if negb (linkOwnerWord (d_link d) =? forOwner) then Some d
    else
      let owner := linkOwnerId (d_link d) in
      let '(ownerStillUp, d) := ask (owner_up owner) d in
      if ownerStillUp : bool then Some d else abortToKnownState false owner d.

Definition transferSessionOrigin d : od_origin :=
  match Xfer.od_xfer_owner (t_xfer (Core.k_transfer (d_core d))) with Some rp => rp_origin rp | None => OD_ORIGIN_BLE end.

Definition checkTransferTimeouts d : option (device E) :=
  let owner := linkOwnerId (d_link d) in
  let lanOwnsTransfer := negb (bool_decide (transferSessionOrigin d = OD_ORIGIN_BLE)) in
  let dropOwnersLink := (lanOwnsTransfer && (who owner =? OWNER_LAN)) || (negb lanOwnsTransfer && (who owner =? OWNER_BLE)) in
  let '(now, d) := ask od_hal_uptime_ms d in
  if Xfer.od_xfer_report_timeout (t_xfer (Core.k_transfer (d_core d))) now TRANSFER_WATCHDOG_MS
  then abortToKnownState dropOwnersLink owner d else Some d.

(** The gate and the teardown of [enterDeepSleep]. *)
Definition sleep_teardown d : option (device E) :=
  let '(displaced, l) := linkMarkTerminal (d_link d) in abortToKnownState false displaced (set_link l d).

(** *** Auth abuse *)

Definition authAbuseAdvance d : device E :=
  let a := d_abuse d in
  if drop_pending a then d
  else
    let run := if reject_run a <? 255 then u8 (reject_run a + 1) else reject_run a in
    let d := set_abuse {| reject_run := run; drop_pending := drop_pending a; abuse_deadline := abuse_deadline a;
                          dwell_until := dwell_until a |} d in
    if run <? OD_AUTH_ABUSE_THRESHOLD then d
    else
      let '(now, d) := ask od_hal_uptime_ms d in
      set_abuse {| reject_run := run; drop_pending := true; abuse_deadline := u32 (now + OD_AUTH_ABUSE_FLUSH_MS);
                   dwell_until := 0 |} d.

Definition od_core_frame_done (rp : option od_reply_t) (outcome : od_frame_outcome) d : device E :=
  let p := od_frame_policy outcome in
  match rp with
  | None => d
  | Some rp =>
      if negb (linkIsOwnerWord (rp_tag rp) (d_link d)) then d
      else
        let d :=
          if stamp_activity p then
            let '(l, e) := linkStampOwnerCommand (d_link d) (env d) in
            let d := set_link l (put_env e d) in
            let '(now, d) := ask od_hal_uptime_ms d in
            set_world (set_session (d_world d) (or_same (Session.od_session_touch (Some (w_session (d_world d))) now)
                                                        (w_session (d_world d))) (env d)) d
          else d in
        if negb (bool_decide (rp_origin rp = OD_ORIGIN_BLE)) then d
        else
          let d := if reset_abuse p then resetAuthAbuseCounter d else d in
          if increment_abuse p then authAbuseAdvance d else d
  end.

(** [(int32_t)(a - b) > 0]. *)
Definition later (a b : Z) : bool := reached a b && negb (u32 (a - b) =? 0).

(** [od_txq_process] on the shared queue. *)
Definition drain d : option (device E) :=
  '(q, e, _) ← TxQueue.od_txq_process (w_txq (d_world d)) (env d); Some (set_world (set_txq (d_world d) q e) d).

(** The dwell, chosen once the queue is empty. *)
Definition choose_dwell (owner : LinkId) d : device E :=
  let a := d_abuse d in
  if (TxQueue.od_txq_depth (w_txq (d_world d)) =? 0) && (dwell_until a =? 0) then
    let '(intervalMs, d) := ask (connIntervalMs (handle owner)) d in
    let intervalMs := if intervalMs =? 0 then OD_AUTH_ABUSE_DWELL_FALLBACK_MS else intervalMs in
    let '(now, d) := ask od_hal_uptime_ms d in
    let dwellEnd := u32 (now + intervalMs + 5) in
    set_abuse {| reject_run := reject_run a; drop_pending := drop_pending a; abuse_deadline := abuse_deadline a;
                 dwell_until := if later dwellEnd (abuse_deadline a) then abuse_deadline a else dwellEnd |} d
  else d.

Definition serviceBleAuthAbuseDisconnect d : option (device E) :=
  if negb (drop_pending (d_abuse d)) then Some d
  else if epdRefreshInProgress d then Some d
  else
    let owner := linkOwnerId (d_link d) in
    if negb (who owner =? OWNER_BLE) then Some (resetAuthAbuseCounter d)
    else
      d ← drain d;
      let '(now, d) := ask od_hal_uptime_ms d in
      let expired := reached now (abuse_deadline (d_abuse d)) in
      let d := choose_dwell owner d in
      let '(dwelled, d) :=
        if negb (dwell_until (d_abuse d) =? 0) then
          let '(now, d) := ask od_hal_uptime_ms d in (reached now (dwell_until (d_abuse d)), d)
        else (false, d) in
      if negb expired && negb dwelled then Some d
      else if negb expired && RxQueue.od_rxq_pending (d_rxq d) then Some d
      else abortToKnownState true owner (resetAuthAbuseCounter d).
End Teardown.
End Device.
End SessionGuard.
