(* ===== verification/SessionGuardProofs.v ===== *)
(** Teardown on the ESP32 target, proved: [abortToKnownState] returns with nothing of
    the session left, its wait for the link is bounded, and its callers end the session
    they mean to, when they mean to. *)

From S2P Require Import Prelude Ring Hal TxQueue RxQueue Span Session World Gate Dispatch ConfigRead ConfigAsm Config Pump PipeState XferState Xfer Transfer Touch I2c Core LinkOwner LinkRace SessionGuard.
Import Hal World Gate Dispatch Pump PipeState XferState Xfer Transfer LinkOwner SessionGuard.

Module SessionGuardProofs.

(** ** The clock *)

(** No call of the target takes longer than this, some seventeen minutes. *)
Definition CALL_MS : Z := 2 ^ 20.

(** [uptime] is the true time since boot; the clock reads its low 32 bits, time does not
    run backwards, and a delay lasts at least what was asked. *)
Class BleLaws (E : Type) `{!Uptime E, !BleStack E} (uptime : E -> Z) : Prop := {
  law_clock : forall e, let '(now, e') := od_hal_uptime_ms e in now = u32 (uptime e) /\ uptime e <= uptime e' <= uptime e + CALL_MS;
  law_word : forall e i, uptime e <= uptime (instance_word e i).2 <= uptime e + CALL_MS;
  law_delay : forall e n, 0 <= n -> uptime e + n <= uptime (od_hal_delay_ms e n) <= uptime e + n + CALL_MS;
  law_instances : (OD_BLE_MAX_INSTANCES <= 64)%nat;
}.

Lemma reached_iff t deadline :
  - 2 ^ 31 <= t - deadline < 2 ^ 31 -> reached (u32 t) (u32 deadline) = (deadline <=? t).
Proof.
  intros Hd. unfold reached. replace (u32 (u32 t - u32 deadline)) with (u32 (t - deadline)) by (unfold wrap; by rewrite <- Zminus_mod).
  change (2 ^ 31) with 2147483648 in *. unfold wrap. change (2 ^ 32) with 4294967296.
  destruct (Z.leb_spec deadline t).
  - rewrite Z.mod_small by lia. apply Z.ltb_lt. lia.
  - replace (t - deadline) with (t - deadline + 4294967296 + (-1) * 4294967296) by lia. rewrite Z.mod_add, Z.mod_small by lia.
    apply Z.ltb_ge. lia.
Qed.

(** ** The wait for the link *)

Section Wait.
Context {E : Type} `{!Uptime E, !BleStack E} (uptime : E -> Z) `{!BleLaws E uptime}.

Lemma index_time n i h e :
  uptime e <= uptime (index_from n i h e).2 <= uptime e + Z.of_nat n * CALL_MS.
Proof.
  revert i e. induction n as [|n IH]; intros i e; cbn [index_from]; [cbn; lia|].
  pose proof (law_word e i) as Hw. destruct (instance_word e i) as [w e1]. cbn [snd] in Hw. unfold CALL_MS in *.
  destruct (_ && _); cbn [snd]; [lia|]. specialize (IH (S i) e1). lia.
Qed.

Lemma live_time h ep e : uptime e <= uptime (instanceLive h ep e).2 <= uptime e + 65 * CALL_MS.
Proof.
  unfold instanceLive, instanceIndexOf. pose proof (index_time OD_BLE_MAX_INSTANCES 0 h e) as Hi.
  pose proof law_instances as Hn. unfold CALL_MS in *. destruct (index_from _ _ h e) as [[i|] e1]; cbn [snd] in *; [|lia].
  pose proof (law_word e1 i) as Hw. destruct (instance_word e1 i) as [w e2]. cbn [snd] in *. unfold CALL_MS in *. lia.
Qed.

(** The last look found the link down, or the deadline was past. *)
Definition waited (h ep : Z) (due : Z) (b : bool) (e' : E) : Prop :=
  exists e1, instanceLive h ep e1 = (negb b, e') /\ (b = false -> due <= uptime e').

Lemma wait_down_spec fuel h ep c0 e :
  c0 <= uptime e <= c0 + 150 + 80 * CALL_MS -> c0 + 150 <= uptime e + 2 * (Z.of_nat fuel - 1) -> (0 < fuel)%nat ->
  exists b e', wait_down fuel h ep (u32 (c0 + 150)) e = Some (b, e') /\ waited h ep (c0 + 150) b e'.
Proof.
  revert e. induction fuel as [|fuel IH]; intros e Ht Hf Hpos; [lia|]. cbn [wait_down].
  pose proof (law_clock e) as Hc. destruct (od_hal_uptime_ms e) as [now e1]. destruct Hc as [-> Hc].
  rewrite reached_iff by (unfold CALL_MS in *; lia). pose proof (live_time h ep e1) as Hl.
  destruct (instanceLive h ep e1) as [live e2] eqn:Ei. cbn [snd] in Hl.
  destruct (Z.leb_spec (c0 + 150) (uptime e)) as [Hle|Hlt]; cbn [negb].
  - exists (negb live), e2. split; [done|]. exists e1. rewrite negb_involutive. split; [done|lia].
  - destruct live; cbn [negb]; [|exists true, e2; split; [done|]; by exists e1].
    pose proof (law_delay e2 OD_BLE_LINK_DOWN_POLL_MS ltac:(unfold OD_BLE_LINK_DOWN_POLL_MS; lia)) as Hd.
    unfold OD_BLE_LINK_DOWN_POLL_MS, CALL_MS in *. apply IH; lia.
Qed.

(** What [bleDropAndWait] answers. *)
Definition drop_answer (h ep : Z) (e : E) (b : bool) (e' : E) : Prop :=
  let '(live, e0) := instanceLive h ep e in
  if live then waited h ep (uptime (disconnect h ep e0).2 + OD_BLE_LINK_DOWN_WAIT_MS) b e' else b = true /\ e' = e0.

Lemma drop_and_wait h ep e : exists b e', bleDropAndWait h ep e = Some (b, e') /\ drop_answer h ep e b e'.
Proof.
  unfold bleDropAndWait, drop_answer. destruct (instanceLive h ep e) as [[] e0] eqn:Ei; cbn [negb]; [|by exists true, e0].
  destruct (disconnect h ep e0) as [r e1]. cbn [snd]. pose proof (law_clock e1) as Hc.
  destruct (od_hal_uptime_ms e1) as [now e2]. destruct Hc as [-> Hc].
  replace (u32 (u32 (uptime e1) + OD_BLE_LINK_DOWN_WAIT_MS)) with (u32 (uptime e1 + 150))
    by (unfold OD_BLE_LINK_DOWN_WAIT_MS, wrap; by rewrite Zplus_mod_idemp_l).
  unfold OD_BLE_LINK_DOWN_WAIT_MS, CALL_MS, wait_fuel in *. apply wait_down_spec; unfold CALL_MS; lia.
Qed.
End Wait.

(** ** The state a teardown leaves *)

(** A whole word survives unpacking. *)
Lemma pack_unpack w : fits 32 w -> linkIdWord (linkUnpackWord w) = w.
Proof.
  intros Hw. unfold fits in Hw. unfold linkIdWord, linkUnpackWord. cbn [who handle epoch].
  change 0x3 with (Z.ones 2). change 0x3FFF with (Z.ones 14). change 0xFFFF with (Z.ones 16).
  rewrite !Z.land_ones, !Z.shiftr_div_pow2 by lia. change (2 ^ 32) with 4294967296 in Hw.
  assert (H1 : 0 <= w / 2 ^ 30 < 4) by (split; [apply Z.div_pos|apply Z.div_lt_upper_bound]; lia).
  pose proof (Z.mod_pos_bound (w / 2 ^ 16) (2 ^ 14) ltac:(lia)) as H2. pose proof (Z.mod_pos_bound w (2 ^ 16) ltac:(lia)) as H3.
  rewrite (Z.mod_small (w / 2 ^ 30)) by (change (2 ^ 2) with 4; lia).
  rewrite !wrap_id by (unfold fits; lia). rewrite pack_sum by done.
  rewrite (Z.mod_small (w / 2 ^ 30)), (Z.mod_mod (w / 2 ^ 16)) by lia.
  pose proof (Z.div_mod w (2 ^ 16) ltac:(lia)). pose proof (Z.div_mod (w / 2 ^ 16) (2 ^ 14) ltac:(lia)) as H4.
  rewrite Z.div_div in H4 by lia. change (2 ^ 16 * 2 ^ 14) with (2 ^ 30) in H4. lia.
Qed.

(** What holds of a device between the steps of its loop. *)
Definition device_ok {E} `{PipeConfig} (d : device E) : Prop :=
  tinv (Core.k_transfer (d_core d)) /\ TxQueue.ring_ok (w_txq (d_world d)) /\ fits 8 (TxQueue.s_gen (w_txq (d_world d))) /\
  RxQueue.rxq_ok (d_rxq d) /\ fits 32 (s_ownerWord (d_link d)).

(** Nothing of the session that [d] carried is left in [d']. *)
Record torn_down {E} `{PipeConfig} (d d' : device E) : Prop := {
  td_asm : g_configAsm d' = ConfigAsm.od_config_asm_reset (g_configAsm d);
  td_touch : Touch.s_suspend (d_touch d') = 0;
  td_abuse : d_abuse d' = abuse_zero;
  td_rx : RxQueue.pending (d_rxq d') = [];
  td_tx : TxQueue.entries (w_txq (d_world d')) = [] /\ TxQueue.s_reserved (w_txq (d_world d')) = 0;
  td_nfc : Core.k_nfc (d_core d') = Nfc.Nfc.nfc_zero;
  td_transfer : idle (Core.k_transfer (d_core d'));
  td_reader : ConfigRead.active (Core.k_reader (d_core d')) = false;
  td_session : w_session (d_world d') = Session.zero_session (Session.slot (w_session (d_world d)));
}.

Section Touch.
Context {E : Type} `{!I2c.I2c E, !Touch.TouchApp E}.

Lemma reestablish_one_suspend cfg now (x : Touch.touch E) i :
  Touch.s_suspend (Touch.reestablish_one cfg now x i) = Touch.s_suspend x.
Proof.
  unfold Touch.reestablish_one, Touch.on_slot. destruct (Touch.touch_cfg cfg i) as [t|]; [|done].
  destruct (Touch.disabled _); [done|]. destruct (Touch.touch_light_resume i t _) as [[] s]; [done|].
  cbn [Touch.s_rt Touch.s_suspend]. by destruct (Touch.touch_bring_up i cfg t now _).
Qed.

(** A forced resume leaves no suspension, however deep it was. *)
Lemma force_resume_suspend (x : Touch.touch E) cfg now : Touch.s_suspend (Touch.od_touch_gt911_force_resume x cfg now).2 = 0.
Proof.
  unfold Touch.od_touch_gt911_force_resume, Touch.od_touch_gt911_resume.
  destruct (Z.eqb_spec (Touch.s_suspend x) 0) as [Hs|_]; [done|]. cbn [Touch.s_suspend Touch.set_suspend Z.eqb].
  change (u8 (1 - 1)) with 0. cbn [Z.eqb negb]. destruct cfg as [c|]; [|done]. destruct (Touch.touch_count c =? 0); [done|].
  unfold Touch.od_touch_gt911_reestablish. destruct (Touch.touch_count c =? 0); [done|]. cbn [snd Touch.controllers foldl].
  rewrite !reestablish_one_suspend. unfold Touch.off_slot. by destruct (Touch.bind _ _ _).
Qed.
End Touch.

Section Teardown.
Context {E : Type} `{!Uptime E, !BleStack E, !I2c.I2c E, !Touch.TouchApp E} (uptime : E -> Z) `{!BleLaws E uptime}.
Context `{Radio E} `{Crypto E} `{SessionApp E} `{CommandApp E} `{InflaterProgress E} `{XferAppLaws E} `{PipeConfig}.
Implicit Types d : device E.

(** The steps before the shared reset touch what they name. *)
Lemma touchForceResume_spec d :
  let d' := touchForceResume d in
  Touch.s_suspend (d_touch d') = 0 /\ d_rxq d' = d_rxq d /\ g_configAsm d' = g_configAsm d /\ d_link d' = d_link d /\
  Core.k_nfc (d_core d') = Core.k_nfc (d_core d) /\ w_txq (d_world d') = w_txq (d_world d) /\
  w_session (d_world d') = w_session (d_world d) /\ (tinv (Core.k_transfer (d_core d)) -> tinv (Core.k_transfer (d_core d'))).
Proof.
  cbv zeta. unfold touchForceResume, ask. destruct (od_hal_uptime_ms (env d)) as [now e].
  match goal with |- context [Touch.od_touch_gt911_force_resume ?a ?b ?c] => pose proof (force_resume_suspend a b c) as Hs end.
  destruct (Touch.od_touch_gt911_force_resume _ _ _) as [delay x]. exact (conj Hs (conj eq_refl (conj eq_refl (conj eq_refl
    (conj eq_refl (conj eq_refl (conj eq_refl (fun Ht => Ht)))))))).
Qed.

(** The drop moves the world only. *)
Lemma put_env_ok e d : device_ok d -> device_ok (put_env e d).
Proof. done. Qed.

Definition released (id : LinkId) (l : link) : Z :=
  if may_release id && (s_ownerWord l =? linkIdWord id) then 0 else s_ownerWord l.

Lemma linkRelease_word id l : s_ownerWord (linkRelease id l) = released id l.
Proof.
  unfold linkRelease, released, cas_owner. destruct (may_release id); [|done]. cbn [negb andb]. by destruct (_ =? _).
Qed.

Lemma put_env_same d : put_env (env d) d = d.
Proof. by destruct d as [[[[] ] ]]. Qed.

Lemma drop_link_spec dropLink id d :
  exists e, drop_link dropLink id d = Some (put_env e d) /\
    (dropLink = true -> who id = OWNER_BLE ->
       exists e0 b, bleDropAndWait (handle id) (epoch id) e0 = Some (b, e) /\ drop_answer uptime (handle id) (epoch id) e0 b e).
Proof.
  unfold drop_link. destruct dropLink; [|exists (env d); by rewrite put_env_same].
  destruct (Z.eqb_spec (who id) OWNER_BLE) as [Hw|Hw].
  - destruct (drop_and_wait uptime (handle id) (epoch id) (env d)) as (b & e & He & Ha). rewrite He. exists e. split; [done|].
    intros _ _. by exists (env d), b.
  - destruct (who id =? OWNER_LAN); [destruct OPENDISPLAY_HAS_WIFI|].
    + by exists (wifiLanDropOwnedSocket (env d)).
    + exists (env d). by rewrite put_env_same.
    + exists (env d). by rewrite put_env_same.
Qed.

Lemma reset_ring_ok q : TxQueue.ring_ok (TxQueue.od_txq_reset q) /\ fits 8 (TxQueue.s_gen (TxQueue.od_txq_reset q)).
Proof. split; [|apply (wrap_fits 8); lia]. split; [reflexivity|]. split; split; vm_compute; congruence. Qed.

Lemma released_fits id l : fits 32 (s_ownerWord l) -> fits 32 (released id l).
Proof. intros Hl. unfold released. by destruct (_ && _). Qed.

(** What a teardown does. *)
Lemma abort_spec (dropLink : bool) (id : LinkId) d :
  device_ok d ->
  exists d', abortToKnownState dropLink id d = Some d' /\ device_ok d' /\ torn_down d d' /\
    s_ownerWord (d_link d') = released id (d_link d) /\
    (dropLink = true -> who id = OWNER_BLE ->
       exists e b, bleDropAndWait (handle id) (epoch id) e = Some (b, env d') /\
         drop_answer uptime (handle id) (epoch id) e b (env d')).
Proof.
  intros (Ht & Hr & Hg & Hx & Hw). unfold abortToKnownState. fold (drop_link dropLink id).
  destruct (touchForceResume_spec (resetChunkedWriteState d)) as (Hsus & Hrx & Hasm & Hlk & Hnfc & Htx & Hss & Htv).
  set (d1 := touchForceResume (resetChunkedWriteState d)) in *.
  pose proof (RxQueue.reset_refines (d_rxq d) Hx) as Hres. change (d_rxq (resetChunkedWriteState d)) with (d_rxq d) in Hrx.
  destruct (Core.core_reset_spec (d_core d1) (Htv Ht)) as (k & q & Hk & Hn & Hi & Hrd & Hq & Hgq & Hs).
  change (d_core (set_rxq _ _)) with (d_core d1). rewrite Hk. cbn [mbind option_bind].
  match goal with |- context [drop_link dropLink id ?x] => destruct (drop_link_spec dropLink id x) as (e & He & Hb) end.
  rewrite He. cbn [mbind option_bind]. eexists. split; [reflexivity|].
  change (d_rxq (resetAuthAbuseCounter d1)) with (d_rxq d1). rewrite Hrx.
  destruct (RxQueue.od_rxq_reset (d_rxq d)) as [rx n]. destruct Hres as (Hrok & Hp & _).
  destruct (reset_ring_ok q) as [Hok Hf].
  split; [|split; [|split]].
  - split; [by apply idle_tinv|]. split; [|split; [|split]].
    + change (TxQueue.ring_ok (w_txq (XferState.t_world (Core.k_transfer k)))). by rewrite Hq.
    + change (fits 8 (TxQueue.s_gen (w_txq (XferState.t_world (Core.k_transfer k))))). by rewrite Hq.
    + exact Hrok.
    + change (fits 32 (s_ownerWord (linkRelease id (d_link d1)))). rewrite linkRelease_word, Hlk. by apply released_fits.
  - split; try done.
    + pose (t := w_txq (XferState.t_world (Core.k_transfer k))). change (TxQueue.entries t = [] /\ TxQueue.s_reserved t = 0).
      subst t. by rewrite Hq.
    + change (w_session (XferState.t_world (Core.k_transfer k)) = Session.zero_session (Session.slot (w_session (d_world d)))).
      rewrite Hs. f_equal. f_equal. exact Hss.
  - change (s_ownerWord (linkRelease id (d_link d1)) = released id (d_link d)). by rewrite linkRelease_word, Hlk.
  - exact Hb.
Qed.


(** ** Who ends a session, and when *)

Inductive service := Sv_idle | Sv_cleanup | Sv_timeout | Sv_sleep.

Definition run_service (sv : service) d : option (device E) :=
  match sv with
  | Sv_idle => serviceIdleTimeout d
  | Sv_cleanup => serviceBleDisconnectCleanup d
  | Sv_timeout => checkTransferTimeouts d
  | Sv_sleep => sleep_teardown d
  end.

(** The silence the owner is allowed. *)
Definition silence_limit (owner : LinkId) : Z :=
  if OPENDISPLAY_HAS_WIFI && (who owner =? OWNER_LAN) then 30000 else 120000.

(** The session is to end: its client has been silent too long, or the link the cleanup
    was raised for is the owner's and is gone, or its transfer is too old, or the device
    goes to sleep. *)
Definition due (sv : service) d : bool :=
  let w := s_ownerWord (d_link d) in
  let owner := linkUnpackWord w in
  match sv with
  | Sv_idle =>
      negb (epdRefreshInProgress d) && may_claim owner &&
      (silence_limit owner <? (linkMsSinceOwnerCommand (d_link d) (env d)).1)
  | Sv_cleanup =>
      s_disconnectCleanupPending d && negb (epdRefreshInProgress d) && negb (s_cleanupForOwner d =? 0) &&
      (w =? s_cleanupForOwner d) && negb (owner_up owner (env d)).1
  | Sv_timeout =>
      let x := t_xfer (Core.k_transfer (d_core d)) in
      od_xfer_active x && (900000 <? u32 ((od_hal_uptime_ms (env d)).1 - started_ms x))
  | Sv_sleep => true
  end.

(** The session goes on: only the world, the queue of replies and the cleanup flag may
    have moved. *)
Definition spared d d' : Prop :=
  t_xfer (Core.k_transfer (d_core d')) = t_xfer (Core.k_transfer (d_core d)) /\
  t_trace (Core.k_transfer (d_core d')) = t_trace (Core.k_transfer (d_core d)) /\
  Core.k_nfc (d_core d') = Core.k_nfc (d_core d) /\ Core.k_reader (d_core d') = Core.k_reader (d_core d) /\
  w_session (d_world d') = w_session (d_world d) /\ d_rxq d' = d_rxq d /\ g_configAsm d' = g_configAsm d /\
  d_touch d' = d_touch d /\ d_link d' = d_link d.

(** The session is over, and its word free. *)
Definition ended d d' : Prop :=
  torn_down d d' /\
  s_ownerWord (d_link d') = if LinkRace.held (s_ownerWord (d_link d)) then 0 else s_ownerWord (d_link d).

(** The session is over, and no other can begin. *)
Definition asleep d d' : Prop := torn_down d d' /\ s_ownerWord (d_link d') = OD_LINK_WORD_TERMINAL.

Lemma who_range w : fits 32 w -> 0 <= who (linkUnpackWord w) < 4.
Proof.
  intros Hw. unfold fits in Hw. unfold linkUnpackWord. cbn [who]. change 0x3 with (Z.ones 2). rewrite Z.land_ones by lia.
  pose proof (Z.mod_pos_bound (Z.shiftr w 30) (2 ^ 2) ltac:(lia)) as Hm. change (2 ^ 2) with 4 in *.
  rewrite wrap_id by (unfold fits; lia). lia.
Qed.

Lemma own_release l : fits 32 (s_ownerWord l) ->
  released (linkOwnerId l) l = if LinkRace.held (s_ownerWord l) then 0 else s_ownerWord l.
Proof.
  intros Hw. unfold released, linkOwnerId, linkOwnerWord, LinkRace.held. rewrite pack_unpack, Z.eqb_refl, andb_true_r by done.
  pose proof (who_range _ Hw) as Hr. unfold may_release, may_claim, OWNER_NONE, OWNER_BLE, OWNER_LAN, OWNER_TERMINAL.
  set (k := who _) in *. clearbody k. assert (k = 0 \/ k = 1 \/ k = 2 \/ k = 3) as [-> | [-> | [-> | ->]]] by lia; done.
Qed.

Lemma terminal_fits : fits 32 OD_LINK_WORD_TERMINAL.
Proof. by split. Qed.

(** A teardown of a device that differs in its world and its flags. *)
Lemma abort_as dropLink d d0 :
  device_ok d0 -> d_link d0 = d_link d -> g_configAsm d0 = g_configAsm d ->
  w_session (d_world d0) = w_session (d_world d) ->
  exists d', abortToKnownState dropLink (linkOwnerId (d_link d)) d0 = Some d' /\ device_ok d' /\ ended d d'.
Proof.
  intros Hok Hl Ha Hs. destruct (abort_spec dropLink (linkOwnerId (d_link d)) d0 Hok) as (d' & Hd & Hok' & [] & Hw & _).
  exists d'. split; [done|]. split; [done|]. split.
  - split; try done; congruence.
  - rewrite Hw, Hl, own_release; [done|]. rewrite <- Hl. apply Hok.
Qed.


(** ** A client that cannot authenticate *)

(** The refusals since the last frame that clears them. *)
Definition refusals (os : list od_frame_outcome) : Z :=
  foldl (fun n o => match o with
                    | OD_FRAME_AUTH_REQUIRED => n + 1
                    | OD_FRAME_ACCEPTED | OD_FRAME_HANDLER_NACK | OD_FRAME_AUTH_ESTABLISHED => 0
                    | _ => n
                    end) 0 os.

Lemma refusals_nonneg os : 0 <= refusals os.
Proof.
  induction os as [|o os IH] using rev_ind; [done|]. unfold refusals in *. rewrite foldl_snoc. destruct o; lia.
Qed.

(** The frames of a client, in order. *)
Definition frames (rp : od_reply_t) (os : list od_frame_outcome) d : device E :=
  foldl (fun d o => od_core_frame_done (Some rp) o d) d os.

(** The counters after [n] refusals counted from [t0], the tenth at [t]. *)
Record counted (n t0 : Z) d : Prop := {
  cn_pending : drop_pending (d_abuse d) = (OD_AUTH_ABUSE_THRESHOLD <=? n);
  cn_run : reject_run (d_abuse d) = Z.min n OD_AUTH_ABUSE_THRESHOLD;
  cn_dwell : dwell_until (d_abuse d) = 0;
  cn_deadline : 10 <= n -> exists t, t0 <= t <= uptime (env d) /\ abuse_deadline (d_abuse d) = u32 (t + OD_AUTH_ABUSE_FLUSH_MS);
}.

(** Two devices that differ in the world's environment, the session's clock, the stamp of
    the link and the abuse run. *)
Definition same_owner d d' : Prop :=
  (device_ok d -> device_ok d') /\ s_ownerWord (d_link d') = s_ownerWord (d_link d) /\
  epdRefreshInProgress d' = epdRefreshInProgress d /\ uptime (env d) <= uptime (env d').

#[local] Instance same_owner_preorder : PreOrder same_owner.
Proof.
  split; [intros d; split; [done|]; split; [done|]; split; [done|lia]|].
  intros a b c (? & ? & ? & ?) (? & ? & ? & ?). split; [auto|]. split; [congruence|]. split; [congruence|lia].
Qed.

(** Reading the clock. *)
Lemma ask_clock d :
  let '(now, d') := ask od_hal_uptime_ms d in
  now = u32 (uptime (env d)) /\ d_abuse d' = d_abuse d /\ d_link d' = d_link d /\ same_owner d d'.
Proof.
  unfold ask. pose proof (law_clock (env d)) as Hc. destruct (od_hal_uptime_ms (env d)) as [now e]. destruct Hc as [-> [Hc _]].
  split; [done|]. split; [done|]. split; [done|]. split; [exact (fun H => H)|]. split; [done|]. split; [done|exact Hc].
Qed.

Lemma advance_counted n t0 d :
  0 <= n -> t0 <= uptime (env d) -> counted n t0 d ->
  counted (n + 1) t0 (authAbuseAdvance d) /\ same_owner d (authAbuseAdvance d).
Proof.
  intros Hn Ht0 [Hp Hr Hdw Hd]. unfold OD_AUTH_ABUSE_THRESHOLD in *. unfold authAbuseAdvance. rewrite Hp.
  destruct (Z.leb_spec 10 n) as [Hge|Hlt].
  - split; [|reflexivity]. split; unfold OD_AUTH_ABUSE_THRESHOLD; try done.
    + rewrite Hp. symmetry. apply Z.leb_le. lia.
    + lia.
    + intros _. by apply Hd.
  - rewrite Hr, Z.min_l by lia. destruct (Z.ltb_spec n 255); [|lia]. rewrite wrap_id by (unfold fits; lia).
    unfold OD_AUTH_ABUSE_THRESHOLD. destruct (Z.ltb_spec (n + 1) 10) as [Hlt'|Hge].
    + split; [|by split]. split; unfold OD_AUTH_ABUSE_THRESHOLD; cbn [d_abuse set_abuse drop_pending reject_run dwell_until].
      * symmetry. apply Z.leb_gt. lia.
      * lia.
      * done.
      * lia.
    + set (d1 := set_abuse _ d). pose proof (ask_clock d1) as Hc. destruct (ask od_hal_uptime_ms d1) as [now d2].
      destruct Hc as (-> & _ & _ & Hs). assert (n = 9) as -> by lia. split.
      * split; try done. intros _. exists (uptime (env d)). destruct Hs as (_ & _ & _ & Hs). split; [by split|].
        cbn [abuse_deadline d_abuse set_abuse]. unfold wrap. change (env d1) with (env d). by rewrite Zplus_mod_idemp_l.
      * destruct Hs as (H1' & H2' & H3' & H4'). by split.
Qed.

Lemma reset_counted t0 d : counted 0 t0 (resetAuthAbuseCounter d) /\ same_owner d (resetAuthAbuseCounter d).
Proof. split; [by split|]. split; [exact (fun H => H)|]. split; [done|]. split; [done|]. apply Z.le_refl. Qed.

(** A stamp of the owner's activity. *)
Lemma stamp_same d :
  let '(l, e) := linkStampOwnerCommand (d_link d) (env d) in
  let d' := set_link l (put_env e d) in d_abuse d' = d_abuse d /\ same_owner d d'.
Proof.
  unfold linkStampOwnerCommand. pose proof (law_clock (env d)) as Hc. destruct (od_hal_uptime_ms (env d)) as [now e].
  destruct Hc as [_ [Hc _]]. split; [done|]. split; [exact (fun H => H)|]. split; [done|]. split; [done|exact Hc].
Qed.

Lemma counted_later n t0 d d' : counted n t0 d -> d_abuse d' = d_abuse d -> uptime (env d) <= uptime (env d') -> counted n t0 d'.
Proof.
  intros [Hp Hr Hw Hd] Ha Ht. split; rewrite Ha; try done. intros Hn. destruct (Hd Hn) as (t & Htt & He). exists t. split; [lia|done].
Qed.

(** One frame of the owner, over BLE. *)
Lemma frame_counted rp o os t0 d :
  rp_origin rp = OD_ORIGIN_BLE -> rp_tag rp = s_ownerWord (d_link d) -> rp_tag rp <> 0 -> t0 <= uptime (env d) ->
  counted (refusals os) t0 d ->
  counted (refusals (os ++ [o])) t0 (od_core_frame_done (Some rp) o d) /\ same_owner d (od_core_frame_done (Some rp) o d).
Proof.
  intros Hb Ht Hnz Ht0 Hc. unfold od_core_frame_done. unfold linkIsOwnerWord, linkOwnerWord. rewrite Ht, Z.eqb_refl, <- Ht.
  destruct (Z.eqb_spec (rp_tag rp) 0) as [|_]; [done|]. cbn [negb andb].
  set (d1 := if stamp_activity _ then _ else d).
  assert (Hd1 : d_abuse d1 = d_abuse d /\ same_owner d d1).
  { subst d1. destruct (stamp_activity _); [|done]. pose proof (stamp_same d) as Hs.
    destruct (linkStampOwnerCommand (d_link d) (env d)) as [l e]. cbv zeta in Hs. set (d2 := set_link l (put_env e d)) in *.
    pose proof (ask_clock d2) as Hk. destruct (ask od_hal_uptime_ms d2) as [now d3]. destruct Hk as (_ & Ha & _ & Hk).
    destruct Hs as [Hs1 Hs2]. split; [exact (eq_trans Ha Hs1)|]. etransitivity; [exact Hs2|]. etransitivity; [exact Hk|].
    split; [exact (fun H => H)|]. split; [done|]. split; [done|]. apply Z.le_refl. }
  clearbody d1. destruct Hd1 as [Ha Hd1]. rewrite bool_decide_true by done. cbn [negb].
  assert (Hc1 : counted (refusals os) t0 d1) by (apply (counted_later _ _ d); [done..|apply Hd1]).
  assert (Ht1 : t0 <= uptime (env d1)) by (destruct Hd1 as (_ & _ & _ & Hd1); lia).
  unfold refusals in *. rewrite foldl_snoc. fold (refusals os) in *. pose proof (refusals_nonneg os) as Hn.
  destruct (reset_counted t0 d1) as [Hr Hrs]. destruct (advance_counted _ t0 d1 Hn Ht1 Hc1) as [Hv Hvs].
  destruct o; cbn [od_frame_policy reset_abuse increment_abuse]; (split; [assumption|]);
    first [assumption | by (etransitivity; [exact Hd1|])].
Qed.

Lemma frames_counted rp os d :
  rp_origin rp = OD_ORIGIN_BLE -> rp_tag rp = s_ownerWord (d_link d) -> rp_tag rp <> 0 -> d_abuse d = abuse_zero ->
  counted (refusals os) (uptime (env d)) (frames rp os d) /\ same_owner d (frames rp os d).
Proof.
  intros Hb Ht Hnz Ha. induction os as [|o os [IHc IHs]] using rev_ind.
  - split; [|done]. cbn [frames foldl refusals]. split; by try rewrite Ha.
  - unfold frames in *. rewrite foldl_snoc. pose proof IHs as (_ & Hw & _ & Hu).
    destruct (frame_counted rp o os (uptime (env d)) (foldl (fun d o => od_core_frame_done (Some rp) o d) d os)) as [Hc Hs]; try done.
    { congruence. }
    split; [exact Hc|]. by etransitivity.
Qed.

(** Draining the replies. *)
Lemma drain_spec d :
  device_ok d -> exists d', drain d = Some d' /\ device_ok d' /\ spared d d' /\ d_abuse d' = d_abuse d.
Proof.
  intros (Ht & Hr & Hg & Hx & Hw). unfold drain.
  destruct (TxQueue.process_ok (w_txq (d_world d)) (env d) Hr) as (q & e & n & -> & Hr' & _ & _ & Hg' & _).
  cbn [mbind option_bind]. eexists. split; [done|]. split; [|done].
  split; [exact Ht|]. split; [exact Hr'|]. split; [|by split]. by rewrite <- Hg' in Hg.
Qed.

Lemma drain_frame d d' : drain d = Some d' -> epdRefreshInProgress d' = epdRefreshInProgress d.
Proof. unfold drain. destruct (TxQueue.od_txq_process _ _) as [[[q e] n]|]; [|done]. by intros [= <-]. Qed.

(** The drop is decided: what a pass keeps until it drops. *)
Definition dropping (deadline : Z) d : Prop :=
  drop_pending (d_abuse d) = true /\ abuse_deadline (d_abuse d) = deadline /\ epdRefreshInProgress d = false.

Lemma spared_trans d1 d2 d3 : spared d1 d2 -> spared d2 d3 -> spared d1 d3.
Proof. unfold spared. intros. intuition congruence. Qed.

Lemma choose_dwell_spec id deadline d :
  device_ok d -> dropping deadline d ->
  device_ok (choose_dwell id d) /\ spared d (choose_dwell id d) /\ dropping deadline (choose_dwell id d).
Proof.
  intros Hok Hd. unfold choose_dwell, ask. destruct (_ && _); [|done].
  destruct (connIntervalMs _ _) as [ms e]. destruct (od_hal_uptime_ms _) as [now e']. done.
Qed.

(** One pass of a pending drop. *)
Lemma pass_spec t d :
  device_ok d -> dropping (u32 (t + 500)) d -> who (linkOwnerId (d_link d)) = OWNER_BLE ->
  exists d1 d2, drain d = Some d1 /\ serviceBleAuthAbuseDisconnect d = Some d2 /\ device_ok d2 /\
    (ended d d2 /\ d_abuse d2 = abuse_zero \/
     spared d d2 /\ dropping (u32 (t + 500)) d2 /\ ~ (t + 500 <= uptime (env d1) < t + 500 + 2 ^ 31)).
Proof.
  intros Hok (Hp & Hd & Hr) Hw. unfold serviceBleAuthAbuseDisconnect. rewrite Hp, Hr, Hw. cbn [negb Z.eqb OWNER_BLE Pos.eqb].
  destruct (drain_spec d Hok) as (d1 & Hdr & Hok1 & Hs1 & Ha1). pose proof (drain_frame d d1 Hdr) as Hfr. exists d1. rewrite Hdr.
  cbn [mbind option_bind]. pose proof (ask_clock d1) as Hc. destruct (ask od_hal_uptime_ms d1) as [now d2] eqn:Ed2.
  destruct Hc as (-> & Ha2 & _ & Hs2). assert (Hsp2 : spared d d2).
  { apply (spared_trans d d1); [done|]. unfold ask in Ed2. destruct (od_hal_uptime_ms (env d1)). by injection Ed2 as _ <-. }
  assert (Hok2 : device_ok d2) by by apply Hs2.
  assert (Hdr2 : dropping (u32 (t + 500)) d2).
  { destruct Hs2 as (_ & _ & Hr2 & _). split; [by rewrite Ha2, Ha1|]. split; [by rewrite Ha2, Ha1|]. rewrite Hr2. by rewrite Hfr. }
  set (id := linkOwnerId (d_link d)) in *. destruct (choose_dwell_spec id _ d2 Hok2 Hdr2) as (Hok3 & Hsp3 & Hdr3).
  pose proof (spared_trans _ _ _ Hsp2 Hsp3) as Hsp. set (d3 := choose_dwell id d2) in *.
  assert (Hlast : exists b d4, (if negb (dwell_until (d_abuse d3) =? 0)
      then let '(now, d) := ask od_hal_uptime_ms d3 in (reached now (dwell_until (d_abuse d)), d) else (false, d3)) = (b, d4) /\
      device_ok d4 /\ spared d d4 /\ dropping (u32 (t + 500)) d4).
  { destruct (negb _); [|by exists false, d3]. unfold ask. destruct (od_hal_uptime_ms (env d3)) as [n e].
    exists (reached n (dwell_until (d_abuse d3))), (put_env e d3). done. }
  destruct Hlast as (dwelled & d4 & -> & Hok4 & Hsp4 & Hdr4). destruct Hdr2 as (_ & -> & _).
  assert (Hend : exists d5, abortToKnownState true id (resetAuthAbuseCounter d4) = Some d5 /\ device_ok d5 /\ ended d d5).
  { destruct Hsp4 as (_ & _ & _ & _ & Hse & _ & Has & _ & Hli). by apply abort_as. }
  assert (Hwait : reached (u32 (uptime (env d1))) (u32 (t + 500)) = false ->
    spared d d4 /\ dropping (u32 (t + 500)) d4 /\ ~ (t + 500 <= uptime (env d1) < t + 500 + 2 ^ 31)).
  { intros Hre. split; [done|]. split; [done|]. intros Hin. rewrite reached_iff in Hre by lia. apply Z.leb_gt in Hre. lia. }
  destruct (reached (u32 (uptime (env d1))) (u32 (t + 500))) eqn:Hre; cbn [negb andb].
  - destruct Hend as (d5 & Hd5 & Hok5 & He). exists d5. split; [done|]. split; [done|]. split; [done|]. left. split; [done|]. apply He.
  - destruct dwelled; cbn [negb]; [destruct (RxQueue.od_rxq_pending (d_rxq d4))|].
    + exists d4. split; [done|]. split; [done|]. split; [done|]. right. by apply Hwait.
    + destruct Hend as (d5 & Hd5 & Hok5 & He). exists d5. split; [done|]. split; [done|]. split; [done|]. left. split; [done|]. apply He.
    + exists d4. split; [done|]. split; [done|]. split; [done|]. right. by apply Hwait.
Qed.

(** The passes of the loop, with what happened to the world before each. *)
Fixpoint passes (between : list (E -> E)) d : option (device E) :=
  match between with
  | [] => Some d
  | f :: fs => d ← serviceBleAuthAbuseDisconnect (put_env (f (env d)) d); passes fs d
  end.

(** What holds after any number of passes that began at [d0]. *)
Definition after_passes (deadline : Z) d0 d : Prop :=
  device_ok d /\ (ended d0 d /\ d_abuse d = abuse_zero \/ spared d0 d /\ dropping deadline d).

Lemma ended_env e d0 d : ended d0 d -> ended d0 (put_env e d).
Proof. intros [[] Hw]. split; [by split|exact Hw]. Qed.

Lemma ended_from d0 d d' : spared d0 d -> ended d d' -> ended d0 d'.
Proof.
  intros (_ & _ & _ & _ & Hs & _ & Ha & _ & Hl) [[] Hw]. split; [split; try done; congruence|]. by rewrite Hw, Hl.
Qed.

(** One more pass. *)
Lemma pass_after t f d0 d :
  who (linkOwnerId (d_link d0)) = OWNER_BLE -> after_passes (u32 (t + 500)) d0 d ->
  exists d', serviceBleAuthAbuseDisconnect (put_env (f (env d)) d) = Some d' /\ after_passes (u32 (t + 500)) d0 d' /\
    (ended d0 d' \/
     spared d0 d' /\ exists d1, drain (put_env (f (env d)) d) = Some d1 /\ ~ (t + 500 <= uptime (env d1) < t + 500 + 2 ^ 31)).
Proof.
  intros Hw [Hok [[He Ha]|[Hs Hd]]].
  - exists (put_env (f (env d)) d). unfold serviceBleAuthAbuseDisconnect. change (d_abuse (put_env (f (env d)) d)) with (d_abuse d).
    rewrite Ha. pose proof (ended_env (f (env d)) d0 d He) as He'. split; [done|]. split; [|by left]. split; [exact Hok|]. by left.
  - set (dk := put_env (f (env d)) d). assert (Hsk : spared d0 dk) by exact Hs.
    assert (Hwk : who (linkOwnerId (d_link dk)) = OWNER_BLE).
    { destruct Hs as (_ & _ & _ & _ & _ & _ & _ & _ & Hl). change (d_link dk) with (d_link d). by rewrite Hl. }
    destruct (pass_spec t dk Hok Hd Hwk) as (d1 & d2 & Hdr & Hsv & Hok2 & [[He Ha]|(Hs2 & Hd2 & Hn)]); exists d2; (split; [done|]).
    + pose proof (ended_from _ _ _ Hsk He). split; [split; [done|by left]|by left].
    + pose proof (spared_trans _ _ _ Hsk Hs2). split; [split; [done|by right]|]. right. split; [done|]. by exists d1.
Qed.

Lemma passes_after t fs d0 d :
  who (linkOwnerId (d_link d0)) = OWNER_BLE -> after_passes (u32 (t + 500)) d0 d ->
  exists d', passes fs d = Some d' /\ after_passes (u32 (t + 500)) d0 d'.
Proof.
  intros Hw. revert d. induction fs as [|f fs IH]; intros d Hd; [by exists d|]. cbn [passes].
  destruct (pass_after t f d0 d Hw Hd) as (d1 & -> & Hd1 & _). by apply IH.
Qed.

Lemma passes_app fs gs d : passes (fs ++ gs) d = d' ← passes fs d; passes gs d'.
Proof. revert d. induction fs as [|f fs IH]; intros d; [done|]. cbn [app passes]. destruct (serviceBleAuthAbuseDisconnect _); [apply IH|done]. Qed.

(** With fewer refusals, nothing is dropped. *)
Lemma passes_quiet fs d : drop_pending (d_abuse d) = false -> exists e, passes fs d = Some (put_env e d).
Proof.
  revert d. induction fs as [|f fs IH]; intros d Hp; [exists (env d); by rewrite put_env_same|]. cbn [passes].
  unfold serviceBleAuthAbuseDisconnect. change (d_abuse (put_env (f (env d)) d)) with (d_abuse d). rewrite Hp. cbn [negb mbind option_bind].
  destruct (IH (put_env (f (env d)) d) Hp) as [e He]. exists e. exact He.
Qed.

(** C31. A client that cannot authenticate does not keep the device: whatever frames the
    owner sends over BLE, the drop is decided exactly when ten of them were refused with
    no accepted frame and no authentication in between; then every later pass of the
    loop returns, and the first one that finds, after draining the replies, that 500 ms
    have passed since the tenth refusal leaves nothing of the session and the slot free,
    whatever the radio does with the replies; and with fewer refusals no pass touches
    anything. *)
Theorem refuser_dropped (rp : od_reply_t) (os : list od_frame_outcome) (between : list (E -> E)) (f : E -> E) d :
  device_ok d -> rp_origin rp = OD_ORIGIN_BLE -> rp_tag rp = s_ownerWord (d_link d) ->
  who (linkOwnerId (d_link d)) = OWNER_BLE -> d_abuse d = abuse_zero -> epdRefreshInProgress d = false ->
  let d1 := frames rp os d in
  (refusals os < 10 -> exists e, passes (between ++ [f]) d1 = Some (put_env e d1)) /\
  (10 <= refusals os -> exists t d2 d3,
     uptime (env d) <= t <= uptime (env d1) /\
     passes between d1 = Some d2 /\ passes (between ++ [f]) d1 = Some d3 /\ device_ok d3 /\
     (ended d1 d3 \/
      spared d1 d3 /\ exists d2', drain (put_env (f (env d2)) d2) = Some d2' /\
                        ~ (t + 500 <= uptime (env d2') < t + 500 + 2 ^ 31))).
Proof.
  intros Hok Hb Ht Hw Ha Hr. assert (Hnz : rp_tag rp <> 0) by (rewrite Ht; intros Hz; unfold linkOwnerId, linkOwnerWord in Hw; by rewrite Hz in Hw).
  destruct (frames_counted rp os d Hb Ht Hnz Ha) as [[Hp _ _ Hdl] (Hok1 & Hw1 & Hr1 & _)]. cbv zeta. set (d1 := frames rp os d) in *.
  unfold OD_AUTH_ABUSE_THRESHOLD in Hp. split.
  - intros Hlt. apply passes_quiet. rewrite Hp. by apply Z.leb_gt.
  - intros Hge. destruct (Hdl Hge) as (t & Htt & Hdd). exists t.
    assert (Hwd : who (linkOwnerId (d_link d1)) = OWNER_BLE) by (unfold linkOwnerId, linkOwnerWord in *; by rewrite Hw1).
    assert (Hstart : after_passes (u32 (t + 500)) d1 d1).
    { split; [by apply Hok1|]. right. split; [done|]. split; [rewrite Hp; by apply Z.leb_le|]. split; [exact Hdd|congruence]. }
    destruct (passes_after t between d1 d1 Hwd Hstart) as (d2 & Hd2 & H2').
    destruct (pass_after t f d1 d2 Hwd H2') as (d3 & Hd3 & [Hok3 _] & Hres). exists d2, d3. split; [done|]. split; [done|].
    split; [rewrite passes_app, Hd2; cbn [mbind option_bind passes]; by rewrite Hd3|]. by split.
Qed.
End Teardown.

(** ** A concrete target: the world is the clock.  Link 4 is up until the
    clock shows 200020; the rest answers nothing. *)

#[local] Instance demo_clock : Uptime Z := {| od_hal_uptime_ms e := (u32 e, e) |}.

#[local] Instance demo_stack : BleStack Z := {|
  OD_BLE_MAX_INSTANCES := 3; OPENDISPLAY_HAS_WIFI := false;
  instance_word e i := (if (i =? 1)%nat && (e <? 200020) then linkPackWord OWNER_BLE 4 1 else 0, e);
  s_ready e := (true, e); od_ble_disconnect e _ := (true, e); od_ble_conn_interval_units e _ := (0, e);
  od_hal_delay_ms e n := e + n; wifiLanDropOwnedSocket e := e; wifiLanClientConnected e := (false, e);
|}.

#[local] Instance demo_laws : BleLaws Z id.
Proof. split; intros; unfold CALL_MS; cbn; repeat split; lia. Qed.

#[local] Instance demo_i2c : I2c.I2c Z := {|
  I2c.od_hal_i2c_probe e _ _ := (I2c.OD_HAL_I2C_EIO, e); I2c.od_hal_i2c_write e _ _ _ := (I2c.OD_HAL_I2C_EIO, e);
  I2c.od_hal_i2c_read e _ _ _ := (I2c.OD_HAL_I2C_EIO, [], e);
  I2c.od_hal_i2c_write_read e _ _ _ _ := (I2c.OD_HAL_I2C_EIO, [], e);
|}.

#[local] Instance demo_touch : Touch.TouchApp Z := {|
  Touch.od_touch_app_delay_ms e n := e + n; Touch.od_touch_app_delay_us e _ := e;
  Touch.od_touch_app_gpio_set_mode_output e _ := e; Touch.od_touch_app_gpio_config_input e _ _ := e;
  Touch.od_touch_app_gpio_write e _ _ := e; Touch.od_touch_app_gpio_read e _ := (1, e);
  Touch.od_touch_app_gpio_attach_int e _ _ := (true, e); Touch.od_touch_app_gpio_detach_int e _ := e;
  Touch.od_touch_app_bus_prepare e _ := (true, e); Touch.od_touch_app_bus_invalidate e := e;
  Touch.od_touch_app_irq_consume e _ := e; Touch.od_touch_app_msd_publish e := e; Touch.od_adv_app_boost e := e;
|}.

#[local] Instance demo_radio : Radio Z := {
  od_hal_radio_send e _ _ _ := (OD_RADIO_RETRY, e); od_hal_radio_tag_is_live e _ _ := (true, e); od_txq_app_dropped e _ _ _ := e;
}.

#[local] Instance demo_crypto : Crypto Z := {
  od_hal_crypto_key_set e _ _ := (OD_HAL_CRYPTO_OK, e); od_hal_crypto_key_clear e _ := e;
  od_hal_crypto_ccm_encrypt e _ _ _ _ := (OD_HAL_CRYPTO_ERROR, [], e);
  od_hal_crypto_ccm_decrypt e _ _ _ _ := (OD_HAL_CRYPTO_ERROR, [], e);
  od_hal_crypto_cmac e _ _ := (OD_HAL_CRYPTO_ERROR, [], e); od_hal_crypto_aes_ecb e _ _ := (OD_HAL_CRYPTO_ERROR, [], e);
  od_hal_crypto_random e _ := (OD_HAL_CRYPTO_ERROR, [], e);
}.

#[local] Instance demo_session : SessionApp Z := {
  od_session_app_security _ := None; od_session_app_now_ms e := (u32 e, e); od_session_app_device_id _ := [];
  od_session_app_report e _ _ _ := e;
}.

#[local] Instance demo_command : CommandApp Z := {
  OD_CAP_PIPE := true; od_cmd_allow_unauthenticated e _ := (false, e); od_cmd_mutates_config e _ := (false, e);
  od_config_read_active _ := false;
}.

#[local] Instance demo_inflater : Inflater Z := {
  od_inflate_app_reset e _ := e; od_inflate_app_push e _ _ := (OD_ZLIB_STATUS_NEEDS_INPUT, e);
  od_inflate_app_poll e _ := (OD_ZLIB_STATUS_NEEDS_INPUT, [], e); od_inflate_app_error _ := String.EmptyString;
  od_inflate_app_output_count _ := 0;
}.

#[local] Instance demo_progress : InflaterProgress Z.
Proof. intros s s' n out _ [=]. Qed.

#[local] Instance demo_panel : XferApp Z := {
  OD_CAP_PARTIAL := true; OD_XFER_DIRECT_AUTO_END := false; od_xfer_app_prepare_start e := e;
  od_xfer_app_panel_info e := (None, e); od_xfer_app_begin_full e _ := (false, e);
  od_xfer_app_begin_partial e _ _ _ _ _ := (false, e); od_xfer_app_write e _ _ := (0, e);
  od_xfer_app_inflate_scratch _ := (false, 0); od_xfer_app_abort e _ := e;
  od_xfer_app_before_refresh w _ := (OD_XFER_BARRIER_PROCEED, w); od_xfer_app_barrier_abort e _ := e;
  od_xfer_app_refresh e _ := (false, false, e); od_xfer_app_displayed_etag _ := 0;
  od_xfer_app_set_displayed_etag e _ := e; od_xfer_app_now_ms e := (u32 e, e);
}.

#[local] Instance demo_panel_laws : XferAppLaws Z.
Proof. split; [done|]. intros e. vm_compute. congruence. Qed.

#[local] Existing Instance TransferSession.TransferSession.toy_pipe_config.

(** Owned by link 4 since [since], at time [now]; a frame waits, touch is suspended
    twice. *)
Definition demo_device (since now : Z) : device Z :=
  let w := linkPackWord OWNER_BLE 4 1 in
  {| d_core := {| Core.k_transfer := TransferSession.TransferSession.power_on
                    {| w_env := now; w_txq := TxQueue.txq_init; w_session := Session.zero_session 0 |}
                    {| TxQueue.remaining := 0; TxQueue.gen := 0 |};
                  Core.k_nfc := Nfc.Nfc.nfc_zero; Core.k_reader := ConfigRead.reader_zero |};
     d_rxq := RxQueue.demo_rxq; g_configAsm := ConfigAsm.Build_od_config_asm true 300 200 1 [];
     d_touch := Touch.set_suspend 2 (Touch.at_boot [] now); s_next_due_ms := 0; globalConfig := Config.od_config_reset;
     d_abuse := abuse_zero;
     d_link := {| s_ownerWord := w; s_epochCounter := 1; s_baselineMs := since; s_baselineOwner := w |};
     epdRefreshInProgress := false; s_disconnectCleanupPending := false; s_cleanupForOwner := 0 |}.

Lemma demo_device_ok since now : device_ok (demo_device since now).
Proof.
  split; [apply TransferSession.TransferSession.power_on_tinv|]. split; [exact Dispatch.toy_ring_ok|].
  split; [by split|]. split; [exact RxQueue.demo_rxq_ok|by split].
Qed.



Definition uptime_of (d : device Z) : Z := env d.

(** Ten refusals at time 7; a pass at once, and one at 2000. *)
Definition refused_frames : list od_frame_outcome := OD_FRAME_ACCEPTED :: replicate 10 OD_FRAME_AUTH_REQUIRED.

Definition refused_rp : od_reply_t := {| rp_origin := OD_ORIGIN_BLE; rp_tag := linkPackWord OWNER_BLE 4 1 |}.

Lemma refuser_dropped_witness :
  exists d3, passes [fun _ => 100; fun _ => 2000] (frames refused_rp refused_frames (demo_device 0 7)) = Some d3 /\
    s_ownerWord (d_link d3) = 0.
Proof.
  destruct (refuser_dropped id refused_rp refused_frames [fun _ => 100] (fun _ => 2000) (demo_device 0 7) (demo_device_ok _ _))
    as [_ Hd]; try reflexivity.
  destruct Hd as (t & d2 & d3 & Ht & H2 & H3 & _ & Hres); [vm_compute; congruence|].
  assert (Hu : uptime_of (frames refused_rp refused_frames (demo_device 0 7)) = 7 /\
    option_map uptime_of (d ← passes [fun _ => 100] (frames refused_rp refused_frames (demo_device 0 7)); drain (put_env 2000 d)) = Some 2000 /\
    (if LinkRace.held (s_ownerWord (d_link (frames refused_rp refused_frames (demo_device 0 7)))) then 0 else 1) = 0)
    by (vm_compute; repeat split; reflexivity).
  destruct Hu as (Hu & Hdn & Hh). unfold uptime_of in *. cbv beta delta [id] in Ht, Hres.
  exists d3. split; [exact H3|]. destruct Hres as [[_ He]|(_ & d2' & Hdr & Hn)].
  - rewrite He. by destruct (LinkRace.held _).
  - exfalso. apply Hn. rewrite H2 in Hdn. cbn [mbind option_bind] in Hdn. rewrite Hdr in Hdn. cbn [option_map] in Hdn.
    injection Hdn as ->. rewrite Hu in Ht. change (2 ^ 31) with 2147483648. clear -Ht. change (env (demo_device 0 7)) with 7 in Ht. lia.
Defined.

End SessionGuardProofs.
